(* ===== verification/_CoqProject ===== *)
-Q . S2P
Prelude.v
DnsTypes.v
DnsName.v
DnsNameRt.v
DnsRrs.v
DnsRrsSpec.v
DnsRecord.v
DnsAddSpec.v
DnsView.v
DnsNestedSpec.v
DnsDecode.v
DnsDecodeSpec.v
DnsStore.v
DnsUpdate.v
DnsEncode.v
DnsHeadRt.v
DnsWire.v
DnsEncodeSpec.v
DnsEncodeMsg.v
DnsMessage.v
DnsFindings.v
TimerWheel.v
TimerWheelSpec.v
TimerWheelOps.v
TimerWheelMachine.v
TimerWheelRunner.v
Timer.v
Counting.v
DnsCache.v
DnsCacheSpec.v
DnsCacheRefs.v
DnsCacheOps.v
DnsCacheUpdate.v
DnsCacheMachine.v
DnsCacheLru.v
DnsCacheCorrect.v
DnsCacheFile.v
DnsCacheLoad.v
DnsCachePrint.v
Hpack.v
HpackHuffman.v
HpackSpec.v
HpackTable.v
HpackHeaders.v
HpackDecode.v
HpackCorrect.v
Http2Types.v
Http2.v
Http2Send.v
Http2Body.v
Http2Frames.v
Http2Correct.v
Http2Findings.v
Http2Inv.v
Http2Safe.v
Http2SafeIn.v
Http2SafeFrames.v
Http2SafeConn.v
Http2SafeApi.v
Http2SafeOut.v
Http2Closed.v
Http2Calls.v
HttpHead.v
Http1.v
Http1Safe.v
Http1Rt.v
Http1Parse.v
Http1Claims.v
Art.v
ArtNode.v
ArtTree.v
ArtUpdate.v
ArtWalk.v
ArtClaims.v
DomainRule.v
DomainSpec.v
DomainClaims.v
