(* ===== verification/Prelude.v ===== *)
(** * Verification of smartdns

    smartdns is a DNS server written in C (under src/src).  This development
    models its core in Rocq and proves it correct.  The C functions keep their
    names; every definition that models code is named after the function or
    structure it translates.

    ** How C is modelled

    - A buffer is a [list Z], one [Z] per byte.  Reads and writes are
      bounds-checked; an access outside the buffer is undefined behaviour.
    - A C function that changes state and may fail is a function of the monad
      [M S A := S -> res S A].  A [res] is [Ok] (new state and value), [Fail] (the
      error return; it carries the state, because a failing C function keeps
      the side effects it already made), [UB] (undefined behaviour) or [Diverged]
      (the fuel of a loop ran out).
    - [wp m s Q E] is the weakest precondition: [Q] after [Ok], [E] after [Fail];
      [UB] and [Diverged] satisfy nothing, so every [wp] fact is also a
      memory-safety and a termination fact.
    - Machine integers are [Z] with the wrap-around written out ([u8], [u16],
      [u32], [s32]).  Structures that the C code overlays on memory (the record
      headers inside a packet) use the little-endian LP64 layout: a packet
      structure of 152 bytes and record headers of 16 bytes.

    ** Parts and files

    DNS messages (src/dns.c, src/include/smartdns/dns.h):
    - [DnsTypes]: constants, structures, the reading and writing context
      ([dns_context]) and its primitive reads and writes;
    - [DnsName]: names: reading a possibly compressed name
      ([_dns_get_domain_from_packet]), the compression dictionary, writing a
      name ([_dns_encode_domain]); the grammar of names the code accepts ([name_at])
      and that of RFC 1035 ([rfc_name]); [DnsNameRt]: what is written is read back,
      unless hashes of the dictionary collide;
    - [DnsRrs]: the record lists threaded through a packet's data area;
      [DnsRrsSpec]: their representation invariant [pkt_rep];
    - [DnsRecord]: the record types, as functions over raw records;
    - [DnsAddSpec], [DnsView]: adding and reading records; [pkt_view] is the
      abstract contract, a packet is the list of the records added to it;
    - [DnsNestedSpec]: records built step by step (SVCB and HTTPS);
    - [DnsDecode], [DnsDecodeSpec]: [dns_decode] and its safety on every input;
    - [DnsStore]: the contract of the packet store, from [dns_packet_init] on;
    - [DnsUpdate]: [dns_packet_update], which patches a message in place;
    - [DnsEncode], [DnsHeadRt], [DnsWire], [DnsEncodeSpec], [DnsEncodeMsg]:
      [dns_encode], the header, the wire form of records and what the encoder
      writes; [DnsMessage]: encoding and decoding are inverse;
    - [DnsFindings]: inputs on which the code does not do what it means to.

    Timers (src/lib/timer_wheel.c, src/timer.c):
    - [TimerWheel]: the five wheels of lists, their cascades, a run of the due
      timers as its critical sections ([run_timers_start], [run_timers_next]: the
      lock is released while a timer is called), and a round of the timer thread;
    - [TimerWheelSpec]: the abstract schedule (when each timer is due) and the
      representation invariant; [TimerWheelOps]: cascades, runs and
      each operation against the schedule; [TimerWheelMachine]: all interleavings
      of the operations; [TimerWheelRunner]: the sleeps of the thread;
    - [Timer]: the interface [TimerService] and its laws [TimerLaws], by which the
      rest of the program uses the wheel, and the wheel as an instance.

    The DNS cache (src/dns_cache.c), over any [TimerService]:
    - [DnsCache]: the entries and their data on a heap, with their reference
      counts, the list in order of last use, the hash table and every operation;
    - [Counting]: exact reference counts, in general;
    - [DnsCacheSpec]: the invariant: counts are the numbers of references;
      [DnsCacheRefs], [DnsCacheOps], [DnsCacheUpdate]: every operation keeps it;
    - [DnsCacheMachine]: interleavings of the calls of threads, an insertion as its two
      critical sections, with the references each caller holds and those that
      [dns_cache_expired] loses ([crun]);
    - [DnsCacheLru]: the abstract LRU cache and the simulation;
      [DnsCacheCorrect]: the theorems and examples on the wheel;
    - [DnsCacheFile]: the cache file, byte by byte, with failing reads and writes;
      [DnsCacheLoad]: what is loaded is what was saved;
    - [DnsCachePrint]: the printing of the records of a cache file.

    HPACK, the header compression of HTTP/2 (src/http_parse/hpack.c):
    - [Hpack]: integers, strings, the Huffman code, the static and the dynamic
      table, the encoder and the decoder;
    - [HpackHuffman]: the Huffman code of RFC 7541, the canonical code with its lengths
      ([rfc_code]), and the decoder against it; [HpackSpec]: integers and strings; [HpackTable]: the
      dynamic table of RFC 7541; [HpackHeaders]: the bytes of a field and reading
      them back; [HpackDecode]: the decoder on arbitrary bytes;
      [HpackCorrect]: the theorems.

    HTTP/2 connections (src/http_parse/http2.c):
    - [Http2Types]: a connection, its streams on a heap, and the transport below it
      as a script of answers; [Http2]: every operation on them: frames out and in,
      streams, flow control, settings, header blocks, polling;
    - [Http2Send]: the bytes on the wire; [Http2Body]: bodies, windows and queues;
      [Http2Frames]: frames as values and their bytes; [Http2Correct]: the theorems
      on them; [Http2Findings]: runs that go wrong;
    - [Http2Inv]: the invariant of a connection; every operation keeps it:
      [Http2Safe] (sending, streams), [Http2SafeIn] (bodies), [Http2SafeFrames]
      (frames of the peer), [Http2SafeConn] (the loop that reads frames),
      [Http2SafeApi], [Http2SafeOut] (the calls of the user),
      [Http2Closed] (streams that outlive their connection); [Http2Calls]: any calls
      in any order ([reach]), and the theorems.

    HTTP/1 messages (src/http_parse/http_parse.c, src/http_parse/http1_parse.c):
    - [HttpHead]: a head with its buffer, fields and parameters; [Http1]: the parser,
      with chunked bodies, and the serializer;
    - [Http1Safe]: the parser on arbitrary input; [Http1Rt], [Http1Parse]: the text of a
      message and the parser on it;
      [Http1Claims]: the theorems, and messages that go wrong.

    The adaptive radix tree (src/lib/art.c), the index of the domain rules:
    - [Art]: the nodes of five sizes and every operation on the tree;
    - [ArtNode]: a node as a map from bytes to children, whatever its size; adding and
      removing a child, where nodes grow, shrink and collapse; [ArtTree]: the invariant,
      what a tree holds, and searching; [ArtUpdate]: inserting and deleting; [ArtWalk]:
      walks along a string and over all keys; [ArtClaims]: the tree as a finite map,
      and the theorems.

    Domain rules (src/dns_conf/domain_rule.c, src/dns_server/rules.c), on this tree:
    - [DomainRule]: the keys of names and of requests, and the walk that collects the
      rules of a request; [DomainSpec]: what the keys are, and the walk;
      [DomainClaims]: the theorems.

    ** What the theorems show

    - Refinement: the packet store implements a list of records
      ([packet_store_correct], [packet_store_room]); additions are atomic
      ([add_RAW_atomic], [svcb_build_atomic]).
    - Round trips: names ([encode_decode_name]), the header ([head_roundtrip])
      and whole messages ([message_roundtrip]).
    - Safety on arbitrary input: [dns_decode_safe], [dns_packet_update_safe],
      [get_domain_correct]; the last one also shows that every name of RFC 1035 with at
      most 32 pointers in a row is read, and what else is ([reserved_length_read]).
    - The timer wheel implements the schedule ([timer_wheel_refines]): a timer is
      called once, when it is due ([timer_called_on_time]); runs end
      ([run_timers_terminates]); the thread does not drift ([timer_work_no_drift],
      [deadline_correct]).
    - The cache is an LRU cache ([cache_refines_lru]); no interleaving uses freed
      memory ([cache_calls_safe]); the counts are the numbers of references and of the
      references that [dns_cache_expired] has lost ([cache_counts_exact]), and a flush
      frees everything but the entries lost that way ([cache_flush_frees]); the cache file is read back, and a file
      of which only a part was written gives the first of the entries
      ([cache_save_load]).
    - HPACK: the Huffman decoder accepts exactly the encodings of the code
      ([huffman_decode_exact]), the dynamic table is that of the RFC
      ([hpack_table_refines]), a block is read back with the same table at both
      ends ([hpack_block_roundtrip]), and no input breaks the decoder
      ([hpack_decode_safe]).
    - HTTP/2: whatever the transport takes at a time, the bytes are the frames in
      order ([http2_frames_in_order]); bodies obey both windows, and what cannot be
      sent waits and is sent later ([http2_write_body_flow],
      [http2_flush_sends_queue]).  From a new connection on, as long as no call has
      inflated a body to nothing ([inflates_something]; [http2_empty_inflate_hangs] is
      what happens then), no call is undefined on any input ([http2_calls_safe]),
      counts and windows are right and nothing leaks ([http2_invariant]).
    - HTTP/1: a message whose text says where its parts end ([message_good]: no HEAD,
      no empty values, no chunks, the right Content-Length) is read back after it is
      written ([http1_roundtrip]); the parser is defined on every input, in any pieces
      ([http1_parse_safe]).
    - The adaptive radix tree is a finite map ([art_refines_map]), and a walk visits the
      stored prefixes of a string ([art_walk_prefixes]).  A request gets the rules of
      the longest names that have one ([request_rules]), and a name stands for the
      domains it should ([domain_names]).
    - Errors in the code, in general: names with the same hash are taken for the same
      name ([dict_hash_collision]); a timer is left where it is because a delay is
      compared with a time ([tw_mod_timer_shortcut]); a retry of an expired entry sets
      no timer ([expired_retry_not_rearmed]) or loses a reference
      ([expired_retry_leaks]); the printing of a cached message leaves its buffer from
      1024 bytes on ([print_addresses_bounds]).  Single inputs that go wrong are in
      [DnsFindings], [Http2Findings], [Http1Claims], [ArtClaims], [DomainClaims],
      [cache_print_overflow] and [load_failure_loses_memory].

    ** Bounds and fuel

    - Reading a name: each of at most 33 pointers in a row, or a label that
      makes the output grow: [34 * size + 34] rounds ([DnsName.domain_fuel]).
      Other loops move a pointer forward over at most the bytes of the message
      or the packet; their fuel is that number of bytes.  The safety theorems
      show that no run ends in [Diverged].
    - Packets of at most 65535 bytes (the width of the offsets that link
      records); statements that involve compressed names assume 16384 bytes,
      the range of a compression pointer.
    - The timer wheel counts ticks up to 2^62 and takes delays of absolute value
      below 2^62 ([delay_ok]); a cascade moves a timer at most once per wheel.
    - The callers of a run hold references as a list ([crun]); the loop that makes
      room in the cache has the 33 rounds of the code.
    - HPACK integers take at most ten groups of seven bits; the 64-bit window of
      the Huffman decoder holds at most 13 codes; each field of a block is at least
      one byte.
    - Memory is there or not for a whole call of HPACK and HTTP/2 ([malloc_ok], a
      parameter of each call): an allocation that fails in the middle of a call, after
      others have succeeded, is not modelled.
    - An HTTP/2 buffer grows by at most 32 doublings, a send loop sends at least a
      byte per round, and every round but the first of the loop over the frames
      reads at least a byte ([reads_left]).  Bodies and header lists that are passed
      to it are less than 1 GiB; zlib is a parameter that makes progress when it
      returns [Z_OK] ([inflate_documented]).
    - An HTTP/1 head is parsed when the data leaves a byte of its buffer free; loops
      over it have the size of the buffer as fuel.
    - A loop down the radix tree has the height of the tree as fuel.  Keys have no zero
      bytes and one behind them; a buffer to search with is longer than every stored
      key (256 bytes in the program).
    - Statements that read names back ([message_roundtrip], [packet_store_correct],
      [encode_decode_name]) assume that the names in use do not collide under the
      dictionary hash ([hash_faithful]).  Messages are read back with questions whose name
      does not start with a hyphen and with plain, CNAME, PTR, SOA and SRV records
      ([sendable]); NS, SVCB and HTTPS records and EDNS options are not covered.

    ** Not modelled

    Sockets, threads, TLS, QUIC, files, logging, signals, plugins and netlink:
    they are input and output.  The configuration parser, HTTP/3 and the
    request handling of the server beyond its domain rules are further parts of
    the program that are not modelled.

    ** This file

    Shared by every file of the development: byte buffers, results and the
    monad, [wp] and its rules, big-endian (network order) and little-endian
    (host order) integers, the tactics and the hint database [cdb]. *)

From Stdlib Require Import ZArith Lia.
From stdpp Require Import base list numbers option.

#[global] Open Scope Z_scope.

(** ** Lengths *)

Definition Zlen {A} (l : list A) : Z := Z.of_nat (length l).

(** ** Byte buffers *)

(** [m[a]]. *)
Definition rd8 (m : list Z) (a : Z) : option Z :=
  if 0 <=? a then m !! Z.to_nat a else None.

(** The source of [memcpy(_, m + a, n)]. *)
Definition rd_bytes (m : list Z) (a n : Z) : option (list Z) :=
  if (0 <=? a) && (0 <=? n) && (a + n <=? Zlen m)
  then Some (take (Z.to_nat n) (drop (Z.to_nat a) m)) else None.

(** [memcpy(m + a, bs, |bs|)]. *)
Definition wr_bytes (m : list Z) (a : Z) (bs : list Z) : option (list Z) :=
  if (0 <=? a) && (a + Zlen bs <=? Zlen m)
  then Some (take (Z.to_nat a) m ++ bs ++ drop (Z.to_nat a + length bs) m) else None.

(** The bytes of the C string at the head of a buffer; [None] when no NUL
    byte ends it inside the buffer. *)
Fixpoint cstr (m : list Z) : option (list Z) :=
  match m with
  | [] => None
  | b :: m' => if b =? 0 then Some [] else (fun s => b :: s) <$> cstr m'
  end.

Definition cstr_at (m : list Z) (a : Z) : option (list Z) :=
  if 0 <=? a then cstr (drop (Z.to_nat a) m) else None.

(** The C string held by a buffer with these bytes followed by a NUL. *)
Fixpoint until_nul (m : list Z) : list Z :=
  match m with
  | [] => []
  | b :: m' => if b =? 0 then [] else b :: until_nul m'
  end.

Definition is_byte (b : Z) : Prop := 0 <= b < 256.

(** ** Integers in memory *)

Definition be16 (v : Z) : list Z := [Z.land (Z.shiftr v 8) 255; Z.land v 255].

Definition be32 (v : Z) : list Z :=
  [Z.land (Z.shiftr v 24) 255; Z.land (Z.shiftr v 16) 255;
   Z.land (Z.shiftr v 8) 255; Z.land v 255].

Definition le16 (v : Z) : list Z := [Z.land v 255; Z.land (Z.shiftr v 8) 255].

Definition le32 (v : Z) : list Z :=
  [Z.land v 255; Z.land (Z.shiftr v 8) 255;
   Z.land (Z.shiftr v 16) 255; Z.land (Z.shiftr v 24) 255].

Definition of_be (bs : list Z) : Z := fold_left (fun acc b => acc * 256 + b) bs 0.

Definition of_le (bs : list Z) : Z := foldr (fun b acc => b + 256 * acc) 0 bs.

(** Truncation to [unsigned char], [unsigned short], [unsigned int]. *)
Definition u8 (v : Z) : Z := v mod 256.
Definition u16 (v : Z) : Z := v mod 65536.
Definition u32 (v : Z) : Z := v mod 4294967296.
Definition u64 (v : Z) : Z := v mod 18446744073709551616.

(** Conversion of an [unsigned int] value to [int], and of a byte to the
    (signed) plain [char]. *)
Definition s32 (v : Z) : Z := let w := u32 v in if w <? 2147483648 then w else w - 4294967296.
Definition s8 (v : Z) : Z := let w := u8 v in if w <? 128 then w else w - 256.

(** ** The C result monad *)

Inductive res (S A : Type) : Type :=
| Ok (s : S) (a : A)
| Fail (s : S)
| UB
| Diverged.
Arguments Ok {S A} s a.
Arguments Fail {S A} s.
Arguments UB {S A}.
Arguments Diverged {S A}.

Definition M (S A : Type) : Type := S -> res S A.

Definition ret {S A} (a : A) : M S A := fun s => Ok s a.
Definition fail {S A} : M S A := fun s => Fail s.
Definition ub {S A} : M S A := fun _ => UB.
Definition diverge {S A} : M S A := fun _ => Diverged.

Definition bind {S A B} (m : M S A) (k : A -> M S B) : M S B := fun s =>
  match m s with
  | Ok s' a => k a s'
  | Fail s' => Fail s'
  | UB => UB
  | Diverged => Diverged
  end.

Definition get {S} : M S S := fun s => Ok s s.
Definition put {S} (s' : S) : M S unit := fun _ => Ok s' tt.
Definition modify {S} (f : S -> S) : M S unit := fun s => Ok (f s) tt.

(** [if (!b) return -1;] *)
Definition guard {S} (b : bool) : M S unit := fun s => if b then Ok s tt else Fail s.

(** A memory access: no value is undefined behaviour. *)
Definition access {S A} (o : option A) : M S A := fun s =>
  match o with Some a => Ok s a | None => UB end.

(** A call whose return code the caller looks at (or ignores). *)
Definition try {S A} (m : M S A) : M S (option A) := fun s =>
  match m s with
  | Ok s' a => Ok s' (Some a)
  | Fail s' => Ok s' None
  | UB => UB
  | Diverged => Diverged
  end.

(** Run a computation on a part of the state. *)
Definition zoom {S T A} (g : S -> T) (p : T -> S -> S) (m : M T A) : M S A := fun s =>
  match m (g s) with
  | Ok t a => Ok (p t s) a
  | Fail t => Fail (p t s)
  | UB => UB
  | Diverged => Diverged
  end.

(** Look up the result of a computation. *)
Definition res_val {S A} (r : res S A) : option A :=
  match r with Ok _ a => Some a | _ => None end.
Definition res_state {S A} (r : res S A) : option S :=
  match r with Ok s _ => Some s | Fail s => Some s | _ => None end.
Definition is_ub {S A} (r : res S A) : bool :=
  match r with UB => true | _ => false end.
Definition defined {S A} (r : res S A) : Prop :=
  match r with UB => False | Diverged => False | _ => True end.

Definition wp {S A} (m : M S A) (s : S) (Q : S -> A -> Prop) (E : S -> Prop) : Prop :=
  match m s with
  | Ok s' a => Q s' a
  | Fail s' => E s'
  | UB => False
  | Diverged => False
  end.

Arguments wp : simpl never.
Arguments bind : simpl never.
Arguments try : simpl never.
Arguments zoom : simpl never.
Arguments guard : simpl never.
Arguments access : simpl never.
Arguments ret : simpl never.
Arguments get : simpl never.
Arguments put : simpl never.
Arguments modify : simpl never.
Arguments be16 : simpl never.
Arguments be32 : simpl never.

Declare Scope c_scope.
Delimit Scope c_scope with c.
Notation "x <- m ;; k" := (bind m (fun x => k))
  (at level 100, m at next level, right associativity) : c_scope.
Notation "' p <- m ;; k" := (bind m (fun p => k))
  (at level 100, p pattern, m at next level, right associativity) : c_scope.
Notation "m ;; k" := (bind m (fun _ => k))
  (at level 100, right associativity) : c_scope.
#[global] Open Scope c_scope.

Create HintDb cdb.
Create Rewrite HintDb cdb.

(** ** Lengths and lookups *)

Lemma Zlen_nil {A} : Zlen (@nil A) = 0.
Proof. reflexivity. Qed.

Lemma Zlen_cons {A} (x : A) l : Zlen (x :: l) = 1 + Zlen l.
Proof. unfold Zlen. cbn [length]. lia. Qed.

Lemma Zlen_app {A} (l k : list A) : Zlen (l ++ k) = Zlen l + Zlen k.
Proof. unfold Zlen. rewrite length_app. lia. Qed.

Lemma Zlen_nonneg {A} (l : list A) : 0 <= Zlen l.
Proof. unfold Zlen. lia. Qed.

Lemma Zlen_0_nil {A} (l : list A) : Zlen l = 0 -> l = [].
Proof. destruct l; [done|]. rewrite Zlen_cons. pose proof (Zlen_nonneg l). lia. Qed.

#[export] Hint Rewrite @Zlen_nil @Zlen_cons @Zlen_app : cdb.
#[export] Hint Resolve Zlen_nonneg : cdb.

Lemma until_nul_len m : Zlen (until_nul m) <= Zlen m.
Proof.
  induction m as [|b m IH]; cbn; [done|]. destruct (b =? 0); rewrite !Zlen_cons; [|lia].
  change (Zlen []) with 0. pose proof (Zlen_nonneg m). lia.
Qed.

Lemma until_nul_Forall P m : Forall P m -> Forall P (until_nul m).
Proof. induction 1 as [|b m Hb Hm IH]; cbn; [done|]. destruct (b =? 0); by constructor. Qed.

Lemma until_nul_nonzero m : Forall (fun b => b <> 0) (until_nul m).
Proof. induction m as [|b m IH]; cbn; [done|]. destruct (Z.eqb_spec b 0); by constructor. Qed.

Lemma until_nul_id m : Forall (fun b => b <> 0) m -> until_nul m = m.
Proof. induction 1 as [|b m Hb Hm IH]; cbn; [done|]. destruct (Z.eqb_spec b 0); [done|]. by f_equal. Qed.

Lemma rd8_Some_iff m a : (exists b, rd8 m a = Some b) <-> 0 <= a < Zlen m.
Proof.
  unfold rd8, Zlen. destruct (Z.leb_spec 0 a).
  - split.
    + intros [b Hb]. apply lookup_lt_Some in Hb. lia.
    + intros Ha. apply lookup_lt_is_Some_2. lia.
  - split; [intros [? ?]; congruence | lia].
Qed.

Lemma rd8_in m a b : rd8 m a = Some b -> 0 <= a < Zlen m.
Proof. intros H. apply rd8_Some_iff. eauto. Qed.

Lemma rd8_ex m a : 0 <= a < Zlen m -> exists b, rd8 m a = Some b.
Proof. apply rd8_Some_iff. Qed.

Lemma rd8_app_l m k a : 0 <= a < Zlen m -> rd8 (m ++ k) a = rd8 m a.
Proof.
  unfold rd8, Zlen. intros H. destruct (Z.leb_spec 0 a); [|done].
  apply lookup_app_l. lia.
Qed.

Lemma rd8_byte m a b : Forall is_byte m -> rd8 m a = Some b -> is_byte b.
Proof.
  unfold rd8. intros Hm. case_match; [|done]. intros Hb.
  eapply Forall_lookup_1; eauto.
Qed.

Lemma rd_bytes_Some m a n bs :
  rd_bytes m a n = Some bs <->
  0 <= a /\ 0 <= n /\ a + n <= Zlen m /\ bs = take (Z.to_nat n) (drop (Z.to_nat a) m).
Proof.
  unfold rd_bytes.
  destruct (Z.leb_spec 0 a), (Z.leb_spec 0 n), (Z.leb_spec (a + n) (Zlen m)); cbn;
    split; intros; destruct_and?; simplify_eq; try lia; naive_solver.
Qed.

Lemma rd_bytes_ex m a n :
  0 <= a -> 0 <= n -> a + n <= Zlen m -> exists bs, rd_bytes m a n = Some bs.
Proof. intros. eexists. apply rd_bytes_Some. repeat split; eauto. Qed.

Lemma rd_bytes_len m a n bs : rd_bytes m a n = Some bs -> Zlen bs = n.
Proof.
  intros (?&?&Hl&->)%rd_bytes_Some. unfold Zlen in *.
  rewrite length_take, length_drop. lia.
Qed.

Lemma rd_bytes_lookup m a n bs i :
  rd_bytes m a n = Some bs -> 0 <= i < n -> bs !! Z.to_nat i = rd8 m (a + i).
Proof.
  intros (?&?&Hl&->)%rd_bytes_Some Hi. unfold rd8.
  destruct (Z.leb_spec 0 (a + i)); [|lia].
  rewrite lookup_take_lt by lia. rewrite lookup_drop. f_equal. lia.
Qed.

Lemma rd_bytes_byte m a n bs :
  Forall is_byte m -> rd_bytes m a n = Some bs -> Forall is_byte bs.
Proof. intros Hm (?&?&?&->)%rd_bytes_Some. by apply Forall_take, Forall_drop. Qed.

Lemma wr_bytes_Some m a bs m' :
  wr_bytes m a bs = Some m' <->
  0 <= a /\ a + Zlen bs <= Zlen m /\
  m' = take (Z.to_nat a) m ++ bs ++ drop (Z.to_nat a + length bs) m.
Proof.
  unfold wr_bytes.
  destruct (Z.leb_spec 0 a), (Z.leb_spec (a + Zlen bs) (Zlen m)); cbn;
    split; intros; destruct_and?; simplify_eq; try lia; naive_solver.
Qed.

Lemma wr_bytes_ex m a bs :
  0 <= a -> a + Zlen bs <= Zlen m -> exists m', wr_bytes m a bs = Some m'.
Proof. intros. eexists. apply wr_bytes_Some. repeat split; eauto. Qed.

Lemma wr_bytes_len m a bs m' : wr_bytes m a bs = Some m' -> Zlen m' = Zlen m.
Proof.
  intros (?&?&->)%wr_bytes_Some. unfold Zlen in *.
  rewrite !length_app, length_take, length_drop. lia.
Qed.

Lemma wr_bytes_byte m a bs m' :
  Forall is_byte m -> Forall is_byte bs -> wr_bytes m a bs = Some m' -> Forall is_byte m'.
Proof.
  intros Hm Hb (?&?&->)%wr_bytes_Some.
  apply Forall_app_2; [by apply Forall_take|].
  apply Forall_app_2; [done | by apply Forall_drop].
Qed.

(** Reading back a written buffer: the new bytes inside the written range, the
    old ones outside. *)
Lemma rd8_wr_in m a bs m' i :
  wr_bytes m a bs = Some m' -> a <= i < a + Zlen bs -> rd8 m' i = bs !! Z.to_nat (i - a).
Proof.
  intros (?&?&->)%wr_bytes_Some Hi. unfold rd8, Zlen in *.
  destruct (Z.leb_spec 0 i); [|lia].
  rewrite lookup_app_r by (rewrite length_take; lia).
  rewrite length_take, lookup_app_l by lia. f_equal. lia.
Qed.

Lemma rd8_wr_out m a bs m' i :
  wr_bytes m a bs = Some m' -> ~ (a <= i < a + Zlen bs) -> rd8 m' i = rd8 m i.
Proof.
  intros (?&?&->)%wr_bytes_Some Hi. unfold rd8, Zlen in *.
  destruct (Z.leb_spec 0 i); [|done].
  destruct (decide (i < a)).
  - rewrite lookup_app_l by (rewrite length_take; lia).
    rewrite lookup_take_lt by lia. done.
  - rewrite !lookup_app_r by (rewrite ?length_take; lia).
    rewrite length_take, lookup_drop. f_equal. lia.
Qed.

(** Two buffers that agree on a range give the same bytes there. *)
Lemma rd_bytes_ext m m' a n :
  Zlen m = Zlen m' -> (forall i, a <= i < a + n -> rd8 m i = rd8 m' i) ->
  rd_bytes m a n = rd_bytes m' a n.
Proof.
  intros Hl He. unfold rd_bytes. rewrite Hl.
  destruct (Z.leb_spec 0 a), (Z.leb_spec 0 n), (Z.leb_spec (a + n) (Zlen m')); cbn; try done.
  f_equal. apply list_eq. intros i.
  destruct (decide (i < Z.to_nat n)%nat) as [Hi|Hi].
  - rewrite !lookup_take_lt, !lookup_drop by lia.
    specialize (He (a + Z.of_nat i) ltac:(lia)). unfold rd8 in He.
    destruct (Z.leb_spec 0 (a + Z.of_nat i)); [|lia].
    rewrite Z2Nat.inj_add, Nat2Z.id in He by lia. done.
  - rewrite !lookup_take_ge by lia. done.
Qed.

Lemma rd_bytes_wr_out m a bs m' b n :
  wr_bytes m a bs = Some m' -> b + n <= a \/ a + Zlen bs <= b ->
  rd_bytes m' b n = rd_bytes m b n.
Proof.
  intros Hw Hd. apply rd_bytes_ext; [by eapply wr_bytes_len|].
  intros i Hi. eapply rd8_wr_out; [done|lia].
Qed.

Lemma rd_bytes_wr_same m a bs m' :
  wr_bytes m a bs = Some m' -> rd_bytes m' a (Zlen bs) = Some bs.
Proof.
  intros Hw. pose proof (wr_bytes_len _ _ _ _ Hw) as Hl.
  apply wr_bytes_Some in Hw as (Ha&Hb&->).
  apply rd_bytes_Some. repeat split; [lia | apply Zlen_nonneg | lia |].
  assert (length (take (Z.to_nat a) m) = Z.to_nat a) as Ht.
  { rewrite length_take. unfold Zlen in *. lia. }
  rewrite drop_app_length' by done.
  rewrite take_app_length'; [done|]. unfold Zlen. lia.
Qed.

Lemma take_plus {A} (l : list A) n k :
  take n l ++ take k (drop n l) = take (n + k) l.
Proof.
  revert l. induction n as [|n IH]; intros [|x l]; cbn; try done; [by rewrite take_nil|].
  by rewrite IH.
Qed.

Lemma rd_bytes_split m a n1 n2 bs1 bs2 :
  rd_bytes m a n1 = Some bs1 -> rd_bytes m (a + n1) n2 = Some bs2 ->
  rd_bytes m a (n1 + n2) = Some (bs1 ++ bs2).
Proof.
  intros (?&?&?&->)%rd_bytes_Some (?&?&?&->)%rd_bytes_Some.
  apply rd_bytes_Some. repeat split; try lia.
  rewrite !Z2Nat.inj_add by lia. rewrite <- drop_drop.
  apply take_plus.
Qed.

Lemma rd_bytes_sub m a n bs k j :
  rd_bytes m a n = Some bs -> 0 <= k -> 0 <= j -> k + j <= n ->
  rd_bytes m (a + k) j = Some (take (Z.to_nat j) (drop (Z.to_nat k) bs)).
Proof.
  intros (?&?&?&->)%rd_bytes_Some ? ? ?. apply rd_bytes_Some. split_and!; try lia.
  rewrite skipn_firstn_comm, take_take, drop_drop. f_equal; [lia|]. f_equal. lia.
Qed.

(** The string in front of a zero byte. *)
Lemma cstr_text s rest : Forall (fun b => b <> 0) s -> cstr (s ++ 0 :: rest) = Some s.
Proof.
  induction 1 as [|b s Hb Hs IH]; [done|]. cbn. destruct (Z.eqb_spec b 0); [done|]. by rewrite IH.
Qed.

Lemma cstr_at_text m a n s rest :
  rd_bytes m a n = Some (s ++ 0 :: rest) -> Forall (fun b => b <> 0) s -> cstr_at m a = Some s.
Proof.
  intros (Ha&?&?&Hr)%rd_bytes_Some Hs. unfold cstr_at. destruct (Z.leb_spec 0 a); [|lia].
  rewrite <- (take_drop (Z.to_nat n) (drop (Z.to_nat a) m)), <- Hr, <- app_assoc. by apply cstr_text.
Qed.

Lemma rd8_bytes1 m a b : rd8 m a = Some b -> rd_bytes m a 1 = Some [b].
Proof.
  intros Hb. pose proof (rd8_in _ _ _ Hb).
  apply rd_bytes_Some. repeat split; try lia.
  unfold rd8 in Hb. destruct (Z.leb_spec 0 a); [|lia].
  change (Z.to_nat 1) with 1%nat.
  destruct (drop (Z.to_nat a) m) eqn:E.
  - rewrite <- (Nat.add_0_r (Z.to_nat a)), <- lookup_drop, E in Hb. done.
  - rewrite <- (Nat.add_0_r (Z.to_nat a)), <- lookup_drop, E in Hb. cbn in *. by simplify_eq.
Qed.

(** Buffers as partial functions. *)
Lemma rd8_ext m m' : Zlen m = Zlen m' -> (forall i, rd8 m i = rd8 m' i) -> m = m'.
Proof.
  intros Hl He. apply list_eq. intros i. specialize (He (Z.of_nat i)). unfold rd8 in He.
  destruct (Z.leb_spec 0 (Z.of_nat i)); [|lia]. by rewrite Nat2Z.id in He.
Qed.

Lemma wr_bytes_app m a bs1 bs2 m1 m2 :
  wr_bytes m a bs1 = Some m1 -> wr_bytes m1 (a + Zlen bs1) bs2 = Some m2 ->
  wr_bytes m a (bs1 ++ bs2) = Some m2.
Proof.
  intros Hw1 Hw2. pose proof (wr_bytes_len _ _ _ _ Hw1). pose proof (wr_bytes_len _ _ _ _ Hw2).
  pose proof Hw1 as (?&?&_)%wr_bytes_Some. pose proof Hw2 as (?&?&_)%wr_bytes_Some.
  destruct (wr_bytes_ex m a (bs1 ++ bs2)) as [m3 Hw3]; [lia|rewrite Zlen_app; lia|].
  rewrite Hw3. f_equal. apply rd8_ext; [pose proof (wr_bytes_len _ _ _ _ Hw3); lia|]. intros i.
  pose proof (Zlen_nonneg bs1). pose proof (Zlen_nonneg bs2).
  destruct (decide (a <= i < a + Zlen bs1)) as [Hi|Hi].
  { rewrite (rd8_wr_out _ _ _ _ _ Hw2), (rd8_wr_in _ _ _ _ _ Hw1) by lia.
    rewrite (rd8_wr_in _ _ _ _ _ Hw3) by (rewrite Zlen_app; lia).
    apply lookup_app_l. unfold Zlen in *. lia. }
  destruct (decide (a + Zlen bs1 <= i < a + Zlen bs1 + Zlen bs2)).
  { rewrite (rd8_wr_in _ _ _ _ _ Hw2) by lia.
    rewrite (rd8_wr_in _ _ _ _ _ Hw3) by (rewrite Zlen_app; lia).
    rewrite lookup_app_r by (unfold Zlen in *; lia). f_equal. unfold Zlen in *. lia. }
  rewrite (rd8_wr_out _ _ _ _ _ Hw2), (rd8_wr_out _ _ _ _ _ Hw1) by lia.
  rewrite (rd8_wr_out _ _ _ _ _ Hw3) by (rewrite Zlen_app; lia). done.
Qed.

(** A read of at least one byte depends only on the bytes read. *)
Lemma rd_bytes_agree m m' a n bs :
  rd_bytes m a n = Some bs -> 0 < n -> (forall i, a <= i < a + n -> rd8 m' i = rd8 m i) ->
  rd_bytes m' a n = Some bs.
Proof.
  intros Hr Hn He. pose proof Hr as (?&?&?&_)%rd_bytes_Some.
  destruct (rd8_ex m (a + n - 1)) as [b Hb]; [lia|].
  rewrite <- He in Hb by lia. pose proof (rd8_in _ _ _ Hb).
  destruct (rd_bytes_ex m' a n) as [bs' Hr']; [lia..|]. rewrite Hr'. f_equal.
  apply list_eq. intros i.
  pose proof (rd_bytes_len _ _ _ _ Hr) as Hl. pose proof (rd_bytes_len _ _ _ _ Hr') as Hl'.
  unfold Zlen in *. destruct (decide (Z.of_nat i < n)) as [Hi|Hi].
  - pose proof (rd_bytes_lookup _ _ _ _ (Z.of_nat i) Hr ltac:(lia)) as L1.
    pose proof (rd_bytes_lookup _ _ _ _ (Z.of_nat i) Hr' ltac:(lia)) as L2.
    rewrite Nat2Z.id in L1, L2. rewrite L1, L2. apply He. lia.
  - rewrite !lookup_ge_None_2 by lia. done.
Qed.

(** [frame lo hi m m']: [m'] is [m] with at most the bytes [lo .. hi-1]
    changed. *)
Definition frame (lo hi : Z) (m m' : list Z) : Prop :=
  Zlen m' = Zlen m /\ forall i, ~ (lo <= i < hi) -> rd8 m' i = rd8 m i.

Lemma frame_refl lo hi m : frame lo hi m m.
Proof. done. Qed.

Lemma frame_widen lo hi lo' hi' m m' :
  frame lo hi m m' -> lo' <= lo -> hi <= hi' -> frame lo' hi' m m'.
Proof. intros [? Hf] ? ?. split; [done|]. intros i Hi. apply Hf. lia. Qed.

Lemma frame_trans lo hi m1 m2 m3 : frame lo hi m1 m2 -> frame lo hi m2 m3 -> frame lo hi m1 m3.
Proof.
  intros [Hl1 H1] [Hl2 H2]. split; [congruence|].
  intros i Hi. rewrite H2, H1; done.
Qed.

Lemma frame_wr m a bs m' lo hi :
  wr_bytes m a bs = Some m' -> lo <= a -> a + Zlen bs <= hi -> frame lo hi m m'.
Proof.
  intros Hw ? ?. split; [by eapply wr_bytes_len|]. intros i Hi.
  eapply rd8_wr_out; [done|lia].
Qed.

Lemma frame_rd_bytes lo hi m m' a n :
  frame lo hi m m' -> a + n <= lo \/ hi <= a -> rd_bytes m' a n = rd_bytes m a n.
Proof. intros [Hl Hf] Hd. apply rd_bytes_ext; [done|]. intros i Hi. apply Hf. lia. Qed.

(** ** Integers in memory *)

Lemma land255 v : Z.land v 255 = v mod 256.
Proof. change 255 with (Z.ones 8). by rewrite Z.land_ones by lia. Qed.

Lemma land_ffff v : Z.land v 65535 = v mod 65536.
Proof. change 65535 with (Z.ones 16). by rewrite Z.land_ones by lia. Qed.

Lemma shiftr_div v n d : 0 <= n -> d = 2 ^ n -> Z.shiftr v n = v / d.
Proof. intros Hn ->. by apply Z.shiftr_div_pow2. Qed.

Lemma be16_len v : Zlen (be16 v) = 2.
Proof. reflexivity. Qed.

Lemma be32_len v : Zlen (be32 v) = 4.
Proof. reflexivity. Qed.

Lemma of_be16 v : of_be (be16 v) = u16 v.
Proof.
  unfold of_be, be16, u16. cbn [fold_left]. rewrite !land255.
  rewrite (shiftr_div v 8 256) by (done || lia).
  Z.div_mod_to_equations; lia.
Qed.

Lemma of_be32 v : of_be (be32 v) = u32 v.
Proof.
  unfold of_be, be32, u32. cbn [fold_left]. rewrite !land255.
  rewrite (shiftr_div v 8 256), (shiftr_div v 16 65536), (shiftr_div v 24 16777216)
    by (done || lia).
  Z.div_mod_to_equations; lia.
Qed.

Lemma of_le16 v : of_le (le16 v) = u16 v.
Proof.
  unfold of_le, le16, u16. cbn [foldr]. rewrite !land255.
  rewrite (shiftr_div v 8 256) by (done || lia).
  Z.div_mod_to_equations; lia.
Qed.

Lemma lor_disjoint a b k : 0 <= b < 2 ^ k -> 0 <= k -> a mod 2 ^ k = 0 -> Z.lor a b = a + b.
Proof.
  intros Hb Hk Ha. assert (Z.land a b = 0) as Hl.
  { apply Z.bits_inj'. intros i Hi. rewrite Z.land_spec, Z.bits_0.
    destruct (decide (i < k)).
    - rewrite <- (Z.mod_pow2_bits_low a k i), Ha, Z.bits_0 by lia. done.
    - rewrite <- (Z.mod_small b (2 ^ k)), Z.mod_pow2_bits_high by lia. apply andb_false_r. }
  rewrite Z.add_nocarry_lxor, Z.lxor_lor; done.
Qed.

Lemma of_le32 v : of_le (le32 v) = u32 v.
Proof.
  unfold of_le, le32, u32. cbn [foldr]. rewrite !land255.
  rewrite (shiftr_div v 8 256), (shiftr_div v 16 65536), (shiftr_div v 24 16777216)
    by (done || lia).
  Z.div_mod_to_equations; lia.
Qed.

Lemma u32_idem v : u32 (u32 v) = u32 v.
Proof. unfold u32. by rewrite Z.mod_mod by lia. Qed.

Lemma s32_u32 v : s32 (u32 v) = s32 v.
Proof. unfold s32. by rewrite u32_idem. Qed.

Lemma le16_len v : Zlen (le16 v) = 2.
Proof. reflexivity. Qed.

Lemma le32_len v : Zlen (le32 v) = 4.
Proof. reflexivity. Qed.

Lemma le16_byte v : Forall is_byte (le16 v).
Proof. repeat constructor; rewrite land255; apply Z.mod_pos_bound; lia. Qed.

Lemma le32_byte v : Forall is_byte (le32 v).
Proof. repeat constructor; rewrite land255; apply Z.mod_pos_bound; lia. Qed.

Lemma u16_range v : 0 <= u16 v < 65536.
Proof. apply Z.mod_pos_bound. lia. Qed.

Lemma u32_range v : 0 <= u32 v < 4294967296.
Proof. apply Z.mod_pos_bound. lia. Qed.

Lemma u8_range v : 0 <= u8 v < 256.
Proof. apply Z.mod_pos_bound. lia. Qed.

Lemma u16_small v : 0 <= v < 65536 -> u16 v = v.
Proof. apply Z.mod_small. Qed.

Lemma u8_small v : 0 <= v < 256 -> u8 v = v.
Proof. apply Z.mod_small. Qed.

Lemma u32_small v : 0 <= v < 4294967296 -> u32 v = v.
Proof. apply Z.mod_small. Qed.

Lemma s32_small v : 0 <= v < 2147483648 -> s32 v = v.
Proof.
  intros Hv. unfold s32. rewrite u32_small by lia.
  destruct (Z.ltb_spec v 2147483648); lia.
Qed.

Lemma land255_byte v : is_byte (Z.land v 255).
Proof. rewrite land255. apply Z.mod_pos_bound. lia. Qed.

Lemma be16_byte v : Forall is_byte (be16 v).
Proof. repeat constructor; apply land255_byte. Qed.

Lemma be32_byte v : Forall is_byte (be32 v).
Proof. repeat constructor; apply land255_byte. Qed.

Lemma of_be_range bs : Forall is_byte bs -> 0 <= of_be bs < 256 ^ Zlen bs.
Proof.
  unfold of_be. rewrite <- (rev_involutive bs). generalize (rev bs). clear bs.
  induction l as [|b l IH]; intros Hb; [by cbn|].
  cbn [rev] in Hb |- *. rewrite fold_left_app. cbn [fold_left].
  apply Forall_app in Hb as [Hl Hb]. apply Forall_cons_1 in Hb as [Hb _]. specialize (IH Hl).
  rewrite Zlen_app. unfold is_byte in Hb. pose proof (Zlen_nonneg (rev l)).
  change (Zlen [b]) with 1. rewrite Z.pow_add_r, Z.pow_1_r by lia.
  set (x := fold_left _ _ _) in *. set (P := 256 ^ _) in *. lia.
Qed.

#[export] Hint Resolve u8_range u16_range u32_range be16_byte be32_byte le16_byte le32_byte land255_byte : cdb.

(** ** Rules of the program logic *)

Section rules.
Context {S A B : Type}.
Implicit Types (s : S) (Q : S -> A -> Prop) (E : S -> Prop).

Lemma wp_ret (a : A) s Q E : Q s a -> wp (ret a) s Q E.
Proof. done. Qed.

Lemma wp_fail s Q E : E s -> wp (@fail S A) s Q E.
Proof. done. Qed.

Lemma wp_bind (m : M S B) (k : B -> M S A) s Q E :
  wp m s (fun s' b => wp (k b) s' Q E) E -> wp (bind m k) s Q E.
Proof. unfold wp, bind. by destruct (m s). Qed.

Lemma wp_mono (m : M S A) s Q Q' E E' :
  wp m s Q E -> (forall s' a, Q s' a -> Q' s' a) -> (forall s', E s' -> E' s') -> wp m s Q' E'.
Proof. unfold wp. destruct (m s); auto. Qed.

Lemma wp_access (o : option A) s Q E :
  (exists a, o = Some a /\ Q s a) -> wp (access o) s Q E.
Proof. intros (a&->&H). done. Qed.

Lemma wp_try (m : M S A) s (Q : S -> option A -> Prop) E :
  wp m s (fun s' a => Q s' (Some a)) (fun s' => Q s' None) -> wp (try m) s Q E.
Proof. unfold wp, try. by destruct (m s). Qed.

Lemma wp_zoom {T} (g : S -> T) (p : T -> S -> S) (m : M T A) s Q E :
  wp m (g s) (fun t a => Q (p t s) a) (fun t => E (p t s)) -> wp (zoom g p m) s Q E.
Proof. unfold wp, zoom. by destruct (m (g s)). Qed.

Lemma wp_if (b : bool) (m1 m2 : M S A) s Q E :
  (b = true -> wp m1 s Q E) -> (b = false -> wp m2 s Q E) ->
  wp (if b then m1 else m2) s Q E.
Proof. destruct b; auto. Qed.

Lemma wp_ok_inv (m : M S A) s Q E s' a : wp m s Q E -> m s = Ok s' a -> Q s' a.
Proof. unfold wp. intros H He. by rewrite He in H. Qed.

Lemma wp_fail_inv (m : M S A) s Q E s' : wp m s Q E -> m s = Fail s' -> E s'.
Proof. unfold wp. intros H He. by rewrite He in H. Qed.

Lemma wp_defined (m : M S A) s Q E : wp m s Q E -> defined (m s).
Proof. unfold wp, defined. by destruct (m s). Qed.

Lemma wp_conj (m : M S A) s Q1 E1 Q2 E2 :
  wp m s Q1 E1 -> wp m s Q2 E2 ->
  wp m s (fun s' a => Q1 s' a /\ Q2 s' a) (fun s' => E1 s' /\ E2 s').
Proof. unfold wp. destruct (m s); auto. Qed.

Lemma wp_of_ok (m : M S A) s s' a Q E : m s = Ok s' a -> Q s' a -> wp m s Q E.
Proof. unfold wp. by intros ->. Qed.

(** From the logic to the result of a run. *)
Lemma wp_run (m : M S A) s (Q : S -> A -> Prop) (E : S -> Prop) :
  wp m s Q E -> match m s with Ok s' a => Q s' a | Fail s' => E s' | UB => False | Diverged => False end.
Proof. done. Qed.

Lemma wp_ext (m m' : M S A) s Q E : m s = m' s -> wp m' s Q E -> wp m s Q E.
Proof. unfold wp. by intros ->. Qed.

Lemma wp_bind_assoc {C} (m : M S B) (k1 : B -> M S C) (k2 : C -> M S A) s Q E :
  wp (bind (bind m k1) k2) s Q E -> wp (bind m (fun b => bind (k1 b) k2)) s Q E.
Proof. unfold wp, bind. by destruct (m s). Qed.

Lemma bind_ok (m : M S B) (k : B -> M S A) s s' a :
  bind m k s = Ok s' a <-> exists s1 b, m s = Ok s1 b /\ k b s1 = Ok s' a.
Proof. unfold bind. destruct (m s); naive_solver. Qed.

End rules.

Section state_rules.
Context {S : Type}.

Lemma wp_get (s : S) (Q : S -> S -> Prop) E : Q s s -> wp get s Q E.
Proof. done. Qed.

Lemma wp_put (s t : S) (Q : S -> unit -> Prop) E : Q t tt -> wp (put t) s Q E.
Proof. done. Qed.

Lemma wp_modify f (s : S) (Q : S -> unit -> Prop) E : Q (f s) tt -> wp (modify f) s Q E.
Proof. done. Qed.

Lemma wp_guard (b : bool) (s : S) (Q : S -> unit -> Prop) (E : S -> Prop) :
  (b = true -> Q s tt) -> (b = false -> E s) -> wp (guard b) s Q E.
Proof. unfold wp, guard. destruct b; auto. Qed.

End state_rules.

(** Turn boolean tests of the code into propositions. *)
Ltac bools :=
  repeat match goal with
  | H : (_ && _) = true |- _ => apply andb_prop in H as [? ?]
  | H : (_ || _) = false |- _ => apply orb_false_elim in H as [? ?]
  | H : (_ && _) = false |- _ => apply andb_false_iff in H
  | H : (_ || _) = true |- _ => apply orb_true_iff in H
  | H : negb _ = true |- _ => apply negb_true_iff in H
  | H : negb _ = false |- _ => apply negb_false_iff in H
  | H : (_ <=? _) = true |- _ => apply Z.leb_le in H
  | H : (_ <=? _) = false |- _ => apply Z.leb_gt in H
  | H : (_ <? _) = true |- _ => apply Z.ltb_lt in H
  | H : (_ <? _) = false |- _ => apply Z.ltb_ge in H
  | H : (_ =? _) = true |- _ => apply Z.eqb_eq in H
  | H : (_ =? _) = false |- _ => apply Z.eqb_neq in H
  end.

(** One step of symbolic execution. *)
Ltac wp_step :=
  lazymatch goal with
  | |- wp (bind _ _) _ _ _ => apply wp_bind; cbv beta
  | |- wp (ret _) _ _ _ => apply wp_ret
  | |- wp fail _ _ _ => apply wp_fail
  | |- wp get _ _ _ => apply wp_get; cbv beta
  | |- wp (put _) _ _ _ => apply wp_put
  | |- wp (modify _) _ _ _ => apply wp_modify; cbv beta
  | |- wp (guard _) _ _ _ => apply wp_guard; intros ?; bools
  | |- wp (try _) _ _ _ => apply wp_try
  | |- wp (zoom _ _ _) _ _ _ => apply wp_zoom
  | |- wp (if _ then _ else _) _ _ _ => apply wp_if; intros ?; bools
  | |- wp (let '(_, _) := ?p in _) _ _ _ => destruct p
  end.

Ltac wp_steps := repeat (wp_step; cbv beta iota).
