(* ===== verification/DnsTypes.v ===== *)
(** * The data model of src/dns.c (include/smartdns/dns.h)

    [struct dns_head], [struct dns_packet] with its data area,
    [struct dns_rrs] headers inside the data area, [struct dns_context] and
    the primitive reads and writes through a context pointer.

    Layout facts are those of the LP64 little-endian ABI the project ships
    for: [sizeof(struct dns_packet)] = 152, [sizeof(struct dns_rrs)] = 16
    (packed: 8-byte packet pointer, [next], [len], [type]).  Pointers into a
    buffer are offsets from its first byte. *)

From Stdlib Require Import ZArith Lia.
From stdpp Require Import base list numbers option.
From S2P Require Import Prelude.

(** ** Constants *)

Definition DNS_RR_A_LEN : Z := 4.
Definition DNS_RR_AAAA_LEN : Z := 16.
Definition DNS_MAX_CNAME_LEN : Z := 256.
Definition DNS_MAX_OPT_LEN : Z := 256.
Definition DNS_PACKSIZE : Z := 8192.
Definition DNS_DEFAULT_PACKET_SIZE : Z := 512.
Definition DNS_PACKET_DICT_SIZE : Z := 16.
Definition DNS_RR_END : Z := 65535.
Definition DNS_C_IN : Z := 1.

Definition sizeof_dns_packet : Z := 152.
Definition sizeof_dns_rrs : Z := 16.

Inductive dns_rr_type := DNS_RRS_QD | DNS_RRS_AN | DNS_RRS_NS | DNS_RRS_NR | DNS_RRS_OPT | DNS_RRS_END.

#[export] Instance dns_rr_type_eq_dec : EqDecision dns_rr_type.
Proof. solve_decision. Defined.

Definition DNS_T_A : Z := 1.
Definition DNS_T_NS : Z := 2.
Definition DNS_T_CNAME : Z := 5.
Definition DNS_T_SOA : Z := 6.
Definition DNS_T_PTR : Z := 12.
Definition DNS_T_TXT : Z := 16.
Definition DNS_T_AAAA : Z := 28.
Definition DNS_T_SRV : Z := 33.
Definition DNS_T_OPT : Z := 41.
Definition DNS_T_SVCB : Z := 64.
Definition DNS_T_HTTPS : Z := 65.

Definition DNS_OPT_T_ECS : Z := 8.
Definition DNS_OPT_T_COOKIE : Z := 10.
Definition DNS_OPT_T_TCP_KEEPALIVE : Z := 11.
Definition DNS_OPT_T_PADDING : Z := 12.

Definition DNS_HTTPS_T_MANDATORY : Z := 0.
Definition DNS_HTTPS_T_ALPN : Z := 1.
Definition DNS_HTTPS_T_NO_DEFAULT_ALPN : Z := 2.
Definition DNS_HTTPS_T_PORT : Z := 3.
Definition DNS_HTTPS_T_IPV4HINT : Z := 4.
Definition DNS_HTTPS_T_ECH : Z := 5.
Definition DNS_HTTPS_T_IPV6HINT : Z := 6.

(** ** Structures *)

Record dns_head := mk_dns_head {
  h_id : Z; h_qr : Z; h_opcode : Z; h_aa : Z; h_tc : Z; h_rd : Z; h_ra : Z; h_z : Z;
  h_ad : Z; h_cd : Z; h_rcode : Z;
  h_qdcount : Z; h_ancount : Z; h_nscount : Z; h_nrcount : Z }.

(** [struct dns_packet_dict_item]; the dictionary is the list of its first
    [dict_count] items. *)
Record dns_packet_dict_item := mk_dict_item { d_pos : Z; d_hash : Z }.

(** [struct dns_packet]: [p_addr] is the address of the structure, [p_data]
    its data area (resource-record headers included, as bytes). *)
Record dns_packet := mk_dns_packet {
  p_head : dns_head;
  p_questions : Z; p_answers : Z; p_nameservers : Z; p_additional : Z;
  p_optcount : Z; p_optional : Z; p_payloadsize : Z; p_opt_option : Z;
  p_namedict : list dns_packet_dict_item;
  p_size : Z; p_len : Z;
  p_addr : Z; p_data : list Z }.

(** [struct dns_context]: [c_addr] is the address of [data[0]], [c_ptr] the
    offset [ptr - data]. *)
Record dns_context := mk_dns_context {
  c_namedict : list dns_packet_dict_item;
  c_addr : Z; c_data : list Z; c_maxsize : Z; c_ptr : Z }.

(** A pointer to [struct dns_rrs]: its offset in the packet's data area and
    the fields read from there. *)
Record dns_rrs := mk_dns_rrs { rrs_off : Z; rrs_next : Z; rrs_len : Z; rrs_type : Z }.

(** [struct dns_soa] with its names as C strings. *)
Record dns_soa := mk_dns_soa {
  soa_mname : list Z; soa_rname : list Z;
  soa_serial : Z; soa_refresh : Z; soa_retry : Z; soa_expire : Z; soa_minimum : Z }.

(** [struct dns_opt_ecs]; [ecs_addr] has 16 bytes. *)
Record dns_opt_ecs := mk_dns_opt_ecs {
  ecs_family : Z; ecs_source_prefix : Z; ecs_scope_prefix : Z; ecs_addr : list Z }.

(** ** Field updates *)

Definition set_ptr (p : Z) (c : dns_context) : dns_context :=
  mk_dns_context (c_namedict c) (c_addr c) (c_data c) (c_maxsize c) p.
Definition set_cdata (d : list Z) (c : dns_context) : dns_context :=
  mk_dns_context (c_namedict c) (c_addr c) d (c_maxsize c) (c_ptr c).
Definition set_cdict (n : list dns_packet_dict_item) (c : dns_context) : dns_context :=
  mk_dns_context n (c_addr c) (c_data c) (c_maxsize c) (c_ptr c).

Definition set_head (h : dns_head) (p : dns_packet) : dns_packet :=
  mk_dns_packet h (p_questions p) (p_answers p) (p_nameservers p) (p_additional p)
    (p_optcount p) (p_optional p) (p_payloadsize p) (p_opt_option p) (p_namedict p)
    (p_size p) (p_len p) (p_addr p) (p_data p).
Definition set_opt_option (v : Z) (p : dns_packet) : dns_packet :=
  mk_dns_packet (p_head p) (p_questions p) (p_answers p) (p_nameservers p) (p_additional p)
    (p_optcount p) (p_optional p) (p_payloadsize p) v (p_namedict p)
    (p_size p) (p_len p) (p_addr p) (p_data p).
Definition set_payloadsize (v : Z) (p : dns_packet) : dns_packet :=
  mk_dns_packet (p_head p) (p_questions p) (p_answers p) (p_nameservers p) (p_additional p)
    (p_optcount p) (p_optional p) v (p_opt_option p) (p_namedict p)
    (p_size p) (p_len p) (p_addr p) (p_data p).
Definition set_size (v : Z) (p : dns_packet) : dns_packet :=
  mk_dns_packet (p_head p) (p_questions p) (p_answers p) (p_nameservers p) (p_additional p)
    (p_optcount p) (p_optional p) (p_payloadsize p) (p_opt_option p) (p_namedict p)
    v (p_len p) (p_addr p) (p_data p).
Definition set_len (v : Z) (p : dns_packet) : dns_packet :=
  mk_dns_packet (p_head p) (p_questions p) (p_answers p) (p_nameservers p) (p_additional p)
    (p_optcount p) (p_optional p) (p_payloadsize p) (p_opt_option p) (p_namedict p)
    (p_size p) v (p_addr p) (p_data p).
Definition set_pdata (d : list Z) (p : dns_packet) : dns_packet :=
  mk_dns_packet (p_head p) (p_questions p) (p_answers p) (p_nameservers p) (p_additional p)
    (p_optcount p) (p_optional p) (p_payloadsize p) (p_opt_option p) (p_namedict p)
    (p_size p) (p_len p) (p_addr p) d.
Definition set_pdict (n : list dns_packet_dict_item) (p : dns_packet) : dns_packet :=
  mk_dns_packet (p_head p) (p_questions p) (p_answers p) (p_nameservers p) (p_additional p)
    (p_optcount p) (p_optional p) (p_payloadsize p) (p_opt_option p) n
    (p_size p) (p_len p) (p_addr p) (p_data p).

(** [&head->qdcount], ... and [&packet->questions], ... as selected by the
    section. *)
Definition sec_count (t : dns_rr_type) (p : dns_packet) : option Z :=
  match t with
  | DNS_RRS_QD => Some (h_qdcount (p_head p))
  | DNS_RRS_AN => Some (h_ancount (p_head p))
  | DNS_RRS_NS => Some (h_nscount (p_head p))
  | DNS_RRS_NR => Some (h_nrcount (p_head p))
  | DNS_RRS_OPT => Some (p_optcount p)
  | DNS_RRS_END => None
  end.

Definition sec_start (t : dns_rr_type) (p : dns_packet) : option Z :=
  match t with
  | DNS_RRS_QD => Some (p_questions p)
  | DNS_RRS_AN => Some (p_answers p)
  | DNS_RRS_NS => Some (p_nameservers p)
  | DNS_RRS_NR => Some (p_additional p)
  | DNS_RRS_OPT => Some (p_optional p)
  | DNS_RRS_END => None
  end.

Definition set_count_head (t : dns_rr_type) (v : Z) (h : dns_head) : dns_head :=
  let 'mk_dns_head i q o a tc r ra z ad cd rc qd an ns nr := h in
  match t with
  | DNS_RRS_QD => mk_dns_head i q o a tc r ra z ad cd rc v an ns nr
  | DNS_RRS_AN => mk_dns_head i q o a tc r ra z ad cd rc qd v ns nr
  | DNS_RRS_NS => mk_dns_head i q o a tc r ra z ad cd rc qd an v nr
  | DNS_RRS_NR => mk_dns_head i q o a tc r ra z ad cd rc qd an ns v
  | _ => h
  end.

Definition set_sec_count (t : dns_rr_type) (v : Z) (p : dns_packet) : dns_packet :=
  let 'mk_dns_packet h q a n ad oc op ps oo nd sz ln adr d := p in
  match t with
  | DNS_RRS_OPT => mk_dns_packet h q a n ad v op ps oo nd sz ln adr d
  | _ => mk_dns_packet (set_count_head t v h) q a n ad oc op ps oo nd sz ln adr d
  end.

Definition set_sec_start (t : dns_rr_type) (v : Z) (p : dns_packet) : dns_packet :=
  let 'mk_dns_packet h q a n ad oc op ps oo nd sz ln adr d := p in
  match t with
  | DNS_RRS_QD => mk_dns_packet h v a n ad oc op ps oo nd sz ln adr d
  | DNS_RRS_AN => mk_dns_packet h q v n ad oc op ps oo nd sz ln adr d
  | DNS_RRS_NS => mk_dns_packet h q a v ad oc op ps oo nd sz ln adr d
  | DNS_RRS_NR => mk_dns_packet h q a n v oc op ps oo nd sz ln adr d
  | DNS_RRS_OPT => mk_dns_packet h q a n ad oc v ps oo nd sz ln adr d
  | DNS_RRS_END => p
  end.

(** ** Primitive reads and writes *)

Definition is_aligned (ptr aligment : Z) : bool := ptr mod aligment =? 0.

Definition _dns_left_len (c : dns_context) : Z := c_maxsize c - c_ptr c.

(** [_dns_left_len(context)] as a step. *)
Definition left_len : M dns_context Z := c <- get ;; ret (_dns_left_len c).

Definition add_ptr (n : Z) : M dns_context unit := modify (fun c => set_ptr (c_ptr c + n) c).

(** [memcpy(dst, context->ptr, n); context->ptr += n] *)
Definition read_mem (n : Z) : M dns_context (list Z) :=
  c <- get ;;
  bs <- access (rd_bytes (c_data c) (c_ptr c) n) ;;
  put (set_ptr (c_ptr c + n) c) ;;
  ret bs.

(** [memcpy(context->data + a, src, n)] *)
Definition write_at (a : Z) (bs : list Z) : M dns_context unit :=
  c <- get ;;
  d <- access (wr_bytes (c_data c) a bs) ;;
  put (set_cdata d c).

(** [memcpy(context->ptr, src, n); context->ptr += n] *)
Definition write_mem (bs : list Z) : M dns_context unit :=
  c <- get ;;
  write_at (c_ptr c) bs ;;
  add_ptr (Zlen bs).

Definition _dns_read_short : M dns_context Z :=
  bs <- read_mem 2 ;; ret (of_be bs).
Definition _dns_read_char : M dns_context Z :=
  bs <- read_mem 1 ;; ret (of_be bs).
Definition _dns_read_int : M dns_context Z :=
  bs <- read_mem 4 ;; ret (of_be bs).
Definition _dns_write_char (value : Z) : M dns_context unit := write_mem [u8 value].
Definition _dns_write_short (value : Z) : M dns_context unit := write_mem (be16 value).
Definition _dns_write_int (value : Z) : M dns_context unit := write_mem (be32 value).

(** [_dns_write_shortptr]/[_dns_write_intptr]: host-order source bytes. *)
Definition _dns_write_shortptr (src : list Z) : M dns_context unit := _dns_write_short (of_le src).
Definition _dns_write_intptr (src : list Z) : M dns_context unit := _dns_write_int (of_le src).

(** [safe_strncpy(dest, src, n)] for [n > 0]: the bytes it stores in [dest]
    ([strncpy] pads with NUL bytes). *)
Definition safe_strncpy (src : list Z) (n : Z) : list Z :=
  let s := take (Z.to_nat (n - 1)) src in
  s ++ replicate (Z.to_nat (n - 1) - length s) 0 ++ [0].

(** [strnlen(s, n)] of a C string. *)
Definition strnlen (s : list Z) (n : Z) : Z := Z.min (Zlen s) n.

Arguments left_len : simpl never.
Arguments add_ptr : simpl never.
Arguments read_mem : simpl never.
Arguments write_at : simpl never.
Arguments write_mem : simpl never.
Arguments _dns_read_short : simpl never.
Arguments _dns_read_char : simpl never.
Arguments _dns_read_int : simpl never.
Arguments _dns_write_char : simpl never.
Arguments _dns_write_short : simpl never.
Arguments _dns_write_int : simpl never.

(** Compute the fields of an updated context. *)
Ltac cproj := cbn [c_namedict c_addr c_data c_maxsize c_ptr set_ptr set_cdata set_cdict].
Tactic Notation "cproj" "in" "*" :=
  cbn [c_namedict c_addr c_data c_maxsize c_ptr set_ptr set_cdata set_cdict] in *.

(** ** A context is well formed when its bounds lie inside its buffer *)

Definition ctx_wf (c : dns_context) : Prop :=
  0 <= c_ptr c /\ c_maxsize c <= Zlen (c_data c) /\ Forall is_byte (c_data c).

(** [c'] differs from [c] only by its pointer. *)
Definition same_buf (c c' : dns_context) : Prop :=
  c_namedict c' = c_namedict c /\ c_addr c' = c_addr c /\ c_data c' = c_data c /\
  c_maxsize c' = c_maxsize c.

Lemma set_ptr_same p c : same_buf c (set_ptr p c).
Proof. by destruct c. Qed.

Lemma same_buf_refl c : same_buf c c.
Proof. by destruct c. Qed.

Lemma same_buf_trans c1 c2 c3 : same_buf c1 c2 -> same_buf c2 c3 -> same_buf c1 c3.
Proof. unfold same_buf. intros (?&?&?&?) (?&?&?&?). repeat split; congruence. Qed.

Lemma same_buf_set_ptr c c' : same_buf c c' -> c' = set_ptr (c_ptr c') c.
Proof. destruct c, c'. unfold same_buf, set_ptr. cbn. naive_solver. Qed.

Lemma set_set_ptr p q c : set_ptr p (set_ptr q c) = set_ptr p c.
Proof. done. Qed.

#[export] Hint Resolve set_ptr_same same_buf_refl : cdb.

(** ** Rules for the primitives *)

Section primitives.
Implicit Types (c : dns_context).

Lemma wp_left_len c Q E : Q c (_dns_left_len c) -> wp left_len c Q E.
Proof. done. Qed.

Lemma wp_add_ptr n c (Q : dns_context -> unit -> Prop) E :
  Q (set_ptr (c_ptr c + n) c) tt -> wp (add_ptr n) c Q E.
Proof. done. Qed.

Lemma wp_read_mem n c Q E :
  0 <= c_ptr c -> 0 <= n -> c_ptr c + n <= Zlen (c_data c) ->
  (forall bs, rd_bytes (c_data c) (c_ptr c) n = Some bs -> Q (set_ptr (c_ptr c + n) c) bs) ->
  wp (read_mem n) c Q E.
Proof.
  intros ? ? ? HQ. destruct (rd_bytes_ex (c_data c) (c_ptr c) n) as [bs Hbs]; [done..|].
  unfold wp, read_mem, bind, get, access, put, ret. rewrite Hbs. auto.
Qed.

Lemma wp_read_short c Q E :
  0 <= c_ptr c -> c_ptr c + 2 <= Zlen (c_data c) -> Forall is_byte (c_data c) ->
  (forall v bs, 0 <= v < 65536 -> rd_bytes (c_data c) (c_ptr c) 2 = Some bs -> v = of_be bs ->
     Q (set_ptr (c_ptr c + 2) c) v) ->
  wp _dns_read_short c Q E.
Proof.
  intros ? ? Hb HQ. unfold _dns_read_short. wp_step.
  apply wp_read_mem; [done|lia|done|]. intros bs Hbs. apply wp_ret.
  eapply HQ; eauto. pose proof (rd_bytes_len _ _ _ _ Hbs) as Hl.
  pose proof (of_be_range bs (rd_bytes_byte _ _ _ _ Hb Hbs)) as Hr.
  rewrite Hl in Hr. exact Hr.
Qed.

Lemma wp_read_char c Q E :
  0 <= c_ptr c -> c_ptr c + 1 <= Zlen (c_data c) -> Forall is_byte (c_data c) ->
  (forall v bs, 0 <= v < 256 -> rd_bytes (c_data c) (c_ptr c) 1 = Some bs -> v = of_be bs ->
     Q (set_ptr (c_ptr c + 1) c) v) ->
  wp _dns_read_char c Q E.
Proof.
  intros ? ? Hb HQ. unfold _dns_read_char. wp_step.
  apply wp_read_mem; [done|lia|done|]. intros bs Hbs. apply wp_ret.
  eapply HQ; eauto. pose proof (rd_bytes_len _ _ _ _ Hbs) as Hl.
  pose proof (of_be_range bs (rd_bytes_byte _ _ _ _ Hb Hbs)) as Hr.
  rewrite Hl in Hr. exact Hr.
Qed.

Lemma wp_read_int c Q E :
  0 <= c_ptr c -> c_ptr c + 4 <= Zlen (c_data c) -> Forall is_byte (c_data c) ->
  (forall v bs, 0 <= v < 4294967296 -> rd_bytes (c_data c) (c_ptr c) 4 = Some bs -> v = of_be bs ->
     Q (set_ptr (c_ptr c + 4) c) v) ->
  wp _dns_read_int c Q E.
Proof.
  intros ? ? Hb HQ. unfold _dns_read_int. wp_step.
  apply wp_read_mem; [done|lia|done|]. intros bs Hbs. apply wp_ret.
  eapply HQ; eauto. pose proof (rd_bytes_len _ _ _ _ Hbs) as Hl.
  pose proof (of_be_range bs (rd_bytes_byte _ _ _ _ Hb Hbs)) as Hr.
  rewrite Hl in Hr. exact Hr.
Qed.

Lemma wp_write_at a bs c (Q : dns_context -> unit -> Prop) E :
  0 <= a -> a + Zlen bs <= Zlen (c_data c) ->
  (forall d, wr_bytes (c_data c) a bs = Some d -> Q (set_cdata d c) tt) ->
  wp (write_at a bs) c Q E.
Proof.
  intros ? ? HQ. destruct (wr_bytes_ex (c_data c) a bs) as [d Hd]; [done..|].
  unfold wp, write_at, bind, get, access, put. rewrite Hd. auto.
Qed.

Lemma wp_write_mem bs c (Q : dns_context -> unit -> Prop) E :
  0 <= c_ptr c -> c_ptr c + Zlen bs <= Zlen (c_data c) ->
  (forall d, wr_bytes (c_data c) (c_ptr c) bs = Some d ->
     Q (set_ptr (c_ptr c + Zlen bs) (set_cdata d c)) tt) ->
  wp (write_mem bs) c Q E.
Proof.
  intros ? ? HQ. unfold write_mem. do 2 wp_step. wp_step.
  apply wp_write_at; [done..|]. intros d Hd. apply wp_add_ptr. auto.
Qed.

End primitives.
