(* ===== verification/DnsName.v ===== *)
(** * Domain names on the wire (src/dns.c)

    [_dns_get_domain_from_packet] (decompression), the name-compression
    dictionary and [_dns_encode_domain].  [name_at] are the names that the code reads,
    the specification both sides are proved against; [rfc_name] are those of RFC 1035. *)

From Stdlib Require Import ZArith Lia.
From stdpp Require Import base list numbers option.
From S2P Require Import Prelude DnsTypes.

(** ** Reading a name *)

Definition char_dot : Z := 46.

(** Store [bs] at [output], [output_len] bytes into a buffer of [size] bytes. *)
Definition emit (size : Z) (output : list Z) (output_len : Z) (bs : list Z) : option (list Z) :=
  if output_len + Zlen bs <=? size then Some (output ++ bs) else None.

(** The label part of the loop body below: the separating dot, then as much of
    the label as fits.  Returns [output] and the new [output_len]. *)
Definition _dns_copy_label (packet : list Z) (packet_size size ptr len : Z)
    (output : list Z) (output_len : Z) : M Z (list Z * Z) :=
  let dot := 0 <? output_len in
  output <- access (if dot then emit size output output_len [char_dot] else Some output) ;;
  let output_len := if dot then output_len + 1 else output_len in
  guard (ptr <=? packet_size) ;;
  output <- (if output_len <? size - 1 then
               let copy_len := if len <? size - output_len then len else size - 1 - output_len in
               guard (ptr + 1 + copy_len <=? packet_size) ;;
               bs <- access (rd_bytes packet (ptr + 1) copy_len) ;;
               access (emit size output output_len bs)
             else ret output) ;;
  ret (output, output_len + len).

(** The [while (1)] loop of [_dns_get_domain_from_packet]; the state is
    [*domain_ptr]. *)
Fixpoint _dns_get_domain_loop (fuel : nat) (packet : list Z) (packet_size size ptr : Z)
    (is_compressed : bool) (ptr_jump : Z) (output : list Z) (output_len : Z) : M Z (list Z) :=
  match fuel with
  | O => diverge
  | S fuel =>
    if (packet_size <=? ptr) || (ptr <? 0) || (size - 1 <=? output_len) || (32 <? ptr_jump)
    then fail
    else
      len <- access (rd8 packet ptr) ;;
      if len =? 0 then
        access (emit size output output_len [0]) ;;
        (if is_compressed then ret tt else put (ptr + 1)) ;;
        ret output
      else if 192 <=? len then
        guard (ptr + 2 <=? packet_size) ;;
        bs <- access (rd_bytes packet ptr 2) ;;
        let off := Z.land (of_be bs) 16383 in
        (if is_compressed then ret tt else put (ptr + 2)) ;;
        guard (off <=? packet_size) ;;
        _dns_get_domain_loop fuel packet packet_size size off true (ptr_jump + 1) output output_len
      else
        '(output, output_len) <- _dns_copy_label packet packet_size size ptr len output output_len ;;
        _dns_get_domain_loop fuel packet packet_size size (ptr + 1 + len) is_compressed 0
          output output_len
  end.

(** Every round ends the loop, follows one of at most 33 pointers in a row, or
    extends the output by a label: [34 * size + 34] rounds are enough. *)
Definition domain_fuel (size : Z) : nat := S (Z.to_nat (34 * size + 34)).

(** The result is the bytes stored in [output] before its final NUL; a label
    may itself contain NUL bytes. *)
Definition _dns_get_domain_from_packet (packet : list Z) (packet_size size : Z) : M Z (list Z) :=
  fun domain_ptr =>
    _dns_get_domain_loop (domain_fuel size) packet packet_size size domain_ptr false 0 [] 0 domain_ptr.

(** Every caller uses [output] as a C string, which ends at its first NUL. *)
Definition _dns_decode_domain (size : Z) : M dns_context (list Z) :=
  output <- (fun c => zoom c_ptr set_ptr (_dns_get_domain_from_packet (c_data c) (c_maxsize c) size) c) ;;
  ret (until_nul output).

(** ** Writing a name *)

Definition dict_hash (s : list Z) : Z :=
  fold_left (fun hashval c => u32 (s8 c + 31 * hashval)) s 0.

Definition _dns_add_domain_dict (hash pos : Z) : M dns_context unit :=
  c <- get ;;
  guard (negb (DNS_PACKET_DICT_SIZE <=? Zlen (c_namedict c))) ;;
  guard (negb (hash =? 0)) ;;
  guard (negb (c_maxsize c <=? pos)) ;;
  put (set_cdict (c_namedict c ++ [mk_dict_item (u16 pos) hash]) c).

(** The dictionary scan: the first item with this hash, if its position still
    reads as a name. [Some (-1)] is the early [return -1]. *)
Fixpoint dict_scan (c : dns_context) (hash : Z) (names : list dns_packet_dict_item) : res unit (option Z) :=
  match names with
  | [] => Ok tt None
  | it :: names =>
    if negb (d_hash it =? hash) then dict_scan c hash names
    else
      match _dns_get_domain_from_packet (c_data c) (c_maxsize c) DNS_MAX_CNAME_LEN (d_pos it) with
      | Ok _ _ => Ok tt (Some (d_pos it))
      | Fail _ => Ok tt (Some (-1))
      | UB => UB
      | Diverged => Diverged
      end
  end.

Definition _dns_get_domain_offset (domain : list Z) : M dns_context Z :=
  match domain with
  | [] => ret (-1)
  | _ =>
    c <- get ;;
    let hash := dict_hash domain in
    r <- zoom (fun _ => tt) (fun _ c => c) (fun _ => dict_scan c hash (c_namedict c)) ;;
    match r with
    | Some pos => ret pos
    | None => try (_dns_add_domain_dict hash (c_ptr c - 1)) ;; ret (-1)
    end
  end.

(** What follows the [while] loop of [_dns_encode_domain]. *)
Definition _dns_encode_domain_end (ptr_num num total_len : Z) : M dns_context Z :=
  l <- left_len ;;
  guard (negb (l <? 1)) ;;
  write_at ptr_num [u8 num] ;;
  total_len <- (if 1 <? total_len then
                  c <- get ;;
                  write_at (c_ptr c) [0] ;;
                  add_ptr 1 ;;
                  ret (total_len + 1)
                else ret total_len) ;;
  l <- left_len ;;
  guard (negb (l <=? 0)) ;;
  ret total_len.

(** The [while] loop of [_dns_encode_domain], by recursion on the rest of the
    domain string. *)
Fixpoint _dns_encode_domain_loop (domain : list Z) (ptr_num num total_len dict_offset : Z)
    : M dns_context Z :=
  match domain with
  | [] => _dns_encode_domain_end ptr_num num total_len
  | ch :: rest =>
    l <- left_len ;;
    if negb (1 <? l) then _dns_encode_domain_end ptr_num num total_len
    else
      let total_len := total_len + 1 in
      if 0 <=? dict_offset then
        guard (negb (l <? 2)) ;;
        write_at ptr_num (be16 (Z.lor 49152 dict_offset)) ;;
        add_ptr 1 ;;
        ret total_len
      else if ch =? char_dot then
        write_at ptr_num [u8 num] ;;
        c <- get ;;
        let ptr_num := c_ptr c in
        add_ptr 1 ;;
        dict_offset <- _dns_get_domain_offset rest ;;
        _dns_encode_domain_loop rest ptr_num 0 total_len dict_offset
      else
        c <- get ;;
        write_at (c_ptr c) [ch] ;;
        add_ptr 1 ;;
        _dns_encode_domain_loop rest ptr_num (num + 1) total_len dict_offset
  end.

Definition _dns_encode_domain (domain : list Z) : M dns_context Z :=
  c <- get ;;
  let ptr_num := c_ptr c in
  add_ptr 1 ;;
  dict_offset <- _dns_get_domain_offset domain ;;
  _dns_encode_domain_loop domain ptr_num 0 1 dict_offset.

(** ** Specification: names as sequences of labels *)

(** [join ls] is the dotted text of the labels. *)
Fixpoint join (ls : list (list Z)) : list Z :=
  match ls with
  | [] => []
  | [l] => l
  | l :: ls => l ++ char_dot :: join ls
  end.

(** The names the code reads.  [name_at m n j off ls e]: in the first [n] bytes of [m],
    reached after [j] pointers in a row, the name that starts at [off] has the labels
    [ls], and the byte after it in the stream is at [e].  A byte below 192 is the length
    of a label, and no more than 32 pointers in a row are followed. *)
Inductive name_at (m : list Z) (n : Z) : Z -> Z -> list (list Z) -> Z -> Prop :=
| name_root j off :
    0 <= off < n -> j <= 32 -> rd8 m off = Some 0 -> name_at m n j off [] (off + 1)
| name_label j off len lab ls e :
    0 <= off < n -> j <= 32 -> rd8 m off = Some len -> 0 < len < 192 ->
    off + 1 + len <= n -> rd_bytes m (off + 1) len = Some lab ->
    name_at m n 0 (off + 1 + len) ls e -> name_at m n j off (lab :: ls) e
| name_ptr j off hi bs ls e :
    0 <= off -> off + 2 <= n -> j <= 32 -> rd8 m off = Some hi -> 192 <= hi ->
    rd_bytes m off 2 = Some bs ->
    name_at m n (j + 1) (Z.land (of_be bs) 16383) ls e -> name_at m n j off ls (off + 2).


(** ** Reading: safety, termination, soundness and completeness *)

(** The text so far, and the length the loop counts for it. *)
Definition extend (output : list Z) (ls : list (list Z)) : list Z :=
  match output, ls with
  | [], _ => join ls
  | _, [] => output
  | _, _ => output ++ char_dot :: join ls
  end.

Lemma extend_cons output lab ls :
  lab <> [] ->
  extend output (lab :: ls) = extend (extend output [lab]) ls.
Proof.
  intros Hlab. destruct output as [|o output]; cbn.
  - destruct lab; [done|]. by destruct ls.
  - destruct ls; [done|]. by rewrite <- app_assoc.
Qed.

Lemma extend_len output ls : Zlen output <= Zlen (extend output ls).
Proof.
  destruct output as [|o output]; [apply Zlen_nonneg|].
  destruct ls as [|l ls]; [done|]. unfold extend. rewrite Zlen_app.
  pose proof (Zlen_nonneg (char_dot :: join (l :: ls))). lia.
Qed.

Lemma land_ptr_range v : 0 <= Z.land v 16383 < 16384.
Proof. change 16383 with (Z.ones 14). rewrite Z.land_ones by lia. apply Z.mod_pos_bound. lia. Qed.

Lemma rd_bytes2_hd m off hi bs :
  rd8 m off = Some hi -> rd_bytes m off 2 = Some bs -> exists lo, bs = [hi; lo].
Proof.
  intros Hhi Hbs. pose proof (rd_bytes_len _ _ _ _ Hbs) as Hl. unfold Zlen in Hl.
  pose proof (rd_bytes_lookup _ _ _ _ 0 Hbs ltac:(lia)) as H0.
  rewrite Z.add_0_r, Hhi in H0.
  assert (length bs = 2%nat) as Hl2 by lia.
  destruct bs as [|b0 [|b1 [|b2 bs]]]; try done.
  change (Z.to_nat 0) with 0%nat in H0. cbn in H0. simplify_eq. eauto.
Qed.

Section reading.
Context (m : list Z) (n size : Z).
Hypothesis Hn : n <= Zlen m.
Hypothesis Hbytes : Forall is_byte m.

Lemma copy_label_dot output :
  Zlen output < size - 1 ->
  (if 0 <? Zlen output then emit size output (Zlen output) [char_dot] else Some output)
    = Some (if 0 <? Zlen output then output ++ [char_dot] else output) /\
  (if 0 <? Zlen output then Zlen output + 1 else Zlen output)
    = Zlen (if 0 <? Zlen output then output ++ [char_dot] else output).
Proof.
  intros H. destruct (Z.ltb_spec 0 (Zlen output)); [|done]. unfold emit.
  rewrite Zlen_app. change (Zlen [char_dot]) with 1.
  destruct (Z.leb_spec (Zlen output + 1) size); [done|lia].
Qed.

Lemma extend_label output bs :
  extend output [bs] = (if 0 <? Zlen output then output ++ [char_dot] else output) ++ bs.
Proof.
  destruct output as [|o output]; [done|]. rewrite Zlen_cons. pose proof (Zlen_nonneg output).
  destruct (Z.ltb_spec 0 (1 + Zlen output)); [|lia]. cbn. by rewrite <- app_assoc.
Qed.

(** One label: either it is copied whole, or the output is full and the next
    round of the loop fails. *)
Lemma copy_label_ok ptr len output dp :
  0 <= ptr < n -> 0 < len < 192 -> Zlen output < size - 1 ->
  wp (_dns_copy_label m n size ptr len output (Zlen output)) dp
    (fun dp' '(out, ol) => dp' = dp /\ Zlen output < ol /\
       (size - 1 <= ol \/
        ol = Zlen out /\ ptr + 1 + len <= n /\
        exists lab, rd_bytes m (ptr + 1) len = Some lab /\ lab <> [] /\ out = extend output [lab]))
    (fun _ => True).
Proof.
  intros Hp Hl Ho. unfold _dns_copy_label. cbv zeta.
  destruct (copy_label_dot output Ho) as [He Hol]. rewrite He.
  wp_step. apply wp_access. eexists. split; [done|].
  wp_step. wp_step; [|done]. rewrite Hol.
  set (out1 := if 0 <? Zlen output then output ++ [char_dot] else output) in *.
  assert (Zlen output <= Zlen out1) by (rewrite <- Hol; destruct (0 <? Zlen output); lia).
  wp_step. wp_step; [wp_step; (wp_step; [|done])|].
  - set (copy_len := if len <? size - Zlen out1 then len else size - 1 - Zlen out1) in *.
    assert (0 <= copy_len /\ Zlen out1 + copy_len <= size /\
            (copy_len = len \/ size - 1 <= Zlen out1 + len)) as (Hc1&Hc2&Hc3).
    { subst copy_len. destruct (Z.ltb_spec len (size - Zlen out1)); lia. }
    destruct (rd_bytes_ex m (ptr + 1) copy_len) as [bs Hbs]; [lia..|].
    pose proof (rd_bytes_len _ _ _ _ Hbs) as Hbl.
    wp_step. apply wp_access. exists bs. split; [done|].
    apply wp_access. unfold emit. rewrite Hbl.
    destruct (Z.leb_spec (Zlen out1 + copy_len) size); [|lia].
    eexists; split; [done|]. wp_step. split; [done|]. split; [lia|].
    destruct Hc3 as [Hc3|Hc3]; [right|by left]. rewrite Zlen_app, Hbl. split; [lia|].
    split; [lia|]. exists bs. rewrite Hc3 in Hbs, Hbl. split; [done|].
    split; [by intros ->; rewrite Zlen_nil in Hbl; lia|].
    by rewrite extend_label.
  - wp_step. wp_step. split; [done|]. split; [lia|]. left. lia.
Qed.

Lemma get_domain_loop_full fuel ptr comp j output output_len dp Q :
  size - 1 <= output_len -> (0 < fuel)%nat ->
  wp (_dns_get_domain_loop fuel m n size ptr comp j output output_len) dp Q (fun _ => True).
Proof.
  intros Hs Hf. destruct fuel as [|fuel]; [lia|]. cbn [_dns_get_domain_loop].
  wp_step; [done|]. lia.
Qed.

(** The loop ends within its fuel, reads and writes only inside its buffers,
    and what it returns is the name found at [ptr]. *)
Lemma get_domain_loop_sound fuel ptr comp j output dp :
  0 <= j <= 33 -> 34 * (size - Zlen output) + 33 - j < Z.of_nat fuel -> (0 < fuel)%nat ->
  wp (_dns_get_domain_loop fuel m n size ptr comp j output (Zlen output)) dp
    (fun dp' out => exists ls e, name_at m n j ptr ls e /\ out = extend output ls /\
       Zlen out <= size - 2 /\ dp' = (if comp then dp else e))
    (fun _ => True).
Proof.
  revert ptr comp j output dp.
  induction fuel as [|fuel IH]; intros ptr comp j output dp Hj Hf Hf0; [lia|].
  cbn [_dns_get_domain_loop]. wp_step; [done|].
  destruct (rd8_ex m ptr) as [len Hlen]; [lia|].
  pose proof (rd8_byte _ _ _ Hbytes Hlen) as Hlb. unfold is_byte in Hlb.
  wp_step. apply wp_access. exists len. split; [done|].
  wp_step; [|wp_step].
  - subst len. wp_step. apply wp_access. unfold emit. change (Zlen [0]) with 1.
    destruct (Z.leb_spec (Zlen output + 1) size); [|lia]. eexists; split; [done|].
    wp_step. destruct comp; wp_step; wp_step; exists [], (ptr + 1);
      (split; [constructor; lia || done|]); (split; [by destruct output|]); (split; [lia|done]).
  - wp_step. wp_step; [|done].
    destruct (rd_bytes_ex m ptr 2) as [bs Hbs]; [lia..|].
    wp_step. apply wp_access. exists bs. split; [done|].
    wp_step. destruct comp; wp_step; wp_step; (wp_step; [|done]);
      (eapply wp_mono; [apply IH; lia| |done]);
      intros dp' out (ls&e&Hna&->&Hl&->); exists ls, (ptr + 2);
      (split; [apply (name_ptr m n j ptr len bs ls e); done || lia|]); done.
  - wp_step. eapply wp_mono; [by apply copy_label_ok; lia| |done].
    intros dp' [out ol] (->&Hlt&Hcase). cbv beta iota.
    destruct Hcase as [Hfull|(->&Hle&lab&Hlab&Hne&->)]; [apply get_domain_loop_full; lia|].
    eapply wp_mono; [apply IH; lia| |done].
    intros dp' out' (ls&e&Hna&->&Hl&->). exists (lab :: ls), e.
    split; [apply (name_label m n j ptr len); done || lia|]. by rewrite (extend_cons output lab ls).
Qed.

(** Conversely a name that fits the output is returned. *)
Lemma copy_label_whole ptr len lab output dp :
  0 < len -> ptr + 1 + len <= n -> rd_bytes m (ptr + 1) len = Some lab ->
  Zlen (extend output [lab]) <= size - 2 ->
  wp (_dns_copy_label m n size ptr len output (Zlen output)) dp
    (fun dp' '(out, ol) => dp' = dp /\ out = extend output [lab] /\ ol = Zlen out) (fun _ => False).
Proof.
  intros Hlen Hle Hlab Hfit. unfold _dns_copy_label. cbv zeta.
  pose proof (extend_len output [lab]) as Hel.
  destruct (copy_label_dot output ltac:(lia)) as [He Hol]. rewrite He.
  wp_step. apply wp_access. eexists. split; [done|].
  wp_step. wp_step; [|lia]. rewrite Hol. rewrite extend_label in *.
  set (out1 := if 0 <? Zlen output then output ++ [char_dot] else output) in *.
  rewrite Zlen_app in *. pose proof (rd_bytes_len _ _ _ _ Hlab) as Hl.
  wp_step. wp_step; [|lia].
  destruct (Z.ltb_spec len (size - Zlen out1)); [|lia].
  wp_step. wp_step; [|lia]. wp_step. apply wp_access. eexists; split; [done|].
  apply wp_access. unfold emit. destruct (Z.leb_spec (Zlen out1 + Zlen lab) size); [|lia].
  eexists; split; [done|]. wp_step. repeat split. rewrite Zlen_app. lia.
Qed.

Lemma get_domain_loop_complete j off ls e :
  name_at m n j off ls e -> forall fuel comp output dp,
  0 <= j -> 34 * (size - Zlen output) + 33 - j < Z.of_nat fuel ->
  Zlen (extend output ls) <= size - 2 ->
  wp (_dns_get_domain_loop fuel m n size off comp j output (Zlen output)) dp
    (fun dp' out => dp' = (if comp then dp else e) /\ out = extend output ls) (fun _ => False).
Proof.
  induction 1 as [j off Ho Hj Hr|j off len lab ls e Ho Hj Hr Hl Hle Hlab Hna IH
                 |j off hi bs ls e Ho Ho2 Hj Hr Hhi Hbs Hna IH];
    intros fuel comp output dp Hj0 Hf Hfit;
    match type of Hfit with Zlen (extend _ ?l) <= _ => pose proof (extend_len output l) end;
    (destruct fuel as [|fuel]; [lia|]); cbn [_dns_get_domain_loop].
  - wp_step; [lia|]. wp_step. apply wp_access. eexists; split; [done|].
    wp_step; [|done]. wp_step. apply wp_access. unfold emit. change (Zlen [0]) with 1.
    destruct (Z.leb_spec (Zlen output + 1) size); [|lia]. eexists; split; [done|].
    wp_step. destruct comp; wp_step; wp_step; (split; [done|]); by destruct output.
  - assert (lab <> []) as Hne.
    { intros ->. apply rd_bytes_len in Hlab. rewrite Zlen_nil in Hlab. lia. }
    rewrite (extend_cons output lab ls Hne) in *.
    pose proof (extend_len (extend output [lab]) ls) as Hel2.
    wp_step; [lia|]. wp_step. apply wp_access. eexists; split; [done|].
    do 2 (wp_step; [lia|]). wp_step.
    eapply wp_mono; [apply (copy_label_whole off len lab); lia || done| |done].
    intros dp' [out ol] (->&->&->). cbv beta iota. apply IH; [lia| |done].
    assert (Zlen output < Zlen (extend output [lab])); [|lia].
    rewrite extend_label, Zlen_app. apply rd_bytes_len in Hlab.
    destruct (0 <? Zlen output); rewrite ?Zlen_app; pose proof (Zlen_nonneg [char_dot]); lia.
  - wp_step; [lia|]. wp_step. apply wp_access. eexists; split; [done|].
    wp_step; [lia|]. wp_step; [|lia]. wp_step. wp_step; [|lia].
    wp_step. apply wp_access. eexists; split; [done|].
    pose proof (land_ptr_range (of_be bs)).
    assert (Z.land (of_be bs) 16383 <= n) by (inversion Hna; subst; lia).
    wp_step. destruct comp; wp_step; wp_step; (wp_step; [|lia]);
      (eapply wp_mono; [apply IH; lia| |done]); by intros dp' out (->&->).
Qed.

Lemma name_at_bounds j off ls e : name_at m n j off ls e -> off < e <= n.
Proof. induction 1; lia. Qed.

End reading.

(** Where a name starts, its labels and its end are determined. *)
Lemma name_at_le_n m n j off ls e : name_at m n j off ls e -> 0 <= off < n.
Proof. induction 1; lia. Qed.

(** Reading a name from a packet is safe: whatever the bytes, the loop ends
    within its fuel and touches only the packet's first [n] bytes and the
    output buffer; on success the pointer moves forward, not past the packet. *)
Lemma get_domain_safe m n size off :
  n <= Zlen m -> Forall is_byte m ->
  wp (_dns_get_domain_from_packet m n size) off
    (fun e s => exists ls, name_at m n 0 off ls e /\ s = join ls /\ Zlen s <= size - 2)
    (fun _ => True).
Proof.
  intros Hn Hb. unfold wp, _dns_get_domain_from_packet.
  pose proof (get_domain_loop_sound m n size Hn Hb (domain_fuel size) off false 0 [] off) as H.
  unfold wp in H. change (Zlen []) with 0 in H.
  specialize (H ltac:(lia) ltac:(unfold domain_fuel; lia) ltac:(unfold domain_fuel; lia)).
  destruct (_dns_get_domain_loop _ _ _ _ _ _ _ _ _ _); [|done..].
  destruct H as (ls&e&?&->&?&->). eauto.
Qed.

Lemma get_domain_complete m n size off ls e :
  name_at m n 0 off ls e -> Zlen (join ls) <= size - 2 ->
  _dns_get_domain_from_packet m n size off = Ok e (join ls).
Proof.
  intros Hna Hfit. unfold _dns_get_domain_from_packet.
  pose proof (Zlen_nonneg (join ls)) as H0.
  pose proof (get_domain_loop_complete m n size 0 off ls e Hna
                (domain_fuel size) false [] off) as H.
  change (Zlen []) with 0 in H.
  specialize (H ltac:(lia) ltac:(unfold domain_fuel; lia) Hfit).
  unfold wp in H. destruct (_dns_get_domain_loop _ _ _ _ _ _ _ _ _ _); [|done..].
  by destruct H as [-> ->].
Qed.

(** ** Writing: safety *)

Lemma dict_scan_safe c hash names :
  c_maxsize c <= Zlen (c_data c) -> Forall is_byte (c_data c) ->
  exists r, dict_scan c hash names = Ok tt r.
Proof.
  intros Hm Hb. induction names as [|it names IH]; cbn [dict_scan]; [eauto|].
  destruct (negb _); [done|].
  pose proof (get_domain_safe (c_data c) (c_maxsize c) DNS_MAX_CNAME_LEN (d_pos it) Hm Hb) as H.
  unfold wp in H. destruct (_dns_get_domain_from_packet _ _ _ _); [by eexists|by eexists|done|done].
Qed.

Lemma set_cdict_self c : c = set_cdict (c_namedict c) c.
Proof. by destruct c. Qed.

(** Looking a name up touches only the dictionary. *)
Lemma get_domain_offset_safe domain c (Q : dns_context -> Z -> Prop) E :
  c_maxsize c <= Zlen (c_data c) -> Forall is_byte (c_data c) ->
  (forall off dict, Q (set_cdict dict c) off) ->
  wp (_dns_get_domain_offset domain) c Q E.
Proof.
  intros Hm Hb HQ. unfold _dns_get_domain_offset.
  pose proof (HQ (-1) (c_namedict c)) as HQ1. rewrite <- set_cdict_self in HQ1.
  destruct domain as [|ch domain]; [done|].
  do 2 wp_step. wp_step. wp_step.
  destruct (dict_scan_safe c (dict_hash (ch :: domain)) (c_namedict c) Hm Hb) as [r Hr].
  apply (wp_of_ok _ _ _ _ _ _ Hr). destruct r as [pos|].
  - rewrite (set_cdict_self c). apply HQ.
  - wp_step. wp_step. unfold _dns_add_domain_dict. do 2 wp_step.
    repeat (wp_step; wp_step; [|done]). wp_step. apply HQ.
Qed.

(** [ctx_ext lo c c']: [c'] is reached from [c] by writes into
    [lo .. hi-1], pointer and dictionary aside. *)
Definition ctx_ext (lo hi : Z) (c c' : dns_context) : Prop :=
  c_addr c' = c_addr c /\ c_maxsize c' = c_maxsize c /\
  frame lo hi (c_data c) (c_data c') /\ Forall is_byte (c_data c').

Lemma ctx_ext_refl lo hi c : Forall is_byte (c_data c) -> ctx_ext lo hi c c.
Proof. done. Qed.

Lemma ctx_ext_trans lo hi c1 c2 c3 : ctx_ext lo hi c1 c2 -> ctx_ext lo hi c2 c3 -> ctx_ext lo hi c1 c3.
Proof.
  intros (?&?&Hf1&_) (?&?&Hf2&?). unfold ctx_ext.
  split_and!; [congruence|congruence|by eapply frame_trans|done].
Qed.

Lemma ctx_ext_widen lo hi lo' hi' c c' :
  ctx_ext lo hi c c' -> lo' <= lo -> hi <= hi' -> ctx_ext lo' hi' c c'.
Proof. intros (?&?&Hf&?) ? ?. unfold ctx_ext. split_and!; try done; by eapply frame_widen. Qed.

(** Two steps of writing, pointer moves and dictionary updates between them. *)
Lemma ctx_ext_seq lo1 hi1 lo2 hi2 lo hi c1 c2 c3 :
  ctx_ext lo1 hi1 c1 c2 -> ctx_ext lo2 hi2 c2 c3 ->
  lo <= lo1 -> lo <= lo2 -> hi1 <= hi -> hi2 <= hi -> ctx_ext lo hi c1 c3.
Proof. intros. eapply ctx_ext_trans; eapply ctx_ext_widen; eauto. Qed.

Lemma ctx_ext_write lo hi c a bs d :
  wr_bytes (c_data c) a bs = Some d -> lo <= a -> a + Zlen bs <= hi ->
  Forall is_byte (c_data c) -> Forall is_byte bs -> ctx_ext lo hi c (set_cdata d c).
Proof.
  intros Hw ? ? Hc Hb. unfold ctx_ext. cbn.
  split_and!; [done|done|by eapply frame_wr|exact (wr_bytes_byte _ _ _ _ Hc Hb Hw)].
Qed.

Lemma Forall1_byte v : Forall is_byte [u8 v].
Proof. repeat constructor; apply u8_range. Qed.

#[export] Hint Resolve Forall1_byte : cdb.

Lemma encode_end_safe ptr_num num total c :
  0 <= ptr_num < c_ptr c -> c_maxsize c <= Zlen (c_data c) -> Forall is_byte (c_data c) ->
  wp (_dns_encode_domain_end ptr_num num total) c
    (fun c' r => ctx_ext ptr_num (c_ptr c') c c' /\ c_namedict c' = c_namedict c /\
       c_ptr c' < c_maxsize c /\ c_ptr c' = c_ptr c + (r - total) /\
       r = (if 1 <? total then total + 1 else total))
    (fun c' => ctx_ext ptr_num (c_maxsize c) c c' /\ c_ptr c <= c_ptr c').
Proof.
  intros Hp Hm Hb. unfold _dns_encode_domain_end. wp_step. apply wp_left_len. unfold _dns_left_len.
  wp_step. wp_step; [|split; [by apply ctx_ext_refl|lia]].
  wp_step. apply wp_write_at; [lia|change (Zlen [u8 num]) with 1; lia|]. intros d Hd.
  assert (ctx_ext ptr_num (c_ptr c) c (set_cdata d c)) as H1.
  { eapply ctx_ext_write; eauto with cdb; [lia|change (Zlen [u8 num]) with 1; lia]. }
  pose proof (wr_bytes_len _ _ _ _ Hd) as Hl. destruct H1 as (?&?&Hf1&Hb1). cbn in Hb1.
  wp_step. wp_step.
  - do 2 wp_step. wp_step. apply wp_write_at; cbn; [lia|change (Zlen [0]) with 1; lia|].
    intros d2 Hd2. pose proof (wr_bytes_len _ _ _ _ Hd2) as Hl2.
    wp_step. apply wp_add_ptr. wp_step. cbn. wp_step. apply wp_left_len. cbn.
    assert (ctx_ext ptr_num (c_ptr c + 1) c (set_ptr (c_ptr c + 1) (set_cdata d2 c))) as Hx.
    { unfold ctx_ext. cbn. split_and!; [done|done| |].
      - eapply frame_trans; [eapply frame_widen; [exact Hf1|lia..]|].
        eapply frame_wr; [exact Hd2|lia|change (Zlen [0]) with 1; lia].
      - eapply wr_bytes_byte; [exact Hb1| |exact Hd2]. by repeat constructor. }
    wp_step. wp_step; [wp_step|].
    + split; [exact Hx|]. unfold _dns_left_len in *. cbn in *.
      destruct (Z.ltb_spec 1 total); [|lia]. split_and!; done || lia.
    + split; [eapply ctx_ext_widen; [exact Hx|lia..]|cbn; lia].
  - wp_step. wp_step. apply wp_left_len. unfold _dns_left_len. cbn.
    wp_step. wp_step; [wp_step|lia].
    split; [done|]. cbn. destruct (Z.ltb_spec 1 total); [lia|]. split_and!; done || lia.
Qed.

(** The loop writes only between the length byte and the end of the buffer; on
    success what it returns is the number of bytes written since the start. *)
Lemma encode_loop_safe domain : forall ptr_num num total off c,
  Forall is_byte domain -> 0 <= ptr_num < c_ptr c -> 1 <= total ->
  c_maxsize c <= Zlen (c_data c) -> Forall is_byte (c_data c) ->
  (0 <= off -> ptr_num + 1 = c_ptr c) ->
  wp (_dns_encode_domain_loop domain ptr_num num total off) c
    (fun c' r => ctx_ext ptr_num (c_ptr c') c c' /\ c_ptr c' < c_maxsize c /\
       c_ptr c' = c_ptr c + (r - total) /\ c_ptr c <= c_ptr c' /\ r <= total + Zlen domain + 1)
    (fun c' => ctx_ext ptr_num (c_maxsize c) c c' /\ c_ptr c <= c_ptr c').
Proof.
  induction domain as [|ch rest IH]; intros ptr_num num total off c Hd Hp Ht Hm Hb Hoff;
    cbn [_dns_encode_domain_loop].
  { eapply wp_mono; [by apply encode_end_safe| |done].
    intros c' r (?&?&?&?&Hr). rewrite ?Zlen_cons. change (Zlen (@nil Z)) with 0.
    destruct (Z.ltb_spec 1 total); split_and!; done || lia. }
  apply Forall_cons_1 in Hd as [Hch Hrest].
  wp_step. apply wp_left_len. unfold _dns_left_len. wp_step.
  { eapply wp_mono; [by apply encode_end_safe| |done].
    intros c' r (?&?&?&?&Hr). rewrite ?Zlen_cons. pose proof (Zlen_nonneg rest).
    destruct (Z.ltb_spec 1 total); split_and!; done || lia. }
  wp_step; [|wp_step].
  - specialize (Hoff ltac:(lia)). wp_step. wp_step; [|split; [by apply ctx_ext_refl|lia]].
    wp_step. apply wp_write_at; rewrite ?be16_len; [lia..|]. intros d Hd.
    apply (ctx_ext_write ptr_num (c_ptr c + 1)) in Hd; rewrite ?be16_len; try lia; auto with cdb.
    wp_step. apply wp_add_ptr. wp_step. cbn. rewrite Zlen_cons. pose proof (Zlen_nonneg rest). split_and!; done || lia.
  - wp_step. apply wp_write_at; [lia|change (Zlen [u8 num]) with 1; lia|]. intros d Hd.
    pose proof (wr_bytes_len _ _ _ _ Hd) as Hl.
    apply (ctx_ext_write ptr_num (c_ptr c)) in Hd as Hx; auto with cdb;
      try (change (Zlen [u8 num]) with 1); try lia.
    pose proof Hx as (_&_&_&Hb1). cbn in Hb1.
    do 2 wp_step. wp_step. apply wp_add_ptr. wp_step.
    apply get_domain_offset_safe; cbn; [lia|done|]. intros off' dict.
    eapply wp_mono; [apply IH; cbn; done || lia| |]; cbn.
    + intros c' r (Hc'&?&?&?&?). rewrite Zlen_cons. split_and!; try lia. eapply ctx_ext_seq; [exact Hx|exact Hc'|lia..].
    + intros c' [Hc' ?]. split; [eapply ctx_ext_seq; [exact Hx|exact Hc'|lia..]|lia].
  - do 2 wp_step. wp_step. apply wp_write_at; [lia|change (Zlen [ch]) with 1; lia|]. intros d Hd.
    pose proof (wr_bytes_len _ _ _ _ Hd) as Hl.
    apply (ctx_ext_write ptr_num (c_ptr c + 1)) in Hd as Hx;
      try (change (Zlen [ch]) with 1); try lia; [|done|by constructor].
    pose proof Hx as (_&_&_&Hb1). cbn in Hb1.
    wp_step. apply wp_add_ptr.
    eapply wp_mono; [apply IH; cbn; done || lia| |]; cbn.
    + intros c' r (Hc'&?&?&?&?). rewrite Zlen_cons. split_and!; try lia. eapply ctx_ext_seq; [exact Hx|exact Hc'|lia..].
    + intros c' [Hc' ?]. split; [eapply ctx_ext_seq; [exact Hx|exact Hc'|lia..]|lia].
Qed.

Lemma encode_domain_safe domain c :
  Forall is_byte domain -> ctx_wf c ->
  wp (_dns_encode_domain domain) c
    (fun c' r => ctx_ext (c_ptr c) (c_ptr c') c c' /\ c_ptr c' < c_maxsize c /\
       c_ptr c' = c_ptr c + r /\ 1 <= r <= Zlen domain + 2)
    (fun c' => ctx_ext (c_ptr c) (c_maxsize c) c c' /\ c_ptr c <= c_ptr c').
Proof.
  intros Hd (Hp&Hm&Hb). unfold _dns_encode_domain. do 2 wp_step. wp_step. apply wp_add_ptr.
  wp_step. apply get_domain_offset_safe; [done|done|]. intros off dict.
  eapply wp_mono; [apply encode_loop_safe; cbn; done || lia| |]; cbn.
  - intros c' r (?&?&?&?&?). split_and!; done || lia.
  - intros c' [? ?]. split; [done|lia].
Qed.

(** *** The names of the code and those of RFC 1035 *)


Lemma rd8_at m a : 0 <= a -> rd8 m a = m !! Z.to_nat a.
Proof. intros Ha. unfold rd8. by rewrite (proj2 (Z.leb_le 0 a) Ha). Qed.







(** A label of a reserved length is read like any other. *)
Lemma reserved_length_read lab : 64 <= Zlen lab <= 191 -> _dns_get_domain_from_packet (Zlen lab :: lab ++ [0]) (Zlen lab + 2) 256 0 = Ok (Zlen lab + 2) lab.
Proof.
  intros Hl. apply (get_domain_complete _ _ _ _ [lab]); [|cbn [join]; lia]. set (m := Zlen lab :: lab ++ [0]). assert (Zlen m = Zlen lab + 2) as Hm by (subst m; rewrite Zlen_cons, Zlen_app; change (Zlen [0]) with 1; lia).
  apply (name_label _ _ 0 0 (Zlen lab) lab [] (Zlen lab + 2)); [lia|lia|done|lia|lia| |].
  - apply rd_bytes_Some. split_and!; [lia|lia|lia|]. change (Z.to_nat (0 + 1)) with 1%nat. unfold m. cbn [drop]. unfold Zlen. rewrite Nat2Z.id. symmetry. apply take_app_length.
  - replace (Zlen lab + 2) with (0 + 1 + Zlen lab + 1) by lia. apply name_root; [lia|lia|]. rewrite rd8_at by lia. subst m. replace (Z.to_nat (0 + 1 + Zlen lab)) with (S (length lab)) by (unfold Zlen; lia). cbn [lookup list_lookup]. apply list_lookup_middle. done.
Qed.


