(* ===== verification/DnsNameRt.v ===== *)
(** * Writing a name and reading it back (src/dns.c)

    [_dns_encode_domain] writes a name in RFC 1035 form, compressed against
    the names already in the dictionary, and [_dns_get_domain_from_packet]
    reads back the same text.  The dictionary is searched by hash only, so the
    statement is relative to a set [U] of names on which [dict_hash] has no
    collisions; [dict_collision] shows that this is needed. *)

From Stdlib Require Import ZArith Lia.
From stdpp Require Import base list numbers option.
From S2P Require Import Prelude DnsTypes DnsName.

(** ** Labels *)

Definition label_ok (l : list Z) : Prop :=
  0 < Zlen l < 192 /\ Forall (fun b => is_byte b /\ b <> 0 /\ b <> char_dot) l.

Definition labels_ok (ls : list (list Z)) : Prop := Forall label_ok ls.

Lemma label_ok_bytes l : label_ok l -> Forall is_byte l.
Proof. intros [_ H]. eapply Forall_impl; [|exact H]; by intros b [? _]. Qed.

Lemma label_ok_nodot l : label_ok l -> Forall (fun b => b <> char_dot) l.
Proof. intros [_ H]. eapply Forall_impl; [|exact H]; by intros b (_&_&?). Qed.

Lemma label_ok_ne l : label_ok l -> l <> [].
Proof. intros [H _] ->. unfold Zlen in H. cbn in H. lia. Qed.

Lemma join_ne l ls : label_ok l -> join (l :: ls) <> [].
Proof. intros Hl%label_ok_ne. destruct l, ls; done. Qed.

Lemma join_cons l ls : ls <> [] -> join (l :: ls) = l ++ char_dot :: join ls.
Proof. by destruct ls. Qed.

Lemma join_bytes ls : labels_ok ls -> Forall is_byte (join ls).
Proof.
  induction 1 as [|l ls Hl Hls IH]; [constructor|].
  destruct ls as [|l2 ls]; [by apply label_ok_bytes|].
  rewrite join_cons by done. apply Forall_app_2; [by apply label_ok_bytes|].
  constructor; [unfold is_byte, char_dot; lia|done].
Qed.

(** Splitting a text at its first dot. *)
Lemma labels_ok_nonzero ls : labels_ok ls -> Forall (fun b => b <> 0) (join ls).
Proof.
  induction 1 as [|l ls [_ Hl] Hls IH]; [done|].
  assert (Forall (fun b => b <> 0) l) as Hnz by (eapply Forall_impl; [|exact Hl]; by intros b (_&?&_)).
  destruct ls as [|l2 ls]; [done|]. rewrite join_cons by done.
  apply Forall_app_2; [done|]. by constructor.
Qed.

Lemma nodot_split l1 l2 t1 t2 :
  Forall (fun b => b <> char_dot) l1 -> Forall (fun b => b <> char_dot) l2 ->
  l1 ++ char_dot :: t1 = l2 ++ char_dot :: t2 -> l1 = l2 /\ t1 = t2.
Proof.
  intros H1. revert l2. induction H1 as [|x l1 Hx H1 IH]; intros l2 H2 He;
    destruct H2 as [|y l2 Hy H2]; cbn in He; try congruence.
  - split; congruence.
  - injection He as He0 He. destruct (IH l2 H2 He) as [-> ->]. by subst.
Qed.

Lemma nodot_no_dot l1 l2 t2 :
  Forall (fun b => b <> char_dot) l1 -> l1 <> l2 ++ char_dot :: t2.
Proof.
  intros H1 ->. apply Forall_app in H1 as [_ H1]. apply Forall_cons_1 in H1 as [? _]. done.
Qed.

Lemma join_inj ls1 ls2 : labels_ok ls1 -> labels_ok ls2 -> join ls1 = join ls2 -> ls1 = ls2.
Proof.
  intros H1. revert ls2. induction H1 as [|l1 ls1 Hl1 Hls1 IH]; intros ls2 H2 He.
  - destruct H2 as [|l2 ls2 Hl2 _]; [done|]. by destruct (join_ne l2 ls2 Hl2).
  - pose proof (label_ok_nodot _ Hl1) as Hn1.
    destruct H2 as [|l2 ls2 Hl2 Hls2]; [by destruct (join_ne l1 ls1 Hl1)|].
    pose proof (label_ok_nodot _ Hl2) as Hn2.
    destruct ls1 as [|a1 ls1], ls2 as [|a2 ls2].
    + cbn in He. by subst.
    + rewrite (join_cons l2) in He by done. by apply nodot_no_dot in He.
    + rewrite (join_cons l1) in He by done. symmetry in He. by apply nodot_no_dot in He.
    + rewrite !join_cons in He by done. apply nodot_split in He as [-> He]; [|done..].
      f_equal. by apply IH.
Qed.

(** ** Names depend only on the bytes below their bound *)

Definition agree (b : Z) (m m' : list Z) : Prop := forall i, 0 <= i < b -> rd8 m' i = rd8 m i.

(** [name_on S m n j off ls e]: as [name_at], and every byte of the name, the
    pointers and the labels they lead to included, lies in [S]. *)
Inductive name_on (S : Z -> Prop) (m : list Z) (n : Z) : Z -> Z -> list (list Z) -> Z -> Prop :=
| on_root j off :
    0 <= off < n -> j <= 32 -> rd8 m off = Some 0 -> S off -> name_on S m n j off [] (off + 1)
| on_label j off len lab ls e :
    0 <= off < n -> j <= 32 -> rd8 m off = Some len -> 0 < len < 192 ->
    off + 1 + len <= n -> rd_bytes m (off + 1) len = Some lab ->
    (forall i, off <= i < off + 1 + len -> S i) ->
    name_on S m n 0 (off + 1 + len) ls e -> name_on S m n j off (lab :: ls) e
| on_ptr j off hi bs ls e :
    0 <= off -> off + 2 <= n -> j <= 32 -> rd8 m off = Some hi -> 192 <= hi ->
    rd_bytes m off 2 = Some bs -> (forall i, off <= i < off + 2 -> S i) ->
    name_on S m n (j + 1) (Z.land (of_be bs) 16383) ls e -> name_on S m n j off ls (off + 2).

Lemma name_on_at S m n j off ls e : name_on S m n j off ls e -> name_at m n j off ls e.
Proof. induction 1; [by apply name_root|by eapply name_label|by eapply name_ptr]. Qed.

(** Only the bytes in the set and below the bound matter. *)
Lemma name_on_agree (S S' : Z -> Prop) m m' b b' j off ls e :
  name_on S m b j off ls e -> (forall i, 0 <= i < b -> S i -> S' i /\ rd8 m' i = rd8 m i) -> b <= b' ->
  name_on S' m' b' j off ls e.
Proof.
  intros H Ha Hb. induction H as [j off ? ? ? HS|j off len lab ls e ? ? ? ? ? ? HS ? ?|j off hi bs ls e ? ? ? ? ? ? HS ? ?].
  - destruct (Ha off ltac:(lia) HS) as [? He]. apply on_root; [lia|done|by rewrite He|done].
  - apply (on_label S' m' b' j off len); try lia; [| | |done].
    + destruct (Ha off) as [? He]; [lia|apply HS; lia|]. by rewrite He.
    + apply (rd_bytes_agree m); [done|lia|]. intros i Hi. apply Ha; [lia|]. apply HS. lia.
    + intros i Hi. apply Ha; [lia|]. apply HS. lia.
  - apply (on_ptr S' m' b' j off hi bs ls e); try lia; [| | |done].
    + destruct (Ha off) as [? He]; [lia|apply HS; lia|]. by rewrite He.
    + apply (rd_bytes_agree m); [done|lia|]. intros i Hi. apply Ha; [lia|]. apply HS. lia.
    + intros i Hi. apply Ha; [lia|]. apply HS. lia.
Qed.

Lemma name_on_mono S m m' b b' j off ls e :
  name_on S m b j off ls e -> agree b m m' -> b <= b' -> name_on S m' b' j off ls e.
Proof. intros H Ha Hb. eapply name_on_agree; [exact H| |done]. intros i Hi HS. split; [done|by apply Ha]. Qed.

Lemma name_on_j S m b j j' off ls e : name_on S m b j off ls e -> j' <= j -> name_on S m b j' off ls e.
Proof.
  intros H. revert j'. induction H as [| |? ? ? ? ? ? ? ? ? ? ? ? ? ? IH]; intros j' Hj.
  - apply on_root; done || lia.
  - eapply on_label; eauto; lia.
  - eapply on_ptr; eauto; [lia|]. apply IH. lia.
Qed.

(** The pointer [_dns_encode_domain] writes and how it reads back. *)
Lemma ptr_word off : 0 <= off < 16384 ->
  exists lo, be16 (Z.lor 49152 off) = [192 + off / 256; lo] /\
             Z.land (of_be (be16 (Z.lor 49152 off))) 16383 = off.
Proof.
  intros H. rewrite (lor_disjoint 49152 off 14) by (done || lia).
  rewrite of_be16. unfold be16, u16. rewrite !land255, (shiftr_div _ 8 256) by (done || lia).
  eexists. split.
  - f_equal. Z.div_mod_to_equations. lia.
  - change 16383 with (Z.ones 14). rewrite Z.land_ones by lia. change (2 ^ 14) with 16384.
    Z.div_mod_to_equations. lia.
Qed.

(** Reading back the bytes just written. *)
Lemma rd8_wr1 m a b m' : wr_bytes m a [b] = Some m' -> rd8 m' a = Some b.
Proof.
  intros Hw. rewrite (rd8_wr_in _ _ _ _ _ Hw) by (change (Zlen [b]) with 1; lia).
  by rewrite Z.sub_diag.
Qed.

Lemma agree_wr m a bs m' b : wr_bytes m a bs = Some m' -> b <= a -> agree b m m'.
Proof. intros Hw ? i Hi. eapply rd8_wr_out; [done|lia]. Qed.

Lemma agree_trans b m1 m2 m3 : agree b m1 m2 -> agree b m2 m3 -> agree b m1 m3.
Proof. intros H1 H2 i Hi. rewrite H2, H1 by done. done. Qed.

Lemma agree_le b b' m m' : agree b m m' -> b' <= b -> agree b' m m'.
Proof. intros H ? i Hi. apply H. lia. Qed.

Lemma agree_frame lo hi m m' : frame lo hi m m' -> agree lo m m'.
Proof. intros [_ H] i Hi. apply H. lia. Qed.

(** ** The dictionary invariant *)

Section roundtrip.
Context (S : Z -> Prop) (U : list Z -> Prop) (lo : Z).
Hypothesis lo_nonneg : 0 <= lo.
Hypothesis S_from : forall i, lo <= i -> S i.
Hypothesis U_inj : forall a b, U a -> U b -> dict_hash a = dict_hash b -> a = b.
Hypothesis U_suffix : forall l ls, ls <> [] -> U (join (l :: ls)) -> U (join ls).

(** A dictionary item is the hash of the name [full] at its position. *)
Definition item_of (it : dns_packet_dict_item) (full : list (list Z)) : Prop :=
  labels_ok full /\ full <> [] /\ U (join full) /\ d_hash it = dict_hash (join full) /\
  0 <= d_pos it < 16384.

(** The name is already written below [b]. *)
Definition item_good (m : list Z) (b : Z) (it : dns_packet_dict_item) : Prop :=
  exists full e, item_of it full /\ name_on S m b 1 (d_pos it) full e.

(** The name is being written: it will be there once [ls] is at [p]. *)
Definition item_pend (m : list Z) (p : Z) (ls : list (list Z)) (j : Z) (k : nat)
    (it : dns_packet_dict_item) : Prop :=
  exists full, item_of it full /\ (k <= length full)%nat /\
    forall m' b', agree p m m' -> p <= b' -> name_on S m' b' j p ls b' ->
      exists e, name_on S m' b' 1 (d_pos it) full e.

Definition dict_inv m p ls j k (d : list dns_packet_dict_item) : Prop :=
  Forall (fun it => item_good m p it \/ item_pend m p ls j k it) d.

Lemma item_good_mono m b m' b' it : item_good m b it -> agree b m m' -> b <= b' -> item_good m' b' it.
Proof. intros (full&e&?&?) ? ?. exists full, e. split; [done|]. by eapply name_on_mono. Qed.

Lemma dict_inv_good m p ls j k d : Forall (item_good m p) d -> dict_inv m p ls j k d.
Proof. intros H. eapply Forall_impl; [|exact H]. by left. Qed.

Lemma dict_inv_weaken m p ls j j' k k' d :
  dict_inv m p ls j k d -> j <= j' -> (k' <= k)%nat -> dict_inv m p ls j' k' d.
Proof.
  intros H Hj Hk. eapply Forall_impl; [|exact H]. cbn.
  intros it [Hg|(full&?&?&Hp)]; [by left|right]. exists full. split_and!; [done|lia|].
  intros m' b' ? ? Hn. eapply Hp; [done..|]. by eapply name_on_j.
Qed.

(** Once the pending name is written, every item is good. *)
Lemma dict_inv_done m p ls j k d m' b' :
  dict_inv m p ls j k d -> agree p m m' -> p <= b' -> name_on S m' b' j p ls b' ->
  Forall (item_good m' b') d.
Proof.
  intros H Ha Hb Hn. eapply Forall_impl; [|exact H]. cbn.
  intros it [Hg|(full&?&?&Hp)]; [by eapply item_good_mono|].
  destruct (Hp m' b' Ha Hb Hn) as [e ?]. by exists full, e.
Qed.

(** Writing one label moves the obligation to the rest of the name. *)
Lemma dict_inv_label m p lab ls j k d m2 :
  dict_inv m p (lab :: ls) j k d -> lo <= p -> agree p m m2 -> label_ok lab -> j <= 32 ->
  rd8 m2 p = Some (Zlen lab) -> rd_bytes m2 (p + 1) (Zlen lab) = Some lab ->
  dict_inv m2 (p + 1 + Zlen lab) ls 0 k d.
Proof.
  intros H Hp Ha [Hl _] Hj Hb Hbs. eapply Forall_impl; [|exact H]. cbn.
  intros it [Hg|(full&Hit&Hk&Hpd)]; [left; eapply item_good_mono; eauto; lia|right].
  exists full. split_and!; [done|done|]. intros m' b' Ha' Hb' Hn.
  apply Hpd; [|lia|].
  - intros i Hi. rewrite Ha' by lia. apply Ha. lia.
  - apply (on_label S m' b' j p (Zlen lab)); try lia; try (intros; apply S_from; lia); [by rewrite Ha' by lia| |done].
    apply (rd_bytes_agree m2); [done|lia|]. intros i Hi. apply Ha'. lia.
Qed.

Lemma pend_self m p ls hash :
  labels_ok ls -> ls <> [] -> U (join ls) -> hash = dict_hash (join ls) -> lo <= p < 16384 ->
  item_pend m p ls 1 (length ls) (mk_dict_item (u16 p) hash).
Proof.
  intros. exists ls. unfold item_of. cbn. rewrite u16_small by lia.
  split_and!; try done; try lia. intros m' b' _ _ Hn. by exists b'.
Qed.

(** The scan finds a complete earlier occurrence of the same name, or nothing. *)
Lemma dict_scan_spec c p ls d :
  labels_ok ls -> U (join ls) -> p <= c_maxsize c -> c_maxsize c <= Zlen (c_data c) ->
  Forall is_byte (c_data c) -> dict_inv (c_data c) p ls 0 (Datatypes.S (length ls)) d ->
  exists r, dict_scan c (dict_hash (join ls)) d = Ok tt r /\
    match r with
    | None => True
    | Some off => off = -1 \/ 0 <= off < 16384 /\ exists e, name_on S (c_data c) p 1 off ls e
    end.
Proof.
  intros Hls HU Hp Hm Hb. induction 1 as [|it d Hit Hd IH]; cbn [dict_scan]; [by exists None|].
  destruct (negb _) eqn:Hh; [done|]. bools.
  pose proof (get_domain_safe (c_data c) (c_maxsize c) DNS_MAX_CNAME_LEN (d_pos it) Hm Hb) as Hs.
  unfold wp in Hs. destruct (_dns_get_domain_from_packet _ _ _ _); [|by exists (Some (-1)); eauto|done..].
  exists (Some (d_pos it)). split; [done|]. right.
  assert (forall full, item_of it full -> full = ls) as Heq.
  { intros full (Hf1&_&Hf3&Hf4&_). apply join_inj; [done..|]. apply U_inj; [done..|]. congruence. }
  destruct Hit as [(full&e&Hf&Hn)|(full&Hf&Hk&_)]; pose proof (Heq full Hf); subst full.
  - split; [by destruct Hf as (_&_&_&_&?)|]. eauto.
  - lia.
Qed.

Lemma get_domain_offset_spec c p ls E :
  labels_ok ls -> ls <> [] -> U (join ls) -> lo <= p -> c_ptr c = p + 1 -> p <= c_maxsize c ->
  c_maxsize c <= Zlen (c_data c) -> c_maxsize c <= 16384 -> Forall is_byte (c_data c) ->
  dict_inv (c_data c) p ls 0 (Datatypes.S (length ls)) (c_namedict c) ->
  wp (_dns_get_domain_offset (join ls)) c
    (fun c' off => exists d', c' = set_cdict d' c /\
      (off = -1 /\ dict_inv (c_data c) p ls 1 (length ls) d' \/
       0 <= off < 16384 /\ (exists e, name_on S (c_data c) p 1 off ls e) /\
       dict_inv (c_data c) p ls 0 (length ls) d')) E.
Proof.
  intros Hls Hne HU Hp Hptr Hpm Hm Hmax Hb Hd. unfold _dns_get_domain_offset.
  assert (exists ch t, join ls = ch :: t) as (ch&t&Hj).
  { destruct Hls as [|l ls Hl]; [done|]. pose proof (join_ne l ls Hl).
    destruct (join (l :: ls)); [done|eauto]. }
  rewrite Hj, <- Hj. do 2 wp_step. wp_step. wp_step.
  destruct (dict_scan_spec c p ls (c_namedict c)) as (r&Hr&Hcase); [done..|].
  apply (wp_of_ok _ _ _ _ _ _ Hr). destruct r as [off|].
  - wp_step. exists (c_namedict c). split; [apply set_cdict_self|].
    destruct Hcase as [->|[? ?]]; [left|right]; repeat (split; [done|]);
      eapply dict_inv_weaken; eauto; lia.
  - wp_step. wp_step.
    assert (dict_inv (c_data c) p ls 1 (length ls) (c_namedict c)) as Hd1
      by (eapply dict_inv_weaken; eauto; lia).
    assert (exists d' : list dns_packet_dict_item, c = set_cdict d' c /\
      (-1 = -1 /\ dict_inv (c_data c) p ls 1 (length ls) d' \/
       0 <= -1 < 16384 /\ (exists e, name_on S (c_data c) p 1 (-1) ls e) /\
       dict_inv (c_data c) p ls 0 (length ls) d')) as Hsame.
    { exists (c_namedict c). split; [apply set_cdict_self|]. by left. }
    unfold _dns_add_domain_dict. do 2 wp_step. do 3 (wp_step; wp_step; [|by wp_step]).
    wp_step. wp_step. eexists. split; [done|]. left. split; [done|].
    apply Forall_app_2; [done|]. constructor; [right|constructor].
    replace (c_ptr c - 1) with p by lia. apply pend_self; done || lia.
Qed.

(** ** The encoding loop *)

(** With at most one byte left, a loop that has written something fails. *)
Lemma encode_end_full ptr_num num total c Q (P : Prop) :
  0 <= ptr_num < c_ptr c -> c_maxsize c <= Zlen (c_data c) -> 1 < total ->
  _dns_left_len c <= 1 -> P ->
  wp (_dns_encode_domain_end ptr_num num total) c Q (fun _ => P).
Proof.
  unfold _dns_left_len. intros Hp Hm Ht Hl HP. unfold _dns_encode_domain_end.
  wp_step. apply wp_left_len. unfold _dns_left_len. wp_step. wp_step; [|done].
  wp_step. apply wp_write_at; [lia|change (Zlen [u8 num]) with 1; lia|]. intros d Hd.
  pose proof (wr_bytes_len _ _ _ _ Hd).
  wp_step. wp_step; [|lia]. do 2 wp_step. wp_step.
  apply wp_write_at; cbn; [lia|change (Zlen [0]) with 1; lia|]. intros d2 Hd2.
  wp_step. apply wp_add_ptr. wp_step. wp_step. apply wp_left_len. unfold _dns_left_len. cbn.
  wp_step. wp_step; [lia|done].
Qed.

(** Label characters, one at a time; the length byte is written last. *)
Lemma encode_char ch tail ptr_num num total c Q (P : Prop) :
  ch <> char_dot -> 0 <= ptr_num < c_ptr c -> c_maxsize c <= Zlen (c_data c) ->
  1 < total \/ 1 < _dns_left_len c -> (_dns_left_len c <= 1 -> P) ->
  (forall d, 1 < _dns_left_len c -> wr_bytes (c_data c) (c_ptr c) [ch] = Some d ->
     wp (_dns_encode_domain_loop tail ptr_num (num + 1) (total + 1) (-1))
        (set_ptr (c_ptr c + 1) (set_cdata d c)) Q (fun _ => P)) ->
  wp (_dns_encode_domain_loop (ch :: tail) ptr_num num total (-1)) c Q (fun _ => P).
Proof.
  intros Hch Hp Hm Ht HP HK. cbn [_dns_encode_domain_loop]. wp_step. apply wp_left_len.
  wp_step; [apply encode_end_full; auto; lia|]. wp_step; [lia|]. wp_step; [done|].
  do 2 wp_step. wp_step. unfold _dns_left_len in *.
  apply wp_write_at; [lia|change (Zlen [ch]) with 1; lia|]. intros d Hd.
  wp_step. apply wp_add_ptr. by apply HK.
Qed.

Lemma encode_chars lab : forall tail ptr_num num total c Q (P : Prop),
  lab <> [] -> Forall (fun b => b <> char_dot) lab -> 0 <= ptr_num < c_ptr c ->
  c_maxsize c <= Zlen (c_data c) -> 1 <= total -> 1 < total \/ 1 < _dns_left_len c ->
  (_dns_left_len c <= Zlen lab -> P) ->
  (forall d, Zlen lab < _dns_left_len c -> wr_bytes (c_data c) (c_ptr c) lab = Some d ->
     wp (_dns_encode_domain_loop tail ptr_num (num + Zlen lab) (total + Zlen lab) (-1))
        (set_ptr (c_ptr c + Zlen lab) (set_cdata d c)) Q (fun _ => P)) ->
  wp (_dns_encode_domain_loop (lab ++ tail) ptr_num num total (-1)) c Q (fun _ => P).
Proof.
  induction lab as [|ch lab IH]; intros tail ptr_num num total c Q P Hne Hn Hp Hm Ht Ht1 HP HK; [done|].
  apply Forall_cons_1 in Hn as [Hch Hn]. rewrite Zlen_cons in *. pose proof (Zlen_nonneg lab).
  cbn [app]. apply encode_char; [done..|intros; apply HP; lia|]. intros d Hl Hd.
  pose proof (wr_bytes_len _ _ _ _ Hd) as Hlen. unfold _dns_left_len in *.
  destruct lab as [|ch2 lab].
  { cbn [app]. rewrite Zlen_nil in HK. by apply HK. }
  apply IH; cbn; try done; try lia; [intros; apply HP; lia|].
  intros d2 Hl2 Hd2. rewrite <- !Z.add_assoc. apply (HK d2); [lia|].
  eapply (wr_bytes_app _ _ [ch] (ch2 :: lab)); done.
Qed.

(** A whole label: its characters, then its length byte in front. *)
Lemma label_written m p lab d d2 :
  label_ok lab -> Forall is_byte m -> wr_bytes m (p + 1) lab = Some d ->
  wr_bytes d p [u8 (0 + Zlen lab)] = Some d2 ->
  rd8 d2 p = Some (Zlen lab) /\ rd_bytes d2 (p + 1) (Zlen lab) = Some lab /\
  agree p m d2 /\ Zlen d2 = Zlen m /\ Forall is_byte d2.
Proof.
  intros Hlab Hb Hd Hd2. pose proof Hlab as [Hl _].
  pose proof (rd8_wr1 _ _ _ _ Hd2) as Hr. rewrite Z.add_0_l, u8_small in Hr by lia.
  split_and!; [done| | | |].
  - rewrite (rd_bytes_wr_out _ _ _ _ _ _ Hd2) by (change (Zlen [_]) with 1; lia).
    by apply rd_bytes_wr_same in Hd.
  - eapply agree_trans; [eapply agree_wr; [exact Hd|lia]|eapply agree_wr; [exact Hd2|lia]].
  - apply wr_bytes_len in Hd, Hd2. lia.
  - eapply wr_bytes_byte; [|apply Forall1_byte|exact Hd2].
    eapply wr_bytes_byte; [done|by apply label_ok_bytes|exact Hd].
Qed.

(** What a successful loop leaves behind. *)
Definition enc_post (p j : Z) (ls : list (list Z)) (c' : dns_context) : Prop :=
  name_on S (c_data c') (c_ptr c') j p ls (c_ptr c') /\
  Forall (item_good (c_data c') (c_ptr c')) (c_namedict c').

Lemma encode_last_label p lab total c k (P : Prop) :
  label_ok lab -> lo <= p -> c_ptr c = p + 1 -> c_maxsize c <= Zlen (c_data c) ->
  Forall is_byte (c_data c) -> 1 <= total -> 1 < total \/ 1 < _dns_left_len c ->
  (_dns_left_len c <= Zlen lab + 1 -> P) ->
  dict_inv (c_data c) p [lab] 1 k (c_namedict c) ->
  wp (_dns_encode_domain_loop lab p 0 total (-1)) c (fun c' _ => enc_post p 1 [lab] c') (fun _ => P).
Proof.
  intros Hlab Hp Hptr Hm Hb Ht Ht1 HP Hd. rewrite <- (app_nil_r lab) at 1.
  apply encode_chars; try done; try lia; [by apply label_ok_ne|by apply label_ok_nodot|
    intros; apply HP; lia|].
  intros d Hl Hw. rewrite Hptr in Hw. unfold _dns_left_len in *. pose proof Hlab as [Hlen _].
  pose proof (wr_bytes_len _ _ _ _ Hw) as Hlw.
  cbn [_dns_encode_domain_loop]. unfold _dns_encode_domain_end.
  wp_step. apply wp_left_len. unfold _dns_left_len. cbn. wp_step. wp_step; [|apply HP; lia].
  wp_step. apply wp_write_at; cbn; [lia|change (Zlen [_]) with 1; lia|]. intros d2 Hw2.
  pose proof (wr_bytes_len _ _ _ _ Hw2) as Hlw2.
  destruct (label_written _ _ _ _ _ Hlab Hb Hw Hw2) as (Hr&Hrb&Ha&Hl2&Hb2).
  wp_step. wp_step; [|lia]. do 2 wp_step. wp_step.
  apply wp_write_at; cbn; [lia|change (Zlen [_]) with 1; lia|]. intros d3 Hw3.
  wp_step. apply wp_add_ptr. wp_step. wp_step. apply wp_left_len. unfold _dns_left_len. cbn.
  wp_step. wp_step; [|apply HP; lia]. wp_step. unfold enc_post. cbn.
  rewrite Hptr in *. assert (agree (p + 1 + Zlen lab) d2 d3) as Ha3 by (eapply agree_wr; [exact Hw3|lia]).
  assert (name_on S d3 (p + 1 + Zlen lab + 1) 1 p [lab] (p + 1 + Zlen lab + 1)) as Hn.
  { apply (on_label S d3 _ 1 p (Zlen lab)); try lia; try (intros; apply S_from; lia); [by rewrite Ha3 by lia| |].
    - apply (rd_bytes_agree d2); [done|lia|]. intros i Hi. apply Ha3. lia.
    - apply on_root; [lia..| |apply S_from; lia]. by eapply rd8_wr1. }
  split; [done|]. eapply dict_inv_done; [exact Hd| |lia|exact Hn].
  eapply agree_trans; [exact Ha|]. eapply agree_le; [exact Ha3|lia].
Qed.

(** The rest of the name is in the packet already: a pointer ends the name. *)
Lemma encode_pointer p ls total off c k e (P : Prop) :
  ls <> [] -> labels_ok ls -> lo <= p -> c_ptr c = p + 1 -> c_maxsize c <= Zlen (c_data c) ->
  1 < total \/ 1 < _dns_left_len c -> (_dns_left_len c <= Zlen (join ls) + 1 -> P) ->
  0 <= off < 16384 -> name_on S (c_data c) p 1 off ls e ->
  dict_inv (c_data c) p ls 0 k (c_namedict c) ->
  wp (_dns_encode_domain_loop (join ls) p 0 total off) c (fun c' _ => enc_post p 0 ls c') (fun _ => P).
Proof.
  intros Hne Hls Hp Hptr Hm Ht HP Hoff Hn Hd.
  destruct Hls as [|l ls Hl]; [done|]. pose proof (join_ne l ls Hl) as Hj.
  pose proof (Zlen_nonneg (join (l :: ls))).
  destruct (join (l :: ls)) as [|ch t]; [done|]. cbn [_dns_encode_domain_loop].
  wp_step. apply wp_left_len.
  wp_step; [apply encode_end_full; try done; try lia; apply HP; lia|]. wp_step; [|lia]. wp_step. wp_step; [|lia].
  unfold _dns_left_len in *.
  wp_step. apply wp_write_at; rewrite ?be16_len; [lia..|]. intros d Hw.
  wp_step. apply wp_add_ptr. wp_step. unfold enc_post. cbn. rewrite Hptr.
  destruct (ptr_word off Hoff) as (lob&Hbe&Hland).
  assert (agree p (c_data c) d) as Ha by (eapply agree_wr; [exact Hw|lia]).
  assert (rd_bytes d p 2 = Some (be16 (Z.lor 49152 off))) as Hr.
  { apply rd_bytes_wr_same in Hw. by rewrite be16_len in Hw. }
  assert (name_on S d (p + 1 + 1) 0 p (l :: ls) (p + 1 + 1)) as Hna.
  { replace (p + 1 + 1) with (p + 2) by lia.
    apply (on_ptr S d (p + 2) 0 p (192 + off / 256) (be16 (Z.lor 49152 off)) (l :: ls) e); try lia; try (intros; apply S_from; lia).
    - rewrite (rd8_wr_in _ _ _ _ _ Hw), Z.sub_diag, Hbe by (rewrite be16_len; lia). done.
    - Z.div_mod_to_equations. lia.
    - exact Hr.
    - rewrite Hland. eapply name_on_mono; [exact Hn|exact Ha|lia]. }
  split; [done|]. eapply dict_inv_done; [exact Hd|exact Ha|lia|exact Hna].
Qed.

(** A label followed by more labels, up to the dictionary lookup of the rest. *)
Lemma encode_label_dot lab rest p total c Q (P : Prop) :
  label_ok lab -> lo <= p -> c_ptr c = p + 1 -> c_maxsize c <= Zlen (c_data c) ->
  Forall is_byte (c_data c) -> 1 <= total -> 1 < total \/ 1 < _dns_left_len c ->
  (_dns_left_len c <= Zlen lab + 1 -> P) ->
  (forall d2, rd8 d2 p = Some (Zlen lab) -> rd_bytes d2 (p + 1) (Zlen lab) = Some lab ->
     agree p (c_data c) d2 -> Zlen d2 = Zlen (c_data c) -> Forall is_byte d2 ->
     Zlen lab + 1 < _dns_left_len c ->
     wp (off <- _dns_get_domain_offset rest ;;
         _dns_encode_domain_loop rest (p + 1 + Zlen lab) 0 (total + Zlen lab + 1) off)
       (set_ptr (p + 1 + Zlen lab + 1) (set_cdata d2 c)) Q (fun _ => P)) ->
  wp (_dns_encode_domain_loop (lab ++ char_dot :: rest) p 0 total (-1)) c Q (fun _ => P).
Proof.
  intros Hlab Hp Hptr Hm Hb Ht Ht1 HP HK. pose proof Hlab as [Hlen _].
  apply encode_chars; try done; try lia; [by apply label_ok_ne|by apply label_ok_nodot|
    intros; apply HP; lia|].
  intros d Hl Hw. rewrite Hptr in *. pose proof (wr_bytes_len _ _ _ _ Hw) as Hlw.
  unfold _dns_left_len in *.
  cbn [_dns_encode_domain_loop]. wp_step. apply wp_left_len. unfold _dns_left_len. cproj.
  wp_step; [apply encode_end_full; unfold _dns_left_len; cproj; try lia; apply HP; lia|].
  wp_step; [lia|]. wp_step; [|done].
  wp_step. apply wp_write_at; cproj; [lia|change (Zlen [_]) with 1; lia|]. intros d2 Hw2.
  destruct (label_written _ _ _ _ _ Hlab Hb Hw Hw2) as (Hr&Hrb&Ha&Hl2&Hb2).
  do 2 wp_step. wp_step. apply wp_add_ptr. cproj.
  apply (HK d2); try done; lia.
Qed.

(** All labels. *)
Lemma encode_labels ls : forall lab p total off c (P : Prop),
  labels_ok (lab :: ls) -> U (join (lab :: ls)) -> lo <= p -> c_ptr c = p + 1 ->
  c_maxsize c <= Zlen (c_data c) -> c_maxsize c <= 16384 -> Forall is_byte (c_data c) ->
  1 <= total -> 1 < total \/ 1 < _dns_left_len c ->
  (_dns_left_len c <= Zlen (join (lab :: ls)) + 1 -> P) ->
  (off = -1 /\ dict_inv (c_data c) p (lab :: ls) 1 (length (lab :: ls)) (c_namedict c) \/
   0 <= off < 16384 /\ (exists e, name_on S (c_data c) p 1 off (lab :: ls) e) /\
   dict_inv (c_data c) p (lab :: ls) 0 (length (lab :: ls)) (c_namedict c)) ->
  wp (_dns_encode_domain_loop (join (lab :: ls)) p 0 total off) c
    (fun c' _ => enc_post p 0 (lab :: ls) c') (fun _ => P).
Proof.
  induction ls as [|lab2 ls IH]; intros lab p total off c P Hls HU Hp Hptr Hm Hmax Hb Ht Ht1 HP
    [[-> Hd]|(Hoff&[e Hn]&Hd)]; try (eapply encode_pointer; eauto; done);
    apply Forall_cons_1 in Hls as [Hlab Hls].
  - eapply wp_mono; [eapply encode_last_label; eauto| |done].
    intros c' _ [Hn ?]. split; [|done]. eapply name_on_j; [exact Hn|lia].
  - assert (U (join (lab2 :: ls))) as HU2 by (by eapply U_suffix, HU).
    rewrite join_cons in * by done. rewrite Zlen_app, Zlen_cons in HP.
    pose proof (Zlen_nonneg (join (lab2 :: ls))) as Hj0. pose proof Hlab as [Hlen _].
    apply encode_label_dot; try done; [intros; apply HP; lia|].
    intros d2 Hr Hrb Ha Hl2 Hb2 Hl. unfold _dns_left_len in *. wp_step.
    apply (wp_mono _ _ _ _ (fun _ => P) _ (get_domain_offset_spec
      (set_ptr (p + 1 + Zlen lab + 1) (set_cdata d2 c)) (p + 1 + Zlen lab) (lab2 :: ls) _
      Hls ltac:(done) HU2 ltac:(lia) ltac:(cproj; lia) ltac:(cproj; lia) ltac:(cproj; lia)
      Hmax Hb2 (dict_inv_label _ _ _ _ _ _ _ _ Hd Hp Ha Hlab ltac:(lia) Hr Hrb))); [|done].
    cproj. intros c3 off' (d'&->&Hcase).
    eapply wp_mono; [eapply wp_conj; [apply (IH lab2 (p + 1 + Zlen lab) _ off' _ P); cproj; try done; try lia;
        intros; apply HP; lia
      |apply encode_loop_safe; cproj; try done; try lia; by apply join_bytes]| |by intros ? [? ?]].
    cproj. intros c' r [[Hn Hgood] [(_&_&Hf&_) _]]. split; [|done].
    apply agree_frame in Hf. cproj in *. pose proof (name_at_le_n _ _ _ _ _ _ (name_on_at _ _ _ _ _ _ _ Hn)) as Hb'.
    apply (on_label S _ _ 0 p (Zlen lab)); try lia; try (intros; apply S_from; lia); [by rewrite Hf by lia| |done].
    apply (rd_bytes_agree d2); [done|lia|]. intros i Hi. apply Hf. lia.
Qed.

(** The empty name is one zero byte. *)
Lemma encode_root c :
  ctx_wf c -> lo <= c_ptr c -> Forall (item_good (c_data c) (c_ptr c)) (c_namedict c) ->
  wp (_dns_encode_domain []) c (fun c' _ => enc_post (c_ptr c) 0 [] c')
    (fun _ => _dns_left_len c < 2).
Proof.
  intros (Hp&Hm&Hb) Hlo Hd. unfold _dns_encode_domain. do 2 wp_step. wp_step. apply wp_add_ptr. cproj.
  wp_step. cbn [_dns_get_domain_offset]. wp_step.
  cbn [_dns_encode_domain_loop]. unfold _dns_encode_domain_end.
  wp_step. apply wp_left_len. unfold _dns_left_len. cproj. wp_step. wp_step; [|lia].
  wp_step. apply wp_write_at; cproj; [lia|change (Zlen [_]) with 1; lia|]. intros d Hw.
  wp_step. wp_step; [lia|]. wp_step. wp_step. apply wp_left_len. unfold _dns_left_len. cproj.
  wp_step. wp_step; [|lia]. wp_step. unfold enc_post. cproj.
  assert (name_on S d (c_ptr c + 1) 0 (c_ptr c) [] (c_ptr c + 1)) as Hn.
  { apply on_root; [lia..| |apply S_from; lia]. by apply rd8_wr1 in Hw. }
  split; [done|]. eapply Forall_impl; [|exact Hd]. intros it Hg.
  eapply item_good_mono; [exact Hg|eapply agree_wr; [exact Hw|lia]|lia].
Qed.

Lemma encode_domain_post ls c :
  labels_ok ls -> (ls <> [] -> U (join ls)) -> ctx_wf c -> lo <= c_ptr c -> c_maxsize c <= 16384 ->
  Forall (item_good (c_data c) (c_ptr c)) (c_namedict c) ->
  ls = [] \/ 2 < _dns_left_len c ->
  wp (_dns_encode_domain (join ls)) c (fun c' _ => enc_post (c_ptr c) 0 ls c')
    (fun _ => _dns_left_len c < Zlen (join ls) + 3).
Proof.
  intros Hls HU Hwf Hlo Hmax Hd Hroom. destruct ls as [|lab ls].
  { eapply wp_mono; [by apply encode_root|done|]. intros s. cbv beta.
    change (Zlen (join [])) with 0. lia. }
  destruct Hroom as [|Hroom]; [done|]. specialize (HU ltac:(done)).
  pose proof Hwf as (Hp&Hm&Hb). unfold _dns_left_len in *.
  unfold _dns_encode_domain. do 2 wp_step. wp_step. apply wp_add_ptr. cproj. wp_step.
  set (P := c_maxsize c - c_ptr c < Zlen (join (lab :: ls)) + 3).
  apply (wp_mono _ _ _ _ (fun _ => P) _ (get_domain_offset_spec
    (set_ptr (c_ptr c + 1) c) (c_ptr c) (lab :: ls) _ Hls ltac:(done) HU Hlo
    ltac:(done) ltac:(cproj; lia) Hm Hmax Hb (dict_inv_good _ _ _ _ _ _ Hd))); [|done].
  cproj. intros c2 off (d'&->&Hcase).
  apply (encode_labels ls lab (c_ptr c) 1 off _ P); unfold _dns_left_len, P; cproj; try done; lia.
Qed.

End roundtrip.

(** ** Statements about the code *)

(** A set of names on which the dictionary hash does not collide, closed under
    taking the rest of a name. *)
Definition hash_faithful (U : list Z -> Prop) : Prop :=
  (forall a b, U a -> U b -> dict_hash a = dict_hash b -> a = b) /\
  (forall l ls, ls <> [] -> U (join (l :: ls)) -> U (join ls)).

(** The dictionary of a context leads to complete names, whose bytes all lie in
    [S]. *)
Definition dict_good (S : Z -> Prop) (U : list Z -> Prop) (c : dns_context) : Prop :=
  Forall (item_good S U (c_data c) (c_ptr c)) (c_namedict c).

(** Encoding succeeds when there is room, and then the name and every
    dictionary item is complete. *)
Lemma encode_domain_ok S U ls c :
  hash_faithful U -> (forall i, c_ptr c <= i -> S i) -> labels_ok ls -> (ls <> [] -> U (join ls)) ->
  ctx_wf c -> c_maxsize c <= 16384 -> dict_good S U c -> ls = [] \/ 2 < _dns_left_len c ->
  wp (_dns_encode_domain (join ls)) c
    (fun c' r => name_on S (c_data c') (c_ptr c') 0 (c_ptr c) ls (c_ptr c') /\ dict_good S U c' /\
       c_ptr c' = c_ptr c + r)
    (fun _ => _dns_left_len c < Zlen (join ls) + 3).
Proof.
  intros [HU1 HU2] HS Hls HU Hwf Hmax Hd Hroom. pose proof Hwf as (Hp&_).
  eapply wp_mono; [eapply wp_conj; [apply (encode_domain_post S U (c_ptr c)); done || lia|
    apply encode_domain_safe; [by apply join_bytes|done]]| |].
  - intros c' r [[? ?] (_&_&?&_)]. done.
  - intros c' [? _]. done.
Qed.

(** C7: a name that is encoded can be decoded.  When the labels have 1 to 191 bytes
    without a zero byte or dot, the text has at most 254 bytes, there is room for it
    uncompressed, the packet has at most 16 KiB, the compression dictionary of the
    context leads to complete names, and no two of these names and of those the name
    ends in have the same hash (otherwise: [dict_hash_collision]),
    [_dns_encode_domain] succeeds, returns the number
    of bytes it wrote, leaves a dictionary that again leads to complete names,
    and [_dns_get_domain_from_packet] reads the same name back and stops right
    behind it, whether the name was written in full or as a pointer. *)
Theorem encode_decode_name U ls c :
  hash_faithful U -> labels_ok ls -> (ls <> [] -> U (join ls)) -> Zlen (join ls) <= 254 ->
  ctx_wf c -> c_maxsize c <= 16384 -> dict_good (fun _ => True) U c ->
  Zlen (join ls) + 3 <= _dns_left_len c ->
  exists c' r,
    _dns_encode_domain (join ls) c = Ok c' r /\ r = c_ptr c' - c_ptr c /\
    dict_good (fun _ => True) U c' /\
    forall n, c_ptr c' <= n ->
      _dns_get_domain_from_packet (c_data c') n DNS_MAX_CNAME_LEN (c_ptr c) = Ok (c_ptr c') (join ls).
Proof.
  intros HUf Hls HU Hlen Hwf Hmax Hd Hroom. pose proof (Zlen_nonneg (join ls)).
  pose proof (encode_domain_ok (fun _ => True) U ls c HUf ltac:(done) Hls HU Hwf Hmax Hd ltac:(right; lia)) as H1.
  unfold wp in H1. destruct (_dns_encode_domain (join ls) c) as [c' r|c'| |]; [|lia|done..].
  destruct H1 as (Hn&Hg&?). exists c', r. split_and!; [done|lia|done|]. intros n Hn'.
  apply get_domain_complete; [|unfold DNS_MAX_CNAME_LEN; lia].
  eapply name_on_at, name_on_mono; [exact Hn|done|done].
Qed.

(** "b" behind an already encoded "a". *)
Definition example_context : dns_context :=
  mk_dns_context [mk_dict_item 12 97] 0 (replicate 12 0 ++ [1; 97; 0] ++ replicate 49 0) 64 15.

Definition a_or_b (s : list Z) : Prop := s = [97] \/ s = [98].

Lemma a_or_b_faithful : hash_faithful a_or_b.
Proof.
  split; [intros a b [-> | ->] [-> | ->] H; done|]. intros l ls Hls H. exfalso. unfold a_or_b in H.
  rewrite join_cons in H by done. destruct l as [|x [|y l]]; by destruct H.
Qed.

Lemma encode_decode_name_witness :
  dict_good (fun _ => True) a_or_b example_context /\
  exists c' r, _dns_encode_domain [98] example_context = Ok c' r /\ r = c_ptr c' - 15 /\
    dict_good (fun _ => True) a_or_b c' /\
    forall n, c_ptr c' <= n ->
      _dns_get_domain_from_packet (c_data c') n DNS_MAX_CNAME_LEN 15 = Ok (c_ptr c') [98].
Proof.
  assert (dict_good (fun _ => True) a_or_b example_context) as Hd.
  { repeat constructor. exists [[97]], 15. split.
    - unfold item_of. split_and!; try done; [repeat constructor; done|by left].
    - apply (on_label _ _ _ 1 12 1); try done. apply on_root; done. }
  split; [exact Hd|].
  apply (encode_decode_name a_or_b [[98]] example_context); [apply a_or_b_faithful|repeat constructor; done|
    by right|vm_compute; discriminate| |vm_compute; discriminate|exact Hd|vm_compute; discriminate].
  unfold ctx_wf. cbn. split; [lia|]. split; [vm_compute; discriminate|]. repeat constructor; done.
Defined.

(** ** Collisions of the hash *)

Lemma name_at_on m n j off ls e : name_at m n j off ls e -> name_on (fun _ => True) m n j off ls e.
Proof. induction 1; [by apply on_root|by eapply on_label|by eapply on_ptr]. Qed.

(** C38: the dictionary compares hashes only.  Let [it] be the first item of the
    dictionary with the hash of the name [b], and let the name [ls] be at its position.
    Then [_dns_encode_domain] of [b] writes a pointer to it, and what is read back is
    [ls], whether or not it is the name that was to be written: two names with the same
    hash are taken for the same name. *)
Theorem dict_hash_collision c pre it post ls e b :
  ctx_wf c -> c_namedict c = pre ++ it :: post -> Forall (fun i => d_hash i <> dict_hash b) pre -> d_hash it = dict_hash b ->
  0 <= d_pos it < 16384 -> name_at (c_data c) (c_ptr c) 1 (d_pos it) ls e -> Zlen (join ls) <= 254 -> b <> [] -> 3 <= _dns_left_len c ->
  exists c', _dns_encode_domain b c = Ok c' 2 /\ c_ptr c' = c_ptr c + 2 /\
    forall n, c_ptr c' <= n -> _dns_get_domain_from_packet (c_data c') n DNS_MAX_CNAME_LEN (c_ptr c) = Ok (c_ptr c') (join ls).
Proof.
  intros (Hp&Hm&Hb) Hd Hpre Hit Hpos Hna%name_at_on Hlen Hne Hroom. unfold _dns_left_len in Hroom.
  assert (name_at (c_data c) (c_maxsize c) 0 (d_pos it) ls e) as Hat by (eapply name_on_at, name_on_j; [eapply name_on_mono; [exact Hna|done|lia]|lia]).
  assert (dict_scan (set_ptr (c_ptr c + 1) c) (dict_hash b) (c_namedict c) = Ok tt (Some (d_pos it))) as Hscan.
  { rewrite Hd. clear Hd. induction Hpre as [|i pre Hi Hpre IH]; cbn [app dict_scan]; [|apply Z.eqb_neq in Hi; by rewrite Hi]. rewrite Hit, Z.eqb_refl. cbn [negb c_data c_maxsize set_ptr]. rewrite (get_domain_complete _ _ _ _ _ _ Hat); [done|unfold DNS_MAX_CNAME_LEN; lia]. }
  assert (wp (_dns_encode_domain b) c (fun c' r => r = 2 /\ c_ptr c' = c_ptr c + 2 /\ name_on (fun _ => True) (c_data c') (c_ptr c + 2) 0 (c_ptr c) ls (c_ptr c + 2)) (fun _ => False)) as Hw.
  { unfold _dns_encode_domain. do 2 wp_step. wp_step. apply wp_add_ptr. wp_step. unfold _dns_get_domain_offset. destruct b as [|ch b]; [done|]. do 2 wp_step. wp_step. wp_step. apply (wp_of_ok _ _ _ _ _ _ Hscan). wp_step. cbn [_dns_encode_domain_loop]. wp_step. apply wp_left_len.
    unfold _dns_left_len. cbn [c_maxsize c_ptr set_ptr]. wp_step; [lia|]. wp_step; [|lia]. wp_step. wp_step; [|lia]. wp_step. apply wp_write_at; rewrite ?be16_len; [lia|cbn [c_data set_ptr]; lia|]. intros d Hwr. cbn [c_data set_ptr] in Hwr. wp_step. apply wp_add_ptr. wp_step. cbn [c_ptr c_data set_ptr set_cdata].
    destruct (ptr_word _ Hpos) as (lob&Hbe&Hland). split; [lia|]. split; [lia|]. apply (on_ptr _ d (c_ptr c + 2) 0 (c_ptr c) (192 + d_pos it / 256) (be16 (Z.lor 49152 (d_pos it))) ls e); try lia; try done.
    - rewrite (rd8_wr_in _ _ _ _ _ Hwr), Z.sub_diag, Hbe by (rewrite be16_len; lia). done.
    - Z.div_mod_to_equations. lia.
    - apply rd_bytes_wr_same in Hwr. by rewrite be16_len in Hwr.
    - rewrite Hland. eapply name_on_mono; [exact Hna|eapply agree_wr; [exact Hwr|lia]|lia]. }
  unfold wp in Hw. destruct (_dns_encode_domain b c) as [c' r|?| |]; try done. destruct Hw as (->&Hptr&Hn). exists c'. split; [done|]. split; [done|]. intros n Hn'. rewrite Hptr in *.
  apply get_domain_complete; [|unfold DNS_MAX_CNAME_LEN; lia]. eapply name_on_at, name_on_mono; [exact Hn|done|lia].
Qed.

(** The names "Aa" and "BB" have the same hash. *)
Definition collision_context : dns_context := mk_dns_context [mk_dict_item 12 (dict_hash [65; 97])] 0 (replicate 12 0 ++ [2; 65; 97; 0] ++ replicate 48 0) 64 16.

Lemma dict_hash_collision_witness : exists c', _dns_encode_domain [66; 66] collision_context = Ok c' 2 /\
  _dns_get_domain_from_packet (c_data c') 18 DNS_MAX_CNAME_LEN 16 = Ok 18 [65; 97].
Proof.
  destruct (dict_hash_collision collision_context [] (mk_dict_item 12 (dict_hash [65; 97])) [] [[65; 97]] 16 [66; 66]) as (c'&He&Hp&Hr); try done.
  - unfold ctx_wf. cbn. split; [lia|]. split; [vm_compute; discriminate|]. repeat constructor; done.
  - apply (name_label _ _ 1 12 2 [65; 97] [] 16); try done. apply (name_root _ _ 0 15); done.
  - exists c'. split; [exact He|]. rewrite Hp in Hr. apply (Hr 18). vm_compute. discriminate.
Defined.
