(* ===== verification/DnsRrs.v ===== *)
(** * Resource records in a packet (src/dns.c)

    The record lists threaded through the packet's data area
    ([dns_get_rrs_start], [dns_get_rrs_next], [_dns_add_rrs_start],
    [_dns_rr_add_end]), record heads, raw records ([_dns_add_RAW],
    [_dns_get_RAW]) and nested records ([dns_add_rr_nested_*]). *)

From Stdlib Require Import ZArith Lia.
From stdpp Require Import base list numbers option.
From S2P Require Import Prelude DnsTypes DnsName.

(** ** Walking the lists *)

(** The header [struct dns_rrs] stored at offset [off] of the data area. *)
Definition rd_rrs (data : list Z) (off : Z) : option dns_rrs :=
  match rd_bytes data off 16 with
  | Some bs => Some (mk_dns_rrs off (of_le (take 2 (drop 8 bs))) (of_le (take 2 (drop 10 bs)))
                       (s32 (of_le (take 4 (drop 12 bs)))))
  | None => None
  end.

(** The count and the first record of a section ([None] inside: NULL);
    [None] outside for the [default] case, which sets neither. *)
Definition dns_get_rrs_start (packet : dns_packet) (type : dns_rr_type) : option (Z * option Z) :=
  match sec_count type packet, sec_start type packet with
  | Some count, Some start => Some (count, if start =? DNS_RR_END then None else Some start)
  | _, _ => None
  end.

Definition dns_get_rrs_next (rrs : dns_rrs) : option Z :=
  if rrs_next rrs =? DNS_RR_END then None else Some (rrs_next rrs).

(** [for (i = 0; i < count && rrs; i++, rrs = dns_get_rrs_next(packet, rrs))] *)
Fixpoint for_rrs {S} (count : nat) (packet : dns_packet) (rrs : option Z) (body : dns_rrs -> M S unit)
    : M S unit :=
  match count, rrs with
  | S count, Some off =>
    r <- access (rd_rrs (p_data packet) off) ;;
    body r ;;
    for_rrs count packet (dns_get_rrs_next r) body
  | _, _ => ret tt
  end.

Definition _dns_init_context_by_rrs (packet : dns_packet) (rrs : dns_rrs) : dns_context :=
  mk_dns_context (p_namedict packet) (p_addr packet + sizeof_dns_packet) (p_data packet)
    (rrs_off rrs + sizeof_dns_rrs + rrs_len rrs) (rrs_off rrs + sizeof_dns_rrs).

(** ** Adding a record *)

(** The context [_dns_add_rrs_start] sets up: the record's data follows its
    header at the end of the packet. *)
Definition add_context (packet : dns_packet) : dns_context :=
  mk_dns_context (p_namedict packet) (p_addr packet + sizeof_dns_packet) (p_data packet)
    (p_size packet - sizeof_dns_packet) (p_len packet + sizeof_dns_rrs).

(** The context's data and dictionary are the packet's own. *)
Definition put_context (c : dns_context) (packet : dns_packet) : dns_packet :=
  set_pdict (c_namedict c) (set_pdata (c_data c) packet).

(** [_dns_add_rrs_start(packet, &context)] followed by code that works through
    [context]. *)
Definition _dns_add_rrs_start {A} (body : M dns_context A) : M dns_packet A :=
  packet <- get ;;
  guard (negb (p_size packet <=? p_len packet + sizeof_dns_rrs)) ;;
  zoom add_context put_context body.

(** The last record of the list that starts at [off]. *)
Fixpoint rrs_last (fuel : nat) (off : Z) : M dns_packet Z :=
  match fuel with
  | O => diverge
  | S fuel =>
    packet <- get ;;
    rrs <- access (rd_rrs (p_data packet) off) ;;
    match dns_get_rrs_next rrs with
    | None => ret off
    | Some next => rrs_last fuel next
    end
  end.

Definition rrs_header (packet len rtype : Z) : list Z :=
  le32 (packet mod 4294967296) ++ le32 (packet / 4294967296) ++
  le16 DNS_RR_END ++ le16 len ++ le32 rtype.

Definition write_pdata (a : Z) (bs : list Z) : M dns_packet unit :=
  packet <- get ;;
  d <- access (wr_bytes (p_data packet) a bs) ;;
  put (set_pdata d packet).

Definition _dns_rr_add_end (type : dns_rr_type) (rtype len : Z) : M dns_packet unit :=
  packet <- get ;;
  guard (negb (p_size packet - sizeof_dns_packet - sizeof_dns_rrs <? p_len packet + len)) ;;
  match sec_start type packet, sec_count type packet with
  | Some start, Some count =>
    (if negb (start =? DNS_RR_END) then
       last <- rrs_last (S (length (p_data packet))) start ;;
       write_pdata (last + 8) (le16 (p_len packet))
     else modify (set_sec_start type (u16 (p_len packet)))) ;;
    write_pdata (p_len packet) (rrs_header (p_addr packet) len rtype) ;;
    modify (fun p => set_len (p_len p + (len + sizeof_dns_rrs))
                       (set_sec_count type (u16 (count + 1)) p))
  | _, _ => fail
  end.

(** ** Record heads *)

Definition _dns_add_qr_head (domain : list Z) (qtype qclass : Z) : M dns_context Z :=
  ret_ <- _dns_encode_domain domain ;;
  l <- left_len ;;
  guard (negb (l <? 4)) ;;
  _dns_write_short qtype ;;
  _dns_write_short qclass ;;
  ret (ret_ + 4).

Record qr_head := mk_qr_head { q_domain : list Z; q_type : Z; q_class : Z }.

Definition _dns_get_qr_head (maxsize : Z) : M dns_context qr_head :=
  domain <- _dns_decode_domain maxsize ;;
  l <- left_len ;;
  guard (negb (l <? 4)) ;;
  qtype <- _dns_read_short ;;
  qclass <- _dns_read_short ;;
  ret (mk_qr_head domain qtype qclass).

Definition _dns_add_rr_head (domain : list Z) (qtype qclass ttl rr_len : Z) : M dns_context Z :=
  len <- _dns_add_qr_head domain qtype qclass ;;
  l <- left_len ;;
  guard (negb (l <? 6)) ;;
  _dns_write_int ttl ;;
  _dns_write_short rr_len ;;
  ret (len + 6).

Record rr_head := mk_rr_head { r_qr : qr_head; r_ttl : Z; r_len : Z }.

(** A failing [_dns_get_qr_head] does not end [_dns_get_rr_head]: the ttl and
    the length are still read, and the error is returned afterwards. *)
Definition _dns_get_rr_head (maxsize : Z) : M dns_context rr_head :=
  qr <- try (_dns_get_qr_head maxsize) ;;
  l <- left_len ;;
  guard (negb (l <? 6)) ;;
  ttl <- _dns_read_int ;;
  rr_len <- _dns_read_short ;;
  match qr with
  | Some qr => ret (mk_rr_head qr (s32 ttl) rr_len)
  | None => fail
  end.

(** ** Raw records *)

Definition _dns_add_RAW (rrtype : dns_rr_type) (rtype : Z) (domain : list Z) (ttl : Z) (raw : list Z)
    : M dns_packet unit :=
  len <- _dns_add_rrs_start (
    len <- _dns_add_rr_head domain rtype DNS_C_IN ttl (Zlen raw) ;;
    l <- left_len ;;
    guard (negb (l <? Zlen raw)) ;;
    write_mem raw ;;
    ret (len + Zlen raw)) ;;
  _dns_rr_add_end rrtype rtype len.

(** [raw_len] is the size of the caller's buffer; returns the domain, the ttl
    and the data. *)
Definition _dns_get_RAW (packet : dns_packet) (rrs : dns_rrs) (maxsize raw_len : Z)
    : res dns_context (list Z * Z * list Z) :=
  (h <- _dns_get_rr_head maxsize ;;
   guard (negb (negb (q_type (r_qr h) =? rrs_type rrs) || (raw_len <? r_len h))) ;;
   raw <- read_mem (r_len h) ;;
   ret (q_domain (r_qr h), r_ttl h, raw)) (_dns_init_context_by_rrs packet rrs).

(** ** Nested records *)

(** [struct dns_rr_nested]; a NULL pointer is [None].  Its context works on
    the packet's own data and dictionary. *)
Record dns_rr_nested := mk_rr_nested {
  n_maxsize : Z; n_ptr : Z;
  n_rr_start : option Z; n_rr_len_ptr : option Z; n_rr_head_len : Z;
  n_type : dns_rr_type; n_rtype : Z }.

Definition nested_state : Type := dns_packet * dns_rr_nested.

Definition nested_context (s : nested_state) : dns_context :=
  mk_dns_context (p_namedict s.1) (p_addr s.1 + sizeof_dns_packet) (p_data s.1)
    (n_maxsize s.2) (n_ptr s.2).

Definition put_nested_context (c : dns_context) (s : nested_state) : nested_state :=
  (put_context c s.1,
   mk_rr_nested (c_maxsize c) (c_ptr c) (n_rr_start s.2) (n_rr_len_ptr s.2) (n_rr_head_len s.2)
     (n_type s.2) (n_rtype s.2)).

Definition nested {A} (m : M dns_context A) : M nested_state A := zoom nested_context put_nested_context m.

Definition set_nested (f : dns_rr_nested -> dns_rr_nested) : M nested_state unit :=
  modify (fun s => (s.1, f s.2)).

Definition dns_add_rr_nested_start (type : dns_rr_type) (rtype : Z) (domain : list Z) (ttl : Z)
    : M nested_state unit :=
  set_nested (fun _ => mk_rr_nested 0 0 None None 0 type rtype) ;;
  s <- get ;;
  guard (negb (p_size s.1 <=? p_len s.1 + sizeof_dns_rrs)) ;;
  set_nested (fun n => let c := add_context s.1 in
     mk_rr_nested (c_maxsize c) (c_ptr c) (Some (c_ptr c)) None 0 (n_type n) (n_rtype n)) ;;
  len <- nested (_dns_add_rr_head domain rtype DNS_C_IN ttl 0) ;;
  set_nested (fun n => mk_rr_nested (n_maxsize n) (n_ptr n) (n_rr_start n) (Some (n_ptr n - 2)) len
                         (n_type n) (n_rtype n)).

(** [is_aligned(context.ptr, 2)] *)
Definition ptr_aligned (c : dns_context) : bool := is_aligned (c_addr c + c_ptr c) 2.

Definition nested_memcpy (data : list Z) : M dns_context unit :=
  guard (negb (Zlen data <=? 0)) ;;
  l <- left_len ;;
  guard (negb (l <? Zlen data)) ;;
  c <- get ;;
  guard (ptr_aligned c) ;;
  write_mem data ;;
  c <- get ;;
  if negb (ptr_aligned c) then
    l <- left_len ;;
    guard (negb (l <? 1)) ;;
    _dns_write_char 0
  else ret tt.

Definition dns_add_rr_nested_memcpy (data : list Z) : M nested_state unit := nested (nested_memcpy data).

Definition dns_add_rr_nested_end : M nested_state unit :=
  s <- get ;;
  match n_rr_start s.2 with
  | None => fail
  | Some rr_start =>
    let len := n_ptr s.2 - rr_start in
    match n_rr_len_ptr s.2 with
    | None => fail
    | Some rr_len_ptr =>
      guard (negb (_dns_left_len (nested_context s) <? 2)) ;;
      if len <=? 14 then
        set_nested (fun n => mk_rr_nested (n_maxsize n) rr_start (n_rr_start n) (n_rr_len_ptr n)
                               (n_rr_head_len n) (n_type n) (n_rtype n))
      else
        nested (write_at rr_len_ptr (be16 (len - n_rr_head_len s.2))) ;;
        zoom fst (fun p s => (p, s.2)) (_dns_rr_add_end (n_type s.2) (n_rtype s.2) len)
    end
  end.

(** Returns the head and the offset of the record's data. *)
Definition dns_get_rr_nested_start (packet : dns_packet) (rrs : dns_rrs) : res dns_context (rr_head * Z) :=
  (h <- _dns_get_rr_head DNS_MAX_CNAME_LEN ;;
   guard (q_class (r_qr h) =? DNS_C_IN) ;;
   guard (negb (r_len h <? 2)) ;;
   c <- get ;;
   ret (h, c_ptr c)) (_dns_init_context_by_rrs packet rrs).

(** [None] is NULL. *)
Definition dns_get_rr_nested_next (packet : dns_packet) (rrs : dns_rrs) (rr_nested rr_nested_len : Z)
    : option Z :=
  let end_ := rrs_off rrs + sizeof_dns_rrs + rrs_len rrs in
  let p := rr_nested + rr_nested_len in
  let p := if is_aligned (p_addr packet + sizeof_dns_packet + p) 2 then p else p + 1 in
  if (p =? end_) || (end_ <? p) then None else Some p.
