(* ===== verification/DnsRrsSpec.v ===== *)
(** * What a packet holds: the record lists as an abstract sequence (src/dns.c)

    Abstractly a packet is the sequence of the records added to it, each with
    its section, type and payload ([arec]).  [pkt_rep p rs] relates the data
    area (headers, links, starts and counts) to the sequence [rs]; adding a
    record appends to it, and a failed addition leaves it unchanged. *)

From Stdlib Require Import ZArith Lia.
From stdpp Require Import base list numbers option.
From S2P Require Import Prelude DnsTypes DnsName DnsRrs.

(** ** The abstract packet *)

Record arec := mk_arec { a_sec : dns_rr_type; a_type : Z; a_payload : list Z }.

(** The space a record takes in the data area. *)
Definition asize (r : arec) : Z := sizeof_dns_rrs + Zlen (a_payload r).

Fixpoint atotal (rs : list arec) : Z :=
  match rs with [] => 0 | r :: rs => asize r + atotal rs end.

(** The offset of the first record of section [t] among [rs] laid out from
    [o]; [fin t] when there is none. *)
Fixpoint first_off (fin : dns_rr_type -> Z) (t : dns_rr_type) (o : Z) (rs : list arec) : Z :=
  match rs with
  | [] => fin t
  | r :: rs => if decide (a_sec r = t) then o else first_off fin t (o + asize r) rs
  end.

(** The offset of the last record of section [t]. *)
Fixpoint last_off (t : dns_rr_type) (o : Z) (rs : list arec) : option Z :=
  match rs with
  | [] => None
  | r :: rs =>
    match last_off t (o + asize r) rs with
    | Some l => Some l
    | None => if decide (a_sec r = t) then Some o else None
    end
  end.

(** The records [rs] are laid out in [d] from [o] on; the last record of
    section [t] links to [fin t]. *)
Fixpoint laid (d : list Z) (fin : dns_rr_type -> Z) (o : Z) (rs : list arec) : Prop :=
  match rs with
  | [] => True
  | r :: rs =>
    rd_rrs d o = Some (mk_dns_rrs o (first_off fin (a_sec r) (o + asize r) rs) (Zlen (a_payload r)) (a_type r)) /\
    rd_bytes d (o + sizeof_dns_rrs) (Zlen (a_payload r)) = Some (a_payload r) /\
    laid d fin (o + asize r) rs
  end.

Definition no_next : dns_rr_type -> Z := fun _ => DNS_RR_END.

Definition sec_records (t : dns_rr_type) (rs : list arec) : list arec := filter (fun r => a_sec r = t) rs.

(** The structure is intact: sizes, bounds, byte values. *)
Definition pkt_ok (p : dns_packet) : Prop :=
  Zlen (p_data p) = p_size p - sizeof_dns_packet /\ Forall is_byte (p_data p) /\
  p_size p <= 65535 /\ 0 <= p_len p <= p_size p - sizeof_dns_packet /\ 0 <= p_addr p < 2 ^ 64.

Definition pkt_rep (p : dns_packet) (rs : list arec) : Prop :=
  pkt_ok p /\ p_len p = atotal rs /\ laid (p_data p) no_next 0 rs /\
  forall t, t <> DNS_RRS_END -> sec_start t p = Some (first_off no_next t 0 rs).

(** ** Layout lemmas *)

Lemma asize_pos r : 16 <= asize r.
Proof. unfold asize, sizeof_dns_rrs. pose proof (Zlen_nonneg (a_payload r)). lia. Qed.

Lemma atotal_nonneg rs : 0 <= atotal rs.
Proof. induction rs as [|r rs IH]; cbn; [lia|]. pose proof (asize_pos r). lia. Qed.

Lemma atotal_app rs1 rs2 : atotal (rs1 ++ rs2) = atotal rs1 + atotal rs2.
Proof. induction rs1 as [|r rs1 IH]; cbn; lia. Qed.

Lemma atotal_length rs : 16 * Z.of_nat (length rs) <= atotal rs.
Proof. induction rs as [|r rs IH]; cbn [atotal length]; [lia|]. pose proof (asize_pos r). lia. Qed.

Lemma rd_rrs_agree d d' o r :
  rd_rrs d o = Some r -> (forall i, o <= i < o + 16 -> rd8 d' i = rd8 d i) -> rd_rrs d' o = Some r.
Proof.
  unfold rd_rrs. destruct (rd_bytes d o 16) as [bs|] eqn:E; [|done]. intros Hr Ha.
  rewrite (rd_bytes_agree d d' o 16 bs E ltac:(lia) Ha). done.
Qed.

Lemma rd_rrs_bounds d o r : rd_rrs d o = Some r -> 0 <= o /\ o + 16 <= Zlen d.
Proof.
  unfold rd_rrs. destruct (rd_bytes d o 16) as [bs|] eqn:E; [|done]. intros _.
  apply rd_bytes_Some in E. lia.
Qed.

(** A layout depends only on the bytes it covers. *)
Lemma laid_agree d d' fin rs : forall o, 0 <= o ->
  laid d fin o rs -> Zlen d' = Zlen d ->
  (forall i, o <= i < o + atotal rs -> rd8 d' i = rd8 d i) -> laid d' fin o rs.
Proof.
  induction rs as [|r rs IH]; intros o Ho Hl Hd Ha; [done|]. cbn [laid atotal] in *.
  destruct Hl as (Hh&Hp&Hl). pose proof (asize_pos r). pose proof (atotal_nonneg rs).
  unfold asize, sizeof_dns_rrs in *. pose proof (Zlen_nonneg (a_payload r)). split_and!.
  - eapply rd_rrs_agree; [exact Hh|]. intros i Hi. apply Ha. lia.
  - rewrite <- Hp. apply rd_bytes_ext; [done|]. intros i Hi. apply Ha. lia.
  - apply IH; [lia|done|done|]. intros i Hi. apply Ha. lia.
Qed.

Lemma last_off_none t o rs : last_off t o rs = None <-> Forall (fun r => a_sec r <> t) rs.
Proof.
  revert o. induction rs as [|r rs IH]; intros o; cbn; [split; [constructor|done]|].
  rewrite Forall_cons_iff, <- (IH (o + asize r)).
  destruct (last_off t (o + asize r) rs); [naive_solver|]. case_decide; naive_solver.
Qed.

Lemma first_off_none fin t o rs : Forall (fun r => a_sec r <> t) rs -> first_off fin t o rs = fin t.
Proof.
  intros H. revert o. induction H as [|r rs Hr H IH]; intros o; cbn; [done|].
  case_decide; [done|apply IH].
Qed.

Lemma first_off_some fin fin' t o rs l : last_off t o rs = Some l -> first_off fin t o rs = first_off fin' t o rs.
Proof.
  revert o l. induction rs as [|r rs IH]; intros o l; cbn; [done|].
  case_decide; [done|]. destruct (last_off t (o + asize r) rs) eqn:E; [|done]. intros _. by eapply IH.
Qed.

Lemma first_off_range fin t o rs l :
  0 <= o -> last_off t o rs = Some l -> o <= first_off fin t o rs <= l /\ l + 16 <= o + atotal rs.
Proof.
  revert o l. induction rs as [|r rs IH]; intros o l Ho; cbn; [done|].
  pose proof (asize_pos r). pose proof (atotal_nonneg rs).
  destruct (last_off t (o + asize r) rs) as [l'|] eqn:E; intros Hl.
  - injection Hl as ->. pose proof (IH (o + asize r) l ltac:(lia) E). case_decide; lia.
  - case_decide; [|done]. injection Hl as <-. lia.
Qed.

Lemma first_off_ext fin fin' t o rs : fin t = fin' t -> first_off fin t o rs = first_off fin' t o rs.
Proof. intros He. revert o. induction rs as [|r rs IH]; intros o; cbn; [done|]. by case_decide. Qed.

Lemma first_off_app fin t o rs r :
  first_off fin t o (rs ++ [r]) =
  first_off (fun s => if decide (a_sec r = s) then o + atotal rs else fin s) t o rs.
Proof.
  revert o. induction rs as [|r0 rs IH]; intros o; cbn; [case_decide; [lia|done]|].
  case_decide; [done|]. rewrite IH. apply first_off_ext. case_decide; [lia|done].
Qed.

(** ** Headers in memory *)

Lemma rd_rrs_fields d o r :
  rd_rrs d o = Some r <->
  0 <= o /\ o + 16 <= Zlen d /\ exists b1 b2 b3,
    rd_bytes d (o + 8) 2 = Some b1 /\ rd_bytes d (o + 10) 2 = Some b2 /\
    rd_bytes d (o + 12) 4 = Some b3 /\ r = mk_dns_rrs o (of_le b1) (of_le b2) (s32 (of_le b3)).
Proof.
  assert (forall bs, rd_bytes d o 16 = Some bs ->
    rd_bytes d (o + 8) 2 = Some (take 2 (drop 8 bs)) /\ rd_bytes d (o + 10) 2 = Some (take 2 (drop 10 bs)) /\
    rd_bytes d (o + 12) 4 = Some (take 4 (drop 12 bs))) as Hsub.
  { intros bs Hb. split_and!; by apply (rd_bytes_sub d o 16 bs). }
  unfold rd_rrs. split.
  - destruct (rd_bytes d o 16) as [bs|] eqn:E; [|done]. intros Hr. apply rd_bytes_Some in E as Hb.
    destruct (Hsub bs eq_refl) as (?&?&?). simplify_eq. split_and!; [lia..|].
    eexists _, _, _. done.
  - intros (?&?&b1&b2&b3&H1&H2&H3&->).
    destruct (rd_bytes_ex d o 16) as [bs Hb]; [lia..|]. rewrite Hb.
    destruct (Hsub bs Hb) as (E1&E2&E3). congruence.
Qed.

Lemma rrs_header_len a n t : Zlen (rrs_header a n t) = 16.
Proof. reflexivity. Qed.

Lemma rrs_header_byte a n t : Forall is_byte (rrs_header a n t).
Proof. unfold rrs_header. repeat apply Forall_app_2; auto with cdb. Qed.

(** Reading back the header just written. *)
Lemma rd_rrs_written d o a n t d' :
  wr_bytes d o (rrs_header a n t) = Some d' ->
  rd_rrs d' o = Some (mk_dns_rrs o DNS_RR_END (u16 n) (s32 t)).
Proof.
  intros Hw. pose proof (rd_bytes_wr_same _ _ _ _ Hw) as Hr. rewrite rrs_header_len in Hr.
  unfold rd_rrs. rewrite Hr. f_equal.
  change (take 2 (drop 8 (rrs_header a n t))) with (le16 DNS_RR_END).
  change (take 2 (drop 10 (rrs_header a n t))) with (le16 n).
  change (take 4 (drop 12 (rrs_header a n t))) with (le32 t).
  rewrite !of_le16, of_le32, s32_u32. done.
Qed.

(** Setting the [next] field of a header. *)
Lemma rd_rrs_link d o r v d' :
  rd_rrs d o = Some r -> wr_bytes d (o + 8) (le16 v) = Some d' ->
  rd_rrs d' o = Some (mk_dns_rrs o (u16 v) (rrs_len r) (rrs_type r)).
Proof.
  intros (?&?&b1&b2&b3&H1&H2&H3&->)%rd_rrs_fields Hw. apply rd_rrs_fields.
  pose proof (wr_bytes_len _ _ _ _ Hw). split_and!; [lia..|].
  exists (le16 v), b2, b3. rewrite of_le16.
  rewrite (rd_bytes_wr_out _ _ _ _ (o + 10) 2 Hw), (rd_bytes_wr_out _ _ _ _ (o + 12) 4 Hw)
    by (rewrite le16_len; lia).
  apply rd_bytes_wr_same in Hw. by rewrite le16_len in Hw.
Qed.

(** ** Linking and appending *)

Definition link_to (t : dns_rr_type) (v : Z) : dns_rr_type -> Z :=
  fun s => if decide (t = s) then v else DNS_RR_END.

(** A layout with no record of section [t] may link it anywhere. *)
Lemma laid_link_none d t v rs :
  Forall (fun r => a_sec r <> t) rs -> forall o, laid d no_next o rs -> laid d (link_to t v) o rs.
Proof.
  induction 1 as [|r rs Hr Hn IH]; intros o Hl; [done|]. cbn [laid] in *.
  destruct Hl as (H1&H2&H3). split_and!; [|done|by apply IH].
  rewrite H1. do 2 f_equal. apply first_off_ext. unfold link_to. by case_decide.
Qed.

Lemma laid_link d t l v d' : forall rs o,
  0 <= o -> laid d no_next o rs -> last_off t o rs = Some l -> 0 <= v < 65536 ->
  wr_bytes d (l + 8) (le16 v) = Some d' -> laid d' (link_to t v) o rs.
Proof.
  induction rs as [|r rs IH]; intros o Ho Hl Hlast Hv Hw; [done|].
  cbn [laid last_off] in *. destruct Hl as (Hh&Hp&Hl).
  pose proof (asize_pos r). pose proof (Zlen_nonneg (a_payload r)). unfold sizeof_dns_rrs in *.
  pose proof (wr_bytes_len _ _ _ _ Hw).
  destruct (last_off t (o + asize r) rs) as [l'|] eqn:E.
  - injection Hlast as ->. pose proof (first_off_range no_next t (o + asize r) rs l ltac:(lia) E).
    unfold asize, sizeof_dns_rrs in *. split_and!.
    + replace (first_off (link_to t v) _ _ rs) with (first_off no_next (a_sec r) (o + (16 + Zlen (a_payload r))) rs).
      * eapply rd_rrs_agree; [exact Hh|]. intros i Hi. eapply rd8_wr_out; [exact Hw|]. rewrite le16_len. lia.
      * destruct (decide (a_sec r = t)) as [->|]; [by eapply first_off_some|].
        apply first_off_ext. unfold link_to. by case_decide.
    + rewrite (rd_bytes_wr_out _ _ _ _ _ _ Hw) by (rewrite le16_len; lia). done.
    + apply IH; [lia|done..].
  - case_decide as Hsec; [|done]. injection Hlast as <-. pose proof E as Hnone.
    apply last_off_none in Hnone. rewrite first_off_none in Hh |- * by (by rewrite Hsec).
    unfold asize, sizeof_dns_rrs in *. split_and!.
    + rewrite (rd_rrs_link _ _ _ _ _ Hh Hw), u16_small by lia. unfold link_to. cbn.
      rewrite Hsec. by destruct (decide (t = t)).
    + rewrite (rd_bytes_wr_out _ _ _ _ _ _ Hw) by (rewrite le16_len; lia). done.
    + apply (laid_link_none d t v) in Hl; [|done].
      apply (laid_agree d); [lia|exact Hl|done|]. intros i Hi. eapply rd8_wr_out; [exact Hw|].
      rewrite le16_len. lia.
Qed.

Lemma laid_app d t o rs r :
  laid d (link_to t (o + atotal rs)) o rs -> a_sec r = t ->
  rd_rrs d (o + atotal rs) = Some (mk_dns_rrs (o + atotal rs) DNS_RR_END (Zlen (a_payload r)) (a_type r)) ->
  rd_bytes d (o + atotal rs + sizeof_dns_rrs) (Zlen (a_payload r)) = Some (a_payload r) ->
  laid d no_next o (rs ++ [r]).
Proof.
  intros Hl Ht. subst t. revert o Hl. induction rs as [|r0 rs IH]; intros o Hl Hh Hp.
  - cbn in *. rewrite Z.add_0_r in *. split_and!; done.
  - cbn [app laid atotal] in *. destruct Hl as (H1&H2&H3).
    replace (o + (asize r0 + atotal rs)) with (o + asize r0 + atotal rs) in * by lia.
    split_and!; [|done|by apply IH].
    rewrite H1. do 2 f_equal. rewrite first_off_app. apply first_off_ext. done.
Qed.

(** ** The operations on the lists *)

(** Walking to the end of a section's list. *)
Lemma rrs_last_spec t p : forall rs o fuel l,
  0 <= o -> laid (p_data p) no_next o rs -> o + atotal rs <= 65535 ->
  last_off t o rs = Some l -> (length rs <= fuel)%nat ->
  wp (rrs_last fuel (first_off no_next t o rs)) p (fun p' x => p' = p /\ x = l) (fun _ => False).
Proof.
  induction rs as [|r rs IH]; intros o fuel l Ho Hl Ht Hlast Hf; [done|].
  cbn [laid last_off first_off atotal length] in *. destruct Hl as (Hh&_&Hl).
  pose proof (asize_pos r). pose proof (atotal_nonneg rs).
  case_decide as Hs.
  - destruct fuel as [|fuel]; [lia|]. cbn [rrs_last]. do 2 wp_step. wp_step. apply wp_access.
    eexists. split; [exact Hh|]. unfold dns_get_rrs_next. cbn [rrs_next]. rewrite Hs.
    destruct (last_off t (o + asize r) rs) as [l'|] eqn:E.
    + injection Hlast as ->. pose proof (first_off_range no_next t (o + asize r) rs l ltac:(lia) E).
      destruct (Z.eqb_spec (first_off no_next t (o + asize r) rs) DNS_RR_END);
        [unfold DNS_RR_END in *; lia|]. apply IH; done || lia.
    + injection Hlast as <-. rewrite first_off_none by (by eapply last_off_none).
      change (no_next t =? DNS_RR_END) with true. cbv iota. wp_step. done.
  - destruct (last_off t (o + asize r) rs) as [l'|] eqn:E; [|done].
    injection Hlast as ->. apply IH; done || lia.
Qed.

Lemma sec_start_set_start t t' v p :
  t <> DNS_RRS_END -> sec_start t' (set_sec_start t v p) = if decide (t = t') then Some v else sec_start t' p.
Proof. intros Ht. destruct p, t, t'; done. Qed.

Lemma sec_start_set_count t t' v p : sec_start t' (set_sec_count t v p) = sec_start t' p.
Proof. destruct p, t, t'; done. Qed.

Lemma sec_count_set_count t t' v p :
  t <> DNS_RRS_END -> sec_count t' (set_sec_count t v p) = if decide (t = t') then Some v else sec_count t' p.
Proof. intros Ht. destruct p as [h], t, h, t'; done. Qed.

(** The header without its counts. *)
Definition head_base (h : dns_head) : dns_head :=
  let 'mk_dns_head i q o a tc r ra z ad cd rc _ _ _ _ := h in mk_dns_head i q o a tc r ra z ad cd rc 0 0 0 0.

(** The fields adding a record does not touch. *)
Definition same_meta (p p' : dns_packet) : Prop :=
  p_size p' = p_size p /\ p_addr p' = p_addr p /\ p_payloadsize p' = p_payloadsize p /\
  p_opt_option p' = p_opt_option p /\ head_base (p_head p') = head_base (p_head p).

Lemma set_count_meta t v p :
  let p' := set_sec_count t v p in
  same_meta p p' /\ p_data p' = p_data p /\ p_len p' = p_len p /\ p_namedict p' = p_namedict p.
Proof. destruct p as [h], t, h; by cbn. Qed.

Lemma set_start_meta t v p :
  let p' := set_sec_start t v p in
  same_meta p p' /\ p_data p' = p_data p /\ p_len p' = p_len p /\ p_namedict p' = p_namedict p /\
  p_head p' = p_head p.
Proof. destruct p as [h], t, h; by cbn. Qed.

Lemma wp_write_pdata a bs p (Q : dns_packet -> unit -> Prop) E :
  0 <= a -> a + Zlen bs <= Zlen (p_data p) ->
  (forall d, wr_bytes (p_data p) a bs = Some d -> Q (set_pdata d p) tt) ->
  wp (write_pdata a bs) p Q E.
Proof.
  intros ? ? HQ. destruct (wr_bytes_ex (p_data p) a bs) as [d Hd]; [done..|].
  unfold wp, write_pdata, bind, get, access, put. rewrite Hd. auto.
Qed.

(** Linking the previous record of the section, or setting its start. *)
Lemma add_end_link t p rs (Q : dns_packet -> unit -> Prop) E :
  pkt_rep p rs -> t <> DNS_RRS_END -> p_len p < 65535 ->
  (forall p1, laid (p_data p1) (link_to t (p_len p)) 0 rs ->
     frame 0 (p_len p) (p_data p) (p_data p1) -> Forall is_byte (p_data p1) ->
     same_meta p p1 -> p_len p1 = p_len p -> p_namedict p1 = p_namedict p -> p_head p1 = p_head p ->
     (forall s, sec_count s p1 = sec_count s p) ->
     (forall s, s <> DNS_RRS_END -> sec_start s p1 = Some (first_off (link_to t (p_len p)) s 0 rs)) ->
     Q p1 tt) ->
  wp (if negb (first_off no_next t 0 rs =? DNS_RR_END)
      then last <- rrs_last (S (length (p_data p))) (first_off no_next t 0 rs) ;;
           write_pdata (last + 8) (le16 (p_len p))
      else modify (set_sec_start t (u16 (p_len p)))) p Q E.
Proof.
  intros ((Hsz&Hb&H64&Hlen&_)&Htot&Hl&Hst) Ht Hlt HQ. unfold sizeof_dns_packet in *.
  pose proof (atotal_nonneg rs). pose proof (atotal_length rs).
  destruct (last_off t 0 rs) as [l|] eqn:E0.
  - pose proof (first_off_range no_next t 0 rs l ltac:(lia) E0) as Hr.
    destruct (Z.eqb_spec (first_off no_next t 0 rs) DNS_RR_END);
      [unfold DNS_RR_END in *; lia|]. cbn [negb]. wp_step.
    eapply wp_mono; [apply (rrs_last_spec t p rs 0 _ l); try done; try lia; unfold Zlen in *; lia| |done].
    intros p' x [-> ->]. apply wp_write_pdata; rewrite ?le16_len; [lia..|]. intros d Hw.
    apply HQ; cbn; try done.
    + eapply laid_link; eauto; lia.
    + eapply frame_wr; [exact Hw|lia|rewrite le16_len; lia].
    + eapply wr_bytes_byte; [exact Hb|apply le16_byte|exact Hw].
    + intros s Hs. change (sec_start s (set_pdata d p)) with (sec_start s p). rewrite (Hst s Hs).
      f_equal. destruct (decide (s = t)) as [->|]; [by eapply first_off_some|].
      apply first_off_ext. unfold link_to. by case_decide.
  - apply last_off_none in E0 as Hn. rewrite (first_off_none no_next) by done.
    change (no_next t =? DNS_RR_END) with true. cbn [negb]. wp_step.
    destruct (set_start_meta t (u16 (p_len p)) p) as (?&Hd&?&?&Hh).
    apply HQ; try done; rewrite ?Hd; try done.
    + by apply laid_link_none.
    + intros s. destruct p as [h], t, s; done.
    + intros s Hs. rewrite sec_start_set_start by done.
      case_decide as Hts; [subst s; rewrite first_off_none by done; unfold link_to|rewrite (Hst s Hs)].
      * destruct (decide (t = t)); [|done]. by rewrite u16_small by lia.
      * f_equal. apply first_off_ext. unfold link_to. by case_decide.
Qed.

(** [_dns_rr_add_end] appends the record whose [n] bytes follow the packet's
    end; when they do not fit it changes nothing. *)
Lemma rr_add_end_spec t rtype n pl p rs :
  pkt_rep p rs -> t <> DNS_RRS_END -> 0 <= n ->
  (p_len p + n <= p_size p - 168 -> rd_bytes (p_data p) (p_len p + 16) n = Some pl) ->
  wp (_dns_rr_add_end t rtype n) p
    (fun p' _ => pkt_rep p' (rs ++ [mk_arec t (s32 rtype) pl]) /\ same_meta p p' /\
       p_namedict p' = p_namedict p /\
       forall s, sec_count s p' = if decide (t = s) then (fun v => u16 (v + 1)) <$> sec_count s p
                                  else sec_count s p)
    (fun p' => p' = p /\ p_size p - 168 < p_len p + n).
Proof.
  intros Hrep Ht Hn Hpl. pose proof Hrep as ((Hsz&Hb&H64&Hlen&Haddr)&Htot&_&Hst).
  unfold sizeof_dns_packet, sizeof_dns_rrs in *. unfold _dns_rr_add_end. do 2 wp_step.
  wp_step. wp_step; unfold sizeof_dns_packet, sizeof_dns_rrs in *; [|split; [done|lia]].
  specialize (Hpl ltac:(lia)). pose proof (rd_bytes_len _ _ _ _ Hpl) as Hpn.
  rewrite (Hst t Ht). destruct (sec_count t p) as [count|] eqn:Ec; [|by destruct t].
  wp_step. apply (add_end_link t p rs); [done|done|lia|].
  intros p1 Hl1 [Hf1l Hf1] Hb1 Hm1 Hlen1 Hdict1 Hh1 Hc1 Hs1.
  pose proof Hm1 as (Hsz1&Ha1&_).
  wp_step. apply wp_write_pdata; rewrite ?rrs_header_len; [lia..|]. intros d Hw.
  wp_step. pose proof (wr_bytes_len _ _ _ _ Hw) as Hlw.
  set (p2 := set_sec_count t (u16 (count + 1)) (set_pdata d p1)).
  destruct (set_count_meta t (u16 (count + 1)) (set_pdata d p1)) as (Hm2&Hd2&Hlen2&Hdict2).
  fold p2 in Hm2, Hd2, Hlen2, Hdict2. cbn [p_data set_pdata p_len p_namedict] in Hd2, Hlen2, Hdict2.
  assert (same_meta p p2) as Hm.
  { clear -Hm1 Hm2. destruct Hm1 as (?&?&?&?&?), Hm2 as (?&?&?&?&?).
    cbn [p_size p_addr p_payloadsize p_opt_option p_head set_pdata] in *. split_and!; congruence. }
  assert (forall i, p_len p + 16 <= i -> rd8 d i = rd8 (p_data p) i) as Hpay.
  { intros i Hi. rewrite (rd8_wr_out _ _ _ _ _ Hw) by (rewrite rrs_header_len; lia). apply Hf1. lia. }
  split_and!; [|done|change (p_namedict p2 = p_namedict p); congruence|].
  - unfold pkt_rep, pkt_ok, sizeof_dns_packet. cbn [set_len p_size p_data p_len p_addr]. rewrite Hd2.
    pose proof Hm as (->&->&_). rewrite atotal_app. cbn [atotal]. unfold asize, sizeof_dns_rrs.
    cbn [a_payload set_pdata p_len]. rewrite Hlen1, Hpn. split_and!; try lia.
    + eapply wr_bytes_byte; [exact Hb1|apply rrs_header_byte|exact Hw].
    + rewrite Htot in *. apply (laid_app d t 0 rs); cbn [a_payload a_type a_sec]; try done.
      * apply (laid_agree (p_data p1)); [lia|done|done|]. intros i Hi.
        eapply rd8_wr_out; [exact Hw|]. rewrite rrs_header_len. lia.
      * rewrite Z.add_0_l, (rd_rrs_written _ _ _ _ _ _ Hw), u16_small by lia. by rewrite Hpn.
      * rewrite Z.add_0_l, Hpn, <- Hpl. apply rd_bytes_ext; [lia|].
        intros i Hi. apply Hpay. unfold sizeof_dns_rrs in *. lia.
    + intros s Hs. change (sec_start s (set_len _ p2)) with (sec_start s p2).
      unfold p2. rewrite sec_start_set_count. change (sec_start s (set_pdata d p1)) with (sec_start s p1).
      rewrite (Hs1 s Hs), first_off_app. f_equal. apply first_off_ext.
      unfold link_to. cbn [a_sec]. rewrite Htot. done.
  - intros s. change (sec_count s (set_len _ p2)) with (sec_count s p2).
    unfold p2. rewrite sec_count_set_count by done.
    change (sec_count s (set_pdata d p1)) with (sec_count s p1). rewrite Hc1.
    case_decide; [subst s; by rewrite Ec|done].
Qed.

(** ** Counting *)

Lemma sec_records_app t rs r :
  Zlen (sec_records t (rs ++ [r])) = Zlen (sec_records t rs) + if decide (a_sec r = t) then 1 else 0.
Proof.
  unfold sec_records. rewrite list.filter_app, Zlen_app, filter_cons. by case_decide.
Qed.

Lemma sec_records_len t rs : Zlen (sec_records t rs) <= Zlen rs.
Proof. unfold sec_records, Zlen. pose proof (length_filter (fun r => a_sec r = t) rs). lia. Qed.

(** A packet is too small for its counts to wrap around. *)
Lemma sec_records_bound p rs : pkt_rep p rs -> forall t, Zlen (sec_records t rs) < 4096.
Proof.
  intros ((_&_&?&?&_)&Htot&_) t. pose proof (atotal_length rs). pose proof (sec_records_len t rs).
  unfold sizeof_dns_packet, Zlen in *. lia.
Qed.
