(* ===== verification/DnsRecord.v ===== *)
(** * The record types (src/dns.c)

    Adding and reading A, AAAA, CNAME, PTR, NS, TXT, SOA, SRV, OPT (client
    subnet, TCP keepalive) and SVCB/HTTPS records, and the question.

    Local buffers of the C functions that are only partly initialised are
    modelled by their initialised prefix: reading past it has no value. *)

From Stdlib Require Import ZArith Lia.
From stdpp Require Import base list numbers option.
From S2P Require Import Prelude DnsTypes DnsName DnsRrs.

(** The C string at the head of [m], read up to [n] characters. *)
Fixpoint strn (m : list Z) (n : nat) : option (list Z) :=
  match n, m with
  | O, _ => Some []
  | S _, [] => None
  | S n, b :: m => if b =? 0 then Some [] else (fun s => b :: s) <$> strn m n
  end.

(** ** Names and addresses *)

(** [strnlen(s, DNS_MAX_CNAME_LEN) + 1] bytes of the string [s]. *)
Definition cname_raw (s : list Z) : list Z :=
  take (Z.to_nat (strnlen s DNS_MAX_CNAME_LEN + 1)) (s ++ [0]).

Definition dns_add_CNAME (type : dns_rr_type) (domain : list Z) (ttl : Z) (cname : list Z) : M dns_packet unit :=
  _dns_add_RAW type DNS_T_CNAME domain ttl (cname_raw cname).
Definition dns_get_CNAME (packet : dns_packet) (rrs : dns_rrs) (maxsize cname_size : Z) :=
  _dns_get_RAW packet rrs maxsize cname_size.
Definition dns_add_A (type : dns_rr_type) (domain : list Z) (ttl : Z) (addr : list Z) : M dns_packet unit :=
  raw <- access (rd_bytes addr 0 DNS_RR_A_LEN) ;; _dns_add_RAW type DNS_T_A domain ttl raw.
Definition dns_get_A (packet : dns_packet) (rrs : dns_rrs) (maxsize : Z) :=
  _dns_get_RAW packet rrs maxsize DNS_RR_A_LEN.
Definition dns_add_PTR (type : dns_rr_type) (domain : list Z) (ttl : Z) (cname : list Z) : M dns_packet unit :=
  _dns_add_RAW type DNS_T_PTR domain ttl (cname_raw cname).
Definition dns_get_PTR (packet : dns_packet) (rrs : dns_rrs) (maxsize cname_size : Z) :=
  _dns_get_RAW packet rrs maxsize cname_size.
Definition dns_add_TXT (type : dns_rr_type) (domain : list Z) (ttl : Z) (text : list Z) : M dns_packet unit :=
  let text_len := strnlen text DNS_MAX_CNAME_LEN in
  guard (negb (DNS_MAX_CNAME_LEN - 1 <? text_len)) ;;
  _dns_add_RAW type DNS_T_TXT domain ttl (u8 text_len :: text).
(** Not implemented: returns -1. *)
Definition dns_get_TXT (packet : dns_packet) (rrs : dns_rrs) (maxsize txt_size : Z) : option unit := None.
Definition dns_add_NS (type : dns_rr_type) (domain : list Z) (ttl : Z) (cname : list Z) : M dns_packet unit :=
  _dns_add_RAW type DNS_T_NS domain ttl (cname_raw cname).
Definition dns_get_NS (packet : dns_packet) (rrs : dns_rrs) (maxsize cname_size : Z) :=
  _dns_get_RAW packet rrs maxsize cname_size.
Definition dns_add_AAAA (type : dns_rr_type) (domain : list Z) (ttl : Z) (addr : list Z) : M dns_packet unit :=
  raw <- access (rd_bytes addr 0 DNS_RR_AAAA_LEN) ;; _dns_add_RAW type DNS_T_AAAA domain ttl raw.
Definition dns_get_AAAA (packet : dns_packet) (rrs : dns_rrs) (maxsize : Z) :=
  _dns_get_RAW packet rrs maxsize DNS_RR_AAAA_LEN.

(** ** SOA *)

(** The bytes of [data] up to [ptr]. *)
Definition soa_raw (soa : dns_soa) : list Z :=
  take 255 (soa_mname soa) ++ [0] ++ take 255 (soa_rname soa) ++ [0] ++
  le32 (soa_serial soa) ++ le32 (soa_refresh soa) ++ le32 (soa_retry soa) ++
  le32 (soa_expire soa) ++ le32 (soa_minimum soa).

Definition dns_add_SOA (type : dns_rr_type) (domain : list Z) (ttl : Z) (soa : dns_soa) : M dns_packet unit :=
  _dns_add_RAW type DNS_T_SOA domain ttl (soa_raw soa).

Definition dns_get_SOA (packet : dns_packet) (rrs : dns_rrs) (maxsize : Z)
    : res dns_context (list Z * Z * dns_soa) :=
  ('(domain, ttl, raw) <- (fun _ => _dns_get_RAW packet rrs maxsize 532) ;;
   let len := Zlen raw in
   mname <- access (strn raw 254) ;;
   let ptr := Zlen mname + 1 in
   guard (negb (len <=? ptr)) ;;
   rname <- access (strn (drop (Z.to_nat ptr) raw) 254) ;;
   let ptr := ptr + (Zlen rname + 1) in
   guard (negb (len <? ptr + 20)) ;;
   serial <- access (rd_bytes raw ptr 4) ;;
   refresh <- access (rd_bytes raw (ptr + 4) 4) ;;
   retry <- access (rd_bytes raw (ptr + 8) 4) ;;
   expire <- access (rd_bytes raw (ptr + 12) 4) ;;
   minimum <- access (rd_bytes raw (ptr + 16) 4) ;;
   ret (domain, ttl, mk_dns_soa mname rname (of_le serial) (of_le refresh) (of_le retry)
                       (of_le expire) (of_le minimum)))
    (_dns_init_context_by_rrs packet rrs).

(** ** EDNS *)

Definition dns_set_OPT_payload_size (payload_size : Z) : M dns_packet unit :=
  let payload_size := if payload_size <? 512 then 512 else payload_size in
  modify (set_payloadsize (u16 payload_size)).
Definition dns_get_OPT_payload_size (packet : dns_packet) : Z := p_payloadsize packet.
Definition dns_set_OPT_option (option : Z) : M dns_packet unit := modify (set_opt_option (u32 option)).
Definition dns_get_OPT_option (packet : dns_packet) : Z := p_opt_option packet.

(** [struct dns_opt] in memory. *)
Definition opt_raw (code length : Z) (data : list Z) : list Z := le16 code ++ le16 length ++ data.

(** [struct dns_opt_ecs] in memory. *)
Definition ecs_raw (ecs : dns_opt_ecs) : list Z :=
  le16 (ecs_family ecs) ++ [u8 (ecs_source_prefix ecs); u8 (ecs_scope_prefix ecs)] ++ ecs_addr ecs.

Definition ecs_addr_len (source_prefix : Z) : Z :=
  source_prefix / 8 + (if 0 <? source_prefix mod 8 then 1 else 0).

Definition dns_add_OPT_ECS (ecs : dns_opt_ecs) : M dns_packet unit :=
  let len := 4 + ecs_addr_len (ecs_source_prefix ecs) in
  data <- access (rd_bytes (ecs_raw ecs) 0 len) ;;
  _dns_add_RAW DNS_RRS_OPT DNS_OPT_T_ECS [] 0 (opt_raw DNS_OPT_T_ECS len data).

(** [opt->code] and [opt->length] of an option read into [raw]. *)
Definition raw_code (raw : list Z) : Z := of_le (take 2 raw).
Definition raw_length (raw : list Z) : Z := of_le (take 2 (drop 2 raw)).

(** The bytes stored in [*ecs], whose size is 20. *)
Definition dns_get_OPT_ECS (packet : dns_packet) (rrs : dns_rrs) : res dns_context (list Z) :=
  ('(_, _, raw) <- (fun _ => _dns_get_RAW packet rrs DNS_MAX_CNAME_LEN DNS_MAX_OPT_LEN) ;;
   guard (negb (Zlen raw <? 4)) ;;
   guard (raw_code raw =? DNS_OPT_T_ECS) ;;
   access (if raw_length raw <=? 20 then rd_bytes raw 4 (raw_length raw) else None))
    (_dns_init_context_by_rrs packet rrs).

Definition _dns_add_opt_RAW (opt_rrtype : Z) (raw : list Z) : M dns_packet unit :=
  _dns_add_RAW DNS_RRS_OPT opt_rrtype [] 0 (opt_raw opt_rrtype 2 raw).

Definition _dns_get_opt_RAW (packet : dns_packet) (rrs : dns_rrs) (maxsize : Z) :=
  _dns_get_RAW packet rrs maxsize DNS_MAX_OPT_LEN.

Definition dns_add_OPT_TCP_KEEPALIVE (timeout : Z) : M dns_packet unit :=
  _dns_add_opt_RAW DNS_OPT_T_TCP_KEEPALIVE (if 0 <? timeout then be16 timeout else []).

Definition dns_get_OPT_TCP_KEEPALIVE (packet : dns_packet) (rrs : dns_rrs) : res dns_context Z :=
  ('(_, _, raw) <- (fun _ => _dns_get_opt_RAW packet rrs DNS_MAX_CNAME_LEN) ;;
   guard (negb (Zlen raw <? 4)) ;;
   guard (raw_code raw =? DNS_OPT_T_TCP_KEEPALIVE) ;;
   if raw_length raw =? 0 then ret 0
   else
     guard (raw_length raw =? 2) ;;
     bs <- access (rd_bytes raw 4 2) ;;
     ret (of_be bs)) (_dns_init_context_by_rrs packet rrs).

(** ** SRV *)

Definition srv_raw (priority weight port : Z) (target : list Z) : list Z :=
  let target_len := strnlen target DNS_MAX_CNAME_LEN + 1 in
  le16 priority ++ le16 weight ++ le16 port ++ take (Z.to_nat (target_len - 1)) target ++ [0].

Definition dns_add_SRV (type : dns_rr_type) (domain : list Z) (ttl priority weight port : Z)
    (target : list Z) : M dns_packet unit :=
  let target_len := strnlen target DNS_MAX_CNAME_LEN + 1 in
  guard (negb (DNS_MAX_CNAME_LEN <=? 6 + target_len)) ;;
  _dns_add_RAW type DNS_T_SRV domain ttl (srv_raw priority weight port target).

Definition dns_get_SRV (packet : dns_packet) (rrs : dns_rrs) (maxsize target_size : Z)
    : res dns_context (list Z * Z * (Z * Z * Z * list Z)) :=
  ('(domain, ttl, raw) <- (fun _ => _dns_get_RAW packet rrs maxsize DNS_MAX_CNAME_LEN) ;;
   guard (negb (Zlen raw <? 6)) ;;
   priority <- access (rd_bytes raw 0 2) ;;
   weight <- access (rd_bytes raw 2 2) ;;
   port <- access (rd_bytes raw 4 2) ;;
   target <- access (strn (drop 6 raw) (Z.to_nat (target_size - 1))) ;;
   ret (domain, ttl, (of_le priority, of_le weight, of_le port, target)))
    (_dns_init_context_by_rrs packet rrs).

(** ** SVCB and HTTPS *)

(** The record data of [_dns_add_SVCB_HTTPS_start]: priority, target, padding. *)
Definition svcb_target (priority : Z) (target : list Z) : M dns_context unit :=
  let target := match target with ch :: _ => if ch =? char_dot then [] else target | [] => [] end in
  let target_len := strnlen target DNS_MAX_CNAME_LEN + 1 in
  l <- left_len ;;
  guard (negb (l <? 2 + target_len)) ;;
  _dns_write_short priority ;;
  write_mem (take (Z.to_nat (target_len - 1)) target ++ [0]) ;;
  c <- get ;;
  if negb (ptr_aligned c) then
    l <- left_len ;;
    guard (negb (l <? 1)) ;;
    _dns_write_char 0
  else ret tt.

Definition _dns_add_SVCB_HTTPS_start (type : dns_rr_type) (rtype : Z) (domain : list Z)
    (ttl priority : Z) (target : list Z) : M nested_state unit :=
  dns_add_rr_nested_start type rtype domain ttl ;;
  nested (svcb_target priority target).

Definition dns_add_HTTPS_start (type : dns_rr_type) := _dns_add_SVCB_HTTPS_start type DNS_T_HTTPS.
Definition dns_add_SVCB_start (type : dns_rr_type) := _dns_add_SVCB_HTTPS_start type DNS_T_SVCB.

(** [if (_dns_left_len(&svcparam->context) < n) return -1;] *)
Definition nested_room (n : Z) : M nested_state unit :=
  nested (l <- left_len ;; guard (negb (l <? n))).

Definition dns_SVCB_add_raw (key : Z) (value : list Z) : M nested_state unit :=
  nested_room (2 + Zlen value) ;;
  dns_add_rr_nested_memcpy (le16 key) ;;
  dns_add_rr_nested_memcpy (le16 (Zlen value)) ;;
  dns_add_rr_nested_memcpy value.

Definition dns_SVCB_add_port (port : Z) : M nested_state unit :=
  nested_room 6 ;;
  dns_add_rr_nested_memcpy (le16 DNS_HTTPS_T_PORT) ;;
  dns_add_rr_nested_memcpy (le16 2) ;;
  dns_add_rr_nested_memcpy (be16 port).

Definition dns_SVCB_add_alpn (alpn : list Z) : M nested_state unit :=
  nested_room (2 + 2 + Zlen alpn) ;;
  dns_add_rr_nested_memcpy (le16 DNS_HTTPS_T_ALPN) ;;
  dns_add_rr_nested_memcpy (le16 (Zlen alpn)) ;;
  dns_add_rr_nested_memcpy alpn.

Definition dns_SVCB_add_no_default_alpn : M nested_state unit :=
  nested_room 4 ;;
  dns_add_rr_nested_memcpy (le16 DNS_HTTPS_T_NO_DEFAULT_ALPN) ;;
  dns_add_rr_nested_memcpy (le16 0).

Definition dns_SVCB_add_ech (ech : list Z) : M nested_state unit :=
  nested_room (2 + 2 + Zlen ech) ;;
  dns_add_rr_nested_memcpy (le16 DNS_HTTPS_T_ECH) ;;
  dns_add_rr_nested_memcpy (le16 (Zlen ech)) ;;
  dns_add_rr_nested_memcpy ech.

(** The [for] loop over [addr[i]], each of [len] bytes. *)
Fixpoint add_hints (len : Z) (addr : list (list Z)) : M nested_state unit :=
  match addr with
  | [] => ret tt
  | a :: addr =>
    bs <- access (rd_bytes a 0 len) ;;
    dns_add_rr_nested_memcpy bs ;;
    add_hints len addr
  end.

Definition dns_SVCB_add_ipv4hint (addr : list (list Z)) : M nested_state unit :=
  nested_room (4 + Zlen addr * DNS_RR_A_LEN) ;;
  dns_add_rr_nested_memcpy (le16 DNS_HTTPS_T_IPV4HINT) ;;
  dns_add_rr_nested_memcpy (le16 (Zlen addr * DNS_RR_A_LEN)) ;;
  add_hints DNS_RR_A_LEN addr.

Definition dns_SVCB_add_ipv6hint (addr : list (list Z)) : M nested_state unit :=
  nested_room (4 + Zlen addr * DNS_RR_AAAA_LEN) ;;
  dns_add_rr_nested_memcpy (le16 DNS_HTTPS_T_IPV6HINT) ;;
  dns_add_rr_nested_memcpy (le16 (Zlen addr * DNS_RR_AAAA_LEN)) ;;
  add_hints DNS_RR_AAAA_LEN addr.

Definition dns_add_SVCB_end : M nested_state unit := dns_add_rr_nested_end.

(** The HTTPS record is built by the SVCB functions. *)
Definition dns_add_HTTPS_end : M nested_state unit := dns_add_SVCB_end.
Definition dns_HTTPS_add_raw (key : Z) (value : list Z) : M nested_state unit := dns_SVCB_add_raw key value.
Definition dns_HTTPS_add_alpn (alpn : list Z) : M nested_state unit := dns_SVCB_add_alpn alpn.
Definition dns_HTTPS_add_no_default_alpn : M nested_state unit := dns_SVCB_add_no_default_alpn.
Definition dns_HTTPS_add_port (port : Z) : M nested_state unit := dns_SVCB_add_port port.
Definition dns_HTTPS_add_ipv4hint (addr : list (list Z)) : M nested_state unit := dns_SVCB_add_ipv4hint addr.
Definition dns_HTTPS_add_ech (ech : list Z) : M nested_state unit := dns_SVCB_add_ech ech.
Definition dns_HTTPS_add_ipv6hint (addr : list (list Z)) : M nested_state unit := dns_SVCB_add_ipv6hint addr.

(** [strnlen((char * )data + off, n)] in a buffer. *)
Definition mem_strnlen (m : list Z) (off n : Z) : option Z :=
  if 0 <=? off then (fun s => Zlen s) <$> strn (drop (Z.to_nat off) m) (Z.to_nat n) else None.

Record svcparm := mk_svcparm {
  sv_head : rr_head; sv_priority : Z; sv_target : list Z; sv_param : option Z }.

(** [sv_param] is the first parameter's offset, [None] for NULL. *)
Definition dns_svcparm_start (packet : dns_packet) (rrs : dns_rrs) (target_size : Z)
    : res dns_context svcparm :=
  ('(h, data) <- (fun _ => dns_get_rr_nested_start packet rrs) ;;
   let qtype := q_type (r_qr h) in
   guard ((qtype =? DNS_T_HTTPS) || (qtype =? DNS_T_SVCB)) ;;
   let rr_len := r_len h in
   guard (negb (rr_len <? 2)) ;;
   bs <- access (rd_bytes (p_data packet) data 2) ;;
   let priority := of_be bs in
   let data := data + 2 in
   let rr_len := rr_len - 2 in
   guard (negb (rr_len <=? 0)) ;;
   len <- access (mem_strnlen (p_data packet) data rr_len) ;;
   target <- access (strn (drop (Z.to_nat data) (p_data packet)) (Z.to_nat (target_size - 1))) ;;
   let data := data + (len + 1) in
   let rr_len := rr_len - (len + 1) in
   guard (negb (rr_len <? 0)) ;;
   let pad := negb (is_aligned (p_addr packet + sizeof_dns_packet + data) 2) in
   let data := if pad then data + 1 else data in
   let rr_len := if pad then rr_len - 1 else rr_len in
   ret (mk_svcparm h priority target (if rr_len =? 0 then None else Some data)))
    (_dns_init_context_by_rrs packet rrs).

(** [param->key], [param->len] at a parameter's offset. *)
Definition svcparam_key (data : list Z) (param : Z) : option Z := of_le <$> rd_bytes data param 2.
Definition svcparam_len (data : list Z) (param : Z) : option Z := of_le <$> rd_bytes data (param + 2) 2.

Definition dns_svcparm_next (packet : dns_packet) (rrs : dns_rrs) (param : Z) : option (option Z) :=
  (fun len => dns_get_rr_nested_next packet rrs param (4 + len)) <$> svcparam_len (p_data packet) param.

(** ** Question *)

Definition dns_add_domain (domain : list Z) (qtype qclass : Z) : M dns_packet unit :=
  len <- _dns_add_rrs_start (_dns_add_qr_head domain qtype qclass) ;;
  _dns_rr_add_end DNS_RRS_QD DNS_T_CNAME len.

Definition dns_get_domain (packet : dns_packet) (rrs : dns_rrs) (maxsize : Z) : res dns_context qr_head :=
  _dns_get_qr_head maxsize (_dns_init_context_by_rrs packet rrs).
