(* ===== verification/DnsAddSpec.v ===== *)
(** * Adding records (src/dns.c): what the additions do to the packet

    Every addition either appends one record to the abstract packet or fails
    and leaves the records it had.  The payload of a raw record is the encoded
    owner name followed by type, class, ttl, length and data. *)

From Stdlib Require Import ZArith Lia.
From stdpp Require Import base list numbers option.
From S2P Require Import Prelude DnsTypes DnsName DnsRrs DnsRrsSpec DnsRecord.

(** ** Postconditions *)

Definition same_counts (p p' : dns_packet) : Prop := forall s, sec_count s p' = sec_count s p.

Definition bump (t : dns_rr_type) (p p' : dns_packet) : Prop := forall s,
  sec_count s p' = if decide (t = s) then (fun v => u16 (v + 1)) <$> sec_count s p else sec_count s p.

(** A failed addition. *)
Definition kept (p : dns_packet) (rs : list arec) (p' : dns_packet) : Prop :=
  pkt_rep p' rs /\ same_meta p p' /\ same_counts p p'.

(** A successful addition of the record [r]. *)
Definition added (p : dns_packet) (rs : list arec) (r : arec) (p' : dns_packet) : Prop :=
  pkt_rep p' (rs ++ [r]) /\ same_meta p p' /\ bump (a_sec r) p p'.

Lemma same_meta_refl p : same_meta p p.
Proof. by unfold same_meta. Qed.

Lemma same_meta_trans p1 p2 p3 : same_meta p1 p2 -> same_meta p2 p3 -> same_meta p1 p3.
Proof. intros (?&?&?&?&?) (?&?&?&?&?). unfold same_meta. split_and!; congruence. Qed.

Lemma same_counts_trans p1 p2 p3 : same_counts p1 p2 -> same_counts p2 p3 -> same_counts p1 p3.
Proof. intros H1 H2 s. by rewrite H2. Qed.

Lemma kept_refl p rs : pkt_rep p rs -> kept p rs p.
Proof. done. Qed.

Lemma kept_trans p1 p2 p3 rs : kept p1 rs p2 -> kept p2 rs p3 -> kept p1 rs p3.
Proof.
  intros (?&?&?) (?&?&?). unfold kept.
  split_and!; [done|by eapply same_meta_trans|by eapply same_counts_trans].
Qed.

Lemma kept_added p1 p2 p3 rs r : kept p1 rs p2 -> added p2 rs r p3 -> added p1 rs r p3.
Proof.
  intros (?&?&Hc) (?&?&Hb). unfold added. split_and!; [done|by eapply same_meta_trans|].
  intros s. rewrite Hb, Hc. done.
Qed.

#[export] Hint Resolve same_meta_refl kept_refl : cdb.

(** ** Writing through the packet's context *)

(** Changes beyond the records do not matter. *)
Lemma pkt_rep_put p rs c' :
  pkt_rep p rs -> frame (p_len p) (Zlen (p_data p)) (p_data p) (c_data c') -> Forall is_byte (c_data c') ->
  kept p rs (put_context c' p).
Proof.
  intros ((Hsz&_&H64&Hlen&Haddr)&Htot&Hl&Hst) [Hfl Hf] Hb.
  unfold kept. split_and!; [|done|done]. unfold pkt_rep, pkt_ok. cbn. split_and!; try done; try lia.
  apply (laid_agree (p_data p)); [lia|done|done|]. intros i Hi. apply Hf. lia.
Qed.

Lemma add_context_wf p rs : pkt_rep p rs -> ctx_wf (add_context p).
Proof.
  intros ((Hsz&Hb&_&Hlen&_)&_). unfold ctx_wf, add_context, sizeof_dns_rrs. cproj.
  split_and!; [lia..|done].
Qed.

(** A body that writes [r] bytes from the context's pointer on. *)
Definition writes (c : dns_context) (c' : dns_context) (r : Z) : Prop :=
  ctx_ext (c_ptr c) (c_ptr c') c c' /\ c_ptr c' <= c_maxsize c /\ c_ptr c' = c_ptr c + r /\ 0 <= r.

(** What a failing body may leave behind. *)
Definition spoils (c : dns_context) (c' : dns_context) : Prop :=
  ctx_ext (c_ptr c) (c_maxsize c) c c' /\ c_ptr c <= c_ptr c'.

Lemma add_start_spec {A} (body : M dns_context A) p rs (Q : dns_packet -> A -> Prop) (E : dns_packet -> Prop) :
  pkt_rep p rs ->
  (forall c, c = add_context p -> ctx_wf c ->
     wp body c (fun c' a => spoils c c' /\ (kept p rs (put_context c' p) -> Q (put_context c' p) a))
       (fun c' => spoils c c' /\ (kept p rs (put_context c' p) -> E (put_context c' p)))) ->
  (_dns_left_len (add_context p) < 0 -> kept p rs p -> E p) ->
  wp (_dns_add_rrs_start body) p Q E.
Proof.
  intros Hrep Hbody HE. unfold _dns_add_rrs_start. do 2 wp_step. wp_step.
  wp_step; [|apply HE; [|by apply kept_refl]; unfold _dns_left_len; cbn;
             unfold sizeof_dns_packet, sizeof_dns_rrs in *; lia]. wp_step.
  assert (forall c', spoils (add_context p) c' -> kept p rs (put_context c' p)) as Hk.
  { intros c' [(_&_&Hf&Hb) _]. pose proof Hrep as ((Hsz&_)&_). apply pkt_rep_put; [done| |done].
    eapply frame_widen; [exact Hf|cbn; unfold sizeof_dns_rrs; lia|cbn; lia]. }
  eapply wp_mono; [apply (Hbody _ eq_refl (add_context_wf p rs Hrep))| |].
  - intros c' a [Hs HQ]. by apply HQ, Hk.
  - intros c' [Hs HE']. by apply HE', Hk.
Qed.

Lemma writes_spoils c c' r : writes c c' r -> spoils c c'.
Proof. intros (He&?&?&?). split; [eapply ctx_ext_widen; [exact He|lia|lia]|lia]. Qed.

Lemma ctx_ext_wf lo hi c c' : ctx_ext lo hi c c' -> ctx_wf c -> 0 <= c_ptr c' -> ctx_wf c'.
Proof. intros (_&Hm&[Hl _]&Hb) (_&?&_) ?. unfold ctx_wf. rewrite Hm, Hl. done. Qed.

Lemma writes_wf c c' r : writes c c' r -> ctx_wf c -> ctx_wf c'.
Proof. intros (He&?&?&?) Hw. eapply ctx_ext_wf; eauto. destruct Hw. lia. Qed.

Lemma writes_trans c1 c2 c3 r1 r2 : writes c1 c2 r1 -> writes c2 c3 r2 -> writes c1 c3 (r1 + r2).
Proof.
  intros (He1&?&?&?) (He2&?&?&?). pose proof He1 as (_&Hm&_). unfold writes.
  split_and!; try lia. eapply ctx_ext_seq; [exact He1|exact He2|lia..].
Qed.

Lemma writes_then_spoils c1 c2 c3 r1 : writes c1 c2 r1 -> spoils c2 c3 -> spoils c1 c3.
Proof.
  intros (He1&?&?&?) [He2 ?]. pose proof He1 as (_&Hm&_). rewrite Hm in He2.
  split; [eapply ctx_ext_seq; [exact He1|exact He2|lia..]|lia].
Qed.

Lemma spoils_refl c : ctx_wf c -> spoils c c.
Proof. intros (_&_&?). split; [by apply ctx_ext_refl|lia]. Qed.

(** Writing fixed bytes. *)
Lemma wp_write_bytes bs c (Q : dns_context -> unit -> Prop) E :
  ctx_wf c -> Zlen bs <= _dns_left_len c -> Forall is_byte bs ->
  (forall c', writes c c' (Zlen bs) -> c_namedict c' = c_namedict c ->
     rd_bytes (c_data c') (c_ptr c) (Zlen bs) = Some bs -> Q c' tt) ->
  wp (write_mem bs) c Q E.
Proof.
  intros (Hp&Hm&Hb) Hl Hbs HQ. unfold _dns_left_len in Hl. apply wp_write_mem; [lia..|].
  intros d Hw. pose proof (Zlen_nonneg bs). apply HQ; [|done|by apply rd_bytes_wr_same in Hw].
  unfold writes. cproj. split_and!; try lia.
  eapply (ctx_ext_write _ _ c); eauto; lia.
Qed.

Lemma wp_write_short v c (Q : dns_context -> unit -> Prop) E :
  ctx_wf c -> 2 <= _dns_left_len c ->
  (forall c', writes c c' 2 -> c_namedict c' = c_namedict c ->
     rd_bytes (c_data c') (c_ptr c) 2 = Some (be16 v) -> Q c' tt) ->
  wp (_dns_write_short v) c Q E.
Proof. intros. apply wp_write_bytes; auto with cdb. Qed.

Lemma wp_write_int v c (Q : dns_context -> unit -> Prop) E :
  ctx_wf c -> 4 <= _dns_left_len c ->
  (forall c', writes c c' 4 -> c_namedict c' = c_namedict c ->
     rd_bytes (c_data c') (c_ptr c) 4 = Some (be32 v) -> Q c' tt) ->
  wp (_dns_write_int v) c Q E.
Proof. intros. apply wp_write_bytes; auto with cdb. Qed.

(** Bytes written earlier survive later writes. *)
Lemma writes_keep c c' r a n : writes c c' r -> a + n <= c_ptr c -> rd_bytes (c_data c') a n = rd_bytes (c_data c) a n.
Proof. intros ((_&_&Hf&_)&_) ?. eapply frame_rd_bytes; [exact Hf|lia]. Qed.

(** ** Record heads *)

(** The owner name as [_dns_encode_domain] wrote it. *)
Definition named (domain : list Z) (c c1 : dns_context) (r : Z) : Prop :=
  _dns_encode_domain domain c = Ok c1 r /\ writes c c1 r /\ 1 <= r <= Zlen domain + 2.

(** Why an addition fails: the name could not be written, or it and the [n]
    bytes that follow need more than what is left. *)
Definition no_room (domain : list Z) (c : dns_context) (n : Z) : Prop :=
  (exists c1, _dns_encode_domain domain c = Fail c1) \/ _dns_left_len c < Zlen domain + 2 + n.

Lemma no_room_le domain c n n' : no_room domain c n -> n <= n' -> no_room domain c n'.
Proof. intros [?|?] ?; [by left|right; lia]. Qed.

Lemma named_room domain c c1 r n :
  named domain c c1 r -> _dns_left_len c1 < n -> no_room domain c n.
Proof.
  intros (_&((_&Hm&_)&_&Hp&_)&Hr) Hl. right. unfold _dns_left_len in *. lia.
Qed.

Lemma wp_encode_domain domain c (Q : dns_context -> Z -> Prop) (E : dns_context -> Prop) :
  Forall is_byte domain -> ctx_wf c ->
  (forall c1 r, named domain c c1 r -> Q c1 r) -> (forall c', spoils c c' -> no_room domain c 0 -> E c') ->
  wp (_dns_encode_domain domain) c Q E.
Proof.
  intros Hd Hw HQ HE. pose proof (encode_domain_safe domain c Hd Hw) as H. unfold wp in *.
  destruct (_dns_encode_domain domain c) as [c1 r|c1| |] eqn:He; try done; [|apply HE; [done|left; eauto]].
  apply HQ. destruct H as (Hx&?&?&?). unfold named, writes. split_and!; try done; lia.
Qed.

(** The head of a question: name, type, class. *)
Definition qr_written (domain : list Z) (qtype qclass : Z) (c c' : dns_context) (r : Z) : Prop :=
  exists c1, named domain c c1 (r - 4) /\ writes c1 c' 4 /\ c_namedict c' = c_namedict c1 /\
    rd_bytes (c_data c') (c_ptr c1) 4 = Some (be16 qtype ++ be16 qclass).

Lemma add_qr_head_spec domain qtype qclass c (Q : dns_context -> Z -> Prop) (E : dns_context -> Prop) :
  Forall is_byte domain -> ctx_wf c ->
  (forall c' r, qr_written domain qtype qclass c c' r -> Q c' r) ->
  (forall c', spoils c c' -> no_room domain c 4 -> E c') ->
  wp (_dns_add_qr_head domain qtype qclass) c Q E.
Proof.
  intros Hd Hw HQ HE. unfold _dns_add_qr_head. wp_step.
  apply wp_encode_domain; [done..| |intros c' Hs Hn; apply HE; [done|eapply no_room_le; [exact Hn|lia]]].
  intros c1 r Hn. pose proof Hn as (_&Hw1&_). pose proof (writes_wf _ _ _ Hw1 Hw) as Hwf1.
  wp_step. apply wp_left_len. wp_step. wp_step; [|apply HE; [by eapply writes_spoils|by eapply named_room]].
  wp_step. apply wp_write_short; [done|lia|]. intros c2 Hw2 Hd2 Hr2.
  pose proof (writes_wf _ _ _ Hw2 Hwf1) as Hwf2. pose proof Hw2 as ((_&Hm2&_)&?&Hp2&_).
  unfold _dns_left_len in *.
  wp_step. apply wp_write_short; [done|unfold _dns_left_len; lia|]. intros c3 Hw3 Hd3 Hr3. wp_step.
  apply HQ. exists c1. replace (r + 4 - 4) with r by lia.
  split_and!; [done|exact (writes_trans _ _ _ _ _ Hw2 Hw3)|congruence|].
  apply (rd_bytes_split _ _ 2 2); [|by rewrite <- Hp2].
  rewrite (writes_keep _ _ _ _ _ Hw3) by lia. done.
Qed.

(** The head of a record: name, type, class, ttl, length. *)
Definition rr_written (domain : list Z) (qtype qclass ttl len : Z) (c c' : dns_context) (r : Z) : Prop :=
  exists c1, named domain c c1 (r - 10) /\ writes c1 c' 10 /\ c_namedict c' = c_namedict c1 /\
    rd_bytes (c_data c') (c_ptr c1) 10 = Some (be16 qtype ++ be16 qclass ++ be32 ttl ++ be16 len).

Lemma qr_written_writes domain qtype qclass c c' r : qr_written domain qtype qclass c c' r -> writes c c' r.
Proof.
  intros (c1&(_&H1&_)&H2&_). pose proof (writes_trans _ _ _ _ _ H1 H2) as H.
  by replace (r - 4 + 4) with r in H by lia.
Qed.

Lemma rr_written_writes domain qtype qclass ttl len c c' r :
  rr_written domain qtype qclass ttl len c c' r -> writes c c' r /\ 11 <= r.
Proof.
  intros (c1&(_&H1&Hr)&H2&_). pose proof (writes_trans _ _ _ _ _ H1 H2) as Hw.
  replace (r - 10 + 10) with r in Hw by lia. split; [done|lia].
Qed.

Lemma add_rr_head_spec domain qtype qclass ttl len c (Q : dns_context -> Z -> Prop) (E : dns_context -> Prop) :
  Forall is_byte domain -> ctx_wf c ->
  (forall c' r, rr_written domain qtype qclass ttl len c c' r -> Q c' r) ->
  (forall c', spoils c c' -> no_room domain c 10 -> E c') ->
  wp (_dns_add_rr_head domain qtype qclass ttl len) c Q E.
Proof.
  intros Hd Hw HQ HE. unfold _dns_add_rr_head. wp_step.
  apply add_qr_head_spec; [done..| |intros c' Hs Hn; apply HE; [done|eapply no_room_le; [exact Hn|lia]]].
  intros c2 r Hq. pose proof (qr_written_writes _ _ _ _ _ _ Hq) as Hw2.
  pose proof (writes_wf _ _ _ Hw2 Hw) as Hwf2. destruct Hq as (c1&Hn&Hq&Hdq&Hrq).
  wp_step. apply wp_left_len. wp_step. wp_step; cycle 1.
  { apply HE; [by eapply writes_spoils|]. apply (named_room _ _ _ _ 10 Hn).
    destruct Hq as ((_&Hmq&_)&_&Hpq&_). unfold _dns_left_len in *. lia. }
  wp_step. apply wp_write_int; [done|lia|]. intros c3 Hw3 Hd3 Hr3.
  pose proof (writes_wf _ _ _ Hw3 Hwf2) as Hwf3. pose proof Hw3 as ((_&Hm3&_)&?&Hp3&_).
  pose proof Hq as (_&_&Hpq&_). unfold _dns_left_len in *.
  wp_step. apply wp_write_short; [done|unfold _dns_left_len; lia|]. intros c4 Hw4 Hd4 Hr4. wp_step.
  apply HQ. exists c1. replace (r + 6 - 10) with (r - 4) by lia.
  pose proof (writes_trans _ _ _ _ _ Hw3 Hw4) as Hw34.
  split_and!; [done|exact (writes_trans _ _ _ _ _ Hq Hw34)|congruence|].
  rewrite app_assoc. apply (rd_bytes_split _ _ 4 6).
  - rewrite (writes_keep _ _ _ _ _ Hw34) by lia. done.
  - apply (rd_bytes_split _ _ 4 2); rewrite <- Hpq.
    + rewrite (writes_keep _ _ _ _ _ Hw4) by lia. done.
    + by rewrite <- Hp3.
Qed.

(** ** Raw records *)

(** The head and then the data. *)
Definition raw_written (domain : list Z) (qtype ttl : Z) (raw : list Z) (c c' : dns_context) (r : Z) : Prop :=
  exists c1, rr_written domain qtype DNS_C_IN ttl (Zlen raw) c c1 (r - Zlen raw) /\
    writes c1 c' (Zlen raw) /\ c_namedict c' = c_namedict c1 /\
    rd_bytes (c_data c') (c_ptr c1) (Zlen raw) = Some raw.

Lemma raw_written_writes domain qtype ttl raw c c' r :
  raw_written domain qtype ttl raw c c' r -> writes c c' r /\ 11 <= r.
Proof.
  intros (c1&H1&H2&_). apply rr_written_writes in H1 as [H1 Hr].
  pose proof (writes_trans _ _ _ _ _ H1 H2) as Hw. pose proof (Zlen_nonneg raw).
  replace (r - Zlen raw + Zlen raw) with r in Hw by lia. split; [done|lia].
Qed.

(** The bytes a body wrote are the payload of the record that is added. *)
Lemma add_end_after t rtype p rs c' r (Q : dns_packet -> unit -> Prop) (E : dns_packet -> Prop) :
  pkt_rep p rs -> t <> DNS_RRS_END -> writes (add_context p) c' r -> kept p rs (put_context c' p) ->
  (forall pl p', rd_bytes (c_data c') (p_len p + 16) r = Some pl ->
     added p rs (mk_arec t (s32 rtype) pl) p' -> p_namedict p' = c_namedict c' ->
     Q p' tt) ->
  wp (_dns_rr_add_end t rtype r) (put_context c' p) Q E.
Proof.
  intros Hrep Ht (Hx&Hmax&Hp&Hr) Hk HQ. pose proof Hk as (Hrep'&_).
  pose proof Hrep as ((Hsz&_&_&Hlen&_)&_). pose proof Hx as (_&_&[Hl _]&_). cbn in Hmax, Hp, Hl.
  unfold sizeof_dns_rrs, sizeof_dns_packet in *.
  destruct (rd_bytes_ex (c_data c') (p_len p + 16) r) as [pl Hpl]; [lia..|].
  eapply wp_mono; [apply (rr_add_end_spec t rtype r pl _ rs); try done| |].
  - intros p' [] (?&?&Hd&Hc). apply (HQ pl); [done| |done]. eapply kept_added; [exact Hk|done].
  - intros p' [_ Hfull]. cbn in Hfull. lia.
Qed.

Lemma add_RAW_spec t rtype domain ttl raw p rs (Q : dns_packet -> unit -> Prop) (E : dns_packet -> Prop) :
  pkt_rep p rs -> t <> DNS_RRS_END -> Forall is_byte domain -> Forall is_byte raw ->
  (forall c' r pl p', raw_written domain rtype ttl raw (add_context p) c' r ->
     rd_bytes (c_data c') (p_len p + 16) r = Some pl ->
     added p rs (mk_arec t (s32 rtype) pl) p' -> p_namedict p' = c_namedict c' -> Q p' tt) ->
  (forall p', kept p rs p' -> no_room domain (add_context p) (10 + Zlen raw) -> E p') ->
  wp (_dns_add_RAW t rtype domain ttl raw) p Q E.
Proof.
  intros Hrep Ht Hd Hraw HQ HE. unfold _dns_add_RAW. wp_step. pose proof (Zlen_nonneg raw). pose proof (Zlen_nonneg domain).
  apply (add_start_spec _ p rs); [done| |intros ? ?; apply HE; [done|right; lia]]. intros c -> Hwf.
  wp_step. apply add_rr_head_spec; [done|done| |].
  2: { intros c' Hs Hn. split; [done|]. intros Hk. apply HE; [done|]. eapply no_room_le; [exact Hn|lia]. }
  intros c1 r Hh.
  pose proof Hh as [Hw1 Hr]%rr_written_writes. pose proof (writes_wf _ _ _ Hw1 Hwf) as Hwf1.
  wp_step. apply wp_left_len. wp_step. wp_step; cycle 1.
  { split; [by eapply writes_spoils|]. intros Hk. apply HE; [done|]. destruct Hh as (c0&Hn&Hw10&_).
    apply (named_room _ _ _ _ _ Hn). destruct Hw10 as ((_&Hm&_)&_&Hp&_). unfold _dns_left_len in *. lia. }
  wp_step. apply wp_write_bytes; [done|lia|done|]. intros c2 Hw2 Hd2 Hr2. wp_step.
  assert (raw_written domain rtype ttl raw (add_context p) c2 (r + Zlen raw)) as Hall.
  { exists c1. by replace (r + Zlen raw - Zlen raw) with r by lia. }
  pose proof Hall as [Hw _]%raw_written_writes. split; [by eapply writes_spoils|].
  intros Hk. apply (add_end_after t rtype p rs); eauto.
Qed.

(** The weaker postcondition: one record more, or none. *)
Lemma add_RAW_safe t rtype domain ttl raw p rs :
  pkt_rep p rs -> t <> DNS_RRS_END -> Forall is_byte domain -> Forall is_byte raw ->
  wp (_dns_add_RAW t rtype domain ttl raw) p
    (fun p' _ => exists pl, added p rs (mk_arec t (s32 rtype) pl) p') (kept p rs).
Proof. intros. eapply add_RAW_spec; eauto. Qed.

(** The question. *)
Lemma add_domain_spec domain qtype qclass p rs (Q : dns_packet -> unit -> Prop) (E : dns_packet -> Prop) :
  pkt_rep p rs -> Forall is_byte domain ->
  (forall c' r pl p', qr_written domain qtype qclass (add_context p) c' r ->
     rd_bytes (c_data c') (p_len p + 16) r = Some pl ->
     added p rs (mk_arec DNS_RRS_QD DNS_T_CNAME pl) p' -> p_namedict p' = c_namedict c' -> Q p' tt) ->
  (forall p', kept p rs p' -> no_room domain (add_context p) 4 -> E p') ->
  wp (dns_add_domain domain qtype qclass) p Q E.
Proof.
  intros Hrep Hd HQ HE. unfold dns_add_domain. wp_step. pose proof (Zlen_nonneg domain).
  apply (add_start_spec _ p rs); [done| |intros ? ?; apply HE; [done|right; lia]]. intros c -> Hwf.
  apply add_qr_head_spec; [done|done| |].
  2: { intros c' Hs Hn. split; [done|]. intros Hk. by apply HE. }
  intros c1 r Hh.
  pose proof (qr_written_writes _ _ _ _ _ _ Hh) as Hw. split; [by eapply writes_spoils|].
  intros Hk. apply (add_end_after DNS_RRS_QD DNS_T_CNAME p rs); eauto.
Qed.

Lemma add_domain_safe domain qtype qclass p rs :
  pkt_rep p rs -> Forall is_byte domain ->
  wp (dns_add_domain domain qtype qclass) p
    (fun p' _ => exists pl, added p rs (mk_arec DNS_RRS_QD DNS_T_CNAME pl) p') (kept p rs).
Proof. intros. eapply add_domain_spec; eauto. Qed.

(** ** What both kinds of records have in common: a name, then fixed bytes *)

Definition tail_written (domain tail : list Z) (c c' : dns_context) (r : Z) : Prop :=
  exists c1, named domain c c1 (r - Zlen tail) /\ writes c1 c' (Zlen tail) /\ c_namedict c' = c_namedict c1 /\
    rd_bytes (c_data c') (c_ptr c1) (Zlen tail) = Some tail.

Lemma qr_written_tail domain qtype qclass c c' r :
  qr_written domain qtype qclass c c' r -> tail_written domain (be16 qtype ++ be16 qclass) c c' r.
Proof. intros (c1&?). by exists c1. Qed.

Lemma raw_written_tail domain qtype ttl raw c c' r :
  raw_written domain qtype ttl raw c c' r ->
  tail_written domain (be16 qtype ++ be16 DNS_C_IN ++ be32 ttl ++ be16 (Zlen raw) ++ raw) c c' r.
Proof.
  intros (c2&(c1&Hn&Hw2&Hd2&Hr2)&Hw3&Hd3&Hr3). exists c1. pose proof Hw2 as (_&_&Hp2&_).
  assert (Zlen (be16 qtype ++ be16 DNS_C_IN ++ be32 ttl ++ be16 (Zlen raw) ++ raw) = 10 + Zlen raw) as Hl
    by (rewrite !Zlen_app, !be16_len, be32_len; lia).
  rewrite Hl. replace (r - (10 + Zlen raw)) with (r - Zlen raw - 10) by lia.
  split_and!; [done|exact (writes_trans _ _ _ _ _ Hw2 Hw3)|congruence|].
  rewrite !app_assoc. apply (rd_bytes_split _ _ 10 (Zlen raw)); [|by rewrite <- Hp2].
  rewrite (writes_keep _ _ _ _ _ Hw3) by lia. rewrite Hr2. by rewrite <- !app_assoc.
Qed.

Lemma tail_written_writes domain tail c c' r : tail_written domain tail c c' r -> writes c c' r /\ 1 + Zlen tail <= r.
Proof.
  intros (c1&(_&H1&Hr)&H2&_). pose proof (writes_trans _ _ _ _ _ H1 H2) as Hw.
  replace (r - Zlen tail + Zlen tail) with r in Hw by lia. split; [done|lia].
Qed.
