(* ===== verification/DnsView.v ===== *)
(** * A packet as a list of resource records (src/dns.c)

    The contract of the packet store: abstractly a packet is the list of the
    resource records added to it, each with section, type, owner name, ttl and
    data ([rr]).  [pkt_view] relates a packet to such a list; adding a record
    appends to the list, and a client that walks a section with
    [dns_get_rrs_start]/[dns_get_rrs_next] and reads each record gets exactly
    the records of that section, in order, with the values that were added.

    Owner names are stored compressed, so a record can be read back only
    because the names it points to stay in place: the links the record lists
    keep inside the packet are rewritten, but never inside a payload. *)

From Stdlib Require Import ZArith Lia.
From stdpp Require Import base list numbers option.
From S2P Require Import Prelude DnsTypes DnsName DnsNameRt DnsRrs DnsRrsSpec DnsRecord DnsAddSpec.

(** ** The abstract records *)

(** A question has a class, a record a ttl and data. *)
Inductive rr_body := Question (qclass : Z) | Data (ttl : Z) (raw : list Z).

Record rr := mk_rr { v_sec : dns_rr_type; v_type : Z; v_labels : list (list Z); v_body : rr_body }.

(** The addresses that belong to payloads, or lie behind the next header. *)
Fixpoint in_payload (o : Z) (rs : list arec) (i : Z) : Prop :=
  match rs with
  | [] => o + sizeof_dns_rrs <= i
  | r :: rs => o + sizeof_dns_rrs <= i < o + asize r \/ in_payload (o + asize r) rs i
  end.

(** What follows the name. *)
Definition rr_tail (v : rr) : list Z :=
  be16 (v_type v) ++
  match v_body v with
  | Question qclass => be16 qclass
  | Data ttl raw => be16 DNS_C_IN ++ be32 ttl ++ be16 (Zlen raw) ++ raw
  end.

(** The type the header carries: questions are stored as CNAME. *)
Definition header_type (v : rr) : Z :=
  match v_body v with Question _ => DNS_T_CNAME | Data _ _ => v_type v end.

Definition rr_ok (v : rr) : Prop :=
  0 <= v_type v < 65536 /\ labels_ok (v_labels v) /\
  match v_body v with Question qclass => 0 <= qclass < 65536 | Data _ raw => Forall is_byte raw end.

(** The record [r] at offset [o] holds [v]. *)
Definition holds (S : Z -> Prop) (m : list Z) (o : Z) (r : arec) (v : rr) : Prop :=
  a_sec r = v_sec v /\ a_type r = header_type v /\ rr_ok v /\ exists e,
    name_on S m e 0 (o + sizeof_dns_rrs) (v_labels v) e /\
    rd_bytes m e (Zlen (rr_tail v)) = Some (rr_tail v) /\ e + Zlen (rr_tail v) = o + asize r.

Fixpoint all_hold (S : Z -> Prop) (m : list Z) (o : Z) (rs : list arec) (vs : list rr) : Prop :=
  match rs, vs with
  | [], [] => True
  | r :: rs, v :: vs => holds S m o r v /\ all_hold S m (o + asize r) rs vs
  | _, _ => False
  end.

Section view.

(** The sections whose counts are kept: all of them, except while a message is
    being decoded. *)
Context (C : dns_rr_type -> Prop).

(** The packet [p] holds the records [vs]; [U] is the set of names that may
    occur, free of hash collisions. *)
Definition pkt_view (U : list Z -> Prop) (p : dns_packet) (vs : list rr) : Prop :=
  exists rs, pkt_rep p rs /\ all_hold (in_payload 0 rs) (p_data p) 0 rs vs /\
    Forall (item_good (in_payload 0 rs) U (p_data p) (p_len p)) (p_namedict p) /\
    forall t, C t -> sec_count t p = Some (Zlen (sec_records t rs)).

(** ** Payload bytes are stable *)

Lemma in_payload_end o rs i : o + atotal rs + sizeof_dns_rrs <= i -> in_payload o rs i.
Proof.
  revert o. induction rs as [|r rs IH]; intros o; cbn; [lia|]. intros Hi. right. apply IH. lia.
Qed.

Lemma in_payload_app o rs r i :
  in_payload o rs i -> i < o + atotal (rs ++ [r]) -> in_payload o (rs ++ [r]) i.
Proof.
  revert o. induction rs as [|r0 rs IH]; intros o; cbn [app in_payload atotal].
  - intros Hi Hlt. left. lia.
  - intros [?|Hi] Hlt; [by left|right]. apply IH; [done|lia].
Qed.

(** Two layouts of the same records agree on the payloads. *)
Lemma laid_payload d d' fin fin' rs : forall o i,
  laid d fin o rs -> laid d' fin' o rs -> in_payload o rs i -> i < o + atotal rs -> rd8 d' i = rd8 d i.
Proof.
  induction rs as [|r rs IH]; intros o i Hl Hl'; cbn [laid in_payload atotal] in *.
  { unfold sizeof_dns_rrs. lia. }
  destruct Hl as (_&Hp&Hl), Hl' as (_&Hp'&Hl'). intros [Hi|Hi] Hlt; [|apply (IH (o + asize r)); done || lia].
  unfold asize, sizeof_dns_rrs in *.
  pose proof (rd_bytes_lookup _ _ _ _ (i - (o + 16)) Hp ltac:(lia)) as L1.
  pose proof (rd_bytes_lookup _ _ _ _ (i - (o + 16)) Hp' ltac:(lia)) as L2.
  replace (o + 16 + (i - (o + 16))) with i in * by lia. congruence.
Qed.

(** The layout of a prefix. *)
Lemma laid_prefix d fin rs r : forall o,
  laid d fin o (rs ++ [r]) ->
  laid d (fun s => if decide (a_sec r = s) then o + atotal rs else fin s) o rs.
Proof.
  induction rs as [|r0 rs IH]; intros o H; [done|]. cbn [app laid atotal] in *. destruct H as (H1&H2&H3).
  apply IH in H3. rewrite <- Z.add_assoc in H3. split; [|by split].
  rewrite H1, first_off_app, <- Z.add_assoc. done.
Qed.

(** ** Stability of the records *)

Lemma holds_stable S S' m m' o r v :
  holds S m o r v -> 0 <= o -> (forall i, o + sizeof_dns_rrs <= i < o + asize r -> rd8 m' i = rd8 m i) ->
  (forall i, 0 <= i < o + asize r -> S i -> S' i /\ rd8 m' i = rd8 m i) -> holds S' m' o r v.
Proof.
  intros (?&?&?&e&Hn&Hr&He) Ho Hp Ha. do 3 (split; [done|]). exists e.
  pose proof (name_at_bounds _ _ _ _ _ _ (name_on_at _ _ _ _ _ _ _ Hn)).
  assert (0 < Zlen (rr_tail v)) as Hpos.
  { unfold rr_tail. rewrite Zlen_app, be16_len.
    match goal with |- _ < _ + Zlen ?l => pose proof (Zlen_nonneg l) end. lia. }
  split_and!; [|eapply rd_bytes_agree; [exact Hr|done|]; intros i Hi; apply Hp; lia|done].
  eapply name_on_agree; [exact Hn| |lia]. intros i Hi. apply Ha. lia.
Qed.

Lemma all_hold_stable S S' m m' : forall rs vs o,
  all_hold S m o rs vs -> 0 <= o ->
  (forall i, 0 <= i < o + atotal rs -> in_payload o rs i -> rd8 m' i = rd8 m i) ->
  (forall i, 0 <= i < o + atotal rs -> S i -> S' i /\ rd8 m' i = rd8 m i) -> all_hold S' m' o rs vs.
Proof.
  induction rs as [|r rs IH]; intros [|v vs] o; cbn [all_hold atotal in_payload]; try done.
  intros [Hh Hr] Ho Hp Ha. pose proof (asize_pos r). pose proof (atotal_nonneg rs). split.
  - eapply holds_stable; [exact Hh|done|..].
    + intros i Hi. apply Hp; [unfold sizeof_dns_rrs in *; lia|]. by left.
    + intros i Hi. apply Ha. lia.
  - apply IH; [done|lia|..].
    + intros i Hi Hin. apply Hp; [lia|]. by right.
    + intros i Hi. apply Ha. lia.
Qed.

Lemma all_hold_app S m o rs vs r v :
  all_hold S m o rs vs -> holds S m (o + atotal rs) r v -> all_hold S m o (rs ++ [r]) (vs ++ [v]).
Proof.
  revert vs o. induction rs as [|r0 rs IH]; intros [|v0 vs] o; cbn [app all_hold atotal]; try done.
  - intros _ Hh. by rewrite Z.add_0_r in Hh.
  - intros [? ?] Hh. split; [done|]. apply IH; [done|]. by rewrite <- Z.add_assoc.
Qed.

Lemma all_hold_length S m o rs vs : all_hold S m o rs vs -> length rs = length vs.
Proof.
  revert vs o. induction rs as [|r rs IH]; intros [|v vs] o; cbn; try done. intros [_ H]. f_equal. by eapply IH.
Qed.

(** ** Adding a record *)

Lemma add_context_dict U p rs :
  Forall (item_good (in_payload 0 rs) U (p_data p) (p_len p)) (p_namedict p) ->
  dict_good (in_payload 0 rs) U (add_context p).
Proof.
  intros H. eapply Forall_impl; [|exact H]. intros it Hg. eapply item_good_mono; [exact Hg|done|].
  cbn. unfold sizeof_dns_rrs. lia.
Qed.

(** What [_dns_encode_domain] leaves when it writes the owner name of a new
    record. *)
Lemma owner_encoded U p rs ls :
  hash_faithful U -> pkt_rep p rs ->
  Forall (item_good (in_payload 0 rs) U (p_data p) (p_len p)) (p_namedict p) ->
  p_size p <= 16384 -> labels_ok ls -> (ls <> [] -> U (join ls)) -> 2 < _dns_left_len (add_context p) ->
  wp (_dns_encode_domain (join ls)) (add_context p)
    (fun c' r => name_on (in_payload 0 rs) (c_data c') (c_ptr c') 0 (p_len p + sizeof_dns_rrs) ls (c_ptr c') /\
       dict_good (in_payload 0 rs) U c')
    (fun _ => _dns_left_len (add_context p) < Zlen (join ls) + 3).
Proof.
  intros HU Hrep Hd Hsz Hls HUj Hl. pose proof Hrep as ((?&_)&Htot&_).
  eapply wp_mono; [apply (encode_domain_ok (in_payload 0 rs) U ls (add_context p)); try done|..].
  - intros i Hi. apply in_payload_end. cbn in Hi. lia.
  - by eapply add_context_wf.
  - cbn. unfold sizeof_dns_packet. lia.
  - by apply add_context_dict.
  - by right.
  - by intros c' r (?&?&_).
  - done.
Qed.


Lemma in_payload_split o rs i :
  in_payload o rs i -> i < o + atotal rs \/ o + atotal rs + sizeof_dns_rrs <= i.
Proof.
  revert o. induction rs as [|r rs IH]; intros o; cbn; [lia|]. pose proof (atotal_nonneg rs).
  intros [?|Hi]; [lia|]. apply IH in Hi. lia.
Qed.

Lemma laid_last d fin rs r : forall o, laid d fin o (rs ++ [r]) ->
  rd_rrs d (o + atotal rs) = Some (mk_dns_rrs (o + atotal rs) (fin (a_sec r)) (Zlen (a_payload r)) (a_type r)) /\
  rd_bytes d (o + atotal rs + sizeof_dns_rrs) (Zlen (a_payload r)) = Some (a_payload r).
Proof.
  induction rs as [|r0 rs IH]; intros o; cbn [app laid atotal].
  - intros (H1&H2&_). rewrite Z.add_0_r. done.
  - intros (_&_&H). apply IH in H. by rewrite Z.add_assoc.
Qed.

(** Bytes of the new packet: old payloads and the new one. *)
Lemma added_bytes p rs c' r t ty pl p' i :
  pkt_rep p rs -> writes (add_context p) c' r -> rd_bytes (c_data c') (p_len p + sizeof_dns_rrs) r = Some pl ->
  added p rs (mk_arec t ty pl) p' -> in_payload 0 rs i -> i < p_len p + sizeof_dns_rrs + r ->
  in_payload 0 (rs ++ [mk_arec t ty pl]) i /\ rd8 (p_data p') i = rd8 (c_data c') i.
Proof.
  intros (_&Htot&Hl&_) ((_&_&[_ Hf]&_)&_) Hpl ((_&_&Hl'&_)&_) Hin Hi.
  pose proof (rd_bytes_len _ _ _ _ Hpl) as Hn. unfold sizeof_dns_rrs in *. split.
  { apply in_payload_app; [done|]. rewrite atotal_app. cbn. unfold asize, sizeof_dns_rrs. cbn. lia. }
  destruct (in_payload_split _ _ _ Hin) as [Hlt|Hge]; unfold sizeof_dns_rrs in *; rewrite Z.add_0_l in *.
  - rewrite Hf by (cbn; unfold sizeof_dns_rrs; lia). cbn.
    eapply (laid_payload _ _ _ _ rs 0); [exact Hl|by eapply laid_prefix|done|lia].
  - apply laid_last in Hl' as [_ Hp']. rewrite Z.add_0_l, <- Htot in Hp'. cbn in Hp'.
    rewrite Hn in Hp'. unfold sizeof_dns_rrs in *.
    pose proof (rd_bytes_lookup _ _ _ _ (i - (p_len p + 16)) Hpl ltac:(lia)) as L1.
    pose proof (rd_bytes_lookup _ _ _ _ (i - (p_len p + 16)) Hp' ltac:(lia)) as L2.
    replace (p_len p + 16 + (i - (p_len p + 16))) with i in * by lia. congruence.
Qed.

(** The new record holds what was added. *)
Lemma tail_written_holds (S : Z -> Prop) p c0 c' r v pl :
  rr_ok v -> tail_written (join (v_labels v)) (rr_tail v) (add_context p) c' r ->
  _dns_encode_domain (join (v_labels v)) (add_context p) = Ok c0 (c_ptr c0 - c_ptr (add_context p)) ->
  name_on S (c_data c0) (c_ptr c0) 0 (p_len p + sizeof_dns_rrs) (v_labels v) (c_ptr c0) ->
  rd_bytes (c_data c') (p_len p + sizeof_dns_rrs) r = Some pl ->
  holds S (c_data c') (p_len p) (mk_arec (v_sec v) (header_type v) pl) v /\
  agree (c_ptr c0) (c_data c0) (c_data c') /\ c_namedict c' = c_namedict c0 /\ c_ptr c0 <= c_ptr c'.
Proof.
  intros Hok (c1&(He&_)&Hw2&Hd2&Hr2) He0 Hn Hpl. rewrite He0 in He.
  injection He as -> Hr. pose proof Hw2 as ((_&_&Hf2&_)&_&Hp2&_). apply agree_frame in Hf2 as Ha.
  pose proof (rd_bytes_len _ _ _ _ Hpl) as Hlp. pose proof (Zlen_nonneg (rr_tail v)).
  split_and!; [|done|congruence|lia].
  split; [done|]. split; [done|]. split; [done|]. exists (c_ptr c1). split_and!.
  - eapply name_on_mono; [exact Hn|done|lia].
  - done.
  - unfold asize, sizeof_dns_rrs. cbn [a_payload]. rewrite Hlp. cbn in Hr. unfold sizeof_dns_rrs in *. lia.
Qed.

(** The packet after the addition holds one record more. *)
Lemma added_view U p rs vs c0 c' r v pl p' :
  pkt_rep p rs -> all_hold (in_payload 0 rs) (p_data p) 0 rs vs ->
  (forall s, C s -> sec_count s p = Some (Zlen (sec_records s rs))) ->
  rr_ok v -> tail_written (join (v_labels v)) (rr_tail v) (add_context p) c' r ->
  _dns_encode_domain (join (v_labels v)) (add_context p) = Ok c0 (c_ptr c0 - c_ptr (add_context p)) ->
  name_on (in_payload 0 rs) (c_data c0) (c_ptr c0) 0 (p_len p + sizeof_dns_rrs) (v_labels v) (c_ptr c0) ->
  dict_good (in_payload 0 rs) U c0 ->
  rd_bytes (c_data c') (p_len p + sizeof_dns_rrs) r = Some pl ->
  added p rs (mk_arec (v_sec v) (header_type v) pl) p' -> p_namedict p' = c_namedict c' ->
  pkt_view U p' (vs ++ [v]).
Proof.
  intros Hrep Hall Hct Hv Hwr He Hn Hdg Hpl Hadd Hdict. pose proof (Zlen_nonneg (rr_tail v)). pose proof Hwr as [Hw Hr]%tail_written_writes.
  destruct (tail_written_holds _ _ _ _ _ _ _ Hv Hwr He Hn Hpl) as (Hh&Ha0&Hd0&Hle0).
  pose proof Hw as (_&_&Hp'&_). cbn in Hp'. pose proof (rd_bytes_len _ _ _ _ Hpl) as Hln.
  assert (forall i, in_payload 0 rs i -> i < p_len p + sizeof_dns_rrs + r -> _) as Hby
    by (intros i Hi1 Hi2; exact (added_bytes _ _ _ _ _ _ _ _ i Hrep Hw Hpl Hadd Hi1 Hi2)).
  pose proof Hadd as (Hrep'&_&Hb). pose proof Hrep as (_&Htot&Hl&_). pose proof Hrep' as (Hok'&Htot'&Hl'&_).
  rewrite atotal_app in Htot'. cbn in Htot'. unfold asize in Htot'. cbn in Htot'. rewrite Hln in Htot'.
  exists (rs ++ [mk_arec (v_sec v) (header_type v) pl]). split_and!; [done| | |].
  - apply all_hold_app.
    + eapply all_hold_stable; [exact Hall|lia| |].
      * intros i Hi Hin. eapply (laid_payload _ _ _ _ rs 0); [exact Hl|by eapply laid_prefix|done|lia].
      * intros i Hi Hin. destruct (Hby i Hin ltac:(unfold sizeof_dns_rrs; lia)) as [? He'].
        split; [done|]. eapply (laid_payload _ _ _ _ rs 0); [exact Hl|by eapply laid_prefix|done|lia].
    + rewrite Z.add_0_l, <- Htot. eapply holds_stable; [exact Hh|pose proof (atotal_nonneg rs); lia| |].
      * intros i Hi. unfold asize in Hi. cbn in Hi. apply Hby; [apply in_payload_end; lia|lia].
      * intros i Hi Hin. unfold asize in Hi. cbn in Hi. apply Hby; [done|lia].
  - rewrite Hdict, Hd0. eapply Forall_impl; [|exact Hdg]. intros it (full&e&Hit&Hna).
    exists full, e. split; [done|]. eapply name_on_agree; [exact Hna| |lia].
    intros i Hi Hin. destruct (Hby i Hin ltac:(lia)) as [? ->]. split; [done|]. apply Ha0. lia.
  - intros s Hs. rewrite Hb, (Hct s Hs), sec_records_app. cbn [a_sec].
    case_decide; [|f_equal; lia]. cbn. f_equal. apply u16_small.
    pose proof (sec_records_bound _ _ Hrep' s) as Hbd. rewrite sec_records_app in Hbd. cbn in Hbd.
    destruct (decide (v_sec v = s)); [|done]. pose proof (Zlen_nonneg (sec_records s rs)). lia.
Qed.

(** The record was written: the packet holds it. *)
Lemma written_view U p rs vs c' r v pl p' :
  hash_faithful U -> pkt_rep p rs -> all_hold (in_payload 0 rs) (p_data p) 0 rs vs ->
  Forall (item_good (in_payload 0 rs) U (p_data p) (p_len p)) (p_namedict p) ->
  (forall s, C s -> sec_count s p = Some (Zlen (sec_records s rs))) ->
  p_size p <= 16384 -> rr_ok v -> (v_labels v <> [] -> U (join (v_labels v))) ->
  tail_written (join (v_labels v)) (rr_tail v) (add_context p) c' r -> 2 <= Zlen (rr_tail v) ->
  rd_bytes (c_data c') (p_len p + sizeof_dns_rrs) r = Some pl ->
  added p rs (mk_arec (v_sec v) (header_type v) pl) p' -> p_namedict p' = c_namedict c' ->
  pkt_view U p' (vs ++ [v]).
Proof.
  intros HU Hrep Hall Hdict Hct Hsz Hv HUj Hwr Ht Hpl Hadd Hd. pose proof Hv as (_&Hls&_).
  pose proof Hwr as [(_&Hmx&Hp&_) Hr]%tail_written_writes. pose proof Hwr as (c0&(He&(_&_&Hp0&_)&_)&_).
  assert (2 < _dns_left_len (add_context p)) as Hl by (unfold _dns_left_len; lia).
  pose proof (owner_encoded U p rs _ HU Hrep Hdict Hsz Hls HUj Hl) as Ho.
  destruct (wp_ok_inv _ _ _ _ _ _ Ho He) as [Hn Hg]. eapply added_view; eauto.
  rewrite He. f_equal. lia.
Qed.

(** The record was not written: there was no room. *)
Lemma not_written_room U p rs ls n :
  hash_faithful U -> pkt_rep p rs ->
  Forall (item_good (in_payload 0 rs) U (p_data p) (p_len p)) (p_namedict p) ->
  p_size p <= 16384 -> labels_ok ls -> (ls <> [] -> U (join ls)) -> 4 <= n ->
  no_room (join ls) (add_context p) n -> p_size p - 168 - p_len p < Zlen (join ls) + 2 + n.
Proof.
  intros HU Hrep Hdict Hsz Hls HUj Hn Hnr. pose proof (Zlen_nonneg (join ls)).
  assert (_dns_left_len (add_context p) = p_size p - 168 - p_len p) as Hleft.
  { unfold _dns_left_len. cbn. unfold sizeof_dns_packet, sizeof_dns_rrs. lia. }
  rewrite <- Hleft. destruct Hnr as [[c1 Hf]|Hlt]; [|lia].
  destruct (decide (2 < _dns_left_len (add_context p))) as [Hgt|]; [|lia].
  pose proof (owner_encoded U p rs ls HU Hrep Hdict Hsz Hls HUj Hgt) as Ho.
  pose proof (wp_fail_inv _ _ _ _ _ Ho Hf). cbn in *. lia.
Qed.

(** The new packet, or the reason why there is none. *)
Definition add_outcome (U : list Z -> Prop) (p : dns_packet) (vs : list rr) (v : rr) (res : res dns_packet unit) : Prop :=
  match res with
  | Ok p' _ => pkt_view U p' (vs ++ [v])
  | Fail p' => (exists rs, pkt_rep p' rs /\ length rs = length vs) /\
      p_size p - 168 - p_len p < Zlen (join (v_labels v)) + 2 + Zlen (rr_tail v)
  | UB | Diverged => False
  end.

Lemma add_RAW_view U p vs t ty ls ttl raw :
  hash_faithful U -> pkt_view U p vs -> p_size p <= 16384 -> t <> DNS_RRS_END ->
  rr_ok (mk_rr t ty ls (Data ttl raw)) -> (ls <> [] -> U (join ls)) ->
  add_outcome U p vs (mk_rr t ty ls (Data ttl raw)) (_dns_add_RAW t ty (join ls) ttl raw p).
Proof.
  intros HU (rs&Hrep&Hall&Hdict&Hct) Hsz Ht Hok HUj. pose proof Hok as (Hty&Hls&Hraw). cbn in Hty, Hls, Hraw.
  set (v := mk_rr t ty ls (Data ttl raw)) in *. pose proof (Zlen_nonneg raw).
  assert (Zlen (rr_tail v) = 10 + Zlen raw) as Htl.
  { unfold rr_tail. cbn. rewrite !Zlen_app, !be16_len, be32_len. lia. }
  refine (add_RAW_spec t ty (join ls) ttl raw p rs (fun p' _ => pkt_view U p' (vs ++ [v]))
    (fun p' => (exists rs, pkt_rep p' rs /\ length rs = length vs) /\
      p_size p - 168 - p_len p < Zlen (join (v_labels v)) + 2 + Zlen (rr_tail v))
    Hrep Ht (join_bytes _ Hls) Hraw _ _).
  - intros c' r pl p' Hwr%raw_written_tail Hpl Hadd Hd. rewrite s32_small in Hadd by lia.
    eapply (written_view U p rs vs c' r v); eauto. lia.
  - intros p' (Hk&_) Hnr. split; [exists rs; split; [done|by eapply all_hold_length]|].
    rewrite Htl. eapply not_written_room; eauto. lia.
Qed.

Lemma add_domain_view U p vs ls qtype qclass :
  hash_faithful U -> pkt_view U p vs -> p_size p <= 16384 ->
  rr_ok (mk_rr DNS_RRS_QD qtype ls (Question qclass)) -> (ls <> [] -> U (join ls)) ->
  add_outcome U p vs (mk_rr DNS_RRS_QD qtype ls (Question qclass)) (dns_add_domain (join ls) qtype qclass p).
Proof.
  intros HU (rs&Hrep&Hall&Hdict&Hct) Hsz Hok HUj. pose proof Hok as (Hty&Hls&Hcl). cbn in Hty, Hls, Hcl.
  set (v := mk_rr DNS_RRS_QD qtype ls (Question qclass)) in *.
  refine (add_domain_spec (join ls) qtype qclass p rs (fun p' _ => pkt_view U p' (vs ++ [v]))
    (fun p' => (exists rs, pkt_rep p' rs /\ length rs = length vs) /\
      p_size p - 168 - p_len p < Zlen (join (v_labels v)) + 2 + Zlen (rr_tail v))
    Hrep (join_bytes _ Hls) _ _).
  - intros c' r pl p' Hwr%qr_written_tail Hpl Hadd Hd. eapply (written_view U p rs vs c' r v); eauto. done.
  - intros p' (Hk&_) Hnr. split; [exists rs; split; [done|by eapply all_hold_length]|].
    eapply not_written_room; eauto. done.
Qed.

(** ** Walking a section and reading its records *)

(** The loop clients use to visit a section, collecting the headers. *)
Definition section_rrs (packet : dns_packet) (type : dns_rr_type) : option (list dns_rrs) :=
  match dns_get_rrs_start packet type with
  | Some (count, rrs) =>
    res_state (for_rrs (Z.to_nat count) packet rrs (fun r acc => Ok (acc ++ [r]) tt) [])
  | None => None
  end.

(** The headers of the records of section [t]. *)
Fixpoint sec_headers (t : dns_rr_type) (o : Z) (rs : list arec) : list dns_rrs :=
  match rs with
  | [] => []
  | r :: rs =>
    if decide (a_sec r = t)
    then mk_dns_rrs o (first_off no_next t (o + asize r) rs) (Zlen (a_payload r)) (a_type r) ::
         sec_headers t (o + asize r) rs
    else sec_headers t (o + asize r) rs
  end.

Definition null_end (off : Z) : option Z := if off =? DNS_RR_END then None else Some off.

Lemma for_rrs_section t p : forall rs o acc,
  0 <= o -> laid (p_data p) no_next o rs -> o + atotal rs <= 65535 ->
  for_rrs (length (sec_headers t o rs)) p (null_end (first_off no_next t o rs)) (fun r acc => Ok (acc ++ [r]) tt) acc
  = Ok (acc ++ sec_headers t o rs) tt.
Proof.
  induction rs as [|r rs IH]; intros o acc Ho Hl Ht; cbn [laid sec_headers first_off atotal] in *.
  { cbn. by rewrite app_nil_r. }
  destruct Hl as (Hh&_&Hl). pose proof (asize_pos r). pose proof (atotal_nonneg rs).
  case_decide as Hs; [|apply IH; done || lia]. unfold null_end at 1.
  destruct (Z.eqb_spec o DNS_RR_END); [unfold DNS_RR_END in *; lia|].
  cbn [length for_rrs]. unfold bind, access. rewrite Hh, Hs.
  change (dns_get_rrs_next _) with (null_end (first_off no_next t (o + asize r) rs)).
  rewrite IH by (done || lia). by rewrite <- app_assoc.
Qed.

Lemma sec_headers_length t rs : forall o, Zlen (sec_headers t o rs) = Zlen (sec_records t rs).
Proof.
  induction rs as [|r rs IH]; intros o; [done|]. cbn [sec_headers]. unfold sec_records. rewrite filter_cons.
  case_decide; rewrite ?Zlen_cons; rewrite IH; done.
Qed.

Lemma section_rrs_spec p rs t :
  pkt_rep p rs -> t <> DNS_RRS_END -> sec_count t p = Some (Zlen (sec_records t rs)) ->
  section_rrs p t = Some (sec_headers t 0 rs).
Proof.
  intros (Hok&Htot&Hl&Hst) Ht Hc. unfold section_rrs, dns_get_rrs_start. rewrite Hc, (Hst t Ht).
  rewrite <- (sec_headers_length t rs 0). unfold Zlen. rewrite Nat2Z.id.
  change (if _ =? DNS_RR_END then None else Some _) with (null_end (first_off no_next t 0 rs)).
  rewrite for_rrs_section; [done|lia|done|]. destruct Hok as (_&_&?&?&_). unfold sizeof_dns_packet in *. lia.
Qed.

Lemma wp_read_known n bs c (Q : dns_context -> list Z -> Prop) E :
  rd_bytes (c_data c) (c_ptr c) n = Some bs -> Q (set_ptr (c_ptr c + n) c) bs -> wp (read_mem n) c Q E.
Proof. intros Hb HQ. unfold wp, read_mem, bind, get, access, put, ret. by rewrite Hb. Qed.

(** The name of a record reads back. *)
Lemma wp_get_qr_head S p o r v e c (Q : dns_context -> qr_head -> Prop) E qclass :
  c = mk_dns_context (p_namedict p) (p_addr p + sizeof_dns_packet) (p_data p) (o + asize r) (o + sizeof_dns_rrs) ->
  name_on S (p_data p) e 0 (o + sizeof_dns_rrs) (v_labels v) e -> labels_ok (v_labels v) ->
  Zlen (join (v_labels v)) <= 254 -> e + 4 <= o + asize r -> 0 <= v_type v < 65536 -> 0 <= qclass < 65536 ->
  rd_bytes (p_data p) e 2 = Some (be16 (v_type v)) -> rd_bytes (p_data p) (e + 2) 2 = Some (be16 qclass) ->
  Q (set_ptr (e + 2 + 2) c) (mk_qr_head (join (v_labels v)) (v_type v) qclass) ->
  wp (_dns_get_qr_head DNS_MAX_CNAME_LEN) c Q E.
Proof.
  intros -> Hn Hls Hj He Ht Hc R1 R2 HQ. unfold _dns_get_qr_head. wp_step.
  unfold _dns_decode_domain. wp_step. unfold wp at 1, zoom. cproj.
  rewrite (get_domain_complete (p_data p) (o + asize r) DNS_MAX_CNAME_LEN _ (v_labels v) e);
    [|eapply name_on_at, name_on_mono; [exact Hn|done|lia]|unfold DNS_MAX_CNAME_LEN; lia].
  cbv beta iota. wp_step. rewrite until_nul_id by (by apply labels_ok_nonzero).
  wp_step. apply wp_left_len. unfold _dns_left_len at 1. cproj.
  wp_step. wp_step; [|lia]. unfold _dns_read_short, _dns_read_int.
  wp_step. wp_step. eapply wp_read_known; [cproj; exact R1|]. wp_step.
  wp_step. wp_step. eapply wp_read_known; [cproj; exact R2|]. wp_step. wp_step.
  rewrite !of_be16, !u16_small by lia. exact HQ.
Qed.

(** The pieces of the fixed part. *)
Lemma data_parts m e ty ttl raw :
  let tail := be16 ty ++ be16 DNS_C_IN ++ be32 ttl ++ be16 (Zlen raw) ++ raw in
  rd_bytes m e (Zlen tail) = Some tail ->
  rd_bytes m e 2 = Some (be16 ty) /\ rd_bytes m (e + 2) 2 = Some (be16 DNS_C_IN) /\
  rd_bytes m (e + 2 + 2) 4 = Some (be32 ttl) /\ rd_bytes m (e + 2 + 2 + 4) 2 = Some (be16 (Zlen raw)) /\
  rd_bytes m (e + 2 + 2 + 4 + 2) (Zlen raw) = Some raw.
Proof.
  intros tail. assert (Zlen tail = 10 + Zlen raw) as Ht.
  { unfold tail. rewrite !Zlen_app, !be16_len, be32_len. lia. }
  pose proof (Zlen_nonneg raw). rewrite Ht. intros Hr.
  pose proof (fun k j H1 H2 H3 => rd_bytes_sub m e _ _ k j Hr H1 H2 H3) as Hs.
  pose proof (Hs 0 2 ltac:(lia) ltac:(lia) ltac:(lia)) as H0. rewrite Z.add_0_r in H0.
  pose proof (Hs 2 2 ltac:(lia) ltac:(lia) ltac:(lia)) as H2.
  pose proof (Hs 4 4 ltac:(lia) ltac:(lia) ltac:(lia)) as H4.
  pose proof (Hs 8 2 ltac:(lia) ltac:(lia) ltac:(lia)) as H8.
  pose proof (Hs 10 (Zlen raw) ltac:(lia) ltac:(lia) ltac:(lia)) as H10.
  rewrite <- !Z.add_assoc. split_and!; [exact H0|exact H2|exact H4|exact H8|].
  etransitivity; [exact H10|]. f_equal. unfold Zlen. rewrite Nat2Z.id. apply take_ge. done.
Qed.

(** What a client reads from the header [h] is the record [v]. *)
Definition reads_as (p : dns_packet) (v : rr) (h : dns_rrs) : Prop :=
  rrs_type h = header_type v /\ exists c,
  match v_body v with
  | Question qclass => dns_get_domain p h DNS_MAX_CNAME_LEN = Ok c (mk_qr_head (join (v_labels v)) (v_type v) qclass)
  | Data ttl raw =>
    _dns_get_RAW p h DNS_MAX_CNAME_LEN (Zlen raw) = Ok c (join (v_labels v), s32 ttl, raw)
  end.

Lemma res_ok {S A} (m : M S A) s x : wp m s (fun _ y => y = x) (fun _ => False) -> exists s', m s = Ok s' x.
Proof. unfold wp. destruct (m s); try done. intros ->. eauto. Qed.

(** The context of a record of the packet. *)
Lemma rrs_context p o r next :
  _dns_init_context_by_rrs p (mk_dns_rrs o next (Zlen (a_payload r)) (a_type r)) =
    mk_dns_context (p_namedict p) (p_addr p + sizeof_dns_packet) (p_data p) (o + asize r) (o + sizeof_dns_rrs).
Proof. unfold _dns_init_context_by_rrs, asize. cbn [rrs_off rrs_len]. by rewrite Z.add_assoc. Qed.

(** Reading the head of a question. *)
Lemma holds_qr_head S p o r v next qclass (Q : dns_context -> qr_head -> Prop) E :
  holds S (p_data p) o r v -> v_body v = Question qclass -> Zlen (join (v_labels v)) <= 254 ->
  (forall c, Q c (mk_qr_head (join (v_labels v)) (v_type v) qclass)) ->
  wp (_dns_get_qr_head DNS_MAX_CNAME_LEN)
    (_dns_init_context_by_rrs p (mk_dns_rrs o next (Zlen (a_payload r)) (a_type r))) Q E.
Proof.
  intros (_&Hty&(Ht&Hls&Hbody)&e&Hn&Hr&He) Eb Hj HQ. rewrite rrs_context.
  unfold rr_tail in Hr, He. rewrite Eb in *. rewrite Zlen_app, !be16_len in *.
  eapply (wp_get_qr_head S p o r v e); eauto; [lia|..].
  - pose proof (rd_bytes_sub _ _ _ _ 0 2 Hr ltac:(lia) ltac:(lia) ltac:(lia)) as R1. by rewrite Z.add_0_r in R1.
  - exact (rd_bytes_sub _ _ _ _ 2 2 Hr ltac:(lia) ltac:(lia) ltac:(lia)).
Qed.

(** Reading the head of a record: the data follows. *)
Lemma holds_rr_head S p o r v next ttl raw (Q : dns_context -> rr_head -> Prop) E :
  o + asize r <= Zlen (p_data p) -> Zlen (p_data p) < 65536 -> 0 <= o ->
  holds S (p_data p) o r v -> v_body v = Data ttl raw -> Zlen (join (v_labels v)) <= 254 ->
  (forall c, c_data c = p_data p -> rd_bytes (p_data p) (c_ptr c) (Zlen raw) = Some raw ->
     Q c (mk_rr_head (mk_qr_head (join (v_labels v)) (v_type v) DNS_C_IN) (s32 ttl) (Zlen raw))) ->
  wp (_dns_get_rr_head DNS_MAX_CNAME_LEN)
    (_dns_init_context_by_rrs p (mk_dns_rrs o next (Zlen (a_payload r)) (a_type r))) Q E.
Proof.
  intros Hlen H64 Ho (_&Hty&(Ht&Hls&Hbody)&e&Hn&Hr&He) Eb Hj HQ. rewrite rrs_context.
  pose proof (name_at_bounds _ _ _ _ _ _ (name_on_at _ _ _ _ _ _ _ Hn)) as He0. unfold sizeof_dns_rrs in He0.
  unfold rr_tail in Hr, He. rewrite Eb in Hr, He.
  destruct (data_parts _ _ _ _ _ Hr) as (R1&R2&R3&R4&R5). pose proof (Zlen_nonneg raw).
  rewrite !Zlen_app, !be16_len, be32_len in He.
  unfold _dns_get_rr_head. wp_step. wp_step.
  apply (wp_get_qr_head S p o r v e _ _ _ DNS_C_IN); try done; [lia|].
  wp_step. apply wp_left_len. unfold _dns_left_len at 1. cproj. wp_step. wp_step; [|lia].
  unfold _dns_read_short, _dns_read_int.
  wp_step. wp_step. eapply wp_read_known; [cproj; exact R3|]. wp_step.
  wp_step. wp_step. eapply wp_read_known; [cproj; exact R4|]. wp_step. wp_step.
  rewrite of_be32, s32_u32, of_be16, u16_small by lia. by apply HQ.
Qed.

Lemma holds_reads S p o r v next :
  o + asize r <= Zlen (p_data p) -> Zlen (p_data p) < 65536 ->
  holds S (p_data p) o r v -> Zlen (join (v_labels v)) <= 254 -> 0 <= o ->
  reads_as p v (mk_dns_rrs o next (Zlen (a_payload r)) (a_type r)).
Proof.
  intros Hlen H64 Hh Hj Ho. pose proof Hh as (_&Hty&_). split; [done|].
  destruct (v_body v) as [qclass|ttl raw] eqn:Eb.
  - unfold dns_get_domain. apply res_ok. by eapply (holds_qr_head S).
  - unfold _dns_get_RAW. apply res_ok. wp_step. eapply (holds_rr_head S); [done..|].
    intros c Hd R5. cbn [r_qr q_type rrs_type r_len].
    wp_step. unfold header_type in Hty. rewrite Eb in Hty. wp_step; [|lia].
    wp_step. eapply wp_read_known; [rewrite Hd; exact R5|]. wp_step. done.
Qed.

Lemma sec_headers_read S p t : forall rs vs o,
  all_hold S (p_data p) o rs vs -> 0 <= o ->
  o + atotal rs <= Zlen (p_data p) -> Zlen (p_data p) < 65536 ->
  Forall (fun v => Zlen (join (v_labels v)) <= 254) vs ->
  Forall2 (reads_as p) (filter (fun v => v_sec v = t) vs) (sec_headers t o rs).
Proof.
  induction rs as [|r rs IH]; intros [|v vs] o; cbn [all_hold sec_headers atotal]; try done.
  intros [Hh Hall] Ho Hlen H64 [Hv Hvs]%Forall_cons_1. pose proof (asize_pos r). pose proof (atotal_nonneg rs).
  pose proof Hh as (Hsec&Hty&_). rewrite filter_cons, <- Hsec.
  case_decide as Hd; [|by apply IH; done || lia]. constructor; [|by apply IH; done || lia].
  eapply holds_reads; eauto; lia.
Qed.

(** Every section of the packet reads back as its part of the records. *)
Lemma section_view U p vs t :
  pkt_view U p vs -> C t -> t <> DNS_RRS_END -> Forall (fun v => Zlen (join (v_labels v)) <= 254) vs ->
  exists hs, section_rrs p t = Some hs /\ Forall2 (reads_as p) (filter (fun v => v_sec v = t) vs) hs.
Proof.
  intros (rs&Hrep&Hall&_&Hct) HC Ht Hvs. exists (sec_headers t 0 rs).
  split; [apply section_rrs_spec; auto|]. destruct Hrep as ((Hsz&Hb&H64&Hlen&_)&Htot&_).
  unfold sizeof_dns_packet in *. eapply sec_headers_read; eauto; lia.
Qed.

(** ** The contract: a packet is the list of the records added to it *)

(** The call a client makes to add [v]. *)
Definition add_rr (v : rr) : M dns_packet unit :=
  match v_body v with
  | Question qclass => dns_add_domain (join (v_labels v)) (v_type v) qclass
  | Data ttl raw => _dns_add_RAW (v_sec v) (v_type v) (join (v_labels v)) ttl raw
  end.

Fixpoint add_all (vs : list rr) : M dns_packet unit :=
  match vs with
  | [] => ret tt
  | v :: vs => add_rr v ;; add_all vs
  end.

(** A record that can be added: its fields have their widths, its name fits the
    buffers of the readers and is one of the names [U]. *)
Definition addable (U : list Z -> Prop) (v : rr) : Prop :=
  rr_ok v /\ v_sec v <> DNS_RRS_END /\ (v_labels v <> [] -> U (join (v_labels v))) /\
  Zlen (join (v_labels v)) <= 254 /\
  match v_body v with Question _ => v_sec v = DNS_RRS_QD | Data _ _ => True end.

(** The room a record takes at most: header, uncompressed name, fixed part and
    data. *)
Definition rr_room (v : rr) : Z := sizeof_dns_rrs + Zlen (join (v_labels v)) + 2 + Zlen (rr_tail v).

Fixpoint rooms (vs : list rr) : Z := match vs with [] => 0 | v :: vs => rr_room v + rooms vs end.

Lemma add_rr_view U p vs v :
  hash_faithful U -> pkt_view U p vs -> p_size p <= 16384 -> addable U v ->
  add_outcome U p vs v (add_rr v p).
Proof.
  intros HU Hp Hsz (Hok&Hs&HUj&_&Hq). unfold add_rr. destruct v as [t ty ls [qclass|ttl raw]]; cbn in *.
  - subst t. by apply add_domain_view.
  - by apply add_RAW_view.
Qed.

(** What adding leaves unchanged, and how far the packet grows. *)
Lemma added_grows p rs r p' : pkt_rep p rs -> added p rs r p' -> p_size p' = p_size p /\ p_len p' = p_len p + asize r.
Proof.
  intros (_&Ht&_) ((_&Ht'&_)&(Hsz&_)&_). split; [done|]. rewrite Ht', Ht, atotal_app. cbn. lia.
Qed.

Lemma tail_written_len p c' r domain tail pl :
  tail_written domain tail (add_context p) c' r -> rd_bytes (c_data c') (p_len p + 16) r = Some pl ->
  Zlen pl <= Zlen domain + 2 + Zlen tail.
Proof.
  intros (c1&(_&_&Hr)&_) Hpl. apply rd_bytes_len in Hpl. lia.
Qed.

Lemma add_rr_grows U p vs v :
  pkt_view U p vs -> addable U v ->
  wp (add_rr v) p (fun p' _ => p_size p' = p_size p /\ p_len p' <= p_len p + rr_room v) (fun _ => True).
Proof.
  intros (rs&Hrep&_) ((Hty&Hls&Hbody)&Hs&_&_&_). unfold add_rr, rr_room, rr_tail.
  pose proof (join_bytes _ Hls) as Hb. destruct (v_body v) as [qclass|ttl raw].
  - eapply (add_domain_spec _ _ _ p rs); try done. intros c' r pl p' Hw%qr_written_tail Hpl Hadd _.
    destruct (added_grows _ _ _ _ Hrep Hadd) as [? ->]. pose proof (tail_written_len _ _ _ _ _ _ Hw Hpl).
    unfold asize, sizeof_dns_rrs. cbn [a_payload]. split; [done|lia].
  - eapply (add_RAW_spec _ _ _ _ _ p rs); try done. intros c' r pl p' Hw%raw_written_tail Hpl Hadd _.
    destruct (added_grows _ _ _ _ Hrep Hadd) as [? ->]. pose proof (tail_written_len _ _ _ _ _ _ Hw Hpl).
    unfold asize, sizeof_dns_rrs. cbn [a_payload]. split; [done|lia].
Qed.

Lemma add_all_view U : hash_faithful U -> forall vs2 p vs,
  pkt_view U p vs -> p_size p <= 16384 -> Forall (addable U) vs2 ->
  wp (add_all vs2) p (fun p' _ => pkt_view U p' (vs ++ vs2))
    (fun _ => p_size p - sizeof_dns_packet < p_len p + rooms vs2).
Proof.
  intros HU. induction vs2 as [|v vs2 IH]; intros p vs Hp Hsz Hv; cbn [add_all rooms].
  { wp_step. by rewrite app_nil_r. }
  apply Forall_cons_1 in Hv as [Hv Hvs]. wp_step.
  pose proof (add_rr_view U p vs v HU Hp Hsz Hv) as Ho. pose proof (add_rr_grows U p vs v Hp Hv) as Hg.
  assert (0 <= rooms vs2) as Hr0.
  { clear. induction vs2 as [|v vs2 IH]; cbn; [lia|]. unfold rr_room, sizeof_dns_rrs.
    pose proof (Zlen_nonneg (join (v_labels v))). pose proof (Zlen_nonneg (rr_tail v)). lia. }
  unfold wp in Hg |- * at 1. unfold add_outcome in Ho. destruct (add_rr v p) as [p1 []|p1| |]; try done.
  - destruct Hg as [Hsz1 Hl1].
    replace (vs ++ v :: vs2) with ((vs ++ [v]) ++ vs2) by (by rewrite <- app_assoc).
    eapply wp_mono; [apply (IH p1 (vs ++ [v])); [done|rewrite Hsz1; done|done]|done|].
    intros p2. cbv beta. rewrite Hsz1. lia.
  - destruct Ho as [_ Ho]. unfold rr_room, sizeof_dns_rrs, sizeof_dns_packet. lia.
Qed.

End view.

Definition all_counted (t : dns_rr_type) : Prop := t <> DNS_RRS_END.
