(* ===== verification/DnsNestedSpec.v ===== *)
(** * Nested records (src/dns.c): records built piece by piece

    Between [dns_add_rr_nested_start] and [dns_add_rr_nested_end] the record's
    data is written behind the end of the packet; the packet itself does not
    change until the end adds the record.  A caller may ignore the return code
    of any step, as the SVCB decoder does: the invariant [nested_ok] holds
    after failures too. *)

From Stdlib Require Import ZArith Lia.
From stdpp Require Import base list numbers option.
From S2P Require Import Prelude DnsTypes DnsName DnsRrs DnsRrsSpec DnsRecord DnsAddSpec.

(** ** The invariant: a record of section [ty.1] and type [ty.2] is being built *)

Definition nested_ok (ty : dns_rr_type * Z) (rs : list arec) (s : nested_state) : Prop :=
  pkt_rep s.1 rs /\ (ty.1 <> DNS_RRS_END /\ n_type s.2 = ty.1 /\ n_rtype s.2 = ty.2) /\
  (n_ptr s.2 = 0 /\ n_maxsize s.2 = 0 /\ n_rr_start s.2 = None /\ n_rr_len_ptr s.2 = None \/
   n_maxsize s.2 = p_size s.1 - sizeof_dns_packet /\ n_rr_start s.2 = Some (p_len s.1 + sizeof_dns_rrs) /\
   p_len s.1 + sizeof_dns_rrs <= n_ptr s.2 /\
   forall a, n_rr_len_ptr s.2 = Some a ->
     p_len s.1 + sizeof_dns_rrs <= a /\ a + 2 <= n_ptr s.2 /\ n_ptr s.2 <= n_maxsize s.2).

(** The fields the context does not cover. *)
Definition same_nested (s s' : nested_state) : Prop :=
  n_rr_start s'.2 = n_rr_start s.2 /\ n_rr_len_ptr s'.2 = n_rr_len_ptr s.2 /\
  n_rr_head_len s'.2 = n_rr_head_len s.2 /\ n_type s'.2 = n_type s.2 /\ n_rtype s'.2 = n_rtype s.2.

(** A step of writing that never moves the pointer out of the buffer. *)
Definition moves (c c' : dns_context) : Prop :=
  spoils c c' /\ (c_ptr c <= c_maxsize c -> c_ptr c' <= c_maxsize c).

Lemma moves_refl c : ctx_wf c -> moves c c.
Proof. intros Hw. split; [by apply spoils_refl|done]. Qed.

Lemma writes_moves c c' r : writes c c' r -> moves c c'.
Proof. intros Hw. split; [by eapply writes_spoils|]. by destruct Hw as (_&?&_). Qed.

Lemma moves_wf c c' : moves c c' -> ctx_wf c -> ctx_wf c'.
Proof. intros [[He ?] _] Hw. eapply ctx_ext_wf; eauto. destruct Hw. lia. Qed.

Lemma writes_then_moves c1 c2 c3 r : writes c1 c2 r -> moves c2 c3 -> moves c1 c3.
Proof.
  intros Hw [Hs Hm]. split; [by eapply writes_then_spoils|]. intros _.
  destruct Hw as ((_&Hmx&_)&Hle&_). rewrite Hmx in Hm. auto.
Qed.

(** What a failing body may leave: before the record's head is complete the
    pointer may run out of the buffer. *)
Definition may_leave (s : nested_state) (c c' : dns_context) : Prop :=
  moves c c' \/ spoils c c' /\ n_rr_start s.2 <> None /\ n_rr_len_ptr s.2 = None.

Lemma nested_put s ty rs c' :
  nested_ok ty rs s -> may_leave s (nested_context s) c' ->
  nested_ok ty rs (put_nested_context c' s) /\ kept s.1 rs (put_context c' s.1).
Proof.
  intros (Hrep&Ht&Hcase) Hleave. pose proof Hrep as ((Hsz&Hb&_&Hlen&_)&_). unfold sizeof_dns_rrs in *.
  assert (spoils (nested_context s) c') as [(_&Hmx&Hf&Hb') Hle] by (by destruct Hleave as [[? _]|[? _]]).
  unfold nested_context in *. cproj in *.
  assert (kept s.1 rs (put_context c' s.1)) as Hk.
  { apply pkt_rep_put; [done| |done]. destruct Hcase as [(Hp0&Hm0&_)|(Hmx'&_&?&_)].
    - rewrite Hp0, Hm0 in Hf. destruct Hf as [Hfl Hf]. split; [done|]. intros i Hi. apply Hf. lia.
    - eapply frame_widen; [exact Hf|lia|lia]. }
  split; [|done]. unfold nested_ok. destruct Hk as (Hk&_). split; [done|]. split; [done|].
  cbn. unfold sizeof_dns_rrs. destruct Hcase as [(Hp0&Hm0&?&?)|(Hmx'&?&?&Hlp)].
  - left. destruct Hleave as [[_ Hmv]|(_&?&_)]; [|done]. cproj in *. split_and!; try done; lia.
  - right. split_and!; try done; try lia. intros a Ha. specialize (Hlp a Ha).
    destruct Hleave as [[_ Hmv]|(_&_&?)]; [|congruence]. cproj in *. split_and!; lia.
Qed.

(** Running a body through the nested context. *)
Lemma nested_spec {A} (body : M dns_context A) s ty rs (Q : nested_state -> A -> Prop) (E : nested_state -> Prop) :
  nested_ok ty rs s ->
  (forall c, c = nested_context s -> ctx_wf c ->
     wp body c (fun c' a => moves c c' /\
       forall s', s' = put_nested_context c' s -> nested_ok ty rs s' -> kept s.1 rs s'.1 -> same_nested s s' -> Q s' a)
       (fun c' => may_leave s c c')) ->
  (forall s', nested_ok ty rs s' -> kept s.1 rs s'.1 -> same_nested s s' -> E s') ->
  wp (nested body) s Q E.
Proof.
  intros Hok Hbody HE. pose proof Hok as (Hrep&Ht&Hcase). pose proof Hrep as ((Hsz&Hb&_&Hlen&_)&_).
  assert (ctx_wf (nested_context s)) as Hwf.
  { unfold ctx_wf, nested_context. cproj. unfold sizeof_dns_packet, sizeof_dns_rrs in *.
    destruct Hcase as [(->&->&_)|(->&_&?&_)]; split_and!; try done; lia. }
  unfold nested. wp_step. eapply wp_mono; [apply (Hbody _ eq_refl Hwf)| |].
  - intros c' a [Hm HQ]. destruct (nested_put s ty rs c' Hok (or_introl Hm)). by apply HQ.
  - intros c' Hm. destruct (nested_put s ty rs c' Hok Hm). by apply HE.
Qed.

(** ** The operations *)

(** What every operation on a nested record keeps, failing or not. *)
Definition nested_step (ty : dns_rr_type * Z) (rs : list arec) (s s' : nested_state) : Prop :=
  nested_ok ty rs s' /\ kept s.1 rs s'.1.

Lemma nested_step_refl ty rs s : nested_ok ty rs s -> nested_step ty rs s s.
Proof. intros Hok. split; [done|]. by apply kept_refl, Hok. Qed.

Lemma nested_step_trans ty rs s1 s2 s3 : nested_step ty rs s1 s2 -> nested_step ty rs s2 s3 -> nested_step ty rs s1 s3.
Proof. intros [? ?] [? ?]. split; [done|]. by eapply kept_trans. Qed.

(** The padding byte that keeps the pointer aligned. *)
Lemma pad_moves c : ctx_wf c ->
  wp (if negb (ptr_aligned c) then l <- left_len ;; guard (negb (l <? 1)) ;; _dns_write_char 0 else ret tt) c
    (fun c' _ => moves c c') (fun c' => moves c c').
Proof.
  intros Hw. wp_step; [|wp_step; by apply moves_refl].
  wp_step. apply wp_left_len. wp_step. wp_step; [|by apply moves_refl].
  apply wp_write_bytes; [done|change (Zlen [_]) with 1; lia|apply Forall1_byte|].
  intros c' Hc' _ _. by eapply writes_moves.
Qed.

Lemma nested_memcpy_moves data c : ctx_wf c -> Forall is_byte data ->
  wp (nested_memcpy data) c (fun c' _ => moves c c') (fun c' => moves c c').
Proof.
  intros Hw Hd. unfold nested_memcpy. wp_step. wp_step; [|by apply moves_refl].
  wp_step. apply wp_left_len. wp_step. wp_step; [|by apply moves_refl].
  do 2 wp_step. wp_step. wp_step; [|by apply moves_refl].
  wp_step. apply wp_write_bytes; [done|lia|done|]. intros c1 Hw1 _ _. do 2 wp_step.
  eapply wp_mono; [apply pad_moves; by eapply writes_wf| |].
  - intros c' ? Hm. by eapply writes_then_moves.
  - intros c' Hm. by eapply writes_then_moves.
Qed.

Lemma svcb_target_moves priority target c : ctx_wf c -> Forall is_byte target ->
  wp (svcb_target priority target) c (fun c' _ => moves c c') (fun c' => moves c c').
Proof.
  intros Hw Hd. unfold svcb_target.
  set (tg := match target with ch :: _ => if ch =? char_dot then [] else target | [] => [] end).
  assert (Forall is_byte tg) as Htg by (unfold tg; destruct target as [|ch ?]; [done|]; by destruct (ch =? _)).
  unfold strnlen, DNS_MAX_CNAME_LEN. pose proof (Zlen_nonneg tg).
  set (out := take (Z.to_nat (Z.min (Zlen tg) 256 + 1 - 1)) tg ++ [0]).
  assert (Zlen out = Z.min (Zlen tg) 256 + 1) as Hlo.
  { unfold out. rewrite Zlen_app. change (Zlen [0]) with 1. unfold Zlen in *. rewrite length_take. lia. }
  assert (Forall is_byte out) as Hbo.
  { unfold out. apply Forall_app_2; [by apply Forall_take|]. by repeat constructor. }
  wp_step. apply wp_left_len. wp_step. wp_step; [|by apply moves_refl].
  wp_step. apply wp_write_short; [done|lia|]. intros c1 Hw1 _ _.
  pose proof (writes_wf _ _ _ Hw1 Hw) as Hwf1. pose proof Hw1 as ((_&Hm1&_)&_&Hp1&_). unfold _dns_left_len in *.
  wp_step. apply wp_write_bytes; [done|unfold _dns_left_len; lia|done|]. intros c2 Hw2 _ _. do 2 wp_step.
  pose proof (writes_trans _ _ _ _ _ Hw1 Hw2) as Hw12.
  eapply wp_mono; [apply pad_moves; by eapply writes_wf| |].
  - intros c' ? Hm. by eapply writes_then_moves.
  - intros c' Hm. by eapply writes_then_moves.
Qed.

Lemma nested_moves {A} (body : M dns_context A) s ty rs :
  nested_ok ty rs s ->
  (forall c, ctx_wf c -> wp body c (fun c' _ => moves c c') (fun c' => moves c c')) ->
  wp (nested body) s (fun s' _ => nested_step ty rs s s') (nested_step ty rs s).
Proof.
  intros Hok Hbody. apply (nested_spec _ _ ty rs); [done| |by intros; split].
  intros c _ Hw. eapply wp_mono; [by apply Hbody| |by left]. intros c' a Hm. split; [done|].
  intros s' _ ? ? _. by split.
Qed.

Lemma nested_memcpy_step data s ty rs :
  nested_ok ty rs s -> Forall is_byte data ->
  wp (dns_add_rr_nested_memcpy data) s (fun s' _ => nested_step ty rs s s') (nested_step ty rs s).
Proof. intros. apply nested_moves; [done|]. intros. by apply nested_memcpy_moves. Qed.

Lemma nested_room_step n s ty rs :
  nested_ok ty rs s -> wp (nested_room n) s (fun s' _ => nested_step ty rs s s') (nested_step ty rs s).
Proof.
  intros. apply nested_moves; [done|]. intros c Hw.
  wp_step. apply wp_left_len. wp_step; by apply moves_refl.
Qed.

(** Sequencing steps. *)
Lemma nested_seq {A} (m : M nested_state A) (k : A -> M nested_state unit) s ty rs :
  wp m s (fun s' _ => nested_step ty rs s s') (nested_step ty rs s) ->
  (forall s' a, nested_ok ty rs s' -> wp (k a) s' (fun s2 _ => nested_step ty rs s' s2) (nested_step ty rs s')) ->
  wp (bind m k) s (fun s' _ => nested_step ty rs s s') (nested_step ty rs s).
Proof.
  intros Hm Hk. wp_step. eapply wp_mono; [exact Hm| |done]. intros s' a Hs.
  eapply wp_mono; [apply Hk, Hs|intros s2 ? H2|intros s2 H2]; exact (nested_step_trans _ _ _ _ _ Hs H2).
Qed.

Lemma SVCB_add_raw_step key value s ty rs :
  nested_ok ty rs s -> Forall is_byte value ->
  wp (dns_SVCB_add_raw key value) s (fun s' _ => nested_step ty rs s s') (nested_step ty rs s).
Proof.
  intros Hok Hv. unfold dns_SVCB_add_raw. apply nested_seq; [by apply nested_room_step|]. intros s1 [] H1.
  apply nested_seq; [apply nested_memcpy_step; auto with cdb|]. intros s2 [] H2.
  apply nested_seq; [apply nested_memcpy_step; auto with cdb|]. intros s3 [] H3.
  by apply nested_memcpy_step.
Qed.

(** Starting a record; the old contents of the nested structure do not matter. *)
Lemma nested_start_step type rtype domain ttl s rs :
  pkt_rep s.1 rs -> type <> DNS_RRS_END -> Forall is_byte domain ->
  wp (dns_add_rr_nested_start type rtype domain ttl) s (fun s' _ => nested_step (type, rtype) rs s s') (nested_step (type, rtype) rs s).
Proof.
  intros Hrep Ht Hd. unfold dns_add_rr_nested_start, set_nested. do 2 wp_step. cbn [fst snd].
  do 2 wp_step. wp_step. wp_step; cycle 1.
  { split; [|by apply kept_refl]. unfold nested_ok. cbn. split_and!; try done. by left. }
  do 2 wp_step. cbn [fst snd n_type n_rtype]. wp_step.
  set (s1 := (s.1, _)).
  assert (nested_ok (type, rtype) rs s1) as Hok1.
  { unfold nested_ok, s1. cbn. split_and!; try done. right. split_and!; try done. }
  apply (nested_spec _ s1 (type, rtype) rs); [done| |].
  - intros c -> Hw. eapply wp_mono; [apply add_rr_head_spec; [done|done|intros c' r HH; exact HH|intros c' HH _; exact HH]| |].
    + intros c' r Hh. pose proof Hh as [Hwr Hr]%rr_written_writes. split; [by eapply writes_moves|].
      intros s' -> (Hrep'&_&Hcase) Hk (Hst&_). wp_step. unfold nested_step. cbn [fst]. split; [|done].
      split; [done|]. cbn [fst snd n_type n_ptr n_maxsize n_rr_start n_rr_len_ptr] in *. split; [done|].
      destruct Hcase as [(_&_&Hn&_)|(?&?&?&_)]; [cbn in Hn; done|]. right. split_and!; try done.
      intros a [= <-]. destruct Hwr as (_&Hmx&Hp&_). cbn in *. lia.
    + intros c' Hs. by right.
  - by intros; split.
Qed.

Lemma nested_SVCB_start_step type rtype domain ttl priority target s rs :
  pkt_rep s.1 rs -> type <> DNS_RRS_END -> Forall is_byte domain -> Forall is_byte target ->
  wp (_dns_add_SVCB_HTTPS_start type rtype domain ttl priority target) s
    (fun s' _ => nested_step (type, rtype) rs s s') (nested_step (type, rtype) rs s).
Proof.
  intros. apply nested_seq; [by apply nested_start_step|]. intros s1 [] Hok1.
  apply nested_moves; [done|]. intros. by apply svcb_target_moves.
Qed.

(** Ending a record: it is appended, or nothing is. *)
Lemma nested_end_spec s ty rs :
  nested_ok ty rs s ->
  wp dns_add_rr_nested_end s
    (fun s' _ => kept s.1 rs s'.1 \/ exists pl, added s.1 rs (mk_arec ty.1 (s32 ty.2) pl) s'.1)
    (fun s' => kept s.1 rs s'.1).
Proof.
  intros Hok. pose proof Hok as (Hrep&[Ht [Hty Hrty]]&Hcase). pose proof Hrep as ((Hsz&Hb&_&Hlen&_)&_).
  assert (kept s.1 rs s.1) as Hk by (by apply kept_refl).
  unfold dns_add_rr_nested_end. do 2 wp_step. destruct (n_rr_start s.2) as [st|] eqn:Hst; [|by wp_step].
  destruct (n_rr_len_ptr s.2) as [lp|] eqn:Hlp; [|by wp_step].
  destruct Hcase as [(_&_&?&_)|(Hmx&[= ->]&Hle&Hlp')]; [done|]. specialize (Hlp' lp eq_refl).
  wp_step. wp_step; [|done]. wp_step; [unfold set_nested; wp_step; by left|]. wp_step.
  unfold nested. wp_step. apply wp_write_at; cbn; rewrite ?be16_len;
    [unfold sizeof_dns_rrs in *; lia|unfold sizeof_dns_packet in *; lia|]. intros d Hw. wp_step.
  cbn [fst snd put_nested_context n_type n_rtype]. rewrite Hty, Hrty.
  set (p1 := put_context _ s.1).
  assert (kept s.1 rs p1) as Hk1.
  { apply pkt_rep_put; [done| |]; cproj.
    - eapply frame_wr; [exact Hw|unfold sizeof_dns_rrs in *; lia|].
      rewrite be16_len. unfold sizeof_dns_packet in *. lia.
    - eapply wr_bytes_byte; [exact Hb|apply be16_byte|exact Hw]. }
  pose proof Hk1 as (Hrep1&_). pose proof (wr_bytes_len _ _ _ _ Hw) as Hlw.
  destruct (rd_bytes_ex (p_data p1) (p_len p1 + 16) (n_ptr s.2 - (p_len s.1 + sizeof_dns_rrs))) as [pl Hpl];
    [cbn; unfold sizeof_dns_rrs, sizeof_dns_packet in *; lia..|].
  eapply wp_mono; [apply (rr_add_end_spec _ _ _ pl p1 rs); try done; lia| |].
  - intros p' _ (?&?&?&?). right. exists pl. eapply kept_added; [exact Hk1|done].
  - intros p' [-> _]. done.
Qed.

(** ** A whole SVCB record *)

Fixpoint svcb_params (params : list (Z * list Z)) : M nested_state unit :=
  match params with
  | [] => ret tt
  | (key, value) :: params => dns_SVCB_add_raw key value ;; svcb_params params
  end.

(** [dns_add_SVCB_start]/[dns_add_HTTPS_start], the parameters, and
    [dns_add_SVCB_end]. *)
Definition build_svcb (type : dns_rr_type) (rtype : Z) (domain : list Z) (ttl priority : Z) (target : list Z)
    (params : list (Z * list Z)) : M nested_state unit :=
  _dns_add_SVCB_HTTPS_start type rtype domain ttl priority target ;;
  svcb_params params ;;
  dns_add_SVCB_end.

Lemma svcb_params_step params s ty rs :
  nested_ok ty rs s -> Forall (fun kv => Forall is_byte kv.2) params ->
  wp (svcb_params params) s (fun s' _ => nested_step ty rs s s') (nested_step ty rs s).
Proof.
  revert s. induction params as [|[key value] params IH]; intros s Hok Hp; cbn [svcb_params].
  - wp_step. by apply nested_step_refl.
  - apply Forall_cons_1 in Hp as [Hv Hp]. apply nested_seq; [by apply SVCB_add_raw_step|].
    intros s1 [] Hok1. by apply IH.
Qed.

(** C10: building an SVCB or HTTPS record piece by piece is safe and adds a
    record whole or not at all.  From an intact packet, whatever names and
    parameters are given: no undefined behaviour; on success at most one record
    is appended, in the section asked for and of the type asked for; on failure
    the records and counts are what they were. *)
Theorem svcb_build_atomic type rtype domain ttl priority target params p n rs :
  pkt_rep p rs -> type <> DNS_RRS_END -> Forall is_byte domain -> Forall is_byte target ->
  Forall (fun kv => Forall is_byte kv.2) params ->
  match build_svcb type rtype domain ttl priority target params (p, n) with
  | Ok (p', _) _ => kept p rs p' \/ exists pl, added p rs (mk_arec type (s32 rtype) pl) p'
  | Fail (p', _) => kept p rs p'
  | UB | Diverged => False
  end.
Proof.
  intros Hrep Ht Hd Htg Hp.
  assert (wp (build_svcb type rtype domain ttl priority target params) (p, n)
    (fun s' _ => kept p rs s'.1 \/ exists pl, added p rs (mk_arec type (s32 rtype) pl) s'.1)
    (fun s' => kept p rs s'.1)) as H.
  { unfold build_svcb. wp_step. eapply wp_mono; [apply (nested_SVCB_start_step _ _ _ _ _ _ (p, n) rs); done| |by intros s [_ ?]].
    intros s1 [] [Hok1 Hk1]. wp_step. eapply wp_mono; [by apply svcb_params_step| |].
    2: { intros s2 [_ Hk2]. by eapply kept_trans. }
    intros s2 [] [Hok2 Hk2]. pose proof (kept_trans _ _ _ _ Hk1 Hk2) as Hk12.
    unfold dns_add_SVCB_end. eapply wp_mono; [by apply (nested_end_spec s2 (type, rtype) rs)| |].
    - intros s3 [] [Hk3|[pl Ha]]; [left; by eapply kept_trans|right]. exists pl. by eapply kept_added.
    - intros s3 Hk3. by eapply kept_trans. }
  unfold wp in H. by destruct (build_svcb _ _ _ _ _ _ _ _) as [[p' n'] []|[p' n']| |].
Qed.
