(* ===== verification/DnsDecode.v ===== *)
(** * From the wire to a packet: [dns_decode] (src/dns.c)

    Reading the header, the question and the records of a DNS message and
    storing them in a [struct dns_packet]. *)

From Stdlib Require Import ZArith Lia.
From stdpp Require Import base list numbers option.
From S2P Require Import Prelude DnsTypes DnsName DnsRrs DnsRecord.

(** The message being read and the packet being filled. *)
Definition dec_state : Type := dns_context * dns_packet.

Definition on_ctx {A} (m : M dns_context A) : M dec_state A := zoom fst (fun c s => (c, s.2)) m.
Definition on_pkt {A} (m : M dns_packet A) : M dec_state A := zoom snd (fun p s => (s.1, p)) m.

(** ** Header *)

Definition QR_MASK : Z := 32768.
Definition OPCODE_MASK : Z := 30720.
Definition AA_MASK : Z := 1024.
Definition TC_MASK : Z := 512.
Definition RD_MASK : Z := 256.
Definition RA_MASK : Z := 128.
Definition Z_MASK : Z := 64.
Definition AD_MASK : Z := 32.
Definition CD_MASK : Z := 16.
Definition RCODE_MASK : Z := 15.

Definition field (fields mask shift : Z) : Z := Z.shiftr (Z.land fields mask) shift.

(** The header read from the message. *)
Definition _dns_decode_head : M dns_context dns_head :=
  l <- left_len ;;
  guard (negb (l <? 12)) ;;
  id <- _dns_read_short ;;
  fields <- _dns_read_short ;;
  qd <- _dns_read_short ;;
  an <- _dns_read_short ;;
  ns <- _dns_read_short ;;
  nr <- _dns_read_short ;;
  ret (mk_dns_head id (field fields QR_MASK 15) (field fields OPCODE_MASK 11)
         (field fields AA_MASK 10) (field fields TC_MASK 9) (field fields RD_MASK 8)
         (field fields RA_MASK 7) (field fields Z_MASK 6) (field fields AD_MASK 5)
         (field fields CD_MASK 4) (field fields RCODE_MASK 0) qd an ns nr).

Definition _dns_decode_qr_head (domain_size : Z) : M dns_context qr_head :=
  domain <- _dns_decode_domain domain_size ;;
  l <- left_len ;;
  guard (negb (l <? 4)) ;;
  qtype <- _dns_read_short ;;
  qclass <- _dns_read_short ;;
  ret (mk_qr_head domain qtype qclass).

Definition _dns_decode_rr_head (domain_size : Z) : M dns_context rr_head :=
  qr <- _dns_decode_qr_head domain_size ;;
  l <- left_len ;;
  guard (negb (l <? 6)) ;;
  ttl <- _dns_read_int ;;
  rr_len <- _dns_read_short ;;
  let ttl := s32 ttl in
  guard (negb ((rr_len <? 0) || (ttl <? 0))) ;;
  l <- left_len ;;
  guard (negb (l <? rr_len)) ;;
  ret (mk_rr_head qr ttl rr_len).

(** ** Record data *)

Definition _dns_decode_raw (len : Z) : M dns_context (list Z) :=
  l <- left_len ;;
  guard (negb ((l <? len) || (len <? 0))) ;;
  read_mem len.

Definition _dns_decode_CNAME (cname_size : Z) : M dns_context (list Z) := _dns_decode_domain cname_size.

Definition _dns_decode_SRV (target_size : Z) : M dns_context (Z * Z * Z * list Z) :=
  l <- left_len ;;
  guard (negb (l <? 6)) ;;
  priority <- _dns_read_short ;;
  weight <- _dns_read_short ;;
  port <- _dns_read_short ;;
  target <- _dns_decode_domain target_size ;;
  ret (priority, weight, port, target).

Definition _dns_decode_SOA : M dns_context dns_soa :=
  mname <- _dns_decode_domain (DNS_MAX_CNAME_LEN - 1) ;;
  rname <- _dns_decode_domain (DNS_MAX_CNAME_LEN - 1) ;;
  l <- left_len ;;
  guard (negb (l <? 20)) ;;
  serial <- _dns_read_int ;;
  refresh <- _dns_read_int ;;
  retry <- _dns_read_int ;;
  expire <- _dns_read_int ;;
  minimum <- _dns_read_int ;;
  ret (mk_dns_soa mname rname serial refresh retry expire minimum).

Definition _dns_decode_opt_ecs (opt_len : Z) : M dns_context dns_opt_ecs :=
  guard (negb (opt_len <? 4)) ;;
  family <- _dns_read_short ;;
  source_prefix <- _dns_read_char ;;
  scope_prefix <- _dns_read_char ;;
  let len := ecs_addr_len source_prefix in
  l <- left_len ;;
  guard (negb ((l <? len) || (16 <? len))) ;;
  bs <- read_mem len ;;
  addr <- access (wr_bytes (replicate 16 0) 0 bs) ;;
  ret (mk_dns_opt_ecs family source_prefix scope_prefix addr).

(** The cookie itself is not kept. *)
Definition _dns_decode_opt_cookie (opt_len : Z) : M dns_context unit :=
  guard (negb (opt_len <? 8)) ;;
  read_mem 8 ;;
  let opt_len := opt_len - 8 in
  if opt_len <=? 0 then ret tt
  else
    guard (negb ((opt_len <? 8) || (32 <? opt_len))) ;;
    bs <- read_mem opt_len ;;
    access (wr_bytes (replicate 32 0) 0 bs) ;;
    ret tt.

Definition _dns_decode_opt_tcp_keepalive (opt_len : Z) : M dns_context Z :=
  if opt_len =? 0 then ret 0
  else
    guard (negb (opt_len <? 2)) ;;
    _dns_read_short.

(** One option: the body of the [while] loop. *)
Definition _dns_decode_opt_one : M dec_state unit :=
  l <- on_ctx left_len ;;
  guard (negb (l <? 4)) ;;
  opt_code <- on_ctx _dns_read_short ;;
  opt_len <- on_ctx _dns_read_short ;;
  l <- on_ctx left_len ;;
  guard (negb (l <? opt_len)) ;;
  if opt_code =? DNS_OPT_T_ECS then
    ecs <- on_ctx (_dns_decode_opt_ecs opt_len) ;;
    on_pkt (dns_add_OPT_ECS ecs)
  else if opt_code =? DNS_OPT_T_COOKIE then
    on_ctx (_dns_decode_opt_cookie opt_len)
  else if opt_code =? DNS_OPT_T_TCP_KEEPALIVE then
    timeout <- on_ctx (_dns_decode_opt_tcp_keepalive opt_len) ;;
    on_pkt (dns_add_OPT_TCP_KEEPALIVE timeout)
  else on_ctx (add_ptr opt_len).

(** [while (context->ptr - start < rr_len)] with a body that moves the pointer
    forward: one round of fuel per byte is enough. *)
Fixpoint while_ptr (fuel : nat) (stop : Z) (body : M dec_state unit) : M dec_state unit :=
  match fuel with
  | O => diverge
  | S fuel =>
    s <- get ;;
    if negb (c_ptr s.1 <? stop) then ret tt
    else body ;; while_ptr fuel stop body
  end.

Definition _dns_decode_opt (ttl rr_len : Z) : M dec_state unit :=
  let errcode := Z.land (Z.shiftr ttl 16) 65535 in
  guard (negb (rr_len <? 0)) ;;
  if negb (errcode =? 0) then ret tt
  else
    s <- get ;;
    while_ptr (S (Z.to_nat rr_len)) (c_ptr s.1 + rr_len) _dns_decode_opt_one.

(** The service parameters the code keeps. *)
Definition svc_key_known (key : Z) : bool :=
  (key =? DNS_HTTPS_T_MANDATORY) || (key =? DNS_HTTPS_T_ALPN) || (key =? DNS_HTTPS_T_NO_DEFAULT_ALPN) ||
  (key =? DNS_HTTPS_T_PORT) || (key =? DNS_HTTPS_T_IPV4HINT) || (key =? DNS_HTTPS_T_ECH) ||
  (key =? DNS_HTTPS_T_IPV6HINT).

(** Decoding an SVCB record also builds a nested record. *)
Definition svc_state : Type := dec_state * dns_rr_nested.
Definition svc_ctx {A} (m : M dns_context A) : M svc_state A :=
  zoom (fun s => s.1.1) (fun c s => ((c, s.1.2), s.2)) m.
Definition svc_nested {A} (m : M nested_state A) : M svc_state A :=
  zoom (fun s => (s.1.2, s.2)) (fun t s => ((s.1.1, t.1), t.2)) m.

Definition _dns_decode_svcparam_one : M svc_state unit :=
  l <- svc_ctx left_len ;;
  guard (negb (l <? 4)) ;;
  key <- svc_ctx _dns_read_short ;;
  value_len <- svc_ctx _dns_read_short ;;
  l <- svc_ctx left_len ;;
  guard (negb (l <? value_len)) ;;
  (if svc_key_known key then
     s <- get ;;
     value <- access (rd_bytes (c_data s.1.1) (c_ptr s.1.1) value_len) ;;
     try (svc_nested (dns_SVCB_add_raw key value)) ;;
     ret tt
   else ret tt) ;;
  svc_ctx (add_ptr value_len).

Fixpoint while_svc (fuel : nat) (stop : Z) : M svc_state unit :=
  match fuel with
  | O => diverge
  | S fuel =>
    s <- get ;;
    if negb (c_ptr s.1.1 <? stop) then ret tt
    else _dns_decode_svcparam_one ;; while_svc fuel stop
  end.

(** The record always goes to the answer section. *)
Definition _dns_decode_SVCB_HTTPS (domain : list Z) (qtype ttl rr_len : Z) : M dec_state unit :=
  s <- get ;;
  let start := c_ptr s.1 in
  guard (negb (rr_len <? 2)) ;;
  l <- on_ctx left_len ;;
  guard (negb (l <? rr_len)) ;;
  priority <- on_ctx _dns_read_short ;;
  target <- on_ctx (_dns_decode_domain DNS_MAX_CNAME_LEN) ;;
  zoom (fun s => (s, mk_rr_nested 0 0 None None 0 DNS_RRS_AN 0)) (fun t _ => t.1) (
    try (svc_nested (_dns_add_SVCB_HTTPS_start DNS_RRS_AN qtype domain ttl priority target)) ;;
    while_svc (S (Z.to_nat rr_len)) (start + rr_len) ;;
    try (svc_nested dns_add_SVCB_end) ;;
    ret tt).

(** ** Question and records *)

Definition _dns_decode_qd : M dec_state unit :=
  q <- on_ctx (_dns_decode_qr_head DNS_MAX_CNAME_LEN) ;;
  on_pkt (dns_add_domain (q_domain q) (q_type q) (q_class q)).

(** The [switch (qtype)] of [_dns_decode_an]. *)
Definition _dns_decode_rdata (type : dns_rr_type) (h : rr_head) : M dec_state unit :=
  let domain := q_domain (r_qr h) in
  let qtype := q_type (r_qr h) in
  let ttl := r_ttl h in
  let rr_len := r_len h in
  if qtype =? DNS_T_A then
    addr <- on_ctx (_dns_decode_raw DNS_RR_A_LEN) ;;
    on_pkt (dns_add_A type domain ttl addr)
  else if qtype =? DNS_T_CNAME then
    cname <- on_ctx (_dns_decode_CNAME DNS_MAX_CNAME_LEN) ;;
    on_pkt (dns_add_CNAME type domain ttl cname)
  else if qtype =? DNS_T_SOA then
    soa <- on_ctx _dns_decode_SOA ;;
    on_pkt (dns_add_SOA type domain ttl soa)
  else if qtype =? DNS_T_NS then
    ns <- on_ctx (_dns_decode_CNAME DNS_MAX_CNAME_LEN) ;;
    on_pkt (dns_add_NS type domain ttl ns)
  else if qtype =? DNS_T_PTR then
    name <- on_ctx (_dns_decode_CNAME DNS_MAX_CNAME_LEN) ;;
    on_pkt (dns_add_PTR type domain ttl name)
  else if qtype =? DNS_T_AAAA then
    addr <- on_ctx (_dns_decode_raw DNS_RR_AAAA_LEN) ;;
    on_pkt (dns_add_AAAA type domain ttl addr)
  else if qtype =? DNS_T_SRV then
    '(priority, weight, port, target) <- on_ctx (_dns_decode_SRV DNS_MAX_CNAME_LEN) ;;
    on_pkt (dns_add_SRV type domain ttl priority weight port target)
  else if qtype =? DNS_T_OPT then
    s <- get ;;
    _dns_decode_opt ttl rr_len ;;
    s' <- get ;;
    guard (c_ptr s'.1 - c_ptr s.1 =? rr_len) ;;
    on_pkt (dns_set_OPT_option ttl) ;;
    on_pkt (dns_set_OPT_payload_size (q_class (r_qr h)))
  else if (qtype =? DNS_T_HTTPS) || (qtype =? DNS_T_SVCB) then
    s <- get ;;
    _dns_decode_SVCB_HTTPS domain qtype ttl rr_len ;;
    s' <- get ;;
    guard (c_ptr s'.1 - c_ptr s.1 =? rr_len)
  else
    l <- on_ctx left_len ;;
    guard (negb ((l <? rr_len) || (1024 <=? rr_len))) ;;
    raw_data <- on_ctx (_dns_decode_raw rr_len) ;;
    on_pkt (_dns_add_RAW type qtype domain ttl raw_data).

Definition _dns_decode_an (type : dns_rr_type) : M dec_state unit :=
  h <- on_ctx (_dns_decode_rr_head DNS_MAX_CNAME_LEN) ;;
  guard (negb (q_class (r_qr h) <? 0)) ;;
  s <- get ;;
  let start := c_ptr s.1 in
  _dns_decode_rdata type h ;;
  s <- get ;;
  guard (c_ptr s.1 - start =? r_len h).

(** [for (i = 0; i < count; i++)] *)
Fixpoint times {S} (n : nat) (body : M S unit) : M S unit :=
  match n with
  | O => ret tt
  | S n => body ;; times n body
  end.

(** One section: take its count from the header, reset it, decode that many
    entries (which count themselves again). *)
Definition decode_section (type : dns_rr_type) (body : M dec_state unit) : M dec_state unit :=
  s <- get ;;
  match sec_count type s.2 with
  | Some count =>
    on_pkt (modify (set_sec_count type 0)) ;;
    times (Z.to_nat count) body
  | None => ret tt
  end.

Definition _dns_decode_body : M dec_state unit :=
  decode_section DNS_RRS_QD _dns_decode_qd ;;
  decode_section DNS_RRS_AN (_dns_decode_an DNS_RRS_AN) ;;
  decode_section DNS_RRS_NS (_dns_decode_an DNS_RRS_NS) ;;
  decode_section DNS_RRS_NR (_dns_decode_an DNS_RRS_NR).

(** ** Packets *)

Definition zero_head : dns_head := mk_dns_head 0 0 0 0 0 0 0 0 0 0 0 0 0 0 0.

(** [dns_packet_init(packet, size, head)] for a packet at address [addr];
    [None] is the return value -1. *)
Definition dns_packet_init (addr size : Z) (head : dns_head) : option dns_packet :=
  if size <? sizeof_dns_packet then None
  else
    let 'mk_dns_head id qr op aa tc rd ra z ad cd rc _ _ _ _ := head in
    Some (mk_dns_packet (mk_dns_head id qr op aa tc rd ra z ad cd rc 0 0 0 0)
            DNS_RR_END DNS_RR_END DNS_RR_END DNS_RR_END 0 DNS_RR_END 0 0 [] size 0
            addr (replicate (Z.to_nat (size - sizeof_dns_packet)) 0)).

(** The reading context over a received message of [size] bytes. *)
Definition wire_context (data : list Z) (size : Z) : dns_context := mk_dns_context [] 0 data size 0.

Definition set_head_m : M dec_state unit :=
  h <- on_ctx _dns_decode_head ;; on_pkt (modify (set_head h)).

(** [packet->size] becomes the bytes read plus the size of the structure. *)
Definition set_size_m : M dec_state unit :=
  s <- get ;; on_pkt (modify (set_size (c_ptr s.1 + sizeof_dns_packet))).

Definition dns_decode_head_only (addr maxsize : Z) (data : list Z) (size : Z) : res dec_state unit :=
  match dns_packet_init addr maxsize zero_head with
  | None => Fail (wire_context data size, mk_dns_packet zero_head 0 0 0 0 0 0 0 0 [] 0 0 addr [])
  | Some packet => (set_head_m ;; set_size_m) (wire_context data size, packet)
  end.

Definition dns_decode (addr maxsize : Z) (data : list Z) (size : Z) : res dec_state unit :=
  match dns_packet_init addr maxsize zero_head with
  | None => Fail (wire_context data size, mk_dns_packet zero_head 0 0 0 0 0 0 0 0 [] 0 0 addr [])
  | Some packet =>
    (set_head_m ;; _dns_decode_body ;; set_size_m) (wire_context data size, packet)
  end.
