(* ===== verification/DnsDecodeSpec.v ===== *)
(** * Decoding is safe (src/dns.c)

    [dns_decode] on arbitrary bytes: no access outside the message or the
    packet, termination, and a packet whose record lists and counts are intact
    whether the message is accepted or rejected. *)

From Stdlib Require Import ZArith Lia.
From stdpp Require Import base list numbers option.
From S2P Require Import Prelude DnsTypes DnsName DnsRrs DnsRrsSpec DnsRecord DnsAddSpec DnsNestedSpec DnsDecode.

(** ** Packets with correct counts *)

(** The counts of the sections [T] are the numbers of their records; the other
    sections have no records yet. *)
Definition counted (T : list dns_rr_type) (p : dns_packet) (rs : list arec) : Prop :=
  (forall t, t ∈ T -> sec_count t p = Some (Zlen (sec_records t rs))) /\
  Forall (fun r => a_sec r ∈ T) rs.

Definition pkt_fine (T : list dns_rr_type) (p : dns_packet) : Prop :=
  exists rs, pkt_rep p rs /\ counted T p rs.

(** A packet operation that keeps packets fine, failing or not. *)
Definition keeps {A} (T : list dns_rr_type) (m : M dns_packet A) : Prop :=
  forall p, pkt_fine T p -> wp m p (fun p' _ => pkt_fine T p') (pkt_fine T).

Lemma kept_fine T p rs p' : kept p rs p' -> counted T p rs -> pkt_fine T p'.
Proof. intros (?&_&Hc) [Hn ?]. exists rs. split; [done|]. split; [|done]. intros t Ht. rewrite Hc. auto. Qed.

Lemma added_fine T p rs r p' : added p rs r p' -> counted T p rs -> a_sec r ∈ T -> pkt_fine T p'.
Proof.
  intros (Hrep&_&Hb) [Hn Ha] Hr. exists (rs ++ [r]). split; [done|].
  split; [|apply Forall_app_2; [done|by constructor]]. intros t Ht. rewrite Hb, (Hn t Ht), sec_records_app.
  case_decide; [|f_equal; lia]. cbn. f_equal. apply u16_small.
  destruct Hrep as ((_&_&?&?&_)&Htot&_). pose proof (atotal_length (rs ++ [r])) as Hl.
  rewrite length_app in Hl. cbn [length] in Hl. pose proof (Zlen_nonneg (sec_records t rs)).
  pose proof (sec_records_len t rs). unfold sizeof_dns_packet, Zlen in *. lia.
Qed.

Lemma keeps_RAW T t rtype domain ttl raw :
  t <> DNS_RRS_END -> t ∈ T -> Forall is_byte domain -> Forall is_byte raw ->
  keeps T (_dns_add_RAW t rtype domain ttl raw).
Proof.
  intros Ht HT Hd Hr p (rs&Hrep&Hn). eapply wp_mono; [by apply (add_RAW_safe t rtype domain ttl raw p rs)| |].
  - intros p' _ [pl Ha]. by eapply added_fine.
  - intros p' Hk. by eapply kept_fine.
Qed.

Lemma keeps_domain T domain qtype qclass :
  DNS_RRS_QD ∈ T -> Forall is_byte domain -> keeps T (dns_add_domain domain qtype qclass).
Proof.
  intros HT Hd p (rs&Hrep&Hn). eapply wp_mono; [by apply (add_domain_safe domain qtype qclass p rs)| |].
  - intros p' _ [pl Ha]. by eapply added_fine.
  - intros p' Hk. by eapply kept_fine.
Qed.

Lemma pkt_fine_meta T p p' :
  pkt_fine T p -> p_size p' = p_size p -> p_len p' = p_len p -> p_addr p' = p_addr p -> p_data p' = p_data p ->
  (forall t, sec_start t p' = sec_start t p) -> (forall t, t ∈ T -> sec_count t p' = sec_count t p) ->
  pkt_fine T p'.
Proof.
  intros (rs&(Hok&?&?&Hs)&Hc&?) Hsz Hl Ha Hd Hst Hct. exists rs. unfold pkt_rep, pkt_ok, counted.
  rewrite Hsz, Hl, Ha, Hd. split_and!; try apply Hok; try done.
  - intros t Ht. rewrite Hst. auto.
  - intros t Ht. rewrite Hct; auto.
Qed.

(** ** The records *)

Lemma cname_raw_byte s : Forall is_byte s -> Forall is_byte (cname_raw s).
Proof. intros Hs. unfold cname_raw. apply Forall_take, Forall_app_2; [done|]. by repeat constructor. Qed.

Lemma soa_raw_byte soa : Forall is_byte (soa_mname soa) -> Forall is_byte (soa_rname soa) -> Forall is_byte (soa_raw soa).
Proof.
  intros H1 H2. unfold soa_raw. repeat apply Forall_app_2; auto with cdb; try (by apply Forall_take);
    by repeat constructor.
Qed.

Lemma srv_raw_byte a b c t : Forall is_byte t -> Forall is_byte (srv_raw a b c t).
Proof.
  intros Ht. unfold srv_raw. repeat apply Forall_app_2; auto with cdb; [by apply Forall_take|by repeat constructor].
Qed.

Lemma opt_raw_byte a b d : Forall is_byte d -> Forall is_byte (opt_raw a b d).
Proof. intros Hd. unfold opt_raw. repeat apply Forall_app_2; auto with cdb. Qed.

Lemma rd_bytes_all bs n : Zlen bs = n -> rd_bytes bs 0 n = Some bs.
Proof.
  intros <-. apply rd_bytes_Some. pose proof (Zlen_nonneg bs). split_and!; try lia.
  change (Z.to_nat 0) with 0%nat. rewrite drop_0. unfold Zlen. by rewrite Nat2Z.id, firstn_all.
Qed.

Lemma keeps_access {A B} T (o : option A) (a : A) (k : A -> M dns_packet B) :
  o = Some a -> keeps T (k a) -> keeps T (bind (access o) k).
Proof. intros -> Hk. exact Hk. Qed.

Lemma keeps_guard {B} T b (m : M dns_packet B) : keeps T m -> keeps T (bind (guard b) (fun _ => m)).
Proof. intros Hk p Hp. wp_step. wp_step; [by apply Hk|done]. Qed.

(** Which bytes [dns_add_OPT_ECS] copies. *)
Lemma ecs_len_bounds v : 0 <= v < 256 -> 0 <= ecs_addr_len v <= 32.
Proof. intros Hv. unfold ecs_addr_len. destruct (0 <? v mod 8); Z.div_mod_to_equations; lia. Qed.

Lemma keeps_ECS T ecs :
  DNS_RRS_OPT ∈ T -> 0 <= ecs_source_prefix ecs < 256 -> ecs_addr_len (ecs_source_prefix ecs) <= 16 ->
  Zlen (ecs_addr ecs) = 16 -> Forall is_byte (ecs_addr ecs) -> keeps T (dns_add_OPT_ECS ecs).
Proof.
  intros HT Hv H16 Hl Hb. unfold dns_add_OPT_ECS. pose proof (ecs_len_bounds _ Hv).
  assert (Zlen (ecs_raw ecs) = 20) as Hlr by (unfold ecs_raw; rewrite !Zlen_app, Hl; done).
  assert (Forall is_byte (ecs_raw ecs)) as Hbr.
  { unfold ecs_raw. repeat apply Forall_app_2; auto with cdb. repeat constructor; apply u8_range. }
  destruct (rd_bytes_ex (ecs_raw ecs) 0 (4 + ecs_addr_len (ecs_source_prefix ecs))) as [bs Hbs]; [lia..|].
  eapply keeps_access; [exact Hbs|]. apply keeps_RAW; [done..|].
  apply opt_raw_byte. by eapply rd_bytes_byte.
Qed.

Lemma keeps_KEEPALIVE T timeout : DNS_RRS_OPT ∈ T -> keeps T (dns_add_OPT_TCP_KEEPALIVE timeout).
Proof.
  intros HT. unfold dns_add_OPT_TCP_KEEPALIVE, _dns_add_opt_RAW.
  apply keeps_RAW; [done..|]. apply opt_raw_byte. destruct (0 <? timeout); auto with cdb.
Qed.

(** ** Reading the message *)

(** A reader that moves the pointer forward inside the message. *)
Definition reads (c c' : dns_context) : Prop :=
  same_buf c c' /\ c_ptr c <= c_ptr c' <= c_maxsize c.

Definition rd_ok (c : dns_context) : Prop := ctx_wf c /\ c_ptr c <= c_maxsize c.

Lemma reads_ok c c' : reads c c' -> rd_ok c -> rd_ok c'.
Proof.
  intros [(_&_&Hd&Hm) ?] [(?&?&?) ?]. unfold rd_ok, ctx_wf. rewrite Hd, Hm. split_and!; done || lia.
Qed.

Lemma reads_refl c : rd_ok c -> reads c c.
Proof. intros [_ ?]. split; [apply same_buf_refl|lia]. Qed.

Lemma reads_trans c1 c2 c3 : reads c1 c2 -> reads c2 c3 -> reads c1 c3.
Proof.
  intros [H1 ?] [H2 ?]. split; [by eapply same_buf_trans|]. destruct H1 as (_&_&_&Hm). lia.
Qed.

Lemma reads_set c e : c_ptr c <= e <= c_maxsize c -> reads c (set_ptr e c).
Proof. intros ?. split; [apply set_ptr_same|done]. Qed.

Lemma reads_ptr c n : 0 <= n <= _dns_left_len c -> reads c (set_ptr (c_ptr c + n) c).
Proof. unfold _dns_left_len. intros ?. split; [apply set_ptr_same|cproj; lia]. Qed.

Lemma left_len_ptr c n : _dns_left_len (set_ptr (c_ptr c + n) c) = _dns_left_len c - n.
Proof. unfold _dns_left_len. cproj. lia. Qed.

(** [m] reads inside the message and its result satisfies [P]. *)
Definition reader {A} (m : M dns_context A) (P : dns_context -> A -> Prop) : Prop :=
  forall c, rd_ok c -> wp m c (fun c' a => reads c c' /\ P c' a) (fun _ => True).

Lemma reader_bind {A B} (m : M dns_context A) P (k : A -> M dns_context B) R :
  reader m P -> (forall a c0, rd_ok c0 -> P c0 a -> wp (k a) c0 (fun c' b => reads c0 c' /\ R c' b) (fun _ => True)) ->
  reader (bind m k) R.
Proof.
  intros Hm Hk c Hc. wp_step. eapply wp_mono; [by apply Hm| |done]. intros c1 a [H1 HP].
  eapply wp_mono; [apply (Hk a c1); [by eapply reads_ok|done]| |done].
  intros c2 b [H2 HR]. split; [by eapply reads_trans|done].
Qed.

Lemma wp_rd_short c (Q : dns_context -> Z -> Prop) E :
  rd_ok c -> 2 <= _dns_left_len c ->
  (forall v, 0 <= v < 65536 -> Q (set_ptr (c_ptr c + 2) c) v) -> wp _dns_read_short c Q E.
Proof.
  intros [(?&?&?) _] Hl HQ. unfold _dns_left_len in Hl. apply wp_read_short; [done|lia|done|]. intros. by apply HQ.
Qed.

Lemma wp_rd_int c (Q : dns_context -> Z -> Prop) E :
  rd_ok c -> 4 <= _dns_left_len c ->
  (forall v, 0 <= v < 4294967296 -> Q (set_ptr (c_ptr c + 4) c) v) -> wp _dns_read_int c Q E.
Proof.
  intros [(?&?&?) _] Hl HQ. unfold _dns_left_len in Hl. apply wp_read_int; [done|lia|done|]. intros. by apply HQ.
Qed.

Lemma wp_rd_char c (Q : dns_context -> Z -> Prop) E :
  rd_ok c -> 1 <= _dns_left_len c ->
  (forall v, 0 <= v < 256 -> Q (set_ptr (c_ptr c + 1) c) v) -> wp _dns_read_char c Q E.
Proof.
  intros [(?&?&?) _] Hl HQ. unfold _dns_left_len in Hl. apply wp_read_char; [done|lia|done|]. intros. by apply HQ.
Qed.

Lemma wp_rd_mem n c (Q : dns_context -> list Z -> Prop) E :
  rd_ok c -> 0 <= n <= _dns_left_len c ->
  (forall bs, Zlen bs = n -> Forall is_byte bs -> Q (set_ptr (c_ptr c + n) c) bs) -> wp (read_mem n) c Q E.
Proof.
  intros [(?&?&?) _] Hl HQ. unfold _dns_left_len in Hl. apply wp_read_mem; [done|lia|lia|]. intros bs Hbs.
  apply HQ; [by eapply rd_bytes_len|by eapply rd_bytes_byte].
Qed.

Lemma rd_ok_ptr c n : rd_ok c -> 0 <= n <= _dns_left_len c -> rd_ok (set_ptr (c_ptr c + n) c).
Proof. intros Hc Hn. eapply reads_ok; [by apply reads_ptr|done]. Qed.

Lemma reads_then_ptr c c1 n : reads c c1 -> 0 <= n <= _dns_left_len c1 -> reads c (set_ptr (c_ptr c1 + n) c1).
Proof. intros Hr Hn. eapply reads_trans; [exact Hr|by apply reads_ptr]. Qed.

(** Read a field when the room is known, keeping the context well formed. *)
Ltac rd_side :=
  rewrite ?left_len_ptr in *;
  repeat lazymatch goal with
  | |- rd_ok (set_ptr _ _) => apply rd_ok_ptr
  | |- reads ?c (set_ptr _ ?c) => apply reads_ptr
  | |- reads _ (set_ptr _ _) => apply reads_then_ptr
  end; rewrite ?left_len_ptr; try done; try lia; try (by apply reads_refl).
Ltac rd_step :=
  cbv zeta; lazymatch goal with
  | |- wp left_len _ _ _ => apply wp_left_len
  | |- wp _dns_read_short _ _ _ => apply wp_rd_short; [by rd_side|by rd_side|intros ? ?]
  | |- wp _dns_read_int _ _ _ => apply wp_rd_int; [by rd_side|by rd_side|intros ? ?]
  | |- wp _dns_read_char _ _ _ => apply wp_rd_char; [by rd_side|by rd_side|intros ? ?]
  | |- wp (read_mem _) _ _ _ => apply wp_rd_mem; [by rd_side|by rd_side|intros ? ? ?]
  | _ => wp_step
  end.

Lemma join_forall (P : Z -> Prop) ls : P char_dot -> Forall (Forall P) ls -> Forall P (join ls).
Proof.
  intros Hd. induction 1 as [|l ls Hl Hls IH]; [done|]. destruct ls as [|l2 ls]; [done|].
  cbn [join] in *. apply Forall_app_2; [done|]. by constructor.
Qed.

Lemma name_at_bytes m n j off ls e : Forall is_byte m -> name_at m n j off ls e -> Forall (Forall is_byte) ls.
Proof. intros Hm. induction 1; [done| |done]. constructor; [by eapply rd_bytes_byte|done]. Qed.

(** ** The decoders of the record data *)

Definition a_name (s : list Z) : Prop := Forall is_byte s /\ Forall (fun b => b <> 0) s.

Lemma decode_domain_reads size :
  reader (_dns_decode_domain size) (fun _ s => a_name s /\ Zlen s <= size - 2).
Proof.
  intros c [(Hp&Hm&Hb) Hle]. unfold _dns_decode_domain. wp_step. unfold wp at 1, zoom.
  pose proof (get_domain_safe (c_data c) (c_maxsize c) size (c_ptr c) Hm Hb) as H. unfold wp in H.
  destruct (_dns_get_domain_from_packet _ _ _ _) as [e s|?| |]; try done.
  destruct H as (ls&Hn&->&Hl). wp_step. pose proof (name_at_bounds _ _ _ _ _ _ Hn).
  pose proof (until_nul_len (join ls)). unfold a_name. split_and!; [apply reads_set; lia| | |lia].
  - apply until_nul_Forall, join_forall; [done|]. by eapply name_at_bytes.
  - apply until_nul_nonzero.
Qed.

Lemma decode_qr_head_reads size :
  reader (_dns_decode_qr_head size)
    (fun _ q => a_name (q_domain q) /\ 0 <= q_type q < 65536 /\ 0 <= q_class q < 65536).
Proof.
  eapply reader_bind; [apply decode_domain_reads|]. intros s c Hc [Hs _].
  do 2 rd_step. do 2 rd_step; [|done]. do 2 rd_step. do 2 rd_step. rd_step. cbn.
  split; [|done]. rd_side.
Qed.

Lemma decode_rr_head_reads size :
  reader (_dns_decode_rr_head size)
    (fun c h => a_name (q_domain (r_qr h)) /\ 0 <= q_type (r_qr h) < 65536 /\
       0 <= r_len h < 65536 /\ r_len h <= _dns_left_len c /\ 0 <= r_ttl h).
Proof.
  eapply reader_bind; [apply decode_qr_head_reads|]. intros q c Hc (Hs&Ht&_).
  do 2 rd_step. do 2 rd_step; [|done]. do 2 rd_step. do 2 rd_step.
  do 2 rd_step; [|done]. do 2 rd_step. do 2 rd_step; [|done]. rd_step. cbn [r_qr r_len r_ttl].
  split; [rd_side|]. rewrite !left_len_ptr in *. split_and!; try done; try apply Hs; lia.
Qed.

Lemma decode_raw_reads len :
  reader (_dns_decode_raw len) (fun _ bs => Forall is_byte bs /\ Zlen bs = len).
Proof.
  intros c Hc. unfold _dns_decode_raw. do 2 rd_step. do 2 rd_step; [|done].
  rd_step. split; [|done]. rd_side.
Qed.

Lemma decode_SRV_reads size :
  reader (_dns_decode_SRV size) (fun _ '(_, _, _, t) => a_name t).
Proof.
  intros c Hc. unfold _dns_decode_SRV. do 2 rd_step. do 2 rd_step; [|done].
  do 2 rd_step. do 2 rd_step. do 2 rd_step. rd_step.
  eapply wp_mono; [apply decode_domain_reads; rd_side| |done].
  intros c' s [Hr [Hs _]]. rd_step. split; [|done]. eapply reads_trans; [|exact Hr]. rd_side.
Qed.

Lemma decode_SOA_reads : reader _dns_decode_SOA (fun _ soa => a_name (soa_mname soa) /\ a_name (soa_rname soa)).
Proof.
  unfold _dns_decode_SOA. eapply reader_bind; [apply decode_domain_reads|]. intros mname c Hc [Hm _].
  revert c Hc. eapply reader_bind; [apply decode_domain_reads|]. intros rname c Hc [Hr _].
  do 2 rd_step. do 2 rd_step; [|done]. do 10 rd_step. rd_step. cbn [soa_mname soa_rname]. split; [by rd_side|done].
Qed.

Lemma decode_ecs_reads opt_len c :
  rd_ok c -> opt_len <= _dns_left_len c ->
  wp (_dns_decode_opt_ecs opt_len) c
    (fun c' ecs => reads c c' /\ 0 <= ecs_source_prefix ecs < 256 /\
       ecs_addr_len (ecs_source_prefix ecs) <= 16 /\ Zlen (ecs_addr ecs) = 16 /\ Forall is_byte (ecs_addr ecs))
    (fun _ => True).
Proof.
  intros Hc Hl. unfold _dns_decode_opt_ecs. do 2 rd_step; [|done]. do 2 rd_step. do 2 rd_step. do 2 rd_step.
  match goal with H : 0 <= ?v < 256 |- context [ecs_addr_len ?v] => pose proof (ecs_len_bounds _ H) end.
  do 2 rd_step. do 2 rd_step; [|done]. do 2 rd_step.
  match goal with |- context [wr_bytes ?z 0 ?bs] =>
    destruct (wr_bytes_ex z 0 bs) as [addr Haddr]; [lia|change (Zlen z) with 16; lia|] end.
  wp_step. apply wp_access. exists addr. split; [done|]. wp_step. cbn [ecs_source_prefix ecs_addr].
  split; [rd_side|]. split_and!; try lia.
  - by rewrite (wr_bytes_len _ _ _ _ Haddr).
  - eapply wr_bytes_byte; [|eassumption|exact Haddr]. by repeat constructor.
Qed.

Lemma decode_cookie_reads opt_len c :
  rd_ok c -> opt_len <= _dns_left_len c ->
  wp (_dns_decode_opt_cookie opt_len) c (fun c' _ => reads c c') (fun _ => True).
Proof.
  intros Hc Hl. unfold _dns_decode_opt_cookie. do 2 rd_step; [|done]. do 2 rd_step.
  rd_step; [rd_step; rd_side|]. do 2 rd_step; [|done]. do 2 rd_step.
  match goal with |- context [wr_bytes ?z 0 ?bs] =>
    destruct (wr_bytes_ex z 0 bs) as [cookie Hcookie]; [lia|change (Zlen z) with 32; lia|] end.
  wp_step. apply wp_access. exists cookie. split; [done|]. wp_step. rd_side.
Qed.

Lemma decode_keepalive_reads opt_len c :
  rd_ok c -> 0 <= opt_len <= _dns_left_len c ->
  wp (_dns_decode_opt_tcp_keepalive opt_len) c (fun c' _ => reads c c') (fun _ => True).
Proof.
  intros Hc Hl. unfold _dns_decode_opt_tcp_keepalive. rd_step; [rd_step; by apply reads_refl|].
  do 2 rd_step; [|done]. rd_step. rd_side.
Qed.

(** ** Decoders that also fill the packet *)

Definition dec_ok (T : list dns_rr_type) (s : dec_state) : Prop := rd_ok s.1 /\ pkt_fine T s.2.

(** [m] reads forward and keeps the packet fine; the packet stays fine when it
    fails. *)
Definition decodes (T : list dns_rr_type) (m : M dec_state unit) : Prop :=
  forall s, dec_ok T s -> wp m s (fun s' _ => dec_ok T s' /\ reads s.1 s'.1) (fun s' => pkt_fine T s'.2).

Lemma wp_on_ctx {A} (m : M dns_context A) s (Q : dec_state -> A -> Prop) (E : dec_state -> Prop) :
  wp m s.1 (fun c a => Q (c, s.2) a) (fun c => E (c, s.2)) -> wp (on_ctx m) s Q E.
Proof. intros Hm. unfold on_ctx. by wp_step. Qed.

Lemma wp_on_pkt {A} (m : M dns_packet A) s (Q : dec_state -> A -> Prop) (E : dec_state -> Prop) :
  wp m s.2 (fun p a => Q (s.1, p) a) (fun p => E (s.1, p)) -> wp (on_pkt m) s Q E.
Proof. intros Hm. unfold on_pkt. by wp_step. Qed.

Lemma decodes_reader {A} T (m : M dns_context A) P (k : A -> M dec_state unit) :
  reader m P -> (forall a s, P s.1 a -> dec_ok T s -> wp (k a) s (fun s' _ => dec_ok T s' /\ reads s.1 s'.1) (fun s' => pkt_fine T s'.2)) ->
  decodes T (bind (on_ctx m) k).
Proof.
  intros Hm Hk s [Hc Hp]. wp_step. apply wp_on_ctx.
  eapply wp_mono; [by apply Hm| |by intros]. intros c a [Hr HP].
  eapply wp_mono; [apply (Hk a (c, s.2) HP); split; [by eapply reads_ok|done]| |done].
  intros s' [] [Hok Hr2]. split; [done|]. by eapply reads_trans.
Qed.

Lemma decodes_keeps T m : keeps T m -> decodes T (on_pkt m).
Proof.
  intros Hk s [Hc Hp]. apply wp_on_pkt. eapply wp_mono; [by apply Hk| |done].
  intros p [] Hp'. split; [by split|]. by apply reads_refl.
Qed.

(** One option: at least the four bytes of its head are read. *)
Lemma decode_opt_one_reads T s : DNS_RRS_OPT ∈ T -> dec_ok T s ->
  wp _dns_decode_opt_one s (fun s' _ => dec_ok T s' /\ reads s.1 s'.1 /\ c_ptr s.1 + 4 <= c_ptr s'.1)
    (fun s' => pkt_fine T s'.2).
Proof.
  intros HT [Hc Hp]. unfold _dns_decode_opt_one. wp_step. apply wp_on_ctx, wp_left_len. do 2 wp_step; [|done].
  wp_step. apply wp_on_ctx. cbn [fst snd]. apply wp_rd_short; [by rd_side..|]. intros code Hcode.
  wp_step. apply wp_on_ctx. cbn [fst snd]. apply wp_rd_short; [by rd_side..|]. intros olen Holen.
  wp_step. apply wp_on_ctx, wp_left_len. cbn [fst snd]. do 2 wp_step; [|done].
  set (c1 := set_ptr _ (set_ptr _ _)) in *.
  assert (reads s.1 c1) as Hr1 by (unfold c1 in *; rd_side).
  assert (rd_ok c1) as Hok1 by (by eapply reads_ok).
  assert (c_ptr c1 = c_ptr s.1 + 4) as Hp1 by (unfold c1; cproj; lia).
  assert (forall c2, reads c1 c2 -> reads s.1 c2 /\ c_ptr s.1 + 4 <= c_ptr c2 /\ rd_ok c2) as Hfin.
  { intros c2 Hr2. split_and!; [by eapply reads_trans|destruct Hr2; lia|by eapply reads_ok]. }
  assert (forall c2 (m : M dns_packet unit), reads c1 c2 -> keeps T m -> wp (on_pkt m) (c2, s.2)
    (fun s' _ => dec_ok T s' /\ reads s.1 s'.1 /\ c_ptr s.1 + 4 <= c_ptr s'.1) (fun s' => pkt_fine T s'.2)) as Hpk.
  { intros c2 m Hr2 Hk. destruct (Hfin c2 Hr2) as (?&?&?). apply wp_on_pkt.
    eapply wp_mono; [by apply Hk| |done]. intros p [] Hp'. by split_and!. }
  wp_step; [|wp_step; [|wp_step]].
  - wp_step. apply wp_on_ctx. eapply wp_mono; [by apply decode_ecs_reads| |done].
    intros c2 ecs (Hr2&?&?&?&?). apply Hpk; [done|]. by apply keeps_ECS.
  - apply wp_on_ctx. eapply wp_mono; [by apply decode_cookie_reads| |done].
    intros c2 [] Hr2. destruct (Hfin c2 Hr2) as (?&?&?). by split_and!.
  - wp_step. apply wp_on_ctx. eapply wp_mono; [apply decode_keepalive_reads; [done|cbn [fst]; lia]| |done].
    intros c2 v Hr2. apply Hpk; [done|]. by apply keeps_KEEPALIVE.
  - apply wp_on_ctx, wp_add_ptr. cbn [fst snd]. destruct (Hfin (set_ptr (c_ptr c1 + olen) c1)) as (?&?&?);
      [apply reads_ptr; lia|]. by split_and!.
Qed.

(** The [while] loop ends within its fuel when every round reads a byte. *)
Lemma while_ptr_decodes T stop body :
  (forall s, dec_ok T s ->
     wp body s (fun s' _ => dec_ok T s' /\ reads s.1 s'.1 /\ c_ptr s.1 + 4 <= c_ptr s'.1) (fun s' => pkt_fine T s'.2)) ->
  forall fuel s, dec_ok T s -> stop - c_ptr s.1 < Z.of_nat fuel -> (0 < fuel)%nat ->
  wp (while_ptr fuel stop body) s (fun s' _ => dec_ok T s' /\ reads s.1 s'.1) (fun s' => pkt_fine T s'.2).
Proof.
  intros Hbody. induction fuel as [|fuel IH]; intros s Hs Hf H0; [lia|]. cbn [while_ptr].
  do 2 wp_step. wp_step; [wp_step; split; [done|apply reads_refl, Hs]|].
  wp_step. eapply wp_mono; [by apply Hbody| |done]. intros s1 [] (Hs1&Hr1&Hp1).
  eapply wp_mono; [apply IH; [done|lia|lia]| |done]. intros s2 [] [Hs2 Hr2].
  split; [done|]. by eapply reads_trans.
Qed.

Lemma decode_opt_decodes T ttl rr_len : DNS_RRS_OPT ∈ T -> decodes T (_dns_decode_opt ttl rr_len).
Proof.
  intros HT s Hs. unfold _dns_decode_opt. cbv zeta. wp_step. wp_step; [|apply Hs].
  wp_step; [wp_step; split; [done|apply reads_refl, Hs]|]. do 2 wp_step.
  apply while_ptr_decodes; [intros; by apply decode_opt_one_reads|done|lia|lia].
Qed.

(** ** SVCB *)

Definition svc_ok (T : list dns_rr_type) (s : svc_state) : Prop :=
  rd_ok s.1.1 /\ exists rs q, nested_ok (DNS_RRS_AN, q) rs (s.1.2, s.2) /\ counted T s.1.2 rs.

Lemma svc_ok_fine T s : svc_ok T s -> pkt_fine T s.1.2.
Proof. intros (_&rs&q&(?&_)&?). by exists rs. Qed.

Lemma wp_svc_ctx {A} (m : M dns_context A) s (Q : svc_state -> A -> Prop) (E : svc_state -> Prop) :
  wp m s.1.1 (fun c a => Q ((c, s.1.2), s.2) a) (fun c => E ((c, s.1.2), s.2)) -> wp (svc_ctx m) s Q E.
Proof. intros Hm. unfold svc_ctx. by wp_step. Qed.

(** Steps on the nested record whose return code is ignored. *)
Lemma svc_try_nested T m s (Q : svc_state -> option unit -> Prop) E rs q :
  rd_ok s.1.1 -> counted T s.1.2 rs ->
  wp m (s.1.2, s.2) (fun t _ => nested_step (DNS_RRS_AN, q) rs (s.1.2, s.2) t) (nested_step (DNS_RRS_AN, q) rs (s.1.2, s.2)) ->
  (forall p n o, svc_ok T ((s.1.1, p), n) -> Q ((s.1.1, p), n) o) ->
  wp (try (svc_nested m)) s Q E.
Proof.
  intros Hc Hn Hm HQ. apply wp_try. unfold svc_nested. wp_step.
  assert (forall t, nested_step (DNS_RRS_AN, q) rs (s.1.2, s.2) t -> svc_ok T (s.1.1, t.1, t.2)) as Hok.
  { intros [p n] [Hnest (Hrep&_&Hsc)]. split; [done|]. exists rs, q. split; [done|].
    destruct Hn as [Hn ?]. split; [|done]. intros t Ht. cbn in Hsc |- *. rewrite Hsc. by apply Hn. }
  eapply wp_mono; [exact Hm|intros t [] Ht|intros t Ht]; by apply HQ, Hok.
Qed.

Lemma svcparam_one_reads T s : svc_ok T s ->
  wp _dns_decode_svcparam_one s
    (fun s' _ => svc_ok T s' /\ reads s.1.1 s'.1.1 /\ c_ptr s.1.1 + 4 <= c_ptr s'.1.1) (fun s' => pkt_fine T s'.1.2).
Proof.
  intros Hs. pose proof (svc_ok_fine _ _ Hs) as Hp. destruct Hs as (Hc&rs&q&Hn&Hct).
  destruct s as [[c p] n]. cbn [fst snd] in *.
  unfold _dns_decode_svcparam_one. wp_step. apply wp_svc_ctx, wp_left_len. do 2 wp_step; [|done].
  cbn [fst snd] in *. wp_step. apply wp_svc_ctx. cbn [fst snd]. apply wp_rd_short; [by rd_side..|]. intros key Hkey.
  wp_step. apply wp_svc_ctx. cbn [fst snd]. apply wp_rd_short; [by rd_side..|]. intros vlen Hvlen.
  wp_step. apply wp_svc_ctx, wp_left_len. cbn [fst snd]. do 2 wp_step; [|done].
  set (c1 := set_ptr _ (set_ptr _ _)) in *.
  assert (reads c c1) as Hr1 by (unfold c1 in *; rd_side).
  assert (rd_ok c1) as Hok1 by (by eapply reads_ok).
  assert (c_ptr c1 = c_ptr c + 4) as Hp1 by (unfold c1; cproj; lia).
  assert (forall p2 n2, svc_ok T (c1, p2, n2) -> wp (svc_ctx (add_ptr vlen)) (c1, p2, n2)
    (fun s' _ => svc_ok T s' /\ reads c s'.1.1 /\ c_ptr c + 4 <= c_ptr s'.1.1) (fun s' => pkt_fine T s'.1.2)) as Hfin.
  { intros p2 n2 (_&rs'&q'&?&?). apply wp_svc_ctx, wp_add_ptr. cbn [fst snd].
    assert (reads c1 (set_ptr (c_ptr c1 + vlen) c1)) as Hr2 by (apply reads_ptr; lia).
    split_and!; [|by eapply reads_trans|cproj; lia]. split; [by eapply reads_ok|]. by exists rs', q'. }
  assert (svc_ok T (c1, p, n)) as Hok.
  { split; [done|]. by exists rs, q. }
  wp_step. wp_step; [|wp_step; by apply Hfin].
  do 2 wp_step. wp_step. apply wp_access. destruct Hok1 as [(?&?&?) ?]. unfold _dns_left_len in *.
  destruct (rd_bytes_ex (c_data c1) (c_ptr c1) vlen) as [bs Hbs]; [lia..|].
  exists bs. split; [done|]. cbv beta. wp_step.
  apply (svc_try_nested T _ _ _ _ rs q); [by destruct Hok|done| |].
  - apply SVCB_add_raw_step; [done|]. by eapply rd_bytes_byte.
  - cbn [fst snd]. intros p2 n2 o Ho. wp_step. by apply Hfin.
Qed.

Lemma while_svc_reads T stop : forall fuel s,
  svc_ok T s -> stop - c_ptr s.1.1 < Z.of_nat fuel -> (0 < fuel)%nat ->
  wp (while_svc fuel stop) s (fun s' _ => svc_ok T s' /\ reads s.1.1 s'.1.1) (fun s' => pkt_fine T s'.1.2).
Proof.
  induction fuel as [|fuel IH]; intros [[c p] n] Hs Hf H0; [lia|]. cbn [while_svc fst snd] in *.
  do 2 wp_step. wp_step; [wp_step; split; [done|apply reads_refl, Hs]|].
  wp_step. eapply wp_mono; [by apply svcparam_one_reads| |done]. intros [[c1 p1] n1] [] (Hs1&Hr1&Hp1). cbn [fst snd] in *.
  eapply wp_mono; [apply IH; [done|cbn [fst]; lia|lia]| |done]. intros s2 [] [Hs2 Hr2].
  split; [done|]. by eapply reads_trans.
Qed.

(** Ending the nested record, the return code ignored. *)
Lemma svc_try_end T s (Q : svc_state -> option unit -> Prop) E :
  DNS_RRS_AN ∈ T -> svc_ok T s -> (forall p n o, pkt_fine T p -> Q ((s.1.1, p), n) o) ->
  wp (try (svc_nested dns_add_SVCB_end)) s Q E.
Proof.
  intros HT (Hc&rs&q&Hn&Hct) HQ. apply wp_try. unfold svc_nested. wp_step. unfold dns_add_SVCB_end.
  eapply wp_mono; [by apply (nested_end_spec _ (DNS_RRS_AN, q) rs)| |]; cbn [fst snd].
  - intros [p n] [] [Hk|[pl Ha]]; apply HQ; [by eapply kept_fine|by eapply added_fine].
  - intros [p n] Hk. apply HQ. by eapply kept_fine.
Qed.

Lemma decode_SVCB_decodes T domain qtype ttl rr_len :
  DNS_RRS_AN ∈ T -> a_name domain -> decodes T (_dns_decode_SVCB_HTTPS domain qtype ttl rr_len).
Proof.
  intros HT Hd s Hs. pose proof Hs as [Hc Hp]. unfold _dns_decode_SVCB_HTTPS. do 2 wp_step. cbv zeta.
  do 2 wp_step; [|done]. wp_step. apply wp_on_ctx, wp_left_len. do 2 wp_step; [|done].
  wp_step. apply wp_on_ctx. cbn [fst snd]. apply wp_rd_short; [by rd_side..|]. intros prio Hprio.
  wp_step. apply wp_on_ctx. cbn [fst snd].
  eapply wp_mono; [apply decode_domain_reads; by rd_side| |done]. intros c1 target [Hr1 [Ht _]].
  assert (reads s.1 c1) as Hr by (eapply reads_trans; [|exact Hr1]; rd_side).
  assert (rd_ok c1) as Hok1 by (by eapply reads_ok).
  wp_step. wp_step. destruct Hp as (rs&Hrep&Hct). cbn [fst snd].
  apply (svc_try_nested T _ _ _ _ rs qtype); [done|done| |]; cbn [fst snd].
  { apply nested_SVCB_start_step; try done; [apply Hd|apply Ht]. }
  intros p n o Hok. wp_step.
  eapply wp_mono; [apply while_svc_reads; [done| |lia]| |done].
  { cbn [fst snd]. destruct Hr as [_ Hp1]. destruct s. cbn [fst snd] in *. lia. }
  intros [[c2 p2] n2] [] [Hok2 Hr2]. wp_step. cbn [fst snd] in *.
  apply (svc_try_end T); [done..|]. cbn [fst snd]. intros p3 n3 o3 Hf3. wp_step. cbn [fst snd].
  assert (reads s.1 c2) by (by eapply reads_trans). split; [|done]. split; [by eapply reads_ok|done].
Qed.

(** ** Question, records, sections *)

Lemma decode_qd_decodes T : DNS_RRS_QD ∈ T -> decodes T _dns_decode_qd.
Proof.
  intros HT. eapply decodes_reader; [apply decode_qr_head_reads|]. intros q s ([Hd _]&_) Hs.
  by apply decodes_keeps; [apply keeps_domain|].
Qed.

Lemma keeps_meta T f :
  (forall p, p_size (f p) = p_size p /\ p_len (f p) = p_len p /\ p_addr (f p) = p_addr p /\ p_data (f p) = p_data p /\
     (forall t, sec_start t (f p) = sec_start t p) /\ (forall t, sec_count t (f p) = sec_count t p)) ->
  keeps T (modify f).
Proof. intros Hf p Hp. wp_step. destruct (Hf p) as (?&?&?&?&?&?). eapply pkt_fine_meta; eauto. Qed.

Lemma decodes_bind T m k : decodes T m -> decodes T k -> decodes T (bind m (fun _ => k)).
Proof.
  intros Hm Hk s Hs. wp_step. eapply wp_mono; [by apply Hm| |done]. intros s1 [] [Hs1 Hr1].
  eapply wp_mono; [by apply Hk| |done]. intros s2 [] [Hs2 Hr2]. split; [done|]. by eapply reads_trans.
Qed.

Lemma decodes_guard T (b : dec_state -> bool) k :
  decodes T k -> decodes T (bind get (fun s => bind (guard (b s)) (fun _ => k))).
Proof. intros Hk s Hs. do 2 wp_step. do 2 wp_step; [by apply Hk|apply Hs]. Qed.

Lemma decodes_ret T : decodes T (ret tt).
Proof. intros s Hs. wp_step. split; [done|apply reads_refl, Hs]. Qed.

(** A decoder followed by a test of the final state. *)
Lemma decodes_checked T m k (b : dec_state -> dec_state -> bool) :
  decodes T m -> decodes T k ->
  decodes T (bind get (fun s => bind m (fun _ => bind get (fun s' => bind (guard (b s s')) (fun _ => k))))).
Proof.
  intros Hm Hk s Hs. do 2 wp_step. apply (decodes_bind T); [done| |done]. by apply decodes_guard.
Qed.

Lemma decodes_last T m (b : dec_state -> dec_state -> bool) :
  decodes T m -> decodes T (bind get (fun s => bind m (fun _ => bind get (fun s' => guard (b s s'))))).
Proof.
  intros Hm s Hs. do 2 wp_step. wp_step. eapply wp_mono; [by apply Hm| |done]. intros s1 [] [Hs1 Hr1].
  do 2 wp_step. wp_step; [done|apply Hs1].
Qed.

Lemma decode_rdata_decodes T type h :
  DNS_RRS_OPT ∈ T -> DNS_RRS_AN ∈ T -> type ∈ T -> type <> DNS_RRS_END -> a_name (q_domain (r_qr h)) ->
  decodes T (_dns_decode_rdata type h).
Proof.
  intros HO HA HT Ht Hd. pose proof Hd as [Hdb _]. unfold _dns_decode_rdata. cbv zeta.
  repeat match goal with |- decodes _ (if ?b then _ else _) => destruct b end;
    try (eapply decodes_reader; [apply decode_domain_reads|]; intros nm s [[Hnm _] _] Hs;
         apply decodes_keeps; [|done]; by apply keeps_RAW; [done|done|done|apply cname_raw_byte]).
  - eapply decodes_reader; [apply decode_raw_reads|]. intros bs s [Hb Hl] Hs.
    apply decodes_keeps; [|done]. eapply keeps_access; [by apply rd_bytes_all|]. by apply keeps_RAW.
  - eapply decodes_reader; [apply decode_SOA_reads|]. intros soa s [[? _] [? _]] Hs.
    apply decodes_keeps; [|done]. apply keeps_RAW; try done. by apply soa_raw_byte.
  - eapply decodes_reader; [apply decode_raw_reads|]. intros bs s [Hb Hl] Hs.
    apply decodes_keeps; [|done]. eapply keeps_access; [by apply rd_bytes_all|]. by apply keeps_RAW.
  - eapply decodes_reader; [apply decode_SRV_reads|]. intros [[[? ?] ?] tg] s [Htg _] Hs.
    apply decodes_keeps; [|done]. apply keeps_guard, keeps_RAW; try done. by apply srv_raw_byte.
  - apply (decodes_checked T); [by apply decode_opt_decodes|].
    apply decodes_bind; apply decodes_keeps, keeps_meta; by intros [].
  - apply (decodes_last T). by apply decode_SVCB_decodes.
  - intros s Hs. wp_step. apply wp_on_ctx, wp_left_len. wp_step. wp_step; [|apply Hs].
    replace (s.1, s.2) with s by (by destruct s). revert s Hs H.
    intros s Hs _. revert s Hs. eapply decodes_reader; [apply decode_raw_reads|]. intros bs s [Hb Hl] Hs.
    apply decodes_keeps; [|done]. by apply keeps_RAW.
Qed.

Lemma decode_an_decodes T type :
  DNS_RRS_OPT ∈ T -> DNS_RRS_AN ∈ T -> type ∈ T -> type <> DNS_RRS_END -> decodes T (_dns_decode_an type).
Proof.
  intros HO HA HT Ht. eapply decodes_reader; [apply decode_rr_head_reads|]. intros h s (Hd&_) Hs.
  wp_step. wp_step; [|apply Hs]. apply (decodes_last T); [|done]. by apply decode_rdata_decodes.
Qed.

Lemma times_decodes T n m : decodes T m -> decodes T (times n m).
Proof. intros Hm. induction n as [|n IH]; cbn [times]; [apply decodes_ret|by apply decodes_bind]. Qed.

(** One section: its count is reset and then counts the records added. *)
Lemma decode_section_spec T t body s (Q : dec_state -> unit -> Prop) (E : dec_state -> Prop) :
  t ∉ T -> t <> DNS_RRS_END -> decodes (t :: T) body -> dec_ok T s ->
  (forall s', dec_ok (t :: T) s' -> reads s.1 s'.1 -> Q s' tt) ->
  (forall s', pkt_fine (t :: T) s'.2 -> E s') ->
  wp (decode_section t body) s Q E.
Proof.
  intros Hnew Ht Hbody [Hc (rs&Hrep&Hn&Ha)] HQ HE. unfold decode_section. do 2 wp_step.
  destruct (sec_count t s.2) as [count|] eqn:Ec; [|by destruct t]. wp_step. apply wp_on_pkt. wp_step.
  destruct (set_count_meta t 0 s.2) as ((Hsz&Haddr&_)&Hd&Hlen&_).
  eapply wp_mono; [apply (times_decodes (t :: T)); [done|]| |exact HE].
  - split; [done|]. cbn [snd]. exists rs. destruct Hrep as (Hok&?&?&Hst). split.
    + unfold pkt_rep, pkt_ok. rewrite Hsz, Haddr, Hd, Hlen. split_and!; try apply Hok; try done.
      intros t' Ht'. rewrite sec_start_set_count. auto.
    + split; [|eapply Forall_impl; [|exact Ha]; intros r Hr; by right].
      intros t' Ht'. rewrite sec_count_set_count by done. case_decide as Heq; [|apply Hn; apply elem_of_cons in Ht' as [->|]; done].
      subst t'. f_equal. symmetry. unfold sec_records, Zlen.
      replace (filter _ rs) with (@nil arec); [done|]. symmetry. clear -Ha Hnew.
      induction Ha as [|r rs Hr Ha IH]; [done|]. rewrite filter_cons. case_decide; [subst; done|done].
  - intros s' [] [Hs' Hr']. by apply HQ.
Qed.

Definition all_sections : list dns_rr_type := [DNS_RRS_NR; DNS_RRS_NS; DNS_RRS_AN; DNS_RRS_QD; DNS_RRS_OPT].

Ltac in_list := repeat (first [apply list_elem_of_here | apply list_elem_of_further]).
Ltac not_in_list := by apply (bool_decide_unpack _).

Lemma decode_body_spec s :
  dec_ok [DNS_RRS_OPT] s ->
  wp _dns_decode_body s (fun s' _ => dec_ok all_sections s' /\ reads s.1 s'.1)
    (fun s' => exists T, pkt_fine T s'.2).
Proof.
  intros Hs. unfold _dns_decode_body.
  wp_step. eapply (decode_section_spec [DNS_RRS_OPT] DNS_RRS_QD); [not_in_list|done|apply decode_qd_decodes; in_list|done| |eauto].
  intros s1 Hs1 Hr1.
  wp_step. eapply (decode_section_spec [DNS_RRS_QD; DNS_RRS_OPT] DNS_RRS_AN); [not_in_list|done|apply decode_an_decodes; [in_list..|done]|done| |eauto].
  intros s2 Hs2 Hr2.
  wp_step. eapply (decode_section_spec [DNS_RRS_AN; DNS_RRS_QD; DNS_RRS_OPT] DNS_RRS_NS); [not_in_list|done|apply decode_an_decodes; [in_list..|done]|done| |eauto].
  intros s3 Hs3 Hr3.
  eapply (decode_section_spec [DNS_RRS_NS; DNS_RRS_AN; DNS_RRS_QD; DNS_RRS_OPT] DNS_RRS_NR); [not_in_list|done|apply decode_an_decodes; [in_list..|done]|done| |eauto].
  intros s4 Hs4 Hr4. split; [done|]. by do 3 (eapply reads_trans; [|eassumption]).
Qed.

(** ** Packets *)

Lemma packet_init_rep addr size head p :
  dns_packet_init addr size head = Some p -> size <= 65535 -> 0 <= addr < 2 ^ 64 ->
  pkt_rep p [] /\ p_size p = size /\ p_addr p = addr /\ p_namedict p = [] /\
  forall t, t <> DNS_RRS_END -> sec_count t p = Some 0.
Proof.
  unfold dns_packet_init. destruct (Z.ltb_spec size sizeof_dns_packet); [done|]. destruct head.
  intros [= <-] Hs Ha. unfold sizeof_dns_packet in *. split_and!; [|done..|by intros []].
  unfold pkt_rep, pkt_ok, sizeof_dns_packet. cbn. split_and!; try done; try lia.
  - unfold Zlen. rewrite length_replicate. lia.
  - apply Forall_replicate. done.
  - by intros [].
Qed.

Lemma decode_head_reads : reader _dns_decode_head (fun c _ => 12 <= c_ptr c).
Proof.
  intros c Hc. unfold _dns_decode_head. do 2 rd_step. do 2 rd_step; [|done]. do 12 rd_step. rd_step.
  split; [by rd_side|]. cproj. destruct Hc as [(?&_) _]. lia.
Qed.

Lemma wire_context_ok data size : Forall is_byte data -> 0 <= size <= Zlen data -> rd_ok (wire_context data size).
Proof. intros Hb Hs. unfold rd_ok, ctx_wf, wire_context. cproj. split_and!; done || lia. Qed.

Lemma set_head_spec s :
  dec_ok [DNS_RRS_OPT] s ->
  wp set_head_m s (fun s' _ => dec_ok [DNS_RRS_OPT] s' /\ reads s.1 s'.1 /\ 12 <= c_ptr s'.1)
    (fun s' => pkt_fine [DNS_RRS_OPT] s'.2).
Proof.
  intros [Hc Hp]. unfold set_head_m. wp_step. apply wp_on_ctx.
  eapply wp_mono; [by apply decode_head_reads| |done]. intros c h [Hr H12].
  apply wp_on_pkt. wp_step. cbn [fst snd]. split_and!; [|done|done]. split; [by eapply reads_ok|].
  apply (pkt_fine_meta _ s.2); try done. intros t Ht%list_elem_of_singleton. by subst t.
Qed.

(** C5: decoding is safe on every input.  Whatever bytes a message holds,
    [dns_decode] reads only inside the message, writes only inside the packet
    and terminates.  Whether it accepts the message or not, the packet's record
    lists are intact; if it accepts, the count of every section is the number
    of its records, at least the header has been read, and [packet->size] is
    set from the number of bytes read. *)
Theorem dns_decode_safe addr maxsize data size :
  Forall is_byte data -> 0 <= size <= Zlen data -> maxsize <= 65535 -> 0 <= addr < 2 ^ 64 ->
  match dns_decode addr maxsize data size with
  | Ok (c, p') _ => exists p rs, p' = set_size (c_ptr c + sizeof_dns_packet) p /\ pkt_rep p rs /\
      (forall t, t <> DNS_RRS_END -> sec_count t p = Some (Zlen (sec_records t rs))) /\
      12 <= c_ptr c <= size
  | Fail (_, p) => maxsize < sizeof_dns_packet \/ exists rs, pkt_rep p rs
  | UB | Diverged => False
  end.
Proof.
  intros Hb Hs Hm Ha. unfold dns_decode.
  destruct (dns_packet_init addr maxsize zero_head) as [p0|] eqn:Ei; cycle 1.
  { left. unfold dns_packet_init in Ei. destruct (Z.ltb_spec maxsize sizeof_dns_packet); done. }
  destruct (packet_init_rep _ _ _ _ Ei Hm Ha) as (Hrep&_&_&_&Hc0).
  assert (dec_ok [DNS_RRS_OPT] (wire_context data size, p0)) as Hok.
  { split; [by apply wire_context_ok|]. exists []. split; [done|]. split; [|done].
    intros t Ht%list_elem_of_singleton. subst t. by apply Hc0. }
  set (s0 := (wire_context data size, p0)) in *.
  assert (wp (set_head_m ;; _dns_decode_body ;; set_size_m) s0
    (fun s' _ => exists p, s'.2 = set_size (c_ptr s'.1 + sizeof_dns_packet) p /\ pkt_fine all_sections p /\
       12 <= c_ptr s'.1 <= size) (fun s' => exists T, pkt_fine T s'.2)) as H.
  { wp_step. eapply wp_mono; [by apply set_head_spec| |intros s' Hf; by exists [DNS_RRS_OPT]]. intros s1 [] (Hs1&Hr1&H12).
    wp_step. eapply wp_mono; [by apply decode_body_spec| |done]. intros s2 [] ([_ Hf]&Hr2).
    unfold set_size_m. do 2 wp_step. apply wp_on_pkt. wp_step. exists s2.2. cbn [fst snd].
    split_and!; [done..| |]; destruct Hr1 as [(_&_&_&Hm1) ?], Hr2 as [(_&_&_&Hm2) ?]; cbn in *; lia. }
  unfold wp in H. destruct (bind set_head_m _ s0) as [[c p'] []|[c p]| |]; [| |done|done].
  - cbn [fst snd] in H. destruct H as (p&->&(rs&Hr&Hct&_)&?). exists p, rs. split_and!; try done; [|lia..].
    intros t Ht. apply Hct. unfold all_sections. destruct t; in_list. done.
  - right. destruct H as (T&rs&?&_). eauto.
Qed.

(** A response with a question and a compressed answer. *)
Definition example_message : list Z :=
  [0; 1; 129; 128; 0; 1; 0; 1; 0; 0; 0; 0; 1; 97; 0; 0; 1; 0; 1; 192; 12; 0; 1; 0; 1; 0; 0; 0; 60; 0; 4; 10; 0; 0; 1].

Lemma dns_decode_safe_witness :
  Zlen example_message = 35 /\
  match dns_decode 4096 1024 example_message 35 with
  | Ok (c, p') _ => exists p rs, p' = set_size (c_ptr c + sizeof_dns_packet) p /\ pkt_rep p rs /\
      (forall t, t <> DNS_RRS_END -> sec_count t p = Some (Zlen (sec_records t rs))) /\
      12 <= c_ptr c <= 35
  | Fail (_, p) => 1024 < sizeof_dns_packet \/ exists rs, pkt_rep p rs
  | UB | Diverged => False
  end.
Proof.
  split; [reflexivity|].
  apply (dns_decode_safe 4096 1024 example_message 35); [repeat constructor; done|vm_compute; split; discriminate|lia|lia].
Defined.
