(* ===== verification/DnsStore.v ===== *)
(** * The contract of the packet store (src/dns.c)

    From [dns_packet_init] on: the records a client adds are the records it
    reads. *)

From Stdlib Require Import ZArith Lia.
From stdpp Require Import base list numbers option.
From S2P Require Import Prelude DnsTypes DnsName DnsNameRt DnsRrs DnsRrsSpec DnsRecord DnsAddSpec DnsView DnsNestedSpec DnsDecode DnsDecodeSpec.

Lemma packet_init_view U addr size head p :
  dns_packet_init addr size head = Some p -> size <= 65535 -> 0 <= addr < 2 ^ 64 -> pkt_view all_counted U p [].
Proof.
  intros Hi Hs Ha. destruct (packet_init_rep _ _ _ _ Hi Hs Ha) as (Hrep&_&_&Hd&Hc).
  exists []. split_and!; [done|done|by rewrite Hd|done].
Qed.

Lemma packet_init_len addr size head p : dns_packet_init addr size head = Some p -> p_len p = 0 /\ p_size p = size.
Proof.
  unfold dns_packet_init. destruct (size <? sizeof_dns_packet); [done|]. destruct head. by intros [= <-].
Qed.

(** C2: the packet store keeps its contract.  Records (questions and resource
    records) added one after another to a fresh packet are read back, section
    by section and in the order they were added, with the name, type, class,
    ttl and data they were added with, by a client that walks the section with
    [dns_get_rrs_start]/[dns_get_rrs_next] and reads each record with
    [dns_get_domain]/[_dns_get_RAW]; compression of the names, the links
    threaded through the packet and the rewriting of these links are
    invisible.  The names are labels of 1 to 191 bytes without a zero byte or dot, in a
    text of at most 254 bytes, the packet has at most 16 KiB, and no two names, nor the
    names they end in, have the same dictionary hash ([hash_faithful]): otherwise a
    record is read back with the name of another one ([dict_hash_collision]). *)
Theorem packet_store_correct U addr size head p0 vs p :
  hash_faithful U -> dns_packet_init addr size head = Some p0 -> size <= 16384 -> 0 <= addr < 2 ^ 64 ->
  Forall (addable U) vs -> add_all vs p0 = Ok p tt ->
  forall t, t <> DNS_RRS_END ->
  exists hs, section_rrs p t = Some hs /\ Forall2 (reads_as p) (filter (fun v => v_sec v = t) vs) hs.
Proof.
  intros HU Hi Hsz Ha Hvs Hok t Ht. destruct (packet_init_len _ _ _ _ Hi) as [_ Hs0].
  pose proof (packet_init_view U _ _ _ _ Hi ltac:(lia) Ha) as Hv.
  pose proof (add_all_view all_counted U HU vs p0 [] Hv ltac:(lia) Hvs) as H.
  pose proof (wp_ok_inv _ _ _ _ _ _ H Hok) as Hp. eapply section_view; [exact Hp|done|done|].
  eapply Forall_impl; [|exact Hvs]. by intros v (_&_&_&?&_).
Qed.

(** C3: adding succeeds when there is room: if the uncompressed records and
    their headers fit the packet, every addition succeeds (and none of them is
    undefined or runs forever). *)
Theorem packet_store_room U addr size head p0 vs :
  hash_faithful U -> dns_packet_init addr size head = Some p0 -> size <= 16384 -> 0 <= addr < 2 ^ 64 ->
  Forall (addable U) vs -> rooms vs <= size - sizeof_dns_packet ->
  exists p, add_all vs p0 = Ok p tt.
Proof.
  intros HU Hi Hsz Ha Hvs Hroom. destruct (packet_init_len _ _ _ _ Hi) as [Hl Hs0].
  pose proof (packet_init_view U _ _ _ _ Hi ltac:(lia) Ha) as Hv.
  pose proof (add_all_view all_counted U HU vs p0 [] Hv ltac:(lia) Hvs) as H. unfold wp in H.
  destruct (add_all vs p0) as [p []|?| |]; try done; [eauto|lia].
Qed.

(** C4: a record is added whole or not at all.  Whatever the name and the data
    (hash collisions included), [_dns_add_RAW] on an intact packet is free of
    undefined behaviour; it appends one record or, when it fails, leaves the
    records, their order and the counts as they were. *)
Theorem add_RAW_atomic t ty domain ttl raw p rs :
  pkt_rep p rs -> t <> DNS_RRS_END -> Forall is_byte domain -> Forall is_byte raw ->
  match _dns_add_RAW t ty domain ttl raw p with
  | Ok p' _ => exists pl, pkt_rep p' (rs ++ [mk_arec t (s32 ty) pl]) /\ bump t p p'
  | Fail p' => pkt_rep p' rs /\ same_counts p p'
  | UB | Diverged => False
  end.
Proof.
  intros Hrep Ht Hd Hr. pose proof (add_RAW_safe t ty domain ttl raw p rs Hrep Ht Hd Hr) as H. unfold wp in H.
  destruct (_dns_add_RAW t ty domain ttl raw p); try done; [destruct H as (pl&?&_&?); eauto|].
  by destruct H as (?&_&?).
Qed.

(** ** Witnesses *)

(** The names of the examples: "a" and the names without labels. *)
Definition only_a (s : list Z) : Prop := s = [97].

Lemma only_a_faithful : hash_faithful only_a.
Proof.
  split; [by intros a b -> ->|]. intros l ls Hls H. unfold only_a in *. exfalso.
  rewrite join_cons in H by done. destruct l as [|x [|y l]]; [done|done|done].
Qed.

Definition example_rrs : list rr :=
  [mk_rr DNS_RRS_QD DNS_T_A [[97]] (Question DNS_C_IN);
   mk_rr DNS_RRS_AN DNS_T_A [[97]] (Data 60 [10; 0; 0; 1]);
   mk_rr DNS_RRS_AN DNS_T_A [[97]] (Data 60 [10; 0; 0; 2])].

Lemma example_addable : Forall (addable only_a) example_rrs.
Proof.
  assert (labels_ok [[97]]) as Hl by (repeat constructor; done).
  repeat constructor; try done.
Qed.

Lemma packet_store_correct_witness :
  exists p0 p, dns_packet_init 4096 1024 zero_head = Some p0 /\ add_all example_rrs p0 = Ok p tt /\
  forall t, t <> DNS_RRS_END ->
  exists hs, section_rrs p t = Some hs /\ Forall2 (reads_as p) (filter (fun v => v_sec v = t) example_rrs) hs.
Proof.
  eexists _, _. split; [vm_compute; reflexivity|]. split; [vm_compute; reflexivity|].
  eapply (packet_store_correct only_a 4096 1024 zero_head); [apply only_a_faithful|vm_compute; reflexivity|lia|lia|
    apply example_addable|vm_compute; reflexivity].
Defined.

Lemma packet_store_room_witness :
  exists p0, dns_packet_init 4096 1024 zero_head = Some p0 /\ exists p, add_all example_rrs p0 = Ok p tt.
Proof.
  eexists. split; [vm_compute; reflexivity|].
  eapply (packet_store_room only_a 4096 1024 zero_head); [apply only_a_faithful|vm_compute; reflexivity|lia|lia|
    apply example_addable|vm_compute; discriminate].
Defined.

(** A packet that is too small: the addition fails and keeps the question. *)
Definition small_packet : option dns_packet :=
  p ← dns_packet_init 4096 190 zero_head;
  match dns_add_domain [97] DNS_T_A DNS_C_IN p with Ok p' _ => Some p' | _ => None end.

Lemma add_RAW_atomic_witness :
  exists p rs, small_packet = Some p /\ pkt_rep p rs /\
  match _dns_add_RAW DNS_RRS_AN DNS_T_A [97] 60 [10; 0; 0; 1] p with
  | Ok p' _ => exists pl, pkt_rep p' (rs ++ [mk_arec DNS_RRS_AN (s32 DNS_T_A) pl]) /\ bump DNS_RRS_AN p p'
  | Fail p' => pkt_rep p' rs /\ same_counts p p'
  | UB | Diverged => False
  end.
Proof.
  assert (exists p rs, small_packet = Some p /\ pkt_rep p rs) as (p&rs&Hp&Hrep).
  { destruct (dns_packet_init 4096 190 zero_head) as [p0|] eqn:Hi; [|done].
    destruct (packet_init_rep _ _ _ _ Hi ltac:(lia) ltac:(lia)) as (Hrep&_).
    pose proof (add_domain_safe [97] DNS_T_A DNS_C_IN p0 [] Hrep ltac:(repeat constructor; done)) as H.
    unfold small_packet. rewrite Hi. cbn [mbind option_bind].
    assert (exists p1, dns_add_domain [97] DNS_T_A DNS_C_IN p0 = Ok p1 tt) as [p1 H1].
    { injection Hi as <-. eexists. vm_compute. reflexivity. }
    rewrite H1. pose proof (wp_ok_inv _ _ _ _ _ _ H H1) as (pl&?&_). eauto. }
  exists p, rs. split; [exact Hp|]. split; [exact Hrep|].
  apply (add_RAW_atomic DNS_RRS_AN DNS_T_A [97] 60 [10; 0; 0; 1] p rs Hrep);
    [discriminate|repeat constructor; done|repeat constructor; done].
Defined.

Lemma svcb_build_atomic_witness :
  exists p, dns_packet_init 4096 1024 zero_head = Some p /\
  match build_svcb DNS_RRS_AN DNS_T_HTTPS [97] 60 1 [] [(DNS_HTTPS_T_ALPN, [2; 104; 50])] (p, mk_rr_nested 0 0 None None 0 DNS_RRS_AN 0) with
  | Ok (p', _) _ => kept p [] p' \/ exists pl, added p [] (mk_arec DNS_RRS_AN (s32 DNS_T_HTTPS) pl) p'
  | Fail (p', _) => kept p [] p'
  | UB | Diverged => False
  end.
Proof.
  eexists. split; [vm_compute; reflexivity|].
  apply (svcb_build_atomic DNS_RRS_AN DNS_T_HTTPS [97] 60 1 [] [(DNS_HTTPS_T_ALPN, [2; 104; 50])]);
    [|discriminate|repeat constructor; done|constructor|repeat constructor; done].
  by apply (packet_init_rep 4096 1024 zero_head).
Defined.
