(* ===== verification/DnsUpdate.v ===== *)
(** * Patching a received message in place: [dns_packet_update] (src/dns.c)

    A cached or forwarded message gets a new id, new TTLs and the letter case
    of the query name written into the names that equal it.

    The safety theorem covers callers that pass no query name.  With a query
    name the names of the message are overwritten while they are being
    followed; [DnsFindings] has a message on which this leaves the buffer. *)

From Stdlib Require Import ZArith Lia.
From stdpp Require Import base list numbers option.
From S2P Require Import Prelude DnsTypes DnsName DnsRrs DnsRrsSpec DnsRecord DnsAddSpec DnsNestedSpec DnsDecode DnsDecodeSpec.

(** ** Definitions *)

(** [struct dns_update_param]; [up_query_domain] is the buffer the pointer
    [query_domain] points to (a NUL byte ends the string), [None] for NULL. *)
Record dns_update_param := mk_update_param {
  up_id : Z; up_ip_ttl : Z; up_cname_ttl : Z; up_query_domain : option (list Z) }.

(** [tolower] in the C locale, [strncasecmp(a, b, n) == 0] on C strings. *)
Definition tolower (b : Z) : Z := if (65 <=? b) && (b <=? 90) then b + 32 else b.

Definition strncasecmp_eq (a b : list Z) (n : nat) : bool :=
  bool_decide (tolower <$> take n (a ++ [0]) = tolower <$> take n (b ++ [0])).

(** The [while (1)] loop of [_dns_update_domain]: [buf] is the buffer that
    holds [domain], [domain_len] its length. *)
Fixpoint update_domain_loop (fuel : nat) (buf : list Z) (domain_len ptr ptr_jump output_len processed_len : Z)
    : M dns_context unit :=
  match fuel with
  | O => diverge
  | S fuel =>
    c <- get ;;
    if (c_maxsize c <=? ptr) || (ptr <? 0) || (32 <? ptr_jump) || (domain_len + 1 <? processed_len) then fail
    else
      len <- access (rd8 (c_data c) ptr) ;;
      if len =? 0 then guard (output_len =? domain_len)
      else if 192 <=? len then
        guard (negb (c_maxsize c <? ptr + 2)) ;;
        bs <- access (rd_bytes (c_data c) ptr 2) ;;
        let off := Z.land (of_be bs) 16383 in
        guard (negb (c_maxsize c <? off)) ;;
        update_domain_loop fuel buf domain_len off (ptr_jump + 1) output_len processed_len
      else
        let output_len := if 0 <? output_len then output_len + 1 else output_len in
        bs <- access (rd_bytes buf processed_len len) ;;
        write_at (ptr + 1) bs ;;
        update_domain_loop fuel buf domain_len (ptr + 1 + len) 0 (output_len + len) (processed_len + len + 1)
  end.

(** Every round ends the loop, follows one of at most 33 pointers in a row or
    moves [processed_len] on towards [domain_len]. *)
Definition update_fuel (domain_len : Z) : nat := S (Z.to_nat (34 * (domain_len + 3))).

Definition _dns_update_domain (buf : list Z) : M dns_context unit :=
  c <- get ;;
  domain <- access (cstr buf) ;;
  let domain_len := Zlen domain in
  update_domain_loop (update_fuel domain_len) buf domain_len (c_ptr c) 0 0 0.

Definition _dns_update_rr_domain (rr_start : Z) (domain : list Z) (param : dns_update_param) : M dns_context unit :=
  match up_query_domain param with
  | None => ret tt
  | Some buf =>
    query_domain <- access (cstr buf) ;;
    if negb (strncasecmp_eq domain query_domain (Z.to_nat DNS_MAX_CNAME_LEN)) then ret tt
    else
      c <- get ;;
      let old_context_ptr := c_ptr c in
      modify (set_ptr rr_start) ;;
      ok <- try (_dns_update_domain buf) ;;
      modify (set_ptr old_context_ptr) ;;
      match ok with Some _ => ret tt | None => fail end
  end.

Definition _dns_update_qd (param : dns_update_param) : M dns_context unit :=
  c <- get ;;
  let rr_start := c_ptr c in
  q <- _dns_decode_qr_head DNS_MAX_CNAME_LEN ;;
  _dns_update_rr_domain rr_start (q_domain q) param.

Definition _dns_update_an (param : dns_update_param) : M dns_context unit :=
  c <- get ;;
  let rr_start := c_ptr c in
  h <- _dns_decode_rr_head DNS_MAX_CNAME_LEN ;;
  _dns_update_rr_domain rr_start (q_domain (r_qr h)) param ;;
  c <- get ;;
  let start := c_ptr c in
  (if q_type (r_qr h) =? DNS_T_OPT then ret tt
   else if up_ip_ttl param <? 0 then ret tt
   else write_at (start - 4 - 2) (be32 (up_ip_ttl param))) ;;
  add_ptr (r_len h) ;;
  c <- get ;;
  guard (c_ptr c - start =? r_len h).

Definition _dns_update_body (head : dns_head) (param : dns_update_param) : M dns_context unit :=
  times (Z.to_nat (h_qdcount head)) (_dns_update_qd param) ;;
  times (Z.to_nat (h_ancount head)) (_dns_update_an param) ;;
  times (Z.to_nat (h_nscount head)) (_dns_update_an param) ;;
  times (Z.to_nat (h_nrcount head)) (_dns_update_an param).

Definition _dns_update_id (param : dns_update_param) : M dns_context unit := write_at 0 (be16 (up_id param)).

(** The local packet is large enough for [dns_packet_init]: the size passed is
    that of the structure. *)
Definition dns_packet_update (data : list Z) (size : Z) (param : dns_update_param) : res dns_context unit :=
  (head <- _dns_decode_head ;;
   _dns_update_id param ;;
   _dns_update_body head param) (wire_context data size).

(** ** Safety without a query name *)

(** [m] reads forward and rewrites bytes of the message in place. *)
Definition patches (m : M dns_context unit) : Prop :=
  forall c, rd_ok c -> wp m c (fun c' _ => rd_ok c' /\ c_ptr c <= c_ptr c' /\ ctx_ext (c_ptr c) (c_maxsize c) c c')
                     (fun _ => True).

Lemma patches_seq m k : patches m -> patches k -> patches (bind m (fun _ => k)).
Proof.
  intros Hm Hk c Hc. wp_step. eapply wp_mono; [by apply Hm| |done]. intros c1 [] (Hc1&?&Hx1).
  pose proof Hx1 as (_&Hmx&_). eapply wp_mono; [by apply Hk| |done].
  intros c2 [] (?&?&Hx2). rewrite Hmx in Hx2. split_and!; [done|lia|].
  eapply ctx_ext_seq; [exact Hx1|exact Hx2|lia..].
Qed.

Lemma patches_times n m : patches m -> patches (times n m).
Proof.
  intros Hm. induction n as [|n IH]; cbn [times]; [|by apply patches_seq].
  intros c Hc. wp_step. split_and!; [done|lia|]. apply ctx_ext_refl, Hc.
Qed.

Lemma reads_ext lo hi c c' : reads c c' -> rd_ok c -> ctx_ext lo hi c c'.
Proof. intros [(_&?&Hd&?) _] [(_&_&?) _]. unfold ctx_ext. rewrite Hd. split_and!; done. Qed.

Lemma update_qd_patches id ttl ctl : patches (_dns_update_qd (mk_update_param id ttl ctl None)).
Proof.
  intros c Hc. unfold _dns_update_qd. do 2 wp_step. cbv zeta. wp_step.
  eapply wp_mono; [by apply decode_qr_head_reads| |done]. intros c1 q [Hr _]. cbn. wp_step.
  split_and!; [by eapply reads_ok|destruct Hr; lia|by apply reads_ext].
Qed.

(** A record head is at least 11 bytes long: the TTL field lies in the message. *)
Lemma decode_rr_head_long size c : rd_ok c ->
  wp (_dns_decode_rr_head size) c (fun c' h => reads c c' /\ c_ptr c + 6 <= c_ptr c' /\
       0 <= r_len h <= _dns_left_len c') (fun _ => True).
Proof.
  intros Hc. unfold _dns_decode_rr_head. wp_step. eapply wp_mono; [by apply decode_qr_head_reads| |done].
  intros c1 q [Hr1 _]. assert (rd_ok c1) as Hc1 by (by eapply reads_ok).
  do 2 rd_step. do 2 rd_step; [|done]. do 2 rd_step. do 2 rd_step. do 2 rd_step; [|done].
  do 2 rd_step. do 2 rd_step; [|done]. rd_step. cbn [r_len].
  split; [eapply reads_trans; [exact Hr1|by rd_side]|].
  rewrite ?left_len_ptr in *. split; [cproj; destruct Hr1; lia|lia].
Qed.

Lemma update_an_patches id ttl ctl : patches (_dns_update_an (mk_update_param id ttl ctl None)).
Proof.
  intros c Hc. unfold _dns_update_an. do 2 wp_step. cbv zeta. wp_step.
  eapply wp_mono; [by apply decode_rr_head_long| |done]. intros c1 h (Hr1&Hp1&Hl).
  assert (rd_ok c1) as Hc1 by (by eapply reads_ok). pose proof Hc as [(?&_) _].
  pose proof Hc1 as [(?&Hm1&Hb1) _]. pose proof Hr1 as [(_&_&Hd1&Hmx1) ?].
  cbn [_dns_update_rr_domain up_query_domain up_ip_ttl]. do 2 wp_step. do 2 wp_step. wp_step.
  assert (forall c2, c_ptr c2 = c_ptr c1 -> ctx_ext (c_ptr c) (c_maxsize c) c1 c2 ->
    wp (add_ptr (r_len h) ;; c3 <- get ;; guard (c_ptr c3 - c_ptr c1 =? r_len h)) c2
      (fun c' _ => rd_ok c' /\ c_ptr c <= c_ptr c' /\ ctx_ext (c_ptr c) (c_maxsize c) c c') (fun _ => True)) as Hfin.
  { intros c2 Hp2 (Ha2&Hmx2&[Hl2 Hf2]&Hb2). wp_step. apply wp_add_ptr. do 2 wp_step. wp_step; [|done].
    unfold _dns_left_len in *. split_and!; [|cproj; lia|].
    - unfold rd_ok, ctx_wf. cproj. split_and!; try done; lia.
    - eapply ctx_ext_trans; [by apply (reads_ext (c_ptr c) (c_maxsize c) c c1)|]. by unfold ctx_ext; cproj. }
  wp_step; [wp_step; apply Hfin; [done|by apply ctx_ext_refl]|].
  wp_step; [wp_step; apply Hfin; [done|by apply ctx_ext_refl]|].
  apply wp_write_at; rewrite ?be32_len; [lia..|]. intros d Hw.
  apply Hfin; [done|]. eapply ctx_ext_write; eauto with cdb; rewrite ?be32_len; lia.
Qed.

Lemma update_body_patches head id ttl ctl : patches (_dns_update_body head (mk_update_param id ttl ctl None)).
Proof.
  unfold _dns_update_body. repeat apply patches_seq; apply patches_times;
    (apply update_qd_patches || apply update_an_patches).
Qed.

(** C6: updating without a query name is safe on every input and touches only
    what it should.  [dns_packet_update] terminates and stays inside the first
    [size] bytes of the message; when it succeeds the message has the new id,
    the rest of its header is unchanged, and so is everything behind it. *)
Theorem dns_packet_update_safe data size id ttl ctl :
  Forall is_byte data -> 0 <= size <= Zlen data ->
  match dns_packet_update data size (mk_update_param id ttl ctl None) with
  | Ok c _ =>
      Zlen (c_data c) = Zlen data /\ rd_bytes (c_data c) 0 2 = Some (be16 id) /\
      rd_bytes (c_data c) 2 10 = rd_bytes data 2 10 /\
      (forall i, size <= i -> rd8 (c_data c) i = rd8 data i) /\ c_ptr c <= size
  | Fail _ => True
  | UB | Diverged => False
  end.
Proof.
  intros Hb Hs. pose proof (wire_context_ok data size Hb Hs) as Hok.
  assert (wp (head <- _dns_decode_head ;; _dns_update_id (mk_update_param id ttl ctl None) ;;
              _dns_update_body head (mk_update_param id ttl ctl None)) (wire_context data size)
    (fun c _ => exists d, wr_bytes data 0 (be16 id) = Some d /\ frame 12 size d (c_data c) /\ c_ptr c <= size /\ 12 <= size)
    (fun _ => True)) as H.
  { wp_step. eapply wp_mono; [by apply decode_head_reads| |done]. intros c1 h [Hr H12].
    pose proof Hr as [(_&_&Hd&Hm) Hp]. cbn in Hd, Hm, Hp. unfold _dns_update_id. wp_step.
    apply wp_write_at; [lia|cbn [up_id]; rewrite be16_len, Hd; lia|]. cbn [up_id]. intros d Hw.
    pose proof (wr_bytes_len _ _ _ _ Hw) as Hl. rewrite Hd in *.
    eapply wp_mono; [apply update_body_patches| |done].
    - unfold rd_ok, ctx_wf. cproj. split_and!; try lia. eapply wr_bytes_byte; [exact Hb|apply be16_byte|exact Hw].
    - intros c2 [] ([_ Hp2]&?&(_&Hm2&Hf&_)). cproj in *. exists d.
      split_and!; [done|eapply frame_widen; [exact Hf|lia|lia]|lia..]. }
  unfold wp in H. unfold dns_packet_update. destruct (bind _dns_decode_head _ _) as [c []|?| |]; try done.
  destruct H as (d&Hw&Hf&Hp&H12). pose proof (wr_bytes_len _ _ _ _ Hw) as Hl. pose proof Hf as [Hfl Hff].
  pose proof Hw as (_&?&_)%wr_bytes_Some. rewrite be16_len in *. split_and!; [lia| | | |done].
  - rewrite (frame_rd_bytes _ _ _ _ _ _ Hf) by lia. apply (rd_bytes_wr_same _ _ _ _ Hw).
  - rewrite (frame_rd_bytes _ _ _ _ _ _ Hf) by lia. apply (rd_bytes_wr_out _ _ _ _ _ _ Hw). rewrite be16_len. lia.
  - intros i Hi. rewrite Hff by lia. eapply rd8_wr_out; [exact Hw|]. rewrite be16_len. lia.
Qed.

Lemma dns_packet_update_safe_witness :
  Zlen example_message = 35 /\
  match dns_packet_update example_message 35 (mk_update_param 7 30 30 None) with
  | Ok c _ =>
      Zlen (c_data c) = Zlen example_message /\ rd_bytes (c_data c) 0 2 = Some (be16 7) /\
      rd_bytes (c_data c) 2 10 = rd_bytes example_message 2 10 /\
      (forall i, 35 <= i -> rd8 (c_data c) i = rd8 example_message i) /\ c_ptr c <= 35
  | Fail _ => True
  | UB | Diverged => False
  end.
Proof.
  split; [reflexivity|].
  apply (dns_packet_update_safe example_message 35 7 30 30); [repeat constructor; done|vm_compute; split; discriminate].
Defined.
