(* ===== verification/DnsEncode.v ===== *)
(** * From a packet to the wire: [dns_encode] (src/dns.c) *)

From Stdlib Require Import ZArith Lia.
From stdpp Require Import base list numbers option.
From S2P Require Import Prelude DnsTypes DnsName DnsRrs DnsRecord DnsDecode.

(** The message being written and the packet it comes from
    ([_dns_encode_body] updates the packet's counts). *)
Definition enc_state : Type := dns_context * dns_packet.

(** ** Header *)

Definition head_fields (head : dns_head) : Z :=
  let fields := Z.land (Z.shiftl (h_qr head) 15) QR_MASK in
  let fields := Z.lor fields (Z.land (Z.shiftl (h_opcode head) 11) OPCODE_MASK) in
  let fields := Z.lor fields (Z.land (Z.shiftl (h_aa head) 10) AA_MASK) in
  let fields := Z.lor fields (Z.land (Z.shiftl (h_tc head) 9) TC_MASK) in
  let fields := Z.lor fields (Z.land (Z.shiftl (h_rd head) 8) RD_MASK) in
  let fields := Z.lor fields (Z.land (Z.shiftl (h_ra head) 7) RA_MASK) in
  let fields := Z.lor fields (Z.land (Z.shiftl (h_z head) 6) Z_MASK) in
  let fields := Z.lor fields (Z.land (Z.shiftl (h_ad head) 5) AD_MASK) in
  let fields := Z.lor fields (Z.land (Z.shiftl (h_cd head) 4) CD_MASK) in
  Z.lor fields (Z.land (Z.shiftl (h_rcode head) 0) RCODE_MASK).

Definition _dns_encode_head (head : dns_head) : M dns_context unit :=
  l <- left_len ;;
  guard (negb (l <? 12)) ;;
  _dns_write_short (h_id head) ;;
  _dns_write_short (head_fields head) ;;
  _dns_write_short (h_qdcount head) ;;
  _dns_write_short (h_ancount head) ;;
  _dns_write_short (h_nscount head) ;;
  _dns_write_short (h_nrcount head).

Definition _dns_encode_head_count (head : dns_head) : M dns_context unit :=
  write_at 4 (be16 (h_qdcount head)) ;;
  write_at 6 (be16 (h_ancount head)) ;;
  write_at 8 (be16 (h_nscount head)) ;;
  write_at 10 (be16 (h_nrcount head)).

Definition _dns_encode_qr_head (domain : list Z) (qtype qclass : Z) : M dns_context unit :=
  _dns_encode_domain domain ;;
  l <- left_len ;;
  guard (negb (l <? 4)) ;;
  _dns_write_short qtype ;;
  _dns_write_short qclass.

(** Returns [*rr_len_ptr]. *)
Definition _dns_encode_rr_head (domain : list Z) (qtype qclass ttl rr_len : Z) : M dns_context Z :=
  _dns_encode_qr_head domain qtype qclass ;;
  l <- left_len ;;
  guard (negb (l <? 6)) ;;
  _dns_write_int ttl ;;
  c <- get ;;
  _dns_write_short rr_len ;;
  ret (c_ptr c).

(** ** Records *)

(** [_dns_get_rr_head] on a record of the packet: the head and the offset of
    the record's data ([data_context.ptr]). *)
Definition rrs_head (packet : dns_packet) (rrs : dns_rrs) : M dns_context (rr_head * Z) := fun s =>
  match _dns_get_rr_head DNS_MAX_CNAME_LEN (_dns_init_context_by_rrs packet rrs) with
  | Ok c h => Ok s (h, c_ptr c)
  | Fail _ => Fail s
  | UB => UB
  | Diverged => Diverged
  end.

Definition _dns_encode_raw (packet : dns_packet) (rrs : dns_rrs) : M dns_context unit :=
  '(h, dptr) <- rrs_head packet rrs ;;
  _dns_encode_rr_head (q_domain (r_qr h)) (q_type (r_qr h)) (q_class (r_qr h)) (r_ttl h) (r_len h) ;;
  l <- left_len ;;
  guard (negb (l <? r_len h)) ;;
  raw <- access (rd_bytes (p_data packet) dptr (r_len h)) ;;
  write_mem raw.

Definition _dns_encode_CNAME (packet : dns_packet) (rrs : dns_rrs) : M dns_context unit :=
  '(h, dptr) <- rrs_head packet rrs ;;
  rr_len_ptr <- _dns_encode_rr_head (q_domain (r_qr h)) (q_type (r_qr h)) (q_class (r_qr h)) (r_ttl h) 1 ;;
  cname <- access (cstr_at (p_data packet) dptr) ;;
  ret_ <- _dns_encode_domain cname ;;
  guard (negb (rrs_len rrs <? 1 + ret_)) ;;
  write_at rr_len_ptr (be16 ret_).

(** The last five fields of an SOA record. *)
Definition write_soa_numbers (packet : dns_packet) (dptr : Z) : M dns_context unit :=
  v1 <- access (rd_bytes (p_data packet) dptr 4) ;; _dns_write_intptr v1 ;;
  v2 <- access (rd_bytes (p_data packet) (dptr + 4) 4) ;; _dns_write_intptr v2 ;;
  v3 <- access (rd_bytes (p_data packet) (dptr + 8) 4) ;; _dns_write_intptr v3 ;;
  v4 <- access (rd_bytes (p_data packet) (dptr + 12) 4) ;; _dns_write_intptr v4 ;;
  v5 <- access (rd_bytes (p_data packet) (dptr + 16) 4) ;; _dns_write_intptr v5.

Definition _dns_encode_SOA (packet : dns_packet) (rrs : dns_rrs) : M dns_context unit :=
  '(h, dptr) <- rrs_head packet rrs ;;
  rr_len_ptr <- _dns_encode_rr_head (q_domain (r_qr h)) (q_type (r_qr h)) (q_class (r_qr h)) (r_ttl h) (r_len h) ;;
  mname <- access (cstr_at (p_data packet) dptr) ;;
  len1 <- _dns_encode_domain mname ;;
  let dptr := dptr + (strnlen mname DNS_MAX_CNAME_LEN + 1) in
  rname <- access (cstr_at (p_data packet) dptr) ;;
  len2 <- _dns_encode_domain rname ;;
  let dptr := dptr + (strnlen rname DNS_MAX_CNAME_LEN + 1) in
  let rr_len := len1 + len2 in
  guard (negb (rrs_len rrs <? rr_len)) ;;
  write_at rr_len_ptr (be16 (rr_len + 20)) ;;
  l <- left_len ;;
  guard (negb (l <? 20)) ;;
  write_soa_numbers packet dptr.

Definition _dns_encode_SRV (packet : dns_packet) (rrs : dns_rrs) : M dns_context unit :=
  '(h, dptr) <- rrs_head packet rrs ;;
  rr_len_ptr <- _dns_encode_rr_head (q_domain (r_qr h)) (q_type (r_qr h)) (q_class (r_qr h)) (r_ttl h) (r_len h) ;;
  l <- left_len ;;
  guard (negb (l <? 6)) ;;
  v1 <- access (rd_bytes (p_data packet) dptr 2) ;; _dns_write_shortptr v1 ;;
  v2 <- access (rd_bytes (p_data packet) (dptr + 2) 2) ;; _dns_write_shortptr v2 ;;
  v3 <- access (rd_bytes (p_data packet) (dptr + 4) 2) ;; _dns_write_shortptr v3 ;;
  target <- access (cstr_at (p_data packet) (dptr + 6)) ;;
  ret_ <- _dns_encode_domain target ;;
  write_at rr_len_ptr (be16 (6 + ret_)).

(** ** EDNS options *)

Definition _dns_encode_OPT (packet : dns_packet) (rrs : dns_rrs) : M dns_context unit :=
  '(h, dptr) <- rrs_head packet rrs ;;
  guard (negb (r_len h <? 4)) ;;
  l <- left_len ;;
  guard (negb (l <? r_len h)) ;;
  code <- access (of_le <$> rd_bytes (p_data packet) dptr 2) ;;
  length <- access (of_le <$> rd_bytes (p_data packet) (dptr + 2) 2) ;;
  _dns_write_short code ;;
  _dns_write_short length ;;
  l <- left_len ;;
  guard (negb (l <? length)) ;;
  let data := dptr + 4 in
  if code =? DNS_OPT_T_ECS then
    family <- access (rd_bytes (p_data packet) data 2) ;; _dns_write_shortptr family ;;
    source_prefix <- access (rd8 (p_data packet) (data + 2)) ;; _dns_write_char source_prefix ;;
    scope_prefix <- access (rd8 (p_data packet) (data + 3)) ;; _dns_write_char scope_prefix ;;
    addr <- access (rd_bytes (p_data packet) (data + 4) (length - 4)) ;;
    write_mem addr
  else
    bs <- access (rd_bytes (p_data packet) data length) ;;
    write_mem bs.

(** The sum of the options' lengths; its accumulator is the loop state. *)
Definition _dns_get_opts_data_len (packet : dns_packet) (rrs : option Z) (count : Z) : M Z unit :=
  for_rrs (Z.to_nat count) packet rrs (fun r len =>
    match _dns_get_rr_head DNS_MAX_CNAME_LEN (_dns_init_context_by_rrs packet r) with
    | Ok _ h => Ok (len + r_len h) tt
    | Fail _ => Fail len
    | UB => UB
    | Diverged => Diverged
    end).

Definition _dns_encode_opts (packet : dns_packet) (rrs : option Z) (count : Z) : M dns_context unit :=
  rr_len <- (fun s => match _dns_get_opts_data_len packet rrs count 0 with
                      | Ok len _ => Ok s len
                      | Fail _ => Fail s
                      | UB => UB
                      | Diverged => Diverged
                      end) ;;
  guard (negb (rr_len <? 0)) ;;
  let payloadsize := if p_payloadsize packet <? DNS_DEFAULT_PACKET_SIZE then DNS_DEFAULT_PACKET_SIZE
                     else p_payloadsize packet in
  _dns_encode_rr_head [] DNS_T_OPT payloadsize (p_opt_option packet) rr_len ;;
  l <- left_len ;;
  guard (negb (l <? rr_len)) ;;
  for_rrs (Z.to_nat count) packet rrs (_dns_encode_OPT packet).

(** ** SVCB and HTTPS *)

(** The [for] loop over the parameters; every round moves [param] forward
    inside the record. *)
Fixpoint encode_svcparams (fuel : nat) (packet : dns_packet) (rrs : dns_rrs) (start : Z) (param : option Z)
    : M dns_context unit :=
  match param with
  | None => ret tt
  | Some p =>
    match fuel with
    | O => diverge
    | S fuel =>
      c <- get ;;
      guard (negb ((rrs_len rrs <? c_ptr c - start) || (_dns_left_len c <=? 0))) ;;
      len <- access (svcparam_len (p_data packet) p) ;;
      guard (negb (_dns_left_len c <? len + 4)) ;;
      key <- access (svcparam_key (p_data packet) p) ;;
      _dns_write_short key ;;
      _dns_write_short len ;;
      (if svc_key_known key then
         value <- access (rd_bytes (p_data packet) (p + 4) len) ;;
         write_mem value
       else add_ptr (-4)) ;;
      next <- access (dns_svcparm_next packet rrs p) ;;
      encode_svcparams fuel packet rrs start next
    end
  end.

Definition _dns_encode_svcparam (packet : dns_packet) (rrs : dns_rrs) : M dns_context unit :=
  sv <- (fun s => match dns_svcparm_start packet rrs DNS_MAX_CNAME_LEN with
                  | Ok _ sv => Ok s (Some sv)
                  | Fail _ => Ok s None
                  | UB => UB
                  | Diverged => Diverged
                  end) ;;
  match sv with
  | None => ret tt
  | Some sv =>
    rr_len_ptr <- _dns_encode_rr_head (q_domain (r_qr (sv_head sv))) (rrs_type rrs) DNS_C_IN
                    (r_ttl (sv_head sv)) 0 ;;
    c <- get ;;
    let rr_start := c_ptr c in
    guard (negb (_dns_left_len c <? 2)) ;;
    _dns_write_short (sv_priority sv) ;;
    _dns_encode_domain (sv_target sv) ;;
    c <- get ;;
    encode_svcparams (S (length (p_data packet))) packet rrs (c_ptr c) (sv_param sv) ;;
    c <- get ;;
    guard (negb (_dns_left_len c <? 2)) ;;
    write_at rr_len_ptr (be16 (c_ptr c - rr_start))
  end.

(** ** Question, sections, packet *)

Definition _dns_encode_qd (packet : dns_packet) (rrs : dns_rrs) : M dns_context unit :=
  q <- (fun s => match _dns_get_qr_head DNS_MAX_CNAME_LEN (_dns_init_context_by_rrs packet rrs) with
                 | Ok _ q => Ok s q
                 | Fail _ => Fail s
                 | UB => UB
                 | Diverged => Diverged
                 end) ;;
  _dns_encode_qr_head (q_domain q) (q_type q) (q_class q) ;;
  match q_domain q with
  | ch :: _ =>
    if ch =? 45 then
      c <- get ;;
      let ptr := c_ptr c - 7 in
      write_at ptr ([192; 18] ++ be16 (q_type q) ++ be16 (q_class q)) ;;
      modify (set_ptr (ptr + 6))
    else ret tt
  | [] => ret tt
  end.

Definition _dns_encode_an (packet : dns_packet) (rrs : dns_rrs) : M dns_context unit :=
  let type := rrs_type rrs in
  if (type =? DNS_T_A) || (type =? DNS_T_AAAA) then _dns_encode_raw packet rrs
  else if (type =? DNS_T_CNAME) || (type =? DNS_T_PTR) then _dns_encode_CNAME packet rrs
  else if type =? DNS_T_SOA then _dns_encode_SOA packet rrs
  else if type =? DNS_T_SRV then _dns_encode_SRV packet rrs
  else if (type =? DNS_T_HTTPS) || (type =? DNS_T_SVCB) then _dns_encode_svcparam packet rrs
  else _dns_encode_raw packet rrs.

(** One section of [_dns_encode_body]. *)
Definition encode_section (type : dns_rr_type)
    (body : dns_packet -> dns_rrs -> M dns_context unit) : M enc_state unit :=
  s <- get ;;
  match dns_get_rrs_start s.2 type with
  | Some (count, rrs) =>
    on_pkt (modify (set_sec_count type count)) ;;
    on_ctx (for_rrs (Z.to_nat count) s.2 rrs (body s.2))
  | None => ret tt
  end.

Definition _dns_encode_body : M enc_state unit :=
  encode_section DNS_RRS_QD _dns_encode_qd ;;
  encode_section DNS_RRS_AN _dns_encode_an ;;
  encode_section DNS_RRS_NS _dns_encode_an ;;
  encode_section DNS_RRS_NR _dns_encode_an ;;
  s <- get ;;
  match dns_get_rrs_start s.2 DNS_RRS_OPT with
  | Some (count, rrs) =>
    if (0 <? count) || (0 <? p_payloadsize s.2) then
      on_ctx (_dns_encode_opts s.2 rrs count) ;;
      on_pkt (modify (set_sec_count DNS_RRS_NR (u16 (h_nrcount (p_head s.2) + 1))))
    else ret tt
  | None => ret tt
  end.

(** [dns_encode(data, size, packet)]: the length of the message; the final
    state holds the message and the packet. *)
Definition dns_encode (data : list Z) (size : Z) (packet : dns_packet) : res enc_state Z :=
  (on_ctx (_dns_encode_head (p_head packet)) ;;
   _dns_encode_body ;;
   s <- get ;;
   on_ctx (_dns_encode_head_count (p_head s.2)) ;;
   s <- get ;;
   ret (c_ptr s.1)) (wire_context data size, packet).

(** The message a successful [dns_encode] into a zeroed buffer of [size] bytes
    produces. *)
Definition encoded (size : Z) (packet : dns_packet) : option (list Z) :=
  match dns_encode (replicate (Z.to_nat size) 0) size packet with
  | Ok s n => Some (take (Z.to_nat n) (c_data s.1))
  | _ => None
  end.
