(* ===== verification/DnsHeadRt.v ===== *)
(** * The message header (src/dns.c): encoding and decoding are inverse *)

From Stdlib Require Import ZArith Lia.
From stdpp Require Import base list numbers option.
From S2P Require Import Prelude DnsTypes DnsName DnsRrs DnsRrsSpec DnsRecord DnsAddSpec DnsDecode DnsEncode.

(** The widths of the fields. *)
Definition head_ok (h : dns_head) : Prop :=
  0 <= h_id h < 65536 /\ 0 <= h_qr h < 2 /\ 0 <= h_opcode h < 16 /\ 0 <= h_aa h < 2 /\ 0 <= h_tc h < 2 /\
  0 <= h_rd h < 2 /\ 0 <= h_ra h < 2 /\ 0 <= h_z h < 2 /\ 0 <= h_ad h < 2 /\ 0 <= h_cd h < 2 /\
  0 <= h_rcode h < 16 /\ 0 <= h_qdcount h < 65536 /\ 0 <= h_ancount h < 65536 /\
  0 <= h_nscount h < 65536 /\ 0 <= h_nrcount h < 65536.

(** The flags word read back: every field of every value. *)
Definition flags_of (fields : Z) : list Z :=
  [field fields QR_MASK 15; field fields OPCODE_MASK 11; field fields AA_MASK 10; field fields TC_MASK 9;
   field fields RD_MASK 8; field fields RA_MASK 7; field fields Z_MASK 6; field fields AD_MASK 5;
   field fields CD_MASK 4; field fields RCODE_MASK 0].

Definition flags (h : dns_head) : list Z :=
  [h_qr h; h_opcode h; h_aa h; h_tc h; h_rd h; h_ra h; h_z h; h_ad h; h_cd h; h_rcode h].

(** A bit field: [v] of [w] bits at position [k]. *)
Lemma field_bits v w k mask : 0 <= w -> 0 <= k -> mask = Z.shiftl (Z.ones w) k ->
  forall n, 0 <= n -> Z.testbit (Z.land (Z.shiftl v k) mask) n = (k <=? n) && (n <? k + w) && Z.testbit v (n - k).
Proof.
  intros Hw Hk -> n Hn. rewrite Z.land_spec, !Z.shiftl_spec by lia.
  destruct (Z.leb_spec k n); [|rewrite !Z.testbit_neg_r by lia; done].
  destruct (Z.ltb_spec n (k + w)); [rewrite Z.ones_spec_low by lia|rewrite Z.ones_spec_high by lia].
  - by rewrite andb_true_r.
  - by rewrite andb_false_r.
Qed.

Lemma small_bits v w n : 0 <= v < 2 ^ w -> 0 <= w -> w <= n -> Z.testbit v n = false.
Proof.
  intros Hv Hw Hn. rewrite <- (Z.mod_small v (2 ^ w)) by done. apply Z.mod_pow2_bits_high. lia.
Qed.

(** Reading the field back. *)
Lemma field_spec f w k mask v :
  0 <= w -> 0 <= k -> mask = Z.shiftl (Z.ones w) k -> 0 <= v < 2 ^ w ->
  (forall n, 0 <= n < w -> Z.testbit f (n + k) = Z.testbit v n) -> field f mask k = v.
Proof.
  intros Hw Hk -> Hv Hf. apply Z.bits_inj'. intros n Hn. unfold field.
  rewrite Z.shiftr_spec, Z.land_spec, Z.shiftl_spec by lia. replace (n + k - k) with n by lia.
  destruct (decide (n < w)).
  - rewrite Z.ones_spec_low by lia. rewrite andb_true_r. apply Hf. lia.
  - rewrite Z.ones_spec_high by lia. rewrite andb_false_r. symmetry. apply (small_bits v w); lia.
Qed.

Definition bit_at (v w k n : Z) : bool := (k <=? n) && (n <? k + w) && Z.testbit v (n - k).

Lemma head_fields_bit h n : 0 <= n ->
  Z.testbit (head_fields h) n =
  bit_at (h_qr h) 1 15 n || bit_at (h_opcode h) 4 11 n || bit_at (h_aa h) 1 10 n || bit_at (h_tc h) 1 9 n ||
  bit_at (h_rd h) 1 8 n || bit_at (h_ra h) 1 7 n || bit_at (h_z h) 1 6 n || bit_at (h_ad h) 1 5 n ||
  bit_at (h_cd h) 1 4 n || bit_at (h_rcode h) 4 0 n.
Proof.
  intros Hn. unfold head_fields, bit_at. cbv zeta. rewrite !Z.lor_spec.
  rewrite (field_bits (h_qr h) 1 15), (field_bits (h_opcode h) 4 11), (field_bits (h_aa h) 1 10),
    (field_bits (h_tc h) 1 9), (field_bits (h_rd h) 1 8), (field_bits (h_ra h) 1 7), (field_bits (h_z h) 1 6),
    (field_bits (h_ad h) 1 5), (field_bits (h_cd h) 1 4), (field_bits (h_rcode h) 4 0) by (done || lia).
  done.
Qed.

Lemma bit_at_in v w k n : 0 <= n < w -> bit_at v w k (n + k) = Z.testbit v n.
Proof.
  intros Hn. unfold bit_at. destruct (Z.leb_spec k (n + k)), (Z.ltb_spec (n + k) (k + w)); try lia.
  cbn. f_equal. lia.
Qed.

Lemma bit_at_out v w k n : n < k \/ k + w <= n -> bit_at v w k n = false.
Proof. intros Hn. unfold bit_at. destruct (Z.leb_spec k n), (Z.ltb_spec n (k + w)); try done; lia. Qed.

(** One field of the word. *)
Ltac read_field w :=
  apply (field_spec _ w); [lia|lia|reflexivity|assumption|];
  intros n Hn; rewrite head_fields_bit by lia;
  repeat match goal with |- context [bit_at ?v ?w' ?k' ?m] => rewrite (bit_at_out v w' k' m) by lia end;
  rewrite ?orb_false_r, ?orb_false_l; apply bit_at_in; lia.

Lemma head_fields_nonneg h : head_ok h -> 0 <= head_fields h.
Proof.
  intros (_&?&?&?&?&?&?&?&?&?&?&_). unfold head_fields. cbv zeta.
  repeat (apply Z.lor_nonneg; split); apply Z.land_nonneg; right; done.
Qed.

Lemma head_fields_small h : head_fields h < 65536.
Proof.
  assert (head_fields h = head_fields h mod 65536) as ->; [|apply Z.mod_pos_bound; lia].
  change 65536 with (2 ^ 16). rewrite <- Z.land_ones by lia. apply Z.bits_inj'. intros n Hn.
  rewrite Z.land_spec. destruct (decide (n < 16)).
  - rewrite Z.ones_spec_low by lia. by rewrite andb_true_r.
  - rewrite Z.ones_spec_high by lia. rewrite andb_false_r, head_fields_bit by lia.
    by rewrite !bit_at_out by lia.
Qed.

Lemma flags_head h : head_ok h -> flags_of (head_fields h) = flags h.
Proof.
  intros (_&?&?&?&?&?&?&?&?&?&?&_). unfold flags_of, flags. repeat f_equal.
  1: read_field 1. 1: read_field 4. all: try read_field 1. read_field 4.
Qed.

(** A run of shorts written one after another. *)
Fixpoint write_shorts (vs : list Z) : M dns_context unit :=
  match vs with
  | [] => ret tt
  | v :: vs => _dns_write_short v ;; write_shorts vs
  end.

Definition shorts (vs : list Z) : list Z := concat (be16 <$> vs).

Lemma shorts_len vs : Zlen (shorts vs) = 2 * Zlen vs.
Proof.
  induction vs as [|v vs IH]; [done|]. unfold shorts in *. cbn [fmap list_fmap concat].
  rewrite Zlen_app, be16_len, IH, Zlen_cons. lia.
Qed.

Lemma write_shorts_spec vs : forall c (Q : dns_context -> unit -> Prop) E,
  ctx_wf c -> 2 * Zlen vs <= _dns_left_len c ->
  (forall c', writes c c' (2 * Zlen vs) -> c_namedict c' = c_namedict c ->
     rd_bytes (c_data c') (c_ptr c) (2 * Zlen vs) = Some (shorts vs) -> Q c' tt) ->
  wp (write_shorts vs) c Q E.
Proof.
  induction vs as [|v vs IH]; intros c Q E Hw Hl HQ; cbn [write_shorts].
  - wp_step. pose proof Hw as (Hp&Hm&Hb). change (2 * Zlen []) with 0 in *. unfold _dns_left_len in Hl. apply HQ; [|done|].
    + unfold writes. split_and!; try lia. by apply ctx_ext_refl.
    + apply rd_bytes_Some. change (Z.to_nat 0) with 0%nat. split_and!; try lia. by rewrite take_0.
  - rewrite Zlen_cons in *. pose proof (Zlen_nonneg vs). wp_step. apply wp_write_short; [done|lia|].
    intros c1 Hw1 Hd1 Hr1. pose proof Hw1 as ((_&Hm1&_)&_&Hp1&_). pose proof (writes_wf _ _ _ Hw1 Hw).
    apply IH; [done|unfold _dns_left_len in *; lia|]. intros c2 Hw2 Hd2 Hr2.
    pose proof (writes_trans _ _ _ _ _ Hw1 Hw2) as Hw12.
    replace (2 * (1 + Zlen vs)) with (2 + 2 * Zlen vs) in * by lia. apply HQ; [done|congruence|].
    apply rd_bytes_split; [|by rewrite <- Hp1]. by rewrite (writes_keep _ _ _ _ _ Hw2) by lia.
Qed.

Lemma encode_head_shorts h c :
  12 <= _dns_left_len c ->
  _dns_encode_head h c = write_shorts [h_id h; head_fields h; h_qdcount h; h_ancount h; h_nscount h; h_nrcount h] c.
Proof.
  intros Hl. unfold _dns_encode_head, bind at 1, left_len, bind at 1, get, ret, bind at 1, guard.
  destruct (Z.ltb_spec (_dns_left_len c) 12); [lia|]. cbn [negb write_shorts]. unfold bind, ret.
  repeat (match goal with |- context [_dns_write_short ?v ?c] => destruct (_dns_write_short v c) as [? []|?| |] end; try done).
Qed.

(** Reading a run of shorts one after another. *)
Lemma wp_read_short_known v vs c (Q : dns_context -> Z -> Prop) E :
  0 <= v < 65536 -> rd_bytes (c_data c) (c_ptr c) (2 * Zlen (v :: vs)) = Some (shorts (v :: vs)) ->
  (rd_bytes (c_data c) (c_ptr c + 2) (2 * Zlen vs) = Some (shorts vs) -> Q (set_ptr (c_ptr c + 2) c) v) ->
  wp _dns_read_short c Q E.
Proof.
  intros Hv Hr HQ. pose proof (Zlen_nonneg vs). rewrite Zlen_cons in Hr.
  pose proof (rd_bytes_sub _ _ _ _ 0 2 Hr ltac:(lia) ltac:(lia) ltac:(lia)) as R0. rewrite Z.add_0_r in R0.
  pose proof (rd_bytes_sub _ _ _ _ 2 (2 * Zlen vs) Hr ltac:(lia) ltac:(lia) ltac:(lia)) as R2.
  unfold _dns_read_short. wp_step. unfold wp, read_mem, bind, get, access, put. rewrite R0. unfold ret.
  change (take (Z.to_nat 2) (drop (Z.to_nat 0) (shorts (v :: vs)))) with (be16 v).
  rewrite of_be16, u16_small by lia. apply HQ. rewrite R2. f_equal.
  change (drop (Z.to_nat 2) (shorts (v :: vs))) with (shorts vs). apply take_ge.
  pose proof (shorts_len vs) as Hs. unfold Zlen in *. lia.
Qed.

Definition head_words (h : dns_head) : list Z :=
  [h_id h; head_fields h; h_qdcount h; h_ancount h; h_nscount h; h_nrcount h].

(** The header read from these words. *)
Lemma decode_head_known h c (Q : dns_context -> dns_head -> Prop) E :
  head_ok h -> 12 <= _dns_left_len c -> rd_bytes (c_data c) (c_ptr c) 12 = Some (shorts (head_words h)) ->
  Q (set_ptr (c_ptr c + 12) c) h -> wp _dns_decode_head c Q E.
Proof.
  intros Hh Hl Hr HQ. pose proof (flags_head h Hh) as Hfl.
  assert (0 <= head_fields h < 65536) as Hhf.
  { split; [by apply head_fields_nonneg|]. apply head_fields_small. }
  destruct Hh as (Hid&_&_&_&_&_&_&_&_&_&_&Hqd&Han&Hns&Hnr). set (vs := head_words h) in *.
  unfold _dns_decode_head. wp_step. apply wp_left_len. wp_step. wp_step; [|lia].
  wp_step. apply (wp_read_short_known (h_id h) (tail vs) _ _ _ Hid); [exact Hr|]. intros R1.
  wp_step. apply (wp_read_short_known (head_fields h) (drop 2 vs) _ _ _ Hhf); [exact R1|]. intros R2.
  wp_step. apply (wp_read_short_known (h_qdcount h) (drop 3 vs) _ _ _ Hqd); [exact R2|]. intros R3.
  wp_step. apply (wp_read_short_known (h_ancount h) (drop 4 vs) _ _ _ Han); [exact R3|]. intros R4.
  wp_step. apply (wp_read_short_known (h_nscount h) (drop 5 vs) _ _ _ Hns); [exact R4|]. intros R5.
  wp_step. apply (wp_read_short_known (h_nrcount h) [] _ _ _ Hnr); [exact R5|]. intros _.
  wp_step. cproj. unfold flags_of, flags in Hfl. injection Hfl as -> -> -> -> -> -> -> -> -> ->.
  rewrite <- !Z.add_assoc. destruct h. exact HQ.
Qed.

(** C8: the header round trip.  [_dns_encode_head] writes the twelve bytes from
    which [_dns_decode_head] reads the same header: id, every flag, opcode and
    rcode, and the four counts. *)
Theorem head_roundtrip h c :
  head_ok h -> ctx_wf c -> 12 <= _dns_left_len c ->
  exists c', _dns_encode_head h c = Ok c' tt /\ c_ptr c' = c_ptr c + 12 /\
    _dns_decode_head (set_ptr (c_ptr c) c') = Ok c' h.
Proof.
  intros Hh Hw Hl.
  assert (wp (write_shorts (head_words h)) c (fun c' _ => writes c c' 12 /\
    rd_bytes (c_data c') (c_ptr c) 12 = Some (shorts (head_words h))) (fun _ => False)) as H by (by apply write_shorts_spec).
  rewrite (encode_head_shorts h c Hl). fold (head_words h). unfold wp in H.
  destruct (write_shorts (head_words h) c) as [c' []|?| |]; try done. destruct H as [Hwr Hr].
  pose proof Hwr as ((_&Hm&_)&Hle&Hp&_). exists c'. split_and!; [done|done|].
  enough (wp _dns_decode_head (set_ptr (c_ptr c) c') (fun c2 x => c2 = c' /\ x = h) (fun _ => False)) as He.
  { unfold wp in He. destruct (_dns_decode_head _); try done. by destruct He as [-> ->]. }
  apply (decode_head_known h); [done|unfold _dns_left_len; cproj; lia|done|]. split; [|done].
  destruct c'. unfold set_ptr. cbn in *. f_equal. lia.
Qed.

Lemma head_roundtrip_witness :
  let h := mk_dns_head 4660 1 0 0 0 1 1 0 1 0 3 1 2 0 1 in
  exists c', _dns_encode_head h (wire_context (replicate 64 0) 64) = Ok c' tt /\ c_ptr c' = 0 + 12 /\
    _dns_decode_head (set_ptr 0 c') = Ok c' h.
Proof.
  apply (head_roundtrip _ (wire_context (replicate 64 0) 64)).
  - unfold head_ok. cbn. lia.
  - unfold ctx_wf. cbn. split; [lia|]. split; [vm_compute; discriminate|]. repeat constructor; done.
  - vm_compute. discriminate.
Defined.
