(* ===== verification/DnsWire.v ===== *)
(** * Records on the wire (src/dns.c)

    What the bytes of a message mean: [wire_rr] relates the bytes between two
    offsets to a record ([DnsView.rr]) in its wire form, where owner names and
    the names inside the data may be compressed.  Which records can be sent
    is [sendable]: the record data has the form the record type asks for. *)

From Stdlib Require Import ZArith Lia.
From stdpp Require Import base list numbers option.
From S2P Require Import Prelude DnsTypes DnsName DnsNameRt DnsRrs DnsRrsSpec DnsRecord DnsAddSpec DnsView.

(** ** Record data *)

(** Types whose data is a name. *)
Definition name_type (ty : Z) : bool := (ty =? DNS_T_CNAME) || (ty =? DNS_T_PTR).

(** Types whose data is copied as it is. *)
Definition plain_type (ty : Z) : bool :=
  negb (name_type ty) && negb (ty =? DNS_T_NS) && negb (ty =? DNS_T_SOA) && negb (ty =? DNS_T_SRV) &&
  negb (ty =? DNS_T_OPT) && negb ((ty =? DNS_T_HTTPS) || (ty =? DNS_T_SVCB)).

(** A name inside record data: proper labels, at most [n] characters. *)
Definition data_name (n : Z) (ls : list (list Z)) : Prop := labels_ok ls /\ Zlen (join ls) <= n.

(** The five numbers of an SOA record, as the packet and as the wire hold them. *)
Definition soa_numbers (f : Z -> list Z) (soa : dns_soa) : list Z :=
  f (soa_serial soa) ++ f (soa_refresh soa) ++ f (soa_retry soa) ++ f (soa_expire soa) ++ f (soa_minimum soa).

Definition soa_ok (soa : dns_soa) : Prop :=
  0 <= soa_serial soa < 4294967296 /\ 0 <= soa_refresh soa < 4294967296 /\ 0 <= soa_retry soa < 4294967296 /\
  0 <= soa_expire soa < 4294967296 /\ 0 <= soa_minimum soa < 4294967296.

(** The data [raw] of a record of type [ty] (the packet's form), whose names
    are all names of [U]. *)
Inductive data_ok (U : list Z -> Prop) : Z -> list Z -> Prop :=
| data_plain ty raw :
    plain_type ty = true -> Zlen raw < 1024 -> (ty = DNS_T_A -> Zlen raw = DNS_RR_A_LEN) ->
    (ty = DNS_T_AAAA -> Zlen raw = DNS_RR_AAAA_LEN) -> data_ok U ty raw
| data_of_name ty ls :
    name_type ty = true -> data_name 254 ls -> (ls <> [] -> U (join ls)) -> data_ok U ty (cname_raw (join ls))
| data_soa soa ls1 ls2 :
    data_name 253 ls1 -> (ls1 <> [] -> U (join ls1)) -> soa_mname soa = join ls1 ->
    data_name 253 ls2 -> (ls2 <> [] -> U (join ls2)) -> soa_rname soa = join ls2 -> soa_ok soa ->
    data_ok U DNS_T_SOA (soa_raw soa)
| data_srv a b c ls :
    0 <= a < 65536 -> 0 <= b < 65536 -> 0 <= c < 65536 ->
    data_name 248 ls -> (ls <> [] -> U (join ls)) -> data_ok U DNS_T_SRV (srv_raw a b c (join ls)).

(** The bytes from [off] to [e] are this data on the wire. *)
Inductive rdata_on (S : Z -> Prop) (m : list Z) (e : Z) : Z -> list Z -> Z -> Prop :=
| rdata_plain ty raw off :
    plain_type ty = true -> rd_bytes m off (Zlen raw) = Some raw -> e = off + Zlen raw -> rdata_on S m e ty raw off
| rdata_name ty ls off :
    name_type ty = true -> data_name 254 ls -> name_on S m e 0 off ls e -> rdata_on S m e ty (cname_raw (join ls)) off
| rdata_soa soa ls1 ls2 off e1 e2 :
    data_name 253 ls1 -> soa_mname soa = join ls1 -> name_on S m e1 0 off ls1 e1 ->
    data_name 253 ls2 -> soa_rname soa = join ls2 -> name_on S m e2 0 e1 ls2 e2 -> soa_ok soa ->
    rd_bytes m e2 20 = Some (soa_numbers be32 soa) -> e = e2 + 20 -> rdata_on S m e DNS_T_SOA (soa_raw soa) off
| rdata_srv a b c ls off :
    0 <= a < 65536 -> 0 <= b < 65536 -> 0 <= c < 65536 -> data_name 248 ls ->
    rd_bytes m off 6 = Some (be16 a ++ be16 b ++ be16 c) -> name_on S m e 0 (off + 6) ls e ->
    rdata_on S m e DNS_T_SRV (srv_raw a b c (join ls)) off.

(** ** Records *)

(** Behind the message header. *)
Definition in_body (i : Z) : Prop := 12 <= i.

(** The bytes from [off] to [e] are the record [v] on the wire. *)
Definition wire_rr (m : list Z) (v : rr) (off e : Z) : Prop := exists q,
  name_on in_body m q 0 off (v_labels v) q /\
  match v_body v with
  | Question qclass => rd_bytes m q 4 = Some (be16 (v_type v) ++ be16 qclass) /\ e = q + 4
  | Data ttl raw =>
    rd_bytes m q 10 = Some (be16 (v_type v) ++ be16 DNS_C_IN ++ be32 ttl ++ be16 (e - (q + 10))) /\
    q + 10 <= e < q + 10 + 65536 /\ rdata_on in_body m e (v_type v) raw (q + 10)
  end.

Fixpoint wire_rrs (m : list Z) (off : Z) (vs : list rr) (e : Z) : Prop :=
  match vs with
  | [] => e = off
  | v :: vs => exists e1, wire_rr m v off e1 /\ wire_rrs m e1 vs e
  end.

(** A record that can be sent. *)
Definition sendable (U : list Z -> Prop) (v : rr) : Prop :=
  addable U v /\
  match v_body v with
  | Question _ => hd 0 (join (v_labels v)) <> 45
  | Data ttl raw => 0 <= ttl < 2147483648 /\ data_ok U (v_type v) raw /\ v_sec v <> DNS_RRS_QD /\ v_sec v <> DNS_RRS_OPT
  end.

(** The room it takes at most. *)
Definition wire_room (v : rr) : Z := Zlen (join (v_labels v)) + 2 + Zlen (rr_tail v) + 2.

Fixpoint wire_rooms (vs : list rr) : Z := match vs with [] => 0 | v :: vs => wire_room v + wire_rooms vs end.

(** ** Stability *)

(** The same bytes behind the header. *)
Definition body_agree (e : Z) (m m' : list Z) : Prop :=
  Zlen m' = Zlen m /\ forall i, 12 <= i < e -> rd8 m' i = rd8 m i.

Lemma body_agree_le e e' m m' : body_agree e m m' -> e' <= e -> body_agree e' m m'.
Proof. intros [Hl H] ?. split; [done|]. intros i Hi. apply H. lia. Qed.

Lemma name_body_agree m m' e j off ls e' :
  name_on in_body m e j off ls e' -> body_agree e m m' -> name_on in_body m' e j off ls e'.
Proof. intros H [_ Ha]. eapply name_on_agree; [exact H| |done]. intros i Hi H12. split; [done|]. apply Ha. unfold in_body in *. lia. Qed.

Lemma rd_body_agree m m' e a n bs :
  rd_bytes m a n = Some bs -> body_agree e m m' -> 12 <= a -> a + n <= e -> rd_bytes m' a n = Some bs.
Proof.
  intros H [Hl Ha] ? ?. rewrite <- H. apply rd_bytes_ext; [done|]. intros i Hi. apply Ha. lia.
Qed.

Lemma name_on_ends S m n j off ls e : name_on S m n j off ls e -> off < e <= n /\ 0 <= off.
Proof. intros H%name_on_at. pose proof (name_at_bounds _ _ _ _ _ _ H). pose proof (name_at_le_n _ _ _ _ _ _ H). lia. Qed.

(** Only the bytes of the data and of the names it leads to matter. *)
Lemma rdata_agree (S S' : Z -> Prop) m m' e ty raw off :
  rdata_on S m e ty raw off -> Zlen m' = Zlen m ->
  (forall i, 0 <= i < e -> S i -> S' i /\ rd8 m' i = rd8 m i) ->
  (forall i, off <= i < e -> rd8 m' i = rd8 m i) -> rdata_on S' m' e ty raw off.
Proof.
  intros H Hl HS Ho. destruct H.
  - subst. apply rdata_plain; [done| |done]. erewrite rd_bytes_ext; [done|done|]. intros i Hi. apply Ho. lia.
  - apply rdata_name; [done|done|]. by eapply name_on_agree.
  - match goal with H1 : name_on _ _ _ _ off _ _, H2 : name_on _ _ _ _ e1 _ _ |- _ =>
      pose proof (name_on_ends _ _ _ _ _ _ _ H1); pose proof (name_on_ends _ _ _ _ _ _ _ H2) end.
    eapply (rdata_soa S' m' e soa ls1 ls2 off e1 e2); try done.
    + eapply name_on_agree; [done| |done]. intros i Hi. apply HS. lia.
    + eapply name_on_agree; [done| |done]. intros i Hi. apply HS. lia.
    + erewrite rd_bytes_ext; [done|done|]. intros i Hi. apply Ho. lia.
  - match goal with H : name_on _ _ _ _ _ _ _ |- _ => pose proof (name_on_ends _ _ _ _ _ _ _ H) end.
    apply rdata_srv; try done; [|by eapply name_on_agree]. erewrite rd_bytes_ext; [done|done|]. intros i Hi. apply Ho. lia.
Qed.

Lemma rdata_body_agree m m' e ty raw off :
  rdata_on in_body m e ty raw off -> body_agree e m m' -> 12 <= off -> rdata_on in_body m' e ty raw off.
Proof.
  intros H [Hl Ha] Ho. eapply rdata_agree; [exact H|done|..].
  - intros i Hi H12. split; [done|]. apply Ha. unfold in_body in *. lia.
  - intros i Hi. apply Ha. lia.
Qed.

Lemma rdata_end S m e ty raw off : rdata_on S m e ty raw off -> off <= e.
Proof.
  destruct 1.
  - pose proof (Zlen_nonneg raw). lia.
  - match goal with H : name_on _ _ _ _ _ _ _ |- _ => pose proof (name_on_ends _ _ _ _ _ _ _ H) end. lia.
  - match goal with H1 : name_on _ _ _ _ off _ _, H2 : name_on _ _ _ _ e1 _ _ |- _ =>
      pose proof (name_on_ends _ _ _ _ _ _ _ H1); pose proof (name_on_ends _ _ _ _ _ _ _ H2) end. lia.
  - match goal with H : name_on _ _ _ _ _ _ _ |- _ => pose proof (name_on_ends _ _ _ _ _ _ _ H) end. lia.
Qed.

Lemma wire_rr_ends m v off e : wire_rr m v off e -> 0 <= off < e.
Proof.
  intros (q&Hn&Hb). pose proof (name_on_ends _ _ _ _ _ _ _ Hn). destruct (v_body v); lia.
Qed.

Lemma wire_rr_agree m m' v off e : wire_rr m v off e -> body_agree e m m' -> 12 <= off -> wire_rr m' v off e.
Proof.
  intros (q&Hn&Hb) Ha Ho. pose proof (name_on_ends _ _ _ _ _ _ _ Hn). exists q.
  assert (q <= e) by (destruct (v_body v); lia).
  split; [eapply name_body_agree; [done|]; by eapply body_agree_le|].
  destruct (v_body v) as [qclass|ttl raw].
  - destruct Hb as [Hr ->]. split; [|done]. eapply rd_body_agree; [done|exact Ha|lia|lia].
  - destruct Hb as (Hr&He&Hd). split_and!; try lia.
    + eapply rd_body_agree; [done|exact Ha|lia|lia].
    + apply (rdata_body_agree m); [done|done|lia].
Qed.

Lemma wire_rrs_ends m vs : forall off e, wire_rrs m off vs e -> off <= e.
Proof.
  induction vs as [|v vs IH]; intros off e; cbn; [lia|]. intros (e1&H%wire_rr_ends&?%IH). lia.
Qed.

Lemma wire_rrs_agree m m' vs : forall off e,
  wire_rrs m off vs e -> body_agree e m m' -> 12 <= off -> wire_rrs m' off vs e.
Proof.
  induction vs as [|v vs IH]; intros off e; cbn; [done|]. intros (e1&Hv&Hvs) Ha Ho.
  pose proof (wire_rr_ends _ _ _ _ Hv). pose proof (wire_rrs_ends _ _ _ _ Hvs).
  exists e1. split; [eapply wire_rr_agree; [done|by eapply body_agree_le|done]|]. apply IH; [done|done|lia].
Qed.

Lemma wire_rrs_app m vs1 vs2 off e1 e : wire_rrs m off vs1 e1 -> wire_rrs m e1 vs2 e -> wire_rrs m off (vs1 ++ vs2) e.
Proof.
  revert off. induction vs1 as [|v vs1 IH]; intros off; cbn; [by intros ->|].
  intros (e0&?&?) ?. exists e0. split; [done|]. by apply IH.
Qed.
