(* ===== verification/DnsEncodeSpec.v ===== *)
(** * What [dns_encode] writes (src/dns.c)

    Every record encoder, given a record of the packet and enough room, writes
    that record in its wire form ([DnsWire.wire_rr]).  The compression
    dictionary always leads to complete names; the two length bytes of a
    record head, which some encoders patch after the data is written, never
    belong to such a name. *)

From Stdlib Require Import ZArith Lia.
From stdpp Require Import base list numbers option.
From S2P Require Import Prelude DnsTypes DnsName DnsNameRt DnsRrs DnsRrsSpec DnsRecord DnsAddSpec DnsView DnsDecode DnsEncode DnsWire.

Section encode.
Context (U : list Z -> Prop).
Hypothesis HU : hash_faithful U.

(** ** The state of the message being written *)

(** The bytes a name may use are those of [S]: everything from the pointer on,
    nothing of the message header. *)
Definition enc_inv (S : Z -> Prop) (c : dns_context) : Prop :=
  ctx_wf c /\ c_maxsize c <= 16384 /\ 12 <= c_ptr c /\ (forall i, c_ptr c <= i -> S i) /\
  (forall i, S i -> in_body i) /\ dict_good S U c.

Definition enc_ok (c : dns_context) : Prop := exists S, enc_inv S c.

(** [S] without the two bytes at [a]. *)
Definition punch (S : Z -> Prop) (a : Z) (i : Z) : Prop := S i /\ ~ (a <= i < a + 2).

Lemma name_on_body S m e j off ls e' :
  (forall i, S i -> in_body i) -> name_on S m e j off ls e' -> name_on in_body m e j off ls e'.
Proof. intros HS H. eapply name_on_agree; [exact H| |done]. intros i _ Hi. split; [by apply HS|done]. Qed.

(** A name at the pointer. *)
Lemma wp_name S ls c (Q : dns_context -> Z -> Prop) E :
  enc_inv S c -> labels_ok ls -> (ls <> [] -> U (join ls)) -> Zlen (join ls) + 3 <= _dns_left_len c ->
  (forall c' r, enc_inv S c' -> writes c c' r -> name_on S (c_data c') (c_ptr c') 0 (c_ptr c) ls (c_ptr c') ->
     1 <= r <= Zlen (join ls) + 2 -> Q c' r) ->
  wp (_dns_encode_domain (join ls)) c Q E.
Proof.
  intros (Hwf&Hmax&H12&HS&Hb&Hd) Hls HUj Hl HQ. pose proof (Zlen_nonneg (join ls)).
  pose proof (encode_domain_ok S U ls c HU HS Hls HUj Hwf Hmax Hd ltac:(right; lia)) as Hok.
  pose proof (encode_domain_safe (join ls) c (join_bytes _ Hls) Hwf) as Hsafe. unfold wp in *.
  destruct (_dns_encode_domain (join ls) c) as [c' r|?| |]; [|lia|done..].
  destruct Hok as (Hn&Hg&Hp), Hsafe as (Hx&?&_&?).
  assert (writes c c' r) as Hw by (unfold writes; split_and!; done || lia).
  apply HQ; [|done|done|lia]. pose proof Hx as (_&Hm&_). unfold enc_inv. rewrite Hm.
  split_and!; [by eapply writes_wf|done|lia|intros i Hi; apply HS; lia|done|done].
Qed.

(** Fixed bytes at the pointer. *)
Lemma wp_bytes S bs c (Q : dns_context -> unit -> Prop) E :
  enc_inv S c -> Forall is_byte bs -> Zlen bs <= _dns_left_len c ->
  (forall c', enc_inv S c' -> writes c c' (Zlen bs) -> rd_bytes (c_data c') (c_ptr c) (Zlen bs) = Some bs -> Q c' tt) ->
  wp (write_mem bs) c Q E.
Proof.
  intros (Hwf&Hmax&H12&HS&Hb&Hd) Hbs Hl HQ. apply wp_write_bytes; [done..|]. intros c' Hw Hdict Hr.
  pose proof (Zlen_nonneg bs). apply HQ; [|done|done]. pose proof Hw as ((_&Hm&Hf&_)&_&Hp&_). unfold enc_inv. rewrite Hm.
  split_and!; [by eapply writes_wf|done|lia|intros i Hi; apply HS; lia|done|].
  unfold dict_good. rewrite Hdict. eapply Forall_impl; [|exact Hd]. intros it Hg.
  eapply item_good_mono; [exact Hg|by eapply agree_frame|lia].
Qed.

(** Patching two bytes that belong to no name. *)
Lemma wp_patch S a v c (Q : dns_context -> unit -> Prop) E :
  enc_inv S c -> 12 <= a -> a + 2 <= c_ptr c <= c_maxsize c -> (forall i, a <= i < a + 2 -> ~ S i) ->
  (forall c', enc_inv S c' -> c_ptr c' = c_ptr c -> c_maxsize c' = c_maxsize c ->
     frame a (a + 2) (c_data c) (c_data c') -> rd_bytes (c_data c') a 2 = Some (be16 v) -> Q c' tt) ->
  wp (write_at a (be16 v)) c Q E.
Proof.
  intros ((?&Hm&Hby)&Hmax&H12&HS&Hb&Hd) Ha Hp Hno HQ.
  apply wp_write_at; [lia|rewrite be16_len; lia|]. intros d Hw.
  pose proof (wr_bytes_len _ _ _ _ Hw) as Hl. pose proof (frame_wr _ _ _ _ a (a + 2) Hw ltac:(lia) ltac:(rewrite be16_len; lia)) as Hf.
  apply HQ; [|done|done|done|by apply rd_bytes_wr_same in Hw].
  unfold enc_inv, ctx_wf. cproj. rewrite Hl. split_and!; try done.
  - exact (wr_bytes_byte _ _ _ _ Hby (be16_byte v) Hw).
  - unfold dict_good. cproj. eapply Forall_impl; [|exact Hd]. intros it (full&e&Hit&Hn).
    exists full, e. split; [done|]. eapply name_on_agree; [exact Hn| |done]. intros i Hi Hin. split; [done|].
    destruct Hf as [_ Hf]. apply Hf. destruct (decide (a <= i < a + 2)); [by destruct (Hno i)|lia].
Qed.

(** ** Record heads *)

Lemma encode_qr_head_eq domain qtype qclass c :
  _dns_encode_qr_head domain qtype qclass c = bind (_dns_add_qr_head domain qtype qclass) (fun _ => ret tt) c.
Proof.
  unfold _dns_encode_qr_head, _dns_add_qr_head, bind, ret.
  destruct (_dns_encode_domain domain c); [|done..]. destruct (left_len _) as [? l|?| |]; [|done..].
  destruct (guard _ _) as [? []|?| |]; [|done..]. destruct (_dns_write_short qtype _) as [? []|?| |]; [|done..].
  by destruct (_dns_write_short qclass _) as [? []|?| |].
Qed.

Lemma encode_rr_head_eq domain qtype qclass ttl len c :
  _dns_encode_rr_head domain qtype qclass ttl len c =
  bind (_dns_add_rr_head domain qtype qclass ttl len) (fun _ => c' <- get ;; ret (c_ptr c' - 2)) c.
Proof.
  unfold _dns_encode_rr_head, _dns_add_rr_head, bind, ret, get. rewrite encode_qr_head_eq. unfold bind, ret.
  destruct (_dns_add_qr_head domain qtype qclass c); [|done..]. destruct (left_len _) as [? l|?| |]; [|done..].
  destruct (guard _ _) as [? []|?| |]; [|done..]. destruct (_dns_write_int ttl _) as [c1 []|?| |]; [|done..].
  unfold _dns_write_short, write_mem, write_at, bind, get, access, put, add_ptr, modify.
  destruct (wr_bytes _ _ _); [|done]. cproj. f_equal. rewrite be16_len. lia.
Qed.

(** A name followed by the fixed bytes [hd]. *)
Definition headed (S : Z -> Prop) (ls : list (list Z)) (hd : list Z) (c c' : dns_context) : Prop := exists q,
  name_on S (c_data c') q 0 (c_ptr c) ls q /\ rd_bytes (c_data c') q (Zlen hd) = Some hd /\
  c_ptr c' = q + Zlen hd /\ Forall (item_good S U (c_data c') q) (c_namedict c') /\
  writes c c' (c_ptr c' - c_ptr c) /\ q <= c_ptr c + Zlen (join ls) + 2.

Lemma tail_headed S ls hd c c' r :
  enc_inv S c -> labels_ok ls -> (ls <> [] -> U (join ls)) -> Zlen (join ls) + 3 <= _dns_left_len c ->
  tail_written (join ls) hd c c' r -> headed S ls hd c c'.
Proof.
  intros Hi Hls HUj Hl Ht. pose proof Ht as [Hw _]%tail_written_writes. destruct Ht as (c1&(He&Hw1&Hr)&Hw2&Hd2&Hr2).
  pose proof (wp_name S ls c (fun c' _ => enc_inv S c' /\ name_on S (c_data c') (c_ptr c') 0 (c_ptr c) ls (c_ptr c'))
    (fun _ => False) Hi Hls HUj Hl ltac:(by intros)) as Hok.
  destruct (wp_ok_inv _ _ _ _ _ _ Hok He) as [(_&_&_&_&_&Hg) Hn].
  pose proof Hw1 as (_&_&Hp1&_). pose proof Hw2 as ((_&_&Hf&_)&_&Hp2&_). pose proof (Zlen_nonneg hd).
  exists (c_ptr c1). split_and!; [|done|done| |by replace (c_ptr c' - c_ptr c) with r by lia|lia].
  - eapply name_on_mono; [exact Hn|by eapply agree_frame|lia].
  - rewrite Hd2. eapply Forall_impl; [|exact Hg]. intros it Hg'.
    eapply item_good_mono; [exact Hg'|by eapply agree_frame|lia].
Qed.

Definition rr_fixed (ty cl ttl len : Z) : list Z := be16 ty ++ be16 cl ++ be32 ttl ++ be16 len.

Lemma rr_fixed_len ty cl ttl len : Zlen (rr_fixed ty cl ttl len) = 10.
Proof. done. Qed.

Lemma wp_rr_head S ls ty cl ttl len c (Q : dns_context -> Z -> Prop) E :
  enc_inv S c -> labels_ok ls -> (ls <> [] -> U (join ls)) -> Zlen (join ls) + 12 <= _dns_left_len c ->
  (forall c', headed S ls (rr_fixed ty cl ttl len) c c' -> Q c' (c_ptr c' - 2)) ->
  wp (_dns_encode_rr_head (join ls) ty cl ttl len) c Q E.
Proof.
  intros Hi Hls HUj Hl HQ. eapply wp_ext; [apply encode_rr_head_eq|].
  pose proof Hi as (Hwf&_). wp_step. apply add_rr_head_spec; [by apply join_bytes|done| |].
  - intros c' r Hw. do 2 wp_step. wp_step. apply HQ. apply (tail_headed S ls _ c c' r); [done|done|done|lia|exact Hw].
  - intros c' _ [[c1 He]|Hn]; [|lia].
    pose proof (wp_name S ls c (fun _ _ => True) (fun _ => False) Hi Hls HUj ltac:(lia) ltac:(by intros)) as H.
    by apply (wp_fail_inv _ _ _ _ _ H) in He.
Qed.

(** Behind the head, names avoid the length bytes. *)
Lemma headed_inv S ls hd c c' :
  enc_inv S c -> headed S ls hd c c' -> 2 <= Zlen hd -> enc_inv (punch S (c_ptr c' - 2)) c' /\ enc_inv S c'.
Proof.
  intros (Hwf&Hmax&H12&HS&Hb&Hd) (q&Hn&_&Hp&Hg&Hw&_) Hl. pose proof Hw as ((_&Hm&_)&_&_&?).
  pose proof (name_on_ends _ _ _ _ _ _ _ Hn). pose proof (writes_wf _ _ _ Hw Hwf).
  unfold enc_inv. rewrite Hm. split; split_and!; try done; try lia.
  - intros i Hi. split; [apply HS; lia|lia].
  - intros i [Hi _]. by apply Hb.
  - eapply Forall_impl; [|exact Hg]. intros it (full&e&Hit&Hna). exists full, e. split; [done|].
    eapply name_on_agree; [exact Hna| |lia]. intros i Hi Hin. split; [|done]. split; [done|lia].
  - intros i Hi. apply HS. lia.
  - eapply Forall_impl; [|exact Hg]. intros it Hg'. eapply item_good_mono; [exact Hg'|done|lia].
Qed.

(** ** Records of the packet *)

(** [h] is the header of a record of the packet that holds [v]. *)
Definition stored (p : dns_packet) (v : rr) (h : dns_rrs) : Prop := exists S o r next,
  h = mk_dns_rrs o next (Zlen (a_payload r)) (a_type r) /\ holds S (p_data p) o r v /\ o + asize r <= Zlen (p_data p) /\ Zlen (p_data p) < 65536 /\ 0 <= o.

Lemma stored_len p v h ttl raw :
  stored p v h -> v_body v = Data ttl raw -> 11 + Zlen raw <= rrs_len h /\ rrs_type h = v_type v.
Proof.
  intros (S&o&r&next&->&(_&Hty&_&e&Hn&_&He)&_) Eb. unfold header_type, rr_tail in *. rewrite Eb in *.
  split; [|done]. cbn [rrs_len]. pose proof (name_on_ends _ _ _ _ _ _ _ Hn).
  rewrite !Zlen_app, !be16_len, be32_len in He. unfold asize in He. lia.
Qed.

Lemma wp_rrs_head p v h ttl raw c (Q : dns_context -> rr_head * Z -> Prop) E :
  stored p v h -> v_body v = Data ttl raw -> Zlen (join (v_labels v)) <= 254 ->
  (forall dptr, rd_bytes (p_data p) dptr (Zlen raw) = Some raw ->
     Q c (mk_rr_head (mk_qr_head (join (v_labels v)) (v_type v) DNS_C_IN) (s32 ttl) (Zlen raw), dptr)) ->
  wp (rrs_head p h) c Q E.
Proof.
  intros (S&o&r&next&->&Hh&Hlen&H64&Ho) Eb Hj HQ. unfold wp, rrs_head.
  pose proof (holds_rr_head S p o r v next ttl raw
    (fun c' h => h = mk_rr_head (mk_qr_head (join (v_labels v)) (v_type v) DNS_C_IN) (s32 ttl) (Zlen raw) /\
       rd_bytes (p_data p) (c_ptr c') (Zlen raw) = Some raw) (fun _ => False) Hlen H64 Ho Hh Eb Hj ltac:(by intros)) as H.
  unfold wp in H. destruct (_dns_get_rr_head _ _); [|done..]. destruct H as [-> Hr]. by apply HQ.
Qed.

(** The record has been written. *)
Definition sent (v : rr) (c c' : dns_context) : Prop :=
  enc_ok c' /\ wire_rr (c_data c') v (c_ptr c) (c_ptr c') /\ c_maxsize c' = c_maxsize c /\
  frame (c_ptr c) (c_maxsize c) (c_data c) (c_data c') /\ c_ptr c' <= c_ptr c + wire_room v /\ c_ptr c' <= c_maxsize c.

(** From the head of a record and its data to the record. *)
Lemma headed_sent S S' v ttl raw len c c1 c3 :
  enc_inv S c -> v_body v = Data ttl raw -> headed S (v_labels v) (rr_fixed (v_type v) DNS_C_IN ttl len) c c1 ->
  enc_inv S' c3 -> c_maxsize c3 = c_maxsize c -> frame (c_ptr c1 - 2) (c_maxsize c) (c_data c1) (c_data c3) ->
  rd_bytes (c_data c3) (c_ptr c1 - 2) 2 = Some (be16 (c_ptr c3 - c_ptr c1)) ->
  rdata_on in_body (c_data c3) (c_ptr c3) (v_type v) raw (c_ptr c1) ->
  c_ptr c3 <= c_maxsize c -> c_ptr c3 <= c_ptr c1 + Zlen raw + 2 -> sent v c c3.
Proof.
  intros (Hwf&Hmax&_&_&Hb&_) Eb (q&Hn&Hr&Hp&_&Hw&Hq) Hi3 Hm3 Hf Hlen Hdata Hle Hroom.
  rewrite rr_fixed_len in *. pose proof Hw as ((_&Hm1&Hf1&_)&_&_&_). pose proof (name_on_ends _ _ _ _ _ _ _ Hn).
  pose proof (rdata_end _ _ _ _ _ _ Hdata). pose proof (Zlen_nonneg raw).
  assert (c_ptr c3 < 65536) by lia.
  unfold sent. split_and!; [by exists S'| |done| | |done].
  - exists q. split; [|rewrite Eb; split_and!; try lia].
    + eapply name_on_body; [exact Hb|]. eapply name_on_mono; [exact Hn| |done].
      eapply agree_le; [by eapply agree_frame|lia].
    + rewrite app_assoc, app_assoc. apply (rd_bytes_split _ _ 8 2).
      * rewrite (frame_rd_bytes _ _ _ _ _ _ Hf) by lia.
        pose proof (rd_bytes_sub _ _ _ _ 0 8 Hr ltac:(lia) ltac:(lia) ltac:(lia)) as R. by rewrite Z.add_0_r in R.
      * replace (q + 8) with (c_ptr c1 - 2) by lia. rewrite Hlen. do 2 f_equal. lia.
    + by replace (q + 10) with (c_ptr c1) by lia.
  - eapply frame_trans; [eapply frame_widen; [exact Hf1|lia|lia]|]. eapply frame_widen; [exact Hf|lia|lia].
  - unfold wire_room, rr_tail. rewrite Eb, !Zlen_app, !be16_len, be32_len. lia.
Qed.

(** The three steps of every encoder: read the head, write it, write the data. *)
Lemma s32_ttl ttl : 0 <= ttl < 2147483648 -> s32 ttl = ttl.
Proof. apply s32_small. Qed.

Lemma wire_room_data v ttl raw : v_body v = Data ttl raw -> wire_room v = Zlen (join (v_labels v)) + 14 + Zlen raw.
Proof. intros Eb. unfold wire_room, rr_tail. rewrite Eb, !Zlen_app, !be16_len, be32_len. lia. Qed.

Lemma encode_raw_sent p v h ttl raw c (Q : dns_context -> unit -> Prop) E :
  stored p v h -> sendable U v -> v_body v = Data ttl raw -> plain_type (v_type v) = true ->
  enc_ok c -> wire_room v <= _dns_left_len c -> (forall c', sent v c c' -> Q c' tt) ->
  wp (_dns_encode_raw p h) c Q E.
Proof.
  intros Hst (((Hty&Hls&Hbody)&_&HUj&Hj&_)&Hs) Eb Hpl (S&Hi) Hl HQ. rewrite Eb in Hbody, Hs. destruct Hs as (Httl&_).
  rewrite (wire_room_data v ttl raw Eb) in Hl. pose proof (Zlen_nonneg raw).
  unfold _dns_encode_raw. wp_step. apply (wp_rrs_head p v h ttl raw); [done..|]. intros dptr Hdp.
  cbn [r_qr q_domain q_type q_class r_ttl r_len]. rewrite s32_ttl by done.
  wp_step. apply (wp_rr_head S); [done..|lia|]. intros c1 Hh.
  pose proof (headed_inv _ _ _ _ _ Hi Hh ltac:(by rewrite rr_fixed_len)) as [_ Hi1].
  pose proof Hh as (q&Hn&Hr&Hp&_&Hw&Hq). pose proof Hw as ((_&Hm1&_)&_&_&_). rewrite rr_fixed_len in *.
  wp_step. apply wp_left_len. unfold _dns_left_len in *. wp_step. wp_step; [|lia].
  wp_step. apply wp_access. exists raw. split; [done|].
  apply (wp_bytes S); [done|done|unfold _dns_left_len; lia|]. intros c2 Hi2 Hw2 Hr2.
  pose proof Hw2 as ((_&Hm2&Hf2&_)&Hle2&Hp2&_).
  apply HQ. eapply (headed_sent S S v ttl raw (Zlen raw) c c1 c2); try done; try lia.
  - eapply frame_widen; [exact Hf2|lia|lia].
  - rewrite (frame_rd_bytes _ _ _ _ _ _ Hf2) by lia. replace (c_ptr c1 - 2) with (q + 8) by lia.
    pose proof (rd_bytes_sub _ _ _ _ 8 2 Hr ltac:(lia) ltac:(lia) ltac:(lia)) as R. rewrite R.
    replace (c_ptr c2 - c_ptr c1) with (Zlen raw) by lia. done.
  - by apply rdata_plain.
Qed.

(** ** Names inside record data *)

Lemma cname_raw_eq s : Zlen s <= 256 -> cname_raw s = s ++ [0].
Proof.
  intros Hs. unfold cname_raw, strnlen, DNS_MAX_CNAME_LEN. rewrite Z.min_l by lia.
  apply take_ge. rewrite length_app. cbn. unfold Zlen. lia.
Qed.

(** The state behind the head, in the terms the encoders need. *)
Lemma after_head S v ttl raw len c c1 :
  enc_inv S c -> v_body v = Data ttl raw -> wire_room v <= _dns_left_len c ->
  headed S (v_labels v) (rr_fixed (v_type v) DNS_C_IN ttl len) c c1 ->
  enc_inv (punch S (c_ptr c1 - 2)) c1 /\ Zlen raw + 2 <= _dns_left_len c1 /\ 12 <= c_ptr c1 - 2 /\
  c_maxsize c1 = c_maxsize c.
Proof.
  intros Hi Eb Hl Hh. rewrite (wire_room_data v ttl raw Eb) in Hl.
  destruct (headed_inv _ _ _ _ _ Hi Hh ltac:(by rewrite rr_fixed_len)) as [Hi1 _].
  destruct Hi as (_&_&H12&_). destruct Hh as (q&Hn&_&Hp&_&Hw&Hq). rewrite rr_fixed_len in Hp.
  pose proof Hw as ((_&Hm1&_)&_&_&_). pose proof (name_on_ends _ _ _ _ _ _ _ Hn).
  unfold _dns_left_len in *. split_and!; [done|lia..].
Qed.

(** The length patched behind the data completes the record. *)
Lemma patch_sent S v ttl raw len n c c1 c2 (Q : dns_context -> unit -> Prop) E :
  enc_inv S c -> v_body v = Data ttl raw -> headed S (v_labels v) (rr_fixed (v_type v) DNS_C_IN ttl len) c c1 ->
  12 <= c_ptr c1 - 2 -> c_maxsize c1 = c_maxsize c -> enc_inv (punch S (c_ptr c1 - 2)) c2 -> writes c1 c2 n ->
  n <= Zlen raw + 2 ->
  rdata_on (punch S (c_ptr c1 - 2)) (c_data c2) (c_ptr c2) (v_type v) raw (c_ptr c1) ->
  (forall c', sent v c c' -> Q c' tt) -> wp (write_at (c_ptr c1 - 2) (be16 n)) c2 Q E.
Proof.
  intros Hi Eb Hh H12 Hm1 Hi2 Hw2 Hn Hd HQ. pose proof Hw2 as ((_&Hm2&Hf2&_)&Hle2&Hp2&?).
  apply (wp_patch _ _ _ _ _ _ Hi2); [done|lia|intros i Hi' [_ []]; lia|]. intros c3 Hi3 Hp3 Hm3 Hf3 Hr3.
  apply HQ. eapply (headed_sent S _ v ttl raw len c c1 c3 Hi Eb Hh Hi3); try lia.
  - eapply frame_trans; [eapply frame_widen; [exact Hf2|lia|lia]|]. eapply frame_widen; [exact Hf3|lia|lia].
  - rewrite Hr3. do 2 f_equal. lia.
  - rewrite Hp3. eapply rdata_agree; [exact Hd|by destruct Hf3|..].
    + intros i Hi' [HSi Hni]. split; [|apply Hf3; lia]. by apply Hi.
    + intros i Hi'. apply Hf3. lia.
Qed.

Lemma encode_CNAME_sent p v h ttl ls c (Q : dns_context -> unit -> Prop) E :
  stored p v h -> sendable U v -> v_body v = Data ttl (cname_raw (join ls)) -> name_type (v_type v) = true ->
  data_name 254 ls -> (ls <> [] -> U (join ls)) ->
  enc_ok c -> wire_room v <= _dns_left_len c -> (forall c', sent v c c' -> Q c' tt) ->
  wp (_dns_encode_CNAME p h) c Q E.
Proof.
  intros Hst (((Hty&Hls&_)&_&HUj&Hj&_)&Hs) Eb Hnt [Hls2 Hlen2] HUj2 (S&Hi) Hl HQ. rewrite Eb in Hs. destruct Hs as (Httl&_).
  pose proof (wire_room_data v _ _ Eb) as Hroom. pose proof (Zlen_nonneg (join ls)).
  pose proof (cname_raw_eq (join ls) ltac:(lia)) as Hraw.
  assert (Zlen (cname_raw (join ls)) = Zlen (join ls) + 1) as Hrl by (rewrite Hraw, Zlen_app; done).
  unfold _dns_encode_CNAME. wp_step. apply (wp_rrs_head p v h ttl _ _ _ _ Hst Eb Hj). intros dptr Hdp.
  cbn [r_qr q_domain q_type q_class r_ttl r_len]. rewrite s32_ttl by done.
  wp_step. apply (wp_rr_head S); [done..|lia|]. intros c1 Hh.
  destruct (after_head _ _ _ _ _ _ _ Hi Eb Hl Hh) as (Hi1&Hl1&H12&Hm1).
  wp_step. apply wp_access. exists (join ls). rewrite Hraw in Hdp at 2.
  split; [eapply cstr_at_text; [exact Hdp|by apply labels_ok_nonzero]|].
  wp_step. apply (wp_name _ ls _ _ _ Hi1); [done|done|lia|]. intros c2 r Hi2 Hw2 Hn2 Hr2.
  pose proof Hw2 as ((_&Hm2&Hf2&_)&Hle2&Hp2&_). destruct (stored_len p v h _ _ Hst Eb) as [Hrrs _].
  wp_step. wp_step; [|lia].
  apply (patch_sent S v ttl _ 1 r c c1 c2 _ _ Hi Eb Hh); [done..|lia|by apply rdata_name|done].
Qed.

(** ** Numbers inside record data *)

(** Bytes appended to the bytes [acc] written since [c0]. *)
Definition since (S : Z -> Prop) (c0 : dns_context) (acc : list Z) (c : dns_context) : Prop :=
  enc_inv S c /\ writes c0 c (Zlen acc) /\ rd_bytes (c_data c) (c_ptr c0) (Zlen acc) = Some acc.

Lemma since_start S c : enc_inv S c -> 0 <= _dns_left_len c -> since S c [] c.
Proof.
  intros Hi Hl. pose proof Hi as ((Hp&Hm&Hb)&_). unfold _dns_left_len in Hl. split; [done|].
  unfold writes. change (Zlen []) with 0. split; [split_and!; try lia; by apply ctx_ext_refl|].
  apply rd_bytes_Some. change (Z.to_nat 0) with 0%nat. split_and!; try lia. by rewrite take_0.
Qed.

Lemma wp_more S bs acc c0 c (Q : dns_context -> unit -> Prop) E :
  since S c0 acc c -> Forall is_byte bs -> Zlen bs <= _dns_left_len c ->
  (forall c', since S c0 (acc ++ bs) c' -> c_maxsize c' = c_maxsize c -> c_ptr c' = c_ptr c + Zlen bs -> Q c' tt) ->
  wp (write_mem bs) c Q E.
Proof.
  intros (Hi&Hw&Hr) Hb Hl HQ. apply (wp_bytes S); [done..|]. intros c' Hi' Hw' Hr'.
  pose proof Hw as (_&_&Hp&_). pose proof Hw' as ((_&Hm'&_)&_&Hp'&_). apply HQ; [|done|done].
  split; [done|]. rewrite Zlen_app. split; [by eapply writes_trans|].
  apply rd_bytes_split; [|by rewrite <- Hp]. by rewrite (writes_keep _ _ _ _ _ Hw') by lia.
Qed.

Lemma wp_copy_short S src a acc c0 c (Q : dns_context -> unit -> Prop) E :
  src = le16 a -> 0 <= a < 65536 -> since S c0 acc c -> 2 <= _dns_left_len c ->
  (forall c', since S c0 (acc ++ be16 a) c' -> _dns_left_len c' = _dns_left_len c - 2 -> Q c' tt) ->
  wp (_dns_write_shortptr src) c Q E.
Proof.
  intros -> Ha Hs Hl HQ. unfold _dns_write_shortptr, _dns_write_short. rewrite of_le16, u16_small by done.
  eapply wp_more; [done|auto with cdb|by rewrite be16_len|]. intros c' Hs' Hm Hp. apply HQ; [done|].
  rewrite be16_len in Hp. unfold _dns_left_len. lia.
Qed.

Lemma wp_copy_int S src a acc c0 c (Q : dns_context -> unit -> Prop) E :
  src = le32 a -> 0 <= a < 4294967296 -> since S c0 acc c -> 4 <= _dns_left_len c ->
  (forall c', since S c0 (acc ++ be32 a) c' -> _dns_left_len c' = _dns_left_len c - 4 -> Q c' tt) ->
  wp (_dns_write_intptr src) c Q E.
Proof.
  intros -> Ha Hs Hl HQ. unfold _dns_write_intptr, _dns_write_int. rewrite of_le32, u32_small by done.
  eapply wp_more; [done|auto with cdb|by rewrite be32_len|]. intros c' Hs' Hm Hp. apply HQ; [done|].
  rewrite be32_len in Hp. unfold _dns_left_len. lia.
Qed.

Lemma srv_raw_eq a b c s : Zlen s <= 248 -> srv_raw a b c s = le16 a ++ le16 b ++ le16 c ++ s ++ [0].
Proof.
  intros Hs. unfold srv_raw, strnlen, DNS_MAX_CNAME_LEN. cbv zeta. rewrite Z.min_l by lia.
  rewrite take_ge by (unfold Zlen; lia). done.
Qed.

(** A piece of data that was read whole. *)
Lemma rd_piece m d pre bs post k n :
  rd_bytes m d (Zlen (pre ++ bs ++ post)) = Some (pre ++ bs ++ post) -> k = Zlen pre -> n = Zlen bs ->
  rd_bytes m (d + k) n = Some bs.
Proof.
  intros Hr -> ->. pose proof (Zlen_nonneg pre). pose proof (Zlen_nonneg bs). pose proof (Zlen_nonneg post).
  rewrite !Zlen_app in Hr. rewrite (rd_bytes_sub _ _ _ _ (Zlen pre) (Zlen bs) Hr) by lia. f_equal.
  unfold Zlen. rewrite !Nat2Z.id, drop_app_length. by rewrite take_app_length.
Qed.

Lemma encode_SRV_sent p v h ttl x y z ls c (Q : dns_context -> unit -> Prop) E :
  stored p v h -> sendable U v -> v_body v = Data ttl (srv_raw x y z (join ls)) -> v_type v = DNS_T_SRV ->
  0 <= x < 65536 -> 0 <= y < 65536 -> 0 <= z < 65536 -> data_name 248 ls -> (ls <> [] -> U (join ls)) ->
  enc_ok c -> wire_room v <= _dns_left_len c -> (forall c', sent v c c' -> Q c' tt) ->
  wp (_dns_encode_SRV p h) c Q E.
Proof.
  intros Hst (((Hty&Hls&_)&_&HUj&Hj&_)&Hs) Eb Hsrv Hx Hy Hz [Hls2 Hlen2] HUj2 (S&Hi) Hl HQ.
  rewrite Eb in Hs. destruct Hs as (Httl&_).
  pose proof (wire_room_data v _ _ Eb) as Hroom. pose proof (Zlen_nonneg (join ls)).
  pose proof (srv_raw_eq x y z (join ls) Hlen2) as Hraw.
  assert (Zlen (srv_raw x y z (join ls)) = Zlen (join ls) + 7) as Hrl by (rewrite Hraw, !Zlen_app, !le16_len; change (Zlen [0]) with 1; lia).
  unfold _dns_encode_SRV. wp_step. apply (wp_rrs_head p v h ttl _ _ _ _ Hst Eb Hj). intros dptr Hdp.
  cbn [r_qr q_domain q_type q_class r_ttl r_len]. rewrite s32_ttl by done.
  wp_step. apply (wp_rr_head S); [done..|lia|]. intros c1 Hh.
  destruct (after_head _ _ _ _ _ _ _ Hi Eb Hl Hh) as (Hi1&Hl1&H12&Hm1).
  wp_step. apply wp_left_len. wp_step. wp_step; [|lia]. rewrite Hraw in Hdp.
  pose proof (rd_piece _ _ [] (le16 x) _ 0 2 Hdp eq_refl eq_refl) as R1. rewrite Z.add_0_r in R1.
  pose proof (rd_piece _ _ (le16 x) (le16 y) _ 2 2 Hdp eq_refl eq_refl) as R2.
  pose proof (rd_piece _ _ (le16 x ++ le16 y) (le16 z) _ 4 2 Hdp eq_refl eq_refl) as R3.
  pose proof (rd_piece _ _ (le16 x ++ le16 y ++ le16 z) (join ls ++ [0]) [] 6 _ ltac:(by rewrite app_nil_r) eq_refl eq_refl) as R4.
  wp_step. apply wp_access. exists (le16 x). split; [done|].
  wp_step. eapply wp_copy_short; [done..|by apply since_start; [exact Hi1|lia]|lia|]. intros c2 Hs2 Hl2.
  wp_step. apply wp_access. exists (le16 y). split; [done|].
  wp_step. eapply wp_copy_short; [done..|exact Hs2|lia|]. intros c3 Hs3 Hl3.
  wp_step. apply wp_access. exists (le16 z). split; [done|].
  wp_step. eapply wp_copy_short; [done..|exact Hs3|lia|]. intros c4 (Hi4&Hw4&Hr4) Hl4.
  wp_step. apply wp_access. exists (join ls). split; [eapply cstr_at_text; [exact R4|by apply labels_ok_nonzero]|].
  wp_step. apply (wp_name _ ls _ _ _ Hi4); [done|done|lia|]. intros c5 r Hi5 Hw5 Hn5 Hr5.
  pose proof (writes_trans _ _ _ _ _ Hw4 Hw5) as Hw. change (Zlen ((([] ++ be16 x) ++ be16 y) ++ be16 z)) with 6 in *.
  apply (patch_sent S v ttl _ _ (6 + r) c c1 c5 _ _ Hi Eb Hh); [done..|lia| |done].
  rewrite Hsrv. pose proof Hw4 as (_&_&Hp4&_). apply rdata_srv; try done; [|by rewrite <- Hp4].
  rewrite (writes_keep _ _ _ _ _ Hw5) by lia. done.
Qed.

(** ** SOA *)

Lemma soa_raw_eq soa : Zlen (soa_mname soa) <= 255 -> Zlen (soa_rname soa) <= 255 ->
  soa_raw soa = soa_mname soa ++ 0 :: soa_rname soa ++ 0 :: soa_numbers le32 soa.
Proof.
  intros H1 H2. unfold soa_raw, Zlen in *. rewrite !take_ge by lia. done.
Qed.

Lemma soa_numbers_len f soa : (forall v, Zlen (f v) = 4) -> Zlen (soa_numbers f soa) = 20.
Proof. intros Hf. unfold soa_numbers. rewrite !Zlen_app, !Hf. done. Qed.

Lemma wp_soa_numbers S p soa dptr c (Q : dns_context -> unit -> Prop) E :
  rd_bytes (p_data p) dptr 20 = Some (soa_numbers le32 soa) -> soa_ok soa -> enc_inv S c -> 20 <= _dns_left_len c ->
  (forall c', since S c (soa_numbers be32 soa) c' -> Q c' tt) -> wp (write_soa_numbers p dptr) c Q E.
Proof.
  intros Hr (H1&H2&H3&H4&H5) Hi Hl HQ. set (f := fun v => le32 (v soa)).
  set (all := f soa_serial ++ f soa_refresh ++ f soa_retry ++ f soa_expire ++ f soa_minimum).
  change (rd_bytes (p_data p) dptr (Zlen all) = Some all) in Hr. unfold all in Hr.
  pose proof (rd_piece _ _ [] (f soa_serial) _ 0 4 Hr eq_refl eq_refl) as R1. rewrite Z.add_0_r in R1.
  pose proof (rd_piece _ _ (f soa_serial) (f soa_refresh) _ 4 4 Hr eq_refl eq_refl) as R2.
  pose proof (rd_piece _ _ (f soa_serial ++ f soa_refresh) (f soa_retry) _ 8 4 Hr eq_refl eq_refl) as R3.
  pose proof (rd_piece _ _ (f soa_serial ++ f soa_refresh ++ f soa_retry) (f soa_expire) _ 12 4 Hr eq_refl eq_refl) as R4.
  pose proof (rd_piece _ _ (f soa_serial ++ f soa_refresh ++ f soa_retry ++ f soa_expire) (f soa_minimum) [] 16 4 Hr eq_refl eq_refl) as R5.
  unfold write_soa_numbers.
  wp_step. apply wp_access. exists (f soa_serial). split; [done|].
  wp_step. eapply wp_copy_int; [done|exact H1|by apply since_start; [exact Hi|lia]|lia|]. intros c1 Hs1 Hl1.
  wp_step. apply wp_access. exists (f soa_refresh). split; [done|].
  wp_step. eapply wp_copy_int; [done|exact H2|exact Hs1|lia|]. intros c2 Hs2 Hl2.
  wp_step. apply wp_access. exists (f soa_retry). split; [done|].
  wp_step. eapply wp_copy_int; [done|exact H3|exact Hs2|lia|]. intros c3 Hs3 Hl3.
  wp_step. apply wp_access. exists (f soa_expire). split; [done|].
  wp_step. eapply wp_copy_int; [done|exact H4|exact Hs3|lia|]. intros c4 Hs4 Hl4.
  wp_step. apply wp_access. exists (f soa_minimum). split; [done|].
  eapply wp_copy_int; [done|exact H5|exact Hs4|lia|]. intros c5 Hs5 _. apply HQ.
  rewrite <- !app_assoc in Hs5. exact Hs5.
Qed.

(** Two names, the length in front of them patched, and the numbers. *)
Lemma soa_sent S v ttl soa ls1 ls2 len r1 r2 c c1 c2 c3 c4 c5 :
  enc_inv S c -> v_body v = Data ttl (soa_raw soa) -> v_type v = DNS_T_SOA ->
  headed S (v_labels v) (rr_fixed (v_type v) DNS_C_IN ttl len) c c1 ->
  c_maxsize c1 = c_maxsize c -> data_name 253 ls1 -> soa_mname soa = join ls1 -> data_name 253 ls2 ->
  soa_rname soa = join ls2 -> soa_ok soa -> Zlen (soa_raw soa) = Zlen (join ls1) + Zlen (join ls2) + 22 ->
  let S' := punch S (c_ptr c1 - 2) in
  writes c1 c2 r1 -> name_on S' (c_data c2) (c_ptr c2) 0 (c_ptr c1) ls1 (c_ptr c2) -> r1 <= Zlen (join ls1) + 2 ->
  writes c2 c3 r2 -> name_on S' (c_data c3) (c_ptr c3) 0 (c_ptr c2) ls2 (c_ptr c3) -> r2 <= Zlen (join ls2) + 2 ->
  c_ptr c4 = c_ptr c3 -> c_maxsize c4 = c_maxsize c3 -> frame (c_ptr c1 - 2) (c_ptr c1 - 2 + 2) (c_data c3) (c_data c4) ->
  rd_bytes (c_data c4) (c_ptr c1 - 2) 2 = Some (be16 (r1 + r2 + 20)) -> since S' c4 (soa_numbers be32 soa) c5 ->
  sent v c c5.
Proof.
  intros Hi Eb Hty Hh Hm1 Hd1 He1 Hd2 He2 Hok Hrl S' Hw2 Hn2 Hr2 Hw3 Hn3 Hr3 Hp4 Hm4 Hf4 Hlen (Hi5&Hw5&Hr5).
  rewrite (soa_numbers_len be32) in * by done.
  pose proof Hw2 as ((_&Hm2&Hf2&_)&_&Hp2&?). pose proof Hw3 as ((_&Hm3&Hf3&_)&_&Hp3&?).
  pose proof Hw5 as ((_&Hm5&Hf5&_)&Hle5&Hp5&_).
  apply (headed_sent S S' v ttl (soa_raw soa) len c c1 c5 Hi Eb Hh Hi5); try lia.
  - eapply frame_trans; [eapply frame_widen; [exact Hf2|lia..]|].
    eapply frame_trans; [eapply frame_widen; [exact Hf3|lia..]|].
    eapply frame_trans; [eapply frame_widen; [exact Hf4|lia..]|]. eapply frame_widen; [exact Hf5|lia..].
  - rewrite (frame_rd_bytes _ _ _ _ _ _ Hf5) by lia. rewrite Hlen. do 2 f_equal. lia.
  - rewrite Hty. apply (rdata_soa in_body _ _ soa ls1 ls2 _ (c_ptr c2) (c_ptr c3)); try done; try lia.
    + eapply name_on_agree; [exact Hn2| |done]. intros i Hi' [HSi Hni]. split; [by apply Hi|].
      destruct Hf3 as [_ Hf3], Hf4 as [_ Hf4], Hf5 as [_ Hf5]. rewrite Hf5, Hf4, Hf3 by lia. done.
    + eapply name_on_agree; [exact Hn3| |done]. intros i Hi' [HSi Hni]. split; [by apply Hi|].
      destruct Hf4 as [_ Hf4], Hf5 as [_ Hf5]. rewrite Hf5, Hf4 by lia. done.
    + by rewrite <- Hp4.
Qed.

Lemma encode_SOA_sent p v h ttl soa ls1 ls2 c (Q : dns_context -> unit -> Prop) E :
  stored p v h -> sendable U v -> v_body v = Data ttl (soa_raw soa) -> v_type v = DNS_T_SOA ->
  data_name 253 ls1 -> (ls1 <> [] -> U (join ls1)) -> soa_mname soa = join ls1 ->
  data_name 253 ls2 -> (ls2 <> [] -> U (join ls2)) -> soa_rname soa = join ls2 -> soa_ok soa ->
  enc_ok c -> wire_room v <= _dns_left_len c -> (forall c', sent v c c' -> Q c' tt) ->
  wp (_dns_encode_SOA p h) c Q E.
Proof.
  intros Hst (((Hty&Hls&_)&_&HUj&Hj&_)&Hs) Eb Hsoa Hd1 HU1 He1 Hd2 HU2 He2 Hok (S&Hi) Hl HQ.
  rewrite Eb in Hs. destruct Hs as (Httl&_). pose proof Hd1 as [Hls1 Hl1']. pose proof Hd2 as [Hls2 Hl2'].
  pose proof (wire_room_data v _ _ Eb) as Hroom. pose proof (Zlen_nonneg (join ls1)). pose proof (Zlen_nonneg (join ls2)).
  pose proof (soa_raw_eq soa ltac:(rewrite He1; lia) ltac:(rewrite He2; lia)) as Hraw. rewrite He1, He2 in Hraw.
  assert (Zlen (soa_raw soa) = Zlen (join ls1) + Zlen (join ls2) + 22) as Hrl.
  { rewrite Hraw, Zlen_app, Zlen_cons, Zlen_app, Zlen_cons, (soa_numbers_len le32) by done. lia. }
  unfold _dns_encode_SOA. wp_step. apply (wp_rrs_head p v h ttl _ _ _ _ Hst Eb Hj). intros dptr Hdp.
  cbn [r_qr q_domain q_type q_class r_ttl r_len]. rewrite s32_ttl by done.
  wp_step. apply (wp_rr_head S); [done..|lia|]. intros c1 Hh.
  destruct (after_head _ _ _ _ _ _ _ Hi Eb Hl Hh) as (Hi1&Hl1&H12&Hm1). rewrite Hraw in Hdp.
  pose proof (rd_piece _ _ (join ls1 ++ [0]) (join ls2 ++ 0 :: soa_numbers le32 soa) [] (Zlen (join ls1) + 1) _
    ltac:(rewrite app_nil_r, <- app_assoc; exact Hdp) ltac:(by rewrite Zlen_app) eq_refl) as R2.
  pose proof (rd_piece _ _ (join ls2 ++ [0]) (soa_numbers le32 soa) [] (Zlen (join ls2) + 1) 20
    ltac:(rewrite app_nil_r, <- app_assoc; exact R2) ltac:(by rewrite Zlen_app) eq_refl) as R3.
  wp_step. apply wp_access. exists (join ls1). split; [eapply cstr_at_text; [exact Hdp|by apply labels_ok_nonzero]|].
  wp_step. apply (wp_name _ ls1 _ _ _ Hi1); [done|done|lia|]. intros c2 r1 Hi2 Hw2 Hn2 Hr2. cbv zeta.
  unfold strnlen, DNS_MAX_CNAME_LEN. rewrite !Z.min_l by lia.
  pose proof Hw2 as ((_&Hm2&_)&_&Hp2&_). wp_step. apply wp_access. exists (join ls2).
  split; [eapply cstr_at_text; [exact R2|by apply labels_ok_nonzero]|]. unfold _dns_left_len in *.
  wp_step. apply (wp_name _ ls2 _ _ _ Hi2); [done|done|unfold _dns_left_len; lia|]. intros c3 r2 Hi3 Hw3 Hn3 Hr3.
  pose proof Hw3 as ((_&Hm3&_)&Hle3&Hp3&_). destruct (stored_len p v h _ _ Hst Eb) as [Hrrs _].
  rewrite ?Z.min_l by lia. wp_step. wp_step; [|lia].
  wp_step. apply (wp_patch _ _ _ _ _ _ Hi3); [done|lia|intros i Hi' [_ []]; lia|]. intros c4 Hi4 Hp4 Hm4 Hf4 Hr4.
  wp_step. apply wp_left_len. unfold _dns_left_len. wp_step. wp_step; [|lia].
  apply (wp_soa_numbers (punch S (c_ptr c1 - 2)) p soa); [exact R3|done|done|unfold _dns_left_len; lia|].
  intros c5 Hs5. apply HQ.
  apply (soa_sent S v ttl soa ls1 ls2 _ r1 r2 c c1 c2 c3 c4 c5 Hi Eb Hsoa Hh Hm1 Hd1 He1 Hd2 He2 Hok Hrl); done || lia.
Qed.

(** ** Questions *)

Lemma wp_get_question p v h qclass c (Q : dns_context -> qr_head -> Prop) E :
  stored p v h -> v_body v = Question qclass -> Zlen (join (v_labels v)) <= 254 ->
  Q c (mk_qr_head (join (v_labels v)) (v_type v) qclass) ->
  wp (fun s => match _dns_get_qr_head DNS_MAX_CNAME_LEN (_dns_init_context_by_rrs p h) with
               | Ok _ q => Ok s q | Fail _ => Fail s | UB => UB | Diverged => Diverged end) c Q E.
Proof.
  intros (S&o&r&next&->&Hh&_) Eb Hj HQ. unfold wp.
  pose proof (holds_qr_head S p o r v next qclass (fun _ q => q = mk_qr_head (join (v_labels v)) (v_type v) qclass)
    (fun _ => False) Hh Eb Hj ltac:(by intros)) as H.
  unfold wp in H. destruct (_dns_get_qr_head _ _); [|done..]. by subst.
Qed.

Lemma encode_qd_sent p v h qclass c (Q : dns_context -> unit -> Prop) E :
  stored p v h -> sendable U v -> v_body v = Question qclass -> enc_ok c -> wire_room v <= _dns_left_len c ->
  (forall c', sent v c c' -> Q c' tt) -> wp (_dns_encode_qd p h) c Q E.
Proof.
  intros Hst (((Hty&Hls&Hbody)&_&HUj&Hj&_)&Hs) Eb (S&Hi) Hl HQ. rewrite Eb in Hs.
  assert (wire_room v = Zlen (join (v_labels v)) + 8) as Hroom.
  { unfold wire_room, rr_tail. rewrite Eb, Zlen_app, !be16_len. lia. }
  unfold _dns_encode_qd. wp_step. apply (wp_get_question p v h qclass); [done..|].
  cbn [q_domain q_type q_class]. wp_step. eapply wp_ext; [apply encode_qr_head_eq|]. pose proof Hi as (Hwf&_&_&_&Hb&_).
  wp_step. apply add_qr_head_spec; [by apply join_bytes|done| |]; cycle 1.
  { intros c' _ [[c1 He]|Hn]; [|lia].
    pose proof (wp_name S (v_labels v) c (fun _ _ => True) (fun _ => False) Hi Hls HUj ltac:(lia) ltac:(by intros)) as H.
    by apply (wp_fail_inv _ _ _ _ _ H) in He. }
  intros c' r Hw%qr_written_tail. apply (tail_headed S) in Hw; [|done..|lia]. wp_step.
  assert (sent v c c') as Hsent.
  { destruct (headed_inv _ _ _ _ _ Hi Hw ltac:(by rewrite Zlen_app)) as [_ Hi'].
    destruct Hw as (q&Hn&Hr&Hp&_&((_&Hm&Hf&_)&Hle&_)&Hq). rewrite Zlen_app, !be16_len in *.
    unfold sent. split_and!; [by exists S| |done| |lia|done].
    - exists q. rewrite Eb. split_and!; [|done|lia]. by eapply name_on_body.
    - eapply frame_widen; [exact Hf|lia|lia]. }
  destruct (join (v_labels v)) as [|ch s]; [wp_step; by apply HQ|]. cbn in Hs.
  wp_step; [lia|]. wp_step. by apply HQ.
Qed.

(** ** Sections *)

Lemma encode_an_sent p v h ttl raw c (Q : dns_context -> unit -> Prop) E :
  stored p v h -> sendable U v -> v_body v = Data ttl raw -> enc_ok c -> wire_room v <= _dns_left_len c ->
  (forall c', sent v c c' -> Q c' tt) -> wp (_dns_encode_an p h) c Q E.
Proof.
  intros Hst Hs Eb Hc Hl HQ. pose proof (stored_len _ _ _ _ _ Hst Eb) as [_ Hty].
  pose proof Hs as [_ Hd]. rewrite Eb in Hd. destruct Hd as (_&Hd&_). unfold _dns_encode_an. cbv zeta. rewrite Hty.
  inversion Hd as [ty r Hpl|ty ls Hnt|soa ls1 ls2 H1 H2 H3 H4 H5 H6 Hok Ht|x y z ls H1 H2 H3 H4 H5 Ht]; subst.
  - pose proof Hpl as Hp2. unfold plain_type, name_type in Hp2. bools.
    wp_step; [by eapply (encode_raw_sent p v h ttl raw)|].
    do 4 (wp_step; [lia || (match goal with H : _ \/ _ |- _ => destruct H end; bools; lia)|]).
    by eapply (encode_raw_sent p v h ttl raw).
  - assert (v_type v = DNS_T_CNAME \/ v_type v = DNS_T_PTR) as [Ht|Ht]
      by (unfold name_type in Hnt; bools; destruct Hnt; bools; auto);
      rewrite Ht; cbn; eapply (encode_CNAME_sent p v h ttl ls); done.
  - cbn. eapply (encode_SOA_sent p v h ttl soa ls1 ls2); done.
  - cbn. eapply (encode_SRV_sent p v h ttl x y z ls); done.
Qed.

(** The body of a loop, once for every header. *)
Fixpoint each {S} (body : dns_rrs -> M S unit) (hs : list dns_rrs) : M S unit :=
  match hs with
  | [] => ret tt
  | h :: hs => body h ;; each body hs
  end.

Definition sent_all (vs : list rr) (c c' : dns_context) : Prop :=
  enc_ok c' /\ wire_rrs (c_data c') (c_ptr c) vs (c_ptr c') /\ c_maxsize c' = c_maxsize c /\
  frame (c_ptr c) (c_maxsize c) (c_data c) (c_data c') /\ c_ptr c <= c_ptr c' <= c_ptr c + wire_rooms vs /\
  c_ptr c' <= c_maxsize c.

Lemma frame_body_agree lo hi m m' : frame lo hi m m' -> body_agree lo m m'.
Proof. intros [Hl Hf]. split; [done|]. intros i Hi. apply Hf. lia. Qed.

Lemma wire_rooms_nonneg vs : 0 <= wire_rooms vs.
Proof.
  induction vs as [|v vs IH]; cbn; [done|]. unfold wire_room.
  pose proof (Zlen_nonneg (join (v_labels v))). pose proof (Zlen_nonneg (rr_tail v)). lia.
Qed.

Lemma each_sent p body vs hs :
  (forall v h c, v ∈ vs -> stored p v h -> enc_ok c -> wire_room v <= _dns_left_len c ->
     wp (body h) c (fun c' _ => sent v c c') (fun _ => False)) ->
  Forall2 (stored p) vs hs -> forall c, enc_ok c -> wire_rooms vs <= _dns_left_len c ->
  wp (each body hs) c (fun c' _ => sent_all vs c c') (fun _ => False).
Proof.
  intros Hbody Hs. induction Hs as [|v h vs hs Hv Hs IH]; intros c Hc Hl; cbn [each wire_rooms] in *.
  { wp_step. unfold sent_all, _dns_left_len in *. split_and!; done || (cbn; lia). }
  pose proof (wire_rooms_nonneg vs). wp_step.
  eapply wp_mono; [apply (Hbody v h c); [by left|done|done|lia]| |done]. intros c1 [] (Hc1&Hw1&Hm1&Hf1&Hp1&Hle1).
  destruct Hc as (S&(_&_&H12&_)). pose proof (wire_rr_ends _ _ _ _ Hw1).
  eapply wp_mono; [apply IH; [intros; apply Hbody; [by right|done..]|done|unfold _dns_left_len in *; lia]| |done].
  intros c2 [] (Hc2&Hw2&Hm2&Hf2&Hp2&Hle2). unfold sent_all. split_and!; try done; try lia; cbn; try lia.
  - exists (c_ptr c1). split; [|done]. eapply wire_rr_agree; [exact Hw1|by eapply frame_body_agree|done].
  - eapply frame_trans; [exact Hf1|]. eapply frame_widen; [exact Hf2|lia|lia].
Qed.

End encode.
