(* ===== verification/DnsEncodeMsg.v ===== *)
(** * The message [dns_encode] writes (src/dns.c)

    A packet that holds the records [vs] is encoded as a message with the
    packet's header, the records section by section in wire form, and, when a
    payload size is set, the EDNS pseudo record. *)

From Stdlib Require Import ZArith Lia.
From stdpp Require Import base list numbers option.
From S2P Require Import Prelude DnsTypes DnsName DnsNameRt DnsRrs DnsRrsSpec DnsRecord DnsAddSpec DnsView DnsDecode DnsDecodeSpec DnsEncode DnsHeadRt DnsWire DnsEncodeSpec.

(** ** Walking a section *)

Lemma for_rrs_each {S} (body : dns_rrs -> M S unit) t p : forall rs o s,
  0 <= o -> laid (p_data p) no_next o rs -> o + atotal rs <= 65535 ->
  for_rrs (length (sec_headers t o rs)) p (null_end (first_off no_next t o rs)) body s
  = each body (sec_headers t o rs) s.
Proof.
  induction rs as [|r rs IH]; intros o s Ho Hl Ht; cbn [laid sec_headers first_off atotal] in *; [done|].
  destruct Hl as (Hh&_&Hl). pose proof (asize_pos r). pose proof (atotal_nonneg rs).
  case_decide as Hs; [|apply IH; done || lia]. unfold null_end at 1.
  destruct (Z.eqb_spec o DNS_RR_END); [unfold DNS_RR_END in *; lia|].
  cbn [length for_rrs each]. unfold bind, access. rewrite Hh, Hs.
  change (dns_get_rrs_next _) with (null_end (first_off no_next t (o + asize r) rs)).
  destruct (body _ s) as [s' []|?| |]; [|done..]. by rewrite IH by (done || lia).
Qed.

Lemma sec_headers_stored S p t : forall rs vs o,
  all_hold S (p_data p) o rs vs -> 0 <= o -> o + atotal rs <= Zlen (p_data p) -> Zlen (p_data p) < 65536 ->
  Forall2 (stored p) (filter (fun v => v_sec v = t) vs) (sec_headers t o rs).
Proof.
  induction rs as [|r rs IH]; intros [|v vs] o; cbn [all_hold sec_headers atotal]; try done.
  intros [Hh Hall] Ho Hlen H64. pose proof (asize_pos r). pose proof (atotal_nonneg rs).
  pose proof Hh as (Hsec&Hty&_). rewrite filter_cons, <- Hsec.
  case_decide as Hd; [|by apply IH; done || lia]. constructor; [|by apply IH; done || lia].
  eexists S, o, r, _. split_and!; try done; lia.
Qed.

Lemma set_same_count t count p : sec_count t p = Some count -> set_sec_count t count p = p.
Proof. destruct p as [h], t, h; cbn; congruence. Qed.

Section message.
Context (U : list Z -> Prop).
Hypothesis HU : hash_faithful U.

Lemma encode_section_sent p vs t body c (Q : enc_state -> unit -> Prop) E :
  pkt_view all_counted U p vs -> t <> DNS_RRS_END ->
  (forall v h c', v ∈ vs -> v_sec v = t -> stored p v h -> enc_ok U c' -> wire_room v <= _dns_left_len c' ->
     wp (body p h) c' (fun c'' _ => sent U v c' c'') (fun _ => False)) ->
  enc_ok U c -> wire_rooms (filter (fun v => v_sec v = t) vs) <= _dns_left_len c ->
  (forall c', sent_all U (filter (fun v => v_sec v = t) vs) c c' -> Q (c', p) tt) ->
  wp (encode_section t body) (c, p) Q E.
Proof.
  intros (rs&Hrep&Hall&_&Hct) Ht Hbody Hc Hl HQ. pose proof Hrep as ((Hsz&_&H64&Hlen&_)&Htot&Hlaid&Hst).
  unfold sizeof_dns_packet in *. unfold encode_section. do 2 wp_step. cbn [snd].
  unfold dns_get_rrs_start. rewrite (Hct t Ht), (Hst t Ht). wp_step. apply wp_on_pkt. wp_step. cbn [fst snd].
  rewrite (set_same_count t) by auto. apply wp_on_ctx. cbn [fst snd].
  change (if _ =? DNS_RR_END then None else Some _) with (null_end (first_off no_next t 0 rs)).
  rewrite <- (sec_headers_length t rs 0). unfold Zlen at 1. rewrite Nat2Z.id.
  eapply wp_ext; [apply for_rrs_each; [lia|done|lia]|].
  eapply wp_mono; [eapply (each_sent U p); [|eapply (sec_headers_stored _ p t); [exact Hall|lia..]|done|done]| |done].
  - intros v h c' Hv. apply list_elem_of_filter in Hv as [??]. by apply Hbody.
  - intros c' [] Hs. by apply HQ.
Qed.

(** ** The four sections *)

Definition sections : list dns_rr_type := [DNS_RRS_QD; DNS_RRS_AN; DNS_RRS_NS; DNS_RRS_NR].

Definition in_section (t : dns_rr_type) (vs : list rr) : list rr := filter (fun v => v_sec v = t) vs.

(** The records in the order of the message. *)
Definition in_order (vs : list rr) : list rr := sections ≫= (fun t => in_section t vs).

Lemma sent_all_app vs1 vs2 c c1 c2 :
  12 <= c_ptr c -> sent_all U vs1 c c1 -> sent_all U vs2 c1 c2 -> sent_all U (vs1 ++ vs2) c c2.
Proof.
  intros H12 (Hc1&Hw1&Hm1&Hf1&Hp1&Hl1) (Hc2&Hw2&Hm2&Hf2&Hp2&Hl2). unfold sent_all.
  assert (wire_rooms (vs1 ++ vs2) = wire_rooms vs1 + wire_rooms vs2) as Hr.
  { clear. induction vs1 as [|v vs1 IH]; cbn; [done|]. lia. }
  rewrite Hm1 in *. split_and!; try done; try lia.
  - eapply wire_rrs_app; [|exact Hw2]. eapply wire_rrs_agree; [exact Hw1| |done]. by eapply frame_body_agree.
  - eapply frame_trans; [exact Hf1|]. eapply frame_widen; [exact Hf2|lia|lia].
Qed.

(** A section of records. *)
Lemma encode_records_sent p vs t c (Q : enc_state -> unit -> Prop) E :
  pkt_view all_counted U p vs -> Forall (sendable U) vs -> t <> DNS_RRS_END -> t <> DNS_RRS_QD ->
  enc_ok U c -> wire_rooms (in_section t vs) <= _dns_left_len c ->
  (forall c', sent_all U (in_section t vs) c c' -> Q (c', p) tt) ->
  wp (encode_section t _dns_encode_an) (c, p) Q E.
Proof.
  intros Hv Hs Ht Hq Hc Hl HQ. apply (encode_section_sent p vs); try done.
  intros v h c' Hin Hsec Hst Hc' Hl'. rewrite list.Forall_forall in Hs. specialize (Hs v Hin).
  destruct (v_body v) as [qclass|ttl raw] eqn:Eb.
  { destruct Hs as ((_&_&_&_&Hqd)&_). rewrite Eb in Hqd. congruence. }
  by apply (encode_an_sent U HU p v h ttl raw).
Qed.

Lemma encode_questions_sent p vs c (Q : enc_state -> unit -> Prop) E :
  pkt_view all_counted U p vs -> Forall (sendable U) vs ->
  enc_ok U c -> wire_rooms (in_section DNS_RRS_QD vs) <= _dns_left_len c ->
  (forall c', sent_all U (in_section DNS_RRS_QD vs) c c' -> Q (c', p) tt) ->
  wp (encode_section DNS_RRS_QD _dns_encode_qd) (c, p) Q E.
Proof.
  intros Hv Hs Hc Hl HQ. apply (encode_section_sent p vs); try done.
  intros v h c' Hin Hsec Hst Hc' Hl'. rewrite list.Forall_forall in Hs. specialize (Hs v Hin).
  destruct (v_body v) as [qclass|ttl raw] eqn:Eb; [by apply (encode_qd_sent U HU p v h qclass)|].
  destruct Hs as (_&Hd). rewrite Eb in Hd. by destruct Hd as (_&_&Hd&_).
Qed.

(** ** The EDNS record *)

(** The packet's EDNS data; a message without it has payload size 0. *)
Definition edns_class (payloadsize : Z) : Z :=
  if payloadsize <? DNS_DEFAULT_PACKET_SIZE then DNS_DEFAULT_PACKET_SIZE else payloadsize.

Definition wire_edns (m : list Z) (payloadsize option_ : Z) (off e : Z) : Prop :=
  if 0 <? payloadsize then exists q,
    name_on in_body m q 0 off [] q /\ rd_bytes m q 10 = Some (rr_fixed DNS_T_OPT (edns_class payloadsize) option_ 0) /\
    e = q + 10
  else e = off.

Definition edns_count (payloadsize : Z) : Z := if 0 <? payloadsize then 1 else 0.

(** The message so far continues with the EDNS record. *)
Definition edns_sent (p : dns_packet) (c c' : dns_context) : Prop :=
  enc_ok U c' /\ c_maxsize c' = c_maxsize c /\ frame (c_ptr c) (c_maxsize c) (c_data c) (c_data c') /\
  wire_edns (c_data c') (p_payloadsize p) (p_opt_option p) (c_ptr c) (c_ptr c') /\
  c_ptr c <= c_ptr c' <= c_ptr c + 12 /\ c_ptr c' <= c_maxsize c.

Lemma encode_edns_sent p c (Q : dns_context -> unit -> Prop) E :
  0 < p_payloadsize p -> enc_ok U c -> 12 <= _dns_left_len c -> (forall c', edns_sent p c c' -> Q c' tt) ->
  wp (_dns_encode_opts p None 0) c Q E.
Proof.
  intros Hps (S&Hi) Hl HQ. unfold _dns_encode_opts. wp_step.
  change (_dns_get_opts_data_len p None 0 0) with (Ok 0 tt : res Z unit).
  unfold wp at 1. cbv beta iota zeta. wp_step. wp_step; [|lia]. wp_step.
  apply (wp_rr_head U HU S []); [done|constructor|done|done|]. intros c1 Hh.
  pose proof (headed_inv U _ _ _ _ _ Hi Hh ltac:(by rewrite rr_fixed_len)) as [_ Hi1].
  destruct Hh as (q&Hn&Hr&Hp&_&((_&Hm&Hf&_)&Hle&_)&Hq). rewrite rr_fixed_len in *. change (Zlen (join [])) with 0 in *.
  pose proof (name_on_ends _ _ _ _ _ _ _ Hn). wp_step. apply wp_left_len. unfold _dns_left_len. wp_step. wp_step; [|lia].
  change (Z.to_nat 0) with 0%nat. cbn [for_rrs]. wp_step. apply HQ. unfold edns_sent.
  split_and!; [by exists S|done|eapply frame_widen; [exact Hf|lia|lia]| |lia|lia|lia].
  unfold wire_edns. destruct (Z.ltb_spec 0 (p_payloadsize p)); [|lia]. exists q. split_and!; [|done|done].
  eapply name_on_body; [|exact Hn]. by apply Hi.
Qed.

(** ** The whole message *)

Lemma no_headers_start t : forall rs o, sec_headers t o rs = [] -> first_off no_next t o rs = DNS_RR_END.
Proof.
  induction rs as [|r rs IH]; intros o; cbn [sec_headers first_off]; [done|]. case_decide; [done|]. apply IH.
Qed.

(** No options are stored. *)
Lemma no_options p vs : pkt_view all_counted U p vs -> Forall (sendable U) vs -> dns_get_rrs_start p DNS_RRS_OPT = Some (0, None).
Proof.
  intros (rs&Hrep&Hall&_&Hct) Hs. pose proof Hrep as ((Hsz&_&H64&Hlen&_)&Htot&_&Hst). unfold sizeof_dns_packet in *.
  pose proof (sec_headers_stored _ p DNS_RRS_OPT _ _ _ Hall ltac:(lia) ltac:(lia) ltac:(lia)) as H2.
  replace (filter _ vs) with (@nil rr) in H2.
  - apply Forall2_nil_inv_l in H2. unfold dns_get_rrs_start.
    rewrite (Hct DNS_RRS_OPT), (Hst DNS_RRS_OPT), <- (sec_headers_length _ _ 0) by done.
    by rewrite (no_headers_start DNS_RRS_OPT rs 0 H2), H2.
  - symmetry. clear -Hs. induction Hs as [|v vs Hv Hs IH]; [done|]. rewrite filter_cons. case_decide as Ho; [|done].
    destruct Hv as ((_&_&_&_&Hq)&Hd). destruct (v_body v); [congruence|]. by destruct Hd as (_&_&_&Hd).
Qed.

(** The packet afterwards: the EDNS record is counted. *)
Definition after_encode (p : dns_packet) : dns_packet :=
  if 0 <? p_payloadsize p then set_sec_count DNS_RRS_NR (u16 (h_nrcount (p_head p) + 1)) p else p.

Definition body_sent (p : dns_packet) (vs : list rr) (c c' : dns_context) : Prop :=
  (exists e, wire_rrs (c_data c') (c_ptr c) (in_order vs) e /\
     wire_edns (c_data c') (p_payloadsize p) (p_opt_option p) e (c_ptr c')) /\
  ctx_wf c' /\ c_maxsize c' = c_maxsize c /\ frame (c_ptr c) (c_maxsize c) (c_data c) (c_data c') /\
  c_ptr c <= c_ptr c' <= c_maxsize c.

Lemma in_order_rooms vs : wire_rooms (in_order vs) =
  wire_rooms (in_section DNS_RRS_QD vs) + wire_rooms (in_section DNS_RRS_AN vs) +
  wire_rooms (in_section DNS_RRS_NS vs) + wire_rooms (in_section DNS_RRS_NR vs).
Proof.
  assert (forall a b, wire_rooms (a ++ b) = wire_rooms a + wire_rooms b) as Happ.
  { intros a b. induction a as [|v a IH]; cbn; [done|]. lia. }
  unfold in_order, sections. cbn [mbind list_bind]. rewrite !Happ. cbn [wire_rooms]. lia.
Qed.

Lemma in_order_eq vs : in_order vs =
  ((in_section DNS_RRS_QD vs ++ in_section DNS_RRS_AN vs) ++ in_section DNS_RRS_NS vs) ++ in_section DNS_RRS_NR vs.
Proof. unfold in_order, sections. cbn [mbind list_bind]. by rewrite app_nil_r, <- !app_assoc. Qed.

Lemma sent_all_room vs1 n c c1 :
  sent_all U vs1 c c1 -> wire_rooms vs1 + n <= _dns_left_len c -> n <= _dns_left_len c1 /\ enc_ok U c1.
Proof. intros (?&_&Hm&_&Hp&_) Hl. unfold _dns_left_len in *. split; [lia|done]. Qed.

Lemma body_sent_edns p vs c c1 c2 :
  12 <= c_ptr c -> sent_all U (in_order vs) c c1 -> edns_sent p c1 c2 -> body_sent p vs c c2.
Proof.
  intros H12 (_&Hw&Hm&Hf&Hp&Hle) ((S&Hwf&_)&Hm2&Hf2&He&Hp2&Hle2). rewrite Hm in *. unfold body_sent.
  split_and!; try done; try lia; [|eapply frame_trans; [exact Hf|]; eapply frame_widen; [exact Hf2|lia|lia]].
  exists (c_ptr c1). split; [|done]. eapply wire_rrs_agree; [exact Hw|by eapply frame_body_agree|done].
Qed.

Lemma encode_body_sent p vs c (Q : enc_state -> unit -> Prop) E :
  pkt_view all_counted U p vs -> Forall (sendable U) vs -> enc_ok U c -> wire_rooms (in_order vs) + 12 <= _dns_left_len c ->
  (forall c', body_sent p vs c c' -> Q (c', after_encode p) tt) -> wp _dns_encode_body (c, p) Q E.
Proof.
  intros Hv Hs Hc Hl HQ. rewrite in_order_rooms in Hl. pose proof Hc as (S0&_&_&H12&_).
  pose proof (wire_rooms_nonneg (in_section DNS_RRS_AN vs)). pose proof (wire_rooms_nonneg (in_section DNS_RRS_NS vs)).
  pose proof (wire_rooms_nonneg (in_section DNS_RRS_NR vs)). unfold _dns_encode_body.
  wp_step. apply (encode_questions_sent p vs); [done..|lia|]. intros c1 Hs1.
  destruct (sent_all_room _ (wire_rooms (in_section DNS_RRS_AN vs) + (wire_rooms (in_section DNS_RRS_NS vs) +
    (wire_rooms (in_section DNS_RRS_NR vs) + 12))) _ _ Hs1 ltac:(lia)) as [Hl1 Hc1].
  wp_step. apply (encode_records_sent p vs); [done..|lia|]. intros c2 Hs2.
  destruct (sent_all_room _ _ _ _ Hs2 Hl1) as [Hl2 Hc2].
  wp_step. apply (encode_records_sent p vs); [done..|lia|]. intros c3 Hs3.
  destruct (sent_all_room _ _ _ _ Hs3 Hl2) as [Hl3 Hc3].
  wp_step. apply (encode_records_sent p vs); [done..|lia|]. intros c4 Hs4.
  destruct (sent_all_room _ _ _ _ Hs4 Hl3) as [Hl4 Hc4].
  pose proof (sent_all_app _ _ _ _ _ H12 Hs1 Hs2) as Hs12. pose proof (sent_all_app _ _ _ _ _ H12 Hs12 Hs3) as Hs123.
  pose proof (sent_all_app _ _ _ _ _ H12 Hs123 Hs4) as Hall. rewrite <- in_order_eq in Hall.
  do 2 wp_step. cbn [fst snd]. rewrite (no_options p vs Hv Hs). unfold after_encode in HQ.
  wp_step; destruct (Z.ltb_spec 0 (p_payloadsize p)) as [Hps|Hps].
  - wp_step. apply wp_on_ctx. cbn [fst snd]. apply encode_edns_sent; [done..|]. intros c5 He.
    apply wp_on_pkt. wp_step. cbn [fst snd]. apply HQ. by eapply body_sent_edns.
  - destruct H2; bools; lia.
  - lia.
  - wp_step. apply HQ. eapply (body_sent_edns p vs c c4 c4); [done|done|]. destruct Hall as (_&_&Hm&_&Hp&Hle).
    unfold edns_sent, wire_edns. destruct (Z.ltb_spec 0 (p_payloadsize p)); [lia|]. split_and!; done || lia.
Qed.

(** ** [dns_encode] *)

(** The first [n] bytes of [m] are the message with header [h], records [vs]
    and EDNS data. *)
Definition wire_message (m : list Z) (h : dns_head) (vs : list rr) (payloadsize option_ n : Z) : Prop :=
  rd_bytes m 0 12 = Some (shorts (head_words h)) /\
  exists e, wire_rrs m 12 (in_order vs) e /\ wire_edns m payloadsize option_ e n.

Lemma wire_edns_agree m m' ps o off e :
  wire_edns m ps o off e -> body_agree e m m' -> 12 <= off -> wire_edns m' ps o off e.
Proof.
  unfold wire_edns. destruct (0 <? ps); [|done]. intros (q&Hn&Hr&He) Ha Ho.
  pose proof (name_on_ends _ _ _ _ _ _ _ Hn). exists q. split_and!; [|eapply rd_body_agree; [exact Hr|exact Ha|lia|lia]|done].
  eapply name_body_agree; [done|]. eapply body_agree_le; [done|lia].
Qed.

Lemma wire_edns_ends m ps o off e : wire_edns m ps o off e -> off <= e.
Proof.
  unfold wire_edns. destruct (0 <? ps); [|lia]. intros (q&Hn&_&?). pose proof (name_on_ends _ _ _ _ _ _ _ Hn). lia.
Qed.

(** The counts are written again behind id and flags. *)
Lemma wp_head_count h a b c (Q : dns_context -> unit -> Prop) E :
  ctx_wf c -> 12 <= c_maxsize c -> rd_bytes (c_data c) 0 4 = Some (be16 a ++ be16 b) ->
  (forall c', c_ptr c' = c_ptr c -> c_maxsize c' = c_maxsize c -> ctx_wf c' -> frame 4 12 (c_data c) (c_data c') ->
     rd_bytes (c_data c') 0 12 = Some (shorts [a; b; h_qdcount h; h_ancount h; h_nscount h; h_nrcount h]) -> Q c' tt) ->
  wp (_dns_encode_head_count h) c Q E.
Proof.
  intros (Hp&Hm&Hb) H12 Hr HQ. unfold _dns_encode_head_count.
  wp_step. apply wp_write_at; [lia|rewrite be16_len; lia|]. intros d1 Hd1. pose proof (wr_bytes_len _ _ _ _ Hd1) as Hl1.
  wp_step. apply wp_write_at; [lia|cproj; rewrite be16_len; lia|]. cproj. intros d2 Hd2. pose proof (wr_bytes_len _ _ _ _ Hd2) as Hl2.
  wp_step. apply wp_write_at; [lia|cproj; rewrite be16_len; lia|]. cproj. intros d3 Hd3. pose proof (wr_bytes_len _ _ _ _ Hd3) as Hl3.
  apply wp_write_at; [lia|cproj; rewrite be16_len; lia|]. cproj. intros d4 Hd4. pose proof (wr_bytes_len _ _ _ _ Hd4) as Hl4.
  change 6 with (4 + Zlen (be16 (h_qdcount h))) in Hd2. pose proof (wr_bytes_app _ _ _ _ _ _ Hd1 Hd2) as Hd12.
  change 8 with (4 + Zlen (be16 (h_qdcount h) ++ be16 (h_ancount h))) in Hd3.
  pose proof (wr_bytes_app _ _ _ _ _ _ Hd12 Hd3) as Hd13.
  change 10 with (4 + Zlen ((be16 (h_qdcount h) ++ be16 (h_ancount h)) ++ be16 (h_nscount h))) in Hd4.
  pose proof (wr_bytes_app _ _ _ _ _ _ Hd13 Hd4) as Hw.
  apply HQ; cproj; [done..| | |].
  - split_and!; [done|cproj; lia|]. cproj. refine (wr_bytes_byte _ _ _ _ Hb _ Hw). repeat apply Forall_app_2; auto with cdb.
  - eapply frame_wr; [exact Hw|lia|]. rewrite !Zlen_app, !be16_len. lia.
  - unfold shorts. cbn [fmap list_fmap concat]. rewrite app_assoc. apply (rd_bytes_split _ _ 4 8).
    + rewrite (rd_bytes_wr_out _ _ _ _ _ _ Hw) by lia. done.
    + pose proof (rd_bytes_wr_same _ _ _ _ Hw) as R. rewrite app_nil_r. rewrite <- !app_assoc in R. exact R.
Qed.

Lemma after_encode_head p : h_id (p_head (after_encode p)) = h_id (p_head p) /\
  head_fields (p_head (after_encode p)) = head_fields (p_head p).
Proof. unfold after_encode. destruct (0 <? p_payloadsize p); [|done]. destruct p as [[]]. done. Qed.

Lemma dns_encode_message data size p vs :
  pkt_view all_counted U p vs -> Forall (sendable U) vs -> Forall is_byte data -> size <= Zlen data -> size <= 16384 ->
  wire_rooms (in_order vs) + 24 <= size ->
  exists c, dns_encode data size p = Ok (c, after_encode p) (c_ptr c) /\ 12 <= c_ptr c <= size /\
    Zlen (c_data c) = Zlen data /\ Forall is_byte (c_data c) /\
    wire_message (c_data c) (p_head (after_encode p)) vs (p_payloadsize p) (p_opt_option p) (c_ptr c).
Proof.
  intros Hv Hs Hb Hsz H14 Hroom. pose proof (wire_rooms_nonneg (in_order vs)).
  enough (match dns_encode data size p with
    | Ok s n => s.2 = after_encode p /\ n = c_ptr s.1 /\ 12 <= c_ptr s.1 <= size /\ Zlen (c_data s.1) = Zlen data /\
        Forall is_byte (c_data s.1) /\
        wire_message (c_data s.1) (p_head (after_encode p)) vs (p_payloadsize p) (p_opt_option p) (c_ptr s.1)
    | Fail _ | UB | Diverged => False
    end) as Hwp.
  { destruct (dns_encode data size p) as [[c p'] n|?| |]; [|done..]. cbn [fst snd] in Hwp.
    destruct Hwp as (->&->&?). by exists c. }
  unfold dns_encode. apply wp_run. wp_step. apply wp_on_ctx. cbn [fst snd].
  assert (ctx_wf (wire_context data size)) as Hwf by (unfold ctx_wf, wire_context; cproj; split_and!; done || lia).
  eapply wp_ext; [apply encode_head_shorts; unfold _dns_left_len, wire_context; cproj; lia|].
  apply write_shorts_spec; [done|unfold _dns_left_len, wire_context; cproj; change (2 * Zlen _) with 12; lia|].
  change (2 * Zlen _) with 12. intros c1 Hw1 Hd1 Hr1. pose proof Hw1 as ((_&Hm1&Hf1&_)&_&Hp1&_). cbn in Hm1, Hp1, Hd1, Hr1.
  assert (enc_ok U c1) as Hc1.
  { exists in_body. unfold enc_inv. rewrite Hm1, Hp1. split_and!; try done; [by eapply writes_wf|].
    unfold dict_good. rewrite Hd1. constructor. }
  wp_step. apply (encode_body_sent p vs); [done..|unfold _dns_left_len; lia|]. intros c2 ((e&Hw2&He2)&Hwf2&Hm2&Hf2&Hp2).
  do 2 wp_step. wp_step. apply wp_on_ctx. cbn [fst snd]. rewrite Hm1, Hp1 in *. destruct (after_encode_head p) as [Hid Hfl].
  apply (wp_head_count _ (h_id (p_head p)) (head_fields (p_head p))); [done|lia| |].
  { rewrite (frame_rd_bytes _ _ _ _ _ _ Hf2) by lia.
    pose proof (rd_bytes_sub _ _ _ _ 0 4 Hr1 ltac:(lia) ltac:(lia) ltac:(lia)) as R. exact R. }
  intros c3 Hp3 Hm3 (?&_&Hb3) Hf3 Hr3. do 2 wp_step. wp_step. cbn [fst snd].
  pose proof (wire_rrs_ends _ _ _ _ Hw2). pose proof (wire_edns_ends _ _ _ _ _ He2).
  assert (body_agree (c_ptr c3) (c_data c2) (c_data c3)) as Ha.
  { destruct Hf3 as [Hl3 Hf3]. split; [done|]. intros i Hi. apply Hf3. lia. }
  split_and!; try done; try lia; [by destruct Hf1 as [Hl1 _], Hf2 as [Hl2 _], Hf3 as [Hl3 _]; cbn in Hl1; congruence|]. split.
  - unfold head_words. by rewrite Hid, Hfl.
  - exists e. split.
    + eapply wire_rrs_agree; [exact Hw2| |lia]. eapply body_agree_le; [exact Ha|lia].
    + rewrite Hp3 in *. eapply wire_edns_agree; [exact He2|done|lia].
Qed.

End message.
