(* ===== verification/DnsMessage.v ===== *)
(** * Messages: what is encoded is decoded (src/dns.c)

    [dns_decode] applied to the message [dns_encode] wrote gives a packet with
    the same header and the same records. *)

From Stdlib Require Import ZArith Lia.
From stdpp Require Import base list numbers option.
From S2P Require Import Prelude DnsTypes DnsName DnsNameRt DnsRrs DnsRrsSpec DnsRecord DnsAddSpec DnsView DnsDecode DnsDecodeSpec DnsStore DnsEncode DnsHeadRt DnsWire DnsEncodeSpec DnsEncodeMsg.

(** ** Reading known bytes *)

(** A test that would need one of several impossible cases. *)
Ltac by_cases := match goal with H : _ \/ _ |- _ => destruct H end; bools; lia.

Lemma wp_known_name S c ls e size (Q : dns_context -> list Z -> Prop) E :
  name_on S (c_data c) e 0 (c_ptr c) ls e -> e <= c_maxsize c -> labels_ok ls -> Zlen (join ls) <= size - 2 ->
  Q (set_ptr e c) (join ls) -> wp (_dns_decode_domain size) c Q E.
Proof.
  intros Hn He Hls Hsz HQ. unfold _dns_decode_domain. wp_step. unfold wp at 1, zoom.
  rewrite (get_domain_complete (c_data c) (c_maxsize c) size _ ls e);
    [|eapply name_on_at, name_on_mono; [exact Hn|done|lia]|done].
  cbv beta iota. wp_step. by rewrite until_nul_id by (by apply labels_ok_nonzero).
Qed.

Lemma wp_known_short c v (Q : dns_context -> Z -> Prop) E :
  rd_bytes (c_data c) (c_ptr c) 2 = Some (be16 v) -> 0 <= v < 65536 -> Q (set_ptr (c_ptr c + 2) c) v ->
  wp _dns_read_short c Q E.
Proof.
  intros Hr Hv HQ. unfold _dns_read_short. wp_step. eapply wp_read_known; [exact Hr|]. wp_step.
  by rewrite of_be16, u16_small.
Qed.

Lemma wp_known_int c v (Q : dns_context -> Z -> Prop) E :
  rd_bytes (c_data c) (c_ptr c) 4 = Some (be32 v) -> 0 <= v < 4294967296 -> Q (set_ptr (c_ptr c + 4) c) v ->
  wp _dns_read_int c Q E.
Proof.
  intros Hr Hv HQ. unfold _dns_read_int. wp_step. eapply wp_read_known; [exact Hr|]. wp_step.
  by rewrite of_be32, u32_small.
Qed.

(** The first and the rest of the bytes known. *)
Lemma rd_first m a n bs1 bs2 :
  rd_bytes m a n = Some (bs1 ++ bs2) ->
  rd_bytes m a (Zlen bs1) = Some bs1 /\ rd_bytes m (a + Zlen bs1) (Zlen bs2) = Some bs2.
Proof.
  intros Hr. pose proof (rd_bytes_len _ _ _ _ Hr) as Hn. rewrite <- Hn in Hr.
  pose proof (rd_piece m a [] bs1 bs2 0 _ Hr eq_refl eq_refl) as H1. rewrite Z.add_0_r in H1.
  split; [done|]. exact (rd_piece m a bs1 bs2 [] _ _ ltac:(by rewrite app_nil_r) eq_refl eq_refl).
Qed.

Lemma wp_known_qr S c ls ty cl q (Q : dns_context -> qr_head -> Prop) E :
  name_on S (c_data c) q 0 (c_ptr c) ls q -> q + 4 <= c_maxsize c -> labels_ok ls -> Zlen (join ls) <= 254 ->
  rd_bytes (c_data c) q 4 = Some (be16 ty ++ be16 cl) -> 0 <= ty < 65536 -> 0 <= cl < 65536 ->
  Q (set_ptr (q + 4) c) (mk_qr_head (join ls) ty cl) -> wp (_dns_decode_qr_head DNS_MAX_CNAME_LEN) c Q E.
Proof.
  intros Hn Hq Hls Hj Hr Hty Hcl HQ. destruct (rd_first (c_data c) q _ (be16 ty) (be16 cl) Hr) as [R1 R2].
  unfold _dns_decode_qr_head. wp_step.
  apply (wp_known_name S _ ls q); [done|lia|done|unfold DNS_MAX_CNAME_LEN; lia|].
  wp_step. apply wp_left_len. unfold _dns_left_len. cproj. wp_step. wp_step; [|lia].
  wp_step. apply (wp_known_short _ ty); [done..|]. cproj. wp_step. apply (wp_known_short _ cl); [done..|]. cproj.
  wp_step. by rewrite <- Z.add_assoc.
Qed.

Lemma wp_known_rr S c ls ty cl ttl len q (Q : dns_context -> rr_head -> Prop) E :
  name_on S (c_data c) q 0 (c_ptr c) ls q -> q + 10 + len <= c_maxsize c -> labels_ok ls -> Zlen (join ls) <= 254 ->
  rd_bytes (c_data c) q 10 = Some (rr_fixed ty cl ttl len) -> 0 <= ty < 65536 -> 0 <= cl < 65536 ->
  0 <= ttl < 2147483648 -> 0 <= len < 65536 ->
  Q (set_ptr (q + 10) c) (mk_rr_head (mk_qr_head (join ls) ty cl) ttl len) ->
  wp (_dns_decode_rr_head DNS_MAX_CNAME_LEN) c Q E.
Proof.
  intros Hn Hq Hls Hj Hr Hty Hcl Httl Hlen HQ.
  destruct (rd_first (c_data c) q _ (be16 ty ++ be16 cl) (be32 ttl ++ be16 len) Hr) as [R1 R2].
  destruct (rd_first (c_data c) (q + 4) _ (be32 ttl) (be16 len) R2) as [R3 R4].
  unfold _dns_decode_rr_head. wp_step. apply (wp_known_qr S _ ls ty cl q); [done|lia|done..|].
  wp_step. apply wp_left_len. unfold _dns_left_len. cproj. wp_step. wp_step; [|lia].
  wp_step. apply (wp_known_int _ ttl); [done|lia|]. cproj. wp_step. apply (wp_known_short _ len); [exact R4|done|]. cproj.
  cbv zeta. rewrite s32_small by done. wp_step. wp_step; [|by_cases].
  wp_step. apply wp_left_len. unfold _dns_left_len. cproj. wp_step. wp_step; [|lia]. wp_step.
  by rewrite <- !Z.add_assoc.
Qed.

Lemma wp_known_raw c bs (Q : dns_context -> list Z -> Prop) E :
  rd_bytes (c_data c) (c_ptr c) (Zlen bs) = Some bs -> c_ptr c + Zlen bs <= c_maxsize c ->
  Q (set_ptr (c_ptr c + Zlen bs) c) bs -> wp (_dns_decode_raw (Zlen bs)) c Q E.
Proof.
  intros Hr Hl HQ. unfold _dns_decode_raw. wp_step. apply wp_left_len. unfold _dns_left_len. pose proof (Zlen_nonneg bs).
  wp_step. wp_step; [|by_cases]. by apply (wp_read_known _ bs).
Qed.

Lemma wp_known_SOA S c soa ls1 ls2 e1 e2 (Q : dns_context -> dns_soa -> Prop) E :
  data_name 253 ls1 -> soa_mname soa = join ls1 -> name_on S (c_data c) e1 0 (c_ptr c) ls1 e1 ->
  data_name 253 ls2 -> soa_rname soa = join ls2 -> name_on S (c_data c) e2 0 e1 ls2 e2 -> soa_ok soa ->
  rd_bytes (c_data c) e2 20 = Some (soa_numbers be32 soa) -> e2 + 20 <= c_maxsize c ->
  Q (set_ptr (e2 + 20) c) soa -> wp _dns_decode_SOA c Q E.
Proof.
  intros [Hls1 Hl1] He1 Hn1 [Hls2 Hl2] He2 Hn2 (H1&H2&H3&H4&H5) Hr Hmax HQ. pose proof (name_on_ends _ _ _ _ _ _ _ Hn2).
  destruct (rd_first (c_data c) e2 _ (be32 (soa_serial soa)) _ Hr) as [R1 Hr1].
  destruct (rd_first (c_data c) _ _ (be32 (soa_refresh soa)) _ Hr1) as [R2 Hr2].
  destruct (rd_first (c_data c) _ _ (be32 (soa_retry soa)) _ Hr2) as [R3 Hr3].
  destruct (rd_first (c_data c) _ _ (be32 (soa_expire soa)) _ Hr3) as [R4 R5].
  unfold _dns_decode_SOA. wp_step. apply (wp_known_name S _ ls1 e1); [done|lia|done|unfold DNS_MAX_CNAME_LEN; lia|].
  wp_step. apply (wp_known_name S _ ls2 e2); [done|done || (cproj; lia)|done|unfold DNS_MAX_CNAME_LEN; lia|].
  wp_step. apply wp_left_len. unfold _dns_left_len. cproj. wp_step. wp_step; [|lia].
  wp_step. apply (wp_known_int _ (soa_serial soa)); [done..|]. cproj.
  wp_step. apply (wp_known_int _ (soa_refresh soa)); [done..|]. cproj.
  wp_step. apply (wp_known_int _ (soa_retry soa)); [done..|]. cproj.
  wp_step. apply (wp_known_int _ (soa_expire soa)); [done..|]. cproj.
  wp_step. apply (wp_known_int _ (soa_minimum soa)); [done..|]. cproj.
  wp_step. rewrite <- !Z.add_assoc, <- He1, <- He2. destruct soa. exact HQ.
Qed.

Lemma wp_known_SRV S c x y z ls e (Q : dns_context -> Z * Z * Z * list Z -> Prop) E :
  0 <= x < 65536 -> 0 <= y < 65536 -> 0 <= z < 65536 -> data_name 248 ls ->
  rd_bytes (c_data c) (c_ptr c) 6 = Some (be16 x ++ be16 y ++ be16 z) ->
  name_on S (c_data c) e 0 (c_ptr c + 6) ls e -> e <= c_maxsize c -> Q (set_ptr e c) (x, y, z, join ls) ->
  wp (_dns_decode_SRV DNS_MAX_CNAME_LEN) c Q E.
Proof.
  intros Hx Hy Hz [Hls Hl] Hr Hn He HQ. pose proof (name_on_ends _ _ _ _ _ _ _ Hn).
  destruct (rd_first (c_data c) _ _ (be16 x) _ Hr) as [R1 Hr1]. destruct (rd_first (c_data c) _ _ (be16 y) _ Hr1) as [R2 R3].
  unfold _dns_decode_SRV. wp_step. apply wp_left_len. unfold _dns_left_len. wp_step. wp_step; [|lia].
  wp_step. apply (wp_known_short _ x); [done..|]. cproj. wp_step. apply (wp_known_short _ y); [done..|]. cproj.
  wp_step. apply (wp_known_short _ z); [done..|]. cproj. wp_step.
  apply (wp_known_name S _ ls e); cproj; [by rewrite <- !Z.add_assoc|done|done|unfold DNS_MAX_CNAME_LEN; lia|].
  by wp_step.
Qed.

(** ** Decoding a record *)

Lemma data_ok_plain U ty raw : data_ok U ty raw -> plain_type ty = true ->
  Zlen raw < 1024 /\ (ty = DNS_T_A -> Zlen raw = DNS_RR_A_LEN) /\ (ty = DNS_T_AAAA -> Zlen raw = DNS_RR_AAAA_LEN).
Proof.
  intros Hd Hp. inversion Hd; subst; try done.
  match goal with H : name_type _ = true |- _ => unfold plain_type in Hp; by rewrite H in Hp end.
Qed.

(** The data is read and the record added, with the same call a client makes. *)
Lemma decode_rdata_known U v ttl raw c p e (Q : dec_state -> unit -> Prop) (E : dec_state -> Prop) :
  v_body v = Data ttl raw -> data_ok U (v_type v) raw -> rdata_on in_body (c_data c) e (v_type v) raw (c_ptr c) ->
  e <= c_maxsize c -> wp (add_rr v) p (fun p' _ => Q (set_ptr e c, p') tt) (fun _ => False) ->
  wp (_dns_decode_rdata (v_sec v) (mk_rr_head (mk_qr_head (join (v_labels v)) (v_type v) DNS_C_IN) ttl (e - c_ptr c)))
    (c, p) Q E.
Proof.
  intros Eb Hd Hr He Hadd. unfold add_rr in Hadd. rewrite Eb in Hadd.
  unfold _dns_decode_rdata. cbn [r_qr q_domain q_type q_class r_ttl r_len]. cbv zeta.
  assert (forall m, wp m p (fun p' _ => Q (set_ptr e c, p') tt) (fun _ => False) -> wp (on_pkt m) (set_ptr e c, p) Q E) as Hk.
  { intros m Hm. apply wp_on_pkt. cbn [fst snd]. eapply wp_mono; [exact Hm|by intros p' []|by intros ? []]. }
  remember (v_type v) as ty0 eqn:Ety. remember (c_ptr c) as off0 eqn:Eoff.
  destruct Hr as [ty raw off Hpl Hrd ->|ty ls off Hnt Hdn Hn|soa ls1 ls2 off e1 e2 Hd1 He1 Hn1 Hd2 He2 Hn2 Hok Hrd ->|
    x y z ls off Hx Hy Hz Hdn Hrd Hn]; subst off.
  - destruct (data_ok_plain _ _ _ Hd Hpl) as (Hlen&HA&HAAAA). unfold plain_type, name_type in Hpl. bools.
    replace (c_ptr c + Zlen raw - c_ptr c) with (Zlen raw) by lia.
    wp_step; [|wp_step; [lia|]; wp_step; [lia|]; wp_step; [lia|]; wp_step; [lia|]; wp_step].
    + rewrite <- HA by done. wp_step. apply wp_on_ctx. cbn [fst snd]. apply wp_known_raw; [done..|]. apply Hk.
      unfold dns_add_A. wp_step. apply wp_access. exists raw. split; [apply rd_bytes_all; auto|]. by match goal with H : ty = _ |- _ => rewrite <- H end.
    + rewrite <- HAAAA by done. wp_step. apply wp_on_ctx. cbn [fst snd]. apply wp_known_raw; [done..|]. apply Hk.
      unfold dns_add_AAAA. wp_step. apply wp_access. exists raw. split; [apply rd_bytes_all; auto|]. by match goal with H : ty = _ |- _ => rewrite <- H end.
    + do 2 (wp_step; [lia|]). wp_step; [by_cases|].
      wp_step. apply wp_on_ctx, wp_left_len. cbn [fst snd]. unfold _dns_left_len. wp_step.
      wp_step; [|by_cases]. wp_step. apply wp_on_ctx. cbn [fst snd]. apply wp_known_raw; [done..|]. by apply Hk.
  - destruct Hdn as [Hls Hl]. unfold name_type in Hnt. destruct (Z.eqb_spec ty DNS_T_CNAME) as [->|].
    + cbn. wp_step. apply wp_on_ctx. cbn [fst snd]. apply (wp_known_name in_body _ ls e); [done..|unfold DNS_MAX_CNAME_LEN; lia|]. by apply Hk.
    + destruct (Z.eqb_spec ty DNS_T_PTR) as [->|]; [|done]. cbn. wp_step. apply wp_on_ctx. cbn [fst snd].
      apply (wp_known_name in_body _ ls e); [done..|unfold DNS_MAX_CNAME_LEN; lia|]. by apply Hk.
  - cbn. wp_step. apply wp_on_ctx. cbn [fst snd]. apply (wp_known_SOA in_body _ soa ls1 ls2 e1 e2); [done..|]. by apply Hk.
  - cbn. wp_step. apply wp_on_ctx. cbn [fst snd]. apply (wp_known_SRV in_body _ x y z ls e); [done..|]. cbv beta iota. apply Hk.
    unfold dns_add_SRV. cbv zeta. destruct Hdn as [Hls Hl]. unfold strnlen, DNS_MAX_CNAME_LEN. wp_step. wp_step; [done|lia].
Qed.

(** ** Decoding a section *)

Section decode.
Context (U : list Z -> Prop).
Hypothesis HU : hash_faithful U.

(** One more record in the packet. *)
Definition stored_more (C : dns_rr_type -> Prop) (vs0 : list rr) (t : dns_rr_type) (vs : list rr) (p p' : dns_packet) : Prop :=
  pkt_view C U p' (vs0 ++ vs) /\ same_meta p p' /\ (forall t', t' <> t -> sec_count t' p' = sec_count t' p) /\
  p_len p' <= p_len p + rooms vs.

Lemma add_rr_bumps C p vs0 v :
  pkt_view C U p vs0 -> addable U v ->
  wp (add_rr v) p (fun p' _ => same_meta p p' /\ bump (v_sec v) p p') (fun _ => True).
Proof.
  intros (rs&Hrep&_) ((Hty&Hls&Hbody)&Hs&_&_&Hq). unfold add_rr.
  pose proof (join_bytes _ Hls) as Hb. destruct (v_body v) as [qclass|ttl raw].
  - eapply (add_domain_spec _ _ _ p rs); try done. intros c' r pl p' _ _ (_&?&?) _. rewrite Hq. done.
  - eapply (add_RAW_spec _ _ _ _ _ p rs); try done. by intros c' r pl p' _ _ (_&?&?) _.
Qed.

Lemma add_rr_stored C p vs0 v :
  pkt_view C U p vs0 -> p_size p <= 16384 -> addable U v -> p_len p + rr_room v <= p_size p - sizeof_dns_packet ->
  wp (add_rr v) p (fun p' _ => stored_more C vs0 (v_sec v) [v] p p') (fun _ => False).
Proof.
  intros Hv Hsz Ha Hroom. pose proof (add_rr_view C U p vs0 v HU Hv Hsz Ha) as Ho.
  pose proof (add_rr_grows C U p vs0 v Hv Ha) as Hg. pose proof (add_rr_bumps C p vs0 v Hv Ha) as Hb. unfold wp in *.
  destruct (add_rr v p) as [p' []|p'| |]; [|unfold add_outcome, rr_room, sizeof_dns_packet, sizeof_dns_rrs in *; lia|done..].
  destruct Hg as [_ Hg], Hb as [Hm Hb]. unfold stored_more. cbn [rooms]. split_and!; [done|done| |lia].
  intros t' Ht'. rewrite Hb. by case_decide.
Qed.

(** The state after reading up to [e]. *)
Definition at_end (C : dns_rr_type -> Prop) (vs0 : list rr) (t : dns_rr_type) (vs : list rr) (e : Z) (c : dns_context) (p : dns_packet)
    (s : dec_state) : Prop := s.1 = set_ptr e c /\ stored_more C vs0 t vs p s.2.

Lemma decode_one_known C vs0 v c p e :
  sendable U v -> wire_rr (c_data c) v (c_ptr c) e -> e <= c_maxsize c -> pkt_view C U p vs0 -> p_size p <= 16384 ->
  p_len p + rr_room v <= p_size p - sizeof_dns_packet ->
  wp (match v_body v with Question _ => _dns_decode_qd | Data _ _ => _dns_decode_an (v_sec v) end) (c, p)
    (fun s _ => at_end C vs0 (v_sec v) [v] e c p s) (fun _ => False).
Proof.
  intros (Ha&Hs) (q&Hn&Hw) He Hv Hsz Hroom. pose proof Ha as ((Hty&Hls&Hbody)&_&_&Hj&_).
  pose proof (add_rr_stored C p vs0 v Hv Hsz Ha Hroom) as Hadd. destruct (v_body v) as [qclass|ttl raw] eqn:Eb.
  - destruct Hw as [Hr ->]. unfold _dns_decode_qd. wp_step. apply wp_on_ctx. cbn [fst snd].
    apply (wp_known_qr in_body _ (v_labels v) (v_type v) qclass q); [done..|]. cbn [q_domain q_type q_class].
    apply wp_on_pkt. cbn [fst snd]. unfold add_rr in Hadd. rewrite Eb in Hadd.
    eapply wp_mono; [exact Hadd| |done]. by intros p' [] Hp'.
  - destruct Hw as (Hr&Hlen&Hd), Hs as (Httl&Hok&_). unfold _dns_decode_an. wp_step. apply wp_on_ctx. cbn [fst snd].
    apply (wp_known_rr in_body _ (v_labels v) (v_type v) DNS_C_IN ttl (e - (q + 10)) q); [done|lia|done..|lia|].
    wp_step. wp_step; [|done]. do 2 wp_step. cbv zeta. cbn [fst snd]. wp_step.
    apply (decode_rdata_known U v ttl raw (set_ptr (q + 10) c) p e); [done..|].
    eapply wp_mono; [exact Hadd| |done]. intros p' [] Hp'. do 2 wp_step. cproj. cbn [fst snd r_len]. cproj.
    wp_step; [|lia]. by rewrite set_set_ptr.
Qed.

Lemma stored_more_app C vs0 t vs1 vs2 p p1 p2 :
  stored_more C vs0 t vs1 p p1 -> stored_more C (vs0 ++ vs1) t vs2 p1 p2 -> stored_more C vs0 t (vs1 ++ vs2) p p2.
Proof.
  intros (_&Hm1&Hc1&Hl1) (Hv2&Hm2&Hc2&Hl2). unfold stored_more. rewrite app_assoc. split_and!; [done| | |].
  - by eapply same_meta_trans.
  - intros t' Ht'. by rewrite Hc2, Hc1.
  - assert (rooms (vs1 ++ vs2) = rooms vs1 + rooms vs2) as ->; [|lia].
    clear. induction vs1 as [|v vs1 IH]; cbn; lia.
Qed.

Lemma rooms_nonneg vs : 0 <= rooms vs.
Proof.
  induction vs as [|v vs IH]; cbn; [done|]. unfold rr_room, sizeof_dns_rrs.
  pose proof (Zlen_nonneg (join (v_labels v))). pose proof (Zlen_nonneg (rr_tail v)). lia.
Qed.

Definition decode_body_of (t : dns_rr_type) : M dec_state unit :=
  match t with DNS_RRS_QD => _dns_decode_qd | _ => _dns_decode_an t end.

Lemma body_of_sendable v : sendable U v ->
  decode_body_of (v_sec v) = match v_body v with Question _ => _dns_decode_qd | Data _ _ => _dns_decode_an (v_sec v) end.
Proof.
  intros ((_&_&_&_&Hq)&Hd). destruct (v_body v); [by rewrite Hq|]. destruct Hd as (_&_&?&_). by destruct (v_sec v).
Qed.

Lemma times_known C t vs : Forall (sendable U) vs -> Forall (fun v => v_sec v = t) vs ->
  forall vs0 c p e, wire_rrs (c_data c) (c_ptr c) vs e -> e <= c_maxsize c ->
  pkt_view C U p vs0 -> p_size p <= 16384 -> p_len p + rooms vs <= p_size p - sizeof_dns_packet ->
  wp (times (length vs) (decode_body_of t)) (c, p) (fun s _ => at_end C vs0 t vs e c p s) (fun _ => False).
Proof.
  intros Hs Ht. induction Hs as [|v vs Hv Hs IH]; intros vs0 c p e Hw He Hp Hsz Hroom; cbn [length times wire_rrs rooms] in *.
  - wp_step. split; [by subst; destruct c|]. unfold stored_more. rewrite app_nil_r. cbn [rooms snd]. split_and!; done || lia.
  - apply Forall_cons_1 in Ht as [Htv Ht]. destruct Hw as (e1&Hw1&Hw2). pose proof (wire_rrs_ends _ _ _ _ Hw2).
    pose proof (rooms_nonneg vs). pose proof (decode_one_known C vs0 v c p e1 Hv Hw1 ltac:(lia) Hp Hsz ltac:(lia)) as Hone.
    rewrite <- (body_of_sendable v Hv), Htv in Hone. wp_step. eapply wp_mono; [exact Hone| |done].
    intros [c1 p1] [] [Hc1 Hm]. cbn [fst] in Hc1. subst c1. pose proof Hm as (Hv1&(Hsz1&_)&_&Hl1). cbn [fst snd rooms] in *.
    eapply wp_mono; [apply (IH Ht (vs0 ++ [v]) (set_ptr e1 c) p1 e); cproj; try done; lia| |done].
    intros [c2 p2] [] [Hc2 Hm2]. split; [done|]. by apply (stored_more_app C vs0 t [v] vs p p1 p2).
Qed.

(** ** Decoding a message *)

Lemma view_mono (C C' : dns_rr_type -> Prop) p vs : pkt_view C U p vs -> (forall t, C' t -> C t) -> pkt_view C' U p vs.
Proof. intros (rs&Hrep&Hall&Hd&Hct) HC. exists rs. split_and!; [done..|]. intros t Ht. by apply Hct, HC. Qed.

Definition or_sec (t : dns_rr_type) (C : dns_rr_type -> Prop) (x : dns_rr_type) : Prop := x = t \/ C x.

Lemma all_hold_sec S m t rs : forall vs o,
  all_hold S m o rs vs -> Forall (fun v => v_sec v <> t) vs -> sec_records t rs = [].
Proof.
  induction rs as [|r rs IH]; intros [|v vs] o; cbn [all_hold]; try done.
  intros [(Hs&_) Hall] [Hv Hvs]%Forall_cons_1. unfold sec_records in *. rewrite filter_cons.
  case_decide; [congruence|]. by eapply IH.
Qed.

(** The count of a section that has no records yet is reset. *)
Lemma view_new_section C t p vs :
  pkt_view C U p vs -> t <> DNS_RRS_END -> Forall (fun v => v_sec v <> t) vs ->
  pkt_view (or_sec t C) U (set_sec_count t 0 p) vs.
Proof.
  intros (rs&Hrep&Hall&Hd&Hct) Ht Hvs. destruct (set_count_meta t 0 p) as ((Hsz&Ha&_)&Hdt&Hl&Hdict).
  pose proof Hrep as (Hok&Htot&Hlaid&Hst).
  exists rs. unfold pkt_rep, pkt_ok. rewrite Hsz, Ha, Hdt, Hl, Hdict. split_and!; try done; try apply Hok.
  - intros t' Ht'. rewrite sec_start_set_count. auto.
  - intros t' Ht'. rewrite sec_count_set_count by done. case_decide as Heq.
    + subst t'. by rewrite (all_hold_sec _ _ t _ _ _ Hall Hvs).
    + destruct Ht' as [->|]; [done|auto].
Qed.

Lemma times_plus {S} n k (body : M S unit) s : times (n + k) body s = bind (times n body) (fun _ => times k body) s.
Proof.
  revert s. induction n as [|n IH]; intros s; [done|]. cbn [Nat.add times]. unfold bind.
  destruct (body s) as [s' []|?| |]; [|done..]. by rewrite IH.
Qed.

(** One section with [k] entries behind its records. *)
Lemma decode_section_known C t vs k vs0 c p e (Q : dec_state -> unit -> Prop) (E : dec_state -> Prop) :
  Forall (sendable U) vs -> Forall (fun v => v_sec v = t) vs -> Forall (fun v => v_sec v <> t) vs0 ->
  t <> DNS_RRS_END -> sec_count t p = Some (Zlen vs + Z.of_nat k) ->
  wire_rrs (c_data c) (c_ptr c) vs e -> e <= c_maxsize c -> pkt_view C U p vs0 -> p_size p <= 16384 ->
  p_len p + rooms vs <= p_size p - sizeof_dns_packet ->
  (forall p', stored_more (or_sec t C) vs0 t vs p p' -> wp (times k (decode_body_of t)) (set_ptr e c, p') Q E) ->
  wp (decode_section t (decode_body_of t)) (c, p) Q E.
Proof.
  intros Hs Ht H0 Hend Hcount Hw He Hv Hsz Hroom HQ. unfold decode_section. do 2 wp_step. cbn [snd]. rewrite Hcount.
  wp_step. apply wp_on_pkt. wp_step. cbn [fst snd]. pose proof (Zlen_nonneg vs).
  destruct (set_count_meta t 0 p) as (Hm0&Hd0&Hl0&_). pose proof Hm0 as (Hsz0&_).
  replace (Z.to_nat (Zlen vs + Z.of_nat k)) with (length vs + k)%nat by (unfold Zlen; lia).
  eapply wp_ext; [apply times_plus|]. wp_step.
  eapply wp_mono; [apply (times_known (or_sec t C) t vs Hs Ht vs0 c (set_sec_count t 0 p) e Hw He);
    [by apply view_new_section|lia|lia]| |by intros ? []].
  intros [c1 p1] [] [Hc1 (Hv1&Hm1&Hct1&Hl1)]. cbn [fst snd] in *. subst c1. apply HQ. unfold stored_more.
  split_and!; [done|by eapply same_meta_trans| |lia]. intros t' Ht'. rewrite Hct1 by done.
  rewrite sec_count_set_count by done. by case_decide.
Qed.

(** The EDNS record sets payload size and option. *)
Lemma decode_edns_known ps o c p e :
  0 < ps < 65536 -> 0 <= o < 2147483648 -> wire_edns (c_data c) ps o (c_ptr c) e -> e <= c_maxsize c ->
  wp (_dns_decode_an DNS_RRS_NR) (c, p)
    (fun s _ => s = (set_ptr e c, set_payloadsize (edns_class ps) (set_opt_option o p))) (fun _ => False).
Proof.
  intros Hps Ho Hw He. unfold wire_edns in Hw. destruct (Z.ltb_spec 0 ps); [|lia]. destruct Hw as (q&Hn&Hr&->).
  assert (512 <= edns_class ps < 65536) as Hcl.
  { unfold edns_class, DNS_DEFAULT_PACKET_SIZE. destruct (Z.ltb_spec ps 512); lia. }
  unfold _dns_decode_an. wp_step. apply wp_on_ctx. cbn [fst snd].
  apply (wp_known_rr in_body _ [] DNS_T_OPT (edns_class ps) o 0 q); [done|lia|constructor|done|done|done|lia|lia|done|].
  cbn [r_qr q_class]. wp_step. wp_step; [|lia]. do 2 wp_step. cbv zeta. cbn [fst snd]. wp_step.
  unfold _dns_decode_rdata. cbn [r_qr q_domain q_type q_class r_ttl r_len]. cbv zeta.
  cbn [Z.eqb Pos.eqb DNS_T_OPT DNS_T_A DNS_T_CNAME DNS_T_SOA DNS_T_NS DNS_T_PTR DNS_T_AAAA DNS_T_SRV].
  do 2 wp_step. wp_step.
  assert (_dns_decode_opt o 0 (set_ptr (q + 10) c, p) = Ok (set_ptr (q + 10) c, p) tt) as Hopt.
  { unfold _dns_decode_opt, bind, guard. cbn [negb Z.ltb Z.compare]. destruct (negb _); [done|].
    unfold get. cbn [fst]. change (S (Z.to_nat 0)) with 1%nat. cbn [while_ptr]. unfold bind, get. cbn [fst]. cproj.
    rewrite Z.add_0_r, Z.ltb_irrefl. done. }
  eapply wp_of_ok; [exact Hopt|]. do 2 wp_step. cbn [fst]. wp_step. wp_step; [|lia].
  wp_step. apply wp_on_pkt. unfold dns_set_OPT_option, dns_set_OPT_payload_size. wp_step. apply wp_on_pkt. cbv zeta. wp_step.
  do 2 wp_step. cbn [fst snd]. wp_step; [|lia]. cbn [fst snd]. rewrite u32_small by lia.
  destruct (Z.ltb_spec (edns_class ps) 512); [lia|]. by rewrite u16_small by lia.
Qed.

Lemma wire_rrs_app_inv m vs1 vs2 off e : wire_rrs m off (vs1 ++ vs2) e ->
  exists e1, wire_rrs m off vs1 e1 /\ wire_rrs m e1 vs2 e.
Proof.
  revert off. induction vs1 as [|v vs1 IH]; intros off; cbn; [eauto|].
  intros (e0&Hv&(e1&H1&H2)%IH). exists e1. split; [|done]. by exists e0.
Qed.

Lemma in_section_sec t vs : Forall (fun v => v_sec v = t) (in_section t vs).
Proof. apply list.Forall_forall. by intros v [? _]%list_elem_of_filter. Qed.

Lemma in_section_ok t vs : Forall (sendable U) vs -> Forall (sendable U) (in_section t vs).
Proof. intros H. apply list.Forall_forall. intros v [_ Hv]%list_elem_of_filter. by eapply list.Forall_forall in H. Qed.

Lemma in_section_other t t' vs : t' <> t -> Forall (fun v => v_sec v <> t) (in_section t' vs).
Proof. intros Ht. eapply Forall_impl; [|apply in_section_sec]. cbn. congruence. Qed.

Ltac other_secs := repeat apply Forall_app_2; first [by apply in_section_other | constructor].

(** The counts of a header announce these records. *)
Definition announces (h : dns_head) (vs : list rr) (ps : Z) : Prop :=
  h_qdcount h = Zlen (in_section DNS_RRS_QD vs) /\ h_ancount h = Zlen (in_section DNS_RRS_AN vs) /\
  h_nscount h = Zlen (in_section DNS_RRS_NS vs) /\ h_nrcount h = Zlen (in_section DNS_RRS_NR vs) + edns_count ps.

(** What the packet holds afterwards. *)
Definition decoded (h : dns_head) (vs : list rr) (ps o : Z) (p : dns_packet) : Prop :=
  pkt_view all_counted U p (in_order vs) /\ head_base (p_head p) = head_base h /\
  p_payloadsize p = (if 0 <? ps then edns_class ps else 0) /\ p_opt_option p = (if 0 <? ps then o else 0).

Lemma rooms_app vs1 vs2 : rooms (vs1 ++ vs2) = rooms vs1 + rooms vs2.
Proof. induction vs1 as [|v vs1 IH]; cbn; lia. Qed.

(** A section of exactly its records. *)
Lemma decode_section_all C t vs vs0 c p e (Q : dec_state -> unit -> Prop) (E : dec_state -> Prop) :
  pkt_view C U p vs0 -> Forall (sendable U) vs -> Forall (fun v => v_sec v <> t) vs0 -> t <> DNS_RRS_END ->
  sec_count t p = Some (Zlen (in_section t vs)) -> wire_rrs (c_data c) (c_ptr c) (in_section t vs) e ->
  e <= c_maxsize c -> p_size p <= 16384 -> p_len p + rooms (in_section t vs) <= p_size p - sizeof_dns_packet ->
  (forall p', stored_more (or_sec t C) vs0 t (in_section t vs) p p' -> Q (set_ptr e c, p') tt) ->
  wp (decode_section t (decode_body_of t)) (c, p) Q E.
Proof.
  intros Hv Hs H0 Ht Hc Hw He Hsz Hroom HQ.
  apply (decode_section_known C t (in_section t vs) 0 vs0 c p e); try done.
  - by apply in_section_ok.
  - apply in_section_sec.
  - rewrite Hc. f_equal. lia.
Qed.

Lemma decode_body_known h vs ps o c p n e :
  Forall (sendable U) vs -> announces h vs ps -> p_head p = h -> p_len p = 0 -> p_size p <= 16384 ->
  pkt_view (fun t => t = DNS_RRS_OPT) U p [] -> p_payloadsize p = 0 -> p_opt_option p = 0 ->
  0 <= ps < 65536 -> 0 <= o < 2147483648 ->
  wire_rrs (c_data c) (c_ptr c) (in_order vs) e -> wire_edns (c_data c) ps o e n -> n <= c_maxsize c ->
  rooms (in_order vs) <= p_size p - sizeof_dns_packet ->
  wp _dns_decode_body (c, p) (fun s _ => s.1 = set_ptr n c /\ decoded h vs ps o s.2) (fun _ => False).
Proof.
  intros Hs (Hqd&Han&Hns&Hnr) Hh Hl0 Hsz Hv Hps0 Ho0 Hps Ho Hw He Hn Hroom.
  pose proof (wire_edns_ends _ _ _ _ _ He) as Hen. rewrite in_order_eq in Hw, Hroom. rewrite !rooms_app in Hroom.
  apply wire_rrs_app_inv in Hw as (e3&Hw&Hw4). apply wire_rrs_app_inv in Hw as (e2&Hw&Hw3).
  apply wire_rrs_app_inv in Hw as (e1&Hw1&Hw2).
  pose proof (wire_rrs_ends _ _ _ _ Hw2). pose proof (wire_rrs_ends _ _ _ _ Hw3). pose proof (wire_rrs_ends _ _ _ _ Hw4).
  pose proof (rooms_nonneg (in_section DNS_RRS_AN vs)). pose proof (rooms_nonneg (in_section DNS_RRS_NS vs)).
  pose proof (rooms_nonneg (in_section DNS_RRS_NR vs)). unfold _dns_decode_body.
  wp_step. apply (decode_section_all (fun t => t = DNS_RRS_OPT) DNS_RRS_QD vs [] c p e1 _ _ Hv Hs);
    [constructor|done|cbn; by rewrite Hh, Hqd|done|lia|done|lia|].
  intros p1 (Hv1&Hm1&Hc1&Hl1). pose proof Hm1 as (Hsz1&_).
  wp_step. apply (decode_section_all _ DNS_RRS_AN vs _ (set_ptr e1 c) p1 e2 _ _ Hv1 Hs);
    [by apply in_section_other|done|rewrite Hc1 by done; cbn; by rewrite Hh, Han|done|cproj; lia|lia|lia|].
  intros p2 (Hv2&Hm2&Hc2&Hl2). pose proof Hm2 as (Hsz2&_).
  wp_step. apply (decode_section_all _ DNS_RRS_NS vs _ (set_ptr e2 c) p2 e3 _ _ Hv2 Hs);
    [other_secs|done|rewrite Hc2, Hc1 by done; cbn; by rewrite Hh, Hns|done|cproj; lia|lia|lia|].
  intros p3 (Hv3&Hm3&Hc3&Hl3). pose proof Hm3 as (Hsz3&_).
  eapply (decode_section_known _ DNS_RRS_NR (in_section DNS_RRS_NR vs) (Z.to_nat (edns_count ps)) _ (set_ptr e3 c) p3 e _ _ (in_section_ok _ _ Hs)
    (in_section_sec _ _)); [|done| |done|cproj; lia|exact Hv3|lia|lia|].
  { other_secs. }
  { rewrite Hc3, Hc2, Hc1 by done. cbn. rewrite Hh, Hnr. f_equal. unfold edns_count. destruct (0 <? ps); lia. }
  intros p4 (Hv4&Hm4&_&_). rewrite <- !app_assoc in Hv4.
  assert (same_meta p p4) as Hm by (do 3 (eapply same_meta_trans; [|eassumption]); done).
  destruct Hm as (_&_&Hp4&Ho4&Hb4).
  assert (pkt_view all_counted U p4 (in_order vs)) as Hfin.
  { rewrite in_order_eq, <- !app_assoc. eapply view_mono; [exact Hv4|]. clear. unfold or_sec. intros t Ht. destruct t; auto 10. by destruct Ht. }
  rewrite Hh in Hb4. unfold edns_count. unfold decoded. destruct (Z.ltb_spec 0 ps) as [Hpos|Hz].
  - change (Z.to_nat 1) with 1%nat. cbn [times decode_body_of]. wp_step.
    eapply wp_mono; [apply (decode_edns_known ps o _ p4 n); cproj; [lia|done|done|done]| |by intros ? []].
    intros s [] ->. wp_step. by split_and!.
  - change (Z.to_nat 0) with 0%nat. cbn [times]. wp_step. unfold wire_edns in He.
    destruct (Z.ltb_spec 0 ps); [lia|]. subst n. split_and!; [done|done|done|cbn; congruence|cbn; congruence].
Qed.

End decode.

(** ** The round trip *)

Section roundtrip.
Context (U : list Z -> Prop).
Hypothesis HU : hash_faithful U.

Lemma view_count p vs t : pkt_view all_counted U p vs -> t <> DNS_RRS_END ->
  sec_count t p = Some (Zlen (in_section t vs)) /\ Zlen (in_section t vs) <= 65534.
Proof.
  intros (rs&Hrep&Hall&_&Hct) Ht. pose proof Hrep as ((Hsz&_&H64&Hlen&_)&Htot&_). unfold sizeof_dns_packet in *.
  pose proof (sec_headers_stored _ p t _ _ _ Hall ltac:(lia) ltac:(lia) ltac:(lia)) as H2.
  apply Forall2_length in H2. rewrite (Hct t Ht), <- (sec_headers_length t rs 0). unfold Zlen, in_section. rewrite H2.
  split; [done|]. pose proof (sec_headers_length t rs 0) as Hl. pose proof (sec_records_bound _ _ Hrep t).
  unfold Zlen in *. lia.
Qed.

Lemma head_ext h h' : head_base h = head_base h' -> h_qdcount h = h_qdcount h' -> h_ancount h = h_ancount h' ->
  h_nscount h = h_nscount h' -> h_nrcount h = h_nrcount h' -> h = h'.
Proof. destruct h, h'. cbn. congruence. Qed.

(** Views of the same records have the same counts. *)
Lemma view_head p p' vs vs' :
  pkt_view all_counted U p vs -> pkt_view all_counted U p' vs' -> (forall t, in_section t vs' = in_section t vs) ->
  head_base (p_head p') = head_base (p_head p) -> p_head p' = p_head p.
Proof.
  intros Hv Hv' Heq Hb.
  assert (forall t, t <> DNS_RRS_END -> sec_count t p' = sec_count t p) as Hc.
  { intros t Ht. destruct (view_count p vs t Hv Ht) as [-> _], (view_count p' vs' t Hv' Ht) as [-> _]. by rewrite Heq. }
  pose proof (Hc DNS_RRS_QD ltac:(done)) as H1. pose proof (Hc DNS_RRS_AN ltac:(done)) as H2.
  pose proof (Hc DNS_RRS_NS ltac:(done)) as H3. pose proof (Hc DNS_RRS_NR ltac:(done)) as H4.
  cbn in H1, H2, H3, H4. apply head_ext; congruence.
Qed.

Lemma in_section_twice t t' vs : in_section t (in_section t' vs) = if decide (t = t') then in_section t vs else [].
Proof.
  unfold in_section. rewrite list_filter_filter. case_decide as Ht.
  - subst. apply list_filter_iff. intros v. tauto.
  - induction vs as [|v vs IH]; [done|]. rewrite filter_cons. case_decide as Hv; [destruct Hv; congruence|done].
Qed.

Lemma in_section_none t vs : Forall (sendable U) vs -> t = DNS_RRS_OPT \/ t = DNS_RRS_END -> in_section t vs = [].
Proof.
  intros Hs Ht. unfold in_section. induction Hs as [|v vs Hv Hs IH]; [done|].
  rewrite filter_cons. case_decide as Hv2; [|done]. destruct Hv as ((_&Hend&_&_&Hq)&Hd).
  destruct (v_body v) as [qclass|ttl raw]; [naive_solver congruence|]. destruct Hd as (_&_&_&Hd). naive_solver congruence.
Qed.

Lemma in_section_order t vs : Forall (sendable U) vs -> in_section t (in_order vs) = in_section t vs.
Proof.
  intros Hs. assert (forall a b, in_section t (a ++ b) = in_section t a ++ in_section t b) as Happ.
  { intros a b. apply list.filter_app. }
  rewrite in_order_eq, !Happ, !in_section_twice.
  pose proof (in_section_none t vs Hs) as Hn.
  destruct t; repeat (rewrite decide_True by done || rewrite decide_False by done); rewrite ?app_nil_r; try done;
    symmetry; apply Hn; auto.
Qed.

(** The EDNS data of a message a client builds. *)
Definition set_edns (edns : option (Z * Z)) : M dns_packet unit :=
  match edns with
  | None => ret tt
  | Some (payload_size, option_) => dns_set_OPT_payload_size payload_size ;; dns_set_OPT_option option_
  end.

Definition edns_ok (edns : option (Z * Z)) : Prop :=
  match edns with None => True | Some (ps, o) => 0 <= ps < 65536 /\ 0 <= o < 2147483648 end.

(** A client's packet: its records and then its EDNS data. *)
Definition build (vs : list rr) (edns : option (Z * Z)) : M dns_packet unit := add_all vs ;; set_edns edns.

Lemma add_all_meta vs : forall p vs0, pkt_view all_counted U p vs0 -> p_size p <= 16384 -> Forall (addable U) vs ->
  wp (add_all vs) p (fun p' _ => same_meta p p') (fun _ => True).
Proof.
  induction vs as [|v vs IH]; intros p vs0 Hv Hsz Ha; cbn [add_all]; [wp_step; apply same_meta_refl|].
  apply Forall_cons_1 in Ha as [Hav Ha]. wp_step. pose proof (add_rr_view all_counted U p vs0 v HU Hv Hsz Hav) as Ho.
  pose proof (add_rr_bumps U all_counted p vs0 v Hv Hav) as Hb. unfold wp in Hb |- * at 1. unfold add_outcome in Ho.
  destruct (add_rr v p) as [p1 []|?| |]; [|done..]. destruct Hb as [Hm _]. pose proof Hm as (Hsz1&_).
  eapply wp_mono; [apply (IH p1 (vs0 ++ [v])); [done|lia|done]| |done]. intros p2 [] Hm2. by eapply same_meta_trans.
Qed.

(** The packet [build] leaves. *)
Definition built (head : dns_head) (vs : list rr) (p : dns_packet) : Prop :=
  pkt_view all_counted U p vs /\ head_base (p_head p) = head_base head /\
  (p_payloadsize p = 0 /\ p_opt_option p = 0 \/ 512 <= p_payloadsize p < 65536 /\ 0 <= p_opt_option p < 2147483648).

Lemma build_built addr size head p0 vs edns p :
  dns_packet_init addr size head = Some p0 -> size <= 16384 -> 0 <= addr < 2 ^ 64 -> Forall (addable U) vs ->
  edns_ok edns -> build vs edns p0 = Ok p tt -> built head vs p.
Proof.
  intros Hi Hsz Ha Hvs He Hb. destruct (packet_init_len _ _ _ _ Hi) as [_ Hs0].
  pose proof (packet_init_view U _ _ _ _ Hi ltac:(lia) Ha) as Hv0.
  unfold build in Hb. apply bind_ok in Hb as (p1&[]&H1&H2).
  pose proof (wp_ok_inv _ _ _ _ _ _ (add_all_view all_counted U HU vs p0 [] Hv0 ltac:(lia) Hvs) H1) as Hv.
  pose proof (wp_ok_inv _ _ _ _ _ _ (add_all_meta vs p0 [] Hv0 ltac:(lia) Hvs) H1) as (_&_&Hps&Ho&Hh).
  assert (p_payloadsize p0 = 0 /\ p_opt_option p0 = 0 /\ head_base (p_head p0) = head_base head) as (Hp0&Ho0&Hh0).
  { unfold dns_packet_init in Hi. destruct (size <? sizeof_dns_packet); [done|]. destruct head. by injection Hi as <-. }
  unfold built. destruct edns as [[ps o]|]; injection H2 as <-.
  - destruct He as [He1 He2]. split_and!; [exact Hv|cbn; congruence|]. right. cbn. rewrite u32_small by lia.
    destruct (Z.ltb_spec ps 512); rewrite u16_small by lia; split; lia.
  - split_and!; [done|congruence|]. left. split; congruence.
Qed.

(** Decoding the message of a packet. *)
Lemma head_ok_base h h' : head_ok h -> head_base h' = head_base h -> 0 <= h_qdcount h' < 65536 ->
  0 <= h_ancount h' < 65536 -> 0 <= h_nscount h' < 65536 -> 0 <= h_nrcount h' < 65536 -> head_ok h'.
Proof.
  intros H Hb ? ? ? ?. destruct h, h'. cbn in Hb. injection Hb as -> -> -> -> -> -> -> -> -> -> ->.
  unfold head_ok in *. cbn in *. lia.
Qed.

Lemma after_encode_counts head p vs :
  head_ok head -> built head vs p ->
  head_ok (p_head (after_encode p)) /\ announces (p_head (after_encode p)) vs (p_payloadsize p) /\
  head_base (p_head (after_encode p)) = head_base (p_head p).
Proof.
  intros Hh (Hv&Hb&_). destruct (view_count p vs DNS_RRS_QD Hv ltac:(done)) as [[= Hq] Hq2].
  destruct (view_count p vs DNS_RRS_AN Hv ltac:(done)) as [[= Han] Ha2].
  destruct (view_count p vs DNS_RRS_NS Hv ltac:(done)) as [[= Hn] Hn2].
  destruct (view_count p vs DNS_RRS_NR Hv ltac:(done)) as [[= Hr] Hr2].
  pose proof (Zlen_nonneg (in_section DNS_RRS_QD vs)). pose proof (Zlen_nonneg (in_section DNS_RRS_AN vs)).
  pose proof (Zlen_nonneg (in_section DNS_RRS_NS vs)). pose proof (Zlen_nonneg (in_section DNS_RRS_NR vs)).
  unfold announces, edns_count, after_encode. destruct (0 <? p_payloadsize p).
  - assert (u16 (h_nrcount (p_head p) + 1) = h_nrcount (p_head p) + 1) as Hu by (apply u16_small; lia).
    destruct p as [h]. cbn [p_head set_sec_count] in *. rewrite Hu.
    split; [|destruct h; cbn in *; split_and!; done || lia].
    apply (head_ok_base head); [done|destruct h; cbn in *; done|destruct h; cbn in *; lia..].
  - split_and!; try done; try lia. apply (head_ok_base head); done || lia.
Qed.

Lemma dns_decode_message addr maxsize m n h vs ps o :
  head_ok h -> announces h vs ps -> Forall (sendable U) vs -> wire_message m h vs ps o n ->
  0 <= ps < 65536 -> 0 <= o < 2147483648 -> 0 <= addr < 2 ^ 64 -> maxsize <= 16384 ->
  sizeof_dns_packet + rooms (in_order vs) <= maxsize ->
  exists p, dns_decode addr maxsize m n = Ok (set_ptr n (wire_context m n), set_size (n + sizeof_dns_packet) p) tt /\
    decoded U h vs ps o p.
Proof.
  intros Hh Han Hs (Hhd&e&Hw&He) Hps Ho Ha Hmax Hroom. pose proof (rooms_nonneg (in_order vs)). unfold dns_decode.
  pose proof (wire_rrs_ends _ _ _ _ Hw). pose proof (wire_edns_ends _ _ _ _ _ He).
  destruct (dns_packet_init addr maxsize zero_head) as [p0|] eqn:Hi; cycle 1.
  { unfold dns_packet_init in Hi. destruct (Z.ltb_spec maxsize sizeof_dns_packet); [unfold sizeof_dns_packet in *; lia|done]. }
  destruct (packet_init_len _ _ _ _ Hi) as [Hl0 Hs0].
  pose proof (packet_init_view U _ _ _ _ Hi ltac:(lia) Ha) as Hv0.
  assert (p_payloadsize p0 = 0 /\ p_opt_option p0 = 0) as [Hp0 Ho0].
  { unfold dns_packet_init in Hi. destruct (maxsize <? sizeof_dns_packet); [done|]. by injection Hi as <-. }
  match goal with |- context [?mm (wire_context m n, p0)] => enough (wp mm (wire_context m n, p0)
    (fun s _ => exists p, s = (set_ptr n (wire_context m n), set_size (n + sizeof_dns_packet) p) /\ decoded U h vs ps o p)
    (fun _ => False)) as Hwp end.
  { unfold wp in Hwp. destruct (bind set_head_m _ _) as [s []|?| |]; [|done..]. destruct Hwp as (p&->&?). eauto. }
  wp_step. unfold set_head_m. wp_step. apply wp_on_ctx. cbn [fst snd].
  apply (decode_head_known h); [done|unfold _dns_left_len, wire_context; cproj; lia|exact Hhd|].
  apply wp_on_pkt. wp_step. cbn [fst snd]. wp_step.
  eapply wp_mono; [apply (decode_body_known U HU h vs ps o _ (set_head h p0) n e); try done; cproj|..].
  - cbn. lia.
  - destruct Hv0 as (rs&Hrep&Hall&Hd&Hct). exists rs. split_and!; [exact Hrep|exact Hall|exact Hd|].
    intros t ->. exact (Hct DNS_RRS_OPT ltac:(done)).
  - change (p_size (set_head h p0)) with (p_size p0). lia.
  - intros [c p] [] [Hc Hd]. cbn [fst snd] in *. subst c. unfold set_size_m. do 2 wp_step. apply wp_on_pkt. wp_step.
    exists p. by cproj.
  - by intros ? [].
Qed.

End roundtrip.

(** Setting the size does not change what is read. *)
Lemma for_rrs_data {S} count p p' (body : dns_rrs -> M S unit) : p_data p' = p_data p ->
  forall rrs s, for_rrs count p' rrs body s = for_rrs count p rrs body s.
Proof.
  intros Hd. induction count as [|count IH]; intros [off|] s; try done. cbn [for_rrs]. rewrite Hd.
  unfold bind. destruct (access _ s) as [s1 r|?| |]; [|done..]. destruct (body r s1); [|done..]. apply IH.
Qed.

Lemma section_rrs_size k p t : section_rrs (set_size k p) t = section_rrs p t.
Proof.
  unfold section_rrs. change (dns_get_rrs_start (set_size k p) t) with (dns_get_rrs_start p t).
  destruct (dns_get_rrs_start p t) as [[count rrs]|]; [|done]. by rewrite (for_rrs_data _ p).
Qed.

(** C1: a message survives encoding and decoding.  A client initialises a packet and adds
    records, in any order: questions whose name does not start with a hyphen; and
    outside of the OPT section A, AAAA, TXT and other plain records of less than 1024
    bytes, CNAME, PTR, SOA and SRV records, with a ttl below 2^31.  It sets the EDNS
    payload size and flags or not.  The names are labels of 1 to 191 bytes without a
    zero byte or dot in a text of at most 254 bytes (253 and 248 in SOA and SRV data), and no
    two names, nor the names they end in, have the same dictionary hash
    ([hash_faithful]).  The packets and the buffer have at most 16 KiB.  If the buffer
    has room for the uncompressed records, [dns_encode] succeeds; if the receiver's
    packet has room for them, [dns_decode] of exactly the bytes written succeeds too,
    and the decoded packet has the same header, the same EDNS data and in every section
    the same records in the same order, whichever names were compressed.  (NS, SVCB and
    HTTPS records and EDNS options are not covered: [DnsFindings] has what happens to
    some of them, [dict_hash_collision] what happens to names with the same hash.) *)
Theorem message_roundtrip U addr0 size0 head p0 vs edns p data size addr maxsize :
  hash_faithful U -> dns_packet_init addr0 size0 head = Some p0 -> size0 <= 16384 -> 0 <= addr0 < 2 ^ 64 ->
  head_ok head -> Forall (sendable U) vs -> edns_ok edns -> build vs edns p0 = Ok p tt ->
  Forall is_byte data -> size <= Zlen data -> size <= 16384 -> wire_rooms (in_order vs) + 24 <= size ->
  0 <= addr < 2 ^ 64 -> maxsize <= 16384 -> sizeof_dns_packet + rooms (in_order vs) <= maxsize ->
  exists c p1 n c' p',
    dns_encode data size p = Ok (c, p1) n /\ n <= size /\
    dns_decode addr maxsize (c_data c) n = Ok (c', p') tt /\
    p_head p' = p_head p /\ p_payloadsize p' = p_payloadsize p /\ p_opt_option p' = p_opt_option p /\
    forall t, t <> DNS_RRS_END ->
      exists hs, section_rrs p' t = Some hs /\ Forall2 (reads_as p') (filter (fun v => v_sec v = t) vs) hs.
Proof.
  intros HU Hi Hsz0 Ha0 Hh Hs He Hb Hdata Hsz H14 Hroom Ha Hmax Hrooms.
  assert (Forall (addable U) vs) as Hadd by (eapply Forall_impl; [|exact Hs]; by intros v [? _]).
  pose proof (build_built U HU _ _ _ _ _ _ _ Hi Hsz0 Ha0 Hadd He Hb) as Hbuilt.
  destruct (after_encode_counts U _ _ _ Hh Hbuilt) as (Hh1&Han&Hbase). destruct Hbuilt as (Hv&_&Hps).
  destruct (dns_encode_message U HU data size p vs Hv Hs Hdata Hsz H14 Hroom) as (c&Henc&Hn&_&_&Hwire).
  destruct (dns_decode_message U HU addr maxsize _ _ _ vs _ _ Hh1 Han Hs Hwire ltac:(lia) ltac:(lia) Ha Hmax Hrooms)
    as (p'&Hdec&Hv'&Hb'&Hps'&Ho').
  eexists c, _, _, _, _. split; [exact Henc|]. split; [lia|]. split; [exact Hdec|].
  split; [|split; [|split]].
  - apply (view_head U p p' vs (in_order vs)); [done|done|intros t; by apply (in_section_order U)|congruence].
  - cbn. rewrite Hps'. unfold edns_class, DNS_DEFAULT_PACKET_SIZE.
    destruct (Z.ltb_spec 0 (p_payloadsize p)); [|lia]. destruct (Z.ltb_spec (p_payloadsize p) 512); lia.
  - cbn. rewrite Ho'. destruct (Z.ltb_spec 0 (p_payloadsize p)); lia.
  - intros t Ht. destruct (section_view all_counted U p' (in_order vs) t Hv' Ht Ht) as (hs&Hhs&Hr).
    { apply list.Forall_forall. intros v Hin. rewrite list.Forall_forall in Hadd. apply Hadd.
      rewrite in_order_eq in Hin. unfold in_section in Hin.
      rewrite !elem_of_app, !list_elem_of_filter in Hin. tauto. }
    exists hs. rewrite section_rrs_size. split; [exact Hhs|]. fold (in_section t vs). rewrite <- (in_section_order U t vs Hs). exact Hr.
Qed.

(** A response: a question, an address and an alias, and EDNS data. *)
Definition example_sent : list rr :=
  [mk_rr DNS_RRS_QD DNS_T_A [[97]] (Question DNS_C_IN);
   mk_rr DNS_RRS_AN DNS_T_A [[97]] (Data 60 [10; 0; 0; 1]);
   mk_rr DNS_RRS_AN DNS_T_CNAME [[97]] (Data 60 (cname_raw (join [[97]])))].

Lemma example_sendable : Forall (sendable only_a) example_sent.
Proof.
  assert (labels_ok [[97]]) as Hl by (repeat constructor; done).
  assert (Forall (addable only_a) example_sent) as Ha by (repeat constructor; done).
  rewrite list.Forall_forall in Ha.
  unfold example_sent in *. constructor; [|constructor; [|constructor; [|constructor]]].
  - split; [apply Ha; by left|done].
  - split; [apply Ha; right; by left|]. split_and!; try done. by constructor.
  - split; [apply Ha; right; right; by left|]. split_and!; try done. by constructor.
Qed.

Lemma message_roundtrip_witness :
  exists p0 p, dns_packet_init 4096 1024 zero_head = Some p0 /\ build example_sent (Some (1232, 0)) p0 = Ok p tt /\
  exists c p1 n c' p',
    dns_encode (replicate 512 0) 512 p = Ok (c, p1) n /\ n <= 512 /\
    dns_decode 8192 1024 (c_data c) n = Ok (c', p') tt /\
    p_head p' = p_head p /\ p_payloadsize p' = p_payloadsize p /\ p_opt_option p' = p_opt_option p /\
    forall t, t <> DNS_RRS_END ->
      exists hs, section_rrs p' t = Some hs /\ Forall2 (reads_as p') (filter (fun v => v_sec v = t) example_sent) hs.
Proof.
  eexists _, _. split; [vm_compute; reflexivity|]. split; [vm_compute; reflexivity|].
  eapply (message_roundtrip only_a 4096 1024 zero_head _ example_sent (Some (1232, 0)) _ (replicate 512 0) 512 8192 1024);
    [apply only_a_faithful|vm_compute; reflexivity|lia|lia|unfold head_ok; cbn; lia|apply example_sendable|cbn; lia|
     vm_compute; reflexivity|apply Forall_replicate; done|vm_compute; discriminate|lia|vm_compute; discriminate|lia|lia|
     vm_compute; discriminate].
Defined.
