(* ===== verification/DnsFindings.v ===== *)
(** * Inputs on which src/dns.c does not do what it means to

    Concrete executions of the definitions, evaluated by the kernel. *)

From Stdlib Require Import ZArith Lia.
From stdpp Require Import base list numbers option.
From S2P Require Import Prelude DnsTypes DnsName DnsRrs DnsRecord DnsDecode DnsEncode DnsUpdate.

(** ** Scaffolding *)

Definition run {A} (m : M dns_packet A) (p : option dns_packet) : option dns_packet :=
  p ← p; match m p with Ok p' _ => Some p' | _ => None end.

(** A packet of 1024 bytes at an even address. *)
Definition new_packet : option dns_packet := dns_packet_init 4096 1024 zero_head.

Definition name_a_com : list Z := [97; 46; 99; 111; 109].
Definition name_ns_a_com : list Z := [110; 115; 46; 97; 46; 99; 111; 109].

(** Encode the packet and decode the message again: does the decoder accept
    it? *)
Definition accepted (p : option dns_packet) : option bool :=
  p ← p; bs ← encoded 512 p;
  match dns_decode 4096 1024 bs (Zlen bs) with
  | Ok _ _ => Some true
  | Fail _ => Some false
  | _ => None
  end.

Definition with_question (m : M dns_packet unit) : option dns_packet :=
  run m (run (dns_add_domain name_a_com DNS_T_NS DNS_C_IN) new_packet).

(** ** Names *)

(** With two bytes left a non-empty name is written as the root name, and
    success is returned. *)
Theorem encode_domain_truncated_to_root :
  (fun c => (c_ptr c, take 1 (c_data c))) <$>
    res_state (_dns_encode_domain name_a_com (wire_context (replicate 2 0) 2)) = Some (1, [0]) /\
  res_val (_dns_encode_domain name_a_com (wire_context (replicate 2 0) 2)) = Some 1.
Proof. vm_compute. split; reflexivity. Qed.

(** ** Records *)

(** CNAME records survive encoding and decoding, NS records do not: their
    target is written as dotted text. *)
Theorem ns_record_not_encoded_as_name :
  accepted (with_question (dns_add_CNAME DNS_RRS_AN name_a_com 60 name_ns_a_com)) = Some true /\
  accepted (with_question (dns_add_NS DNS_RRS_NS name_a_com 60 name_ns_a_com)) = Some false.
Proof. vm_compute. split; reflexivity. Qed.

(** A keepalive option without a timeout announces two bytes it does not have. *)
Theorem keepalive_zero_malformed :
  accepted (with_question (dns_add_OPT_TCP_KEEPALIVE 10)) = Some true /\
  accepted (with_question (dns_add_OPT_TCP_KEEPALIVE 0)) = Some false.
Proof. vm_compute. split; reflexivity. Qed.

(** ** Updating a message *)

(** A question whose name runs through its own first label: the label starts
    with the letter 'a' (97), which the pointer behind it uses as the length of
    a second label. *)
Definition overlapping_message : list Z :=
  [0; 1; 129; 128; 0; 1; 0; 0; 0; 0; 0; 0] ++
  (100 :: 97 :: replicate 97 80 ++ [192; 8]) ++ [192; 13] ++ [0; 1; 0; 1].

(** The same name in a buffer of 256 bytes, with 'A' (65) as its first
    letter. *)
Definition query_name : list Z :=
  let name := 65 :: replicate 97 80 ++ [192; 8] ++ [46] ++ replicate 97 80 in
  name ++ replicate (256 - length name) 0.

(** The name in the message is valid and equals the query name up to case;
    writing the query's letters over it changes the length byte it is being
    followed by, and the copy runs past the end of the message. *)
Theorem update_domain_out_of_bounds :
  Zlen overlapping_message = 119 /\ Zlen query_name = 256 /\
  (exists c q, _dns_decode_qr_head DNS_MAX_CNAME_LEN (set_ptr 12 (wire_context overlapping_message 119)) = Ok c q /\
     strncasecmp_eq (q_domain q) (until_nul query_name) 256 = true) /\
  dns_packet_update overlapping_message 119 (mk_update_param 7 60 60 (Some query_name)) = UB.
Proof.
  split; [reflexivity|]. split; [reflexivity|]. split; [|vm_compute; reflexivity].
  eexists _, _. split; [vm_compute; reflexivity|vm_compute; reflexivity].
Qed.
