(* ===== verification/TimerWheel.v ===== *)
(** * The timer wheel (src/lib/timer_wheel.c)

    Five wheels of lists of timers: [tv1] with 1024 slots of one tick each,
    [tv2] to [tv5] with 64 slots of [2^10], [2^16], [2^22] and [2^28] ticks.
    [run_timers] advances the wheel by one tick: when a wheel has turned once,
    one slot of the next wheel is distributed again ([_tw_cascade]); then the
    timers of the current slot of [tv1] are called.

    A timer is a number; its [struct tw_timer_list] is in the map [b_timers].
    The callbacks run while the lock is not held, so other calls come between
    the calls of one run: the list of timers still to be called, [work_list] in
    the code, is part of the state. *)

From Stdlib Require Import ZArith Lia.
From stdpp Require Import base list numbers option gmap.
From S2P Require Import Prelude.

Definition TVR_BITS : Z := 10.
Definition TVN_BITS : Z := 6.
Definition TVR_SIZE : Z := Z.shiftl 1 TVR_BITS.
Definition TVN_SIZE : Z := Z.shiftl 1 TVN_BITS.
Definition TVR_MASK : Z := TVR_SIZE - 1.
Definition TVN_MASK : Z := TVN_SIZE - 1.
Definition MAX_TVAL : Z := Z.shiftl 1 (TVR_BITS + 4 * TVN_BITS) - 1.

(** ** Data *)

(** [entry.next != NULL] is [t_linked]. *)
Record tw_timer_list := mk_timer { t_expires : Z; t_function : bool; t_linked : bool }.

Inductive tvec := TV1 | TV2 | TV3 | TV4 | TV5.

#[export] Instance tvec_eq_dec : EqDecision tvec.
Proof. solve_decision. Defined.

Record tw_base := mk_tw_base {
  b_jiffies : Z;
  b_tv1 : list (list nat); b_tv2 : list (list nat); b_tv3 : list (list nat);
  b_tv4 : list (list nat); b_tv5 : list (list nat);
  b_work : list nat;
  b_timers : gmap nat tw_timer_list }.

Definition get_tv (tv : tvec) (base : tw_base) : list (list nat) :=
  match tv with
  | TV1 => b_tv1 base | TV2 => b_tv2 base | TV3 => b_tv3 base | TV4 => b_tv4 base | TV5 => b_tv5 base
  end.

Definition set_tv (tv : tvec) (vec : list (list nat)) (base : tw_base) : tw_base :=
  let 'mk_tw_base j v1 v2 v3 v4 v5 w ts := base in
  match tv with
  | TV1 => mk_tw_base j vec v2 v3 v4 v5 w ts
  | TV2 => mk_tw_base j v1 vec v3 v4 v5 w ts
  | TV3 => mk_tw_base j v1 v2 vec v4 v5 w ts
  | TV4 => mk_tw_base j v1 v2 v3 vec v5 w ts
  | TV5 => mk_tw_base j v1 v2 v3 v4 vec w ts
  end.

Definition set_timers (ts : gmap nat tw_timer_list) (base : tw_base) : tw_base :=
  mk_tw_base (b_jiffies base) (b_tv1 base) (b_tv2 base) (b_tv3 base) (b_tv4 base) (b_tv5 base) (b_work base) ts.
Definition set_work (w : list nat) (base : tw_base) : tw_base :=
  mk_tw_base (b_jiffies base) (b_tv1 base) (b_tv2 base) (b_tv3 base) (b_tv4 base) (b_tv5 base) w (b_timers base).
Definition set_jiffies (j : Z) (base : tw_base) : tw_base :=
  mk_tw_base j (b_tv1 base) (b_tv2 base) (b_tv3 base) (b_tv4 base) (b_tv5 base) (b_work base) (b_timers base).

Definition set_expires (e : Z) (t : tw_timer_list) : tw_timer_list := mk_timer e (t_function t) (t_linked t).
Definition set_linked (l : bool) (t : tw_timer_list) : tw_timer_list := mk_timer (t_expires t) (t_function t) l.

(** ** Operations *)

(** The list [_tw_add_timer] chooses. *)
Definition slot_for (jiffies expires : Z) : tvec * Z :=
  let idx := u64 (expires - jiffies) in
  if idx <? TVR_SIZE then (TV1, Z.land expires TVR_MASK)
  else if idx <? Z.shiftl 1 (TVR_BITS + TVN_BITS) then
    (TV2, Z.land (Z.shiftr expires TVR_BITS) TVN_MASK)
  else if idx <? Z.shiftl 1 (TVR_BITS + 2 * TVN_BITS) then
    (TV3, Z.land (Z.shiftr expires (TVR_BITS + TVN_BITS)) TVN_MASK)
  else if idx <? Z.shiftl 1 (TVR_BITS + 3 * TVN_BITS) then
    (TV4, Z.land (Z.shiftr expires (TVR_BITS + 2 * TVN_BITS)) TVN_MASK)
  else if 9223372036854775808 <=? idx then (TV1, Z.land jiffies TVR_MASK)
  else
    let expires := if MAX_TVAL <? idx then u64 (MAX_TVAL + jiffies) else expires in
    (TV5, Z.land (Z.shiftr expires (TVR_BITS + 3 * TVN_BITS)) TVN_MASK).

(** [list_add_tail(&timer->entry, vec)].  Linking an entry that is already
    linked destroys both lists: no result. *)
Definition list_add_tail (tv : tvec) (i : Z) (t : nat) (base : tw_base) : option tw_base :=
  timer ← b_timers base !! t;
  if t_linked timer then None
  else
    l ← get_tv tv base !! Z.to_nat i;
    Some (set_timers (<[t := set_linked true timer]> (b_timers base))
            (set_tv tv (<[Z.to_nat i := l ++ [t]]> (get_tv tv base)) base)).

Definition _tw_add_timer (t : nat) (base : tw_base) : option tw_base :=
  timer ← b_timers base !! t;
  let '(tv, i) := slot_for (b_jiffies base) (t_expires timer) in
  list_add_tail tv i t base.

(** [list_del]: the entry leaves the list it is on, whichever that is. *)
Definition unlink (t : nat) (l : list nat) : list nat := filter (fun x => x <> t) l.

Definition _tw_detach_timer (t : nat) (base : tw_base) : option tw_base :=
  timer ← b_timers base !! t;
  let 'mk_tw_base j v1 v2 v3 v4 v5 w ts := base in
  Some (mk_tw_base j (unlink t <$> v1) (unlink t <$> v2) (unlink t <$> v3) (unlink t <$> v4) (unlink t <$> v5)
          (unlink t w) (<[t := set_linked false timer]> ts)).

(** The entries of a list taken off their slot keep their links while
    [list_for_each_entry_safe] walks them: each one is linked anew. *)
Definition relink (t : nat) (base : tw_base) : option tw_base :=
  timer ← b_timers base !! t;
  _tw_add_timer t (set_timers (<[t := set_linked false timer]> (b_timers base)) base).

Fixpoint add_timers (l : list nat) (base : tw_base) : option tw_base :=
  match l with
  | [] => Some base
  | t :: l => base ← relink t base; add_timers l base
  end.

Definition _tw_cascade (tv : tvec) (index : Z) (base : tw_base) : option tw_base :=
  l ← get_tv tv base !! Z.to_nat index;
  add_timers l (set_tv tv (<[Z.to_nat index := []]> (get_tv tv base)) base).

(** [timer_pending(timer)] *)
Definition timer_pending (t : nat) (base : tw_base) : bool :=
  match b_timers base !! t with Some timer => t_linked timer | None => false end.

Definition __detach_if_pending (t : nat) (base : tw_base) : option (tw_base * bool) :=
  if negb (timer_pending t base) then Some (base, false)
  else
    base ← _tw_detach_timer t base;
    Some (base, true).

(** [__mod_timer(base, timer, pending_only)] *)
Definition __mod_timer (t : nat) (pending_only : bool) (base : tw_base) : option (tw_base * bool) :=
  r ← __detach_if_pending t base;
  let '(base, ret) := r : tw_base * bool in
  if negb ret && pending_only then Some (base, ret)
  else
    base ← _tw_add_timer t base;
    Some (base, true).

Definition set_timer_expires (t : nat) (expires : Z) (base : tw_base) : option tw_base :=
  timer ← b_timers base !! t;
  Some (set_timers (<[t := set_expires expires timer]> (b_timers base)) base).

Definition tw_add_timer (t : nat) (base : tw_base) : option tw_base :=
  timer ← b_timers base !! t;
  if negb (t_function timer) then Some base
  else
    base ← set_timer_expires t (u64 (t_expires timer + b_jiffies base - 1)) base;
    _tw_add_timer t base.

Definition tw_del_timer (t : nat) (base : tw_base) : option (tw_base * bool) :=
  if timer_pending t base then
    base ← _tw_detach_timer t base;
    Some (base, true)
  else Some (base, false).

Definition tw_mod_timer_pending (t : nat) (expires : Z) (base : tw_base) : option (tw_base * bool) :=
  base ← set_timer_expires t (u64 (expires + b_jiffies base - 1)) base;
  __mod_timer t true base.

Definition tw_mod_timer (t : nat) (expires : Z) (base : tw_base) : option (tw_base * bool) :=
  timer ← b_timers base !! t;
  if timer_pending t base && (t_expires timer =? expires) then Some (base, true)
  else
    base ← set_timer_expires t (u64 (expires + b_jiffies base - 1)) base;
    __mod_timer t false base.

(** [INDEX(N)] *)
Definition INDEX (base : tw_base) (n : Z) : Z :=
  Z.land (Z.shiftr (b_jiffies base) (TVR_BITS + n * TVN_BITS)) TVN_MASK.

(** The [if] of [run_timers]: each wheel is cascaded when the one below has
    turned once; [_tw_cascade] returns its index. *)
Definition cascade_all (base : tw_base) : option tw_base :=
  if negb (Z.land (b_jiffies base) TVR_MASK =? 0) then Some base
  else
    base ← _tw_cascade TV2 (INDEX base 0) base;
    if negb (INDEX base 0 =? 0) then Some base
    else
      base ← _tw_cascade TV3 (INDEX base 1) base;
      if negb (INDEX base 1 =? 0) then Some base
      else
        base ← _tw_cascade TV4 (INDEX base 2) base;
        if negb (INDEX base 2 =? 0) then Some base
        else _tw_cascade TV5 (INDEX base 3) base.

(** [run_timers] up to its loop: returns [call_time]. *)
Definition run_timers_start (base : tw_base) : option (tw_base * Z) :=
  let index := Z.land (b_jiffies base) TVR_MASK in
  base ← cascade_all base;
  let call_time := b_jiffies base in
  let base := set_jiffies (u64 (b_jiffies base + 1)) base in
  l ← b_tv1 base !! Z.to_nat index;
  Some (set_work l (set_tv TV1 (<[Z.to_nat index := []]> (b_tv1 base)) base), call_time).

(** One round of its loop, up to the call: the timer that is called. *)
Definition run_timers_next (base : tw_base) : option (tw_base * option nat) :=
  match b_work base with
  | [] => Some (base, None)
  | t :: _ =>
    base ← _tw_detach_timer t base;
    Some (base, Some t)
  end.

(** The whole loop with the callbacks [fn] (timer, call time). *)
Fixpoint run_timers_loop (fuel : nat) (fn : nat -> Z -> tw_base -> option tw_base) (call_time : Z) (base : tw_base)
    : option tw_base :=
  match fuel with
  | O => None
  | S fuel =>
    r ← run_timers_next base;
    match r with
    | (base, None) => Some base
    | (base, Some t) =>
      base ← fn t call_time base;
      run_timers_loop fuel fn call_time base
    end
  end.

Definition run_timers (fn : nat -> Z -> tw_base -> option tw_base) (base : tw_base) : option tw_base :=
  r ← run_timers_start base;
  run_timers_loop (S (length (b_work r.1))) fn r.2 r.1.

(** [tw_init_timers] at time [now] (in seconds), before any timer exists. *)
Definition tw_init_timers (now : Z) : tw_base :=
  mk_tw_base now (replicate (Z.to_nat TVR_SIZE) []) (replicate (Z.to_nat TVN_SIZE) []) (replicate (Z.to_nat TVN_SIZE) [])
    (replicate (Z.to_nat TVN_SIZE) []) (replicate (Z.to_nat TVN_SIZE) []) [] ∅.

(** ** The runner *)

(** [int sleep = 1000] in [timer_work]: milliseconds. *)
Definition sleep : Z := 1000.

(** [(int)v] *)
Definition to_int (v : Z) : Z := let w := v mod 4294967296 in if w <? 2147483648 then w else w - 4294967296.

(** One round of [timer_work] after [run_timers]: the times are those of
    [_tw_tick_count].  Returns [expect_time] and [sleep_time]. *)
Definition timer_work_round (start_time expect_time now : Z) : Z * Z :=
  let expect_time :=
    if expect_time <=? now then
      let elapsed_from_start := u64 (now - start_time) in
      let next_period := u64 (elapsed_from_start / sleep + 1) in
      u64 (start_time + next_period * sleep)
    else expect_time in
  let sleep_time := to_int (u64 (expect_time - now)) in
  (expect_time, if sleep_time <? 0 then 0 else sleep_time).

(** The deadline of the wait, from the clock: seconds and nanoseconds. *)
Definition deadline (sec nsec sleep_time : Z) : Z * Z :=
  let sec := sec + sleep_time / 1000 in
  let nsec := nsec + sleep_time mod 1000 * 1000000 in
  if 1000000000 <=? nsec then (sec + 1, nsec - 1000000000) else (sec, nsec).

(** [_tw_tick_count] of the clock. *)
Definition _tw_tick_count (sec nsec : Z) : Z := u64 (sec * 1000 + nsec / 1000000).
