(* ===== verification/TimerWheelSpec.v ===== *)
(** * The timer wheel implements a schedule (src/lib/timer_wheel.c)

    The abstract machine: the current tick, the tick at which each pending
    timer is due, and the timers of the current run that are still to be
    called.  Every operation of the wheel does what the abstract machine does,
    so a timer is called in the run of the tick it is due, and in no other. *)

From Stdlib Require Import ZArith Lia.
From stdpp Require Import base list numbers option gmap.
From S2P Require Import Prelude TimerWheel.

(** ** The abstract machine *)

Record schedule := mk_schedule { s_now : Z; s_due : gmap nat Z; s_firing : gset nat }.

Definition s_pending (t : nat) (a : schedule) : Prop := is_Some (s_due a !! t) \/ t ∈ s_firing a.

(** A delay of [d] ticks: due in the [d]-th run from now; a delay of 0 is the
    next run. *)
Definition due_at (now d : Z) : Z := now + Z.max d 1 - 1.

Definition s_add (t : nat) (d : Z) (a : schedule) : schedule :=
  mk_schedule (s_now a) (<[t := due_at (s_now a) d]> (s_due a)) (s_firing a).

Definition s_del (t : nat) (a : schedule) : schedule :=
  mk_schedule (s_now a) (delete t (s_due a)) (s_firing a ∖ {[t]}).

(** The timers due now are to be called, and time moves on. *)
Definition s_start (a : schedule) : schedule :=
  mk_schedule (s_now a + 1) (filter (fun x => x.2 <> s_now a) (s_due a))
    (dom (filter (fun x => x.2 = s_now a) (s_due a))).

Definition s_fire (t : nat) (a : schedule) : schedule :=
  mk_schedule (s_now a) (s_due a) (s_firing a ∖ {[t]}).

(** ** Where a timer is *)

Definition shift (tv : tvec) : Z := match tv with TV1 => 0 | TV2 => 10 | TV3 => 16 | TV4 => 22 | TV5 => 28 end.
Definition unit_of (tv : tvec) : Z := 2 ^ shift tv.
Definition width (tv : tvec) : Z := match tv with TV1 => 1024 | _ => 64 end.

(** The first slot of the wheel whose time has not come at tick [now]. *)
Definition first_slot (tv : tvec) (now : Z) : Z := (now + unit_of tv - 1) / unit_of tv.

(** A timer due at [due] in slot [i] of a wheel at tick [now].  The slot belongs
    to the tick [x], which is [due], except that the last wheel may hold a timer
    for a while and place it again. *)
Definition placed (now : Z) (tv : tvec) (i due expires : Z) : Prop := exists x,
  i = (x / unit_of tv) mod width tv /\ first_slot tv now <= x / unit_of tv < first_slot tv now + width tv /\
  x <= due /\ (tv <> TV5 -> x = due) /\ (tv <> TV1 -> expires = due).

Lemma unit_pos tv : 0 < unit_of tv.
Proof. by destruct tv. Qed.

Lemma width_pos tv : 0 < width tv.
Proof. by destruct tv. Qed.

Lemma mask_r v : Z.land v TVR_MASK = v mod 1024.
Proof. change TVR_MASK with (Z.ones 10). by rewrite Z.land_ones. Qed.

Lemma mask_n v : Z.land v TVN_MASK = v mod 64.
Proof. change TVN_MASK with (Z.ones 6). by rewrite Z.land_ones. Qed.

Lemma slot_div v n : 0 <= n -> Z.land (Z.shiftr v n) TVN_MASK = (v / 2 ^ n) mod 64.
Proof. intros Hn. by rewrite mask_n, Z.shiftr_div_pow2. Qed.

(** The slot index is the number of the wheel's slots. *)
Lemma placed_index now tv i due e : placed now tv i due e -> 0 <= i < width tv.
Proof. intros (x&->&_). apply Z.mod_pos_bound, width_pos. Qed.

(** A tick at least one slot and at most one turn of the wheel ahead. *)
Lemma placed_ahead now tv x due e :
  tv <> TV1 -> unit_of tv <= x - now < unit_of tv * width tv -> 0 <= now -> x <= due -> (tv <> TV5 -> x = due) -> e = due ->
  placed now tv ((x / unit_of tv) mod width tv) due e /\ placed (now + 1) tv ((x / unit_of tv) mod width tv) due e.
Proof.
  intros Htv Hx Hn Hd H5 He. pose proof (unit_pos tv) as Hu. pose proof (width_pos tv) as Hw.
  assert (first_slot tv (now + 1) = now / unit_of tv + 1) as Hf1.
  { unfold first_slot. replace (now + 1 + unit_of tv - 1) with (now + 1 * unit_of tv) by lia. rewrite Z.div_add by lia. done. }
  assert (first_slot tv now <= now / unit_of tv + 1) as Hf.
  { rewrite <- Hf1. unfold first_slot. apply Z.div_le_mono; lia. }
  assert (now / unit_of tv + 1 <= x / unit_of tv) as Hlo.
  { rewrite <- (Z.div_add now 1) by lia. apply Z.div_le_mono; lia. }
  assert (x / unit_of tv < first_slot tv now + width tv) as Hhi.
  { unfold first_slot. rewrite <- Z.div_add by lia. apply Z.div_lt_upper_bound; [done|].
    pose proof (Z.mul_succ_div_gt (now + unit_of tv - 1 + width tv * unit_of tv) (unit_of tv) Hu).
    pose proof (Z.mod_pos_bound (now + unit_of tv - 1 + width tv * unit_of tv) (unit_of tv) Hu).
    rewrite Z.mul_succ_r in *. nia. }
  assert (first_slot tv now <= first_slot tv (now + 1)) by (rewrite Hf1; done).
  split; exists x; split_and!; done || lia.
Qed.

(** The slot of a tick less than one turn of the first wheel ahead. *)
Lemma placed_near now x e : now <= x < now + 1024 -> placed now TV1 (x mod 1024) x e.
Proof.
  intros Hx. exists x. unfold first_slot, unit_of. cbn [shift width]. change (2 ^ 0) with 1. rewrite !Z.div_1_r.
  split_and!; done || lia.
Qed.

(** Compute the sizes of the wheels. *)
Ltac vals := unfold unit_of; cbn [shift width];
  change (2 ^ 10) with 1024; change (2 ^ 16) with 65536; change (2 ^ 22) with 4194304; change (2 ^ 28) with 268435456.

(** The slot [_tw_add_timer] chooses is right, now and in the next tick. *)
Definition slot_ok (now x e : Z) (s : tvec * Z) : Prop :=
  placed now s.1 s.2 (Z.max x now) e /\ (s.1 <> TV1 -> placed (now + 1) s.1 s.2 (Z.max x now) e).

Lemma u64_small v : 0 <= v < 2 ^ 64 -> u64 v = v.
Proof. intros. apply Z.mod_small. lia. Qed.

Lemma u64_sub x y : u64 (u64 x - y) = u64 (x - y).
Proof. apply Zminus_mod_idemp_l. Qed.

(** A time that has passed: the difference wraps around and is negative as a
    [signed long]. *)
Lemma slot_for_passed now x : now - 2 ^ 63 <= x < now -> slot_for now (u64 x) = (TV1, now mod 1024).
Proof.
  intros Hx. unfold slot_for. rewrite u64_sub, mask_r.
  assert (u64 (x - now) = x - now + 2 ^ 64) as ->.
  { unfold u64. symmetry. apply (Z.mod_unique_pos _ _ (-1)); lia. }
  change TVR_SIZE with 1024. change (Z.shiftl 1 (TVR_BITS + TVN_BITS)) with 65536.
  change (Z.shiftl 1 (TVR_BITS + 2 * TVN_BITS)) with 4194304. change (Z.shiftl 1 (TVR_BITS + 3 * TVN_BITS)) with 268435456.
  repeat match goal with |- context [?a <? ?b] => destruct (Z.ltb_spec a b); [lia|] end.
  destruct (Z.leb_spec 9223372036854775808 (x - now + 2 ^ 64)); [|lia]. by rewrite mask_r.
Qed.

Lemma slot_for_placed now x : 1 <= now < 2 ^ 62 -> now - 2 ^ 63 <= x < 2 ^ 63 -> slot_ok now x (u64 x) (slot_for now (u64 x)).
Proof.
  intros Hn Hx. destruct (Z.lt_ge_cases x now) as [Hlt|Hge].
  { rewrite slot_for_passed by lia. split; [|done]. cbn [fst snd]. rewrite Z.max_r by lia. apply placed_near. lia. }
  rewrite !(u64_small x) by lia. rename x into e, Hx into He, Hge into Hne.
  unfold slot_for. rewrite !slot_div, !mask_r, (u64_small (e - now)) by (lia || (vm_compute; discriminate)).
  unfold slot_ok. rewrite Z.max_l by lia. remember (e - now) as idx eqn:Hidx.
  destruct (Z.ltb_spec idx TVR_SIZE) as [H1|H1]; change TVR_SIZE with 1024 in H1.
  { cbn [fst snd]. split; [|done]. apply placed_near. lia. }
  destruct (Z.ltb_spec idx (Z.shiftl 1 (TVR_BITS + TVN_BITS))) as [H2|H2]; change (Z.shiftl 1 (TVR_BITS + TVN_BITS)) with 65536 in H2.
  { destruct (placed_ahead now TV2 e e e) as [? ?]; vals; done || lia. }
  destruct (Z.ltb_spec idx (Z.shiftl 1 (TVR_BITS + 2 * TVN_BITS))) as [H3|H3];
    change (Z.shiftl 1 (TVR_BITS + 2 * TVN_BITS)) with 4194304 in H3.
  { destruct (placed_ahead now TV3 e e e) as [? ?]; vals; done || lia. }
  destruct (Z.ltb_spec idx (Z.shiftl 1 (TVR_BITS + 3 * TVN_BITS))) as [H4|H4];
    change (Z.shiftl 1 (TVR_BITS + 3 * TVN_BITS)) with 268435456 in H4.
  { destruct (placed_ahead now TV4 e e e) as [? ?]; vals; done || lia. }
  destruct (Z.leb_spec 9223372036854775808 idx) as [H5|H5]; [lia|].
  destruct (Z.ltb_spec MAX_TVAL idx) as [H6|H6]; change MAX_TVAL with 17179869183 in *.
  - rewrite (u64_small (_ + now)) by lia.
    destruct (placed_ahead now TV5 (17179869183 + now) e e) as [? ?]; vals; done || lia.
  - destruct (placed_ahead now TV5 e e e) as [? ?]; vals; done || lia.
Qed.

(** As time goes on a timer stays where it is until its slot comes. *)
Lemma placed_next now tv i due e :
  placed now tv i due e -> 0 <= now -> (now mod unit_of tv = 0 -> i <> (now / unit_of tv) mod width tv) ->
  placed (now + 1) tv i due e.
Proof.
  intros (x&->&Hx&Hd&H5&H1) Hn Hi. pose proof (unit_pos tv) as Hu. exists x. split; [done|]. split; [|done].
  assert (first_slot tv (now + 1) = now / unit_of tv + 1) as Hf1.
  { unfold first_slot. replace (now + 1 + unit_of tv - 1) with (now + 1 * unit_of tv) by lia. by rewrite Z.div_add by lia. }
  rewrite Hf1. unfold first_slot in Hx.
  destruct (Z.eq_dec (now mod unit_of tv) 0) as [Hal|Hal].
  - assert ((now + unit_of tv - 1) / unit_of tv = now / unit_of tv) as Hf.
    { pose proof (Z.div_mod now (unit_of tv) ltac:(lia)). symmetry. apply (Z.div_unique_pos _ _ _ (unit_of tv - 1)); lia. }
    rewrite Hf in Hx. assert (x / unit_of tv <> now / unit_of tv) by (intros He; apply (Hi Hal); by rewrite He). lia.
  - assert ((now + unit_of tv - 1) / unit_of tv = now / unit_of tv + 1) as Hf.
    { pose proof (Z.div_mod now (unit_of tv) ltac:(lia)). pose proof (Z.mod_pos_bound now (unit_of tv) Hu).
      symmetry. apply (Z.div_unique_pos _ _ _ (now mod unit_of tv - 1)); lia. }
    rewrite Hf in Hx. lia.
Qed.

(** The slot that comes holds timers that are due within its time. *)
Lemma placed_slot_now now tv due e :
  placed now tv ((now / unit_of tv) mod width tv) due e -> 0 <= now -> now mod unit_of tv = 0 ->
  now <= due /\ (tv = TV1 -> due = now) /\ (tv <> TV1 -> e = due).
Proof.
  intros (x&Hi&Hx&Hd&H5&H1) Hn Hal. pose proof (unit_pos tv) as Hu. pose proof (width_pos tv) as Hw. unfold first_slot in Hx.
  assert ((now + unit_of tv - 1) / unit_of tv = now / unit_of tv) as Hf.
  { pose proof (Z.div_mod now (unit_of tv) ltac:(lia)). symmetry. apply (Z.div_unique_pos _ _ _ (unit_of tv - 1)); lia. }
  rewrite Hf in Hx. assert (x / unit_of tv = now / unit_of tv) as He.
  { pose proof (Z.div_mod (x / unit_of tv) (width tv) ltac:(lia)) as Hd1.
    pose proof (Z.div_mod (now / unit_of tv) (width tv) ltac:(lia)) as Hd2. rewrite <- Hi in Hd1.
    generalize dependent (x / unit_of tv). generalize dependent (now / unit_of tv). clear. intros. destruct tv; cbn [width] in *; lia. }
  pose proof (Z.div_mod now (unit_of tv) ltac:(lia)). pose proof (Z.div_mod x (unit_of tv) ltac:(lia)).
  pose proof (Z.mod_pos_bound x (unit_of tv) Hu). rewrite He in *.
  split_and!; [lia| |done]. intros ->. rewrite <- H5 by done. unfold unit_of in *. cbn [shift] in *. change (2 ^ 0) with 1 in *. lia.
Qed.

(** ** The representation *)

Definition tvecs : list tvec := [TV1; TV2; TV3; TV4; TV5].

(** All timers on the wheels. *)
Definition entries (b : tw_base) : list nat := tvecs ≫= (fun tv => concat (get_tv tv b)).

(** Everything that is linked: [pool] is a list taken off its slot. *)
Definition linked (pool : list nat) (b : tw_base) : list nat := entries b ++ pool ++ b_work b.

Record rep (pool : list nat) (b : tw_base) (a : schedule) : Prop := {
  rep_now : b_jiffies b = s_now a;
  rep_range : 1 <= s_now a < 2 ^ 62;
  rep_len : forall tv, Z.of_nat (length (get_tv tv b)) = width tv;
  rep_nodup : NoDup (linked pool b);
  rep_due : forall t, t ∈ entries b ++ pool <-> is_Some (s_due a !! t);
  rep_firing : forall t, t ∈ b_work b <-> t ∈ s_firing a;
  rep_linked : forall t tm, b_timers b !! t = Some tm -> t_linked tm = true <-> t ∈ linked pool b;
  rep_timer : forall t, t ∈ linked pool b -> is_Some (b_timers b !! t);
  rep_ahead : forall t D, s_due a !! t = Some D -> s_now a <= D < 2 ^ 63 }.

(** Every timer is in a right slot; [lo] is the tick from which on each wheel is
    looked at. *)
Definition placed_all (lo : tvec -> Z) (b : tw_base) (a : schedule) : Prop :=
  forall tv i l t D tm, get_tv tv b !! i = Some l -> t ∈ l -> s_due a !! t = Some D -> b_timers b !! t = Some tm ->
  placed (lo tv) tv (Z.of_nat i) D (t_expires tm).

(** The wheel between two operations. *)
Definition wheel_inv (b : tw_base) (a : schedule) : Prop := rep [] b a /\ placed_all (fun _ => s_now a) b a.

(** ** Lists of lists *)

Lemma concat_insert {A} (v : list (list A)) i l l' : v !! i = Some l -> l ++ concat (<[i := l']> v) ≡ₚ l' ++ concat v.
Proof.
  intros Hi. rewrite <- (take_drop_middle v i l Hi) at 2. rewrite insert_take_drop by (by eapply lookup_lt_Some).
  rewrite !concat_app. cbn [concat].
  rewrite (Permutation_app_swap_app l (concat _)), (Permutation_app_swap_app l' (concat _)).
  apply Permutation_app_head, Permutation_app_swap_app.
Qed.

Lemma perm_between {A} (l l' x x' p q : list A) : l ++ x' ≡ₚ l' ++ x -> l ++ p ++ x' ++ q ≡ₚ l' ++ p ++ x ++ q.
Proof.
  intros H. rewrite !(Permutation_app_swap_app _ p). apply Permutation_app_head. rewrite !app_assoc. by rewrite H.
Qed.

Lemma get_set_tv tv tv' vec b : get_tv tv' (set_tv tv vec b) = if decide (tv = tv') then vec else get_tv tv' b.
Proof. destruct b, tv, tv'; done. Qed.

Lemma set_tv_other tv vec b : b_jiffies (set_tv tv vec b) = b_jiffies b /\ b_work (set_tv tv vec b) = b_work b /\
  b_timers (set_tv tv vec b) = b_timers b.
Proof. by destruct b, tv. Qed.

Lemma elem_of_entries b t : t ∈ entries b <-> exists tv i l, get_tv tv b !! i = Some l /\ t ∈ l.
Proof.
  unfold entries. rewrite list_elem_of_bind. split.
  - intros (tv&Ht&_). apply list_elem_of_In, in_concat in Ht as (l&Hl&Ht). apply list_elem_of_In, list_elem_of_lookup in Hl as [i Hi].
    exists tv, i, l. split; [done|]. by apply list_elem_of_In.
  - intros (tv&i&l&Hi&Ht). exists tv. split; [|destruct tv; unfold tvecs; set_solver].
    apply list_elem_of_In, in_concat. exists l. split; apply list_elem_of_In; [by eapply list_elem_of_lookup_2|done].
Qed.

(** Replacing the list of one slot. *)
Lemma entries_set tv i l l' b : get_tv tv b !! i = Some l ->
  l ++ entries (set_tv tv (<[i := l']> (get_tv tv b)) b) ≡ₚ l' ++ entries b.
Proof.
  intros Hi. pose proof (concat_insert _ i l l' Hi) as Hc. destruct b as [j v1 v2 v3 v4 v5 w ts].
  unfold entries, tvecs. destruct tv; cbn [mbind list_bind get_tv set_tv b_tv1 b_tv2 b_tv3 b_tv4 b_tv5] in *;
    rewrite ?app_nil_r.
  - exact (perm_between l l' _ _ [] _ Hc).
  - by apply perm_between.
  - rewrite !(app_assoc (concat v1)). by apply perm_between.
  - rewrite !(app_assoc (concat v1)), !(app_assoc (concat v1 ++ _)). by apply perm_between.
  - rewrite !(app_assoc (concat v1)), !(app_assoc (concat v1 ++ _)), !(app_assoc ((concat v1 ++ _) ++ _)).
    rewrite <- (app_nil_r (concat (<[i := l']> v5))), <- (app_nil_r (concat v5)). by apply perm_between.
Qed.

(** ** Linking a timer *)

Lemma entries_timers ts b : entries (set_timers ts b) = entries b.
Proof. done. Qed.

Lemma entries_link tv i l t b : get_tv tv b !! i = Some l ->
  entries (set_tv tv (<[i := l ++ [t]]> (get_tv tv b)) b) ≡ₚ t :: entries b.
Proof.
  intros Hi. pose proof (entries_set tv i l (l ++ [t]) b Hi) as H. rewrite <- app_assoc in H.
  by apply Permutation_app_inv_l in H.
Qed.

(** The state [list_add_tail] leaves. *)
Definition linked_at (tv : tvec) (i : nat) (l : list nat) (t : nat) (tm : tw_timer_list) (b : tw_base) : tw_base :=
  set_timers (<[t := set_linked true tm]> (b_timers b)) (set_tv tv (<[i := l ++ [t]]> (get_tv tv b)) b).

Lemma linked_at_parts tv i l t tm b :
  let b' := linked_at tv i l t tm b in
  b_jiffies b' = b_jiffies b /\ b_work b' = b_work b /\ b_timers b' = <[t := set_linked true tm]> (b_timers b) /\
  forall tv', get_tv tv' b' = if decide (tv = tv') then <[i := l ++ [t]]> (get_tv tv b) else get_tv tv' b.
Proof. destruct b, tv; cbn; split_and!; try done; by intros []. Qed.

Lemma rep_link pool b a tv i l t tm D :
  rep pool b a -> get_tv tv b !! i = Some l -> b_timers b !! t = Some tm -> t ∉ linked pool b ->
  s_now a <= D < 2 ^ 63 ->
  rep pool (linked_at tv i l t tm b) (mk_schedule (s_now a) (<[t := D]> (s_due a)) (s_firing a)).
Proof.
  intros [Hnow Hr Hlen Hnd Hdue Hf Hlk Htm He] Hi Ht Hnot HD.
  destruct (linked_at_parts tv i l t tm b) as (Hj&Hw&Hts&Htv). set (b' := linked_at tv i l t tm b) in *.
  assert (entries b' ≡ₚ t :: entries b) as Hp by (apply entries_link; done).
  assert (linked pool b' ≡ₚ t :: linked pool b) as Hpl by (unfold linked; rewrite Hp, Hw; done).
  constructor; cbn [s_now s_due s_firing].
  - congruence.
  - done.
  - intros tv'. rewrite Htv. case_decide; [subst; rewrite length_insert|]; apply Hlen.
  - rewrite Hpl. by constructor.
  - intros t'. rewrite Hp. cbn [app]. rewrite elem_of_cons, Hdue, lookup_insert_is_Some. destruct (decide (t = t')); naive_solver.
  - by rewrite Hw.
  - intros t' tm'. rewrite Hts, Hpl, elem_of_cons. intros [[<- <-]|[Hne Hl]]%lookup_insert_Some; [cbn; naive_solver|].
    rewrite (Hlk _ _ Hl). naive_solver.
  - intros t'. rewrite Hpl, Hts, elem_of_cons, lookup_insert_is_Some. intros [->|Hin]; [by left|].
    destruct (decide (t = t')); [by left|right]. auto.
  - intros t' D' [[<- <-]|[Hne HD']]%lookup_insert_Some; [done|]. by eapply He.
Qed.

(** Which ticks the wheels are looked at from: the current one, or the next one
    for the wheels behind the first. *)
Definition lo_ok (now : Z) (lo : tvec -> Z) : Prop := forall tv, lo tv = now \/ tv <> TV1 /\ lo tv = now + 1.

Lemma placed_link lo b a tv i l t tm D :
  placed_all lo b a -> get_tv tv b !! i = Some l -> b_timers b !! t = Some tm -> t ∉ entries b ->
  placed (lo tv) tv (Z.of_nat i) D (t_expires tm) ->
  placed_all lo (linked_at tv i l t tm b) (mk_schedule (s_now a) (<[t := D]> (s_due a)) (s_firing a)).
Proof.
  intros Hall Hi Ht Hnot Hp tv' i' l' t' D' tm' Hl' Ht' HD' Htm'.
  destruct (linked_at_parts tv i l t tm b) as (_&_&Hts&Htv). rewrite Htv in Hl'. rewrite Hts in Htm'. cbn [s_due] in HD'.
  destruct (decide (t = t')) as [<-|Hne].
  - rewrite lookup_insert_eq in HD'. rewrite lookup_insert_eq in Htm'. simplify_eq. cbn.
    assert (forall tv0 i0 l0, get_tv tv0 b !! i0 = Some l0 -> t ∉ l0) as Hno.
    { intros tv0 i0 l0 H0 Hin. apply Hnot, elem_of_entries. eauto. }
    destruct (decide (tv = tv')) as [<-|]; [|by destruct (Hno _ _ _ Hl')].
    apply list_lookup_insert_Some in Hl' as [(<-&<-&_)|[_ Hl']]; [done|by destruct (Hno _ _ _ Hl')].
  - rewrite lookup_insert_ne in HD' by done. rewrite lookup_insert_ne in Htm' by done.
    destruct (decide (tv = tv')) as [<-|]; [|by eapply Hall].
    apply list_lookup_insert_Some in Hl' as [(<-&<-&_)|[_ Hl']]; [|by eapply Hall].
    apply elem_of_app in Ht' as [Ht'|Ht'%list_elem_of_singleton]; [by eapply Hall|congruence].
Qed.

(** Linking leaves the expiry of every timer. *)
Definition same_expires (b b' : tw_base) : Prop :=
  forall t, t_expires <$> b_timers b' !! t = t_expires <$> b_timers b !! t.

Lemma same_expires_insert b b' t tm tm' : b_timers b !! t = Some tm -> t_expires tm' = t_expires tm ->
  b_timers b' = <[t := tm']> (b_timers b) -> same_expires b b'.
Proof.
  intros Ht He Hb t'. rewrite Hb. destruct (decide (t = t')) as [<-|]; [|by rewrite lookup_insert_ne].
  rewrite lookup_insert_eq, Ht. cbn. by rewrite He.
Qed.

Lemma same_expires_due b b' t tm' (P : Z -> Prop) : same_expires b b' -> b_timers b' !! t = Some tm' ->
  (forall tm, b_timers b !! t = Some tm -> P (t_expires tm)) -> P (t_expires tm').
Proof. intros Hs Ht HP. specialize (Hs t). rewrite Ht in Hs. destruct (b_timers b !! t) as [tm|]; [|done]. injection Hs as ->. by apply HP. Qed.

(** [_tw_add_timer] of a timer that is on no list. *)
Lemma add_timer_spec lo pool b a t tm x :
  rep pool b a -> placed_all lo b a -> lo_ok (s_now a) lo -> b_timers b !! t = Some tm -> t ∉ linked pool b ->
  t_expires tm = u64 x -> s_now a - 2 ^ 63 <= x < 2 ^ 63 ->
  exists b', _tw_add_timer t b = Some b' /\ b_work b' = b_work b /\ same_expires b b' /\
    rep pool b' (mk_schedule (s_now a) (<[t := Z.max x (s_now a)]> (s_due a)) (s_firing a)) /\
    placed_all lo b' (mk_schedule (s_now a) (<[t := Z.max x (s_now a)]> (s_due a)) (s_firing a)).
Proof.
  intros Hrep Hall Hlo Ht Hnot Hx He. pose proof Hrep as [Hnow Hr Hlen _ _ _ Hlk _ _].
  pose proof (slot_for_placed (s_now a) x Hr He) as [Hp1 Hp2]. rewrite <- Hx in *. unfold _tw_add_timer. rewrite Ht, Hnow. cbn [mbind option_bind].
  destruct (slot_for (s_now a) (t_expires tm)) as [tv i]. cbn [fst snd] in *.
  pose proof (placed_index _ _ _ _ _ Hp1) as Hi. unfold list_add_tail. rewrite Ht. cbn [mbind option_bind].
  destruct (t_linked tm) eqn:El; [by apply (Hlk _ _ Ht) in El|].
  destruct (lookup_lt_is_Some_2 (get_tv tv b) (Z.to_nat i)) as [l Hl].
  { specialize (Hlen tv). lia. }
  rewrite Hl. cbn [mbind option_bind]. exists (linked_at tv (Z.to_nat i) l t tm b). split; [done|].
  destruct (linked_at_parts tv (Z.to_nat i) l t tm b) as (_&Hw&Hts&_). split; [done|].
  split; [by apply (same_expires_insert b _ t tm (set_linked true tm))|]. split.
  - apply rep_link; [done..|lia].
  - apply placed_link; try done.
    + intros Hin. apply Hnot. unfold linked. apply elem_of_app. by left.
    + rewrite Z2Nat.id by lia. destruct (Hlo tv) as [->|[? ->]]; auto.
Qed.

(** ** Cascading *)

(** A timer leaves the pool. *)
Lemma rep_unpool pool b a t tm :
  rep (t :: pool) b a -> b_timers b !! t = Some tm ->
  rep pool (set_timers (<[t := set_linked false tm]> (b_timers b)) b) (mk_schedule (s_now a) (delete t (s_due a)) (s_firing a)) /\
  t ∉ linked pool b.
Proof.
  intros [Hnow Hr Hlen Hnd Hdue Hf Hlk Htm He] Ht.
  assert (linked (t :: pool) b ≡ₚ t :: linked pool b) as Hp.
  { symmetry. apply Permutation_middle. }
  rewrite Hp in Hnd. apply NoDup_cons in Hnd as [Hnot Hnd]. split; [|done].
  change (linked pool (set_timers (<[t := set_linked false tm]> (b_timers b)) b)) with (linked pool b).
  constructor; cbn [s_now s_due s_firing set_timers b_jiffies b_work b_timers]; try done.
  - intros t'. rewrite lookup_delete_is_Some, <- Hdue. rewrite entries_timers, !elem_of_app, elem_of_cons.
    unfold linked in Hnot. rewrite !elem_of_app in Hnot. naive_solver.
  - intros t' tm'. intros [[<- <-]|[Hne Hl]]%lookup_insert_Some; [cbn; split; [done|]; intros Hin; by destruct Hnot|].
    rewrite (Hlk _ _ Hl), Hp, elem_of_cons. change (t' ∈ linked pool (set_timers _ b)) with (t' ∈ linked pool b). naive_solver.
  - intros t' Hin. rewrite lookup_insert_is_Some'. right. apply Htm. rewrite Hp. by right.
  - intros t' D [Hne HD]%lookup_delete_Some. by eapply He.
Qed.

Lemma relink_spec lo pool b a t tm :
  rep (t :: pool) b a -> placed_all lo b a -> lo_ok (s_now a) lo -> b_timers b !! t = Some tm ->
  s_due a !! t = Some (t_expires tm) ->
  exists b', relink t b = Some b' /\ b_work b' = b_work b /\ same_expires b b' /\ rep pool b' a /\ placed_all lo b' a.
Proof.
  intros Hrep Hall Hlo Ht HD. pose proof Hrep as [_ _ _ _ _ _ _ _ He]. pose proof (He _ _ HD) as Hr. pose proof (rep_range _ _ _ Hrep) as Hn.
  destruct (rep_unpool _ _ _ _ _ Hrep Ht) as [Hrep0 Hnot]. remember (set_timers (<[t := set_linked false tm]> (b_timers b)) b) as b0 eqn:Eb0.
  assert (b_timers b0 !! t = Some (set_linked false tm)) as Ht0 by (subst b0; apply lookup_insert_eq).
  assert (placed_all lo b0 (mk_schedule (s_now a) (delete t (s_due a)) (s_firing a))) as Hall0.
  { intros tv i l t' D' tm' Hl Hin HD' Htm'. cbn [s_due] in HD'. apply lookup_delete_Some in HD' as [Hne HD']. subst b0. cbn in Htm'. rewrite lookup_insert_ne in Htm' by done.
    by eapply Hall. }
  assert (t ∉ linked pool b0) as Hnot0 by (by subst b0).
  destruct (add_timer_spec lo pool b0 _ t _ (t_expires tm) Hrep0 Hall0 Hlo Ht0 Hnot0) as (b'&Hadd&Hw&Hex&Hrep'&Hall');
    [cbn; by rewrite u64_small by lia|cbn; lia|].
  cbn [s_now s_due s_firing t_expires set_linked] in *.
  rewrite Z.max_l, insert_delete_eq, insert_id in Hrep', Hall' by (done || lia).
  exists b'. unfold relink. rewrite Ht. cbn [mbind option_bind]. rewrite <- Eb0. destruct a. split_and!; try done.
  - by subst b0.
  - assert (same_expires b b0) as H0 by (subst b0; by apply (same_expires_insert b _ t tm (set_linked false tm))).
    intros t'. by rewrite Hex, H0.
Qed.

Lemma add_timers_spec lo l : forall b a,
  rep l b a -> placed_all lo b a -> lo_ok (s_now a) lo ->
  (forall t tm, t ∈ l -> b_timers b !! t = Some tm -> s_due a !! t = Some (t_expires tm)) ->
  exists b', add_timers l b = Some b' /\ b_work b' = b_work b /\ rep [] b' a /\ placed_all lo b' a.
Proof.
  induction l as [|t l IH]; intros b a Hrep Hall Hlo Hd; cbn [add_timers]; [by exists b|].
  pose proof Hrep as [_ _ _ Hnd _ _ _ Htm _].
  destruct (Htm t) as [tm Ht]. { unfold linked. rewrite !elem_of_app, elem_of_cons. auto. }
  destruct (relink_spec lo l b a t tm Hrep Hall Hlo Ht) as (b1&Hl1&Hw1&Hex&Hrep1&Hall1); [apply Hd; [by left|done]|].
  rewrite Hl1. cbn [mbind option_bind].
  destruct (IH b1 a Hrep1 Hall1 Hlo) as (b2&?&?&?&?); [|exists b2; split_and!; congruence || done].
  intros t' tm' Hin Htm'. apply (same_expires_due b b1 t' tm' (fun e => s_due a !! t' = Some e) Hex Htm').
  intros tm0. apply Hd. by right.
Qed.

(** The timers of a slot taken off the wheel. *)
Lemma rep_take b a tv i l :
  rep [] b a -> get_tv tv b !! i = Some l -> rep l (set_tv tv (<[i := []]> (get_tv tv b)) b) a.
Proof.
  intros [Hnow Hr Hlen Hnd Hdue Hf Hlk Htm He] Hi. pose proof (entries_set tv i l [] b Hi) as Hp. cbn [app] in Hp.
  destruct (set_tv_other tv (<[i := []]> (get_tv tv b)) b) as (Hj&Hw&Hts). set (b' := set_tv tv _ b) in *.
  assert (linked l b' ≡ₚ linked [] b) as Hpl.
  { unfold linked. cbn [app]. rewrite Hw, app_assoc, (Permutation_app_comm (entries b')), Hp. done. }
  assert (entries b' ++ l ≡ₚ entries b ++ []) as Hpe by (rewrite app_nil_r, Permutation_app_comm; done).
  constructor; rewrite ?Hj, ?Hw, ?Hts; try done.
  - intros tv'. unfold b'. rewrite get_set_tv. case_decide; [subst; rewrite length_insert|]; apply Hlen.
  - by rewrite Hpl.
  - intros t. by rewrite Hpe.
  - intros t tm Ht. rewrite Hpl. by apply Hlk.
  - intros t. rewrite Hpl. apply Htm.
Qed.

Lemma placed_take lo b a tv i : placed_all lo b a -> placed_all lo (set_tv tv (<[i := []]> (get_tv tv b)) b) a.
Proof.
  intros Hall tv' i' l' t D tm Hl' Hin HD Ht. destruct (set_tv_other tv (<[i := []]> (get_tv tv b)) b) as (_&_&Hts).
  rewrite Hts in Ht. rewrite get_set_tv in Hl'. case_decide; [|by eapply Hall]. subst tv'.
  apply list_lookup_insert_Some in Hl' as [(_&<-&_)|[_ Hl']]; [by inversion Hin|by eapply Hall].
Qed.
