(* ===== verification/TimerWheelOps.v ===== *)
(** * The timer wheel: cascades, runs and operations against the schedule (src/lib/timer_wheel.c) *)

From Stdlib Require Import ZArith Lia.
From stdpp Require Import base list numbers option gmap.
From S2P Require Import Prelude TimerWheel TimerWheelSpec.

(** ** Cascades *)

(** The wheels in [ahead] are looked at from the next tick on. *)
Definition looked (now : Z) (ahead : list tvec) (tv : tvec) : Z := if decide (tv ∈ ahead) then now + 1 else now.

Lemma looked_ok now ahead : TV1 ∉ ahead -> lo_ok now (looked now ahead).
Proof. intros H tv. unfold looked. case_decide; [right|by left]. split; [by intros ->|done]. Qed.

(** A wheel whose slot of this tick is empty, or that has none. *)
Lemma placed_all_skip ahead tv b a :
  placed_all (looked (s_now a) ahead) b a -> 0 <= s_now a ->
  (forall i l t, get_tv tv b !! i = Some l -> t ∈ l -> s_now a mod unit_of tv = 0 ->
     Z.of_nat i <> (s_now a / unit_of tv) mod width tv) ->
  placed_all (looked (s_now a) (tv :: ahead)) b a.
Proof.
  intros Hall Hn Hslot tv' i l t D tm Hl Hin HD Ht. specialize (Hall _ _ _ _ _ _ Hl Hin HD Ht). unfold looked in *.
  destruct (decide (tv' ∈ ahead)) as [Ha|Ha].
  - rewrite decide_True by set_solver. done.
  - case_decide as Hc; [|done]. assert (tv' = tv) as -> by set_solver. apply placed_next; eauto.
Qed.

Lemma cascade_spec ahead tv b a :
  rep [] b a -> placed_all (looked (s_now a) ahead) b a -> tv <> TV1 -> TV1 ∉ ahead -> tv ∉ ahead ->
  s_now a mod unit_of tv = 0 ->
  exists b', _tw_cascade tv ((s_now a / unit_of tv) mod width tv) b = Some b' /\ b_work b' = b_work b /\
    rep [] b' a /\ placed_all (looked (s_now a) (tv :: ahead)) b' a.
Proof.
  intros Hrep Hall Htv H1 Ha Hal. pose proof Hrep as [_ Hr Hlen _ _ _ _ _ _]. set (idx := (s_now a / unit_of tv) mod width tv).
  assert (0 <= idx < width tv) as Hidx by (apply Z.mod_pos_bound, width_pos).
  destruct (lookup_lt_is_Some_2 (get_tv tv b) (Z.to_nat idx)) as [l Hl]; [specialize (Hlen tv); lia|].
  unfold _tw_cascade. rewrite Hl. cbn [mbind option_bind]. pose proof (rep_take b a tv _ l Hrep Hl) as Hrep1.
  pose proof (placed_take _ b a tv (Z.to_nat idx) Hall) as Hall1.
  destruct (set_tv_other tv (<[Z.to_nat idx := []]> (get_tv tv b)) b) as (_&Hw&Hts).
  apply (placed_all_skip _ tv) in Hall1; [|lia|].
  - destruct (add_timers_spec _ l _ a Hrep1 Hall1) as (b'&?&?&?&?); [apply looked_ok; set_solver| |exists b'; split_and!; congruence || done].
    intros t tm Hin Ht. rewrite Hts in Ht. destruct Hrep as [_ _ _ _ Hdue _ _ _ _].
    destruct (proj1 (Hdue t)) as [D HD].
    { rewrite app_nil_r. apply elem_of_entries. eauto. }
    pose proof (Hall _ _ _ _ _ _ Hl Hin HD Ht) as Hp. unfold looked in Hp. rewrite decide_False, Z2Nat.id in Hp by (done || lia).
    apply placed_slot_now in Hp as (_&_&He); [|lia|done]. by rewrite He.
  - intros i l' t Hl' Hin _ Hi. rewrite get_set_tv, decide_True in Hl' by done.
    apply list_lookup_insert_Some in Hl' as [(_&<-&_)|[Hne _]]; [by inversion Hin|]. fold idx in Hi. lia.
Qed.

(** A wheel that has no slot at this tick. *)
Lemma skip_spec ahead tv b a :
  rep [] b a -> placed_all (looked (s_now a) ahead) b a -> s_now a mod unit_of tv <> 0 ->
  placed_all (looked (s_now a) (tv :: ahead)) b a.
Proof. intros [_ ? _ _ _ _ _ _ _] Hall Hn. apply placed_all_skip; [done|lia|]. by intros. Qed.

(** The index the cascade of a wheel uses. *)
Lemma index_tv tv n b a : rep [] b a -> 0 <= n -> shift tv = 10 + n * 6 -> width tv = 64 ->
  INDEX b n = (s_now a / unit_of tv) mod width tv.
Proof. intros [Hj _ _ _ _ _ _ _ _] Hn Hs Hw. unfold INDEX, unit_of. rewrite slot_div, Hj, Hs, Hw; [done|]. unfold TVR_BITS, TVN_BITS. lia. Qed.

(** A wheel has a slot at the ticks where the one below has turned once. *)
Definition aligned (now : Z) (tv : tvec) : Prop := now mod unit_of tv = 0.

Lemma aligned_next now tv tv' : unit_of tv' = unit_of tv * width tv ->
  aligned now tv' <-> aligned now tv /\ (now / unit_of tv) mod width tv = 0.
Proof.
  intros Hu. unfold aligned. pose proof (unit_pos tv) as Hp. pose proof (width_pos tv) as Hw. rewrite Hu, Z.rem_mul_r by lia.
  pose proof (Z.mod_pos_bound now (unit_of tv) Hp). pose proof (Z.mod_pos_bound (now / unit_of tv) (width tv) Hw).
  split; [|intros [-> ->]; lia]. intros Hz. assert ((now / unit_of tv) mod width tv = 0) by nia. nia.
Qed.

Lemma aligned_tv2 now : aligned now TV2 <-> now mod 1024 = 0.
Proof. done. Qed.
Lemma aligned_tv3 now : aligned now TV3 <-> aligned now TV2 /\ (now / unit_of TV2) mod width TV2 = 0.
Proof. by apply aligned_next. Qed.
Lemma aligned_tv4 now : aligned now TV4 <-> aligned now TV3 /\ (now / unit_of TV3) mod width TV3 = 0.
Proof. by apply aligned_next. Qed.
Lemma aligned_tv5 now : aligned now TV5 <-> aligned now TV4 /\ (now / unit_of TV4) mod width TV4 = 0.
Proof. by apply aligned_next. Qed.

(** Decide from the indices seen which wheels have a slot at this tick. *)
Ltac wheel_arith := match goal with |- context [?now mod unit_of ?tv] => change (now mod unit_of tv = 0) with (aligned now tv) end;
  rewrite ?aligned_tv5, ?aligned_tv4, ?aligned_tv3, ?aligned_tv2; tauto.

Definition ahead_all : list tvec := [TV5; TV4; TV3; TV2].

Lemma cascade_all_spec b a : wheel_inv b a ->
  exists b', cascade_all b = Some b' /\ b_work b' = b_work b /\ rep [] b' a /\ placed_all (looked (s_now a) ahead_all) b' a.
Proof.
  intros [Hrep Hall]. change (fun _ : tvec => s_now a) with (looked (s_now a) []) in Hall. pose proof Hrep as [Hnow Hr _ _ _ _ _ _ _].
  unfold cascade_all. rewrite mask_r, Hnow. destruct (Z.eqb_spec (s_now a mod 1024) 0) as [H1|H1]; cbn [negb].
  2: { exists b. split_and!; try congruence. do 4 (apply skip_spec; [done| |wheel_arith]). done. }
  rewrite (index_tv TV2 0 b a) by done.
  destruct (cascade_spec [] TV2 b a) as (b2&Hc2&Hw2&Hrep2&Hall2); [done..|set_solver|set_solver|wheel_arith|].
  rewrite Hc2. cbn [mbind option_bind]. rewrite (index_tv TV2 0 b2 a), (index_tv TV3 1 b2 a) by done.
  destruct (Z.eqb_spec ((s_now a / unit_of TV2) mod width TV2) 0) as [H2|H2]; cbn [negb].
  2: { exists b2. split_and!; try congruence. do 3 (apply skip_spec; [done| |wheel_arith]). done. }
  destruct (cascade_spec [TV2] TV3 b2 a) as (b3&Hc3&Hw3&Hrep3&Hall3); [done..|set_solver|set_solver|wheel_arith|].
  rewrite Hc3. cbn [mbind option_bind]. rewrite (index_tv TV3 1 b3 a), (index_tv TV4 2 b3 a) by done.
  destruct (Z.eqb_spec ((s_now a / unit_of TV3) mod width TV3) 0) as [H3|H3]; cbn [negb].
  2: { exists b3. split_and!; try congruence. do 2 (apply skip_spec; [done| |wheel_arith]). done. }
  destruct (cascade_spec [TV3; TV2] TV4 b3 a) as (b4&Hc4&Hw4&Hrep4&Hall4); [done..|set_solver|set_solver|wheel_arith|].
  rewrite Hc4. cbn [mbind option_bind]. rewrite (index_tv TV4 2 b4 a), (index_tv TV5 3 b4 a) by done.
  destruct (Z.eqb_spec ((s_now a / unit_of TV4) mod width TV4) 0) as [H4|H4]; cbn [negb].
  2: { exists b4. split_and!; try congruence. do 1 (apply skip_spec; [done| |wheel_arith]). done. }
  destruct (cascade_spec [TV4; TV3; TV2] TV5 b4 a) as (b5&Hc5&Hw5&Hrep5&Hall5); [done..|set_solver|set_solver|wheel_arith|].
  exists b5. split_and!; congruence || done.
Qed.

(** ** The timers that are due *)

(** No timer is placed after its time. *)
Lemma placed_not_before now tv i due e : placed now tv i due e -> now <= due.
Proof.
  intros (x&_&[Hx _]&Hd&_). pose proof (unit_pos tv) as Hu. unfold first_slot in Hx.
  pose proof (Z.mul_div_le x (unit_of tv) Hu). pose proof (Z.mul_succ_div_gt (now + unit_of tv - 1) (unit_of tv) Hu). nia.
Qed.

(** The current slot of the first wheel. *)
Lemma slot_due b a l :
  rep [] b a -> placed_all (looked (s_now a) ahead_all) b a -> b_tv1 b !! Z.to_nat (s_now a mod 1024) = Some l ->
  forall t, t ∈ l <-> s_due a !! t = Some (s_now a).
Proof.
  intros [_ Hr _ _ Hdue _ _ Htm _] Hall Hl t.
  assert (forall tv i l', get_tv tv b !! i = Some l' -> t ∈ l' ->
    exists D tm, s_due a !! t = Some D /\ b_timers b !! t = Some tm /\ placed (looked (s_now a) ahead_all tv) tv (Z.of_nat i) D (t_expires tm)) as Hat.
  { intros tv i l' Hi Hin. assert (t ∈ entries b) as He by (apply elem_of_entries; eauto).
    destruct (proj1 (Hdue t)) as [D HD]; [by rewrite app_nil_r|]. destruct (Htm t) as [tm Ht]; [unfold linked; set_solver|].
    exists D, tm. split_and!; [done..|]. by eapply Hall. }
  split.
  - intros Hin. destruct (Hat TV1 _ _ Hl Hin) as (D&tm&HD&_&Hp). unfold looked in Hp. rewrite decide_False in Hp by set_solver.
    rewrite Z2Nat.id in Hp by (apply Z.mod_pos_bound; lia). rewrite <- (Z.div_1_r (s_now a)) in Hp at 2.
    apply (placed_slot_now (s_now a) TV1) in Hp as (_&He&_); [by rewrite <- He|lia|apply Z.mod_1_r].
  - intros HD. assert (t ∈ entries b ++ []) as He by (apply Hdue; eauto). rewrite app_nil_r in He.
    apply elem_of_entries in He as (tv&i&l'&Hi&Hin). destruct (Hat _ _ _ Hi Hin) as (D'&tm&HD'&_&Hp). simplify_eq.
    destruct (decide (tv = TV1)) as [->|Hne].
    + destruct Hp as (x&Hi'&_&_&H5&_). unfold unit_of in Hi'. cbn [shift width] in Hi'. rewrite H5, Z.div_1_r in Hi' by done.
      assert (i = Z.to_nat (s_now a mod 1024)) as -> by lia. cbn [get_tv] in Hi. congruence.
    + apply placed_not_before in Hp. unfold looked in Hp. rewrite decide_True in Hp by (destruct tv; unfold ahead_all; set_solver). lia.
Qed.

(** The slot becomes the list of the timers to be called, and time moves on. *)
Lemma rep_start b a i l :
  rep [] b a -> b_work b = [] -> b_tv1 b !! i = Some l -> s_now a + 1 < 2 ^ 62 ->
  (forall t, t ∈ l <-> s_due a !! t = Some (s_now a)) ->
  rep [] (set_work l (set_tv TV1 (<[i := []]> (b_tv1 b)) (set_jiffies (s_now a + 1) b))) (s_start a).
Proof.
  intros Hrep Hw Hi Hmax Hl. pose proof (rep_take b a TV1 i l Hrep Hi) as [_ Hr Hlen Hnd Hdue _ Hlk Htm He].
  remember (set_tv TV1 (<[i := []]> (get_tv TV1 b)) b) as b1 eqn:Eb1.
  remember (set_work l (set_tv TV1 (<[i := []]> (b_tv1 b)) (set_jiffies (s_now a + 1) b))) as b2 eqn:Eb2.
  assert (forall tv, get_tv tv b2 = get_tv tv b1) as Htv by (subst; destruct b; by intros []).
  assert (entries b2 = entries b1) as Hent by (subst; by destruct b).
  assert (b_work b1 = []) as Hw1 by (subst; destruct b; done).
  assert (linked [] b2 = linked l b1) as Hlink.
  { unfold linked. rewrite Hent, Hw1, app_nil_r. subst. by destruct b. }
  assert (b_timers b2 = b_timers b1) as Hts by (subst; by destruct b).
  assert (forall t, t ∈ entries b1 -> t ∉ l) as Hdisj.
  { intros t H1 H2. unfold linked in Hnd. apply NoDup_app in Hnd as (_&Hnd&_). apply (Hnd t H1). set_solver. }
  constructor; rewrite ?Hlink, ?Hts; cbn [s_now s_due s_firing s_start]; try done.
  - subst. by destruct b.
  - lia.
  - intros tv. rewrite Htv. apply Hlen.
  - intros t. rewrite Hent, app_nil_r. specialize (Hdue t). specialize (Hl t). specialize (Hdisj t). rewrite elem_of_app in Hdue.
    split.
    + intros Hin. destruct (proj1 Hdue) as [D HD]; [by left|]. exists D. apply map_lookup_filter_Some. split; [done|]. cbn. naive_solver.
    + intros [D [HD Hne]%map_lookup_filter_Some]. cbn in Hne. destruct (proj2 Hdue) as [?|?]; [by exists D|done|naive_solver].
  - intros t. assert (b_work b2 = l) as -> by (subst; by destruct b). rewrite Hl, elem_of_dom. split.
    + intros HD. exists (s_now a). by apply map_lookup_filter_Some.
    + intros [D [HD HDn]%map_lookup_filter_Some]. cbn in HDn. by subst D.
  - intros t D [HD Hne]%map_lookup_filter_Some. cbn in Hne. pose proof (He t D HD). lia.
Qed.

Lemma start_spec b a : wheel_inv b a -> b_work b = [] -> s_now a + 1 < 2 ^ 62 ->
  exists b', run_timers_start b = Some (b', s_now a) /\ wheel_inv b' (s_start a).
Proof.
  intros Hinv Hw Hmax. destruct (cascade_all_spec b a Hinv) as (b1&Hc&Hw1&Hrep&Hall). unfold run_timers_start. rewrite Hc. cbn [mbind option_bind].
  pose proof Hrep as [Hnow Hr Hlen _ _ _ _ _ _]. destruct Hinv as [[Hj _ _ _ _ _ _ _ _] _]. rewrite Hj, mask_r, Hnow.
  unfold u64. rewrite (Z.mod_small (s_now a + 1)) by lia. set (i := s_now a mod 1024).
  assert (0 <= i < 1024) as Hi by (apply Z.mod_pos_bound; lia).
  destruct (lookup_lt_is_Some_2 (b_tv1 b1) (Z.to_nat i)) as [l Hl]; [specialize (Hlen TV1); cbn in Hlen; lia|].
  change (b_tv1 (set_jiffies (s_now a + 1) b1)) with (b_tv1 b1). rewrite Hl. cbn [mbind option_bind].
  pose proof (slot_due b1 a l Hrep Hall Hl) as Hdue. eexists. split; [done|]. split; [apply rep_start; congruence || done|].
  apply (placed_take _ _ _ TV1 (Z.to_nat i)), (placed_all_skip _ TV1) in Hall; [|lia|].
  - intros tv i' l' t D tm Hl' Hin HD Ht. cbn [s_due s_start] in HD. apply map_lookup_filter_Some in HD as [HD _].
    eapply (Hall tv i' l' t D tm) in Hin; try done; [|by destruct b1, tv|by destruct b1].
    unfold looked in Hin. rewrite decide_True in Hin by (destruct tv; unfold ahead_all; set_solver). done.
  - intros i' l' t Hl' Hin _ Hi'. unfold unit_of in Hi'. cbn [shift width] in Hi'. rewrite Z.div_1_r in Hi'.
    rewrite get_set_tv, decide_True in Hl' by done.
    apply list_lookup_insert_Some in Hl' as [(_&<-&_)|[Hne _]]; [by inversion Hin|]. fold i in Hi'. lia.
Qed.

(** A delay, which the callers keep in an [int]; a negative one means at once. *)
Definition delay_ok (d : Z) : Prop := - 2 ^ 62 <= d < 2 ^ 62.

Lemma u64_delay d now : u64 (u64 d + now - 1) = u64 (d + now - 1).
Proof. unfold u64. rewrite <- !Z.add_sub_assoc. apply Zplus_mod_idemp_l. Qed.

(** ** Detaching a timer *)

Definition detached (t : nat) (tm : tw_timer_list) (b : tw_base) : tw_base :=
  mk_tw_base (b_jiffies b) (unlink t <$> b_tv1 b) (unlink t <$> b_tv2 b) (unlink t <$> b_tv3 b) (unlink t <$> b_tv4 b)
    (unlink t <$> b_tv5 b) (unlink t (b_work b)) (<[t := set_linked false tm]> (b_timers b)).

Lemma detach_eq t tm b : b_timers b !! t = Some tm -> _tw_detach_timer t b = Some (detached t tm b).
Proof. intros Ht. unfold _tw_detach_timer. rewrite Ht. by destruct b. Qed.

Lemma get_tv_detached tv t tm b : get_tv tv (detached t tm b) = unlink t <$> get_tv tv b.
Proof. by destruct tv. Qed.

Lemma elem_of_unlink t t' l : t' ∈ unlink t l <-> t' <> t /\ t' ∈ l.
Proof. unfold unlink. by rewrite list_elem_of_filter. Qed.

Lemma unlink_id t l : t ∉ l -> unlink t l = l.
Proof.
  unfold unlink. induction l as [|x l IH]; [done|]. intros H. rewrite filter_cons, decide_True by set_solver. rewrite IH; set_solver.
Qed.

Lemma unlink_concat t v : concat (unlink t <$> v) = unlink t (concat v).
Proof. induction v as [|l v IH]; [done|]. cbn [fmap list_fmap concat]. unfold unlink in *. by rewrite list.filter_app, IH. Qed.

Lemma linked_detached t tm b : linked [] (detached t tm b) = unlink t (linked [] b).
Proof.
  unfold linked, entries, tvecs. cbn [mbind list_bind get_tv detached b_tv1 b_tv2 b_tv3 b_tv4 b_tv5 b_work].
  rewrite !unlink_concat. unfold unlink. cbn [app]. by rewrite !list.filter_app.
Qed.

Lemma elem_of_entries_detached t tm b t' : t' ∈ entries (detached t tm b) <-> t' <> t /\ t' ∈ entries b.
Proof.
  unfold entries, tvecs. cbn [mbind list_bind get_tv detached b_tv1 b_tv2 b_tv3 b_tv4 b_tv5].
  rewrite !unlink_concat, !app_nil_r, !elem_of_app, !elem_of_unlink. tauto.
Qed.

Lemma detach_inv t tm b a : wheel_inv b a -> b_timers b !! t = Some tm -> wheel_inv (detached t tm b) (s_del t a).
Proof.
  intros [[Hnow Hr Hlen Hnd Hdue Hf Hlk Htm He] Hall] Ht. split.
  - constructor; try done.
    + intros tv. rewrite get_tv_detached, length_fmap. apply Hlen.
    + rewrite linked_detached. by apply NoDup_filter.
    + intros t'. rewrite app_nil_r, elem_of_entries_detached. cbn [s_due s_del]. rewrite lookup_delete_is_Some, <- Hdue, app_nil_r. naive_solver.
    + intros t'. cbn [b_work detached s_firing s_del]. rewrite elem_of_unlink, Hf. set_solver.
    + intros t' tm'. rewrite linked_detached, elem_of_unlink. cbn [b_timers detached].
      intros [[<- <-]|[Hne Hl]]%lookup_insert_Some; [cbn; naive_solver|]. rewrite (Hlk _ _ Hl). naive_solver.
    + intros t'. rewrite linked_detached, elem_of_unlink. cbn [b_timers detached]. intros [? ?].
      rewrite lookup_insert_is_Some'. right. auto.
    + intros t' D. cbn [s_due s_del]. intros [Hne HD]%lookup_delete_Some. by eapply He.
  - intros tv i l t' D tm'. rewrite get_tv_detached, list_lookup_fmap. intros Hl Hin. cbn [s_due s_del b_timers detached].
    intros [Hne HD]%lookup_delete_Some. rewrite lookup_insert_ne by done. intros Htm'.
    destruct (get_tv tv b !! i) as [l0|] eqn:El; [|done]. injection Hl as <-. apply elem_of_unlink in Hin as [_ Hin]. by eapply Hall.
Qed.

Lemma not_linked_detached t tm b : t ∉ linked [] (detached t tm b).
Proof. rewrite linked_detached, elem_of_unlink. naive_solver. Qed.

(** ** A timer that is on no list *)

Lemma not_linked_parts t b : t ∉ linked [] b -> (t ∉ entries b) /\ (t ∉ b_work b).
Proof. unfold linked. cbn [app]. rewrite elem_of_app. tauto. Qed.

(** Its owner may write its fields. *)
Lemma free_write_inv t tm b a : wheel_inv b a -> t ∉ linked [] b -> t_linked tm = false ->
  wheel_inv (set_timers (<[t := tm]> (b_timers b)) b) a.
Proof.
  intros [[Hnow Hr Hlen Hnd Hdue Hf Hlk Htm He] Hall] Hnot Hl.
  assert (s_due a !! t = None) as Hno.
  { apply eq_None_not_Some. rewrite <- Hdue, app_nil_r. by apply not_linked_parts. }
  split.
  - constructor; try done; cbn [set_timers b_timers].
    + intros t' tm'. change (linked [] (set_timers _ b)) with (linked [] b).
      intros [[<- <-]|[Hne Htm']]%lookup_insert_Some; [|by apply Hlk]. rewrite Hl. naive_solver.
    + intros t' Hin. rewrite lookup_insert_is_Some'. right. by apply Htm.
  - intros tv i l t' D tm' Hi Hin HD. cbn [set_timers b_timers].
    intros [[<- <-]|[Hne Htm']]%lookup_insert_Some; [congruence|]. by eapply Hall.
Qed.

Lemma not_linked_free t tm b a : wheel_inv b a -> b_timers b !! t = Some tm -> t_linked tm = false <-> t ∉ linked [] b.
Proof. intros [[_ _ _ _ _ _ Hlk _ _] _] Ht. rewrite <- (Hlk _ _ Ht). by destruct (t_linked tm). Qed.

(** [_tw_add_timer] after the time has been written. *)
Lemma add_inv t tm d b a :
  wheel_inv b a -> b_timers b !! t = Some tm -> t_linked tm = false -> delay_ok d ->
  exists b', _tw_add_timer t (set_timers (<[t := set_expires (u64 (d + b_jiffies b - 1)) tm]> (b_timers b)) b) = Some b' /\
    b_work b' = b_work b /\ wheel_inv b' (s_add t d a).
Proof.
  intros Hinv Ht Hl Hd. pose proof (proj1 (not_linked_free _ _ _ _ Hinv Ht) Hl) as Hnot.
  pose proof Hinv as [[Hnow Hr _ _ _ _ _ _ _] _]. rewrite Hnow. unfold delay_ok in Hd.
  pose proof (free_write_inv t (set_expires (u64 (d + s_now a - 1)) tm) b a Hinv Hnot Hl) as [Hrep Hall].
  remember (set_timers (<[t := set_expires (u64 (d + s_now a - 1)) tm]> (b_timers b)) b) as b1 eqn:Eb1.
  destruct (add_timer_spec (fun _ => s_now a) [] b1 a t (set_expires (u64 (d + s_now a - 1)) tm) (d + s_now a - 1))
    as (b'&Hadd&Hw&_&Hrep'&Hall'); try done.
  - intros tv. by left.
  - subst b1. apply lookup_insert_eq.
  - by subst b1.
  - lia.
  - replace (Z.max (d + s_now a - 1) (s_now a)) with (due_at (s_now a) d) in * by (unfold due_at; lia).
    exists b'. split_and!; [done|by subst b1|]. by split.
Qed.

(** ** The operations *)

Lemma tw_add_timer_spec t tm d b a :
  wheel_inv b a -> b_timers b !! t = Some tm -> t_linked tm = false -> t_function tm = true -> t_expires tm = u64 d -> delay_ok d ->
  exists b', tw_add_timer t b = Some b' /\ b_work b' = b_work b /\ wheel_inv b' (s_add t d a).
Proof.
  intros Hinv Ht Hl Hfn He Hd. unfold tw_add_timer, set_timer_expires. rewrite Ht. cbn [mbind option_bind]. rewrite Hfn. cbn [negb].
  rewrite He, u64_delay. by apply add_inv.
Qed.

(** A timer without a function is not added. *)
Lemma tw_add_timer_null t tm b : b_timers b !! t = Some tm -> t_function tm = false -> tw_add_timer t b = Some b.
Proof. intros Ht Hf. unfold tw_add_timer. rewrite Ht. cbn [mbind option_bind]. by rewrite Hf. Qed.

Lemma tw_del_timer_spec t tm b a : wheel_inv b a -> b_timers b !! t = Some tm ->
  exists b', tw_del_timer t b = Some (b', t_linked tm) /\ b_work b' = unlink t (b_work b) /\ wheel_inv b' (s_del t a).
Proof.
  intros Hinv Ht. unfold tw_del_timer, timer_pending. rewrite Ht. destruct (t_linked tm) eqn:El.
  - rewrite (detach_eq _ _ _ Ht). exists (detached t tm b). split_and!; [done..|]. by apply detach_inv.
  - exists b. pose proof (proj1 (not_linked_free _ _ _ _ Hinv Ht) El) as Hnot. apply not_linked_parts in Hnot as [He Hw].
    pose proof Hinv as [[_ _ _ _ Hdue Hf _ _ _] _].
    assert (s_del t a = a) as ->.
    { destruct a as [now due fi]. unfold s_del. cbn [s_now s_due s_firing] in *. f_equal.
      - apply delete_id, eq_None_not_Some. by rewrite <- Hdue, app_nil_r.
      - apply leibniz_equiv. specialize (Hf t). set_solver. }
    split_and!; [done| |done]. by rewrite unlink_id.
Qed.

(** Writing the time of a timer and then detaching it is detaching it first. *)
Lemma detach_after_write t tm e b : t_linked tm = true ->
  detached t (set_expires e tm) (set_timers (<[t := set_expires e tm]> (b_timers b)) b) =
  set_timers (<[t := set_expires e (set_linked false tm)]> (b_timers (detached t tm b))) (detached t tm b).
Proof. intros _. unfold detached, set_timers. cbn. by rewrite !insert_insert_eq. Qed.

(** Changing the time of a timer: it leaves the list it is on and is added with
    the new delay. *)
Definition s_mod (t : nat) (d : Z) (a : schedule) : schedule := s_add t d (s_del t a).

Lemma mod_linked t tm d pending_only b a :
  wheel_inv b a -> b_timers b !! t = Some tm -> t_linked tm = true -> delay_ok d ->
  exists b', __mod_timer t pending_only (set_timers (<[t := set_expires (u64 (d + b_jiffies b - 1)) tm]> (b_timers b)) b) = Some (b', true) /\
    b_work b' = unlink t (b_work b) /\ wheel_inv b' (s_mod t d a).
Proof.
  intros Hinv Ht Hl Hd. unfold __mod_timer, __detach_if_pending, timer_pending. cbn [set_timers b_timers]. rewrite lookup_insert_eq. cbn [t_linked set_expires].
  rewrite Hl. cbn [negb]. erewrite detach_eq by (cbn [set_timers b_timers]; apply lookup_insert_eq). cbn [mbind option_bind negb andb].
  change (mk_tw_base _ _ _ _ _ _ _ _) with (set_timers (<[t := set_expires (u64 (d + b_jiffies b - 1)) tm]> (b_timers b)) b).
  rewrite detach_after_write by done.
  destruct (add_inv t (set_linked false tm) d (detached t tm b) (s_del t a)) as (b'&Hadd&Hw&Hinv'); [by apply detach_inv| |done|done|].
  - apply lookup_insert_eq.
  - change (b_jiffies (detached t tm b)) with (b_jiffies b) in Hadd. rewrite Hadd. by exists b'.
Qed.

Lemma mod_free t tm d b a :
  wheel_inv b a -> b_timers b !! t = Some tm -> t_linked tm = false -> delay_ok d ->
  exists b', __mod_timer t false (set_timers (<[t := set_expires (u64 (d + b_jiffies b - 1)) tm]> (b_timers b)) b) = Some (b', true) /\
    b_work b' = b_work b /\ wheel_inv b' (s_add t d a).
Proof.
  intros Hinv Ht Hl Hd. unfold __mod_timer, __detach_if_pending, timer_pending. cbn [set_timers b_timers]. rewrite lookup_insert_eq. cbn [t_linked set_expires].
  rewrite Hl. cbn [mbind option_bind negb andb]. destruct (add_inv t tm d b a Hinv Ht Hl Hd) as (b'&Hadd&?&?).
  rewrite Hadd. by exists b'.
Qed.

Lemma tw_mod_timer_pending_spec t tm d b a :
  wheel_inv b a -> b_timers b !! t = Some tm -> delay_ok d ->
  exists b', tw_mod_timer_pending t (u64 d) b = Some (b', t_linked tm) /\ b_work b' = unlink t (b_work b) /\
    wheel_inv b' (if t_linked tm then s_mod t d a else a).
Proof.
  intros Hinv Ht Hd. unfold tw_mod_timer_pending, set_timer_expires. rewrite Ht, u64_delay. cbn [mbind option_bind].
  destruct (t_linked tm) eqn:El; [by apply mod_linked|]. pose proof (proj1 (not_linked_free _ _ _ _ Hinv Ht) El) as Hnot.
  eexists. unfold __mod_timer, __detach_if_pending, timer_pending. cbn [set_timers b_timers]. rewrite lookup_insert_eq. cbn [t_linked set_expires].
  rewrite El. cbn [mbind option_bind negb andb]. split_and!; [done| |by apply free_write_inv].
  apply not_linked_parts in Hnot as [_ Hw]. cbn. by rewrite unlink_id.
Qed.

(** [tw_mod_timer] compares the time of a pending timer with the new delay;
    they are different when the delay is not itself a time of now. *)
Lemma tw_mod_timer_spec t tm d b a :
  wheel_inv b a -> b_timers b !! t = Some tm -> delay_ok d -> (t_linked tm = true -> t_expires tm <> u64 d) ->
  exists b', tw_mod_timer t (u64 d) b = Some (b', true) /\ b_work b' = unlink t (b_work b) /\ wheel_inv b' (s_mod t d a).
Proof.
  intros Hinv Ht Hd Hne. unfold tw_mod_timer, set_timer_expires, timer_pending. rewrite Ht, u64_delay. cbn [mbind option_bind].
  destruct (t_linked tm) eqn:El; cbn [andb].
  - destruct (Z.eqb_spec (t_expires tm) (u64 d)) as [He|_]; [by destruct Hne|]. by apply mod_linked.
  - destruct (tw_del_timer_spec t tm b a Hinv Ht) as (b0&Hdel&Hw0&Hinv0). unfold tw_del_timer, timer_pending in Hdel.
    rewrite Ht, El in Hdel. injection Hdel as <-. destruct (mod_free t tm d b (s_del t a)) as (b'&?&?&?); try done.
    exists b'. split_and!; congruence || done.
Qed.

(** One timer of the run is taken off its list, to be called. *)
Lemma run_timers_next_spec b a : wheel_inv b a ->
  match b_work b with
  | [] => run_timers_next b = Some (b, None) /\ s_firing a = ∅
  | t :: w => exists b', run_timers_next b = Some (b', Some t) /\ b_work b' = w /\ t ∈ s_firing a /\ wheel_inv b' (s_fire t a)
  end.
Proof.
  intros Hinv. pose proof Hinv as [[_ _ _ Hnd Hdue Hf _ Htm _] _]. unfold run_timers_next. destruct (b_work b) as [|t w] eqn:Ew.
  - split; [done|]. apply leibniz_equiv. intros t. rewrite <- Hf. set_solver.
  - assert (t ∈ linked [] b) as Hin by (unfold linked; rewrite Ew, !elem_of_app; do 2 right; by left).
    destruct (Htm t Hin) as [tm Ht]. rewrite (detach_eq _ _ _ Ht). cbn [mbind option_bind]. exists (detached t tm b).
    unfold linked in Hnd. cbn [app] in Hnd. rewrite Ew in Hnd. apply NoDup_app in Hnd as (_&Hdj&Hnd). apply NoDup_cons in Hnd as [Hnw _].
    split_and!; [done| |apply Hf; by left|].
    + cbn [b_work detached]. rewrite Ew. unfold unlink. rewrite filter_cons_False by (intros Hc; by apply Hc). by apply unlink_id.
    + assert (s_fire t a = s_del t a) as -> by (unfold s_fire, s_del; rewrite delete_id; [done|]; apply eq_None_not_Some;
        rewrite <- Hdue, app_nil_r; intros He; apply (Hdj t He); by left).
      by apply detach_inv.
Qed.

(** A wheel without timers. *)
Lemma tw_init_timers_inv now : 1 <= now < 2 ^ 62 -> wheel_inv (tw_init_timers now) (mk_schedule now ∅ ∅).
Proof.
  intros Hn. assert (entries (tw_init_timers now) = []) as He by (vm_compute; done).
  split.
  - constructor; unfold linked; rewrite ?He; cbn [app]; try done.
    + intros []; done.
    + constructor.
    + intros t. cbn. rewrite lookup_empty. split; [set_solver|by intros []].
    + intros t. cbn. set_solver.
    + intros t. cbn. set_solver.
  - intros tv i l t D tm Hi Hin HD. cbn [s_due] in HD. by rewrite lookup_empty in HD.
Qed.

(** ** Pending timers *)

Lemma linked_pending t tm b a : wheel_inv b a -> b_timers b !! t = Some tm -> t_linked tm = true <-> s_pending t a.
Proof.
  intros [[_ _ _ _ Hdue Hf Hlk _ _] _] Ht. rewrite (Hlk _ _ Ht). unfold linked, s_pending. cbn [app].
  by rewrite elem_of_app, <- Hdue, app_nil_r, Hf.
Qed.

Lemma pending_iff t b a : wheel_inv b a -> timer_pending t b = true <-> s_pending t a.
Proof.
  intros Hinv. unfold timer_pending. destruct (b_timers b !! t) as [tm|] eqn:Ht; [by eapply linked_pending|].
  split; [done|]. destruct Hinv as [[_ _ _ _ Hdue Hf _ Htm _] _]. unfold s_pending. rewrite <- Hdue, app_nil_r, <- Hf.
  intros Hp. destruct (Htm t) as [tm Htm']; [|congruence]. unfold linked. cbn [app]. by apply elem_of_app.
Qed.

(** No operation writes the function of a timer. *)
Definition same_fn (b b' : tw_base) : Prop := forall t, t_function <$> b_timers b' !! t = t_function <$> b_timers b !! t.

Lemma same_fn_trans b1 b2 b3 : same_fn b1 b2 -> same_fn b2 b3 -> same_fn b1 b3.
Proof. intros H1 H2 t. by rewrite H2, H1. Qed.

Lemma same_fn_eq b b' : b_timers b' = b_timers b -> same_fn b b'.
Proof. intros H t. by rewrite H. Qed.

Lemma same_fn_insert b b' t tm tm' : b_timers b !! t = Some tm -> t_function tm' = t_function tm ->
  b_timers b' = <[t := tm']> (b_timers b) -> same_fn b b'.
Proof.
  intros Ht Hf Hb t'. rewrite Hb. destruct (decide (t = t')) as [<-|]; [|by rewrite lookup_insert_ne].
  rewrite lookup_insert_eq, Ht. cbn. by rewrite Hf.
Qed.

Lemma add_timer_fn t b b' : _tw_add_timer t b = Some b' -> same_fn b b'.
Proof.
  unfold _tw_add_timer, list_add_tail. destruct (b_timers b !! t) as [tm|] eqn:Ht; [|done]. cbn [mbind option_bind].
  destruct (slot_for _ _) as [tv i]. destruct (t_linked tm); [done|].
  destruct (get_tv tv b !! Z.to_nat i) as [l|]; [|done]. cbn [mbind option_bind]. intros [= <-].
  apply (same_fn_insert b _ t tm (set_linked true tm)); [done..|]. by destruct b, tv.
Qed.

Lemma detach_fn t b b' : _tw_detach_timer t b = Some b' -> same_fn b b'.
Proof.
  destruct (b_timers b !! t) as [tm|] eqn:Ht; [|unfold _tw_detach_timer; by rewrite Ht]. rewrite (detach_eq _ _ _ Ht). intros [= <-].
  by apply (same_fn_insert b _ t tm (set_linked false tm)).
Qed.

Lemma set_expires_fn t e b b' : set_timer_expires t e b = Some b' -> same_fn b b'.
Proof.
  unfold set_timer_expires. destruct (b_timers b !! t) as [tm|] eqn:Ht; [|done]. intros [= <-].
  by apply (same_fn_insert b _ t tm (set_expires e tm)).
Qed.

Lemma relink_fn t b b' : relink t b = Some b' -> same_fn b b'.
Proof.
  unfold relink. destruct (b_timers b !! t) as [tm|] eqn:Ht; [|done]. cbn [mbind option_bind]. intros H%add_timer_fn.
  eapply same_fn_trans; [|exact H]. by apply (same_fn_insert b _ t tm (set_linked false tm)).
Qed.

Lemma add_timers_fn l : forall b b', add_timers l b = Some b' -> same_fn b b'.
Proof.
  induction l as [|t l IH]; intros b b'; cbn [add_timers]; [intros [= <-]; by apply same_fn_eq|].
  destruct (relink t b) as [b1|] eqn:E; [|done]. intros H. eapply same_fn_trans; [by eapply relink_fn|by apply IH].
Qed.

Lemma cascade_fn tv i b b' : _tw_cascade tv i b = Some b' -> same_fn b b'.
Proof.
  unfold _tw_cascade. destruct (get_tv tv b !! Z.to_nat i) as [l|]; [|done]. intros H%add_timers_fn.
  eapply same_fn_trans; [|exact H]. apply same_fn_eq. by destruct b, tv.
Qed.

Lemma cascade_all_fn b b' : cascade_all b = Some b' -> same_fn b b'.
Proof.
  unfold cascade_all. case_match; [intros [= <-]; by apply same_fn_eq|].
  destruct (_tw_cascade TV2 _ b) as [b2|] eqn:E2; [|done]. apply cascade_fn in E2. cbn [mbind option_bind].
  case_match; [by intros [= <-]|]. destruct (_tw_cascade TV3 _ b2) as [b3|] eqn:E3; [|done]. apply cascade_fn in E3. cbn [mbind option_bind].
  pose proof (same_fn_trans _ _ _ E2 E3). case_match; [by intros [= <-]|].
  destruct (_tw_cascade TV4 _ b3) as [b4|] eqn:E4; [|done]. apply cascade_fn in E4. cbn [mbind option_bind].
  pose proof (same_fn_trans b _ _ ltac:(eassumption) E4). case_match; [by intros [= <-]|].
  intros E5%cascade_fn. eapply same_fn_trans; eassumption.
Qed.

Lemma start_fn b b' c : run_timers_start b = Some (b', c) -> same_fn b b'.
Proof.
  unfold run_timers_start. destruct (cascade_all b) as [b1|] eqn:E; [|done]. apply cascade_all_fn in E. cbn [mbind option_bind].
  match goal with |- context [b_tv1 ?v !! ?i] => destruct (b_tv1 v !! i) as [l|]; [|done] end.
  intros [= <- _]. eapply same_fn_trans; [exact E|]. apply same_fn_eq. by destruct b1.
Qed.

Lemma mod_fn t p b b' r : __mod_timer t p b = Some (b', r) -> same_fn b b'.
Proof.
  unfold __mod_timer, __detach_if_pending. destruct (timer_pending t b); cbn [negb].
  - destruct (_tw_detach_timer t b) as [b1|] eqn:E; [|done]. apply detach_fn in E. cbn [mbind option_bind negb andb].
    destruct (_tw_add_timer t b1) as [b2|] eqn:E2; [|done]. apply add_timer_fn in E2. intros [= <- _]. by eapply same_fn_trans.
  - cbn [mbind option_bind negb andb]. destruct p; [intros [= <- _]; by apply same_fn_eq|].
    destruct (_tw_add_timer t b) as [b2|] eqn:E2; [|done]. apply add_timer_fn in E2. by intros [= <- _].
Qed.
