(* ===== verification/TimerWheelMachine.v ===== *)
(** * The timer wheel is correct (src/lib/timer_wheel.c)

    Runs of the wheel: any sequence of calls of its operations and of rounds of
    [run_timers], in which every operation is used the way the interface asks.
    Runs of the wheel are runs of the abstract schedule; a timer is called once,
    in the tick it is due. *)

From Stdlib Require Import ZArith Lia.
From stdpp Require Import base list numbers option gmap.
From S2P Require Import Prelude TimerWheel TimerWheelSpec TimerWheelOps.

(** ** Runs *)

(** [WSet] is the owner of a timer writing its fields. *)
Inductive wop :=
| WSet (t : nat) (d : Z) (fn : bool) | WAdd (t : nat) (d : Z) | WDel (t : nat)
| WModPending (t : nat) (d : Z) | WMod (t : nat) (d : Z) | WStart | WNext.

Inductive wres := RNone | RBool (b : bool) | RCall (t : nat) (call_time : Z) | RIdle.

(** The wheel and the local variable [call_time] of [run_timers]. *)
Definition wstate : Type := tw_base * Z.

Definition wstep (op : wop) (s : wstate) : option (wstate * wres) :=
  let '(b, c) := s in
  match op with
  | WSet t d fn => Some (set_timers (<[t := mk_timer (u64 d) fn false]> (b_timers b)) b, c, RNone)
  | WAdd t _ => b ← tw_add_timer t b; Some (b, c, RNone)
  | WDel t => r ← tw_del_timer t b; Some (r.1, c, RBool r.2)
  | WModPending t d => r ← tw_mod_timer_pending t (u64 d) b; Some (r.1, c, RBool r.2)
  | WMod t d => r ← tw_mod_timer t (u64 d) b; Some (r.1, c, RBool r.2)
  | WStart => r ← run_timers_start b; Some (r, RNone)
  | WNext =>
    r ← run_timers_next b;
    Some (r.1, c, match r.2 with Some t => RCall t c | None => RIdle end)
  end.

(** How the operations are used: the owner does not write a timer that is on a
    list, and adds only such a timer; the next tick is started when the timers
    of the last one have been called; the delay of [tw_mod_timer] is not the
    time of the timer. *)
Definition op_ok (op : wop) (b : tw_base) : Prop :=
  match op with
  | WSet t _ _ => timer_pending t b = false
  | WAdd t d => b_timers b !! t = Some (mk_timer (u64 d) true false) /\ delay_ok d
  | WDel t => is_Some (b_timers b !! t)
  | WModPending t d => is_Some (b_timers b !! t) /\ delay_ok d
  | WMod t d => delay_ok d /\ exists tm, b_timers b !! t = Some tm /\ (t_linked tm = true -> t_expires tm <> u64 d)
  | WStart => b_work b = [] /\ b_jiffies b + 1 < 2 ^ 62
  | WNext => True
  end.

Inductive wrun : list (wop * wres) -> wstate -> wstate -> Prop :=
| wrun_nil s : wrun [] s s
| wrun_cons op r tr s1 s2 s3 :
  op_ok op s1.1 -> wstep op s1 = Some (s2, r) -> wrun tr s2 s3 -> wrun ((op, r) :: tr) s1 s3.

(** What the operations do to the schedule, and their results. *)
Inductive astep : wop -> wres -> schedule -> schedule -> Prop :=
| a_set t d fn a : astep (WSet t d fn) RNone a a
| a_add t d a : ~ s_pending t a -> astep (WAdd t d) RNone a (s_add t d a)
| a_del t a p : p = true <-> s_pending t a -> astep (WDel t) (RBool p) a (s_del t a)
| a_mod_pending t d a : s_pending t a -> astep (WModPending t d) (RBool true) a (s_mod t d a)
| a_mod_idle t d a : ~ s_pending t a -> astep (WModPending t d) (RBool false) a a
| a_mod t d a : astep (WMod t d) (RBool true) a (s_mod t d a)
| a_start a : s_firing a = ∅ -> astep WStart RNone a (s_start a)
| a_call t a : t ∈ s_firing a -> astep WNext (RCall t (s_now a - 1)) a (s_fire t a)
| a_idle a : s_firing a = ∅ -> astep WNext RIdle a a.

Definition wheel_sim (s : wstate) (a : schedule) : Prop := wheel_inv s.1 a /\ (s_firing a = ∅ \/ s.2 = s_now a - 1).

Lemma firing_sub (fi fi' : gset nat) (P : Prop) : fi = ∅ \/ P -> fi' ⊆ fi -> fi' = ∅ \/ P.
Proof. intros [->|?] Hs; [left|by right]. apply leibniz_equiv. set_solver. Qed.

Lemma wstep_sim op s a : wheel_sim s a -> op_ok op s.1 ->
  exists s' r a', wstep op s = Some (s', r) /\ astep op r a a' /\ wheel_sim s' a'.
Proof.
  destruct s as [b c]. intros [Hinv Hc] Hok. cbn [fst snd] in *. destruct op as [t d fn|t d|t|t d|t d| |]; cbn [wstep op_ok] in *.
  - eexists _, _, a. split_and!; [done|constructor|]. split; [|done]. apply free_write_inv; [done| |done].
    unfold timer_pending in Hok. destruct (b_timers b !! t) as [tm|] eqn:Ht; [by apply (not_linked_free _ _ _ _ Hinv Ht)|].
    destruct Hinv as [[_ _ _ _ _ _ _ Htm _] _]. intros Hin. apply Htm in Hin. rewrite Ht in Hin. by destruct Hin.
  - destruct Hok as [Ht Hd]. destruct (tw_add_timer_spec t _ d b a Hinv Ht) as (b'&Hadd&_&Hinv'); [done..|].
    rewrite Hadd. eexists _, _, _. split_and!; [done|constructor|by split]. by rewrite <- (linked_pending _ _ _ _ Hinv Ht).
  - destruct Hok as [tm Ht]. destruct (tw_del_timer_spec t tm b a Hinv Ht) as (b'&Hdel&_&Hinv'). rewrite Hdel.
    eexists _, _, _. split_and!; [done|constructor; by apply (linked_pending _ _ _ _ Hinv Ht)|]. split; [done|].
    eapply firing_sub; [done|]. cbn. set_solver.
  - destruct Hok as [[tm Ht] Hd]. destruct (tw_mod_timer_pending_spec t tm d b a Hinv Ht Hd) as (b'&Hmod&_&Hinv'). rewrite Hmod.
    pose proof (linked_pending _ _ _ _ Hinv Ht) as Hp. destruct (t_linked tm).
    + eexists _, _, _. split_and!; [done|constructor; by apply Hp|]. split; [done|]. eapply firing_sub; [done|]. cbn. set_solver.
    + eexists _, _, _. split_and!; [done|constructor; by rewrite <- Hp|]. by split.
  - destruct Hok as (Hd&tm&Ht&Hne). destruct (tw_mod_timer_spec t tm d b a Hinv Ht Hd Hne) as (b'&Hmod&_&Hinv'). rewrite Hmod.
    eexists _, _, _. split_and!; [done|constructor|]. split; [done|]. eapply firing_sub; [done|]. cbn. set_solver.
  - destruct Hok as [Hw Hmax]. pose proof Hinv as [[Hnow _ _ _ _ Hf _ _ _] _]. rewrite Hnow in Hmax.
    destruct (start_spec b a Hinv Hw Hmax) as (b'&Hs&Hinv'). rewrite Hs. eexists _, _, _. split_and!; [done|constructor|].
    + apply leibniz_equiv. intros t. rewrite <- Hf, Hw. set_solver.
    + split; [done|]. right. cbn. lia.
  - pose proof (run_timers_next_spec b a Hinv) as Hn. destruct (b_work b) as [|t w].
    + destruct Hn as [-> Hf]. eexists _, _, _. split_and!; [done|by constructor|by split].
    + destruct Hn as (b'&->&_&Hf&Hinv'). destruct Hc as [Hc| ->]; [set_solver|].
      eexists _, _, _. split_and!; [done|by constructor|]. split; [done|]. by right.
Qed.

Inductive arun : list (wop * wres) -> schedule -> schedule -> Prop :=
| arun_nil a : arun [] a a
| arun_cons op r tr a1 a2 a3 : astep op r a1 a2 -> arun tr a2 a3 -> arun ((op, r) :: tr) a1 a3.

Lemma wrun_sim tr s s' : wrun tr s s' -> forall a, wheel_sim s a -> exists a', arun tr a a' /\ wheel_sim s' a'.
Proof.
  induction 1 as [s|op r tr s1 s2 s3 Hok Hstep _ IH]; intros a Hsim; [exists a; split; [constructor|done]|].
  destruct (wstep_sim op s1 a Hsim Hok) as (s2'&r'&a2&Hstep'&Ha&Hsim2). simplify_eq.
  destruct (IH a2 Hsim2) as (a3&Hrun&Hsim3). exists a3. split; [by econstructor|done].
Qed.

Lemma wheel_sim_init now c : 1 <= now < 2 ^ 62 -> wheel_sim (tw_init_timers now, c) (mk_schedule now ∅ ∅).
Proof. intros Hn. split; [by apply tw_init_timers_inv|by left]. Qed.

(** ** When a timer is called *)

Definition touches (t : nat) (op : wop) : bool :=
  match op with
  | WSet t' _ _ | WAdd t' _ | WDel t' | WModPending t' _ | WMod t' _ => Nat.eqb t t'
  | WStart | WNext => false
  end.

(** The times at which the timer is called. *)
Fixpoint calls (t : nat) (tr : list (wop * wres)) : list Z :=
  match tr with
  | [] => []
  | (_, RCall t' c) :: tr => if Nat.eqb t t' then c :: calls t tr else calls t tr
  | _ :: tr => calls t tr
  end.

(** A timer due at [D]: waiting, to be called in this run, or called. *)
Inductive phase (t : nat) (D : Z) (a : schedule) : list Z -> Prop :=
| ph_waiting : s_due a !! t = Some D -> t ∉ s_firing a -> s_now a <= D -> phase t D a []
| ph_firing : s_due a !! t = None -> t ∈ s_firing a -> s_now a = D + 1 -> phase t D a []
| ph_called : s_due a !! t = None -> t ∉ s_firing a -> D < s_now a -> phase t D a [D].

Lemma phase_other t D a cs t' due fi : t <> t' ->
  (forall x, x <> t' -> due !! x = s_due a !! x) -> (forall x, x <> t' -> x ∈ fi <-> x ∈ s_firing a) ->
  phase t D a cs -> phase t D (mk_schedule (s_now a) due fi) cs.
Proof.
  intros Hne Hdue Hfi. specialize (Hdue t Hne). specialize (Hfi t Hne).
  intros [H1 H2 H3|H1 H2 H3|H1 H2 H3]; [apply ph_waiting|apply ph_firing|apply ph_called]; cbn; congruence || tauto || lia.
Qed.

Lemma phase_mod t D a cs t' d : t <> t' -> phase t D a cs -> phase t D (s_mod t' d a) cs.
Proof.
  intros Hne. apply (phase_other t D a cs t' (<[t' := due_at (s_now a) d]> (delete t' (s_due a))) (s_firing a ∖ {[t']})); [done| |set_solver].
  intros x Hx. by rewrite lookup_insert_ne, lookup_delete_ne.
Qed.

Lemma phase_step t D op r a a' cs : astep op r a a' -> touches t op = false -> phase t D a cs ->
  phase t D a' (cs ++ calls t [(op, r)]).
Proof.
  intros Hs Ht. destruct Hs as [t' d fn a|t' d a Hp|t' a p Hp|t' d a Hp|t' d a Hp|t' d a|a Hf|t' a Hf|a Hf]; cbn [touches] in Ht;
    try apply Nat.eqb_neq in Ht; cbn [calls]; rewrite ?app_nil_r; try done.
  - apply (phase_other _ _ _ _ t'); [done| |done]. intros x Hx. by rewrite lookup_insert_ne.
  - apply (phase_other _ _ _ _ t'); [done| |set_solver]. intros x Hx. by rewrite lookup_delete_ne.
  - by apply phase_mod.
  - by apply phase_mod.
  - intros [H1 H2 H3|H1 H2 H3|H1 H2 H3].
    + destruct (decide (D = s_now a)) as [->|Hne].
      * apply ph_firing; cbn; [|apply elem_of_dom; exists (s_now a); by apply map_lookup_filter_Some|done].
        apply map_lookup_filter_None. right. intros x Hx. rewrite H1 in Hx. injection Hx as <-. cbn. naive_solver.
      * apply ph_waiting; cbn; [by apply map_lookup_filter_Some| |lia].
        rewrite elem_of_dom. intros [x [Hx Hxn]%map_lookup_filter_Some]. cbn in Hxn. congruence.
    + rewrite Hf in H2. set_solver.
    + apply ph_called; cbn; [apply map_lookup_filter_None; by left| |lia].
      rewrite elem_of_dom. intros [x [Hx _]%map_lookup_filter_Some]. congruence.
  - destruct (Nat.eqb_spec t t') as [<-|Hne].
    + intros [H1 H2 H3|H1 H2 H3|H1 H2 H3]; try done. rewrite H3. replace (D + 1 - 1) with D by lia.
      apply ph_called; cbn; [done|set_solver|lia].
    + rewrite app_nil_r. apply (phase_other _ _ _ _ t'); [done|done|set_solver].
Qed.

Lemma calls_app t tr1 tr2 : calls t (tr1 ++ tr2) = calls t tr1 ++ calls t tr2.
Proof. induction tr1 as [|[op r] tr1 IH]; [done|]. cbn [app calls]. destruct r; try done. case_match; cbn; by rewrite IH. Qed.

Lemma phase_run t D tr a a' : arun tr a a' -> Forall (fun x => touches t x.1 = false) tr ->
  forall cs, phase t D a cs -> phase t D a' (cs ++ calls t tr).
Proof.
  induction 1 as [a|op r tr a1 a2 a3 Hs _ IH]; intros Ht cs Hp; cbn [calls]; [by rewrite app_nil_r|].
  apply Forall_cons in Ht as [Ht Htr]. apply (phase_step t D _ _ _ _ _ Hs Ht) in Hp. specialize (IH Htr _ Hp).
  rewrite <- app_assoc in IH. rewrite <- calls_app in IH. exact IH.
Qed.

(** ** One whole tick *)

Definition is_api (op : wop) : bool := match op with WStart | WNext => false | _ => true end.

Lemma unlink_length t l : (length (unlink t l) <= length l)%nat.
Proof. apply length_filter. Qed.

(** The operations put no timer on the list of the run. *)
Lemma api_step_work op b c a b' c' r : wheel_inv b a -> op_ok op b -> is_api op = true -> wstep op (b, c) = Some (b', c', r) ->
  (length (b_work b') <= length (b_work b))%nat.
Proof.
  intros Hinv Hok Hapi. destruct op as [t d fn|t d|t|t d|t d| |]; try done; cbn [wstep op_ok] in *.
  - by intros [= <- <- <-].
  - destruct Hok as [Ht Hd]. destruct (tw_add_timer_spec t _ d b a Hinv Ht) as (b1&->&Hw&_); [done..|]. intros [= <- <- <-]. by rewrite Hw.
  - destruct Hok as [tm Ht]. destruct (tw_del_timer_spec t tm b a Hinv Ht) as (b1&->&Hw&_). intros [= <- <- <-]. cbn. rewrite Hw. apply unlink_length.
  - destruct Hok as [[tm Ht] Hd]. destruct (tw_mod_timer_pending_spec t tm d b a Hinv Ht Hd) as (b1&->&Hw&_).
    intros [= <- <- <-]. cbn. rewrite Hw. apply unlink_length.
  - destruct Hok as (Hd&tm&Ht&Hne). destruct (tw_mod_timer_spec t tm d b a Hinv Ht Hd Hne) as (b1&->&Hw&_).
    intros [= <- <- <-]. cbn. rewrite Hw. apply unlink_length.
Qed.

Lemma api_run_work tr s s' : wrun tr s s' -> Forall (fun x => is_api x.1 = true) tr -> forall a, wheel_sim s a ->
  (length (b_work s'.1) <= length (b_work s.1))%nat.
Proof.
  induction 1 as [s|op r tr s1 s2 s3 Hok Hstep _ IH]; intros Hapi a Hsim; [done|]. apply Forall_cons in Hapi as [Hop Hapi].
  destruct (wstep_sim op s1 a Hsim Hok) as (s2'&r'&a2&Hstep'&_&Hsim2).
  rewrite Hstep in Hstep'. injection Hstep' as <- <-. specialize (IH Hapi a2 Hsim2).
  destruct s1 as [b1 c1], s2 as [b2 c2]. pose proof (api_step_work op b1 c1 a b2 c2 r (proj1 Hsim) Hok Hop Hstep). cbn in *. lia.
Qed.

Lemma wrun_app tr1 tr2 s1 s2 s3 : wrun tr1 s1 s2 -> wrun tr2 s2 s3 -> wrun (tr1 ++ tr2) s1 s3.
Proof. induction 1; [done|]. intros. cbn. econstructor; eauto. Qed.

Section Tick.
Context (fn : nat -> Z -> tw_base -> option tw_base).

(** The callbacks use the wheel through its operations only. *)
Definition callback_ok : Prop := forall t c b a, wheel_sim (b, c) a ->
  exists tr b', fn t c b = Some b' /\ wrun tr (b, c) (b', c) /\ Forall (fun x => is_api x.1 = true) tr.

Lemma run_timers_loop_run c fuel : callback_ok -> forall b a, wheel_sim (b, c) a -> (length (b_work b) < fuel)%nat ->
  exists tr b', run_timers_loop fuel fn c b = Some b' /\ wrun tr (b, c) (b', c) /\ b_work b' = [].
Proof.
  intros Hfn. induction fuel as [|fuel IH]; intros b a Hsim Hlen; [lia|]. cbn [run_timers_loop].
  pose proof (run_timers_next_spec b a (proj1 Hsim)) as Hn. destruct (b_work b) as [|t w] eqn:Ew.
  - destruct Hn as [-> _]. exists [], b. split_and!; [done|constructor|done].
  - destruct Hn as (b1&Hb1&Hw1&_&_). destruct (wstep_sim WNext (b, c) a Hsim I) as (s1&r&a1&Hs1&_&Hsim1).
    cbn [wstep] in Hs1. rewrite Hb1 in *. cbn in Hs1. injection Hs1 as <- <-. cbn [mbind option_bind].
    destruct (Hfn t c b1 a1 Hsim1) as (tr1&b2&Hf&Hrun1&Hapi). rewrite Hf. cbn [mbind option_bind].
    destruct (wrun_sim _ _ _ Hrun1 a1 Hsim1) as (a2&_&Hsim2). pose proof (api_run_work _ _ _ Hrun1 Hapi a1 Hsim1) as Hl. cbn [fst length] in Hl, Hlen. rewrite Hw1 in Hl.
    destruct (IH b2 a2 Hsim2) as (tr2&b3&Hloop&Hrun2&Hw3); [lia|]. rewrite Hloop.
    exists ((WNext, RCall t c) :: tr1 ++ tr2), b3. split_and!; [done| |done]. econstructor; [done| |by eapply wrun_app].
    cbn. by rewrite Hb1.
Qed.

Lemma run_timers_run b c a : callback_ok -> wheel_sim (b, c) a -> op_ok WStart b ->
  exists tr b', run_timers fn b = Some b' /\ wrun ((WStart, RNone) :: tr) (b, c) (b', b_jiffies b) /\ b_work b' = [].
Proof.
  intros Hfn Hsim Hok. destruct (wstep_sim WStart (b, c) a Hsim Hok) as (s1&r&a1&Hs1&_&Hsim1). unfold run_timers. cbn [wstep] in Hs1.
  destruct (start_spec b a (proj1 Hsim)) as (b1&Hb1&_).
  { apply Hok. } { destruct Hok as [_ Hok]. by rewrite <- (rep_now _ _ _ (proj1 (proj1 Hsim))). }
  rewrite Hb1 in *. cbn in Hs1. injection Hs1 as <- <-. cbn [mbind option_bind fst snd].
  destruct (run_timers_loop_run (s_now a) (S (length (b_work b1))) Hfn b1 a1 Hsim1) as (tr&b2&Hl&Hrun&Hw); [lia|].
  rewrite Hl. exists tr, b2. split_and!; [done| |done]. pose proof (rep_now _ _ _ (proj1 (proj1 Hsim))) as Hnow. cbn in Hnow. rewrite Hnow.
  econstructor; [done| |done]. cbn [wstep]. by rewrite Hb1.
Qed.

End Tick.

(** ** The claims *)


(** C31: A timer added with a delay of [d] ticks, and not touched afterwards, is
    pending until the tick it is due, [due_at jiffies d], and is then called
    exactly once, with that tick as its call time: never early, never late and
    never twice, whatever happens to other timers in the meantime and through
    however many cascades. *)
Theorem timer_called_on_time now c tr s1 s2 t d r tr' s3 :
  1 <= now < 2 ^ 62 -> wrun tr (tw_init_timers now, c) s1 ->
  op_ok (WAdd t d) s1.1 -> wstep (WAdd t d) s1 = Some (s2, r) ->
  wrun tr' s2 s3 -> Forall (fun x => touches t x.1 = false) tr' ->
  let D := due_at (b_jiffies s1.1) d in
  (calls t tr' = [] /\ timer_pending t s3.1 = true /\ b_jiffies s3.1 <= D + 1) \/
  (calls t tr' = [D] /\ timer_pending t s3.1 = false /\ D < b_jiffies s3.1).
Proof.
  intros Hn Hrun Hok Hstep Hrun' Ht D. destruct (wrun_sim _ _ _ Hrun _ (wheel_sim_init now c Hn)) as (a1&_&Hsim1).
  destruct (wstep_sim _ _ _ Hsim1 Hok) as (s2'&r'&a2&Hstep'&Ha&Hsim2). rewrite Hstep in Hstep'. injection Hstep' as <- <-.
  destruct (wrun_sim _ _ _ Hrun' _ Hsim2) as (a3&Harun&Hsim3).
  inversion Ha as [|t0 d0 a0 Hnp| | | | | | |]; subst. unfold s_pending in Hnp.
  pose proof (rep_now _ _ _ (proj1 (proj1 Hsim1))) as Hnow1. pose proof (rep_now _ _ _ (proj1 (proj1 Hsim3))) as Hnow3.
  assert (phase t D a3 (calls t tr')) as Hph.
  { apply (phase_run t D tr' _ _ Harun Ht []). apply ph_waiting; cbn [s_add s_due s_firing s_now].
    - subst D. rewrite Hnow1. apply lookup_insert_eq.
    - tauto.
    - subst D. unfold due_at. lia. }
  pose proof (pending_iff t s3.1 a3 (proj1 Hsim3)) as Hp. unfold s_pending in Hp.
  inversion Hph as [H1 H2 H3|H1 H2 H3|H1 H2 H3]; [left|left|right]; (split; [done|]); (split; [|lia]).
  - apply Hp. left. by exists D.
  - apply Hp. by right.
  - apply not_true_iff_false. rewrite Hp. intros [[x Hx]|?]; [congruence|done].
Qed.

(** A wheel started at tick 1000, a timer added with a delay of two ticks, and
    two ticks. *)
Definition after (op : wop) (s : wstate) : wstate := match wstep op s with Some (s', _) => s' | None => s end.

Definition example_start : wstate := after (WSet 7 2 true) (tw_init_timers 1000, 0).
Definition example_added : wstate := after (WAdd 7 2) example_start.
Definition example_ticks : list (wop * wres) :=
  [(WStart, RNone); (WNext, RIdle); (WStart, RNone); (WNext, RCall 7 1001); (WNext, RIdle)].
Definition example_end : wstate := fold_left (fun s x => after x.1 s) example_ticks example_added.

Lemma example_start_run : wrun [(WSet 7 2 true, RNone)] (tw_init_timers 1000, 0) example_start.
Proof. apply (wrun_cons _ _ _ _ example_start); [vm_compute; reflexivity..|]. constructor. Qed.

Lemma example_ticks_run : wrun example_ticks example_added example_end.
Proof.
  unfold example_end, example_ticks. cbn [fold_left fst].
  do 5 (eapply wrun_cons; [split; vm_compute; reflexivity || exact I|vm_compute; reflexivity|]). constructor.
Qed.


Lemma timer_called_on_time_witness : calls 7 example_ticks = [due_at 1000 2] /\ 1001 < b_jiffies example_end.1.
Proof.
  assert (op_ok (WAdd 7 2) example_start.1) as Hok by (split; [vm_compute; reflexivity|unfold delay_ok; lia]).
  assert (wstep (WAdd 7 2) example_start = Some (example_added, RNone)) as Hs by (vm_compute; reflexivity).
  destruct (timer_called_on_time 1000 0 _ _ _ 7 2 _ _ _ ltac:(lia) example_start_run Hok Hs example_ticks_run) as [(H&_)|(H&_&Hj)].
  - repeat constructor.
  - discriminate H.
  - split; [exact H|exact Hj].
Defined.

(** C33: [run_timers] returns: its loop calls the timers of the tick and ends,
    for every callback that uses the wheel through its operations, also one that
    adds the timer again or deletes other timers of the run; and what it does is
    a run of the operations. *)
Theorem run_timers_terminates fn b c a : callback_ok fn -> wheel_sim (b, c) a -> op_ok WStart b ->
  exists tr b', run_timers fn b = Some b' /\ wrun ((WStart, RNone) :: tr) (b, c) (b', b_jiffies b) /\ b_work b' = [].
Proof. apply run_timers_run. Qed.

(** A callback that adds its timer again, with a delay of one tick. *)
Definition rearm (t : nat) (call_time : Z) (b : tw_base) : option tw_base :=
  match b_timers b !! t with
  | Some tm => if t_linked tm && (t_expires tm =? 1) then Some b else r ← tw_mod_timer t 1 b; Some r.1
  | None => Some b
  end.

Lemma rearm_ok : callback_ok rearm.
Proof.
  intros t c b a Hsim. unfold rearm. destruct (b_timers b !! t) as [tm|] eqn:Ht; [|exists [], b; split_and!; repeat constructor].
  destruct (t_linked tm && (t_expires tm =? 1)) eqn:E; [exists [], b; split_and!; repeat constructor|].
  assert (t_linked tm = true -> t_expires tm <> 1) as Hne by (intros Hl He; rewrite Hl, He in E; done).
  destruct (tw_mod_timer_spec t tm 1 b a (proj1 Hsim) Ht ltac:(unfold delay_ok; lia) Hne) as (b'&Hm&_&_). change (u64 1) with 1 in Hm. rewrite Hm.
  exists [(WMod t 1, RBool true)], b'. split_and!; [done| |by repeat constructor].
  eapply wrun_cons; [split; [unfold delay_ok; lia|by exists tm]|cbn [wstep]; change (u64 1) with 1; by rewrite Hm|constructor].
Qed.

Lemma run_timers_terminates_witness :
  exists tr b', run_timers rearm example_added.1 = Some b' /\ wrun ((WStart, RNone) :: tr) example_added (b', 1000) /\ b_work b' = [].
Proof.
  destruct (wrun_sim _ _ _ example_start_run _ (wheel_sim_init 1000 0 ltac:(lia))) as (a1&_&Hsim1).
  destruct (wstep_sim (WAdd 7 2) example_start a1 Hsim1) as (s&r&a2&Hs&_&Hsim2); [split; [vm_compute; reflexivity|unfold delay_ok; lia]|].
  assert (s = example_added) as -> by (unfold example_added, after; by rewrite Hs).
  exact (run_timers_terminates rearm example_added.1 example_added.2 a2 rearm_ok Hsim2 ltac:(split; vm_compute; reflexivity)).
Defined.

(** C35: [tw_mod_timer] takes its second argument as a delay, but its shortcut
    for a timer whose time does not change compares this delay with the absolute
    time of the timer.  A pending timer whose time is the number [d] is left
    where it is by a change to a delay of [d] ticks, which [tw_mod_timer] reports
    as done: it will be called before it is due. *)
Theorem tw_mod_timer_shortcut t tm b a :
  wheel_inv b a -> s_due a !! t = Some (t_expires tm) -> b_timers b !! t = Some tm -> 2 <= s_now a ->
  tw_mod_timer t (t_expires tm) b = Some (b, true) /\ t_expires tm < due_at (s_now a) (t_expires tm).
Proof.
  intros Hinv HD Ht Hn. unfold tw_mod_timer, timer_pending. rewrite Ht. cbn [mbind option_bind].
  rewrite (proj2 (linked_pending t tm b a Hinv Ht)) by (left; by exists (t_expires tm)). rewrite Z.eqb_refl. split; [done|].
  destruct Hinv as [[_ _ _ _ _ _ _ _ He] _]. pose proof (He t _ HD). unfold due_at. lia.
Qed.

Lemma tw_mod_timer_shortcut_witness : tw_mod_timer 7 1001 example_added.1 = Some (example_added.1, true) /\ 1001 < due_at 1000 1001.
Proof.
  destruct (wrun_sim _ _ _ example_start_run _ (wheel_sim_init 1000 0 ltac:(lia))) as (a1&Ha1&[Hinv1 _]).
  assert (a1 = mk_schedule 1000 ∅ ∅) as ->.
  { inversion Ha1 as [|? ? ? ? a2 ? Hs Hr]; subst. inversion Hs; subst. by inversion Hr. }
  destruct (tw_add_timer_spec 7 (mk_timer 2 true false) 2 example_start.1 _ Hinv1) as (b&Hb&_&Hinv); [vm_compute; reflexivity| | | |unfold delay_ok; lia|]; try reflexivity.
  assert (Some b = Some example_added.1) as [= ->] by (rewrite <- Hb; vm_compute; reflexivity).
  exact (tw_mod_timer_shortcut 7 (mk_timer 1001 true true) example_added.1 _ Hinv ltac:(reflexivity) ltac:(vm_compute; reflexivity) ltac:(cbn; lia)).
Defined.
