(* ===== verification/TimerWheelRunner.v ===== *)
(** * The thread of the timer wheel (src/lib/timer_wheel.c)

    [timer_work] runs the wheel once a second: the times at which it means to
    run lie on the grid of seconds from its start, so the runs do not drift. *)

From Stdlib Require Import ZArith Lia.
From S2P Require Import Prelude TimerWheel.

(** [n] rounds, with the clock read after each. *)
Fixpoint rounds (start_time expect_time : Z) (clock : list Z) : list (Z * Z) :=
  match clock with
  | nil => nil
  | cons now clock =>
    let r := timer_work_round start_time expect_time now in
    cons r (rounds start_time (fst r) clock)
  end.

(** Milliseconds below [2^62]. *)
Definition clock_ok (start_time now : Z) : Prop := 0 <= start_time <= now /\ now < 2 ^ 62.

Definition on_grid (start_time e : Z) : Prop := exists k, 1 <= k /\ e = start_time + k * sleep.

Lemma to_int_small v : 0 <= v < 2147483648 -> to_int v = v.
Proof. intros Hv. unfold to_int. rewrite Z.mod_small by lia. destruct (Z.ltb_spec v 2147483648); lia. Qed.

Lemma round_spec start e now : clock_ok start now -> on_grid start e -> e <= now + sleep ->
  let r := timer_work_round start e now in
  on_grid start (fst r) /\ now < fst r <= now + sleep /\ snd r = fst r - now.
Proof.
  intros [[Hs Hsn] Hmax] (k&Hk&He) Hle. unfold timer_work_round, on_grid, sleep in *. cbn [fst snd].
  destruct (Z.leb_spec e now) as [Hc|Hc].
  - unfold u64. pose proof (Z.div_mod (now - start) 1000 ltac:(lia)). pose proof (Z.mod_pos_bound (now - start) 1000 ltac:(lia)).
    pose proof (Z.div_pos (now - start) 1000 ltac:(lia) ltac:(lia)).
    rewrite (Z.mod_small (now - start)) by lia. rewrite (Z.mod_small ((now - start) / 1000 + 1)) by lia.
    rewrite (Z.mod_small (start + _)) by lia. rewrite (Z.mod_small (_ - now)) by lia. rewrite to_int_small by lia.
    split; [exists ((now - start) / 1000 + 1); lia|]. destruct (Z.ltb_spec (start + ((now - start) / 1000 + 1) * 1000 - now) 0); lia.
  - unfold u64. rewrite Z.mod_small by lia. rewrite to_int_small by lia. split; [exists k; lia|]. destruct (Z.ltb_spec (e - now) 0); lia.
Qed.

(** The clock does not go back. *)
Fixpoint monotone (start : Z) (last : Z) (clock : list Z) : Prop :=
  match clock with
  | nil => True
  | cons now clock => clock_ok start now /\ last <= now /\ monotone start now clock
  end.

Lemma rounds_spec start clock : forall last e, monotone start last clock -> on_grid start e -> e <= last + sleep ->
  List.Forall2 (fun r now => on_grid start (fst r) /\ now < fst r <= now + sleep /\ snd r = fst r - now) (rounds start e clock) clock.
Proof.
  induction clock as [|now clock IH]; intros last e Hm Hg He; cbn [rounds]; [constructor|]. destruct Hm as (Hok&Hl&Hm).
  pose proof (round_spec start e now Hok Hg ltac:(lia)) as Hr. cbv zeta in Hr. constructor; [exact Hr|].
  apply (IH now); [exact Hm|apply Hr|]. apply Hr.
Qed.

(** C34: Every round of the timer thread, whatever the time its callbacks take,
    aims at the first full second from its start that lies ahead: the sleep is
    more than 0 and at most 1000 milliseconds, does not overflow the [int] it is
    kept in, and ends on the grid of seconds, so the ticks do not drift. *)
Theorem timer_work_no_drift start clock : monotone start start clock ->
  List.Forall2 (fun r now => on_grid start (fst r) /\ now < fst r <= now + sleep /\ snd r = fst r - now)
    (rounds start (u64 (start + sleep)) clock) clock.
Proof.
  intros Hm. destruct clock as [|now clock]; [constructor|]. pose proof Hm as ([[Hs Hsn] Hmax]&_&_).
  unfold u64. rewrite Z.mod_small by (unfold sleep; lia). apply (rounds_spec start (now :: clock) start); [exact Hm| |lia].
  exists 1. lia.
Qed.

Lemma timer_work_no_drift_witness : rounds 500 (u64 (500 + sleep)) (cons 700 (cons 2600 nil)) = cons (1500, 800) (cons (3500, 900) nil) /\
  List.Forall2 (fun r now => on_grid 500 (fst r) /\ now < fst r <= now + sleep /\ snd r = fst r - now)
    (rounds 500 (u64 (500 + sleep)) (cons 700 (cons 2600 nil))) (cons 700 (cons 2600 nil)).
Proof. split; [reflexivity|]. apply timer_work_no_drift. cbn. unfold clock_ok. lia. Defined.

(** The deadline of the wait is a well-formed time, and lies [sleep_time]
    milliseconds ahead of the clock it was made from. *)
Theorem deadline_correct sec nsec sleep_time : 0 <= nsec < 1000000000 -> 0 <= sleep_time ->
  let d := deadline sec nsec sleep_time in
  0 <= snd d < 1000000000 /\ fst d * 1000000000 + snd d = sec * 1000000000 + nsec + sleep_time * 1000000.
Proof.
  intros Hn Hs. unfold deadline. pose proof (Z.div_mod sleep_time 1000 ltac:(lia)). pose proof (Z.mod_pos_bound sleep_time 1000 ltac:(lia)).
  destruct (Z.leb_spec 1000000000 (nsec + sleep_time mod 1000 * 1000000)); cbn [fst snd]; lia.
Qed.

Lemma deadline_correct_witness : deadline 7 999999999 1000 = (8, 999999999) /\
  fst (deadline 7 999999999 1500) * 1000000000 + snd (deadline 7 999999999 1500) = 7 * 1000000000 + 999999999 + 1500 * 1000000.
Proof. split; [reflexivity|]. apply deadline_correct; lia. Defined.
