(* ===== verification/Timer.v ===== *)
(** * Timers (src/timer.c)

    [timer.c] gives the program one timer wheel.  Its clients see it through
    the class [TimerService]: a set of pending timers, and what each call does
    to it.  The wheel is an instance. *)

From Stdlib Require Import ZArith Lia.
From stdpp Require Import base list numbers option gmap.
From S2P Require Import Prelude TimerWheel TimerWheelSpec TimerWheelOps.

(** ** The interface *)

(** [ts_known]: the timer has been filled in by its owner; [ts_armed]: it can
    be added.  [ts_init] is the owner filling in the structure ([function],
    [expires], a zeroed [entry]), [ts_set_expires] the assignment to its field
    [expires]; [ts_tick] is the start of a run, [ts_next] the next timer the run
    calls. *)
Class TimerService (T : Type) := {
  ts_inv : T -> Prop;
  ts_pending : nat -> T -> bool;
  ts_known : nat -> T -> Prop;
  ts_armed : nat -> T -> Prop;
  ts_init : nat -> Z -> T -> T;
  ts_set_expires : nat -> Z -> T -> option T;
  dns_timer_add : nat -> T -> option T;
  dns_timer_del : nat -> T -> option (T * bool);
  dns_timer_mod : nat -> Z -> T -> option (T * bool);
  ts_tick : T -> option T;
  ts_next : T -> option (T * option nat) }.

(** From [T] to [T'], where exactly the timers in [p] are pending. *)
Definition ts_update {T} `{TimerService T} (ts ts' : T) (p : nat -> bool) : Prop :=
  ts_inv ts' /\ (forall t, ts_pending t ts' = p t) /\ (forall t, ts_known t ts -> ts_known t ts').

Class TimerLaws (T : Type) `{TimerService T} := {
  ts_armed_law (ts : T) t : ts_inv ts -> ts_armed t ts -> ts_pending t ts = false;
  ts_init_law (ts : T) t d : ts_inv ts -> ts_pending t ts = false -> delay_ok d ->
    ts_update ts (ts_init t d ts) (fun t' => ts_pending t' ts) /\ ts_armed t (ts_init t d ts) /\ ts_known t (ts_init t d ts);
  ts_set_expires_law (ts : T) t d : ts_inv ts -> ts_pending t ts = false -> ts_known t ts -> delay_ok d ->
    exists ts', ts_set_expires t d ts = Some ts' /\ ts_update ts ts' (fun t' => ts_pending t' ts) /\ ts_armed t ts';
  ts_add_law (ts : T) t : ts_inv ts -> ts_armed t ts ->
    exists ts', dns_timer_add t ts = Some ts' /\ ts_update ts ts' (fun t' => Nat.eqb t' t || ts_pending t' ts);
  ts_del_law (ts : T) t : ts_inv ts -> ts_known t ts ->
    exists ts', dns_timer_del t ts = Some (ts', ts_pending t ts) /\
      ts_update ts ts' (fun t' => negb (Nat.eqb t' t) && ts_pending t' ts) /\ (forall t', ts_armed t' ts -> ts_armed t' ts');
  ts_mod_law (ts : T) t d : ts_inv ts -> ts_known t ts -> delay_ok d ->
    exists ts', dns_timer_mod t d ts = Some (ts', ts_pending t ts) /\ ts_update ts ts' (fun t' => ts_pending t' ts);
  ts_tick_law (ts ts' : T) : ts_inv ts -> ts_tick ts = Some ts' -> ts_update ts ts' (fun t' => ts_pending t' ts);
  ts_next_law (ts ts' : T) r : ts_inv ts -> ts_next ts = Some (ts', r) ->
    match r with
    | Some t => ts_pending t ts = true /\ ts_update ts ts' (fun t' => negb (Nat.eqb t' t) && ts_pending t' ts)
    | None => ts' = ts
    end }.

(** ** The wheel *)

(** The timer base of the program; the wheel is running
    ([dns_timer_base != NULL]). *)
#[export] Instance wheel_timers : TimerService tw_base := {
  ts_inv b := exists a, wheel_inv b a;
  ts_pending := timer_pending;
  ts_known t b := exists tm, b_timers b !! t = Some tm /\ t_function tm = true;
  ts_armed t b := exists d, b_timers b !! t = Some (mk_timer (u64 d) true false) /\ delay_ok d;
  ts_init t d b := set_timers (<[t := mk_timer (u64 d) true false]> (b_timers b)) b;
  ts_set_expires t d b := set_timer_expires t (u64 d) b;
  dns_timer_add := tw_add_timer;
  dns_timer_del := tw_del_timer;
  dns_timer_mod t d b := tw_mod_timer_pending t (u64 d) b;
  ts_tick b := if decide (b_work b = []) then if b_jiffies b + 1 <? 2 ^ 62 then fst <$> run_timers_start b else None else None;
  ts_next := run_timers_next }.

Lemma known_fn b b' t : same_fn b b' -> ts_known t b -> ts_known t b'.
Proof.
  intros Hf (tm&Ht&Hfn). specialize (Hf t). rewrite Ht in Hf. cbn in Hf. rewrite Hfn in Hf. cbn.
  destruct (b_timers b' !! t) as [tm'|]; [|done]. exists tm'. split; [done|]. by injection Hf.
Qed.

(** The pending timers, from the two schedules. *)
Lemma update_intro b b' a' p : wheel_inv b' a' -> same_fn b b' -> (forall t, p t = true <-> s_pending t a') -> ts_update b b' p.
Proof.
  intros Hinv Hf Hp. split; [by exists a'|]. split; [|intros t; by apply known_fn].
  intros t. apply eq_true_iff_eq. rewrite Hp. by apply pending_iff.
Qed.

Lemma s_pending_add t d a t' : s_pending t' (s_add t d a) <-> t' = t \/ s_pending t' a.
Proof.
  unfold s_pending, s_add. cbn. destruct (decide (t = t')) as [<-|Hne].
  - rewrite lookup_insert_eq. naive_solver.
  - rewrite lookup_insert_ne by done. naive_solver.
Qed.

Lemma s_pending_del t a t' : s_pending t' (s_del t a) <-> t' <> t /\ s_pending t' a.
Proof.
  unfold s_pending, s_del. cbn. destruct (decide (t = t')) as [<-|Hne].
  - rewrite lookup_delete_eq. split; [intros [[? ?]|?]; [done|set_solver]|by intros []].
  - rewrite lookup_delete_ne by done. set_solver.
Qed.

Lemma s_pending_start a t : s_firing a = ∅ -> s_pending t (s_start a) <-> s_pending t a.
Proof.
  intros Hf. unfold s_pending, s_start. cbn. rewrite Hf, elem_of_dom. destruct (s_due a !! t) as [D|] eqn:E.
  - split; [intros _; left; by eexists|]. intros _. destruct (decide (D = s_now a)) as [->|Hne].
    + right. exists (s_now a). by apply map_lookup_filter_Some.
    + left. exists D. by apply map_lookup_filter_Some.
  - split; [|intros [[? ?]|?]; [done|set_solver]]. intros [[x [Hx _]%map_lookup_filter_Some]|[x [Hx _]%map_lookup_filter_Some]]; congruence.
Qed.

Lemma eqb_or_iff t' t b : (Nat.eqb t' t || b) = true <-> t' = t \/ b = true.
Proof. by rewrite orb_true_iff, Nat.eqb_eq. Qed.

Lemma neqb_and_iff t' t b : (negb (Nat.eqb t' t) && b) = true <-> t' <> t /\ b = true.
Proof. by rewrite andb_true_iff, negb_true_iff, Nat.eqb_neq. Qed.

Lemma wheel_add b t : ts_inv b -> ts_armed t b ->
  exists b', dns_timer_add t b = Some b' /\ ts_update b b' (fun t' => Nat.eqb t' t || ts_pending t' b).
Proof.
  intros [a Hinv] (d&Ht&Hd). destruct (tw_add_timer_spec t _ d b a Hinv Ht) as (b'&Hadd&_&Hinv'); [done..|]. cbn. exists b'. split; [done|].
  eapply update_intro; [done| |].
  - unfold tw_add_timer, set_timer_expires in Hadd. rewrite Ht in Hadd. cbn [mbind option_bind t_function negb] in Hadd.
    apply add_timer_fn in Hadd. eapply same_fn_trans; [|exact Hadd]. eapply same_fn_insert; [exact Ht| |reflexivity]. done.
  - intros t'. rewrite eqb_or_iff, s_pending_add, (pending_iff t' b a Hinv). done.
Qed.

Lemma wheel_del b t : ts_inv b -> ts_known t b ->
  exists b', dns_timer_del t b = Some (b', ts_pending t b) /\ ts_update b b' (fun t' => negb (Nat.eqb t' t) && ts_pending t' b) /\
    (forall t', ts_armed t' b -> ts_armed t' b').
Proof.
  intros [a Hinv] (tm&Ht&_). destruct (tw_del_timer_spec t tm b a Hinv Ht) as (b'&Hdel&_&Hinv'). cbn. exists b'.
  assert (timer_pending t b = t_linked tm) as Hp by (unfold timer_pending; by rewrite Ht). split; [by rewrite Hp|].
  split; [eapply update_intro; [done| |]|].
  - unfold tw_del_timer in Hdel. destruct (timer_pending t b).
    + destruct (_tw_detach_timer t b) as [b1|] eqn:E; [|done]. apply detach_fn in E. by injection Hdel as <- _.
    + injection Hdel as <- _. by apply same_fn_eq.
  - intros t'. rewrite neqb_and_iff, s_pending_del, (pending_iff t' b a Hinv). done.
  - intros t' (d&Ht'&Hd). exists d. split; [|done]. unfold tw_del_timer in Hdel. rewrite Hp in Hdel. destruct (t_linked tm) eqn:El.
    + rewrite (detach_eq _ _ _ Ht) in Hdel. injection Hdel as <-. cbn. destruct (decide (t = t')) as [<-|Hne]; [|by rewrite lookup_insert_ne].
      rewrite Ht in Ht'. injection Ht' as ->. done.
    + by injection Hdel as <-.
Qed.

Lemma wheel_mod b t d : ts_inv b -> ts_known t b -> delay_ok d ->
  exists b', dns_timer_mod t d b = Some (b', ts_pending t b) /\ ts_update b b' (fun t' => ts_pending t' b).
Proof.
  intros [a Hinv] (tm&Ht&_) Hd. destruct (tw_mod_timer_pending_spec t tm d b a Hinv Ht Hd) as (b'&Hmod&_&Hinv'). cbn. exists b'.
  assert (timer_pending t b = t_linked tm) as Hp by (unfold timer_pending; by rewrite Ht). split; [by rewrite Hp|].
  eapply update_intro; [done| |].
  - unfold tw_mod_timer_pending in Hmod. destruct (set_timer_expires t _ b) as [b1|] eqn:E; [|done]. apply set_expires_fn in E.
    apply mod_fn in Hmod. by eapply same_fn_trans.
  - intros t'. rewrite (pending_iff t' b a Hinv). pose proof (linked_pending t tm b a Hinv Ht) as Hl.
    destruct (t_linked tm); [|done]. unfold s_mod. rewrite s_pending_add, s_pending_del.
    destruct (decide (t' = t)) as [->|]; [|naive_solver]. split; [by left|]. intros _. by apply Hl.
Qed.

#[export] Instance wheel_timer_laws : TimerLaws tw_base.
Proof.
  constructor.
  - intros b t _ (d&Ht&_). cbn. unfold timer_pending. by rewrite Ht.
  - intros b t d [a Hinv] Hp Hd. cbn in Hp. assert (t ∉ linked [] b) as Hnot.
    { unfold timer_pending in Hp. destruct (b_timers b !! t) as [tm|] eqn:Ht; [by apply (not_linked_free _ _ _ _ Hinv Ht)|].
      destruct Hinv as [[_ _ _ _ _ _ _ Htm _] _]. intros Hin. apply Htm in Hin. rewrite Ht in Hin. by destruct Hin. }
    cbn. split_and!.
    + split; [exists a; by apply free_write_inv|]. split.
      * intros t'. unfold ts_pending. cbn. unfold timer_pending. cbn. destruct (decide (t = t')) as [<-|]; [|by rewrite lookup_insert_ne].
        rewrite lookup_insert_eq. cbn. by rewrite <- Hp at 1.
      * intros t' (tm&Ht&Hf). cbn. destruct (decide (t = t')) as [<-|]; [|rewrite lookup_insert_ne by done; by exists tm].
        rewrite lookup_insert_eq. by eexists.
    + exists d. by rewrite lookup_insert_eq.
    + rewrite lookup_insert_eq. by eexists.
  - intros b t d [a Hinv] Hp (tm&Ht&Hf) Hd. cbn in Hp. unfold timer_pending in Hp. rewrite Ht in Hp. unfold ts_set_expires. cbn.
    unfold set_timer_expires. rewrite Ht. cbn. eexists. split; [done|].
    pose proof (proj1 (not_linked_free _ _ _ _ Hinv Ht) Hp) as Hnot. split.
    + eapply update_intro; [by apply (free_write_inv t (set_expires (u64 d) tm))|eapply same_fn_insert; [exact Ht| |reflexivity]; done|].
      intros t'. by rewrite (pending_iff t' b a Hinv).
    + exists d. split; [|done]. cbn. rewrite lookup_insert_eq. destruct tm. cbn in *. by subst.
  - apply wheel_add.
  - apply wheel_del.
  - apply wheel_mod.
  - intros b b' [a Hinv] Ht. cbn in Ht. destruct (decide (b_work b = [])) as [Hw|]; [|done].
    destruct (Z.ltb_spec (b_jiffies b + 1) (2 ^ 62)) as [Hm|]; [|done].
    assert (s_now a + 1 < 2 ^ 62) as Hm' by (by rewrite <- (rep_now _ _ _ (proj1 Hinv))).
    destruct (start_spec b a Hinv Hw Hm') as (b1&Hs&Hinv'). rewrite Hs in Ht. injection Ht as <-.
    eapply update_intro; [done|by eapply start_fn|]. intros t. rewrite (pending_iff t b a Hinv), s_pending_start; [done|].
    destruct Hinv as [[_ _ _ _ _ Hf _ _ _] _]. apply leibniz_equiv. intros x. rewrite <- Hf, Hw. set_solver.
  - intros b b' r [a Hinv] Hn. cbn in Hn. pose proof (run_timers_next_spec b a Hinv) as Hs. unfold run_timers_next in Hn.
    destruct (b_work b) as [|t w] eqn:Ew; [by injection Hn as <- <-|].
    destruct Hs as (b1&Hb1&_&Hf&Hinv'). unfold run_timers_next in Hb1. rewrite Ew in Hb1.
    destruct (_tw_detach_timer t b) as [b2|] eqn:E; [|done]. apply detach_fn in E. injection Hn as <- <-. injection Hb1 as ->.
    assert (s_pending t a) as Hp by (by right). split; [by apply (pending_iff t b a Hinv)|].
    eapply update_intro; [done|done|]. intros t'. rewrite neqb_and_iff. cbn. rewrite (pending_iff t' b a Hinv).
    assert (s_due a !! t = None) as Hd.
    { destruct Hinv as [[_ _ _ Hnd Hdue _ _ _ _] _]. apply eq_None_not_Some. rewrite <- Hdue, app_nil_r. intros Hin.
      unfold linked in Hnd. cbn [app] in Hnd. rewrite Ew in Hnd. apply NoDup_app in Hnd as (_&Hdj&_). apply (Hdj t Hin). by left. }
    unfold s_pending, s_fire. cbn. destruct (decide (t' = t)) as [->|]; [|set_solver].
    rewrite Hd. split; [by intros []|]. intros [[? ?]|?]; [done|set_solver].
Qed.
