(* ===== verification/Counting.v ===== *)
(** * Counting references

    Shared by the components whose objects have reference counts: how often an address
    occurs in a list, sums over maps, and heaps whose counts are exact. *)

From Stdlib Require Import ZArith Lia.
From stdpp Require Import base list numbers option gmap.
From S2P Require Import Prelude.

(** ** Counting *)

Definition b2z (b : bool) : Z := if b then 1 else 0.

Definition occ (x : nat) (l : list nat) : Z := Z.of_nat (count_occ Nat.eq_dec l x).

Lemma occ_nil x : occ x [] = 0.
Proof. done. Qed.

Lemma occ_cons x y l : occ x (y :: l) = b2z (Nat.eqb x y) + occ x l.
Proof. unfold occ. destruct (Nat.eqb_spec x y) as [->|Hne]; [rewrite count_occ_cons_eq by done|rewrite count_occ_cons_neq by done]; cbn; lia. Qed.

Lemma occ_nonneg x l : 0 <= occ x l.
Proof. unfold occ. lia. Qed.

Lemma occ_in x l : x ∈ l <-> 0 < occ x l.
Proof. rewrite list_elem_of_In, (count_occ_In Nat.eq_dec). unfold occ. lia. Qed.

Lemma b2z_range b : 0 <= b2z b <= 1.
Proof. destruct b; cbn; lia. Qed.

(** The sum of a function over a map. *)
Section Sum.
Context `{Countable K}.

Definition map_sum {A} (f : A -> Z) (m : gmap K A) : Z := map_fold (fun _ a acc => f a + acc) 0 m.

Lemma map_sum_empty {A} (f : A -> Z) : map_sum f ∅ = 0.
Proof. apply map_fold_empty. Qed.

Lemma map_sum_insert {A} (f : A -> Z) m x a : m !! x = None -> map_sum f (<[x := a]> m) = f a + map_sum f m.
Proof. intros Hx. unfold map_sum. rewrite map_fold_insert_L; [done| |done]. intros. lia. Qed.

Lemma map_sum_delete {A} (f : A -> Z) m x a : m !! x = Some a -> map_sum f m = f a + map_sum f (delete x m).
Proof. intros Hx. rewrite <- (insert_delete_id m x a Hx) at 1. apply map_sum_insert, lookup_delete_eq. Qed.

Lemma map_sum_update {A} (f : A -> Z) m x a a' : m !! x = Some a -> map_sum f (<[x := a']> m) = map_sum f m - f a + f a'.
Proof.
  intros Hx. rewrite (map_sum_delete f m x a Hx). rewrite <- insert_delete_eq.
  rewrite map_sum_insert by apply lookup_delete_eq. lia.
Qed.

Lemma map_sum_nonneg {A} (f : A -> Z) m : (forall a, 0 <= f a) -> 0 <= map_sum f m.
Proof.
  intros Hf. induction m as [|x a m Hx IH] using map_ind; [by rewrite map_sum_empty|]. rewrite map_sum_insert by done.
  specialize (Hf a). lia.
Qed.

Lemma map_sum_pos {A} (f : A -> Z) m x a : (forall a, 0 <= f a) -> m !! x = Some a -> f a <= map_sum f m.
Proof. intros Hf Hx. rewrite (map_sum_delete f m x a Hx). pose proof (map_sum_nonneg f (delete x m) Hf). lia. Qed.

End Sum.

(** ** Reference counts *)

(** The objects on the heap are those that are referenced, and their counts are
    the numbers of references. *)
Definition counted {A} (ref : A -> Z) (need : nat -> Z) (m : gmap nat A) : Prop :=
  (forall x a, m !! x = Some a -> ref a = need x /\ 0 < need x) /\ (forall x, 0 < need x -> is_Some (m !! x)).

Section Counted.
Context {A : Type} (ref : A -> Z).
Implicit Types (need : nat -> Z) (m : gmap nat A).

Lemma counted_ext need need' m : (forall x, need' x = need x) -> counted ref need m -> counted ref need' m.
Proof. intros He [H1 H2]. split; [intros x a Hx; rewrite He; by apply H1|]. intros x. rewrite He. apply H2. Qed.

Lemma counted_insert need need' m x a : counted ref need m -> ref a = need' x -> 0 < need' x -> (forall y, y <> x -> need' y = need y) ->
  counted ref need' (<[x := a]> m).
Proof.
  intros [H1 H2] Hr Hp He. split.
  - intros y b [[<- <-]|[Hne Hb]]%lookup_insert_Some; [done|]. rewrite He by done. by apply H1.
  - intros y Hy. destruct (decide (x = y)) as [<-|Hne]; [rewrite lookup_insert_eq; by eexists|].
    rewrite lookup_insert_ne by done. apply H2. by rewrite <- He.
Qed.

Lemma counted_delete need need' m x : counted ref need m -> need' x <= 0 -> (forall y, y <> x -> need' y = need y) ->
  counted ref need' (delete x m).
Proof.
  intros [H1 H2] Hz He. split.
  - intros y b [Hne Hb]%lookup_delete_Some. rewrite He by done. by apply H1.
  - intros y Hy. destruct (decide (x = y)) as [<-|Hne]; [lia|]. rewrite lookup_delete_ne by done. apply H2. by rewrite <- He.
Qed.

Lemma counted_dead need m x : counted ref need m -> m !! x = None -> need x <= 0.
Proof. intros [_ H2] Hx. apply Z.nlt_ge. intros Hp. apply H2 in Hp. rewrite Hx in Hp. by destruct Hp. Qed.
End Counted.
