(* ===== verification/DnsCache.v ===== *)
(** * The DNS cache (src/dns_cache.c)

    Cache entries are reference-counted objects on the heap: the list of the
    cache (in order of last use), the pending timer of the entry and every
    caller that looked the entry up hold one reference each.  The data of an
    entry, an encoded message, is counted separately, because callers may keep
    it after the entry is gone.

    The heap is two maps from addresses to objects; access to an object that
    has been freed is undefined behaviour.  The timers are behind the interface
    [TimerService]: the timer of an entry has the address of the entry.  The
    time of day is an argument. *)

From Stdlib Require Import ZArith Lia.
From stdpp Require Import base list numbers option gmap.
From S2P Require Import Prelude DnsTypes DnsUpdate TimerWheelOps Timer.

(** ** Constants *)

Definition DNS_CACHE_TTL_MIN : Z := 1.
Definition DNS_CACHE_MAX_HITNUM : Z := 6000.
Definition DNS_CACHE_HITNUM_STEP : Z := 3.
Definition DNS_CACHE_HITNUM_STEP_MAX : Z := 6.
Definition DNS_CACHE_FAIL_TIMEOUT : Z := 60 * 5.
Definition DNS_GROUP_NAME_LEN : Z := 32.

(** Sizes of the structures (LP64). *)
Definition sizeof_dns_cache : Z := 448.
Definition sizeof_dns_cache_data : Z := 24.

(** ** Hashing (include/smartdns/lib/hash.h, jhash.h) *)

Definition GOLDEN_RATIO_32 : Z := 1640531527.
Definition JHASH_INITVAL : Z := 3735928559.

Definition rol32 (word shift : Z) : Z :=
  Z.lor (u32 (Z.shiftl word shift)) (Z.shiftr word (Z.land (- shift) 31)).

Definition hash_string_initval (s : list Z) (initval : Z) : Z :=
  fold_left (fun h c => u32 (h * 31 + s8 c)) s initval.

Definition hash_string_case_initval (s : list Z) (initval : Z) : Z :=
  fold_left (fun h c => u32 (h * 31 + tolower (s8 c))) s initval.

Definition hash_string_case (s : list Z) : Z := hash_string_case_initval s 0.

Definition __jhash_final (a b c : Z) : Z :=
  let c := Z.lxor c b in let c := u32 (c - rol32 b 14) in
  let a := Z.lxor a c in let a := u32 (a - rol32 c 11) in
  let b := Z.lxor b a in let b := u32 (b - rol32 a 25) in
  let c := Z.lxor c b in let c := u32 (c - rol32 b 16) in
  let a := Z.lxor a c in let a := u32 (a - rol32 c 4) in
  let b := Z.lxor b a in let b := u32 (b - rol32 a 14) in
  let c := Z.lxor c b in u32 (c - rol32 b 24).

(** [jhash(&v, 4, initval)] of a 4-byte integer [v]: its bytes are added to [a]. *)
Definition jhash4 (v initval : Z) : Z :=
  let a := u32 (JHASH_INITVAL + 4 + initval) in
  __jhash_final (u32 (a + v)) a a.

Definition hash_32 (val bits : Z) : Z := Z.shiftr (u32 (val * GOLDEN_RATIO_32)) (32 - bits).

(** [ilog2] of an [int]. *)
Definition ilog2 (n : Z) : Z := if n =? 0 then -1 else Z.log2 (u32 n).

(** ** Data *)

Record dns_cache_key := mk_key {
  k_domain : option (list Z); k_qtype : Z; k_group : option (list Z); k_flag : Z }.

Record dns_cache_info := mk_info {
  i_domain : list Z; i_qtype : Z; i_group : list Z; i_flag : Z; i_ttl : Z; i_rcode : Z; i_hitnum : Z; i_speed : Z;
  i_timeout : Z; i_hitnum_update_add : Z; i_is_visited : Z; i_insert_time : Z; i_replace_time : Z }.

Record dns_cache := mk_cache { c_ref : Z; c_info : dns_cache_info; c_data : option nat }.

Record dns_cache_data := mk_data { d_ref : Z; d_bytes : list Z }.

Inductive tmout_action := ACTION_OK | ACTION_DEL | ACTION_RETRY | ACTION_UPDATE.

Section Cache.
Context {T : Type} `{TimerService T}.

(** [dns_cache_head], the heap, the timers and the counters of lookups. *)
Record cache_state := mk_state {
  h_init : bool; h_bits : Z; h_hash : gmap Z (list nat); h_list : list nat; h_num : Z; h_mem_size : Z; h_size : Z;
  h_max_mem_size : Z; s_entries : gmap nat dns_cache; s_datas : gmap nat dns_cache_data; s_timers : T;
  st_check_count : Z; st_hit_count : Z }.

Definition set_hash f s := mk_state (h_init s) (h_bits s) (f (h_hash s)) (h_list s) (h_num s) (h_mem_size s) (h_size s)
  (h_max_mem_size s) (s_entries s) (s_datas s) (s_timers s) (st_check_count s) (st_hit_count s).
Definition set_list f s := mk_state (h_init s) (h_bits s) (h_hash s) (f (h_list s)) (h_num s) (h_mem_size s) (h_size s)
  (h_max_mem_size s) (s_entries s) (s_datas s) (s_timers s) (st_check_count s) (st_hit_count s).
Definition set_num f s := mk_state (h_init s) (h_bits s) (h_hash s) (h_list s) (f (h_num s)) (h_mem_size s) (h_size s)
  (h_max_mem_size s) (s_entries s) (s_datas s) (s_timers s) (st_check_count s) (st_hit_count s).
Definition set_mem f s := mk_state (h_init s) (h_bits s) (h_hash s) (h_list s) (h_num s) (f (h_mem_size s)) (h_size s)
  (h_max_mem_size s) (s_entries s) (s_datas s) (s_timers s) (st_check_count s) (st_hit_count s).
Definition set_cache_size v s := mk_state (h_init s) (h_bits s) (h_hash s) (h_list s) (h_num s) (h_mem_size s) v
  (h_max_mem_size s) (s_entries s) (s_datas s) (s_timers s) (st_check_count s) (st_hit_count s).
Definition set_init v s := mk_state v (h_bits s) (h_hash s) (h_list s) (h_num s) (h_mem_size s) (h_size s)
  (h_max_mem_size s) (s_entries s) (s_datas s) (s_timers s) (st_check_count s) (st_hit_count s).
Definition set_bits v s := mk_state (h_init s) v (h_hash s) (h_list s) (h_num s) (h_mem_size s) (h_size s)
  (h_max_mem_size s) (s_entries s) (s_datas s) (s_timers s) (st_check_count s) (st_hit_count s).
Definition set_entries f s := mk_state (h_init s) (h_bits s) (h_hash s) (h_list s) (h_num s) (h_mem_size s) (h_size s)
  (h_max_mem_size s) (f (s_entries s)) (s_datas s) (s_timers s) (st_check_count s) (st_hit_count s).
Definition set_datas f s := mk_state (h_init s) (h_bits s) (h_hash s) (h_list s) (h_num s) (h_mem_size s) (h_size s)
  (h_max_mem_size s) (s_entries s) (f (s_datas s)) (s_timers s) (st_check_count s) (st_hit_count s).
Definition set_cache_timers v s := mk_state (h_init s) (h_bits s) (h_hash s) (h_list s) (h_num s) (h_mem_size s) (h_size s)
  (h_max_mem_size s) (s_entries s) (s_datas s) v (st_check_count s) (st_hit_count s).
Definition set_stats f g s := mk_state (h_init s) (h_bits s) (h_hash s) (h_list s) (h_num s) (h_mem_size s) (h_size s)
  (h_max_mem_size s) (s_entries s) (s_datas s) (s_timers s) (f (st_check_count s)) (g (st_hit_count s)).

#[local] Abbreviation C := (M cache_state).

(** [*p] and [*p = v]. *)
Definition entry (e : nat) : C dns_cache := s <- get ;; access (s_entries s !! e).
Definition write_entry (e : nat) (c : dns_cache) : C unit := _ <- entry e ;; modify (set_entries (insert e c)).
Definition data_at (d : nat) : C dns_cache_data := s <- get ;; access (s_datas s !! d).

(** A call on the timers. *)
Definition timer_call {A} (f : T -> option (T * A)) : C A :=
  s <- get ;; r <- access (f (s_timers s)) ;; modify (set_cache_timers r.1) ;; ret r.2.

Definition unit_call (f : T -> option T) (ts : T) : option (T * unit) := match f ts with Some ts' => Some (ts', tt) | None => None end.

(** ** Starting *)

Definition _dns_cache_is_ready (s : cache_state) : bool := h_init s && (0 <? h_bits s).

(** [dns_cache_init]: the hash table is allocated; a cache limited by memory has
    no limit on the number of entries. *)
Definition dns_cache_init (size mem_size : Z) (ts : T) : cache_state :=
  let bits := ilog2 size - 1 in
  let bits := if 20 <=? bits then 20 else if bits <? 12 then 12 else bits in
  mk_state true bits ∅ [] 0 0 (if 0 <? mem_size then 2147483647 else size) mem_size ∅ ∅ ts 0 0.

(** ** Cache data *)

Definition dns_cache_data_get (d : nat) : C unit :=
  c <- data_at d ;; modify (set_datas (insert d (mk_data (d_ref c + 1) (d_bytes c)))).

Definition dns_cache_data_put (d : option nat) : C unit :=
  match d with
  | None => ret tt
  | Some d =>
    c <- data_at d ;;
    if negb (d_ref c - 1 =? 0) then modify (set_datas (insert d (mk_data (d_ref c - 1) (d_bytes c))))
    else
      modify (set_mem (fun m => m - (Zlen (d_bytes c) + sizeof_dns_cache_data))) ;;
      modify (set_datas (delete d))
  end.

(** [malloc] gives an address at which nothing is. *)
Definition dns_cache_new_data_packet (packet : option (list Z)) (malloc_ok : bool) : C nat :=
  match packet with
  | None => fail
  | Some packet =>
    guard (0 <? Zlen packet) ;;
    guard malloc_ok ;;
    s <- get ;;
    let d := fresh (dom (s_datas s)) in
    modify (set_datas (insert d (mk_data 1 packet))) ;;
    modify (set_mem (fun m => m + (sizeof_dns_cache_data + Zlen packet))) ;;
    ret d
  end.

(** ** Entries *)

Definition _dns_cache_first (s : cache_state) : option nat := head (h_list s).

(** [list_empty(&dns_cache->list)] *)
Definition unlisted (e : nat) : C bool := s <- get ;; ret (bool_decide (e ∉ h_list s)).

Definition hash_del (e : nat) : C unit := modify (set_hash (fmap (fun l => filter (fun x => x <> e) l))).
Definition list_del_init (e : nat) : C unit := modify (set_list (fun l => filter (fun x => x <> e) l)).
Definition list_add_last (e : nat) : C unit := modify (set_list (fun l => l ++ [e])).

Definition _dns_cache_delete (e : nat) : C unit :=
  c <- entry e ;;
  hash_del e ;;
  list_del_init e ;;
  _ <- timer_call (dns_timer_del e) ;;
  modify (set_num (fun n => n - 1)) ;;
  modify (set_mem (fun m => m - sizeof_dns_cache)) ;;
  dns_cache_data_put (c_data c) ;;
  modify (set_entries (delete e)).

(** The first reference taken on an object that has none is a bug of the caller,
    and so is the release of a reference that is not held. *)
Definition dns_cache_get (e : nat) : C unit :=
  c <- entry e ;;
  write_entry e (mk_cache (c_ref c + 1) (c_info c) (c_data c)) ;;
  if c_ref c + 1 =? 1 then ub else ret tt.

Definition dns_cache_release (p : option nat) : C unit :=
  match p with
  | None => ret tt
  | Some e =>
    c <- entry e ;;
    let refcnt := c_ref c - 1 in
    write_entry e (mk_cache refcnt (c_info c) (c_data c)) ;;
    if 0 <? refcnt then ret tt
    else if refcnt <? 0 then ub
    else _dns_cache_delete e
  end.

Definition _dns_cache_remove (e : nat) : C unit :=
  _ <- entry e ;;
  gone <- unlisted e ;;
  if gone : bool then ret tt
  else
    hash_del e ;;
    list_del_init e ;;
    pending <- timer_call (dns_timer_del e) ;;
    (if pending : bool then dns_cache_release (Some e) else ret tt) ;;
    dns_cache_release (Some e).

Definition dns_cache_delete (e : nat) : C unit := _dns_cache_remove e.

(** ** Looking up *)

(** The bucket of a key. *)
Definition key_hash (domain : list Z) (qtype : Z) (group : list Z) (flag : Z) : Z :=
  let key := hash_string_case domain in
  let key := jhash4 qtype key in
  let key := hash_string_initval group key in
  jhash4 flag key.

Definition bucket (s : cache_state) (key : Z) : list nat := default [] (h_hash s !! hash_32 key (h_bits s)).

(** [strncmp(a, b, n) == 0] on C strings. *)
Definition strncmp_eq (a b : list Z) (n : nat) : bool := bool_decide (take n (a ++ [0]) = take n (b ++ [0])).

Definition key_matches (domain : list Z) (qtype : Z) (group : list Z) (flag : Z) (i : dns_cache_info) : bool :=
  (i_qtype i =? qtype) && strncasecmp_eq domain (i_domain i) (Z.to_nat DNS_MAX_CNAME_LEN) &&
  strncmp_eq group (i_group i) (Z.to_nat DNS_GROUP_NAME_LEN) && (flag =? i_flag i).

(** [hash_table_for_each_possible] with the comparisons of the loop bodies. *)
Fixpoint find_entry (domain : list Z) (qtype : Z) (group : list Z) (flag : Z) (l : list nat) : C (option nat) :=
  match l with
  | [] => ret None
  | e :: l =>
    c <- entry e ;;
    if key_matches domain qtype group flag (c_info c) then ret (Some e) else find_entry domain qtype group flag l
  end.

Definition _dns_cache_lookup (cache_key : option dns_cache_key) : C (option nat) :=
  match cache_key with
  | Some (mk_key (Some domain) qtype (Some group) flag) =>
    s <- get ;;
    if negb (_dns_cache_is_ready s) then ret None
    else
      found <- find_entry domain qtype group flag (bucket s (key_hash domain qtype group flag)) ;;
      match found with
      | Some e => dns_cache_get e ;; ret (Some e)
      | None => ret None
      end
  | _ => ret None
  end.

Definition dns_cache_lookup (cache_key : option dns_cache_key) : C (option nat) :=
  s <- get ;;
  if h_size s <=? 0 then ret None
  else
    modify (set_stats (Z.add 1) id) ;;
    r <- _dns_cache_lookup cache_key ;;
    match r with
    | Some e => modify (set_stats id (Z.add 1)) ;; ret (Some e)
    | None => ret None
    end.

(** ** Inserting and replacing *)

Definition _dns_cache_remove_by_domain (domain : list Z) (qtype : Z) (group : list Z) (flag : Z) : C unit :=
  s <- get ;;
  found <- find_entry domain qtype group flag (bucket s (key_hash domain qtype group flag)) ;;
  match found with
  | Some e => _dns_cache_remove e
  | None => ret tt
  end.

(** The loop that makes room: at most [loop_count] more rounds after this one. *)
Fixpoint evict (loop_count : nat) : C unit :=
  s <- get ;;
  let need_remove := ((0 <? h_max_mem_size s) && (h_max_mem_size s <? h_mem_size s)) || (h_size s <? h_num s) in
  if negb need_remove then ret tt
  else
    match _dns_cache_first s with
    | None => ret tt
    | Some e =>
      _dns_cache_remove e ;;
      match loop_count with
      | O => ret tt
      | S n => evict n
      end
    end.

(** [hash_table_add], [list_add_tail] at the end of the cache's list and
    [dns_timer_add] of a new entry. *)
Definition hash_add (e : nat) (key : Z) : C unit :=
  s <- get ;;
  modify (set_hash (insert (hash_32 key (h_bits s)) (e :: bucket s key))).

(** The part of [_dns_cache_insert] under its lock, with the entry it has allocated. *)
Definition insert_locked (info : dns_cache_info) (d : nat) (timeout : Z) : C unit :=
  s <- get ;;
  let e := fresh (dom (s_entries s)) in
  let key := key_hash (i_domain info) (i_qtype info) (i_group info) (i_flag info) in
  modify (set_entries (insert e (mk_cache 1 info (Some d)))) ;;
  modify (fun s => set_cache_timers (ts_init e timeout (s_timers s)) s) ;;
  modify (set_num (Z.add 1)) ;;
  evict 32 ;;
  hash_add e key ;;
  list_add_last e ;;
  modify (set_mem (Z.add sizeof_dns_cache)) ;;
  dns_cache_get e ;;
  timer_call (unit_call (dns_timer_add e)).

Definition _dns_cache_insert (info : option dns_cache_info) (cache_data : option nat) (timeout : Z) (malloc_ok : bool) : C unit :=
  match info, cache_data with
  | Some info, Some d =>
    _dns_cache_remove_by_domain (i_domain info) (i_qtype info) (i_group info) (i_flag info) ;;
    guard malloc_ok ;;
    insert_locked info d timeout
  | _, _ => fail
  end.

(** [safe_strncpy] into a zeroed field of [n] bytes. *)
Definition copy_field (s : list Z) (n : Z) : list Z := take (Z.to_nat (n - 1)) s.

Definition new_info (domain : list Z) (qtype : Z) (group : list Z) (flag rcode ttl speed timeout now : Z) : dns_cache_info :=
  mk_info (copy_field domain DNS_MAX_CNAME_LEN) qtype (copy_field group DNS_GROUP_NAME_LEN) flag
    (if ttl <? DNS_CACHE_TTL_MIN then DNS_CACHE_TTL_MIN else ttl) rcode 3 speed timeout DNS_CACHE_HITNUM_STEP 1 now now.

Definition dns_cache_insert (cache_key : option dns_cache_key) (rcode ttl speed timeout : Z) (cache_data : option nat)
    (now : Z) (malloc_ok : bool) : C unit :=
  match cache_data, cache_key with
  | Some d, Some (mk_key (Some domain) qtype (Some group) flag) =>
    s <- get ;;
    if h_size s <=? 0 then dns_cache_data_put (Some d)
    else _dns_cache_insert (Some (new_info domain qtype group flag rcode ttl speed timeout now)) (Some d) timeout malloc_ok
  | _, _ => fail
  end.

(** Set the timer of an entry: it is moved when it is pending, and added again
    with a reference of its own otherwise. *)
Definition set_entry_timer (e : nat) (timeout : Z) : C unit :=
  pending <- timer_call (dns_timer_mod e timeout) ;;
  if pending : bool then ret tt
  else
    dns_cache_get e ;;
    timer_call (unit_call (ts_set_expires e timeout)) ;;
    timer_call (unit_call (dns_timer_add e)).

(** The part of [_dns_cache_replace] under the lock, for the entry found; returns
    the data it replaced. *)
Definition replace_locked (e : nat) (qtype flag rcode ttl speed timeout update_time : Z) (cache_data : option nat) (now : Z)
    : C (option nat) :=
  gone <- unlisted e ;;
  if gone : bool then fail
  else
    c <- entry e ;;
    let i := c_info c in
    let ttl := if ttl <? DNS_CACHE_TTL_MIN then DNS_CACHE_TTL_MIN else ttl in
    let i' := mk_info (i_domain i) qtype (i_group i) flag ttl rcode (i_hitnum i) speed timeout (i_hitnum_update_add i) 1
      (if update_time =? 0 then i_insert_time i else now) now in
    let old := match cache_data with Some _ => c_data c | None => None end in
    write_entry e (mk_cache (c_ref c) i' (match cache_data with Some d => Some d | None => c_data c end)) ;;
    list_del_init e ;;
    list_add_last e ;;
    set_entry_timer e timeout ;;
    ret old.

Definition _dns_cache_replace (cache_key : option dns_cache_key) (rcode ttl speed timeout update_time : Z)
    (cache_data : option nat) (now : Z) : C unit :=
  s <- get ;;
  if h_size s <=? 0 then dns_cache_data_put cache_data
  else
    found <- _dns_cache_lookup cache_key ;;
    match found, cache_key with
    | Some e, Some k =>
      r <- try (replace_locked e (k_qtype k) (k_flag k) rcode ttl speed timeout update_time cache_data now) ;;
      match r with
      | Some old => dns_cache_data_put old ;; dns_cache_release (Some e)
      | None => dns_cache_release (Some e) ;; fail
      end
    | _, _ => fail
    end.

Definition dns_cache_replace := _dns_cache_replace.

Definition update_timer_locked (e : nat) (timeout : Z) : C unit :=
  gone <- unlisted e ;;
  if gone : bool then fail else set_entry_timer e timeout.

Definition dns_cache_update_timer (key : option dns_cache_key) (timeout : Z) : C unit :=
  match key with
  | Some (mk_key (Some _) _ (Some _) _) =>
    found <- _dns_cache_lookup key ;;
    match found with
    | None => fail
    | Some e =>
      r <- try (update_timer_locked e timeout) ;;
      dns_cache_release (Some e) ;;
      match r with Some _ => ret tt | None => fail end
    end
  | _ => fail
  end.

(** ** Reading and updating an entry *)

Definition dns_cache_get_ttl (e : nat) (now : Z) : C Z :=
  c <- entry e ;;
  let ttl := s32 (i_insert_time (c_info c) + i_ttl (c_info c) - now) in
  ret (if ttl <? 0 then 0 else ttl).

Definition dns_cache_get_data (e : nat) : C (option nat) :=
  c <- entry e ;;
  match c_data c with
  | None => ret None
  | Some d => dns_cache_data_get d ;; ret (Some d)
  end.

Definition set_hits (hitnum update_add visited : Z) (i : dns_cache_info) : dns_cache_info :=
  mk_info (i_domain i) (i_qtype i) (i_group i) (i_flag i) (i_ttl i) (i_rcode i) hitnum (i_speed i) (i_timeout i) update_add visited
    (i_insert_time i) (i_replace_time i).

Definition dns_cache_hitnum_dec_get (e : nat) : C Z :=
  c <- entry e ;;
  let i := c_info c in
  let add := if DNS_CACHE_HITNUM_STEP <? i_hitnum_update_add i then i_hitnum_update_add i - 1 else i_hitnum_update_add i in
  write_entry e (mk_cache (c_ref c) (set_hits (i_hitnum i - 1) add (i_is_visited i) i) (c_data c)) ;;
  ret (i_hitnum i - 1).

Definition dns_cache_update (e : nat) : C unit :=
  c <- entry e ;;
  gone <- unlisted e ;;
  if gone : bool then ret tt
  else
    list_del_init e ;;
    list_add_last e ;;
    let i := c_info c in
    let hitnum := i_hitnum i + i_hitnum_update_add i in
    let hitnum := if DNS_CACHE_MAX_HITNUM <? hitnum then DNS_CACHE_MAX_HITNUM else hitnum in
    let add := if i_hitnum_update_add i <? DNS_CACHE_HITNUM_STEP_MAX then i_hitnum_update_add i + 1 else i_hitnum_update_add i in
    write_entry e (mk_cache (c_ref c) (set_hits hitnum add 1 i) (c_data c)).

(** ** Expiry *)

(** The timer of the entry has called: [act] is what [timeout_callback] answered,
    [None] when there is no callback. *)
Definition dns_cache_expired (e : nat) (act : option tmout_action) : C unit :=
  mod_ret <- match act with
    | Some ACTION_UPDATE => c <- entry e ;; timer_call (dns_timer_mod e (i_timeout (c_info c)))
    | Some ACTION_DEL => dns_cache_delete e ;; ret false
    | Some ACTION_RETRY => timer_call (dns_timer_mod e DNS_CACHE_FAIL_TIMEOUT)
    | Some ACTION_OK | None => ret false
    end ;;
  if mod_ret : bool then ret tt else dns_cache_release (Some e).

(** ** The whole cache *)

(** [list_for_each_entry_safe] with [_dns_cache_remove]. *)
Fixpoint remove_all (l : list nat) : C unit :=
  match l with
  | [] => ret tt
  | e :: l => _dns_cache_remove e ;; remove_all l
  end.

Definition dns_cache_flush : C unit := s <- get ;; remove_all (h_list s).

Definition dns_cache_destroy : C unit :=
  s <- get ;;
  if negb (h_init s) then ret tt
  else
    modify (set_init false) ;;
    modify (set_cache_size 0) ;;
    dns_cache_flush ;;
    modify (set_hash (fun _ => ∅)) ;;
    modify (set_bits 0).

Fixpoint foreach_entries (l : list nat) (now : Z) : C (list (list Z * Z * Z * Z)) :=
  match l with
  | [] => ret []
  | e :: l =>
    dns_cache_get e ;;
    ttl <- dns_cache_get_ttl e now ;;
    c <- entry e ;;
    dns_cache_release (Some e) ;;
    r <- foreach_entries l now ;;
    ret ((i_domain (c_info c), u16 (i_qtype (c_info c)), ttl, i_insert_time (c_info c)) :: r)
  end.

(** [dns_cache_foreach]: the arguments of the calls of the callback. *)
Definition dns_cache_foreach (now : Z) : C (list (list Z * Z * Z * Z)) :=
  s <- get ;;
  guard (h_init s) ;;
  foreach_entries (h_list s) now.

End Cache.
