(* ===== verification/DnsCacheSpec.v ===== *)
(** * References in the DNS cache (src/dns_cache.c)

    The invariant of the cache: the reference count of every entry is the number
    of its references, one for the list of the cache, one for its pending timer
    and one for every handle a caller holds; the count of every piece of data is
    the number of entries and callers that hold it; [num] and [mem_size] are what
    is on the heap. *)

From Stdlib Require Import ZArith Lia.
From stdpp Require Import base list numbers option gmap.
From S2P Require Import Prelude DnsTypes DnsUpdate TimerWheelOps Timer Counting DnsCache.

(** ** The invariant *)

Section CacheInv.
Context {T : Type} `{TS : !TimerService T} `{!TimerLaws T}.
#[local] Abbreviation state := (@cache_state T).

Definition bucket_of (s : state) (i : dns_cache_info) : Z := hash_32 (key_hash (i_domain i) (i_qtype i) (i_group i) (i_flag i)) (h_bits s).

(** The references to an entry: [H] are the handles the callers hold. *)
Definition refs (H : list nat) (s : state) (e : nat) : Z :=
  b2z (bool_decide (e ∈ h_list s)) + b2z (ts_pending e (s_timers s)) + occ e H.

Definition owner_of (d : nat) (c : dns_cache) : Z := b2z (bool_decide (c_data c = Some d)).

(** The references to a piece of data: the entries, and the callers [DH]. *)
Definition data_refs (DH : list nat) (s : state) (d : nat) : Z := map_sum (owner_of d) (s_entries s) + occ d DH.

Definition data_size (c : dns_cache_data) : Z := Zlen (d_bytes c) + sizeof_dns_cache_data.

(** The strings of an entry are C strings that fit their fields. *)
Definition info_ok (i : dns_cache_info) : Prop :=
  Zlen (i_domain i) < DNS_MAX_CNAME_LEN /\ Forall (fun b => 0 < b < 256) (i_domain i) /\
  Zlen (i_group i) < DNS_GROUP_NAME_LEN /\ Forall (fun b => 0 < b < 256) (i_group i) /\ delay_ok (i_timeout i).

(** [k] entries are allocated but not yet counted in [mem_size]. *)
Record cache_inv (k : Z) (H DH : list nat) (s : state) : Prop := {
  ci_timers : ts_inv (s_timers s);
  ci_nodup : NoDup (h_list s);
  ci_refs : counted c_ref (refs H s) (s_entries s);
  ci_known : forall e, is_Some (s_entries s !! e) -> ts_known e (s_timers s);
  ci_hash : forall e i, e ∈ default [] (h_hash s !! i) <->
    e ∈ h_list s /\ exists c, s_entries s !! e = Some c /\ i = bucket_of s (c_info c);
  ci_datas : counted d_ref (data_refs DH s) (s_datas s);
  ci_entry : forall e c, s_entries s !! e = Some c -> is_Some (c_data c) /\ info_ok (c_info c);
  ci_num : h_num s = Z.of_nat (size (s_entries s));
  ci_mem : h_mem_size s = sizeof_dns_cache * (Z.of_nat (size (s_entries s)) - k) + map_sum data_size (s_datas s) }.

(** What a lookup can see of an entry. *)
Definition content (s : state) (e : nat) : option (dns_cache_info * list Z) :=
  c ← s_entries s !! e; d ← c_data c; b ← s_datas s !! d; Some (c_info c, d_bytes b).

Definition same_config (s s' : state) : Prop :=
  h_init s' = h_init s /\ h_bits s' = h_bits s /\ h_size s' = h_size s /\ h_max_mem_size s' = h_max_mem_size s.

(** Objects may be freed and their counts may change; the others stay as they
    are. *)
Definition entries_kept (es es' : gmap nat dns_cache) : Prop :=
  forall e c', es' !! e = Some c' -> exists c, es !! e = Some c /\ c_info c' = c_info c /\ c_data c' = c_data c.
Definition bytes_kept (ds ds' : gmap nat dns_cache_data) : Prop :=
  forall d b', ds' !! d = Some b' -> exists b, ds !! d = Some b /\ d_bytes b' = d_bytes b.

(** A timer that is pending was pending, and its entry has not left the list. *)
Definition pending_kept (s s' : state) : Prop :=
  forall x, ts_pending x (s_timers s') = true -> ts_pending x (s_timers s) = true /\ (x ∈ h_list s -> x ∈ h_list s').

(** Only entries on the list have a pending timer. *)
Definition pend_listed (s : state) : Prop := forall x, ts_pending x (s_timers s) = true -> x ∈ h_list s.

(** From [s] to [s'] the cache's list becomes [l], entries and data that are not
    freed stay, no timer is added, and timers that can be added still can. *)
Definition cache_step (l : list nat) (s s' : state) : Prop :=
  same_config s s' /\ h_list s' = l /\ entries_kept (s_entries s) (s_entries s') /\ bytes_kept (s_datas s) (s_datas s') /\
  (forall t, ts_armed t (s_timers s) -> ts_armed t (s_timers s')) /\ pending_kept s s'.

Lemma entries_kept_refl es : entries_kept es es.
Proof. intros e c Hc. by exists c. Qed.

Lemma bytes_kept_refl ds : bytes_kept ds ds.
Proof. intros d b Hb. by exists b. Qed.

Lemma bytes_kept_insert ds d b r : ds !! d = Some b -> bytes_kept ds (<[d := mk_data r (d_bytes b)]> ds).
Proof. intros Hb x b' [[<- <-]|[_ Hx]]%lookup_insert_Some; [by exists b|by exists b']. Qed.

Lemma cache_step_refl s : cache_step (h_list s) s s.
Proof. split; [by repeat split|]. split_and!; [done|apply entries_kept_refl|apply bytes_kept_refl|done|by intros x]. Qed.

Lemma entries_kept_trans es1 es2 es3 : entries_kept es1 es2 -> entries_kept es2 es3 -> entries_kept es1 es3.
Proof.
  intros H1 H2 e c Hc. destruct (H2 e c Hc) as (c2&Hc2'&?&?). destruct (H1 e c2 Hc2') as (c1&?&?&?). exists c1. split_and!; congruence.
Qed.

Lemma bytes_kept_trans ds1 ds2 ds3 : bytes_kept ds1 ds2 -> bytes_kept ds2 ds3 -> bytes_kept ds1 ds3.
Proof. intros H1 H2 d b Hb. destruct (H2 d b Hb) as (b2&Hb2'&?). destruct (H1 d b2 Hb2') as (b1&?&?). exists b1. split; congruence. Qed.

Lemma same_config_trans s1 s2 s3 : same_config s1 s2 -> same_config s2 s3 -> same_config s1 s3.
Proof. intros (?&?&?&?) (?&?&?&?). repeat split; congruence. Qed.

Lemma cache_step_trans l1 l2 s1 s2 s3 : cache_step l1 s1 s2 -> cache_step l2 s2 s3 -> cache_step l2 s1 s3.
Proof.
  intros (Hc1&Hl1&He1&Hb1&Ha1&Hp1) (Hc2&Hl2&He2&Hb2&Ha2&Hp2).
  split_and!; [by eapply same_config_trans|done|by eapply entries_kept_trans|by eapply bytes_kept_trans|auto|].
  intros x Hx. destruct (Hp2 x Hx) as [Hx2 ?]. destruct (Hp1 x Hx2). auto.
Qed.

Lemma step_listed l s s' : cache_step l s s' -> pend_listed s -> pend_listed s'.
Proof. intros (_&_&_&_&_&Hp) Hl x Hx. destruct (Hp x Hx) as [Hx' Hin]. by apply Hin, Hl. Qed.

(** A step that leaves the timers and the list alone. *)
Lemma cache_step_intro s s' : same_config s s' -> h_list s' = h_list s -> entries_kept (s_entries s) (s_entries s') ->
  bytes_kept (s_datas s) (s_datas s') -> s_timers s' = s_timers s -> cache_step (h_list s) s s'.
Proof. intros Hc Hl He Hb Ht. split_and!; try done; [by rewrite Ht|]. intros x. by rewrite Ht, Hl. Qed.

Lemma refs_live k H DH s e : cache_inv k H DH s -> 0 < refs H s e -> exists c, s_entries s !! e = Some c /\ c_ref c = refs H s e.
Proof. intros Hi Hp. destruct (proj2 (ci_refs _ _ _ _ Hi) e Hp) as [c Hc]. exists c. split; [done|]. by apply (ci_refs _ _ _ _ Hi). Qed.

Lemma refs_list H s e : e ∈ h_list s -> 0 < refs H s e.
Proof.
  intros He. unfold refs. rewrite bool_decide_true by done. pose proof (occ_nonneg e H). pose proof (b2z_range (ts_pending e (s_timers s))).
  cbn [b2z]. lia.
Qed.

Lemma refs_handle H s e : e ∈ H -> 0 < refs H s e.
Proof.
  intros He%occ_in. unfold refs. pose proof (b2z_range (bool_decide (e ∈ h_list s))). pose proof (b2z_range (ts_pending e (s_timers s))). lia.
Qed.

Lemma refs_cons e H s e' : refs (e :: H) s e' = refs H s e' + b2z (Nat.eqb e' e).
Proof. unfold refs. rewrite occ_cons. lia. Qed.

(** ** Primitive steps *)

Implicit Types (s : state) (H DH : list nat).

Lemma entry_spec e c s Q E : s_entries s !! e = Some c -> Q s c -> wp (entry e) s Q E.
Proof. intros Hc HQ. unfold entry. wp_steps. apply wp_access. by exists c. Qed.

Lemma write_entry_spec e c c' s Q E : s_entries s !! e = Some c -> Q (set_entries (insert e c') s) tt -> wp (write_entry e c') s Q E.
Proof. intros Hc HQ. unfold write_entry. wp_step. eapply entry_spec; [done|]. by wp_steps. Qed.

Lemma data_at_spec d b s Q E : s_datas s !! d = Some b -> Q s b -> wp (data_at d) s Q E.
Proof. intros Hb HQ. unfold data_at. wp_steps. apply wp_access. by exists b. Qed.

Lemma timer_call_spec {A} (f : T -> option (T * A)) s ts' a Q E :
  f (s_timers s) = Some (ts', a) -> Q (set_cache_timers ts' s) a -> wp (timer_call f) s Q E.
Proof. intros Hf HQ. unfold timer_call. wp_steps. apply wp_access. exists (ts', a). split; [done|]. by wp_steps. Qed.

(** ** Data *)

(** The data on the heap and the memory counter change. *)
Definition data_step (ds : gmap nat dns_cache_data) (mem : Z) s : state := set_datas (fun _ => ds) (set_mem (fun _ => mem) s).

Lemma eqb_other x d : x <> d -> b2z (Nat.eqb x d) = 0.
Proof. intros Hx. by rewrite (proj2 (Nat.eqb_neq x d) Hx). Qed.

Lemma eqb_same d : b2z (Nat.eqb d d) = 1.
Proof. by rewrite Nat.eqb_refl. Qed.

(** Dropping a reference to data: it is freed with the last one. *)
Lemma data_put_spec need d s E : counted d_ref need (s_datas s) -> 0 < need d ->
  wp (dns_cache_data_put (Some d)) s (fun s' _ => exists ds mem, s' = data_step ds mem s /\
    mem - map_sum data_size ds = h_mem_size s - map_sum data_size (s_datas s) /\
    counted d_ref (fun x => need x - b2z (Nat.eqb x d)) ds /\
    bytes_kept (s_datas s) ds) E.
Proof.
  intros Hc Hp. destruct (proj2 Hc d Hp) as [b Hb]. destruct (proj1 Hc d b Hb) as [Hr _].
  assert (forall x, x <> d -> need x - b2z (Nat.eqb x d) = need x) as Hother by (intros x Hx; rewrite eqb_other by done; lia).
  pose proof (eqb_same d) as Hd. cbn [dns_cache_data_put]. wp_step. apply (data_at_spec d b); [done|]. wp_step.
  - wp_step. exists (<[d := mk_data (d_ref b - 1) (d_bytes b)]> (s_datas s)), (h_mem_size s). split_and!.
    + by destruct s.
    + rewrite (map_sum_update _ _ _ b) by done. change (data_size (mk_data _ _)) with (data_size b). lia.
    + apply (counted_insert _ need); cbn; lia || done.
    + apply (bytes_kept_insert _ _ b); done.
  - wp_steps. exists (delete d (s_datas s)), (h_mem_size s - data_size b). split_and!.
    + by destruct s.
    + rewrite (map_sum_delete _ (s_datas s) d b) by done. lia.
    + apply (counted_delete _ need); cbn; lia || done.
    + intros x b' [_ Hx]%lookup_delete_Some. by exists b'.
Qed.

(** Taking one. *)
Lemma data_get_spec need d s E : counted d_ref need (s_datas s) -> 0 < need d ->
  wp (dns_cache_data_get d) s (fun s' _ => exists ds mem, s' = data_step ds mem s /\
    mem - map_sum data_size ds = h_mem_size s - map_sum data_size (s_datas s) /\
    counted d_ref (fun x => need x + b2z (Nat.eqb x d)) ds /\
    bytes_kept (s_datas s) ds) E.
Proof.
  intros Hc Hp. destruct (proj2 Hc d Hp) as [b Hb]. destruct (proj1 Hc d b Hb) as [Hr _].
  pose proof (eqb_same d) as Hd. unfold dns_cache_data_get. wp_step. apply (data_at_spec d b); [done|]. wp_steps.
  exists (<[d := mk_data (d_ref b + 1) (d_bytes b)]> (s_datas s)), (h_mem_size s). split_and!.
  - by destruct s.
  - rewrite (map_sum_update _ _ _ b) by done. change (data_size (mk_data _ _)) with (data_size b). lia.
  - apply (counted_insert _ need); cbn; [done|lia|lia|]. intros x Hx. rewrite eqb_other by done. lia.
  - apply (bytes_kept_insert _ _ b); done.
Qed.

End CacheInv.
