(* ===== verification/DnsCacheRefs.v ===== *)
(** * Taking, dropping and removing entries of the DNS cache (src/dns_cache.c)

    Every primitive of the cache keeps the invariant: it gives a reference to a
    caller or takes one from it, and frees an entry with its last reference. *)

From Stdlib Require Import ZArith Lia.
From stdpp Require Import base list numbers option gmap.
From S2P Require Import Prelude DnsTypes DnsUpdate TimerWheelOps Timer Counting DnsCache DnsCacheSpec.

Section CacheRefs.
Context {T : Type} `{TS : !TimerService T} `{!TimerLaws T}.
#[local] Abbreviation state := (@cache_state T).
Implicit Types (s : state) (H DH : list nat).

Definition without (e : nat) (l : list nat) : list nat := filter (fun x => x <> e) l.

Lemma elem_of_without e e' l : e' ∈ without e l <-> e' <> e /\ e' ∈ l.
Proof. unfold without. by rewrite list_elem_of_filter. Qed.

Lemma without_id e l : e ∉ l -> without e l = l.
Proof.
  unfold without. induction l as [|x l IH]; [done|]. intros Hn. rewrite filter_cons, decide_True by set_solver. rewrite IH; set_solver.
Qed.

(** ** Contents *)

Lemma content_some k H DH s e c : cache_inv k H DH s -> s_entries s !! e = Some c ->
  exists d b, c_data c = Some d /\ s_datas s !! d = Some b /\ 0 < data_refs DH s d /\ content s e = Some (c_info c, d_bytes b).
Proof.
  intros Hi Hc. destruct (ci_entry _ _ _ _ Hi e c Hc) as [[d Hd] _].
  assert (0 < data_refs DH s d) as Hp.
  { unfold data_refs. pose proof (occ_nonneg d DH). pose proof (map_sum_pos (owner_of d) (s_entries s) e c) as Hs.
    unfold owner_of at 2 in Hs. rewrite bool_decide_true in Hs by done. cbn [b2z] in Hs.
    specialize (Hs (fun a => proj1 (b2z_range _)) Hc). lia. }
  destruct (proj2 (ci_datas _ _ _ _ Hi) d Hp) as [b Hb]. exists d, b. split_and!; [done..|].
  unfold content. rewrite Hc. cbn [mbind option_bind]. rewrite Hd. cbn [mbind option_bind]. by rewrite Hb.
Qed.

(** An entry that is not freed keeps its content. *)
Lemma kept_content k H DH s s' e : cache_inv k H DH s' -> entries_kept (s_entries s) (s_entries s') -> bytes_kept (s_datas s) (s_datas s') ->
  is_Some (s_entries s' !! e) -> content s' e = content s e.
Proof.
  intros Hi He Hb [c' Hc']. destruct (content_some _ _ _ _ _ _ Hi Hc') as (d&b'&Hd&Hb'&_&->).
  destruct (He e c' Hc') as (c&Hc&Hci&Hcd). destruct (Hb d b' Hb') as (b&Hdb&Hbb). unfold content. rewrite Hc. cbn [mbind option_bind].
  rewrite <- Hcd, Hd. cbn [mbind option_bind]. rewrite Hdb. cbn. by rewrite Hci, Hbb.
Qed.

Lemma list_content k H DH s e : cache_inv k H DH s -> e ∈ h_list s -> exists c, s_entries s !! e = Some c /\ is_Some (content s e).
Proof.
  intros Hi He. destruct (refs_live _ _ _ _ e Hi (refs_list H s e He)) as (c&Hc&_). exists c. split; [done|].
  destruct (content_some _ _ _ _ _ _ Hi Hc) as (d&b&_&_&_&->). by eexists.
Qed.

(** ** Writing the count of an entry *)

Definition set_ref (r : Z) (c : dns_cache) : dns_cache := mk_cache r (c_info c) (c_data c).

Lemma owners_set_ref s e c r : s_entries s !! e = Some c ->
  forall d, map_sum (owner_of d) (<[e := set_ref r c]> (s_entries s)) = map_sum (owner_of d) (s_entries s).
Proof. intros Hc d. rewrite (map_sum_update _ _ _ c) by done. change (owner_of d (set_ref r c)) with (owner_of d c). lia. Qed.

Lemma size_update {A} (m : gmap nat A) x a a' : m !! x = Some a -> size (<[x := a']> m) = size m.
Proof. intros Hx. rewrite map_size_insert, Hx. done. Qed.

Lemma entries_kept_insert es e c r : es !! e = Some c -> entries_kept es (<[e := set_ref r c]> es).
Proof. intros Hc x c' [[<- <-]|[_ Hx]]%lookup_insert_Some; [by exists c|by exists c']. Qed.

Lemma set_ref_step s e c r : s_entries s !! e = Some c -> cache_step (h_list s) s (set_entries (insert e (set_ref r c)) s).
Proof.
  intros Hc. apply cache_step_intro; [by repeat split|done|by apply (entries_kept_insert (s_entries s))|apply bytes_kept_refl|done].
Qed.

(** A handle is added or dropped together with the count. *)
Lemma set_ref_inv k H H' DH s e c r : cache_inv k H DH s -> s_entries s !! e = Some c -> r = refs H' s e -> 0 < r ->
  (forall e', e' <> e -> refs H' s e' = refs H s e') -> cache_inv k H' DH (set_entries (insert e (set_ref r c)) s).
Proof.
  intros [Hts Hnd Hrf Hkn Hha Hda Hen Hnu Hme] Hc Hr Hp Ho. constructor; cbn [set_entries s_timers h_list s_entries h_hash s_datas h_num h_mem_size]; try done.
  - subst r. by apply (counted_insert _ (refs H s)).
  - intros e' He'. apply Hkn. destruct (decide (e = e')) as [<-|]; [by eexists|]. by rewrite lookup_insert_ne in He'.
  - intros e' i. rewrite Hha. split; intros [Hl (c'&Hc'&Hb)]; (split; [done|]).
    + destruct (decide (e = e')) as [<-|Hne]; [|exists c'; by rewrite lookup_insert_ne]. exists (set_ref r c). rewrite lookup_insert_eq.
      split; [done|]. rewrite Hc in Hc'. by injection Hc' as <-.
    + apply lookup_insert_Some in Hc' as [[<- <-]|[_ Hc']]; [by exists c|by exists c'].
  - eapply counted_ext; [|exact Hda]. intros d. unfold data_refs. cbn. by rewrite owners_set_ref.
  - intros e' c' [[<- <-]|[_ Hc']]%lookup_insert_Some; [cbn; by eapply Hen|by eapply Hen].
  - by rewrite (size_update _ _ c).
  - by rewrite (size_update _ _ c).
Qed.

Lemma get_spec k H DH s e E : cache_inv k H DH s -> is_Some (s_entries s !! e) ->
  wp (dns_cache_get e) s (fun s' _ => cache_inv k (e :: H) DH s' /\ cache_step (h_list s) s s' /\ s_timers s' = s_timers s) E.
Proof.
  intros Hi [c Hc]. destruct (proj1 (ci_refs _ _ _ _ Hi) e c Hc) as [Hr Hp]. unfold dns_cache_get. wp_step. apply (entry_spec e c); [done|].
  wp_step. apply (write_entry_spec e c); [done|]. wp_step; [lia|]. wp_step. change (mk_cache (c_ref c + 1) (c_info c) (c_data c)) with (set_ref (c_ref c + 1) c). split_and!; [| |done].
  - apply (set_ref_inv k H); [done..|rewrite refs_cons, eqb_same; lia|lia|]. intros e' Hne. rewrite refs_cons, eqb_other by done. lia.
  - by apply set_ref_step.
Qed.

(** ** Freeing an entry *)

Lemma size_delete {A} (m : gmap nat A) x a : m !! x = Some a -> Z.of_nat (size (delete x m)) = Z.of_nat (size m) - 1.
Proof.
  intros Hx. rewrite map_size_delete, Hx. assert (size m <> 0%nat); [|lia]. intros Hz%map_size_empty_inv. subst m. by rewrite lookup_empty in Hx.
Qed.

(** The state after an entry without references has been freed. *)
Lemma delete_inv k H DH s e c ts' ds mem :
  cache_inv k (e :: H) DH s -> s_entries s !! e = Some c -> refs H s e = 0 ->
  ts_update (s_timers s) ts' (fun t' => negb (Nat.eqb t' e) && ts_pending t' (s_timers s)) ->
  counted d_ref (fun x => data_refs DH s x - owner_of x c) ds ->
  mem - map_sum data_size ds = h_mem_size s - sizeof_dns_cache - map_sum data_size (s_datas s) ->
  cache_inv k H DH (mk_state (h_init s) (h_bits s) (without e <$> h_hash s) (without e (h_list s)) (h_num s - 1) mem (h_size s)
    (h_max_mem_size s) (delete e (s_entries s)) ds ts' (st_check_count s) (st_hit_count s)).
Proof.
  intros [Hts Hnd Hrf Hkn Hha Hda Hen Hnu Hme] Hc Hz (Hts'&Hpe&Hkn') Hds Hmem.
  assert (e ∉ h_list s) as Hnl by (intros Hl; pose proof (refs_list H s e Hl); lia).
  assert (ts_pending e (s_timers s) = false) as Hnp.
  { apply not_true_iff_false. intros Hpt. unfold refs in Hz. rewrite Hpt in Hz. pose proof (occ_nonneg e H).
    pose proof (b2z_range (bool_decide (e ∈ h_list s))). cbn [b2z] in Hz. lia. }
  rewrite without_id by done. constructor; cbn [s_timers h_list s_entries h_hash s_datas h_num h_mem_size]; try done.
  - apply (counted_delete _ (refs (e :: H) s)); [done| |].
    + unfold refs in *. cbn. rewrite Hpe, Nat.eqb_refl. rewrite Hnp in Hz. cbn in *. lia.
    + intros e' Hne. rewrite refs_cons, eqb_other by done. unfold refs. cbn. rewrite Hpe, (proj2 (Nat.eqb_neq e' e) Hne). cbn. lia.
  - intros e' He'. apply Hkn', Hkn. destruct He' as [c' [_ Hc']%lookup_delete_Some]. by eexists.
  - intros e' i. rewrite lookup_fmap. destruct (h_hash s !! i) as [l|] eqn:Ei.
    + change (default [] (without e <$> Some l)) with (without e l). specialize (Hha e' i). rewrite Ei in Hha. cbn in Hha. rewrite elem_of_without, Hha. split.
      * intros (Hne&Hl&c'&Hc'&Hb). split; [done|]. exists c'. by rewrite lookup_delete_ne.
      * intros (Hl&c'&[Hne Hc']%lookup_delete_Some&Hb). eauto.
    + specialize (Hha e' i). rewrite Ei in Hha. cbn in *. split; [by intros ?%elem_of_nil|].
      intros (Hl&c'&[Hne Hc']%lookup_delete_Some&Hb). apply Hha. eauto.
  - eapply counted_ext; [|exact Hds]. intros d. unfold data_refs. cbn. rewrite (map_sum_delete (owner_of d) (s_entries s) e c Hc). lia.
  - intros e' c' [_ Hc']%lookup_delete_Some. by eapply Hen.
  - rewrite (size_delete _ _ c) by done. lia.
  - rewrite (size_delete _ _ c) by done. lia.
Qed.

Lemma freed_state s e c ts' ds mem :
  set_entries (delete e) (data_step ds mem (set_mem (fun m => m - sizeof_dns_cache) (set_num (fun n => n - 1) (set_cache_timers ts'
    (set_list (fun l => filter (fun x => x <> e) l) (set_hash (fmap (fun l => filter (fun x => x <> e) l)) (set_entries (insert e c) s))))))) =
  mk_state (h_init s) (h_bits s) (without e <$> h_hash s) (without e (h_list s)) (h_num s - 1) mem (h_size s) (h_max_mem_size s)
    (delete e (s_entries s)) ds ts' (st_check_count s) (st_hit_count s).
Proof. rewrite <- (delete_insert_eq (s_entries s) e c). by destruct s. Qed.

Lemma delete_spec k H DH s e c E :
  cache_inv k (e :: H) DH s -> s_entries s !! e = Some c -> refs H s e = 0 ->
  wp (_dns_cache_delete e) (set_entries (insert e (set_ref 0 c)) s)
    (fun s' _ => cache_inv k H DH s' /\ cache_step (h_list s) s s') E.
Proof.
  intros Hi Hc Hz. pose proof Hi as [Hts Hnd Hrf Hkn Hha Hda Hen Hnu Hme].
  assert (e ∉ h_list s) as Hnl by (intros Hl; pose proof (refs_list H s e Hl); lia).
  destruct (ts_del_law (s_timers s) e Hts (Hkn e ltac:(eauto))) as (ts'&Hdel&Hup&Harm).
  destruct (content_some _ _ _ _ _ _ Hi Hc) as (d&b&Hd&_&Hpos&_). unfold _dns_cache_delete.
  wp_step. eapply entry_spec; [apply lookup_insert_eq|]. unfold hash_del, list_del_init. wp_steps.
  eapply timer_call_spec; [exact Hdel|]. wp_steps. cbn [set_ref c_data]. rewrite Hd.
  eapply wp_mono; [apply (data_put_spec (data_refs DH s) d); [exact Hda|done]| |intros ? Hf; exact Hf].
  intros s' _ (ds&mem&->&Hmem&Hds&Hb). wp_step. rewrite freed_state.
  assert (forall x, b2z (Nat.eqb x d) = owner_of x c) as How.
  { intros x. unfold owner_of. rewrite Hd. destruct (Nat.eqb_spec x d) as [->|Hne]; [by rewrite bool_decide_true|rewrite bool_decide_false; [done|congruence]]. }
  split.
  - eapply delete_inv; try done. eapply counted_ext; [|exact Hds]. intros x. cbn. by rewrite How.
  - split; [by repeat split|]. split_and!; [cbn; by apply without_id| |exact Hb|exact Harm|].
    + intros x c' Hx. apply (lookup_delete_Some (s_entries s)) in Hx as [_ Hx]. by exists c'.
    + intros x Hx. cbn in *. rewrite (proj1 (proj2 Hup)) in Hx. apply andb_prop in Hx as [_ Hx]. split; [done|]. by rewrite without_id.
Qed.

Lemma release_spec k H DH s e E : cache_inv k (e :: H) DH s ->
  wp (dns_cache_release (Some e)) s (fun s' _ => cache_inv k H DH s' /\ cache_step (h_list s) s s') E.
Proof.
  intros Hi. destruct (refs_live _ _ _ _ e Hi (refs_handle (e :: H) s e ltac:(left))) as (c&Hc&Hr).
  rewrite refs_cons, eqb_same in Hr. cbn [dns_cache_release]. wp_step. apply (entry_spec e c); [done|]. wp_step. apply (write_entry_spec e c); [done|].
  change (mk_cache (c_ref c - 1) (c_info c) (c_data c)) with (set_ref (c_ref c - 1) c). wp_step.
  - wp_step. split.
    + apply (set_ref_inv k (e :: H)); [done|done|lia|lia|]. intros e' Hne. rewrite refs_cons, eqb_other by done. lia.
    + by apply set_ref_step.
  - assert (0 <= refs H s e).
    { unfold refs. pose proof (occ_nonneg e H). pose proof (b2z_range (bool_decide (e ∈ h_list s))).
      pose proof (b2z_range (ts_pending e (s_timers s))). lia. }
    wp_step; [lia|]. replace (c_ref c - 1) with 0 by lia. apply (delete_spec k H DH s e c); [done|done|lia].
Qed.

(** ** Removing an entry *)

(** The entry leaves the list and the hash table; the reference of the list is
    now held by the caller. *)
Lemma unlink_spec k H DH s e E : cache_inv k H DH s -> e ∈ h_list s ->
  wp (bind (hash_del e) (fun _ => list_del_init e)) s
    (fun s' _ => cache_inv k (e :: H) DH s' /\ same_config s s' /\ h_list s' = without e (h_list s) /\ s_timers s' = s_timers s /\
      s_entries s' = s_entries s /\ s_datas s' = s_datas s) E.
Proof.
  intros [Hts Hnd Hrf Hkn Hha Hda Hen Hnu Hme] He. unfold hash_del, list_del_init. wp_steps.
  change (fun l : list nat => filter (fun x => x <> e) l) with (without e).
  split; [|by repeat split]. constructor; try done.
  - apply NoDup_filter. exact Hnd.
  - eapply counted_ext; [|exact Hrf]. intros e'. rewrite refs_cons. unfold refs. cbn [set_list h_list s_timers].
    change (h_list (set_hash _ s)) with (h_list s). destruct (decide (e' = e)) as [->|Hne].
    + rewrite eqb_same, bool_decide_false by (rewrite elem_of_without; naive_solver). rewrite bool_decide_true by done. cbn. lia.
    + rewrite eqb_other by done. rewrite (bool_decide_ext (e' ∈ without e (h_list s)) (e' ∈ h_list s)) by (rewrite elem_of_without; tauto). cbn. lia.
  - intros e' i. change (e' ∈ default [] ((without e <$> h_hash s) !! i) <->
      e' ∈ without e (h_list s) /\ exists c, s_entries s !! e' = Some c /\ i = bucket_of s (c_info c)).
    rewrite lookup_fmap. specialize (Hha e' i). destruct (h_hash s !! i) as [l|].
    + change (default [] (without e <$> Some l)) with (without e l). change (default [] (Some l)) with l in Hha.
      rewrite !elem_of_without, Hha. tauto.
    + change (default [] (without e <$> None)) with (@nil nat). change (default [] (@None (list nat))) with (@nil nat) in Hha.
      rewrite elem_of_without. split; [by intros ?%elem_of_nil|tauto].
Qed.

(** Deleting its timer gives the reference of the timer to the caller. *)
Lemma timer_del_spec k H DH s e E : cache_inv k H DH s -> is_Some (s_entries s !! e) ->
  wp (timer_call (dns_timer_del e)) s
    (fun s' r => r = ts_pending e (s_timers s) /\ cache_inv k (if r then e :: H else H) DH s' /\
      exists ts', s' = set_cache_timers ts' s /\ (forall t, ts_pending t ts' = negb (Nat.eqb t e) && ts_pending t (s_timers s)) /\
        (forall t, ts_armed t (s_timers s) -> ts_armed t ts')) E.
Proof.
  intros [Hts Hnd Hrf Hkn Hha Hda Hen Hnu Hme] He. destruct (ts_del_law (s_timers s) e Hts (Hkn e He)) as (ts'&Hdel&(Hts'&Hp&Hkn')&Harm).
  eapply timer_call_spec; [exact Hdel|]. split; [done|]. split; [|by exists ts'].
  constructor; try done.
  - eapply counted_ext; [|exact Hrf]. intros e'. unfold refs. cbn. rewrite Hp. destruct (ts_pending e (s_timers s)) eqn:Ep.
    + rewrite occ_cons. destruct (decide (e' = e)) as [->|Hne].
      * rewrite Nat.eqb_refl, Ep. cbn. lia.
      * rewrite (proj2 (Nat.eqb_neq e' e) Hne). cbn. lia.
    + destruct (Nat.eqb_spec e' e) as [->|]; cbn; [by rewrite Ep|done].
  - intros e' He'. by apply Hkn', Hkn.
Qed.

Lemma remove_spec k H DH s e E : cache_inv k H DH s -> is_Some (s_entries s !! e) ->
  wp (_dns_cache_remove e) s (fun s' _ => cache_inv k H DH s' /\ cache_step (without e (h_list s)) s s') E.
Proof.
  intros Hi [c Hc]. unfold _dns_cache_remove. wp_step. apply (entry_spec e c); [done|]. unfold unlisted. wp_step. wp_step. wp_step. wp_step.
  apply wp_if; intros Hl; [apply bool_decide_eq_true_1 in Hl|apply bool_decide_eq_false_1, dec_stable in Hl].
  { rewrite without_id by done. split; [done|apply cache_step_refl]. }
  apply wp_bind_assoc. wp_step. eapply wp_mono; [by apply (unlink_spec k H DH s e)| |intros ? Hf; exact Hf].
  intros s1 _ (Hi1&Hcf1&Hl1&Hts1&He1&Hd1). wp_step. eapply wp_mono; [apply (timer_del_spec k (e :: H) DH s1 e); [done|rewrite He1; by eexists]| |intros ? Hf; exact Hf].
  intros s2 r (Hr&Hi2&ts2&->&Hp2&Har2). rewrite Hts1 in Hp2, Har2.
  assert (cache_step (without e (h_list s)) s (set_cache_timers ts2 s1)) as Hst2.
  { split_and!; [exact Hcf1|exact Hl1|cbn; rewrite He1; apply entries_kept_refl|cbn; rewrite Hd1; apply bytes_kept_refl|exact Har2|].
    intros x Hx. cbn in *. rewrite Hp2 in Hx. apply andb_prop in Hx as [Hne Hx]. rewrite Hl1, elem_of_without.
    apply negb_true_iff, Nat.eqb_neq in Hne. auto. }
  remember (set_cache_timers ts2 s1) as s2 eqn:Es2. clear Es2.
  assert (forall s3, cache_step (h_list s2) s2 s3 -> cache_step (without e (h_list s)) s s3) as Hjoin.
  { intros s3 Hst3. rewrite (proj1 (proj2 Hst2)) in Hst3. by eapply cache_step_trans. }
  wp_step. destruct r.
  - eapply wp_mono; [apply (release_spec k (e :: H) DH s2 e); exact Hi2| |intros ? Hf; exact Hf]. intros s3 _ [Hi3 Hst3].
    eapply wp_mono; [apply (release_spec k H DH s3 e); exact Hi3| |intros ? Hf; exact Hf]. intros s4 _ [Hi4 Hst4].
    split; [done|]. apply Hjoin. eapply cache_step_trans; [exact Hst3|]. by rewrite (proj1 (proj2 Hst3)) in Hst4.
  - wp_step. eapply wp_mono; [apply (release_spec k H DH s2 e); exact Hi2| |intros ? Hf; exact Hf]. intros s3 _ [Hi3 Hst3].
    split; [done|]. by apply Hjoin.
Qed.

End CacheRefs.
