(* ===== verification/DnsCacheOps.v ===== *)
(** * The operations of the DNS cache keep its invariant (src/dns_cache.c) *)

From Stdlib Require Import ZArith Lia.
From stdpp Require Import base list numbers option gmap.
From S2P Require Import Prelude DnsTypes DnsUpdate TimerWheelOps Timer Counting DnsCache DnsCacheSpec DnsCacheRefs.

(** ** Equal keys have equal hashes *)

(** C strings. *)
Definition cstring (s : list Z) : Prop := Forall (fun b => 0 < b < 256) s.

Lemma take_cstring n (a b : list Z) : cstring a -> cstring b -> (length b < n)%nat -> forall f : Z -> Z, (forall x, f x = 0 <-> x = 0) ->
  f <$> take n (a ++ [0]) = f <$> take n (b ++ [0]) -> f <$> a = f <$> b.
Proof.
  intros Ha Hb Hl f Hf. rewrite (take_ge (b ++ [0])) by (rewrite length_app; cbn; lia). revert n b Hb Hl.
  induction a as [|x a IH]; intros n b Hb Hl; (destruct n as [|n]; [lia|]); cbn [app take fmap list_fmap].
  - rewrite take_nil. destruct b as [|y b]; [done|]. intros Hx%(f_equal length). cbn in Hx. rewrite length_fmap, length_app in Hx. cbn in Hx. lia.
  - inversion Ha; subst. destruct b as [|y b]; cbn [app fmap list_fmap].
    + intros [= Hx Hr]. rewrite (proj2 (Hf 0) eq_refl) in Hx. pose proof (proj1 (Hf x) Hx). lia.
    + inversion Hb; subst. intros [= Hx Hr]. rewrite Hx. cbn. f_equal. apply (IH ltac:(done) n b); [done|cbn in Hl; lia|done].
Qed.

Lemma tolower_zero x : tolower x = 0 <-> x = 0.
Proof. unfold tolower. destruct ((65 <=? x) && (x <=? 90)) eqn:E; bools; lia. Qed.

Lemma tolower_s8 x y : 0 < x < 256 -> 0 < y < 256 -> tolower x = tolower y -> tolower (s8 x) = tolower (s8 y).
Proof.
  intros Hx Hy. unfold tolower, s8, u8. rewrite !Z.mod_small by lia. intros He.
  destruct (Z.ltb_spec x 128), (Z.ltb_spec y 128); repeat match goal with |- context [(?a <=? ?b) && (?c <=? ?d)] => destruct (Z.leb_spec a b), (Z.leb_spec c d); cbn [andb] in * end;
    repeat match goal with H : context [(?a <=? ?b)] |- _ => destruct (Z.leb_spec a b); cbn [andb] in H end; lia.
Qed.

Lemma hash_case_eq a : forall b h, cstring a -> cstring b -> tolower <$> a = tolower <$> b ->
  hash_string_case_initval a h = hash_string_case_initval b h.
Proof.
  unfold hash_string_case_initval. induction a as [|x a IH]; intros [|y b] h Ha Hb He; try done. cbn in He. injection He as Hx He.
  inversion Ha; inversion Hb; subst. cbn [fold_left]. rewrite (tolower_s8 x y) by done. by apply IH.
Qed.

(** An entry that matches a key is in the bucket of the key. *)
Lemma match_hash domain qtype group flag i : cstring domain -> cstring group -> info_ok i -> key_matches domain qtype group flag i = true ->
  key_hash domain qtype group flag = key_hash (i_domain i) (i_qtype i) (i_group i) (i_flag i).
Proof.
  intros Hd Hg (Hl&Hdi&Hlg&Hgi&_) Hm. unfold key_matches in Hm. bools. unfold strncasecmp_eq, strncmp_eq in *.
  repeat match goal with H : bool_decide _ = true |- _ => apply bool_decide_eq_true_1 in H end.
  assert (tolower <$> domain = tolower <$> i_domain i) as Hed.
  { eapply take_cstring; [done|done| |apply tolower_zero|eassumption]. unfold Zlen, DNS_MAX_CNAME_LEN in *. lia. }
  assert (group = i_group i) as ->.
  { rewrite <- (list_fmap_id group), <- (list_fmap_id (i_group i)). eapply (take_cstring (Z.to_nat DNS_GROUP_NAME_LEN) _ _ Hg Hgi); [|done|].
    - unfold Zlen, DNS_GROUP_NAME_LEN in *. lia.
    - by f_equal. }
  unfold key_hash, hash_string_case. rewrite (hash_case_eq domain (i_domain i)) by done. by subst.
Qed.

Section CacheOps.
Context {T : Type} `{TS : !TimerService T} `{!TimerLaws T}.
#[local] Abbreviation state := (@cache_state T).
Implicit Types (s : state) (H DH : list nat).

(** ** Looking up *)

Definition matches (k : dns_cache_key) (i : dns_cache_info) : bool :=
  match k with
  | mk_key (Some domain) qtype (Some group) flag => key_matches domain qtype group flag i
  | _ => false
  end.

Definition key_ok (k : dns_cache_key) : Prop :=
  match k_domain k with Some d => cstring d | None => True end /\ match k_group k with Some g => cstring g | None => True end.

Lemma find_entry_spec domain qtype group flag s l E : (forall e, e ∈ l -> is_Some (s_entries s !! e)) ->
  wp (find_entry domain qtype group flag l) s (fun s' r => s' = s /\
    match r with
    | Some e => e ∈ l /\ exists c, s_entries s !! e = Some c /\ key_matches domain qtype group flag (c_info c) = true
    | None => forall e c, e ∈ l -> s_entries s !! e = Some c -> key_matches domain qtype group flag (c_info c) = false
    end) E.
Proof.
  induction l as [|e l IH]; intros Hlive; cbn [find_entry].
  - wp_steps. split; [done|]. by intros e c ?%elem_of_nil.
  - destruct (Hlive e ltac:(left)) as [c Hc]. wp_step. apply (entry_spec e c); [done|]. apply wp_if; intros Hm.
    + wp_steps. split; [done|]. split; [left|]. by exists c.
    + eapply wp_mono; [apply IH; intros; apply Hlive; by right| |intros ? Hf; exact Hf].
      intros s' [e'|] [-> Hr]; (split; [done|]).
      * destruct Hr as [? Hr]. split; [by right|done].
      * intros e' c' [->|Hin]%elem_of_cons; [congruence|by apply Hr].
Qed.

(** Looking for a key in its bucket is looking for it in the list. *)
Lemma find_in_bucket k H DH s domain qtype group flag E : cache_inv k H DH s -> cstring domain -> cstring group ->
  wp (find_entry domain qtype group flag (bucket s (key_hash domain qtype group flag))) s (fun s' r => s' = s /\
    match r with
    | Some e => e ∈ h_list s /\ exists c, s_entries s !! e = Some c /\ key_matches domain qtype group flag (c_info c) = true
    | None => forall e c, e ∈ h_list s -> s_entries s !! e = Some c -> key_matches domain qtype group flag (c_info c) = false
    end) E.
Proof.
  intros Hi Hd Hg. pose proof (ci_hash _ _ _ _ Hi) as Hh.
  eapply wp_mono; [apply find_entry_spec| |intros ? Hf; exact Hf].
  - intros e He. apply Hh in He as [_ (c&Hc&_)]. by eexists.
  - intros s' [e|] [-> Hr]; (split; [done|]).
    + destruct Hr as [He Hr]. apply Hh in He as [He _]. by split.
    + intros e c He Hc. destruct (key_matches domain qtype group flag (c_info c)) eqn:Em; [|done]. rewrite <- Em. apply (Hr e c); [|done].
      apply Hh. split; [done|]. exists c. split; [done|]. unfold bucket_of.
      by rewrite <- (match_hash _ _ _ _ _ Hd Hg (proj2 (ci_entry _ _ _ _ Hi e c Hc)) Em).
Qed.

Lemma lookup_spec k H DH s key E : cache_inv k H DH s -> key_ok key -> _dns_cache_is_ready s = true ->
  wp (_dns_cache_lookup (Some key)) s (fun s' r => cache_step (h_list s) s s' /\
    match r with
    | Some e => cache_inv k (e :: H) DH s' /\ e ∈ h_list s /\ exists c, s_entries s !! e = Some c /\ matches key (c_info c) = true
    | None => cache_inv k H DH s' /\ forall e c, e ∈ h_list s -> s_entries s !! e = Some c -> matches key (c_info c) = false
    end) E.
Proof.
  intros Hi [Hd Hg] Hr. destruct key as [[domain|] qtype [group|] flag]; cbn [_dns_cache_lookup matches k_domain k_group] in *;
    try (wp_step; split; [apply cache_step_refl|]; by split).
  wp_step. wp_step. rewrite Hr. cbn [negb]. wp_step. eapply wp_mono; [by apply (find_in_bucket k H DH)| |intros ? Hf; exact Hf].
  intros s' [e|] [-> Hf]; cbn [negb].
  - destruct Hf as [He (c&Hc&Hm)]. wp_step. eapply wp_mono; [apply (get_spec k H DH s e); [done|by eexists]| |intros ? Hf; exact Hf].
    intros s1 _ (Hi1&Hst1&_). wp_steps. split; [done|]. split_and!; [done..|]. by exists c.
  - wp_steps. split; [apply cache_step_refl|]. by split.
Qed.

(** ** Making room *)

Lemma without_head e l : NoDup (e :: l) -> without e (e :: l) = l.
Proof.
  intros [Hn _]%NoDup_cons. unfold without. rewrite filter_cons_False by (intros Hc; by apply Hc). by apply without_id.
Qed.

(** When nothing but the list, the timers of its entries and [H] refers to an
    entry, the number of entries is known. *)
Lemma num_of_list k H DH s : cache_inv k H DH s -> pend_listed s -> NoDup (H ++ h_list s) -> h_num s = Zlen (H ++ h_list s).
Proof.
  intros Hi Hpl Hnd. rewrite (ci_num _ _ _ _ Hi). unfold Zlen. f_equal. rewrite <- (size_list_to_set (C := gset nat)) by done.
  rewrite <- size_dom. f_equal. apply set_eq. intros x. rewrite elem_of_dom, elem_of_list_to_set, elem_of_app. split.
  - intros [c Hc]. destruct (proj1 (ci_refs _ _ _ _ Hi) x c Hc) as [_ Hp]. unfold refs in Hp.
    destruct (decide (x ∈ h_list s)) as [|Hx]; [by right|left]. rewrite bool_decide_false in Hp by done.
    destruct (ts_pending x (s_timers s)) eqn:E; [by apply Hpl in E|]. apply occ_in. cbn in Hp. lia.
  - intros Hx. apply (ci_refs _ _ _ _ Hi). destruct Hx; [by apply refs_handle|by apply refs_list].
Qed.

(** How many entries go when there is no limit on the memory: those that are too
    many. *)
Definition evicted (H : list nat) (n m : nat) (s : state) : Prop :=
  pend_listed s -> h_max_mem_size s <= 0 -> NoDup (H ++ h_list s) -> Zlen H <= h_size s ->
  m = Nat.min (S n) (length (H ++ h_list s) - Z.to_nat (h_size s)).

Lemma evicted_none k H DH n s : cache_inv k H DH s -> h_num s <= h_size s -> evicted H n 0 s.
Proof. intros Hi Hn Hpl _ Hnd _. rewrite (num_of_list k H DH) in Hn by done. unfold Zlen in Hn. lia. Qed.

Lemma evicted_empty H n s : h_list s = [] -> evicted H n 0 s.
Proof. intros Hl _ _ _ Hs. rewrite Hl, app_nil_r. unfold Zlen in Hs. lia. Qed.

Lemma evicted_some k H DH s e l : cache_inv k H DH s -> h_list s = e :: l ->
  (0 <? h_max_mem_size s) && (h_max_mem_size s <? h_mem_size s) || (h_size s <? h_num s) = true ->
  pend_listed s -> h_max_mem_size s <= 0 -> NoDup (H ++ h_list s) -> Zlen H <= h_size s ->
  NoDup (H ++ l) /\ (length (H ++ h_list s) - Z.to_nat (h_size s) = S (length (H ++ l) - Z.to_nat (h_size s)))%nat.
Proof.
  intros Hi Hl Hn Hpl Hm Hnd Hs. rewrite (num_of_list k H DH) in Hn by done. rewrite Hl in *. unfold Zlen in *.
  rewrite (proj2 (Z.ltb_ge 0 _)) in Hn by lia. cbn in Hn. apply Z.ltb_lt in Hn. rewrite !length_app in *. cbn [length] in *. split; [|lia].
  apply (NoDup_Permutation_proper _ _ (Permutation_middle H l e)), NoDup_cons in Hnd. apply Hnd.
Qed.

(** The oldest entries go. *)
Lemma evict_spec k H DH n : forall s E, cache_inv k H DH s ->
  wp (evict n) s (fun s' _ => cache_inv k H DH s' /\ exists m, cache_step (drop m (h_list s)) s s' /\ evicted H n m s) E.
Proof.
  induction n as [|n IH]; intros s E Hi; cbn [evict]; wp_step; wp_step; apply wp_if; intros Hn;
    try (wp_step; split; [done|]; exists 0%nat; split; [apply cache_step_refl|]; apply (evicted_none k H DH); [done|bools; lia]); unfold _dns_cache_first;
    (destruct (h_list s) as [|e l] eqn:El; cbn [head]; [wp_step; split; [done|]; exists 0%nat; split; [rewrite <- El; apply cache_step_refl|by apply evicted_empty]|]);
    (assert (without e (h_list s) = l) as Hw by (rewrite El; apply without_head; rewrite <- El; by eapply ci_nodup));
    (assert (is_Some (s_entries s !! e)) as He by (destruct (list_content _ _ _ _ e Hi) as (c&Hc&_); [rewrite El; left|by eexists]));
    pose proof (evicted_some k H DH s e l Hi El) as Hev;
    wp_step; (eapply wp_mono; [by apply (remove_spec k H DH s e)| |intros ? Hf; exact Hf]);
    intros s1 _ [Hi1 Hst1]; rewrite Hw in Hst1.
  - wp_step. split; [done|]. exists 1%nat. split; [done|]. intros Hpl Hm Hnd Hs. destruct (Hev (proj1 (negb_false_iff _) Hn) Hpl Hm Hnd Hs) as [_ ->]. lia.
  - eapply wp_mono; [by apply IH| |intros ? Hf; exact Hf]. intros s2 _ [Hi2 [m [Hst2 Hm2]]]. split; [done|]. exists (S m). cbn [drop].
    pose proof (step_listed _ _ _ Hst1) as Hpl1. pose proof Hst1 as ((_&_&Hsz&Hmx)&Hl1&_). rewrite Hl1 in Hst2. split; [by eapply cache_step_trans|].
    intros Hpl Hm Hnd Hs. destruct (Hev (proj1 (negb_false_iff _) Hn) Hpl Hm Hnd Hs) as [Hnd' ->]. unfold evicted in Hm2. rewrite Hl1, Hsz, Hmx in Hm2.
    rewrite (Hm2 (Hpl1 Hpl) Hm Hnd' Hs). lia.
Qed.

(** ** Inserting *)

Definition info_matches (i : dns_cache_info) (i' : dns_cache_info) : bool := key_matches (i_domain i) (i_qtype i) (i_group i) (i_flag i) i'.

(** The list without the entry that has the key of [i]. *)
Definition removed_key (i : dns_cache_info) (s : state) (l : list nat) : Prop :=
  (l = h_list s /\ forall e c, e ∈ h_list s -> s_entries s !! e = Some c -> info_matches i (c_info c) = false) \/
  (exists e c, e ∈ h_list s /\ s_entries s !! e = Some c /\ info_matches i (c_info c) = true /\ l = without e (h_list s)).

Lemma removed_key_sub i s l x : removed_key i s l -> x ∈ l -> x ∈ h_list s.
Proof. intros [[-> _]|(e&c&_&_&_&->)]; [done|]. rewrite elem_of_without. tauto. Qed.

Lemma remove_by_domain_spec k H DH s i E : cache_inv k H DH s -> info_ok i ->
  wp (_dns_cache_remove_by_domain (i_domain i) (i_qtype i) (i_group i) (i_flag i)) s (fun s' _ => cache_inv k H DH s' /\
    exists l, removed_key i s l /\ cache_step l s s') E.
Proof.
  intros Hi (Hl&Hd&Hlg&Hg&_). unfold _dns_cache_remove_by_domain. wp_step. wp_step. wp_step.
  eapply wp_mono; [by apply (find_in_bucket k H DH)| |intros ? Hf; exact Hf]. intros s' [e|] [-> Hf].
  - destruct Hf as [He (c&Hc&Hm)]. eapply wp_mono; [apply (remove_spec k H DH s e); [done|by eexists]| |intros ? Hx; exact Hx].
    intros s1 _ [Hi1 Hst1]. split; [done|]. eexists. split; [|exact Hst1]. right. by exists e, c.
  - wp_step. split; [done|]. exists (h_list s). split; [by left|apply cache_step_refl].
Qed.

(** A new entry, held by the caller, owns the data the caller gave. *)
Definition new_entry (e : nat) (i : dns_cache_info) (d : nat) (timeout : Z) s : state :=
  set_num (Z.add 1) (set_cache_timers (ts_init e timeout (s_timers s)) (set_entries (insert e (mk_cache 1 i (Some d))) s)).

Lemma fresh_entry k H DH s e : cache_inv k H DH s -> s_entries s !! e = None ->
  refs H s e = 0 /\ (e ∉ h_list s) /\ ts_pending e (s_timers s) = false.
Proof.
  intros Hi He. pose proof (counted_dead _ _ _ _ (ci_refs _ _ _ _ Hi) He) as Hz. unfold refs in *. pose proof (occ_nonneg e H).
  pose proof (b2z_range (bool_decide (e ∈ h_list s))). pose proof (b2z_range (ts_pending e (s_timers s))). split_and!; [lia| |].
  - intros Hl. rewrite bool_decide_true in Hz by done. cbn [b2z] in Hz. lia.
  - destruct (ts_pending e (s_timers s)); [|done]. cbn [b2z] in Hz. lia.
Qed.

Lemma new_entry_pending k H DH s e i d timeout x : cache_inv k H DH s -> s_entries s !! e = None -> delay_ok timeout ->
  ts_pending x (s_timers (new_entry e i d timeout s)) = ts_pending x (s_timers s).
Proof.
  intros Hi He Hd. destruct (fresh_entry _ _ _ _ _ Hi He) as (_&_&Hp).
  destruct (ts_init_law (s_timers s) e timeout (ci_timers _ _ _ _ Hi) Hp Hd) as ((_&Hx&_)&_&_). apply Hx.
Qed.

Lemma new_entry_inv k H DH s e i d timeout :
  cache_inv k H (d :: DH) s -> s_entries s !! e = None -> info_ok i -> delay_ok timeout ->
  cache_inv (k + 1) (e :: H) DH (new_entry e i d timeout s) /\ ts_armed e (s_timers (new_entry e i d timeout s)).
Proof.
  intros Hi He Hok Hd. destruct (fresh_entry _ _ _ _ _ Hi He) as (Hz&Hnl&Hnp). destruct Hi as [Hts Hnd Hrf Hkn Hha Hda Hen Hnu Hme].
  destruct (ts_init_law (s_timers s) e timeout Hts Hnp Hd) as ((Hts'&Hp&Hkn')&Harm&Hkn0). split; [|exact Harm].
  assert (forall x, refs (e :: H) (new_entry e i d timeout s) x = refs H s x + b2z (Nat.eqb x e)) as Hrefs.
  { intros x. rewrite refs_cons. unfold refs. cbn. by rewrite Hp. }
  constructor; try done.
  - apply (counted_insert _ (refs H s)); [done|rewrite Hrefs, Hz, eqb_same; done|rewrite Hrefs, Hz, eqb_same; lia|].
    intros y Hy. rewrite Hrefs, eqb_other by done. lia.
  - intros x Hx. cbn in *. destruct (decide (e = x)) as [<-|Hne]; [done|]. apply Hkn', Hkn. by rewrite lookup_insert_ne in Hx.
  - intros x j. change (x ∈ default [] (h_hash s !! j) <-> x ∈ h_list s /\ exists c, <[e := mk_cache 1 i (Some d)]> (s_entries s) !! x = Some c /\ j = bucket_of s (c_info c)).
    rewrite Hha. split; intros [Hl (c&Hc&Hb)]; (split; [done|]); exists c; (split; [|done]).
    + rewrite lookup_insert_ne by (by intros ->). done.
    + by rewrite lookup_insert_ne in Hc by (by intros ->).
  - eapply counted_ext; [|exact Hda]. intros x. unfold data_refs. cbn. rewrite map_sum_insert by done. rewrite occ_cons.
    unfold owner_of at 1. cbn. destruct (Nat.eqb_spec x d) as [->|Hne]; [rewrite bool_decide_true by done|rewrite bool_decide_false by congruence]; cbn; lia.
  - intros x c Hc. change (<[e := mk_cache 1 i (Some d)]> (s_entries s) !! x = Some c) in Hc. apply lookup_insert_Some in Hc as [[<- <-]|[_ Hc]]; [split; [by eexists|done]|by eapply Hen].
  - cbn. rewrite map_size_insert_None by done. lia.
  - cbn -[Z.mul]. rewrite map_size_insert_None by done. lia.
Qed.

(** The entry goes on the list and into the hash table, which take over the
    reference. *)
Definition listed (e : nat) (b : Z) s : state := set_list (fun l => l ++ [e]) (set_hash (fun h => <[b := e :: default [] (h !! b)]> h) s).

Lemma list_add_inv k H DH s e c : cache_inv k (e :: H) DH s -> e ∉ h_list s -> s_entries s !! e = Some c ->
  cache_inv k H DH (listed e (bucket_of s (c_info c)) s).
Proof.
  intros [Hts Hnd Hrf Hkn Hha Hda Hen Hnu Hme] Hnl Hc. constructor; try done.
  - change (NoDup (h_list s ++ [e])). apply NoDup_app. split_and!; [done| |apply NoDup_singleton].
    intros x Hx ->%list_elem_of_singleton. done.
  - eapply counted_ext; [|exact Hrf]. intros x. rewrite refs_cons. unfold refs.
    change (h_list (listed e (bucket_of s (c_info c)) s)) with (h_list s ++ [e]). cbn [listed s_timers set_list set_hash].
    destruct (decide (x = e)) as [->|Hne].
    + rewrite eqb_same, bool_decide_true by set_solver. rewrite bool_decide_false by done. cbn. lia.
    + rewrite eqb_other by done. rewrite (bool_decide_ext (x ∈ h_list s ++ [e]) (x ∈ h_list s)) by set_solver. cbn. lia.
  - intros x j. change (x ∈ default [] (<[bucket_of s (c_info c) := e :: default [] (h_hash s !! bucket_of s (c_info c))]> (h_hash s) !! j) <->
      x ∈ h_list s ++ [e] /\ exists c, s_entries s !! x = Some c /\ j = bucket_of s (c_info c)).
    specialize (Hha x j). destruct (decide (bucket_of s (c_info c) = j)) as [<-|Hj].
    + rewrite lookup_insert_eq. change (default [] (Some ?l)) with l. rewrite elem_of_cons, Hha, elem_of_app, list_elem_of_singleton.
      split; [intros [->|[? ?]]; [split; [by right|by exists c]|split; [by left|done]]|]. intros [[Hx|Hx] Hex]; [by right|by left].
    + rewrite lookup_insert_ne by done. rewrite Hha, elem_of_app, list_elem_of_singleton.
      split; [intros [? ?]; split; [by left|done]|]. intros [[Hx|Hx] Hex]; [done|]. subst x. destruct Hex as (c'&Hc'&Hb).
      rewrite Hc in Hc'. injection Hc' as <-. done.
Qed.

Lemma timer_add_spec k H DH s e E : cache_inv k (e :: H) DH s -> ts_armed e (s_timers s) ->
  wp (timer_call (unit_call (dns_timer_add e))) s (fun s' _ => cache_inv k H DH s' /\
    exists ts', s' = set_cache_timers ts' s /\ forall t, ts_pending t ts' = Nat.eqb t e || ts_pending t (s_timers s)) E.
Proof.
  intros [Hts Hnd Hrf Hkn Hha Hda Hen Hnu Hme] Harm. destruct (ts_add_law (s_timers s) e Hts Harm) as (ts'&Hadd&Hts'&Hp&Hkn').
  pose proof (ts_armed_law (s_timers s) e Hts Harm) as Hnp.
  eapply timer_call_spec; [unfold unit_call; by rewrite Hadd|]. split; [|by exists ts']. constructor; try done.
  - eapply counted_ext; [|exact Hrf]. intros x. rewrite refs_cons. unfold refs. cbn. rewrite Hp.
    destruct (Nat.eqb_spec x e) as [->|]; cbn; [rewrite Hnp; cbn|]; lia.
  - intros x Hx. by apply Hkn', Hkn.
Qed.

Lemma set_mem_inv k k' H DH s m : cache_inv k H DH s -> m = h_mem_size s + sizeof_dns_cache * (k - k') ->
  cache_inv k' H DH (set_mem (fun _ => m) s).
Proof. intros [Hts Hnd Hrf Hkn Hha Hda Hen Hnu Hme] ->. constructor; try done. cbn -[Z.mul]. lia. Qed.

Lemma link_spec H DH s e c E : cache_inv 1 (e :: H) DH s -> e ∉ h_list s -> s_entries s !! e = Some c -> ts_armed e (s_timers s) ->
  let i := c_info c in
  wp (hash_add e (key_hash (i_domain i) (i_qtype i) (i_group i) (i_flag i)) ;;
      list_add_last e ;; modify (set_mem (Z.add sizeof_dns_cache)) ;; dns_cache_get e ;; timer_call (unit_call (dns_timer_add e))) s
    (fun s' _ => cache_inv 0 H DH s' /\ same_config s s' /\ h_list s' = h_list s ++ [e] /\
      entries_kept (s_entries s) (s_entries s') /\ bytes_kept (s_datas s) (s_datas s') /\
      forall x, ts_pending x (s_timers s') = true -> x = e \/ ts_pending x (s_timers s) = true) E.
Proof.
  intros Hi Hnl Hc Harm i. unfold hash_add, list_add_last. do 9 wp_step.
  pose proof (list_add_inv 1 H DH s e c Hi Hnl Hc) as Hi1.
  apply (set_mem_inv 1 0 _ _ _ (sizeof_dns_cache + h_mem_size s)) in Hi1; [|change (h_mem_size (listed e (bucket_of s (c_info c)) s)) with (h_mem_size s); lia].
  match goal with |- wp _ ?s1 _ _ => change s1 with (set_mem (fun _ => sizeof_dns_cache + h_mem_size s) (listed e (bucket_of s (c_info c)) s)) end.
  eapply wp_mono; [apply (get_spec 0 H DH _ e _ Hi1); by exists c| |intros ? Hf; exact Hf]. intros s2 _ (Hi2&(Hcf&Hl&Hek&Hbk&Har&_)&Ht2).
  change (h_list (set_mem (fun _ => sizeof_dns_cache + h_mem_size s) (listed e (bucket_of s (c_info c)) s))) with (h_list s ++ [e]) in *.
  eapply wp_mono; [apply (timer_add_spec 0 H DH s2 e _ Hi2); by apply Har| |intros ? Hf; exact Hf]. intros s3 _ [Hi3 (ts'&->&Hp)].
  split_and!; [done|exact Hcf|exact Hl|exact Hek|exact Hbk|]. intros x Hx. cbn in Hx. rewrite Hp, Ht2 in Hx. apply orb_prop in Hx as [Hx|Hx]; [left|by right].
  by apply Nat.eqb_eq.
Qed.

(** What an insertion does: the entry [e] is new, the data now belongs to it, and
    the list has lost the entry with the same key, if any, and some of the oldest
    ones. *)
Definition inserted (H : list nat) (i : dns_cache_info) (bytes : list Z) (s s' : state) : Prop :=
  same_config s s' /\ exists e l m, removed_key i s l /\ (e ∉ l) /\ h_list s' = drop m l ++ [e] /\
    content s' e = Some (i, bytes) /\ (forall x, x ∈ drop m l -> content s' x = content s x) /\
    (H = [] -> pend_listed s -> h_max_mem_size s <= 0 -> 0 < h_size s -> m = Nat.min 33 (S (length l) - Z.to_nat (h_size s))).

Lemma entries_new_entry s e i d timeout : s_entries (new_entry e i d timeout s) = <[e := mk_cache 1 i (Some d)]> (s_entries s).
Proof. done. Qed.

Lemma content_new_entry s e i d timeout b : s_datas s !! d = Some b ->
  content (new_entry e i d timeout s) e = Some (i, d_bytes b).
Proof.
  intros Hb. unfold content. change (s_entries (new_entry e i d timeout s)) with (<[e := mk_cache 1 i (Some d)]> (s_entries s)).
  rewrite lookup_insert_eq. cbn. by rewrite Hb.
Qed.

Lemma content_new_other s e i d timeout x : x <> e -> content (new_entry e i d timeout s) x = content s x.
Proof.
  intros Hx. unfold content. change (s_entries (new_entry e i d timeout s)) with (<[e := mk_cache 1 i (Some d)]> (s_entries s)).
  by rewrite lookup_insert_ne.
Qed.

(** How many entries go for a new one, when nobody holds an entry. *)
Lemma new_entry_evicted DH s s1 l e i d timeout n m : cache_inv 0 [] (d :: DH) s1 -> cache_step l s s1 -> s_entries s1 !! e = None -> e ∉ l ->
  delay_ok timeout -> evicted [e] n m (new_entry e i d timeout s1) -> pend_listed s -> h_max_mem_size s <= 0 -> 0 < h_size s ->
  m = Nat.min (S n) (S (length l) - Z.to_nat (h_size s)).
Proof.
  intros Hi1 Hst1 He Hnl Hd Hm3 Hpl Hmx Hsz. pose proof (step_listed _ _ _ Hst1 Hpl) as Hpl1. destruct Hst1 as ((_&_&Hsz1&Hmx1)&Hl1&_).
  unfold evicted in Hm3.
  change (h_size (new_entry e i d timeout s1)) with (h_size s1) in Hm3. change (h_max_mem_size (new_entry e i d timeout s1)) with (h_max_mem_size s1) in Hm3.
  change (h_list (new_entry e i d timeout s1)) with (h_list s1) in Hm3. rewrite Hsz1, Hmx1, Hl1 in Hm3.
  cbn [app length] in Hm3. apply Hm3; [|done| |unfold Zlen; cbn; lia].
  - intros x Hx. change (x ∈ h_list s1). by rewrite (new_entry_pending _ _ _ _ _ _ _ _ _ Hi1 He Hd) in Hx; apply Hpl1.
  - apply NoDup_cons. split; [done|]. rewrite <- Hl1. by eapply ci_nodup.
Qed.

(** The entry is linked at the end, after the entries that had to make room. *)
Definition linked (H : list nat) (i : dns_cache_info) (bytes : list Z) (s s' : state) : Prop :=
  same_config s s' /\ exists e m, (e ∉ h_list s) /\ h_list s' = drop m (h_list s) ++ [e] /\
    content s' e = Some (i, bytes) /\ (forall x, x ∈ drop m (h_list s) -> content s' x = content s x) /\
    (H = [] -> pend_listed s -> h_max_mem_size s <= 0 -> 0 < h_size s -> m = Nat.min 33 (S (length (h_list s)) - Z.to_nat (h_size s))).

Lemma insert_locked_spec H DH s i d b timeout E :
  cache_inv 0 H (d :: DH) s -> s_datas s !! d = Some b -> info_ok i -> delay_ok timeout ->
  wp (insert_locked i d timeout) s (fun s' _ => cache_inv 0 H DH s' /\ linked H i (d_bytes b) s s' /\ (pend_listed s -> pend_listed s')) E.
Proof.
  intros Hi Hb Hok Hd. unfold insert_locked. wp_step. wp_step.
  set (e := fresh (dom (s_entries s))). assert (s_entries s !! e = None) as He by (apply not_elem_of_dom, is_fresh).
  do 6 wp_step. destruct (new_entry_inv 0 H DH s e i d timeout Hi He Hok Hd) as [Hi2 Harm].
  match goal with |- wp _ ?s2 _ _ => change s2 with (new_entry e i d timeout s) end. remember (new_entry e i d timeout s) as s2 eqn:Es2.
  assert (h_list s2 = h_list s) as Hl2 by (by rewrite Es2). assert (e ∉ h_list s) as Hnl.
  { intros Hl. destruct (list_content _ _ _ _ _ Hi Hl) as (c&Hc&_). congruence. }
  wp_step. eapply wp_mono; [by apply (evict_spec (0 + 1) (e :: H) DH 32 s2)| |intros ? Hf; exact Hf]. intros s3 _ [Hi3 [m [Hst3 Hm3]]].
  destruct (refs_live _ _ _ _ e Hi3 (refs_handle _ _ _ ltac:(left))) as (c3&Hc3&_).
  pose proof Hst3 as (Hcf3&Hl3&Hek3&Hbk3&Har3&Hpk3). destruct (Hek3 e c3 Hc3) as (c2&Hc2&Hci&_).
  assert (c_info c3 = i) as Hi3'. { rewrite Hci. rewrite Es2, entries_new_entry in Hc2. apply lookup_insert_Some in Hc2 as [[_ <-]|[? _]]; done. }
  rewrite Hl2 in *. eapply wp_mono; [rewrite <- Hi3'; apply (link_spec H DH s3 e c3); [done| |done|by apply Har3]| |intros ? Hf; exact Hf].
  { rewrite Hl3. intros Hx. apply Hnl. rewrite <- (take_drop m (h_list s)). set_solver. }
  intros s4 _ (Hi4&Hcf4&Hl4&Hek4&Hbk4&Hp4). split; [done|]. rewrite Hl3 in Hl4. split.
  2: { intros Hpl x Hx. rewrite Hl4. apply elem_of_app. destruct (Hp4 x Hx) as [->|Hx3]; [right; left|left]. rewrite <- Hl3.
       destruct (Hpk3 x Hx3) as [Hx2 Hin]. apply Hin. rewrite Hl2. apply Hpl.
       rewrite Es2 in Hx2. by rewrite (new_entry_pending _ _ _ _ _ _ _ _ _ Hi He Hd) in Hx2. }
  assert (forall x, x ∈ h_list s4 -> content s4 x = content s2 x) as Hct.
  { intros x Hx. destruct (list_content _ _ _ _ _ Hi4 Hx) as (c&Hc&_). apply (kept_content 0 H DH); [done| | |by eexists].
    - by eapply entries_kept_trans.
    - by eapply bytes_kept_trans. }
  split; [|exists e, m; split_and!; [done..|by rewrite Hl4| | |]].
  - eapply same_config_trans; [|exact Hcf4]. by subst s2.
  - rewrite Hct by (rewrite Hl4; set_solver). by rewrite Es2, (content_new_entry _ _ _ _ _ b).
  - intros x Hx. assert (x ∈ h_list s) as Hxl by (rewrite <- (take_drop m (h_list s)); set_solver).
    rewrite Hct by (rewrite Hl4; set_solver). by rewrite Es2, content_new_other by (by intros ->).
  - intros -> Hpl Hmx Hsz. rewrite Es2 in Hm3. eapply new_entry_evicted; [exact Hi|apply cache_step_refl|done..].
Qed.

Lemma insert_spec H DH s i d b timeout malloc_ok :
  cache_inv 0 H (d :: DH) s -> s_datas s !! d = Some b -> info_ok i -> delay_ok timeout ->
  wp (_dns_cache_insert (Some i) (Some d) timeout malloc_ok) s
    (fun s' _ => cache_inv 0 H DH s' /\ inserted H i (d_bytes b) s s' /\ (pend_listed s -> pend_listed s'))
    (fun s' => malloc_ok = false /\ cache_inv 0 H (d :: DH) s' /\ exists l, removed_key i s l /\ cache_step l s s').
Proof.
  intros Hi Hb Hok Hd. cbn [_dns_cache_insert]. wp_step.
  eapply wp_mono; [by apply (remove_by_domain_spec 0 H (d :: DH) s i)| |intros ? Hf; exact Hf]. intros s1 _ [Hi1 (l&Hrm&Hst1)].
  wp_step. wp_step; [|split; [done|]; split; [done|]; by exists l]. destruct (proj2 (ci_datas _ _ _ _ Hi1) d) as [b1 Hb1].
  { unfold data_refs. rewrite occ_cons, eqb_same. pose proof (occ_nonneg d DH).
    pose proof (map_sum_nonneg (owner_of d) (s_entries s1) (fun a => proj1 (b2z_range _))). lia. }
  pose proof Hst1 as (Hcf1&Hl1&Hek1&Hbk1&_&_). destruct (Hbk1 d b1 Hb1) as (b0&Hb0&Hbb). rewrite Hb in Hb0. injection Hb0 as <-. rewrite <- Hbb.
  eapply wp_mono; [by apply (insert_locked_spec H DH s1 i d b1)| |intros ? Hf; exact Hf]. intros s' _ (Hi'&(Hcf'&e&m&Hne&Hl'&Hc&Hct&Hm)&Hpl). rewrite Hl1 in *. split; [done|].
  split; [|intros Hp; apply Hpl; by eapply step_listed]. split; [by eapply same_config_trans|]. exists e, l, m. split_and!; [done..| |].
  - intros x Hx. assert (x ∈ l) as Hxl by (rewrite <- (take_drop m l); set_solver). rewrite Hct by done.
    assert (x ∈ h_list s1) as Hx1 by (by rewrite Hl1). destruct (list_content _ _ _ _ _ Hi1 Hx1) as (c&Hcx&_). apply (kept_content 0 H (d :: DH)); [done..|by eexists].
  - destruct Hcf1 as (_&_&E1&E2). intros HH Hp Hmx Hsz. rewrite <- E1. apply Hm; [done|by eapply step_listed|lia|lia].
Qed.

End CacheOps.
