(* ===== verification/DnsCacheUpdate.v ===== *)
(** * Changing entries of the DNS cache (src/dns_cache.c)

    Replacing the data of an entry, moving its timer, counting its hits, its
    expiry, and the operations on the whole cache. *)

From Stdlib Require Import ZArith Lia.
From stdpp Require Import base list numbers option gmap.
From S2P Require Import Prelude DnsTypes DnsUpdate TimerWheelOps Timer Counting DnsCache DnsCacheSpec DnsCacheRefs DnsCacheOps.

Section CacheUpdate.
Context {T : Type} `{TS : !TimerService T} `{!TimerLaws T}.
#[local] Abbreviation state := (@cache_state T).
Implicit Types (s : state) (H DH : list nat).

(** ** Writing an entry *)

(** New fields, and possibly new data: what the entry owned goes to the caller,
    what the caller gave goes to the entry. *)
Lemma write_inv k H DH DH' s e c c' : cache_inv k H DH s -> s_entries s !! e = Some c -> c_ref c' = c_ref c ->
  bucket_of s (c_info c') = bucket_of s (c_info c) -> is_Some (c_data c') -> info_ok (c_info c') ->
  (forall d, owner_of d c' + occ d DH' = owner_of d c + occ d DH) -> cache_inv k H DH' (set_entries (insert e c') s).
Proof.
  intros [Hts Hnd Hrf Hkn Hha Hda Hen Hnu Hme] Hc Hr Hb Hd Hok Ho.
  constructor; cbn [set_entries s_timers h_list s_entries h_hash s_datas h_num h_mem_size]; try done.
  - destruct (proj1 Hrf e c Hc) as [Hre Hp]. apply (counted_insert _ (refs H s)); [done| |done|done]. by rewrite Hr.
  - intros x Hx. apply Hkn. destruct (decide (e = x)) as [<-|]; [by eexists|]. by rewrite lookup_insert_ne in Hx.
  - intros x i. rewrite Hha. split; intros [Hl (c0&Hc0&Hi0)]; (split; [done|]).
    + destruct (decide (e = x)) as [<-|Hne]; [|exists c0; by rewrite lookup_insert_ne]. exists c'. rewrite lookup_insert_eq.
      split; [done|]. rewrite Hc in Hc0. injection Hc0 as <-. by rewrite Hi0.
    + apply lookup_insert_Some in Hc0 as [[<- <-]|[_ Hc0]]; [|by exists c0]. exists c. split; [done|]. by rewrite Hi0.
  - eapply counted_ext; [|exact Hda]. intros d. unfold data_refs. cbn. rewrite (map_sum_update _ _ _ c) by done. specialize (Ho d). lia.
  - intros x c0 [[<- <-]|[_ Hc0]]%lookup_insert_Some; [done|by eapply Hen].
  - by rewrite (size_update _ _ c).
  - by rewrite (size_update _ _ c).
Qed.

(** The entry becomes the youngest. *)
Lemma move_inv k H DH s e : cache_inv k H DH s -> e ∈ h_list s -> cache_inv k H DH (set_list (fun l => without e l ++ [e]) s).
Proof.
  intros [Hts Hnd Hrf Hkn Hha Hda Hen Hnu Hme] He.
  assert (forall x, x ∈ without e (h_list s) ++ [e] <-> x ∈ h_list s) as Hin.
  { intros x. rewrite elem_of_app, elem_of_without, list_elem_of_singleton. destruct (decide (x = e)) as [->|]; tauto. }
  constructor; try done; cbn [set_list s_timers h_list s_entries h_hash s_datas h_num h_mem_size].
  - apply NoDup_app. split_and!; [by apply NoDup_filter| |apply NoDup_singleton].
    intros x Hx ->%list_elem_of_singleton. apply elem_of_without in Hx as [? _]. done.
  - eapply counted_ext; [|exact Hrf]. intros x. unfold refs. cbn. by rewrite (bool_decide_ext _ _ (Hin x)).
  - intros x i. rewrite Hha, Hin. done.
Qed.

(** ** Timers *)

Lemma timers_inv k H DH s ts' : cache_inv k H DH s -> ts_update (s_timers s) ts' (fun t => ts_pending t (s_timers s)) ->
  cache_inv k H DH (set_cache_timers ts' s).
Proof.
  intros [Hts Hnd Hrf Hkn Hha Hda Hen Hnu Hme] (Hts'&Hp&Hkn'). constructor; try done.
  - eapply counted_ext; [|exact Hrf]. intros x. unfold refs. cbn. by rewrite Hp.
  - intros x Hx. by apply Hkn', Hkn.
Qed.

(** The timer of the entry is pending afterwards, and has a reference. *)
Lemma set_entry_timer_spec k H DH s e timeout E : cache_inv k H DH s -> is_Some (s_entries s !! e) -> delay_ok timeout ->
  wp (set_entry_timer e timeout) s (fun s' _ => cache_inv k H DH s' /\ same_config s s' /\ h_list s' = h_list s /\
    entries_kept (s_entries s) (s_entries s') /\ bytes_kept (s_datas s) (s_datas s') /\ ts_pending e (s_timers s') = true /\
    forall x, ts_pending x (s_timers s') = true -> x = e \/ ts_pending x (s_timers s) = true) E.
Proof.
  intros Hi He Hd. pose proof (ci_known _ _ _ _ Hi e He) as Hk. unfold set_entry_timer. wp_step.
  destruct (ts_mod_law (s_timers s) e timeout (ci_timers _ _ _ _ Hi) Hk Hd) as (ts1&Hmod&Hup1).
  eapply timer_call_spec; [exact Hmod|]. pose proof (timers_inv k H DH s ts1 Hi Hup1) as Hi1. destruct Hup1 as (Hts1&Hp1&Hk1).
  apply wp_if; intros Hp.
  { wp_step. split_and!; [done|by repeat split|done|apply entries_kept_refl|apply bytes_kept_refl|cbn; by rewrite Hp1|].
    intros x. cbn. rewrite Hp1. by right. }
  wp_step. eapply wp_mono; [by apply (get_spec k H DH _ e)| |intros ? Hf; exact Hf]. intros s2 _ (Hi2&(Hcf2&Hl2&Hek2&Hbk2&_&_)&Ht2).
  destruct (ts_set_expires_law (s_timers s2) e timeout) as (ts3&Hset&Hup3&Harm); [by eapply ci_timers|rewrite Ht2; cbn; by rewrite Hp1|by rewrite Ht2; apply Hk1|done|].
  wp_step. eapply timer_call_spec; [unfold unit_call; by rewrite Hset|]. pose proof (timers_inv k (e :: H) DH s2 ts3 Hi2 Hup3) as Hi3.
  eapply wp_mono; [by apply (timer_add_spec k H DH _ e)| |intros ? Hf; exact Hf]. intros s4 _ [Hi4 (ts4&->&Hp4)].
  split_and!; [done|exact Hcf2|exact Hl2|exact Hek2|exact Hbk2|cbn; by rewrite Hp4, Nat.eqb_refl|]. intros x Hx. cbn in Hx. rewrite Hp4 in Hx.
  apply orb_prop in Hx as [Hx|Hx]; [left; by apply Nat.eqb_eq|right]. cbn in Hx. rewrite (proj1 (proj2 Hup3)), Ht2 in Hx. cbn in Hx. by rewrite <- Hp1.
Qed.

Lemma occ_option d o : occ d (option_list o) = b2z (bool_decide (o = Some d)).
Proof.
  destruct o as [x|]; [|done]. change (option_list (Some x)) with [x]. rewrite occ_cons, occ_nil. destruct (Nat.eqb_spec d x) as [->|Hne].
  - by rewrite bool_decide_true.
  - rewrite bool_decide_false by congruence. done.
Qed.

Lemma occ_app x l1 l2 : occ x (l1 ++ l2) = occ x l1 + occ x l2.
Proof. unfold occ. rewrite count_occ_app. lia. Qed.

(** ** Replacing *)

Definition replaced_info (i : dns_cache_info) (rcode ttl speed timeout update_time now : Z) : dns_cache_info :=
  mk_info (i_domain i) (i_qtype i) (i_group i) (i_flag i) (if ttl <? DNS_CACHE_TTL_MIN then DNS_CACHE_TTL_MIN else ttl) rcode (i_hitnum i) speed
    timeout (i_hitnum_update_add i) 1 (if update_time =? 0 then i_insert_time i else now) now.

(** The entry has the new fields and the new data, or its old data when none is
    given; it is the youngest; its timer is pending; the data it had goes to the
    caller.  Nothing happens to an entry that has been removed meanwhile. *)
Lemma replace_locked_spec H DH s e c rcode ttl speed timeout update_time nd now :
  cache_inv 0 H (option_list nd ++ DH) s -> s_entries s !! e = Some c -> delay_ok timeout ->
  let i := c_info c in
  wp (replace_locked e (i_qtype i) (i_flag i) rcode ttl speed timeout update_time nd now) s
    (fun s' old => cache_inv 0 H (option_list old ++ DH) s' /\ same_config s s' /\ e ∈ h_list s /\ h_list s' = without e (h_list s) ++ [e] /\
      old = match nd with Some _ => c_data c | None => None end /\
      ts_pending e (s_timers s') = true /\ (pend_listed s -> pend_listed s') /\
      let c' := mk_cache (c_ref c) (replaced_info i rcode ttl speed timeout update_time now) (match nd with Some d => Some d | None => c_data c end) in
      entries_kept (<[e := c']> (s_entries s)) (s_entries s') /\ bytes_kept (s_datas s) (s_datas s'))
    (fun s' => s' = s /\ e ∉ h_list s).
Proof.
  intros Hi Hc Hd i. unfold replace_locked, unlisted. do 4 wp_step. apply wp_if; intros Hl; [apply bool_decide_eq_true_1 in Hl|apply bool_decide_eq_false_1, dec_stable in Hl].
  { wp_step. by split. }
  wp_step. apply (entry_spec e c); [done|]. wp_step. apply (write_entry_spec e c); [done|]. destruct (ci_entry _ _ _ _ Hi e c Hc) as [[o Ho] Hok].
  pose (c' := mk_cache (c_ref c) (replaced_info i rcode ttl speed timeout update_time now) (match nd with Some d => Some d | None => c_data c end)).
  fold i. change (mk_info _ _ _ _ _ _ _ _ _ _ _ _ _) with (replaced_info i rcode ttl speed timeout update_time now). fold c'.
  assert (cache_inv 0 H (option_list (match nd with Some _ => c_data c | None => None end) ++ DH) (set_entries (insert e c') s)) as Hi1.
  { apply (write_inv 0 H (option_list nd ++ DH) _ s e c c'); [done..| | |].
    - subst c'. cbn. destruct nd; [by eexists|by rewrite Ho; eexists].
    - destruct Hok as (?&?&?&?&?). unfold info_ok. split_and!; done.
    - intros d. unfold owner_of. subst c'. rewrite !occ_app, !occ_option. cbn. destruct nd; lia. }
  unfold list_del_init, list_add_last. do 4 wp_step. apply (move_inv _ _ _ _ e) in Hi1; [|done].
  match goal with |- wp _ ?s1 _ _ => change s1 with (set_list (fun l => without e l ++ [e]) (set_entries (insert e c') s)) end.
  wp_step. eapply wp_mono; [apply (set_entry_timer_spec _ _ _ _ e timeout _ Hi1); [cbn; rewrite lookup_insert_eq; by eexists|done]| |intros ? Hf; exact Hf].
  intros s2 _ (Hi2&Hcf2&Hl2&Hek2&Hbk2&Hp2&Hpx). wp_step. split_and!; [done|exact Hcf2|done|exact Hl2|done|done| |exact Hek2|exact Hbk2].
  intros Hpl x Hx. rewrite Hl2. change (x ∈ without e (h_list s) ++ [e]). rewrite elem_of_app, elem_of_without, list_elem_of_singleton.
  destruct (decide (x = e)) as [->|Hne]; [by right|left]. split; [done|]. destruct (Hpx x Hx) as [?|Hx']; [done|]. by apply Hpl.
Qed.

(** ** Data held by callers *)

Lemma data_step_inv k H DH DH' s ds mem : cache_inv k H DH s ->
  mem - map_sum data_size ds = h_mem_size s - map_sum data_size (s_datas s) ->
  counted d_ref (data_refs DH' s) ds -> cache_inv k H DH' (data_step ds mem s).
Proof. intros [Hts Hnd Hrf Hkn Hha Hda Hen Hnu Hme] Hm Hc. constructor; try done. cbn -[Z.mul]. lia. Qed.

Lemma data_step_step ds mem s : bytes_kept (s_datas s) ds -> cache_step (h_list s) s (data_step ds mem s).
Proof. intros Hb. apply cache_step_intro; [by repeat split|done|apply entries_kept_refl|exact Hb|done]. Qed.

Lemma data_refs_cons d DH s x : data_refs (d :: DH) s x = data_refs DH s x + b2z (Nat.eqb x d).
Proof. unfold data_refs. rewrite occ_cons. lia. Qed.

Lemma data_refs_nonneg DH s x : 0 <= data_refs DH s x.
Proof. unfold data_refs. pose proof (occ_nonneg x DH). pose proof (map_sum_nonneg (owner_of x) (s_entries s) (fun a => proj1 (b2z_range _))). lia. Qed.

Lemma put_spec k H DH s d E : cache_inv k H (d :: DH) s ->
  wp (dns_cache_data_put (Some d)) s (fun s' _ => cache_inv k H DH s' /\ cache_step (h_list s) s s') E.
Proof.
  intros Hi. eapply wp_mono; [apply (data_put_spec (data_refs (d :: DH) s) d)| |intros ? Hf; exact Hf].
  - by eapply ci_datas.
  - rewrite data_refs_cons, eqb_same. pose proof (data_refs_nonneg DH s d). lia.
  - intros s' _ (ds&mem&->&Hm&Hc&Hb). split; [|by apply data_step_step]. apply (data_step_inv k H (d :: DH)); [done..|].
    eapply counted_ext; [|exact Hc]. intros x. cbn. rewrite data_refs_cons. lia.
Qed.

Lemma put_option_spec k H DH s o E : cache_inv k H (option_list o ++ DH) s ->
  wp (dns_cache_data_put o) s (fun s' _ => cache_inv k H DH s' /\ cache_step (h_list s) s s') E.
Proof.
  destruct o as [d|]; [apply put_spec|]. intros Hi. cbn [dns_cache_data_put]. wp_step. split; [done|apply cache_step_refl].
Qed.

Lemma take_data_spec k H DH s d E : cache_inv k H DH s -> 0 < data_refs DH s d ->
  wp (dns_cache_data_get d) s (fun s' _ => cache_inv k H (d :: DH) s' /\ cache_step (h_list s) s s') E.
Proof.
  intros Hi Hp. eapply wp_mono; [apply (data_get_spec (data_refs DH s) d); [by eapply ci_datas|done]| |intros ? Hf; exact Hf].
  intros s' _ (ds&mem&->&Hm&Hc&Hb). split; [|by apply data_step_step]. apply (data_step_inv k H DH); [done..|].
  eapply counted_ext; [|exact Hc]. intros x. cbn. rewrite data_refs_cons. lia.
Qed.

Lemma get_data_spec k H DH s e c E : cache_inv k H DH s -> s_entries s !! e = Some c ->
  wp (dns_cache_get_data e) s (fun s' r => exists d b, r = Some d /\ content s e = Some (c_info c, b) /\ d_bytes <$> s_datas s' !! d = Some b /\
    cache_inv k H (d :: DH) s' /\ cache_step (h_list s) s s') E.
Proof.
  intros Hi Hc. destruct (content_some _ _ _ _ _ _ Hi Hc) as (d&b&Hd&Hb&Hp&Hct). unfold dns_cache_get_data. wp_step. apply (entry_spec e c); [done|].
  rewrite Hd. wp_step. eapply wp_mono; [by apply (take_data_spec k H DH)| |intros ? Hf; exact Hf]. intros s' _ [Hi' Hst]. wp_step.
  exists d, (d_bytes b). split_and!; try done. destruct (proj2 (ci_datas _ _ _ _ Hi') d) as [b' Hb'].
  { rewrite data_refs_cons, eqb_same. pose proof (data_refs_nonneg DH s' d). lia. }
  rewrite Hb'. cbn. f_equal. destruct Hst as (_&_&_&Hbk&_&_). destruct (Hbk d b' Hb') as (b0&Hb0&Hbb). congruence.
Qed.

Lemma new_data_spec k H DH s packet malloc_ok :
  cache_inv k H DH s ->
  wp (dns_cache_new_data_packet packet malloc_ok) s
    (fun s' d => cache_inv k H (d :: DH) s' /\ same_config s s' /\ h_list s' = h_list s /\ s_entries s' = s_entries s /\ s_timers s' = s_timers s /\
      (exists p, packet = Some p /\ d_bytes <$> s_datas s' !! d = Some p) /\ s_datas s ⊆ s_datas s')
    (fun s' => s' = s /\ (malloc_ok = false \/ default [] packet = [])).
Proof.
  intros Hi. unfold dns_cache_new_data_packet. destruct packet as [p|]; [|wp_step; by auto]. wp_step. wp_step; [|split; [done|right]; pose proof (Zlen_nonneg p); change (p = []); apply Zlen_0_nil; lia]. wp_step. wp_step; [|by auto].
  do 2 wp_step. cbv zeta. set (d := fresh (dom (s_datas s))). assert (s_datas s !! d = None) as Hd by (apply not_elem_of_dom, is_fresh).
  do 5 wp_step. pose proof (counted_dead _ _ _ _ (ci_datas _ _ _ _ Hi) Hd) as Hz. pose proof (data_refs_nonneg DH s d).
  split_and!; [|by repeat split|done|done|done|exists p; split; [done|]; cbn; by rewrite lookup_insert_eq|by apply insert_subseteq].
  match goal with |- cache_inv _ _ _ ?s1 => change s1 with (data_step (<[d := mk_data 1 p]> (s_datas s)) (h_mem_size s + (sizeof_dns_cache_data + Zlen p)) s) end.
  apply (data_step_inv k H DH); [done| |].
  - rewrite map_sum_insert by done. unfold data_size at 1. cbn [d_bytes]. lia.
  - apply (counted_insert _ (data_refs DH s)); [by eapply ci_datas| | |].
    + rewrite data_refs_cons, eqb_same. cbn. lia.
    + rewrite data_refs_cons, eqb_same. lia.
    + intros y Hy. rewrite data_refs_cons, eqb_other by done. lia.
Qed.

(** ** Hits *)

Lemma info_ok_hits h a v i : info_ok i -> info_ok (set_hits h a v i).
Proof. done. Qed.

(** An entry that is read gets hits and becomes the youngest. *)
Definition hit_info (i : dns_cache_info) : dns_cache_info :=
  let hitnum := i_hitnum i + i_hitnum_update_add i in
  set_hits (if DNS_CACHE_MAX_HITNUM <? hitnum then DNS_CACHE_MAX_HITNUM else hitnum)
    (if i_hitnum_update_add i <? DNS_CACHE_HITNUM_STEP_MAX then i_hitnum_update_add i + 1 else i_hitnum_update_add i) 1 i.

Lemma update_spec k H DH s e c E : cache_inv k H DH s -> s_entries s !! e = Some c ->
  wp (dns_cache_update e) s (fun s' _ => cache_inv k H DH s' /\
    (((e ∉ h_list s) /\ s' = s) \/
     (e ∈ h_list s /\ s' = set_entries (insert e (mk_cache (c_ref c) (hit_info (c_info c)) (c_data c))) (set_list (fun l => without e l ++ [e]) s)))) E.
Proof.
  intros Hi Hc. unfold dns_cache_update, unlisted. wp_step. apply (entry_spec e c); [done|]. do 4 wp_step.
  apply wp_if; intros Hl; [apply bool_decide_eq_true_1 in Hl|apply bool_decide_eq_false_1, dec_stable in Hl].
  { wp_step. split; [done|]. by left. }
  unfold list_del_init, list_add_last. do 4 wp_step. cbv zeta. pose proof (move_inv k H DH s e Hi Hl) as Hi1.
  match goal with |- wp _ ?s1 _ _ => change s1 with (set_list (fun l => without e l ++ [e]) s) end.
  apply (write_entry_spec e c); [done|]. split; [|by right]. destruct (ci_entry _ _ _ _ Hi e c Hc) as [? ?].
  apply (write_inv k H DH _ _ e c); [done..|]. intros d. done.
Qed.

Lemma hitnum_dec_spec k H DH s e c E : cache_inv k H DH s -> s_entries s !! e = Some c ->
  wp (dns_cache_hitnum_dec_get e) s (fun s' r => cache_inv k H DH s' /\ r = i_hitnum (c_info c) - 1 /\ h_list s' = h_list s /\ same_config s s' /\
    s_timers s' = s_timers s) E.
Proof.
  intros Hi Hc. unfold dns_cache_hitnum_dec_get. wp_step. apply (entry_spec e c); [done|]. cbv zeta. wp_step. apply (write_entry_spec e c); [done|].
  wp_step. destruct (ci_entry _ _ _ _ Hi e c Hc) as [? ?]. split_and!; [|done|done|by repeat split|done].
  apply (write_inv k H DH _ _ e c); [done..|]. intros d. done.
Qed.

(** ** Expiry *)

Lemma wp_unbind {S A B} (m : M S B) (k : B -> M S A) (st : S) Q E :
  wp (bind m k) st Q E -> wp m st (fun st' b => wp (k b) st' Q E) E.
Proof. unfold wp, bind. by destruct (m st). Qed.

(** The timer has called: its reference is the caller's.  The reference is given
    back, except when the timer is pending again at a retry. *)
Lemma expired_spec H DH s e act E : cache_inv 0 (e :: H) DH s ->
  wp (dns_cache_expired e act) s (fun s' _ =>
    cache_inv 0 (match act with
      | Some ACTION_RETRY | Some ACTION_UPDATE => if ts_pending e (s_timers s) then e :: H else H
      | _ => H end) DH s' /\ same_config s s' /\
    h_list s' = match act with Some ACTION_DEL => without e (h_list s) | _ => h_list s end /\ (pend_listed s -> pend_listed s') /\
    forall x, ts_pending x (s_timers s') = true -> ts_pending x (s_timers s) = true) E.
Proof.
  intros Hi. destruct (refs_live _ _ _ _ e Hi (refs_handle _ _ _ ltac:(left))) as (c&Hc&_).
  assert (forall s1, cache_inv 0 (e :: H) DH s1 -> wp (dns_cache_release (Some e)) s1 (fun s' _ => cache_inv 0 H DH s' /\ same_config s1 s' /\ h_list s' = h_list s1 /\ (pend_listed s1 -> pend_listed s') /\
    forall x, ts_pending x (s_timers s') = true -> ts_pending x (s_timers s1) = true) E) as Hrel.
  { intros s1 Hi1. eapply wp_mono; [by apply (release_spec 0 H DH)| |intros ? Hf; exact Hf]. intros s2 _ (Hi2&Hst).
    pose proof (step_listed _ _ _ Hst). destruct Hst as (?&?&_&_&_&Hpk). split_and!; [done..|]. intros x Hx. apply (Hpk x Hx). }
  assert (forall d, delay_ok d -> wp (bind (timer_call (dns_timer_mod e d)) (fun r => if r : bool then ret tt else dns_cache_release (Some e))) s
    (fun s' _ => cache_inv 0 (if ts_pending e (s_timers s) then e :: H else H) DH s' /\ same_config s s' /\
      h_list s' = h_list s /\ (pend_listed s -> pend_listed s') /\ forall x, ts_pending x (s_timers s') = true -> ts_pending x (s_timers s) = true) E) as Hmod.
  { intros d Hd. destruct (ts_mod_law (s_timers s) e d) as (ts1&Hm&Hup); [by eapply ci_timers|apply (ci_known _ _ _ _ Hi); by eexists|done|].
    wp_step. eapply timer_call_spec; [exact Hm|]. pose proof (timers_inv _ _ _ _ _ Hi Hup) as Hi1.
    assert (pend_listed s -> pend_listed (set_cache_timers ts1 s)) as Hpl by (intros Hpl x Hx; cbn in *; rewrite (proj1 (proj2 Hup)) in Hx; by apply Hpl).
    destruct (ts_pending e (s_timers s)); [wp_step; split_and!; [done|by repeat split|done|done|cbn; intros x; by rewrite (proj1 (proj2 Hup))]|].
    eapply wp_mono; [by apply Hrel| |intros ? Hf; exact Hf]. intros s2 _ (Hi2&Hcf2&Hl2&Hpl2&Hpx2).
    split_and!; [done|exact Hcf2|exact Hl2|auto|]. intros x Hx%Hpx2. cbn in Hx. by rewrite (proj1 (proj2 Hup)) in Hx. }
  destruct (ci_entry _ _ _ _ Hi e c Hc) as [_ (_&_&_&_&Hd)]. unfold dns_cache_expired. destruct act as [[]|].
  - wp_step. wp_step. by apply Hrel.
  - do 2 wp_step. eapply wp_mono; [apply (remove_spec 0 (e :: H) DH s e _ Hi); by eexists| |intros ? Hf; exact Hf].
    intros s1 _ [Hi1 Hst1]. pose proof (step_listed _ _ _ Hst1) as Hpl1. destruct Hst1 as (Hcf1&Hl1&_&_&_&Hpk1). wp_step.
    eapply wp_mono; [by apply Hrel| |intros ? Hf; exact Hf].
    intros s2 _ (Hi2&Hcf2&Hl2&Hpl2&Hpx2). split_and!; [done|by eapply same_config_trans|congruence|auto|]. intros x Hx%Hpx2. apply (Hpk1 x Hx).
  - apply Hmod. unfold delay_ok, DNS_CACHE_FAIL_TIMEOUT. lia.
  - wp_step. wp_step. apply (entry_spec e c); [done|]. by apply wp_unbind, Hmod.
  - wp_step. wp_step. by apply Hrel.
Qed.

(** ** The whole cache *)

Lemma remove_all_spec k H DH l : forall s E, cache_inv k H DH s -> (forall e, e ∈ l -> e ∈ h_list s) -> NoDup l ->
  wp (remove_all l) s (fun s' _ => cache_inv k H DH s' /\ exists l', cache_step l' s s' /\ forall x, x ∈ l' <-> (x ∈ h_list s /\ x ∉ l)) E.
Proof.
  induction l as [|e l IH]; intros s E Hi Hl Hnd; cbn [remove_all].
  - wp_step. split; [done|]. exists (h_list s). split; [apply cache_step_refl|]. intros x. rewrite elem_of_nil. tauto.
  - apply NoDup_cons in Hnd as [Hne Hnd]. destruct (list_content _ _ _ _ e Hi (Hl e ltac:(left))) as (c&Hc&_).
    wp_step. eapply wp_mono; [apply (remove_spec k H DH s e _ Hi); by eexists| |intros ? Hf; exact Hf]. intros s1 _ [Hi1 Hst1].
    pose proof (proj1 (proj2 Hst1)) as Hl1. eapply wp_mono; [apply (IH s1 E Hi1)| |intros ? Hf; exact Hf]; [|done|].
    + intros x Hx. rewrite Hl1, elem_of_without. split; [by intros ->|]. apply Hl. by right.
    + intros s2 _ [Hi2 (l'&Hst2&Hl')]. split; [done|]. exists l'. split; [by eapply cache_step_trans|].
      intros x. rewrite Hl', Hl1, elem_of_without, elem_of_cons. tauto.
Qed.

Lemma flush_spec k H DH s E : cache_inv k H DH s ->
  wp dns_cache_flush s (fun s' _ => cache_inv k H DH s' /\ cache_step [] s s') E.
Proof.
  intros Hi. unfold dns_cache_flush. wp_step. wp_step. eapply wp_mono; [apply (remove_all_spec k H DH _ s E Hi); [done|by eapply ci_nodup]| |intros ? Hf; exact Hf].
  intros s' _ [Hi' (l'&Hst&Hl')]. split; [done|]. destruct l' as [|x l']; [done|]. destruct (proj1 (Hl' x) ltac:(left)). done.
Qed.

End CacheUpdate.
