(* ===== verification/DnsCacheMachine.v ===== *)
(** * Runs of the DNS cache (src/dns_cache.c)

    The calls of the cache by any number of threads, in any order, each thread
    using the references it holds: the calls never touch freed memory, and the counts
    are those of the references and of the references that [dns_cache_expired] loses. *)

From Stdlib Require Import ZArith Lia.
From stdpp Require Import base list numbers option gmap.
From S2P Require Import Prelude DnsTypes DnsUpdate TimerWheelOps Timer Counting DnsCache DnsCacheSpec DnsCacheRefs DnsCacheOps DnsCacheUpdate.

Section CacheMachine.
Context {T : Type} `{TS : !TimerService T} `{!TimerLaws T}.
#[local] Abbreviation state := (@cache_state T).
Implicit Types (s : state) (H DH : list nat).

(** ** The whole operations *)

(** The invariant between the operations. *)
Definition good H DH s : Prop := cache_inv 0 H DH s /\ pend_listed s.

Lemma step_good H DH l s s' : good H DH s -> forall H' DH', cache_inv 0 H' DH' s' -> cache_step l s s' -> good H' DH' s'.
Proof. intros [_ Hpl] H' DH' Hi Hst. split; [done|]. by eapply step_listed. Qed.

Lemma cache_lookup_spec H DH s key E : cache_inv 0 H DH s -> key_ok key ->
  wp (dns_cache_lookup (Some key)) s (fun s' r => cache_inv 0 (option_list r ++ H) DH s' /\ cache_step (h_list s) s s' /\
    match r with
    | Some e => e ∈ h_list s /\ exists c, s_entries s !! e = Some c /\ matches key (c_info c) = true
    | None => 0 < h_size s -> _dns_cache_is_ready s = true -> forall e c, e ∈ h_list s -> s_entries s !! e = Some c -> matches key (c_info c) = false
    end) E.
Proof.
  intros Hi Hk. unfold dns_cache_lookup. wp_step. wp_step. wp_step.
  { wp_step. split; [done|]. split; [apply cache_step_refl|]. lia. }
  wp_step. wp_step. wp_step.
  assert (cache_inv 0 H DH (set_stats (Z.add 1) id s)) as Hi0 by (destruct Hi; by constructor).
  destruct (_dns_cache_is_ready s) eqn:Er.
  - eapply wp_mono; [apply (lookup_spec 0 H DH _ key E Hi0 Hk); done| |intros ? Hf; exact Hf].
    intros s1 [e|] (Hst&Hr); cbv iota; wp_steps.
    + destruct Hr as (Hi1&He&Hc). split_and!; [destruct Hi1; by constructor|exact Hst|done|done].
    + destruct Hr as (Hi1&Hn). split_and!; [done|exact Hst|done].
  - assert (_dns_cache_lookup (Some key) (set_stats (Z.add 1) id s) = Ok (set_stats (Z.add 1) id s) None) as Hn.
    { unfold _dns_cache_lookup. destruct key as [[d|] q [g|] f]; try done. unfold bind, get. by rewrite (Er : _dns_cache_is_ready (set_stats (Z.add 1) id s) = false). }
    eapply wp_of_ok; [exact Hn|]. cbv beta iota. wp_step. split_and!; [done|exact (cache_step_refl (set_stats (Z.add 1) id s))|done].
Qed.

Lemma lookup_ready_spec H DH s key E : cache_inv 0 H DH s -> key_ok key ->
  wp (_dns_cache_lookup (Some key)) s (fun s' r => cache_inv 0 (option_list r ++ H) DH s' /\ cache_step (h_list s) s s' /\
    match r with Some e => e ∈ h_list s /\ exists c, s_entries s !! e = Some c /\ matches key (c_info c) = true | None => True end) E.
Proof.
  intros Hi Hk. destruct (_dns_cache_is_ready s) eqn:Er.
  - eapply wp_mono; [by apply (lookup_spec 0 H DH)| |intros ? Hf; exact Hf]. intros s1 [e|] (Hst&Hr).
    + destruct Hr as (Hi1&He&Hc). by split_and!.
    + destruct Hr as (Hi1&_). by split_and!.
  - unfold _dns_cache_lookup. destruct key as [[d|] q [g|] f]; try (wp_step; split_and!; [done|apply cache_step_refl|done]).
    wp_step. wp_step. rewrite Er. cbn [negb]. wp_step. split_and!; [done|apply cache_step_refl|done].
Qed.

(** A matching key has the type and the flags of the entry. *)
Lemma matches_fields key i : matches key i = true -> k_qtype key = i_qtype i /\ k_flag key = i_flag i.
Proof. destruct key as [[d|] q [g|] f]; try done. cbn. unfold key_matches. intros Hm. bools. by subst. Qed.

Lemma cache_replace_spec H DH s key rcode ttl speed timeout update_time nd now :
  good H (option_list nd ++ DH) s -> key_ok key -> delay_ok timeout ->
  wp (dns_cache_replace (Some key) rcode ttl speed timeout update_time nd now) s
    (fun s' _ => good H DH s') (fun s' => good H (option_list nd ++ DH) s').
Proof.
  intros Hg Hk Hd. pose proof Hg as [Hi Hpl]. unfold dns_cache_replace, _dns_cache_replace. wp_step. wp_step. wp_step.
  { eapply wp_mono; [by apply (put_option_spec 0 H DH)| |intros s' Hf; exact Hf]. intros s' _ [? ?]. by eapply step_good. }
  wp_step. eapply wp_mono; [by apply (lookup_ready_spec H (option_list nd ++ DH))| |intros s' Hf; exact Hf].
  intros s1 [e|] (Hi1&Hst1&Hr); [|wp_step; by eapply step_good]. destruct Hr as (He&c0&Hc0&Hm). pose proof (step_listed _ _ _ Hst1 Hpl) as Hpl1.
  destruct (refs_live _ _ _ _ e Hi1 (refs_handle _ _ _ ltac:(left))) as (c&Hc&_).
  destruct Hst1 as (_&_&Hek&_). destruct (Hek e c Hc) as (c0'&Hc0'&Hci&_). rewrite Hc0 in Hc0'. injection Hc0' as <-.
  destruct (matches_fields _ _ Hm) as [Hq Hfl]. rewrite Hq, Hfl, <- Hci. wp_step. wp_step.
  eapply wp_mono; [apply (replace_locked_spec (e :: H) DH s1 e c rcode ttl speed timeout update_time nd now); done| |].
  - intros s2 old (Hi2&_&_&_&_&_&Hpl2&_). wp_step. eapply wp_mono; [by apply (put_option_spec 0 (e :: H) DH)| |intros s' Hf; exact Hf].
    intros s3 _ [Hi3 Hst3]. pose proof (step_listed _ _ _ Hst3 (Hpl2 Hpl1)) as Hpl3.
    eapply wp_mono; [by apply (release_spec 0 H DH)| |intros s' Hf; exact Hf]. intros s4 _ [? ?]. by eapply (step_good (e :: H) DH _ s3).
  - intros s2 [-> _]. wp_step. eapply wp_mono; [by apply (release_spec 0 H (option_list nd ++ DH))| |intros s' Hf; exact Hf].
    intros s3 _ [? ?]. wp_step. by eapply (step_good (e :: H) (option_list nd ++ DH) _ s1).
Qed.

Lemma update_timer_locked_spec H DH s e timeout : good H DH s -> is_Some (s_entries s !! e) -> delay_ok timeout ->
  wp (update_timer_locked e timeout) s (fun s' _ => good H DH s' /\ h_list s' = h_list s) (fun s' => s' = s /\ e ∉ h_list s).
Proof.
  intros [Hi Hpl] He Hd. unfold update_timer_locked, unlisted. do 4 wp_step. apply wp_if; intros Hl.
  - wp_step. split; [done|]. by apply bool_decide_eq_true_1 in Hl.
  - apply bool_decide_eq_false_1, dec_stable in Hl.
    eapply wp_mono; [by apply (set_entry_timer_spec 0 H DH)| |intros s' Hf; exact Hf]. intros s1 _ (Hi1&_&Hl1&_&_&_&Hp1).
    split; [|done]. split; [done|]. intros x Hx. rewrite Hl1. destruct (Hp1 x Hx) as [->|?]; [done|by apply Hpl].
Qed.

Lemma cache_update_timer_spec H DH s key timeout : good H DH s -> key_ok key -> delay_ok timeout ->
  wp (dns_cache_update_timer (Some key) timeout) s (fun s' _ => good H DH s') (fun s' => good H DH s').
Proof.
  intros Hg Hk Hd. pose proof Hg as [Hi Hpl]. unfold dns_cache_update_timer. destruct key as [[d|] q [g|] f]; try by wp_step. wp_step.
  eapply wp_mono; [by apply (lookup_ready_spec H DH)| |intros s' Hf; exact Hf]. intros s1 [e|] (Hi1&Hst1&_); [|wp_step; by eapply step_good].
  assert (good (e :: H) DH s1) as Hg1 by (by eapply step_good). destruct (refs_live _ _ _ _ e Hi1 (refs_handle _ _ _ ltac:(left))) as (c&Hc&_). wp_step. wp_step.
  eapply wp_mono; [apply (update_timer_locked_spec (e :: H) DH s1 e timeout); [done|by eexists|done]| |].
  - intros s2 _ [Hg2 _]. wp_step. eapply wp_mono; [apply (release_spec 0 H DH); apply Hg2| |intros s' Hf; exact Hf]. intros s3 _ [? ?].
    wp_step. by eapply (step_good (e :: H) DH _ s2).
  - intros s2 [-> _]. wp_step. eapply wp_mono; [by apply (release_spec 0 H DH)| |intros s' Hf; exact Hf]. intros s3 _ [? ?].
    wp_step. by eapply (step_good (e :: H) DH _ s1).
Qed.

Lemma Zlen_take_le {A} (l : list A) n : 0 <= n -> Zlen (take (Z.to_nat n) l) <= n.
Proof. intros. unfold Zlen. rewrite length_take. lia. Qed.

Lemma new_info_ok d q g f rcode ttl speed timeout now : cstring d -> cstring g -> delay_ok timeout ->
  info_ok (new_info d q g f rcode ttl speed timeout now).
Proof.
  intros Hd Hg Ht. unfold info_ok, new_info, copy_field, DNS_MAX_CNAME_LEN, DNS_GROUP_NAME_LEN. cbn [i_domain i_group i_timeout].
  pose proof (Zlen_take_le d (256 - 1) ltac:(lia)). pose proof (Zlen_take_le g (32 - 1) ltac:(lia)).
  split_and!; try done; [lia|by apply Forall_take|lia|by apply Forall_take].
Qed.

Lemma cache_insert_spec H DH s key rcode ttl speed timeout d now malloc_ok :
  good H (d :: DH) s -> key_ok key -> delay_ok timeout ->
  wp (dns_cache_insert (Some key) rcode ttl speed timeout (Some d) now malloc_ok) s
    (fun s' _ => good H DH s') (fun s' => good H (d :: DH) s').
Proof.
  intros Hg [Hkd Hkg] Hd. pose proof Hg as [Hi Hpl]. unfold dns_cache_insert. destruct key as [[dm|] q [g|] f]; try by wp_step. cbn in Hkd, Hkg. wp_step. wp_step. wp_step.
  { eapply wp_mono; [by apply (put_spec 0 H DH)| |intros s' Hf; exact Hf]. intros s' _ [? ?]. by eapply step_good. }
  destruct (proj2 (ci_datas _ _ _ _ Hi) d) as [b Hb].
  { rewrite data_refs_cons, eqb_same. pose proof (data_refs_nonneg DH s d). lia. }
  eapply wp_mono; [apply (insert_spec H DH s _ d b); [done|done|by apply new_info_ok|done]| |].
  - intros s' _ (?&_&Hpl'). split; [done|auto].
  - intros s' (_&?&l&_&Hst). by eapply step_good.
Qed.

Lemma foreach_spec H DH l now : forall s E, cache_inv 0 H DH s -> (forall e, e ∈ l -> e ∈ h_list s) ->
  wp (foreach_entries l now) s (fun s' r => cache_inv 0 H DH s' /\ cache_step (h_list s) s s' /\ length r = length l) E.
Proof.
  induction l as [|e l IH]; intros s E Hi Hl; cbn [foreach_entries]; [wp_step; split_and!; [done|apply cache_step_refl|done]|].
  destruct (list_content _ _ _ _ e Hi (Hl e ltac:(left))) as (c0&Hc0&_).
  wp_step. eapply wp_mono; [apply (get_spec 0 H DH s e _ Hi); by eexists| |intros ? Hf; exact Hf]. intros s1 _ (Hi1&Hst1&_).
  destruct (refs_live _ _ _ _ e Hi1 (refs_handle _ _ _ ltac:(left))) as (c&Hc&_).
  unfold dns_cache_get_ttl. wp_step. wp_step. apply (entry_spec e c); [done|]. cbv zeta. wp_step. wp_step. apply (entry_spec e c); [done|].
  wp_step. eapply wp_mono; [by apply (release_spec 0 H DH)| |intros ? Hf; exact Hf]. intros s2 _ [Hi2 Hst2].
  assert (h_list s2 = h_list s) as Hl2 by (rewrite (proj1 (proj2 Hst2)); apply Hst1).
  wp_step. eapply wp_mono; [apply (IH s2 E Hi2); intros x Hx; rewrite Hl2; apply Hl; by right| |intros ? Hf; exact Hf].
  intros s3 r (Hi3&Hst3&Hr). wp_step. split_and!; [done| |cbn; lia]. rewrite <- Hl2. eapply cache_step_trans; [exact Hst1|]. by eapply cache_step_trans.
Qed.

(** ** Operations of threads *)

(** One critical section or call.  [ORemoveKey] and [OInsertLocked] are the two critical
    sections of an insertion, [OReplaceLocked] and [OUpdateTimerLocked] the second ones
    of a replacement and of a change of the timer; other threads may run in between, so
    that an entry can be inserted twice.  [OTick] and [OFire] are the timer thread,
    which has the reference of a timer when it calls it. *)
Inductive cop :=
| OLookup (key : dns_cache_key)
| OInsert (key : dns_cache_key) (rcode ttl speed timeout : Z) (d : nat) (now : Z) (malloc_ok : bool)
| ORemoveKey (key : dns_cache_key)
| OInsertLocked (key : dns_cache_key) (rcode ttl speed timeout : Z) (d : nat) (now : Z)
| OReplace (key : dns_cache_key) (rcode ttl speed timeout update_time : Z) (d : option nat) (now : Z)
| OReplaceLocked (e : nat) (rcode ttl speed timeout update_time : Z) (d : option nat) (now : Z)
| OUpdateTimer (key : dns_cache_key) (timeout : Z)
| OUpdateTimerLocked (e : nat) (timeout : Z)
| OGet (e : nat) | ORelease (e : nat) | ODelete (e : nat) | OUpdate (e : nat) | OHitnumDec (e : nat) | OGetTtl (e : nat) (now : Z)
| OGetData (e : nat) | ODataGet (d : nat) | ODataPut (d : nat) | ONewData (p : option (list Z)) (malloc_ok : bool)
| OExpired (e : nat) (act : option tmout_action)
| OFlush | OForeach (now : Z) | OTick | OFire.

(** What the caller has to hold and gives away when the call succeeds. *)
Definition takes (op : cop) : list nat * list nat :=
  match op with
  | OInsert _ _ _ _ _ d _ _ | OInsertLocked _ _ _ _ _ d _ | ODataPut d => ([], [d])
  | OReplace _ _ _ _ _ _ d _ | OReplaceLocked _ _ _ _ _ _ d _ => ([], option_list d)
  | ORelease e | OExpired e _ => ([e], [])
  | _ => ([], [])
  end.

(** The entries and data the call uses, which the caller has to hold too. *)
Definition uses (op : cop) : list nat * list nat :=
  match op with
  | OReplaceLocked e _ _ _ _ _ _ _ | OUpdateTimerLocked e _ | OGet e | ODelete e | OUpdate e | OHitnumDec e | OGetTtl e _ | OGetData e => ([e], [])
  | ODataGet d => ([], [d])
  | _ => ([], [])
  end.

Definition args_ok (op : cop) : Prop :=
  match op with
  | OLookup key | ORemoveKey key => key_ok key
  | OInsert key _ _ _ timeout _ _ _ | OInsertLocked key _ _ _ timeout _ _ | OReplace key _ _ _ timeout _ _ _ | OUpdateTimer key timeout => key_ok key /\ delay_ok timeout
  | OReplaceLocked _ _ _ _ timeout _ _ _ | OUpdateTimerLocked _ timeout => delay_ok timeout
  | _ => True
  end.

Definition retries (act : option tmout_action) : bool :=
  match act with Some ACTION_RETRY | Some ACTION_UPDATE => true | _ => false end.

(** A key has to have a domain and a group. *)
Definition key_fields (key : dns_cache_key) (f : list Z -> Z -> list Z -> Z -> M state unit) : M state unit :=
  match key with mk_key (Some domain) qtype (Some group) flag => f domain qtype group flag | _ => fail end.

(** The calls; they return the references the caller gets. *)
Definition exec (op : cop) : M state (list nat * list nat) :=
  match op with
  | OLookup key => r <- dns_cache_lookup (Some key) ;; ret (option_list r, [])
  | OInsert key rcode ttl speed timeout d now ok => dns_cache_insert (Some key) rcode ttl speed timeout (Some d) now ok ;; ret ([], [])
  | ORemoveKey key => key_fields key (fun domain qtype group flag => _dns_cache_remove_by_domain (copy_field domain DNS_MAX_CNAME_LEN) qtype (copy_field group DNS_GROUP_NAME_LEN) flag) ;; ret ([], [])
  | OInsertLocked key rcode ttl speed timeout d now => key_fields key (fun domain qtype group flag => insert_locked (new_info domain qtype group flag rcode ttl speed timeout now) d timeout) ;; ret ([], [])
  | OReplace key rcode ttl speed timeout u d now => dns_cache_replace (Some key) rcode ttl speed timeout u d now ;; ret ([], [])
  | OReplaceLocked e rcode ttl speed timeout u d now =>
    c <- entry e ;;
    old <- replace_locked e (i_qtype (c_info c)) (i_flag (c_info c)) rcode ttl speed timeout u d now ;; ret ([], option_list old)
  | OUpdateTimer key timeout => dns_cache_update_timer (Some key) timeout ;; ret ([], [])
  | OUpdateTimerLocked e timeout => update_timer_locked e timeout ;; ret ([], [])
  | OGet e => dns_cache_get e ;; ret ([e], [])
  | ORelease e => dns_cache_release (Some e) ;; ret ([], [])
  | ODelete e => dns_cache_delete e ;; ret ([], [])
  | OUpdate e => dns_cache_update e ;; ret ([], [])
  | OHitnumDec e => _ <- dns_cache_hitnum_dec_get e ;; ret ([], [])
  | OGetTtl e now => _ <- dns_cache_get_ttl e now ;; ret ([], [])
  | OGetData e => r <- dns_cache_get_data e ;; ret ([], option_list r)
  | ODataGet d => dns_cache_data_get d ;; ret ([], [d])
  | ODataPut d => dns_cache_data_put (Some d) ;; ret ([], [])
  | ONewData p ok => d <- dns_cache_new_data_packet p ok ;; ret ([], [d])
  | OExpired e act => dns_cache_expired e act ;; ret ([], [])
  | OFlush => dns_cache_flush ;; ret ([], [])
  | OForeach now => _ <- dns_cache_foreach now ;; ret ([], [])
  | OTick =>
    s <- get ;;
    match ts_tick (s_timers s) with Some ts => modify (set_cache_timers ts) ;; ret ([], []) | None => ret ([], []) end
  | OFire =>
    s <- get ;;
    match ts_next (s_timers s) with Some (ts, r) => modify (set_cache_timers ts) ;; ret (option_list r, []) | None => ret ([], []) end
  end.

(** The references that nobody has any more and that are still counted: when the timer of
    the entry is pending again, a retry or an update does not release the reference the
    timer had given to [dns_cache_expired]. *)
Definition loses (op : cop) (s : state) : list nat :=
  match op with OExpired e act => if retries act && ts_pending e (s_timers s) then [e] else [] | _ => [] end.

(** The references held after a call, and those that were lost. *)
Inductive crun : list nat -> list nat -> list nat -> state -> Prop :=
| crun_init size mem_size ts : ts_inv ts -> (forall t, ts_pending t ts = false) -> crun [] [] [] (dns_cache_init size mem_size ts)
| crun_perm H H' DH DH' X s : crun H DH X s -> H ≡ₚ H' -> DH ≡ₚ DH' -> crun H' DH' X s
| crun_ok op H DH X s s' r : crun ((takes op).1 ++ H) ((takes op).2 ++ DH) X s -> (uses op).1 ⊆ H -> (uses op).2 ⊆ DH -> args_ok op ->
  exec op s = Ok s' r -> crun (r.1 ++ H) (r.2 ++ DH) (loses op s ++ X) s'
| crun_fail op H DH X s s' : crun ((takes op).1 ++ H) ((takes op).2 ++ DH) X s -> (uses op).1 ⊆ H -> (uses op).2 ⊆ DH -> args_ok op ->
  exec op s = Fail s' -> crun ((takes op).1 ++ H) ((takes op).2 ++ DH) X s'.

Lemma inv_perm k H H' DH DH' s : cache_inv k H DH s -> H ≡ₚ H' -> DH ≡ₚ DH' -> cache_inv k H' DH' s.
Proof.
  intros [Hts Hnd Hrf Hkn Hha Hda Hen Hnu Hme] HH HD. constructor; try done.
  - eapply counted_ext; [|exact Hrf]. intros x. unfold refs, occ. by rewrite (Permutation_count_occ Nat.eq_dec H H') in HH; rewrite HH.
  - eapply counted_ext; [|exact Hda]. intros x. unfold data_refs, occ. by rewrite (Permutation_count_occ Nat.eq_dec DH DH') in HD; rewrite HD.
Qed.

Lemma init_inv size mem_size ts : ts_inv ts -> (forall t, ts_pending t ts = false) -> cache_inv 0 [] [] (dns_cache_init size mem_size ts).
Proof.
  intros Hts Hp. constructor; cbn; try done.
  - constructor.
  - split; [by intros x a Hx; rewrite lookup_empty in Hx|]. intros x Hx. unfold refs in Hx.
    cbn [dns_cache_init h_list s_timers] in Hx. rewrite Hp, bool_decide_false in Hx by apply not_elem_of_nil. rewrite occ_nil in Hx. cbn [b2z] in Hx. lia.
  - intros e [c Hc]. by rewrite lookup_empty in Hc.
  - intros e i. rewrite lookup_empty. cbn. split; [by intros ?%elem_of_nil|by intros [?%elem_of_nil _]].
Qed.

(** ** Every call keeps the invariant *)

Lemma fire_spec H DH s ts r : good H DH s -> ts_next (s_timers s) = Some (ts, r) ->
  good (option_list r ++ H) DH (set_cache_timers ts s).
Proof.
  intros [Hi Hpl] Hn. pose proof (ts_next_law _ _ _ (ci_timers _ _ _ _ Hi) Hn) as Hl. destruct r as [t|]; [|subst ts; by destruct s].
  destruct Hl as [Hp (Hts'&Hp'&Hkn')]. split.
  2: { intros x Hx. cbn in *. rewrite Hp' in Hx. apply andb_prop in Hx as [_ Hx]. by apply Hpl. }
  destruct Hi as [Hts Hnd Hrf Hkn Hha Hda Hen Hnu Hme]. constructor; try done.
  - eapply counted_ext; [|exact Hrf]. intros x. change (option_list (Some t) ++ H) with (t :: H). rewrite refs_cons. unfold refs. cbn. rewrite Hp'.
    destruct (Nat.eqb_spec x t) as [->|]; cbn; [rewrite Hp; cbn; lia|lia].
  - intros x Hx. by apply Hkn', Hkn.
Qed.

Lemma in_handle k H DH s (l : list nat) e : cache_inv k H DH s -> e ∈ l -> l ⊆ H -> exists c, s_entries s !! e = Some c.
Proof.
  intros Hi He Hs. destruct (refs_live _ _ _ _ e Hi (refs_handle H s e (Hs e He))) as (c&Hc&_). by exists c.
Qed.

(** The calls on one entry that the caller holds. *)
Lemma exec_entry_spec op e H DH s : (uses op).1 = [e] -> takes op = ([], []) \/ (exists d, (takes op).2 = option_list d /\ (takes op).1 = []) ->
  good ((takes op).1 ++ H) ((takes op).2 ++ DH) s -> e ∈ H -> args_ok op ->
  wp (exec op) s (fun s' r => good (r.1 ++ H) (r.2 ++ DH) s') (fun s' => good ((takes op).1 ++ H) ((takes op).2 ++ DH) s').
Proof.
  intros Hu _ Hg He Ha. pose proof Hg as [Hi Hpl].
  destruct (in_handle _ _ _ _ [e] e Hi) as (c&Hc); [left|destruct op; cbn in *; intros ? ->%list_elem_of_singleton; try done; by apply elem_of_app; right|].
  destruct op; try done; injection Hu as ->; cbn [exec takes fst snd app] in *; wp_step.
  - apply (entry_spec e c); [done|]. wp_step. eapply wp_mono; [by apply (replace_locked_spec H DH s e c)| |by intros s' [-> _]].
    intros s' old (Hi'&_&_&_&_&_&Hpl'&_). wp_step. split; [done|auto].
  - eapply wp_mono; [apply (update_timer_locked_spec H DH s e timeout); [done|by eexists|done]| |by intros s' [-> _]]. intros s' _ [? _]. by wp_step.
  - eapply wp_mono; [apply (get_spec 0 H DH s e _ Hi); by eexists| |intros s' Hf; exact Hf]. intros s' _ (?&?&_). wp_step. by eapply step_good.
  - eapply wp_mono; [apply (remove_spec 0 H DH s e _ Hi); by eexists| |intros s' Hf; exact Hf]. intros s' _ [? ?]. wp_step. by eapply step_good.
  - eapply wp_mono; [by apply (update_spec 0 H DH s e c)| |intros s' Hf; exact Hf]. intros s' _ [Hi' Hs']. wp_step. split; [done|].
    destruct Hs' as [[_ ->]|[Hl ->]]; [done|]. intros x Hx. change (x ∈ without e (h_list s) ++ [e]). specialize (Hpl x Hx).
    rewrite elem_of_app, elem_of_without, list_elem_of_singleton. destruct (decide (x = e)); tauto.
  - eapply wp_mono; [by apply (hitnum_dec_spec 0 H DH s e c)| |intros s' Hf; exact Hf]. intros s' r (?&_&Hl&_&Ht). wp_step. split; [done|].
    intros x. rewrite Ht, Hl. apply Hpl.
  - unfold dns_cache_get_ttl. wp_step. apply (entry_spec e c); [done|]. cbv zeta. wp_step. by wp_step.
  - eapply wp_mono; [by apply (get_data_spec 0 H DH s e c)| |intros s' Hf; exact Hf]. intros s' r (d&b&->&_&_&?&?). wp_step. by eapply step_good.
Qed.

Lemma exec_spec op H DH s : good ((takes op).1 ++ H) ((takes op).2 ++ DH) s -> (uses op).1 ⊆ H -> (uses op).2 ⊆ DH -> args_ok op ->
  wp (exec op) s (fun s' r => good (r.1 ++ loses op s ++ H) (r.2 ++ DH) s') (fun s' => good ((takes op).1 ++ H) ((takes op).2 ++ DH) s').
Proof.
  intros Hg Hu1 Hu2 Ha. pose proof Hg as [Hi Hpl]. destruct op as [key|key rcode ttl speed timeout d now ok|key|key rcode ttl speed timeout d now|key rcode ttl speed timeout u d now|e rcode ttl speed timeout u d now|key timeout|e timeout|e|e|e|e|e|e now|e|d|d|p ok|e act| |now| |];
    cbn [loses app]; try (apply (exec_entry_spec _ e H DH s); cbn in *; [done|eauto|done|apply Hu1; left|done]); cbn [exec takes fst snd app args_ok] in *; try wp_step.
  - eapply wp_mono; [by apply (cache_lookup_spec H DH)| |intros s' Hf; exact Hf]. intros s' r (?&?&_). wp_step. by eapply step_good.
  - destruct Ha. eapply wp_mono; [by apply (cache_insert_spec H DH)| |intros s' Hf; exact Hf]. intros s' r ?. by wp_step.
  - destruct Ha as [Hkd Hkg]. destruct key as [[dm|] q [g|] f]; cbn [key_fields]; try by wp_step. cbn in Hkd, Hkg.
    assert (info_ok (new_info dm q g f 0 0 0 0 0)) as Hok by (apply new_info_ok; [done|done|unfold delay_ok; lia]).
    eapply wp_mono; [apply (remove_by_domain_spec 0 H DH s (new_info dm q g f 0 0 0 0 0) _ Hi Hok)| |intros s' Hf; exact Hf]. intros s' _ [Hi' (l&_&Hst)]. wp_step. by eapply step_good.
  - destruct Ha as [[Hkd Hkg] Hd]. destruct key as [[dm|] q [g|] f]; cbn [key_fields]; try by wp_step. cbn in Hkd, Hkg. destruct (proj2 (ci_datas _ _ _ _ Hi) d) as [b Hb].
    { rewrite data_refs_cons, eqb_same. pose proof (data_refs_nonneg DH s d). lia. }
    eapply wp_mono; [apply (insert_locked_spec H DH s _ d b); [done|done|by apply new_info_ok|done]| |intros s' Hf; exact Hf]. intros s' _ (?&_&Hpl'). wp_step. split; [done|auto].
  - destruct Ha. eapply wp_mono; [by apply (cache_replace_spec H DH)| |intros s' Hf; exact Hf]. intros s' r ?. by wp_step.
  - destruct Ha. eapply wp_mono; [by apply (cache_update_timer_spec H DH)| |intros s' Hf; exact Hf]. intros s' r ?. by wp_step.
  - eapply wp_mono; [by apply (release_spec 0 H DH)| |intros s' Hf; exact Hf]. intros s' _ [? ?]. wp_step. by eapply step_good.
  - eapply wp_mono; [apply (take_data_spec 0 H DH s d _ Hi)| |intros s' Hf; exact Hf]; [|intros s' _ [? ?]; wp_step; by eapply step_good].
    unfold data_refs. pose proof (map_sum_nonneg (owner_of d) (s_entries s) (fun a => proj1 (b2z_range _))).
    pose proof (proj1 (occ_in d DH) (Hu2 d ltac:(left))). lia.
  - eapply wp_mono; [by apply (put_spec 0 H DH)| |intros s' Hf; exact Hf]. intros s' _ [? ?]. wp_step. by eapply step_good.
  - eapply wp_mono; [by apply (new_data_spec 0 H DH)| |by intros s' [-> _]]. intros s' d (?&_&Hl&_&Ht&_). wp_step. split; [done|]. intros x. rewrite Hl, Ht. apply Hpl.
  - eapply wp_mono; [by apply (expired_spec H DH s e act)| |intros s' Hf; exact Hf]. intros s' _ (Hi'&_&_&Hpl'&_). wp_step.
    split; [|auto]. cbn [fst snd app]. destruct act as [[]|]; cbn [retries andb app]; try done; by destruct (ts_pending e (s_timers s)).
  - eapply wp_mono; [by apply (flush_spec 0 H DH)| |intros s' Hf; exact Hf]. intros s' _ [? ?]. wp_step. by eapply step_good.
  - unfold dns_cache_foreach. wp_step. wp_step. wp_step. wp_step; [|done].
    eapply wp_mono; [by apply (foreach_spec H DH)| |intros s' Hf; exact Hf]. intros s' r (?&?&_). wp_step. by eapply step_good.
  - wp_step. destruct (ts_tick (s_timers s)) as [ts|] eqn:Et; [|by wp_step]. do 3 wp_step.
    pose proof (ts_tick_law _ _ (ci_timers _ _ _ _ Hi) Et) as Hup. split; [by apply timers_inv|].
    intros x Hx. cbn in *. rewrite (proj1 (proj2 Hup)) in Hx. by apply Hpl.
  - wp_step. destruct (ts_next (s_timers s)) as [[ts r]|] eqn:En; [|by wp_step]. do 3 wp_step. by apply fire_spec.
Qed.

(** What is lost is counted like what is held. *)
Lemma crun_good H DH X s : crun H DH X s -> good (H ++ X) DH s.
Proof.
  induction 1 as [size mem_size ts Hts Hp|H H' DH DH' X s _ IH HH HD|op H DH X s s' r _ IH Hu1 Hu2 Ha He|op H DH X s s' _ IH Hu1 Hu2 Ha He].
  - split; [by apply init_inv|]. intros x Hx. cbn in Hx. by rewrite Hp in Hx.
  - destruct IH. split; [eapply inv_perm; [done|by rewrite HH|done]|done].
  - rewrite <- app_assoc in IH. pose proof (wp_ok_inv _ _ _ _ _ _ (exec_spec op (H ++ X) DH s IH ltac:(set_solver) Hu2 Ha) He) as [Hi Hpl]. split; [|done]. eapply inv_perm; [exact Hi| |done]. rewrite <- app_assoc. apply Permutation_app_head. rewrite !app_assoc. apply Permutation_app_tail, Permutation_app_comm.
  - rewrite <- app_assoc in *. exact (wp_fail_inv _ _ _ _ _ (exec_spec op (H ++ X) DH s IH ltac:(set_solver) Hu2 Ha) He).
Qed.

End CacheMachine.
