(* ===== verification/DnsCacheLru.v ===== *)
(** * The DNS cache is an LRU cache (src/dns_cache.c)

    The abstract cache is a list of entries, the oldest first, with one entry
    per key; names are compared without regard to letter case.  A caller that
    inserts, replaces, reads and removes entries and gives back what it got
    cannot tell the cache from the abstract one. *)

From Stdlib Require Import ZArith Lia.
From stdpp Require Import base list numbers option gmap.
From S2P Require Import Prelude DnsTypes DnsUpdate TimerWheelOps Timer Counting DnsCache DnsCacheSpec DnsCacheRefs DnsCacheOps DnsCacheUpdate DnsCacheMachine.

(** ** The abstract cache *)

#[local] Abbreviation item := (dns_cache_info * list Z)%type.

Definition lru_key : Type := list Z * Z * list Z * Z.
Definition key_of (i : dns_cache_info) : lru_key := (tolower <$> i_domain i, i_qtype i, i_group i, i_flag i).

Definition lru_remove (k : lru_key) (v : list item) : list item := filter (fun x => key_of x.1 <> k) v.
Definition lru_find (k : lru_key) (v : list item) : option item := head (filter (fun x => key_of x.1 = k) v).

(** The new entry replaces one with its key; the oldest go when there are too
    many. *)
Definition lru_insert (size : Z) (x : item) (v : list item) : list item :=
  let v := lru_remove (key_of x.1) v in drop (S (length v) - Z.to_nat size) v ++ [x].

(** The entry changes and becomes the youngest. *)
Definition lru_change (k : lru_key) (f : item -> item) (v : list item) : list item :=
  match lru_find k v with Some x => lru_remove k v ++ [f x] | None => v end.

Lemma lru_remove_absent k v : (forall x, x ∈ v -> key_of x.1 <> k) -> lru_remove k v = v.
Proof.
  intros Hv. induction v as [|x v IH]; [done|]. unfold lru_remove. rewrite filter_cons_True by (apply Hv; left). f_equal. apply IH.
  intros y Hy. apply Hv. by right.
Qed.

Lemma lru_find_absent k v : (forall x, x ∈ v -> key_of x.1 <> k) -> lru_find k v = None.
Proof.
  intros Hv. unfold lru_find. induction v as [|x v IH]; [done|]. rewrite filter_cons_False by (intros Hx; apply (Hv x ltac:(left) Hx)). apply IH.
  intros y Hy. apply Hv. by right.
Qed.

Lemma lru_found k v x : lru_find k v = Some x -> x ∈ v /\ key_of x.1 = k.
Proof. intros Hx. apply head_Some_elem_of, list_elem_of_filter in Hx. by destruct Hx. Qed.

Definition keys (v : list item) : list lru_key := (fun x => key_of x.1) <$> v.

Lemma lru_find_in x v : NoDup (keys v) -> x ∈ v -> lru_find (key_of x.1) v = Some x.
Proof.
  unfold lru_find. induction v as [|y v IH]; intros Hnd Hx; [by apply elem_of_nil in Hx|]. cbn in Hnd. apply NoDup_cons in Hnd as [Hn Hnd].
  apply elem_of_cons in Hx as [->|Hx]; [by rewrite filter_cons_True|]. rewrite filter_cons_False; [by apply IH|].
  intros He. apply Hn. rewrite He. apply list_elem_of_fmap. by exists x.
Qed.

Lemma lru_remove_keys k v : NoDup (keys v) -> NoDup (keys (lru_remove k v)) /\ k ∉ keys (lru_remove k v).
Proof.
  intros Hnd. split.
  - induction v as [|x v IH]; [done|]. cbn in Hnd. apply NoDup_cons in Hnd as [Hn Hnd]. unfold lru_remove. rewrite filter_cons.
    destruct (decide _); [|by apply IH]. cbn. apply NoDup_cons. split; [|by apply IH]. intros (y&Hy&Hin)%list_elem_of_fmap.
    apply list_elem_of_filter in Hin as [_ Hin]. apply Hn. rewrite Hy. apply list_elem_of_fmap. by exists y.
  - intros (x&->&[Hx _]%list_elem_of_filter)%list_elem_of_fmap. done.
Qed.

Lemma lru_insert_keys size x v : NoDup (keys v) -> NoDup (keys (lru_insert size x v)).
Proof.
  intros Hnd. destruct (lru_remove_keys (key_of x.1) v Hnd) as [Hnd' Hk]. unfold lru_insert, keys in *. rewrite fmap_app. apply NoDup_app.
  set (n := (S _ - _)%nat). rewrite <- (take_drop n (lru_remove _ _)), fmap_app in Hnd', Hk.
  split_and!; [by apply NoDup_app in Hnd' as (_&_&?)| |apply NoDup_singleton].
  intros y Hy ->%list_elem_of_singleton. apply Hk, elem_of_app. by right.
Qed.

Lemma lru_change_keys k f v : NoDup (keys v) -> (forall x, x ∈ v -> key_of (f x).1 = key_of x.1) -> NoDup (keys (lru_change k f v)).
Proof.
  intros Hnd Hf. unfold lru_change. destruct (lru_find k v) as [x|] eqn:Ef; [|done]. destruct (lru_remove_keys k v Hnd) as [Hnd' Hk].
  unfold keys in *. rewrite fmap_app. apply NoDup_app. split_and!; [done| |apply NoDup_singleton].
  destruct (lru_found _ _ _ Ef) as [Hx Hxk].
  intros y Hy ->%list_elem_of_singleton. apply Hk. by rewrite (Hf x Hx), Hxk in Hy.
Qed.

Lemma lru_remove_len k v : (length (lru_remove k v) <= length v)%nat.
Proof. apply length_filter. Qed.

Lemma lru_change_len k f v : NoDup (keys v) -> length (lru_change k f v) = length v.
Proof.
  intros Hnd. unfold lru_change. destruct (lru_find k v) as [x|] eqn:Ef; [|done]. rewrite length_app. cbn.
  destruct (lru_found _ _ _ Ef) as [Hx <-].
  clear Ef. induction v as [|y v IH]; [by apply elem_of_nil in Hx|]. cbn in Hnd. apply NoDup_cons in Hnd as [Hn Hnd].
  unfold lru_remove. rewrite filter_cons. destruct (decide _) as [Hne|He].
  - apply elem_of_cons in Hx as [->|Hx]; [done|]. cbn. f_equal. by apply IH.
  - apply dec_stable in He. change (filter _ v) with (lru_remove (key_of x.1) v). rewrite lru_remove_absent; [cbn; lia|].
    intros z Hz Hk. apply Hn. rewrite He, <- Hk. apply list_elem_of_fmap. by exists z.
Qed.

(** ** The cache as such a list *)

Section CacheLru.
Context {T : Type} `{TS : !TimerService T} `{!TimerLaws T}.
#[local] Abbreviation state := (@cache_state T).
Implicit Types (s : state) (H DH : list nat) (v : list item).

Definition view s : list item := omap (content s) (h_list s).

Lemma matches_key domain qtype group flag i : cstring domain -> cstring group -> info_ok i ->
  key_matches domain qtype group flag i = true <-> key_of i = (tolower <$> domain, qtype, group, flag).
Proof.
  intros Hd Hg (Hl&Hdi&Hlg&Hgi&_). unfold key_matches, key_of, strncasecmp_eq, strncmp_eq. split.
  - intros Hm. bools. repeat match goal with H : bool_decide _ = true |- _ => apply bool_decide_eq_true_1 in H end.
    assert (tolower <$> domain = tolower <$> i_domain i) as <-.
    { eapply take_cstring; [done|done| |apply tolower_zero|eassumption]. unfold Zlen, DNS_MAX_CNAME_LEN in *. lia. }
    assert (group = i_group i) as <-; [|by subst].
    rewrite <- (list_fmap_id group), <- (list_fmap_id (i_group i)). eapply (take_cstring (Z.to_nat DNS_GROUP_NAME_LEN) _ _ Hg Hgi); [|done|by f_equal].
    unfold Zlen, DNS_GROUP_NAME_LEN in *. lia.
  - intros [= Hd' -> -> ->]. rewrite !Z.eqb_refl, (bool_decide_true (take _ (group ++ _) = _)) by done. cbn -[take]. rewrite !andb_true_r.
    apply bool_decide_true. by rewrite !fmap_take, !fmap_app, Hd'.
Qed.

Lemma omap_without (c : nat -> option item) e x (l : list nat) : NoDup l -> NoDup (keys (omap c l)) -> e ∈ l -> c e = Some x ->
  omap c (without e l) = lru_remove (key_of x.1) (omap c l).
Proof.
  intros Hl Hk He Hx. induction l as [|y l IH]; [by apply elem_of_nil in He|]. apply NoDup_cons in Hl as [Hn Hl].
  destruct (decide (y = e)) as [->|Hne].
  - rewrite without_head by (by apply NoDup_cons). cbn in Hk |- *. rewrite Hx in Hk |- *. cbn in Hk. apply NoDup_cons in Hk as [Hkn _].
    unfold lru_remove. rewrite filter_cons_False by (intros Hc; by apply Hc). symmetry. apply lru_remove_absent.
    intros z Hz Hkz. apply Hkn. rewrite <- Hkz. apply list_elem_of_fmap. by exists z.
  - apply elem_of_cons in He as [->|He]; [done|]. unfold without. rewrite filter_cons_True by done. cbn in Hk |- *.
    destruct (c y) as [z|]; [|by apply IH]. cbn in Hk. apply NoDup_cons in Hk as [Hkn Hk]. unfold lru_remove. rewrite filter_cons_True.
    + f_equal. by apply IH.
    + intros Hz. apply Hkn. rewrite Hz. apply list_elem_of_fmap. exists x. split; [done|]. apply list_elem_of_omap. by exists e.
Qed.

Lemma omap_same (c c' : nat -> option item) (l : list nat) : (forall x, x ∈ l -> c' x = c x) -> omap c' l = omap c l.
Proof.
  induction l as [|x l IH]; intros Hc; [done|]. cbn. rewrite (Hc x ltac:(left)), IH; [done|]. intros y Hy. apply Hc. by right.
Qed.

Lemma step_view k H DH l s s' : cache_inv k H DH s' -> cache_step l s s' -> view s' = omap (content s) l.
Proof.
  intros Hi (_&Hl&Hek&Hbk&_&_). unfold view. rewrite Hl. apply omap_same. intros x Hx. rewrite <- Hl in Hx.
  destruct (list_content _ _ _ _ _ Hi Hx) as (c&Hc&_). apply (kept_content k H DH); [done..|by eexists].
Qed.

Lemma view_len k H DH s : cache_inv k H DH s -> length (view s) = length (h_list s).
Proof.
  intros Hi. unfold view. assert (forall x, x ∈ h_list s -> is_Some (content s x)) as Hs by (intros x Hx; by destruct (list_content _ _ _ _ _ Hi Hx) as (c&_&?)).
  induction (h_list s) as [|x l IH]; [done|]. cbn. destruct (Hs x ltac:(left)) as [y ->]. cbn. rewrite IH; [done|]. intros z Hz. apply Hs. by right.
Qed.

(** The content of a listed entry. *)
Lemma listed_content k H DH s e c : cache_inv k H DH s -> s_entries s !! e = Some c -> exists b, content s e = Some (c_info c, b).
Proof. intros Hi Hc. destruct (content_some _ _ _ _ _ _ Hi Hc) as (d&b&_&_&_&?). by eexists. Qed.

(** ** The callers *)

(** A caller inserts a packet, replaces the entry of a key, reads an entry, that
    is it looks it up, takes its data and tells the cache, or removes it; it gives
    back every reference it got. *)
Inductive lop :=
| LInsert (domain : list Z) (qtype : Z) (group : list Z) (flag rcode ttl speed timeout : Z) (packet : list Z) (now : Z)
| LReplace (domain : list Z) (qtype : Z) (group : list Z) (flag rcode ttl speed timeout update_time : Z) (packet : list Z) (now : Z)
| LRead (domain : list Z) (qtype : Z) (group : list Z) (flag : Z)
| LDelete (domain : list Z) (qtype : Z) (group : list Z) (flag : Z)
| LFlush.

Definition full_key domain qtype group flag : option dns_cache_key := Some (mk_key (Some domain) qtype (Some group) flag).

(** A caller uses the entry it found and releases it. *)
Definition with_entry {A} domain qtype group flag (f : nat -> M state A) : M state (option A) :=
  found <- dns_cache_lookup (full_key domain qtype group flag) ;;
  match found with
  | Some e => r <- f e ;; dns_cache_release (Some e) ;; ret (Some r)
  | None => ret None
  end.

(** The information and the data of the entry. *)
Definition read_entry (e : nat) : M state item :=
  c <- entry e ;;
  d <- dns_cache_get_data e ;;
  match d with
  | Some d => b <- data_at d ;; dns_cache_update e ;; dns_cache_data_put (Some d) ;; ret (c_info c, d_bytes b)
  | None => fail
  end.

Definition lexec (op : lop) : M state (option item) :=
  match op with
  | LInsert domain qtype group flag rcode ttl speed timeout packet now =>
    d <- dns_cache_new_data_packet (Some packet) true ;;
    dns_cache_insert (full_key domain qtype group flag) rcode ttl speed timeout (Some d) now true ;; ret None
  | LReplace domain qtype group flag rcode ttl speed timeout update_time packet now =>
    d <- dns_cache_new_data_packet (Some packet) true ;;
    r <- try (dns_cache_replace (full_key domain qtype group flag) rcode ttl speed timeout update_time (Some d) now) ;;
    match r with
    | Some _ => ret None
    | None => dns_cache_data_put (Some d) ;; ret None
    end
  | LRead domain qtype group flag => with_entry domain qtype group flag read_entry
  | LDelete domain qtype group flag => _ <- with_entry domain qtype group flag dns_cache_delete ;; ret None
  | LFlush => dns_cache_flush ;; ret None
  end.

(** What it does to the abstract cache, and what it returns. *)
Definition lru_step (size : Z) (op : lop) (v : list item) : list item * option item :=
  match op with
  | LInsert domain qtype group flag rcode ttl speed timeout packet now =>
    (lru_insert size (new_info domain qtype group flag rcode ttl speed timeout now, packet) v, None)
  | LReplace domain qtype group flag rcode ttl speed timeout update_time packet now =>
    (lru_change (tolower <$> domain, qtype, group, flag)
      (fun x => (replaced_info x.1 rcode ttl speed timeout update_time now, packet)) v, None)
  | LRead domain qtype group flag =>
    let k := (tolower <$> domain, qtype, group, flag) in (lru_change k (fun x => (hit_info x.1, x.2)) v, lru_find k v)
  | LDelete domain qtype group flag => (lru_remove (tolower <$> domain, qtype, group, flag) v, None)
  | LFlush => ([], None)
  end.

Definition lop_ok (op : lop) : Prop :=
  match op with
  | LInsert d _ g _ _ _ _ timeout packet _ | LReplace d _ g _ _ _ _ timeout _ packet _ => cstring d /\ cstring g /\ delay_ok timeout /\ packet <> []
  | LRead d _ g _ | LDelete d _ g _ => cstring d /\ cstring g
  | LFlush => True
  end.

(** The cache and the abstract one; nobody holds a reference. *)
Definition lru_sim (size : Z) s v : Prop :=
  good [] [] s /\ view s = v /\ NoDup (keys v) /\ Zlen v <= size /\
  0 < h_size s /\ h_size s = size /\ h_max_mem_size s <= 0 /\ _dns_cache_is_ready s = true.

Lemma init_sim size ts : 0 < size -> ts_inv ts -> (forall t, ts_pending t ts = false) -> lru_sim size (dns_cache_init size 0 ts) [].
Proof.
  intros Hs Hts Hp. split_and!; try done; [split; [by apply init_inv|]; intros x Hx; cbn in Hx; by rewrite Hp in Hx|apply NoDup_nil_2|unfold Zlen; cbn; lia|].
  unfold _dns_cache_is_ready, dns_cache_init. cbn [h_init h_bits]. destruct (20 <=? _); [done|]. destruct (ilog2 size - 1 <? 12) eqn:E; [done|].
  cbn. apply Z.ltb_lt. bools. lia.
Qed.

(** ** Each call *)

Lemma omap_len (c : nat -> option item) (l : list nat) : (forall x, x ∈ l -> is_Some (c x)) -> length (omap c l) = length l.
Proof.
  intros Hs. induction l as [|x l IH]; [done|]. cbn. destruct (Hs x ltac:(left)) as [y ->]. cbn. rewrite IH; [done|]. intros z Hz. apply Hs. by right.
Qed.

Lemma omap_drop (c : nat -> option item) (l : list nat) m : (forall x, x ∈ l -> is_Some (c x)) -> omap c (drop m l) = drop m (omap c l).
Proof.
  revert l. induction m as [|m IH]; intros l Hs; [by rewrite !drop_0|]. destruct l as [|x l]; [done|]. cbn. destruct (Hs x ltac:(left)) as [y ->].
  cbn. apply IH. intros z Hz. apply Hs. by right.
Qed.

Lemma sim_intro size s s' v v' : lru_sim size s v -> good [] [] s' -> view s' = v' -> same_config s s' -> NoDup (keys v') -> Zlen v' <= size ->
  lru_sim size s' v'.
Proof.
  intros (_&_&_&_&Hs&Hsz&Hm&Hr) Hg Hv (Hi&Hb&Hs'&Hm') Hk Hl. unfold lru_sim, _dns_cache_is_ready in *. rewrite Hi, Hb, Hs', Hm'. by split_and!.
Qed.

(** The key of an entry is not in the cache, or it is that of one entry. *)
Lemma view_absent k H DH s domain qtype group flag : cache_inv k H DH s -> cstring domain -> cstring group ->
  (forall e c, e ∈ h_list s -> s_entries s !! e = Some c -> key_matches domain qtype group flag (c_info c) = false) ->
  forall x, x ∈ view s -> key_of x.1 <> (tolower <$> domain, qtype, group, flag).
Proof.
  intros Hi Hd Hg Hn [i b] (e&He&Hct)%list_elem_of_omap Hk. destruct (list_content _ _ _ _ _ Hi He) as (c&Hc&_).
  destruct (listed_content _ _ _ _ _ _ Hi Hc) as [b' Hct']. rewrite Hct in Hct'. injection Hct' as -> ->. cbn [fst] in Hk.
  apply (matches_key domain qtype group flag) in Hk; [|done|done|by eapply ci_entry]. by rewrite (Hn e c He Hc) in Hk.
Qed.

Lemma view_found k H DH s e c : cache_inv k H DH s -> NoDup (keys (view s)) -> e ∈ h_list s -> s_entries s !! e = Some c ->
  exists b, content s e = Some (c_info c, b) /\ lru_find (key_of (c_info c)) (view s) = Some (c_info c, b) /\
    omap (content s) (without e (h_list s)) = lru_remove (key_of (c_info c)) (view s).
Proof.
  intros Hi Hnd He Hc. destruct (listed_content _ _ _ _ _ _ Hi Hc) as [b Hb]. exists b. split_and!; [done| |].
  - apply (lru_find_in (c_info c, b)); [done|]. apply list_elem_of_omap. by exists e.
  - apply (omap_without (content s) e (c_info c, b)); [by eapply ci_nodup|done..].
Qed.

Lemma removed_key_view k H DH s i l : cache_inv k H DH s -> NoDup (keys (view s)) -> info_ok i -> removed_key i s l ->
  omap (content s) l = lru_remove (key_of i) (view s).
Proof.
  intros Hi Hnd (?&Hd&?&Hg&_) [[-> Hn]|(e&c&He&Hc&Hm&->)].
  - symmetry. apply lru_remove_absent. by eapply view_absent.
  - destruct (view_found _ _ _ _ _ _ Hi Hnd He Hc) as (b&_&_&->). f_equal.
    apply matches_key in Hm; [done..|]. by eapply ci_entry.
Qed.

Lemma content_mono s s' x : is_Some (content s x) -> s_entries s' = s_entries s -> s_datas s ⊆ s_datas s' -> content s' x = content s x.
Proof.
  intros [y Hy] He Hd. rewrite Hy. unfold content in *. rewrite He. destruct (s_entries s !! x) as [c|]; [|done]. cbn in *.
  destruct (c_data c) as [d|]; [|done]. cbn in *. destruct (s_datas s !! d) as [b|] eqn:Eb; [|done]. by rewrite (lookup_weaken _ _ _ _ Eb Hd).
Qed.

(** A new piece of data. *)
Lemma new_packet_spec size s v packet : lru_sim size s v -> packet <> [] ->
  wp (dns_cache_new_data_packet (Some packet) true) s
    (fun s' d => good [] [d] s' /\ view s' = v /\ same_config s s' /\ exists b, s_datas s' !! d = Some b /\ d_bytes b = packet) (fun _ => False).
Proof.
  intros ([Hi Hpl]&Hv&_) Hp. eapply wp_mono; [by apply (new_data_spec 0 [] [])| |by intros s' [_ [?|?]]].
  intros s1 d (Hi1&Hcf&Hl&He&Ht&(p&[= <-]&Hb)&Hds). split_and!; [split; [done|]| |done|].
  - intros x. rewrite Ht, Hl. apply Hpl.
  - rewrite <- Hv. unfold view. rewrite Hl. apply omap_same. intros x Hx. apply content_mono; [|done..].
    by destruct (list_content _ _ _ _ _ Hi Hx) as (c&_&?).
  - destruct (s_datas s1 !! d) as [b|]; [|done]. exists b. by injection Hb.
Qed.

Lemma insert_view_at size s s' DH v i bytes : good [] DH s -> view s = v -> NoDup (keys v) -> Zlen v <= size -> 0 < h_size s -> h_size s = size ->
  h_max_mem_size s <= 0 -> info_ok i -> inserted [] i bytes s s' -> view s' = lru_insert size (i, bytes) v.
Proof.
  intros [Hi Hpl] Hv Hnd Hlen Hs Hsz Hm Hok (_&e&l&m&Hrm&Hne&Hl2&Hce&Hct&Hcount).
  assert (forall x, x ∈ l -> is_Some (content s x)) as Hall.
  { intros x Hx. by destruct (list_content _ _ _ _ x Hi (removed_key_sub _ _ _ _ Hrm Hx)) as (c&_&?). }
  specialize (Hcount eq_refl Hpl Hm Hs). rewrite <- Hv in Hnd.
  pose proof (removed_key_view _ _ _ _ _ _ Hi Hnd Hok Hrm) as Hrv. rewrite Hv in Hrv.
  unfold view, lru_insert. cbn [fst]. rewrite Hl2, omap_app, (omap_same (content s) _ (drop m l)) by done.
  rewrite (omap_drop (content s) l m Hall), Hrv. cbn. rewrite Hce. cbn. do 2 f_equal.
  pose proof (omap_len _ _ Hall) as Hln. rewrite Hrv in Hln. pose proof (lru_remove_len (key_of i) v). unfold Zlen in *. rewrite Hln in *. lia.
Qed.

Lemma lru_insert_len size x v : 0 < size -> Zlen (lru_insert size x v) <= size.
Proof. intros Hs. unfold lru_insert, Zlen. rewrite length_app, length_drop. cbn. lia. Qed.

Lemma insert_sim size s v domain qtype group flag rcode ttl speed timeout packet now :
  let op := LInsert domain qtype group flag rcode ttl speed timeout packet now in
  lru_sim size s v -> lop_ok op -> wp (lexec op) s (fun s' r => lru_sim size s' (lru_step size op v).1 /\ r = (lru_step size op v).2) (fun _ => False).
Proof.
  intros op Hsim (Hd&Hg&Ht&Hp). cbn [op lexec lru_step fst snd]. wp_step. eapply wp_mono; [by apply (new_packet_spec size s v)| |done].
  intros s1 d (Hg1&Hv1&Hcf1&b&Hb&<-). pose proof (new_info_ok domain qtype group flag rcode ttl speed timeout now Hd Hg Ht) as Hok.
  pose proof Hsim as (_&_&Hnd&_&Hs&Hsz&_). wp_step. unfold dns_cache_insert, full_key. wp_step. wp_step. wp_step.
  { destruct Hcf1 as (_&_&Hs1&_). lia. }
  eapply wp_mono; [apply (insert_spec [] [] s1 _ d b); [apply Hg1|done..]| |by intros s' [? _]].
  intros s2 _ (Hi2&Hins&Hpl2). wp_step. split; [|done]. eapply sim_intro; [exact Hsim|split; [done|apply Hpl2, Hg1]| | | |].
  - destruct Hsim as (_&_&_&Hlen&_&_&Hm&_). destruct Hcf1 as (_&_&Hs1&Hm1). eapply (insert_view_at size s1); [done..| | | | |done]; rewrite ?Hs1, ?Hm1; done.
  - eapply same_config_trans; [exact Hcf1|]. apply Hins.
  - by apply lru_insert_keys.
  - apply lru_insert_len. lia.
Qed.

(** The entry a lookup found. *)
Lemma found_entry DH s s1 e c0 domain qtype group flag : let k := (tolower <$> domain, qtype, group, flag) in
  cache_inv 0 [] DH s -> cache_inv 0 [e] DH s1 -> cache_step (h_list s) s s1 -> cstring domain -> cstring group -> NoDup (keys (view s)) ->
  e ∈ h_list s -> s_entries s !! e = Some c0 -> key_matches domain qtype group flag (c_info c0) = true ->
  view s1 = view s /\ e ∈ h_list s1 /\ exists c b, s_entries s1 !! e = Some c /\ key_of (c_info c) = k /\ content s1 e = Some (c_info c, b) /\
    lru_find k (view s) = Some (c_info c, b) /\ omap (content s1) (without e (h_list s1)) = lru_remove k (view s).
Proof.
  intros k Hi Hi1 Hst1 Hd Hg Hnd He Hc0 Hm. pose proof (step_view _ _ _ _ _ _ Hi1 Hst1 : view s1 = view s) as Hv1.
  destruct (refs_live _ _ _ _ e Hi1 (refs_handle _ _ _ ltac:(left))) as (c&Hc&_). destruct Hst1 as (_&Hl1&Hek1&_).
  destruct (Hek1 e c Hc) as (c0'&Hc0'&Hci&_). rewrite Hc0 in Hc0'. injection Hc0' as <-.
  assert (key_of (c_info c) = k) as Hk.
  { rewrite Hci. apply (matches_key domain qtype group flag); [done|done|exact (proj2 (ci_entry _ _ _ _ Hi e c0 Hc0))|exact Hm]. }
  rewrite <- Hl1 in He. rewrite <- Hv1 in Hnd. destruct (view_found _ _ _ _ _ _ Hi1 Hnd He Hc) as (b&Hb&Hfd&Hrm). rewrite Hk, Hv1 in *.
  split_and!; [done|done|]. exists c, b. by split_and!.
Qed.

(** A caller that finds the entry of a key and works on it. *)
Lemma with_entry_spec {A} size s v domain qtype group flag (f : nat -> M state A) (v' : item -> list item) (r : item -> A) :
  let k := (tolower <$> domain, qtype, group, flag) in
  lru_sim size s v -> cstring domain -> cstring group ->
  (forall e c b s1, good [e] [] s1 -> view s1 = v -> e ∈ h_list s1 -> s_entries s1 !! e = Some c -> content s1 e = Some (c_info c, b) ->
    lru_find k v = Some (c_info c, b) -> omap (content s1) (without e (h_list s1)) = lru_remove k v ->
    wp (f e) s1 (fun s2 a => good [e] [] s2 /\ same_config s1 s2 /\ view s2 = v' (c_info c, b) /\ a = r (c_info c, b)) (fun _ => False)) ->
  wp (with_entry domain qtype group flag f) s (fun s' o => good [] [] s' /\ same_config s s' /\ o = r <$> lru_find k v /\
    view s' = match lru_find k v with Some x => v' x | None => v end) (fun _ => False).
Proof.
  intros k Hsim Hd Hg Hf. pose proof Hsim as (Hgd&Hv&Hnd&_&Hs&Hsz&_&Hr). pose proof Hgd as [Hi Hpl]. unfold with_entry. wp_step.
  eapply wp_mono; [apply (cache_lookup_spec [] [] s (mk_key (Some domain) qtype (Some group) flag) _ Hi); by split| |intros s' Hx; exact Hx].
  intros s1 [e|] (Hi1&Hst1&Ho); cbn [option_list app] in Hi1.
  2: { wp_step. rewrite (lru_find_absent k v); [|rewrite <- Hv; eapply view_absent; [done..|by apply Ho]]. split_and!; [|apply Hst1|done|].
       - by eapply (step_good [] [] _ s).
       - rewrite <- Hv. by eapply step_view. }
  destruct Ho as (He&c0&Hc0&Hm). assert (good [e] [] s1) as Hg1 by (by eapply step_good). rewrite <- Hv in Hnd.
  destruct (found_entry [] s s1 e c0 domain qtype group flag) as (Hv1&He1&c&b&Hc&Hk&Hb&Hfd&Hrm); [done..|]. fold k in Hfd, Hrm. rewrite Hv in Hv1, Hfd, Hrm.
  pose proof Hst1 as (Hcf1&_).
  rewrite Hfd. wp_step. eapply wp_mono; [by apply (Hf e c b s1)| |done]. intros s2 a ([Hi2 Hpl2]&Hcf2&Hv2&->). wp_step.
  eapply wp_mono; [by apply (release_spec 0 [] [])| |intros s' Hx; exact Hx]. intros s3 _ [Hi3 Hst3]. wp_step. split_and!; [|by eapply same_config_trans; [|eapply same_config_trans; [|apply Hst3]]|done|].
  - by eapply (step_good [e] [] _ s2).
  - rewrite <- Hv2. by eapply step_view.
Qed.

Lemma change_sim size s s' v k f : lru_sim size s v -> good [] [] s' -> same_config s s' -> view s' = lru_change k f v ->
  (forall x, x ∈ v -> key_of (f x).1 = key_of x.1) -> lru_sim size s' (lru_change k f v).
Proof.
  intros Hsim Hg Hcf Hv Hf. pose proof Hsim as (_&_&Hnd&Hl&_). eapply sim_intro; [done..|by apply lru_change_keys|].
  unfold Zlen. by rewrite lru_change_len.
Qed.

(** The entry [e] has got the content [x] and has become the youngest. *)
Lemma moved_view s s' e x l : h_list s' = l ++ [e] -> (forall y, y ∈ l -> content s' y = content s y) -> content s' e = Some x ->
  view s' = omap (content s) l ++ [x].
Proof. intros Hl Hct Hx. unfold view. rewrite Hl, omap_app, (omap_same (content s) _ l) by done. cbn. by rewrite Hx. Qed.

Lemma read_entry_spec s e c b k v : good [e] [] s -> e ∈ h_list s -> s_entries s !! e = Some c -> content s e = Some (c_info c, b) ->
  omap (content s) (without e (h_list s)) = lru_remove k v ->
  wp (read_entry e) s (fun s' a => good [e] [] s' /\ same_config s s' /\ view s' = lru_remove k v ++ [(hit_info (c_info c), b)] /\ a = (c_info c, b)) (fun _ => False).
Proof.
  intros Hgd He Hc Hb Hrm. pose proof Hgd as [Hi Hpl]. unfold read_entry. wp_step. apply (entry_spec e c); [done|]. wp_step.
  eapply wp_mono; [by apply (get_data_spec 0 [e] [] s e c)| |intros s' Hx; exact Hx]. intros s1 r (d&b'&->&Hb'&Hd&Hi1&Hst1).
  rewrite Hb in Hb'. injection Hb' as <-. destruct (s_datas s1 !! d) as [bd|] eqn:Ebd; [|done]. injection Hd as <-.
  wp_step. apply (data_at_spec d bd); [done|]. wp_step. pose proof (step_view _ _ _ _ _ _ Hi1 Hst1) as Hv1.
  pose proof (step_listed _ _ _ Hst1 Hpl) as Hpl1. destruct (refs_live _ _ _ _ e Hi1 (refs_handle _ _ _ ltac:(left))) as (c1&Hc1&_).
  pose proof Hst1 as (Hcf1&Hl1&Hek1&Hbk1&_). destruct (Hek1 e c1 Hc1) as (c'&Hc'&Hci&Hcd). rewrite Hc in Hc'. injection Hc' as <-.
  eapply wp_mono; [by apply (update_spec 0 [e] [d] s1 e c1)| |intros s' Hx; exact Hx]. intros s2 _ [Hi2 [[Hn _]|[_ Hs2]]]; [by rewrite Hl1 in Hn|].
  wp_step. eapply wp_mono; [by apply (put_spec 0 [e] [] s2 d)| |intros s' Hx; exact Hx]. intros s3 _ [Hi3 Hst3]. wp_step.
  assert (good [e] [d] s2) as Hg2. { split; [done|]. subst s2. intros x Hx. change (x ∈ without e (h_list s1) ++ [e]). specialize (Hpl1 x Hx).
    rewrite elem_of_app, elem_of_without, list_elem_of_singleton. destruct (decide (x = e)); tauto. }
  split_and!; [by eapply (step_good [e] [d] _ s2)| | |done].
  { eapply same_config_trans; [exact Hcf1|]. eapply same_config_trans; [|apply Hst3]. by rewrite Hs2. }
  rewrite (step_view _ _ _ _ _ _ Hi3 Hst3), <- Hrm, <- Hl1. change (omap (content s2) (h_list s2)) with (view s2).
  assert (forall x, is_Some (s_entries s1 !! x) -> content s1 x = content s x) as Hkc1 by (intros; by apply (kept_content 0 [e] [d])).
  rewrite (moved_view s s2 e (hit_info (c_info c), d_bytes bd) (without e (h_list s1))); [done|by rewrite Hs2| |].
  - intros y [Hye Hy]%elem_of_without. destruct (list_content _ _ _ _ _ Hi1 Hy) as (cy&Hcy&_). rewrite <- Hkc1 by (by eexists).
    rewrite Hs2. unfold content. cbn [set_entries set_list s_entries s_datas]. by rewrite lookup_insert_ne.
  - rewrite <- Hkc1 in Hb by (by eexists). rewrite Hs2. unfold content in *. cbn [set_entries set_list s_entries s_datas].
    rewrite lookup_insert_eq. rewrite Hc1 in Hb. cbn in *. destruct (c_data c1) as [d1|]; [|done]. cbn in *.
    destruct (s_datas s1 !! d1); [|done]. cbn in *. injection Hb as _ <-. by rewrite Hci.
Qed.

Lemma read_sim size s v domain qtype group flag : let op := LRead domain qtype group flag in
  lru_sim size s v -> lop_ok op -> wp (lexec op) s (fun s' r => lru_sim size s' (lru_step size op v).1 /\ r = (lru_step size op v).2) (fun _ => False).
Proof.
  intros op Hsim (Hd&Hg). cbn [op lexec lru_step fst snd]. set (k := (tolower <$> domain, qtype, group, flag)).
  eapply wp_mono; [apply (with_entry_spec size s v domain qtype group flag read_entry (fun x => lru_remove k v ++ [(hit_info x.1, x.2)]) id Hsim Hd Hg)| |done].
  - intros e c b s1 Hg1 _ He Hc Hb _ Hrm. by apply read_entry_spec.
  - intros s' o (Hg'&Hcf&Ho&Hv). split; [|rewrite Ho; by destruct (lru_find _ v)]. by eapply change_sim.
Qed.

Lemma delete_sim size s v domain qtype group flag : let op := LDelete domain qtype group flag in
  lru_sim size s v -> lop_ok op -> wp (lexec op) s (fun s' r => lru_sim size s' (lru_step size op v).1 /\ r = (lru_step size op v).2) (fun _ => False).
Proof.
  intros op Hsim (Hd&Hg). cbn [op lexec lru_step fst snd]. set (k := (tolower <$> domain, qtype, group, flag)). wp_step.
  eapply wp_mono; [apply (with_entry_spec size s v domain qtype group flag dns_cache_delete (fun x => lru_remove k v) (fun _ => tt) Hsim Hd Hg)| |done].
  - intros e c b s1 Hg1 _ He Hc _ _ Hrm. pose proof Hg1 as [Hi1 Hpl1]. eapply wp_mono; [apply (remove_spec 0 [e] [] s1 e _ Hi1); by eexists| |intros s' Hx; exact Hx].
    intros s2 [] [Hi2 Hst2]. split_and!; [by eapply step_good|apply Hst2| |done]. fold k in Hrm. rewrite <- Hrm. by eapply step_view.
  - intros s' o (Hg'&Hcf&_&Hv). wp_step. split; [|done]. pose proof Hsim as (_&_&Hnd&Hl&_). eapply sim_intro; [done..| |done|by apply lru_remove_keys|].
    + rewrite Hv. destruct (lru_find _ v) as [x|] eqn:Ef; [done|]. symmetry. apply lru_remove_absent. intros x Hx Hk.
      fold k in Ef. by rewrite <- Hk, lru_find_in in Ef.
    + pose proof (lru_remove_len k v). unfold Zlen in *. lia.
Qed.

Lemma flush_sim size s v : lru_sim size s v -> wp (lexec LFlush) s (fun s' r => lru_sim size s' [] /\ r = None) (fun _ => False).
Proof.
  intros Hsim. pose proof Hsim as (Hgd&_&_&Hl&Hs&Hsz&_). pose proof Hgd as [Hi Hpl]. cbn [lexec]. wp_step. eapply wp_mono; [by apply (flush_spec 0 [] [])| |intros s' Hx; exact Hx].
  intros s' _ [Hi' Hst]. wp_step. split; [|done]. eapply sim_intro; [done|by eapply step_good| |apply Hst|apply NoDup_nil_2|change (0 <= size); lia].
  by apply (step_view _ _ _ _ _ _ Hi' Hst).
Qed.

(** The entry found has the new data, and becomes the youngest. *)
Lemma replace_entry_spec s e c b0 b d k v rcode ttl speed timeout update_time now :
  good [e] [d] s -> e ∈ h_list s -> s_entries s !! e = Some c -> content s e = Some (c_info c, b0) -> s_datas s !! d = Some b -> delay_ok timeout ->
  omap (content s) (without e (h_list s)) = lru_remove k v ->
  wp (r <- try (replace_locked e (i_qtype (c_info c)) (i_flag (c_info c)) rcode ttl speed timeout update_time (Some d) now) ;;
      match r with
      | Some old => dns_cache_data_put old ;; dns_cache_release (Some e)
      | None => dns_cache_release (Some e) ;; fail
      end) s
    (fun s' _ => good [] [] s' /\ same_config s s' /\
      view s' = lru_remove k v ++ [(replaced_info (c_info c) rcode ttl speed timeout update_time now, d_bytes b)]) (fun _ => False).
Proof.
  intros Hgd He Hc Hb0 Hb Ht Hrm. pose proof Hgd as [Hi Hpl]. wp_step. wp_step.
  eapply wp_mono; [apply (replace_locked_spec [e] [] s e c rcode ttl speed timeout update_time (Some d) now); done| |by intros s1 [_ ?]].
  intros s1 old (Hi1&Hcf1&_&Hl1&->&_&Hpl1&Hek1&Hbk1). wp_step. eapply wp_mono; [by apply (put_option_spec 0 [e] [] s1)| |intros s' Hx; exact Hx].
  intros s2 _ [Hi2 Hst2]. pose proof (step_listed _ _ _ Hst2 (Hpl1 Hpl)) as Hpl2.
  eapply wp_mono; [by apply (release_spec 0 [] [])| |intros s' Hx; exact Hx]. intros s3 _ [Hi3 Hst3].
  split_and!; [by eapply (step_good [e] [] _ s2)|eapply same_config_trans; [exact Hcf1|]; eapply same_config_trans; [apply Hst2|apply Hst3]|].
  assert (view s3 = view s1) as ->. { rewrite (step_view _ _ _ _ _ _ Hi3 Hst3). change (view s2 = view s1). by rewrite (step_view _ _ _ _ _ _ Hi2 Hst2). }
  set (c' := mk_cache _ _ _) in Hek1. rewrite <- Hrm. apply (moved_view s s1 e); [done| |].
  - intros y [Hye Hy]%elem_of_without. assert (y ∈ h_list s1) as Hy1 by (rewrite Hl1, elem_of_app, elem_of_without; by left).
    destruct (list_content _ _ _ _ _ Hi1 Hy1) as (cy&Hcy&_).
    rewrite (kept_content 0 [e] (option_list (c_data c) ++ []) (set_entries (insert e c') s) s1) by (done || by eexists).
    unfold content. cbn [set_entries s_entries s_datas]. by rewrite lookup_insert_ne.
  - assert (e ∈ h_list s1) as He1 by (rewrite Hl1, elem_of_app; right; left). destruct (list_content _ _ _ _ _ Hi1 He1) as (ce&Hce&_).
    rewrite (kept_content 0 [e] (option_list (c_data c) ++ []) (set_entries (insert e c') s) s1) by (done || by eexists).
    unfold content. cbn [set_entries s_entries s_datas]. rewrite lookup_insert_eq. cbn. by rewrite Hb.
Qed.

Lemma kept_data H DH s s' d b : cache_inv 0 H (d :: DH) s' -> bytes_kept (s_datas s) (s_datas s') -> s_datas s !! d = Some b ->
  exists b', s_datas s' !! d = Some b' /\ d_bytes b' = d_bytes b.
Proof.
  intros Hi Hbk Hb. destruct (proj2 (ci_datas _ _ _ _ Hi) d) as [b' Hb'].
  { rewrite data_refs_cons, eqb_same. pose proof (data_refs_nonneg DH s' d). lia. }
  exists b'. split; [done|]. destruct (Hbk d b' Hb') as (b0&Hb0&Hbb). congruence.
Qed.

Lemma replace_sim size s v domain qtype group flag rcode ttl speed timeout update_time packet now :
  let op := LReplace domain qtype group flag rcode ttl speed timeout update_time packet now in
  lru_sim size s v -> lop_ok op -> wp (lexec op) s (fun s' r => lru_sim size s' (lru_step size op v).1 /\ r = (lru_step size op v).2) (fun _ => False).
Proof.
  intros op Hsim (Hd&Hg&Ht&Hp). cbn [op lexec lru_step fst snd]. set (k := (tolower <$> domain, qtype, group, flag)).
  set (f := fun x : item => (replaced_info x.1 rcode ttl speed timeout update_time now, packet)). pose proof Hsim as (_&_&Hnd&_&Hs&Hsz&_&Hr).
  wp_step. eapply wp_mono; [by apply (new_packet_spec size s v)| |done]. intros s1 d (Hg1&Hv1&Hcf1&b&Hb&Hbp). pose proof Hg1 as [Hi1 Hpl1].
  assert (_dns_cache_is_ready s1 = true) as Hr1 by (destruct Hcf1 as (Hx1&Hx2&_); unfold _dns_cache_is_ready in *; by rewrite Hx1, Hx2).
  wp_step. wp_step. unfold dns_cache_replace, _dns_cache_replace. wp_step. wp_step. wp_step; [destruct Hcf1 as (_&_&Hs1&_); lia|]. wp_step.
  eapply wp_mono; [apply (lookup_spec 0 [] [d] s1 (mk_key (Some domain) qtype (Some group) flag) _ Hi1); [by split|done]| |intros s' Hx; exact Hx].
  rewrite <- Hv1 in Hnd. intros s2 [e|] (Hst2&Ho).
  2: { destruct Ho as [Hi2 Hn]. cbv beta iota. wp_step. wp_step. eapply wp_mono; [by apply (put_spec 0 [] [] s2 d)| |intros s' Hx; exact Hx].
       intros s3 _ [Hi3 Hst3]. wp_step. split; [|done]. unfold lru_change. rewrite (lru_find_absent k v) by (rewrite <- Hv1; by eapply view_absent).
       eapply sim_intro; [exact Hsim| | | |by rewrite <- Hv1|apply Hsim].
       - eapply (step_good [] [d] _ s2); [|done..]. by eapply (step_good [] [d] _ s1).
       - rewrite (step_view _ _ _ _ _ _ Hi3 Hst3). change (view s2 = v). by rewrite (step_view _ _ _ _ _ _ Hi2 Hst2).
       - eapply same_config_trans; [exact Hcf1|]. eapply same_config_trans; [apply Hst2|apply Hst3]. }
  destruct Ho as (Hi2&He&c0&Hc0&Hm). assert (good [e] [d] s2) as Hg2 by (by eapply (step_good [] [d] _ s1)).
  destruct (found_entry [d] s1 s2 e c0 domain qtype group flag) as (Hv2&He2&c&b0&Hc&Hk&Hb0&Hfd&Hrm); [done..|]. rewrite Hv1 in Hfd, Hrm.
  destruct (kept_data [e] [] s1 s2 d b) as (b2&Hb2&Hbp2); [done|apply Hst2|done|]. cbv beta iota. cbn [k_qtype k_flag].
  assert (qtype = i_qtype (c_info c) /\ flag = i_flag (c_info c)) as [Hq Hf] by (by injection Hk). rewrite Hq, Hf at 1.
  eapply wp_mono; [by apply (replace_entry_spec s2 e c b0 b2 d k v)| |done]. intros s3 _ (Hg3&Hcf3&Hv3). wp_step. split; [|done].
  eapply change_sim; [exact Hsim|done| | |done].
  - eapply same_config_trans; [exact Hcf1|]. eapply same_config_trans; [apply Hst2|exact Hcf3].
  - unfold lru_change. fold k in Hfd. rewrite Hfd, Hv3. by rewrite Hbp2, Hbp.
Qed.
End CacheLru.
