(* ===== verification/DnsCacheCorrect.v ===== *)
(** * The DNS cache is correct (src/dns_cache.c)

    What the cache promises to the rest of the program, for any timers that keep
    the laws of [TimerLaws], and with the wheel for the examples. *)

From Stdlib Require Import ZArith Lia.
From stdpp Require Import base list numbers option gmap.
From S2P Require Import Prelude DnsTypes DnsUpdate TimerWheel TimerWheelSpec TimerWheelOps TimerWheelMachine Timer Counting DnsCache DnsCacheSpec DnsCacheRefs DnsCacheOps DnsCacheUpdate DnsCacheMachine DnsCacheLru.

Section CacheCorrect.
Context {T : Type} `{TS : !TimerService T} `{!TimerLaws T}.
Implicit Types (s : @cache_state T) (H DH : list nat).

(** ** Sequences of whole calls *)

Fixpoint lrun (ops : list lop) : M (@cache_state T) (list (option (dns_cache_info * list Z))) :=
  match ops with
  | [] => ret []
  | op :: ops => r <- lexec op ;; rs <- lrun ops ;; ret (r :: rs)
  end.

Fixpoint aruns (size : Z) (ops : list lop) (v : list (dns_cache_info * list Z)) : list (dns_cache_info * list Z) * list (option (dns_cache_info * list Z)) :=
  match ops with
  | [] => (v, [])
  | op :: ops => let x := lru_step size op v in let y := aruns size ops x.1 in (y.1, x.2 :: y.2)
  end.

Lemma lexec_sim size s v op : lru_sim size s v -> lop_ok op ->
  wp (lexec op) s (fun s' r => lru_sim size s' (lru_step size op v).1 /\ r = (lru_step size op v).2) (fun _ => False).
Proof.
  intros Hsim Hok. destruct op; [by apply insert_sim|by apply replace_sim|by apply read_sim|by apply delete_sim|by apply flush_sim with v].
Qed.

Lemma lrun_sim size ops : forall s v, lru_sim size s v -> Forall lop_ok ops ->
  wp (lrun ops) s (fun s' rs => lru_sim size s' (aruns size ops v).1 /\ rs = (aruns size ops v).2) (fun _ => False).
Proof.
  induction ops as [|op ops IH]; intros s v Hsim Hok; cbn [lrun aruns]; [by wp_step|]. inversion Hok; subst. wp_step.
  eapply wp_mono; [by apply (lexec_sim size s v)| |done]. intros s1 r [Hsim1 ->]. wp_step.
  eapply wp_mono; [by apply IH| |done]. intros s2 rs [Hsim2 ->]. by wp_step.
Qed.

(** C11: the cache is an LRU cache: a caller that inserts, replaces, reads,
    removes and flushes entries gets from the cache exactly the answers of a list
    in the order of last use, with one entry per key, names compared without
    regard to letter case and at most [size] entries, the oldest going first; every
    call returns, without undefined behaviour. *)
Theorem cache_refines_lru size ts ops : 0 < size -> ts_inv ts -> (forall t, ts_pending t ts = false) -> Forall lop_ok ops ->
  exists s', lrun ops (dns_cache_init size 0 ts) = Ok s' (aruns size ops []).2 /\ view s' = (aruns size ops []).1 /\
    h_num s' = Zlen (aruns size ops []).1 /\ h_num s' <= size.
Proof.
  intros Hs Hts Hp Hok. pose proof (lrun_sim size ops _ _ (init_sim size ts Hs Hts Hp) Hok) as Hw. unfold wp in Hw.
  destruct (lrun ops (dns_cache_init size 0 ts)) as [s' rs| | |]; try done. destruct Hw as [([Hi Hpl]&Hv&_&Hl&_) ->].
  assert (h_num s' = Zlen (aruns size ops []).1) as Hn.
  { rewrite (num_of_list _ _ _ _ Hi Hpl) by (by eapply ci_nodup). rewrite <- Hv. unfold Zlen. cbn [app]. by rewrite (view_len _ _ _ _ Hi). }
  exists s'. split_and!; [done|done|done|lia].
Qed.

(** ** References *)

(** C12: no call of the cache touches freed memory, frees an object twice or
    releases a reference that is not held, in any interleaving of the calls of
    any number of threads and of the timer thread, when each caller uses the
    references it was given. *)
Theorem cache_calls_safe op H DH X s : crun ((takes op).1 ++ H) ((takes op).2 ++ DH) X s -> (uses op).1 ⊆ H -> (uses op).2 ⊆ DH -> args_ok op ->
  defined (exec op s).
Proof. intros Hr%crun_good Hu1 Hu2 Ha. rewrite <- app_assoc in Hr. by eapply wp_defined, (exec_spec op (H ++ X)); [|set_solver|..]. Qed.

Lemma refs_app H X s e : refs (H ++ X) s e = refs H s e + occ e X.
Proof. unfold refs, occ. rewrite count_occ_app. lia. Qed.

(** C13: the counts are exact up to the references that are lost.  In any such run the
    reference count of every entry is the number of its references (one of the list, one
    of the pending timer and those of the callers) plus the number of times that
    [dns_cache_expired] kept the reference of the timer for a retry or an update while
    the timer was pending again ([X]; see [expired_retry_leaks]); the count of every piece
    of data is that of the entries and callers that hold it, and [dns_cache_total_num] and
    [dns_cache_total_memsize] are exactly the entries and the bytes on the heap. *)
Theorem cache_counts_exact H DH X s : crun H DH X s ->
  (forall e c, s_entries s !! e = Some c -> c_ref c = refs H s e + occ e X /\ 0 < c_ref c) /\
  (forall d b, s_datas s !! d = Some b -> d_ref b = data_refs DH s d /\ 0 < d_ref b) /\
  h_num s = Z.of_nat (size (s_entries s)) /\
  h_mem_size s = sizeof_dns_cache * h_num s + map_sum data_size (s_datas s).
Proof.
  intros [Hi _]%crun_good. split_and!; [| |by eapply ci_num|].
  - intros e c Hc. destruct (proj1 (ci_refs _ _ _ _ Hi) e c Hc) as [-> ?]. by rewrite <- refs_app.
  - intros d b Hb. destruct (proj1 (ci_datas _ _ _ _ Hi) d b Hb) as [-> ?]. done.
  - rewrite (ci_mem _ _ _ _ Hi), (ci_num _ _ _ _ Hi). lia.
Qed.

Lemma counted_none {A} (ref : A -> Z) need m : counted ref need m -> (forall x, need x <= 0) -> m = ∅.
Proof. intros [H1 _] Hn. apply map_empty. intros x. destruct (m !! x) as [a|] eqn:E; [|done]. destruct (H1 x a E). specialize (Hn x). lia. Qed.

Lemma counted_is_some {A} (ref : A -> Z) need m x : counted ref need m -> is_Some (m !! x) <-> 0 < need x.
Proof. intros [H1 H2]. split; [intros [a Ha]; by apply (H1 x a)|apply H2]. Qed.

(** Without callers the pieces of data are those of the entries. *)
Lemma data_owned s d : 0 < data_refs [] s d <-> exists e c, s_entries s !! e = Some c /\ c_data c = Some d.
Proof.
  unfold data_refs. rewrite occ_nil, ?Z.add_0_r, ?Z.add_0_l. split.
  - generalize (s_entries s). intros m. induction m as [|e c m He IH] using map_ind; [rewrite map_sum_empty; lia|]. rewrite map_sum_insert by done. intros Hp. destruct (decide (c_data c = Some d)) as [Hc|Hc]; [exists e, c; by rewrite lookup_insert_eq|].
    destruct IH as (e'&c'&He'&Hc'). { unfold owner_of in Hp at 1. rewrite bool_decide_eq_false_2 in Hp by done. cbn [b2z] in Hp. lia. }
    exists e', c'. split; [|done]. rewrite lookup_insert_ne; [done|]. intros <-. congruence.
  - intros (e&c&He&Hc). pose proof (map_sum_pos (owner_of d) (s_entries s) e c (fun a => proj1 (b2z_range _)) He) as Hle. unfold owner_of in Hle at 1. rewrite bool_decide_eq_true_2 in Hle by done. cbn [b2z] in Hle. lia.
Qed.

(** C14: nothing but the lost entries is left.  When the callers have given back all they
    got, [dns_cache_flush] empties the list and leaves no timer pending; the entries that
    stay on the heap are exactly those of which [dns_cache_expired] lost a reference, and
    the pieces of data those of these entries.  When no reference was lost, every entry
    and every piece of data is freed. *)
Theorem cache_flush_frees X s : crun [] [] X s ->
  exists s', dns_cache_flush s = Ok s' tt /\ h_list s' = [] /\ (forall e, ts_pending e (s_timers s') = false) /\
    (forall e, is_Some (s_entries s' !! e) <-> e ∈ X) /\
    (forall d, is_Some (s_datas s' !! d) <-> exists e c, s_entries s' !! e = Some c /\ c_data c = Some d) /\
    (X = [] -> s_entries s' = ∅ /\ s_datas s' = ∅ /\ h_num s' = 0 /\ h_mem_size s' = 0).
Proof.
  intros [Hi Hpl]%crun_good. cbn [app] in Hi. pose proof (flush_spec 0 X [] s (fun _ => False) Hi) as Hw. unfold wp in Hw.
  destruct (dns_cache_flush s) as [s' []| | |]; try done. destruct Hw as [Hi' Hst]. exists s'. split; [done|].
  pose proof (step_listed _ _ _ Hst Hpl) as Hpl'. pose proof (proj1 (proj2 Hst)) as Hl. split; [done|].
  assert (forall e, ts_pending e (s_timers s') = false) as Hp.
  { intros e. destruct (ts_pending e (s_timers s')) eqn:E; [|done]. apply Hpl' in E. rewrite Hl in E. by apply elem_of_nil in E. }
  assert (forall e, refs X s' e = occ e X) as Hr by (intros e; unfold refs; rewrite Hp, Hl, bool_decide_false by apply not_elem_of_nil; cbn [b2z]; lia).
  assert (forall e, is_Some (s_entries s' !! e) <-> e ∈ X) as He by (intros e; rewrite (counted_is_some _ _ _ e (ci_refs _ _ _ _ Hi')), Hr; symmetry; apply occ_in).
  split_and!; [done|done|intros d; rewrite (counted_is_some _ _ _ d (ci_datas _ _ _ _ Hi')); apply data_owned|]. intros ->.
  assert (s_entries s' = ∅) as Hn. { apply map_empty. intros e. destruct (s_entries s' !! e) eqn:E; [|done]. assert (e ∈ ([] : list nat)) as Hin by (apply He; by eexists). by apply elem_of_nil in Hin. }
  assert (s_datas s' = ∅) as Hd. { eapply counted_none; [by eapply ci_datas|]. intros x. unfold data_refs. by rewrite Hn, map_sum_empty, occ_nil. }
  split_and!; try done.
  - by rewrite (ci_num _ _ _ _ Hi'), Hn.
  - by rewrite (ci_mem _ _ _ _ Hi'), Hn, Hd, map_sum_empty.
Qed.

(** ** Expiry *)


(** When another thread has set the timer again meanwhile, by replacing the
    entry or with [dns_cache_update_timer], a retry or an update moves it, and
    [dns_cache_expired] keeps the reference the timer had given it: the call returns with
    a count of the entry that is one more than its references. *)
Theorem expired_retry_leaks H DH s e act : crun (e :: H) DH [] s -> ts_pending e (s_timers s) = true -> act = ACTION_RETRY \/ act = ACTION_UPDATE ->
  exists s' c, dns_cache_expired e (Some act) s = Ok s' tt /\ s_entries s' !! e = Some c /\ c_ref c = refs H s' e + 1.
Proof.
  intros [Hi Hpl]%crun_good Hp Hact. rewrite app_nil_r in Hi. pose proof (expired_spec H DH s e (Some act) (fun _ => False) Hi) as Hw. unfold wp in Hw.
  destruct (dns_cache_expired e (Some act) s) as [s' []| | |]; try done. destruct Hw as (Hi'&_). rewrite Hp in Hi'.
  assert (cache_inv 0 (e :: H) DH s') as Hi1 by (by destruct Hact as [->| ->]). destruct (refs_live _ _ _ _ e Hi1 (refs_handle _ _ _ ltac:(left))) as (c&Hc&Hr).
  exists s', c. split_and!; [done..|]. by rewrite Hr, refs_cons, eqb_same.
Qed.

End CacheCorrect.

(** ** Examples, on the wheel *)

Lemma wheel_init_inv : ts_inv (tw_init_timers 1000).
Proof. destruct (wheel_sim_init 1000 0 ltac:(lia)) as [Hi _]. by eexists. Qed.

Lemma wheel_init_idle t : ts_pending t (tw_init_timers 1000) = false.
Proof. done. Qed.

(** Names and groups: [a], [A], [b], [g]. *)
Definition ex_ops : list lop :=
  [LInsert [97] 1 [103] 0 0 60 10 60 [1; 2; 3] 5000; LRead [65] 1 [103] 0; LReplace [97] 1 [103] 0 0 90 10 60 1 [4; 5] 5010; LRead [97] 1 [103] 0;
   LInsert [98] 1 [103] 0 0 60 10 60 [6] 5020; LRead [97] 1 [103] 0; LDelete [66] 1 [103] 0; LRead [98] 1 [103] 0].

Lemma ex_ops_ok : Forall lop_ok ex_ops.
Proof. unfold ex_ops, lop_ok, cstring, delay_ok. repeat constructor; lia || done. Qed.

(** The first read finds the packet, the second its replacement; the second
    insertion makes room for itself. *)
Lemma cache_refines_lru_witness : exists s', lrun ex_ops (dns_cache_init 1 0 (tw_init_timers 1000)) = Ok s' (aruns 1 ex_ops []).2 /\
  (fun x : option (dns_cache_info * list Z) => snd <$> x) <$> (aruns 1 ex_ops []).2 = [None; Some [1; 2; 3]; None; Some [4; 5]; None; None; None; None] /\ view s' = [].
Proof.
  destruct (cache_refines_lru 1 (tw_init_timers 1000) ex_ops ltac:(lia) wheel_init_inv wheel_init_idle ex_ops_ok) as (s'&Hr&Hv&_).
  exists s'. split; [exact Hr|]. split; [vm_compute; reflexivity|]. rewrite Hv. vm_compute. reflexivity.
Defined.

#[local] Abbreviation cache := (@cache_state tw_base).

Definition ex_key : dns_cache_key := mk_key (Some [97]) 1 (Some [103]) 0.
Definition ex_after (op : cop) (s : cache) : cache := match exec op s with Ok s' _ | Fail s' => s' | _ => s end.

(** An entry with a timeout of one tick; the tick; the timer is being called;
    meanwhile another thread sets the timer again. *)
Definition ex_init : cache := dns_cache_init 10 0 (tw_init_timers 1000).
Definition ex_data : cache := ex_after (ONewData (Some [1; 2; 3]) true) ex_init.
Definition ex_entry : cache := ex_after (OInsert ex_key 0 60 10 1 0 5000 true) ex_data.
Definition ex_tick : cache := ex_after OTick ex_entry.
Definition ex_fired : cache := ex_after OFire ex_tick.
Definition ex_reset : cache := ex_after (OUpdateTimer ex_key 5) ex_fired.

Lemma ex_entry_run : crun [] [] [] ex_entry.
Proof.
  assert (crun [] [0%nat] [] ex_data) as Hd.
  { refine (crun_ok (ONewData (Some [1; 2; 3]) true) [] [] [] ex_init ex_data ([], [0%nat]) _ _ _ _ _); [|done..|vm_compute; reflexivity].
    apply crun_init; [apply wheel_init_inv|apply wheel_init_idle]. }
  refine (crun_ok (OInsert ex_key 0 60 10 1 0 5000 true) [] [] [] ex_data ex_entry ([], []) Hd _ _ _ _); [done..| |vm_compute; reflexivity].
  unfold args_ok, key_ok, cstring, delay_ok. cbn. repeat constructor; lia.
Qed.

Lemma ex_tick_run : crun [] [] [] ex_tick.
Proof. refine (crun_ok OTick [] [] [] ex_entry ex_tick ([], []) ex_entry_run _ _ _ _); [done..|vm_compute; reflexivity]. Qed.

Lemma ex_reset_run : crun [0%nat] [] [] ex_reset.
Proof.
  assert (crun [0%nat] [] [] ex_fired) as Hf.
  { refine (crun_ok OFire [] [] [] ex_tick ex_fired ([0%nat], []) ex_tick_run _ _ _ _); [done..|vm_compute; reflexivity]. }
  refine (crun_ok (OUpdateTimer ex_key 5) [0%nat] [] [] ex_fired ex_reset ([], []) Hf _ _ _ _); [apply list_subseteq_nil|done| |vm_compute; reflexivity].
  unfold args_ok, key_ok, cstring, delay_ok. cbn. repeat constructor; lia.
Qed.

(** The timer thread goes on, and the callback asks for a retry. *)
Definition ex_lost : cache := ex_after (OExpired 0 (Some ACTION_RETRY)) ex_reset.

Lemma ex_lost_run : crun [] [] [0%nat] ex_lost.
Proof. refine (crun_ok (OExpired 0 (Some ACTION_RETRY)) [] [] [] ex_reset ex_lost ([], []) ex_reset_run _ _ _ _); [done..|vm_compute; reflexivity]. Qed.

Lemma cache_calls_safe_witness : defined (exec (OLookup ex_key) ex_entry) /\ defined (exec (ORelease 0) ex_reset).
Proof.
  split; [apply (cache_calls_safe (OLookup ex_key) [] [] [] ex_entry ex_entry_run); [done..|]|apply (cache_calls_safe (ORelease 0) [] [] [] ex_reset ex_reset_run); done].
  unfold args_ok, key_ok, cstring. cbn. repeat constructor; lia.
Defined.

Lemma cache_counts_exact_witness : h_num ex_entry = 1 /\ h_mem_size ex_entry = 448 + 27 /\ c_ref <$> s_entries ex_entry !! 0%nat = Some 2 /\ c_ref <$> s_entries ex_lost !! 0%nat = Some (refs [] ex_lost 0 + 1).
Proof.
  destruct (cache_counts_exact [] [] [] ex_entry ex_entry_run) as (He&_&Hn&Hm). split; [rewrite Hn; vm_compute; reflexivity|].
  split; [rewrite Hm; vm_compute; reflexivity|]. split.
  - destruct (s_entries ex_entry !! 0%nat) as [c|] eqn:E; [|vm_compute in E; discriminate]. destruct (He _ _ E) as [Hc _]. cbn. rewrite Hc. vm_compute. reflexivity.
  - destruct (cache_counts_exact [] [] [0%nat] ex_lost ex_lost_run) as (Hl&_). destruct (s_entries ex_lost !! 0%nat) as [c|] eqn:E; [|vm_compute in E; discriminate]. destruct (Hl _ _ E) as [Hc _]. cbn [fmap option_fmap option_map]. rewrite Hc. reflexivity.
Defined.

(** Everything is freed, but for the entry that was lost. *)
Lemma cache_flush_frees_witness : (exists s', dns_cache_flush ex_entry = Ok s' tt /\ s_entries s' = ∅ /\ s_datas s' = ∅ /\ h_mem_size s' = 0) /\
  exists s', dns_cache_flush ex_lost = Ok s' tt /\ h_list s' = [] /\ is_Some (s_entries s' !! 0%nat).
Proof.
  split.
  - destruct (cache_flush_frees [] ex_entry ex_entry_run) as (s'&?&_&_&_&_&Hn). destruct (Hn eq_refl) as (?&?&_&?). by exists s'.
  - destruct (cache_flush_frees [0%nat] ex_lost ex_lost_run) as (s'&?&?&_&He&_). exists s'. split; [done|]. split; [done|]. apply He. left.
Defined.


Lemma expired_retry_leaks_witness : exists s' c, dns_cache_expired 0 (Some ACTION_RETRY) ex_reset = Ok s' tt /\ s_entries s' !! 0%nat = Some c /\
  c_ref c = refs [] s' 0 + 1.
Proof. exact (expired_retry_leaks [] [] ex_reset 0 ACTION_RETRY ex_reset_run ltac:(vm_compute; reflexivity) (or_introl eq_refl)). Defined.
