(* ===== verification/DnsCacheFile.v ===== *)
(** * The cache file (src/dns_cache.c)

    The cache is saved to a file when the server stops or at a checkpoint, and
    loaded when it starts.  The file is the bytes of C structures (LP64,
    little-endian): a head, and for each entry a record and its data.

    Writing may fail when the disk is full: [o_left] bytes can be written.
    Reading may fail: [f_reads] reads succeed.  The bytes of padding, and those
    of a character array after its string, are zero. *)

From Stdlib Require Import ZArith Lia.
From stdpp Require Import base list numbers option gmap.
From S2P Require Import Prelude DnsTypes DnsUpdate TimerWheelOps Timer DnsCache.

(** ** Constants *)

Definition MAGIC_NUMBER : Z := 7298192328644324932.
Definition MAGIC_CACHE_DATA : Z := 1632919876.
Definition MAGIC_RECORD : Z := 1683120978.
Definition DNS_CACHE_VERSION_LEN : Z := 32.
Definition DNS_CACHE_READ_TIMEOUT : Z := 60.
Definition EXPIRED_DOMAIN_PREFETCH_TIME : Z := 3600 * 8.

(** ["cache ver 1.3"] *)
Definition dns_cache_file_version : list Z := [99; 97; 99; 104; 101; 32; 118; 101; 114; 32; 49; 46; 51].

Definition sizeof_dns_cache_file : Z := 48.
Definition sizeof_dns_cache_record : Z := 352.
Definition sizeof_dns_cache_data_head : Z := 24.

(** ** Structures in memory *)

(** The [n] bytes of an integer, and the bytes of a character array of [n]. *)
Fixpoint le_bytes (n : nat) (v : Z) : list Z :=
  match n with
  | O => []
  | S n => v mod 256 :: le_bytes n (v / 256)
  end.
Definition chars (n : nat) (s : list Z) : list Z := take n (s ++ replicate n 0).

Definition s64 (v : Z) : Z := let w := v mod 18446744073709551616 in if w <? 9223372036854775808 then w else w - 18446744073709551616.

Definition bytes_of_info (i : dns_cache_info) : list Z :=
  chars 256 (i_domain i) ++ le_bytes 4 (i_qtype i) ++ chars 32 (i_group i) ++ le_bytes 4 (i_flag i) ++ le_bytes 4 (i_ttl i) ++ le_bytes 4 (i_rcode i) ++
  le_bytes 4 (i_hitnum i) ++ le_bytes 4 (i_speed i) ++ le_bytes 4 (i_timeout i) ++ le_bytes 4 (i_hitnum_update_add i) ++ le_bytes 4 (i_is_visited i) ++ le_bytes 4 0 ++
  le_bytes 8 (i_insert_time i) ++ le_bytes 8 (i_replace_time i).

Definition dns_cache_record (i : dns_cache_info) : list Z := le_bytes 4 MAGIC_RECORD ++ le_bytes 4 0 ++ bytes_of_info i.

Definition dns_cache_data_head (ref size : Z) : list Z := le_bytes 8 ref ++ le_bytes 8 size ++ le_bytes 4 MAGIC_CACHE_DATA ++ le_bytes 4 0.

Definition dns_cache_file (version : list Z) (cache_number : Z) : list Z :=
  le_bytes 8 MAGIC_NUMBER ++ chars 32 (copy_field version DNS_CACHE_VERSION_LEN) ++ le_bytes 4 cache_number ++ le_bytes 4 0.

(** The field of [n] bytes at [off]. *)
Definition bytes_at (bs : list Z) (off n : nat) : list Z := take n (drop off bs).
Definition uint_at (bs : list Z) (off n : nat) : Z := of_le (bytes_at bs off n).

(** The information in a record, with what [_dns_cache_read_record] changes: the
    entry is not visited and the strings are terminated. *)
Definition info_of_record (bs : list Z) : dns_cache_info :=
  mk_info (until_nul (bytes_at bs 8 255)) (uint_at bs 264 4) (until_nul (bytes_at bs 268 31)) (uint_at bs 300 4) (s32 (uint_at bs 304 4)) (s32 (uint_at bs 308 4))
    (s32 (uint_at bs 312 4)) (s32 (uint_at bs 316 4)) (s32 (uint_at bs 320 4)) (s32 (uint_at bs 324 4)) 0
    (s64 (uint_at bs 336 8)) (s64 (uint_at bs 344 8)).

(** ** Files *)

Record fd := mk_fd { f_bytes : list Z; f_pos : Z; f_reads : nat }.

(** [read]: what it got, fewer bytes than asked for at the end of the file and
    none when it fails. *)
Definition read (f : fd) (n : Z) : list Z * fd :=
  match f_reads f with
  | O => ([], f)
  | S k => let bs := take (Z.to_nat n) (drop (Z.to_nat (f_pos f)) (f_bytes f)) in (bs, mk_fd (f_bytes f) (f_pos f + Zlen bs) k)
  end.

Record out := mk_out { o_bytes : list Z; o_left : Z }.

Definition write (o : out) (bs : list Z) : out * bool :=
  (mk_out (o_bytes o ++ take (Z.to_nat (o_left o)) bs) (Z.max 0 (o_left o - Zlen bs)), Zlen bs <=? o_left o).

(** ** What the reader depends on *)

(** The fields of [struct dns_conf_group] it uses, the time, and in the round for
    the [i]th record the random number and whether memory is available. *)
Record dns_conf_group := mk_conf { dns_prefetch : bool; dns_serve_expired : bool; dns_serve_expired_prefetch_time : Z; dns_serve_expired_ttl : Z }.

Record env := mk_env { e_group : list Z -> dns_conf_group; e_now : Z; e_rand : nat -> Z; e_zalloc : nat -> bool; e_zalloc_entry : nat -> bool }.

Section CacheFile.
Context {T : Type} `{TimerService T}.
#[local] Abbreviation C := (M (@cache_state T)).

(** A result of [int] arithmetic. *)
Definition int (v : Z) : C Z := if (-2147483648 <=? v) && (v <=? 2147483647) then ret v else ub.

(** ** Reading *)

(** [expired_time]: how long after the end of its time to live an entry is
    prefetched. *)
Definition read_expired_time (g : dns_conf_group) : Z :=
  if dns_prefetch g && dns_serve_expired g then
    if dns_serve_expired_prefetch_time g =? 0 then
      let t := Z.quot (dns_serve_expired_ttl g) 2 in
      if (t =? 0) || (EXPIRED_DOMAIN_PREFETCH_TIME <? t) then EXPIRED_DOMAIN_PREFETCH_TIME else t
    else dns_serve_expired_prefetch_time g
  else 0.

Definition set_replace_time (v : Z) (i : dns_cache_info) : dns_cache_info :=
  mk_info (i_domain i) (i_qtype i) (i_group i) (i_flag i) (i_ttl i) (i_rcode i) (i_hitnum i) (i_speed i) (i_timeout i) (i_hitnum_update_add i)
    (i_is_visited i) (i_insert_time i) v.

Definition _dns_cache_read_to_cache (E : env) (k : nat) (info : dns_cache_info) (cache_data : nat) : C unit :=
  let now := e_now E in
  let info := if now <? i_replace_time info then set_replace_time now info else info in
  let passed_time := s32 (now - i_replace_time info) in
  timeout <- int (i_timeout info - passed_time) ;;
  let rule_group := e_group E (i_group info) in
  let expired_time := read_expired_time rule_group in
  timeout <- (if dns_prefetch rule_group && negb (dns_serve_expired rule_group) then int (timeout - 3) else ret timeout) ;;
  limit <- int (expired_time + i_ttl info) ;;
  let timeout := if (limit <? timeout) && (0 <? expired_time) then limit else timeout in
  let timeout := if timeout <? DNS_CACHE_READ_TIMEOUT * 2 then DNS_CACHE_READ_TIMEOUT + Z.rem (e_rand E k) DNS_CACHE_READ_TIMEOUT else timeout in
  dns_cache_data_get cache_data ;;
  r <- try (_dns_cache_insert (Some info) (Some cache_data) timeout (e_zalloc_entry E k)) ;;
  match r with
  | Some _ => ret tt
  | None => dns_cache_data_put (Some cache_data) ;; fail
  end.

(** One round of the loop of [_dns_cache_read_record]; the data is on the heap
    before it is read. *)
Definition read_one (callback : dns_cache_info -> nat -> C unit) (zalloc_ok : bool) (filesize : Z) (f : fd) : C fd :=
  let '(record, f) := read f sizeof_dns_cache_record in
  guard (Zlen record =? sizeof_dns_cache_record) ;;
  guard (uint_at record 0 4 =? MAGIC_RECORD) ;;
  let '(data_head, f) := read f sizeof_dns_cache_data_head in
  guard (Zlen data_head =? sizeof_dns_cache_data_head) ;;
  guard (uint_at data_head 16 4 =? MAGIC_CACHE_DATA) ;;
  let size := s64 (uint_at data_head 8 8) in
  guard (negb ((size <=? 0) || (1024 * 8 <? size))) ;;
  guard (negb ((filesize <? f_pos f) || (filesize - f_pos f <? size))) ;;
  guard zalloc_ok ;;
  s <- get ;;
  let d := fresh (dom (s_datas s)) in
  let '(data, f) := read f size in
  modify (set_datas (insert d (mk_data 1 (chars (Z.to_nat size) data)))) ;;
  if negb (Zlen data =? size) then dns_cache_data_put (Some d) ;; fail
  else
    modify (set_mem (fun m => m + (size + sizeof_dns_cache_data_head))) ;;
    r <- try (callback (info_of_record record) d) ;;
    dns_cache_data_put (Some d) ;;
    match r with
    | Some _ => ret f
    | None => fail
    end.

(** The loop: [n] records from the [k]th. *)
Fixpoint _dns_cache_read_record (callback : nat -> dns_cache_info -> nat -> C unit) (zalloc_ok : nat -> bool) (filesize : Z) (n k : nat) (f : fd) : C unit :=
  match n with
  | O => ret tt
  | S n => f <- read_one (callback k) (zalloc_ok k) filesize f ;; _dns_cache_read_record callback zalloc_ok filesize n (S k) f
  end.

(** The file may be missing; [reads] reads succeed. *)
Definition _dns_cache_file_read (callback : nat -> dns_cache_info -> nat -> C unit) (zalloc_ok : nat -> bool) (file : option (list Z)) (reads : nat) : C unit :=
  match file with
  | None => ret tt
  | Some bytes =>
    let filesize := Zlen bytes in
    guard (negb (filesize <? sizeof_dns_cache_file)) ;;
    let '(cache_file, f) := read (mk_fd bytes 0 reads) sizeof_dns_cache_file in
    guard (Zlen cache_file =? sizeof_dns_cache_file) ;;
    guard (uint_at cache_file 0 8 =? MAGIC_NUMBER) ;;
    guard (strncmp_eq (until_nul (bytes_at cache_file 8 32)) dns_cache_file_version (Z.to_nat DNS_CACHE_VERSION_LEN)) ;;
    let cache_number := uint_at cache_file 40 4 in
    let min_record_size := sizeof_dns_cache_record + sizeof_dns_cache_data_head + 1 in
    guard (negb (u32 ((filesize - sizeof_dns_cache_file) / min_record_size) <? cache_number)) ;;
    _dns_cache_read_record callback zalloc_ok filesize (Z.to_nat cache_number) 0 f
  end.

Definition dns_cache_load (E : env) (file : option (list Z)) (reads : nat) : C unit :=
  _dns_cache_file_read (_dns_cache_read_to_cache E) (e_zalloc E) file reads.

(** ** Writing *)

(** The records of the entries in [l]; the number written, or [None] after an
    error. *)
Fixpoint _dns_cache_write_record (l : list nat) (o : out) (cache_number : Z) : C (out * option Z) :=
  match l with
  | [] => ret (o, Some cache_number)
  | e :: l =>
    c <- entry e ;;
    match c_data c with
    | None => _dns_cache_write_record l o cache_number
    | Some d =>
      b <- data_at d ;;
      let '(o, ok) := write o (dns_cache_record (c_info c)) in
      if negb ok then ret (o, None)
      else
        let '(o, ok) := write o (dns_cache_data_head (d_ref b) (Zlen (d_bytes b)) ++ d_bytes b) in
        if negb ok then ret (o, None)
        else _dns_cache_write_record l o (u32 (cache_number + 1))
    end
  end.

Definition _dns_cache_write_records (o : out) : C (out * option Z) := s <- get ;; _dns_cache_write_record (h_list s) o 0.

(** [dns_cache_save]: the new contents of the file, if it was opened, and whether
    the save was successful.  The records are written behind a gap for the head,
    the head after them; [left] bytes can be written. *)
Definition dns_cache_save (check_lock : Z) (lock_free open_ok : bool) (left : Z) : C (option (list Z) * bool) :=
  if (check_lock =? 1) && negb lock_free then ret (None, false)
  else if negb open_ok then ret (None, false)
  else
    r <- _dns_cache_write_records (mk_out [] left) ;;
    let records := o_bytes r.1 in
    let file := match records with [] => [] | _ => replicate 48 0 ++ records end in
    match r.2 with
    | None => ret (Some file, false)
    | Some cache_number =>
      let head := dns_cache_file dns_cache_file_version cache_number in
      let written := take (Z.to_nat (o_left r.1)) head in
      ret (Some (written ++ drop (length written) file), Zlen head <=? o_left r.1)
    end.

End CacheFile.
