(* ===== verification/DnsCacheLoad.v ===== *)
(** * The cache file: what is loaded is what was saved (src/dns_cache.c) *)

From Stdlib Require Import ZArith Lia.
From stdpp Require Import base list numbers option gmap.
From S2P Require Import Prelude DnsTypes DnsUpdate TimerWheel TimerWheelOps Timer Counting DnsCache DnsCacheSpec DnsCacheRefs DnsCacheOps DnsCacheUpdate DnsCacheMachine DnsCacheLru DnsCacheCorrect DnsCacheFile.

(** ** Fields *)

Lemma le_bytes_len n v : length (le_bytes n v) = n.
Proof. revert v. induction n as [|n IH]; intros v; [done|]. cbn. by rewrite IH. Qed.

Lemma chars_len n s : length (chars n s) = n.
Proof. unfold chars. rewrite length_take, length_app, length_replicate. lia. Qed.

Lemma of_le_bytes n v : of_le (le_bytes n v) = v mod 256 ^ Z.of_nat n.
Proof.
  revert v. induction n as [|n IH]; intros v; cbn [le_bytes of_le foldr]; [by rewrite Z.mod_1_r|].
  change (foldr _ _ _) with (of_le (le_bytes n (v / 256))). rewrite IH, Nat2Z.inj_succ, Z.pow_succ_r by lia.
  rewrite (Z.rem_mul_r v 256) by lia. lia.
Qed.

Lemma bytes_at_skip a b off n : (length a <= off)%nat -> bytes_at (a ++ b) off n = bytes_at b (off - length a) n.
Proof. intros Hl. unfold bytes_at. by rewrite drop_app_ge. Qed.

Lemma bytes_at_here a b n : length a = n -> bytes_at (a ++ b) 0 n = a.
Proof. intros <-. unfold bytes_at. by rewrite drop_0, take_app_length. Qed.

Lemma bytes_at_whole a n : length a = n -> bytes_at a 0 n = a.
Proof. intros <-. unfold bytes_at. by rewrite drop_0, take_ge. Qed.

Lemma bytes_at_short a b m n : (m <= n)%nat -> length a = n -> bytes_at (a ++ b) 0 m = take m a.
Proof. intros Hm Hl. unfold bytes_at. rewrite drop_0, take_app_le by lia. done. Qed.

Lemma chars_string n s : Forall (fun b => 0 < b < 256) s -> (length s < n)%nat -> until_nul (take (n - 1) (chars n s)) = s.
Proof.
  intros Hs Hl. unfold chars. rewrite take_take, Nat.min_l by lia. rewrite take_app_ge by lia.
  rewrite take_replicate, Nat.min_l by lia. destruct (n - 1 - length s)%nat as [|k]; [|].
  - rewrite app_nil_r. apply until_nul_id. eapply Forall_impl; [exact Hs|]. cbn. lia.
  - clear Hl. induction s as [|b s IH]; [done|]. inversion Hs; subst. cbn. destruct (Z.eqb_spec b 0); [lia|]. f_equal. by apply IH.
Qed.

(** Find the field in a structure. *)
Ltac at_field :=
  repeat (rewrite bytes_at_skip by (rewrite ?le_bytes_len, ?chars_len; lia); rewrite ?le_bytes_len, ?chars_len; cbn [Nat.sub]);
  first [rewrite bytes_at_here by (by rewrite ?le_bytes_len, ?chars_len) | rewrite bytes_at_whole by (by rewrite ?le_bytes_len, ?chars_len)].

Definition fits32 (v : Z) : Prop := -2147483648 <= v < 2147483648.
Definition fits64 (v : Z) : Prop := -9223372036854775808 <= v < 9223372036854775808.

Lemma s32_field v : fits32 v -> s32 (of_le (le_bytes 4 v)) = v.
Proof.
  intros [? ?]. rewrite of_le_bytes. unfold s32, u32. change (256 ^ Z.of_nat 4) with 4294967296. rewrite Z.mod_mod by lia.
  destruct (Z.ltb_spec (v mod 4294967296) 2147483648); pose proof (Z.div_mod v 4294967296 ltac:(lia));
    pose proof (Z.mod_pos_bound v 4294967296 ltac:(lia)); nia.
Qed.

Lemma s64_field v : fits64 v -> s64 (of_le (le_bytes 8 v)) = v.
Proof.
  intros [? ?]. rewrite of_le_bytes. unfold s64. change (256 ^ Z.of_nat 8) with 18446744073709551616. rewrite Z.mod_mod by lia.
  destruct (Z.ltb_spec (v mod 18446744073709551616) 9223372036854775808); pose proof (Z.div_mod v 18446744073709551616 ltac:(lia));
    pose proof (Z.mod_pos_bound v 18446744073709551616 ltac:(lia)); nia.
Qed.

Lemma u32_field v : 0 <= v < 4294967296 -> of_le (le_bytes 4 v) = v.
Proof. intros Hv. rewrite of_le_bytes. by apply Z.mod_small. Qed.

(** ** Structures *)

(** The numbers of an entry have the width of their fields. *)
Definition info_fits (i : dns_cache_info) : Prop :=
  0 <= i_qtype i < 4294967296 /\ 0 <= i_flag i < 4294967296 /\ fits32 (i_ttl i) /\ fits32 (i_rcode i) /\ fits32 (i_hitnum i) /\ fits32 (i_speed i) /\
  fits32 (i_timeout i) /\ fits32 (i_hitnum_update_add i) /\ fits64 (i_insert_time i) /\ fits64 (i_replace_time i).

Definition set_visited (v : Z) (i : dns_cache_info) : dns_cache_info := set_hits (i_hitnum i) (i_hitnum_update_add i) v i.

Lemma record_len i : length (dns_cache_record i) = 352%nat.
Proof. unfold dns_cache_record, bytes_of_info. by rewrite !length_app, !le_bytes_len, !chars_len. Qed.

Lemma data_head_len ref size : length (dns_cache_data_head ref size) = 24%nat.
Proof. unfold dns_cache_data_head. by rewrite !length_app, !le_bytes_len. Qed.

Lemma file_head_len version n : length (dns_cache_file version n) = 48%nat.
Proof. unfold dns_cache_file. by rewrite !length_app, !le_bytes_len, !chars_len. Qed.

Lemma record_magic i : uint_at (dns_cache_record i) 0 4 = MAGIC_RECORD.
Proof. unfold uint_at, dns_cache_record. at_field. by apply u32_field. Qed.

Lemma data_head_fields ref size : fits64 size ->
  uint_at (dns_cache_data_head ref size) 16 4 = MAGIC_CACHE_DATA /\ s64 (uint_at (dns_cache_data_head ref size) 8 8) = size.
Proof. intros Hs. unfold uint_at, dns_cache_data_head. split; at_field; [by apply u32_field|by apply s64_field]. Qed.

Lemma record_strings i : info_ok i ->
  until_nul (bytes_at (dns_cache_record i) 8 255) = i_domain i /\ until_nul (bytes_at (dns_cache_record i) 268 31) = i_group i.
Proof.
  intros (Hld&Hd&Hlg&Hg&_). unfold Zlen, DNS_MAX_CNAME_LEN, DNS_GROUP_NAME_LEN in *. unfold dns_cache_record, bytes_of_info. split.
  - rewrite !bytes_at_skip by (rewrite !le_bytes_len; lia). rewrite !le_bytes_len. cbn [Nat.sub]. rewrite (bytes_at_short _ _ _ 256) by (lia || by rewrite chars_len).
    apply (chars_string 256); [done|lia].
  - rewrite !(bytes_at_skip (le_bytes _ _)) by (rewrite !le_bytes_len; lia). rewrite !le_bytes_len, bytes_at_skip by (rewrite chars_len; lia). rewrite chars_len.
    rewrite (bytes_at_skip (le_bytes _ _)) by (rewrite le_bytes_len; lia). rewrite le_bytes_len. cbn [Nat.sub].
    rewrite (bytes_at_short _ _ _ 32) by (lia || by rewrite chars_len). apply (chars_string 32); [done|lia].
Qed.

(** The record of an entry is read back, but for the mark that it was visited. *)
Lemma record_info i : info_ok i -> info_fits i -> info_of_record (dns_cache_record i) = set_visited 0 i.
Proof.
  intros Hok (?&?&?&?&?&?&?&?&?&?). destruct (record_strings i Hok) as [Hd Hg]. unfold info_of_record. rewrite Hd, Hg.
  unfold set_visited, set_hits, uint_at, dns_cache_record, bytes_of_info.
  f_equal; at_field; first [by apply u32_field|by apply s32_field|by apply s64_field].
Qed.

Lemma file_head_fields n : 0 <= n < 4294967296 ->
  let h := dns_cache_file dns_cache_file_version n in
  uint_at h 0 8 = MAGIC_NUMBER /\ strncmp_eq (until_nul (bytes_at h 8 32)) dns_cache_file_version (Z.to_nat DNS_CACHE_VERSION_LEN) = true /\ uint_at h 40 4 = n.
Proof.
  intros Hn h. unfold h, uint_at, dns_cache_file. split_and!; at_field; [|vm_compute; reflexivity|by apply u32_field].
  rewrite of_le_bytes. vm_compute. reflexivity.
Qed.

(** ** Entries in a file *)

(** The information of an entry after it is loaded at the time [now]. *)
Definition reloaded (now : Z) (i : dns_cache_info) : dns_cache_info :=
  let i := set_visited 0 i in if now <? i_replace_time i then set_replace_time now i else i.

Definition reload (E : env) (x : dns_cache_info * list Z) : dns_cache_info * list Z := (reloaded (e_now E) x.1, x.2).

(** The timeout of the entry can be computed without overflow. *)
Definition timeout_ok (E : env) (i : dns_cache_info) : Prop :=
  let g := e_group E (i_group i) in
  let t := i_timeout i - s32 (e_now E - i_replace_time (reloaded (e_now E) i)) in
  fits32 t /\ fits32 (t - 3) /\ fits32 (read_expired_time g + i_ttl i).

(** An entry that can be saved and loaded. *)
Definition storable (E : env) (x : dns_cache_info * list Z) : Prop :=
  info_ok x.1 /\ info_fits x.1 /\ timeout_ok E x.1 /\ 0 < Zlen x.2 <= 8192.

(** The bytes of an entry, with the count [ref] its data had. *)
Definition saved_entry (ref : Z) (x : dns_cache_info * list Z) : list Z :=
  dns_cache_record x.1 ++ dns_cache_data_head ref (Zlen x.2) ++ x.2.

Lemma reloaded_key now i : key_of (reloaded now i) = key_of i.
Proof. unfold reloaded. by destruct (now <? _). Qed.

Lemma reloaded_fields now i : i_group (reloaded now i) = i_group i /\ i_timeout (reloaded now i) = i_timeout i /\ i_ttl (reloaded now i) = i_ttl i.
Proof. unfold reloaded. by destruct (now <? _). Qed.

Lemma reloaded_ok now i : info_ok i -> info_ok (reloaded now i).
Proof. unfold reloaded, info_ok. by destruct (now <? _). Qed.

(** ** Reading from a file *)

(** What is left to read. *)
Definition fd_at (f : fd) (rest : list Z) : Prop := exists pre, f_bytes f = pre ++ rest /\ f_pos f = Zlen pre.

Lemma read_ok f a rest n k : fd_at f (a ++ rest) -> f_reads f = S k -> Zlen a = n ->
  exists f', read f n = (a, f') /\ fd_at f' rest /\ f_reads f' = k /\ f_bytes f' = f_bytes f /\ Zlen (f_bytes f) = f_pos f' + Zlen rest.
Proof.
  intros (pre&Hb&Hp) Hk Hn. unfold read. rewrite Hk, Hb, Hp. unfold Zlen in *. rewrite Nat2Z.id, drop_app_length, <- Hn, Nat2Z.id, take_app_length.
  eexists. split; [done|]. cbn [f_reads f_pos f_bytes]. split_and!; [|done|done|rewrite !length_app; lia].
  exists (pre ++ a). cbn. unfold Zlen. by rewrite length_app, Nat2Z.inj_add, (assoc_L (++)).
Qed.

Lemma read_fails f n : f_reads f = 0%nat -> read f n = ([], f).
Proof. intros Hk. unfold read. by rewrite Hk. Qed.

Section CacheLoad.
Context {T : Type} `{TS : !TimerService T} `{!TimerLaws T}.
#[local] Abbreviation state := (@cache_state T).
Implicit Types (s : state) (v : list (dns_cache_info * list Z)).

(** ** Loading one entry *)

Lemma int_spec (z : Z) s Q E : fits32 z -> Q s z -> wp (int z) s Q E.
Proof.
  intros [H1 H2] HQ. unfold int. assert ((-2147483648 <=? z) && (z <=? 2147483647) = true) as -> by lia. by wp_step.
Qed.

Lemma fits32_if (b : bool) x y : fits32 x -> fits32 y -> fits32 (if b then x else y).
Proof. by destruct b. Qed.

(** The cache holds [v]; [DH] is data the reader holds. *)
Definition loading (size : Z) DH s v : Prop :=
  good [] DH s /\ view s = v /\ NoDup (keys v) /\ Zlen v <= size /\
  0 < h_size s /\ h_size s = size /\ h_max_mem_size s <= 0 /\ _dns_cache_is_ready s = true.

Lemma loading_intro size DH DH' s s' v v' : loading size DH s v -> good [] DH' s' -> view s' = v' -> same_config s s' -> NoDup (keys v') -> Zlen v' <= size ->
  loading size DH' s' v'.
Proof.
  intros (_&_&_&_&Hs&Hsz&Hm&Hr) Hg Hv (Hi&Hb&Hs'&Hm') Hk Hl. unfold loading, _dns_cache_is_ready in *. rewrite Hi, Hb, Hs', Hm'. by split_and!.
Qed.

Lemma rem60_ok r : delay_ok (DNS_CACHE_READ_TIMEOUT + Z.rem r DNS_CACHE_READ_TIMEOUT).
Proof. unfold DNS_CACHE_READ_TIMEOUT, delay_ok. pose proof (Z.rem_bound_abs r 60 ltac:(lia)). lia. Qed.

Lemma lru_insert_new size x v : key_of x.1 ∉ keys v -> Zlen v + 1 <= size -> lru_insert size x v = v ++ [x].
Proof.
  intros Hk Hl. unfold lru_insert. rewrite lru_remove_absent.
  - unfold Zlen in Hl. replace (S (length v) - Z.to_nat size)%nat with 0%nat by lia. done.
  - intros y Hy He. apply Hk. rewrite <- He. apply list_elem_of_fmap. by exists y.
Qed.

Lemma load_insert_spec size s v d b i timeout ok : loading size [d; d] s v -> s_datas s !! d = Some b -> info_ok i -> delay_ok timeout ->
  key_of i ∉ keys v -> Zlen v + 1 <= size ->
  wp (_dns_cache_insert (Some i) (Some d) timeout ok) s (fun s' _ => loading size [d] s' (v ++ [(i, d_bytes b)]))
    (fun s' => ok = false /\ loading size [d; d] s' v).
Proof.
  intros Hld Hb Hok Ht Hk Hl. pose proof Hld as (Hgd&Hv&Hnd&_&Hs&Hsz&Hm&_). pose proof Hgd as [Hi Hpl].
  eapply wp_mono; [apply (insert_spec [] [d] s i d b timeout ok); done| |].
  - intros s' _ (Hi'&(Hcf&e&l&m&Hrm&Hne&Hl'&Hce&Hct&Hcount)&Hpl').
    assert (view s' = v ++ [(i, d_bytes b)]) as Hv'; [|eapply loading_intro; [exact Hld|split; [done|auto]|done|done|..]].
    + rewrite <- (lru_insert_new size) by done. eapply (insert_view_at size s); [done|done|done|lia|done..|]. split; [done|]. exists e, l, m. by split_and!.
    + unfold keys. rewrite fmap_app. apply NoDup_app. split_and!; [done| |apply NoDup_singleton]. intros y Hy ->%list_elem_of_singleton. done.
    + unfold Zlen in *. rewrite length_app. cbn. lia.
  - intros s' (->&Hi'&l&Hrm&Hst). split; [done|]. eapply loading_intro; [exact Hld|by eapply step_good| |apply Hst|done|lia].
    rewrite (step_view _ _ _ _ _ _ Hi' Hst), (removed_key_view _ _ _ _ i l Hi) by (done || by rewrite Hv). rewrite Hv.
    apply lru_remove_absent. intros y Hy He. apply Hk. rewrite <- He. apply list_elem_of_fmap. by exists y.
Qed.

Lemma read_to_cache_spec E k size s v d b x : loading size [d] s v -> s_datas s !! d = Some b -> storable E x -> b.(d_bytes) = x.2 ->
  key_of x.1 ∉ keys v -> Zlen v + 1 <= size ->
  wp (_dns_cache_read_to_cache E k (set_visited 0 x.1) d) s (fun s' _ => loading size [d] s' (v ++ [reload E x]))
    (fun s' => e_zalloc_entry E k = false /\ loading size [d] s' v).
Proof.
  intros Hld Hb (Hok&Hfit&(Ht1&Ht2&Ht3)&_) Hbx Hk Hl. unfold _dns_cache_read_to_cache. cbv zeta.
  change (if e_now E <? i_replace_time (set_visited 0 x.1) then set_replace_time (e_now E) (set_visited 0 x.1) else set_visited 0 x.1) with (reloaded (e_now E) x.1).
  destruct (reloaded_fields (e_now E) x.1) as (Hgr&Htm&Httl). rewrite Hgr, Htm, Httl. set (g := e_group E (i_group x.1)) in *. set (i := reloaded (e_now E) x.1) in *.
  wp_step. apply int_spec; [done|]. set (t := i_timeout x.1 - _) in *. wp_step.
  assert (forall (Q : state -> Z -> Prop) (R : state -> Prop), (forall t', fits32 t' -> Q s t') -> wp (if dns_prefetch g && negb (dns_serve_expired g) then int (t - 3) else ret t) s Q R) as Hif.
  { intros Q R HQ. destruct (_ && _); [apply int_spec; auto|wp_step; auto]. }
  apply Hif. intros t' Ht'. wp_step. apply int_spec; [done|]. wp_step.
  set (t'' := if (read_expired_time g + i_ttl x.1 <? t') && (0 <? read_expired_time g) then read_expired_time g + i_ttl x.1 else t').
  assert (fits32 t'') as Ht'' by (by apply fits32_if). clearbody t''.
  assert (delay_ok (if t'' <? DNS_CACHE_READ_TIMEOUT * 2 then DNS_CACHE_READ_TIMEOUT + Z.rem (e_rand E k) DNS_CACHE_READ_TIMEOUT else t'')) as Hd.
  { destruct (_ <? _); [apply rem60_ok|]. destruct Ht''. unfold delay_ok. lia. }
  pose proof Hld as ([Hi Hpl]&Hv&Hnd&Hlen&_). eapply wp_mono; [apply (take_data_spec 0 [] [d] s d _ Hi)| |intros ? Hf; exact Hf].
  { rewrite data_refs_cons, eqb_same. pose proof (data_refs_nonneg [] s d). lia. }
  intros s1 _ [Hi1 Hst1]. assert (loading size [d; d] s1 v) as Hld1.
  { eapply loading_intro; [exact Hld|by eapply (step_good [] [d] _ s)| |apply Hst1|done|done]. rewrite <- Hv. by eapply step_view. }
  destruct (kept_data [] [d] s s1 d b Hi1 ltac:(apply Hst1) Hb) as (b1&Hb1&Hbb). wp_step. wp_step.
  eapply wp_mono; [apply (load_insert_spec size s1 v d b1 i); [done|done|by apply reloaded_ok|exact Hd|by unfold i; rewrite reloaded_key|done]| |].
  - intros s2 [] Hld2. wp_step. unfold reload. by rewrite <- Hbx, <- Hbb.
  - intros s2 [Hz Hld2]. pose proof Hld2 as (Hg2&Hv2&_). wp_step. eapply wp_mono; [apply (put_spec 0 [] [d] s2 d); apply Hg2| |intros ? Hf; exact Hf].
    intros s3 _ [Hi3 Hst3]. wp_step. split; [done|]. eapply loading_intro; [exact Hld2|by eapply (step_good [] [d; d] _ s2)| |apply Hst3|done|done].
    rewrite <- Hv2. by eapply step_view.
Qed.

(** Data that is read is put on the heap. *)
Lemma load_data_spec size s v d bytes : loading size [] s v -> s_datas s !! d = None ->
  let s' := set_mem (fun m => m + (Zlen bytes + sizeof_dns_cache_data_head)) (set_datas (insert d (mk_data 1 bytes)) s) in
  loading size [d] s' v /\ s_datas s' !! d = Some (mk_data 1 bytes).
Proof.
  intros Hld Hd s'. pose proof Hld as ([Hi Hpl]&Hv&Hnd&Hlen&_). split; [|unfold s'; cbn; by rewrite lookup_insert_eq].
  pose proof (counted_dead _ _ _ _ (ci_datas _ _ _ _ Hi) Hd) as Hz. pose proof (data_refs_nonneg [] s d).
  eapply loading_intro; [exact Hld|split; [|exact Hpl]| |by repeat split|done|done].
  - change s' with (data_step (<[d := mk_data 1 bytes]> (s_datas s)) (h_mem_size s + (Zlen bytes + sizeof_dns_cache_data_head)) s).
    apply (data_step_inv 0 [] []); [done| |].
    + rewrite map_sum_insert by done. unfold data_size at 1. cbn [d_bytes]. unfold sizeof_dns_cache_data, sizeof_dns_cache_data_head. lia.
    + apply (counted_insert _ (data_refs [] s)); [by eapply ci_datas| | |].
      * rewrite data_refs_cons, eqb_same. cbn. lia.
      * rewrite data_refs_cons, eqb_same. lia.
      * intros y Hy. rewrite data_refs_cons, eqb_other by done. lia.
  - rewrite <- Hv. unfold view. change (h_list s') with (h_list s). apply omap_same. intros x Hx. apply content_mono; [|done|by apply insert_subseteq].
    by destruct (list_content _ _ _ _ _ Hi Hx) as (c&_&?).
Qed.

(** When the data cannot be read it is freed again; but [mem_size] loses its
    size. *)
Lemma load_data_failed s d bytes E : s_datas s !! d = None ->
  wp (dns_cache_data_put (Some d)) (set_datas (insert d (mk_data 1 bytes)) s) (fun s' _ => s' = set_mem (fun m => m - (Zlen bytes + sizeof_dns_cache_data)) s) E.
Proof.
  intros Hd. cbn [dns_cache_data_put]. wp_step. apply (data_at_spec d (mk_data 1 bytes)); [cbn; by rewrite lookup_insert_eq|].
  wp_step; [cbn in *; done|]. do 3 wp_step. unfold set_datas, set_mem. cbn. f_equal. rewrite delete_insert_eq. by apply delete_id.
Qed.

(** ** The records *)

Lemma chars_full bs n : Zlen bs = n -> chars (Z.to_nat n) bs = bs.
Proof. intros <-. unfold chars, Zlen. by rewrite Nat2Z.id, take_app_length. Qed.

Lemma view_set_mem (f : Z -> Z) s : view (set_mem f s) = view s.
Proof. done. Qed.

(** One record: the entry is in the cache, or something failed and the cache is
    as it was. *)
Lemma read_one_spec E k size s v f rest ref x : loading size [] s v -> storable E x -> key_of x.1 ∉ keys v -> Zlen v + 1 <= size ->
  fd_at f (saved_entry ref x ++ rest) ->
  wp (read_one (_dns_cache_read_to_cache E k) (e_zalloc E k) (Zlen (f_bytes f)) f) s
    (fun s' f' => loading size [] s' (v ++ [reload E x]) /\ fd_at f' rest /\ f_reads f = (3 + f_reads f')%nat /\ f_bytes f' = f_bytes f)
    (fun s' => view s' = v /\ ((f_reads f < 3)%nat \/ e_zalloc E k = false \/ e_zalloc_entry E k = false) /\
      (f_reads f = 2%nat -> e_zalloc E k = true -> s' = set_mem (fun m => m - (Zlen x.2 + sizeof_dns_cache_data)) s)).
Proof.
  intros Hld Hst Hk Hl Hf. pose proof Hst as (Hok&Hfit&_&Hlen). pose proof Hld as ([Hi Hpl]&Hv&_). unfold saved_entry in Hf. rewrite <- !(assoc_L (++)) in Hf. unfold read_one.
  assert (Zlen (dns_cache_record x.1) = sizeof_dns_cache_record) as Hrl by (unfold Zlen; by rewrite record_len).
  assert (Zlen (dns_cache_data_head ref (Zlen x.2)) = sizeof_dns_cache_data_head) as Hhl by (unfold Zlen; by rewrite data_head_len).
  destruct (data_head_fields ref (Zlen x.2)) as [Hmg Hsz]; [unfold fits64; lia|].
  destruct (f_reads f) as [|k1] eqn:Ek1; [rewrite (read_fails _ _ Ek1); wp_step; wp_step; [done|split_and!; [done|lia|done]]|].
  destruct (read_ok f _ _ _ _ Hf Ek1 Hrl) as (f1&->&Hf1&Hk1&Hfb1&Hb1). wp_step. wp_step; [|done]. wp_step. wp_step; [|by rewrite record_magic in *].
  destruct k1 as [|k2]; [rewrite (read_fails _ _ Hk1); wp_step; wp_step; [done|split_and!; [done|lia|done]]|].
  destruct (read_ok f1 _ _ _ _ Hf1 Hk1 Hhl) as (f2&->&Hf2&Hk2&Hfb2&Hb2). wp_step. wp_step; [|done]. wp_step. wp_step; [|by rewrite Hmg in *].
  rewrite Hsz. wp_step. wp_step; [|exfalso; bools; lia]. wp_step. wp_step.
  2: { exfalso. pose proof (Zlen_nonneg rest). rewrite Zlen_app, Hfb1 in Hb2. bools; lia. }
  wp_step. wp_step; [|split_and!; [done|by auto|congruence]]. wp_step. wp_step. set (d := fresh (dom (s_datas s))). assert (s_datas s !! d = None) as Hd by (apply not_elem_of_dom, is_fresh).
  destruct k2 as [|k3].
  { rewrite (read_fails _ _ Hk2). wp_step. wp_step. wp_step; [|exfalso; rewrite Zlen_nil in *; lia]. wp_step.
    eapply wp_mono; [by apply load_data_failed| |intros s' Hx; exact Hx]. intros s' _ ->. wp_step. rewrite view_set_mem. split_and!; [done|lia|]. unfold Zlen. by rewrite chars_len, Z2Nat.id by lia. }
  destruct (read_ok f2 _ _ _ _ Hf2 Hk2 eq_refl) as (f3&->&Hf3&Hk3&Hfb3&_). wp_step. wp_step. wp_step; [exfalso; bools; lia|]. wp_step. wp_step.
  rewrite (chars_full x.2) by done. destruct (load_data_spec size s v d x.2 Hld Hd) as [Hld1 Hd1]. wp_step. wp_step. rewrite (record_info _ Hok Hfit).
  eapply wp_mono; [by apply (read_to_cache_spec E k size _ v d (mk_data 1 x.2) x)| |].
  - intros s2 [] Hld2. wp_step. eapply wp_mono; [apply (put_spec 0 [] [] s2 d); apply Hld2| |intros s' Hx; exact Hx]. intros s3 _ [Hi3 Hst3]. wp_step.
    pose proof Hld2 as (Hg2&Hv2&Hnd2&Hlen2&_). split_and!; [|done|lia|congruence].
    eapply loading_intro; [exact Hld2|by eapply (step_good [] [d] _ s2)| |apply Hst3|done|done]. rewrite <- Hv2. by eapply step_view.
  - intros s2 [Hz Hld2]. wp_step. eapply wp_mono; [apply (put_spec 0 [] [] s2 d); apply Hld2| |intros s' Hx; exact Hx]. intros s3 _ [Hi3 Hst3]. wp_step.
    split_and!; [|by auto|done]. rewrite (step_view _ _ _ _ _ _ Hi3 Hst3). apply Hld2.
Qed.

Definition saved_entries (l : list (Z * (dns_cache_info * list Z))) : list Z := concat ((fun y => saved_entry y.1 y.2) <$> l).

(** No read and no allocation fails. *)
Definition no_failure (E : env) (reads : nat) (n : nat) : Prop :=
  (3 * n <= reads)%nat /\ (forall i, e_zalloc E i = true) /\ (forall i, e_zalloc_entry E i = true).

Lemma keys_reload E v x : keys (v ++ [reload E x]) = keys v ++ [key_of x.1].
Proof. unfold keys. rewrite fmap_app. cbn. by rewrite reloaded_key. Qed.

(** The first [n] records. *)
Lemma read_records_spec E size rest l : forall n k s v f, (n <= length l)%nat -> loading size [] s v -> Forall (fun y => storable E y.2) l ->
  NoDup (keys v ++ keys (snd <$> l)) -> Zlen v + Zlen l <= size -> fd_at f (saved_entries l ++ rest) ->
  wp (_dns_cache_read_record (_dns_cache_read_to_cache E) (e_zalloc E) (Zlen (f_bytes f)) n k f) s
    (fun s' _ => loading size [] s' (v ++ take n ((fun y => reload E y.2) <$> l)))
    (fun s' => (exists m, view s' = v ++ take m ((fun y => reload E y.2) <$> l)) /\ ~ no_failure E (f_reads f) n).
Proof.
  induction l as [|[ref x] l IH]; intros n k s v f Hn Hld Hst Hnd Hl Hf; (destruct n as [|n]; cbn [_dns_cache_read_record]; [wp_step; by rewrite take_0, app_nil_r|]); [cbn in Hn; lia|].
  cbn [fmap list_fmap snd fst take] in *. inversion Hst as [|? ? Hst1 Hst2]; subst. rewrite Zlen_cons in Hl. pose proof (Zlen_nonneg l).
  assert (NoDup ((keys v ++ [key_of x.1]) ++ keys (snd <$> l))) as Hnd' by (by rewrite <- (assoc_L (++))).
  apply NoDup_app in Hnd as (_&Hdj&_). assert (key_of x.1 ∉ keys v) as Hk by (intros Hx; apply (Hdj _ Hx); left).
  unfold saved_entries in Hf. cbn [fmap list_fmap concat fst snd] in Hf. rewrite <- (assoc_L (++)) in Hf. wp_step.
  eapply wp_mono; [apply (read_one_spec E k size s v f _ ref x Hld Hst1 Hk ltac:(lia) Hf)| |].
  - intros s1 f1 (Hld1&Hf1&Hr1&Hfb1). rewrite <- Hfb1. eapply wp_mono; [apply (IH n (S k) s1 (v ++ [reload E x]) f1); try done| |].
    + cbn in Hn. lia.
    + by rewrite keys_reload.
    + rewrite Zlen_app. change (Zlen [reload E x]) with 1. lia.
    + intros s2 [] Hld2. by rewrite <- (assoc_L (++)) in Hld2.
    + intros s2 [[m Hm] Hnf]. split; [exists (S m); by rewrite Hm, <- (assoc_L (++))|]. intros (Hr&Ha). apply Hnf. split; [lia|done].
  - intros s1 (Hv&Hwhy&_). split; [exists 0%nat; by rewrite app_nil_r|]. intros (Hr&Ha1&Ha2). rewrite Ha1, Ha2 in Hwhy. destruct Hwhy as [?|[?|?]]; [lia|done..].
Qed.

(** ** Saving *)

Lemma write_ok o bs : Zlen bs <= o_left o -> write o bs = (mk_out (o_bytes o ++ bs) (o_left o - Zlen bs), true).
Proof. intros Hl. unfold write. rewrite take_ge by (unfold Zlen in Hl; lia). rewrite (proj2 (Z.leb_le _ _) Hl). by rewrite Z.max_r by lia. Qed.

Lemma write_short o bs : o_left o < Zlen bs -> exists o', write o bs = (o', false).
Proof. intros Hl. eexists. unfold write. by rewrite (proj2 (Z.leb_gt _ _) Hl). Qed.

(** The records are written, or the disk is full. *)
Lemma write_records_spec H DH s l : forall o n Er, cache_inv 0 H DH s -> (forall e, e ∈ l -> e ∈ h_list s) -> 0 <= n < 4294967296 ->
  wp (_dns_cache_write_record l o n) s (fun s' r => s' = s /\
    match r.2 with
    | None => True
    | Some n' => exists l', snd <$> l' = omap (content s) l /\ n' = u32 (n + Zlen l) /\
      r.1 = mk_out (o_bytes o ++ saved_entries l') (o_left o - Zlen (saved_entries l'))
    end) Er.
Proof.
  induction l as [|e l IH]; intros o n Er Hi Hl Hn; cbn [_dns_cache_write_record].
  { wp_step. split; [done|]. exists []. cbn. rewrite app_nil_r, Z.sub_0_r, Z.add_0_r, u32_small by lia. split_and!; [done|done|by destruct o]. }
  destruct (list_content _ _ _ _ e Hi (Hl e ltac:(left))) as (c&Hc&_). destruct (content_some _ _ _ _ _ _ Hi Hc) as (d&b&Hd&Hb&_&Hct).
  wp_step. apply (entry_spec e c); [done|]. rewrite Hd. wp_step. apply (data_at_spec d b); [done|].
  destruct (Z.le_gt_cases (Zlen (dns_cache_record (c_info c))) (o_left o)) as [Hw|Hw]; [rewrite (write_ok _ _ Hw)|destruct (write_short _ _ Hw) as [o' ->]; cbn [negb]; by wp_step].
  cbn [negb]. set (o1 := mk_out _ _). set (dh := dns_cache_data_head _ _ ++ d_bytes b).
  destruct (Z.le_gt_cases (Zlen dh) (o_left o1)) as [Hw1|Hw1]; [rewrite (write_ok _ _ Hw1)|destruct (write_short _ _ Hw1) as [o' ->]; cbn [negb]; by wp_step].
  cbn [negb]. eapply wp_mono; [apply (IH _ _ Er Hi); [intros x Hx; apply Hl; by right|apply u32_range]| |intros s' Hx; exact Hx].
  intros s' [o3 [n'|]] [-> Hr]; cbn [fst snd] in *; [|done]. split; [done|]. destruct Hr as (l'&Hl'&->&->). exists ((d_ref b, (c_info c, d_bytes b)) :: l').
  cbn [fmap list_fmap omap list_omap snd]. rewrite Hct, Hl'. split; [done|]. split.
  - rewrite Zlen_cons. unfold u32. rewrite Z.add_mod_idemp_l by lia. f_equal. lia.
  - unfold saved_entries, saved_entry, o1. cbn [fmap list_fmap concat fst snd o_bytes o_left]. unfold dh. rewrite !Zlen_app, <- !(assoc_L (++)). f_equal. lia.
Qed.

(** ** The file *)

Lemma saved_entries_len E l : Forall (fun y => storable E y.2) l -> 377 * Zlen l <= Zlen (saved_entries l).
Proof.
  induction l as [|[r x] l IH]; intros Hl; [done|]. inversion Hl as [|? ? (_&_&_&Hx) Hl']; subst. specialize (IH Hl'). cbn in Hx.
  unfold saved_entries, saved_entry in *. cbn [fmap list_fmap concat fst snd]. rewrite !Zlen_app, Zlen_cons.
  assert (Zlen (dns_cache_record x.1) = 352) as -> by (unfold Zlen; by rewrite record_len).
  assert (Zlen (dns_cache_data_head r (Zlen x.2)) = 24) as -> by (unfold Zlen; by rewrite data_head_len). lia.
Qed.

(** A file with the head [h] before the entries [l]: some of them are loaded, and
    all that the head counts when the head is whole and nothing fails. *)
Lemma file_read_spec E size s h l reads : loading size [] s [] -> Forall (fun y => storable E y.2) l -> NoDup (keys (snd <$> l)) ->
  Zlen l <= size -> length h = 48%nat -> uint_at h 40 4 <= Zlen l ->
  wp (dns_cache_load E (Some (h ++ saved_entries l)) reads) s
    (fun s' _ => loading size [] s' (take (Z.to_nat (uint_at h 40 4)) ((fun y => reload E y.2) <$> l)))
    (fun s' => (exists m, view s' = take m ((fun y => reload E y.2) <$> l)) /\
      (h = dns_cache_file dns_cache_file_version (Zlen l) -> Zlen l < 4294967296 -> Zlen (saved_entries l) < 1099511627776 ->
       ~ ((1 <= reads)%nat /\ no_failure E (reads - 1) (length l)))).
Proof.
  intros Hld Hst Hnd Hl Hh Hn. pose proof Hld as (_&Hv&_). pose proof (Zlen_nonneg (saved_entries l)). pose proof (Zlen_nonneg l).
  unfold dns_cache_load, _dns_cache_file_read. cbv zeta.
  assert (Zlen h = sizeof_dns_cache_file) as Hhz by (unfold Zlen; by rewrite Hh). unfold sizeof_dns_cache_file in *.
  assert (forall P : Prop, P -> (exists m, view s = take m ((fun y => reload E y.2) <$> l)) /\ P) as Hview by (intros P HP; split; [by exists 0%nat|done]).
  wp_step. wp_step; [|exfalso; rewrite Zlen_app in *; lia]. destruct reads as [|k]; [rewrite read_fails by done; wp_step; wp_step; [done|apply Hview; lia]|].
  destruct (read_ok (mk_fd (h ++ saved_entries l) 0 (S k)) h (saved_entries l) 48 k) as (f&->&Hf&Hk&Hfb&_); [by exists []|done|done|].
  wp_step. wp_step; [|done]. assert (forall n, 0 <= n < 4294967296 -> h = dns_cache_file dns_cache_file_version n ->
    uint_at h 0 8 = MAGIC_NUMBER /\ strncmp_eq (until_nul (bytes_at h 8 32)) dns_cache_file_version (Z.to_nat DNS_CACHE_VERSION_LEN) = true /\ uint_at h 40 4 = n) as Hhead.
  { intros n Hn' ->. by apply file_head_fields. }
  wp_step. wp_step; [|apply Hview; intros Hhd Hlt _; destruct (Hhead (Zlen l) ltac:(lia) Hhd) as (?&_&_); done].
  wp_step. wp_step; [|apply Hview; intros Hhd Hlt _; destruct (Hhead (Zlen l) ltac:(lia) Hhd) as (_&?&_); congruence].
  wp_step. wp_step.
  2: { apply Hview. intros Hhd Hlt Hbig. exfalso. destruct (Hhead (Zlen l) ltac:(lia) Hhd) as (_&_&Hnum). rewrite Zlen_app, Hhz in *.
       pose proof (saved_entries_len E l Hst). unfold sizeof_dns_cache_record, sizeof_dns_cache_data_head in *.
       replace (48 + Zlen (saved_entries l) - 48) with (Zlen (saved_entries l)) in * by lia. rewrite u32_small in * by (split; [apply Z.div_pos; lia|apply Z.div_lt_upper_bound; lia]).
       pose proof (Z.div_le_lower_bound (Zlen (saved_entries l)) (352 + 24 + 1) (Zlen l) ltac:(lia) ltac:(lia)). lia. }
  rewrite <- (app_nil_l (take _ _)). change (h ++ saved_entries l) with (f_bytes (mk_fd (h ++ saved_entries l) 0 (S k))). rewrite <- Hfb.
  eapply wp_mono; [apply (read_records_spec E size [] l _ 0 s [] f); [unfold Zlen in *; lia|done|done|done|done|by rewrite app_nil_r]|by intros s' [] Hld'|].
  intros s' [Hm Hnf]. split; [done|]. intros Hhd Hlt _ (_&Hr&Ha). apply Hnf. destruct (Hhead (Zlen l) ltac:(lia) Hhd) as (_&_&->). rewrite Hk.
  cbn in Hr. unfold Zlen. rewrite Nat2Z.id. split; [lia|done].
Qed.

(** A file that is too short, or without the magic number, changes nothing. *)
Lemma load_rejects E s file reads : (length file < 48)%nat \/ uint_at file 0 8 <> MAGIC_NUMBER -> dns_cache_load E (Some file) reads s = Fail s.
Proof.
  intros Hbad. cut (wp (dns_cache_load E (Some file) reads) s (fun _ _ => False) (fun s' => s' = s)).
  { unfold wp. destruct (dns_cache_load E (Some file) reads s); [done|by intros ->|done..]. }
  unfold dns_cache_load, _dns_cache_file_read. cbv zeta. wp_step. wp_step; [|done]. unfold sizeof_dns_cache_file, Zlen in *. destruct Hbad as [|Hm]; [lia|].
  unfold read. cbn [f_reads f_pos f_bytes]. destruct reads as [|k]; wp_step; (wp_step; [|done]); [done|].
  wp_step. wp_step; [|done]. exfalso. apply Hm. unfold uint_at, bytes_at in *. change (Z.to_nat 0) with 0%nat in *. change (Z.to_nat 48) with 48%nat in *.
  rewrite !drop_0, take_take in *. done.
Qed.

(** Bytes that are at most others give a number that is. *)
Lemma of_le_mono bs bs' : Forall2 (fun a b => 0 <= a <= b) bs bs' -> 0 <= of_le bs <= of_le bs'.
Proof. induction 1; cbn; [done|]. unfold of_le in *. lia. Qed.

(** A head of which only the first [k] bytes were written, before a gap. *)
Lemma partial_head n k : 0 <= n < 4294967296 -> (k <= 48)%nat ->
  let h := take k (dns_cache_file dns_cache_file_version n) ++ replicate (48 - k) 0 in length h = 48%nat /\ 0 <= uint_at h 40 4 <= n.
Proof.
  intros Hn Hk h. set (head := dns_cache_file dns_cache_file_version n) in *. pose proof (file_head_len dns_cache_file_version n : length head = 48%nat) as Hl.
  split; [unfold h; rewrite length_app, length_take, length_replicate; lia|].
  assert (Forall (fun b => 0 <= b) head) as Hpos.
  { assert (forall m (w : Z), Forall (fun b => 0 <= b) (le_bytes m w)) as Hle.
    { induction m; intros w; cbn; constructor; [apply Z.mod_pos_bound; lia|done]. }
    unfold head, dns_cache_file. repeat (apply Forall_app; split); try apply Hle. vm_compute. repeat constructor; discriminate. }
  destruct (file_head_fields n Hn) as (_&_&Hnum). fold head in Hnum. rewrite <- Hnum at 1. apply of_le_mono. unfold bytes_at. apply Forall2_take, Forall2_drop.
  unfold h. rewrite <- (take_drop k head) at 2. apply Forall2_app.
  - apply Forall_Forall2_diag, Forall_take. eapply Forall_impl; [exact Hpos|]. cbn. lia.
  - apply Forall2_replicate_l; [rewrite length_drop; lia|]. apply Forall_drop. eapply Forall_impl; [exact Hpos|]. cbn. lia.
Qed.

(** What a save writes: a head that may be cut off, before all the entries; or,
    when the disk was full, a file without a head. *)
Lemma save_spec size s v left : lru_sim size s v -> Zlen v < 4294967296 ->
  exists file ok, dns_cache_save 0 true true left s = Ok s (Some file, ok) /\
    ((ok = false /\ ((length file < 48)%nat \/ uint_at file 0 8 <> MAGIC_NUMBER)) \/
     exists (l : list (Z * (dns_cache_info * list Z))) h, snd <$> l = v /\ length h = 48%nat /\ 0 <= uint_at h 40 4 <= Zlen v /\ file = h ++ saved_entries l /\
       (ok = true -> h = dns_cache_file dns_cache_file_version (Zlen v))).
Proof.
  intros ([Hi _]&Hv&_) Hlt. pose proof (write_records_spec [] [] s (h_list s) (mk_out [] left) 0 (fun _ => False) Hi ltac:(done) ltac:(lia)) as Hw.
  unfold wp in Hw. unfold dns_cache_save, _dns_cache_write_records. cbn [Z.eqb andb negb bind get].
  destruct (_dns_cache_write_record (h_list s) (mk_out [] left) 0 s) as [s' [o n]| | |] eqn:Ew; try done. destruct Hw as [-> Hn].
  unfold bind, get. rewrite Ew. cbn [fst snd] in *. destruct n as [n|].
  2: { do 2 eexists. split; [done|]. left. split; [done|]. destruct (o_bytes o) as [|b0 bs]; [left; cbn; lia|right].
       unfold uint_at, bytes_at. rewrite drop_0, take_app_le by (rewrite length_replicate; lia). vm_compute. discriminate. }
  destruct Hn as (l&Hl&->&->). cbn [o_bytes o_left app]. change (omap (content s) (h_list s)) with (view s) in Hl. rewrite Hv in Hl.
  assert (Zlen (h_list s) = Zlen v) as Hlen by (unfold Zlen; by rewrite <- Hv, (view_len _ _ _ _ Hi)). rewrite Z.add_0_l, Hlen, u32_small by (pose proof (Zlen_nonneg v); lia).
  set (head := dns_cache_file dns_cache_file_version (Zlen v)). pose proof (file_head_len dns_cache_file_version (Zlen v) : length head = 48%nat) as Hhl.
  set (lf := left - _). set (w := take (Z.to_nat lf) head). assert (length w <= 48)%nat as Hwl by (unfold w; rewrite length_take; lia).
  do 2 eexists. split; [done|]. destruct (saved_entries l) as [|b0 bs] eqn:El.
  - assert (l = []) as ->. { destruct l as [|[r x] l]; [done|]. apply (f_equal length) in El. unfold saved_entries, saved_entry in El. cbn [fmap list_fmap concat fst snd] in El.
      rewrite !length_app, record_len in El. cbn [length] in El. lia. }
    rewrite drop_nil, app_nil_r. pose proof (Zlen_nonneg v). destruct (decide (length w = 48%nat)) as [H48|H48].
    + right. exists [], head. assert (w = head) as -> by (unfold w in *; rewrite length_take in H48; rewrite take_ge by lia; done).
      destruct (file_head_fields (Zlen v)) as (_&_&Hnum); [lia|]. fold head in Hnum. rewrite Hnum.
      split_and!; [done|done|lia|lia| |done]. change (saved_entries []) with (@nil Z). by rewrite app_nil_r.
    + left. split; [|left; lia]. unfold Zlen at 1. apply Z.leb_gt. unfold w in H48. rewrite length_take in H48. lia.
  - right. exists l, (w ++ replicate (48 - length w) 0). rewrite <- El in *. clear El. assert (w = take (length w) head) as Hwt.
    { unfold w. rewrite length_take. destruct (decide (Z.to_nat lf <= 48)%nat); [by rewrite Nat.min_l by lia|]. by rewrite Nat.min_r, !take_ge by lia. }
    destruct (partial_head (Zlen v) (length w)) as [Hpl Hpn]; [pose proof (Zlen_nonneg v); lia|done|]. fold head in Hpl, Hpn. rewrite <- Hwt in Hpl, Hpn.
    split_and!; [done|done|apply Hpn|apply Hpn| |].
    + rewrite drop_app_le by (rewrite length_replicate; lia). by rewrite drop_replicate, (assoc_L (++)).
    + intros Hok. apply Z.leb_le in Hok. unfold Zlen in Hok. rewrite Hhl in Hok. assert (w = head) as -> by (unfold w; apply take_ge; lia). rewrite Hhl. by rewrite app_nil_r.
Qed.

(** C15: the cache file survives: a cache that is saved and loaded into a new
    cache that has room has the same entries in the same order, with the same
    data, not visited; and whatever fails while the file is written or read, the
    disk being full included, the loader returns without undefined behaviour and
    what is loaded is the first of the entries. *)
Theorem cache_save_load E size size0 s v ts0 left reads :
  lru_sim size s v -> Forall (storable E) v -> Zlen v < 4294967296 -> 0 < size0 -> Zlen v <= size0 -> ts_inv ts0 -> (forall t, ts_pending t ts0 = false) ->
  let s0 := dns_cache_init size0 0 ts0 in
  exists file ok, dns_cache_save 0 true true left s = Ok s (Some file, ok) /\
    match dns_cache_load E (Some file) reads s0 with
    | Ok s' _ | Fail s' => exists m, view s' = take m (reload E <$> v)
    | _ => False
    end /\
    (ok = true -> Zlen file < 1099511627776 -> (1 <= reads)%nat -> no_failure E (reads - 1) (length v) ->
     exists s', dns_cache_load E (Some file) reads s0 = Ok s' tt /\ view s' = reload E <$> v).
Proof.
  intros Hsim Hst Hlt Hs0 Hl0 Hts Hp s0. destruct (save_spec size s v left Hsim Hlt) as (file&ok&Hsave&Hfile). exists file, ok. split; [done|].
  pose proof (init_sim size0 ts0 Hs0 Hts Hp : loading size0 [] s0 []) as Hld. destruct Hfile as [[-> Hbad]|(l&h&<-&Hh&Hn&->&Hok)].
  { rewrite (load_rejects E s0 file reads Hbad). split; [by exists 0%nat|done]. }
  assert (Forall (fun y : Z * _ => storable E y.2) l) as Hst' by exact (proj1 (Forall_fmap snd (storable E) l) Hst). pose proof Hsim as (_&_&Hnd&_).
  assert (Zlen (snd <$> l) = Zlen l) as Hzl by (unfold Zlen; by rewrite length_fmap). rewrite Hzl in *.
  pose proof (file_read_spec E size0 s0 h l reads Hld Hst' Hnd ltac:(lia) Hh ltac:(lia)) as Hw. unfold wp in Hw. rewrite <- list_fmap_compose, length_fmap.
  change (reload E ∘ snd) with (fun y : Z * (dns_cache_info * list Z) => reload E y.2).
  destruct (dns_cache_load E (Some (h ++ saved_entries l)) reads s0) as [s' []|s'| |]; try done.
  - destruct Hw as (_&Hv'&_). split; [by eexists|]. intros Hok' _ _ _. exists s'. split; [done|]. rewrite Hv', (Hok Hok').
    destruct (file_head_fields (Zlen l)) as (_&_&->); [pose proof (Zlen_nonneg l); lia|]. unfold Zlen. rewrite Nat2Z.id. apply take_ge. by rewrite length_fmap.
  - destruct Hw as [Hm Hnf]. split; [done|]. intros Hok' Hbig Hr Hfl. exfalso. apply (Hnf (Hok Hok') Hlt); [|done].
    rewrite Zlen_app in Hbig. pose proof (Zlen_nonneg h). lia.
Qed.

(** When the data of a record cannot be read, [_dns_cache_read_record] frees it
    with [dns_cache_data_put], which takes its size off [mem_size] although it was
    not added yet: the cache counts less memory than it uses from then on. *)
Theorem load_failure_loses_memory E k size s v f rest ref x :
  lru_sim size s v -> storable E x -> key_of x.1 ∉ keys v -> Zlen v + 1 <= size ->
  fd_at f (saved_entry ref x ++ rest) -> f_reads f = 2%nat -> e_zalloc E k = true ->
  read_one (_dns_cache_read_to_cache E k) true (Zlen (f_bytes f)) f s = Fail (set_mem (fun m => m - (Zlen x.2 + sizeof_dns_cache_data)) s).
Proof.
  intros Hsim Hst Hk Hl Hf Hr Hz. pose proof (read_one_spec E k size s v f rest ref x Hsim Hst Hk Hl Hf) as Hw. unfold wp in Hw. rewrite Hz in Hw.
  destruct (read_one _ _ _ f s) as [s' f'|s'| |]; [|destruct Hw as (_&_&Hs'); by rewrite (Hs' Hr eq_refl)|done..]. destruct Hw as (_&_&Hr'&_). lia.
Qed.

End CacheLoad.

(** ** Example, on the wheel *)

Definition ex_env : env := mk_env (fun _ => mk_conf true true 0 1000) 5030 (fun _ => 7) (fun _ => true) (fun _ => true).
Definition ex_insert : list lop := [LInsert [97] 1 [103] 0 0 60 10 300 [1; 2; 3] 5000].
Definition ex_item : dns_cache_info * list Z := (new_info [97] 1 [103] 0 0 60 10 300 5000, [1; 2; 3]).
Definition ex_saved : @cache_state tw_base :=
  match lrun ex_insert (dns_cache_init 10 0 (tw_init_timers 1000)) with Ok s _ => s | _ => dns_cache_init 10 0 (tw_init_timers 1000) end.

Lemma ex_saved_sim : lru_sim 10 ex_saved [ex_item].
Proof.
  assert (Forall lop_ok ex_insert) as Hok by (unfold ex_insert, lop_ok, cstring, delay_ok; repeat constructor; lia || done).
  pose proof (lrun_sim 10 ex_insert _ _ (init_sim 10 (tw_init_timers 1000) ltac:(lia) wheel_init_inv wheel_init_idle) Hok) as Hw.
  unfold wp in Hw. unfold ex_saved. destruct (lrun ex_insert (dns_cache_init 10 0 (tw_init_timers 1000))) as [s rs| | |]; [apply Hw|done..].
Qed.

Lemma ex_storable : storable ex_env ex_item.
Proof.
  unfold storable, info_ok, info_fits, timeout_ok, fits32, fits64, delay_ok. cbn. unfold Zlen. repeat split; try (cbn; lia); try (vm_compute; congruence).
  all: repeat constructor; lia.
Qed.

Lemma ex_no_failure : no_failure ex_env (4 - 1) (length [ex_item]).
Proof. split; [cbn; lia|]. by split. Qed.

(** Whether the save was successful, and the size of the file. *)
Definition saved_file {S} (r : res S (option (list Z) * bool)) : bool * Z :=
  match r with Ok _ (Some f, ok) => (ok, Zlen f) | _ => (false, 0) end.

Lemma cache_save_load_witness : exists file s', dns_cache_save 0 true true 1000 ex_saved = Ok ex_saved (Some file, true) /\
  dns_cache_load ex_env (Some file) 4 (dns_cache_init 5 0 (tw_init_timers 1000)) = Ok s' tt /\ view s' = [reload ex_env ex_item].
Proof.
  destruct (cache_save_load ex_env 10 5 ex_saved [ex_item] (tw_init_timers 1000) 1000 4 ex_saved_sim (Forall_cons_2 _ _ _ ex_storable (Forall_nil_2 _))) as (file&ok&Hs&_&Hl);
    [reflexivity|reflexivity|discriminate|apply wheel_init_inv|apply wheel_init_idle|].
  assert (saved_file (dns_cache_save 0 true true 1000 ex_saved) = (true, 427)) as Hf by (vm_compute; reflexivity).
  rewrite Hs in Hf. injection Hf as -> Hz. assert (Zlen file < 1099511627776) as Hlt by (rewrite Hz; reflexivity).
  destruct (Hl eq_refl Hlt ltac:(repeat constructor) ex_no_failure) as (s'&Hld&Hv). exists file, s'. split; [exact Hs|]. split; [exact Hld|exact Hv].
Defined.

(** The third read fails. *)
Lemma load_failure_loses_memory_witness :
  let f := mk_fd (saved_entry 1 ex_item) 0 2 in
  let s := dns_cache_init 5 0 (tw_init_timers 1000) in
  read_one (_dns_cache_read_to_cache ex_env 0) true (Zlen (f_bytes f)) f s = Fail (set_mem (fun m => m - 27) s).
Proof.
  intros f s. exact (load_failure_loses_memory ex_env 0 5 s [] f [] 1 ex_item (init_sim 5 (tw_init_timers 1000) ltac:(lia) wheel_init_inv wheel_init_idle)
    ex_storable (not_elem_of_nil _) ltac:(unfold Zlen; cbn; lia) (ex_intro _ [] (conj (eq_sym (app_nil_r _)) eq_refl)) eq_refl eq_refl).
Defined.
