(* ===== verification/DnsCachePrint.v ===== *)
(** * Printing the cache file (src/dns_cache.c)

    [_dns_cache_print] collects the addresses of a record in a buffer of 1024
    bytes.  [snprintf], [%d] and [inet_ntop] are those of the C library. *)

From Stdlib Require Import ZArith Lia.
From stdpp Require Import base list numbers option.
From S2P Require Import Prelude DnsTypes DnsName DnsRrs DnsRecord DnsDecode DnsEncode DnsCache DnsFindings.

(** ** The C library *)

(** [snprintf(buf + off, size, ...)] of a text: at most [size] bytes are written,
    the last of them a zero; the result is the length of the text. *)
Definition snprintf (buf : list Z) (off size : Z) (text : list Z) : option (list Z * Z) :=
  if size <=? 0 then Some (buf, Zlen text)
  else buf ← wr_bytes buf off (take (Z.to_nat (size - 1)) text ++ [0]); Some (buf, Zlen text).

(** [%d] of a byte, [%x] of a word of 16 bits. *)
Definition digits_d (n : Z) : list Z :=
  if n <? 10 then [48 + n] else if n <? 100 then [48 + n / 10; 48 + n mod 10] else [48 + n / 100; 48 + (n / 10) mod 10; 48 + n mod 10].
Definition digit_x (n : Z) : Z := if n <? 10 then 48 + n else 87 + n.
Definition digits_x (n : Z) : list Z :=
  let ds := [n / 4096; (n / 256) mod 16; (n / 16) mod 16; n mod 16] in
  digit_x <$> (if n <? 16 then drop 3 ds else if n <? 256 then drop 2 ds else if n <? 4096 then drop 1 ds else ds).

(** ["%d.%d.%d.%d"] *)
Definition text_ipv4 (a b c d : Z) : list Z := digits_d a ++ [46] ++ digits_d b ++ [46] ++ digits_d c ++ [46] ++ digits_d d.

(** The longest run of zero words, the first of them; at least two. *)
Fixpoint zero_runs (words : list Z) (i : nat) (cur best : option (nat * nat)) : option (nat * nat) :=
  let longer := match cur, best with
    | Some (b, n), Some (_, m) => if (m <? n)%nat then cur else best
    | Some _, None => cur
    | None, _ => best
    end in
  match words with
  | [] => longer
  | w :: words =>
    if w =? 0 then zero_runs words (S i) (match cur with Some (b, n) => Some (b, S n) | None => Some (i, 1%nat) end) best
    else zero_runs words (S i) None longer
  end.

Definition best_run (words : list Z) : option (nat * nat) :=
  match zero_runs words 0 None None with
  | Some (b, n) => if (n <? 2)%nat then None else Some (b, n)
  | None => None
  end.

(** [inet_ntop(AF_INET6, ...)] from the word [i] on; [ipv4] are the last four
    bytes. *)
Fixpoint ntop6 (words : list Z) (i : nat) (best : option (nat * nat)) (ffff : bool) (ipv4 : list Z) : list Z :=
  match words with
  | [] => match best with Some (b, n) => if (b + n =? 8)%nat then [58] else [] | None => [] end
  | w :: words =>
    match best with
    | Some (b, n) =>
      if (b <=? i)%nat && (i <? b + n)%nat then (if (i =? b)%nat then [58] else []) ++ ntop6 words (S i) best ffff ipv4
      else
        (if (i =? 0)%nat then [] else [58]) ++
        (if (i =? 6)%nat && (b =? 0)%nat && ((n =? 6)%nat || ((n =? 5)%nat && ffff)) then ipv4
         else digits_x w ++ ntop6 words (S i) best ffff ipv4)
    | None => (if (i =? 0)%nat then [] else [58]) ++ digits_x w ++ ntop6 words (S i) best ffff ipv4
    end
  end.

Fixpoint words_of (bs : list Z) : list Z :=
  match bs with
  | a :: b :: bs => a * 256 + b :: words_of bs
  | _ => []
  end.

Definition inet_ntop6 (addr : list Z) : list Z :=
  let words := words_of addr in
  match drop 12 addr with
  | [a; b; c; d] => ntop6 words 0 (best_run words) (nth 5 words 0 =? 65535) (text_ipv4 a b c d)
  | _ => []
  end.

(** ** Printing *)

(** [req_result] and the variables of the loops. *)
Record print_state := mk_ps { req_result : list Z; total_len : Z; left_len : Z; ip_num : Z; has_result : bool }.

(** [", result: "] *)
Definition result_prefix : list Z := [44; 32; 114; 101; 115; 117; 108; 116; 58; 32].

(** One address. *)
Definition print_address (text : list Z) : M print_state unit :=
  ps <- get ;;
  let text := (if 0 <? ip_num ps then [44; 32] else []) ++ text in
  r <- access (snprintf (req_result ps) (total_len ps) (left_len ps) text) ;;
  let len := r.2 in
  if (len <? 0) || (left_len ps <=? len) then put (mk_ps r.1 (total_len ps) 0 (ip_num ps + 1) true)
  else put (mk_ps r.1 (total_len ps + len) (left_len ps - len) (ip_num ps + 1) true).

(** The body of the inner loop. *)
Definition print_rr (packet : dns_packet) (rrs : dns_rrs) : M print_state unit :=
  if rrs_type rrs =? DNS_T_A then
    match dns_get_A packet rrs DNS_MAX_CNAME_LEN with
    | Ok _ (_, _, raw) => match raw with [a; b; c; d] => print_address (text_ipv4 a b c d) | _ => ub end
    | Fail _ => ret tt
    | UB => ub
    | Diverged => ub
    end
  else if rrs_type rrs =? DNS_T_AAAA then
    match dns_get_AAAA packet rrs DNS_MAX_CNAME_LEN with
    | Ok _ (_, _, raw) => if Zlen raw =? 16 then print_address (inet_ntop6 raw) else ub
    | Fail _ => ret tt
    | UB => ub
    | Diverged => ub
    end
  else ret tt.

Fixpoint print_rrs (packet : dns_packet) (count : nat) (rrs : option Z) : M print_state unit :=
  match count, rrs with
  | S count, Some off =>
    ps <- get ;;
    if 0 <? left_len ps then
      r <- access (rd_rrs (p_data packet) off) ;;
      print_rr packet r ;;
      print_rrs packet count (dns_get_rrs_next r)
    else ret tt
  | _, _ => ret tt
  end.

Definition print_section (packet : dns_packet) (type : dns_rr_type) : M print_state unit :=
  match dns_get_rrs_start packet type with
  | Some (rr_count, rrs) => print_rrs packet (Z.to_nat rr_count) rrs
  | None => ret tt
  end.

(** The text after the fields of the record; [addr] is the address of [buff]. *)
Definition _dns_cache_print (qtype addr : Z) (data : list Z) : res print_state (list Z) :=
  (if (qtype =? DNS_T_A) || (qtype =? DNS_T_AAAA) then
    match dns_decode addr DNS_PACKSIZE data (Zlen data) with
    | Ok s _ =>
      ps <- get ;;
      r <- access (snprintf (req_result ps) 0 (left_len ps) result_prefix) ;;
      put (mk_ps r.1 r.2 (left_len ps) 0 false) ;;
      print_section s.2 DNS_RRS_AN ;;
      print_section s.2 DNS_RRS_NS ;;
      print_section s.2 DNS_RRS_NR ;;
      ps <- get ;;
      ret (if has_result ps then until_nul (req_result ps) else [])
    | Fail _ => ret []
    | _ => ub
    end
   else ret []) (mk_ps (replicate 1024 0) 0 1024 0 false).

(** ** When the buffer is large enough *)

(** The text of the address of a record; none, when the record is skipped. *)
Definition rr_address (packet : dns_packet) (rrs : dns_rrs) : option (option (list Z)) :=
  if rrs_type rrs =? DNS_T_A then
    match dns_get_A packet rrs DNS_MAX_CNAME_LEN with Ok _ (_, _, [a; b; c; d]) => Some (Some (text_ipv4 a b c d)) | Fail _ => Some None | _ => None end
  else if rrs_type rrs =? DNS_T_AAAA then
    match dns_get_AAAA packet rrs DNS_MAX_CNAME_LEN with Ok _ (_, _, raw) => if Zlen raw =? 16 then Some (Some (inet_ntop6 raw)) else None | Fail _ => Some None | _ => None end
  else Some None.

(** The addresses of a list of records, of a section and of a message. *)
Fixpoint rrs_addresses (packet : dns_packet) (count : nat) (rrs : option Z) : option (list (list Z)) :=
  match count, rrs with
  | S count, Some off => r ← rd_rrs (p_data packet) off; t ← rr_address packet r; l ← rrs_addresses packet count (dns_get_rrs_next r); Some (option_list t ++ l)
  | _, _ => Some []
  end.
Definition section_addresses (packet : dns_packet) (type : dns_rr_type) : option (list (list Z)) :=
  match dns_get_rrs_start packet type with Some (rr_count, rrs) => rrs_addresses packet (Z.to_nat rr_count) rrs | None => Some [] end.
Definition packet_addresses (packet : dns_packet) : option (list (list Z)) :=
  l1 ← section_addresses packet DNS_RRS_AN; l2 ← section_addresses packet DNS_RRS_NS; l3 ← section_addresses packet DNS_RRS_NR; Some (l1 ++ l2 ++ l3).

(** The text that should be in the buffer, after [n] addresses. *)
Fixpoint joined (n : Z) (l : list (list Z)) : list Z :=
  match l with
  | [] => []
  | text :: l => (if 0 <? n then [44; 32] else []) ++ text ++ joined (n + 1) l
  end.

(** The buffer holds [text], and [left_len] is too large by the length of the
    prefix. *)
Definition printing (text : list Z) (n : Z) (ps : print_state) : Prop :=
  Zlen (req_result ps) = 1024 /\ total_len ps = Zlen text /\ total_len ps + left_len ps = 1034 /\ total_len ps < 1024 /\
  ip_num ps = n /\ 0 <= n /\ has_result ps = (0 <? n) /\ take (length text) (req_result ps) = text.

Lemma snprintf_fits buf off size text : 0 <= off -> Zlen text < size -> off + Zlen text < Zlen buf ->
  exists buf', snprintf buf off size text = Some (buf', Zlen text) /\ Zlen buf' = Zlen buf /\
    take (Z.to_nat off + length text) buf' = take (Z.to_nat off) buf ++ text.
Proof.
  intros Ho Hs Hb. pose proof (Zlen_nonneg text). unfold snprintf. destruct (Z.leb_spec size 0); [lia|]. rewrite take_ge by (unfold Zlen in *; lia).
  destruct (wr_bytes_ex buf off (text ++ [0])) as [buf' Hw]; [done|rewrite Zlen_app; cbn; unfold Zlen in *; cbn; lia|]. rewrite Hw. exists buf'. split; [done|].
  pose proof (wr_bytes_len _ _ _ _ Hw) as Hl. split; [done|]. apply wr_bytes_Some in Hw as (_&Hle&->).
  rewrite take_app_add' by (rewrite length_take; unfold Zlen in *; lia). f_equal. by rewrite <- (assoc_L (++)), take_app_length.
Qed.

Lemma snprintf_out buf off size text : 0 < size -> Zlen buf < off + Z.min (Zlen text) (size - 1) + 1 -> snprintf buf off size text = None.
Proof.
  intros Hs Hb. unfold snprintf. destruct (Z.leb_spec size 0); [lia|]. destruct (wr_bytes buf off _) as [buf'|] eqn:Hw; [|done].
  apply wr_bytes_Some in Hw as (_&Hle&_). rewrite Zlen_app in Hle. unfold Zlen in *. rewrite length_take in Hle. cbn in Hle. lia.
Qed.

(** One more address. *)
Lemma print_address_spec text n ps t : printing text n ps ->
  let t' := (if 0 <? n then [44; 32] else []) ++ t in
  if Zlen text + Zlen t' <? 1024 then exists ps', print_address t ps = Ok ps' tt /\ printing (text ++ t') (n + 1) ps' else print_address t ps = UB.
Proof.
  intros (Hb&Ht&Hl&Hlt&Hn&Hn0&Hr&Htk) t'. pose proof (Zlen_nonneg t'). pose proof (Zlen_nonneg text).
  unfold print_address, bind, get, access, put. rewrite Hn. fold t'. destruct (Z.ltb_spec (Zlen text + Zlen t') 1024) as [Hfit|Hout]; [|by rewrite snprintf_out by lia].
  destruct (snprintf_fits (req_result ps) (total_len ps) (left_len ps) t') as (buf&->&Hbl&Hbt); [lia..|]. cbn [fst snd].
  rewrite (proj2 (Z.ltb_ge (Zlen t') 0)), (proj2 (Z.leb_gt (left_len ps) (Zlen t'))) by lia. cbn [orb]. eexists. split; [done|].
  split_and!; cbn [req_result total_len left_len ip_num has_result]; try lia; [rewrite Zlen_app; lia|].
  rewrite length_app. rewrite Ht in Hbt. unfold Zlen in Hbt. rewrite Nat2Z.id in Hbt. by rewrite Hbt, Htk.
Qed.

(** After some more addresses. *)
Definition printed (text : list Z) (n : Z) (l : list (list Z)) (r : res print_state unit) : Prop :=
  if Zlen text + Zlen (joined n l) <? 1024 then exists ps', r = Ok ps' tt /\ printing (text ++ joined n l) (n + Zlen l) ps' else r = UB.

Lemma joined_app n l l' : joined n (l ++ l') = joined n l ++ joined (n + Zlen l) l'.
Proof.
  revert n. induction l as [|t l IH]; intros n; [cbn [app joined]; by rewrite Zlen_nil, Z.add_0_r|]. cbn [app joined]. rewrite IH, Zlen_cons, <- !(assoc_L (++)). by rewrite Z.add_assoc.
Qed.

(** One loop after the other. *)
Lemma printed_bind text n l l' (m m' : M print_state unit) ps : printed text n l (m ps) -> (forall ps', printing (text ++ joined n l) (n + Zlen l) ps' -> printed (text ++ joined n l) (n + Zlen l) l' (m' ps')) ->
  printed text n (l ++ l') ((m ;; m') ps).
Proof.
  unfold printed, bind. intros Hm Hm'. rewrite joined_app, !Zlen_app, Z.add_assoc. pose proof (Zlen_nonneg (joined (n + Zlen l) l')). destruct (Z.ltb_spec (Zlen text + Zlen (joined n l)) 1024).
  - destruct Hm as (ps1&->&Hp1). specialize (Hm' ps1 Hp1). rewrite Zlen_app in Hm'. destruct (_ <? 1024); [|done]. destruct Hm' as (ps2&->&Hp2). exists ps2. by rewrite (assoc_L (++)), Z.add_assoc.
  - rewrite Hm. destruct (Z.ltb_spec (Zlen text + Zlen (joined n l) + Zlen (joined (n + Zlen l) l')) 1024); [lia|done].
Qed.

Lemma printed_none text n ps : printing text n ps -> printed text n [] (Ok ps tt).
Proof. intros Hp. unfold printed. cbn [joined]. rewrite Zlen_nil, !Z.add_0_r, app_nil_r. pose proof Hp as (_&?&_&?&_). destruct (Z.ltb_spec (Zlen text) 1024); [|lia]. by exists ps. Qed.

Lemma print_rr_spec packet r t text n ps : printing text n ps -> rr_address packet r = Some t -> printed text n (option_list t) (print_rr packet r ps).
Proof.
  intros Hp Ht. assert (forall t, printed text n [t] (print_address t ps)) as Hone.
  { intros x. pose proof (print_address_spec text n ps x Hp) as Ha. cbv zeta in Ha. unfold printed. cbn [joined]. rewrite app_nil_r. exact Ha. }
  unfold rr_address, print_rr in *. destruct (rrs_type r =? DNS_T_A); [|destruct (rrs_type r =? DNS_T_AAAA)].
  - destruct (dns_get_A packet r DNS_MAX_CNAME_LEN) as [? [[? ?] raw]|?| |]; try done; [|injection Ht as <-; by apply printed_none]. destruct raw as [|a [|b [|c [|d [|]]]]]; try done. injection Ht as <-. apply Hone.
  - destruct (dns_get_AAAA packet r DNS_MAX_CNAME_LEN) as [? [[? ?] raw]|?| |]; try done; [|injection Ht as <-; by apply printed_none]. destruct (Zlen raw =? 16); [|done]. injection Ht as <-. apply Hone.
  - injection Ht as <-. by apply printed_none.
Qed.

Lemma print_rrs_spec packet count rrs l text n ps : printing text n ps -> rrs_addresses packet count rrs = Some l -> printed text n l (print_rrs packet count rrs ps).
Proof.
  revert rrs l text n ps. induction count as [|count IH]; intros rrs l text n ps Hp Hl; cbn [rrs_addresses print_rrs] in *; [injection Hl as <-; by apply printed_none|]. destruct rrs as [off|]; [|injection Hl as <-; by apply printed_none].
  destruct (rd_rrs (p_data packet) off) as [r|] eqn:Er; [|done]. cbn [mbind option_bind] in Hl. destruct (rr_address packet r) as [t|] eqn:Et; [|done]. cbn [mbind option_bind] in Hl. destruct (rrs_addresses packet count (dns_get_rrs_next r)) as [l'|] eqn:El; [|done]. injection Hl as <-.
  assert (0 <? left_len ps = true) as Hleft by (apply Z.ltb_lt; destruct Hp as (_&_&?&?&_); lia). pose proof (printed_bind text n (option_list t) l' (print_rr packet r) (print_rrs packet count (dns_get_rrs_next r)) ps (print_rr_spec _ _ _ _ _ _ Hp Et) (fun ps' Hp' => IH _ _ _ _ _ Hp' El)) as Hb.
  unfold bind, get, access in *. cbv beta iota. rewrite Hleft. exact Hb.
Qed.

Lemma print_section_spec packet type l text n ps : printing text n ps -> section_addresses packet type = Some l -> printed text n l (print_section packet type ps).
Proof.
  intros Hp Hl. unfold section_addresses, print_section in *. destruct (dns_get_rrs_start packet type) as [[count rrs]|]; [by apply print_rrs_spec|]. injection Hl as <-. by apply printed_none.
Qed.

(** The three sections. *)
Lemma print_packet_spec packet l ps : printing result_prefix 0 ps -> packet_addresses packet = Some l -> printed result_prefix 0 l ((print_section packet DNS_RRS_AN ;; print_section packet DNS_RRS_NS ;; print_section packet DNS_RRS_NR) ps).
Proof.
  intros Hp Hl. unfold packet_addresses in Hl. destruct (section_addresses packet DNS_RRS_AN) as [l1|] eqn:E1; [|done]. cbn [mbind option_bind] in Hl. destruct (section_addresses packet DNS_RRS_NS) as [l2|] eqn:E2; [|done]. cbn [mbind option_bind] in Hl. destruct (section_addresses packet DNS_RRS_NR) as [l3|] eqn:E3; [|done]. injection Hl as <-.
  apply (printed_bind _ _ l1 (l2 ++ l3)); [by apply print_section_spec|]. intros ps1 Hp1. apply (printed_bind _ _ l2 l3); [by apply print_section_spec|]. intros ps2 Hp2. by apply print_section_spec.
Qed.

(** C37: printing a cached message of the type A or AAAA writes behind the buffer exactly
    when the texts of its addresses, the commas between them and the ten bytes of
    ", result: " take 1024 bytes or more: [left_len] is not reduced by the prefix, so that
    up to ten bytes are written behind the buffer.  When they fit, the buffer starts with
    the prefix and the addresses, separated by commas, and the text up to its first zero
    byte is printed, or nothing when there is no address. *)
Theorem print_addresses_bounds qtype addr data c p l : qtype = DNS_T_A \/ qtype = DNS_T_AAAA -> dns_decode addr DNS_PACKSIZE data (Zlen data) = Ok (c, p) tt -> packet_addresses p = Some l ->
  if 10 + Zlen (joined 0 l) <? 1024 then
    exists ps, _dns_cache_print qtype addr data = Ok ps (match l with [] => [] | _ => until_nul (req_result ps) end) /\ Zlen (req_result ps) = 1024 /\ exists rest, req_result ps = result_prefix ++ joined 0 l ++ rest
  else _dns_cache_print qtype addr data = UB.
Proof.
  intros Hq Hdec Hl. unfold _dns_cache_print. assert ((qtype =? DNS_T_A) || (qtype =? DNS_T_AAAA) = true) as -> by (by destruct Hq as [->| ->]). rewrite Hdec. cbn [snd].
  set (ps0 := mk_ps (result_prefix ++ replicate 1014 0) 10 1024 0 false). assert (printing result_prefix 0 ps0) as H0 by (split_and!; vm_compute; congruence). pose proof (print_packet_spec p l ps0 H0 Hl) as Hp. unfold printed in Hp. change (Zlen result_prefix) with 10 in Hp.
  assert (snprintf (replicate 1024 0) 0 1024 result_prefix = Some (req_result ps0, 10)) as Hs by (vm_compute; reflexivity). unfold bind, get, access, put in *. cbn [req_result left_len] in *. rewrite Hs. cbn [fst snd]. change (mk_ps (req_result ps0) 10 1024 0 false) with ps0.
  destruct (10 + Zlen (joined 0 l) <? 1024).
  - destruct Hp as (ps'&Hrun&Hb&_&_&_&_&_&Hr&Htk). destruct (print_section p DNS_RRS_AN ps0) as [ps1 []| | |]; try done. destruct (print_section p DNS_RRS_NS ps1) as [ps2 []| | |]; try done. cbv beta iota. rewrite Hrun. exists ps'. unfold ret. split_and!; [|done|].
    + rewrite Hr. destruct l as [|t l]; [done|]. rewrite Zlen_cons. pose proof (Zlen_nonneg l). destruct (Z.ltb_spec 0 (0 + (1 + Zlen l))); [done|lia].
    + eexists. rewrite (assoc_L (++)), <- Htk at 1. symmetry. apply take_drop.
  - destruct (print_section p DNS_RRS_AN ps0) as [ps1 []| | |]; try done. destruct (print_section p DNS_RRS_NS ps1) as [ps2 []| | |]; try done. cbv beta iota. by rewrite Hp.
Qed.

(** A message with [n] addresses ffff:ffff:ffff:ffff:ffff:ffff:ffff:ffff. *)
Definition ex_message (n : nat) : option (list Z) :=
  p ← Nat.iter n (run (dns_add_AAAA DNS_RRS_AN [97] 60 (replicate 16 255))) (run (dns_add_domain [97] DNS_T_AAAA DNS_C_IN) (dns_packet_init 4096 1536 zero_head));
  encoded 1024 p.

(** The length of the text of its addresses. *)
Definition ex_length (n : nat) : option Z :=
  m ← ex_message n; match dns_decode 4096 DNS_PACKSIZE m (Zlen m) with Ok s _ => l ← packet_addresses s.2; Some (Zlen (joined 0 l)) | _ => None end.

Lemma ex_length_inv n k : ex_length n = Some k -> exists m c p l, ex_message n = Some m /\ dns_decode 4096 DNS_PACKSIZE m (Zlen m) = Ok (c, p) tt /\ packet_addresses p = Some l /\ Zlen (joined 0 l) = k.
Proof.
  unfold ex_length. destruct (ex_message n) as [m|]; [|done]. cbn [mbind option_bind]. destruct (dns_decode 4096 DNS_PACKSIZE m (Zlen m)) as [[c p] []|?| |] eqn:Ed; try done. cbn [snd]. destruct (packet_addresses p) as [l|] eqn:El; [|done]. intros [= <-]. by exists m, c, p, l.
Qed.

(** 24 addresses fit, and 25 do not. *)
Lemma print_addresses_bounds_witness : (exists m ps, ex_message 24 = Some m /\ _dns_cache_print DNS_T_AAAA 4096 m = Ok ps (until_nul (req_result ps))) /\
  exists m, ex_message 25 = Some m /\ _dns_cache_print DNS_T_AAAA 4096 m = UB.
Proof.
  split.
  - destruct (ex_length_inv 24 982) as (m&c&p&l&Hm&Hd&Hl&Hz); [vm_compute; reflexivity|]. pose proof (print_addresses_bounds DNS_T_AAAA 4096 m c p l (or_intror eq_refl) Hd Hl) as H. rewrite Hz in H. destruct H as (ps&Hp&_). exists m, ps. split; [exact Hm|]. rewrite Hp. destruct l; [discriminate Hz|reflexivity].
  - destruct (ex_length_inv 25 1023) as (m&c&p&l&Hm&Hd&Hl&Hz); [vm_compute; reflexivity|]. pose proof (print_addresses_bounds DNS_T_AAAA 4096 m c p l (or_intror eq_refl) Hd Hl) as H. rewrite Hz in H. exists m. split; [exact Hm|exact H].
Defined.

(** A cache file with a record of 25 addresses makes [dns_cache_print] write
    behind its buffer: the record is decoded, and printing it is undefined
    behaviour. *)
Theorem cache_print_overflow :
  (m ← ex_message 25; Some (is_ub (_dns_cache_print DNS_T_AAAA 4096 m))) = Some true.
Proof. vm_compute. reflexivity. Qed.
