(* ===== verification/Hpack.v ===== *)
(** * HPACK (src/http_parse/hpack.c)

    The header compression of HTTP/2 (RFC 7541): integers, strings with their
    Huffman code, the static and the dynamic table, and the encoder and decoder of
    header blocks.

    A buffer that is written is the state of the monad; a block that is read is an
    argument.  [malloc_ok] says whether memory can be allocated in a call: all its
    allocations succeed or all fail.  Strings are C strings: a decoded string ends at
    its first zero byte for the code that uses it. *)

From Stdlib Require Import ZArith Lia Ascii String.
From stdpp Require Import base list numbers option.
From S2P Require Import Prelude.

(** The bytes of a string. *)
Fixpoint bytes (s : string) : list Z :=
  match s with
  | EmptyString => []
  | String c s => Z.of_nat (nat_of_ascii c) :: bytes s
  end.

(** ** Tables *)

Definition hpack_static_table : list (list Z * list Z) :=
  [(bytes ":authority", []);
   (bytes ":method", bytes "GET");
   (bytes ":method", bytes "POST");
   (bytes ":path", bytes "/");
   (bytes ":path", bytes "/index.html");
   (bytes ":scheme", bytes "http");
   (bytes ":scheme", bytes "https");
   (bytes ":status", bytes "200");
   (bytes ":status", bytes "204");
   (bytes ":status", bytes "206");
   (bytes ":status", bytes "304");
   (bytes ":status", bytes "400");
   (bytes ":status", bytes "404");
   (bytes ":status", bytes "500");
   (bytes "accept-charset", []);
   (bytes "accept-encoding", bytes "gzip, deflate");
   (bytes "accept-language", []);
   (bytes "accept-ranges", []);
   (bytes "accept", []);
   (bytes "access-control-allow-origin", []);
   (bytes "age", []);
   (bytes "allow", []);
   (bytes "authorization", []);
   (bytes "cache-control", []);
   (bytes "content-disposition", []);
   (bytes "content-encoding", []);
   (bytes "content-language", []);
   (bytes "content-length", []);
   (bytes "content-location", []);
   (bytes "content-range", []);
   (bytes "content-type", []);
   (bytes "cookie", []);
   (bytes "date", []);
   (bytes "etag", []);
   (bytes "expect", []);
   (bytes "expires", []);
   (bytes "from", []);
   (bytes "host", []);
   (bytes "if-match", []);
   (bytes "if-modified-since", []);
   (bytes "if-none-match", []);
   (bytes "if-range", []);
   (bytes "if-unmodified-since", []);
   (bytes "last-modified", []);
   (bytes "link", []);
   (bytes "location", []);
   (bytes "max-forwards", []);
   (bytes "proxy-authenticate", []);
   (bytes "proxy-authorization", []);
   (bytes "range", []);
   (bytes "referer", []);
   (bytes "refresh", []);
   (bytes "retry-after", []);
   (bytes "server", []);
   (bytes "set-cookie", []);
   (bytes "strict-transport-security", []);
   (bytes "transfer-encoding", []);
   (bytes "user-agent", []);
   (bytes "vary", []);
   (bytes "via", []);
   (bytes "www-authenticate", [])].

Definition HPACK_STATIC_TABLE_SIZE : Z := 61.
Definition HPACK_MAX_DYNAMIC_TABLE_SIZE : Z := 65536.

(** Code, length of the code, symbol. *)
Record huffman_decode_entry := mk_huff { hf_bits : Z; hf_nbits : Z; hf_symbol : Z }.

Definition huffman_table : list huffman_decode_entry :=
  [mk_huff 0 5 48; mk_huff 1 5 49; mk_huff 2 5 50; mk_huff 3 5 97; mk_huff 4 5 99;
   mk_huff 5 5 101; mk_huff 6 5 105; mk_huff 7 5 111; mk_huff 8 5 115; mk_huff 9 5 116;
   mk_huff 20 6 32; mk_huff 21 6 37; mk_huff 22 6 45; mk_huff 23 6 46; mk_huff 24 6 47;
   mk_huff 25 6 51; mk_huff 26 6 52; mk_huff 27 6 53; mk_huff 28 6 54; mk_huff 29 6 55;
   mk_huff 30 6 56; mk_huff 31 6 57; mk_huff 32 6 61; mk_huff 33 6 65; mk_huff 34 6 95;
   mk_huff 35 6 98; mk_huff 36 6 100; mk_huff 37 6 102; mk_huff 38 6 103; mk_huff 39 6 104;
   mk_huff 40 6 108; mk_huff 41 6 109; mk_huff 42 6 110; mk_huff 43 6 112; mk_huff 44 6 114;
   mk_huff 45 6 117; mk_huff 92 7 58; mk_huff 93 7 66; mk_huff 94 7 67; mk_huff 95 7 68;
   mk_huff 96 7 69; mk_huff 97 7 70; mk_huff 98 7 71; mk_huff 99 7 72; mk_huff 100 7 73;
   mk_huff 101 7 74; mk_huff 102 7 75; mk_huff 103 7 76; mk_huff 104 7 77; mk_huff 105 7 78;
   mk_huff 106 7 79; mk_huff 107 7 80; mk_huff 108 7 81; mk_huff 109 7 82; mk_huff 110 7 83;
   mk_huff 111 7 84; mk_huff 112 7 85; mk_huff 113 7 86; mk_huff 114 7 87; mk_huff 115 7 89;
   mk_huff 116 7 106; mk_huff 117 7 107; mk_huff 118 7 113; mk_huff 119 7 118; mk_huff 120 7 119;
   mk_huff 121 7 120; mk_huff 122 7 121; mk_huff 123 7 122; mk_huff 248 8 38; mk_huff 249 8 42;
   mk_huff 250 8 44; mk_huff 251 8 59; mk_huff 252 8 88; mk_huff 253 8 90; mk_huff 1016 10 33;
   mk_huff 1017 10 34; mk_huff 1018 10 40; mk_huff 1019 10 41; mk_huff 1020 10 63; mk_huff 2042 11 39;
   mk_huff 2043 11 43; mk_huff 2044 11 124; mk_huff 4090 12 35; mk_huff 4091 12 62; mk_huff 8184 13 0;
   mk_huff 8185 13 36; mk_huff 8186 13 64; mk_huff 8187 13 91; mk_huff 8188 13 93; mk_huff 8189 13 126;
   mk_huff 16380 14 94; mk_huff 16381 14 125; mk_huff 32764 15 60; mk_huff 32765 15 96; mk_huff 32766 15 123;
   mk_huff 524272 19 92; mk_huff 524273 19 195; mk_huff 524274 19 208; mk_huff 1048550 20 128; mk_huff 1048551 20 130;
   mk_huff 1048552 20 131; mk_huff 1048553 20 162; mk_huff 1048554 20 184; mk_huff 1048555 20 194; mk_huff 1048556 20 224;
   mk_huff 1048557 20 226; mk_huff 2097116 21 153; mk_huff 2097117 21 161; mk_huff 2097118 21 167; mk_huff 2097119 21 172;
   mk_huff 2097120 21 176; mk_huff 2097121 21 177; mk_huff 2097122 21 179; mk_huff 2097123 21 209; mk_huff 2097124 21 216;
   mk_huff 2097125 21 217; mk_huff 2097126 21 227; mk_huff 2097127 21 229; mk_huff 2097128 21 230; mk_huff 4194258 22 129;
   mk_huff 4194259 22 132; mk_huff 4194260 22 133; mk_huff 4194261 22 134; mk_huff 4194262 22 136; mk_huff 4194263 22 146;
   mk_huff 4194264 22 154; mk_huff 4194265 22 156; mk_huff 4194266 22 160; mk_huff 4194267 22 163; mk_huff 4194268 22 164;
   mk_huff 4194269 22 169; mk_huff 4194270 22 170; mk_huff 4194271 22 173; mk_huff 4194272 22 178; mk_huff 4194273 22 181;
   mk_huff 4194274 22 185; mk_huff 4194275 22 186; mk_huff 4194276 22 187; mk_huff 4194277 22 189; mk_huff 4194278 22 190;
   mk_huff 4194279 22 196; mk_huff 4194280 22 198; mk_huff 4194281 22 228; mk_huff 4194282 22 232; mk_huff 4194283 22 233;
   mk_huff 8388568 23 1; mk_huff 8388569 23 135; mk_huff 8388570 23 137; mk_huff 8388571 23 138; mk_huff 8388572 23 139;
   mk_huff 8388573 23 140; mk_huff 8388574 23 141; mk_huff 8388575 23 143; mk_huff 8388576 23 147; mk_huff 8388577 23 149;
   mk_huff 8388578 23 150; mk_huff 8388579 23 151; mk_huff 8388580 23 152; mk_huff 8388581 23 155; mk_huff 8388582 23 157;
   mk_huff 8388583 23 158; mk_huff 8388584 23 165; mk_huff 8388585 23 166; mk_huff 8388586 23 168; mk_huff 8388587 23 174;
   mk_huff 8388588 23 175; mk_huff 8388589 23 180; mk_huff 8388590 23 182; mk_huff 8388591 23 183; mk_huff 8388592 23 188;
   mk_huff 8388593 23 191; mk_huff 8388594 23 197; mk_huff 8388595 23 231; mk_huff 8388596 23 239; mk_huff 16777194 24 9;
   mk_huff 16777195 24 142; mk_huff 16777196 24 144; mk_huff 16777197 24 145; mk_huff 16777198 24 148; mk_huff 16777199 24 159;
   mk_huff 16777200 24 171; mk_huff 16777201 24 206; mk_huff 16777202 24 215; mk_huff 16777203 24 225; mk_huff 16777204 24 236;
   mk_huff 16777205 24 237; mk_huff 33554412 25 199; mk_huff 33554413 25 207; mk_huff 33554414 25 234; mk_huff 33554415 25 235;
   mk_huff 67108832 26 192; mk_huff 67108833 26 193; mk_huff 67108834 26 200; mk_huff 67108835 26 201; mk_huff 67108836 26 202;
   mk_huff 67108837 26 205; mk_huff 67108838 26 210; mk_huff 67108839 26 213; mk_huff 67108840 26 218; mk_huff 67108841 26 219;
   mk_huff 67108842 26 238; mk_huff 67108843 26 240; mk_huff 67108844 26 242; mk_huff 67108845 26 243; mk_huff 67108846 26 255;
   mk_huff 134217694 27 203; mk_huff 134217695 27 204; mk_huff 134217696 27 211; mk_huff 134217697 27 212; mk_huff 134217698 27 214;
   mk_huff 134217699 27 221; mk_huff 134217700 27 222; mk_huff 134217701 27 223; mk_huff 134217702 27 241; mk_huff 134217703 27 244;
   mk_huff 134217704 27 245; mk_huff 134217705 27 246; mk_huff 134217706 27 247; mk_huff 134217707 27 248; mk_huff 134217708 27 250;
   mk_huff 134217709 27 251; mk_huff 134217710 27 252; mk_huff 134217711 27 253; mk_huff 134217712 27 254; mk_huff 268435426 28 2;
   mk_huff 268435427 28 3; mk_huff 268435428 28 4; mk_huff 268435429 28 5; mk_huff 268435430 28 6; mk_huff 268435431 28 7;
   mk_huff 268435432 28 8; mk_huff 268435433 28 11; mk_huff 268435434 28 12; mk_huff 268435435 28 14; mk_huff 268435436 28 15;
   mk_huff 268435437 28 16; mk_huff 268435438 28 17; mk_huff 268435439 28 18; mk_huff 268435440 28 19; mk_huff 268435441 28 20;
   mk_huff 268435442 28 21; mk_huff 268435443 28 23; mk_huff 268435444 28 24; mk_huff 268435445 28 25; mk_huff 268435446 28 26;
   mk_huff 268435447 28 27; mk_huff 268435448 28 28; mk_huff 268435449 28 29; mk_huff 268435450 28 30; mk_huff 268435451 28 31;
   mk_huff 268435452 28 127; mk_huff 268435453 28 220; mk_huff 268435454 28 249; mk_huff 1073741820 30 10; mk_huff 1073741821 30 13;
   mk_huff 1073741822 30 22].

(** ** Integers *)

(** [buf[p] = v] *)
Definition poke (p v : Z) : M (list Z) unit := b <- get ;; b' <- access (wr_bytes b p [v]) ;; put b'.

(** [buf[p] |= v] *)
Definition poke_or (p v : Z) : M (list Z) unit := b <- get ;; x <- access (rd8 b p) ;; poke p (Z.lor x (u8 v)).

(** The loop over the groups of seven bits, from [buf[offset]]; [p] is the
    position of [buf]. *)
Fixpoint encode_integer_loop (fuel : nat) (value p offset buf_size : Z) : M (list Z) Z :=
  if 128 <=? value then
    match fuel with
    | O => diverge
    | S fuel =>
      guard (negb (buf_size <=? offset)) ;;
      poke (p + offset) (u8 (Z.lor (Z.land value 127) 128)) ;;
      encode_integer_loop fuel (Z.shiftr value 7) p (offset + 1) buf_size
    end
  else
    guard (negb (buf_size <=? offset)) ;;
    poke (p + offset) (u8 value) ;;
    ret (offset + 1).

Definition hpack_encode_integer (value prefix_bits p buf_size : Z) : M (list Z) Z :=
  let max_prefix := Z.shiftl 1 prefix_bits - 1 in
  if value <? max_prefix then
    guard (negb (buf_size <? 1)) ;;
    poke_or p value ;;
    ret 1
  else
    guard (negb (buf_size <? 1)) ;;
    poke_or p max_prefix ;;
    encode_integer_loop 10 (value - max_prefix) p 1 buf_size.

Definition UINT64_MAX : Z := 18446744073709551615.

(** The loop of the decoder: [n] bytes are left at [p]. *)
Fixpoint decode_integer_loop {S} (data : list Z) (p : Z) (n : nat) (offset result shift : Z) : M S (Z * Z) :=
  match n with
  | O => fail
  | S n =>
    byte <- access (rd8 data p) ;;
    let chunk := Z.land byte 127 in
    guard (negb ((64 <=? shift) || (Z.shiftr (UINT64_MAX - result) shift <? chunk))) ;;
    let result := u64 (result + u64 (Z.shiftl chunk shift)) in
    if Z.land byte 128 =? 0 then ret (offset + 1, result)
    else decode_integer_loop data (p + 1) n (offset + 1) result (shift + 7)
  end.

(** The bytes read and the value. *)
Definition hpack_decode_integer {S} (data : list Z) (p data_len prefix_bits : Z) : M S (Z * Z) :=
  let max_prefix := Z.shiftl 1 prefix_bits - 1 in
  guard (negb (data_len <? 1)) ;;
  b <- access (rd8 data p) ;;
  let result := Z.land b max_prefix in
  if result <? max_prefix then ret (1, result)
  else decode_integer_loop data (p + 1) (Z.to_nat (data_len - 1)) 1 result 0.

(** ** Strings *)

Definition hpack_encode_string (str : list Z) (p buf_size : Z) : M (list Z) Z :=
  let len := Zlen str in
  guard (negb (buf_size <? 1)) ;;
  poke p 0 ;;
  offset <- hpack_encode_integer len 7 p buf_size ;;
  guard (negb (buf_size <? offset + len)) ;;
  b <- get ;;
  b' <- access (wr_bytes b (p + offset) str) ;;
  put b' ;;
  ret (offset + len).

(** The code of [len] bits, or a shorter one down to five bits, at the front of the
    [nbits] bits in [bits]: its length and its symbol. *)
Fixpoint huffman_find (bits nbits : Z) (len : nat) : option (Z * Z) :=
  match len with
  | O => None
  | S len' =>
    let l := Z.of_nat len in
    if l <? 5 then None
    else
      let code := u32 (Z.land (Z.shiftr bits (nbits - l)) (Z.shiftl 1 l - 1)) in
      match find (fun e => (hf_nbits e =? l) && (hf_bits e =? code)) huffman_table with
      | Some e => Some (l, hf_symbol e)
      | None => huffman_find bits nbits len'
      end
  end.

(** The symbols that are complete. *)
Fixpoint huffman_symbols {S} (fuel : nat) (bits nbits : Z) (dst : list Z) (dst_len : Z) : M S (Z * Z * list Z) :=
  if nbits <? 5 then ret (bits, nbits, dst)
  else
    match huffman_find bits nbits (Z.to_nat (if 30 <? nbits then 30 else nbits)) with
    | None => ret (bits, nbits, dst)
    | Some (len, symbol) =>
      match fuel with
      | O => diverge
      | S fuel =>
        guard (negb (dst_len <=? Zlen dst)) ;;
        let nbits := nbits - len in
        huffman_symbols fuel (Z.land bits (Z.shiftl 1 nbits - 1)) nbits (dst ++ [symbol]) dst_len
      end
    end.

(** The loop over the [n] bytes at [p]. *)
Fixpoint huffman_bytes {S} (data : list Z) (p : Z) (n : nat) (bits nbits : Z) (dst : list Z) (dst_len : Z) : M S (Z * Z * list Z) :=
  match n with
  | O => ret (bits, nbits, dst)
  | S n =>
    guard (negb (56 <? nbits)) ;;
    byte <- access (rd8 data p) ;;
    r <- huffman_symbols 13 (Z.lor (u64 (Z.shiftl bits 8)) byte) (nbits + 8) dst dst_len ;;
    huffman_bytes data (p + 1) n r.1.1 r.1.2 r.2 dst_len
  end.

(** What is written to [dst]. *)
Definition hpack_decode_huffman {S} (data : list Z) (p src_len dst_len : Z) : M S (list Z) :=
  r <- huffman_bytes data p (Z.to_nat src_len) 0 0 [] dst_len ;;
  let bits := r.1.1 in
  let nbits := r.1.2 in
  guard (negb ((7 <? nbits) || negb (bits =? Z.shiftl 1 nbits - 1))) ;;
  ret r.2.

Definition SIZE_MAX : Z := 18446744073709551615.
Definition INT_MAX : Z := 2147483647.

Section Hpack.
Variable malloc_ok : bool.

(** The bytes read and the string. *)
Definition hpack_decode_string {S} (data : list Z) (p data_len : Z) : M S (Z * list Z) :=
  guard (negb (data_len <? 1)) ;;
  b <- access (rd8 data p) ;;
  let huffman := negb (Z.land b 128 =? 0) in
  r <- hpack_decode_integer data p data_len 7 ;;
  let offset := r.1 in
  let len := r.2 in
  guard (negb ((data_len <? offset) || (data_len - offset <? len) || (SIZE_MAX - 1 <? len))) ;;
  if huffman then
    guard (negb (((INT_MAX - 1) / 2 <? len) || ((SIZE_MAX - 1) / 2 <? len))) ;;
    guard malloc_ok ;;
    decoded <- hpack_decode_huffman data (p + offset) len (len * 2) ;;
    guard malloc_ok ;;
    ret (offset + len, until_nul decoded)
  else
    guard malloc_ok ;;
    str <- access (rd_bytes data (p + offset) len) ;;
    ret (offset + len, until_nul str).

(** ** The dynamic table *)

Record hpack_dynamic_entry := mk_entry { e_name : list Z; e_value : list Z; e_size : Z }.

Record hpack_context := mk_hpack {
  dynamic_table : list hpack_dynamic_entry; dynamic_table_size : Z; max_dynamic_table_size : Z; entry_count : Z }.

Definition hpack_init_context : hpack_context := mk_hpack [] 0 65536 0.

Definition hpack_free_context (h : hpack_context) : hpack_context := mk_hpack [] 0 (max_dynamic_table_size h) 0.

(** [while (dynamic_table_size + extra > max_dynamic_table_size && dynamic_table)]:
    the last entry is removed, at most [fuel] times. *)
Fixpoint hpack_evict (fuel : nat) (extra : Z) (h : hpack_context) : hpack_context :=
  match fuel with
  | O => h
  | S fuel =>
    if max_dynamic_table_size h <? u64 (dynamic_table_size h + extra) then
      match list.last (dynamic_table h) with
      | Some e =>
        hpack_evict fuel extra
          (mk_hpack (removelast (dynamic_table h)) (u64 (dynamic_table_size h - e_size e)) (max_dynamic_table_size h) (entry_count h - 1))
      | None => h
      end
    else h
  end.

Definition hpack_add_dynamic_entry (name value : list Z) (h : hpack_context) : hpack_context :=
  let entry_size := u64 (Zlen name + Zlen value + 32) in
  if negb malloc_ok then h
  else
    let h := hpack_evict (length (dynamic_table h)) entry_size h in
    if max_dynamic_table_size h <? entry_size then h
    else mk_hpack (mk_entry name value entry_size :: dynamic_table h) (u64 (dynamic_table_size h + entry_size)) (max_dynamic_table_size h) (entry_count h + 1).

Definition hpack_resize_dynamic_table (new_size : Z) (h : hpack_context) : hpack_context :=
  hpack_evict (length (dynamic_table h)) 0 (mk_hpack (dynamic_table h) (dynamic_table_size h) new_size (entry_count h)).

(** The name and the value at an index. *)
Definition hpack_get_entry (index : Z) (h : hpack_context) : option (list Z * list Z) :=
  if index =? 0 then None
  else if index <=? HPACK_STATIC_TABLE_SIZE then hpack_static_table !! Z.to_nat (index - 1)
  else e ← dynamic_table h !! Z.to_nat (index - HPACK_STATIC_TABLE_SIZE - 1); Some (e_name e, e_value e).

(** The loops of [hpack_find_index] over one table: [i] is the index of its first
    entry; [inl index] when the search ends. *)
Fixpoint find_in_table (l : list (list Z * list Z)) (name value : list Z) (i name_only_index : Z) : Z + Z :=
  match l with
  | [] => inr name_only_index
  | (n, v) :: l =>
    if bool_decide (n = name) then
      if bool_decide (v = value) then inl i
      else find_in_table l name value (i + 1) (if name_only_index =? 0 then i else name_only_index)
    else find_in_table l name value (i + 1) name_only_index
  end.

(** [*index] and [*name_only_index]; the second is not used when the first is
    positive. *)
Definition hpack_find_index (name value : list Z) (h : hpack_context) : Z * Z :=
  match find_in_table hpack_static_table name value 1 0 with
  | inl i => (i, 0)
  | inr n =>
    match find_in_table ((fun e => (e_name e, e_value e)) <$> dynamic_table h) name value (HPACK_STATIC_TABLE_SIZE + 1) n with
    | inl i => (i, 0)
    | inr n => (0, n)
    end
  end.

(** ** Encoding *)

Definition enc_state : Type := list Z * hpack_context.
Definition on_buf {A} (m : M (list Z) A) : M enc_state A := zoom fst (fun b s => (b, s.2)) m.

(** The bytes written at [p]. *)
Definition hpack_encode_header (name value : list Z) (p buf_size : Z) : M enc_state Z :=
  s <- get ;;
  let (index, name_only_index) := hpack_find_index name value s.2 in
  if 0 <? index then
    guard (negb (buf_size <? 1)) ;;
    on_buf (poke p 128) ;;
    on_buf (hpack_encode_integer index 7 p buf_size)
  else if 0 <? name_only_index then
    guard (negb (buf_size <? 1)) ;;
    on_buf (poke p 64) ;;
    offset <- on_buf (hpack_encode_integer name_only_index 6 p buf_size) ;;
    n <- on_buf (hpack_encode_string value (p + offset) (buf_size - offset)) ;;
    modify (fun s => (s.1, hpack_add_dynamic_entry name value s.2)) ;;
    ret (offset + n)
  else
    guard (negb (buf_size <? 1)) ;;
    on_buf (poke p 64) ;;
    n <- on_buf (hpack_encode_string name (p + 1) (buf_size - 1)) ;;
    let offset := 1 + n in
    n <- on_buf (hpack_encode_string value (p + offset) (buf_size - offset)) ;;
    modify (fun s => (s.1, hpack_add_dynamic_entry name value s.2)) ;;
    ret (offset + n).

(** ** Decoding *)

(** The context, and the headers the callback was called with. *)
Definition dec_state : Type := hpack_context * list (list Z * list Z).

(** Whether the callback, called with these headers before, takes a header. *)
Variable on_header : list (list Z * list Z) -> list Z -> list Z -> bool.

(** The name of a literal: from the table, or a string at [offset]; and the offset
    behind it. *)
Definition decode_name (data : list Z) (data_len index offset : Z) : M dec_state (list Z * Z) :=
  if 0 <? index then
    s <- get ;;
    match hpack_get_entry index s.1 with
    | None => fail
    | Some (name, _) => guard ((index <=? HPACK_STATIC_TABLE_SIZE) || malloc_ok) ;; ret (name, offset)
    end
  else r <- hpack_decode_string data offset (data_len - offset) ;; ret (r.2, offset + r.1).

(** One round: the new offset and whether a field has been seen. *)
Definition decode_field (data : list Z) (data_len offset : Z) (header_field_seen : bool) : M dec_state (Z * bool) :=
  b <- access (rd8 data offset) ;;
  let header (name value : list Z) : M dec_state unit :=
    s <- get ;; put (s.1, s.2 ++ [(name, value)]) ;; guard (on_header s.2 name value) in
  if negb (Z.land b 128 =? 0) then
    r <- hpack_decode_integer data offset (data_len - offset) 7 ;;
    s <- get ;;
    match hpack_get_entry r.2 s.1 with
    | None => fail
    | Some (name, value) => header name value ;; ret (offset + r.1, true)
    end
  else if negb (Z.land b 64 =? 0) then
    r <- hpack_decode_integer data offset (data_len - offset) 6 ;;
    n <- decode_name data data_len r.2 (offset + r.1) ;;
    v <- hpack_decode_string data n.2 (data_len - n.2) ;;
    modify (fun s => (hpack_add_dynamic_entry n.1 v.2 s.1, s.2)) ;;
    header n.1 v.2 ;;
    ret (n.2 + v.1, true)
  else if negb (Z.land b 32 =? 0) then
    guard (negb header_field_seen) ;;
    r <- hpack_decode_integer data offset (data_len - offset) 5 ;;
    guard (negb (HPACK_MAX_DYNAMIC_TABLE_SIZE <? r.2)) ;;
    modify (fun s => (hpack_resize_dynamic_table r.2 s.1, s.2)) ;;
    ret (offset + r.1, header_field_seen)
  else
    r <- hpack_decode_integer data offset (data_len - offset) 4 ;;
    n <- (if 0 <? r.2 then
            s <- get ;;
            match hpack_get_entry r.2 s.1 with None => fail | Some (name, _) => ret (name, offset + r.1) end
          else s <- hpack_decode_string data (offset + r.1) (data_len - (offset + r.1)) ;; ret (s.2, offset + r.1 + s.1)) ;;
    v <- hpack_decode_string data n.2 (data_len - n.2) ;;
    header n.1 v.2 ;;
    ret (n.2 + v.1, true).

(** Each round reads at least one byte. *)
Fixpoint decode_fields (fuel : nat) (data : list Z) (data_len offset : Z) (header_field_seen : bool) : M dec_state unit :=
  if offset <? data_len then
    match fuel with
    | O => diverge
    | S fuel => r <- decode_field data data_len offset header_field_seen ;; decode_fields fuel data data_len r.1 r.2
    end
  else ret tt.

Definition hpack_decode_headers (data : list Z) (data_len : Z) : M dec_state unit :=
  decode_fields (Z.to_nat data_len) data data_len 0 false.

End Hpack.
