(* ===== verification/HpackHuffman.v ===== *)
(** * The Huffman code of HPACK (src/http_parse/hpack.c)

    The reference is the code of RFC 7541 as a prefix code on lists of bits, the
    canonical code with the lengths of its appendix B: a string is encoded as the
    codes of its symbols followed by fewer than eight one bits.  The table of the
    program is this code, and the decoder, which works on a window of 64 bits and
    tries the codes of all lengths, accepts exactly these encodings. *)

From Stdlib Require Import ZArith Lia.
From stdpp Require Import base list numbers option.
From S2P Require Import Prelude Hpack.

(** ** Bits *)

(** The number written by a list of bits, the most significant first. *)
Fixpoint val (l : list bool) : Z :=
  match l with
  | [] => 0
  | b :: l => (if b then 2 ^ Z.of_nat (length l) else 0) + val l
  end.

(** The last [n] bits of a number. *)
Fixpoint bits_of (n : nat) (v : Z) : list bool :=
  match n with
  | O => []
  | S n => Z.testbit v (Z.of_nat n) :: bits_of n v
  end.

Definition bits_of_bytes (bs : list Z) : list bool := concat (bits_of 8 <$> bs).

Lemma bits_of_len n v : length (bits_of n v) = n.
Proof. induction n; [done|]. cbn. by f_equal. Qed.

Lemma val_range l : 0 <= val l < 2 ^ Z.of_nat (length l).
Proof.
  induction l as [|b l IH]; [done|]. cbn [val length]. rewrite Nat2Z.inj_succ, Z.pow_succ_r by lia. destruct b; lia.
Qed.

Lemma val_app a b : val (a ++ b) = val a * 2 ^ Z.of_nat (length b) + val b.
Proof.
  induction a as [|x a IH]; [done|]. cbn [app val]. rewrite IH, length_app, Nat2Z.inj_add, Z.pow_add_r by lia. destruct x; lia.
Qed.

Lemma val_inj a b : length a = length b -> val a = val b -> a = b.
Proof.
  revert b. induction a as [|x a IH]; intros [|y b] Hl; try done. cbn in Hl |- *. injection Hl as Hl. rewrite Hl. intros Hv.
  pose proof (val_range a). pose proof (val_range b). rewrite Hl in *. destruct x, y; try lia; f_equal; apply IH; [done|lia|done|lia].
Qed.

Lemma val_bits_of n v : val (bits_of n v) = v mod 2 ^ Z.of_nat n.
Proof.
  induction n as [|n IH]; [by rewrite Z.mod_1_r|]. cbn [bits_of val]. rewrite bits_of_len, IH, Nat2Z.inj_succ.
  rewrite Z.pow_succ_r, Z.mul_comm, Z.rem_mul_r, Z.mul_comm by lia. rewrite <- (Z.testbit_spec' v (Z.of_nat n)) by lia.
  destruct (Z.testbit v (Z.of_nat n)); cbn; lia.
Qed.

Lemma val_prefix a b : Z.shiftr (val (a ++ b)) (Z.of_nat (length b)) = val a.
Proof. rewrite Z.shiftr_div_pow2, val_app, Z.div_add_l by lia. rewrite Z.div_small by apply val_range. lia. Qed.

Lemma val_suffix a b : Z.land (val (a ++ b)) (Z.shiftl 1 (Z.of_nat (length b)) - 1) = val b.
Proof.
  rewrite Z.shiftl_mul_pow2, Z.mul_1_l by lia. replace (2 ^ Z.of_nat (length b) - 1) with (Z.ones (Z.of_nat (length b))) by (rewrite Z.ones_equiv; lia).
  rewrite Z.land_ones, val_app by lia.
  rewrite Z.add_comm, Z.mod_add by lia. apply Z.mod_small, val_range.
Qed.

Lemma val_ones k : val (replicate k true) = 2 ^ Z.of_nat k - 1.
Proof. induction k as [|k IH]; [done|]. cbn [replicate val]. rewrite IH, length_replicate, Nat2Z.inj_succ, Z.pow_succ_r by lia. lia. Qed.

Lemma bits_of_bytes_cons b bs : bits_of_bytes (b :: bs) = bits_of 8 b ++ bits_of_bytes bs.
Proof. done. Qed.

Lemma bits_of_bytes_app a b : bits_of_bytes (a ++ b) = bits_of_bytes a ++ bits_of_bytes b.
Proof. unfold bits_of_bytes. by rewrite fmap_app, concat_app. Qed.

(** ** The code *)

(** The symbols with their lengths, as in appendix B of RFC 7541; 256 is the end of a
    string.  Symbols of one length are in the order of their values. *)
Definition rfc_lengths : list (nat * list Z) :=
  [(5%nat, [48; 49; 50; 97; 99; 101; 105; 111; 115; 116]);
   (6%nat, [32; 37; 45; 46; 47; 51; 52; 53; 54; 55; 56; 57; 61; 65; 95; 98; 100; 102; 103; 104; 108; 109; 110;
     112; 114; 117]);
   (7%nat, [58; 66; 67; 68; 69; 70; 71; 72; 73; 74; 75; 76; 77; 78; 79; 80; 81; 82; 83; 84; 85; 86; 87; 89;
     106; 107; 113; 118; 119; 120; 121; 122]);
   (8%nat, [38; 42; 44; 59; 88; 90]);
   (10%nat, [33; 34; 40; 41; 63]);
   (11%nat, [39; 43; 124]);
   (12%nat, [35; 62]);
   (13%nat, [0; 36; 64; 91; 93; 126]);
   (14%nat, [94; 125]);
   (15%nat, [60; 96; 123]);
   (19%nat, [92; 195; 208]);
   (20%nat, [128; 130; 131; 162; 184; 194; 224; 226]);
   (21%nat, [153; 161; 167; 172; 176; 177; 179; 209; 216; 217; 227; 229; 230]);
   (22%nat, [129; 132; 133; 134; 136; 146; 154; 156; 160; 163; 164; 169; 170; 173; 178; 181; 185; 186; 187;
     189; 190; 196; 198; 228; 232; 233]);
   (23%nat, [1; 135; 137; 138; 139; 140; 141; 143; 147; 149; 150; 151; 152; 155; 157; 158; 165; 166; 168; 174;
     175; 180; 182; 183; 188; 191; 197; 231; 239]);
   (24%nat, [9; 142; 144; 145; 148; 159; 171; 206; 215; 225; 236; 237]);
   (25%nat, [199; 207; 234; 235]);
   (26%nat, [192; 193; 200; 201; 202; 205; 210; 213; 218; 219; 238; 240; 242; 243; 255]);
   (27%nat, [203; 204; 211; 212; 214; 221; 222; 223; 241; 244; 245; 246; 247; 248; 250; 251; 252; 253; 254]);
   (28%nat, [2; 3; 4; 5; 6; 7; 8; 11; 12; 14; 15; 16; 17; 18; 19; 20; 21; 23; 24; 25; 26; 27; 28; 29; 30; 31;
     127; 220; 249]);
   (30%nat, [10; 13; 22; 256])].

(** The code is canonical: the codes of one length are consecutive numbers, and the
    first one of the next length is the next number, extended by zero bits. *)
Fixpoint consecutive (n : nat) (code : Z) (symbols : list Z) : list (Z * list bool) :=
  match symbols with
  | [] => []
  | c :: symbols => (c, bits_of n code) :: consecutive n (code + 1) symbols
  end.

Fixpoint canonical (n : nat) (code : Z) (lengths : list (nat * list Z)) : list (Z * list bool) :=
  match lengths with
  | [] => []
  | (n', symbols) :: lengths =>
    let code := code * 2 ^ Z.of_nat (n' - n) in
    consecutive n' code symbols ++ canonical n' (code + Zlen symbols) lengths
  end.

Definition rfc_code : list (Z * list bool) := canonical 0 0 rfc_lengths.

Definition huff_code (sym : Z) : list bool :=
  match find (fun x => x.1 =? sym) rfc_code with Some x => x.2 | None => [] end.

Definition huff_encode (s : list Z) : list bool := concat (huff_code <$> s).

(** ** The table of the code *)

Definition code_of (e : huffman_decode_entry) : list bool := bits_of (Z.to_nat (hf_nbits e)) (hf_bits e).

Definition huff_entry (sym : Z) : option huffman_decode_entry := find (fun e => hf_symbol e =? sym) huffman_table.

(** The codes extended to 30 bits, as an interval. *)
Definition code_lo (e : huffman_decode_entry) : Z := hf_bits e * 2 ^ (30 - hf_nbits e).
Definition code_hi (e : huffman_decode_entry) : Z := (hf_bits e + 1) * 2 ^ (30 - hf_nbits e).

Definition entry_ok (e : huffman_decode_entry) : bool :=
  (5 <=? hf_nbits e) && (hf_nbits e <=? 30) && (0 <=? hf_bits e) && (hf_bits e <? 2 ^ hf_nbits e - 1)
  && (0 <=? hf_symbol e) && (hf_symbol e <? 256)
  && match huff_entry (hf_symbol e) with Some e' => (hf_bits e' =? hf_bits e) && (hf_nbits e' =? hf_nbits e) && (hf_symbol e' =? hf_symbol e) | None => false end.

Fixpoint intervals_from (lo : Z) (t : list huffman_decode_entry) : bool :=
  match t with
  | [] => true
  | e :: t => (lo <=? code_lo e) && intervals_from (code_hi e) t
  end.

Lemma table_ok : forallb entry_ok huffman_table = true.
Proof. vm_compute. reflexivity. Qed.

Lemma table_intervals : intervals_from 0 huffman_table = true.
Proof. vm_compute. reflexivity. Qed.

Lemma table_complete : forallb (fun i => bool_decide (is_Some (huff_entry (Z.of_nat i)))) (seq 0 256) = true.
Proof. vm_compute. reflexivity. Qed.

(** The table is the code of the RFC. *)
Lemma table_is_rfc : forallb (fun e => bool_decide (huff_code (hf_symbol e) = code_of e)) huffman_table = true.
Proof. vm_compute. reflexivity. Qed.

#[local] Opaque huffman_table huff_code.

Lemma huff_entry_elem sym e : huff_entry sym = Some e -> e ∈ huffman_table /\ hf_symbol e = sym.
Proof. intros Hf. apply find_some in Hf as [H ?%Z.eqb_eq]. split; [by apply list_elem_of_In|done]. Qed.

#[local] Opaque huff_entry.

Lemma huff_entry_spec e : e ∈ huffman_table ->
  5 <= hf_nbits e <= 30 /\ 0 <= hf_bits e < 2 ^ hf_nbits e - 1 /\ is_byte (hf_symbol e) /\ huff_entry (hf_symbol e) = Some e.
Proof.
  intros He. pose proof table_ok as H. rewrite forallb_forall in H. apply list_elem_of_In, H in He. clear H.
  unfold entry_ok in He. bools. destruct (huff_entry _) as [[b n s]|] eqn:Hs; [|done]. bools.
  unfold is_byte. destruct e as [b' n' s']. cbn [hf_bits hf_nbits hf_symbol] in *. repeat split; try lia. repeat f_equal; lia.
Qed.

Lemma huff_entry_byte c : is_byte c -> exists e, huff_entry c = Some e.
Proof.
  intros Hc. pose proof table_complete as H. rewrite forallb_forall in H. specialize (H (Z.to_nat c)).
  rewrite in_seq, Z2Nat.id in H by (unfold is_byte in Hc; lia). unfold is_byte in Hc.
  apply bool_decide_eq_true in H as [e He]; [eauto|lia].
Qed.

Lemma code_of_len e : e ∈ huffman_table -> Z.of_nat (length (code_of e)) = hf_nbits e.
Proof. intros He%huff_entry_spec. unfold code_of. rewrite bits_of_len. lia. Qed.

Lemma val_code_of e : e ∈ huffman_table -> val (code_of e) = hf_bits e.
Proof. intros He%huff_entry_spec. unfold code_of. rewrite val_bits_of, Z2Nat.id by lia. apply Z.mod_small. lia. Qed.

Lemma huff_code_entry e : e ∈ huffman_table -> huff_code (hf_symbol e) = code_of e.
Proof. intros He. pose proof table_is_rfc as H. rewrite forallb_forall in H. apply list_elem_of_In, H in He. by apply bool_decide_eq_true in He. Qed.

Lemma huff_code_byte c : is_byte c -> exists e, e ∈ huffman_table /\ hf_symbol e = c /\ huff_code c = code_of e.
Proof. intros [e [Hin <-]%huff_entry_elem]%huff_entry_byte. exists e. split_and!; [done|done|by apply huff_code_entry]. Qed.

Lemma huff_encode_cons c s : huff_encode (c :: s) = huff_code c ++ huff_encode s.
Proof. done. Qed.

Lemma huff_encode_app a b : huff_encode (a ++ b) = huff_encode a ++ huff_encode b.
Proof. unfold huff_encode. by rewrite fmap_app, concat_app. Qed.

(** No code is a prefix of another one: their intervals do not meet. *)

Lemma intervals_lo lo t e : intervals_from lo t = true -> e ∈ t -> Forall (fun e => 0 <= hf_bits e) t -> lo <= code_lo e.
Proof.
  revert lo. induction t as [|x t IH]; intros lo H He Hp; [by apply not_elem_of_nil in He|]. cbn in H. bools.
  apply list.Forall_cons in Hp as [Hx Hp]. apply elem_of_cons in He as [->|He]; [lia|].
  specialize (IH _ H0 He Hp). unfold code_hi, code_lo in *. pose proof (Z.pow_nonneg 2 (30 - hf_nbits x)). lia.
Qed.

Lemma intervals_disjoint lo t i j e e' : intervals_from lo t = true -> Forall (fun e => 0 <= hf_bits e) t ->
  t !! i = Some e -> t !! j = Some e' -> (i < j)%nat -> code_hi e <= code_lo e'.
Proof.
  revert lo i j. induction t as [|x t IH]; intros lo i j H Hp Hi Hj Hlt; [done|]. cbn in H. bools.
  apply list.Forall_cons in Hp as [Hx Hp]. destruct j as [|j]; [lia|]. destruct i as [|i]; cbn in Hi, Hj.
  - injection Hi as ->. eapply intervals_lo; [done| |done]. by eapply list_elem_of_lookup_2.
  - eapply IH; [done|done|done|done|lia].
Qed.

Lemma code_window e x : e ∈ huffman_table -> (30 <= length (code_of e ++ x))%nat ->
  let p := 2 ^ (Z.of_nat (length (code_of e ++ x)) - 30) in code_lo e * p <= val (code_of e ++ x) < code_hi e * p.
Proof.
  intros He Hl p. pose proof (huff_entry_spec _ He) as (Hn&Hb&_). rewrite val_app, val_code_of by done.
  pose proof (val_range x) as Hx. unfold code_lo, code_hi.
  assert (2 ^ Z.of_nat (length x) = 2 ^ (30 - hf_nbits e) * p) as Hp.
  { unfold p. rewrite length_app in *. rewrite <- Z.pow_add_r; [|lia|lia]. f_equal. pose proof (code_of_len _ He). lia. }
  rewrite Hp in *. lia.
Qed.

Lemma prefix_free e e' x y : e ∈ huffman_table -> e' ∈ huffman_table -> code_of e ++ x = code_of e' ++ y -> e = e'.
Proof.
  intros He He' Hxy. pose proof (code_window e (x ++ replicate 30 false) He) as H1.
  pose proof (code_window e' (y ++ replicate 30 false) He') as H2. rewrite !app_assoc, Hxy, !length_app, length_replicate in H1.
  rewrite !app_assoc, !length_app, length_replicate in H2. cbv zeta in *. specialize (H1 ltac:(lia)). specialize (H2 ltac:(lia)).
  revert H1 H2. set (p := 2 ^ _). assert (0 < p) as Hp by (apply Z.pow_pos_nonneg; lia). clearbody p. intros H1 H2.
  assert (Forall (fun e => 0 <= hf_bits e) huffman_table) as Hpos.
  { apply list.Forall_forall. intros z (_&Hz&_)%huff_entry_spec. lia. }
  apply list_elem_of_lookup in He as [i Hi]. apply list_elem_of_lookup in He' as [j Hj].
  destruct (lt_eq_lt_dec i j) as [[Hij|<-]|Hij]; [|congruence|].
  - pose proof (intervals_disjoint _ _ _ _ _ _ table_intervals Hpos Hi Hj Hij). nia.
  - pose proof (intervals_disjoint _ _ _ _ _ _ table_intervals Hpos Hj Hi Hij). nia.
Qed.

(** No code is a prefix of the padding. *)
Lemma code_not_ones e x k : e ∈ huffman_table -> code_of e ++ x <> replicate k true.
Proof.
  intros He Hx. pose proof (huff_entry_spec _ He) as (Hn&Hb&_). pose proof (f_equal (take (length (code_of e))) Hx) as Ht.
  rewrite take_app_length, take_replicate in Ht. pose proof (f_equal length Ht) as Hl. rewrite length_replicate in Hl. rewrite <- Hl in Ht.
  apply (f_equal val) in Ht. rewrite val_ones, val_code_of, code_of_len in Ht by done. lia.
Qed.

Lemma huff_code_ones c x k : is_byte c -> huff_code c ++ x <> replicate k true.
Proof. intros (e&He&_&->)%huff_code_byte. by apply code_not_ones. Qed.

(** What has been decoded is the beginning of any string with this encoding. *)
Lemma huff_encode_split a x s k : Forall is_byte a -> Forall is_byte s ->
  huff_encode a ++ x = huff_encode s ++ replicate k true -> exists s', s = a ++ s' /\ x = huff_encode s' ++ replicate k true.
Proof.
  intros Ha. revert s. induction Ha as [|c a Hc Ha IH]; intros s Hs H; [by exists s|].
  rewrite huff_encode_cons, <- app_assoc in H. destruct Hs as [|d s Hd Hs].
  - by apply huff_code_ones in H.
  - rewrite huff_encode_cons, <- app_assoc in H. apply huff_code_byte in Hc as (e&He&<-&Hce). apply huff_code_byte in Hd as (e'&He'&<-&Hde).
    rewrite Hce, Hde in H. assert (e = e') as <- by by eapply prefix_free. apply app_inv_head in H.
    destruct (IH s Hs H) as (s'&->&->). by exists s'.
Qed.

(** ** The decoder *)

(** The bits do not begin with a code. *)
Definition no_code (l : list bool) : Prop := forall e x, e ∈ huffman_table -> l <> code_of e ++ x.

Lemma code_in_window l n : (n <= length l)%nat -> (n <= 30)%nat ->
  u32 (Z.land (Z.shiftr (val l) (Z.of_nat (length l) - Z.of_nat n)) (Z.shiftl 1 (Z.of_nat n) - 1)) = val (take n l).
Proof.
  intros Hl Hn. rewrite <- (take_drop n l) at 1. replace (Z.of_nat (length l) - Z.of_nat n) with (Z.of_nat (length (drop n l))) by (rewrite length_drop; lia).
  rewrite val_prefix. pose proof (val_suffix [] (take n l)) as Hs. rewrite length_take_le in Hs by done. cbn [app] in Hs. rewrite Hs.
  unfold u32. apply Z.mod_small. pose proof (val_range (take n l)) as Hr. rewrite length_take_le in Hr by done.
  pose proof (Z.pow_le_mono_r 2 (Z.of_nat n) 30). lia.
Qed.

Lemma huffman_find_spec l n : (n <= length l)%nat -> (n <= 30)%nat ->
  match huffman_find (val l) (Z.of_nat (length l)) n with
  | Some (len, sym) => exists e x, e ∈ huffman_table /\ len = hf_nbits e /\ sym = hf_symbol e /\ l = code_of e ++ x
  | None => forall e x, e ∈ huffman_table -> hf_nbits e <= Z.of_nat n -> l <> code_of e ++ x
  end.
Proof.
  intros Hl Hn. induction n as [|n IH]; cbn [huffman_find].
  - intros e x He. pose proof (huff_entry_spec _ He). lia.
  - destruct (Z.ltb_spec (Z.of_nat (S n)) 5).
    { intros e x He. pose proof (huff_entry_spec _ He). lia. }
    rewrite code_in_window by done.
    destruct (find _ _) as [e|] eqn:Hf.
    + apply find_some in Hf as [He%list_elem_of_In Hf]. bools. exists e, (drop (S n) l). split_and!; [done|lia|done|].
      rewrite <- (take_drop (S n) l) at 1. f_equal. apply val_inj.
      * pose proof (code_of_len _ He). rewrite length_take. lia.
      * rewrite val_code_of by done. lia.
    + destruct (huffman_find _ _ _) as [[len sym]|]; [apply IH; lia|]. intros e x He Hle Hx.
      destruct (Z.eq_dec (hf_nbits e) (Z.of_nat (S n))) as [Heq|Hne]; [|eapply IH; [lia|lia|exact He|lia|exact Hx]].
      apply list_elem_of_In in He as Hin. eapply find_none in Hf; [|exact Hin]. cbv beta in Hf.
      assert (hf_bits e = val (take (S n) l)); [|apply andb_false_iff in Hf as [?%Z.eqb_neq|?%Z.eqb_neq]; congruence]. rewrite Hx, take_app_length'; [by rewrite val_code_of|].
      pose proof (code_of_len _ He). lia.
Qed.

Lemma no_code_short l : (length l < 5)%nat -> no_code l.
Proof. intros Hl e x He ->. rewrite length_app in Hl. pose proof (code_of_len _ He). pose proof (huff_entry_spec _ He). lia. Qed.

Lemma huffman_symbols_spec {S} fuel l dst dst_len (s : S) : (length l < 5 * fuel + 5)%nat -> Zlen dst <= dst_len ->
  wp (huffman_symbols fuel (val l) (Z.of_nat (length l)) dst dst_len) s
    (fun s' r => s' = s /\ exists a l', l = huff_encode a ++ l' /\ no_code l' /\ Forall is_byte a /\ Zlen (dst ++ a) <= dst_len /\
      r = (val l', Z.of_nat (length l'), dst ++ a))
    (fun s' => s' = s /\ exists a l', l = huff_encode a ++ l' /\ Forall is_byte a /\ dst_len < Zlen (dst ++ a)).
Proof.
  revert l dst. induction fuel as [|fuel IH]; intros l dst Hl Hd; cbn [huffman_symbols].
  { destruct (Z.ltb_spec (Z.of_nat (length l)) 5); [|lia]. wp_step. split; [done|]. exists [], l.
    rewrite app_nil_r. split_and!; try done. by apply no_code_short; lia. }
  destruct (Z.ltb_spec (Z.of_nat (length l)) 5).
  { wp_step. split; [done|]. exists [], l. rewrite app_nil_r. split_and!; try done. by apply no_code_short; lia. }
  set (n := Z.to_nat _). pose proof (huffman_find_spec l n) as Hf.
  assert (n = Nat.min 30 (length l)) as Hn by (subst n; destruct (Z.ltb_spec 30 (Z.of_nat (length l))); lia).
  specialize (Hf ltac:(lia) ltac:(lia)). destruct (huffman_find _ _ _) as [[len sym]|].
  - destruct Hf as (e&x&He&->&->&->). pose proof (code_of_len _ He) as Hc. pose proof (huff_entry_spec _ He) as (Hb&_&Hsym&_).
    wp_step. wp_step; [|split; [done|]; exists [hf_symbol e], x; rewrite huff_encode_cons, huff_code_entry, app_nil_r, Zlen_app by done;
      split_and!; [done|by constructor|rewrite Zlen_cons, Zlen_nil; lia]].
    replace (Z.of_nat (length (code_of e ++ x)) - hf_nbits e) with (Z.of_nat (length x)) by (rewrite length_app; lia).
    rewrite val_suffix. eapply wp_mono; [apply IH| |].
    + rewrite length_app in Hl. lia.
    + rewrite Zlen_app, Zlen_cons, Zlen_nil. lia.
    + intros s' r (->&a&l'&->&Hno&Ha&Hla&->). split; [done|]. exists (hf_symbol e :: a), l'.
      rewrite huff_encode_cons, huff_code_entry, <- !app_assoc in * by done. split_and!; try done. by constructor.
    + intros s' (->&a&l'&->&Ha&Hla). split; [done|]. exists (hf_symbol e :: a), l'.
      rewrite huff_encode_cons, huff_code_entry, <- !app_assoc in * by done. split_and!; try done. by constructor.
  - wp_step. split; [done|]. exists [], l. rewrite app_nil_r. split_and!; try done. intros e x He.
    destruct (Z.le_gt_cases (hf_nbits e) (Z.of_nat n)); [by apply Hf|]. intros ->. rewrite length_app in *.
    pose proof (code_of_len _ He). pose proof (huff_entry_spec _ He). lia.
Qed.

(** The window of the decoder does not grow past 64 bits. *)
Lemma window_push l b : is_byte b -> (length l <= 56)%nat -> Z.lor (u64 (Z.shiftl (val l) 8)) b = val (l ++ bits_of 8 b).
Proof.
  intros Hb Hl. pose proof (val_range l) as Hr. rewrite val_app, val_bits_of, bits_of_len. change (2 ^ Z.of_nat 8) with 256.
  pose proof (Z.pow_le_mono_r 2 (Z.of_nat (length l)) 56). rewrite Z.shiftl_mul_pow2 by lia. change (2 ^ 8) with 256. unfold is_byte in Hb.
  unfold u64. rewrite !Z.mod_small by lia. apply (lor_disjoint _ _ 8); [lia|lia|]. by rewrite Z.mod_mul.
Qed.

(** The rest of the input does not complete a code when the window is full. *)
Lemma full_window_stuck l x a k : no_code l -> (30 <= length l)%nat -> (k < 8)%nat -> Forall is_byte a ->
  l ++ x <> huff_encode a ++ replicate k true.
Proof.
  intros Hno Hl Hk Ha H. destruct Ha as [|c a Hc Ha].
  - apply (f_equal length) in H. rewrite length_app in H. cbn in H. rewrite length_replicate in H. lia.
  - rewrite huff_encode_cons, <- app_assoc in H. apply huff_code_byte in Hc as (e&He&_&Hc). rewrite Hc in H.
    pose proof (code_of_len _ He). pose proof (huff_entry_spec _ He). apply (f_equal (take (length l))) in H.
    rewrite take_app_length, take_app_ge in H by lia. eapply Hno; [exact He|exact H].
Qed.

(** The symbols in front of [l ++ x] are more than fit. *)
Lemma overfull a l x s k n : Forall is_byte a -> Forall is_byte s -> n < Zlen a -> Zlen s <= n ->
  (huff_encode a ++ l) ++ x <> huff_encode s ++ replicate k true.
Proof.
  intros Ha Hs Hn Hle H. rewrite <- app_assoc in H. apply huff_encode_split in H as (s'&->&_); [|done|done].
  rewrite Zlen_app in Hle. pose proof (Zlen_nonneg s'). lia.
Qed.

Lemma huffman_bytes_spec {S} data p src rest l dst dst_len (s : S) :
  0 <= p -> drop (Z.to_nat p) data = src ++ rest -> Forall is_byte src -> no_code l -> Zlen dst <= dst_len ->
  wp (huffman_bytes data p (length src) (val l) (Z.of_nat (length l)) dst dst_len) s
    (fun s' r => s' = s /\ exists a l', l ++ bits_of_bytes src = huff_encode a ++ l' /\ no_code l' /\ Forall is_byte a /\
      Zlen (dst ++ a) <= dst_len /\ r = (val l', Z.of_nat (length l'), dst ++ a))
    (fun s' => s' = s /\ forall a k, (k < 8)%nat -> Forall is_byte a -> Zlen (dst ++ a) <= dst_len ->
      l ++ bits_of_bytes src <> huff_encode a ++ replicate k true).
Proof.
  revert p l dst. induction src as [|b src IH]; intros p l dst Hp Hsrc Hb Hno Hd; cbn [huffman_bytes length].
  { wp_step. split; [done|]. exists [], l. cbn. rewrite !app_nil_r. split_and!; done. }
  apply list.Forall_cons in Hb as [Hb Hbs]. wp_step. wp_step; [|split; [done|]; intros a k Hk Ha _; apply full_window_stuck; by lia || done].
  wp_step. apply wp_access. exists b. split. { unfold rd8. destruct (Z.leb_spec 0 p); [|lia]. by rewrite <- (Nat.add_0_r (Z.to_nat p)), <- lookup_drop, Hsrc. }
  rewrite window_push by (done || lia). replace (Z.of_nat (length l) + 8) with (Z.of_nat (length (l ++ bits_of 8 b))) by (rewrite length_app, bits_of_len; lia).
  wp_step. eapply wp_mono; [apply huffman_symbols_spec; [rewrite length_app, bits_of_len; lia|done]| |].
  - intros s' r (->&a&l'&Hl&Hno'&Ha&Hla&->). cbn [fst snd]. rewrite bits_of_bytes_cons, (app_assoc l), Hl.
    eapply wp_mono; [apply (IH (p + 1) l' (dst ++ a)); try done; [lia|]| |].
    + rewrite Z2Nat.inj_add by lia. change (Z.to_nat 1) with 1%nat. by rewrite <- drop_drop, Hsrc.
    + intros s' r (->&a'&l2&Hl2&Hno2&Ha'&Hla'&->). split; [done|]. exists (a ++ a'), l2.
      rewrite <- app_assoc, Hl2, huff_encode_app, !app_assoc in *. split_and!; try done. by apply Forall_app.
    + intros s' (->&Hf). split; [done|]. intros a' k Hk Ha' Hla'. rewrite <- app_assoc. intros He.
      apply huff_encode_split in He as (a2&->&He); [|done|done]. apply Forall_app in Ha' as [_ Ha2]. eapply Hf; [exact Hk|exact Ha2| |exact He].
      by rewrite <- app_assoc.
  - intros s' (->&a&l'&Hl&Ha&Hla). split; [done|]. intros a' k Hk Ha' Hla'. rewrite bits_of_bytes_cons, app_assoc, Hl.
    rewrite Zlen_app in Hla, Hla'. apply (overfull _ _ _ _ _ (dst_len - Zlen dst)); done || lia.
Qed.

(** The strings whose encoding is [src]. *)
Definition huffman_of (src s : list Z) : Prop :=
  Forall is_byte s /\ exists k, (k < 8)%nat /\ bits_of_bytes src = huff_encode s ++ replicate k true.

Lemma huffman_of_inj src s s' : huffman_of src s -> huffman_of src s' -> s = s'.
Proof.
  intros (Hs&k&Hk&Hsrc) (Hs'&k'&Hk'&Hsrc'). rewrite Hsrc in Hsrc'. apply huff_encode_split in Hsrc' as (r&->&Hr); [|done|done].
  destruct r as [|c r]; [by rewrite app_nil_r|]. apply Forall_app in Hs' as [_ [Hc _]%list.Forall_cons].
  rewrite huff_encode_cons, <- app_assoc in Hr. symmetry in Hr. by apply huff_code_ones in Hr.
Qed.

Lemma bits_all_ones l : (7 <? Z.of_nat (length l)) || negb (val l =? Z.shiftl 1 (Z.of_nat (length l)) - 1) = false ->
  (length l < 8)%nat /\ l = replicate (length l) true.
Proof.
  intros H. bools. split; [lia|]. apply val_inj; [by rewrite length_replicate|]. rewrite val_ones.
  rewrite Z.shiftl_mul_pow2 in * by lia. lia.
Qed.

Lemma ones_all_bits k : (k < 8)%nat -> (7 <? Z.of_nat (length (replicate k true))) || negb (val (replicate k true) =? Z.shiftl 1 (Z.of_nat (length (replicate k true))) - 1) = false.
Proof. intros Hk. rewrite val_ones, length_replicate, Z.shiftl_mul_pow2 by lia. apply orb_false_iff. split; lia. Qed.

Lemma hpack_decode_huffman_spec {S} data p n dst_len src (s : S) : Forall is_byte data -> rd_bytes data p n = Some src -> 0 <= dst_len ->
  wp (hpack_decode_huffman data p n dst_len) s
    (fun s' dst => s' = s /\ huffman_of src dst /\ Zlen dst <= dst_len)
    (fun s' => s' = s /\ forall dst, huffman_of src dst -> dst_len < Zlen dst).
Proof.
  intros Hdata Hsrc Hd. pose proof (rd_bytes_byte _ _ _ _ Hdata Hsrc) as Hb. pose proof (rd_bytes_len _ _ _ _ Hsrc) as Hlen.
  apply rd_bytes_Some in Hsrc as (Hp&Hn&Hl&Hsrc). unfold hpack_decode_huffman.
  assert (Z.to_nat n = length src) as -> by (unfold Zlen in Hlen; lia).
  wp_step. eapply wp_mono; [apply (huffman_bytes_spec data p src (drop (length src) (drop (Z.to_nat p) data)) [] [] dst_len s); try done| |].
  - rewrite Hsrc at 1. replace (Z.to_nat n) with (length src) by (unfold Zlen in Hlen; lia). by rewrite take_drop.
  - apply no_code_short. cbn. lia.
  - intros s' r (->&a&l&Hal&Hno&Ha&Hla&->). cbn [fst snd app] in *. wp_step. apply wp_guard; intros Hg.
    + apply negb_true_iff, bits_all_ones in Hg as [Hk Hones]. wp_step. split; [done|]. split; [|done]. split; [done|].
      exists (length l). by rewrite <- Hones.
    + split; [done|]. intros dst (Hdst&k&Hk&He). destruct (Z.lt_ge_cases dst_len (Zlen dst)) as [|Hle]; [done|].
      rewrite He in Hal. symmetry in Hal. apply huff_encode_split in Hal as (r&->&Hr); [|done|done]. exfalso.
      destruct r as [|c r]; [cbn in Hr; subst l; rewrite ones_all_bits in Hg; done|].
      apply Forall_app in Hdst as [_ [Hc _]%list.Forall_cons]. apply huff_code_byte in Hc as (e&He'&_&Hc).
      rewrite huff_encode_cons, Hc, <- app_assoc in Hr. by eapply Hno in Hr.
  - intros s' (->&Hf). split; [done|]. intros dst (Hdst&k&Hk&He). destruct (Z.lt_ge_cases dst_len (Zlen dst)) as [|Hle]; [done|].
    exfalso. by eapply Hf in He.
Qed.
