(* ===== verification/HpackSpec.v ===== *)
(** * HPACK integers and strings (src/http_parse/hpack.c)

    The byte strings that the encoders write, and that the decoders read back what
    was written; the decoders on arbitrary bytes. *)

From Stdlib Require Import ZArith Lia.
From stdpp Require Import base list numbers option.
From S2P Require Import Prelude Hpack HpackHuffman.

(** ** Reference encodings *)

Fixpoint int_tail (fuel : nat) (v : Z) : list Z :=
  match fuel with
  | O => [v]
  | S fuel => if 128 <=? v then (128 + v mod 128) :: int_tail fuel (v / 128) else [v]
  end.

(** An integer with a prefix of [pfx] bits, the other bits of the first byte being
    those of [flag]. *)
Definition int_bytes (pfx flag v : Z) : list Z :=
  if v <? 2 ^ pfx - 1 then [flag + v] else (flag + 2 ^ pfx - 1) :: int_tail 10 (v - (2 ^ pfx - 1)).

Definition string_bytes (s : list Z) : list Z := int_bytes 7 0 (Zlen s) ++ s.

(** The flag leaves the prefix free. *)
Definition prefix_ok (pfx flag : Z) : Prop := 1 <= pfx <= 8 /\ flag mod 2 ^ pfx = 0 /\ 0 <= flag /\ flag + 2 ^ pfx <= 256.

Lemma int_tail_len fuel v : 1 <= Zlen (int_tail fuel v) <= 1 + Z.of_nat fuel.
Proof.
  revert v. induction fuel as [|fuel IH]; intros v; cbn [int_tail]; [rewrite Zlen_cons, Zlen_nil; lia|].
  destruct (128 <=? v); rewrite Zlen_cons, ?Zlen_nil; [specialize (IH (v / 128))|]; lia.
Qed.

Lemma int_bytes_len pfx flag v : 1 <= Zlen (int_bytes pfx flag v) <= 12.
Proof.
  unfold int_bytes. destruct (v <? _); rewrite Zlen_cons, ?Zlen_nil; [lia|]. pose proof (int_tail_len 10 (v - (2 ^ pfx - 1))). lia.
Qed.

(** ** The writers *)

(** A writer that puts the bytes [bs] at [p], or finds that [size] is too small. *)
Definition writes (m : M (list Z) Z) (b : list Z) (p size : Z) (bs : list Z) : Prop :=
  wp m b (fun b' n => n = Zlen bs /\ Zlen bs <= size /\ wr_bytes b p bs = Some b')
         (fun b' => size < Zlen bs /\ Zlen b' = Zlen b).

Lemma wp_poke b p v (Q : list Z -> unit -> Prop) E :
  (exists b', wr_bytes b p [v] = Some b' /\ Q b' tt) -> wp (poke p v) b Q E.
Proof. intros (b'&Hw&HQ). unfold poke. wp_step. wp_step. wp_step. apply wp_access. exists b'. split; [done|]. by wp_step. Qed.

Lemma poke_ok b p v E : 0 <= p -> p + 1 <= Zlen b -> wp (poke p v) b (fun b' _ => wr_bytes b p [v] = Some b') E.
Proof.
  intros Hp Hl. apply wp_poke. destruct (wr_bytes_ex b p [v]) as [b' Hb]; [done|by rewrite Zlen_cons, Zlen_nil|]. eauto.
Qed.

Lemma tail_byte v : 0 <= v -> u8 (Z.lor (Z.land v 127) 128) = 128 + v mod 128.
Proof.
  intros Hv. change 127 with (Z.ones 7). rewrite Z.land_ones by lia. change (2 ^ 7) with 128. pose proof (Z.mod_pos_bound v 128).
  rewrite Z.lor_comm, (lor_disjoint 128 _ 7) by (done || lia). unfold u8. apply Z.mod_small. lia.
Qed.

Lemma encode_integer_loop_writes fuel v b p off size :
  0 <= v < 128 ^ (Z.of_nat fuel + 1) -> 0 <= p -> 0 <= off -> p + size <= Zlen b ->
  wp (encode_integer_loop fuel v p off size) b
    (fun b' n => n = off + Zlen (int_tail fuel v) /\ n <= size /\ wr_bytes b (p + off) (int_tail fuel v) = Some b')
    (fun b' => size < off + Zlen (int_tail fuel v) /\ Zlen b' = Zlen b).
Proof.
  revert v b off. induction fuel as [|fuel IH]; intros v b off Hv Hp Ho Hl; cbn [encode_integer_loop int_tail].
  - change (128 ^ (Z.of_nat 0 + 1)) with 128 in Hv. destruct (Z.leb_spec 128 v); [lia|]. rewrite Zlen_cons, Zlen_nil. wp_step. wp_step; [|lia].
    wp_step. eapply wp_mono; [apply poke_ok; lia| |intros b' Hx; exact Hx]. intros b' [] Hb. wp_step.
    replace (u8 v) with v in Hb by (unfold u8; rewrite Z.mod_small; lia). split_and!; done || lia.
  - destruct (Z.leb_spec 128 v); rewrite Zlen_cons.
    + wp_step. wp_step; [|pose proof (int_tail_len fuel (v / 128)); lia]. wp_step.
      eapply wp_mono; [apply poke_ok; lia| |intros b' Hx; exact Hx]. intros b1 [] Hb1. rewrite tail_byte in Hb1 by lia.
      rewrite (shiftr_div v 7 128) by (done || lia). pose proof (wr_bytes_len _ _ _ _ Hb1) as Hl1.
      eapply wp_mono; [apply (IH (v / 128) b1 (off + 1)); try lia| |].
      * split; [apply Z.div_pos; lia|]. apply Z.div_lt_upper_bound; [lia|]. rewrite <- Z.pow_succ_r by lia.
        replace (Z.succ (Z.of_nat fuel + 1)) with (Z.of_nat (S fuel) + 1) by lia. lia.
      * intros b2 n (->&Hn&Hb2). split_and!; [lia|lia|].
        apply (wr_bytes_app _ _ [128 + v mod 128] (int_tail fuel (v / 128)) b1); [done|]. rewrite Zlen_cons, Zlen_nil. by rewrite Z.add_assoc in Hb2.
      * intros b2 [Hn Hb2]. split; lia.
    + rewrite Zlen_nil. wp_step. wp_step; [|lia].
      wp_step. eapply wp_mono; [apply poke_ok; lia| |intros b' Hx; exact Hx]. intros b' [] Hb. wp_step.
      replace (u8 v) with v in Hb by (unfold u8; rewrite Z.mod_small; lia). split_and!; done || lia.
Qed.

Lemma wr_bytes_over m a x bs m1 m2 : wr_bytes m a [x] = Some m1 -> wr_bytes m1 a bs = Some m2 -> 1 <= Zlen bs -> wr_bytes m a bs = Some m2.
Proof.
  intros H1 H2 Hl. pose proof (wr_bytes_len _ _ _ _ H1) as Hl1. pose proof (wr_bytes_len _ _ _ _ H2) as Hl2.
  pose proof H2 as (Ha&Hle&_)%wr_bytes_Some. destruct (wr_bytes_ex m a bs) as [m2' Hm]; [lia|lia|]. rewrite Hm. f_equal.
  pose proof (wr_bytes_len _ _ _ _ Hm). apply rd8_ext; [lia|]. intros i.
  destruct (decide (a <= i < a + Zlen bs)).
  - by rewrite (rd8_wr_in _ _ _ _ _ Hm), (rd8_wr_in _ _ _ _ _ H2).
  - rewrite (rd8_wr_out _ _ _ _ _ Hm), (rd8_wr_out _ _ _ _ _ H2), (rd8_wr_out _ _ _ _ _ H1); rewrite ?Zlen_cons, ?Zlen_nil; done || lia.
Qed.

Lemma prefix_or pfx flag v : prefix_ok pfx flag -> 0 <= v < 2 ^ pfx -> Z.lor flag (u8 v) = flag + v.
Proof.
  intros (Hp&Hm&Hf&Hl) Hv. pose proof (Z.pow_le_mono_r 2 pfx 8). unfold u8. rewrite Z.mod_small by lia. by apply (lor_disjoint _ _ pfx); lia.
Qed.

(** The encoder, at a byte that holds the flag. *)
Lemma hpack_encode_integer_writes v pfx flag b p size :
  prefix_ok pfx flag -> 0 <= v < 2 ^ 64 -> 0 <= p -> p + size <= Zlen b -> 1 <= size -> rd8 b p = Some flag ->
  writes (hpack_encode_integer v pfx p size) b p size (int_bytes pfx flag v).
Proof.
  intros Hok Hv Hp Hl Hs Hf. pose proof Hok as (Hpfx&_). unfold writes, hpack_encode_integer, int_bytes.
  rewrite Z.shiftl_mul_pow2, Z.mul_1_l by lia. assert (2 <= 2 ^ pfx) as H2 by (apply (Z.pow_le_mono_r 2 1 pfx); lia).
  assert (forall x, 0 <= x < 2 ^ pfx -> wp (poke_or p x) b (fun b' _ => wr_bytes b p [flag + x] = Some b') (fun _ => False)) as Hor.
  { intros x Hx. unfold poke_or. wp_step. wp_step. wp_step. apply wp_access. exists flag. split; [done|].
    rewrite (prefix_or pfx) by done. apply poke_ok; lia. }
  destruct (Z.ltb_spec v (2 ^ pfx - 1)).
  - wp_step. wp_step; [|lia]. wp_step. eapply wp_mono; [apply Hor; lia| |done]. intros b' [] Hb. wp_step. rewrite Zlen_cons, Zlen_nil. split_and!; done || lia.
  - wp_step. wp_step; [|lia]. wp_step. eapply wp_mono; [apply Hor; lia| |done]. intros b1 [] Hb1.
    pose proof (wr_bytes_len _ _ _ _ Hb1) as Hl1. rewrite Zlen_cons.
    eapply wp_mono; [apply (encode_integer_loop_writes 10 _ b1 p 1 size); try lia| |].
    + intros b2 n (->&Hn&Hb2). split_and!; [lia|lia|].
      apply (wr_bytes_app _ _ [flag + 2 ^ pfx - 1] _ b1); [by rewrite <- Z.add_sub_assoc|]. by rewrite Zlen_cons, Zlen_nil.
    + intros b2 [Hn Hb2]. split; lia.
Qed.

Lemma prefix_ok_string : prefix_ok 7 0.
Proof. unfold prefix_ok. split_and!; done || lia. Qed.

Lemma hpack_encode_string_writes s b p size :
  Zlen s < 2 ^ 64 -> 0 <= p -> p + size <= Zlen b ->
  writes (hpack_encode_string s p size) b p size (string_bytes s).
Proof.
  intros Hs Hp Hl. unfold writes, hpack_encode_string, string_bytes. rewrite Zlen_app.
  pose proof (int_bytes_len 7 0 (Zlen s)) as Hi. pose proof (Zlen_nonneg s) as Hs0.
  wp_step. wp_step; [|lia]. wp_step. eapply wp_mono; [apply poke_ok; lia| |intros b' Hx; exact Hx]. intros b1 [] Hb1.
  pose proof (wr_bytes_len _ _ _ _ Hb1) as Hl1. wp_step.
  eapply wp_mono; [apply (hpack_encode_integer_writes _ _ 0); [apply prefix_ok_string|lia|lia|lia|lia|]| |].
  - rewrite (rd8_wr_in _ _ _ _ _ Hb1), Z.sub_diag by (rewrite Zlen_cons, Zlen_nil; lia). done.
  - intros b2 n (->&Hn&Hb2). pose proof (wr_bytes_len _ _ _ _ Hb2). wp_step. wp_step; [|lia]. wp_step. wp_step. wp_step. apply wp_access.
    destruct (wr_bytes_ex b2 (p + Zlen (int_bytes 7 0 (Zlen s))) s) as [b3 Hb3]; [lia|lia|]. exists b3. split; [done|].
    wp_step. wp_step. wp_step. split_and!; [done|lia|]. eapply wr_bytes_app; [|exact Hb3]. eapply wr_bytes_over; [exact Hb1|exact Hb2|lia].
  - intros b2 [Hn Hb2]. split; lia.
Qed.

(** ** The readers *)

(** [data] holds the bytes [bs] at [p]. *)
Definition holds (data : list Z) (p : Z) (bs : list Z) : Prop := rd_bytes data p (Zlen bs) = Some bs.

Lemma holds_app data p a b : holds data p (a ++ b) -> holds data p a /\ holds data (p + Zlen a) b.
Proof.
  unfold holds. rewrite Zlen_app. intros H. pose proof (Zlen_nonneg a). pose proof (Zlen_nonneg b). split.
  - apply (rd_bytes_sub _ _ _ _ 0 (Zlen a)) in H; [|lia|lia|lia]. rewrite Z.add_0_r in H. rewrite H. change (Z.to_nat 0) with 0%nat.
    rewrite drop_0. unfold Zlen. rewrite Nat2Z.id. by rewrite take_app_length.
  - apply (rd_bytes_sub _ _ _ _ (Zlen a) (Zlen b)) in H; [|lia|lia|lia]. rewrite H. unfold Zlen. rewrite !Nat2Z.id, drop_app_length. by rewrite firstn_all.
Qed.

Lemma holds_cons data p x bs : holds data p (x :: bs) -> rd8 data p = Some x /\ holds data (p + 1) bs.
Proof.
  intros H. change (x :: bs) with ([x] ++ bs) in H. apply holds_app in H as [Hx Hb]. split; [|by rewrite Zlen_cons, Zlen_nil in Hb].
  unfold holds in Hx. pose proof (rd_bytes_lookup _ _ _ _ 0 Hx) as Hl. rewrite Z.add_0_r in Hl. rewrite <- Hl; [done|]. split; [lia|]. unfold Zlen. cbn [length]. lia.
Qed.

(** A fact about all bytes. *)
Lemma byte_forall (P : Z -> bool) b : forallb (fun n => P (Z.of_nat n)) (seq 0 256) = true -> is_byte b -> P b = true.
Proof.
  intros H Hb. rewrite forallb_forall in H. unfold is_byte in Hb. specialize (H (Z.to_nat b)). rewrite in_seq, Z2Nat.id in H by lia. apply H. lia.
Qed.

Lemma land128 b : is_byte b -> (Z.land b 128 =? 0) = (b <? 128).
Proof. intros Hb. apply eqb_prop, (byte_forall (fun b => Bool.eqb (Z.land b 128 =? 0) (b <? 128)) b); [|done]. vm_compute. reflexivity. Qed.

Lemma land127 b : Z.land b 127 = b mod 128.
Proof. change 127 with (Z.ones 7). by rewrite Z.land_ones by lia. Qed.

(** A group that fits is added without wrapping. *)
Lemma group_fits r chunk sh : 0 <= r -> 0 <= chunk -> 0 <= sh < 64 -> r + chunk * 2 ^ sh < 2 ^ 64 ->
  (64 <=? sh) || (Z.shiftr (UINT64_MAX - r) sh <? chunk) = false /\ u64 (r + u64 (Z.shiftl chunk sh)) = r + chunk * 2 ^ sh.
Proof.
  intros Hr Hc Hsh Hle. assert (0 < 2 ^ sh) as Hpos by (apply Z.pow_pos_nonneg; lia). unfold UINT64_MAX, u64. change (2 ^ 64) with 18446744073709551616 in Hle.
  rewrite Z.shiftl_mul_pow2, Z.shiftr_div_pow2 by lia. split; [|rewrite (Z.mod_small (chunk * 2 ^ sh)), Z.mod_small by nia; done].
  apply orb_false_iff. split; [lia|]. apply Z.ltb_ge. apply Z.div_le_lower_bound; lia.
Qed.

(** [decode_integer_loop] on the groups of a number. *)
Lemma decode_integer_loop_tail {St} fuel data p v n off r sh (s : St) :
  0 <= v < 128 ^ (Z.of_nat fuel + 1) -> holds data p (int_tail fuel v) -> Zlen (int_tail fuel v) <= Z.of_nat n ->
  0 <= r -> 0 <= sh < 64 -> r + v * 2 ^ sh < 2 ^ 64 ->
  wp (decode_integer_loop data p n off r sh) s
    (fun s' x => s' = s /\ x = (off + Zlen (int_tail fuel v), r + v * 2 ^ sh)) (fun _ => False).
Proof.
  revert p v n off r sh. induction fuel as [|fuel IH]; intros p v n off r sh Hv Hd Hn Hr Hsh Hle; cbn [int_tail] in *.
  - change (128 ^ (Z.of_nat 0 + 1)) with 128 in Hv. apply holds_cons in Hd as [Hd _]. rewrite Zlen_cons, Zlen_nil in *.
    destruct n as [|n]; [lia|]. cbn [decode_integer_loop]. wp_step. apply wp_access. exists v. split; [done|].
    rewrite land127, land128, Z.mod_small by (unfold is_byte; lia). destruct (group_fits r v sh) as [-> ->]; [lia..|].
    wp_step. wp_step; [|done]. destruct (Z.ltb_spec v 128); [|lia]. by wp_step.
  - destruct (Z.leb_spec 128 v); apply holds_cons in Hd as [Hd Hd']; rewrite Zlen_cons, ?Zlen_nil in *; (destruct n as [|n]; [pose proof (Zlen_nonneg (int_tail fuel (v / 128))); lia|]);
      cbn [decode_integer_loop]; wp_step; apply wp_access; eexists; (split; [exact Hd|]).
    + pose proof (Z.mod_pos_bound v 128). pose proof (Z.div_mod v 128). rewrite land127, land128 by (unfold is_byte; lia).
      replace ((128 + v mod 128) mod 128) with (v mod 128) by (Z.div_mod_to_equations; lia).
      assert (0 < 2 ^ sh) by (apply Z.pow_pos_nonneg; lia). assert (1 <= v / 128) by (apply Z.div_le_lower_bound; lia).
      assert (2 ^ (sh + 7) = 128 * 2 ^ sh) as Hsh7 by (rewrite Z.pow_add_r, Z.mul_comm by lia; done).
      destruct (group_fits r (v mod 128) sh) as [-> ->]; [lia|lia|lia|nia|]. wp_step. wp_step; [|done].
      destruct (Z.ltb_spec (128 + v mod 128) 128); [lia|]. eapply wp_mono; [apply (IH _ (v / 128))| |done].
      * split; [lia|]. apply Z.div_lt_upper_bound; [lia|]. rewrite <- Z.pow_succ_r by lia.
        replace (Z.succ (Z.of_nat fuel + 1)) with (Z.of_nat (S fuel) + 1) by lia. lia.
      * done.
      * lia.
      * nia.
      * split; [lia|]. apply (Z.pow_lt_mono_r_iff 2); [lia|lia|]. nia.
      * rewrite Hsh7. nia.
      * intros s' x [-> ->]. split; [done|]. f_equal; [lia|]. rewrite Hsh7. nia.
    + rewrite land127, land128, Z.mod_small by (unfold is_byte; lia). destruct (group_fits r v sh) as [-> ->]; [lia..|].
      wp_step. wp_step; [|done]. destruct (Z.ltb_spec v 128); [|lia]. by wp_step.
Qed.

Lemma land_prefix pfx flag x : prefix_ok pfx flag -> 0 <= x < 2 ^ pfx -> Z.land (flag + x) (Z.shiftl 1 pfx - 1) = x.
Proof.
  intros (Hp&Hm&Hf&Hl) Hx. rewrite Z.shiftl_mul_pow2, Z.mul_1_l by lia.
  replace (2 ^ pfx - 1) with (Z.ones pfx) by (rewrite Z.ones_equiv; lia). rewrite Z.land_ones by lia.
  rewrite <- Zplus_mod_idemp_l, Hm. apply Z.mod_small. lia.
Qed.

(** The decoder reads back what the encoder writes. *)
Lemma hpack_decode_integer_bytes {St} data p len pfx flag v (s : St) :
  prefix_ok pfx flag -> 0 <= v < 2 ^ 64 -> holds data p (int_bytes pfx flag v) -> Zlen (int_bytes pfx flag v) <= len ->
  wp (hpack_decode_integer data p len pfx) s (fun s' x => s' = s /\ x = (Zlen (int_bytes pfx flag v), v)) (fun _ => False).
Proof.
  intros Hok Hv Hd Hl. pose proof Hok as (Hpfx&_). assert (2 <= 2 ^ pfx) as H2 by (apply (Z.pow_le_mono_r 2 1 pfx); lia).
  pose proof (int_bytes_len pfx flag v) as Hi. unfold hpack_decode_integer. wp_step. wp_step; [|lia]. wp_step. apply wp_access.
  unfold int_bytes in *. destruct (Z.ltb_spec v (2 ^ pfx - 1)); apply holds_cons in Hd as [Hd Hd']; rewrite Zlen_cons, ?Zlen_nil in *.
  - exists (flag + v). split; [done|]. rewrite land_prefix, Z.shiftl_mul_pow2, Z.mul_1_l by (done || lia).
    destruct (Z.ltb_spec v (2 ^ pfx - 1)); [|lia]. wp_step. done.
  - exists (flag + (2 ^ pfx - 1)). split; [rewrite Hd; f_equal; lia|]. rewrite land_prefix, Z.shiftl_mul_pow2, Z.mul_1_l by (done || lia).
    destruct (Z.ltb_spec (2 ^ pfx - 1) (2 ^ pfx - 1)); [lia|].
    eapply wp_mono; [apply (decode_integer_loop_tail 10 _ _ (v - (2 ^ pfx - 1))); try lia; try done| |done].
    + intros s' x [-> ->]. split; [done|]. f_equal. lia.
Qed.

Lemma u64_range v : 0 <= u64 v < 2 ^ 64.
Proof. unfold u64. apply Z.mod_pos_bound. lia. Qed.

(** The decoder on any bytes. *)
Lemma decode_integer_loop_safe {St} data p n off r sh (s : St) :
  0 <= p -> p + Z.of_nat n <= Zlen data -> 0 <= off ->
  wp (decode_integer_loop data p n off r sh) s
    (fun s' x => s' = s /\ off + 1 <= x.1 <= off + Z.of_nat n /\ 0 <= x.2 < 2 ^ 64) (fun s' => s' = s).
Proof.
  revert p off r sh. induction n as [|n IH]; intros p off r sh Hp Hl Ho; cbn [decode_integer_loop]; [by wp_step|].
  wp_step. apply wp_access. destruct (rd8_ex data p) as [b Hb]; [lia|]. exists b. split; [done|].
  wp_step. wp_step; [|done]. destruct (_ =? 0).
  - wp_step. cbn [fst snd]. split; [done|]. split; [lia|apply u64_range].
  - eapply wp_mono; [apply IH; lia| |done]. intros s' x (->&Hx&Hv). split; [done|]. split; [lia|done].
Qed.

Lemma hpack_decode_integer_safe {St} data p len pfx (s : St) :
  0 <= p -> p + len <= Zlen data -> 0 <= pfx <= 8 ->
  wp (hpack_decode_integer data p len pfx) s (fun s' x => s' = s /\ 1 <= x.1 <= len /\ 0 <= x.2 < 2 ^ 64) (fun s' => s' = s).
Proof.
  intros Hp Hl Hpfx. unfold hpack_decode_integer. wp_step. wp_step; [|done]. wp_step. apply wp_access.
  destruct (rd8_ex data p) as [b Hb]; [lia|]. exists b. split; [done|]. wp_step.
  - wp_step. cbn [fst snd]. split; [done|]. split; [lia|]. rewrite Z.shiftl_mul_pow2, Z.mul_1_l in * by lia.
    replace (2 ^ pfx - 1) with (Z.ones pfx) in * by (rewrite Z.ones_equiv; lia). rewrite Z.land_ones in * by lia.
    pose proof (Z.pow_le_mono_r 2 pfx 8). pose proof (Z.mod_pos_bound b (2 ^ pfx)). change (2 ^ 64) with 18446744073709551616. lia.
  - eapply wp_mono; [apply decode_integer_loop_safe; lia| |done]. intros s' x (->&Hx&Hv). split; [done|]. split; [lia|done].
Qed.

(** ** Strings *)

(** Twice the length of the encoding is room enough. *)
Lemma huff_encode_len s : Forall is_byte s -> (5 * length s <= length (huff_encode s))%nat.
Proof.
  induction 1 as [|c s Hc Hs IH]; [done|]. rewrite huff_encode_cons, length_app. cbn [length].
  apply huff_code_byte in Hc as (e&He&_&->). pose proof (code_of_len _ He). pose proof (huff_entry_spec _ He). lia.
Qed.

Lemma bits_of_bytes_len bs : length (bits_of_bytes bs) = (8 * length bs)%nat.
Proof. induction bs as [|b bs IH]; [done|]. rewrite bits_of_bytes_cons, length_app, bits_of_len, IH. cbn [length]. lia. Qed.

Lemma huffman_of_len src s : huffman_of src s -> Zlen s <= 2 * Zlen src.
Proof.
  intros (Hs&k&Hk&He). apply (f_equal length) in He. rewrite bits_of_bytes_len, length_app, length_replicate in He.
  pose proof (huff_encode_len s Hs). unfold Zlen. lia.
Qed.

(** What the string literal at [p] stands for: the bytes themselves or their
    Huffman decoding. *)
Definition string_at (data : list Z) (p : Z) (n : Z) (str : list Z) : Prop :=
  exists b off len raw, rd8 data p = Some b /\ 1 <= off /\ 0 <= len /\ n = off + len /\ rd_bytes data (p + off) len = Some raw /\
    ((b < 128 /\ str = until_nul raw) \/ (128 <= b /\ exists s, huffman_of raw s /\ str = until_nul s)).

(** A string as C code sees it. *)
Definition c_string (s : list Z) : Prop := Forall (fun b => is_byte b /\ b <> 0) s.

Lemma c_string_check s : forallb (fun b => (0 <? b) && (b <? 256)) s = true -> c_string s.
Proof.
  intros H. rewrite forallb_forall in H. apply list.Forall_forall. intros b Hb%list_elem_of_In%H. bools. unfold is_byte. lia.
Qed.

Lemma c_string_until_nul s : Forall is_byte s -> c_string (until_nul s).
Proof.
  intros Hs. unfold c_string. apply list.Forall_and. split; [by apply until_nul_Forall|apply until_nul_nonzero].
Qed.

Lemma until_nul_c_string s : c_string s -> until_nul s = s.
Proof. intros Hs. apply until_nul_id. eapply Forall_impl; [|exact Hs]. by intros b [_ Hb]. Qed.

Section Strings.
Variable malloc_ok : bool.

Lemma hpack_decode_string_safe {St} data p len (s : St) :
  Forall is_byte data -> 0 <= p -> p + len <= Zlen data ->
  wp (hpack_decode_string malloc_ok data p len) s
    (fun s' x => s' = s /\ x.1 <= len /\ string_at data p x.1 x.2) (fun s' => s' = s).
Proof.
  intros Hd Hp Hl. unfold hpack_decode_string. wp_step. wp_step; [|done]. wp_step. apply wp_access.
  destruct (rd8_ex data p) as [b Hb]; [lia|]. exists b. split; [done|]. pose proof (rd8_byte _ _ _ Hd Hb) as Hbyte. rewrite land128 by done.
  wp_step. eapply wp_mono; [apply hpack_decode_integer_safe; lia| |done]. intros s' [off n] (->&Hoff&Hn). cbn [fst snd] in *.
  wp_step. wp_step; [|done]. destruct (rd_bytes_ex data (p + off) n) as [raw Hraw]; [lia..|]. wp_step.
  - wp_step. wp_step; [|done]. wp_step. wp_step; [|done]. wp_step.
    eapply wp_mono; [apply (hpack_decode_huffman_spec _ _ _ _ _ _ Hd Hraw); lia| |by intros ? [-> _]].
    intros s' dst (->&Hdst&_). wp_step. wp_step; [|done]. wp_step. cbn [fst snd]. split; [done|]. split; [lia|].
    exists b, off, n, raw. split_and!; try lia; try done. right. split; [lia|]. by exists dst.
  - wp_step. wp_step; [|done]. wp_step. apply wp_access. exists raw. split; [done|]. wp_step. cbn [fst snd]. split; [done|]. split; [lia|].
    exists b, off, n, raw. split_and!; try lia; try done. left. split; [lia|done].
Qed.

Lemma hpack_decode_string_bytes {St} data p len str (s : St) :
  malloc_ok = true -> c_string str -> Zlen str < SIZE_MAX -> holds data p (string_bytes str) -> Zlen (string_bytes str) <= len ->
  wp (hpack_decode_string malloc_ok data p len) s (fun s' x => s' = s /\ x = (Zlen (string_bytes str), str)) (fun _ => False).
Proof.
  intros Hm Hstr Hlen Hd Hl. unfold string_bytes in *. apply holds_app in Hd as [Hi Hs]. rewrite Zlen_app in *.
  pose proof (int_bytes_len 7 0 (Zlen str)) as Hil. pose proof (Zlen_nonneg str). unfold SIZE_MAX in *.
  unfold hpack_decode_string. wp_step. wp_step; [|lia]. wp_step. apply wp_access.
  assert (exists b, rd8 data p = Some b /\ 0 <= b < 128) as (b&Hb&Hb128).
  { unfold int_bytes in Hi. destruct (Z.ltb_spec (Zlen str) (2 ^ 7 - 1)); apply holds_cons in Hi as [Hi _]; eexists; (split; [exact Hi|]); lia. }
  exists b. split; [done|]. rewrite land128 by (unfold is_byte; lia). destruct (Z.ltb_spec b 128); [cbn [negb]|lia].
  wp_step. eapply wp_mono; [apply (hpack_decode_integer_bytes _ _ _ 7 0 (Zlen str)); [apply prefix_ok_string|lia|done|lia]| |done].
  intros s' x (->&->). cbn [fst snd]. unfold SIZE_MAX. rewrite Hm. wp_step. wp_step; [|lia]. wp_step. wp_step; [|done]. wp_step. apply wp_access.
  exists str. split; [done|]. wp_step. by rewrite until_nul_c_string.
Qed.
End Strings.
