(* ===== verification/HpackTable.v ===== *)
(** * The dynamic table of HPACK (src/http_parse/hpack.c)

    Section 4 of RFC 7541 as a reference: after an insertion or a change of the
    maximum size the table is the longest run of its youngest entries that fits.
    The code, which removes one entry after the other from the end and keeps the
    size in a counter, does the same. *)

From Stdlib Require Import ZArith Lia.
From stdpp Require Import base list numbers option.
From S2P Require Import Prelude Hpack HpackHuffman HpackSpec.

(** ** Reference *)

Fixpoint total (l : list hpack_dynamic_entry) : Z :=
  match l with [] => 0 | e :: l => e_size e + total l end.

(** The longest run of youngest entries of at most [room]. *)
Fixpoint keep (room : Z) (l : list hpack_dynamic_entry) : list hpack_dynamic_entry :=
  match l with
  | [] => []
  | e :: l => if e_size e <=? room then e :: keep (room - e_size e) l else []
  end.

Definition new_entry (name value : list Z) : hpack_dynamic_entry := mk_entry name value (Zlen name + Zlen value + 32).

(** ** Invariant *)

Definition entry_wf (e : hpack_dynamic_entry) : Prop :=
  e_size e = Zlen (e_name e) + Zlen (e_value e) + 32 /\ c_string (e_name e) /\ c_string (e_value e).

(** The counters are those of the table, and the table fits. *)
Definition table_wf (h : hpack_context) : Prop :=
  Forall entry_wf (dynamic_table h) /\ dynamic_table_size h = total (dynamic_table h) /\ entry_count h = Zlen (dynamic_table h) /\
  total (dynamic_table h) <= max_dynamic_table_size h <= HPACK_MAX_DYNAMIC_TABLE_SIZE.

Lemma entry_wf_size e : entry_wf e -> 32 <= e_size e.
Proof. intros (->&_). pose proof (Zlen_nonneg (e_name e)). pose proof (Zlen_nonneg (e_value e)). lia. Qed.

Lemma total_app a b : total (a ++ b) = total a + total b.
Proof. induction a as [|e a IH]; [done|]. cbn. rewrite IH. lia. Qed.

Lemma total_nonneg l : Forall entry_wf l -> 32 * Zlen l <= total l.
Proof. induction 1 as [|e l He Hl IH]; [done|]. cbn. rewrite Zlen_cons. pose proof (entry_wf_size _ He). lia. Qed.

Lemma keep_prefix room l : exists k, keep room l = take k l.
Proof.
  revert room. induction l as [|e l IH]; intros room; [by exists 0%nat|]. cbn. destruct (_ <=? _); [|by exists 0%nat].
  destruct (IH (room - e_size e)) as [k ->]. by exists (S k).
Qed.

Lemma keep_total room l : 0 <= room -> total (keep room l) <= room.
Proof.
  revert room. induction l as [|e l IH]; intros room Hr; [done|]. cbn. destruct (Z.leb_spec (e_size e) room); [|done].
  cbn. specialize (IH (room - e_size e)). lia.
Qed.

Lemma keep_fits room l : Forall entry_wf l -> total l <= room -> keep room l = l.
Proof.
  intros Hl. revert room. induction Hl as [|e l He Hl IH]; intros room Hr; [done|]. cbn in *.
  pose proof (total_nonneg _ Hl). pose proof (Zlen_nonneg l). destruct (Z.leb_spec (e_size e) room); [|lia]. f_equal. apply IH. lia.
Qed.

(** An entry at the end that does not fit makes no difference. *)
Lemma keep_snoc room l e : Forall entry_wf l -> room < total (l ++ [e]) -> keep room (l ++ [e]) = keep room l.
Proof.
  intros Hl. revert room. induction Hl as [|x l Hx Hl IH]; intros room Hr; cbn in *.
  - destruct (Z.leb_spec (e_size e) room); [lia|done].
  - destruct (Z.leb_spec (e_size x) room); [|done]. f_equal. apply IH. lia.
Qed.

(** ** The operations *)

(** What the loops of eviction do. *)
Lemma hpack_evict_spec fuel extra h :
  (length (dynamic_table h) <= fuel)%nat -> Forall entry_wf (dynamic_table h) -> dynamic_table_size h = total (dynamic_table h) ->
  entry_count h = Zlen (dynamic_table h) -> 0 <= extra -> total (dynamic_table h) + extra < 2 ^ 64 ->
  let t := keep (max_dynamic_table_size h - extra) (dynamic_table h) in
  hpack_evict fuel extra h = mk_hpack t (total t) (max_dynamic_table_size h) (Zlen t).
Proof.
  revert h. induction fuel as [|fuel IH]; intros [t sz mx cnt] Hf Hwf Hsz Hcnt He Hlt; cbn [dynamic_table dynamic_table_size max_dynamic_table_size entry_count] in *; subst; cbv zeta; cbn [hpack_evict dynamic_table dynamic_table_size max_dynamic_table_size entry_count].
  { destruct t; [done|cbn in Hf; lia]. }
  pose proof (total_nonneg _ Hwf) as Ht. pose proof (Zlen_nonneg t). unfold u64. change (2 ^ 64) with 18446744073709551616 in Hlt. rewrite (Z.mod_small (total t + extra)) by lia.
  destruct (Z.ltb_spec mx (total t + extra)); [|by rewrite keep_fits by (done || lia)].
  destruct t as [|e t _] using rev_ind; [done|]. rewrite last_snoc, removelast_last.
  apply Forall_app in Hwf as [Hwf Hwe]. apply Forall_singleton, entry_wf_size in Hwe. pose proof (total_nonneg _ Hwf). pose proof (Zlen_nonneg t).
  rewrite total_app in *. cbn [total] in *. rewrite Z.mod_small by lia. rewrite keep_snoc; [|done|rewrite total_app; cbn [total]; lia].
  rewrite IH; cbn [dynamic_table dynamic_table_size max_dynamic_table_size entry_count]; try done; try lia.
  - rewrite length_app in Hf. cbn in Hf. lia.
  - rewrite Zlen_app, Zlen_cons, Zlen_nil. lia.
Qed.

Lemma keep_wf room l : Forall entry_wf l -> Forall entry_wf (keep room l).
Proof. intros Hl. destruct (keep_prefix room l) as [k ->]. by apply Forall_take. Qed.

(** The context with the table [t]. *)
Definition context_of (mx : Z) (t : list hpack_dynamic_entry) : hpack_context := mk_hpack t (total t) mx (Zlen t).

Lemma table_wf_context h : table_wf h -> h = context_of (max_dynamic_table_size h) (dynamic_table h).
Proof. intros (_&Hs&Hc&_). destruct h. cbn in *. by subst. Qed.

Lemma context_of_wf mx t : Forall entry_wf t -> total t <= mx <= HPACK_MAX_DYNAMIC_TABLE_SIZE -> table_wf (context_of mx t).
Proof. intros Ht Hm. unfold table_wf. cbn. split_and!; done || lia. Qed.

Lemma keep_neg room l : Forall entry_wf l -> room < 0 -> keep room l = [].
Proof. intros [|e t He _] Hr; [done|]. cbn. apply entry_wf_size in He. destruct (Z.leb_spec (e_size e) room); [lia|done]. Qed.

(** Insertion is that of the reference. *)
Lemma hpack_add_spec name value h : table_wf h -> Zlen name + Zlen value < 2 ^ 63 ->
  hpack_add_dynamic_entry true name value h =
  context_of (max_dynamic_table_size h) (keep (max_dynamic_table_size h) (new_entry name value :: dynamic_table h)).
Proof.
  intros (Hwf&Hs&Hc&Hm) Hl. pose proof (Zlen_nonneg name). pose proof (Zlen_nonneg value). pose proof (total_nonneg _ Hwf).
  pose proof (Zlen_nonneg (dynamic_table h)). unfold hpack_add_dynamic_entry, HPACK_MAX_DYNAMIC_TABLE_SIZE in *. cbn [negb].
  assert (u64 (Zlen name + Zlen value + 32) = e_size (new_entry name value)) as ->.
  { unfold u64. cbn. apply Z.mod_small. change (2 ^ 63) with 9223372036854775808 in Hl. lia. }
  change (2 ^ 63) with 9223372036854775808 in Hl. assert (32 <= e_size (new_entry name value) < 9223372036854775840) as Hne by (cbn; lia).
  rewrite hpack_evict_spec; try done; try lia. cbn [dynamic_table dynamic_table_size max_dynamic_table_size entry_count keep].
  destruct (Z.ltb_spec (max_dynamic_table_size h) (e_size (new_entry name value))), (Z.leb_spec (e_size (new_entry name value)) (max_dynamic_table_size h)); try lia.
  - rewrite keep_neg by (done || lia). done.
  - unfold context_of. cbn [total]. rewrite Zlen_cons. f_equal; [|lia]. unfold u64.
    pose proof (keep_total (max_dynamic_table_size h - e_size (new_entry name value)) (dynamic_table h)).
    pose proof (total_nonneg _ (keep_wf (max_dynamic_table_size h - e_size (new_entry name value)) _ Hwf)) as Hk.
    pose proof (Zlen_nonneg (keep (max_dynamic_table_size h - e_size (new_entry name value)) (dynamic_table h))).
    rewrite Z.mod_small by lia. cbn. lia.
Qed.

Lemma hpack_resize_spec new_size h : table_wf h -> 0 <= new_size <= HPACK_MAX_DYNAMIC_TABLE_SIZE ->
  hpack_resize_dynamic_table new_size h = context_of new_size (keep new_size (dynamic_table h)).
Proof.
  intros (Hwf&Hs&Hc&Hm) Hn. unfold hpack_resize_dynamic_table, HPACK_MAX_DYNAMIC_TABLE_SIZE in *.
  rewrite hpack_evict_spec; cbn [dynamic_table dynamic_table_size max_dynamic_table_size entry_count]; try done; [|lia].
  by rewrite Z.sub_0_r.
Qed.

Lemma new_entry_wf name value : c_string name -> c_string value -> entry_wf (new_entry name value).
Proof. intros Hn Hv. unfold entry_wf. by split_and!. Qed.

Lemma table_max_nonneg h : table_wf h -> 0 <= max_dynamic_table_size h.
Proof. intros (Hwf&_&_&Hm). pose proof (total_nonneg _ Hwf). pose proof (Zlen_nonneg (dynamic_table h)). lia. Qed.

Lemma hpack_add_wf malloc_ok name value h : table_wf h -> c_string name -> c_string value -> Zlen name + Zlen value < 2 ^ 63 ->
  table_wf (hpack_add_dynamic_entry malloc_ok name value h).
Proof.
  intros Hh Hn Hv Hl. destruct malloc_ok; [|done]. rewrite hpack_add_spec by done. pose proof (table_max_nonneg _ Hh).
  pose proof Hh as (Hwf&_&_&Hm). apply context_of_wf; [apply keep_wf; constructor; [by apply new_entry_wf|done]|].
  split; [by apply keep_total|lia].
Qed.

Lemma hpack_resize_wf new_size h : table_wf h -> 0 <= new_size <= HPACK_MAX_DYNAMIC_TABLE_SIZE -> table_wf (hpack_resize_dynamic_table new_size h).
Proof.
  intros Hh Hn. rewrite hpack_resize_spec by done. pose proof Hh as (Hwf&_&_&Hm). apply context_of_wf; [by apply keep_wf|].
  split; [apply keep_total|]; lia.
Qed.

Lemma hpack_init_wf : table_wf hpack_init_context.
Proof. unfold table_wf. cbn. unfold HPACK_MAX_DYNAMIC_TABLE_SIZE. split_and!; done || lia. Qed.

#[export] Hint Resolve hpack_add_wf hpack_resize_wf hpack_init_wf : cdb.
