(* ===== verification/HpackHeaders.v ===== *)
(** * Header blocks of HPACK (src/http_parse/hpack.c)

    The search in the tables, the bytes of a header field, and that the decoder
    with the table of the encoder reads back the field and makes the same change
    of its table. *)

From Stdlib Require Import ZArith Lia.
From stdpp Require Import base list numbers option.
From S2P Require Import Prelude Hpack HpackHuffman HpackSpec HpackTable.

(** ** The tables *)

Lemma static_len : Zlen hpack_static_table = 61.
Proof. reflexivity. Qed.

Lemma static_c_strings : Forall (fun e => c_string e.1 /\ c_string e.2) hpack_static_table.
Proof.
  apply list.Forall_forall. intros [n v] He. assert (forallb (fun e => forallb (fun b => (0 <? b) && (b <? 256)) (e.1 ++ e.2)) hpack_static_table = true) as H by (vm_compute; reflexivity).
  rewrite forallb_forall in H. apply list_elem_of_In, H in He. cbn [fst snd] in *. rewrite forallb_app in He. apply andb_prop in He as [Hn Hv].
  split; by apply c_string_check.
Qed.

#[local] Opaque hpack_static_table.

(** The table of the protocol: the static entries, then the dynamic ones. *)
Definition full_table (h : hpack_context) : list (list Z * list Z) :=
  hpack_static_table ++ ((fun e => (e_name e, e_value e)) <$> dynamic_table h).

Lemma hpack_get_entry_spec index h : 0 <= index -> hpack_get_entry index h = if index =? 0 then None else full_table h !! Z.to_nat (index - 1).
Proof.
  intros Hi. unfold hpack_get_entry, full_table, HPACK_STATIC_TABLE_SIZE. pose proof static_len as Hl. unfold Zlen in Hl.
  destruct (Z.eqb_spec index 0); [done|]. destruct (Z.leb_spec index 61).
  - rewrite lookup_app_l by lia. done.
  - rewrite lookup_app_r, list_lookup_fmap by lia. replace (Z.to_nat (index - 1) - length hpack_static_table)%nat with (Z.to_nat (index - 61 - 1)) by lia.
    by destruct (_ !! _).
Qed.

Lemma total_entry t e : Forall entry_wf t -> e ∈ t -> e_size e <= total t.
Proof.
  induction 1 as [|x t Hx Ht IH]; intros He; [by apply not_elem_of_nil in He|]. cbn. pose proof (total_nonneg _ Ht). pose proof (Zlen_nonneg t).
  apply entry_wf_size in Hx. apply elem_of_cons in He as [->|He]; [lia|]. specialize (IH He). lia.
Qed.

Lemma static_names_short : forallb (fun e => Zlen e.1 <=? 100) hpack_static_table = true.
Proof. vm_compute. reflexivity. Qed.

Lemma full_table_wf h i e : table_wf h -> full_table h !! i = Some e -> c_string e.1 /\ c_string e.2 /\ Zlen e.1 <= HPACK_MAX_DYNAMIC_TABLE_SIZE.
Proof.
  intros (Hwf&_&_&Hm) He%list_elem_of_lookup_2. unfold full_table in He. apply elem_of_app in He as [He|He].
  - pose proof static_c_strings as Hs. rewrite list.Forall_forall in Hs. pose proof static_names_short as Hn. rewrite forallb_forall in Hn.
    destruct (Hs _ He) as [H1 H2]. apply list_elem_of_In, Hn, Z.leb_le in He. unfold HPACK_MAX_DYNAMIC_TABLE_SIZE. split_and!; [done|done|lia].
  - apply list_elem_of_fmap in He as (x&->&Hx). cbn [fst snd]. pose proof (total_entry _ _ Hwf Hx). rewrite list.Forall_forall in Hwf.
    destruct (Hwf _ Hx) as (Hs&H1&H2). pose proof (Zlen_nonneg (e_value x)). split_and!; [done|done|lia].
Qed.

(** ** The search *)

Lemma find_in_table_inl l name value i n j : find_in_table l name value i n = inl j ->
  i <= j /\ l !! Z.to_nat (j - i) = Some (name, value).
Proof.
  revert i n. induction l as [|[n' v'] l IH]; intros i n H; cbn in H; [done|].
  assert (forall n, find_in_table l name value (i + 1) n = inl j -> i <= j /\ ((n', v') :: l) !! Z.to_nat (j - i) = Some (name, value)) as Hrec.
  { intros n2 [Hle Hl]%IH. split; [lia|]. replace (Z.to_nat (j - i)) with (S (Z.to_nat (j - (i + 1)))) by lia. done. }
  case_bool_decide as Hn; [|by apply Hrec in H]. case_bool_decide as Hv; [|by apply Hrec in H].
  injection H as <-. subst. rewrite Z.sub_diag. split; [lia|done].
Qed.

Lemma find_in_table_inr l name value i n m : 0 < i -> find_in_table l name value i n = inr m ->
  m = n \/ (i <= m /\ exists v, l !! Z.to_nat (m - i) = Some (name, v)).
Proof.
  revert i n. induction l as [|[n' v'] l IH]; intros i n Hi H; cbn in H; [left; congruence|].
  assert (forall n, find_in_table l name value (i + 1) n = inr m -> m = n \/ (i <= m /\ exists v, ((n', v') :: l) !! Z.to_nat (m - i) = Some (name, v))) as Hrec.
  { intros n2 [->|(Hle&v&Hl)]%IH; [by left| |lia]. right. split; [lia|]. exists v. replace (Z.to_nat (m - i)) with (S (Z.to_nat (m - (i + 1)))) by lia. done. }
  case_bool_decide as Hn; [|by apply Hrec in H]. case_bool_decide as Hv; [done|].
  apply Hrec in H as [->|H]; [|by right]. destruct (n =? 0); [|by left]. right. split; [lia|]. exists v'. rewrite Z.sub_diag. cbn. by subst.
Qed.

(** A hit is an entry of the table with the field, or with its name. *)
Lemma hpack_find_index_spec name value h i n : hpack_find_index name value h = (i, n) ->
  (0 < i /\ full_table h !! Z.to_nat (i - 1) = Some (name, value)) \/
  (i = 0 /\ (n = 0 \/ (0 < n /\ exists v, full_table h !! Z.to_nat (n - 1) = Some (name, v)))).
Proof.
  unfold hpack_find_index, full_table, HPACK_STATIC_TABLE_SIZE. set (d := _ <$> dynamic_table h). pose proof static_len as Hl. unfold Zlen in Hl.
  destruct (find_in_table hpack_static_table name value 1 0) as [j|m] eqn:Hs.
  - intros [= <- <-]. apply find_in_table_inl in Hs as [Hj Hs]. left. split; [lia|]. by apply lookup_app_l_Some.
  - apply find_in_table_inr in Hs; [|lia].
    assert (m = 0 \/ 0 < m /\ exists v, (hpack_static_table ++ d) !! Z.to_nat (m - 1) = Some (name, v)) as Hm.
    { destruct Hs as [->|(Hm&v&Hv)]; [by left|right]. split; [lia|]. exists v. by apply lookup_app_l_Some. }
    destruct (find_in_table d name value (61 + 1) m) as [j|m'] eqn:Hd; intros [= <- <-].
    + apply find_in_table_inl in Hd as [Hj Hd]. left. split; [lia|]. rewrite lookup_app_r by lia. rewrite <- Hd. f_equal. lia.
    + apply find_in_table_inr in Hd as [->|(Hm'&v&Hv)]; [by right|right; split; [done|]; right|lia]. split; [lia|]. exists v.
      rewrite lookup_app_r by lia. rewrite <- Hv. f_equal. lia.
Qed.

Lemma full_table_len h : table_wf h -> Zlen (full_table h) < 2 ^ 64.
Proof.
  intros (Hwf&_&_&Hm). unfold full_table, HPACK_MAX_DYNAMIC_TABLE_SIZE in *. rewrite Zlen_app, static_len. unfold Zlen at 1. rewrite length_fmap.
  pose proof (total_nonneg _ Hwf) as Ht. unfold Zlen in Ht. change (2 ^ 64) with 18446744073709551616. lia.
Qed.

Lemma lookup_range {A} (l : list A) i x : 0 < i -> l !! Z.to_nat (i - 1) = Some x -> i <= Zlen l.
Proof. intros Hi Hx. apply lookup_lt_Some in Hx. unfold Zlen. lia. Qed.

(** ** The bytes of a field *)

Section Fields.
Variable malloc_ok : bool.
Variable on_header : list (list Z * list Z) -> list Z -> list Z -> bool.

(** An index; or the index of the name, or none and the name, and the value. *)
Definition field_bytes (h : hpack_context) (name value : list Z) : list Z :=
  let (index, name_only_index) := hpack_find_index name value h in
  if 0 <? index then int_bytes 7 128 index
  else if 0 <? name_only_index then int_bytes 6 64 name_only_index ++ string_bytes value
  else int_bytes 6 64 0 ++ string_bytes name ++ string_bytes value.

(** The table behind it. *)
Definition field_table (h : hpack_context) (name value : list Z) : hpack_context :=
  if 0 <? (hpack_find_index name value h).1 then h else hpack_add_dynamic_entry malloc_ok name value h.

Lemma prefix_ok_index : prefix_ok 7 128.
Proof. unfold prefix_ok. split_and!; done || lia. Qed.

Lemma prefix_ok_literal : prefix_ok 6 64.
Proof. unfold prefix_ok. split_and!; done || lia. Qed.

(** A field that can be encoded: strings of C that memory holds. *)
Definition field_ok (name value : list Z) : Prop := c_string name /\ c_string value /\ Zlen name < INT_MAX /\ Zlen value < INT_MAX.

Lemma writes_on_buf m b h p size bs (Q : enc_state -> Z -> Prop) (E : enc_state -> Prop) :
  writes m b p size bs -> (forall b', Zlen bs <= size -> wr_bytes b p bs = Some b' -> Q (b', h) (Zlen bs)) ->
  (forall b', size < Zlen bs -> Zlen b' = Zlen b -> E (b', h)) -> wp (on_buf m) (b, h) Q E.
Proof.
  intros Hm HQ HE. unfold on_buf. apply wp_zoom. cbn [fst snd]. eapply wp_mono; [exact Hm| |].
  - intros b' n (->&Hn&Hb). by apply HQ.
  - intros b' [Hn Hb]. by apply HE.
Qed.

Lemma poke_on_buf b h p v (Q : enc_state -> unit -> Prop) E : 0 <= p -> p + 1 <= Zlen b ->
  (forall b', wr_bytes b p [v] = Some b' -> rd8 b' p = Some v -> Zlen b' = Zlen b -> Q (b', h) tt) -> wp (on_buf (poke p v)) (b, h) Q E.
Proof.
  intros Hp Hl HQ. unfold on_buf. apply wp_zoom. cbn [fst snd]. eapply wp_mono; [by apply poke_ok| |intros b' Hx; exact Hx].
  intros b' [] Hb. apply HQ; [done| |by eapply wr_bytes_len].
  rewrite (rd8_wr_in _ _ _ _ _ Hb), Z.sub_diag by (rewrite Zlen_cons, Zlen_nil; lia). done.
Qed.

(** The encoder writes these bytes and changes the table so; where they do not
    fit it fails and leaves the table as it was. *)
Lemma hpack_encode_header_writes name value b h p size :
  table_wf h -> field_ok name value -> 0 <= p -> p + size <= Zlen b ->
  wp (hpack_encode_header malloc_ok name value p size) (b, h)
    (fun s n => n = Zlen (field_bytes h name value) /\ n <= size /\ wr_bytes b p (field_bytes h name value) = Some s.1 /\ s.2 = field_table h name value)
    (fun s => size < Zlen (field_bytes h name value) /\ Zlen s.1 = Zlen b /\ s.2 = h).
Proof.
  intros Hh (Hn&Hv&Hln&Hlv) Hp Hl. unfold INT_MAX in *. unfold hpack_encode_header, field_bytes, field_table. wp_step. wp_step. cbn [snd].
  destruct (hpack_find_index name value h) as [i n] eqn:Hf. apply hpack_find_index_spec in Hf. pose proof (full_table_len _ Hh) as Hlen. cbn [fst].
  pose proof (Zlen_nonneg value). pose proof (Zlen_nonneg name).
  pose proof (Zlen_nonneg (string_bytes value)). pose proof (Zlen_nonneg (string_bytes name)).
  destruct (Z.ltb_spec 0 i).
  - destruct Hf as [[Hi Hf]|[-> _]]; [|lia]. pose proof (lookup_range _ _ _ Hi Hf). pose proof (int_bytes_len 7 128 i).
    wp_step. wp_step; [|cbn [fst snd]; split_and!; done || lia]. wp_step. apply poke_on_buf; [lia|lia|]. intros b1 Hb1 Hr1 Hl1.
    eapply writes_on_buf; [apply (hpack_encode_integer_writes i 7 128); try done; try lia; apply prefix_ok_index| |].
    + intros b2 Hle Hb2. split_and!; try done. eapply wr_bytes_over; [exact Hb1|exact Hb2|lia].
    + intros b2 Hle Hb2. cbn. split_and!; lia || done.
  - destruct Hf as [[Hi Hf]|[-> Hf]]; [lia|]. destruct (Z.ltb_spec 0 n).
    + destruct Hf as [->|(_&v&Hf)]; [lia|]. pose proof (lookup_range _ _ _ ltac:(eassumption) Hf). pose proof (int_bytes_len 6 64 n). rewrite Zlen_app.
      wp_step. wp_step; [|cbn [fst snd]; split_and!; done || lia]. wp_step. apply poke_on_buf; [lia|lia|]. intros b1 Hb1 Hr1 Hl1. wp_step.
      eapply writes_on_buf; [apply (hpack_encode_integer_writes n 6 64); try done; try lia; apply prefix_ok_literal| |].
      * intros b2 Hle Hb2. pose proof (wr_bytes_len _ _ _ _ Hb2). wp_step.
        eapply writes_on_buf; [apply hpack_encode_string_writes; lia| |]; intros b3 Hle3 Hb3.
        -- wp_step. wp_step. wp_step. cbn [fst snd]. split_and!; [done|lia| |done]. eapply wr_bytes_app; [|exact Hb3]. eapply wr_bytes_over; [exact Hb1|exact Hb2|lia].
        -- cbn. split_and!; lia || done.
      * intros b2 Hle Hb2. cbn. pose proof (Zlen_nonneg (string_bytes value)). split_and!; lia || done.
    + change (int_bytes 6 64 0) with [64]. rewrite !Zlen_app. change (Zlen [64]) with 1.
      wp_step. wp_step; [|cbn [fst snd]; split_and!; done || lia]. wp_step. apply poke_on_buf; [lia|lia|]. intros b1 Hb1 Hr1 Hl1. wp_step.
      eapply writes_on_buf; [apply hpack_encode_string_writes; lia| |]; intros b2 Hle2 Hb2.
      * pose proof (wr_bytes_len _ _ _ _ Hb2). wp_step. pose proof (Zlen_nonneg (string_bytes name)).
        eapply writes_on_buf; [apply hpack_encode_string_writes; lia| |]; intros b3 Hle3 Hb3.
        -- wp_step. wp_step. wp_step. cbn [fst snd]. split_and!; [lia|lia| |done]. eapply wr_bytes_app; [exact Hb1|]. change (Zlen [64]) with 1.
           eapply wr_bytes_app; [exact Hb2|]. by rewrite Z.add_assoc in Hb3.
        -- cbn. split_and!; lia || done.
      * cbn. pose proof (Zlen_nonneg (string_bytes value)). split_and!; lia || done.
Qed.

(** ** Reading a field back *)

Lemma land64 b : is_byte b -> (Z.land b 64 =? 0) = (b mod 128 <? 64).
Proof. intros Hb. apply eqb_prop, (byte_forall (fun b => Bool.eqb (Z.land b 64 =? 0) (b mod 128 <? 64)) b); [|done]. vm_compute. reflexivity. Qed.

Lemma int_bytes_first data p pfx flag v : 0 <= v -> prefix_ok pfx flag -> holds data p (int_bytes pfx flag v) ->
  exists b, rd8 data p = Some b /\ flag <= b < flag + 2 ^ pfx.
Proof.
  intros Hv (Hp&_) Hd. assert (2 <= 2 ^ pfx) by (apply (Z.pow_le_mono_r 2 1 pfx); lia).
  unfold int_bytes in Hd. destruct (Z.ltb_spec v (2 ^ pfx - 1)); apply holds_cons in Hd as [Hd _]; eexists; (split; [exact Hd|lia]).
Qed.

(** The literals: the name, the value, the table. *)
Lemma decode_literal h hs name value data len off n :
  malloc_ok = true -> table_wf h -> field_ok name value -> on_header hs name value = true ->
  (0 < n /\ (exists v, full_table h !! Z.to_nat (n - 1) = Some (name, v)) /\ holds data off (string_bytes value) /\ off + Zlen (string_bytes value) <= len) \/
  (n = 0 /\ holds data off (string_bytes name ++ string_bytes value) /\ off + Zlen (string_bytes name ++ string_bytes value) <= len) ->
  wp (m <- decode_name malloc_ok data len n off ;;
      v <- hpack_decode_string malloc_ok data m.2 (len - m.2) ;;
      modify (fun s => (hpack_add_dynamic_entry malloc_ok m.1 v.2 s.1, s.2)) ;;
      (s <- get ;; put (s.1, s.2 ++ [(m.1, v.2)]) ;; guard (on_header s.2 m.1 v.2)) ;;
      ret (m.2 + v.1, true)) (h, hs)
    (fun s r => s = (hpack_add_dynamic_entry malloc_ok name value h, hs ++ [(name, value)]) /\
      r = (off + (if 0 <? n then 0 else Zlen (string_bytes name)) + Zlen (string_bytes value), true)) (fun _ => False).
Proof.
  intros Hm Hh (Hn&Hv&Hln&Hlv) Hon Hc. unfold INT_MAX in *. wp_step.
  apply (wp_mono _ _ (fun s r => s = (h, hs) /\ r = (name, off + (if 0 <? n then 0 else Zlen (string_bytes name)))) _ (fun _ => False)); [| |done].
  - unfold decode_name. destruct Hc as [(Hpos&(v&Hf)&_)|(->&Hd&Hl)].
    + destruct (Z.ltb_spec 0 n); [|lia]. wp_step. wp_step. cbn [fst]. rewrite hpack_get_entry_spec by lia. destruct (Z.eqb_spec n 0); [lia|]. rewrite Hf, Hm, orb_true_r.
      wp_step. wp_step; [|done]. wp_step. by rewrite Z.add_0_r.
    + cbn [Z.ltb Z.compare]. apply holds_app in Hd as [Hd _]. rewrite Zlen_app in Hl. pose proof (Zlen_nonneg (string_bytes value)). wp_step.
      eapply wp_mono; [apply (hpack_decode_string_bytes _ _ _ _ name); try done; unfold SIZE_MAX; lia| |done]. intros s r [-> ->]. by wp_step.
  - intros s r [-> ->]. cbn [fst snd]. wp_step.
    eapply wp_mono; [apply (hpack_decode_string_bytes _ _ _ _ value); try done; [unfold SIZE_MAX; lia| |]| |done].
    + destruct Hc as [(Hpos&_&Hd&_)|(->&Hd&_)]; [destruct (Z.ltb_spec 0 n); [by rewrite Z.add_0_r|lia]|]. by apply holds_app in Hd as [_ Hd].
    + destruct Hc as [(Hpos&_&_&Hl)|(->&_&Hl)]; [destruct (Z.ltb_spec 0 n); lia|]. rewrite Zlen_app in Hl. cbn [Z.ltb Z.compare]. lia.
    + intros s r [-> ->]. cbn [fst snd]. wp_step. wp_step. cbn [fst snd]. wp_step. wp_step. wp_step. wp_step. wp_step. wp_step; [|cbn [snd] in *; congruence]. wp_step. done.
Qed.

Lemma decode_field_bytes h hs name value data len off seen :
  malloc_ok = true -> table_wf h -> field_ok name value -> on_header hs name value = true ->
  holds data off (field_bytes h name value) -> off + Zlen (field_bytes h name value) <= len ->
  wp (decode_field malloc_ok on_header data len off seen) (h, hs)
    (fun s r => s = (field_table h name value, hs ++ [(name, value)]) /\ r = (off + Zlen (field_bytes h name value), true)) (fun _ => False).
Proof.
  intros Hm Hh Hok Hon Hd Hl. unfold decode_field, field_table, field_bytes in *. pose proof (full_table_len _ Hh) as Hlen.
  destruct (hpack_find_index name value h) as [i n] eqn:Hf. apply hpack_find_index_spec in Hf. cbn [fst].
  destruct (Z.ltb_spec 0 i).
  - destruct Hf as [[Hi Hf]|[-> _]]; [|lia]. pose proof (lookup_range _ _ _ Hi Hf).
    destruct (int_bytes_first data off 7 128 i ltac:(lia) prefix_ok_index Hd) as (b&Hb&Hbr). change (2 ^ 7) with 128 in Hbr.
    wp_step. apply wp_access. exists b. split; [done|]. rewrite land128 by (unfold is_byte; lia). destruct (Z.ltb_spec b 128); [lia|]. cbn [negb].
    wp_step. eapply wp_mono; [apply (hpack_decode_integer_bytes _ _ _ 7 128 i); first [apply prefix_ok_index|lia|done]| |done].
    intros s r [-> ->]. wp_step. wp_step. cbn [fst snd]. rewrite hpack_get_entry_spec by lia. destruct (Z.eqb_spec i 0); [lia|]. rewrite Hf.
    wp_step. wp_step. wp_step. wp_step. wp_step. wp_step; [|cbn [snd] in *; congruence]. wp_step. done.
  - destruct Hf as [[Hi Hf]|[-> Hf]]; [lia|].
    assert (exists x tail, (if 0 <? n then int_bytes 6 64 n ++ string_bytes value else int_bytes 6 64 0 ++ string_bytes name ++ string_bytes value) = int_bytes 6 64 x ++ tail
      /\ x = (if 0 <? n then n else 0) /\ tail = (if 0 <? n then [] else string_bytes name) ++ string_bytes value) as (x&tail&Heq&Hx&Ht) by (destruct (0 <? n); eauto).
    rewrite Heq in *. apply holds_app in Hd as [Hd Hd']. rewrite Zlen_app in *. assert (0 <= x < 2 ^ 64) as Hxr.
    { subst x. destruct (Z.ltb_spec 0 n); [|lia]. destruct Hf as [->|(_&v&Hf)]; [lia|]. apply lookup_range in Hf; lia. }
    destruct (int_bytes_first data off 6 64 x ltac:(lia) prefix_ok_literal Hd) as (b&Hb&Hbr). change (2 ^ 6) with 64 in Hbr.
    wp_step. apply wp_access. exists b. split; [done|]. rewrite land128, land64 by (unfold is_byte; lia). rewrite Z.mod_small by lia.
    destruct (Z.ltb_spec b 128); [|lia]. destruct (Z.ltb_spec b 64); [lia|]. cbn [negb]. pose proof (Zlen_nonneg tail).
    wp_step. eapply wp_mono; [apply (hpack_decode_integer_bytes _ _ _ 6 64 x); first [apply prefix_ok_literal|lia|done]| |done].
    intros s r [-> ->]. cbn [fst snd]. eapply wp_mono; [apply (decode_literal h hs name value data len (off + Zlen (int_bytes 6 64 x)) x Hm Hh Hok Hon)| |done].
    + subst x tail. destruct (Z.ltb_spec 0 n); [left|right; split_and!; done || lia]. destruct Hf as [->|(_&Hf)]; [lia|]. split_and!; try done. rewrite app_nil_l in *. lia.
    + intros s r [-> ->]. split; [done|]. subst x tail. rewrite Zlen_app. f_equal.
      destruct (Z.ltb_spec 0 n); [destruct (Z.ltb_spec 0 n); [|lia]|change (0 <? 0) with false; cbv iota]; change (Zlen (@nil Z)) with 0; lia.
Qed.
End Fields.
