(* ===== verification/HpackDecode.v ===== *)
(** * The HPACK decoder on arbitrary input (src/http_parse/hpack.c)

    [hpack_decode_headers] reads inside the block it is given, returns, and leaves
    a table whose counters are right and which is within its maximum size,
    whatever the peer sends. *)

From Stdlib Require Import ZArith Lia.
From stdpp Require Import base list numbers option.
From S2P Require Import Prelude Hpack HpackHuffman HpackSpec HpackTable HpackHeaders.

Definition field_strings (f : list Z * list Z) : Prop := c_string f.1 /\ c_string f.2.

(** What holds of the decoder between two fields. *)
Definition dec_wf (s : dec_state) : Prop := table_wf s.1 /\ Forall field_strings s.2.

Lemma string_at_ok data p n str : Forall is_byte data -> string_at data p n str -> c_string str /\ 1 <= n /\ Zlen str <= 2 * n.
Proof.
  intros Hd (b&off&len&raw&_&Ho&Hl&->&Hraw&Hs). pose proof (rd_bytes_byte _ _ _ _ Hd Hraw) as Hb. pose proof (rd_bytes_len _ _ _ _ Hraw).
  destruct Hs as [[_ ->]|(_&s&Hs&->)].
  - pose proof (until_nul_len raw). split_and!; [by apply c_string_until_nul|lia|lia].
  - pose proof (until_nul_len s). pose proof (huffman_of_len _ _ Hs). destruct Hs as [Hs _]. split_and!; [by apply c_string_until_nul|lia|lia].
Qed.

Section Decode.
Variable malloc_ok : bool.
Variable on_header : list (list Z * list Z) -> list Z -> list Z -> bool.
Variable data : list Z.
Variable data_len : Z.
Hypothesis data_bytes : Forall is_byte data.
Hypothesis data_room : data_len <= Zlen data.
Hypothesis data_int : data_len <= INT_MAX.

(** A string literal inside the block. *)
Lemma decode_string_inside {St} off (s : St) : 0 <= off ->
  wp (hpack_decode_string malloc_ok data off (data_len - off)) s
    (fun s' r => s' = s /\ c_string r.2 /\ Zlen r.2 < 2 ^ 32 /\ off < off + r.1 <= data_len) (fun s' => s' = s).
Proof.
  intros Ho. eapply wp_mono; [apply hpack_decode_string_safe; done || lia| |done]. intros s' [n str] (->&Hn&Hs). cbn [fst snd] in *.
  apply string_at_ok in Hs as (Hc&Hn1&Hl); [|done]. unfold INT_MAX in *. change (2 ^ 32) with 4294967296. split_and!; done || lia.
Qed.

Lemma get_entry_ok index h name value : 0 <= index -> table_wf h -> hpack_get_entry index h = Some (name, value) ->
  c_string name /\ c_string value /\ Zlen name < 2 ^ 32.
Proof.
  intros Hi Hh He. rewrite hpack_get_entry_spec in He by done. destruct (index =? 0); [done|].
  apply (full_table_wf _ _ _ Hh) in He as (H1&H2&H3). unfold HPACK_MAX_DYNAMIC_TABLE_SIZE in *. cbn [fst snd] in *. change (2 ^ 32) with 4294967296. split_and!; done || lia.
Qed.

Lemma decode_name_safe index off s : 0 <= index -> 0 <= off <= data_len -> dec_wf s ->
  wp (decode_name malloc_ok data data_len index off) s
    (fun s' r => s' = s /\ c_string r.1 /\ Zlen r.1 < 2 ^ 32 /\ off <= r.2 <= data_len) (fun s' => s' = s).
Proof.
  intros Hi Ho [Hh Hs]. unfold decode_name. wp_step.
  - wp_step. wp_step. destruct (hpack_get_entry index s.1) as [[name value]|] eqn:He; [|by wp_step].
    apply get_entry_ok in He as (Hn&_&Hl); [|done|done]. wp_step. wp_step; [|done]. wp_step. cbn [fst snd]. split_and!; done || lia.
  - wp_step. eapply wp_mono; [apply decode_string_inside; lia| |done]. intros s' r (->&Hc&Hl&Hr). wp_step. cbn [fst snd]. split_and!; done || lia.
Qed.

(** Calling back keeps the state well-formed, whether the callback takes the
    header or not. *)
Lemma header_safe name value (s : dec_state) (Q : dec_state -> unit -> Prop) (E : dec_state -> Prop) :
  dec_wf s -> c_string name -> c_string value ->
  (forall s', dec_wf s' -> s'.2 = s.2 ++ [(name, value)] -> Q s' tt) -> (forall s', dec_wf s' -> s'.2 = s.2 ++ [(name, value)] -> E s') ->
  wp (t <- get ;; put (t.1, t.2 ++ [(name, value)]) ;; guard (on_header t.2 name value)) s Q E.
Proof.
  intros [Hh Hs] Hn Hv HQ HE. assert (dec_wf (s.1, s.2 ++ [(name, value)])) as Hw.
  { split; [done|]. cbn. apply Forall_app. split; [done|]. apply Forall_singleton. done. }
  wp_step. wp_step. wp_step. wp_step. wp_step; [by apply HQ|by apply HE].
Qed.

Definition field_post (s : dec_state) (off : Z) (s' : dec_state) (r : Z * bool) : Prop :=
  dec_wf s' /\ off < r.1 <= data_len /\ Zlen s'.2 <= Zlen s.2 + 1.
Definition field_fail (s s' : dec_state) : Prop := dec_wf s' /\ Zlen s'.2 <= Zlen s.2 + 1.

Lemma literal_safe index off s off0 : 0 <= index -> off0 < off <= data_len -> 0 <= off -> dec_wf s ->
  wp (n <- decode_name malloc_ok data data_len index off ;;
      v <- hpack_decode_string malloc_ok data n.2 (data_len - n.2) ;;
      modify (fun s => (hpack_add_dynamic_entry malloc_ok n.1 v.2 s.1, s.2)) ;;
      (s <- get ;; put (s.1, s.2 ++ [(n.1, v.2)]) ;; guard (on_header s.2 n.1 v.2)) ;;
      ret (n.2 + v.1, true)) s (field_post s off0) (field_fail s).
Proof.
  intros Hi Ho Ho0 Hs. assert (forall s', s' = s -> field_fail s s') as Hfail by (intros s' ->; split; [done|lia]).
  wp_step. eapply wp_mono; [apply (decode_name_safe index off s); done || lia| |done]. intros s' [name o] (->&Hn&Hln&Hlo). cbn [fst snd] in *.
  wp_step. eapply wp_mono; [apply decode_string_inside; lia| |done]. intros s' [k value] (->&Hv&Hlv&Hk). cbn [fst snd] in *.
  wp_step. apply (wp_mono _ _ (fun s' _ => dec_wf s' /\ s'.2 = s.2) _ (fun _ => False)); [| |done].
  - wp_step. split; [|done]. destruct Hs as [Hh Hs]. split; [|done]. cbn [fst]. apply hpack_add_wf; try done.
    change (2 ^ 32) with 4294967296 in *. change (2 ^ 63) with 9223372036854775808. lia.
  - intros s1 _ [Hs1 Heq]. wp_step. apply header_safe; try done; intros s2 Hs2 Heq2.
    + wp_step. unfold field_post. rewrite Heq2, Heq, Zlen_app, Zlen_cons, Zlen_nil. cbn [fst]. split_and!; done || lia.
    + unfold field_fail. rewrite Heq2, Heq, Zlen_app, Zlen_cons, Zlen_nil. split; done || lia.
Qed.
(** The literal without indexing does not copy a name of the table. *)
Lemma plain_name_safe index off (s : dec_state) : 0 <= index -> 0 <= off <= data_len -> dec_wf s ->
  wp (if 0 <? index then
        t <- get ;; match hpack_get_entry index t.1 with None => fail | Some (name, _) => ret (name, off) end
      else r <- hpack_decode_string malloc_ok data off (data_len - off) ;; ret (r.2, off + r.1)) s
    (fun s' r => s' = s /\ c_string r.1 /\ off <= r.2 <= data_len) (fun s' => s' = s).
Proof.
  intros Hi Ho [Hh Hs]. wp_step.
  - wp_step. wp_step. destruct (hpack_get_entry index s.1) as [[name value]|] eqn:He; [|by wp_step].
    apply get_entry_ok in He as (Hn&_&Hl); [|done|done]. wp_step. cbn [fst snd]. split_and!; done || lia.
  - wp_step. eapply wp_mono; [apply decode_string_inside; lia| |done]. intros s' r (->&Hc&Hl&Hr). wp_step. cbn [fst snd]. split_and!; done || lia.
Qed.

Lemma decode_field_safe off seen s : 0 <= off < data_len -> dec_wf s ->
  wp (decode_field malloc_ok on_header data data_len off seen) s (field_post s off) (field_fail s).
Proof.
  intros Ho Hs. assert (forall s', s' = s -> field_fail s s') as Hfail by (intros s' ->; split; [done|lia]).
  assert (forall pfx, 0 <= pfx <= 8 -> wp (hpack_decode_integer data off (data_len - off) pfx) s
    (fun s' x => s' = s /\ 0 <= x.2 /\ off < off + x.1 <= data_len) (fun s' => s' = s)) as Hint.
  { intros pfx Hp. eapply wp_mono; [apply hpack_decode_integer_safe; lia| |done]. intros s' x (->&Hx&Hv). split_and!; done || lia. }
  unfold decode_field. wp_step. apply wp_access. destruct (rd8_ex data off) as [b Hb]; [lia|]. exists b. split; [done|]. wp_step.
  - wp_step. eapply wp_mono; [apply Hint; lia| |done]. intros s' [k i] (->&Hi&Hk). cbn [fst snd] in *. wp_step. wp_step.
    destruct (hpack_get_entry i s.1) as [[name value]|] eqn:He; [|wp_step; by apply Hfail]. pose proof Hs as [Hh _].
    apply get_entry_ok in He as (Hn&Hv&_); [|done|done]. wp_step. apply header_safe; try done; intros s2 Hs2 Heq2.
    + wp_step. unfold field_post. rewrite Heq2, Zlen_app, Zlen_cons, Zlen_nil. cbn [fst]. split_and!; done || lia.
    + unfold field_fail. rewrite Heq2, Zlen_app, Zlen_cons, Zlen_nil. split; done || lia.
  - wp_step.
    + wp_step. eapply wp_mono; [apply Hint; lia| |done]. intros s' [k i] (->&Hi&Hk). cbn [fst snd] in *.
      apply (literal_safe i (off + k) s off); done || lia.
    + wp_step.
      * wp_step. wp_step; [|by apply Hfail]. wp_step. eapply wp_mono; [apply Hint; lia| |done]. intros s' [k i] (->&Hi&Hk). cbn [fst snd] in *.
        wp_step. wp_step; [|by apply Hfail]. wp_step. wp_step. wp_step. destruct Hs as [Hh Hs]. split_and!; cbn [fst snd]; try lia.
        split; [|done]. apply hpack_resize_wf; [done|lia].
      * wp_step. eapply wp_mono; [apply Hint; lia| |done]. intros s' [k i] (->&Hi&Hk). cbn [fst snd] in *.
        wp_step. eapply wp_mono; [apply plain_name_safe; done || lia| |done]. intros s' [name o] (->&Hn&Hlo). cbn [fst snd] in *.
        wp_step. eapply wp_mono; [apply decode_string_inside; lia| |done]. intros s' [k' value] (->&Hv&Hlv&Hk'). cbn [fst snd] in *.
        wp_step. apply header_safe; try done; intros s2 Hs2 Heq2.
        -- wp_step. unfold field_post. rewrite Heq2, Zlen_app, Zlen_cons, Zlen_nil. cbn [fst]. split_and!; done || lia.
        -- unfold field_fail. rewrite Heq2, Zlen_app, Zlen_cons, Zlen_nil. split; done || lia.
Qed.

Lemma decode_fields_safe fuel off seen s : 0 <= off -> data_len - off <= Z.of_nat fuel -> dec_wf s ->
  wp (decode_fields malloc_ok on_header fuel data data_len off seen) s
    (fun s' _ => dec_wf s' /\ Zlen s'.2 <= Zlen s.2 + Z.max 0 (data_len - off)) (fun s' => dec_wf s' /\ Zlen s'.2 <= Zlen s.2 + Z.max 0 (data_len - off)).
Proof.
  revert off seen s. induction fuel as [|fuel IH]; intros off seen s Ho Hf Hs; cbn [decode_fields].
  { destruct (Z.ltb_spec off data_len); [lia|]. wp_step. split; [done|lia]. }
  destruct (Z.ltb_spec off data_len); [|wp_step; split; [done|lia]].
  wp_step. eapply wp_mono; [apply decode_field_safe; done || lia| |].
  - intros s1 r (Hs1&Hr&Hl). eapply wp_mono; [apply IH; done || lia| |].
    + intros s2 _ [Hs2 Hl2]. split; [done|lia].
    + intros s2 [Hs2 Hl2]. split; [done|lia].
  - intros s1 [Hs1 Hl]. split; [done|lia].
Qed.
End Decode.
