(* ===== verification/HpackCorrect.v ===== *)
(** * Correctness of HPACK (src/http_parse/hpack.c)

    The properties of the Huffman decoder, of the dynamic table, of the decoder on
    arbitrary input, and of an encoder and a decoder that start with equal
    tables. *)

From Stdlib Require Import ZArith Lia String.
From stdpp Require Import base list numbers option.
From S2P Require Import Prelude Hpack HpackHuffman HpackSpec HpackTable HpackHeaders HpackDecode.

(** ** Huffman strings *)

(** C17: hpack_decode_huffman is the inverse of the Huffman code of RFC 7541, the
    canonical code with the lengths of its appendix B ([rfc_code]).  For every input inside the block it returns: a string when the bits of the input
    are the codes of the bytes of that string followed by fewer than eight one
    bits and the string fits, and the error otherwise; the code itself is uniquely
    decodable, so there is at most one such string. *)
Theorem huffman_decode_exact {St} data p src_len dst_len src (s : St) :
  Forall is_byte data -> rd_bytes data p src_len = Some src -> 0 <= dst_len ->
  (forall dst, hpack_decode_huffman data p src_len dst_len s = Ok s dst <-> huffman_of src dst /\ Zlen dst <= dst_len) /\
  (hpack_decode_huffman data p src_len dst_len s = Fail s \/ exists dst, hpack_decode_huffman data p src_len dst_len s = Ok s dst).
Proof.
  intros Hd Hsrc Hl. pose proof (hpack_decode_huffman_spec data p src_len dst_len src s Hd Hsrc Hl) as H. unfold wp in H.
  destruct (hpack_decode_huffman data p src_len dst_len s) as [s' d|s'| |]; try done.
  - destruct H as (->&Hof&Hle). split; [|by right; exists d]. intros dst. split; [intros [= <-]; done|].
    intros [Hdst _]. by rewrite (huffman_of_inj _ _ _ Hof Hdst).
  - destruct H as (->&Hno). split; [|by left]. intros dst. split; [done|]. intros [Hdst Hle]. apply Hno in Hdst. lia.
Qed.

(** "www.example.com", as in appendix C.4.1 of the RFC. *)
Definition www_example : list Z := [241; 227; 194; 229; 242; 58; 107; 160; 171; 144; 244; 255].

Lemma huffman_decode_exact_witness : huffman_of www_example (bytes "www.example.com").
Proof.
  apply (huffman_decode_exact www_example 0 12 24 www_example tt).
  - repeat (constructor; [unfold is_byte; lia|]). constructor.
  - reflexivity.
  - lia.
  - vm_compute. reflexivity.
Defined.

(** ** The dynamic table *)

(** What changes the table: a literal with indexing and a change of size. *)
Inductive table_op := Insert (name value : list Z) | Resize (new_size : Z).

Definition op_ok (o : table_op) : Prop :=
  match o with
  | Insert name value => c_string name /\ c_string value /\ Zlen name + Zlen value < 2 ^ 63
  | Resize n => 0 <= n <= HPACK_MAX_DYNAMIC_TABLE_SIZE
  end.

Definition code_step (h : hpack_context) (o : table_op) : hpack_context :=
  match o with
  | Insert name value => hpack_add_dynamic_entry true name value h
  | Resize n => hpack_resize_dynamic_table n h
  end.

(** The table of the RFC: its maximum size and its entries, the youngest first. *)
Definition rfc_table : Type := Z * list hpack_dynamic_entry.

Definition rfc_step (t : rfc_table) (o : table_op) : rfc_table :=
  match o with
  | Insert name value => (t.1, keep t.1 (new_entry name value :: t.2))
  | Resize n => (n, keep n t.2)
  end.

Lemma table_step h o : table_wf h -> op_ok o ->
  table_wf (code_step h o) /\ rfc_step (max_dynamic_table_size h, dynamic_table h) o = (max_dynamic_table_size (code_step h o), dynamic_table (code_step h o)).
Proof.
  intros Hh Ho. destruct o as [name value|n]; cbn [op_ok code_step rfc_step fst snd] in *.
  - destruct Ho as (Hn&Hv&Hl). split; [by apply hpack_add_wf|]. by rewrite hpack_add_spec.
  - split; [by apply hpack_resize_wf|]. by rewrite hpack_resize_spec.
Qed.

(** C18: Over any sequence of insertions and changes of size the dynamic table is
    that of section 4 of RFC 7541: the longest run of the youngest entries that
    fits the maximum size, where an entry that is larger than the maximum empties
    the table; and its size and number of entries are what the counters say. *)
Theorem hpack_table_refines ops : Forall op_ok ops ->
  let h := foldl code_step hpack_init_context ops in
  table_wf h /\ (max_dynamic_table_size h, dynamic_table h) = foldl rfc_step (HPACK_MAX_DYNAMIC_TABLE_SIZE, []) ops.
Proof.
  intros Hops. change (HPACK_MAX_DYNAMIC_TABLE_SIZE, []) with (max_dynamic_table_size hpack_init_context, dynamic_table hpack_init_context).
  generalize hpack_init_wf. generalize hpack_init_context. induction Hops as [|o ops Ho Hops IH]; intros h Hh; cbn [foldl]; [done|].
  destruct (table_step h o Hh Ho) as [Hw ->]. by apply IH.
Qed.

Lemma hpack_table_refines_witness :
  let h := foldl code_step hpack_init_context [Insert [97] [98]; Insert [99] [100]; Resize 40] in
  table_wf h /\ (max_dynamic_table_size h, dynamic_table h) = (40, [new_entry [99] [100]]).
Proof.
  apply (hpack_table_refines [Insert [97] [98]; Insert [99] [100]; Resize 40]).
  repeat constructor; cbn; done.
Defined.

(** ** Arbitrary input *)

(** C19: Whatever bytes the peer sends, hpack_decode_headers reads only inside the
    block and returns; afterwards the counters of the table are those of its
    entries, the table is within its maximum size, which is at most 64 KiB, and
    the headers that were passed on, at most one per byte of the block, are
    strings without an embedded zero byte. *)
Theorem hpack_decode_safe malloc_ok on_header data data_len s :
  Forall is_byte data -> 0 <= data_len <= Zlen data -> data_len <= INT_MAX -> dec_wf s ->
  match hpack_decode_headers malloc_ok on_header data data_len s with
  | Ok s' _ | Fail s' => dec_wf s' /\ Zlen s'.2 <= Zlen s.2 + data_len
  | UB | Diverged => False
  end.
Proof.
  intros Hb Hl Hi Hs. apply (wp_run _ _ (fun s' _ => dec_wf s' /\ Zlen s'.2 <= Zlen s.2 + data_len) (fun s' => dec_wf s' /\ Zlen s'.2 <= Zlen s.2 + data_len)).
  unfold hpack_decode_headers. eapply wp_mono; [apply decode_fields_safe; done || lia| |].
  - intros s' _ [Hs' Hl']. split; [done|lia].
  - intros s' [Hs' Hl']. split; [done|lia].
Qed.

Lemma hpack_decode_safe_witness :
  match hpack_decode_headers true (fun _ _ _ => true) [130; 255; 255; 255] 4 (hpack_init_context, []) with
  | Ok s' _ | Fail s' => dec_wf s' /\ Zlen s'.2 <= 0 + 4
  | UB | Diverged => False
  end.
Proof.
  apply (hpack_decode_safe true (fun _ _ _ => true) [130; 255; 255; 255] 4 (hpack_init_context, [])).
  - repeat (constructor; [unfold is_byte; lia|]). constructor.
  - split; [lia|]. vm_compute. discriminate.
  - vm_compute. discriminate.
  - split; [apply hpack_init_wf|constructor].
Defined.

(** ** Encoder and decoder *)

Section Block.
Variable malloc_ok : bool.

(** The fields of a list one after the other, as the sender of a header block
    encodes them: the length of the block. *)
Fixpoint encode_fields (fields : list (list Z * list Z)) (p size : Z) : M enc_state Z :=
  match fields with
  | [] => ret p
  | (name, value) :: fields =>
    n <- hpack_encode_header malloc_ok name value p (size - p) ;;
    encode_fields fields (p + n) size
  end.

Fixpoint block_bytes (h : hpack_context) (fields : list (list Z * list Z)) : list Z :=
  match fields with
  | [] => []
  | (name, value) :: fields => field_bytes h name value ++ block_bytes (field_table malloc_ok h name value) fields
  end.

Fixpoint block_table (h : hpack_context) (fields : list (list Z * list Z)) : hpack_context :=
  match fields with
  | [] => h
  | (name, value) :: fields => block_table (field_table malloc_ok h name value) fields
  end.

Lemma field_table_wf h name value : table_wf h -> field_ok name value -> table_wf (field_table malloc_ok h name value).
Proof.
  intros Hh (Hn&Hv&Hln&Hlv). unfold field_table, INT_MAX in *. destruct (0 <? _); [done|]. apply hpack_add_wf; try done.
  change (2 ^ 63) with 9223372036854775808. lia.
Qed.

Lemma encode_fields_writes fields p size b h :
  table_wf h -> Forall (fun f => field_ok f.1 f.2) fields -> 0 <= p <= size -> size <= Zlen b ->
  wp (encode_fields fields p size) (b, h)
    (fun s n => n = p + Zlen (block_bytes h fields) /\ n <= size /\ wr_bytes b p (block_bytes h fields) = Some s.1 /\ s.2 = block_table h fields)
    (fun s => size < p + Zlen (block_bytes h fields)).
Proof.
  intros Hh Hf. revert p b h Hh. induction Hf as [|[name value] fields Hok Hf IH]; intros p b h Hh Hp Hl; cbn [encode_fields block_bytes block_table].
  { wp_step. change (Zlen (@nil Z)) with 0. cbn [fst snd]. split_and!; [lia|lia| |done].
    apply wr_bytes_Some. change (Zlen (@nil Z)) with 0. split_and!; [lia|lia|]. cbn. by rewrite Nat.add_0_r, take_drop. }
  cbn [fst snd] in Hok. rewrite Zlen_app. wp_step. eapply wp_mono; [apply hpack_encode_header_writes; done || lia| |].
  - intros [b1 h1] n (->&Hn&Hb1&Hh1). cbn [fst snd] in *. subst h1. pose proof (wr_bytes_len _ _ _ _ Hb1).
    pose proof (Zlen_nonneg (field_bytes h name value)). eapply wp_mono; [apply IH; [by apply field_table_wf|lia|lia]| |].
    + intros s n (->&Hn2&Hb2&Hh2). split_and!; [lia|lia| |done]. by eapply wr_bytes_app.
    + intros s Hn2. cbv beta in Hn2. lia.
  - intros s (Hn&_&_). pose proof (Zlen_nonneg (block_bytes (field_table malloc_ok h name value) fields)). lia.
Qed.

Lemma block_table_wf fields h : table_wf h -> Forall (fun f => field_ok f.1 f.2) fields -> table_wf (block_table h fields).
Proof.
  intros Hh Hf. revert h Hh. induction Hf as [|[name value] fields Hok Hf IH]; intros h Hh; [done|]. cbn. by apply IH, field_table_wf.
Qed.

Variable on_header : list (list Z * list Z) -> list Z -> list Z -> bool.
Hypothesis memory : malloc_ok = true.
Hypothesis takes_all : forall hs name value, on_header hs name value = true.

Lemma field_bytes_len h name value : 1 <= Zlen (field_bytes h name value).
Proof.
  unfold field_bytes. destruct (hpack_find_index name value h) as [i n]. pose proof (Zlen_nonneg (string_bytes value)). pose proof (Zlen_nonneg (string_bytes name)).
  destruct (0 <? i); [apply int_bytes_len|]. destruct (0 <? n); rewrite !Zlen_app; [pose proof (int_bytes_len 6 64 n)|pose proof (int_bytes_len 6 64 0)]; lia.
Qed.

#[local] Opaque hpack_static_table hpack_find_index hpack_add_dynamic_entry decode_field field_bytes field_table.

Lemma decode_block fields fuel data len off seen h hs :
  table_wf h -> Forall (fun f => field_ok f.1 f.2) fields -> holds data off (block_bytes h fields) ->
  len = off + Zlen (block_bytes h fields) -> Zlen (block_bytes h fields) <= Z.of_nat fuel ->
  wp (decode_fields malloc_ok on_header fuel data len off seen) (h, hs) (fun s _ => s = (block_table h fields, hs ++ fields)) (fun _ => False).
Proof.
  intros Hh Hf. revert fuel off seen h hs Hh. induction Hf as [|[name value] fields Hok Hf IH]; intros fuel off seen h hs Hh Hd Hlen Hfu; cbn [block_bytes block_table] in *.
  { change (Zlen (@nil Z)) with 0 in *. destruct fuel; cbn [decode_fields]; (destruct (Z.ltb_spec off len); [lia|]); wp_step; by rewrite app_nil_r. }
  rewrite Zlen_app in *. cbn [fst snd] in Hok. pose proof (field_bytes_len h name value). pose proof (Zlen_nonneg (block_bytes (field_table malloc_ok h name value) fields)).
  apply holds_app in Hd as [Hd Hd']. destruct fuel as [|fuel]; [lia|]. cbn [decode_fields]. destruct (Z.ltb_spec off len); [|lia].
  wp_step. eapply wp_mono; [apply (decode_field_bytes malloc_ok on_header h hs name value); first [done|apply takes_all|lia]| |done].
  intros s r [-> ->]. cbn [fst snd]. eapply wp_mono; [apply IH; try done; [by apply field_table_wf|lia|lia]| |done].
  intros s _ ->. by rewrite <- app_assoc.
Qed.
End Block.

(** C16: A header block survives the wire.  From equal tables, either the encoded
    fields do not fit the buffer, or the decoder, given the block that
    hpack_encode_header wrote and memory, passes on exactly these fields, in order, and ends
    with the table of the encoder, so that the next block can be decoded too. *)
Theorem hpack_block_roundtrip on_header fields size b h hs :
  (forall hs name value, on_header hs name value = true) -> table_wf h -> Forall (fun f => field_ok f.1 f.2) fields -> 0 <= size <= Zlen b ->
  match encode_fields true fields 0 size (b, h) with
  | Ok (b', h') n => 0 <= n <= size /\ table_wf h' /\ hpack_decode_headers true on_header b' n (h, hs) = Ok (h', hs ++ fields) tt
  | Fail _ => size < Zlen (block_bytes true h fields)
  | UB | Diverged => False
  end.
Proof.
  intros Hon Hh Hf Hs. pose proof (encode_fields_writes true fields 0 size b h Hh Hf) as H.
  unfold wp in H. specialize (H ltac:(lia) ltac:(lia)). destruct (encode_fields true fields 0 size (b, h)) as [[b' h'] n|s| |]; try done.
  destruct H as (->&Hn&Hb&Hh'). cbn [fst snd] in *. subst h'. rewrite Z.add_0_l in *. pose proof (Zlen_nonneg (block_bytes true h fields)).
  split; [lia|]. split; [by apply block_table_wf|].
  assert (holds b' 0 (block_bytes true h fields)) as Hd by by eapply rd_bytes_wr_same.
  unfold hpack_decode_headers. pose proof (decode_block true on_header eq_refl Hon fields (Z.to_nat (Zlen (block_bytes true h fields))) b' (Zlen (block_bytes true h fields)) 0 false h hs Hh Hf Hd) as H'.
  specialize (H' ltac:(lia) ltac:(lia)). unfold wp in H'. destruct (decode_fields _ _ _ _ _ _ _ _) as [s []|s| |]; try done. by subst s.
Qed.

Lemma hpack_block_roundtrip_witness :
  exists b' h', encode_fields true [(bytes ":method", bytes "GET"); (bytes "x-a", bytes "b"); (bytes "x-a", bytes "b")] 0 32 (replicate 32 0, hpack_init_context) = Ok (b', h') 9 /\
  hpack_decode_headers true (fun _ _ _ => true) b' 9 (hpack_init_context, []) =
    Ok (h', [(bytes ":method", bytes "GET"); (bytes "x-a", bytes "b"); (bytes "x-a", bytes "b")]) tt.
Proof.
  pose proof (hpack_block_roundtrip (fun _ _ _ => true) [(bytes ":method", bytes "GET"); (bytes "x-a", bytes "b"); (bytes "x-a", bytes "b")] 32 (replicate 32 0) hpack_init_context []) as H.
  destruct (encode_fields true [(bytes ":method", bytes "GET"); (bytes "x-a", bytes "b"); (bytes "x-a", bytes "b")] 0 32 (replicate 32 0, hpack_init_context)) as [[b' h'] n|s| |] eqn:He;
    [|vm_compute in He; discriminate..].
  assert (n = 9) as -> by (vm_compute in He; congruence). exists b', h'. split; [done|]. apply H.
  - done.
  - apply hpack_init_wf.
  - repeat (constructor; [split_and!; [by apply c_string_check|by apply c_string_check|done|done]|]). constructor.
  - split; [lia|]. vm_compute. discriminate.
Defined.
