(* ===== verification/Http2Types.v ===== *)
(** * HTTP/2 connections: state (src/http_parse/http2.c)

    The connection, its streams, and the byte stream below it.

    Streams are on a heap and named by numbers; a stream that has been freed is not
    on the heap, and using it is undefined behaviour.  The contents of a growing
    buffer are a list next to its capacity.  The transport calls back
    [bio_read] and [bio_write] of the user; they answer from a script that is a
    parameter of every run: the bytes that arrive, in pieces of any size, how many
    bytes can be written at a time, errors, and the end of the connection. *)

From Stdlib Require Import ZArith Lia String.
From stdpp Require Import base list numbers option gmap.
From S2P Require Import Prelude Hpack.

(** ** Constants *)

Definition HTTP2_FRAME_DATA : Z := 0.
Definition HTTP2_FRAME_HEADERS : Z := 1.
Definition HTTP2_FRAME_RST_STREAM : Z := 3.
Definition HTTP2_FRAME_SETTINGS : Z := 4.
Definition HTTP2_FRAME_PING : Z := 6.
Definition HTTP2_FRAME_GOAWAY : Z := 7.
Definition HTTP2_FRAME_WINDOW_UPDATE : Z := 8.
Definition HTTP2_FRAME_CONTINUATION : Z := 9.

Definition HTTP2_RST_PROTOCOL_ERROR : Z := 1.
Definition HTTP2_RST_INTERNAL_ERROR : Z := 2.
Definition HTTP2_RST_FLOW_CONTROL_ERROR : Z := 3.
Definition HTTP2_RST_STREAM_CLOSED : Z := 5.
Definition HTTP2_RST_REFUSED_STREAM : Z := 7.
Definition HTTP2_RST_COMPRESSION_ERROR : Z := 9.

Definition HTTP2_FLAG_END_STREAM : Z := 1.
Definition HTTP2_FLAG_END_HEADERS : Z := 4.
Definition HTTP2_FLAG_PADDED : Z := 8.
Definition HTTP2_FLAG_PRIORITY : Z := 32.
Definition HTTP2_FLAG_ACK : Z := 1.

Definition HTTP2_SETTINGS_HEADER_TABLE_SIZE : Z := 1.
Definition HTTP2_SETTINGS_ENABLE_PUSH : Z := 2.
Definition HTTP2_SETTINGS_MAX_CONCURRENT_STREAMS : Z := 3.
Definition HTTP2_SETTINGS_INITIAL_WINDOW_SIZE : Z := 4.
Definition HTTP2_SETTINGS_MAX_FRAME_SIZE : Z := 5.
Definition HTTP2_SETTINGS_MAX_HEADER_LIST_SIZE : Z := 6.

Definition HTTP2_DEFAULT_WINDOW_SIZE : Z := 65535.
Definition HTTP2_DEFAULT_MAX_FRAME_SIZE : Z := 16384.
Definition HTTP2_FRAME_HEADER_SIZE : Z := 9.
Definition HTTP2_MAX_HEADER_TABLE_SIZE : Z := HPACK_MAX_DYNAMIC_TABLE_SIZE.
Definition HTTP2_MAX_HEADER_BLOCK_SIZE : Z := 65536.
Definition HTTP2_INITIAL_HEADER_TABLE_SIZE : Z := 4096.
Definition HTTP2_CONNECTION_PREFACE : list Z := bytes "PRI * HTTP/2.0" ++ [13; 10; 13; 10] ++ bytes "SM" ++ [13; 10; 13; 10].
Definition HTTP2_CONNECTION_PREFACE_LEN : Z := 24.
Definition HTTP2_MAX_STREAM_ID : Z := 2147483647.
Definition INT_MIN : Z := -2147483648.
Definition UINT32_MAX : Z := 4294967295.

Definition HTTP2_ERR_EAGAIN : Z := -1.
Definition HTTP2_ERR_EOF : Z := -2.
Definition HTTP2_ERR_IO : Z := -3.
Definition HTTP2_ERR_PROTOCOL : Z := -4.
Definition HTTP2_ERR_HTTP1 : Z := -5.

(** ** Structures *)

Inductive http2_stream_state :=
  | HTTP2_STREAM_IDLE | HTTP2_STREAM_OPEN | HTTP2_STREAM_HALF_CLOSED_LOCAL | HTTP2_STREAM_HALF_CLOSED_REMOTE | HTTP2_STREAM_CLOSED.

#[export] Instance http2_stream_state_eq : EqDecision http2_stream_state.
Proof. solve_decision. Defined.

(** [s_ctx]: whether the pointer to the connection is set; the contents of the
    buffers end where their lengths say. *)
Record http2_stream := mk_stream {
  s_ctx : bool; s_refcount : Z; stream_id : Z; s_state : http2_stream_state;
  header_list : list (list Z * list Z);
  body_buffer : list Z; body_buffer_size : Z; body_read_offset : Z;
  end_stream_received : bool; end_stream_sent : bool; end_stream_read_handled : bool; accepted : bool;
  send_window_size : Z; recv_window_size : Z; body_decompressed : bool;
  pending_send_body : list Z; pending_send_body_size : Z; pending_send_body_offset : Z;
  pending_send_end_stream : bool; close_after_send : bool }.

Record http2_ctx := mk_ctx {
  is_client : bool; server : option (list Z);
  status : Z; io_closed : bool; handshake_complete : bool; settings_received : bool; preface_received : bool;
  next_stream_id : Z; max_local_stream_id_seen : Z; max_peer_stream_id_seen : Z;
  send_conn_window_size : Z; recv_conn_window_size : Z;
  peer_max_frame_size : Z; local_max_frame_size : Z; peer_max_header_list_size : Z;
  send_initial_window_size : Z; recv_initial_window_size : Z;
  active_local_streams : Z; active_peer_streams : Z; max_concurrent_streams : Z; peer_max_concurrent_streams : Z;
  want_read : bool; want_write : bool; pending_write : list Z; pending_write_capacity : Z;
  encoder : hpack_context; decoder : hpack_context;
  stream_map : list nat; streams : list nat;
  read_buffer : list Z; header_block : list Z; header_block_capacity : Z;
  continuation_stream_id : Z; continuation_flags : Z; continuation_active : bool; continuation_refuse_stream : bool }.

(** One answer of [bio_read]: at least one byte, of which at most as many as asked for are
    taken; no bytes at the moment; an error; the end. *)
Inductive rd_event := RdBytes (b : Z) (l : list Z) | RdAgain | RdError | RdEof.

(** One answer of [bio_write]: room for some bytes; no room; an error; the end. *)
Inductive wr_event := WrRoom (n : positive) | WrAgain | WrError | WrEof.

(** What [errno] may be as far as the code looks at it. *)
Inductive errno_t := EAGAIN | EPIPE | EOTHER.

#[export] Instance errno_eq : EqDecision errno_t.
Proof. solve_decision. Defined.

(** The connection, the heap of streams and the next free number, what the
    transport will answer, the bytes it has taken, and [errno]. *)
Record h2 := mk_h2 {
  h_ctx : http2_ctx; h_streams : gmap nat http2_stream; h_fresh : nat;
  h_reads : list rd_event; h_writes : list wr_event; h_wire : list Z; h_errno : errno_t }.

(** ** Updates *)

Definition eta_http2_stream (s : http2_stream) : http2_stream :=
  mk_stream (s_ctx s) (s_refcount s) (stream_id s) (s_state s) (header_list s) (body_buffer s) (body_buffer_size s) (body_read_offset s)
    (end_stream_received s) (end_stream_sent s) (end_stream_read_handled s) (accepted s) (send_window_size s) (recv_window_size s)
    (body_decompressed s) (pending_send_body s) (pending_send_body_size s) (pending_send_body_offset s) (pending_send_end_stream s)
    (close_after_send s).

Definition eta_http2_ctx (c : http2_ctx) : http2_ctx :=
  mk_ctx (is_client c) (server c) (status c) (io_closed c) (handshake_complete c) (settings_received c) (preface_received c)
    (next_stream_id c) (max_local_stream_id_seen c) (max_peer_stream_id_seen c) (send_conn_window_size c) (recv_conn_window_size c)
    (peer_max_frame_size c) (local_max_frame_size c) (peer_max_header_list_size c) (send_initial_window_size c) (recv_initial_window_size c)
    (active_local_streams c) (active_peer_streams c) (max_concurrent_streams c) (peer_max_concurrent_streams c) (want_read c) (want_write c)
    (pending_write c) (pending_write_capacity c) (encoder c) (decoder c) (stream_map c) (streams c) (read_buffer c) (header_block c)
    (header_block_capacity c) (continuation_stream_id c) (continuation_flags c) (continuation_active c) (continuation_refuse_stream c).

Definition eta_h2 (h : h2) : h2 :=
  mk_h2 (h_ctx h) (h_streams h) (h_fresh h) (h_reads h) (h_writes h) (h_wire h) (h_errno h).

(** [r] with the field [f] set to [v]. *)
Ltac set_field eta f v r :=
  let e := eval unfold eta in eta in
  let g := eval pattern f in e in
  match g with ?h _ => let t := eval cbv beta in (h (fun _ => v) r) in exact t end.

Definition set_s_ctx (v : bool) (s : http2_stream) : http2_stream := ltac:(set_field eta_http2_stream s_ctx v s).
Definition set_s_refcount (v : Z) (s : http2_stream) : http2_stream := ltac:(set_field eta_http2_stream s_refcount v s).
Definition set_s_state (v : http2_stream_state) (s : http2_stream) : http2_stream := ltac:(set_field eta_http2_stream s_state v s).
Definition set_header_list (v : list (list Z * list Z)) (s : http2_stream) : http2_stream := ltac:(set_field eta_http2_stream header_list v s).
Definition set_body_buffer (v : list Z) (s : http2_stream) : http2_stream := ltac:(set_field eta_http2_stream body_buffer v s).
Definition set_body_buffer_size (v : Z) (s : http2_stream) : http2_stream := ltac:(set_field eta_http2_stream body_buffer_size v s).
Definition set_body_read_offset (v : Z) (s : http2_stream) : http2_stream := ltac:(set_field eta_http2_stream body_read_offset v s).
Definition set_end_stream_received (v : bool) (s : http2_stream) : http2_stream := ltac:(set_field eta_http2_stream end_stream_received v s).
Definition set_end_stream_sent (v : bool) (s : http2_stream) : http2_stream := ltac:(set_field eta_http2_stream end_stream_sent v s).
Definition set_end_stream_read_handled (v : bool) (s : http2_stream) : http2_stream := ltac:(set_field eta_http2_stream end_stream_read_handled v s).
Definition set_accepted (v : bool) (s : http2_stream) : http2_stream := ltac:(set_field eta_http2_stream accepted v s).
Definition set_send_window_size (v : Z) (s : http2_stream) : http2_stream := ltac:(set_field eta_http2_stream send_window_size v s).
Definition set_recv_window_size (v : Z) (s : http2_stream) : http2_stream := ltac:(set_field eta_http2_stream recv_window_size v s).
Definition set_body_decompressed (v : bool) (s : http2_stream) : http2_stream := ltac:(set_field eta_http2_stream body_decompressed v s).
Definition set_pending_send_body (v : list Z) (s : http2_stream) : http2_stream := ltac:(set_field eta_http2_stream pending_send_body v s).
Definition set_pending_send_body_size (v : Z) (s : http2_stream) : http2_stream := ltac:(set_field eta_http2_stream pending_send_body_size v s).
Definition set_pending_send_body_offset (v : Z) (s : http2_stream) : http2_stream := ltac:(set_field eta_http2_stream pending_send_body_offset v s).
Definition set_pending_send_end_stream (v : bool) (s : http2_stream) : http2_stream := ltac:(set_field eta_http2_stream pending_send_end_stream v s).
Definition set_close_after_send (v : bool) (s : http2_stream) : http2_stream := ltac:(set_field eta_http2_stream close_after_send v s).

Definition set_status (v : Z) (c : http2_ctx) : http2_ctx := ltac:(set_field eta_http2_ctx status v c).
Definition set_io_closed (v : bool) (c : http2_ctx) : http2_ctx := ltac:(set_field eta_http2_ctx io_closed v c).
Definition set_handshake_complete (v : bool) (c : http2_ctx) : http2_ctx := ltac:(set_field eta_http2_ctx handshake_complete v c).
Definition set_settings_received (v : bool) (c : http2_ctx) : http2_ctx := ltac:(set_field eta_http2_ctx settings_received v c).
Definition set_preface_received (v : bool) (c : http2_ctx) : http2_ctx := ltac:(set_field eta_http2_ctx preface_received v c).
Definition set_next_stream_id (v : Z) (c : http2_ctx) : http2_ctx := ltac:(set_field eta_http2_ctx next_stream_id v c).
Definition set_max_local_stream_id_seen (v : Z) (c : http2_ctx) : http2_ctx := ltac:(set_field eta_http2_ctx max_local_stream_id_seen v c).
Definition set_max_peer_stream_id_seen (v : Z) (c : http2_ctx) : http2_ctx := ltac:(set_field eta_http2_ctx max_peer_stream_id_seen v c).
Definition set_send_conn_window_size (v : Z) (c : http2_ctx) : http2_ctx := ltac:(set_field eta_http2_ctx send_conn_window_size v c).
Definition set_recv_conn_window_size (v : Z) (c : http2_ctx) : http2_ctx := ltac:(set_field eta_http2_ctx recv_conn_window_size v c).
Definition set_peer_max_frame_size (v : Z) (c : http2_ctx) : http2_ctx := ltac:(set_field eta_http2_ctx peer_max_frame_size v c).
Definition set_peer_max_header_list_size (v : Z) (c : http2_ctx) : http2_ctx := ltac:(set_field eta_http2_ctx peer_max_header_list_size v c).
Definition set_send_initial_window_size (v : Z) (c : http2_ctx) : http2_ctx := ltac:(set_field eta_http2_ctx send_initial_window_size v c).
Definition set_active_local_streams (v : Z) (c : http2_ctx) : http2_ctx := ltac:(set_field eta_http2_ctx active_local_streams v c).
Definition set_active_peer_streams (v : Z) (c : http2_ctx) : http2_ctx := ltac:(set_field eta_http2_ctx active_peer_streams v c).
Definition set_peer_max_concurrent_streams (v : Z) (c : http2_ctx) : http2_ctx := ltac:(set_field eta_http2_ctx peer_max_concurrent_streams v c).
Definition set_want_read (v : bool) (c : http2_ctx) : http2_ctx := ltac:(set_field eta_http2_ctx want_read v c).
Definition set_want_write (v : bool) (c : http2_ctx) : http2_ctx := ltac:(set_field eta_http2_ctx want_write v c).
Definition set_pending_write (v : list Z) (c : http2_ctx) : http2_ctx := ltac:(set_field eta_http2_ctx pending_write v c).
Definition set_pending_write_capacity (v : Z) (c : http2_ctx) : http2_ctx := ltac:(set_field eta_http2_ctx pending_write_capacity v c).
Definition set_encoder (v : hpack_context) (c : http2_ctx) : http2_ctx := ltac:(set_field eta_http2_ctx encoder v c).
Definition set_decoder (v : hpack_context) (c : http2_ctx) : http2_ctx := ltac:(set_field eta_http2_ctx decoder v c).
Definition set_stream_map (v : list nat) (c : http2_ctx) : http2_ctx := ltac:(set_field eta_http2_ctx stream_map v c).
Definition set_streams (v : list nat) (c : http2_ctx) : http2_ctx := ltac:(set_field eta_http2_ctx streams v c).
Definition set_read_buffer (v : list Z) (c : http2_ctx) : http2_ctx := ltac:(set_field eta_http2_ctx read_buffer v c).
Definition set_header_block (v : list Z) (c : http2_ctx) : http2_ctx := ltac:(set_field eta_http2_ctx header_block v c).
Definition set_header_block_capacity (v : Z) (c : http2_ctx) : http2_ctx := ltac:(set_field eta_http2_ctx header_block_capacity v c).
Definition set_continuation_stream_id (v : Z) (c : http2_ctx) : http2_ctx := ltac:(set_field eta_http2_ctx continuation_stream_id v c).
Definition set_continuation_flags (v : Z) (c : http2_ctx) : http2_ctx := ltac:(set_field eta_http2_ctx continuation_flags v c).
Definition set_continuation_active (v : bool) (c : http2_ctx) : http2_ctx := ltac:(set_field eta_http2_ctx continuation_active v c).
Definition set_continuation_refuse_stream (v : bool) (c : http2_ctx) : http2_ctx := ltac:(set_field eta_http2_ctx continuation_refuse_stream v c).

Definition set_h_ctx (v : http2_ctx) (h : h2) : h2 := ltac:(set_field eta_h2 h_ctx v h).
Definition set_h_streams (v : gmap nat http2_stream) (h : h2) : h2 := ltac:(set_field eta_h2 h_streams v h).
Definition set_h_fresh (v : nat) (h : h2) : h2 := ltac:(set_field eta_h2 h_fresh v h).
Definition set_h_reads (v : list rd_event) (h : h2) : h2 := ltac:(set_field eta_h2 h_reads v h).
Definition set_h_writes (v : list wr_event) (h : h2) : h2 := ltac:(set_field eta_h2 h_writes v h).
Definition set_h_wire (v : list Z) (h : h2) : h2 := ltac:(set_field eta_h2 h_wire v h).
Definition set_h_errno (v : errno_t) (h : h2) : h2 := ltac:(set_field eta_h2 h_errno v h).


(** ** Access *)

Abbreviation H := (M h2).

Definition ctx {A} (f : http2_ctx -> A) : H A := h <- get ;; ret (f (h_ctx h)).
Definition upd_ctx (f : http2_ctx -> http2_ctx) : H unit := modify (fun h => set_h_ctx (f (h_ctx h)) h).

(** A field of a stream; the stream must be on the heap. *)
Definition stream {A} (p : nat) (f : http2_stream -> A) : H A :=
  h <- get ;; s <- access (h_streams h !! p) ;; ret (f s).
Definition upd_stream (p : nat) (f : http2_stream -> http2_stream) : H unit :=
  h <- get ;; s <- access (h_streams h !! p) ;; put (set_h_streams (<[p := f s]> (h_streams h)) h).

Definition set_errno (e : errno_t) : H unit := modify (set_h_errno e).

(** The callbacks.  A result of less than zero is an error with [errno] set. *)

Definition bio_write (data : list Z) : H (option Z) :=
  h <- get ;;
  match h_writes h with
  | WrRoom n :: l =>
    let k := Z.min (Zpos n) (Zlen data) in
    put (set_h_writes l (set_h_wire (h_wire h ++ take (Z.to_nat k) data) h)) ;; ret (Some k)
  | WrEof :: l => put (set_h_writes l h) ;; ret (Some 0)
  | WrError :: l => put (set_h_writes l (set_h_errno EOTHER h)) ;; ret None
  | WrAgain :: l => put (set_h_writes l (set_h_errno EAGAIN h)) ;; ret None
  | [] => put (set_h_errno EAGAIN h) ;; ret None
  end.

(** At most [len] bytes; what is left of a piece comes with the next call. *)
Definition bio_read (len : Z) : H (option (list Z)) :=
  h <- get ;;
  match h_reads h with
  | RdBytes b l :: r =>
    let rest := match drop (Z.to_nat len) (b :: l) with [] => r | b :: l => RdBytes b l :: r end in
    put (set_h_reads rest h) ;; ret (Some (take (Z.to_nat len) (b :: l)))
  | RdEof :: r => put (set_h_reads (RdEof :: r) h) ;; ret (Some [])
  | RdError :: r => put (set_h_reads r (set_h_errno EOTHER h)) ;; ret None
  | RdAgain :: r => put (set_h_reads r (set_h_errno EAGAIN h)) ;; ret None
  | [] => put (set_h_errno EAGAIN h) ;; ret None
  end.
