(* ===== verification/Http2.v ===== *)
(** * HTTP/2 connections: operations (src/http_parse/http2.c)

    Frames out, streams, frames in, and the interface of the connection.  A
    function that returns -1 fails; [ret] is its other return value.  The calls run
    one at a time: every one of them holds the mutex of the connection.  Inflating
    is a parameter.  [malloc_ok] says whether memory can be allocated in a call: all
    its allocations succeed or all fail.  Not modelled: the life of the connection object itself and
    query parameters. *)

From Stdlib Require Import ZArith Lia String.
From stdpp Require Import base list numbers option gmap.
From S2P Require Import Prelude Hpack DnsCache Http2Types.

(** ** Integers *)

Definition read_uint32 (data : list Z) : Z := of_be (take 4 data).
Definition read_uint24 (data : list Z) : Z := of_be (take 3 data).
Definition write_uint32 (value : Z) : list Z := be32 value.
Definition write_uint24 (value : Z) : list Z :=
  [Z.land (Z.shiftr value 16) 255; Z.land (Z.shiftr value 8) 255; Z.land value 255].

(** [int] addition; overflow is undefined. *)
Definition int_sum (a b : Z) : option Z := if (INT_MIN <=? a + b) && (a + b <=? INT_MAX) then Some (a + b) else None.

Definition safe_buffer_size (current factor : Z) : option Z :=
  if (current <? 0) || (factor <=? 0) then None
  else if INT_MAX / factor <? current then None
  else Some (current * factor).

(** [while (new_size < needed)]: doubled until it is large enough. *)
Fixpoint grow_size (fuel : nat) (new_size needed : Z) : H Z :=
  if new_size <? needed then
    match fuel with
    | O => diverge
    | S fuel => match safe_buffer_size new_size 2 with None => fail | Some temp => grow_size fuel temp needed end
    end
  else ret new_size.

(** What [inflate] returns: its code, the new state, how much of the input it has
    taken, and the output. *)
Inductive z_code := Z_OK | Z_STREAM_END | Z_BUF_ERROR | Z_ERROR.

Record inflate_result (zstate : Type) := mk_inflate { z_ret : z_code; z_next : zstate; z_taken : Z; z_out : list Z }.
Arguments mk_inflate {zstate}.
Arguments z_ret {zstate}.
Arguments z_next {zstate}.
Arguments z_taken {zstate}.
Arguments z_out {zstate}.

Section Http2.
Variable malloc_ok : bool.
(** zlib: the initial state for gzip or deflate, and one step of [inflate] with the
    input that is left and the room for output. *)
Context {zstate : Type}.
Variable inflateInit2 : bool -> option zstate.
Variable inflate : zstate -> list Z -> Z -> inflate_result zstate.

(** ** Ids *)

Definition _http2_is_local_stream_id (c : http2_ctx) (id : Z) : bool :=
  if id =? 0 then false else if is_client c then negb (id mod 2 =? 0) else id mod 2 =? 0.

Definition _http2_stream_id_was_seen (c : http2_ctx) (id : Z) : bool :=
  if id =? 0 then false
  else if _http2_is_local_stream_id c id then id <=? max_local_stream_id_seen c
  else id <=? max_peer_stream_id_seen c.

(** ** Sending frames *)

Definition _http2_write_frame_header (length type flags id : Z) : list Z :=
  write_uint24 length ++ [u8 type; u8 flags] ++ write_uint32 (Z.land id 2147483647).

(** [buffer_new_data]: what could not be sent is kept. *)
Definition buffer_new_data (unsent : list Z) : H unit :=
  (if 0 <? Zlen unsent then
     pw <- ctx pending_write ;;
     cap <- ctx pending_write_capacity ;;
     needed <- access (int_sum (Zlen pw) (Zlen unsent)) ;;
     (if cap <? needed then
        let first := if cap =? 0 then Some 8192 else safe_buffer_size cap 2 in
        match first with
        | None => fail
        | Some new_capacity =>
          new_capacity <- grow_size 32 new_capacity needed ;;
          guard malloc_ok ;;
          upd_ctx (set_pending_write_capacity new_capacity)
        end
      else ret tt) ;;
     cap <- ctx pending_write_capacity ;;
     access (if needed <=? cap then Some tt else None) ;;
     upd_ctx (set_pending_write (pw ++ unsent))
   else ret tt) ;;
  upd_ctx (set_want_write true).

(** The loop over the new data. *)
Fixpoint send_new_data (fuel : nat) (data : list Z) : H unit :=
  if 0 <? Zlen data then
    match fuel with
    | O => diverge
    | S fuel =>
      r <- bio_write data ;;
      match r with
      | None =>
        h <- get ;;
        if decide (h_errno h = EAGAIN) then upd_ctx (set_want_write true) ;; buffer_new_data data
        else upd_ctx (set_status HTTP2_ERR_IO) ;; fail
      | Some n =>
        if n =? 0 then upd_ctx (set_status HTTP2_ERR_EOF) ;; fail
        else send_new_data fuel (drop (Z.to_nat n) data)
      end
    end
  else upd_ctx (set_want_write false).

(** Whether pending data is left, so that the new data must wait behind it. *)
Definition flush_pending_write : H bool :=
  pw <- ctx pending_write ;;
  if 0 <? Zlen pw then
    r <- bio_write pw ;;
    match r with
    | None =>
      h <- get ;;
      if decide (h_errno h = EAGAIN) then upd_ctx (set_want_write true) ;; ret true
      else upd_ctx (set_status HTTP2_ERR_IO) ;; fail
    | Some n =>
      if 0 <? n then
        if n <? Zlen pw then
          upd_ctx (set_pending_write (drop (Z.to_nat n) pw)) ;; upd_ctx (set_want_write true) ;; ret true
        else upd_ctx (set_pending_write []) ;; upd_ctx (set_want_write false) ;; ret false
      else upd_ctx (set_status HTTP2_ERR_EOF) ;; fail
    end
  else ret false.

Definition _http2_send_frame (data : list Z) : H Z :=
  st <- ctx status ;;
  guard (negb (st <? 0)) ;;
  wait <- flush_pending_write ;;
  (if wait : bool then buffer_new_data data else send_new_data (length data) data) ;;
  ret (Zlen data).

(** One entry of a SETTINGS frame. *)
Definition setting (id value : Z) : list Z := take 2 (write_uint32 (Z.shiftl id 16)) ++ write_uint32 value.

Definition _http2_send_settings (ack : bool) : H Z :=
  c <- ctx (fun c => c) ;;
  let payload :=
    if ack then []
    else (if is_client c then setting HTTP2_SETTINGS_ENABLE_PUSH 0 else [])
      ++ setting HTTP2_SETTINGS_HEADER_TABLE_SIZE HTTP2_MAX_HEADER_TABLE_SIZE
      ++ setting HTTP2_SETTINGS_INITIAL_WINDOW_SIZE HTTP2_DEFAULT_WINDOW_SIZE
      ++ setting HTTP2_SETTINGS_MAX_FRAME_SIZE HTTP2_DEFAULT_MAX_FRAME_SIZE
      ++ (if 0 <? max_concurrent_streams c then setting HTTP2_SETTINGS_MAX_CONCURRENT_STREAMS (max_concurrent_streams c) else []) in
  _http2_send_frame (_http2_write_frame_header (Zlen payload) HTTP2_FRAME_SETTINGS (if ack then HTTP2_FLAG_ACK else 0) 0 ++ payload).

Definition _http2_send_window_update (id increment : Z) : H Z :=
  _http2_send_frame (_http2_write_frame_header 4 HTTP2_FRAME_WINDOW_UPDATE 0 id ++ write_uint32 (Z.land increment 2147483647)).

(** All callers pass no debug data. *)
Definition _http2_send_goaway (last_stream_id error_code : Z) : H Z :=
  _http2_send_frame (_http2_write_frame_header 8 HTTP2_FRAME_GOAWAY 0 0
    ++ write_uint32 (Z.land last_stream_id 2147483647) ++ write_uint32 error_code).

Definition http2_send_rst_stream (id error_code : Z) : H Z :=
  _http2_send_frame (_http2_write_frame_header 4 HTTP2_FRAME_RST_STREAM 0 id ++ write_uint32 error_code).

Definition _http2_send_data_frame (id : Z) (data : list Z) (end_stream : bool) : H Z :=
  (if malloc_ok then ret tt else set_errno EOTHER ;; fail) ;;
  _http2_send_frame (_http2_write_frame_header (Zlen data) HTTP2_FRAME_DATA (if end_stream then HTTP2_FLAG_END_STREAM else 0) id ++ data).

(** The loop over the headers: the block so far is the first [len] bytes of [buf]. *)
Fixpoint encode_header_block (fields : list (list Z * list Z)) (buf : list Z) (len : Z) : H (list Z) :=
  match fields with
  | [] => access (rd_bytes buf 0 len)
  | (name, value) :: fields =>
    buf <- (if Zlen buf <? len + 4096 then
              match safe_buffer_size (Zlen buf) 2 with
              | None => fail
              | Some new_size => guard malloc_ok ;; ret (buf ++ replicate (Z.to_nat (new_size - Zlen buf)) 0)
              end
            else ret buf) ;;
    enc <- ctx encoder ;;
    match hpack_encode_header malloc_ok name value len (Zlen buf - len) (buf, enc) with
    | Ok (buf', enc') n => upd_ctx (set_encoder enc') ;; encode_header_block fields buf' (len + n)
    | Fail (_, enc') => upd_ctx (set_encoder enc') ;; fail
    | UB => ub
    | Diverged => diverge
    end
  end.

Definition _http2_send_headers_frame (id : Z) (fields : list (list Z * list Z)) (end_stream end_headers : bool) : H unit :=
  guard malloc_ok ;;
  let flags := Z.lor (if end_stream then HTTP2_FLAG_END_STREAM else 0) (if end_headers then HTTP2_FLAG_END_HEADERS else 0) in
  block <- encode_header_block fields (replicate 4096 0) 0 ;;
  limit <- ctx peer_max_header_list_size ;;
  guard (negb ((0 <? limit) && (limit <? Zlen block))) ;;
  _http2_send_frame (_http2_write_frame_header (Zlen block) HTTP2_FRAME_HEADERS flags id) ;;
  if 0 <? Zlen block then _http2_send_frame block ;; ret tt else ret tt.

(** ** Header lists *)

Definition tolower (b : Z) : Z := if (65 <=? b) && (b <=? 90) then b + 32 else b.

(** [strncasecmp(a, b, n) == 0] and [strcasecmp(a, b) == 0] *)
Definition strncasecmp_eq (a b : list Z) (n : nat) : bool := bool_decide (tolower <$> take n a = tolower <$> take n b).
Definition strcasecmp_eq (a b : list Z) : bool := bool_decide (tolower <$> a = tolower <$> b).

(** The map has 16 buckets; the youngest header is in front. *)
Definition _http2_stream_get_header_value (s : http2_stream) (name : list Z) : option (list Z) :=
  snd <$> find (fun f => (hash_32 (hash_string_case f.1) 4 =? hash_32 (hash_string_case name) 4) && strncasecmp_eq f.1 name 128)
    (rev (header_list s)).

Definition _http2_stream_add_header (p : nat) (name value : list Z) : H unit :=
  guard malloc_ok ;;
  upd_stream p (fun s => set_header_list (header_list s ++ [(name, value)]) s).

Definition _http2_free_headers (p : nat) : H unit := upd_stream p (set_header_list []).

(** [strtol(s, &endptr, 10)]: the value before it is limited to a [long], and what
    is left; [None] when there is no number. *)
Definition is_space (b : Z) : bool := (b =? 32) || ((9 <=? b) && (b <=? 13)).

Fixpoint skip_space (s : list Z) : list Z :=
  match s with b :: s' => if is_space b then skip_space s' else s | [] => [] end.

Fixpoint digits (s : list Z) (acc : Z) : Z * list Z :=
  match s with
  | b :: s' => if (48 <=? b) && (b <=? 57) then digits s' (acc * 10 + (b - 48)) else (acc, s)
  | [] => (acc, [])
  end.

Definition strtol (s : list Z) : option (Z * list Z) :=
  let s := skip_space s in
  let '(neg, s) := match s with b :: s' => if b =? 45 then (true, s') else if b =? 43 then (false, s') else (false, s) | [] => (false, s) end in
  match s with
  | b :: _ =>
    if (48 <=? b) && (b <=? 57) then let (v, r) := digits s 0 in Some (if neg : bool then - v else v, r) else None
  | [] => None
  end.

(** [None] when the function returns -1, [Some (-1)] when there is no length. *)
Definition _http2_get_content_length (s : http2_stream) : option Z :=
  match _http2_stream_get_header_value s (bytes "content-length") with
  | None => Some (-1)
  | Some str =>
    match strtol str with
    | Some (value, []) => if (value <? 0) || (INT_MAX <? value) then None else Some value
    | _ => Some (-1)
    end
  end.

(** Whether the stream was reset. *)
Definition _http2_check_content_length (p : nat) (id body_len : Z) (end_stream : bool) : H bool :=
  s <- stream p (fun s => s) ;;
  match _http2_get_content_length s with
  | None => try (http2_send_rst_stream id HTTP2_RST_PROTOCOL_ERROR) ;; ret true
  | Some content_length =>
    if content_length <? 0 then ret false
    else if (content_length <? body_len) || (end_stream && negb (body_len =? content_length)) then
      try (http2_send_rst_stream id HTTP2_RST_PROTOCOL_ERROR) ;; ret true
    else ret false
  end.

(** ** Streams *)

Definition _http2_mark_stream_reset (p : nat) : H unit :=
  upd_stream p (fun s => set_body_read_offset 0 (set_body_buffer [] (set_end_stream_read_handled true
    (set_end_stream_received true (set_s_state HTTP2_STREAM_CLOSED s))))).

Definition _http2_stream_is_accept_ready (c : http2_ctx) (s : http2_stream) : bool :=
  let peer := if is_client c then stream_id s mod 2 =? 0 else stream_id s mod 2 =? 1 in
  peer && negb (accepted s) && negb (bool_decide (header_list s = [])) && negb (end_stream_sent s)
  && negb (bool_decide (s_state s = HTTP2_STREAM_CLOSED) && end_stream_read_handled s && (Zlen (body_buffer s) <=? body_read_offset s)).

(** The youngest stream with this id. *)
Fixpoint find_in_streams (id : Z) (l : list nat) : H (option nat) :=
  match l with
  | [] => ret None
  | p :: l => i <- stream p stream_id ;; if i =? id then ret (Some p) else find_in_streams id l
  end.

Definition _http2_find_stream (id : Z) : H (option nat) := l <- ctx stream_map ;; find_in_streams id l.

Definition http2_stream_get (p : nat) : H unit := upd_stream p (fun s => set_s_refcount (s_refcount s + 1) s).

Definition _http2_create_stream (id : Z) : H (option nat) :=
  c <- ctx (fun c => c) ;;
  let is_local_stream := _http2_is_local_stream_id c id in
  let full :=
    if is_local_stream then peer_max_concurrent_streams c <=? u32 (active_local_streams c)
    else (0 <? max_concurrent_streams c) && (max_concurrent_streams c <=? active_peer_streams c) in
  if full then set_errno EOTHER ;; ret None
  else if negb malloc_ok then set_errno EOTHER ;; ret None
  else
    let acc := if is_client c then negb (id mod 2 =? 0) else id mod 2 =? 0 in
    let s := mk_stream true 0 id HTTP2_STREAM_IDLE [] [] 8192 0 false false false acc
               (send_initial_window_size c) (recv_initial_window_size c) false [] 0 0 false false in
    h <- get ;;
    let p := h_fresh h in
    put (set_h_fresh (p + 1)%nat (set_h_streams (<[p := s]> (h_streams h)) h)) ;;
    http2_stream_get p ;;
    (if is_local_stream then
       if max_local_stream_id_seen c <? id then upd_ctx (set_max_local_stream_id_seen id) else ret tt
     else
       if max_peer_stream_id_seen c <? id then upd_ctx (set_max_peer_stream_id_seen id) else ret tt) ;;
    upd_ctx (fun c => set_stream_map (p :: stream_map c) c) ;;
    upd_ctx (fun c => set_streams (p :: streams c) c) ;;
    (if is_local_stream then upd_ctx (fun c => set_active_local_streams (active_local_streams c + 1) c)
     else upd_ctx (fun c => set_active_peer_streams (active_peer_streams c + 1) c)) ;;
    ret (Some p).

(** [hash_del], [list_del_init] and, when the stream was in the list, the count of
    the active streams; whether it was in the list. *)
Definition unlink_stream (p : nat) : H bool :=
  s <- stream p (fun s => s) ;;
  upd_ctx (fun c => set_stream_map (filter (fun q => q <> p) (stream_map c)) c) ;;
  c <- ctx (fun c => c) ;;
  if bool_decide (p ∈ streams c) then
    upd_ctx (set_streams (filter (fun q => q <> p) (streams c))) ;;
    upd_stream p (set_s_ctx false) ;;
    (if s_ctx s then
       if _http2_is_local_stream_id c (stream_id s) then upd_ctx (fun c => set_active_local_streams (active_local_streams c - 1) c)
       else upd_ctx (fun c => set_active_peer_streams (active_peer_streams c - 1) c)
     else ret tt) ;;
    ret true
  else ret false.

Definition free_stream (p : nat) : H unit := modify (fun h => set_h_streams (delete p (h_streams h)) h).

(** A count below zero is reported and the program stops. *)
Definition http2_stream_put (p : nat) : H unit :=
  upd_stream p (fun s => set_s_refcount (s_refcount s - 1) s) ;;
  refcnt <- stream p s_refcount ;;
  if 0 <? refcnt then ret tt
  else if refcnt <? 0 then ub
  else
    listed <- ctx (fun c => bool_decide (p ∈ streams c)) ;;
    (if listed : bool then unlink_stream p ;; ret tt else ret tt) ;;
    free_stream p.

Definition _http2_remove_stream (p : nat) (do_put : bool) : H unit :=
  was <- unlink_stream p ;;
  if (was : bool) && do_put then http2_stream_put p else ret tt.

(** The loop of [http2_ctx_close] and [http2_ctx_put] over the streams. *)
Fixpoint remove_streams (l : list nat) : H unit :=
  match l with
  | [] => ret tt
  | p :: l => _http2_remove_stream p true ;; remove_streams l
  end.

(** The streams are given up; then the connection is freed when nobody else holds it. *)
Definition http2_ctx_close : H unit := l <- ctx streams ;; remove_streams l.

(** ** Bodies that wait to be sent *)

Definition _http2_stream_has_pending_send (s : http2_stream) : bool :=
  (pending_send_body_offset s <? Zlen (pending_send_body s)) || (pending_send_end_stream s && negb (end_stream_sent s)).

Definition _http2_stream_clear_pending_send (p : nat) : H unit :=
  upd_stream p (fun s => set_pending_send_end_stream false (set_pending_send_body_offset 0
    (set_pending_send_body_size 0 (set_pending_send_body [] s)))).

Definition mark_end_sent (s : http2_stream) : http2_stream :=
  if end_stream_sent s then s
  else
    let s := set_end_stream_sent true s in
    match s_state s with
    | HTTP2_STREAM_OPEN => set_s_state HTTP2_STREAM_HALF_CLOSED_LOCAL s
    | HTTP2_STREAM_HALF_CLOSED_REMOTE => set_s_state HTTP2_STREAM_CLOSED s
    | _ => s
    end.

Definition _http2_stream_mark_end_sent (p : nat) : H unit := upd_stream p mark_end_sent.

(** How much of [remain] bytes the windows and the frame size allow. *)
Definition limit_send (s : http2_stream) (c : http2_ctx) (remain : Z) : Z :=
  let to_send := if send_window_size s <? remain then send_window_size s else remain in
  let to_send := if send_conn_window_size c <? to_send then send_conn_window_size c else to_send in
  if peer_max_frame_size c <? u32 to_send then s32 (peer_max_frame_size c) else to_send.

(** What a DATA frame of [n] bytes takes from the windows. *)
Definition take_window (p : nat) (n : Z) : H unit :=
  upd_stream p (fun s => set_send_window_size (send_window_size s - n) s) ;;
  upd_ctx (fun c => set_send_conn_window_size (send_conn_window_size c - n) c).

Fixpoint flush_loop (fuel : nat) (p : nat) : H unit :=
  s <- stream p (fun s => s) ;;
  c <- ctx (fun c => c) ;;
  if pending_send_body_offset s <? Zlen (pending_send_body s) then
    match fuel with
    | O => diverge
    | S fuel =>
      let remain := Zlen (pending_send_body s) - pending_send_body_offset s in
      if (send_window_size s <=? 0) || (send_conn_window_size c <=? 0) then set_errno EAGAIN ;; fail
      else
        let to_send := limit_send s c remain in
        if to_send <=? 0 then set_errno EAGAIN ;; fail
        else
          let end_stream := pending_send_end_stream s && (to_send =? remain) in
          data <- access (rd_bytes (pending_send_body s) (pending_send_body_offset s) to_send) ;;
          _http2_send_data_frame (stream_id s) data end_stream ;;
          upd_stream p (fun s => set_pending_send_body_offset (pending_send_body_offset s + to_send) s) ;;
          take_window p to_send ;;
          (if end_stream then _http2_stream_mark_end_sent p else ret tt) ;;
          flush_loop fuel p
    end
  else ret tt.

Definition _http2_stream_flush_pending_send (p : nat) : H unit :=
  s <- stream p (fun s => s) ;;
  guard (s_ctx s) ;;
  flush_loop (length (pending_send_body s)) p ;;
  s <- stream p (fun s => s) ;;
  (if pending_send_end_stream s && negb (end_stream_sent s) then
     _http2_send_data_frame (stream_id s) [] true ;; _http2_stream_mark_end_sent p
   else ret tt) ;;
  _http2_stream_clear_pending_send p.

Definition _http2_stream_queue_send_body (p : nat) (data : list Z) (end_stream : bool) : H unit :=
  s <- stream p (fun s => s) ;;
  (if end_stream_sent s || pending_send_end_stream s then set_errno EPIPE ;; fail else ret tt) ;;
  needed <- access (int_sum (Zlen (pending_send_body s)) (Zlen data)) ;;
  (if pending_send_body_size s <? needed then
     match (if pending_send_body_size s =? 0 then Some 512 else safe_buffer_size (pending_send_body_size s) 2) with
     | None => fail
     | Some new_size =>
       new_size <- grow_size 32 new_size needed ;;
       (if malloc_ok then ret tt else set_errno EOTHER ;; fail) ;;
       upd_stream p (set_pending_send_body_size new_size)
     end
   else ret tt) ;;
  size <- stream p pending_send_body_size ;;
  access (if needed <=? size then Some tt else None) ;;
  upd_stream p (fun s => set_pending_send_body (pending_send_body s ++ data) s) ;;
  if end_stream then upd_stream p (set_pending_send_end_stream true) else ret tt.

(** [ret < 0 && errno != EAGAIN] *)
Definition hard_error {A} (m : H A) : H bool :=
  r <- try m ;;
  match r with
  | Some _ => ret false
  | None => h <- get ;; ret (bool_decide (h_errno h <> EAGAIN))
  end.

Fixpoint flush_streams (l : list nat) : H unit :=
  match l with
  | [] => ret tt
  | p :: l =>
    s <- stream p (fun s => s) ;;
    (if _http2_stream_has_pending_send s then
       e <- hard_error (_http2_stream_flush_pending_send p) ;;
       if e : bool then ret tt
       else
         s <- stream p (fun s => s) ;;
         if negb (_http2_stream_has_pending_send s) && close_after_send s then _http2_remove_stream p true else ret tt
     else ret tt) ;;
    flush_streams l
  end.

Definition _http2_ctx_flush_pending_send_bodies : H unit := l <- ctx streams ;; flush_streams l.

(** ** Frames in *)

(** [return -1] after a GOAWAY or RST_STREAM frame and with the status set. *)
Definition connection_error (m : H Z) : H unit := try m ;; upd_ctx (set_status HTTP2_ERR_PROTOCOL) ;; fail.

Definition has_flag (flags flag : Z) : bool := negb (Z.land flags flag =? 0).

Definition _http2_process_data_frame (id : Z) (data : list Z) (flags : Z) : H unit :=
  let len := Zlen data in
  if id =? 0 then connection_error (_http2_send_goaway 0 HTTP2_RST_PROTOCOL_ERROR)
  else
    found <- _http2_find_stream id ;;
    match found with
    | None =>
      c <- ctx (fun c => c) ;;
      if _http2_stream_id_was_seen c id then try (http2_send_rst_stream id HTTP2_RST_STREAM_CLOSED) ;; ret tt
      else connection_error (http2_send_rst_stream id HTTP2_RST_PROTOCOL_ERROR)
    | Some p =>
      s <- stream p (fun s => s) ;;
      if end_stream_received s || bool_decide (s_state s = HTTP2_STREAM_HALF_CLOSED_REMOTE) || bool_decide (s_state s = HTTP2_STREAM_CLOSED) then
        if bool_decide (s_state s = HTTP2_STREAM_CLOSED) && end_stream_read_handled s then
          try (http2_send_rst_stream id HTTP2_RST_STREAM_CLOSED) ;; _http2_mark_stream_reset p
        else connection_error (http2_send_rst_stream id HTTP2_RST_STREAM_CLOSED)
      else if INT_MAX - len <? Zlen (body_buffer s) then try (http2_send_rst_stream id HTTP2_RST_INTERNAL_ERROR) ;; fail
      else
        reset <- _http2_check_content_length p id (Zlen (body_buffer s) + len) (has_flag flags HTTP2_FLAG_END_STREAM) ;;
        if reset : bool then _http2_mark_stream_reset p
        else if 1024 * 1024 <? Zlen (body_buffer s) + len then connection_error (http2_send_rst_stream id HTTP2_RST_INTERNAL_ERROR)
        else
          window <- ctx recv_conn_window_size ;;
          if (recv_window_size s <? len) || (window <? len) then connection_error (http2_send_rst_stream id HTTP2_RST_FLOW_CONTROL_ERROR)
          else
            (if body_buffer_size s <? Zlen (body_buffer s) + len then
               grown <- try (match safe_buffer_size (body_buffer_size s) 2 with
                             | None => fail
                             | Some new_size => n <- grow_size 32 new_size (Zlen (body_buffer s) + len) ;; guard malloc_ok ;; ret n
                             end) ;;
               match grown with
               | None => try (http2_send_rst_stream id HTTP2_RST_INTERNAL_ERROR) ;; fail
               | Some new_size => upd_stream p (set_body_buffer_size new_size)
               end
             else ret tt) ;;
            size <- stream p body_buffer_size ;;
            access (if Zlen (body_buffer s) + len <=? size then Some tt else None) ;;
            upd_stream p (fun s => set_recv_window_size (recv_window_size s - len) (set_body_buffer (body_buffer s ++ data) s)) ;;
            upd_ctx (fun c => set_recv_conn_window_size (recv_conn_window_size c - len) c) ;;
            (if has_flag flags HTTP2_FLAG_END_STREAM then
               upd_stream p (set_end_stream_received true) ;;
               if bool_decide (s_state s = HTTP2_STREAM_OPEN) then upd_stream p (set_s_state HTTP2_STREAM_HALF_CLOSED_REMOTE)
               else if bool_decide (s_state s = HTTP2_STREAM_HALF_CLOSED_LOCAL) then upd_stream p (set_s_state HTTP2_STREAM_CLOSED)
               else ret tt
             else ret tt) ;;
            if 0 <? len then
              _http2_send_window_update 0 len ;;
              upd_ctx (fun c => set_recv_conn_window_size (recv_conn_window_size c + len) c) ;;
              s <- stream p (fun s => s) ;;
              if negb (end_stream_received s) && negb (bool_decide (s_state s = HTTP2_STREAM_CLOSED)) then
                sent <- try (_http2_send_window_update id len) ;;
                match sent with
                | None => upd_ctx (fun c => set_recv_conn_window_size (recv_conn_window_size c - len) c) ;; fail
                | Some _ => upd_stream p (fun s => set_recv_window_size (recv_window_size s + len) s)
                end
              else ret tt
            else ret tt
    end.

Definition _http2_clear_continuation : H unit :=
  upd_ctx (fun c => set_continuation_refuse_stream false (set_continuation_active false (set_continuation_flags 0
    (set_continuation_stream_id 0 (set_header_block_capacity 0 (set_header_block [] c)))))).

(** The capacity of the header block: doubled up to the limit. *)
Fixpoint block_capacity (fuel : nat) (new_capacity needed : Z) : H Z :=
  if new_capacity <? needed then
    match fuel with
    | O => diverge
    | S fuel =>
      let temp := match safe_buffer_size new_capacity 2 with
                  | None => HTTP2_MAX_HEADER_BLOCK_SIZE
                  | Some t => if HTTP2_MAX_HEADER_BLOCK_SIZE <? t then HTTP2_MAX_HEADER_BLOCK_SIZE else t
                  end in
      guard (negb (temp <=? new_capacity)) ;;
      block_capacity fuel temp needed
    end
  else ret new_capacity.

Definition _http2_append_header_block (data : list Z) : H unit :=
  c <- ctx (fun c => c) ;;
  guard (negb (HTTP2_MAX_HEADER_BLOCK_SIZE - Zlen data <? Zlen (header_block c))) ;;
  let needed := Zlen (header_block c) + Zlen data in
  (if header_block_capacity c <? needed then
     n <- block_capacity 16 (if header_block_capacity c =? 0 then 4096 else header_block_capacity c) needed ;;
     guard malloc_ok ;;
     upd_ctx (set_header_block_capacity n)
   else ret tt) ;;
  cap <- ctx header_block_capacity ;;
  access (if needed <=? cap then Some tt else None) ;;
  upd_ctx (set_header_block (header_block c ++ data)).

(** The data of a HEADERS frame without padding length and priority, and the
    length of the padding behind it. *)
Definition strip_headers (data : list Z) (flags : Z) : option (list Z * Z) :=
  match (if has_flag flags HTTP2_FLAG_PADDED then match data with b :: data => Some (data, b) | [] => None end else Some (data, 0)) with
  | None => None
  | Some (data, pad_len) =>
    if has_flag flags HTTP2_FLAG_PRIORITY then if Zlen data <? 5 then None else Some (drop 5 data, pad_len) else Some (data, pad_len)
  end.

(** [hpack_decode_headers] with the decoder of the connection; the headers are
    added to those of the list, and [None] is its failure. *)
Definition decode_header_block (headers : list (list Z * list Z)) : H (list (list Z * list Z) * bool) :=
  c <- ctx (fun c => c) ;;
  match hpack_decode_headers malloc_ok (fun _ _ _ => malloc_ok) (header_block c) (Zlen (header_block c)) (decoder c, headers) with
  | Ok (d, hs) _ => upd_ctx (set_decoder d) ;; ret (hs, true)
  | Fail (d, hs) => upd_ctx (set_decoder d) ;; ret (hs, false)
  | UB => ub
  | Diverged => diverge
  end.

(** The end of a header block: the headers go to the stream [p], or to a temporary
    one when the stream is refused. *)
Definition finish_headers (p : option nat) (id flags : Z) (refuse_stream : bool) : H unit :=
  block <- ctx header_block ;;
  headers <- (match p with Some p => stream p header_list | None => ret [] end) ;;
  (if 0 <? Zlen block then
     r <- decode_header_block headers ;;
     (match p with Some p => upd_stream p (set_header_list (if malloc_ok then r.1 else headers)) | None => ret tt end) ;;
     if r.2 : bool then ret tt
     else try (http2_send_rst_stream id HTTP2_RST_COMPRESSION_ERROR) ;; _http2_clear_continuation ;; fail
   else ret tt) ;;
  _http2_clear_continuation ;;
  match p with
  | None => try (http2_send_rst_stream id HTTP2_RST_REFUSED_STREAM) ;; ret tt
  | Some p =>
    if refuse_stream then try (http2_send_rst_stream id HTTP2_RST_REFUSED_STREAM) ;; ret tt
    else
      s <- stream p (fun s => s) ;;
      (if bool_decide (s_state s = HTTP2_STREAM_IDLE) then upd_stream p (set_s_state HTTP2_STREAM_OPEN) else ret tt) ;;
      if has_flag flags HTTP2_FLAG_END_STREAM then
        reset <- _http2_check_content_length p id (Zlen (body_buffer s)) true ;;
        if reset : bool then _http2_mark_stream_reset p
        else
          upd_stream p (set_end_stream_received true) ;;
          s <- stream p (fun s => s) ;;
          if bool_decide (s_state s = HTTP2_STREAM_OPEN) then upd_stream p (set_s_state HTTP2_STREAM_HALF_CLOSED_REMOTE) else ret tt
      else ret tt
  end.

(** The stream of a header block: [inl] when the function returns; a refused stream
    has no stream, but goes on with the flag set. *)
Definition headers_stream (id : Z) (continuation refuse_stream : bool) : H (unit + option nat * bool) :=
  found <- _http2_find_stream id ;;
  match found with
  | Some p =>
    s <- stream p (fun s => s) ;;
    if end_stream_received s || bool_decide (s_state s = HTTP2_STREAM_CLOSED) then
      if bool_decide (s_state s = HTTP2_STREAM_CLOSED) && end_stream_read_handled s then
        try (http2_send_rst_stream id HTTP2_RST_STREAM_CLOSED) ;; _http2_mark_stream_reset p ;; ret (inl tt)
      else connection_error (http2_send_rst_stream id HTTP2_RST_STREAM_CLOSED) ;; ret (inl tt)
    else ret (inr (Some p, refuse_stream))
  | None =>
    if continuation && negb refuse_stream then connection_error (_http2_send_goaway 0 HTTP2_RST_PROTOCOL_ERROR) ;; ret (inl tt)
    else
      c <- ctx (fun c => c) ;;
      let refuse_stream := refuse_stream || (negb continuation && (0 <? max_concurrent_streams c) && (max_concurrent_streams c <=? active_peer_streams c)) in
      if refuse_stream then ret (inr (None, true))
      else
        p <- _http2_create_stream id ;;
        match p with None => fail | Some p => ret (inr (Some p, false)) end
  end.

Definition _http2_process_headers_frame (id : Z) (data : list Z) (flags : Z) (continuation : bool) : H unit :=
  if id =? 0 then connection_error (_http2_send_goaway 0 HTTP2_RST_PROTOCOL_ERROR)
  else
    c <- ctx (fun c => c) ;;
    if (if continuation then negb (continuation_active c) || negb (continuation_stream_id c =? id) || negb (Z.land flags (255 - HTTP2_FLAG_END_HEADERS) =? 0)
        else continuation_active c) then connection_error (_http2_send_goaway 0 HTTP2_RST_PROTOCOL_ERROR)
    else
      match (if continuation then Some (data, 0) else strip_headers data flags) with
      | None => fail
      | Some (data, pad_len) =>
        guard (negb (Zlen data <? pad_len)) ;;
        let data := take (Z.to_nat (Zlen data - pad_len)) data in
        r <- headers_stream id continuation (continuation && continuation_refuse_stream c) ;;
        match r with
        | inl _ => ret tt
        | inr (p, refuse_stream) =>
          (match p with Some p => if continuation then ret tt else _http2_free_headers p | None => ret tt end) ;;
          appended <- try (_http2_append_header_block data) ;;
          match appended with
          | None => try (http2_send_rst_stream id HTTP2_RST_INTERNAL_ERROR) ;; _http2_clear_continuation ;; fail
          | Some _ =>
            if negb (has_flag flags HTTP2_FLAG_END_HEADERS) then
              if continuation then ret tt
              else upd_ctx (fun c => set_continuation_refuse_stream refuse_stream (set_continuation_active true
                     (set_continuation_flags flags (set_continuation_stream_id id c))))
            else finish_headers p id (if continuation then continuation_flags c else flags) refuse_stream
          end
        end
      end.

(** A change of the initial window moves the windows of all streams. *)
Fixpoint move_windows (delta : Z) (l : list nat) : H unit :=
  match l with
  | [] => ret tt
  | p :: l =>
    w <- stream p send_window_size ;;
    if ((0 <? delta) && (INT_MAX - delta <? w)) || ((delta <? 0) && (w <? INT_MIN - delta)) then
      connection_error (_http2_send_goaway 0 HTTP2_RST_FLOW_CONTROL_ERROR)
    else upd_stream p (set_send_window_size (w + delta)) ;; move_windows delta l
  end.

Definition process_setting (id value : Z) : H unit :=
  c <- ctx (fun c => c) ;;
  if id =? HTTP2_SETTINGS_HEADER_TABLE_SIZE then
    let value := if HTTP2_MAX_HEADER_TABLE_SIZE <? value then HTTP2_MAX_HEADER_TABLE_SIZE else value in
    upd_ctx (set_encoder (hpack_resize_dynamic_table value (encoder c)))
  else if id =? HTTP2_SETTINGS_ENABLE_PUSH then
    if (1 <? value) || (negb (is_client c) && negb (value =? 0)) then connection_error (_http2_send_goaway 0 HTTP2_RST_PROTOCOL_ERROR)
    else ret tt
  else if id =? HTTP2_SETTINGS_MAX_CONCURRENT_STREAMS then upd_ctx (set_peer_max_concurrent_streams value)
  else if id =? HTTP2_SETTINGS_INITIAL_WINDOW_SIZE then
    if INT_MAX <? value then connection_error (_http2_send_goaway 0 HTTP2_RST_FLOW_CONTROL_ERROR)
    else
      let delta := value - send_initial_window_size c in
      upd_ctx (set_send_initial_window_size value) ;;
      move_windows delta (streams c)
  else if id =? HTTP2_SETTINGS_MAX_FRAME_SIZE then
    if (value <? 16384) || (16777215 <? value) then connection_error (_http2_send_goaway 0 HTTP2_RST_PROTOCOL_ERROR)
    else upd_ctx (set_peer_max_frame_size value)
  else if id =? HTTP2_SETTINGS_MAX_HEADER_LIST_SIZE then upd_ctx (set_peer_max_header_list_size value)
  else ret tt.

(** The entries of six bytes; [n] of them are left. *)
Fixpoint process_settings (n : nat) (data : list Z) : H unit :=
  match n with
  | O => ret tt
  | S n => process_setting (of_be (take 2 data)) (read_uint32 (drop 2 data)) ;; process_settings n (drop 6 data)
  end.

Definition _http2_process_settings_frame (data : list Z) (flags : Z) : H unit :=
  let len := Zlen data in
  if has_flag flags HTTP2_FLAG_ACK then
    if negb (len =? 0) then connection_error (_http2_send_goaway 0 HTTP2_RST_PROTOCOL_ERROR) else ret tt
  else if negb (len mod 6 =? 0) then connection_error (_http2_send_goaway 0 HTTP2_RST_PROTOCOL_ERROR)
  else
    process_settings (Z.to_nat (len / 6)) data ;;
    upd_ctx (set_settings_received true) ;;
    _http2_send_settings true ;; ret tt.

Definition _http2_process_window_update_frame (id : Z) (data : list Z) : H unit :=
  if negb (Zlen data =? 4) then connection_error (_http2_send_goaway 0 HTTP2_RST_PROTOCOL_ERROR)
  else
    let increment := Z.land (read_uint32 data) 2147483647 in
    if increment =? 0 then
      connection_error (if id =? 0 then _http2_send_goaway 0 HTTP2_RST_PROTOCOL_ERROR else http2_send_rst_stream id HTTP2_RST_PROTOCOL_ERROR)
    else
      (if id =? 0 then
         c <- ctx (fun c => c) ;;
         if INT_MAX - increment <? send_conn_window_size c then connection_error (_http2_send_goaway 0 HTTP2_RST_FLOW_CONTROL_ERROR)
         else upd_ctx (set_send_conn_window_size (send_conn_window_size c + increment))
       else
         found <- _http2_find_stream id ;;
         match found with
         | None => ret tt
         | Some p =>
           w <- stream p send_window_size ;;
           if INT_MAX - increment <? w then try (http2_send_rst_stream id HTTP2_RST_FLOW_CONTROL_ERROR) ;; fail
           else upd_stream p (set_send_window_size (w + increment))
         end) ;;
      _http2_ctx_flush_pending_send_bodies.

Definition sizeof_read_buffer : Z := HTTP2_DEFAULT_MAX_FRAME_SIZE + HTTP2_FRAME_HEADER_SIZE.

(** Read until the buffer has [want] bytes: the code to return, or [None] to go on;
    [partial] is the code when some bytes came but not all. *)
Definition fill_buffer (want partial : Z) : H (option Z) :=
  b <- ctx read_buffer ;;
  if Zlen b <? want then
    access (if want <=? sizeof_read_buffer then Some tt else None) ;;
    r <- bio_read (want - Zlen b) ;;
    match r with
    | None =>
      h <- get ;;
      if decide (h_errno h = EAGAIN) then upd_ctx (set_want_read true) ;; ret (Some HTTP2_ERR_EAGAIN)
      else upd_ctx (set_status HTTP2_ERR_IO) ;; ret (Some HTTP2_ERR_IO)
    | Some [] => upd_ctx (set_status HTTP2_ERR_EOF) ;; ret (Some HTTP2_ERR_EOF)
    | Some l =>
      upd_ctx (set_read_buffer (b ++ l)) ;;
      if Zlen (b ++ l) <? want then upd_ctx (set_want_read true) ;; ret (Some partial) else ret None
    end
  else ret None.

(** [memcmp(read_buffer, m, strlen(m)) == 0] *)
Definition starts_with (m b : list Z) : bool := bool_decide (take (length m) b = m).

Definition http1_methods : list (list Z) :=
  [bytes "GET "; bytes "POST "; bytes "HEAD "; bytes "PUT "; bytes "DELETE "; bytes "OPTIONS "; bytes "PATCH "; bytes "CONNECT "; bytes "TRACE "].

(** [None] when the preface has been verified. *)
Definition http2_verify_connection_preface : H (option Z) :=
  c <- ctx (fun c => c) ;;
  if is_client c || preface_received c then ret None
  else
    r <- fill_buffer HTTP2_CONNECTION_PREFACE_LEN HTTP2_ERR_EAGAIN ;;
    match r with
    | Some code => ret (Some code)
    | None =>
      b <- ctx read_buffer ;;
      if negb (starts_with HTTP2_CONNECTION_PREFACE b) then
        let code := if (4 <=? Zlen b) && existsb (fun m => starts_with m b) http1_methods then HTTP2_ERR_HTTP1 else HTTP2_ERR_PROTOCOL in
        upd_ctx (set_status code) ;; ret (Some code)
      else
        upd_ctx (fun c => set_preface_received true (set_read_buffer (drop 24 b) c)) ;; ret None
    end.

(** [goto return status]: a connection error that is returned as such. *)
Definition stop_with_goaway : H (option Z) :=
  try (_http2_send_goaway 0 HTTP2_RST_PROTOCOL_ERROR) ;; upd_ctx (set_status HTTP2_ERR_PROTOCOL) ;; ret (Some HTTP2_ERR_PROTOCOL).

(** The body of a frame of one of the types that may fail with -1. *)
Definition run_frame (m : H unit) : H (option Z) :=
  r <- try m ;;
  match r with
  | Some _ => ret None
  | None =>
    st <- ctx status ;;
    (if 0 <=? st then upd_ctx (set_status HTTP2_ERR_PROTOCOL) else ret tt) ;;
    st <- ctx status ;;
    ret (Some st)
  end.

(** The [switch] over the frame types: the code to return, or [None] to go on. *)
Definition process_frame (type flags id : Z) (payload : list Z) : H (option Z) :=
  if type =? HTTP2_FRAME_DATA then run_frame (_http2_process_data_frame id payload flags)
  else if type =? HTTP2_FRAME_HEADERS then run_frame (_http2_process_headers_frame id payload flags false)
  else if type =? HTTP2_FRAME_CONTINUATION then run_frame (_http2_process_headers_frame id payload flags true)
  else if type =? HTTP2_FRAME_SETTINGS then
    if negb (id =? 0) then stop_with_goaway else run_frame (_http2_process_settings_frame payload flags)
  else if type =? HTTP2_FRAME_WINDOW_UPDATE then run_frame (_http2_process_window_update_frame id payload)
  else if type =? HTTP2_FRAME_PING then
    if negb (Zlen payload =? 8) || negb (id =? 0) then stop_with_goaway
    else if negb (has_flag flags HTTP2_FLAG_ACK) then
      r <- try (_http2_send_frame (_http2_write_frame_header 8 HTTP2_FRAME_PING HTTP2_FLAG_ACK 0 ++ payload)) ;;
      match r with
      | Some _ => ret None
      | None => st <- ctx status ;; ret (Some (if st <? 0 then st else HTTP2_ERR_IO))
      end
    else ret None
  else if type =? HTTP2_FRAME_RST_STREAM then
    if negb (Zlen payload =? 4) || (id =? 0) then stop_with_goaway
    else
      found <- _http2_find_stream id ;;
      match found with Some p => upd_stream p (set_s_state HTTP2_STREAM_CLOSED) | None => ret tt end ;; ret None
  else if type =? HTTP2_FRAME_GOAWAY then
    if Zlen payload <? 8 then upd_ctx (set_status HTTP2_ERR_PROTOCOL) ;; ret (Some (-1))
    else upd_ctx (set_status HTTP2_ERR_EOF) ;; ret None
  else ret None.

(** One round of the loop. *)
Definition process_round : H (option Z) :=
  r <- fill_buffer HTTP2_FRAME_HEADER_SIZE 0 ;;
  match r with
  | Some code => ret (Some code)
  | None =>
    c <- ctx (fun c => c) ;;
    let b := read_buffer c in
    let length := read_uint24 b in
    type <- access (rd8 b 3) ;;
    flags <- access (rd8 b 4) ;;
    let id := Z.land (read_uint32 (drop 5 b)) 2147483647 in
    if (local_max_frame_size c <? length) || (INT_MAX <? length) || (sizeof_read_buffer - HTTP2_FRAME_HEADER_SIZE <? length) then
      upd_ctx (set_status HTTP2_ERR_PROTOCOL) ;; ret (Some HTTP2_ERR_PROTOCOL)
    else if continuation_active c && negb (type =? HTTP2_FRAME_CONTINUATION) then stop_with_goaway
    else
      r <- fill_buffer (HTTP2_FRAME_HEADER_SIZE + length) 0 ;;
      match r with
      | Some code => ret (Some code)
      | None =>
        b <- ctx read_buffer ;;
        payload <- access (rd_bytes b HTTP2_FRAME_HEADER_SIZE length) ;;
        r <- process_frame type flags id payload ;;
        match r with
        | Some code => ret (Some code)
        | None => upd_ctx (fun c => set_read_buffer (drop (Z.to_nat (HTTP2_FRAME_HEADER_SIZE + length)) (read_buffer c)) c) ;; ret None
        end
      end
  end.

Fixpoint process_loop (fuel : nat) : H Z :=
  match fuel with
  | O => diverge
  | S fuel => r <- process_round ;; match r with Some code => ret code | None => process_loop fuel end
  end.

(** Every round but the first reads at least a byte. *)
Definition reads_left (l : list rd_event) : nat :=
  foldr (fun e n => match e with RdBytes _ l => S (length l) | _ => 1 end + n)%nat 0%nat l.

Definition _http2_process_frames : H Z :=
  c <- ctx (fun c => c) ;;
  if io_closed c then ret (status c)
  else
    upd_ctx (set_want_read false) ;;
    r <- http2_verify_connection_preface ;;
    match r with
    | Some code => ret code
    | None => h <- get ;; process_loop (reads_left (h_reads h) + 2)
    end.

(** ** The interface of the connection *)

(** [_http2_send_frame] with no data flushes what is pending. *)
Definition flush_writes : H unit :=
  pw <- ctx pending_write ;;
  if 0 <? Zlen pw then try (_http2_send_frame []) ;; ret tt else ret tt.

(** The name of the server is a copy: [strdup] returns NULL when there is no memory. *)
Definition _http2_ctx_init_common (client : bool) (srv : list Z) (max_streams next_id : Z) : http2_ctx :=
  let e := hpack_init_context in
  mk_ctx client (if malloc_ok then Some srv else None) 0 false false false false next_id 0 0 HTTP2_DEFAULT_WINDOW_SIZE HTTP2_DEFAULT_WINDOW_SIZE
    HTTP2_DEFAULT_MAX_FRAME_SIZE HTTP2_DEFAULT_MAX_FRAME_SIZE HTTP2_MAX_HEADER_BLOCK_SIZE
    HTTP2_DEFAULT_WINDOW_SIZE HTTP2_DEFAULT_WINDOW_SIZE 0 0 max_streams UINT32_MAX
    false false [] 0
    (mk_hpack (dynamic_table e) (dynamic_table_size e) HTTP2_INITIAL_HEADER_TABLE_SIZE (entry_count e)) hpack_init_context
    [] [] [] [] 0 0 0 false false.

(** A new connection on a transport, whose context has been allocated: the preface of
    a client and the settings. *)
Definition http2_ctx_new (client : bool) (srv : list Z) (max_streams : Z) (reads : list rd_event) (writes : list wr_event) : res h2 unit :=
  ((if client then try (_http2_send_frame HTTP2_CONNECTION_PREFACE) ;; ret tt else ret tt) ;;
   try (_http2_send_settings false) ;; ret tt)
  (mk_h2 (_http2_ctx_init_common client srv max_streams (if client then 1 else 2)) ∅ 0 reads writes [] EOTHER).

Definition http2_ctx_client_new (srv : list Z) : Z -> list rd_event -> list wr_event -> res h2 unit := http2_ctx_new true srv.
Definition http2_ctx_server_new (srv : list Z) : Z -> list rd_event -> list wr_event -> res h2 unit := http2_ctx_new false srv.

Definition http2_ctx_handshake : H Z :=
  c <- ctx (fun c => c) ;;
  if handshake_complete c then ret 1
  else
    flush_writes ;;
    code <- _http2_process_frames ;;
    c <- ctx (fun c => c) ;;
    if settings_received c then upd_ctx (set_handshake_complete true) ;; ret 1
    else if code =? HTTP2_ERR_EAGAIN then ret 0
    else ret code.

Fixpoint find_acceptable (l : list nat) : H (option nat) :=
  match l with
  | [] => ret None
  | p :: l =>
    c <- ctx (fun c => c) ;;
    s <- stream p (fun s => s) ;;
    if _http2_stream_is_accept_ready c s then ret (Some p) else find_acceptable l
  end.

Definition http2_ctx_accept_stream : H (option nat) :=
  flush_writes ;;
  _http2_process_frames ;;
  l <- ctx streams ;;
  found <- find_acceptable l ;;
  match found with
  | Some p => upd_stream p (set_accepted true) ;; http2_stream_get p ;; ret (Some p)
  | None => ret None
  end.

Definition _http2_ctx_io_process : H Z := flush_writes ;; _http2_process_frames.

Record http2_poll_item := mk_item { i_stream : option nat; i_readable : bool; i_writable : bool }.

(** The item for new streams, of a server. *)
Definition _http2_ctx_check_new_streams (max_items : Z) : H (list http2_poll_item) :=
  c <- ctx (fun c => c) ;;
  if is_client c || (max_items <=? 0) then ret []
  else
    found <- find_acceptable (streams c) ;;
    match found with Some _ => ret [mk_item None true false] | None => ret [] end.

Definition stream_readable (s : http2_stream) : bool :=
  (body_read_offset s <? Zlen (body_buffer s))
  || ((end_stream_received s || bool_decide (s_state s = HTTP2_STREAM_CLOSED)) && negb (end_stream_read_handled s)).

Definition stream_writable (s : http2_stream) : bool :=
  bool_decide (s_state s = HTTP2_STREAM_OPEN) || bool_decide (s_state s = HTTP2_STREAM_HALF_CLOSED_REMOTE).

(** The items, and the streams that stay and that move to the end of the list. *)
Fixpoint collect_ready (l : list nat) (items : list http2_poll_item) (max_items : Z) (check_writable : bool) (ready : list nat)
    : H (list http2_poll_item * list nat) :=
  match l with
  | [] => ret (items, ready)
  | p :: l =>
    s <- stream p (fun s => s) ;;
    let readable := stream_readable s in
    let writable := stream_writable s in
    if accepted s && (readable || (check_writable && writable)) && (Zlen items <? max_items) then
      http2_stream_get p ;;
      collect_ready l (items ++ [mk_item (Some p) readable writable]) max_items check_writable (ready ++ [p])
    else collect_ready l items max_items check_writable ready
  end.

Definition _http2_ctx_collect_ready_streams (items : list http2_poll_item) (max_items : Z) (check_writable : bool) : H (list http2_poll_item) :=
  l <- ctx streams ;;
  r <- collect_ready l items max_items check_writable [] ;;
  upd_ctx (set_streams (filter (fun p => p ∉ r.2) l ++ r.2)) ;;
  ret r.1.

(** The code and the items; [None] instead of a number of items when the caller
    passes no array. *)
Definition _http2_ctx_poll (max_items : option Z) (check_writable : bool) : H (Z * list http2_poll_item) :=
  code <- _http2_ctx_io_process ;;
  _http2_ctx_flush_pending_send_bodies ;;
  match max_items with
  | None => ret (code, [])
  | Some max_items =>
    if max_items <=? 0 then ret (code, [])
    else
      items <- _http2_ctx_check_new_streams max_items ;;
      items <- _http2_ctx_collect_ready_streams items max_items check_writable ;;
      if (code <? 0) && negb (code =? HTTP2_ERR_EAGAIN) && (Zlen items =? 0) then ret (code, items)
      else if 0 <? Zlen items then ret (0, items)
      else st <- ctx status ;; ret (if st <? 0 then st else 0, items)
  end.

Definition http2_ctx_poll (max_items : option Z) : H (Z * list http2_poll_item) :=
  guard (match max_items with Some n => 0 <? n | None => true end) ;; _http2_ctx_poll max_items true.

Definition http2_ctx_poll_readable (max_items : option Z) : H (Z * list http2_poll_item) :=
  guard (match max_items with Some n => 0 <? n | None => true end) ;; _http2_ctx_poll max_items false.

Definition http2_stream_new : H (option nat) :=
  c <- ctx (fun c => c) ;;
  if status c <? 0 then set_errno EOTHER ;; ret None
  else if HTTP2_MAX_STREAM_ID <? next_stream_id c then set_errno EOTHER ;; ret None
  else
    upd_ctx (set_next_stream_id (u32 (next_stream_id c + 2))) ;;
    p <- _http2_create_stream (next_stream_id c) ;;
    match p with Some p => http2_stream_get p ;; ret (Some p) | None => ret None end.

(** ** The interface of a stream *)

Definition http2_stream_close (p : nat) : H unit :=
  http2_stream_get p ;;
  s <- stream p (fun s => s) ;;
  (if s_ctx s then
     wait <- (if _http2_stream_has_pending_send s then
                upd_stream p (set_close_after_send true) ;;
                e <- hard_error (_http2_stream_flush_pending_send p) ;;
                (if e : bool then upd_stream p (set_s_state HTTP2_STREAM_CLOSED) else ret tt) ;;
                stream p _http2_stream_has_pending_send
              else ret false) ;;
     if wait : bool then ret tt
     else
       upd_stream p (set_s_state HTTP2_STREAM_CLOSED) ;;
       st <- ctx status ;;
       s <- stream p (fun s => s) ;;
       (if (0 <=? st) && negb (end_stream_sent s && end_stream_received s) then try (http2_send_rst_stream (stream_id s) 0) ;; ret tt
        else ret tt) ;;
       _http2_remove_stream p true
   else ret tt) ;;
  http2_stream_put p ;;
  http2_stream_put p.

Fixpoint add_headers (p : nat) (headers : list (list Z * list Z)) : H unit :=
  match headers with
  | [] => ret tt
  | (name, value) :: headers => try (_http2_stream_add_header p name value) ;; add_headers p headers
  end.

(** The value of ":authority" or else the last "host". *)
Fixpoint find_authority (headers : list (list Z * list Z)) (authority : list Z) : list Z :=
  match headers with
  | [] => authority
  | (name, value) :: headers =>
    if bool_decide (name = bytes ":authority") then value
    else find_authority headers (if strcasecmp_eq name (bytes "host") then value else authority)
  end.

Definition http2_stream_set_request (p : nat) (method path : list Z) (scheme : option (list Z)) (headers : list (list Z * list Z)) : H unit :=
  s <- stream p (fun s => s) ;;
  guard (s_ctx s) ;;
  _http2_free_headers p ;;
  c <- ctx (fun c => c) ;;
  let authority := find_authority headers (default (bytes "localhost") (server c)) in
  add_headers p [(bytes ":method", method); (bytes ":path", path); (bytes ":scheme", default (bytes "https") scheme); (bytes ":authority", authority)] ;;
  add_headers p (filter (fun f => negb (bool_decide (f.1 = bytes ":authority") || strcasecmp_eq f.1 (bytes "host"))) headers) ;;
  let end_stream := bool_decide (method = bytes "GET") || bool_decide (method = bytes "HEAD") in
  s <- stream p (fun s => s) ;;
  r <- try (_http2_send_headers_frame (stream_id s) (header_list s) end_stream true) ;;
  (if end_stream then upd_stream p (set_end_stream_sent true) else ret tt) ;;
  (if bool_decide (s_state s = HTTP2_STREAM_IDLE) then upd_stream p (set_s_state HTTP2_STREAM_OPEN) else ret tt) ;;
  match r with Some _ => ret tt | None => fail end.

(** The decimal digits of a status of three digits. *)
Definition print_status (status : Z) : list Z := [48 + status / 100; 48 + status / 10 mod 10; 48 + status mod 10].

Definition http2_stream_set_response (p : nat) (status : Z) (headers : list (list Z * list Z)) : H unit :=
  guard (negb ((status <? 100) || (599 <? status))) ;;
  s <- stream p (fun s => s) ;;
  guard (s_ctx s) ;;
  _http2_free_headers p ;;
  add_headers p ((bytes ":status", print_status status) :: headers) ;;
  s <- stream p (fun s => s) ;;
  _http2_send_headers_frame (stream_id s) (header_list s) false true.

Definition http2_stream_get_header (p : nat) (name : list Z) : H (option (list Z)) :=
  s <- stream p (fun s => s) ;;
  ret (if s_ctx s then _http2_stream_get_header_value s name else None).

Definition http2_stream_get_method (p : nat) : H (option (list Z)) := http2_stream_get_header p (bytes ":method").
Definition http2_stream_get_path (p : nat) : H (option (list Z)) := http2_stream_get_header p (bytes ":path").

(** [atoi] limits the number to a [long] and cuts it to an [int]. *)
Definition atoi (s : list Z) : Z :=
  match strtol s with
  | Some (v, _) => s32 (Z.max (- 2 ^ 63) (Z.min v (2 ^ 63 - 1)))
  | None => 0
  end.

Definition http2_stream_get_status (p : nat) : H Z :=
  r <- http2_stream_get_header p (bytes ":status") ;;
  ret (match r with Some status_str => atoi status_str | None => -1 end).

(** The loop of [http2_stream_write_body]; [data] is what is left. *)
Fixpoint write_loop (fuel : nat) (p : nat) (data : list Z) (end_stream : bool) : H unit :=
  if 0 <? Zlen data then
    match fuel with
    | O => diverge
    | S fuel =>
      s <- stream p (fun s => s) ;;
      c <- ctx (fun c => c) ;;
      if end_stream_sent s then set_errno EPIPE ;; fail
      else if (send_window_size s <=? 0) || (send_conn_window_size c <=? 0) then _http2_stream_queue_send_body p data end_stream
      else
        let to_send := limit_send s c (Zlen data) in
        if to_send <=? 0 then _http2_stream_queue_send_body p data end_stream
        else
          let is_end := end_stream && (to_send =? Zlen data) in
          chunk <- access (rd_bytes data 0 to_send) ;;
          r <- try (_http2_send_data_frame (stream_id s) chunk is_end) ;;
          match r with
          | None =>
            h <- get ;;
            if decide (h_errno h = EAGAIN) then _http2_stream_queue_send_body p data end_stream else fail
          | Some _ =>
            take_window p to_send ;;
            (if is_end then _http2_stream_mark_end_sent p else ret tt) ;;
            write_loop fuel p (drop (Z.to_nat to_send) data) end_stream
          end
    end
  else ret tt.

Definition http2_stream_write_body (p : nat) (data : list Z) (end_stream : bool) : H Z :=
  guard (negb ((Zlen data =? 0) && negb end_stream)) ;;
  s <- stream p (fun s => s) ;;
  guard (s_ctx s) ;;
  st <- ctx status ;;
  (if st <? 0 then set_errno EOTHER ;; fail else ret tt) ;;
  if _http2_stream_has_pending_send s then
    _http2_stream_queue_send_body p data end_stream ;;
    e <- hard_error (_http2_stream_flush_pending_send p) ;;
    if e : bool then fail else ret (Zlen data)
  else if (Zlen data =? 0) && end_stream then
    if end_stream_sent s then ret 0
    else _http2_send_data_frame (stream_id s) [] true ;; _http2_stream_mark_end_sent p ;; ret 0
  else write_loop (length data) p data end_stream ;; ret (Zlen data).

(** Whether the connection is in order. *)
Definition connection_open (s : http2_stream) (c : http2_ctx) : bool := s_ctx s && (0 <=? status c).

Definition content_compressed (s : http2_stream) : option bool :=
  match _http2_stream_get_header_value s (bytes "content-encoding") with
  | Some e => if strcasecmp_eq e (bytes "gzip") then Some true else if strcasecmp_eq e (bytes "deflate") then Some false else None
  | None => None
  end.

Definition MAX_DECOMPRESSED_SIZE : Z := 1 * 1024 * 1024.

(** The loop of [http2_decompress_data]: [out] is in a buffer of [out_size] bytes. *)
Fixpoint inflate_loop (fuel : nat) (z : zstate) (input out : list Z) (out_size : Z) : H (list Z) :=
  match fuel with
  | O => diverge
  | S fuel =>
    out_size <- (if out_size <? Zlen out + 4096 then
                   match safe_buffer_size out_size 2 with
                   | None => fail
                   | Some new_size => guard (negb (MAX_DECOMPRESSED_SIZE <? new_size)) ;; guard malloc_ok ;; ret new_size
                   end
                 else ret out_size) ;;
    let r := inflate z input (out_size - Zlen out) in
    access (if (Zlen (z_out r) <=? out_size - Zlen out) && (0 <=? z_taken r) && (z_taken r <=? Zlen input) then Some tt else None) ;;
    match z_ret r with
    | Z_BUF_ERROR | Z_ERROR => fail
    | Z_STREAM_END => ret (out ++ z_out r)
    | Z_OK =>
      let input := drop (Z.to_nat (z_taken r)) input in
      if 0 <? Zlen input then inflate_loop fuel (z_next r) input (out ++ z_out r) out_size else ret (out ++ z_out r)
    end
  end.

(** Each call of [inflate] that returns [Z_OK] takes input or adds to the output. *)
Definition http2_decompress_data (compressed : list Z) (is_gzip : bool) : H (list Z) :=
  let out_size := match safe_buffer_size (Zlen compressed) 4 with Some n => if n <? 8192 then 8192 else n | None => 8192 end in
  let out_size := if MAX_DECOMPRESSED_SIZE <? out_size then MAX_DECOMPRESSED_SIZE else out_size in
  guard malloc_ok ;;
  match inflateInit2 is_gzip with
  | None => fail
  | Some z => inflate_loop (length compressed + Z.to_nat MAX_DECOMPRESSED_SIZE + 1) z compressed [] out_size
  end.

Definition http2_try_decompress_body (p : nat) : H unit :=
  s <- stream p (fun s => s) ;;
  c <- ctx (fun c => c) ;;
  if body_decompressed s || (Zlen (body_buffer s) =? 0) then ret tt
  else if negb (end_stream_received s) && connection_open s c then ret tt
  else
    match content_compressed s with
    | None => ret tt
    | Some is_gzip =>
      r <- try (http2_decompress_data (body_buffer s) is_gzip) ;;
      match r with
      | Some out => upd_stream p (fun s => set_body_decompressed true (set_body_buffer_size (Zlen out) (set_body_buffer out s)))
      | None => set_errno EOTHER ;; fail
      end
    end.

(** After a failure to inflate, nothing is left to read. *)
Definition drop_body (p : nat) : H unit :=
  upd_stream p (fun s => set_body_read_offset (Zlen (body_buffer s)) (set_end_stream_read_handled true s)).

Definition http2_stream_read_body (p : nat) (len : Z) : H (list Z) :=
  guard (0 <? len) ;;
  r <- try (http2_try_decompress_body p) ;;
  match r with
  | None => drop_body p ;; set_errno EOTHER ;; fail
  | Some _ =>
    s <- stream p (fun s => s) ;;
    c <- ctx (fun c => c) ;;
    if bool_decide (is_Some (content_compressed s)) && negb (body_decompressed s) && negb (end_stream_received s)
       && (negb (s_ctx s) || (0 <=? status c)) then set_errno EAGAIN ;; fail
    else
      let available := Zlen (body_buffer s) - body_read_offset s in
      let ended := end_stream_received s || bool_decide (s_state s = HTTP2_STREAM_CLOSED) in
      if available <=? 0 then
        if ended || negb (connection_open s c) then upd_stream p (set_end_stream_read_handled true) ;; ret []
        else set_errno EAGAIN ;; fail
      else
        let to_read := if available <? len then available else len in
        out <- access (rd_bytes (body_buffer s) (body_read_offset s) to_read) ;;
        upd_stream p (set_body_read_offset (body_read_offset s + to_read)) ;;
        (if ended && (Zlen (body_buffer s) <=? body_read_offset s + to_read) then upd_stream p (set_end_stream_read_handled true) else ret tt) ;;
        ret out
  end.

Definition http2_stream_body_available (p : nat) : H bool :=
  r <- try (http2_try_decompress_body p) ;;
  match r with
  | None => drop_body p ;; ret false
  | Some _ =>
    s <- stream p (fun s => s) ;;
    c <- ctx (fun c => c) ;;
    ret (if bool_decide (is_Some (content_compressed s)) && negb (body_decompressed s) && negb (end_stream_received s)
            && (negb (s_ctx s) || (0 <=? status c)) then false
         else 0 <? Zlen (body_buffer s) - body_read_offset s)
  end.

Definition http2_stream_is_end (p : nat) : H bool :=
  r <- try (http2_try_decompress_body p) ;;
  match r with
  | None => drop_body p ;; ret true
  | Some _ =>
    s <- stream p (fun s => s) ;;
    c <- ctx (fun c => c) ;;
    ret ((Zlen (body_buffer s) <=? body_read_offset s)
         && (end_stream_received s || bool_decide (s_state s = HTTP2_STREAM_CLOSED) || negb (connection_open s c)))
  end.

Definition http2_stream_is_remote_end (p : nat) : H bool :=
  s <- stream p (fun s => s) ;;
  c <- ctx (fun c => c) ;;
  ret (end_stream_received s || bool_decide (s_state s = HTTP2_STREAM_CLOSED) || negb (connection_open s c)).

Definition http2_ctx_disconnect : H unit :=
  upd_ctx (set_io_closed true) ;;
  upd_ctx (fun c => if 0 <=? status c then set_status HTTP2_ERR_EOF c else c) ;;
  upd_ctx (set_want_read false) ;;
  upd_ctx (set_want_write false).

Definition http2_ctx_want_read : H bool := ctx want_read.
Definition http2_ctx_want_write : H bool := ctx want_write.
Definition http2_stream_get_id (p : nat) : H Z := stream p stream_id.

Definition http2_ctx_is_closed : H bool := st <- ctx status ;; ret (st <? 0).

End Http2.
