(* ===== verification/Http2Send.v ===== *)
(** * HTTP/2: the bytes that are sent (src/http_parse/http2.c)

    [_http2_send_frame] over a transport that takes any number of bytes at a time:
    what the transport has taken followed by what is pending is the sequence of the
    frames. *)

From Stdlib Require Import ZArith Lia.
From stdpp Require Import base list numbers option gmap.
From S2P Require Import Prelude Hpack Http2Types Http2.

(** ** Rules *)

Section Rules.
Context {A : Type}.
Implicit Types (Q : h2 -> A -> Prop) (E : h2 -> Prop).

Lemma wp_ctx (f : http2_ctx -> A) h Q E : Q h (f (h_ctx h)) -> wp (ctx f) h Q E.
Proof. done. Qed.

Lemma wp_stream p (f : http2_stream -> A) h Q E s : h_streams h !! p = Some s -> Q h (f s) -> wp (stream p f) h Q E.
Proof. intros Hs HQ. unfold wp, stream, bind, get, access, ret. by rewrite Hs. Qed.
End Rules.

Lemma wp_upd_ctx f h (Q : h2 -> unit -> Prop) E : Q (set_h_ctx (f (h_ctx h)) h) tt -> wp (upd_ctx f) h Q E.
Proof. done. Qed.

Lemma wp_upd_stream p f h (Q : h2 -> unit -> Prop) E s :
  h_streams h !! p = Some s -> Q (set_h_streams (<[p := f s]> (h_streams h)) h) tt -> wp (upd_stream p f) h Q E.
Proof. intros Hs HQ. unfold wp, upd_stream, bind, get, access, put. by rewrite Hs. Qed.

(** A stream that has just been written. *)
Lemma wp_stream_same {A} p (f : http2_stream -> A) m s h Q E : Q (set_h_streams (<[p := s]> m) h) (f s) -> wp (stream p f) (set_h_streams (<[p := s]> m) h) Q E.
Proof. intros HQ. apply (wp_stream p f _ Q E s); [|done]. apply (lookup_insert_eq m p s). Qed.

Lemma wp_upd_stream_same p f m s h (Q : h2 -> unit -> Prop) E :
  Q (set_h_streams (<[p := f s]> m) h) tt -> wp (upd_stream p f) (set_h_streams (<[p := s]> m) h) Q E.
Proof.
  intros HQ. apply (wp_upd_stream p f _ Q E s); [apply (lookup_insert_eq m p s)|].
  change (Q (set_h_streams (<[p := f s]> (<[p := s]> m)) h) tt). by rewrite insert_insert_eq.
Qed.

Lemma wp_set_errno e h (Q : h2 -> unit -> Prop) E : Q (set_h_errno e h) tt -> wp (set_errno e) h Q E.
Proof. done. Qed.

Ltac h2_step :=
  lazymatch goal with
  | |- wp (ctx _) _ _ _ => apply wp_ctx
  | |- wp (upd_ctx _) _ _ _ => apply wp_upd_ctx
  | |- wp (set_errno _) _ _ _ => apply wp_set_errno
  | |- _ => wp_step
  end; cbv beta.

(** The fields of an updated state. *)
Ltac h2_simpl := cbn [
  h_ctx h_streams h_fresh h_reads h_writes h_wire h_errno is_client server status io_closed handshake_complete settings_received
  preface_received next_stream_id max_local_stream_id_seen max_peer_stream_id_seen send_conn_window_size recv_conn_window_size
  peer_max_frame_size local_max_frame_size peer_max_header_list_size send_initial_window_size recv_initial_window_size
  active_local_streams active_peer_streams max_concurrent_streams peer_max_concurrent_streams want_read want_write pending_write
  pending_write_capacity encoder decoder stream_map streams read_buffer header_block header_block_capacity
  continuation_stream_id continuation_flags continuation_active continuation_refuse_stream s_ctx s_refcount stream_id s_state
  header_list body_buffer body_buffer_size body_read_offset end_stream_received end_stream_sent end_stream_read_handled accepted
  send_window_size recv_window_size body_decompressed pending_send_body pending_send_body_size pending_send_body_offset
  pending_send_end_stream close_after_send set_s_ctx set_s_refcount set_s_state set_header_list set_body_buffer
  set_body_buffer_size set_body_read_offset set_end_stream_received set_end_stream_sent set_end_stream_read_handled set_accepted
  set_send_window_size set_recv_window_size set_body_decompressed set_pending_send_body set_pending_send_body_size
  set_pending_send_body_offset set_pending_send_end_stream set_close_after_send set_status set_io_closed set_handshake_complete
  set_settings_received set_preface_received set_next_stream_id set_max_local_stream_id_seen set_max_peer_stream_id_seen
  set_send_conn_window_size set_recv_conn_window_size set_peer_max_frame_size set_peer_max_header_list_size
  set_send_initial_window_size set_active_local_streams set_active_peer_streams set_peer_max_concurrent_streams set_want_read
  set_want_write set_pending_write set_pending_write_capacity set_encoder set_decoder set_stream_map set_streams set_read_buffer
  set_header_block set_header_block_capacity set_continuation_stream_id set_continuation_flags set_continuation_active
  set_continuation_refuse_stream set_h_ctx set_h_streams set_h_fresh set_h_reads set_h_writes set_h_wire set_h_errno].
Ltac h2_simpl_in H := cbn [
  h_ctx h_streams h_fresh h_reads h_writes h_wire h_errno is_client server status io_closed handshake_complete settings_received
  preface_received next_stream_id max_local_stream_id_seen max_peer_stream_id_seen send_conn_window_size recv_conn_window_size
  peer_max_frame_size local_max_frame_size peer_max_header_list_size send_initial_window_size recv_initial_window_size
  active_local_streams active_peer_streams max_concurrent_streams peer_max_concurrent_streams want_read want_write pending_write
  pending_write_capacity encoder decoder stream_map streams read_buffer header_block header_block_capacity
  continuation_stream_id continuation_flags continuation_active continuation_refuse_stream s_ctx s_refcount stream_id s_state
  header_list body_buffer body_buffer_size body_read_offset end_stream_received end_stream_sent end_stream_read_handled accepted
  send_window_size recv_window_size body_decompressed pending_send_body pending_send_body_size pending_send_body_offset
  pending_send_end_stream close_after_send set_s_ctx set_s_refcount set_s_state set_header_list set_body_buffer
  set_body_buffer_size set_body_read_offset set_end_stream_received set_end_stream_sent set_end_stream_read_handled set_accepted
  set_send_window_size set_recv_window_size set_body_decompressed set_pending_send_body set_pending_send_body_size
  set_pending_send_body_offset set_pending_send_end_stream set_close_after_send set_status set_io_closed set_handshake_complete
  set_settings_received set_preface_received set_next_stream_id set_max_local_stream_id_seen set_max_peer_stream_id_seen
  set_send_conn_window_size set_recv_conn_window_size set_peer_max_frame_size set_peer_max_header_list_size
  set_send_initial_window_size set_active_local_streams set_active_peer_streams set_peer_max_concurrent_streams set_want_read
  set_want_write set_pending_write set_pending_write_capacity set_encoder set_decoder set_stream_map set_streams set_read_buffer
  set_header_block set_header_block_capacity set_continuation_stream_id set_continuation_flags set_continuation_active
  set_continuation_refuse_stream set_h_ctx set_h_streams set_h_fresh set_h_reads set_h_writes set_h_wire set_h_errno] in H.

(** ** What sending does not touch *)

(** The connection without the state of its output. *)
Definition core (h : h2) : h2 :=
  set_h_errno EOTHER (set_h_wire [] (set_h_writes [] (set_h_ctx
    (set_pending_write_capacity 0 (set_pending_write [] (set_want_write false (set_status 0 (h_ctx h))))) h))).

Definition io_same (h h' : h2) : Prop := core h' = core h.

#[export] Instance io_same_preorder : PreOrder io_same.
Proof. split; [done|]. intros a b c Hab Hbc. unfold io_same in *. congruence. Qed.

(** A part of the state that does not depend on the output. *)
Lemma io_same_part {A} (f : h2 -> A) h h' : io_same h h' -> (forall h, f (core h) = f h) -> f h' = f h.
Proof. intros Hs Hf. by rewrite <- (Hf h'), Hs, Hf. Qed.

(** All bytes, sent and to be sent. *)
Definition output (h : h2) : list Z := h_wire h ++ pending_write (h_ctx h).

(** The capacity of a buffer that is doubled when it is too small. *)
Definition capacity (n : Z) : Prop := n = 0 \/ exists k, 0 <= k <= 30 /\ n = 2 ^ k.

Lemma capacity_range n : capacity n -> 0 <= n <= 2 ^ 30.
Proof.
  intros [->|(k&Hk&->)]; [done|]. pose proof (Z.pow_le_mono_r 2 k 30 ltac:(lia) ltac:(lia)). pose proof (Z.pow_pos_nonneg 2 k ltac:(lia) ltac:(lia)). lia.
Qed.

Definition pend_wf (h : h2) : Prop :=
  Zlen (pending_write (h_ctx h)) <= pending_write_capacity (h_ctx h) /\ capacity (pending_write_capacity (h_ctx h)).

(** The bytes that are pending are those that the transport is asked to take. *)
Definition wants (h : h2) : Prop := want_write (h_ctx h) = negb (bool_decide (pending_write (h_ctx h) = [])).

(** ** Growing buffers *)

Lemma safe_buffer_size_2 n : 0 <= n -> safe_buffer_size n 2 = if 1073741823 <? n then None else Some (2 * n).
Proof.
  intros Hn. unfold safe_buffer_size, INT_MAX. destruct (Z.ltb_spec n 0); [lia|]. cbn [orb Z.leb Z.compare].
  change (2147483647 / 2) with 1073741823. destruct (_ <? n); [done|]. f_equal. lia.
Qed.

Lemma capacity_double n : capacity n -> n <= 1073741823 -> capacity (2 * n).
Proof.
  intros [->|(k&Hk&->)] Hn; [by left|right]. exists (k + 1). rewrite Z.pow_add_r by lia. split; [|lia]. destruct (decide (k = 30)) as [->|]; [|lia].
  change (2 ^ 30) with 1073741824 in Hn. lia.
Qed.

Lemma grow_size_spec fuel n needed h : 1 <= n <= INT_MAX -> needed <= INT_MAX -> 2 ^ 32 <= n * 2 ^ Z.of_nat fuel ->
  wp (grow_size fuel n needed) h (fun h' r => h' = h /\ needed <= r <= INT_MAX /\ (capacity n -> capacity r)) (fun h' => h' = h /\ 2 ^ 30 < needed).
Proof.
  unfold INT_MAX. change (2 ^ 32) with 4294967296. change (2 ^ 30) with 1073741824.
  revert n. induction fuel as [|fuel IH]; intros n Hn Hneed Hf; cbn [grow_size]; (destruct (Z.ltb_spec n needed); [|wp_step; split_and!; done || lia]).
  - change (2 ^ Z.of_nat 0) with 1 in Hf. lia.
  - rewrite safe_buffer_size_2 by lia. destruct (Z.ltb_spec 1073741823 n); [wp_step; split; [done|lia]|].
    eapply wp_mono; [apply (IH (2 * n)); [lia|lia|]| |done].
    + rewrite Nat2Z.inj_succ, Z.pow_succ_r in Hf by lia. lia.
    + intros h' r (->&Hr&Hc). split_and!; [done|lia|lia|]. intros Hn'. by apply Hc, capacity_double.
Qed.

(** ** Keeping unsent data *)

Section Send.
Variable malloc_ok : bool.

(** The buffer could not be enlarged. *)
Definition no_room (total : Z) : Prop := malloc_ok = false \/ 2 ^ 30 < total.

Lemma first_size start cap needed : capacity start -> 0 < start -> capacity cap -> cap < needed ->
  match (if cap =? 0 then Some start else safe_buffer_size cap 2) with Some n => capacity n /\ 0 < n | None => 2 ^ 30 < needed end.
Proof.
  intros Hs Hs0 Hc Hn. pose proof (capacity_range _ Hc). change (2 ^ 30) with 1073741824 in *. destruct (Z.eqb_spec cap 0); [done|]. rewrite safe_buffer_size_2 by lia.
  destruct (Z.ltb_spec 1073741823 cap); [lia|]. split; [by apply capacity_double|lia].
Qed.

Lemma capacity_8192 : capacity 8192.
Proof. right. by exists 13. Qed.

Lemma buffer_new_data_spec unsent h : pend_wf h -> Zlen (pending_write (h_ctx h)) + Zlen unsent <= INT_MAX ->
  wp (buffer_new_data malloc_ok unsent) h
    (fun h' _ => io_same h h' /\ h_wire h' = h_wire h /\ pending_write (h_ctx h') = pending_write (h_ctx h) ++ unsent /\
      want_write (h_ctx h') = true /\ status (h_ctx h') = status (h_ctx h) /\ pend_wf h')
    (fun h' => h' = h /\ no_room (Zlen (pending_write (h_ctx h)) + Zlen unsent)).
Proof.
  intros [Hp Hc] Hl. pose proof (Zlen_nonneg (pending_write (h_ctx h))). pose proof (Zlen_nonneg unsent). unfold buffer_new_data. h2_step. destruct (Z.ltb_spec 0 (Zlen unsent)).
  - h2_step. h2_step. h2_step. h2_step. h2_step. apply wp_access. exists (Zlen (pending_write (h_ctx h)) + Zlen unsent). split.
    { unfold int_sum, INT_MIN, INT_MAX in *. destruct (Z.leb_spec (-2147483648) (Zlen (pending_write (h_ctx h)) + Zlen unsent)), (Z.leb_spec (Zlen (pending_write (h_ctx h)) + Zlen unsent) 2147483647); done || lia. }
    h2_step. apply (wp_mono _ _ (fun h' _ => exists cap, h' = set_h_ctx (set_pending_write_capacity cap (h_ctx h)) h /\ Zlen (pending_write (h_ctx h)) + Zlen unsent <= cap /\ capacity cap) _
      (fun h' => h' = h /\ no_room (Zlen (pending_write (h_ctx h)) + Zlen unsent))); [| |done].
    + h2_step.
      * pose proof (first_size 8192 (pending_write_capacity (h_ctx h)) (Zlen (pending_write (h_ctx h)) + Zlen unsent) capacity_8192 ltac:(lia) Hc) as Hf.
        destruct (if _ =? 0 then _ else _) as [n|]; [|h2_step; split; [done|right; apply Hf; lia]]. destruct (Hf ltac:(lia)) as [Hn Hn0]. pose proof (capacity_range _ Hn) as Hr. change (2 ^ 30) with 1073741824 in Hr.
        h2_step. eapply wp_mono; [apply (grow_size_spec 32 n); [unfold INT_MAX; lia|lia|]| |].
        { change (2 ^ Z.of_nat 32) with 4294967296. change (2 ^ 32) with 4294967296. lia. }
        { intros h' r (->&Hrr&Hcap). h2_step. h2_step; [|split; [done|by left]]. h2_step. exists r. split_and!; [done|lia|by apply Hcap]. }
        { intros h' [-> Hrr]. split; [done|by right]. }
      * h2_step. exists (pending_write_capacity (h_ctx h)). split_and!; [by destruct h as [[]]|lia|done].
    + intros h' _ (cap&->&Hcap&Hcc). h2_step. h2_step. h2_step. apply wp_access. exists tt. split.
      { change (pending_write_capacity _) with cap. destruct (Z.leb_spec (Zlen (pending_write (h_ctx h)) + Zlen unsent) cap); [done|lia]. }
      h2_step. h2_step. unfold pend_wf. split_and!; try done.
      change (Zlen (pending_write (h_ctx h) ++ unsent) <= cap). rewrite Zlen_app. lia.
  - assert (unsent = []) as -> by (apply Zlen_0_nil; lia). h2_step. h2_step. rewrite app_nil_r. split_and!; done.
Qed.

(** What sending returns: all of [data] is in the output, or the connection has
    failed, or memory has run out; a part of [data] may be in the output then. *)
Definition sent (h : h2) (data : list Z) (h' : h2) : Prop :=
  io_same h h' /\ status (h_ctx h') = status (h_ctx h) /\ output h' = output h ++ data /\ pend_wf h' /\ wants h' /\
  Zlen (pending_write (h_ctx h')) <= Zlen (pending_write (h_ctx h)) + Zlen data.

Definition unsent (h : h2) (data : list Z) (h' : h2) : Prop :=
  io_same h h' /\ pend_wf h' /\ (exists k, output h' = output h ++ take k data) /\
  (status (h_ctx h') < 0 \/ (status (h_ctx h') = status (h_ctx h) /\ no_room (Zlen (pending_write (h_ctx h)) + Zlen data))).

Lemma bio_write_spec data h : 
  wp (bio_write data) h (fun h' r => io_same h h' /\ h_ctx h' = h_ctx h /\
    match r with
    | Some k => 0 <= k <= Zlen data /\ h_wire h' = h_wire h ++ take (Z.to_nat k) data
    | None => h_wire h' = h_wire h
    end) (fun _ => False).
Proof.
  pose proof (Zlen_nonneg data). unfold bio_write. h2_step. h2_step. destruct (h_writes h) as [|[n| | |] l]; h2_step; h2_step; h2_step; h2_simpl; split_and!; try done; try lia.
  cbn. by rewrite app_nil_r.
Qed.

(** Some of the data has been taken. *)
Lemma sent_more h a h1 rest h3 : io_same h h1 -> status (h_ctx h1) = status (h_ctx h) -> output h1 = output h ++ a ->
  Zlen (pending_write (h_ctx h1)) <= Zlen (pending_write (h_ctx h)) -> sent h1 rest h3 -> sent h (a ++ rest) h3.
Proof.
  intros Hs Hst Ho Hle (Hs2&Hst2&Ho2&Hw&Hww&Hl). split_and!; [by etrans|by rewrite Hst2| |done|done|].
  - by rewrite Ho2, Ho, app_assoc.
  - rewrite Zlen_app. pose proof (Zlen_nonneg a). lia.
Qed.

Lemma no_room_mono a b : no_room a -> a <= b -> no_room b.
Proof. intros [Ha|Ha] Hab; [by left|right; lia]. Qed.

Lemma unsent_more h a h1 rest h3 : io_same h h1 -> status (h_ctx h1) = status (h_ctx h) -> output h1 = output h ++ a ->
  Zlen (pending_write (h_ctx h1)) <= Zlen (pending_write (h_ctx h)) -> unsent h1 rest h3 -> unsent h (a ++ rest) h3.
Proof.
  intros Hs Hst Ho Hle (Hs2&Hw&(k&Hk)&Hr). split_and!; [by etrans|done| |].
  - exists (length a + k)%nat. by rewrite Hk, Ho, take_app_add, app_assoc.
  - destruct Hr as [Hr|[Hr Hn]]; [by left|right]. split; [by rewrite <- Hst|]. eapply no_room_mono; [exact Hn|].
    rewrite Zlen_app. pose proof (Zlen_nonneg a). lia.
Qed.

(** A hard error leaves the output as it is. *)
Lemma failed_unsent h data h1 st : io_same h h1 -> h_ctx h1 = h_ctx h -> h_wire h1 = h_wire h -> pend_wf h -> st < 0 ->
  unsent h data (set_h_ctx (set_status st (h_ctx h1)) h1).
Proof.
  intros Hs Hc Hw Hp Hst. split_and!; [exact Hs|unfold pend_wf; h2_simpl; by rewrite Hc| |by left].
  exists 0%nat. unfold output. h2_simpl. by rewrite Hc, Hw, take_0, app_nil_r.
Qed.

Lemma send_new_data_spec fuel data h :
  pend_wf h -> pending_write (h_ctx h) = [] -> Zlen data <= INT_MAX -> Zlen data <= Z.of_nat fuel ->
  wp (send_new_data malloc_ok fuel data) h (fun h' _ => sent h data h') (fun h' => unsent h data h').
Proof.
  revert data h. induction fuel as [|fuel IH]; intros data h Hw Hp Hl Hf; cbn [send_new_data].
  { destruct (Z.ltb_spec 0 (Zlen data)); [lia|]. assert (data = []) as -> by (apply Zlen_0_nil; pose proof (Zlen_nonneg data); lia).
    h2_step. unfold sent, output, wants. h2_simpl. rewrite app_nil_r, Hp. split_and!; done || lia. }
  destruct (Z.ltb_spec 0 (Zlen data)).
  2: { assert (data = []) as -> by (apply Zlen_0_nil; pose proof (Zlen_nonneg data); lia).
    h2_step. unfold sent, output, wants. h2_simpl. rewrite app_nil_r, Hp. split_and!; done || lia. }
  h2_step. eapply wp_mono; [apply bio_write_spec| |done]. intros h1 [k|] (Hs1&Hc1&Hr).
  - destruct Hr as [Hk Hw1]. destruct (Z.eqb_spec k 0) as [->|Hk0].
    + h2_step. h2_step. h2_step. apply failed_unsent; try done. by rewrite Hw1, app_nil_r.
    + assert (output h1 = output h ++ take (Z.to_nat k) data) as Ho by (unfold output; by rewrite Hc1, Hw1, Hp, !app_nil_r).
      assert (Zlen (drop (Z.to_nat k) data) = Zlen data - k) as Hd by (unfold Zlen in *; rewrite length_drop; lia).
      eapply wp_mono; [apply IH; [unfold pend_wf; by rewrite Hc1|by rewrite Hc1|lia|lia]| |].
      * intros h3 [] Hh2. rewrite <- (take_drop (Z.to_nat k) data). eapply sent_more; [exact Hs1|by rewrite Hc1|exact Ho|by rewrite Hc1|exact Hh2].
      * intros h3 Hh2. rewrite <- (take_drop (Z.to_nat k) data). eapply unsent_more; [exact Hs1|by rewrite Hc1|exact Ho|by rewrite Hc1|exact Hh2].
  - h2_step. h2_step. case_decide.
    + h2_step. h2_step. eapply wp_mono; [apply buffer_new_data_spec|  |].
      * unfold pend_wf. h2_simpl. by rewrite Hc1.
      * h2_simpl. rewrite Hc1, Hp. done.
      * intros h3 [] (Hs2&Hw2&Hp2&Hww&Hst&Hpw). h2_simpl_in Hw2. h2_simpl_in Hp2. h2_simpl_in Hst. rewrite Hc1, Hp in Hp2.
        unfold sent, wants, output. split_and!; [etrans; [exact Hs1|exact Hs2]|by rewrite Hst, Hc1| |done| |rewrite Hp2, Hp; done].
        -- by rewrite Hw2, Hr, Hp2, Hp, app_nil_r.
        -- rewrite Hww, Hp2. cbn. destruct data; [|done]. change (0 < 0) in H. lia.
      * intros h3 [-> Hn]. h2_simpl_in Hn. split_and!; [exact Hs1|unfold pend_wf; h2_simpl; by rewrite Hc1| |].
        -- exists 0%nat. unfold output. h2_simpl. by rewrite Hc1, Hr, take_0, app_nil_r.
        -- right. h2_simpl. rewrite Hc1 in *. split; [done|]. exact Hn.
    + h2_step. h2_step. h2_step. by apply failed_unsent.
Qed.

Lemma flush_pending_write_spec h : pend_wf h -> 0 <= status (h_ctx h) ->
  wp (flush_pending_write) h
    (fun h' wait => io_same h h' /\ status (h_ctx h') = status (h_ctx h) /\ output h' = output h /\ pend_wf h' /\
      Zlen (pending_write (h_ctx h')) <= Zlen (pending_write (h_ctx h)) /\
      if wait then pending_write (h_ctx h') <> [] else pending_write (h_ctx h') = [])
    (fun h' => unsent h [] h').
Proof.
  intros Hw Hst. unfold flush_pending_write. h2_step. h2_step. destruct (Z.ltb_spec 0 (Zlen (pending_write (h_ctx h)))).
  2: { h2_step. split_and!; try done; try lia. apply Zlen_0_nil. pose proof (Zlen_nonneg (pending_write (h_ctx h))). lia. }
  assert (pending_write (h_ctx h) <> []) as Hne by (intros Hx; rewrite Hx in H; change (0 < 0) in H; lia).
  h2_step. eapply wp_mono; [apply bio_write_spec| |done]. intros h1 [k|] (Hs1&Hc1&Hr).
  - destruct Hr as [Hk Hw1]. destruct (Z.ltb_spec 0 k).
    + destruct (Z.ltb_spec k (Zlen (pending_write (h_ctx h)))).
      * assert (Zlen (drop (Z.to_nat k) (pending_write (h_ctx h))) = Zlen (pending_write (h_ctx h)) - k) as Hd by (unfold Zlen in *; rewrite length_drop; lia).
        do 5 h2_step. split; [exact Hs1|]. unfold output, pend_wf. h2_simpl. rewrite Hc1, Hd. split_and!; [done| |unfold pend_wf in Hw; lia|apply Hw|lia|].
        -- by rewrite Hw1, <- app_assoc, take_drop.
        -- intros Hx. rewrite Hx in Hd. change (0 = Zlen (pending_write (h_ctx h)) - k) in Hd. lia.
      * do 5 h2_step. split; [exact Hs1|]. unfold output, pend_wf. h2_simpl. rewrite Hc1. change (Zlen (@nil Z)) with 0. unfold pend_wf in Hw.
        split_and!; [done| |lia|apply Hw|lia|done].
        rewrite Hw1, app_nil_r. f_equal. apply take_ge. unfold Zlen in *. lia.
    + do 3 h2_step. apply failed_unsent; try done. rewrite Hw1. replace k with 0 by lia. by rewrite app_nil_r.
  - h2_step. h2_step. case_decide.
    + do 3 h2_step. split; [exact Hs1|]. unfold output, pend_wf. h2_simpl. rewrite Hc1, Hr. split_and!; first [done|apply Hw|lia].
    + do 3 h2_step. by apply failed_unsent.
Qed.

(** The contract of [_http2_send_frame]. *)
Lemma send_frame_spec data h :
  pend_wf h -> Zlen (pending_write (h_ctx h)) + Zlen data <= INT_MAX ->
  wp (_http2_send_frame malloc_ok data) h (fun h' n => n = Zlen data /\ 0 <= status (h_ctx h) /\ sent h data h')
    (fun h' => (status (h_ctx h) < 0 /\ h' = h) \/ (0 <= status (h_ctx h) /\ unsent h data h')).
Proof.
  intros Hw Hl. unfold _http2_send_frame. pose proof (Zlen_nonneg data). pose proof (Zlen_nonneg (pending_write (h_ctx h))).
  h2_step. h2_step. h2_step. h2_step; [|left; split; [lia|done]].
  h2_step. eapply wp_mono; [by apply flush_pending_write_spec| |].
  2: { intros h1 (Hs&Hp&(k&Hk)&Hr). right. split; [lia|]. split_and!; try done.
    - exists 0%nat. by rewrite Hk, take_nil, take_0.
    - destruct Hr as [Hr|[Hr Hn]]; [by left|right]. split; [done|]. eapply no_room_mono; [exact Hn|]. change (Zlen (@nil Z)) with 0. lia. }
  intros h1 wait (Hs1&Hst1&Ho1&Hp1&Hlp&Hwait). h2_step.
  apply (wp_mono _ _ (fun h' _ => sent h1 data h') _ (fun h' => unsent h1 data h')).
  - destruct wait; [|apply send_new_data_spec; first [done|lia|unfold Zlen; lia]].
    eapply wp_mono; [apply buffer_new_data_spec; [done|lia]| |].
    + intros h3 [] (Hs3&Hw3&Hp3&Hww&Hst3&Hpw). unfold sent, output, wants. rewrite Hw3, Hp3, Hww. split_and!; try done; [by rewrite app_assoc| |by rewrite Zlen_app].
      rewrite bool_decide_eq_false_2; [done|]. intros Hx. apply app_eq_nil in Hx as [Hx _]. done.
    + intros h3 [-> Hn]. split_and!; [done|done|exists 0%nat; by rewrite take_0, app_nil_r|]. right. split; [done|].
      exact Hn.
  - intros h3 [] Hh3. h2_step. split_and!; [done|lia|]. apply (sent_more h [] h1 data); [done|done|by rewrite app_nil_r|done|done].
  - intros h3 Hh3. right. split; [lia|]. apply (unsent_more h [] h1 data); [done|done|by rewrite app_nil_r|done|done].
Qed.
End Send.
