(* ===== verification/Http2Body.v ===== *)
(** * HTTP/2: sending a body (src/http_parse/http2.c)

    What [http2_stream_write_body] sends: as much of the body as the two windows
    allow, in DATA frames of at most the size the peer accepts, in order and
    without a gap; the rest waits. *)

From Stdlib Require Import ZArith Lia.
From stdpp Require Import base list numbers option gmap.
From S2P Require Import Prelude Hpack Http2Types Http2 Http2Send.

(** ** Frames of a body *)

Definition data_frame (id : Z) (data : list Z) (e : bool) : list Z :=
  _http2_write_frame_header (Zlen data) HTTP2_FRAME_DATA (if e then HTTP2_FLAG_END_STREAM else 0) id ++ data.

(** [body] in frames of [mx] bytes, the last one with the flag [e]. *)
Fixpoint data_frames (fuel : nat) (id mx : Z) (body : list Z) (e : bool) : list Z :=
  match fuel with
  | O => []
  | S fuel =>
    if bool_decide (body = []) then []
    else if Zlen body <=? mx then data_frame id body e
    else data_frame id (take (Z.to_nat mx) body) false ++ data_frames fuel id mx (drop (Z.to_nat mx) body) e
  end.

Definition body_frames (id mx : Z) (body : list Z) (e : bool) : list Z := data_frames (length body) id mx body e.

Lemma data_frames_fuel f1 f2 id mx body e : 0 < mx -> (length body <= f1)%nat -> (length body <= f2)%nat ->
  data_frames f1 id mx body e = data_frames f2 id mx body e.
Proof.
  intros Hm. revert f2 body. induction f1 as [|f1 IH]; intros f2 body H1 H2.
  - destruct body; [|cbn in H1; lia]. by destruct f2.
  - destruct f2 as [|f2]; [destruct body; [done|cbn in H2; lia]|]. cbn [data_frames]. case_bool_decide as Hb; [done|].
    destruct (_ <=? _); [done|]. f_equal. assert (0 < length body)%nat by (destruct body; [done|cbn; lia]). apply IH; rewrite length_drop; lia.
Qed.

Lemma body_frames_nil id mx e : body_frames id mx [] e = [].
Proof. done. Qed.

(** The first frame. *)
Lemma body_frames_step id mx body e : 0 < mx -> body <> [] ->
  body_frames id mx body e =
  data_frame id (take (Z.to_nat mx) body) (e && (Zlen body <=? mx)) ++ body_frames id mx (drop (Z.to_nat mx) body) e.
Proof.
  intros Hm Hb. unfold body_frames. destruct (length body) as [|f] eqn:Hl; [by destruct body|]. cbn [data_frames].
  rewrite bool_decide_eq_false_2 by done. destruct (Z.leb_spec (Zlen body) mx) as [Hle|Hgt]; unfold Zlen in *.
  - rewrite take_ge, drop_ge, app_nil_r, andb_true_r by lia. done.
  - rewrite andb_false_r. f_equal. apply data_frames_fuel; rewrite ?length_drop; lia.
Qed.

(** The first frame of what the windows allow. *)
Lemma body_frames_chunk id mx data k n e : 0 < mx -> 0 < k <= Zlen data -> n = Z.min k mx ->
  body_frames id mx (take (Z.to_nat k) data) (e && (k =? Zlen data)) =
  data_frame id (take (Z.to_nat n) data) (e && (n =? Zlen data)) ++
  body_frames id mx (take (Z.to_nat (k - n)) (drop (Z.to_nat n) data)) (e && (k =? Zlen data)).
Proof.
  intros Hm Hk ->. assert (length (take (Z.to_nat k) data) = Z.to_nat k) as Hl by (unfold Zlen in *; rewrite length_take; lia).
  rewrite body_frames_step; [|done|intros Hx; rewrite Hx in Hl; cbn in Hl; lia]. rewrite take_take.
  replace (Z.to_nat mx `min` Z.to_nat k)%nat with (Z.to_nat (Z.min k mx)) by lia. f_equal.
  - f_equal. unfold Zlen at 2. rewrite Hl, Z2Nat.id by lia. destruct e; [|done]. cbn [andb].
    destruct (Z.eqb_spec k (Zlen data)), (Z.leb_spec k mx), (Z.eqb_spec (Z.min k mx) (Zlen data)); done || lia.
  - destruct (Z.le_gt_cases k mx).
    + rewrite drop_ge by lia. replace (k - Z.min k mx) with 0 by lia. done.
    + replace (Z.min k mx) with mx by lia. rewrite skipn_firstn_comm. f_equal. f_equal. lia.
Qed.

Lemma frame_header_len len type flags id : Zlen (_http2_write_frame_header len type flags id) = 9.
Proof. unfold _http2_write_frame_header, write_uint32. rewrite !Zlen_app, be32_len. done. Qed.

Lemma data_frame_len id data e : Zlen (data_frame id data e) = 9 + Zlen data.
Proof. unfold data_frame. by rewrite Zlen_app, frame_header_len. Qed.

(** ** Connections that can send *)

Definition send_wf (c : http2_ctx) : Prop :=
  16384 <= peer_max_frame_size c <= 16777215 /\ send_conn_window_size c <= INT_MAX.

(** What waits in a stream. *)
Definition queued (s : http2_stream) : list Z := drop (Z.to_nat (pending_send_body_offset s)) (pending_send_body s).

Definition queue_wf (s : http2_stream) : Prop :=
  0 <= pending_send_body_offset s <= Zlen (pending_send_body s) /\
  (Zlen (pending_send_body s) <= pending_send_body_size s /\ capacity (pending_send_body_size s)) /\ send_window_size s <= INT_MAX.

Lemma queue_wf_window w s : queue_wf s -> w <= INT_MAX -> queue_wf (set_send_window_size w s).
Proof. intros (Ho&Hs&_) Hw. split; [exact Ho|split; [exact Hs|exact Hw]]. Qed.

(** How many of [n] bytes the windows allow. *)
Definition window_room (h : h2) (s : http2_stream) (n : Z) : Z :=
  Z.max 0 (Z.min n (Z.min (send_window_size s) (send_conn_window_size (h_ctx h)))).

Lemma limit_send_spec s c remain : send_wf c -> 0 < remain <= INT_MAX -> 0 < send_window_size s <= INT_MAX -> 0 < send_conn_window_size c ->
  limit_send s c remain = Z.min (Z.min remain (Z.min (send_window_size s) (send_conn_window_size c))) (peer_max_frame_size c).
Proof.
  intros [Hm Hc] Hr Hw Hcw. unfold limit_send, INT_MAX in *. cbv zeta.
  assert (forall x, 0 <= x <= 2147483647 -> u32 x = x) as Hu by (intros x Hx; unfold u32; apply Z.mod_small; lia).
  assert (s32 (peer_max_frame_size c) = peer_max_frame_size c) as Hs.
  { unfold s32. rewrite Hu by lia. cbv zeta. destruct (Z.ltb_spec (peer_max_frame_size c) 2147483648); [done|lia]. }
  rewrite Hs. destruct (Z.ltb_spec (send_window_size s) remain);
    [destruct (Z.ltb_spec (send_conn_window_size c) (send_window_size s))|destruct (Z.ltb_spec (send_conn_window_size c) remain)];
    rewrite Hu by lia; match goal with |- context [?a <? ?b] => destruct (Z.ltb_spec a b) end; lia.
Qed.

(** The change of state when [k] bytes of [p] have been sent. *)
Definition with_body (h : h2) (p : nat) (s' : http2_stream) (k : Z) : h2 :=
  set_h_streams (<[p := s']> (h_streams h)) (set_h_ctx (set_send_conn_window_size (send_conn_window_size (h_ctx h) - k) (h_ctx h)) h).

Lemma io_same_streams h h' : io_same h h' -> h_streams h' = h_streams h.
Proof. intros Hs. by apply (io_same_part h_streams h h' Hs). Qed.

Lemma io_same_wf h h' : io_same h h' -> send_wf (h_ctx h) -> send_wf (h_ctx h').
Proof.
  intros Hs [Hm Hc]. unfold send_wf. by rewrite (io_same_part (fun h => peer_max_frame_size (h_ctx h)) h h' Hs), (io_same_part (fun h => send_conn_window_size (h_ctx h)) h h' Hs).
Qed.

Lemma with_body_same h h' p s k : io_same h h' -> io_same (with_body h p s k) (with_body h' p s k).
Proof.
  intros Hs. unfold io_same in *. change (core (with_body (core h') p s k) = core (with_body (core h) p s k)). by rewrite Hs.
Qed.

Lemma with_body_twice h p s1 n s2 k : with_body (with_body h p s1 n) p s2 k = with_body h p s2 (n + k).
Proof.
  unfold with_body. change (set_h_streams (<[p := s2]> (<[p := s1]> (h_streams h))) (set_h_ctx (set_send_conn_window_size (send_conn_window_size (h_ctx h) - n - k) (h_ctx h)) h) =
    set_h_streams (<[p := s2]> (h_streams h)) (set_h_ctx (set_send_conn_window_size (send_conn_window_size (h_ctx h) - (n + k)) (h_ctx h)) h)).
  rewrite insert_insert_eq. do 3 f_equal. lia.
Qed.

(** A stream without its queue. *)
Definition queue_core (s : http2_stream) : http2_stream :=
  set_pending_send_body [] (set_pending_send_body_size 0 (set_pending_send_body_offset 0 (set_pending_send_end_stream false s))).

Lemma queue_core_part {A} (f : http2_stream -> A) s s' : queue_core s' = queue_core s -> (forall s, f (queue_core s) = f s) -> f s' = f s.
Proof. intros Hs Hf. by rewrite <- (Hf s'), Hs, Hf. Qed.

Lemma int_sum_ok a b : 0 <= a -> 0 <= b -> a + b <= INT_MAX -> int_sum a b = Some (a + b).
Proof.
  intros Ha Hb Hab. unfold int_sum, INT_MIN. destruct (Z.leb_spec (-2147483648) (a + b)), (Z.leb_spec (a + b) INT_MAX); done || lia.
Qed.

Lemma capacity_512 : capacity 512.
Proof. right. by exists 9. Qed.

(** Queueing: the data is behind what is queued already, or nothing has changed. *)
Lemma queue_send_body_run malloc_ok p data e h s :
  h_streams h !! p = Some s -> queue_wf s -> Zlen data < 2 ^ 30 ->
  wp (_http2_stream_queue_send_body malloc_ok p data e) h
    (fun h' _ => (end_stream_sent s = false /\ pending_send_end_stream s = false) /\
      exists s', h' = set_h_streams (<[p := s']> (h_streams h)) h /\ queue_wf s' /\ queue_core s' = queue_core s /\
      pending_send_body s' = pending_send_body s ++ data /\ pending_send_body_offset s' = pending_send_body_offset s /\ pending_send_end_stream s' = e)
    (fun h' => (h' = h \/ exists err, h' = set_h_errno err h) /\
      (end_stream_sent s || pending_send_end_stream s = true \/ malloc_ok = false \/ 2 ^ 30 < Zlen (pending_send_body s) + Zlen data)).
Proof.
  intros Hs (Ho&[Hsz Hcap]&Hw) Hl. change (2 ^ 30) with 1073741824 in *. pose proof (Zlen_nonneg data). pose proof (Zlen_nonneg (pending_send_body s)).
  pose proof (capacity_range _ Hcap) as Hcr. change (2 ^ 30) with 1073741824 in Hcr.
  unfold _http2_stream_queue_send_body. wp_step. eapply wp_stream; [exact Hs|]. wp_step.
  destruct (end_stream_sent s || pending_send_end_stream s) eqn:Hend; [wp_step; apply wp_set_errno; wp_step; split; [right; by eexists|by left]|]. wp_step.
  wp_step. apply wp_access. exists (Zlen (pending_send_body s) + Zlen data). split; [apply int_sum_ok; unfold INT_MAX; lia|].
  wp_step. apply (wp_mono _ _ (fun h' _ => exists sz, h' = set_h_streams (<[p := set_pending_send_body_size sz s]> (h_streams h)) h /\ Zlen (pending_send_body s) + Zlen data <= sz /\ capacity sz) _
    (fun h' => (h' = h \/ exists err, h' = set_h_errno err h) /\ (malloc_ok = false \/ 1073741824 < Zlen (pending_send_body s) + Zlen data))).
  3: { intros h' [Hh Hr]. split; [done|by right]. }
  - wp_step.
    + pose proof (first_size 512 (pending_send_body_size s) (Zlen (pending_send_body s) + Zlen data) capacity_512 ltac:(lia) Hcap ltac:(lia)) as Hf. change (2 ^ 30) with 1073741824 in Hf.
      destruct (if _ =? 0 then _ else _) as [n|]; [|wp_step; split; [by left|by right]]. destruct Hf as [Hn Hn0]. pose proof (capacity_range _ Hn) as Hr. change (2 ^ 30) with 1073741824 in Hr.
      wp_step. eapply wp_mono; [apply (grow_size_spec 32 n); [unfold INT_MAX; lia|unfold INT_MAX; lia|]| |].
      { change (2 ^ Z.of_nat 32) with 4294967296. change (2 ^ 32) with 4294967296. lia. }
      { intros h' r (->&Hrr&Hrc). wp_step. destruct malloc_ok.
        - wp_step. eapply wp_upd_stream; [exact Hs|]. exists r. split_and!; [done|lia|by apply Hrc].
        - wp_step. apply wp_set_errno. wp_step. split; [right; by eexists|by left]. }
      { intros h' [-> Hrr]. split; [by left|by right]. }
    + wp_step. exists (pending_send_body_size s). split_and!; [|lia|done]. replace (set_pending_send_body_size (pending_send_body_size s) s) with s by by destruct s.
      rewrite insert_id by done. by destruct h.
  - intros h' _ (sz&->&Hsz'&Hcap'). apply orb_false_iff in Hend. wp_step. apply wp_stream_same. wp_step. apply wp_access. exists tt. split.
    { h2_simpl. destruct (Z.leb_spec (Zlen (pending_send_body s) + Zlen data) sz); [done|lia]. }
    wp_step. apply wp_upd_stream_same. wp_step.
    + apply wp_upd_stream_same. split; [done|]. eexists. split; [reflexivity|]. unfold queue_wf. h2_simpl. rewrite Zlen_app. split_and!; done || lia.
    + wp_step. split; [done|]. eexists. split; [reflexivity|]. unfold queue_wf. h2_simpl. rewrite Zlen_app. destruct Hend. split_and!; done || lia || congruence.
Qed.

Section Body.
Variable malloc_ok : bool.
Hypothesis memory : malloc_ok = true.

(** The room that remains for pending output: enough for [n] bytes in frames of at
    least one byte. *)
Definition room_for (h : h2) (n : Z) : Prop := Zlen (pending_write (h_ctx h)) + 10 * n + 9 <= 2 ^ 30.

Lemma send_data_frame_spec id data e h :
  pend_wf h -> 0 <= status (h_ctx h) -> Zlen (pending_write (h_ctx h)) + Zlen data + 9 <= 2 ^ 30 ->
  wp (_http2_send_data_frame malloc_ok id data e) h (fun h' _ => sent h (data_frame id data e) h') (fun h' => io_same h h' /\ status (h_ctx h') < 0).
Proof.
  intros Hp Hst Hl. change (2 ^ 30) with 1073741824 in Hl. unfold _http2_send_data_frame. rewrite memory. wp_step. wp_step.
  pose proof (data_frame_len id data e) as Hlen. unfold data_frame in Hlen.
  eapply wp_mono; [apply send_frame_spec; [done|rewrite Hlen; unfold INT_MAX; lia]| |].
  - intros h' n (_&_&Hs). exact Hs.
  - intros h' [[Hs ->]|(_&Hio&_&_&[Hs|[Hs Hn]])]; [lia|done|]. destruct Hn as [Hn|Hn]; [congruence|]. rewrite Hlen in Hn. change (2 ^ 30) with 1073741824 in Hn. lia.
Qed.

Lemma queue_send_body_spec p data e h s :
  h_streams h !! p = Some s -> queue_wf s -> end_stream_sent s = false -> pending_send_end_stream s = false ->
  Zlen (pending_send_body s) + Zlen data <= 2 ^ 30 -> Zlen data < 2 ^ 30 ->
  wp (_http2_stream_queue_send_body malloc_ok p data e) h
    (fun h' _ => exists s', h' = set_h_streams (<[p := s']> (h_streams h)) h /\ queue_wf s' /\ queue_core s' = queue_core s /\
      pending_send_body s' = pending_send_body s ++ data /\ pending_send_body_offset s' = pending_send_body_offset s /\ pending_send_end_stream s' = e)
    (fun _ => False).
Proof.
  intros Hs Hwf He Hpe Hl Hd. eapply wp_mono; [by apply (queue_send_body_run malloc_ok p data e h s)| |].
  - intros h' [] [_ Hs']. exact Hs'.
  - intros h' [_ [Hx|[Hx|Hx]]]; [by rewrite He, Hpe in Hx|congruence|lia].
Qed.

(** The stream [s'] after [k] bytes of [q] have been sent and the rest has been queued;
    the end of the stream waits when [pe], and has been sent with the last byte. *)
Definition after_send (s : http2_stream) (q : list Z) (k : Z) (pe e : bool) (s' : http2_stream) : Prop :=
  queued s' = drop (Z.to_nat k) q /\ queue_wf s' /\ send_window_size s' = send_window_size s - k /\
  pending_send_end_stream s' = pe /\ end_stream_sent s' = e && (k =? Zlen q) /\
  stream_id s' = stream_id s /\ s_ctx s' = s_ctx s.

(** As much of [q] as the windows allow has been sent, and the rest is queued. *)
Definition body_moved (h : h2) (p : nat) (s : http2_stream) (q : list Z) (pe e : bool) (frames : list Z) (h' : h2) : Prop :=
  let k := window_room h s (Zlen q) in
  exists s', io_same (with_body h p s' k) h' /\ status (h_ctx h') = status (h_ctx h) /\ pend_wf h' /\
    output h' = output h ++ frames /\ after_send s q k pe e s'.

Definition body_sent (h : h2) (p : nat) (s : http2_stream) (q : list Z) (e : bool) (frames : list Z) (h' : h2) : Prop :=
  body_moved h p s q (e && (window_room h s (Zlen q) <? Zlen q)) e frames h'.

(** The frames of what the windows allow. *)
Definition room_frames (h : h2) (s : http2_stream) (q : list Z) (e : bool) : list Z :=
  let k := window_room h s (Zlen q) in
  body_frames (stream_id s) (peer_max_frame_size (h_ctx h)) (take (Z.to_nat k) q) (e && (k =? Zlen q)).

(** The first [n] bytes, and then the rest. *)
Lemma room_step h p s (q : list Z) h1 s1 n : 0 <= n -> n <= window_room h s (Zlen q) ->
  io_same (with_body h p s1 n) h1 -> send_window_size s1 = send_window_size s - n ->
  Zlen (drop (Z.to_nat n) q) = Zlen q - n /\ window_room h1 s1 (Zlen (drop (Z.to_nat n) q)) = window_room h s (Zlen q) - n.
Proof.
  intros Hn Hk Hs1 Hw. assert (Zlen (drop (Z.to_nat n) q) = Zlen q - n) as Hlen.
  { unfold window_room, Zlen in *. rewrite length_drop. lia. }
  split; [done|]. unfold window_room in *.
  rewrite Hlen, Hw, (io_same_part (fun h => send_conn_window_size (h_ctx h)) _ _ Hs1 (fun _ => eq_refl)). unfold with_body. h2_simpl. lia.
Qed.

Lemma body_moved_step h p s q pe e h1 s1 n h3 :
  0 <= n -> n <= window_room h s (Zlen q) ->
  io_same (with_body h p s1 n) h1 -> status (h_ctx h1) = status (h_ctx h) ->
  send_window_size s1 = send_window_size s - n -> stream_id s1 = stream_id s -> s_ctx s1 = s_ctx s ->
  forall f1 f2, output h1 = output h ++ f1 -> body_moved h1 p s1 (drop (Z.to_nat n) q) pe e f2 h3 ->
  body_moved h p s q pe e (f1 ++ f2) h3.
Proof.
  intros Hn Hk Hs1 Hst Hw Hid Hc f1 f2 Ho (s'&Hs'&Hst'&Hp'&Ho'&Hq&Hqw&Hsw&Hpe&Hes&Hid'&Hc').
  destruct (room_step h p s q h1 s1 n Hn Hk Hs1 Hw) as [Hlen Hroom].
  rewrite Hroom in *. exists s'. split_and!.
  - etrans; [|exact Hs']. rewrite <- (with_body_same _ _ p s' (window_room h s (Zlen q) - n) Hs1), with_body_twice. by replace (n + (window_room h s (Zlen q) - n)) with (window_room h s (Zlen q)) by lia.
  - by rewrite Hst'.
  - done.
  - by rewrite Ho', Ho, app_assoc.
  - unfold after_send. rewrite Hq, drop_drop, Hsw, Hpe, Hes, Hlen, Hid', Hc', Hw. split_and!; try done; try lia.
    + f_equal. lia.
    + f_equal. destruct (Z.eqb_spec (window_room h s (Zlen q) - n) (Zlen q - n)), (Z.eqb_spec (window_room h s (Zlen q)) (Zlen q)); done || lia.
Qed.

Lemma body_sent_step h p s q e h1 s1 n h3 :
  0 <= n -> n <= window_room h s (Zlen q) ->
  io_same (with_body h p s1 n) h1 -> status (h_ctx h1) = status (h_ctx h) ->
  send_window_size s1 = send_window_size s - n -> stream_id s1 = stream_id s -> s_ctx s1 = s_ctx s ->
  forall f1 f2, output h1 = output h ++ f1 -> body_sent h1 p s1 (drop (Z.to_nat n) q) e f2 h3 ->
  body_sent h p s q e (f1 ++ f2) h3.
Proof.
  intros Hn Hk Hs1 Hst Hw Hid Hc f1 f2 Ho Hb. unfold body_sent in *. destruct (room_step h p s q h1 s1 n Hn Hk Hs1 Hw) as [Hlen Hroom].
  rewrite Hroom, Hlen in Hb. replace (window_room h s (Zlen q) <? Zlen q) with (window_room h s (Zlen q) - n <? Zlen q - n).
  - by eapply body_moved_step.
  - destruct (Z.ltb_spec (window_room h s (Zlen q) - n) (Zlen q - n)), (Z.ltb_spec (window_room h s (Zlen q)) (Zlen q)); done || lia.
Qed.

(** Taking the bytes of a frame from the windows. *)
Lemma take_window_run p h s n (mark : bool) : h_streams h !! p = Some s ->
  wp (take_window p n ;; (if mark then _http2_stream_mark_end_sent p else ret tt)) h
    (fun h' _ => let s1 := set_send_window_size (send_window_size s - n) s in h' = with_body h p (if mark then mark_end_sent s1 else s1) n) (fun _ => False).
Proof.
  intros Hs. unfold take_window. wp_step. wp_step. eapply wp_upd_stream; [exact Hs|]. apply wp_upd_ctx.
  destruct mark; [|by wp_step]. by apply (wp_upd_stream_same p mark_end_sent (h_streams h) _ (set_h_ctx (set_send_conn_window_size (send_conn_window_size (h_ctx h) - n) (h_ctx h)) h)).
Qed.

Lemma mark_end_sent_facts s : queue_core (mark_end_sent s) = mark_end_sent (queue_core s) /\ end_stream_sent (mark_end_sent s) = true /\
  send_window_size (mark_end_sent s) = send_window_size s /\ stream_id (mark_end_sent s) = stream_id s /\ s_ctx (mark_end_sent s) = s_ctx s /\
  pending_send_body (mark_end_sent s) = pending_send_body s /\ pending_send_body_offset (mark_end_sent s) = pending_send_body_offset s /\
  pending_send_body_size (mark_end_sent s) = pending_send_body_size s /\ pending_send_end_stream (mark_end_sent s) = pending_send_end_stream s.
Proof. destruct s as [? ? ? [] ? ? ? ? ? []]; split_and!; reflexivity. Qed.

Lemma queue_wf_mark s : queue_wf s -> queue_wf (mark_end_sent s).
Proof.
  destruct (mark_end_sent_facts s) as (_&_&Hw&_&_&Hb&Ho&Hsz&_). unfold queue_wf. by rewrite Hw, Hb, Ho, Hsz.
Qed.

Lemma write_loop_nil fuel p e h : wp (write_loop malloc_ok fuel p [] e) h (fun h' _ => h' = h) (fun _ => False).
Proof. destruct fuel; by cbn. Qed.

Lemma queued_app s s' data : queue_wf s -> pending_send_body s' = pending_send_body s ++ data -> pending_send_body_offset s' = pending_send_body_offset s ->
  queued s' = queued s ++ data.
Proof. intros ((Ho1&Ho2)&_) Hb Ho. unfold queued. rewrite Hb, Ho, drop_app_le; [done|]. unfold Zlen in Ho2. lia. Qed.

(** With the windows closed everything is queued. *)
Lemma queue_all p data e h h1 s :
  h_streams h !! p = Some s -> io_same h h1 -> queue_wf s -> queued s = [] -> end_stream_sent s = false -> pending_send_end_stream s = false ->
  0 < Zlen data < 2 ^ 30 -> Zlen (pending_send_body s) + Zlen data <= 2 ^ 30 ->
  wp (_http2_stream_queue_send_body malloc_ok p data e) h1
    (fun h' _ => status (h_ctx h1) = status (h_ctx h') /\ (h1 = h -> pend_wf h -> window_room h s (Zlen data) = 0 -> body_sent h p s data e [] h'))
    (fun _ => False).
Proof.
  intros Hs Hio Hq Hq0 He Hpe Hl Hcap. eapply wp_mono; [apply (queue_send_body_spec p data e h1 s); try done; [by rewrite (io_same_streams _ _ Hio)|apply Hl]| |done].
  intros h' _ (s'&->&Hqw&Hcore&Hb'&Ho'&Hpe'). split; [done|]. intros -> Hp Hroom. unfold body_sent. rewrite Hroom. exists s'. rewrite Hroom. pose proof (queue_core_part send_window_size s s' Hcore (fun _ => eq_refl)).
  split_and!; [|done|exact Hp|by rewrite app_nil_r|].
  - unfold io_same, with_body. change (core (set_h_streams (<[p := s']> (h_streams h)) h) = core (set_h_streams (<[p := s']> (h_streams h)) (set_h_ctx (set_send_conn_window_size (send_conn_window_size (h_ctx h) - 0) (h_ctx h)) h))).
    rewrite Z.sub_0_r. done.
  - unfold after_send. rewrite (queued_app s s' data), Hq0, Hpe' by done.
    rewrite (queue_core_part end_stream_sent s s' Hcore (fun _ => eq_refl)), (queue_core_part stream_id s s' Hcore (fun _ => eq_refl)), (queue_core_part s_ctx s s' Hcore (fun _ => eq_refl)), He.
    split_and!; try done; try lia. destruct (Z.ltb_spec 0 (Zlen data)); [by rewrite andb_true_r|lia].
Qed.

(** A stream with nothing in its queue. *)
Definition idle (s : http2_stream) : Prop :=
  queue_wf s /\ queued s = [] /\ pending_send_end_stream s = false /\ end_stream_sent s = false.

(** Everything has been sent. *)
Lemma all_sent h p s data (e : bool) h1 h3 :
  idle s -> pend_wf h1 -> status (h_ctx h1) = status (h_ctx h) -> io_same h h1 -> window_room h s (Zlen data) = Zlen data ->
  forall frames, output h1 = output h ++ frames ->
  let s1 := set_send_window_size (send_window_size s - Zlen data) s in
  h3 = with_body h1 p (if e then mark_end_sent s1 else s1) (Zlen data) -> body_sent h p s data e frames h3.
Proof.
  intros (Hq&Hb&Hpe&He) Hp Hst Hio Hroom frames Ho s1 ->. pose proof (Zlen_nonneg data).
  assert (queue_wf s1) as Hq1 by (apply queue_wf_window; [done|destruct Hq as (_&_&?); lia]).
  unfold body_sent. exists (if e then mark_end_sent s1 else s1). rewrite Hroom. split_and!; [by apply with_body_same|exact Hst|exact Hp|exact Ho|].
  unfold after_send, queued. rewrite Z.eqb_refl, Z.ltb_irrefl, andb_true_r, andb_false_r, (drop_ge data) by (unfold Zlen; lia).
  destruct e; [|split_and!; done].
  destruct (mark_end_sent_facts s1) as (_&H1&H2&H3&H4&H5&H6&_&H7). rewrite H1, H2, H3, H4, H5, H6, H7.
  split_and!; try done. by apply queue_wf_mark.
Qed.

(** What the windows allow is left as it is by a frame of [n] bytes and what remains. *)
Lemma room_frames_step h p s (q : list Z) e h1 s1 n :
  0 < window_room h s (Zlen q) -> 0 < peer_max_frame_size (h_ctx h) ->
  n = Z.min (window_room h s (Zlen q)) (peer_max_frame_size (h_ctx h)) ->
  io_same (with_body h p s1 n) h1 -> send_window_size s1 = send_window_size s - n -> stream_id s1 = stream_id s ->
  room_frames h s q e = data_frame (stream_id s) (take (Z.to_nat n) q) (e && (n =? Zlen q)) ++ room_frames h1 s1 (drop (Z.to_nat n) q) e.
Proof.
  intros Hk Hm Hn Hs1 Hw Hid. destruct (room_step h p s q h1 s1 n ltac:(lia) ltac:(lia) Hs1 Hw) as [Hlen Hroom].
  unfold room_frames. rewrite Hroom, Hlen, Hid, (io_same_part (fun h => peer_max_frame_size (h_ctx h)) _ h1 Hs1 (fun _ => eq_refl)).
  replace (window_room h s (Zlen q) - n =? Zlen q - n) with (window_room h s (Zlen q) =? Zlen q) by (destruct (Z.eqb_spec (window_room h s (Zlen q)) (Zlen q)), (Z.eqb_spec (window_room h s (Zlen q) - n) (Zlen q - n)); done || lia).
  apply body_frames_chunk; [done| |done]. unfold window_room in *. lia.
Qed.

Lemma write_loop_spec fuel p data e h s :
  h_streams h !! p = Some s -> idle s -> pend_wf h -> send_wf (h_ctx h) -> 0 <= status (h_ctx h) -> room_for h (Zlen data) ->
  Zlen (pending_send_body s) + Zlen data <= 2 ^ 30 -> 0 < Zlen data <= Z.of_nat fuel ->
  wp (write_loop malloc_ok fuel p data e) h
    (fun h' _ => status (h_ctx h') < 0 \/ body_sent h p s data e (room_frames h s data e) h') (fun h' => status (h_ctx h') < 0).
Proof.
  revert data h s. induction fuel as [|fuel IH]; intros data h s Hs Hidle Hp Hc Hst Hroom Hcap Hl; [lia|]. cbn [write_loop].
  pose proof Hidle as (Hq&Hb&Hpe&He). pose proof Hc as [Hmax Hcw]. unfold room_for in Hroom. change (2 ^ 30) with 1073741824 in Hroom. pose proof (Zlen_nonneg (pending_write (h_ctx h))).
  destruct (Z.ltb_spec 0 (Zlen data)); [|lia]. wp_step. eapply wp_stream; [exact Hs|]. wp_step. apply wp_ctx. rewrite He.
  assert (forall h1 , io_same h h1 -> wp (_http2_stream_queue_send_body malloc_ok p data e) h1
    (fun h' _ => status (h_ctx h1) = status (h_ctx h') /\ (h1 = h -> pend_wf h -> window_room h s (Zlen data) = 0 -> body_sent h p s data e [] h')) (fun _ => False)) as Hqueue.
  { intros h1 Hio. apply queue_all; try done; change (2 ^ 30) with 1073741824; lia. }
  destruct ((send_window_size s <=? 0) || (send_conn_window_size (h_ctx h) <=? 0)) eqn:Hclosed.
  { assert (window_room h s (Zlen data) = 0) as Hr0 by (apply orb_true_iff in Hclosed; unfold window_room; lia).
    eapply wp_mono; [by apply Hqueue| |done]. intros h' _ [_ Hbs]. right. unfold room_frames. rewrite Hr0. cbn [take Z.to_nat]. by apply Hbs. }
  bools. assert (send_window_size s <= INT_MAX) as Hsw by apply Hq.
  rewrite limit_send_spec by (done || (unfold INT_MAX in *; lia)).
  assert (window_room h s (Zlen data) = Z.min (Zlen data) (Z.min (send_window_size s) (send_conn_window_size (h_ctx h)))) as Hk by (unfold window_room; lia).
  rewrite <- Hk. set (k := window_room h s (Zlen data)) in *. set (n := Z.min k (peer_max_frame_size (h_ctx h))).
  assert (0 < k <= Zlen data /\ 0 < n <= k) as [Hkr Hn] by lia. destruct (Z.leb_spec n 0); [lia|].
  wp_step. apply wp_access. exists (take (Z.to_nat n) data). split; [apply rd_bytes_Some; split_and!; try lia; done|].
  assert (Zlen (take (Z.to_nat n) data) = n) as Hln by (unfold Zlen in *; rewrite length_take; lia).
  wp_step. apply wp_try. eapply wp_mono; [apply send_data_frame_spec; [done|done|change (2 ^ 30) with 1073741824; lia]| |].
  2: { intros h1 [Hio Hbad]. wp_step. wp_step. case_decide; [|by wp_step]. eapply wp_mono; [by apply Hqueue| |done]. intros h' _ [Heq _]. left. lia. }
  intros h1 _ (Hio&Hst1&Ho&Hp1&_&Hl1). rewrite data_frame_len, Hln in Hl1. pose proof (io_same_streams _ _ Hio) as Hstr.
  apply wp_bind_assoc. wp_step. eapply wp_mono; [apply take_window_run; by rewrite Hstr| |done]. intros h3 [] Hh3. cbv zeta in Hh3.
  set (s1 := set_send_window_size (send_window_size s - n) s) in *.
  assert (forall b : bool, io_same (with_body h p (if b then mark_end_sent s1 else s1) n) (with_body h1 p (if b then mark_end_sent s1 else s1) n)) as Hio3 by (intros; by apply with_body_same).
  destruct (Z.eqb_spec n (Zlen data)) as [Hnl|Hnl].
  - rewrite (room_frames_step h p s data e h3 (if e then mark_end_sent s1 else s1) n); try done; try lia.
    2: { rewrite Hh3, andb_true_r. apply Hio3. }
    2, 3: destruct e; [by rewrite ?(proj1 (proj2 (proj2 (mark_end_sent_facts s1)))), ?(proj1 (proj2 (proj2 (proj2 (mark_end_sent_facts s1)))))|done].
    rewrite (drop_ge data) by (unfold Zlen in *; lia). eapply wp_mono; [apply write_loop_nil| |done]. intros h' [] ->. right. rewrite andb_true_r in *. rewrite (proj2 (Z.eqb_eq n (Zlen data)) Hnl), andb_true_r.
    eapply (all_sent h p s data e h1); try done; [unfold k in *; lia|rewrite Ho; unfold room_frames; by rewrite take_nil, body_frames_nil, app_nil_r|by rewrite <- Hnl].
  - rewrite andb_false_r in *. specialize (Hio3 false). cbn [andb] in Hio3. rewrite <- Hh3 in Hio3.
    destruct (room_step h p s data h3 s1 n ltac:(lia) ltac:(lia) Hio3 eq_refl) as [Hld Hroom3].
    assert (h_ctx h3 = set_send_conn_window_size (send_conn_window_size (h_ctx h1) - n) (h_ctx h1)) as Hc3 by by rewrite Hh3.
    rewrite (room_frames_step h p s data e h3 s1 n) by (done || lia). rewrite (proj2 (Z.eqb_neq n (Zlen data))), andb_false_r by done.
    eapply wp_mono; [apply (IH (drop (Z.to_nat n) data) h3 s1)| |done].
    + rewrite Hh3. unfold with_body. h2_simpl. apply lookup_insert_eq.
    + split_and!; try done. apply queue_wf_window; [done|lia].
    + unfold pend_wf. rewrite Hc3. exact Hp1.
    + unfold send_wf. rewrite Hc3. h2_simpl. apply (io_same_wf _ _ Hio) in Hc as [? ?]. split; [done|lia].
    + rewrite Hc3. h2_simpl. lia.
    + unfold room_for. rewrite Hc3, Hld. h2_simpl. change (2 ^ 30) with 1073741824. lia.
    + rewrite Hld. change (pending_send_body s1) with (pending_send_body s). lia.
    + lia.
    + intros h' [] [Hbad|Hbs]; [by left|right]. eapply (body_sent_step h p s data e h3 s1 n); try done; try lia; [rewrite Hc3; exact Hst1|rewrite Hh3; exact Ho].
Qed.

(** ** Flushing a queue *)

Definition advance (n : Z) (s : http2_stream) : http2_stream :=
  set_send_window_size (send_window_size s - n) (set_pending_send_body_offset (pending_send_body_offset s + n) s).

Lemma advance_run p h s n (mark : bool) : h_streams h !! p = Some s ->
  wp ((upd_stream p (fun s => set_pending_send_body_offset (pending_send_body_offset s + n) s) ;; take_window p n) ;;
      (if mark then _http2_stream_mark_end_sent p else ret tt)) h
    (fun h' _ => h' = with_body h p (if mark then mark_end_sent (advance n s) else advance n s) n) (fun _ => False).
Proof.
  intros Hs. unfold take_window. wp_step. wp_step. eapply wp_upd_stream; [exact Hs|]. wp_step. apply wp_upd_stream_same. apply wp_upd_ctx.
  destruct mark; [|by wp_step]. by apply (wp_upd_stream_same p mark_end_sent (h_streams h) _ (set_h_ctx (set_send_conn_window_size (send_conn_window_size (h_ctx h) - n) (h_ctx h)) h)).
Qed.

Lemma advance_facts n s : queue_wf s -> 0 <= n <= Zlen (queued s) ->
  queue_wf (advance n s) /\ queued (advance n s) = drop (Z.to_nat n) (queued s).
Proof.
  intros ((Ho1&Ho2)&Hs&Hw) Hn. unfold queue_wf, queued, advance in *. h2_simpl. unfold Zlen in Hn at 1. rewrite length_drop in Hn.
  unfold Zlen in *. split; [destruct Hs; split_and!; done || lia|]. rewrite drop_drop. f_equal. lia.
Qed.

(** Whether anything waits. *)
Lemma queued_waits s : queue_wf s -> (pending_send_body_offset s <? Zlen (pending_send_body s)) = (0 <? Zlen (queued s)) /\
  Zlen (pending_send_body s) - pending_send_body_offset s = Zlen (queued s).
Proof.
  intros ((Ho1&Ho2)&_). assert (Zlen (queued s) = Zlen (pending_send_body s) - pending_send_body_offset s) as ->.
  { unfold queued, Zlen in *. rewrite length_drop. lia. }
  split; [|done]. destruct (Z.ltb_spec (pending_send_body_offset s) (Zlen (pending_send_body s))), (Z.ltb_spec 0 (Zlen (pending_send_body s) - pending_send_body_offset s)); done || lia.
Qed.

Lemma queued_chunk s q n : queue_wf s -> queued s = q -> 0 <= n <= Zlen q ->
  rd_bytes (pending_send_body s) (pending_send_body_offset s) n = Some (take (Z.to_nat n) q).
Proof.
  intros Hwf Hq Hn. destruct (queued_waits s Hwf) as [_ Hl]. destruct Hwf as ((?&?)&_). rewrite Hq in Hl. apply rd_bytes_Some.
  split_and!; try lia. by rewrite <- Hq.
Qed.

(** All of the queue has been sent. *)
Lemma all_flushed h p s (q : list Z) (e : bool) h1 h3 :
  queued s = q -> queue_wf s -> pending_send_end_stream s = e -> end_stream_sent s = false ->
  pend_wf h1 -> status (h_ctx h1) = status (h_ctx h) -> io_same h h1 -> window_room h s (Zlen q) = Zlen q ->
  forall frames, output h1 = output h ++ frames ->
  h3 = with_body h1 p (if e then mark_end_sent (advance (Zlen q) s) else advance (Zlen q) s) (Zlen q) -> body_moved h p s q e e frames h3.
Proof.
  intros Hq Hwf He Hes Hp Hst Hio Hroom frames Ho ->. pose proof (Zlen_nonneg q).
  destruct (advance_facts (Zlen q) s Hwf) as [Hwf1 Hq1]; [rewrite Hq; lia|]. rewrite Hq, drop_ge in Hq1 by (unfold Zlen; lia).
  exists (if e then mark_end_sent (advance (Zlen q) s) else advance (Zlen q) s). rewrite Hroom. split_and!; [by apply with_body_same|exact Hst|exact Hp|exact Ho|].
  unfold after_send. rewrite Z.eqb_refl, andb_true_r, (drop_ge q) by (unfold Zlen; lia).
  destruct e; [|split_and!; done]. destruct (mark_end_sent_facts (advance (Zlen q) s)) as (_&H1&H2&H3&H4&H5&H6&_&H7).
  unfold queued in *. rewrite H1, H2, H3, H4, H5, H6, H7. split_and!; try done. by apply queue_wf_mark.
Qed.

(** Nothing is sent when the windows are closed. *)
Lemma none_flushed h p s (q : list Z) e :
  h_streams h !! p = Some s -> queued s = q -> queue_wf s -> pending_send_end_stream s = e -> end_stream_sent s = false -> pend_wf h ->
  0 < Zlen q -> window_room h s (Zlen q) = 0 -> body_moved h p s q e e [] (set_h_errno EAGAIN h).
Proof.
  intros Hs Hq Hwf He Hes Hp Hl Hroom. exists s. rewrite Hroom. split_and!; [|done|done|by rewrite app_nil_r|].
  - unfold io_same, with_body. rewrite Z.sub_0_r, insert_id by done. by destruct h as [[]].
  - unfold after_send. change (Z.to_nat 0) with 0%nat. rewrite drop_0. split_and!; try done; [lia|].
    destruct (Z.eqb_spec 0 (Zlen q)); [lia|by rewrite andb_false_r].
Qed.

Lemma flush_loop_done fuel p h s : h_streams h !! p = Some s -> queue_wf s -> queued s = [] ->
  wp (flush_loop malloc_ok fuel p) h (fun h' _ => h' = h) (fun _ => False).
Proof.
  intros Hs Hwf Hq. destruct (queued_waits s Hwf) as [Hw _]. rewrite Hq in Hw.
  destruct fuel; cbn [flush_loop]; (wp_step; eapply wp_stream; [exact Hs|]; wp_step; apply wp_ctx; rewrite Hw; by wp_step).
Qed.

Lemma flush_loop_spec fuel p h s q e :
  h_streams h !! p = Some s -> queued s = q -> queue_wf s -> pending_send_end_stream s = e -> end_stream_sent s = false ->
  pend_wf h -> send_wf (h_ctx h) -> 0 <= status (h_ctx h) -> room_for h (Zlen q) -> 0 < Zlen q <= Z.of_nat fuel ->
  wp (flush_loop malloc_ok fuel p) h
    (fun h' _ => window_room h s (Zlen q) = Zlen q /\ body_moved h p s q e e (room_frames h s q e) h')
    (fun h' => status (h_ctx h') < 0 \/ (h_errno h' = EAGAIN /\ window_room h s (Zlen q) < Zlen q /\ body_moved h p s q e e (room_frames h s q e) h')).
Proof.
  revert q h s. induction fuel as [|fuel IH]; intros q h s Hs Hq Hwf He Hes Hp Hc Hst Hroom Hl; [lia|]. cbn [flush_loop].
  pose proof Hc as [Hmax Hcw]. pose proof Hroom as Hroom'. unfold room_for in Hroom. change (2 ^ 30) with 1073741824 in Hroom. pose proof (Zlen_nonneg (pending_write (h_ctx h))).
  destruct (queued_waits s Hwf) as [Hw Hrem]. rewrite Hq in Hw, Hrem. rewrite (proj2 (Z.ltb_lt 0 (Zlen q))) in Hw by lia.
  wp_step. eapply wp_stream; [exact Hs|]. wp_step. apply wp_ctx. rewrite Hw, Hrem, He.
  destruct ((send_window_size s <=? 0) || (send_conn_window_size (h_ctx h) <=? 0)) eqn:Hclosed.
  { assert (window_room h s (Zlen q) = 0) as Hr0 by (apply orb_true_iff in Hclosed; unfold window_room; lia).
    wp_step. apply wp_set_errno. wp_step. right. rewrite Hr0. split_and!; [done|lia|].
    unfold room_frames. rewrite Hr0. change (body_frames _ _ _ _) with (@nil Z). apply none_flushed; done || lia. }
  bools. assert (send_window_size s <= INT_MAX) as Hsw by apply Hwf. rewrite limit_send_spec by (done || (unfold INT_MAX in *; lia)).
  assert (window_room h s (Zlen q) = Z.min (Zlen q) (Z.min (send_window_size s) (send_conn_window_size (h_ctx h)))) as Hk by (unfold window_room; lia).
  rewrite <- Hk. set (k := window_room h s (Zlen q)) in *. set (n := Z.min k (peer_max_frame_size (h_ctx h))).
  assert (0 < k <= Zlen q /\ 0 < n <= k) as [Hkr Hn] by lia. destruct (Z.leb_spec n 0); [lia|].
  wp_step. apply wp_access. exists (take (Z.to_nat n) q). split; [apply queued_chunk; [done|done|lia]|].
  assert (Zlen (take (Z.to_nat n) q) = n) as Hln by (unfold Zlen in *; rewrite length_take; lia).
  wp_step. eapply wp_mono; [apply send_data_frame_spec; [done|done|change (2 ^ 30) with 1073741824; lia]| |intros h1 [_ Hbad]; by left].
  intros h1 _ (Hio&Hst1&Ho&Hp1&_&Hl1). rewrite data_frame_len, Hln in Hl1. pose proof (io_same_streams _ _ Hio) as Hstr.
  do 2 apply wp_bind_assoc. wp_step. eapply wp_mono; [apply advance_run; by rewrite Hstr| |done]. intros h3 [] Hh3.
  destruct (advance_facts n s Hwf) as [Hwf1 Hq1]; [rewrite Hq; lia|]. rewrite Hq in Hq1.
  set (s1 := if e && (n =? Zlen q) then mark_end_sent (advance n s) else advance n s) in Hh3.
  assert (queue_wf s1 /\ queued s1 = drop (Z.to_nat n) q /\ send_window_size s1 = send_window_size s - n /\ stream_id s1 = stream_id s /\
    s_ctx s1 = s_ctx s /\ pending_send_end_stream s1 = e /\ (n <> Zlen q -> end_stream_sent s1 = false)) as (Hw1&Hqq1&Hsw1&Hid1&Hc1&Hpe1&Hes1).
  { subst s1. destruct e; cbn [andb]; [|by split_and!]. destruct (Z.eqb_spec n (Zlen q)); [|by split_and!].
    destruct (mark_end_sent_facts (advance n s)) as (_&_&HA&HB&HC&HD&HE&_&HF). unfold queued in *. rewrite HA, HB, HC, HD, HE, HF. split_and!; try done. by apply queue_wf_mark. }
  assert (h_streams h3 !! p = Some s1) as Hs3 by (rewrite Hh3; unfold with_body; h2_simpl; apply lookup_insert_eq).
  assert (io_same (with_body h p s1 n) h3) as Hio3 by (rewrite Hh3; by apply with_body_same).
  assert (h_ctx h3 = set_send_conn_window_size (send_conn_window_size (h_ctx h1) - n) (h_ctx h1)) as Hc3 by by rewrite Hh3.
  destruct (room_step h p s q h3 s1 n ltac:(lia) ltac:(lia) Hio3 Hsw1) as [Hld Hroom3]. fold k in Hroom3.
  rewrite (room_frames_step h p s q e h3 s1 n) by (done || lia).
  destruct (Z.eqb_spec n (Zlen q)) as [Hnl|Hnl].
  - rewrite andb_true_r in *. rewrite (drop_ge q) in * by (unfold Zlen in *; lia).
    eapply wp_mono; [by apply (flush_loop_done _ _ _ s1)| |done]. intros h' [] ->. split; [lia|].
    eapply (all_flushed h p s q e h1); try done; [fold k; lia|unfold room_frames; by rewrite take_nil, body_frames_nil, app_nil_r|]. rewrite <- Hnl, Hh3. subst s1. rewrite ?Hnl, ?Z.eqb_refl, ?andb_true_r. done.
  - rewrite andb_false_r in *. eapply wp_mono; [apply (IH (drop (Z.to_nat n) q) h3 s1); try done| |].
    + by apply Hes1.
    + unfold pend_wf. rewrite Hc3. exact Hp1.
    + unfold send_wf. rewrite Hc3. h2_simpl. apply (io_same_wf _ _ Hio) in Hc as [? ?]. split; [done|lia].
    + rewrite Hc3. h2_simpl. lia.
    + unfold room_for. rewrite Hc3, Hld. h2_simpl. change (2 ^ 30) with 1073741824. lia.
    + lia.
    + intros h' [] [Hkk Hbm]. split; [lia|]. eapply (body_moved_step h p s q e e h3 s1 n); try done; try lia; [rewrite Hc3; exact Hst1|rewrite Hh3; exact Ho].
    + intros h' [Hbad|(Hea&Hkk&Hbm)]; [by left|right]. split_and!; [done|lia|].
      eapply (body_moved_step h p s q e e h3 s1 n); try done; try lia; [rewrite Hc3; exact Hst1|rewrite Hh3; exact Ho].
Qed.

(** A stream whose end has not been announced. *)
Definition writable (h : h2) (p : nat) (s : http2_stream) : Prop :=
  h_streams h !! p = Some s /\ s_ctx s = true /\ queue_wf s /\ end_stream_sent s = false /\
  pend_wf h /\ send_wf (h_ctx h) /\ 0 <= status (h_ctx h).

Lemma has_pending_send_queued s : queue_wf s -> pending_send_end_stream s = false ->
  _http2_stream_has_pending_send s = (0 <? Zlen (queued s)).
Proof. intros Hwf He. unfold _http2_stream_has_pending_send. by rewrite He, (proj1 (queued_waits s Hwf)), orb_false_r. Qed.

(** What a body leaves behind, whatever else the stream has. *)
Definition body_written (h : h2) (p : nat) (s : http2_stream) (q : list Z) (e : bool) (h' : h2) : Prop :=
  body_sent h p s q e (room_frames h s q e) h'.

Lemma clear_moved h p s (q : list Z) e h1 : h_streams h !! p = Some s -> window_room h s (Zlen q) = Zlen q -> 0 < Zlen q ->
  body_moved h p s q e e (room_frames h s q e) h1 ->
  wp (s <- stream p (fun s => s) ;;
      (if pending_send_end_stream s && negb (end_stream_sent s) then
         _http2_send_data_frame malloc_ok (stream_id s) [] true ;; _http2_stream_mark_end_sent p
       else ret tt) ;;
      _http2_stream_clear_pending_send p) h1 (fun h' _ => body_written h p s q e h') (fun _ => False).
Proof.
  intros Hs Hroom Hl (s'&Hio&Hst&Hp&Ho&Hq&Hwf&Hsw&Hpe&Hes&Hid&Hc). rewrite Hroom in *. rewrite Z.eqb_refl, andb_true_r in Hes.
  assert (h_streams h1 !! p = Some s') as Hs1 by (rewrite (io_same_streams _ _ Hio); unfold with_body; h2_simpl; apply lookup_insert_eq).
  wp_step. eapply wp_stream; [exact Hs1|]. rewrite Hpe, Hes, andb_negb_r. wp_step. wp_step. unfold _http2_stream_clear_pending_send.
  eapply wp_upd_stream; [exact Hs1|]. set (s3 := set_pending_send_end_stream _ _). unfold body_written, body_sent. rewrite Hroom, Z.ltb_irrefl, andb_false_r.
  exists s3. rewrite Hroom. split_and!; [|exact Hst|exact Hp|exact Ho|].
  - unfold io_same in *. change (core (set_h_streams (<[p := s3]> (h_streams h1)) (core h1)) = core (with_body h p s3 (Zlen q))).
    rewrite Hio, (io_same_streams _ _ Hio). unfold with_body. h2_simpl. by rewrite insert_insert_eq.
  - unfold after_send. rewrite Z.eqb_refl, andb_true_r, drop_ge by (unfold Zlen; lia). destruct Hwf as (_&_&Hw).
    split_and!; try done; subst s3; h2_simpl; try done. unfold queue_wf. h2_simpl. split_and!; try done. by left.
Qed.

Lemma flush_pending_send_spec p h s (q : list Z) e :
  writable h p s -> queued s = q -> pending_send_end_stream s = e -> room_for h (Zlen q) -> 0 < Zlen q ->
  wp (_http2_stream_flush_pending_send malloc_ok p) h
    (fun h' _ => window_room h s (Zlen q) = Zlen q /\ body_written h p s q e h')
    (fun h' => status (h_ctx h') < 0 \/ (h_errno h' = EAGAIN /\ window_room h s (Zlen q) < Zlen q /\ body_written h p s q e h')).
Proof.
  intros (Hs&Hc&Hwf&Hes&Hp&Hcwf&Hst) Hq He Hroom Hl. unfold _http2_stream_flush_pending_send. wp_step. eapply wp_stream; [exact Hs|].
  rewrite Hc. wp_step. apply wp_guard; [intros _|done]. wp_step. eapply wp_mono; [apply (flush_loop_spec _ p h s q e); try done| |].
  - split; [done|]. rewrite <- Hq. unfold queued, Zlen. rewrite length_drop. lia.
  - intros h1 [] [Hk Hbm]. eapply wp_mono; [by apply (clear_moved h p s q e)| |done]. by intros h' [] Hbw.
  - intros h1 [Hbad|(Hea&Hk&Hbm)]; [by left|right]. split_and!; [done|done|]. unfold body_written, body_sent.
    by rewrite (proj2 (Z.ltb_lt _ _) Hk), andb_true_r.
Qed.

Lemma wp_hard_error {A} (m : H A) h (Q : h2 -> bool -> Prop) E :
  wp m h (fun h' _ => Q h' false) (fun h' => Q h' (bool_decide (h_errno h' <> EAGAIN))) -> wp (hard_error m) h Q E.
Proof. intros Hm. unfold hard_error. wp_step. apply wp_try. eapply wp_mono; [exact Hm| |]; intros; by repeat wp_step. Qed.

(** A queue that has just grown. *)
Lemma body_written_queue h p s s' (q : list Z) e h' : queue_core s' = queue_core s ->
  body_written (set_h_streams (<[p := s']> (h_streams h)) h) p s' q e h' -> body_written h p s q e h'.
Proof.
  intros Hcore. pose proof (queue_core_part send_window_size s s' Hcore (fun _ => eq_refl)) as Hw.
  pose proof (queue_core_part stream_id s s' Hcore (fun _ => eq_refl)) as Hid. pose proof (queue_core_part s_ctx s s' Hcore (fun _ => eq_refl)) as Hc.
  assert (forall s1 k, with_body (set_h_streams (<[p := s']> (h_streams h)) h) p s1 k = with_body h p s1 k) as Hwb.
  { intros. unfold with_body. h2_simpl. rewrite insert_insert_eq. by destruct h. }
  unfold body_written, body_sent, body_moved, room_frames, after_send, window_room, output. h2_simpl. rewrite Hw, Hid, Hc.
  intros (s1&Hr). rewrite Hwb in Hr. by exists s1.
Qed.

(** [http2_stream_write_body] on a stream with [queued s] in its queue. *)
Lemma write_body_spec p data (e : bool) h s :
  writable h p s -> pending_send_end_stream s = false -> Zlen (pending_send_body s) + Zlen data <= 2 ^ 30 ->
  let q := queued s ++ data in
  room_for h (Zlen q) -> 0 < Zlen q -> data <> [] \/ e = true ->
  wp (http2_stream_write_body malloc_ok p data e) h
    (fun h' n => n = Zlen data /\ (status (h_ctx h') < 0 \/ body_written h p s q e h')) (fun h' => status (h_ctx h') < 0).
Proof.
  intros Hwr Hpe Hcap q Hroom Hl Hne. pose proof Hwr as (Hs&Hc&Hwf&Hes&Hp&Hcwf&Hst). unfold http2_stream_write_body.
  wp_step. apply wp_guard; [intros _|intros Hx; bools; destruct Hne as [Hne| ->]; [by apply Zlen_0_nil in H|done]].
  wp_step. eapply wp_stream; [exact Hs|]. rewrite Hc. wp_step. apply wp_guard; [intros _|done]. wp_step. apply wp_ctx.
  rewrite (proj2 (Z.ltb_ge _ _) Hst). wp_step. wp_step. rewrite has_pending_send_queued by done.
  destruct (Z.ltb_spec 0 (Zlen (queued s))) as [Hq0|Hq0].
  - assert (Zlen data < 2 ^ 30) as Hd.
    { unfold room_for in Hroom. subst q. rewrite Zlen_app in Hroom. pose proof (Zlen_nonneg (pending_write (h_ctx h))). pose proof (Zlen_nonneg data). change (2 ^ 30) with 1073741824 in *. lia. }
    wp_step. eapply wp_mono; [by apply (queue_send_body_spec p data e h s)| |done]. intros h1 [] (s'&->&Hwf'&Hcore&Hb'&Ho'&Hpe').
    wp_step. apply wp_hard_error. eapply wp_mono; [apply (flush_pending_send_spec p _ s' q e)| |].
    + split_and!; try done; [apply lookup_insert_eq|by rewrite (queue_core_part s_ctx s s' Hcore)|by rewrite (queue_core_part end_stream_sent s s' Hcore)].
    + by apply queued_app.
    + done.
    + exact Hroom.
    + exact Hl.
    + intros h' [] [_ Hbw]. wp_step. split; [done|right]. by apply (body_written_queue h p s s').
    + intros h' [Hbad|(Hea&_&Hbw)].
      * destruct (bool_decide _); wp_step; [done|]. split; [done|by left].
      * rewrite Hea, bool_decide_eq_false_2 by (by intros []). wp_step. split; [done|right]. by apply (body_written_queue h p s s').
  - assert (queued s = []) as Hq by (apply Zlen_0_nil; pose proof (Zlen_nonneg (queued s)); lia). subst q. rewrite Hq in *. cbn [app] in *.
    destruct (Z.eqb_spec (Zlen data) 0); [lia|]. cbn [andb]. wp_step. eapply wp_mono; [apply (write_loop_spec (length data) p data e h s); try done| |done].
    intros h' [] Hr. wp_step. done.
Qed.
End Body.
