(* ===== verification/Http2Frames.v ===== *)
(** * HTTP/2: frames as values (src/http_parse/http2.c)

    What a receiver reads from the bytes that are sent: frames by their headers, as
    [_http2_process_frames] reads them, and the frames of a body. *)

From Stdlib Require Import ZArith Lia.
From stdpp Require Import base list numbers option gmap.
From S2P Require Import Prelude Hpack Http2Types Http2 Http2Send Http2Body.

Record frame := mk_frame { f_type : Z; f_flags : Z; f_id : Z; f_payload : list Z }.

Definition frame_bytes (f : frame) : list Z :=
  _http2_write_frame_header (Zlen (f_payload f)) (f_type f) (f_flags f) (f_id f) ++ f_payload f.

Definition frames_bytes (fs : list frame) : list Z := concat (frame_bytes <$> fs).

Definition frame_wf (f : frame) : Prop :=
  is_byte (f_type f) /\ is_byte (f_flags f) /\ 0 <= f_id f <= 2147483647 /\ Zlen (f_payload f) <= 16777215.

(** The first frame of [b], and what follows it. *)
Definition parse_frame (b : list Z) : option (frame * list Z) :=
  if Zlen b <? HTTP2_FRAME_HEADER_SIZE then None
  else
    let length := read_uint24 b in
    match rd8 b 3, rd8 b 4, rd_bytes b HTTP2_FRAME_HEADER_SIZE length with
    | Some type, Some flags, Some payload =>
      Some (mk_frame type flags (Z.land (read_uint32 (drop 5 b)) 2147483647) payload, drop (Z.to_nat (HTTP2_FRAME_HEADER_SIZE + length)) b)
    | _, _, _ => None
    end.

Fixpoint parse_frames_fuel (fuel : nat) (b : list Z) : option (list frame) :=
  if bool_decide (b = []) then Some []
  else
    match fuel with
    | O => None
    | S fuel =>
      match parse_frame b with
      | Some (f, rest) => cons f <$> parse_frames_fuel fuel rest
      | None => None
      end
    end.

Definition parse_frames (b : list Z) : option (list frame) := parse_frames_fuel (length b) b.

(** ** Reading back what was written *)

Lemma uint24_roundtrip v rest : 0 <= v <= 16777215 -> read_uint24 (write_uint24 v ++ rest) = v.
Proof.
  intros Hv. unfold read_uint24, write_uint24, of_be. cbn [app take fold_left]. rewrite take_0, !land255. cbn [fold_left].
  rewrite (shiftr_div v 8 256), (shiftr_div v 16 65536) by (done || lia). Z.div_mod_to_equations; lia.
Qed.

Lemma uint32_roundtrip v rest : 0 <= v <= 2147483647 -> read_uint32 (write_uint32 v ++ rest) = v.
Proof.
  intros Hv. unfold read_uint32, write_uint32. rewrite take_app_le by (pose proof (be32_len v); unfold Zlen in *; lia).
  rewrite take_ge by (pose proof (be32_len v); unfold Zlen in *; lia). rewrite of_be32. apply u32_small. lia.
Qed.

Lemma land31 v : 0 <= v <= 2147483647 -> Z.land v 2147483647 = v.
Proof. intros Hv. change 2147483647 with (Z.ones 31). rewrite Z.land_ones by lia. apply Z.mod_small. change (2 ^ 31) with 2147483648. lia. Qed.

Lemma frame_bytes_len f : Zlen (frame_bytes f) = 9 + Zlen (f_payload f).
Proof. unfold frame_bytes. by rewrite Zlen_app, frame_header_len. Qed.

Lemma parse_frame_bytes f rest : frame_wf f -> parse_frame (frame_bytes f ++ rest) = Some (f, rest).
Proof.
  intros (Ht&Hf&Hi&Hl). pose proof (Zlen_nonneg (f_payload f)). pose proof (Zlen_nonneg rest).
  pose proof (frame_header_len (Zlen (f_payload f)) (f_type f) (f_flags f) (f_id f)) as Hhl.
  unfold parse_frame, HTTP2_FRAME_HEADER_SIZE. destruct (Z.ltb_spec (Zlen (frame_bytes f ++ rest)) 9); [rewrite Zlen_app, frame_bytes_len in *; lia|].
  assert (frame_bytes f ++ rest = _http2_write_frame_header (Zlen (f_payload f)) (f_type f) (f_flags f) (f_id f) ++ f_payload f ++ rest) as ->.
  { unfold frame_bytes. by rewrite <- app_assoc. }
  assert (read_uint24 (_http2_write_frame_header (Zlen (f_payload f)) (f_type f) (f_flags f) (f_id f) ++ f_payload f ++ rest) = Zlen (f_payload f)) as ->.
  { unfold _http2_write_frame_header. rewrite <- app_assoc. apply uint24_roundtrip. lia. }
  assert (rd_bytes (_http2_write_frame_header (Zlen (f_payload f)) (f_type f) (f_flags f) (f_id f) ++ f_payload f ++ rest) 9 (Zlen (f_payload f)) = Some (f_payload f)) as ->.
  { apply rd_bytes_Some. rewrite !Zlen_app, Hhl. split_and!; try lia.
    rewrite drop_app_ge by (unfold Zlen in *; lia). replace (Z.to_nat 9 - length _)%nat with 0%nat by (unfold Zlen in *; lia). rewrite drop_0, take_app_le by (unfold Zlen; lia).
    rewrite take_ge by (unfold Zlen; lia). done. }
  assert (rd8 (_http2_write_frame_header (Zlen (f_payload f)) (f_type f) (f_flags f) (f_id f) ++ f_payload f ++ rest) 3 = Some (f_type f)) as ->.
  { change (Some (u8 (f_type f)) = Some (f_type f)). f_equal. by apply u8_small. }
  assert (rd8 (_http2_write_frame_header (Zlen (f_payload f)) (f_type f) (f_flags f) (f_id f) ++ f_payload f ++ rest) 4 = Some (f_flags f)) as ->.
  { change (Some (u8 (f_flags f)) = Some (f_flags f)). f_equal. by apply u8_small. }
  do 2 f_equal.
  - destruct f as [ty fl i pl]. cbn [f_type f_flags f_id f_payload] in *. f_equal.
    change (Z.land (read_uint32 (write_uint32 (Z.land i 2147483647) ++ pl ++ rest)) 2147483647 = i). rewrite (land31 i) by done. rewrite uint32_roundtrip by done. by apply land31.
  - rewrite drop_app_ge by (unfold Zlen in *; lia). rewrite drop_app_ge by (unfold Zlen in *; lia).
    replace (Z.to_nat (9 + Zlen (f_payload f)) - _ - _)%nat with 0%nat by (unfold Zlen in *; lia). done.
Qed.

Lemma parse_frames_bytes fs : Forall frame_wf fs -> parse_frames (frames_bytes fs) = Some fs.
Proof.
  intros Hfs. unfold parse_frames. assert (length (frames_bytes fs) <= length (frames_bytes fs))%nat as Hle by lia. revert Hle.
  generalize (length (frames_bytes fs)) at 2 3. induction Hfs as [|f fs Hf Hfs IH]; intros fuel Hle; [by destruct fuel|].
  unfold frames_bytes in *. rewrite fmap_cons in *. cbn [concat] in *. pose proof (frame_bytes_len f) as Hl. pose proof (Zlen_nonneg (f_payload f)).
  rewrite length_app in Hle. unfold Zlen in Hl, H. destruct fuel as [|fuel]; [lia|]. cbn [parse_frames_fuel].
  rewrite bool_decide_eq_false_2 by (intros Hx; apply app_eq_nil in Hx as [Hx _]; rewrite Hx in Hl; cbn in Hl; lia).
  rewrite parse_frame_bytes by done. rewrite IH by lia. done.
Qed.

(** ** The frames of a body *)

(** DATA frames for the stream [id] that carry [body], each of at most [mx] bytes;
    only the last one may end the stream. *)
Definition carries (id mx : Z) (body : list Z) (e : bool) (fs : list frame) : Prop :=
  Forall (fun f => f_type f = HTTP2_FRAME_DATA /\ f_id f = id /\ 0 < Zlen (f_payload f) <= mx) fs /\
  concat (f_payload <$> fs) = body /\
  f_flags <$> fs = match fs with [] => [] | _ :: fs' => replicate (length fs') 0 ++ [if e then HTTP2_FLAG_END_STREAM else 0] end.

Lemma carries_wf id mx body e fs : 0 <= id <= 2147483647 -> mx <= 16777215 -> carries id mx body e fs -> Forall frame_wf fs.
Proof.
  intros Hid Hmx (Hfs&_&Hfl). assert (Forall is_byte (f_flags <$> fs)) as Hb.
  { rewrite Hfl. destruct fs as [|f fs]; [by constructor|]. apply Forall_app; split; [apply Forall_replicate; done|]. destruct e; repeat constructor; done. }
  rewrite Forall_fmap in Hb. apply list.Forall_forall. intros f Hf. rewrite list.Forall_forall in Hfs, Hb. specialize (Hfs f Hf) as (Ht&Hi&Hl). specialize (Hb f Hf).
  unfold frame_wf. rewrite Ht, Hi. split_and!; done || lia.
Qed.

Lemma body_frames_carry id mx body e : 0 < mx -> exists fs, body_frames id mx body e = frames_bytes fs /\ carries id mx body e fs.
Proof.
  intros Hm. remember (length body) as n eqn:Hn. revert body Hn. induction (lt_wf n) as [n _ IH]. intros body ->.
  destruct (decide (body = [])) as [->|Hne]; [exists []; split; [done|by split_and!]|].
  assert (0 < Zlen body) as Hpos by (destruct body; [done|rewrite Zlen_cons; pose proof (Zlen_nonneg body); lia]).
  rewrite body_frames_step by done.
  destruct (IH (length (drop (Z.to_nat mx) body))) with (body := drop (Z.to_nat mx) body) as (fs&Hfs&Hall&Hcat&Hfl); [unfold Zlen in *; rewrite length_drop; lia|done|].
  exists (mk_frame HTTP2_FRAME_DATA (if e && (Zlen body <=? mx) then HTTP2_FLAG_END_STREAM else 0) id (take (Z.to_nat mx) body) :: fs). split.
  { rewrite Hfs. done. }
  split_and!.
  - constructor; [|done]. cbn. split_and!; try done; unfold Zlen in *; rewrite length_take; lia.
  - rewrite fmap_cons. cbn [concat f_payload]. rewrite Hcat. apply take_drop.
  - rewrite fmap_cons, Hfl. cbn [f_flags]. destruct fs as [|f fs].
    + cbn in Hcat. assert (Zlen body <= mx) by (apply (f_equal length) in Hcat; rewrite length_drop in Hcat; cbn in Hcat; unfold Zlen in *; lia).
      destruct (Z.leb_spec (Zlen body) mx); [by rewrite andb_true_r|lia].
    + assert (mx < Zlen body). { inversion Hall as [|? ? (_&_&Hf) _]; subst. apply (f_equal length) in Hcat. rewrite length_drop, fmap_cons in Hcat. cbn [concat] in Hcat. rewrite length_app in Hcat. unfold Zlen in *. lia. }
      destruct (Z.leb_spec (Zlen body) mx); [lia|]. by rewrite andb_false_r.
Qed.
