(* ===== verification/Http2Correct.v ===== *)
(** * Correctness of HTTP/2 connections (src/http_parse/http2.c)

    The bytes on the wire, bodies under flow control, and what goes wrong. *)

From Stdlib Require Import ZArith Lia String.
From stdpp Require Import base list numbers option gmap.
From S2P Require Import Prelude Hpack Http2Types Http2 Http2Send Http2Body Http2Frames.

(** ** The order of frames *)

(** Frames one after the other; a frame that fails ends the sequence. *)
Fixpoint send_frames (malloc_ok : bool) (frames : list (list Z)) : H unit :=
  match frames with
  | [] => ret tt
  | f :: frames => _http2_send_frame malloc_ok f ;; send_frames malloc_ok frames
  end.

Lemma send_frames_spec frames h : pend_wf h -> wants h -> 0 <= status (h_ctx h) -> Zlen (pending_write (h_ctx h)) + Zlen (concat frames) <= 2 ^ 30 ->
  wp (send_frames true frames) h
    (fun h' _ => output h' = output h ++ concat frames /\ status (h_ctx h') = status (h_ctx h) /\ pend_wf h' /\ wants h')
    (fun h' => status (h_ctx h') < 0 /\ pend_wf h' /\ exists k, output h' = output h ++ take k (concat frames)).
Proof.
  change (2 ^ 30) with 1073741824. revert h. induction frames as [|f frames IH]; intros h Hp Hwh Hst Hl; cbn [send_frames concat] in *.
  - wp_step. rewrite app_nil_r. split_and!; done.
  - rewrite Zlen_app in Hl. pose proof (Zlen_nonneg f). pose proof (Zlen_nonneg (concat frames)). wp_step.
    eapply wp_mono; [apply send_frame_spec; [done|unfold INT_MAX; lia]| |].
    + intros h1 n (_&_&Hio&Hst1&Ho&Hp1&Hw&Hl1). eapply wp_mono; [apply IH; [done|done|lia|lia]| |].
      * intros h' [] (Ho'&Hst'&Hp'&Hw'). split_and!; [by rewrite Ho', Ho, app_assoc|by rewrite Hst'|done|done].
      * intros h' (Hs&Hp'&k&Hk). split_and!; [done|done|]. exists (length f + k)%nat. by rewrite Hk, Ho, take_app_add, app_assoc.
    + intros h' [[Hx _]|(_&Hio&Hp'&(k&Hk)&[Hs|[_ [Hm|Hn]]])]; [lia| |done|change (2 ^ 30) with 1073741824 in Hn; lia].
      split_and!; [done|done|]. exists (k `min` length f)%nat. rewrite Hk. f_equal. rewrite take_app_le by lia.
      destruct (Nat.le_ge_cases k (length f)); [by replace (k `min` length f)%nat with k by lia|].
      rewrite !take_ge by lia. done.
Qed.

(** C24: the bytes of a connection are its frames, in the order they were sent.  The
    transport may take any number of bytes at a time, refuse for the moment, or
    fail: while the connection is in order, what it has taken followed by what is
    pending is the frames one after the other, complete and without anything
    between them, and the connection asks to write exactly when bytes are pending;
    a frame is refused only when the transport has failed, and then a prefix of the
    frames is all that was added. *)
Theorem http2_frames_in_order frames h :
  pend_wf h -> wants h -> 0 <= status (h_ctx h) -> Zlen (pending_write (h_ctx h)) + Zlen (concat frames) <= 2 ^ 30 ->
  match send_frames true frames h with
  | Ok h' _ => h_wire h' ++ pending_write (h_ctx h') = h_wire h ++ pending_write (h_ctx h) ++ concat frames /\
               status (h_ctx h') = status (h_ctx h) /\ (want_write (h_ctx h') = true <-> pending_write (h_ctx h') <> [])
  | Fail h' => status (h_ctx h') < 0 /\
               exists k, h_wire h' ++ pending_write (h_ctx h') = h_wire h ++ pending_write (h_ctx h) ++ take k (concat frames)
  | _ => False
  end.
Proof.
  intros Hp Hw Hst Hl. pose proof (send_frames_spec frames h Hp Hw Hst Hl) as Hs. unfold wp in Hs.
  destruct (send_frames true frames h) as [h' []|h'| |]; try done; unfold output in Hs.
  - destruct Hs as (Ho&Hs&_&Hw'). rewrite Ho, <- app_assoc. split_and!; try done.
    unfold wants in Hw'. rewrite Hw', negb_true_iff, bool_decide_eq_false. done.
  - destruct Hs as (Hs&_&k&Hk). split; [done|]. exists k. by rewrite Hk, <- app_assoc.
Qed.

(** ** Bodies *)

(** As much of [q] as the two windows allow, in DATA frames that a receiver reads
    back; the rest waits in the queue, and both windows are used up by exactly what
    was sent.  The other streams are left alone. *)
Definition delivers (h : h2) (p : nat) (s : http2_stream) (q : list Z) (e : bool) (h' : h2) : Prop :=
  let k := Z.max 0 (Z.min (Zlen q) (Z.min (send_window_size s) (send_conn_window_size (h_ctx h)))) in
  exists fs s',
    output h' = output h ++ frames_bytes fs /\ parse_frames (frames_bytes fs) = Some fs /\
    carries (stream_id s) (peer_max_frame_size (h_ctx h)) (take (Z.to_nat k) q) (e && (k =? Zlen q)) fs /\
    h_streams h' = <[p := s']> (h_streams h) /\ queued s' = drop (Z.to_nat k) q /\
    send_window_size s' = send_window_size s - k /\ send_conn_window_size (h_ctx h') = send_conn_window_size (h_ctx h) - k /\
    end_stream_sent s' = e && (k =? Zlen q) /\ pending_send_end_stream s' = e && (k <? Zlen q).

Lemma body_written_delivers h p s q e h' : send_wf (h_ctx h) -> 0 <= stream_id s <= 2147483647 ->
  body_written h p s q e h' -> delivers h p s q e h'.
Proof.
  intros [Hm _] Hid (s'&Hio&_&_&Ho&Hq&_&Hw&Hpe&Hes&_). unfold delivers. fold (window_room h s (Zlen q)). cbv zeta. unfold room_frames in Ho.
  destruct (body_frames_carry (stream_id s) (peer_max_frame_size (h_ctx h)) (take (Z.to_nat (window_room h s (Zlen q))) q) (e && (window_room h s (Zlen q) =? Zlen q))) as (fs&Hfs&Hcar); [lia|].
  exists fs, s'. rewrite Hfs in Ho. split_and!; try done.
  - apply parse_frames_bytes. eapply carries_wf; [exact Hid| |exact Hcar]. lia.
  - by rewrite (io_same_streams _ _ Hio).
  - by rewrite (io_same_part (fun h => send_conn_window_size (h_ctx h)) _ _ Hio (fun _ => eq_refl)).
Qed.

(** C22: [http2_stream_write_body] obeys flow control and loses nothing.  On a stream
    that is not finished it returns the number of bytes given to it; of what was
    queued before followed by the new data, as many bytes as both windows allow are
    put on the wire at once, in order, in DATA frames no larger than the peer
    accepts, which a receiver reads back to exactly these bytes; the windows shrink
    by that number, the rest stays queued, and END_STREAM is on the last frame
    exactly when everything has been sent.  Otherwise the connection has failed. *)
Theorem http2_write_body_flow p data (e : bool) h s :
  writable h p s -> pending_send_end_stream s = false -> 0 <= stream_id s <= 2147483647 ->
  Zlen (pending_send_body s) + Zlen data <= 2 ^ 30 -> room_for h (Zlen (queued s ++ data)) ->
  0 < Zlen (queued s ++ data) -> data <> [] \/ e = true ->
  match http2_stream_write_body true p data e h with
  | Ok h' n => n = Zlen data /\ (status (h_ctx h') < 0 \/ delivers h p s (queued s ++ data) e h')
  | Fail h' => status (h_ctx h') < 0
  | _ => False
  end.
Proof.
  intros Hw Hpe Hid Hcap Hroom Hl Hne. pose proof (write_body_spec true eq_refl p data e h s Hw Hpe Hcap Hroom Hl Hne) as Hs. unfold wp in Hs.
  destruct (http2_stream_write_body true p data e h) as [h' n|h'| |]; try done.
  destruct Hs as [-> [Hs|Hs]]; (split; [done|]); [by left|right]. apply body_written_delivers; [apply Hw|done|done].
Qed.

(** C23: what waits is sent when the windows open.  Flushing the queue of a stream
    puts as many of the waiting bytes on the wire as both windows allow, in order
    and framed as above; it returns success when that is all of them, and asks to be
    called again (EAGAIN) when some are left; nothing else happens unless the
    connection has failed. *)
Theorem http2_flush_sends_queue p h s (q : list Z) e :
  writable h p s -> queued s = q -> pending_send_end_stream s = e -> 0 <= stream_id s <= 2147483647 ->
  room_for h (Zlen q) -> 0 < Zlen q ->
  match _http2_stream_flush_pending_send true p h with
  | Ok h' _ => Zlen q <= Z.min (send_window_size s) (send_conn_window_size (h_ctx h)) /\ delivers h p s q e h'
  | Fail h' => status (h_ctx h') < 0 \/
               (h_errno h' = EAGAIN /\ Z.min (send_window_size s) (send_conn_window_size (h_ctx h)) < Zlen q /\ delivers h p s q e h')
  | _ => False
  end.
Proof.
  intros Hw Hq He Hid Hroom Hl. pose proof (flush_pending_send_spec true eq_refl p h s q e Hw Hq He Hroom Hl) as Hs. unfold wp in Hs.
  pose proof Hw as (_&_&_&_&_&Hwf&_). unfold window_room in Hs.
  destruct (_http2_stream_flush_pending_send true p h) as [h' []|h'| |]; try done.
  - destruct Hs as [Hk Hb]. split; [lia|]. by apply body_written_delivers.
  - destruct Hs as [Hs|(Hea&Hk&Hb)]; [by left|right]. split_and!; [done|lia|]. by apply body_written_delivers.
Qed.

(** ** A connection *)

(** The state after a call. *)
Definition after {A} (h : h2) (m : H A) : h2 := match m h with Ok h' _ => h' | Fail h' => h' | _ => h end.

Definition piece (l : list Z) : list rd_event := match l with [] => [] | b :: l => [RdBytes b l] end.

(** A client that has sent the head of a POST request on stream 1, to a peer whose
    settings allow [window] bytes on a stream; the bytes [from_peer] arrive later. *)
Definition client_start (window : Z) (from_peer : list Z) : h2 :=
  match http2_ctx_new true true (bytes "dns") 0
          (piece (frame_bytes (mk_frame HTTP2_FRAME_SETTINGS 0 0 (setting HTTP2_SETTINGS_INITIAL_WINDOW_SIZE window))) ++ [RdAgain] ++ piece from_peer)
          [WrRoom 1000; WrRoom 1000; WrRoom 1000; WrRoom 1000; WrRoom 1000; WrRoom 1000; WrRoom 1000] with
  | Ok h _ => h
  | _ => mk_h2 (_http2_ctx_init_common true true [] 0 1) ∅ 0 [] [] [] EOTHER
  end.

Definition client (window : Z) (from_peer : list Z) : h2 :=
  after (after (after (client_start window from_peer) (http2_ctx_handshake true)) (http2_stream_new true))
    (http2_stream_set_request true 0 (bytes "POST") (bytes "/dns-query") None []).

(** The stream [p]. *)
Definition stream_of (h : h2) (p : nat) : http2_stream :=
  default (mk_stream false 0 0 HTTP2_STREAM_IDLE [] [] 0 0 false false false false 0 0 false [] 0 0 false false) (h_streams h !! p).

Ltac concrete :=
  unfold writable, queue_wf, pend_wf, send_wf, room_for, wants, capacity; repeat apply conj;
  first [left; vm_compute; reflexivity | right; exists 9; split; [lia|vm_compute; reflexivity] | vm_compute; intuition congruence].

(** Three frames through a transport that takes two bytes, refuses, and takes the rest. *)
Lemma http2_frames_in_order_witness :
  let h := mk_h2 (_http2_ctx_init_common true true [] 0 1) ∅ 0 [] [WrRoom 2; WrAgain; WrAgain; WrRoom 1000] [] EOTHER in
  let frames := [bytes "abc"; bytes "def"; bytes "ghi"] in
  match send_frames true frames h with
  | Ok h' _ => h_wire h' ++ pending_write (h_ctx h') = bytes "abcdefghi" /\ status (h_ctx h') = 0
  | _ => False
  end.
Proof.
  intros h frames. pose proof (http2_frames_in_order frames h) as Hs.
  assert (exists h', send_frames true frames h = Ok h' tt) as [h' Hr] by (eexists; vm_compute; reflexivity).
  rewrite Hr in *. destruct Hs as (Ho&Hst&_); [concrete|concrete|vm_compute; discriminate|vm_compute; discriminate|].
  split; [exact Ho|exact Hst].
Defined.

(** Five bytes and a window of three: two wait. *)
Lemma http2_write_body_flow_witness :
  let h := client 3 [] in
  match http2_stream_write_body true 0 (bytes "hello") true h with
  | Ok h' n => n = 5 /\ queued (stream_of h' 0) = bytes "lo" /\ (status (h_ctx h') < 0 \/ delivers h 0 (stream_of h 0) (bytes "hello") true h')
  | _ => False
  end.
Proof.
  intros h. pose proof (http2_write_body_flow 0 (bytes "hello") true h (stream_of h 0)) as Hs.
  assert (exists h', http2_stream_write_body true 0 (bytes "hello") true h = Ok h' 5 /\ queued (stream_of h' 0) = bytes "lo") as (h'&Hr&Hq) by (eexists; split; vm_compute; reflexivity).
  rewrite Hr in *. destruct Hs as [Hn Hs]; [concrete|concrete|concrete|concrete|concrete|concrete|by right|].
  split; [exact Hn|]. split; [exact Hq|]. exact Hs.
Defined.

(** The peer raises the initial window from three to four: one of the two bytes that wait
    can be sent. *)
Definition client_raised : h2 :=
  after (after (client 3 (frame_bytes (mk_frame HTTP2_FRAME_SETTINGS 0 0 (setting HTTP2_SETTINGS_INITIAL_WINDOW_SIZE 4))))
    (http2_stream_write_body true 0 (bytes "hello") false)) (_http2_process_frames true).

Lemma http2_flush_sends_queue_witness :
  match _http2_stream_flush_pending_send true 0 client_raised with
  | Fail h' => queued (stream_of h' 0) = bytes "o" /\ (status (h_ctx h') < 0 \/
      (h_errno h' = EAGAIN /\ 1 < 2 /\ delivers client_raised 0 (stream_of client_raised 0) (bytes "lo") false h'))
  | _ => False
  end.
Proof.
  pose proof (http2_flush_sends_queue 0 client_raised (stream_of client_raised 0) (bytes "lo") false) as Hs.
  assert (exists h', _http2_stream_flush_pending_send true 0 client_raised = Fail h' /\ queued (stream_of h' 0) = bytes "o") as (h'&Hr&Hq) by (eexists; split; vm_compute; reflexivity).
  rewrite Hr in *. split; [exact Hq|]. destruct Hs as [Hs|Hs]; [concrete|vm_compute; reflexivity|vm_compute; reflexivity|concrete|concrete|concrete|by left|right].
  destruct Hs as (He&Hk&Hd). split; [exact He|]. split; [exact Hk|exact Hd].
Defined.
