(* ===== verification/Http2Findings.v ===== *)
(** * HTTP/2: runs that go wrong (src/http_parse/http2.c)

    Small connections that show behaviour the code does not mean to have. *)

From Stdlib Require Import ZArith Lia String.
From stdpp Require Import base list numbers option gmap.
From S2P Require Import Prelude Hpack Http2Types Http2 Http2Send Http2Body Http2Frames Http2Correct.

(** The head of a response: status 200 and one header. *)
Definition response_head (name value : list Z) : frame :=
  mk_frame HTTP2_FRAME_HEADERS HTTP2_FLAG_END_HEADERS 1 ([136; 0; Zlen name] ++ name ++ [Zlen value] ++ value).

Definition goaway_frame : frame := mk_frame HTTP2_FRAME_GOAWAY 0 0 (write_uint32 1 ++ write_uint32 0).
Definition data_of (flags : Z) (data : list Z) : frame := mk_frame HTTP2_FRAME_DATA flags 1 data.

(** After GOAWAY the loop goes on, but nothing can be sent any more: a DATA frame is
    appended to the body, the window update fails, and the frame stays in the read
    buffer.  The next call appends it again. *)
Theorem http2_goaway_data_twice :
  let h := client 65535 (frames_bytes [response_head (bytes "x") (bytes "y"); goaway_frame; data_of 0 (bytes "ABC")]) in
  let h1 := after h (_http2_process_frames true) in
  let h2 := after h1 (_http2_process_frames true) in
  body_buffer (stream_of h1 0) = bytes "ABC" /\ body_buffer (stream_of h2 0) = bytes "ABCABC".
Proof. vm_compute. done. Qed.

(** The padding of a DATA frame and its length byte become part of the body. *)
Theorem http2_padded_data_kept :
  let h := after (client 65535 (frames_bytes [response_head (bytes "x") (bytes "y"); data_of HTTP2_FLAG_PADDED ([2] ++ bytes "ABC" ++ [0; 0])]))
             (_http2_process_frames true) in
  body_buffer (stream_of h 0) = [2] ++ bytes "ABC" ++ [0; 0] /\ status (h_ctx h) = 0.
Proof. vm_compute. done. Qed.

(** A buffer of size zero never grows. *)
Theorem http2_grow_zero_never_ends fuel needed h : 0 < needed -> grow_size fuel 0 needed h = Diverged.
Proof.
  intros Hn. induction fuel as [|fuel IH]; cbn [grow_size]; (destruct (Z.ltb_spec 0 needed); [|lia]); [done|].
  change (safe_buffer_size 0 2) with (Some 0). exact IH.
Qed.

(** A body that inflates to nothing after GOAWAY leaves a buffer of size zero; the
    next DATA frame makes the loop that enlarges it run forever. *)
Theorem http2_empty_inflate_hangs :
  let inflate := fun (_ : unit) (input : list Z) (_ : Z) => mk_inflate Z_STREAM_END tt (Zlen input) [] in
  let h := client 65535 (frames_bytes [response_head (bytes "content-encoding") (bytes "deflate"); data_of 0 [120; 156; 3; 0; 0; 0; 0; 1]; goaway_frame]) in
  let h1 := after (after h (_http2_process_frames true)) (http2_stream_read_body true (fun _ => Some tt) inflate 0 100) in
  body_buffer_size (stream_of h1 0) = 0 /\
  _http2_process_frames true (set_h_reads (piece (frames_bytes [data_of 0 (bytes "A")])) h1) = Diverged.
Proof. vm_compute. done. Qed.

(** A client whose peer has sent the setting [id] = [value]. *)
Definition client_with (id value : Z) : h2 :=
  after (after (client_start 65535 (frames_bytes [mk_frame HTTP2_FRAME_SETTINGS 0 0 (setting id value)])) (http2_ctx_handshake true)) (_http2_process_frames true).

Definition request (p : nat) : H unit := http2_stream_set_request true p (bytes "POST") (bytes "/dns-query") None [].

(** What a call adds to the output. *)
Definition added {A} (h : h2) (m : H A) : list Z := drop (length (output h)) (output (after h m)).

(** A request that is too large for the peer fails, but its headers stay in the table
    of the encoder.  The same request again is sent as references to these entries,
    which the peer has never seen: it cannot decode it. *)
Theorem http2_failed_request_poisons_encoder :
  let h := after (client_with HTTP2_SETTINGS_MAX_HEADER_LIST_SIZE 10) (http2_stream_new true) in
  let h1 := after (after h (request 0)) (http2_stream_new true) in
  added h (request 0) = [] /\ request 0 h = Fail (after h (request 0)) /\
  request 1 h1 = Ok (after h1 (request 1)) tt /\
  match parse_frames (added h1 (request 1)) with
  | Some [f] => f_type f = HTTP2_FRAME_HEADERS /\
      match hpack_decode_headers true (fun _ _ _ => true) (f_payload f) (Zlen (f_payload f)) (hpack_init_context, []) with Fail _ => True | _ => False end
  | _ => False
  end.
Proof. vm_compute. done. Qed.

(** When the peer limits the dynamic table, the encoder follows at once, but the next
    header block does not begin with the table size update that RFC 7541 (4.2)
    asks for: its first byte does not have the form 001xxxxx. *)
Theorem http2_table_size_not_announced :
  let h := after (client_with HTTP2_SETTINGS_HEADER_TABLE_SIZE 0) (http2_stream_new true) in
  max_dynamic_table_size (encoder (h_ctx (client_start 65535 []))) = 4096 /\ max_dynamic_table_size (encoder (h_ctx h)) = 0 /\
  match parse_frames (added h (request 0)) with
  | Some [f] => f_type f = HTTP2_FRAME_HEADERS /\ Z.land (default 0 (f_payload f !! 0%nat)) 224 <> 32
  | _ => False
  end.
Proof. vm_compute. intuition congruence. Qed.

(** Trailers replace the headers of a response: its status is lost. *)
Theorem http2_trailers_replace_headers :
  let trailers := mk_frame HTTP2_FRAME_HEADERS (HTTP2_FLAG_END_HEADERS + HTTP2_FLAG_END_STREAM) 1 ([0; 1] ++ bytes "t" ++ [1] ++ bytes "v") in
  let before := after (client 65535 (frames_bytes [response_head (bytes "x") (bytes "y"); data_of 0 (bytes "ABC")])) (_http2_process_frames true) in
  let h := after (client 65535 (frames_bytes [response_head (bytes "x") (bytes "y"); data_of 0 (bytes "ABC"); trailers])) (_http2_process_frames true) in
  http2_stream_get_status 0 before = Ok before 200 /\ http2_stream_get_status 0 h = Ok h (-1) /\ end_stream_received (stream_of h 0) = true.
Proof. vm_compute. done. Qed.

(** A header block is sent as one frame, whatever size the peer accepts. *)
Theorem http2_large_headers_one_frame :
  let h := after (client_with HTTP2_SETTINGS_MAX_FRAME_SIZE 16384) (http2_stream_new true) in
  let headers := (fun b => (bytes "x", replicate 3000 b)) <$> bytes "abcdef" in
  match parse_frames (added h (http2_stream_set_request true 0 (bytes "GET") (bytes "/") None headers)) with
  | Some [f] => f_type f = HTTP2_FRAME_HEADERS /\ peer_max_frame_size (h_ctx h) < Zlen (f_payload f)
  | _ => False
  end.
Proof. vm_compute. done. Qed.
