(* ===== verification/Http2Inv.v ===== *)
(** * HTTP/2: the invariant of a connection (src/http_parse/http2.c)

    What holds between two calls: the sizes of the buffers, the ranges of the
    windows, the links between the connection and its streams, the reference
    counts and the numbers of active streams; and the rules by which an operation
    keeps it. *)

From Stdlib Require Import ZArith Lia.
From stdpp Require Import base list numbers option gmap.
From S2P Require Import Prelude Hpack HpackSpec HpackTable HpackHeaders HpackDecode DnsCache Http2Types Http2 Http2Send Http2Body.

(** ** The invariant *)

(** The read buffer never holds more than one frame, or the preface. *)
Definition one_frame (b : list Z) : Prop := Zlen b <= 9 \/ (Zlen b <= 9 + read_uint24 b /\ read_uint24 b <= 16384).

Definition buffer_ok (c : http2_ctx) : Prop :=
  Forall is_byte (read_buffer c) /\
  (if is_client c || preface_received c then one_frame (read_buffer c) else Zlen (read_buffer c) <= 24).

Definition ctx_ok (c : http2_ctx) : Prop :=
  16384 <= peer_max_frame_size c <= 16777215 /\ local_max_frame_size c = 16384 /\
  0 <= send_conn_window_size c <= INT_MAX /\ 0 <= recv_conn_window_size c <= 65535 /\
  0 <= send_initial_window_size c <= INT_MAX /\ recv_initial_window_size c = 65535 /\
  Zlen (header_block c) <= header_block_capacity c <= 65536 /\ Forall is_byte (header_block c) /\
  (header_block_capacity c = 0 \/ 4096 <= header_block_capacity c) /\
  table_wf (encoder c) /\ table_wf (decoder c) /\ buffer_ok c.

(** A buffer of size zero cannot grow; it is harmless when no DATA can follow. *)
Definition stream_ok (s : http2_stream) : Prop :=
  INT_MIN <= send_window_size s /\ 0 <= recv_window_size s <= 65535 /\
  Zlen (body_buffer s) <= 1048576 /\ Zlen (body_buffer s) <= body_buffer_size s /\
  (body_buffer_size s <= 2097152 /\ (1 <= body_buffer_size s \/ end_stream_received s = true \/ s_ctx s = false)) /\
  0 <= body_read_offset s <= 1048576 /\ queue_wf s /\ Forall field_strings (header_list s).

(** Whether [p] is a stream of this side. *)
Definition local_at (h : h2) (p : nat) : bool :=
  match h_streams h !! p with Some s => _http2_is_local_stream_id (h_ctx h) (stream_id s) | None => false end.

(** The streams of the connection are on the heap; a stream knows whether it is in
    the list; its count is the number of references: that of the list and those of
    the callers, [own]; the counters of active streams are right. *)
Definition linked (own : nat -> Z) (h : h2) : Prop :=
  let c := h_ctx h in
  NoDup (streams c) /\ stream_map c ≡ₚ streams c /\
  (forall p, p ∈ streams c -> is_Some (h_streams h !! p)) /\
  (forall p, 0 <= own p /\ (0 < own p -> is_Some (h_streams h !! p))) /\
  (forall p s, h_streams h !! p = Some s -> stream_ok s /\ s_ctx s = bool_decide (p ∈ streams c) /\
    s_refcount s = own p + (if bool_decide (p ∈ streams c) then 1 else 0) /\ 1 <= s_refcount s /\ (p < h_fresh h)%nat) /\
  active_local_streams c = Zlen (filter (fun p => local_at h p = true) (streams c)) /\
  active_peer_streams c = Zlen (filter (fun p => local_at h p = false) (streams c)).

Definition event_ok (e : rd_event) : Prop := match e with RdBytes b l => Forall is_byte (b :: l) | _ => True end.

(** What does not depend on the state of the output. *)
Definition inv' (own : nat -> Z) (h : h2) : Prop := ctx_ok (h_ctx h) /\ linked own h /\ Forall event_ok (h_reads h).

Definition inv (own : nat -> Z) (h : h2) : Prop := inv' own h /\ pend_wf h.

(** What an operation on streams leaves as it is: the input, and the streams that are
    on the heap. *)
Definition input (h : h2) := (h_reads h, read_buffer (h_ctx h), preface_received (h_ctx h), is_client (h_ctx h)).
Definition alive (h0 h : h2) : Prop := forall p, is_Some (h_streams h0 !! p) -> is_Some (h_streams h !! p).

Definition good (own : nat -> Z) (h0 h : h2) : Prop := inv own h /\ input h = input h0 /\ alive h0 h.

Lemma good_refl own h : inv own h -> good own h h.
Proof. intros Hh. split_and!; [done|done|]. by intros p. Qed.

Lemma good_inv own h0 h : good own h0 h -> inv own h.
Proof. by intros (?&_). Qed.

Lemma good_ctx_ok own h0 h : good own h0 h -> ctx_ok (h_ctx h).
Proof. by intros (((?&_)&_)&_). Qed.

Lemma good_pend own h0 h : good own h0 h -> pend_wf h.
Proof. by intros ((_&?)&_). Qed.

Lemma good_trans own h0 h1 h : good own h0 h1 -> good own h1 h -> good own h0 h.
Proof. intros (_&Hi&Ha) (Hh&Hi'&Ha'). split_and!; [done|by rewrite Hi'|]. intros p Hp. by apply Ha', Ha. Qed.

Lemma good_stream_ok own h0 h p s : good own h0 h -> h_streams h !! p = Some s -> stream_ok s.
Proof. intros (((_&Hl&_)&_)&_) Hs. destruct Hl as (_&_&_&_&Hss&_). by destruct (Hss p s Hs). Qed.

Lemma good_listed own h0 h p : good own h0 h -> p ∈ streams (h_ctx h) -> is_Some (h_streams h !! p).
Proof. intros (((_&Hl&_)&_)&_). destruct Hl as (_&_&Hl&_). apply Hl. Qed.

Lemma good_listed_ctx own h0 h p s : good own h0 h -> p ∈ streams (h_ctx h) -> h_streams h !! p = Some s -> s_ctx s = true.
Proof. intros (((_&Hl&_)&_)&_) Hp Hs. destruct Hl as (_&_&_&_&Hss&_). destruct (Hss p s Hs) as (_&->&_). by apply bool_decide_eq_true. Qed.

(** ** Rules *)

Lemma good_io own h0 h h' : good own h0 h -> io_same h h' -> pend_wf h' -> good own h0 h'.
Proof.
  intros ((Hi&_)&Hin&Ha) Hs Hp. assert ((inv' own h' /\ input h' = input h0 /\ alive h0 h') = (inv' own h /\ input h = input h0 /\ alive h0 h)) as Heq.
  { apply (io_same_part (fun h => inv' own h /\ input h = input h0 /\ alive h0 h) h h' Hs). done. }
  assert (inv' own h' /\ input h' = input h0 /\ alive h0 h') as (?&?&?) by by rewrite Heq. by split_and!.
Qed.

Lemma good_errno own h0 h e : good own h0 h -> good own h0 (set_h_errno e h).
Proof. intros Hg. apply (good_io own h0 h); [done|done|by apply good_pend in Hg]. Qed.

(** A change of the connection that is not about its streams, its input or its output. *)
Definition links (c : http2_ctx) :=
  (is_client c, streams c, stream_map c, active_local_streams c, active_peer_streams c, read_buffer c, preface_received c).
Definition outputs (c : http2_ctx) := (pending_write c, pending_write_capacity c).

Lemma good_upd_ctx own h0 h f : good own h0 h -> (ctx_ok (h_ctx h) -> ctx_ok (f (h_ctx h))) ->
  links (f (h_ctx h)) = links (h_ctx h) -> outputs (f (h_ctx h)) = outputs (h_ctx h) -> good own h0 (set_h_ctx (f (h_ctx h)) h).
Proof.
  intros (((Hc&Hl&Hr)&Hp)&Hi&Ha) Hf Hlk Hout. unfold links, outputs in *. injection Hlk as L1 L2 L3 L4 L5 L6 L7. injection Hout as O1 O2.
  unfold good, inv, inv', linked, input, alive, pend_wf, local_at in *. h2_simpl. rewrite L2, L3, L4, L5, L6, L7, L1, O1, O2.
  destruct Hl as (H1&H2&H3&H4&H5&H6&H7).
  assert (forall i, _http2_is_local_stream_id (f (h_ctx h)) i = _http2_is_local_stream_id (h_ctx h) i) as Hloc by (intros; unfold _http2_is_local_stream_id; by rewrite L1).
  split_and!; try done; try by apply Hf; try tauto.
  - rewrite H6. f_equal. apply list_filter_iff. intros p. destruct (h_streams h !! p); by rewrite ?Hloc.
  - rewrite H7. f_equal. apply list_filter_iff. intros p. destruct (h_streams h !! p); by rewrite ?Hloc.
  - apply Hp.
  - apply Hp.
Qed.

Definition link (s : http2_stream) := (s_ctx s, s_refcount s, stream_id s).

Lemma good_upd_stream own h0 h p s f : good own h0 h -> h_streams h !! p = Some s -> link (f s) = link s -> (stream_ok s -> stream_ok (f s)) ->
  good own h0 (set_h_streams (<[p := f s]> (h_streams h)) h).
Proof.
  intros (((Hc&Hl&Hr)&Hp)&Hi&Ha) Hs Hlk Hok. injection Hlk as L1 L2 L3. destruct Hl as (H1&H2&H3&H4&H5&H6&H7).
  assert (forall q, is_Some (<[p := f s]> (h_streams h) !! q) <-> is_Some (h_streams h !! q)) as Hsome.
  { intros q. destruct (decide (q = p)) as [->|]; [rewrite lookup_insert_eq, Hs; split; by eexists|by rewrite lookup_insert_ne]. }
  assert (forall q, local_at (set_h_streams (<[p := f s]> (h_streams h)) h) q = local_at h q) as Hloc.
  { intros q. unfold local_at. h2_simpl. destruct (decide (q = p)) as [->|]; [by rewrite lookup_insert_eq, Hs, L3|by rewrite lookup_insert_ne]. }
  split_and!.
  - split; [|exact Hp]. split_and!; [exact Hc| |exact Hr]. unfold linked. h2_simpl. split_and!; try done.
    + intros q Hq. by apply Hsome, H3.
    + intros q. rewrite Hsome. apply H4.
    + intros q s' Hq. destruct (decide (q = p)) as [->|]; [|rewrite lookup_insert_ne in Hq by done; by apply H5].
      rewrite lookup_insert_eq in Hq. injection Hq as <-. rewrite L1, L2. destruct (H5 p s Hs) as (?&?&?&?&?). split_and!; try done. by apply Hok.
    + rewrite H6. f_equal. apply list_filter_iff. intros q. by rewrite Hloc.
    + rewrite H7. f_equal. apply list_filter_iff. intros q. by rewrite Hloc.
  - exact Hi.
  - intros q Hq. h2_simpl. by apply Hsome, Ha.
Qed.

(** ** References *)

Lemma filter_same (f g : nat -> bool) b (l : list nat) : (forall q, q ∈ l -> f q = g q) -> filter (fun q => f q = b) l = filter (fun q => g q = b) l.
Proof.
  induction l as [|q l IH]; intros Hl; [done|]. rewrite !filter_cons, (Hl q) by by left. rewrite IH; [done|]. intros r Hr. apply Hl. by right.
Qed.

(** One reference to [p] more or less. *)
Definition bump (own : nat -> Z) (p : nat) (d : Z) : nat -> Z := fun q => if decide (q = p) then own q + d else own q.

Lemma bump_eq own p d : bump own p d p = own p + d.
Proof. unfold bump. by rewrite decide_True. Qed.

Lemma bump_ne own p d q : q <> p -> bump own p d q = own q.
Proof. intros Hq. unfold bump. by rewrite decide_False. Qed.

Lemma inv_ext own own' h : (forall q, own q = own' q) -> inv own h -> inv own' h.
Proof.
  intros Ho ((Hc&Hl&Hr)&Hp). split; [|done]. split_and!; [done| |done]. destruct Hl as (H1&H2&H3&H4&H5&H6&H7). split_and!; try done.
  - intros q. rewrite <- Ho. apply H4.
  - intros q s Hs. rewrite <- Ho. by apply H5.
Qed.

(** A change of the number of references to [p]: its count follows. *)
Lemma inv_bump own h p s d : inv own h -> h_streams h !! p = Some s -> 1 <= s_refcount s + d -> 0 <= own p + d ->
  inv (bump own p d) (set_h_streams (<[p := set_s_refcount (s_refcount s + d) s]> (h_streams h)) h).
Proof.
  intros ((Hc&Hl&Hr)&Hp) Hs Hd Ho. split; [|exact Hp]. split_and!; [exact Hc| |exact Hr]. destruct Hl as (H1&H2&H3&H4&H5&H6&H7). set (s' := set_s_refcount (s_refcount s + d) s).
  assert (forall q, is_Some (<[p := s']> (h_streams h) !! q) <-> is_Some (h_streams h !! q)) as Hsome.
  { intros q. destruct (decide (q = p)) as [->|]; [rewrite lookup_insert_eq, Hs; split; by eexists|by rewrite lookup_insert_ne]. }
  assert (forall q, local_at (set_h_streams (<[p := s']> (h_streams h)) h) q = local_at h q) as Hloc.
  { intros q. unfold local_at. h2_simpl. destruct (decide (q = p)) as [->|]; [by rewrite lookup_insert_eq, Hs|by rewrite lookup_insert_ne]. }
  unfold linked. h2_simpl. split_and!; try done.
  - intros q Hq. by apply Hsome, H3.
  - intros q. rewrite Hsome. destruct (decide (q = p)) as [->|]; [rewrite bump_eq, Hs; split; [done|by eexists]|rewrite bump_ne by done; apply H4].
  - intros q s2 Hq. destruct (decide (q = p)) as [->|].
    + rewrite lookup_insert_eq in Hq. injection Hq as <-. rewrite bump_eq. destruct (H5 p s Hs) as (?&?&?&?&?). subst s'. h2_simpl. split_and!; try done; lia.
    + rewrite lookup_insert_ne in Hq by done. rewrite bump_ne by done. by apply H5.
  - rewrite H6. f_equal. apply list_filter_iff. intros q. by rewrite Hloc.
  - rewrite H7. f_equal. apply list_filter_iff. intros q. by rewrite Hloc.
Qed.

(** The last reference: the stream is freed. *)
Lemma inv_free own h p s : inv own h -> h_streams h !! p = Some s -> own p = 1 -> p ∉ streams (h_ctx h) ->
  inv (bump own p (-1)) (set_h_streams (delete p (h_streams h)) h).
Proof.
  intros ((Hc&Hl&Hr)&Hp) Hs Ho Hn. split; [|exact Hp]. split_and!; [exact Hc| |exact Hr]. destruct Hl as (H1&H2&H3&H4&H5&H6&H7).
  assert (forall q, q ∈ streams (h_ctx h) -> local_at (set_h_streams (delete p (h_streams h)) h) q = local_at h q) as Hloc.
  { intros q Hq. unfold local_at. h2_simpl. rewrite lookup_delete_ne; [done|by intros ->]. }
  unfold linked. h2_simpl. split_and!; try done.
  - intros q Hq. rewrite lookup_delete_ne; [by apply H3|by intros ->].
  - intros q. destruct (decide (q = p)) as [->|]; [rewrite bump_eq; lia|]. rewrite bump_ne, lookup_delete_ne by done. apply H4.
  - intros q s2 Hq. destruct (decide (q = p)) as [->|]; [by rewrite lookup_delete_eq in Hq|]. rewrite lookup_delete_ne in Hq by done. rewrite bump_ne by done. by apply H5.
  - rewrite H6. f_equal. symmetry. by apply filter_same.
  - rewrite H7. f_equal. symmetry. by apply filter_same.
Qed.

Lemma unlisted_perm (p : nat) (l : list nat) : NoDup l -> p ∈ l -> l ≡ₚ p :: filter (fun q => q <> p) l.
Proof.
  induction 1 as [|q l Hq Hl IH]; intros Hp; [by apply elem_of_nil in Hp|]. rewrite filter_cons. case_decide as Hqp.
  - apply elem_of_cons in Hp as [->|Hp]; [done|]. rewrite (IH Hp) at 1. constructor.
  - assert (q = p) as -> by (destruct (decide (q = p)); [done|by destruct Hqp]). constructor. clear IH Hl Hp Hqp. induction l as [|r l IH]; [done|].
    rewrite filter_cons, decide_True by (intros ->; apply Hq; by left). constructor. apply IH. intros Hr. apply Hq. by right.
Qed.

Lemma count_unlisted (f : nat -> bool) b p (l : list nat) : NoDup l -> p ∈ l ->
  Zlen (filter (fun q => f q = b) (filter (fun q => q <> p) l)) = Zlen (filter (fun q => f q = b) l) - (if decide (f p = b) then 1 else 0).
Proof.
  intros Hl Hp. assert (Zlen (filter (fun q => f q = b) l) = Zlen (filter (fun q => f q = b) (p :: filter (fun q => q <> p) l))) as ->.
  { unfold Zlen. f_equal. apply Permutation_length. by rewrite <- (unlisted_perm p l Hl Hp). }
  rewrite filter_cons. case_decide; rewrite ?Zlen_cons; lia.
Qed.

Lemma end_received_ok s : stream_ok s -> stream_ok (set_end_stream_received true s).
Proof. intros (H1&H2&H3&H4&[H5 _]&H6). split_and!; try done; h2_simpl; try apply H2; try apply H6. by right; left. Qed.

Lemma unlinked_ok s : stream_ok s -> stream_ok (set_s_ctx false s).
Proof. intros (H1&H2&H3&H4&[H5 _]&H6). split_and!; try done; h2_simpl; try apply H2; try apply H6. by right; right. Qed.

(** A stream that leaves the list: the reference of the list is held by whoever took
    it off. *)
Lemma inv_unlink own h p s f : inv own h -> h_streams h !! p = Some s -> p ∈ streams (h_ctx h) ->
  let c := h_ctx h in let l := _http2_is_local_stream_id c (stream_id s) in
  (ctx_ok c -> ctx_ok (f c)) -> outputs (f c) = outputs c ->
  links (f c) = (is_client c, filter (fun q => q <> p) (streams c), filter (fun q => q <> p) (stream_map c),
    active_local_streams c - (if l then 1 else 0), active_peer_streams c - (if l then 0 else 1), read_buffer c, preface_received c) ->
  inv (bump own p 1) (set_h_ctx (f c) (set_h_streams (<[p := set_s_ctx false s]> (h_streams h)) h)).
Proof.
  intros ((Hc&Hl&Hr)&Hp) Hs Hin c l Hok Hout Hlk. injection Hlk as L1 L2 L3 L4 L5 L6 L7. injection Hout as O1 O2. destruct Hl as (H1&H2&H3&H4&H5&H6&H7).
  set (s' := set_s_ctx false s). set (h' := set_h_ctx (f c) (set_h_streams (<[p := s']> (h_streams h)) h)).
  assert (forall q, is_Some (<[p := s']> (h_streams h) !! q) <-> is_Some (h_streams h !! q)) as Hsome.
  { intros q. destruct (decide (q = p)) as [->|]; [rewrite lookup_insert_eq, Hs; split; by eexists|by rewrite lookup_insert_ne]. }
  assert (forall q, local_at h' q = local_at h q) as Hloc.
  { intros q. unfold local_at, _http2_is_local_stream_id. subst h'. h2_simpl. rewrite L1. destruct (decide (q = p)) as [->|]; [by rewrite lookup_insert_eq, Hs|by rewrite lookup_insert_ne]. }
  assert (local_at h p = l) as Hlp by (unfold local_at; by rewrite Hs).
  split; [split_and!|unfold pend_wf, h'; h2_simpl; rewrite O1, O2; exact Hp]; [by apply Hok| |exact Hr].
  unfold linked. change (h_ctx h') with (f c). change (h_streams h') with (<[p := s']> (h_streams h)). change (h_fresh h') with (h_fresh h). rewrite L2, L3, L4, L5. split_and!.
  - by apply NoDup_filter.
  - subst c. by rewrite H2.
  - intros q [_ Hq]%list_elem_of_filter. by apply Hsome, H3.
  - intros q. rewrite Hsome. destruct (decide (q = p)) as [->|]; [rewrite bump_eq, Hs; split; [specialize (H4 p); lia|by eexists]|rewrite bump_ne by done; apply H4].
  - intros q s2 Hq. destruct (decide (q = p)) as [->|].
    + rewrite lookup_insert_eq in Hq. injection Hq as <-. rewrite bump_eq. destruct (H5 p s Hs) as (?&?&Hrc&?&?).
      rewrite (bool_decide_eq_false_2 (p ∈ filter _ _)) by (intros [? _]%list_elem_of_filter; done). rewrite (bool_decide_eq_true_2 (p ∈ streams (h_ctx h))) in Hrc by done. subst s'. h2_simpl. split_and!; try done; [|lia].
      by apply unlinked_ok.
    + rewrite lookup_insert_ne in Hq by done. rewrite bump_ne by done. rewrite (bool_decide_ext (q ∈ filter (fun q => q <> p) (streams c)) (q ∈ streams c)) by (rewrite list_elem_of_filter; tauto). by apply H5.
  - rewrite (filter_same _ (local_at h)) by done. rewrite count_unlisted, Hlp by done. subst c. rewrite H6. by destruct l; case_decide.
  - rewrite (filter_same _ (local_at h)) by done. rewrite count_unlisted, Hlp by done. subst c. rewrite H7. by destruct l; case_decide.
Qed.

(** As [good], but [p] may have been freed. *)
Definition good_but (p : nat) (own : nat -> Z) (h0 h : h2) : Prop :=
  inv own h /\ input h = input h0 /\ forall q, q <> p -> is_Some (h_streams h0 !! q) -> is_Some (h_streams h !! q).

Lemma good_good_but p own h0 h : good own h0 h -> good_but p own h0 h.
Proof. intros (?&?&Ha). split_and!; [done|done|]. intros q _ Hq. by apply Ha. Qed.
