(* ===== verification/Http2Safe.v ===== *)
(** * HTTP/2: every operation keeps the invariant (src/http_parse/http2.c)

    Frames out, streams and frames in, on arbitrary input. *)

From Stdlib Require Import ZArith Lia.
From stdpp Require Import base list numbers option gmap.
From S2P Require Import Prelude Hpack HpackSpec HpackTable HpackHeaders HpackDecode HpackCorrect DnsCache Http2Types Http2 Http2Send Http2Body Http2Inv.

(** ** Rules *)

Section Rules.
Context {own : nat -> Z} {h0 : h2}.

Lemma g_upd_ctx f h (Q : h2 -> unit -> Prop) E : good own h0 h -> (ctx_ok (h_ctx h) -> ctx_ok (f (h_ctx h))) ->
  links (f (h_ctx h)) = links (h_ctx h) -> outputs (f (h_ctx h)) = outputs (h_ctx h) ->
  (good own h0 (set_h_ctx (f (h_ctx h)) h) -> Q (set_h_ctx (f (h_ctx h)) h) tt) -> wp (upd_ctx f) h Q E.
Proof. intros Hg H1 H2 H3 HQ. apply wp_upd_ctx. by apply HQ, good_upd_ctx. Qed.

Lemma g_upd_stream p f h s (Q : h2 -> unit -> Prop) E : good own h0 h -> h_streams h !! p = Some s -> link (f s) = link s -> (stream_ok s -> stream_ok (f s)) ->
  (good own h0 (set_h_streams (<[p := f s]> (h_streams h)) h) -> Q (set_h_streams (<[p := f s]> (h_streams h)) h) tt) -> wp (upd_stream p f) h Q E.
Proof. intros Hg Hs H1 H2 HQ. eapply wp_upd_stream; [exact Hs|]. by apply HQ, good_upd_stream. Qed.
End Rules.

(** Sizes of buffers in the goal. *)
Ltac sizes := unfold INT_MAX, INT_MIN in *; change (2 ^ 30) with 1073741824 in *; change (2 ^ 31) with 2147483648 in *.

(** The parts of [ctx_ok] and [stream_ok] after an update. *)
Ltac ctx_ok_upd :=
  let H := fresh in intros H; unfold ctx_ok, buffer_ok in *; h2_simpl; sizes; repeat split; try apply H; change (Zlen (@nil Z)) with 0 in *; try lia.
Ltac stream_ok_upd :=
  let H := fresh in intros H; unfold stream_ok, queue_wf in *; h2_simpl; sizes; repeat split; try apply H; change (Zlen (@nil Z)) with 0 in *; try lia.

Section Safe.
Variable malloc_ok : bool.
Variable own : nat -> Z.
Variable h0 : h2.

(** ** Sending *)

(** What a call that only sends leaves. *)
Definition sends {A} (m : H A) (h : h2) : Prop :=
  wp m h (fun h' _ => good own h0 h' /\ io_same h h') (fun h' => good own h0 h' /\ io_same h h').

Lemma send_frame_safe data h : good own h0 h -> Zlen data < 2 ^ 30 -> sends (_http2_send_frame malloc_ok data) h.
Proof.
  intros Hg Hl. pose proof (good_pend _ _ _ Hg) as Hp. pose proof Hp as [Hp1 Hp2]. apply capacity_range in Hp2. sizes.
  eapply wp_mono; [apply send_frame_spec; [done|sizes; lia]| |].
  - intros h' n (_&_&Hio&_&_&Hp'&_). split; [|done]. by apply (good_io own h0 h).
  - intros h' [[_ ->]|(_&Hio&Hp'&_)]; (split; [|done]); [done|]. by apply (good_io own h0 h).
Qed.

Lemma send_goaway_safe last code h : good own h0 h -> sends (_http2_send_goaway malloc_ok last code) h.
Proof. intros Hg. by apply send_frame_safe. Qed.

Lemma send_rst_safe id code h : good own h0 h -> sends (http2_send_rst_stream malloc_ok id code) h.
Proof. intros Hg. by apply send_frame_safe. Qed.

Lemma send_window_update_safe id n h : good own h0 h -> sends (_http2_send_window_update malloc_ok id n) h.
Proof. intros Hg. by apply send_frame_safe. Qed.

Lemma send_settings_safe ack h : good own h0 h -> sends (_http2_send_settings malloc_ok ack) h.
Proof.
  intros Hg. unfold _http2_send_settings, sends. wp_step. apply wp_ctx. apply send_frame_safe; [done|].
  destruct ack, (is_client (h_ctx h)), (0 <? max_concurrent_streams (h_ctx h)); done.
Qed.

Lemma send_data_safe id data e h : good own h0 h -> Zlen data <= 16777215 -> sends (_http2_send_data_frame malloc_ok id data e) h.
Proof.
  intros Hg Hl. unfold _http2_send_data_frame, sends. wp_step. wp_step.
  - wp_step. apply send_frame_safe; [done|]. rewrite Zlen_app, frame_header_len. sizes. lia.
  - wp_step. apply wp_set_errno. wp_step. split; [by apply good_errno|done].
Qed.

(** A send whose result is ignored. *)
Lemma wp_try_sends {A} (m : H A) h (Q : h2 -> option A -> Prop) E : sends m h -> (forall h' r, good own h0 h' -> io_same h h' -> Q h' r) -> wp (try m) h Q E.
Proof. intros Hm HQ. apply wp_try. eapply wp_mono; [exact Hm| |]; intros; cbv beta in *; apply HQ; tauto. Qed.

Lemma set_status_good st h : good own h0 h -> good own h0 (set_h_ctx (set_status st (h_ctx h)) h).
Proof. intros Hg. by apply (good_upd_ctx own h0 h (set_status st)). Qed.

Lemma connection_error_safe m h (Q : h2 -> unit -> Prop) : sends m h -> wp (connection_error m) h Q (good own h0).
Proof.
  intros Hm. unfold connection_error. wp_step. apply wp_try_sends; [done|]. intros h1 _ Hg _. wp_step. apply wp_upd_ctx. wp_step. by apply set_status_good.
Qed.

(** ** Streams *)

Lemma check_content_length_safe p id len (e : bool) h : good own h0 h -> is_Some (h_streams h !! p) ->
  wp (_http2_check_content_length malloc_ok p id len e) h (fun h' r => good own h0 h' /\ h_streams h' = h_streams h /\ (r = false -> h' = h)) (fun _ => False).
Proof.
  intros Hg [s Hs]. unfold _http2_check_content_length. wp_step. eapply wp_stream; [exact Hs|].
  assert (forall r : bool, r = true -> wp (try (http2_send_rst_stream malloc_ok id HTTP2_RST_PROTOCOL_ERROR) ;; ret r) h
    (fun h' r => good own h0 h' /\ h_streams h' = h_streams h /\ (r = false -> h' = h)) (fun _ => False)) as Hreset.
  { intros r ->. wp_step. apply wp_try_sends; [by apply send_rst_safe|]. intros h1 _ Hg1 Hio. wp_step. split_and!; [done|by apply io_same_streams|done]. }
  destruct (_http2_get_content_length s) as [cl|]; [|by apply Hreset].
  wp_step; [wp_step; by split_and!|]. wp_step; [by apply Hreset|wp_step; by split_and!].
Qed.

Lemma find_in_streams_safe id l h : (forall p, p ∈ l -> is_Some (h_streams h !! p)) ->
  wp (find_in_streams id l) h (fun h' r => h' = h /\ forall p, r = Some p -> p ∈ l) (fun _ => False).
Proof.
  induction l as [|q l IH]; intros Hl; cbn [find_in_streams]; [by wp_step|].
  destruct (Hl q) as [s Hs]; [by left|]. wp_step. eapply wp_stream; [exact Hs|]. wp_step.
  - wp_step. split; [done|]. intros p [= <-]. by left.
  - eapply wp_mono; [apply IH; intros p Hp; apply Hl; by right| |done]. intros h' r (->&Hr). split; [done|]. intros p Hp. right. by apply Hr.
Qed.

Lemma find_stream_safe id h : good own h0 h ->
  wp (_http2_find_stream id) h (fun h' r => h' = h /\ forall p, r = Some p -> p ∈ streams (h_ctx h)) (fun _ => False).
Proof.
  intros Hg. unfold _http2_find_stream. wp_step. apply wp_ctx. pose proof Hg as (((_&Hl&_)&_)&_). destruct Hl as (_&Hperm&Hl&_).
  eapply wp_mono; [apply find_in_streams_safe; intros p Hp; apply Hl; by rewrite <- Hperm| |done].
  intros h' r (->&Hr). split; [done|]. intros p Hp. rewrite <- Hperm. by apply Hr.
Qed.

Lemma mark_stream_reset_safe p h : good own h0 h -> is_Some (h_streams h !! p) ->
  wp (_http2_mark_stream_reset p) h (fun h' _ => good own h0 h') (fun _ => False).
Proof.
  intros Hg [s Hs]. unfold _http2_mark_stream_reset. eapply g_upd_stream; [exact Hg|exact Hs|done| |done].
  stream_ok_upd. all: destruct H as (_&_&?&?&_); pose proof (Zlen_nonneg (body_buffer s)); first [lia|by right; left].
Qed.

(** The list of streams as seen by the counters. *)
Lemma count_streams_cons h h' p l : (forall q, q ∈ l -> local_at h' q = local_at h q) ->
  Zlen (filter (fun q => local_at h' q = true) (p :: l)) = Zlen (filter (fun q => local_at h q = true) l) + (if local_at h' p then 1 else 0) /\
  Zlen (filter (fun q => local_at h' q = false) (p :: l)) = Zlen (filter (fun q => local_at h q = false) l) + (if local_at h' p then 0 else 1).
Proof.
  intros Hl. assert (forall b, filter (fun q => local_at h' q = b) l = filter (fun q => local_at h q = b) l) as Hf.
  { intros b. by apply filter_same. }
  rewrite !filter_cons, !Hf. destruct (local_at h' p); repeat case_decide; try done; rewrite ?Zlen_cons; lia.
Qed.

(** A new stream. *)
Lemma good_new_stream h s (f : http2_ctx -> http2_ctx) : good own h0 h -> stream_ok s -> s_ctx s = true -> s_refcount s = 1 ->
  let p := h_fresh h in let c := h_ctx h in
  ctx_ok (f c) -> outputs (f c) = outputs c ->
  links (f c) = (is_client c, p :: streams c, p :: stream_map c,
    active_local_streams c + (if _http2_is_local_stream_id c (stream_id s) then 1 else 0),
    active_peer_streams c + (if _http2_is_local_stream_id c (stream_id s) then 0 else 1), read_buffer c, preface_received c) ->
  good own h0 (set_h_ctx (f c) (set_h_fresh (p + 1)%nat (set_h_streams (<[p := s]> (h_streams h)) h))).
Proof.
  intros (((Hc&Hl&Hr)&Hp)&Hi&Ha) Hs Hctx Href p c Hfc Hout Hlk. injection Hlk as L1 L2 L3 L4 L5 L6 L7. injection Hout as O1 O2.
  destruct Hl as (H1&H2&H3&H4&H5&H6&H7).
  assert (h_streams h !! p = None) as Hnone. { destruct (h_streams h !! p) as [x|] eqn:Hx; [|done]. apply H5 in Hx as (_&_&_&_&?). subst p. lia. }
  assert (own p = 0) as Hown. { destruct (H4 p) as [? Hx]. rewrite Hnone in Hx. destruct (decide (0 < own p)) as [Hpos|]; [|lia]. by destruct (Hx Hpos). }
  assert (p ∉ streams c) as Hnew. { intros Hx%H3. rewrite Hnone in Hx. by destruct Hx. }
  set (h' := set_h_ctx (f c) (set_h_fresh (p + 1)%nat (set_h_streams (<[p := s]> (h_streams h)) h))).
  assert (forall i, _http2_is_local_stream_id (f c) i = _http2_is_local_stream_id c i) as Hid by (intros; unfold _http2_is_local_stream_id; by rewrite L1).
  assert (local_at h' p = _http2_is_local_stream_id c (stream_id s)) as Hlp by (unfold local_at; subst h'; h2_simpl; by rewrite lookup_insert_eq, Hid).
  assert (forall q, q ∈ streams c -> local_at h' q = local_at h q) as Hlq.
  { intros q Hq. unfold local_at. subst h'. h2_simpl. rewrite lookup_insert_ne by (by intros ->). destruct (h_streams h !! q); [by rewrite Hid|done]. }
  split_and!; [|unfold input, h'; h2_simpl; by rewrite L6, L7, L1|].
  2: { intros q Hq%Ha. subst h'. h2_simpl. destruct (decide (q = p)) as [->|]; [rewrite lookup_insert_eq; by eexists|by rewrite lookup_insert_ne]. }
  destruct (count_streams_cons h h' p (streams c) Hlq) as [Hn1 Hn2].
  split; [split_and!|]; [exact Hfc| |exact Hr|unfold pend_wf, h'; h2_simpl; rewrite O1, O2; exact Hp].
  unfold linked. change (h_ctx h') with (f c). rewrite L2, L3, L4, L5, Hn1, Hn2, Hlp. split_and!.
  - by constructor.
  - by constructor.
  - intros q. subst h'. h2_simpl. destruct (decide (q = p)) as [->|]; [rewrite lookup_insert_eq; by eexists|]. rewrite lookup_insert_ne by done. intros [|]%elem_of_cons; [done|by apply H3].
  - intros q. split; [apply H4|]. subst h'. h2_simpl. destruct (decide (q = p)) as [->|]; [rewrite lookup_insert_eq; by eexists|]. rewrite lookup_insert_ne by done. apply H4.
  - intros q s'. subst h'. h2_simpl. destruct (decide (q = p)) as [->|].
    + rewrite lookup_insert_eq. intros [= <-]. rewrite bool_decide_eq_true_2 by by left. rewrite Hctx, Href, Hown. split_and!; done || lia.
    + rewrite lookup_insert_ne by done. intros Hq. apply H5 in Hq as (?&Hq1&Hq2&?&?). rewrite (bool_decide_ext (q ∈ p :: streams c) (q ∈ streams c)) by (rewrite elem_of_cons; naive_solver).
      split_and!; try done. lia.
  - by subst c; rewrite H6.
  - by subst c; rewrite H7.
Qed.

Lemma new_stream_ok id st acc c : ctx_ok c ->
  stream_ok (mk_stream true 1 id st [] [] 8192 0 false false false acc (send_initial_window_size c) (recv_initial_window_size c) false [] 0 0 false false).
Proof.
  intros (_&_&_&_&Hsw&->&_). unfold stream_ok, queue_wf. h2_simpl. sizes. change (Zlen (@nil Z)) with 0.
  repeat split; try lia; [by left|by constructor].
Qed.

Lemma create_stream_safe id h : good own h0 h ->
  wp (_http2_create_stream malloc_ok id) h (fun h' r => good own h0 h' /\ match r with Some p => is_Some (h_streams h' !! p) | None => True end) (fun _ => False).
Proof.
  intros Hg. unfold _http2_create_stream. wp_step. apply wp_ctx. pose proof (good_ctx_ok _ _ _ Hg) as Hc.
  wp_step; [wp_step; apply wp_set_errno; wp_step; split; [by apply good_errno|done]|].
  wp_step; [wp_step; apply wp_set_errno; wp_step; split; [by apply good_errno|done]|].
  wp_step. wp_step. wp_step. wp_step. wp_step. apply (wp_upd_stream_same (h_fresh h) _ (h_streams h) _ (set_h_fresh (h_fresh h + 1)%nat h)).
  match goal with |- wp _ (set_h_streams (<[_ := ?s]> _) _) _ _ => set (s1 := s) end.
  pose proof (new_stream_ok id HTTP2_STREAM_IDLE (if is_client (h_ctx h) then negb (id mod 2 =? 0) else id mod 2 =? 0) (h_ctx h) Hc) as Hs1.
  assert (forall f, ctx_ok (f (h_ctx h)) -> outputs (f (h_ctx h)) = outputs (h_ctx h) -> links (f (h_ctx h)) = (is_client (h_ctx h), h_fresh h :: streams (h_ctx h), h_fresh h :: stream_map (h_ctx h),
    active_local_streams (h_ctx h) + (if _http2_is_local_stream_id (h_ctx h) id then 1 else 0),
    active_peer_streams (h_ctx h) + (if _http2_is_local_stream_id (h_ctx h) id then 0 else 1), read_buffer (h_ctx h), preface_received (h_ctx h)) ->
    good own h0 (set_h_ctx (f (h_ctx h)) (set_h_streams (<[h_fresh h := s1]> (h_streams h)) (set_h_fresh (h_fresh h + 1)%nat h))) /\
    is_Some (<[h_fresh h := s1]> (h_streams h) !! h_fresh h)) as Hnew.
  { intros f H1 H2 H3. split; [|rewrite lookup_insert_eq; by eexists]. by apply (good_new_stream h s1 f). }
  destruct (_http2_is_local_stream_id (h_ctx h) id) eqn:Hloc; wp_step;
    (apply (wp_mono _ _ (fun h' _ => exists f, h' = set_h_ctx (f (h_ctx h)) (set_h_streams (<[h_fresh h := s1]> (h_streams h)) (set_h_fresh (h_fresh h + 1)%nat h)) /\
       ctx_ok (f (h_ctx h)) /\ outputs (f (h_ctx h)) = outputs (h_ctx h) /\ links (f (h_ctx h)) = links (h_ctx h)) _ (fun _ => False)); [| |done]).
  1, 3: wp_step; [apply wp_upd_ctx; (by exists (set_max_local_stream_id_seen id)) || (by exists (set_max_peer_stream_id_seen id))|wp_step; by exists (fun c => c)].
  1, 2: intros h' [] (f&->&F1&F2&F3); injection F3 as L1 L2 L3 L4 L5 L6 L7; injection F2 as O1 O2; wp_step; apply wp_upd_ctx; wp_step; apply wp_upd_ctx; wp_step; apply wp_upd_ctx; wp_step.
  - apply (Hnew (fun c => set_active_local_streams (active_local_streams (f c) + 1) (set_streams (h_fresh h :: streams (f c)) (set_stream_map (h_fresh h :: stream_map (f c)) (f c))))).
    + exact F1.
    + unfold outputs. h2_simpl. by rewrite O1, O2.
    + unfold links. h2_simpl. by rewrite L1, L2, L3, L4, L5, L6, L7, Z.add_0_r.
  - apply (Hnew (fun c => set_active_peer_streams (active_peer_streams (f c) + 1) (set_streams (h_fresh h :: streams (f c)) (set_stream_map (h_fresh h :: stream_map (f c)) (f c))))).
    + exact F1.
    + unfold outputs. h2_simpl. by rewrite O1, O2.
    + unfold links. h2_simpl. by rewrite L1, L2, L3, L4, L5, L6, L7, Z.add_0_r.
Qed.

Lemma stream_get_safe p h s : good own h0 h -> h_streams h !! p = Some s ->
  wp (http2_stream_get p) h (fun h' _ => good (bump own p 1) h0 h' /\ h' = set_h_streams (<[p := set_s_refcount (s_refcount s + 1) s]> (h_streams h)) h) (fun _ => False).
Proof.
  intros (Hi&Hin&Ha) Hs. eapply wp_upd_stream; [exact Hs|]. pose proof Hi as ((_&Hl&_)&_). destruct Hl as (_&_&_&Hown&Hss&_). split; [|done]. split_and!.
  - apply inv_bump; try done; [destruct (Hss p s Hs); lia|destruct (Hown p); lia].
  - exact Hin.
  - intros q Hq%Ha. h2_simpl. destruct (decide (q = p)) as [->|]; [rewrite lookup_insert_eq; by eexists|by rewrite lookup_insert_ne].
Qed.

(** A caller gives a reference back. *)
Lemma stream_put_safe p h : good own h0 h -> 0 < own p -> wp (http2_stream_put p) h (fun h' _ => good_but p (bump own p (-1)) h0 h') (fun _ => False).
Proof.
  intros (Hi&Hin&Ha) Hown. pose proof Hi as ((_&Hl&_)&_). destruct Hl as (_&_&_&Hown'&Hss&_). destruct (Hown' p) as [_ Hx]. destruct (Hx Hown) as [s Hs].
  destruct (Hss p s Hs) as (_&_&Hrc&_&_). unfold http2_stream_put. wp_step. eapply wp_upd_stream; [exact Hs|]. wp_step. apply wp_stream_same. h2_simpl. wp_step.
  - wp_step. split_and!; [apply inv_bump; try done; lia|exact Hin|].
    intros q Hq Hq0%Ha. h2_simpl. by rewrite lookup_insert_ne.
  - wp_step; [destruct (bool_decide (p ∈ streams (h_ctx h))); lia|]. assert (p ∉ streams (h_ctx h)) as Hn by (intros Hp; rewrite bool_decide_eq_true_2 in Hrc by done; lia).
    rewrite bool_decide_eq_false_2 in Hrc by done. wp_step. apply wp_ctx. h2_simpl. rewrite bool_decide_eq_false_2 by done. wp_step. wp_step. unfold free_stream. wp_step.
    h2_simpl. rewrite delete_insert_eq. split_and!.
    + apply (inv_free own h p s); try done. lia.
    + exact Hin.
    + intros q Hq Hq0%Ha. h2_simpl. by rewrite lookup_delete_ne.
Qed.

Lemma filter_unlisted (p : nat) (l : list nat) : p ∉ l -> filter (fun q => q <> p) l = l.
Proof.
  induction l as [|q l IH]; intros Hp; [done|]. rewrite filter_cons, decide_True by (intros ->; apply Hp; by left). f_equal. apply IH. intros Hq. apply Hp. by right.
Qed.

Lemma unlink_stream_safe p h s : good own h0 h -> h_streams h !! p = Some s ->
  wp (unlink_stream p) h (fun h' r => r = bool_decide (p ∈ streams (h_ctx h)) /\ if r then good (bump own p 1) h0 h' else good own h0 h') (fun _ => False).
Proof.
  intros Hg Hs. pose proof Hg as (Hi&Hin&Ha). pose proof Hi as ((_&Hl&_)&_). destruct Hl as (_&Hperm&_&_&Hss&_). destruct (Hss p s Hs) as (_&Hctx&_).
  unfold unlink_stream. wp_step. eapply wp_stream; [exact Hs|]. wp_step. apply wp_upd_ctx. wp_step. apply wp_ctx. h2_simpl.
  destruct (bool_decide (p ∈ streams (h_ctx h))) eqn:Hb.
  - apply bool_decide_eq_true in Hb. wp_step. apply wp_upd_ctx. wp_step. eapply wp_upd_stream; [exact Hs|]. rewrite Hctx. wp_step.
    assert (forall f, (ctx_ok (h_ctx h) -> ctx_ok (f (h_ctx h))) -> outputs (f (h_ctx h)) = outputs (h_ctx h) ->
      links (f (h_ctx h)) = (is_client (h_ctx h), filter (fun q => q <> p) (streams (h_ctx h)), filter (fun q => q <> p) (stream_map (h_ctx h)),
        active_local_streams (h_ctx h) - (if _http2_is_local_stream_id (h_ctx h) (stream_id s) then 1 else 0),
        active_peer_streams (h_ctx h) - (if _http2_is_local_stream_id (h_ctx h) (stream_id s) then 0 else 1), read_buffer (h_ctx h), preface_received (h_ctx h)) ->
      good (bump own p 1) h0 (set_h_ctx (f (h_ctx h)) (set_h_streams (<[p := set_s_ctx false s]> (h_streams h)) h))) as Hun.
    { intros f H1 H2 H3. split_and!; [by apply inv_unlink| |].
      - injection H3 as L1 L2 L3 L4 L5 L6 L7. rewrite <- Hin. unfold input. h2_simpl. by rewrite L1, L6, L7.
      - intros q Hq%Ha. h2_simpl. destruct (decide (q = p)) as [->|]; [rewrite lookup_insert_eq; by eexists|by rewrite lookup_insert_ne]. }
    change (_http2_is_local_stream_id (set_stream_map _ _) (stream_id s)) with (_http2_is_local_stream_id (h_ctx h) (stream_id s)).
    destruct (_http2_is_local_stream_id (h_ctx h) (stream_id s)); apply wp_upd_ctx; wp_step; (split; [done|]).
    + apply (Hun (fun c => set_active_local_streams (active_local_streams c - 1) (set_streams (filter (fun q => q <> p) (streams c)) (set_stream_map (filter (fun q => q <> p) (stream_map c)) c)))); try done.
      unfold links. h2_simpl. by rewrite Z.sub_0_r.
    + apply (Hun (fun c => set_active_peer_streams (active_peer_streams c - 1) (set_streams (filter (fun q => q <> p) (streams c)) (set_stream_map (filter (fun q => q <> p) (stream_map c)) c)))); try done.
      unfold links. h2_simpl. by rewrite Z.sub_0_r.
  - wp_step. apply bool_decide_eq_false in Hb. split; [done|]. apply (good_upd_ctx own h0 h (fun c => set_stream_map (filter (fun q => q <> p) (stream_map c)) c)); try done.
    unfold links. h2_simpl. rewrite filter_unlisted; [done|]. by rewrite Hperm.
Qed.
End Safe.
