(* ===== verification/Http2SafeIn.v ===== *)
(** * HTTP/2: bodies and frames keep the invariant (src/http_parse/http2.c) *)

From Stdlib Require Import ZArith Lia.
From stdpp Require Import base list numbers option gmap.
From S2P Require Import Prelude Hpack HpackSpec HpackTable HpackHeaders HpackDecode HpackCorrect DnsCache Http2Types Http2 Http2Send Http2Body Http2Inv Http2Safe.

Lemma stream_put_back own p h0 h : good (bump own p 1) h0 h -> 0 <= own p -> wp (http2_stream_put p) h (fun h' _ => good_but p own h0 h') (fun _ => False).
Proof.
  intros Hg Ho. eapply wp_mono; [apply (stream_put_safe (bump own p 1) h0); [exact Hg|rewrite bump_eq; lia]| |done].
  intros h' [] (Hi&Hin&Ha). split_and!; [|done|done]. eapply inv_ext; [|exact Hi]. intros q. destruct (decide (q = p)) as [->|]; [rewrite !bump_eq; lia|by rewrite !bump_ne].
Qed.

Lemma own_nonneg own h p : inv own h -> 0 <= own p.
Proof. intros ((_&Hl&_)&_). destruct Hl as (_&_&_&Ho&_). apply Ho. Qed.

Lemma own_alive own h p : inv own h -> 0 < own p -> is_Some (h_streams h !! p).
Proof. intros ((_&Hl&_)&_). destruct Hl as (_&_&_&Ho&_). apply Ho. Qed.

Lemma remove_stream_safe own h0 p h : good own h0 h -> is_Some (h_streams h !! p) ->
  wp (_http2_remove_stream p true) h (fun h' _ => good_but p own h0 h') (fun _ => False).
Proof.
  intros Hg [s Hs]. pose proof (own_nonneg own h p (good_inv _ _ _ Hg)). unfold _http2_remove_stream. wp_step. eapply wp_mono; [by apply (unlink_stream_safe own h0 p h s)| |done].
  intros h1 r [_ Hr]. destruct r; cbn [andb]; [by apply stream_put_back|wp_step; by apply good_good_but].
Qed.

Lemma remove_streams_safe own h0 l h : inv own h -> input h = input h0 -> NoDup l -> (forall p, p ∈ l -> is_Some (h_streams h !! p)) ->
  wp (remove_streams l) h (fun h' _ => inv own h' /\ input h' = input h0) (fun _ => False).
Proof.
  intros Hi Hin Hnd. revert h Hi Hin. induction Hnd as [|p l Hp Hnd IH]; intros h Hi Hin Hl; cbn [remove_streams]; [by wp_step|].
  wp_step. eapply wp_mono; [apply (remove_stream_safe own h p); [by apply good_refl|apply Hl; by left]| |done].
  intros h1 [] (Hi1&Hin1&Ha1). apply IH; [done|by rewrite Hin1|]. intros q Hq. apply Ha1; [by intros ->|]. apply Hl. by right.
Qed.

Lemma ctx_close_safe own h : inv own h -> wp http2_ctx_close h (fun h' _ => inv own h') (fun _ => False).
Proof.
  intros Hi. pose proof Hi as ((_&Hl&_)&_). destruct Hl as (Hnd&_&Hl&_). unfold http2_ctx_close. wp_step. apply wp_ctx.
  eapply wp_mono; [by apply (remove_streams_safe own h)| |done]. by intros h' [] [? _].
Qed.

(** ** Bodies *)

Lemma mark_end_sent_ok s : link (mark_end_sent s) = link s /\ (stream_ok s -> stream_ok (mark_end_sent s)).
Proof. destruct s as [? ? ? [] ? ? ? ? ? []]; split; done. Qed.

Lemma ctx_ok_send_wf c : ctx_ok c -> send_wf c.
Proof. intros (?&_&?&_). unfold send_wf. lia. Qed.

Section Bodies.
Variable malloc_ok : bool.
Variable own : nat -> Z.
Variable h0 : h2.

(** A part of a body has been sent: the windows, and the stream. *)
Lemma moved_good h p s s' n : good own h0 h -> h_streams h !! p = Some s -> link s' = link s -> stream_ok s' -> 0 <= n <= send_conn_window_size (h_ctx h) ->
  good own h0 (with_body h p s' n).
Proof.
  intros Hg Hs Hl Hok Hn. unfold with_body. pose proof (good_upd_ctx own h0 h (set_send_conn_window_size (send_conn_window_size (h_ctx h) - n)) Hg) as Hg1.
  specialize (Hg1 ltac:(ctx_ok_upd; destruct H as (_&_&?&_); lia) eq_refl eq_refl).
  by apply (good_upd_stream own h0 _ p s (fun _ => s') Hg1).
Qed.

Lemma advance_ok n s : stream_ok s -> 0 <= n <= Zlen (queued s) -> n <= send_window_size s -> stream_ok (advance n s).
Proof.
  intros (H1&H2&H3&H4&H5&H6&H7&H8) Hn Hw. pose proof (advance_facts n s H7 Hn) as [Hq _]. unfold stream_ok in *. split_and!; try done; unfold advance; h2_simpl; first [apply H5|unfold INT_MIN; lia].
Qed.

Lemma flush_loop_safe fuel p h s : good own h0 h -> h_streams h !! p = Some s -> Zlen (queued s) <= Z.of_nat fuel ->
  wp (flush_loop malloc_ok fuel p) h (fun h' _ => good own h0 h' /\ is_Some (h_streams h' !! p)) (fun h' => good own h0 h' /\ is_Some (h_streams h' !! p)).
Proof.
  revert h s. induction fuel as [|fuel IH]; intros h s Hg Hs Hf.
  { eapply wp_mono; [apply (flush_loop_done malloc_ok 0 p h s Hs)| |done]; [by destruct (good_stream_ok _ _ _ _ _ Hg Hs) as (_&_&_&_&_&_&?&_)|apply Zlen_0_nil; pose proof (Zlen_nonneg (queued s)); lia|].
    intros h' [] ->. split; [done|by eexists]. }
  cbn [flush_loop]. pose proof (good_stream_ok _ _ _ _ _ Hg Hs) as Hok. pose proof Hok as (_&_&_&_&_&_&Hq&_). destruct (queued_waits s Hq) as [Hw Hrem].
  pose proof (ctx_ok_send_wf _ (good_ctx_ok _ _ _ Hg)) as Hc. pose proof Hc as [Hm Hcw].
  wp_step. eapply wp_stream; [exact Hs|]. wp_step. apply wp_ctx. rewrite Hw, Hrem. destruct (Z.ltb_spec 0 (Zlen (queued s))); [|wp_step; split; [done|by eexists]].
  assert (wp (set_errno EAGAIN ;; @fail h2 unit) h (fun h' _ => good own h0 h' /\ is_Some (h_streams h' !! p)) (fun h' => good own h0 h' /\ is_Some (h_streams h' !! p))) as Hagain.
  { wp_step. apply wp_set_errno. wp_step. split; [by apply good_errno|by eexists]. }
  wp_step; [exact Hagain|]. bools. pose proof Hq as (_&[_ Hcap]&Hsw). pose proof (queued_waits s Hq) as _.
  assert (Zlen (queued s) <= INT_MAX) as Hqi. { apply capacity_range in Hcap. destruct Hq as (?&[? _]&_). sizes. lia. }
  rewrite limit_send_spec by (done || lia). set (n := Z.min _ _). wp_step; [exact Hagain|].
  wp_step. apply wp_access. exists (take (Z.to_nat n) (queued s)). split; [apply queued_chunk; [done|done|lia]|].
  assert (Zlen (take (Z.to_nat n) (queued s)) = n) as Hln by (unfold Zlen in *; rewrite length_take; lia).
  wp_step. eapply wp_mono; [apply (send_data_safe malloc_ok own h0); [done|lia]| |].
  2: { intros h1 [Hg1 Hio]. split; [done|]. rewrite (io_same_streams _ _ Hio). by eexists. }
  intros h1 _ [Hg1 Hio]. pose proof (io_same_streams _ _ Hio) as Hstr. do 2 apply wp_bind_assoc. wp_step.
  eapply wp_mono; [apply advance_run; by rewrite Hstr| |done]. intros h3 [] ->.
  pose proof (advance_ok n s Hok ltac:(lia) ltac:(lia)) as Hok1. destruct (advance_facts n s Hq ltac:(lia)) as [_ Hqq].
  match goal with |- wp _ (with_body _ _ ?s' _) _ _ => set (s1 := s') end.
  assert (link s1 = link s /\ stream_ok s1 /\ Zlen (queued s1) = Zlen (queued s) - n) as (Hl1&Hs1&Hq1).
  { assert (Zlen (queued (advance n s)) = Zlen (queued s) - n) as Hx by (rewrite Hqq; unfold Zlen in *; rewrite length_drop; lia).
    subst s1. destruct (_ && _); [|done]. destruct (mark_end_sent_ok (advance n s)) as [-> Hmk]. destruct (mark_end_sent_facts (advance n s)) as (_&_&_&_&_&HD&HE&_).
    split_and!; [done|by apply Hmk|]. unfold queued in *. by rewrite HD, HE. }
  apply (IH _ s1); [|unfold with_body; h2_simpl; apply lookup_insert_eq|lia].
  apply (moved_good h1 p s); try done; [by rewrite Hstr|]. rewrite (io_same_part (fun h => send_conn_window_size (h_ctx h)) h h1 Hio (fun _ => eq_refl)). lia.
Qed.

Definition keeps (p : nat) (h' : h2) : Prop := good own h0 h' /\ is_Some (h_streams h' !! p).

Lemma upd_stream_keeps p f h (Q : h2 -> unit -> Prop) E : keeps p h -> (forall s, link (f s) = link s) -> (forall s, stream_ok s -> stream_ok (f s)) ->
  (forall h', keeps p h' -> Q h' tt) -> wp (upd_stream p f) h Q E.
Proof.
  intros [Hg [s Hs]] Hl Hok HQ. eapply g_upd_stream; [exact Hg|exact Hs|done|by apply Hok|]. intros Hg1. apply HQ. split; [done|]. h2_simpl. rewrite lookup_insert_eq. by eexists.
Qed.

Lemma sends_keeps {A} (m : H A) p h : keeps p h -> sends own h0 m h -> wp m h (fun h' _ => keeps p h') (keeps p).
Proof.
  intros [_ Hp] Hm. eapply wp_mono; [exact Hm|intros h' a [Hg Hio]|intros h' [Hg Hio]]; (split; [done|]); by rewrite (io_same_streams _ _ Hio).
Qed.

Lemma clear_ok s : stream_ok s -> stream_ok (set_pending_send_end_stream false (set_pending_send_body_offset 0 (set_pending_send_body_size 0 (set_pending_send_body [] s)))).
Proof. stream_ok_upd. by left. Qed.

Lemma flush_pending_send_safe p h : keeps p h -> wp (_http2_stream_flush_pending_send malloc_ok p) h (fun h' _ => keeps p h') (keeps p).
Proof.
  intros [Hg [s Hs]]. unfold _http2_stream_flush_pending_send. wp_step. eapply wp_stream; [exact Hs|]. wp_step. apply wp_guard; [intros _|intros _; split; [done|by eexists]].
  wp_step. eapply wp_mono; [apply (flush_loop_safe _ p h s); [done|done|unfold queued, Zlen; rewrite length_drop; lia]| |done].
  intros h1 [] Hk1. pose proof Hk1 as [Hg1 [s1 Hs1]]. wp_step. eapply wp_stream; [exact Hs1|]. wp_step.
  apply (wp_mono _ _ (fun h' _ => keeps p h') _ (keeps p)); [| |done].
  - wp_step; [|wp_step; done]. wp_step. eapply wp_mono; [apply sends_keeps; [done|by apply send_data_safe]| |done]. intros h3 n Hk3.
    apply upd_stream_keeps; [done| | |done]; intros s'; by apply mark_end_sent_ok.
  - intros h3 [] Hk3. apply upd_stream_keeps; [done|done|apply clear_ok|done].
Qed.

Lemma queue_send_body_safe p data e h : keeps p h -> Zlen data < 2 ^ 30 -> wp (_http2_stream_queue_send_body malloc_ok p data e) h (fun h' _ => keeps p h') (keeps p).
Proof.
  intros [Hg [s Hs]] Hl. pose proof (good_stream_ok _ _ _ _ _ Hg Hs) as Hok. pose proof Hok as (_&_&_&_&_&_&Hq&_).
  eapply wp_mono; [by apply (queue_send_body_run malloc_ok p data e h s)| |].
  - intros h' [] [_ (s'&->&Hq'&Hcore&_)]. split; [|h2_simpl; rewrite lookup_insert_eq; by eexists].
    apply (good_upd_stream own h0 h p s (fun _ => s')); try done.
    + by rewrite (queue_core_part link s s' Hcore).
    + intros (H1&H2&H3&H4&H5&H6&H7&H8). unfold stream_ok.
      rewrite (queue_core_part send_window_size s s'), (queue_core_part recv_window_size s s'), (queue_core_part body_buffer s s'), (queue_core_part body_buffer_size s s'), (queue_core_part body_read_offset s s'), (queue_core_part header_list s s'), (queue_core_part end_stream_received s s'), (queue_core_part s_ctx s s') by done. done.
  - intros h' [[->|[err ->]] _]; (split; [|by eexists]); [done|by apply good_errno].
Qed.
End Bodies.

Lemma wp_hard_error_both {A} (m : H A) h (Q : h2 -> Prop) E : wp m h (fun h' _ => Q h') Q -> wp (hard_error m) h (fun h' _ => Q h') E.
Proof. intros Hm. by apply wp_hard_error. Qed.

Lemma flush_streams_safe malloc_ok own h0 l h : inv own h -> input h = input h0 -> NoDup l -> (forall p, p ∈ l -> is_Some (h_streams h !! p)) ->
  wp (flush_streams malloc_ok l) h (fun h' _ => inv own h' /\ input h' = input h0) (fun _ => False).
Proof.
  intros Hi Hin Hnd. revert h Hi Hin. induction Hnd as [|p l Hp Hnd IH]; intros h Hi Hin Hl; cbn [flush_streams]; [by wp_step|].
  destruct (Hl p) as [s Hs]; [by left|]. wp_step. eapply wp_stream; [exact Hs|]. wp_step.
  apply (wp_mono _ _ (fun h' _ => good_but p own h h') _ (fun _ => False)); [| |done].
  2: { intros h1 [] (Hi1&Hin1&Ha1). apply IH; [done|by rewrite Hin1|]. intros q Hq. apply Ha1; [by intros ->|]. apply Hl. by right. }
  wp_step; [|wp_step; by apply good_good_but, good_refl].
  wp_step. eapply wp_mono; [apply (wp_hard_error_both _ _ (keeps own h p) (fun _ => False)), flush_pending_send_safe; split; [by apply good_refl|by eexists]| |done].
  intros h1 b [Hg1 [s1 Hs1]]. destruct b; [wp_step; by apply good_good_but|]. wp_step. eapply wp_stream; [exact Hs1|]. wp_step.
  - apply remove_stream_safe; [done|by eexists].
  - wp_step. by apply good_good_but.
Qed.

Lemma flush_bodies_safe malloc_ok own h : inv own h -> wp (_http2_ctx_flush_pending_send_bodies malloc_ok) h (fun h' _ => inv own h' /\ input h' = input h) (fun _ => False).
Proof.
  intros Hi. pose proof Hi as ((_&Hl&_)&_). destruct Hl as (Hnd&_&Hl&_). unfold _http2_ctx_flush_pending_send_bodies. wp_step. apply wp_ctx.
  by apply (flush_streams_safe malloc_ok own h).
Qed.
