(* ===== verification/Http2SafeFrames.v ===== *)
(** * HTTP/2: the frames that arrive (src/http_parse/http2.c)

    Every frame handler keeps the invariant, whatever the frame holds. *)

From Stdlib Require Import ZArith Lia.
From stdpp Require Import base list numbers option gmap.
From S2P Require Import Prelude Hpack HpackSpec HpackTable HpackHeaders HpackDecode HpackCorrect DnsCache Http2Types Http2 Http2Send Http2Body Http2Inv Http2Safe Http2SafeIn.

(** ** DATA *)

Lemma grow_size_small fuel n needed h : 1 <= n <= 2097152 -> needed <= 1048576 -> 2 ^ 32 <= n * 2 ^ Z.of_nat fuel ->
  wp (grow_size fuel n needed) h (fun h' r => h' = h /\ needed <= r /\ 1 <= r <= 2097152) (fun _ => False).
Proof.
  change (2 ^ 32) with 4294967296. revert n. induction fuel as [|fuel IH]; intros n Hn Hneed Hf; cbn [grow_size]; (destruct (Z.ltb_spec n needed); [|wp_step; split_and!; done || lia]).
  - change (2 ^ Z.of_nat 0) with 1 in Hf. lia.
  - rewrite safe_buffer_size_2 by lia. destruct (Z.ltb_spec 1073741823 n); [lia|]. apply (IH (2 * n)); [lia|lia|]. rewrite Nat2Z.inj_succ, Z.pow_succ_r in Hf by lia. lia.
Qed.

Section Data.
Variable malloc_ok : bool.
Variable own : nat -> Z.
Variable h0 : h2.

(** The stream and the receive windows. *)
Definition received (p : nat) (window swindow : Z) (h' : h2) : Prop :=
  good own h0 h' /\ recv_conn_window_size (h_ctx h') = window /\ exists s, h_streams h' !! p = Some s /\ recv_window_size s = swindow.

Lemma received_sends {A} (m : H A) p w sw h (Q : h2 -> A -> Prop) (E : h2 -> Prop) : received p w sw h -> sends own h0 m h ->
  (forall h' a, received p w sw h' -> Q h' a) -> (forall h', received p w sw h' -> E h') -> wp m h Q E.
Proof.
  intros (Hg&Hw&s&Hs&Hsw) Hm HQ HE.
  assert (forall h', good own h0 h' -> io_same h h' -> received p w sw h') as Hr.
  { intros h' Hg' Hio. split_and!; [done|by rewrite (io_same_part (fun h => recv_conn_window_size (h_ctx h)) h h' Hio)|]. exists s. by rewrite (io_same_streams _ _ Hio). }
  eapply wp_mono; [exact Hm|intros h' a [? ?]; apply HQ|intros h' [? ?]; apply HE]; by apply Hr.
Qed.

Lemma received_upd p f h w sw (Q : h2 -> unit -> Prop) E : received p w sw h -> (forall s, link (f s) = link s /\ recv_window_size (f s) = recv_window_size s) ->
  (forall s, stream_ok s -> stream_ok (f s)) -> (forall h', received p w sw h' -> Q h' tt) -> wp (upd_stream p f) h Q E.
Proof.
  intros (Hg&Hw&s&Hs&Hsw) Hl Hok HQ. eapply g_upd_stream; [exact Hg|exact Hs|apply Hl|apply Hok|]. intros Hg1. apply HQ. split_and!; [done|done|].
  exists (f s). h2_simpl. rewrite lookup_insert_eq. split; [done|]. by rewrite (proj2 (Hl s)).
Qed.

(** The window updates at the end of a DATA frame. *)
Lemma window_updates_safe p id len w sw h : received p (w - len) (sw - len) h -> 0 < len -> w <= 65535 -> sw <= 65535 -> 0 <= w - len -> 0 <= sw - len ->
  wp (_http2_send_window_update malloc_ok 0 len ;;
      upd_ctx (fun c => set_recv_conn_window_size (recv_conn_window_size c + len) c) ;;
      s <- stream p (fun s => s) ;;
      if negb (end_stream_received s) && negb (bool_decide (s_state s = HTTP2_STREAM_CLOSED)) then
        sent <- try (_http2_send_window_update malloc_ok id len) ;;
        match sent with
        | None => upd_ctx (fun c => set_recv_conn_window_size (recv_conn_window_size c - len) c) ;; fail
        | Some _ => upd_stream p (fun s => set_recv_window_size (recv_window_size s + len) s)
        end
      else ret tt) h (fun h' _ => good own h0 h') (good own h0).
Proof.
  intros Hr Hl Hw Hsw Hw0 Hsw0. wp_step. eapply received_sends; [exact Hr|apply send_window_update_safe, Hr| |by intros h' (?&_)].
  intros h1 _ (Hg1&Hw1&s1&Hs1&Hsw1). wp_step. eapply g_upd_ctx; [exact Hg1| |done|done|].
  { ctx_ok_upd. }
  intros Hg2. wp_step. eapply wp_stream; [exact Hs1|]. wp_step; [|by wp_step].
  assert (received p w (sw - len) (set_h_ctx (set_recv_conn_window_size (recv_conn_window_size (h_ctx h1) + len) (h_ctx h1)) h1)) as Hr2.
  { split_and!; [done|h2_simpl; lia|by exists s1]. }
  wp_step. apply wp_try. eapply received_sends; [exact Hr2|apply send_window_update_safe, Hr2| |].
  - intros h3 _ (Hg3&Hw3&s3&Hs3&Hsw3). cbv beta. eapply g_upd_stream; [exact Hg3|exact Hs3|done| |done]. stream_ok_upd.
  - intros h3 (Hg3&Hw3&s3&Hs3&Hsw3). cbv beta. wp_step. eapply g_upd_ctx; [exact Hg3| |done|done|]; [ctx_ok_upd|]. intros Hg4. by wp_step.
Qed.

(** The buffer of the body is large enough. *)
Lemma body_room_safe p id needed h s : good own h0 h -> h_streams h !! p = Some s -> 1 <= body_buffer_size s -> needed <= 1048576 ->
  wp (if body_buffer_size s <? needed then
        grown <- try (match safe_buffer_size (body_buffer_size s) 2 with
                      | None => fail
                      | Some new_size => n <- grow_size 32 new_size needed ;; guard malloc_ok ;; ret n
                      end) ;;
        match grown with
        | None => try (http2_send_rst_stream malloc_ok id HTTP2_RST_INTERNAL_ERROR) ;; fail
        | Some new_size => upd_stream p (set_body_buffer_size new_size)
        end
      else ret tt) h
    (fun h' _ => exists n, h' = set_h_streams (<[p := set_body_buffer_size n s]> (h_streams h)) h /\ needed <= n /\ 1 <= n <= 2097152) (good own h0).
Proof.
  intros Hg Hs Hsz1 Hn. destruct (good_stream_ok _ _ _ _ _ Hg Hs) as (_&_&_&_&[Hsz _]&_).
  assert (wp (try (http2_send_rst_stream malloc_ok id HTTP2_RST_INTERNAL_ERROR) ;; fail) h
    (fun h' (_ : unit) => exists n, h' = set_h_streams (<[p := set_body_buffer_size n s]> (h_streams h)) h /\ needed <= n /\ 1 <= n <= 2097152) (good own h0)) as Hrst.
  { wp_step. apply (wp_try_sends own h0); [by apply send_rst_safe|]. intros h1 _ Hg1 _. by wp_step. }
  wp_step.
  - wp_step. apply wp_try. rewrite safe_buffer_size_2 by lia. destruct (Z.ltb_spec 1073741823 (body_buffer_size s)); [lia|].
    wp_step. eapply wp_mono; [apply (grow_size_small 32 (2 * body_buffer_size s) needed); [lia|lia|]| |done].
    { change (2 ^ Z.of_nat 32) with 4294967296. change (2 ^ 32) with 4294967296. lia. }
    intros h1 r (->&Hr&Hr'). wp_step. apply wp_guard; [intros _|intros _; exact Hrst]. wp_step. cbv beta. eapply wp_upd_stream; [exact Hs|]. by exists r.
  - wp_step. exists (body_buffer_size s). split_and!; try lia. replace (set_body_buffer_size (body_buffer_size s) s) with s by by destruct s. rewrite insert_id by done. by destruct h.
Qed.

Lemma end_body_safe p flags st h w sw : received p w sw h ->
  wp (if has_flag flags HTTP2_FLAG_END_STREAM then
        upd_stream p (set_end_stream_received true) ;;
        if bool_decide (st = HTTP2_STREAM_OPEN) then upd_stream p (set_s_state HTTP2_STREAM_HALF_CLOSED_REMOTE)
        else if bool_decide (st = HTTP2_STREAM_HALF_CLOSED_LOCAL) then upd_stream p (set_s_state HTTP2_STREAM_CLOSED)
        else ret tt
      else ret tt) h (fun h' _ => received p w sw h') (fun _ => False).
Proof.
  intros Hr. wp_step; [|by wp_step]. wp_step. eapply received_upd; [exact Hr|done|apply end_received_ok|]. intros h1 Hr1.
  destruct (bool_decide (st = HTTP2_STREAM_OPEN)); [by eapply received_upd|]. destruct (bool_decide (st = _)); [by eapply received_upd|by wp_step].
Qed.

Lemma process_data_frame_safe id data flags h : good own h0 h -> Zlen data <= 16777215 ->
  wp (_http2_process_data_frame malloc_ok id data flags) h (fun h' _ => good own h0 h') (good own h0).
Proof.
  intros Hg Hlen. pose proof (Zlen_nonneg data). unfold _http2_process_data_frame. wp_step; [by apply connection_error_safe, send_goaway_safe|].
  wp_step. eapply wp_mono; [by apply (find_stream_safe own h0)| |done]. intros h' [p|] [-> Hp].
  2: { wp_step. apply wp_ctx. wp_step; [|by apply connection_error_safe, send_rst_safe]. wp_step. apply (wp_try_sends own h0); [by apply send_rst_safe|]. intros h1 _ Hg1 _. by wp_step. }
  destruct (good_listed _ _ _ p Hg (Hp p eq_refl)) as [s Hs]. pose proof (good_stream_ok _ _ _ _ _ Hg Hs) as Hok. pose proof Hok as (_&Hrw&Hbl&Hbs&Hbsz&_).
  pose proof (good_listed_ctx _ _ _ _ _ Hg (Hp p eq_refl) Hs) as Hctx.
  assert (forall h1, good own h0 h1 -> h_streams h1 = h_streams h -> wp (_http2_mark_stream_reset p) h1 (fun h' _ => good own h0 h') (good own h0)) as Hreset.
  { intros h1 Hg1 Hst. eapply wp_mono; [apply (mark_stream_reset_safe own h0 p h1 Hg1); rewrite Hst; by eexists|done|done]. }
  wp_step. eapply wp_stream; [exact Hs|]. wp_step.
  { wp_step; [|by apply connection_error_safe, send_rst_safe]. wp_step. apply (wp_try_sends own h0); [by apply send_rst_safe|]. intros h1 _ Hg1 Hio. apply Hreset; [done|by apply io_same_streams]. }
  wp_step; [wp_step; apply (wp_try_sends own h0); [by apply send_rst_safe|]; intros h1 _ Hg1 _; by wp_step|].
  wp_step. eapply wp_mono; [apply (check_content_length_safe malloc_ok own h0 p); [done|by eexists]| |done]. intros h1 r (Hg1&Hst1&Hr).
  destruct r; [by apply Hreset|]. rewrite (Hr eq_refl) in *. clear Hr Hst1 Hg1 h1. wp_step; [by apply connection_error_safe, send_rst_safe|].
  wp_step. apply wp_ctx. wp_step; [by apply connection_error_safe, send_rst_safe|]. bools.
  destruct (good_ctx_ok _ _ _ Hg) as (_&_&_&Hcw&_). pose proof (Zlen_nonneg (body_buffer s)).
  assert (1 <= body_buffer_size s) as Hsz1 by (destruct Hbsz as [_ [?|[?|?]]]; [done|congruence|congruence]).
  wp_step. eapply wp_mono; [by apply body_room_safe|cbv beta|done]. intros h1 [] (n&->&Hn&Hn1).
  wp_step. apply wp_stream_same. wp_step. apply wp_access. exists tt. split; [h2_simpl; by rewrite (proj2 (Z.leb_le _ _) Hn)|].
  wp_step. apply wp_upd_stream_same. match goal with |- wp _ (set_h_streams (<[_ := ?x]> _) _) _ _ => set (s2 := x) end.
  assert (stream_ok s2) as Hok2. { subst s2. revert Hok. stream_ok_upd; rewrite Zlen_app; lia. }
  pose proof (good_upd_stream own h0 h p s (fun _ => s2) Hg Hs eq_refl (fun _ => Hok2)) as Hg2. cbv beta in Hg2.
  wp_step. eapply g_upd_ctx; [exact Hg2|ctx_ok_upd|done|done|]. intros Hg3.
  assert (received p (recv_conn_window_size (h_ctx h) - Zlen data) (recv_window_size s - Zlen data) (set_h_ctx (set_recv_conn_window_size (recv_conn_window_size (h_ctx h) - Zlen data) (h_ctx h)) (set_h_streams (<[p := s2]> (h_streams h)) h))) as Hr3.
  { split_and!; [exact Hg3|done|]. exists s2. split; [apply lookup_insert_eq|done]. }
  wp_step. eapply wp_mono; [by apply end_body_safe|cbv beta|done]. intros h4 [] Hr4. wp_step; [|wp_step; apply Hr4].
  apply window_updates_safe with (w := recv_conn_window_size (h_ctx h)) (sw := recv_window_size s); done || lia.
Qed.
End Data.

(** ** HEADERS and CONTINUATION *)

Lemma block_capacity_safe fuel n needed (h : h2) : 4096 <= n <= 65536 -> needed <= 65536 -> 65536 <= n * 2 ^ Z.of_nat fuel ->
  wp (block_capacity fuel n needed) h (fun h' r => h' = h /\ needed <= r /\ 4096 <= r <= 65536) (fun _ => False).
Proof.
  revert n. induction fuel as [|fuel IH]; intros n Hn Hneed Hf; cbn [block_capacity]; (destruct (Z.ltb_spec n needed); [|wp_step; split_and!; done || lia]).
  - change (2 ^ Z.of_nat 0) with 1 in Hf. lia.
  - rewrite safe_buffer_size_2 by lia. destruct (Z.ltb_spec 1073741823 n); [lia|]. unfold HTTP2_MAX_HEADER_BLOCK_SIZE. rewrite Nat2Z.inj_succ, Z.pow_succ_r in Hf by lia.
    wp_step. apply wp_guard; [intros _|intros Hx; destruct (Z.ltb_spec 65536 (2 * n)); bools; lia].
    apply IH; destruct (Z.ltb_spec 65536 (2 * n)); lia.
Qed.

Section Headers.
Variable malloc_ok : bool.
Variable own : nat -> Z.
Variable h0 : h2.

(** A change of the connection only. *)
Definition same_streams (h h' : h2) : Prop := good own h0 h' /\ h_streams h' = h_streams h.

Lemma append_header_block_safe data h : good own h0 h -> Forall is_byte data ->
  wp (_http2_append_header_block malloc_ok data) h (fun h' _ => same_streams h h') (same_streams h).
Proof.
  intros Hg Hb. pose proof (Zlen_nonneg data). destruct (good_ctx_ok _ _ _ Hg) as (_&_&_&_&_&_&Hhb&Hbytes&Hcap&_). pose proof (Zlen_nonneg (header_block (h_ctx h))).
  unfold _http2_append_header_block. wp_step. apply wp_ctx. unfold HTTP2_MAX_HEADER_BLOCK_SIZE. wp_step. wp_step; [|done].
  set (needed := Zlen (header_block (h_ctx h)) + Zlen data). wp_step.
  apply (wp_mono _ _ (fun h' _ => exists n, h' = set_h_ctx (set_header_block_capacity n (h_ctx h)) h /\ needed <= n <= 65536 /\ (n = 0 \/ 4096 <= n)) _ (same_streams h)); [| |done].
  - wp_step.
    + wp_step. eapply wp_mono; [apply (block_capacity_safe 16); [destruct (Z.eqb_spec (header_block_capacity (h_ctx h)) 0); lia|lia|]| |done].
      { change (2 ^ Z.of_nat 16) with 65536. destruct (Z.eqb_spec (header_block_capacity (h_ctx h)) 0); lia. }
      intros h1 n (->&Hn&Hn1). wp_step. apply wp_guard; [intros _|done]. apply wp_upd_ctx. exists n. split_and!; done || lia.
    + wp_step. exists (header_block_capacity (h_ctx h)). split_and!; try lia. by destruct h as [[]].
  - intros h1 [] (n&->&Hn&Hn0). wp_step. apply wp_ctx. h2_simpl. wp_step. apply wp_access. exists tt. split; [by rewrite (proj2 (Z.leb_le needed n)) by lia|].
    apply wp_upd_ctx. split; [|done]. apply (good_upd_ctx own h0 h (fun c => set_header_block (header_block (h_ctx h) ++ data) (set_header_block_capacity n c))); try done.
    ctx_ok_upd. { rewrite Zlen_app. subst needed. lia. } by apply Forall_app.
Qed.

Lemma clear_continuation_safe h : good own h0 h -> wp _http2_clear_continuation h (fun h' _ => same_streams h h') (fun _ => False).
Proof. intros Hg. eapply g_upd_ctx; [exact Hg| |done|done|intros Hg1; by split]. ctx_ok_upd; done || by left. Qed.

Lemma decode_header_block_safe headers h : good own h0 h -> Forall field_strings headers ->
  wp (decode_header_block malloc_ok headers) h (fun h' r => same_streams h h' /\ Forall field_strings r.1) (fun _ => False).
Proof.
  intros Hg Hh. destruct (good_ctx_ok _ _ _ Hg) as (_&_&_&_&_&_&Hhb&Hbytes&_&_&Hdec&_). unfold decode_header_block. wp_step. apply wp_ctx.
  set (b := header_block (h_ctx h)) in *. pose proof (Zlen_nonneg b).
  pose proof (decode_fields_safe malloc_ok (fun _ _ _ => malloc_ok) b (Zlen b) Hbytes ltac:(lia) ltac:(sizes; lia) (Z.to_nat (Zlen b)) 0 false (decoder (h_ctx h), headers) ltac:(lia) ltac:(lia) (conj Hdec Hh)) as Hd.
  unfold wp in Hd. fold (hpack_decode_headers malloc_ok (fun _ _ _ => malloc_ok) b (Zlen b)) in Hd.
  destruct (hpack_decode_headers malloc_ok (fun _ _ _ => malloc_ok) b (Zlen b) (decoder (h_ctx h), headers)) as [[d hs] []|[d hs]| |]; try done;
    destruct Hd as ((Hd&Hs)&_); (wp_step; eapply g_upd_ctx; [exact Hg| |done|done|intros Hg1; wp_step; by split_and!]; ctx_ok_upd; apply Hd).
Qed.

(** The stream of a header block, if it has one. *)
Definition has_stream (p : option nat) (h : h2) : Prop := good own h0 h /\ match p with Some p => is_Some (h_streams h !! p) | None => True end.

Lemma has_stream_same p h h' : has_stream p h -> same_streams h h' -> has_stream p h'.
Proof. intros [_ Hp] [Hg Hs]. split; [done|]. by rewrite Hs. Qed.

Lemma has_stream_sends {A} (m : H A) p h (Q : h2 -> option A -> Prop) E : has_stream p h -> sends own h0 m h -> (forall h' r, has_stream p h' -> Q h' r) -> wp (try m) h Q E.
Proof.
  intros [_ Hp] Hm HQ. apply (wp_try_sends own h0); [done|]. intros h1 r Hg1 Hio. apply HQ. split; [done|]. by rewrite (io_same_streams _ _ Hio).
Qed.

Lemma refuse_safe id h : good own h0 h -> wp (try (http2_send_rst_stream malloc_ok id HTTP2_RST_REFUSED_STREAM) ;; ret tt) h (fun h' _ => good own h0 h') (good own h0).
Proof. intros Hg. wp_step. apply (wp_try_sends own h0); [by apply send_rst_safe|]. intros h1 _ Hg1 _. by wp_step. Qed.

Lemma end_headers_safe p id h : keeps own h0 p h ->
  wp (s <- stream p (fun s => s) ;;
      reset <- _http2_check_content_length malloc_ok p id (Zlen (body_buffer s)) true ;;
      if reset : bool then _http2_mark_stream_reset p
      else
        upd_stream p (set_end_stream_received true) ;;
        s <- stream p (fun s => s) ;;
        if bool_decide (s_state s = HTTP2_STREAM_OPEN) then upd_stream p (set_s_state HTTP2_STREAM_HALF_CLOSED_REMOTE) else ret tt) h
    (fun h' _ => good own h0 h') (good own h0).
Proof.
  intros [Hg [s Hs]]. wp_step. eapply wp_stream; [exact Hs|]. wp_step. eapply wp_mono; [apply (check_content_length_safe malloc_ok own h0 p); [done|by eexists]| |done].
  intros h1 r (Hg1&Hst1&_). destruct r; [eapply wp_mono; [apply (mark_stream_reset_safe own h0 p h1 Hg1); rewrite Hst1; by eexists|done|done]|].
  wp_step. eapply (upd_stream_keeps own h0); [split; [exact Hg1|rewrite Hst1; by eexists]|done|apply end_received_ok|]. intros h3 Hk3. pose proof Hk3 as [Hg3 [s3 Hs3]].
  wp_step. eapply wp_stream; [exact Hs3|]. wp_step; [|by wp_step]. eapply (upd_stream_keeps own h0); [exact Hk3|done|done|]. by intros h4 [? _].
Qed.

Lemma finish_headers_safe p id flags (refuse : bool) h : has_stream p h -> wp (finish_headers malloc_ok p id flags refuse) h (fun h' _ => good own h0 h') (good own h0).
Proof.
  intros Hp. unfold finish_headers. wp_step. apply wp_ctx. wp_step.
  apply (wp_mono _ _ (fun h' hs => h' = h /\ Forall field_strings hs) _ (fun _ => False)); [| |done].
  { destruct p as [p|]; [|wp_step; by split]. destruct Hp as [Hg [s Hs]]. eapply wp_stream; [exact Hs|]. split; [done|]. by destruct (good_stream_ok _ _ _ _ _ Hg Hs) as (_&_&_&_&_&_&_&?). }
  intros h' hs [-> Hhs]. wp_step. apply (wp_mono _ _ (fun h' _ => has_stream p h') _ (good own h0)); [| |done].
  - wp_step; [|by wp_step]. wp_step. eapply wp_mono; [apply decode_header_block_safe; [apply Hp|done]| |done]. intros h1 r [Hs1 Hr]. pose proof (has_stream_same _ _ _ Hp Hs1) as Hp1.
    wp_step. apply (wp_mono _ _ (fun h' _ => has_stream p h') _ (fun _ => False)); [| |done].
    + assert (Forall field_strings (if malloc_ok then r.1 else hs)) as Hnew by by case_match. destruct p as [p|]; [|by wp_step].
      apply (upd_stream_keeps own h0); [done|done| |done]. intros s Hs. by destruct Hs as (?&?&?&?&?&?&?&?).
    + intros h3 [] Hp3. destruct r.2; [by wp_step|]. wp_step. eapply has_stream_sends; [exact Hp3|apply send_rst_safe, Hp3|]. intros h4 _ Hp4.
      wp_step. eapply wp_mono; [apply clear_continuation_safe, Hp4| |done]. intros h5 [] [Hg5 _]. by wp_step.
  - intros h1 [] Hp1. wp_step. eapply wp_mono; [apply clear_continuation_safe, Hp1| |done]. intros h3 [] Hs3. pose proof (has_stream_same _ _ _ Hp1 Hs3) as Hp3.
    destruct p as [p|]; [|apply refuse_safe, Hp3]. destruct refuse; [apply refuse_safe, Hp3|]. pose proof Hp3 as [Hg3 [s Hs]].
    wp_step. eapply wp_stream; [exact Hs|]. wp_step. apply (wp_mono _ _ (fun h' _ => keeps own h0 p h' /\ forall s', h_streams h' !! p = Some s' -> body_buffer s' = body_buffer s) _ (fun _ => False)); [| |done].
    + wp_step; [|wp_step; split; [done|]; intros s'; rewrite Hs; by intros [= <-]]. eapply g_upd_stream; [exact Hg3|exact Hs|done|done|]. intros Hg4. split; [split; [done|]|]; h2_simpl; rewrite lookup_insert_eq; [by eexists|]. by intros s' [= <-].
    + intros h4 [] [Hk4 Hb]. wp_step; [|wp_step; apply Hk4]. pose proof (end_headers_safe p id h4 Hk4) as He. destruct Hk4 as [Hg4 [s4 Hs4]].
      unfold wp in He. revert He. cbv beta. unfold bind at 1, stream at 1, get, access, ret. unfold bind at 1 2. rewrite Hs4. rewrite (Hb s4 Hs4). done.
Qed.

Lemma headers_stream_safe id (cont refuse : bool) h : good own h0 h ->
  wp (headers_stream malloc_ok id cont refuse) h (fun h' r => match r with inl _ => good own h0 h' | inr (p, _) => has_stream p h' end) (good own h0).
Proof.
  intros Hg. unfold headers_stream. wp_step. eapply wp_mono; [by apply (find_stream_safe own h0)| |done]. intros h' [p|] [-> Hp].
  - destruct (good_listed _ _ _ p Hg (Hp p eq_refl)) as [s Hs]. wp_step. eapply wp_stream; [exact Hs|]. wp_step; [|wp_step; split; [done|by eexists]]. wp_step.
    + wp_step. apply (wp_try_sends own h0); [by apply send_rst_safe|]. intros h1 _ Hg1 Hio. wp_step.
      eapply wp_mono; [apply (mark_stream_reset_safe own h0 p h1 Hg1); rewrite (io_same_streams _ _ Hio); by eexists| |done]. intros h3 [] Hg3. by wp_step.
    + wp_step. by apply connection_error_safe, send_rst_safe.
  - wp_step; [wp_step; by apply connection_error_safe, send_goaway_safe|]. wp_step. apply wp_ctx. wp_step; [by wp_step|].
    wp_step. eapply wp_mono; [by apply (create_stream_safe malloc_ok own h0)| |done]. intros h1 [p|] [Hg1 Hp1]; wp_step; [|done]. by split.
Qed.

Lemma strip_headers_bytes data flags d n : Forall is_byte data -> strip_headers data flags = Some (d, n) -> Forall is_byte d /\ 0 <= n.
Proof.
  intros Hb. unfold strip_headers. destruct (has_flag flags HTTP2_FLAG_PADDED); [destruct data as [|b data]; [done|]; apply list.Forall_cons in Hb as [Hb0 Hb]|];
    (destruct (has_flag flags HTTP2_FLAG_PRIORITY); [destruct (_ <? 5); [done|]|]; intros [= <- <-]; split; try by apply Forall_drop); try done; unfold is_byte in *; lia.
Qed.

Lemma process_headers_frame_safe id data flags (cont : bool) h : good own h0 h -> Forall is_byte data ->
  wp (_http2_process_headers_frame malloc_ok id data flags cont) h (fun h' _ => good own h0 h') (good own h0).
Proof.
  intros Hg Hb. unfold _http2_process_headers_frame. wp_step; [by apply connection_error_safe, send_goaway_safe|]. wp_step. apply wp_ctx.
  wp_step; [by apply connection_error_safe, send_goaway_safe|].
  assert (forall d n, (if cont then Some (data, 0) else strip_headers data flags) = Some (d, n) -> Forall is_byte d) as Hd.
  { intros d n. destruct cont; [by intros [= <- _]|]. intros Hx. by apply (strip_headers_bytes data flags d n) in Hx as [? _]. }
  destruct (if cont then Some (data, 0) else strip_headers data flags) as [[d n]|]; [|by wp_step]. specialize (Hd d n eq_refl).
  wp_step. apply wp_guard; [intros _|done]. wp_step. eapply wp_mono; [by apply headers_stream_safe| |done]. intros h1 [[]|[p refuse]] Hp1; [by wp_step|].
  wp_step. apply (wp_mono _ _ (fun h' _ => has_stream p h') _ (fun _ => False)); [| |done].
  { destruct p as [p|]; [|by wp_step]. destruct cont; [by wp_step|]. apply (upd_stream_keeps own h0); [done|done| |done]. intros s Hs. by destruct Hs as (?&?&?&?&?&?&?&?). }
  intros h3 [] Hp3. wp_step. apply wp_try. eapply wp_mono; [apply append_header_block_safe; [apply Hp3|by apply Forall_take]| |].
  - intros h4 [] Hs4. pose proof (has_stream_same _ _ _ Hp3 Hs4) as Hp4. cbv beta. wp_step; [|by apply finish_headers_safe].
    destruct cont; [wp_step; apply Hp4|]. eapply g_upd_ctx; [apply Hp4| |done|done|done]. by ctx_ok_upd.
  - intros h4 Hs4. pose proof (has_stream_same _ _ _ Hp3 Hs4) as Hp4. cbv beta. wp_step. eapply has_stream_sends; [exact Hp4|apply send_rst_safe, Hp4|]. intros h5 _ Hp5.
    wp_step. eapply wp_mono; [apply clear_continuation_safe, Hp5| |done]. intros h6 [] [Hg6 _]. by wp_step.
Qed.
End Headers.

(** ** SETTINGS and WINDOW_UPDATE *)

Section Settings.
Variable malloc_ok : bool.
Variable own : nat -> Z.
Variable h0 : h2.

Lemma move_windows_safe delta l h : good own h0 h -> (forall p, p ∈ l -> is_Some (h_streams h !! p)) -> - INT_MAX <= delta <= INT_MAX ->
  wp (move_windows malloc_ok delta l) h (fun h' _ => good own h0 h') (good own h0).
Proof.
  intros Hg Hl Hd. revert h Hg Hl. induction l as [|p l IH]; intros h Hg Hl; cbn [move_windows]; [by wp_step|].
  destruct (Hl p) as [s Hs]; [by left|]. pose proof (good_stream_ok _ _ _ _ _ Hg Hs) as Hok. wp_step. eapply wp_stream; [exact Hs|]. wp_step; [by apply connection_error_safe, send_goaway_safe|].
  wp_step. eapply g_upd_stream; [exact Hg|exact Hs|done| |].
  - stream_ok_upd; destruct Hok as (?&_&_&_&_&_&(_&_&?)&_); bools; sizes; lia.
  - intros Hg1. apply IH; [done|]. intros q Hq. h2_simpl. destruct (decide (q = p)) as [->|]; [rewrite lookup_insert_eq; by eexists|]. rewrite lookup_insert_ne by done. apply Hl. by right.
Qed.

Lemma process_setting_safe id value h : good own h0 h -> 0 <= value -> wp (process_setting malloc_ok id value) h (fun h' _ => good own h0 h') (good own h0).
Proof.
  intros Hg Hv. pose proof (good_ctx_ok _ _ _ Hg) as Hc. pose proof Hc as (_&_&_&_&Hiw&_&_&_&_&Henc&_).
  assert (wp (connection_error (_http2_send_goaway malloc_ok 0 HTTP2_RST_PROTOCOL_ERROR)) h (fun h' _ => good own h0 h') (good own h0)) as Herr by by apply connection_error_safe, send_goaway_safe.
  unfold process_setting. wp_step. apply wp_ctx. wp_step.
  { eapply g_upd_ctx; [exact Hg| |done|done|done]. set (v := if _ <? value then _ else value).
    assert (table_wf (hpack_resize_dynamic_table v (encoder (h_ctx h)))) as Hnew.
    { apply hpack_resize_wf; [done|]. subst v. unfold HTTP2_MAX_HEADER_TABLE_SIZE. destruct (Z.ltb_spec HPACK_MAX_DYNAMIC_TABLE_SIZE value); [unfold HPACK_MAX_DYNAMIC_TABLE_SIZE; lia|lia]. }
    ctx_ok_upd; apply Hnew. }
  wp_step; [wp_step; [exact Herr|by wp_step]|]. wp_step; [eapply g_upd_ctx; [exact Hg|by ctx_ok_upd|done|done|done]|].
  wp_step.
  { wp_step; [by apply connection_error_safe, send_goaway_safe|]. wp_step. eapply g_upd_ctx; [exact Hg|ctx_ok_upd|done|done|]. intros Hg1.
    apply move_windows_safe; [done| |sizes; lia]. intros p Hp. by apply (good_listed own h0 h). }
  wp_step. { wp_step; [exact Herr|]. eapply g_upd_ctx; [exact Hg|ctx_ok_upd|done|done|done]. }
  wp_step; [eapply g_upd_ctx; [exact Hg|by ctx_ok_upd|done|done|done]|by wp_step].
Qed.

Lemma read_uint32_range data : Forall is_byte data -> 0 <= read_uint32 data.
Proof. intros Hb. apply of_be_range. by apply Forall_take. Qed.

Lemma process_settings_safe n data h : good own h0 h -> Forall is_byte data -> wp (process_settings malloc_ok n data) h (fun h' _ => good own h0 h') (good own h0).
Proof.
  revert data h. induction n as [|n IH]; intros data h Hg Hb; cbn [process_settings]; [by wp_step|]. wp_step.
  eapply wp_mono; [apply process_setting_safe; [done|by apply read_uint32_range, Forall_drop]| |done]. intros h1 [] Hg1. apply IH; [done|by apply Forall_drop].
Qed.

Lemma process_settings_frame_safe data flags h : good own h0 h -> Forall is_byte data ->
  wp (_http2_process_settings_frame malloc_ok data flags) h (fun h' _ => good own h0 h') (good own h0).
Proof.
  intros Hg Hb. unfold _http2_process_settings_frame. wp_step; [wp_step; [by apply connection_error_safe, send_goaway_safe|by wp_step]|].
  wp_step; [by apply connection_error_safe, send_goaway_safe|]. wp_step. eapply wp_mono; [by apply process_settings_safe| |done]. intros h1 [] Hg1.
  wp_step. eapply g_upd_ctx; [exact Hg1|by ctx_ok_upd|done|done|]. intros Hg2. wp_step. eapply wp_mono; [by apply (send_settings_safe malloc_ok own h0)| |by intros h3 [? _]].
  intros h3 n [Hg3 _]. by wp_step.
Qed.
End Settings.

Lemma process_window_update_frame_safe malloc_ok own id data h : inv own h ->
  wp (_http2_process_window_update_frame malloc_ok id data) h (fun h' _ => inv own h' /\ input h' = input h) (fun h' => inv own h' /\ input h' = input h).
Proof.
  intros Hi. pose proof (good_refl _ _ Hi) as Hg.
  assert (forall m, sends own h m h -> wp (connection_error m) h (fun h' _ => inv own h' /\ input h' = input h) (fun h' => inv own h' /\ input h' = input h)) as Herr.
  { intros m Hm. eapply wp_mono; [apply (connection_error_safe own h m h (fun h' _ => inv own h' /\ input h' = input h) Hm)|done|]. by intros h' (?&?&_). }
  unfold _http2_process_window_update_frame. wp_step; [by apply Herr, send_goaway_safe|]. set (inc := Z.land _ _).
  wp_step; [apply Herr; destruct (id =? 0); [by apply send_goaway_safe|by apply send_rst_safe]|].
  assert (0 <= inc) as Hinc by (apply Z.land_nonneg; by right). wp_step.
  apply (wp_mono _ _ (fun h' _ => good own h h') _ (good own h)).
  3: { by intros h' (?&?&_). }
  2: { intros h1 [] (Hi1&Hin1&_). eapply wp_mono; [by apply flush_bodies_safe| |done]. intros h' [] [Hi' Hin']. split; [done|by rewrite Hin']. }
  wp_step.
  - wp_step. apply wp_ctx. pose proof (good_ctx_ok _ _ _ Hg) as (_&_&Hcw&_). wp_step; [by apply connection_error_safe, send_goaway_safe|]. bools. eapply g_upd_ctx; [exact Hg|ctx_ok_upd|done|done|done].
  - wp_step. eapply wp_mono; [by apply (find_stream_safe own h)| |done]. intros h' [p|] [-> Hp]; [|by wp_step]. destruct (good_listed _ _ _ p Hg (Hp p eq_refl)) as [s Hs].
    wp_step. eapply wp_stream; [exact Hs|]. wp_step.
    + wp_step. apply (wp_try_sends own h); [by apply send_rst_safe|]. intros h1 _ Hg1 _. by wp_step.
    + pose proof (good_stream_ok _ _ _ _ _ Hg Hs) as Hok. eapply g_upd_stream; [exact Hg|exact Hs|done| |done]. stream_ok_upd. all: destruct Hok as (?&_); bools; sizes; lia.
Qed.
