(* ===== verification/Http2SafeConn.v ===== *)
(** * HTTP/2: the loop over the input (src/http_parse/http2.c)

    Reading, the preface and the frames: whatever arrives, in whatever pieces, the
    invariant is kept and the loop ends. *)

From Stdlib Require Import ZArith Lia.
From stdpp Require Import base list numbers option gmap.
From S2P Require Import Prelude Hpack HpackSpec HpackTable HpackHeaders HpackDecode HpackCorrect DnsCache Http2Types Http2 Http2Send Http2Body Http2Inv Http2Safe Http2SafeIn Http2SafeFrames.

(** ** One frame *)

Definition settled (own : nat -> Z) (h h' : h2) : Prop := inv own h' /\ input h' = input h.

Lemma good_settled own h h' : good own h h' -> settled own h h'.
Proof. by intros (?&?&_). Qed.

Lemma settled_refl own h : inv own h -> settled own h h.
Proof. by split. Qed.

Lemma settled_trans own h h1 h' : settled own h h1 -> settled own h1 h' -> settled own h h'.
Proof. intros [_ H1] [H2 H3]. split; [done|by rewrite H3]. Qed.

Section Loop.
Variable malloc_ok : bool.
Variable own : nat -> Z.

Lemma settled_status h h1 st : settled own h h1 -> settled own h (set_h_ctx (set_status st (h_ctx h1)) h1).
Proof. intros [Hi Hin]. eapply settled_trans; [by split|]. apply good_settled, set_status_good. by apply good_refl. Qed.

Lemma run_frame_safe m h : wp m h (fun h' _ => settled own h h') (settled own h) -> wp (run_frame m) h (fun h' _ => settled own h h') (fun _ => False).
Proof.
  intros Hm. unfold run_frame. wp_step. apply wp_try. eapply wp_mono; [exact Hm| |]; cbv beta.
  - intros h1 [] Hs. by wp_step.
  - intros h1 Hs. wp_step. apply wp_ctx. wp_step. apply (wp_mono _ _ (fun h' _ => settled own h h') _ (fun _ => False)); [| |done].
    + wp_step; [apply wp_upd_ctx; by apply settled_status|by wp_step].
    + intros h3 [] Hs3. wp_step. apply wp_ctx. by wp_step.
Qed.

Lemma run_good_safe m h : inv own h -> wp m h (fun h' _ => good own h h') (good own h) -> wp (run_frame m) h (fun h' _ => settled own h h') (fun _ => False).
Proof. intros Hi Hm. apply run_frame_safe. eapply wp_mono; [exact Hm| |]; intros; by apply good_settled. Qed.

Lemma stop_with_goaway_code h : inv own h -> wp (stop_with_goaway malloc_ok) h (fun h' r => settled own h h' /\ r = Some HTTP2_ERR_PROTOCOL) (fun _ => False).
Proof.
  intros Hi. unfold stop_with_goaway. wp_step. apply (wp_try_sends own h); [by apply send_goaway_safe, good_refl|]. intros h1 _ Hg1 _. wp_step. apply wp_upd_ctx. wp_step.
  split; [by apply settled_status, good_settled|done].
Qed.

Lemma stop_with_goaway_safe h : inv own h -> wp (stop_with_goaway malloc_ok) h (fun h' _ => settled own h h') (fun _ => False).
Proof. intros Hi. eapply wp_mono; [by apply stop_with_goaway_code| |done]. by intros h' r [? _]. Qed.

Lemma process_frame_safe type flags id payload h : inv own h -> Forall is_byte payload -> Zlen payload <= 16384 ->
  wp (process_frame malloc_ok type flags id payload) h (fun h' _ => settled own h h') (fun _ => False).
Proof.
  intros Hi Hb Hl. pose proof (good_refl _ _ Hi) as Hg. unfold process_frame.
  wp_step; [apply run_good_safe, process_data_frame_safe; done || lia|]. wp_step; [by apply run_good_safe, process_headers_frame_safe|].
  wp_step; [by apply run_good_safe, process_headers_frame_safe|].
  wp_step; [wp_step; [by apply stop_with_goaway_safe|by apply run_good_safe, process_settings_frame_safe]|].
  wp_step; [by apply run_frame_safe, process_window_update_frame_safe|].
  wp_step.
  { wp_step; [by apply stop_with_goaway_safe|]. wp_step; [|wp_step; by apply settled_refl]. wp_step.
    apply (wp_try_sends own h); [apply send_frame_safe; [done|rewrite Zlen_app, frame_header_len; sizes; lia]|]. intros h1 [n|] Hg1 _.
    - wp_step. by apply good_settled.
    - wp_step. apply wp_ctx. wp_step. by apply good_settled. }
  wp_step.
  { wp_step; [by apply stop_with_goaway_safe|]. wp_step. eapply wp_mono; [by apply (find_stream_safe own h)| |done]. intros h' [p|] [-> Hp].
    - wp_step. destruct (good_listed _ _ _ p Hg (Hp p eq_refl)) as [s Hs]. eapply g_upd_stream; [exact Hg|exact Hs|done|done|]. intros Hg1. wp_step. by apply good_settled.
    - wp_step. wp_step. wp_step. by apply settled_refl. }
  wp_step; [|wp_step; by apply settled_refl]. wp_step; (wp_step; apply wp_upd_ctx; wp_step; by apply settled_status, settled_refl).
Qed.

(** ** Reading *)

(** What the answers of the transport become. *)
Lemma bio_read_spec len h : 0 < len -> Forall event_ok (h_reads h) ->
  wp (bio_read len) h (fun h' r => exists l e, h' = set_h_reads l (set_h_errno e h) /\ Forall event_ok l /\
    match r with
    | Some b => Zlen b <= len /\ Forall is_byte b /\ (reads_left l + length b <= reads_left (h_reads h))%nat
    | None => True
    end) (fun _ => False).
Proof.
  intros Hl He. unfold bio_read. wp_step. wp_step. destruct (h_reads h) as [|[b l| | |] r] eqn:Hr; wp_step; wp_step; wp_step.
  - exists [], EAGAIN. split_and!; try done. destruct h; cbn in Hr; by subst.
  - apply list.Forall_cons in He as [Hb He]. exists (match drop (Z.to_nat len) (b :: l) with [] => r | b :: l => RdBytes b l :: r end), (h_errno h). split_and!.
    + by destruct h.
    + pose proof (Forall_drop _ (Z.to_nat len) _ Hb) as Hd. destruct (drop (Z.to_nat len) (b :: l)) eqn:Hx; [done|]. by constructor.
    + unfold Zlen. rewrite length_take. lia.
    + by apply Forall_take.
    + assert (length (drop (Z.to_nat len) (b :: l)) = S (length l) - Z.to_nat len)%nat as Hlen by by rewrite length_drop. rewrite length_take. cbn [length].
      change (reads_left (RdBytes b l :: r)) with (S (length l) + reads_left r)%nat.
      destruct (drop (Z.to_nat len) (b :: l)) as [|b2 l2]; [|change (reads_left (RdBytes b2 l2 :: r)) with (S (length l2) + reads_left r)%nat]; cbn [length] in *; lia.
  - exists r, EAGAIN. apply list.Forall_cons in He as [_ He]. by split_and!.
  - exists r, EOTHER. apply list.Forall_cons in He as [_ He]. by split_and!.
  - exists (RdEof :: r), (h_errno h). change (Zlen (@nil Z)) with 0. split_and!; first [done|lia|by destruct h|cbn [length]; lia].
Qed.

Lemma inv_reads h l e : inv own h -> Forall event_ok l -> inv own (set_h_reads l (set_h_errno e h)).
Proof. intros ((Hc&Hl&_)&Hp) He. split; [split_and!; [exact Hc|exact Hl|exact He]|exact Hp]. Qed.

(** The read buffer and the preface. *)
Lemma inv_buffer h b pre : inv own h -> Forall is_byte b -> (if is_client (h_ctx h) || pre then one_frame b else Zlen b <= 24) ->
  inv own (set_h_ctx (set_preface_received pre (set_read_buffer b (h_ctx h))) h).
Proof.
  intros ((Hc&Hl&Hr)&Hp) Hb Hs. split; [split_and!; [|exact Hl|exact Hr]|exact Hp]. destruct Hc as (H1&H2&H3&H4&H5&H6&H7&H8&H9&H10&H11&_).
  exact (conj H1 (conj H2 (conj H3 (conj H4 (conj H5 (conj H6 (conj H7 (conj H8 (conj H9 (conj H10 (conj H11 (conj Hb Hs)))))))))))).
Qed.

Lemma inv_want_read h w : inv own h -> inv own (set_h_ctx (set_want_read w (h_ctx h)) h).
Proof. intros Hi. apply (good_inv own h). apply (good_upd_ctx own h h (set_want_read w)); try done. by apply good_refl. Qed.

Lemma inv_status h st : inv own h -> inv own (set_h_ctx (set_status st (h_ctx h)) h).
Proof. intros Hi. apply (settled_status h h st). by apply settled_refl. Qed.

(** What a client reads at once, and a server after the preface. *)
Definition reading (h : h2) : Prop := is_client (h_ctx h) || preface_received (h_ctx h) = true.

Definition filled (want : Z) (h h' : h2) : Prop :=
  exists l, read_buffer (h_ctx h') = read_buffer (h_ctx h) ++ l /\ Zlen (read_buffer (h_ctx h')) = Z.max want (Zlen (read_buffer (h_ctx h))) /\
    (reads_left (h_reads h') + length l <= reads_left (h_reads h))%nat.

Definition mode (h : h2) : bool * bool := (is_client (h_ctx h), preface_received (h_ctx h)).

Lemma fill_buffer_safe want partial h : inv own h -> 0 <= want <= 16393 ->
  (forall l, Forall is_byte (read_buffer (h_ctx h) ++ l) -> Zlen (read_buffer (h_ctx h) ++ l) <= want ->
    if is_client (h_ctx h) || preface_received (h_ctx h) then one_frame (read_buffer (h_ctx h) ++ l) else Zlen (read_buffer (h_ctx h) ++ l) <= 24) ->
  wp (fill_buffer want partial) h (fun h' r => inv own h' /\ mode h' = mode h /\ match r with Some _ => True | None => filled want h h' end) (fun _ => False).
Proof.
  intros Hi Hwant Hok. pose proof Hi as ((Hc&_&Hr)&_). destruct Hc as (_&_&_&_&_&_&_&_&_&_&_&Hb&_). unfold fill_buffer. wp_step. apply wp_ctx.
  destruct (Z.ltb_spec (Zlen (read_buffer (h_ctx h))) want).
  2: { wp_step. split_and!; [done|done|]. exists []. rewrite app_nil_r. split_and!; [done|lia|cbn; lia]. }
  wp_step. apply wp_access. exists tt. split; [change sizeof_read_buffer with 16393; by rewrite (proj2 (Z.leb_le want 16393)) by lia|].
  wp_step. eapply wp_mono; [apply bio_read_spec; [lia|done]| |done]. intros h1 r (l&e&->&Hl&Hbr). pose proof (inv_reads h l e Hi Hl) as Hi1.
  destruct r as [[|x b]|].
  - wp_step. apply wp_upd_ctx. wp_step. split_and!; [by apply inv_status|done|done].
  - destruct Hbr as (Hlen&Hbb&Hleft). set (nb := read_buffer (h_ctx h) ++ x :: b).
    assert (Forall is_byte nb) as Hnb by by apply Forall_app. assert (Zlen nb <= want) as Hnl by (subst nb; rewrite Zlen_app; lia).
    wp_step. apply wp_upd_ctx. h2_simpl.
    assert (inv own (set_h_ctx (set_read_buffer nb (h_ctx h)) (set_h_reads l (set_h_errno e h)))) as Hi2.
    { pose proof (inv_buffer _ nb (preface_received (h_ctx h)) Hi1 Hnb (Hok _ Hnb Hnl)) as Hx. by destruct h as [[]]. }
    wp_step.
    + wp_step. apply wp_upd_ctx. wp_step. split_and!; [by apply inv_want_read|done|done].
    + wp_step. split_and!; [done|done|]. exists (x :: b). split_and!; [done|h2_simpl; lia|done].
  - wp_step. wp_step. case_decide; wp_step; apply wp_upd_ctx; wp_step; (split_and!; [|done|done]); [by apply inv_want_read|by apply inv_status].
Qed.

Lemma inv_read_buffer h b : inv own h -> Forall is_byte b -> reading h -> one_frame b -> inv own (set_h_ctx (set_read_buffer b (h_ctx h)) h).
Proof.
  intros Hi Hb Hr Ho. pose proof (inv_buffer h b (preface_received (h_ctx h)) Hi Hb) as Hx. unfold reading in Hr. rewrite Hr in Hx. specialize (Hx Ho). by destruct h as [[]].
Qed.

Lemma inv_bytes h : inv own h -> reading h -> Forall is_byte (read_buffer (h_ctx h)) /\ one_frame (read_buffer (h_ctx h)) /\ local_max_frame_size (h_ctx h) = 16384.
Proof. intros ((Hc&_)&_) Hr. destruct Hc as (_&Hm&_&_&_&_&_&_&_&_&_&Hb&Ho). unfold reading in Hr. by rewrite Hr in Ho. Qed.

Lemma read_uint24_app b l : 9 <= Zlen b -> read_uint24 (b ++ l) = read_uint24 b.
Proof. intros Hb. unfold read_uint24. rewrite take_app_le; [done|]. unfold Zlen in Hb. lia. Qed.

Lemma rd8_some b i : 0 <= i < Zlen b -> exists v, rd8 b i = Some v.
Proof. intros Hi. unfold rd8. rewrite (proj2 (Z.leb_le 0 i)) by lia. unfold Zlen in Hi. destruct (lookup_lt_is_Some_2 b (Z.to_nat i)) as [v Hv]; [lia|]. by exists v. Qed.

(** How many rounds can follow. *)
Definition rounds (h : h2) : nat := reads_left (h_reads h) + (if bool_decide (read_buffer (h_ctx h) = []) then 0 else 1).

Definition went_on (h h' : h2) (r : option Z) : Prop := inv own h' /\ mode h' = mode h /\ match r with Some _ => True | None => (rounds h' < rounds h)%nat end.

Lemma mode_reading h h' : mode h' = mode h -> reading h -> reading h'.
Proof. intros [= H1 H2] Hr. unfold reading. by rewrite H1, H2. Qed.

Lemma settled_mode h h' : settled own h h' -> mode h' = mode h.
Proof. intros [_ [= _ _ H1 H2]]. unfold mode. by rewrite H1, H2. Qed.

(** The frame is taken out of the buffer. *)
Lemma frame_done_safe h h1 h2 h3 length : inv own h1 -> mode h1 = mode h -> reading h -> filled 9 h h1 -> filled (9 + length) h1 h2 ->
  mode h2 = mode h1 -> settled own h2 h3 -> read_uint24 (read_buffer (h_ctx h1)) = length -> 0 <= length ->
  went_on h (set_h_ctx (set_read_buffer (drop (Z.to_nat (HTTP2_FRAME_HEADER_SIZE + length)) (read_buffer (h_ctx h3))) (h_ctx h3)) h3) None.
Proof.
  intros Hi1 Hm1 Hr (l1&Hb1&Hl1&Hr1) (l2&Hb2&Hl2&Hr2) Hm2 Hs3 Hlen Hl0. pose proof (inv_bytes h1 Hi1 (mode_reading _ _ Hm1 Hr)) as (_&Ho1&_).
  pose proof (settled_mode _ _ Hs3) as Hm3. pose proof Hs3 as [Hi3 [= Hrd3 Hbuf3 _ _]].
  assert (Zlen (read_buffer (h_ctx h2)) = 9 + length) as Hl. { destruct Ho1 as [Ho1|[Ho1 _]]; lia. }
  rewrite Hbuf3, drop_ge by (unfold HTTP2_FRAME_HEADER_SIZE, Zlen in *; lia). split_and!.
  - apply inv_read_buffer; [done|done| |left; done]. apply (mode_reading h); [|done]. by rewrite Hm3, Hm2.
  - unfold mode in *. h2_simpl. congruence.
  - unfold rounds. h2_simpl. rewrite (bool_decide_eq_true_2 (@nil Z = [])) by done. rewrite Hrd3. case_bool_decide as Hnil; [|lia].
    rewrite Hnil in Hb1. cbn [app] in Hb1. rewrite Hb1, Hnil in Hl1. change (Zlen (@nil Z)) with 0 in Hl1. unfold Zlen in Hl1. lia.
Qed.

Lemma process_round_safe h : inv own h -> reading h -> wp (process_round malloc_ok) h (went_on h) (fun _ => False).
Proof.
  intros Hi Hr. unfold process_round, HTTP2_FRAME_HEADER_SIZE. wp_step. eapply wp_mono; [apply (fill_buffer_safe 9 0 h Hi); [lia|]| |done].
  { intros l _ Hl. unfold reading in Hr. rewrite Hr. by left. }
  intros h1 [code|] (Hi1&Hm1&Hf1); [wp_step; by split_and!|]. pose proof (mode_reading _ _ Hm1 Hr) as Hr1. destruct (inv_bytes h1 Hi1 Hr1) as (Hb1&Ho1&Hmax).
  assert (9 <= Zlen (read_buffer (h_ctx h1))) as Hlen1 by (destruct Hf1 as (?&_&?&_); lia).
  wp_step. apply wp_ctx. set (b := read_buffer (h_ctx h1)) in *. destruct (rd8_some b 3 ltac:(lia)) as [ty Hty]. destruct (rd8_some b 4 ltac:(lia)) as [fl Hfl].
  wp_step. apply wp_access. exists ty. split; [done|]. wp_step. apply wp_access. exists fl. split; [done|].
  assert (forall h', settled own h1 h' -> forall code, went_on h h' (Some code)) as Hstop.
  { intros h' Hs code. pose proof (settled_mode _ _ Hs) as Hm. split_and!; [apply Hs|congruence|done]. }
  wp_step; [wp_step; apply wp_upd_ctx; wp_step; by apply Hstop, settled_status, settled_refl|]. bools.
  wp_step. { eapply wp_mono; [by apply stop_with_goaway_code| |done]. intros h' r [Hs ->]. by apply Hstop. }
  assert (0 <= read_uint24 b) as Hl0 by (apply of_be_range; by apply Forall_take).
  wp_step. eapply wp_mono; [apply (fill_buffer_safe (9 + read_uint24 b) 0 h1 Hi1); [lia|]| |done].
  { intros l _ Hl. fold b in Hl |- *. unfold reading in Hr1. rewrite Hr1. right. rewrite read_uint24_app by done. lia. }
  intros h2 [code|] (Hi2&Hm2&Hf2); [wp_step; split_and!; [done|congruence|done]|]. destruct (inv_bytes h2 Hi2 (mode_reading _ _ Hm2 Hr1)) as (Hb2&_&_).
  wp_step. apply wp_ctx. set (b2 := read_buffer (h_ctx h2)) in *. assert (9 + read_uint24 b <= Zlen b2) as Hlb2 by (destruct Hf2 as (?&_&?&_); unfold b2; lia).
  wp_step. apply wp_access. exists (take (Z.to_nat (read_uint24 b)) (drop (Z.to_nat 9) b2)). split; [apply rd_bytes_Some; split_and!; try lia; done|].
  wp_step. eapply wp_mono; [apply (process_frame_safe ty fl); [exact Hi2|by apply Forall_take, Forall_drop|unfold Zlen; rewrite length_take; lia]| |done].
  intros h3 [code|] Hs3.
  - wp_step. pose proof (settled_mode _ _ Hs3). split_and!; [apply Hs3|congruence|done].
  - wp_step. apply wp_upd_ctx. wp_step. by apply (frame_done_safe h h1 h2 h3 (read_uint24 b)).
Qed.

Lemma process_loop_safe fuel h : inv own h -> reading h -> (rounds h < fuel)%nat -> wp (process_loop malloc_ok fuel) h (fun h' _ => inv own h' /\ mode h' = mode h) (fun _ => False).
Proof.
  revert h. induction fuel as [|fuel IH]; intros h Hi Hr Hf; [lia|]. cbn [process_loop]. wp_step. eapply wp_mono; [by apply process_round_safe| |done].
  intros h1 [code|] (Hi1&Hm1&Hr1); [by wp_step|]. eapply wp_mono; [apply IH; [done|by apply (mode_reading h)|lia]| |done]. intros h' r [? ?]. split; [done|congruence].
Qed.

Lemma verify_preface_safe h : inv own h ->
  wp http2_verify_connection_preface h (fun h' r => inv own h' /\ match r with Some _ => True | None => reading h' end) (fun _ => False).
Proof.
  intros Hi. unfold http2_verify_connection_preface. wp_step. apply wp_ctx. destruct (is_client (h_ctx h) || preface_received (h_ctx h)) eqn:Hmode; [by wp_step|].
  wp_step. eapply wp_mono; [apply (fill_buffer_safe _ HTTP2_ERR_EAGAIN h Hi); [unfold HTTP2_CONNECTION_PREFACE_LEN; lia|]| |done].
  { intros l _ Hl. by rewrite Hmode. }
  intros h1 [code|] (Hi1&Hm1&Hf1); [by wp_step|].
  pose proof Hi1 as ((Hc1&_)&_). destruct Hc1 as (_&_&_&_&_&_&_&_&_&_&_&Hb1&Hs1). injection Hm1 as M1 M2. rewrite M1, M2, Hmode in Hs1.
  wp_step. apply wp_ctx. wp_step; [wp_step; apply wp_upd_ctx; wp_step; split; [by apply inv_status|done]|].
  wp_step. apply wp_upd_ctx. wp_step. split; [|unfold reading; h2_simpl; by rewrite orb_true_r]. rewrite drop_ge by (unfold Zlen in Hs1; lia).
  apply (inv_buffer h1 [] true Hi1); [done|]. rewrite orb_true_r. by left.
Qed.

Lemma process_frames_safe h : inv own h -> wp (_http2_process_frames malloc_ok) h (fun h' _ => inv own h') (fun _ => False).
Proof.
  intros Hi. unfold _http2_process_frames. wp_step. apply wp_ctx. wp_step; [by wp_step|]. wp_step. apply wp_upd_ctx. wp_step.
  eapply wp_mono; [by apply verify_preface_safe, inv_want_read| |done]. intros h1 [code|] [Hi1 Hr1]; [by wp_step|]. wp_step. wp_step.
  eapply wp_mono; [apply process_loop_safe; [done|done|]| |done]; [|by intros h' r [? _]]. unfold rounds. case_bool_decide; lia.
Qed.
End Loop.
