(* ===== verification/Http2SafeApi.v ===== *)
(** * HTTP/2: the calls of the user keep the invariant (src/http_parse/http2.c) *)

From Stdlib Require Import ZArith Lia String.
From stdpp Require Import base list numbers option gmap.
From S2P Require Import Prelude Hpack HpackSpec HpackTable HpackHeaders HpackDecode HpackCorrect DnsCache Http2Types Http2 Http2Send Http2Body Http2Inv Http2Safe Http2SafeIn Http2SafeFrames Http2SafeConn.

(** ** Inflating *)

(** What zlib documents of [inflate]: it takes no more than the input, writes no
    more than there is room for, and returns [Z_OK] only when it has made progress. *)
Definition inflate_documented {zstate} (inflate : zstate -> list Z -> Z -> inflate_result zstate) : Prop :=
  forall z input room, 0 <= room ->
    Zlen (z_out (inflate z input room)) <= room /\ 0 <= z_taken (inflate z input room) <= Zlen input /\
    (z_ret (inflate z input room) = Z_OK -> 0 < z_taken (inflate z input room) + Zlen (z_out (inflate z input room))).

Section Inflate.
Variable malloc_ok : bool.
Context {zstate : Type}.
Variable inflateInit2 : bool -> option zstate.
Variable inflate : zstate -> list Z -> Z -> inflate_result zstate.
Hypothesis documented : inflate_documented inflate.

Lemma inflate_loop_spec fuel z input out size h : Zlen out <= size -> 8192 <= size <= 1048576 -> Zlen input + 1048576 - Zlen out < Z.of_nat fuel ->
  wp (inflate_loop malloc_ok inflate fuel z input out size) h (fun h' r => h' = h /\ Zlen r <= 1048576) (fun h' => h' = h).
Proof.
  revert z input out size. induction fuel as [|fuel IH]; intros z input out size Hout Hsize Hf; [pose proof (Zlen_nonneg input); lia|]. cbn [inflate_loop].
  wp_step. apply (wp_mono _ _ (fun h' r => h' = h /\ size <= r <= 1048576) _ (fun h' => h' = h)); [| |done].
  - wp_step; [|wp_step; split; [done|lia]]. rewrite safe_buffer_size_2 by lia. destruct (Z.ltb_spec 1073741823 size); [lia|]. unfold MAX_DECOMPRESSED_SIZE.
    wp_step. apply wp_guard; [intros Hx; bools|done]. wp_step. apply wp_guard; [intros _|done]. wp_step. split; [done|lia].
  - intros h' r [-> Hr]. destruct (documented z input (r - Zlen out)) as (H1&H2&H3); [lia|]. set (x := inflate z input (r - Zlen out)) in *.
    wp_step. apply wp_access. exists tt. split.
    { by rewrite (proj2 (Z.leb_le (Zlen (z_out x)) (r - Zlen out))), (proj2 (Z.leb_le 0 (z_taken x))), (proj2 (Z.leb_le (z_taken x) (Zlen input))) by lia. }
    pose proof (Zlen_nonneg (z_out x)). assert (Zlen (drop (Z.to_nat (z_taken x)) input) = Zlen input - z_taken x) as Hd by (unfold Zlen in *; rewrite length_drop; lia).
    destruct (z_ret x).
    + specialize (H3 eq_refl). wp_step; [|wp_step; split; [done|rewrite Zlen_app; lia]]. apply IH; rewrite ?Zlen_app, ?Hd; lia.
    + wp_step. split; [done|]. rewrite Zlen_app. lia.
    + by wp_step.
    + by wp_step.
Qed.

Lemma decompress_data_spec data gz h : Zlen data <= 1048576 ->
  wp (http2_decompress_data malloc_ok inflateInit2 inflate data gz) h (fun h' r => h' = h /\ Zlen r <= 1048576) (fun h' => h' = h).
Proof.
  intros Hd. pose proof (Zlen_nonneg data). unfold http2_decompress_data. wp_step. apply wp_guard; [intros _|done]. destruct (inflateInit2 gz) as [z|]; [|by wp_step].
  apply inflate_loop_spec; unfold MAX_DECOMPRESSED_SIZE.
  - change (Zlen (@nil Z)) with 0. destruct (safe_buffer_size (Zlen data) 4) as [n|]; [destruct (Z.ltb_spec n 8192)|]; case_match; bools; lia.
  - destruct (safe_buffer_size (Zlen data) 4) as [n|]; [destruct (Z.ltb_spec n 8192)|]; case_match; bools; lia.
  - change (Zlen (@nil Z)) with 0. change (1 * 1024 * 1024) with 1048576. unfold Zlen. lia.
Qed.

(** After an error of the connection (a negative status: the peer has sent GOAWAY, or
    the transport has failed), a body of which no more than a part has arrived inflates
    to nothing.  This is in the hands of the peer. *)
Definition inflates_to_nothing (h : h2) (p : nat) : Prop :=
  exists s gz h', h_streams h !! p = Some s /\ s_ctx s = true /\ status (h_ctx h) < 0 /\ end_stream_received s = false /\ content_compressed s = Some gz /\
    http2_decompress_data malloc_ok inflateInit2 inflate (body_buffer s) gz h = Ok h' [].

(** *** Reading returns, whatever the body inflates to *)

Definition readable (p : nat) (h : h2) : Prop := exists s, h_streams h !! p = Some s /\ 0 <= body_read_offset s.
Definition returns {A} (m : H A) (h : h2) : Prop := wp m h (fun _ _ => True) (fun _ => True).

Lemma try_decompress_returns p h s : h_streams h !! p = Some s -> stream_ok s ->
  wp (http2_try_decompress_body malloc_ok inflateInit2 inflate p) h (fun h' _ => readable p h') (readable p).
Proof.
  intros Hs (_&_&Hbl&_&_&Hoff&_). assert (readable p h) as Hr by (exists s; split; [done|lia]).
  unfold http2_try_decompress_body. wp_step. eapply wp_stream; [exact Hs|]. wp_step. apply wp_ctx. wp_step; [by wp_step|]. wp_step; [by wp_step|].
  destruct (content_compressed s) as [gz|]; [|by wp_step]. wp_step. apply wp_try.
  eapply wp_mono; [by apply decompress_data_spec| |]; cbv beta.
  - intros h' out [-> _]. eapply wp_upd_stream; [exact Hs|]. eexists. h2_simpl. rewrite lookup_insert_eq. split; [done|]. h2_simpl. lia.
  - intros h' ->. wp_step. apply wp_set_errno. by wp_step.
Qed.

Lemma drop_body_returns {A} p (m : H A) h : readable p h -> (forall h', returns m h') -> returns (drop_body p ;; m) h.
Proof. intros (s&Hs&_) Hm. unfold returns, drop_body. wp_step. eapply wp_upd_stream; [exact Hs|]. apply Hm. Qed.

Lemma read_handled_returns {A} p (b : bool) (x : A) h : readable p h ->
  returns ((if b then upd_stream p (set_end_stream_read_handled true) else ret tt) ;; ret x) h.
Proof. intros (s&Hs&_). unfold returns. wp_step. destruct b; [eapply wp_upd_stream; [exact Hs|]|wp_step]; by wp_step. Qed.

Lemma read_body_returns p len h s : h_streams h !! p = Some s -> stream_ok s -> returns (http2_stream_read_body malloc_ok inflateInit2 inflate p len) h.
Proof.
  intros Hs Hok. unfold returns, http2_stream_read_body. wp_step. apply wp_guard; [intros Hlen; bools|done]. wp_step. apply wp_try. eapply wp_mono; [by eapply try_decompress_returns| |]; cbv beta.
  2: { intros h1 Hr1. by apply drop_body_returns. }
  intros h1 [] Hr1. pose proof Hr1 as (s1&Hs1&Ho1). wp_step. eapply wp_stream; [exact Hs1|]. wp_step. apply wp_ctx. wp_step; [done|]. wp_step.
  { wp_step; [|done]. by apply (read_handled_returns p true []). }
  bools. set (n := if _ <? len then _ else len). assert (0 < n <= Zlen (body_buffer s1) - body_read_offset s1) as Hn by (subst n; destruct (Z.ltb_spec (Zlen (body_buffer s1) - body_read_offset s1) len); lia).
  wp_step. apply wp_access. eexists. split; [apply rd_bytes_Some; split_and!; [lia|lia|lia|reflexivity]|].
  wp_step. eapply wp_upd_stream; [exact Hs1|]. apply (read_handled_returns p). eexists. h2_simpl. rewrite lookup_insert_eq. split; [done|]. h2_simpl. lia.
Qed.

Lemma looks_at_body_returns {A} p (f : http2_stream -> http2_ctx -> A) (a : A) h s : h_streams h !! p = Some s -> stream_ok s ->
  returns (r <- try (http2_try_decompress_body malloc_ok inflateInit2 inflate p) ;;
    match r with None => drop_body p ;; ret a | Some _ => s <- stream p (fun s => s) ;; c <- ctx (fun c => c) ;; ret (f s c) end) h.
Proof.
  intros Hs Hok. unfold returns. wp_step. apply wp_try. eapply wp_mono; [by eapply try_decompress_returns| |]; cbv beta.
  - intros h1 [] (s1&Hs1&_). wp_step. eapply wp_stream; [exact Hs1|]. done.
  - intros h1 Hr1. by apply drop_body_returns.
Qed.

Variable own : nat -> Z.
Variable h0 : h2.

Lemma try_decompress_safe p h : keeps own h0 p h -> ~ inflates_to_nothing h p ->
  wp (http2_try_decompress_body malloc_ok inflateInit2 inflate p) h (fun h' _ => keeps own h0 p h') (keeps own h0 p).
Proof.
  intros Hk Hno. pose proof Hk as [Hg [s Hs]]. pose proof (good_stream_ok _ _ _ _ _ Hg Hs) as Hok. pose proof Hok as (_&_&Hbl&_).
  unfold http2_try_decompress_body. wp_step. eapply wp_stream; [exact Hs|]. wp_step. apply wp_ctx. wp_step; [by wp_step|]. destruct (negb (end_stream_received s) && connection_open s (h_ctx h)) eqn:Hearly; [by wp_step|].
  destruct (content_compressed s) as [gz|] eqn:Hcc; [|by wp_step]. wp_step. apply wp_try.
  pose proof (decompress_data_spec (body_buffer s) gz h Hbl) as Hd. unfold wp in Hd |- *.
  destruct (http2_decompress_data malloc_ok inflateInit2 inflate (body_buffer s) gz h) as [h' out|h'| |] eqn:Hout; try done.
  - destruct Hd as [-> Hout_len]. change (wp (upd_stream p (fun s => set_body_decompressed true (set_body_buffer_size (Zlen out) (set_body_buffer out s)))) h (fun h' _ => keeps own h0 p h') (keeps own h0 p)).
    eapply g_upd_stream; [exact Hg|exact Hs|done| |]; [|intros Hg1; split; [done|]; h2_simpl; rewrite lookup_insert_eq; by eexists].
    intros (K1&K2&K3&K4&_&K6&K7&K8). split_and!; try done; h2_simpl; try apply K2; try apply K6; try lia.
    destruct (end_stream_received s) eqn:He; [by right; left|]. destruct (s_ctx s) eqn:Hx; [|by right; right]. left.
    destruct out as [|x out]; [|rewrite Zlen_cons; pose proof (Zlen_nonneg out); lia]. exfalso. apply Hno. exists s, gz, h. split_and!; try done.
    unfold connection_open in *. bools. destruct Hearly as [|Hearly]; [done|]. rewrite Hx in Hearly. by bools; lia.
  - rewrite Hd. change (wp (set_errno EOTHER ;; @fail h2 unit) h (fun h' _ => keeps own h0 p h') (keeps own h0 p)). wp_step. apply wp_set_errno. wp_step. split; [by apply good_errno|by eexists].
Qed.

Lemma drop_body_safe p h (Q : h2 -> unit -> Prop) E : keeps own h0 p h -> (forall h', keeps own h0 p h' -> Q h' tt) -> wp (drop_body p) h Q E.
Proof.
  intros Hk HQ. apply (upd_stream_keeps own h0); [done|done| |done]. intros s. stream_ok_upd. all: destruct H as (_&_&?&?&_); pose proof (Zlen_nonneg (body_buffer s)); lia.
Qed.

Lemma read_handled_safe p h (Q : h2 -> unit -> Prop) E : keeps own h0 p h -> (forall h', keeps own h0 p h' -> Q h' tt) -> wp (upd_stream p (set_end_stream_read_handled true)) h Q E.
Proof. intros Hk HQ. by apply (upd_stream_keeps own h0). Qed.

Lemma keeps_errno p e h : keeps own h0 p h -> keeps own h0 p (set_h_errno e h).
Proof. intros [Hg Hp]. split; [by apply good_errno|done]. Qed.

Lemma again_safe {A} p e h (Q : h2 -> A -> Prop) : keeps own h0 p h -> wp (set_errno e ;; @fail h2 A) h Q (keeps own h0 p).
Proof. intros Hk. wp_step. apply wp_set_errno. wp_step. by apply keeps_errno. Qed.

Lemma read_body_safe p len h : keeps own h0 p h -> ~ inflates_to_nothing h p ->
  wp (http2_stream_read_body malloc_ok inflateInit2 inflate p len) h (fun h' _ => keeps own h0 p h') (keeps own h0 p).
Proof.
  intros Hk Hno. unfold http2_stream_read_body. wp_step. apply wp_guard; [intros Hlen|done]. bools. wp_step. apply wp_try. eapply wp_mono; [by apply try_decompress_safe| |]; cbv beta.
  2: { intros h1 Hk1. wp_step. apply drop_body_safe; [done|]. intros h3 Hk3. by apply again_safe. }
  intros h1 [] Hk1. pose proof Hk1 as [Hg1 [s Hs]]. destruct (good_stream_ok _ _ _ _ _ Hg1 Hs) as (_&_&Hbl&_&_&Hoff&_).
  wp_step. eapply wp_stream; [exact Hs|]. wp_step. apply wp_ctx. wp_step; [by apply again_safe|]. wp_step.
  { wp_step; [|by apply again_safe]. wp_step. apply read_handled_safe; [done|]. intros h3 Hk3. by wp_step. }
  bools. set (n := if _ <? len then _ else len). assert (0 < n <= Zlen (body_buffer s) - body_read_offset s) as Hn by (subst n; destruct (Z.ltb_spec (Zlen (body_buffer s) - body_read_offset s) len); lia).
  wp_step. apply wp_access. eexists. split; [apply rd_bytes_Some; split_and!; [lia|lia|lia|reflexivity]|].
  wp_step. eapply g_upd_stream; [exact Hg1|exact Hs|done|stream_ok_upd|]. intros Hg3. set (h3 := set_h_streams _ h1) in *.
  assert (keeps own h0 p h3) as Hk3 by (split; [done|]; subst h3; h2_simpl; rewrite lookup_insert_eq; by eexists).
  wp_step. apply (wp_mono _ _ (fun h' _ => keeps own h0 p h') _ (fun _ => False)); [| |done].
  - wp_step; [by apply read_handled_safe|by wp_step].
  - intros h4 [] Hk4. by wp_step.
Qed.

Lemma body_available_safe p h : keeps own h0 p h -> ~ inflates_to_nothing h p ->
  wp (http2_stream_body_available malloc_ok inflateInit2 inflate p) h (fun h' _ => keeps own h0 p h') (keeps own h0 p).
Proof.
  intros Hk Hno. unfold http2_stream_body_available. wp_step. apply wp_try. eapply wp_mono; [by apply try_decompress_safe| |]; cbv beta.
  - intros h1 [] Hk1. pose proof Hk1 as [Hg1 [s Hs]]. wp_step. eapply wp_stream; [exact Hs|]. wp_step. apply wp_ctx. by wp_step.
  - intros h1 Hk1. wp_step. apply drop_body_safe; [done|]. intros h3 Hk3. by wp_step.
Qed.

Lemma is_end_safe p h : keeps own h0 p h -> ~ inflates_to_nothing h p ->
  wp (http2_stream_is_end malloc_ok inflateInit2 inflate p) h (fun h' _ => keeps own h0 p h') (keeps own h0 p).
Proof.
  intros Hk Hno. unfold http2_stream_is_end. wp_step. apply wp_try. eapply wp_mono; [by apply try_decompress_safe| |]; cbv beta.
  - intros h1 [] Hk1. pose proof Hk1 as [Hg1 [s Hs]]. wp_step. eapply wp_stream; [exact Hs|]. wp_step. apply wp_ctx. by wp_step.
  - intros h1 Hk1. wp_step. apply drop_body_safe; [done|]. intros h3 Hk3. by wp_step.
Qed.
End Inflate.

(** ** Writing *)

Section Write.
Variable malloc_ok : bool.
Variable own : nat -> Z.
Variable h0 : h2.

Lemma take_window_safe p h s n (mark : bool) (Q : h2 -> unit -> Prop) E : good own h0 h -> h_streams h !! p = Some s ->
  0 <= n <= send_window_size s -> n <= send_conn_window_size (h_ctx h) -> (forall h', keeps own h0 p h' -> Q h' tt) ->
  wp (take_window p n ;; (if mark then _http2_stream_mark_end_sent p else ret tt)) h Q E.
Proof.
  intros Hg Hs Hn Hc HQ. eapply wp_mono; [by apply (take_window_run p h s n mark)| |done]. intros h' [] Hh'. cbv beta zeta in Hh'. apply HQ. rewrite Hh'. pose proof (good_stream_ok _ _ _ _ _ Hg Hs) as Hok.
  assert (stream_ok (set_send_window_size (send_window_size s - n) s)) as Hok1. { revert Hok. stream_ok_upd. all: destruct H as (_&_&_&_&_&_&(_&_&?)&_); sizes; lia. }
  split; [|unfold with_body; h2_simpl; rewrite lookup_insert_eq; by eexists].
  apply (moved_good own h0 h p s); try done; [| |lia]; (destruct mark; [|done]); [by rewrite (proj1 (mark_end_sent_ok _))|by apply (proj2 (mark_end_sent_ok _))].
Qed.

Lemma write_loop_safe fuel p data (e : bool) h : keeps own h0 p h -> Zlen data < 2 ^ 30 -> Zlen data <= Z.of_nat fuel ->
  wp (write_loop malloc_ok fuel p data e) h (fun h' _ => keeps own h0 p h') (keeps own h0 p).
Proof.
  revert data h. induction fuel as [|fuel IH]; intros data h Hk Hl Hf; cbn [write_loop]; pose proof (Zlen_nonneg data).
  { destruct (Z.ltb_spec 0 (Zlen data)); [lia|by wp_step]. }
  wp_step; [|by wp_step]. pose proof Hk as [Hg [s Hs]]. pose proof (good_stream_ok _ _ _ _ _ Hg Hs) as (_&_&_&_&_&_&(_&_&Hw)&_).
  pose proof (ctx_ok_send_wf _ (good_ctx_ok _ _ _ Hg)) as Hc. pose proof Hc as [Hm Hcw]. sizes.
  wp_step. eapply wp_stream; [exact Hs|]. wp_step. apply wp_ctx. wp_step; [by apply again_safe|]. wp_step; [by apply queue_send_body_safe|]. bools.
  rewrite limit_send_spec by (done || (sizes; lia)). set (n := Z.min _ _). wp_step; [by apply queue_send_body_safe|]. bools.
  wp_step. apply wp_access. exists (take (Z.to_nat n) data). split; [apply rd_bytes_Some; split_and!; try lia; done|].
  assert (Zlen (take (Z.to_nat n) data) = n) as Hln by (unfold Zlen in *; rewrite length_take; lia).
  wp_step. apply wp_try. eapply wp_mono; [apply (send_data_safe malloc_ok own h0); [done|lia]| |]; cbv beta.
  2: { intros h1 [Hg1 Hio]. assert (keeps own h0 p h1) as Hk1 by (split; [done|]; rewrite (io_same_streams _ _ Hio); by eexists).
    wp_step. wp_step. case_decide; [by apply queue_send_body_safe|by wp_step]. }
  intros h1 _ [Hg1 Hio]. apply wp_bind_assoc. wp_step. eapply (take_window_safe p h1 s); [done|by rewrite (io_same_streams _ _ Hio)|lia| |].
  { rewrite (io_same_part (fun h => send_conn_window_size (h_ctx h)) h h1 Hio (fun _ => eq_refl)). lia. }
  intros h3 Hk3. assert (Zlen (drop (Z.to_nat n) data) = Zlen data - n) as Hd by (unfold Zlen in *; rewrite length_drop; lia). apply IH; [done|lia|lia].
Qed.

Lemma write_body_safe p data (e : bool) h : keeps own h0 p h -> Zlen data < 2 ^ 30 ->
  wp (http2_stream_write_body malloc_ok p data e) h (fun h' _ => keeps own h0 p h') (keeps own h0 p).
Proof.
  intros Hk Hl. pose proof Hk as [Hg [s Hs]]. unfold http2_stream_write_body. wp_step. apply wp_guard; [intros _|done]. wp_step. eapply wp_stream; [exact Hs|].
  wp_step. apply wp_guard; [intros _|done]. wp_step. apply wp_ctx. wp_step. wp_step; [by apply again_safe|]. wp_step. wp_step.
  - wp_step. eapply wp_mono; [by apply queue_send_body_safe| |done]. intros h1 [] Hk1. wp_step.
    eapply wp_mono; [by apply (wp_hard_error_both _ _ (keeps own h0 p) (keeps own h0 p)), flush_pending_send_safe| |done]. intros h3 b Hk3. destruct b; by wp_step.
  - wp_step.
    + wp_step; [by wp_step|]. wp_step. eapply wp_mono; [apply sends_keeps; [done|by apply send_data_safe]| |done]. intros h1 n Hk1. wp_step.
      apply (upd_stream_keeps own h0); [done| | |]; [intros; by apply mark_end_sent_ok|intros; by apply mark_end_sent_ok|]. intros h3 Hk3. by wp_step.
    + wp_step. eapply wp_mono; [apply write_loop_safe; [done|done|unfold Zlen; lia]| |done]. intros h1 [] Hk1. by wp_step.
Qed.
End Write.
