(* ===== verification/Http2SafeOut.v ===== *)
(** * HTTP/2: the calls on a connection keep the invariant (src/http_parse/http2.c) *)

From Stdlib Require Import ZArith Lia String.
From stdpp Require Import base list numbers option gmap.
From S2P Require Import Prelude DnsCache Hpack HpackSpec HpackTable HpackHeaders HpackDecode HpackCorrect Http2Types Http2 Http2Send Http2Body Http2Inv Http2Safe Http2SafeIn Http2SafeFrames Http2SafeConn.

(** ** Connections *)

Section Connection.
Variable malloc_ok : bool.
Variable own : nat -> Z.

Lemma flush_writes_safe h : inv own h -> wp (flush_writes malloc_ok) h (fun h' _ => inv own h') (fun _ => False).
Proof.
  intros Hi. unfold flush_writes. wp_step. apply wp_ctx. wp_step; [|by wp_step]. wp_step.
  apply (wp_try_sends own h); [by apply send_frame_safe; [apply good_refl|]|]. intros h1 r Hg1 _. wp_step. by apply good_inv in Hg1.
Qed.

Lemma io_process_safe h : inv own h -> wp (_http2_ctx_io_process malloc_ok) h (fun h' _ => inv own h') (fun _ => False).
Proof.
  intros Hi. unfold _http2_ctx_io_process. wp_step. eapply wp_mono; [by apply flush_writes_safe| |done]. intros h1 [] Hi1. by apply process_frames_safe.
Qed.

Lemma handshake_safe h : inv own h -> wp (http2_ctx_handshake malloc_ok) h (fun h' _ => inv own h') (fun _ => False).
Proof.
  intros Hi. unfold http2_ctx_handshake. wp_step. apply wp_ctx. wp_step; [by wp_step|]. wp_step. eapply wp_mono; [by apply flush_writes_safe| |done]. intros h1 [] Hi1.
  wp_step. eapply wp_mono; [by apply process_frames_safe| |done]. intros h3 code Hi3. wp_step. apply wp_ctx. wp_step.
  - wp_step. eapply (g_upd_ctx (own := own) (h0 := h3)); [by apply good_refl|done|done|done|]. intros Hg. wp_step. by apply good_inv in Hg.
  - wp_step; by wp_step.
Qed.

Lemma find_acceptable_safe l h : (forall p, p ∈ l -> is_Some (h_streams h !! p)) ->
  wp (find_acceptable l) h (fun h' r => h' = h /\ forall p, r = Some p -> p ∈ l) (fun _ => False).
Proof.
  induction l as [|q l IH]; intros Hl; cbn [find_acceptable]; [by wp_step|].
  destruct (Hl q) as [s Hs]; [by left|]. wp_step. apply wp_ctx. wp_step. eapply wp_stream; [exact Hs|]. destruct (_http2_stream_is_accept_ready _ _).
  - wp_step. split; [done|]. intros p [= <-]. by left.
  - eapply wp_mono; [apply IH; intros p Hp; apply Hl; by right| |done]. intros h' r (->&Hr). split; [done|]. intros p Hp. right. by apply Hr.
Qed.

(** A stream that is found has one reference more. *)
Definition with_stream (r : option nat) : nat -> Z := match r with Some p => bump own p 1 | None => own end.

Lemma accept_stream_safe h : inv own h -> wp (http2_ctx_accept_stream malloc_ok) h (fun h' r => inv (with_stream r) h') (fun _ => False).
Proof.
  intros Hi. unfold http2_ctx_accept_stream. wp_step. eapply wp_mono; [by apply flush_writes_safe| |done]. intros h1 [] Hi1.
  wp_step. eapply wp_mono; [by apply process_frames_safe| |done]. intros h3 code Hi3. pose proof (good_refl _ _ Hi3) as Hg. wp_step. apply wp_ctx.
  wp_step. eapply wp_mono; [apply find_acceptable_safe; intros p Hp; by apply (good_listed own h3 h3)| |done]. intros h4 [p|] [-> Hp]; [|by wp_step].
  destruct (good_listed own h3 h3 p Hg (Hp p eq_refl)) as [s Hs]. wp_step. eapply g_upd_stream; [exact Hg|exact Hs|done|done|]. intros Hg1.
  wp_step. eapply wp_mono; [eapply (stream_get_safe own h3); [exact Hg1|h2_simpl; apply lookup_insert_eq]| |done]. intros h5 [] [Hg5 _]. wp_step. by apply good_inv in Hg5.
Qed.

Lemma stream_new_safe h : inv own h -> wp (http2_stream_new malloc_ok) h (fun h' r => inv (with_stream r) h') (fun _ => False).
Proof.
  intros Hi. assert (wp (set_errno EOTHER ;; ret None) h (fun h' r => inv (with_stream r) h') (fun _ => False)) as Hno.
  { wp_step. apply wp_set_errno. wp_step. apply (good_inv own h), good_errno. by apply good_refl. }
  unfold http2_stream_new. wp_step. apply wp_ctx. wp_step; [exact Hno|]. wp_step; [exact Hno|]. wp_step.
  eapply (g_upd_ctx (own := own) (h0 := h)); [by apply good_refl|done|done|done|]. intros Hg. wp_step. eapply wp_mono; [by apply create_stream_safe| |done].
  intros h1 [p|] [Hg1 Hp]; [|wp_step; by apply good_inv in Hg1]. destruct Hp as [s Hs]. wp_step.
  eapply wp_mono; [by eapply (stream_get_safe own h)| |done]. intros h3 [] [Hg3 _]. wp_step. by apply good_inv in Hg3.
Qed.

Lemma disconnect_safe h : inv own h -> wp http2_ctx_disconnect h (fun h' _ => inv own h') (fun _ => False).
Proof.
  intros Hi. pose proof (good_refl _ _ Hi) as Hg. unfold http2_ctx_disconnect. wp_step. eapply g_upd_ctx; [exact Hg|done|done|done|]. intros Hg1.
  wp_step. eapply g_upd_ctx; [exact Hg1| | | |]; h2_simpl; [by destruct (0 <=? _)|by destruct (0 <=? _)|by destruct (0 <=? _)|]. intros Hg3.
  wp_step. eapply g_upd_ctx; [exact Hg3|done|done|done|]. intros Hg4. eapply g_upd_ctx; [exact Hg4|done|done|done|]. intros Hg5. by apply good_inv in Hg5.
Qed.
End Connection.

(** ** Polling *)

(** The references of the items are the caller's. *)
Definition hold (own : nat -> Z) (items : list http2_poll_item) (q : nat) : Z :=
  own q + Zlen (filter (fun i => i_stream i = Some q) items).

Lemma hold_snoc own items p r w q : bump (hold own items) p 1 q = hold own (items ++ [mk_item (Some p) r w]) q.
Proof.
  unfold bump, hold. rewrite filter_app, Zlen_app, filter_cons, filter_nil. cbn [i_stream]. change (Zlen (@nil http2_poll_item)) with 0.
  case_decide as H1; case_decide as H2; subst; rewrite ?Zlen_cons; change (Zlen (@nil http2_poll_item)) with 0; try congruence; lia.
Qed.

(** The order of the list does not matter. *)
Lemma inv_reordered own h l : inv own h -> l ≡ₚ streams (h_ctx h) -> inv own (set_h_ctx (set_streams l (h_ctx h)) h).
Proof.
  intros ((Hc&Hl&Hr)&Hp) Hperm. split; [|exact Hp]. split_and!; [exact Hc| |exact Hr]. destruct Hl as (H1&H2&H3&H4&H5&H6&H7).
  assert (forall b, Zlen (filter (fun p => local_at (set_h_ctx (set_streams l (h_ctx h)) h) p = b) l) = Zlen (filter (fun p => local_at h p = b) (streams (h_ctx h)))) as Hf.
  { intros b. unfold Zlen. f_equal. apply Permutation_length. by rewrite Hperm. }
  unfold linked. h2_simpl. rewrite !Hf. split_and!; try done.
  - by rewrite Hperm.
  - by rewrite Hperm.
  - intros q Hq. apply H3. by rewrite <- Hperm.
  - intros q s Hs. rewrite (bool_decide_ext (q ∈ l) (q ∈ streams (h_ctx h))) by by rewrite Hperm. by apply H5.
Qed.

Lemma move_back_perm (l r : list nat) : NoDup l -> r `sublist_of` l -> filter (fun p => p ∉ r) l ++ r ≡ₚ l.
Proof.
  intros Hl Hr. pose proof (sublist_NoDup _ _ Hl Hr) as Hnr. assert (forall x, x ∈ r -> x ∈ l) as Hin by (intros x Hx; by eapply elem_of_sublist).
  apply NoDup_Permutation; [|done|].
  - apply NoDup_app. split_and!; [by apply NoDup_filter| |done]. by intros x [? _]%list_elem_of_filter.
  - intros x. rewrite elem_of_app, list_elem_of_filter. destruct (decide (x ∈ r)); naive_solver.
Qed.

Section Poll.
Variable malloc_ok : bool.
Variable own : nat -> Z.

Lemma collect_ready_safe l items max (cw : bool) ready h : inv (hold own items) h -> (forall p, p ∈ l -> is_Some (h_streams h !! p)) ->
  wp (collect_ready l items max cw ready) h (fun h' r => inv (hold own r.1) h' /\ h_ctx h' = h_ctx h /\ exists l', r.2 = ready ++ l' /\ l' `sublist_of` l) (fun _ => False).
Proof.
  revert items ready h. induction l as [|p l IH]; intros items ready h Hi Hl; cbn [collect_ready].
  { wp_step. split_and!; [done|done|]. exists []. by rewrite app_nil_r. }
  destruct (Hl p) as [s Hs]; [by left|]. wp_step. eapply wp_stream; [exact Hs|]. destruct (_ && _).
  - wp_step. eapply wp_mono; [eapply (stream_get_safe (hold own items) h); [by apply good_refl|exact Hs]| |done]. intros h1 [] [(Hi1&_&Ha) ->].
    eapply wp_mono; [apply IH| |done].
    + eapply inv_ext; [|exact Hi1]. intros q. apply hold_snoc.
    + intros q Hq. apply Ha, Hl. by right.
    + intros h' r (Hi'&Hc'&l'&Hr&Hsub). split_and!; [done|done|]. exists (p :: l'). split; [by rewrite Hr, <- app_assoc|by constructor].
  - eapply wp_mono; [apply IH; [done|intros q Hq; apply Hl; by right]| |done]. intros h' r (Hi'&Hc'&l'&Hr&Hsub). split_and!; [done|done|]. exists l'. split; [done|by constructor].
Qed.

Lemma collect_ready_streams_safe items max (cw : bool) h : inv (hold own items) h ->
  wp (_http2_ctx_collect_ready_streams items max cw) h (fun h' r => inv (hold own r) h') (fun _ => False).
Proof.
  intros Hi. pose proof Hi as ((_&Hl&_)&_). destruct Hl as (Hnd&_&Hl&_). unfold _http2_ctx_collect_ready_streams. wp_step. apply wp_ctx. wp_step.
  eapply wp_mono; [by apply collect_ready_safe| |done]. intros h1 r (Hi1&Hc1&l'&Hr&Hsub). cbn [app] in Hr. wp_step. apply wp_upd_ctx. wp_step.
  apply inv_reordered; [done|]. rewrite Hr, Hc1. by apply move_back_perm.
Qed.

Lemma check_new_streams_safe max h : inv own h ->
  wp (_http2_ctx_check_new_streams max) h (fun h' r => h' = h /\ forall q, hold own r q = own q) (fun _ => False).
Proof.
  intros Hi. unfold _http2_ctx_check_new_streams. wp_step. apply wp_ctx. assert (forall q, hold own [] q = own q) as H0 by (intros q; apply Z.add_0_r). wp_step; [by wp_step|].
  wp_step. eapply wp_mono; [apply find_acceptable_safe; intros p Hp; apply (good_listed own h h); [by apply good_refl|done]| |done].
  intros h1 [p|] [-> _]; wp_step; (split; [done|]); [|done]. intros q. unfold hold. rewrite filter_cons, decide_False by done. apply Z.add_0_r.
Qed.

Lemma poll_safe max (cw : bool) h : inv own h -> wp (_http2_ctx_poll malloc_ok max cw) h (fun h' r => inv (hold own r.2) h') (fun _ => False).
Proof.
  intros Hi. assert (forall h', inv own h' -> inv (hold own []) h') as H0 by (intros h' Hh; eapply inv_ext; [|exact Hh]; intros q; symmetry; apply Z.add_0_r).
  unfold _http2_ctx_poll. wp_step. eapply wp_mono; [by apply io_process_safe| |done]. intros h1 code Hi1.
  wp_step. eapply wp_mono; [by apply (flush_bodies_safe malloc_ok own)| |done]. intros h3 [] [Hi3 _]. destruct max as [max|]; [|wp_step; by apply H0].
  wp_step; [wp_step; by apply H0|]. wp_step. eapply wp_mono; [by apply check_new_streams_safe| |done]. intros h4 items [-> Hh]. wp_step.
  eapply wp_mono; [apply collect_ready_streams_safe; eapply inv_ext; [|exact Hi3]; intros q; by rewrite Hh| |done]. intros h5 items' Hi5.
  wp_step; [by wp_step|]. wp_step; [by wp_step|]. wp_step. apply wp_ctx. by wp_step.
Qed.
End Poll.

(** ** Closing a stream *)

Section Close.
Variable malloc_ok : bool.
Variable own : nat -> Z.

(** Two puts: the reference taken at the start, and the caller's. *)
Lemma put_twice_safe p h : inv (bump own p 1) h -> 0 < own p -> wp (http2_stream_put p ;; http2_stream_put p) h (fun h' _ => inv (bump own p (-1)) h') (fun _ => False).
Proof.
  intros Hi Ho. wp_step. eapply wp_mono; [apply (stream_put_back own p h); [by apply good_refl|lia]| |done]. intros h1 [] (Hi1&_&_).
  eapply wp_mono; [apply (stream_put_safe own h1); [by apply good_refl|done]| |done]. by intros h3 [] (?&_).
Qed.

Lemma stream_close_safe p h : inv own h -> 0 < own p -> wp (http2_stream_close malloc_ok p) h (fun h' _ => inv (bump own p (-1)) h') (fun _ => False).
Proof.
  intros Hi Ho. destruct (own_alive own h p Hi Ho) as [s Hs]. set (own1 := bump own p 1). unfold http2_stream_close. wp_step.
  eapply wp_mono; [eapply (stream_get_safe own h); [by apply good_refl|exact Hs]| |done]. intros h1 [] [Hg1 ->]. apply good_inv in Hg1 as Hi1. fold own1 in Hi1.
  match goal with |- wp _ ?h _ _ => set (h1 := h) in * end. assert (keeps own1 h1 p h1) as Hk1 by (split; [by apply good_refl|]; by apply (own_alive own1); [|unfold own1; rewrite bump_eq; lia]).
  pose proof Hk1 as [_ [s1 Hs1]]. wp_step. eapply wp_stream; [exact Hs1|]. wp_step.
  apply (wp_mono _ _ (fun h' _ => inv own1 h') _ (fun _ => False)); [|intros h' [] Hi'; by apply put_twice_safe|done].
  wp_step; [|by wp_step]. wp_step. apply (wp_mono _ _ (fun h' _ => keeps own1 h1 p h') _ (fun _ => False)); [| |done].
  - wp_step; [|by wp_step]. wp_step. apply (upd_stream_keeps own1 h1); [done|done|done|]. intros h3 Hk3. wp_step.
    eapply wp_mono; [by apply (wp_hard_error_both _ _ (keeps own1 h1 p) (fun _ => False)), flush_pending_send_safe| |done]. intros h4 e Hk4. wp_step.
    apply (wp_mono _ _ (fun h' _ => keeps own1 h1 p h') _ (fun _ => False)); [wp_step; [by apply (upd_stream_keeps own1 h1)|by wp_step]| |done].
    intros h5 [] Hk5. pose proof Hk5 as [_ [s5 Hs5]]. by eapply wp_stream.
  - intros h3 wait Hk3. destruct wait; [wp_step; apply Hk3|]. wp_step. apply (upd_stream_keeps own1 h1); [done|done|done|]. intros h4 Hk4. pose proof Hk4 as [Hg4 [s4 Hs4]].
    wp_step. apply wp_ctx. wp_step. eapply wp_stream; [exact Hs4|]. wp_step. apply (wp_mono _ _ (fun h' _ => keeps own1 h1 p h') _ (fun _ => False)); [| |done].
    + wp_step; [|by wp_step]. wp_step. apply (wp_try_sends own1 h1); [by apply send_rst_safe|]. intros h5 r Hg5 Hio. wp_step. split; [done|]. rewrite (io_same_streams _ _ Hio). by eexists.
    + intros h5 [] [Hg5 Hp5]. eapply wp_mono; [by apply (remove_stream_safe own1 h1)| |done]. by intros h6 [] (?&_).
Qed.
End Close.

(** ** Header blocks *)

(** No more than this many bytes. *)
Definition fields_size (fields : list (list Z * list Z)) : Z :=
  foldr (fun f n => Zlen f.1 + Zlen f.2 + 36 + n) 0 fields.

Definition fields_ok (fields : list (list Z * list Z)) : Prop := Forall field_strings fields /\ fields_size fields < 2 ^ 30.

Lemma fields_size_nonneg fields : 0 <= fields_size fields.
Proof. induction fields as [|f fields IH]; cbn; [done|]. pose proof (Zlen_nonneg f.1). pose proof (Zlen_nonneg f.2). unfold fields_size in IH. lia. Qed.

Lemma fields_size_app a b : fields_size (a ++ b) = fields_size a + fields_size b.
Proof. induction a as [|f a IH]; [done|]. cbn. fold (fields_size (a ++ b)). fold (fields_size a). lia. Qed.

Lemma field_bytes_bound h name value : Zlen (field_bytes h name value) <= Zlen name + Zlen value + 36.
Proof.
  unfold field_bytes, string_bytes. destruct (hpack_find_index name value h) as [i n]. pose proof (Zlen_nonneg name). pose proof (Zlen_nonneg value).
  pose proof (int_bytes_len 7 128 i). pose proof (int_bytes_len 6 64 n). pose proof (int_bytes_len 6 64 0). pose proof (int_bytes_len 7 0 (Zlen value)). pose proof (int_bytes_len 7 0 (Zlen name)).
  destruct (0 <? i); [lia|]. destruct (0 <? n); rewrite !Zlen_app; lia.
Qed.

Section Headers.
Variable malloc_ok : bool.
Variable own : nat -> Z.
Variable h0 : h2.

Definition same_streams (h h' : h2) : Prop := good own h0 h' /\ h_streams h' = h_streams h.

Lemma set_encoder_good h e : good own h0 h -> table_wf e -> good own h0 (set_h_ctx (set_encoder e (h_ctx h)) h).
Proof.
  intros Hg He. apply (good_upd_ctx own h0 h (set_encoder e)); try done. intros (H1&H2&H3&H4&H5&H6&H7&H8&H9&_&H11). exact (conj H1 (conj H2 (conj H3 (conj H4 (conj H5 (conj H6 (conj H7 (conj H8 (conj H9 (conj He H11)))))))))).
Qed.

(** A run of the encoder inside the connection. *)
Lemma wp_encode {A} (m : M enc_state Z) st (k : list Z -> hpack_context -> Z -> H A) (k' : hpack_context -> H A) h Q E Q1 E1 :
  wp m st Q1 E1 -> (forall b e n, Q1 (b, e) n -> wp (k b e n) h Q E) -> (forall b e, E1 (b, e) -> wp (k' e) h Q E) ->
  wp (match m st with Ok (b, e) n => k b e n | Fail (_, e) => k' e | UB => ub | Diverged => diverge end) h Q E.
Proof. intros Hm HQ HE. unfold wp in Hm. destruct (m st) as [[b e] n|[b e]| |]; try done; [by apply HQ|by eapply HE]. Qed.

Lemma encode_header_block_safe fields buf len h : good own h0 h -> Forall field_strings fields -> 0 <= len <= Zlen buf -> len + fields_size fields < 2 ^ 30 ->
  wp (encode_header_block malloc_ok fields buf len) h (fun h' b => same_streams h h' /\ Zlen b < 2 ^ 30) (same_streams h).
Proof.
  intros Hg Hf. revert buf len h Hg. induction Hf as [|[name value] fields [Hn Hv] Hf IH]; intros buf len h Hg Hlen Hsize; cbn [encode_header_block].
  { apply wp_access. exists (take (Z.to_nat len) buf). cbn in Hsize. split; [apply rd_bytes_Some; split_and!; try lia; done|]. split; [done|]. unfold Zlen in *. rewrite length_take. lia. }
  cbn [fst snd] in *. change (fields_size ((name, value) :: fields)) with (Zlen name + Zlen value + 36 + fields_size fields) in Hsize.
  pose proof (fields_size_nonneg fields). pose proof (Zlen_nonneg name). pose proof (Zlen_nonneg value).
  wp_step. apply (wp_mono _ _ (fun h' b => h' = h /\ len <= Zlen b) _ (fun h' => h' = h)); [| |intros h' ->; by split].
  { wp_step; [|wp_step; split; [done|lia]]. destruct (safe_buffer_size (Zlen buf) 2) as [n|]; [|by wp_step]. wp_step. apply wp_guard; [intros _|done]. wp_step.
    split; [done|]. rewrite Zlen_app. pose proof (Zlen_nonneg (replicate (Z.to_nat (n - Zlen buf)) 0)). lia. }
  intros h1 b [-> Hb]. wp_step. apply wp_ctx. pose proof (good_ctx_ok _ _ _ Hg) as (_&_&_&_&_&_&_&_&_&He&_).
  assert (field_ok name value) as Hok. { sizes. unfold field_ok, INT_MAX. split_and!; try done; lia. }
  eapply wp_encode; [apply (hpack_encode_header_writes malloc_ok name value b (encoder (h_ctx h)) len (Zlen b - len) He Hok); lia| |]; cbn [fst snd].
  - intros b' e' n (->&Hle&Hwr&->). pose proof (field_bytes_bound (encoder (h_ctx h)) name value). pose proof (Zlen_nonneg (field_bytes (encoder (h_ctx h)) name value)). pose proof (wr_bytes_len _ _ _ _ Hwr).
    wp_step. apply wp_upd_ctx. eapply wp_mono; [apply IH; [by apply set_encoder_good, field_table_wf|lia|lia]| |]; cbv beta; unfold same_streams; h2_simpl; tauto.
  - intros b' e' (_&_&->). wp_step. apply wp_upd_ctx. wp_step. split; [by apply set_encoder_good|done].
Qed.

Lemma send_headers_safe id fields e eh h : good own h0 h -> fields_ok fields ->
  wp (_http2_send_headers_frame malloc_ok id fields e eh) h (fun h' _ => same_streams h h') (same_streams h).
Proof.
  intros Hg [Hf Hs]. unfold _http2_send_headers_frame. wp_step. apply wp_guard; [intros _|done]. wp_step.
  eapply wp_mono; [apply encode_header_block_safe; [done|done|done|lia]| |done]. intros h1 b [[Hg1 Hs1] Hb]. wp_step. apply wp_ctx. wp_step. apply wp_guard; [intros _|done]. wp_step.
  eapply wp_mono; [apply send_frame_safe; [exact Hg1|by rewrite frame_header_len]| |]; cbv beta.
  2: { intros h3 [Hg3 Hio]. split; [done|]. by rewrite (io_same_streams _ _ Hio). }
  intros h3 n [Hg3 Hio]. wp_step; [|wp_step; split; [done|by rewrite (io_same_streams _ _ Hio)]]. wp_step. eapply wp_mono; [by apply send_frame_safe| |]; cbv beta.
  - intros h4 n4 [Hg4 Hio4]. wp_step. split; [done|]. by rewrite (io_same_streams _ _ Hio4), (io_same_streams _ _ Hio).
  - intros h4 [Hg4 Hio4]. split; [done|]. by rewrite (io_same_streams _ _ Hio4), (io_same_streams _ _ Hio).
Qed.

(** ** The headers of a stream *)

(** [p] has its headers from [fields]. *)
Definition headed (p : nat) (fields : list (list Z * list Z)) (h : h2) : Prop :=
  good own h0 h /\ exists s, h_streams h !! p = Some s /\ Forall field_strings (header_list s) /\ fields_size (header_list s) <= fields_size fields.

Lemma headers_stream_ok s l : Forall field_strings l -> stream_ok s -> stream_ok (set_header_list l s).
Proof. intros Hl (H1&H2&H3&H4&H5&H6&H7&_). exact (conj H1 (conj H2 (conj H3 (conj H4 (conj H5 (conj H6 (conj H7 Hl))))))). Qed.

Lemma free_headers_safe p h (Q : h2 -> unit -> Prop) E : keeps own h0 p h -> (forall h', headed p [] h' -> Q h' tt) -> wp (_http2_free_headers p) h Q E.
Proof.
  intros [Hg [s Hs]] HQ. unfold _http2_free_headers. eapply g_upd_stream; [exact Hg|exact Hs|done|by apply headers_stream_ok|]. intros Hg1. apply HQ. split; [done|].
  h2_simpl. rewrite lookup_insert_eq. by exists (set_header_list [] s).
Qed.

Lemma add_headers_safe p fields fields' h (Q : h2 -> unit -> Prop) E : headed p fields h -> Forall field_strings fields' -> (forall h', headed p (fields ++ fields') h' -> Q h' tt) ->
  wp (add_headers malloc_ok p fields') h Q E.
Proof.
  intros Hh Hf. revert fields h Hh. induction Hf as [|[name value] fields' Hfs Hf IH]; intros fields h Hh HQ; cbn [add_headers]; [wp_step; apply HQ; by rewrite app_nil_r|].
  pose proof Hh as (Hg&s&Hs&Hss&Hsz). wp_step. apply wp_try. unfold _http2_stream_add_header. wp_step. apply wp_guard.
  - intros _. eapply g_upd_stream; [exact Hg|exact Hs|done|apply headers_stream_ok; apply Forall_app; by split; [|constructor]|]. intros Hg1.
    apply (IH (fields ++ [(name, value)])); [|intros h'; rewrite <- app_assoc; apply HQ]. split; [done|]. h2_simpl. rewrite lookup_insert_eq. eexists. split; [done|]. h2_simpl.
    rewrite !fields_size_app. split; [apply Forall_app; by split; [|constructor]|lia].
  - intros _. apply (IH (fields ++ [(name, value)])); [|intros h'; rewrite <- app_assoc; apply HQ]. split; [done|]. exists s. rewrite fields_size_app. split_and!; try done.
    pose proof (fields_size_nonneg [(name, value)]). lia.
Qed.

(** The headers are sent. *)
Lemma send_headed_safe p fields id e h s : headed p fields h -> fields_size fields < 2 ^ 30 -> h_streams h !! p = Some s ->
  wp (_http2_send_headers_frame malloc_ok id (header_list s) e true) h (fun h' _ => keeps own h0 p h') (keeps own h0 p).
Proof.
  intros (Hg&s'&Hs'&Hss&Hsz) Hl Hs. rewrite Hs in Hs'. injection Hs' as <-.
  eapply wp_mono; [apply send_headers_safe; [done|split; [done|lia]]|intros h' [] [Hg' Hst]|intros h' [Hg' Hst]]; (split; [done|]); rewrite Hst; by eexists.
Qed.

(** The headers of a request and of a response. *)
Definition request_fields (c : http2_ctx) (method path : list Z) (scheme : option (list Z)) (headers : list (list Z * list Z)) : list (list Z * list Z) :=
  [(bytes ":method", method); (bytes ":path", path); (bytes ":scheme", default (bytes "https") scheme); (bytes ":authority", find_authority headers (default (bytes "localhost") (server c)))] ++
  filter (fun f => negb (bool_decide (f.1 = bytes ":authority") || strcasecmp_eq f.1 (bytes "host"))) headers.

Definition response_fields (status : Z) (headers : list (list Z * list Z)) : list (list Z * list Z) := (bytes ":status", print_status status) :: headers.

Lemma end_request_safe p (e idle : bool) (r : option unit) h : keeps own h0 p h ->
  wp ((if e then upd_stream p (set_end_stream_sent true) else ret tt) ;; (if idle then upd_stream p (set_s_state HTTP2_STREAM_OPEN) else ret tt) ;;
    match r with Some _ => ret tt | None => fail end) h (fun h' _ => keeps own h0 p h') (keeps own h0 p).
Proof.
  intros Hk. wp_step. apply (wp_mono _ _ (fun h' _ => keeps own h0 p h') _ (fun _ => False)); [destruct e; [by apply (upd_stream_keeps own h0)|by wp_step]| |done].
  intros h1 [] Hk1. wp_step. apply (wp_mono _ _ (fun h' _ => keeps own h0 p h') _ (fun _ => False)); [destruct idle; [by apply (upd_stream_keeps own h0)|by wp_step]| |done].
  intros h3 [] Hk3. destruct r; by wp_step.
Qed.

Lemma set_request_safe p method path scheme headers h : keeps own h0 p h -> fields_ok (request_fields (h_ctx h) method path scheme headers) ->
  wp (http2_stream_set_request malloc_ok p method path scheme headers) h (fun h' _ => keeps own h0 p h') (keeps own h0 p).
Proof.
  intros Hk [Hrf Hrs]. pose proof Hk as [Hg [s Hs]]. unfold http2_stream_set_request. wp_step. eapply wp_stream; [exact Hs|]. wp_step. apply wp_guard; [intros _|done]. wp_step.
  unfold _http2_free_headers. eapply wp_upd_stream; [exact Hs|].
  match goal with |- wp _ ?h1 _ _ => assert (headed p [] h1) as Hh1 end.
  { split; [by apply (good_upd_stream own h0 h p s (set_header_list [])); try done; by apply headers_stream_ok|]. h2_simpl. rewrite lookup_insert_eq. by exists (set_header_list [] s). }
  wp_step. apply wp_ctx. h2_simpl. unfold request_fields in *. apply Forall_app in Hrf as [Hf1 Hf2].
  wp_step. eapply add_headers_safe; [exact Hh1|exact Hf1|]. intros h3 Hh3. wp_step. eapply add_headers_safe; [exact Hh3|exact Hf2|]. intros h4 Hh4. pose proof Hh4 as (Hg4&s4&Hs4&_).
  wp_step. eapply wp_stream; [exact Hs4|]. wp_step. apply wp_try.
  eapply wp_mono; [by eapply (send_headed_safe p)| |]; cbv beta.
  - intros h5 [] Hk5. by apply (end_request_safe p _ _ (Some tt)).
  - intros h5 Hk5. by apply (end_request_safe p _ _ None).
Qed.

Lemma set_response_safe p status headers h : keeps own h0 p h -> (100 <= status <= 599 -> fields_ok (response_fields status headers)) ->
  wp (http2_stream_set_response malloc_ok p status headers) h (fun h' _ => keeps own h0 p h') (keeps own h0 p).
Proof.
  intros Hk Hf. pose proof Hk as [Hg [s Hs]]. unfold http2_stream_set_response. wp_step. apply wp_guard; [intros Hst|done]. bools. destruct Hf as [Hf Hsz]; [lia|]. wp_step. eapply wp_stream; [exact Hs|].
  wp_step. apply wp_guard; [intros _|done]. wp_step. apply free_headers_safe; [done|]. intros h1 Hh1. wp_step. eapply add_headers_safe; [exact Hh1|exact Hf|]. intros h3 Hh3.
  pose proof Hh3 as (Hg3&s3&Hs3&_). wp_step. eapply wp_stream; [exact Hs3|]. by eapply (send_headed_safe p).
Qed.
End Headers.

(** ** A new connection *)

Lemma start_inv malloc_ok client srv max_streams next reads writes : Forall event_ok reads ->
  inv (fun _ => 0) (mk_h2 (_http2_ctx_init_common malloc_ok client srv max_streams next) ∅ 0 reads writes [] EOTHER).
Proof.
  intros Hr. split; [split_and!|]; [| |exact Hr|].
  - unfold ctx_ok, buffer_ok. cbn -[table_wf]. change (Zlen (@nil Z)) with 0. split_and!; try done; try lia; try apply hpack_init_wf; try (by left); try by constructor.
    by destruct client; [left|].
  - unfold linked. cbn. split_and!; try done; [constructor|intros p Hp; by apply elem_of_nil in Hp].
  - split; [done|]. by left.
Qed.

Lemma ctx_new_safe malloc_ok client srv max_streams reads writes : Forall event_ok reads ->
  exists h, http2_ctx_new malloc_ok client srv max_streams reads writes = Ok h tt /\ inv (fun _ => 0) h.
Proof.
  intros Hr. pose proof (start_inv malloc_ok client srv max_streams (if client then 1 else 2) reads writes Hr) as Hi. unfold http2_ctx_new. set (h0 := mk_h2 _ _ _ _ _ _ _) in *.
  match goal with |- exists h, ?m h0 = _ /\ _ => assert (wp m h0 (fun h' _ => inv (fun _ => 0) h') (fun _ => False)) as Hw end.
  2: { unfold wp in Hw. match type of Hw with match ?r with _ => _ end => destruct r as [h' []| | |] end; try done. by exists h'. }
  pose proof (good_refl _ _ Hi) as Hg. wp_step. apply (wp_mono _ _ (fun h' _ => good (fun _ => 0) h0 h') _ (fun _ => False)); [| |done].
  - wp_step; [|by wp_step]. wp_step. apply (wp_try_sends (fun _ => 0) h0); [by apply send_frame_safe|]. intros h1 r Hg1 _. by wp_step.
  - intros h1 [] Hg1. wp_step. apply (wp_try_sends (fun _ => 0) h0); [by apply send_settings_safe|]. intros h3 r Hg3 _. wp_step. by apply good_inv in Hg3.
Qed.
