(* ===== verification/Http2Closed.v ===== *)
(** * HTTP/2: streams after their connection (src/http_parse/http2.c)

    What is left of a stream when its connection is closed can be read and given
    back; no call on it touches the connection. *)

From Stdlib Require Import ZArith Lia String.
From stdpp Require Import base list numbers option gmap.
From S2P Require Import Prelude Hpack Http2Types Http2 Http2Send Http2Body.

(** [m] leaves a state in [P], when it returns. *)
Definition leaves {A} (m : H A) (h : h2) (P : h2 -> Prop) : Prop := match m h with Ok h' _ | Fail h' => P h' | _ => True end.

Section Rules.
Context {A B : Type}.
Implicit Types (P Q : h2 -> Prop).

Lemma leaves_bind (m : H A) (f : A -> H B) h P : leaves m h P -> (forall a h', P h' -> leaves (f a) h' P) -> leaves (a <- m ;; f a) h P.
Proof. unfold leaves, bind. intros Hm Hf. destruct (m h) as [h' a|h'| |]; try done. by apply Hf. Qed.

Lemma leaves_try (m : H A) h P : leaves m h P -> leaves (try m) h P.
Proof. unfold leaves, try. by destruct (m h). Qed.

Lemma leaves_ret (a : A) h P : P h -> leaves (ret a) h P.
Proof. done. Qed.

Lemma leaves_fail h P : P h -> leaves (@fail h2 A) h P.
Proof. done. Qed.

Lemma leaves_access (o : option A) h P : P h -> leaves (access o) h P.
Proof. by destruct o. Qed.

Lemma leaves_ctx (f : http2_ctx -> A) h P : P h -> leaves (ctx f) h P.
Proof. done. Qed.

Lemma leaves_stream p (f : http2_stream -> A) h P : P h -> leaves (stream p f) h P.
Proof. unfold leaves, stream, bind, get, access, ret. by destruct (h_streams h !! p). Qed.
End Rules.

Lemma leaves_guard (b : bool) h P : P h -> leaves (guard b) h P.
Proof. by destruct b. Qed.

(** The connection is as in [h0]. *)
Definition untouched (h0 h : h2) : Prop := h_ctx h = h_ctx h0.

Lemma leaves_upd_stream h0 p f h : untouched h0 h -> leaves (upd_stream p f) h (untouched h0).
Proof. intros Hu. unfold leaves, upd_stream, bind, get, access, put. by destruct (h_streams h !! p). Qed.

Lemma leaves_set_errno h0 e h : untouched h0 h -> leaves (set_errno e) h (untouched h0).
Proof. done. Qed.

(** The calls that do not write to the connection. *)
Ltac quiet :=
  repeat match goal with
  | H : ?P |- ?P => exact H
  | |- leaves (upd_stream _ _) _ _ => apply leaves_upd_stream
  | |- leaves (stream _ _) _ _ => apply leaves_stream
  | |- leaves (ctx _) _ _ => apply leaves_ctx
  | |- leaves (set_errno _) _ _ => apply leaves_set_errno
  | |- leaves (guard _) _ _ => apply leaves_guard
  | |- leaves (bind _ _) _ _ => apply leaves_bind; [|intros ? ? ?]
  | |- leaves (try _) _ _ => apply leaves_try
  | |- leaves (ret _) _ _ => apply leaves_ret
  | |- leaves fail _ _ => apply leaves_fail
  | |- leaves (access _) _ _ => apply leaves_access
  | |- leaves (let _ := _ in _) _ _ => cbv zeta
  | |- leaves (if ?b then _ else _) _ _ => destruct b
  | |- leaves (match ?o with _ => _ end) _ _ => destruct o
  end.

Section Closed.
Variable malloc_ok : bool.
Context {zstate : Type}.
Variable inflateInit2 : bool -> option zstate.
Variable inflate : zstate -> list Z -> Z -> inflate_result zstate.
Variable h0 : h2.

Lemma inflate_loop_leaves fuel z input out size h : untouched h0 h -> leaves (inflate_loop malloc_ok inflate fuel z input out size) h (untouched h0).
Proof. revert z input out size h. induction fuel as [|fuel IH]; intros z input out size h Hu; [done|]. cbn [inflate_loop]. quiet. by apply IH. Qed.

Lemma try_decompress_leaves p h : untouched h0 h -> leaves (http2_try_decompress_body malloc_ok inflateInit2 inflate p) h (untouched h0).
Proof. intros Hu. unfold http2_try_decompress_body, http2_decompress_data. quiet. by apply inflate_loop_leaves. Qed.

Lemma read_body_leaves p len h : untouched h0 h -> leaves (http2_stream_read_body malloc_ok inflateInit2 inflate p len) h (untouched h0).
Proof. intros Hu. unfold http2_stream_read_body, drop_body. quiet; by apply try_decompress_leaves. Qed.

Lemma body_available_leaves p h : untouched h0 h -> leaves (http2_stream_body_available malloc_ok inflateInit2 inflate p) h (untouched h0).
Proof. intros Hu. unfold http2_stream_body_available, drop_body. quiet; by apply try_decompress_leaves. Qed.

Lemma is_end_leaves p h : untouched h0 h -> leaves (http2_stream_is_end malloc_ok inflateInit2 inflate p) h (untouched h0).
Proof. intros Hu. unfold http2_stream_is_end, drop_body. quiet; by apply try_decompress_leaves. Qed.

(** ** Streams of a closed connection *)

Hypothesis closed : streams (h_ctx h0) = [].

Lemma leaves_at {A} p s (f : http2_stream -> H A) h P : h_streams h !! p = Some s -> leaves (f s) h P -> leaves (s <- stream p (fun s => s) ;; f s) h P.
Proof. intros Hs Hf. unfold leaves, stream, bind, get, access, ret in *. by rewrite Hs. Qed.

Lemma put_leaves p h : untouched h0 h -> leaves (http2_stream_put p) h (untouched h0).
Proof.
  intros Hu. unfold http2_stream_put. apply leaves_bind; [by apply leaves_upd_stream|]. intros _ h1 Hu1. apply leaves_bind; [by apply leaves_stream|]. intros n h3 Hu3.
  destruct (0 <? n); [done|]. destruct (n <? 0); [done|]. unfold leaves, ctx, bind, get, ret. rewrite Hu3, closed. rewrite bool_decide_eq_false_2 by apply not_elem_of_nil. done.
Qed.

Lemma close_leaves p s h : untouched h0 h -> h_streams h !! p = Some s -> s_ctx s = false -> leaves (http2_stream_close malloc_ok p) h (untouched h0).
Proof.
  intros Hu Hs Hctx. unfold http2_stream_close, http2_stream_get. unfold leaves, upd_stream, bind at 1, get at 1, access, bind at 1, bind at 1, put. rewrite Hs. h2_simpl.
  set (h1 := set_h_streams _ h).
  match goal with |- match ?m h1 with _ => _ end => change (leaves m h1 (untouched h0)) end.
  eapply leaves_at; [subst h1; h2_simpl; apply lookup_insert_eq|]. cbn [s_ctx set_s_refcount]. rewrite Hctx.
  apply leaves_bind; [by apply leaves_ret|]. intros _ h3 Hu3. apply leaves_bind; [by apply put_leaves|]. intros _ h4 Hu4. by apply put_leaves.
Qed.

Lemma set_request_leaves p s m path scheme hs h : untouched h0 h -> h_streams h !! p = Some s -> s_ctx s = false -> leaves (http2_stream_set_request malloc_ok p m path scheme hs) h (untouched h0).
Proof. intros Hu Hs Hctx. unfold http2_stream_set_request. eapply leaves_at; [exact Hs|]. by rewrite Hctx. Qed.

Lemma set_response_leaves p s st hs h : untouched h0 h -> h_streams h !! p = Some s -> s_ctx s = false -> leaves (http2_stream_set_response malloc_ok p st hs) h (untouched h0).
Proof. intros Hu Hs Hctx. unfold http2_stream_set_response. destruct (negb _); [|done]. apply (leaves_at p s _ h); [exact Hs|]. by rewrite Hctx. Qed.

Lemma write_body_leaves p s data e h : untouched h0 h -> h_streams h !! p = Some s -> s_ctx s = false -> leaves (http2_stream_write_body malloc_ok p data e) h (untouched h0).
Proof. intros Hu Hs Hctx. unfold http2_stream_write_body. destruct (negb _); [|done]. apply (leaves_at p s _ h); [exact Hs|]. by rewrite Hctx. Qed.
End Closed.

(** ** Closing a connection *)

(** Only streams of [l] are in the list. *)
Definition listed_in (l : list nat) (h : h2) : Prop := forall q, q ∈ streams (h_ctx h) -> q ∈ l.

Lemma unlink_leaves p l h : listed_in (p :: l) h -> leaves (unlink_stream p) h (listed_in l).
Proof.
  intros Hl. unfold unlink_stream, leaves, stream, upd_ctx, ctx, upd_stream, bind, get, access, ret, modify, put. destruct (h_streams h !! p) as [s|] eqn:Hs; [|done]. h2_simpl.
  case_bool_decide as Hp; h2_simpl.
  - rewrite Hs. assert (forall q, q ∈ filter (fun q => q <> p) (streams (h_ctx h)) -> q ∈ l) as Hf.
    { intros q [Hq Hin]%list_elem_of_filter. apply Hl, elem_of_cons in Hin as [|]; done. }
    destruct (s_ctx s); [|exact Hf]. destruct (_http2_is_local_stream_id _ _); exact Hf.
  - intros q Hq. change (q ∈ streams (h_ctx h)) in Hq. pose proof (Hl q Hq) as [->|]%elem_of_cons; done.
Qed.

Lemma put_listed p l h : listed_in l h -> leaves (http2_stream_put p) h (listed_in l).
Proof.
  intros Hl. unfold http2_stream_put, free_stream. apply leaves_bind.
  { unfold leaves, upd_stream, bind, get, access, put. by destruct (h_streams h !! p). }
  intros _ h1 Hl1. apply leaves_bind; [by apply leaves_stream|]. intros n h3 Hl3. destruct (0 <? n); [done|]. destruct (n <? 0); [done|].
  apply leaves_bind; [by apply leaves_ctx|]. intros b h4 Hl4. apply leaves_bind; [|done]. destruct b; [|done]. apply leaves_bind; [|done].
  apply unlink_leaves. intros q Hq. right. by apply Hl4.
Qed.

Lemma remove_stream_leaves p l h : listed_in (p :: l) h -> leaves (_http2_remove_stream p true) h (listed_in l).
Proof.
  intros Hl. unfold _http2_remove_stream, leaves, bind. pose proof (unlink_leaves p l h Hl) as Hu. unfold leaves in Hu.
  destruct (unlink_stream p h) as [h' [|]|h'| |]; try done. by apply (put_listed p l h').
Qed.

Lemma remove_streams_all l h h' : listed_in l h -> remove_streams l h = Ok h' tt -> listed_in [] h'.
Proof.
  revert h. induction l as [|p l IH]; intros h Hl; cbn [remove_streams]; [by intros [= <-]|].
  pose proof (remove_stream_leaves p l h Hl) as Hr. unfold leaves, bind in *. destruct (_http2_remove_stream p true h) as [h1 []|h1| |]; try done. by apply IH.
Qed.

Lemma ctx_close_empties h h' : http2_ctx_close h = Ok h' tt -> streams (h_ctx h') = [].
Proof.
  unfold http2_ctx_close, ctx, bind, get, ret. intros Hr. apply remove_streams_all in Hr; [|by intros q]. destruct (streams (h_ctx h')) as [|q l] eqn:Hs; [done|].
  exfalso. apply (not_elem_of_nil q), Hr. rewrite Hs. by left.
Qed.
