(* ===== verification/Http2Calls.v ===== *)
(** * HTTP/2: sessions (src/http_parse/http2.c)

    A user of the library makes any calls in any order on a connection, with
    whatever the transport answers; the states that can be reached, and what holds
    in them. *)

From Stdlib Require Import ZArith Lia String.
From stdpp Require Import base list numbers option gmap.
From S2P Require Import Prelude Hpack HpackSpec HpackTable HpackHeaders HpackDecode HpackCorrect DnsCache Http2Types Http2 Http2Send Http2Body Http2Frames Http2Correct Http2Inv Http2Safe Http2SafeIn Http2SafeFrames Http2SafeConn Http2SafeApi Http2SafeOut Http2Closed.

(** ** Calls *)

Inductive call :=
  | Handshake | AcceptStream | Poll (max_items : option Z) | PollReadable (max_items : option Z) | Disconnect | CtxClose
  | WantRead | WantWrite | IsClosed | StreamNew
  | StreamGet (p : nat) | StreamPut (p : nat) | StreamClose (p : nat)
  | SetRequest (p : nat) (method path : list Z) (scheme : option (list Z)) (headers : list (list Z * list Z))
  | SetResponse (p : nat) (status : Z) (headers : list (list Z * list Z))
  | GetHeader (p : nat) (name : list Z) | GetStatus (p : nat) | GetId (p : nat)
  | WriteBody (p : nat) (data : list Z) (end_stream : bool) | ReadBody (p : nat) (len : Z)
  | BodyAvailable (p : nat) | IsEnd (p : nat) | IsRemoteEnd (p : nat).

(** The stream that is passed; the other calls are on the connection. *)
Definition call_stream (c : call) : option nat :=
  match c with
  | StreamGet p | StreamPut p | StreamClose p | SetRequest p _ _ _ _ | SetResponse p _ _ | GetHeader p _ | GetStatus p | GetId p
  | WriteBody p _ _ | ReadBody p _ | BodyAvailable p | IsEnd p | IsRemoteEnd p => Some p
  | _ => None
  end.

(** The reference a call takes from the caller. *)
Definition gives_back (c : call) : list nat := match c with StreamPut p | StreamClose p => [p] | _ => [] end.

Definition times (q : nat) (l : list nat) : Z := Zlen (filter (fun p => p = q) l).

(** The references of the user after a call that handed out [l]. *)
Definition owns (own : nat -> Z) (c : call) (l : list nat) (q : nat) : Z := own q + times q l - times q (gives_back c).

Section Calls.
Context {zstate : Type}.
Variable inflateInit2 : bool -> option zstate.
Variable inflate : zstate -> list Z -> Z -> inflate_result zstate.

(** The streams that are handed to the caller, with one reference each. *)
Definition run (malloc_ok : bool) (c : call) : H (list nat) :=
  match c with
  | Handshake => http2_ctx_handshake malloc_ok ;; ret []
  | AcceptStream => r <- http2_ctx_accept_stream malloc_ok ;; ret (option_list r)
  | Poll n => r <- http2_ctx_poll malloc_ok n ;; ret (omap i_stream r.2)
  | PollReadable n => r <- http2_ctx_poll_readable malloc_ok n ;; ret (omap i_stream r.2)
  | Disconnect => http2_ctx_disconnect ;; ret []
  | CtxClose => http2_ctx_close ;; ret []
  | WantRead => http2_ctx_want_read ;; ret []
  | WantWrite => http2_ctx_want_write ;; ret []
  | IsClosed => http2_ctx_is_closed ;; ret []
  | StreamNew => r <- http2_stream_new malloc_ok ;; ret (option_list r)
  | StreamGet p => http2_stream_get p ;; ret [p]
  | StreamPut p => http2_stream_put p ;; ret []
  | StreamClose p => http2_stream_close malloc_ok p ;; ret []
  | SetRequest p m path scheme hs => http2_stream_set_request malloc_ok p m path scheme hs ;; ret []
  | SetResponse p status hs => http2_stream_set_response malloc_ok p status hs ;; ret []
  | GetHeader p name => http2_stream_get_header p name ;; ret []
  | GetStatus p => http2_stream_get_status p ;; ret []
  | GetId p => http2_stream_get_id p ;; ret []
  | WriteBody p data e => http2_stream_write_body malloc_ok p data e ;; ret []
  | ReadBody p len => http2_stream_read_body malloc_ok inflateInit2 inflate p len ;; ret []
  | BodyAvailable p => http2_stream_body_available malloc_ok inflateInit2 inflate p ;; ret []
  | IsEnd p => http2_stream_is_end malloc_ok inflateInit2 inflate p ;; ret []
  | IsRemoteEnd p => http2_stream_is_remote_end p ;; ret []
  end.

(** The arguments of a call: headers are strings of less than 1 GiB together and a
    body is less than 1 GiB. *)
Definition args_ok (h : h2) (c : call) : Prop :=
  match c with
  | SetRequest _ m path scheme hs => fields_ok (request_fields (h_ctx h) m path scheme hs)
  | SetResponse _ status hs => 100 <= status <= 599 -> fields_ok (response_fields status hs)
  | WriteBody _ data _ => Zlen data < 2 ^ 30
  | _ => True
  end.

(** What the user is not in control of: the part of a compressed body that has arrived
    when the connection fails does not inflate to nothing.  After such a call the buffer
    of the body has size zero, and the next DATA frame of that stream makes the library
    loop forever ([http2_empty_inflate_hangs]). *)
Definition inflates_something (malloc_ok : bool) (h : h2) (c : call) : Prop :=
  match c with
  | ReadBody p _ | BodyAvailable p | IsEnd p => ~ inflates_to_nothing malloc_ok inflateInit2 inflate h p
  | _ => True
  end.

(** A stream is used with a reference to it, a connection until it is closed. *)
Definition allowed (o : bool) (own : nat -> Z) (h : h2) (c : call) : Prop :=
  match call_stream c with Some p => 0 < own p | None => o = true end /\ args_ok h c.

(** ** States *)

(** [o]: whether the connection has not been closed by the user; [own]: how many
    references to a stream the user holds.  In each call there is memory or there is
    none ([malloc_ok]); no call so far has inflated a body to nothing. *)
Inductive reach : bool -> (nat -> Z) -> h2 -> Prop :=
  | reach_new malloc_ok client srv max_streams reads writes h :
    Forall event_ok reads -> http2_ctx_new malloc_ok client srv max_streams reads writes = Ok h tt -> reach true (fun _ => 0) h
  | reach_ok malloc_ok o own h c h' l :
    reach o own h -> allowed o own h c -> inflates_something malloc_ok h c -> run malloc_ok c h = Ok h' l ->
    reach (match c with CtxClose => false | _ => o end) (owns own c l) h'
  | reach_fail malloc_ok o own h c h' :
    reach o own h -> allowed o own h c -> inflates_something malloc_ok h c -> run malloc_ok c h = Fail h' -> reach o own h'.

(** ** Every call *)

Hypothesis documented : inflate_documented inflate.

Lemma times_nil q : times q [] = 0.
Proof. done. Qed.

Lemma times_one p q : times q [p] = if decide (q = p) then 1 else 0.
Proof. unfold times. rewrite filter_cons, filter_nil. repeat case_decide; subst; done. Qed.

Lemma owns_same own c q : gives_back c = [] -> own q = owns own c [] q.
Proof. intros Hc. unfold owns. rewrite Hc, !times_nil. lia. Qed.

Lemma owns_stream own c r q : gives_back c = [] -> with_stream own r q = owns own c (option_list r) q.
Proof. intros Hc. unfold owns. rewrite Hc, times_nil. destruct r as [p|]; cbn [option_list with_stream]; [change (option_list (Some p)) with [p]; rewrite times_one; unfold bump; case_decide|change (option_list (@None nat)) with (@nil nat); rewrite times_nil]; lia. Qed.

Lemma owns_items own c items q : gives_back c = [] -> hold own items q = owns own c (omap i_stream items) q.
Proof.
  intros Hc. unfold owns, hold. rewrite Hc, times_nil. assert (Zlen (filter (fun i => i_stream i = Some q) items) = times q (omap i_stream items)) as ->; [|lia].
  unfold times. induction items as [|[[p|] r w] items IH]; [done| |]; rewrite filter_cons; cbn -[Zlen filter].
  - rewrite filter_cons. repeat case_decide; try congruence; rewrite ?Zlen_cons; lia.
  - by rewrite decide_False by done.
Qed.

Lemma owns_less own c p q : gives_back c = [p] -> bump own p (-1) q = owns own c [] q.
Proof. intros Hc. unfold owns, bump. rewrite Hc, times_nil, times_one. case_decide; lia. Qed.

(** A call that changes no reference. *)
Lemma keeps_refs {A} (m : H A) own c h : gives_back c = [] -> wp m h (fun h' _ => inv own h') (inv own) -> wp (m ;; ret []) h (fun h' l => inv (owns own c l) h') (inv own).
Proof. intros Hc Hm. wp_step. eapply wp_mono; [exact Hm| |done]. intros h' a Hi. wp_step. eapply inv_ext; [|exact Hi]. intros q. by apply owns_same. Qed.

Lemma keeps_wp {A} (m : H A) own h p : wp m h (fun h' _ => keeps own h p h') (keeps own h p) -> wp m h (fun h' _ => inv own h') (inv own).
Proof. intros Hm. eapply wp_mono; [exact Hm| |]; [intros h' a [Hg _]|intros h' [Hg _]]; by apply good_inv in Hg. Qed.

Lemma total_wp {A} (m : H A) own h (Q : h2 -> A -> Prop) : wp m h Q (fun _ => False) -> wp m h Q (inv own).
Proof. intros Hm. by eapply wp_mono; [exact Hm|done|]. Qed.

Lemma polls_safe malloc_ok own n (cw : bool) c h : gives_back c = [] -> inv own h ->
  wp (r <- (guard (match n with Some n => 0 <? n | None => true end) ;; _http2_ctx_poll malloc_ok n cw) ;; ret (omap i_stream r.2)) h (fun h' l => inv (owns own c l) h') (inv own).
Proof.
  intros Hc Hi. wp_step. wp_step. apply wp_guard; [intros _|done]. eapply total_wp, wp_mono; [by apply (poll_safe malloc_ok own)| |done].
  intros h' r Hi'. wp_step. eapply inv_ext; [|exact Hi']. intros q. by apply owns_items.
Qed.

Lemma new_stream_refs (m : H (option nat)) own c h : gives_back c = [] -> wp m h (fun h' r => inv (with_stream own r) h') (fun _ => False) ->
  wp (r <- m ;; ret (option_list r)) h (fun h' l => inv (owns own c l) h') (inv own).
Proof. intros Hc Hm. wp_step. eapply total_wp, wp_mono; [exact Hm| |done]. intros h' r Hi. wp_step. eapply inv_ext; [|exact Hi]. intros q. by apply owns_stream. Qed.

Lemma gives_back_refs (m : H unit) own c p h : gives_back c = [p] -> wp m h (fun h' _ => inv (bump own p (-1)) h') (fun _ => False) ->
  wp (m ;; ret []) h (fun h' l => inv (owns own c l) h') (inv own).
Proof. intros Hc Hm. wp_step. eapply total_wp, wp_mono; [exact Hm| |done]. intros h' [] Hi. wp_step. eapply inv_ext; [|exact Hi]. intros q. by apply owns_less. Qed.

Lemma returns_then {A} (m : H A) (l : list nat) h : returns m h -> returns (m ;; ret l) h.
Proof. intros Hm. unfold returns. wp_step. eapply wp_mono; [exact Hm| |done]. intros h' a _. by wp_step. Qed.

(** A call that looks at a stream. *)
Lemma looks_wp {A} p (f : http2_stream -> H A) own h : keeps own h p h -> (forall s, wp (f s) h (fun h' _ => inv own h') (inv own)) ->
  wp (s <- stream p (fun s => s) ;; f s) h (fun h' _ => inv own h') (inv own).
Proof. intros [_ [s Hs]] Hf. wp_step. by eapply wp_stream. Qed.

Lemma run_safe malloc_ok o own h c : inv own h -> allowed o own h c -> inflates_something malloc_ok h c -> wp (run malloc_ok c) h (fun h' l => inv (owns own c l) h') (inv own).
Proof.
  intros Hi [Hc Ha] Hn. assert (forall p, 0 < own p -> keeps own h p h) as Hk by (intros p Hp; split; [by apply good_refl|by apply (own_alive own)]).
  destruct c; cbn [run call_stream args_ok inflates_something] in *; try (apply keeps_refs; [done|]).
  - by apply total_wp, handshake_safe.
  - by apply new_stream_refs, accept_stream_safe.
  - by apply (polls_safe malloc_ok own max_items true).
  - by apply (polls_safe malloc_ok own max_items false).
  - by apply total_wp, disconnect_safe.
  - by apply total_wp, ctx_close_safe.
  - by apply wp_ctx.
  - by apply wp_ctx.
  - unfold http2_ctx_is_closed. wp_step. apply wp_ctx. by wp_step.
  - by apply new_stream_refs, stream_new_safe.
  - destruct (Hk p Hc) as [Hg [s Hs]]. wp_step. eapply total_wp, wp_mono; [by eapply (stream_get_safe own h)| |done]. intros h' [] [Hg' _]. wp_step. apply good_inv in Hg'.
    eapply inv_ext; [|exact Hg']. intros q. by apply (owns_stream own (StreamGet p) (Some p)).
  - apply (gives_back_refs _ _ _ p); [done|]. eapply wp_mono; [apply (stream_put_safe own h); [by apply good_refl|done]| |done]. by intros h' [] (?&_).
  - by apply (gives_back_refs _ _ _ p), stream_close_safe.
  - by apply (keeps_wp _ _ _ p), set_request_safe; [apply Hk|].
  - by apply (keeps_wp _ _ _ p), set_response_safe; [apply Hk|].
  - apply looks_wp; [by apply Hk|]. intros s. by wp_step.
  - destruct (Hk p Hc) as [_ [s Hs]]. unfold http2_stream_get_status, http2_stream_get_header. wp_step. wp_step. eapply wp_stream; [exact Hs|]. wp_step. by wp_step.
  - destruct (Hk p Hc) as [_ [s Hs]]. by eapply wp_stream.
  - by apply (keeps_wp _ _ _ p), write_body_safe; [apply Hk|].
  - by apply (keeps_wp _ _ _ p), read_body_safe; [|apply Hk|].
  - by apply (keeps_wp _ _ _ p), body_available_safe; [|apply Hk|].
  - by apply (keeps_wp _ _ _ p), is_end_safe; [|apply Hk|].
  - apply looks_wp; [by apply Hk|]. intros s. wp_step. apply wp_ctx. by wp_step.
Qed.

(** The call that inflates a body to nothing returns too. *)
Lemma run_returns malloc_ok o own h c : inv own h -> allowed o own h c -> returns (run malloc_ok c) h.
Proof.
  intros Hi Ha. assert (inflates_something malloc_ok h c -> returns (run malloc_ok c) h) as Hs.
  { intros Hn. eapply wp_mono; [by apply (run_safe malloc_ok o own)|done|done]. }
  destruct Ha as [Hc _]. destruct c; try (by apply Hs); cbn [call_stream run] in *; apply returns_then;
    (destruct (own_alive own h p Hi Hc) as [s Hx]; assert (stream_ok s) by (pose proof Hi as ((_&(_&_&_&_&Hss&_)&_)&_); by apply (Hss p s)));
    [by eapply read_body_returns|by eapply looks_at_body_returns..].
Qed.

Lemma reach_inv o own h : reach o own h -> inv own h.
Proof.
  induction 1 as [malloc_ok client srv n reads writes h Hr Hnew|malloc_ok o own h c h' l _ IH Ha Hn Hrun|malloc_ok o own h c h' _ IH Ha Hn Hrun].
  - destruct (ctx_new_safe malloc_ok client srv n reads writes Hr) as (h'&Hh'&Hi). rewrite Hnew in Hh'. by injection Hh' as <-.
  - pose proof (run_safe malloc_ok o own h c IH Ha Hn) as Hs. unfold wp in Hs. by rewrite Hrun in Hs.
  - pose proof (run_safe malloc_ok o own h c IH Ha Hn) as Hs. unfold wp in Hs. by rewrite Hrun in Hs.
Qed.

(** ** After the connection *)

Lemma leaves_then {A} (m : H A) (l : list nat) h P : leaves m h P -> leaves (m ;; ret l) h P.
Proof. intros Hm. by apply leaves_bind. Qed.

Lemma closed_call malloc_ok own h c p : inv own h -> streams (h_ctx h) = [] -> call_stream c = Some p -> 0 < own p -> leaves (run malloc_ok c) h (untouched h).
Proof.
  intros Hi Hnil Hc Hp. destruct (own_alive own h p Hi Hp) as [s Hs]. assert (s_ctx s = false) as Hctx.
  { pose proof Hi as ((_&Hl&_)&_). destruct Hl as (_&_&_&_&Hss&_). destruct (Hss p s Hs) as (_&->&_). rewrite Hnil. apply bool_decide_eq_false_2, not_elem_of_nil. }
  destruct c; try done; injection Hc as ->; cbn [run]; apply leaves_then.
  - by apply leaves_upd_stream.
  - by apply put_leaves.
  - by apply (close_leaves malloc_ok h Hnil p s).
  - by apply (set_request_leaves malloc_ok h p s).
  - by apply (set_response_leaves malloc_ok h p s).
  - unfold http2_stream_get_header. by quiet.
  - unfold http2_stream_get_status, http2_stream_get_header. by quiet.
  - by apply leaves_stream.
  - by apply (write_body_leaves malloc_ok h p s).
  - by apply read_body_leaves.
  - by apply body_available_leaves.
  - by apply is_end_leaves.
  - unfold http2_stream_is_remote_end. by quiet.
Qed.

Lemma reach_closed o own h : reach o own h -> o = false -> streams (h_ctx h) = [].
Proof.
  induction 1 as [|malloc_ok o own h c h' l Hr IH Ha _ Hrun|malloc_ok o own h c h' Hr IH Ha _ Hrun]; intros Ho; [done| |].
  - pose proof (reach_inv _ _ _ Hr) as Hi. destruct (call_stream c) as [p|] eqn:Hc.
    + assert (o = false) as -> by (by destruct c). destruct Ha as [Hp _]. rewrite Hc in Hp. pose proof (closed_call malloc_ok own h c p Hi (IH eq_refl) Hc Hp) as Hl. unfold leaves in Hl. rewrite Hrun in Hl. rewrite Hl. by apply IH.
    + destruct Ha as [Hp _]. rewrite Hc in Hp. subst o. destruct c; try done. unfold run, bind in Hrun. destruct (http2_ctx_close h) as [h1 []|h1| |] eqn:Hx; try done. injection Hrun as <- _. by apply (ctx_close_empties h).
  - pose proof (reach_inv _ _ _ Hr) as Hi. subst o. destruct Ha as [Hp _]. destruct (call_stream c) as [p|] eqn:Hc; [|done].
    pose proof (closed_call malloc_ok own h c p Hi (IH eq_refl) Hc Hp) as Hl. unfold leaves in Hl. rewrite Hrun in Hl. rewrite Hl. by apply IH.
Qed.

(** No reference, no stream. *)
Lemma unowned_free own h : inv own h -> streams (h_ctx h) = [] -> (forall p, own p = 0) -> h_streams h = ∅.
Proof.
  intros ((_&Hl&_)&_) Hnil Hown. destruct Hl as (_&_&_&_&Hss&_). apply map_empty. intros p. destruct (h_streams h !! p) as [s|] eqn:Hs; [|done].
  destruct (Hss p s Hs) as (_&_&Hrc&Hpos&_). rewrite Hnil, Hown, bool_decide_eq_false_2 in Hrc by apply not_elem_of_nil. lia.
Qed.

(** C20: no call on a connection is undefined or runs forever.  Whatever the peer and the
    transport do, and in whatever order the user calls the library, as long as it uses
    only the streams it holds references to, passes strings and bodies of less than
    1 GiB, and no earlier call has inflated a body to nothing after an error of the
    connection ([inflates_something]; the hang that follows is
    [http2_empty_inflate_hangs]), every call returns: it never reads or writes outside
    of a buffer, never uses a stream that has been freed, lets no window overflow, and
    never loops.  There is memory in each call or there is none: a call in which some
    allocations fail and others do not is not covered. *)
Theorem http2_calls_safe malloc_ok o own h c : reach o own h -> allowed o own h c ->
  (exists h' l, run malloc_ok c h = Ok h' l) \/ (exists h', run malloc_ok c h = Fail h').
Proof.
  intros Hr Ha. pose proof (run_returns malloc_ok o own h c (reach_inv _ _ _ Hr) Ha) as Hs. unfold returns, wp in Hs.
  destruct (run malloc_ok c h) as [h' l|h'| |]; try done; [left|right]; eauto.
Qed.

(** C21: what holds between calls, in the runs in which no call has inflated a body to
    nothing after an error of the connection ([inflates_something]) and each call has
    memory or has none.  The windows and the sizes of the buffers are in their ranges,
    the compression tables are well-formed, the read buffer holds at most one frame;
    the list and the map hold the same streams, each on the heap; the count of a stream
    is the number of references that the user and the list hold, and the counters of
    active streams are right.  Once the connection is closed and
    the user has given back every reference, every stream has been freed. *)
Theorem http2_invariant o own h : reach o own h -> inv own h /\ (o = false -> (forall p, own p = 0) -> h_streams h = ∅).
Proof. intros Hr. pose proof (reach_inv _ _ _ Hr) as Hi. split; [done|]. intros Ho. apply unowned_free; [done|]. by apply (reach_closed o own). Qed.
End Calls.

(** ** A session *)

(** An [inflate] for which the compressed data is the data. *)
Definition stored (z : unit) (input : list Z) (room : Z) : inflate_result unit :=
  let n := Z.min room (Zlen input) in
  if room =? 0 then mk_inflate Z_ERROR z 0 []
  else mk_inflate (if n =? Zlen input then Z_STREAM_END else Z_OK) z n (take (Z.to_nat n) input).
Definition stored_init (gzip : bool) : option unit := Some tt.

Lemma stored_documented : inflate_documented stored.
Proof.
  intros z input room Hr. pose proof (Zlen_nonneg input). unfold stored. destruct (Z.eqb_spec room 0); cbn [z_out z_taken z_ret]; [change (Zlen (@nil Z)) with 0; split_and!; done || lia|].
  assert (Zlen (take (Z.to_nat (Z.min room (Zlen input))) input) = Z.min room (Zlen input)) as -> by (unfold Zlen in *; rewrite length_take; lia).
  split_and!; try lia. destruct (Z.eqb_spec (Z.min room (Zlen input)) (Zlen input)); [done|lia].
Qed.

(** A request with a body, after the settings of the peer have arrived; the connection
    is closed and then the stream. *)
Definition step (h : h2) (c : call) : h2 :=
  after h (run stored_init stored true c).
Definition post : call := SetRequest 0 (bytes "POST") (bytes "/dns-query") None [].
Definition asked : h2 := foldl step (client_start 3 []) [Handshake; StreamNew; post].
Definition asked_own : nat -> Z := owns (owns (owns (fun _ => 0) Handshake []) StreamNew [0%nat]) post [].
Definition closed_own : nat -> Z := owns (owns (owns asked_own (WriteBody 0 (bytes "hello") true) []) CtxClose []) (StreamClose 0) [].

Ltac allowed_call := split; [vm_compute; reflexivity|cbn [args_ok post]; try exact I].

Lemma fields_check fields : forallb (fun f => forallb (fun b => (0 <? b) && (b <? 256)) f.1 && forallb (fun b => (0 <? b) && (b <? 256)) f.2) fields = true -> Forall field_strings fields.
Proof.
  intros Hf. rewrite forallb_forall in Hf. apply list.Forall_forall. intros f Hin%list_elem_of_In%Hf. apply andb_true_iff in Hin as [Hn Hv]. by split; apply c_string_check.
Qed.

Lemma asked_reach : reach stored_init stored true asked_own asked.
Proof.
  apply (reach_ok _ _ true true _ (foldl step (client_start 3 []) [Handshake; StreamNew]) post asked []); [| |exact I|vm_compute; reflexivity].
  - apply (reach_ok _ _ true true _ (step (client_start 3 []) Handshake) StreamNew _ [0%nat]); [|allowed_call|exact I|vm_compute; reflexivity].
    apply (reach_ok _ _ true true _ (client_start 3 []) Handshake _ []); [|allowed_call|exact I|vm_compute; reflexivity].
    apply (reach_new _ _ true true (bytes "dns") 0
      (piece (frame_bytes (mk_frame HTTP2_FRAME_SETTINGS 0 0 (setting HTTP2_SETTINGS_INITIAL_WINDOW_SIZE 3))) ++ [RdAgain])
      (replicate 7 (WrRoom 1000))); [|vm_compute; reflexivity].
    constructor; [|by repeat constructor]. cbv -[is_byte Z.le Z.lt]. repeat (apply list.Forall_cons; split; [unfold is_byte; lia|]). constructor.
  - allowed_call. split; [apply fields_check|]; vm_compute; reflexivity.
Qed.

Lemma http2_calls_safe_witness :
  (exists h' l, run stored_init stored false (WriteBody 0 (bytes "hello") true) asked = Ok h' l) \/
  (exists h', run stored_init stored false (WriteBody 0 (bytes "hello") true) asked = Fail h').
Proof. apply (http2_calls_safe stored_init stored stored_documented false true asked_own asked); [exact asked_reach|]. split; vm_compute; reflexivity. Defined.

Lemma http2_invariant_witness :
  inv closed_own (foldl step asked [WriteBody 0 (bytes "hello") true; CtxClose; StreamClose 0]) /\ h_streams (foldl step asked [WriteBody 0 (bytes "hello") true; CtxClose; StreamClose 0]) = ∅.
Proof.
  destruct (http2_invariant stored_init stored stored_documented false closed_own (foldl step asked [WriteBody 0 (bytes "hello") true; CtxClose; StreamClose 0])) as [Hi Hf].
  - apply (reach_ok _ _ true false _ (foldl step asked [WriteBody 0 (bytes "hello") true; CtxClose]) (StreamClose 0) _ []); [|allowed_call|exact I|vm_compute; reflexivity].
    apply (reach_ok _ _ true true _ (step asked (WriteBody 0 (bytes "hello") true)) CtxClose _ []); [|allowed_call|exact I|vm_compute; reflexivity].
    apply (reach_ok _ _ true true _ asked (WriteBody 0 (bytes "hello") true) _ []); [exact asked_reach|split; vm_compute; reflexivity|exact I|vm_compute; reflexivity].
  - split; [exact Hi|]. apply Hf; [reflexivity|]. intros p. unfold closed_own, asked_own, owns. cbn [gives_back post]. rewrite !times_one, !times_nil. lia.
Defined.
