(* ===== verification/HttpHead.v ===== *)
(** * HTTP messages (src/http_parse/http_parse.c, src/http_parse/http_parse.h)

    The head of a message: its buffer, and pointers into it.

    A parsed string is a pointer into the buffer, ended by a zero byte that the parser
    writes over a delimiter; a string that the program sets is outside of it.  A
    pointer that is read without such a byte inside the buffer is undefined behaviour. *)

From Stdlib Require Import ZArith Lia String.
From stdpp Require Import base list numbers option.
From S2P Require Import Prelude Hpack DnsCache Http2.

(** ** Data *)

Inductive HTTP_VERSION := HTTP_VERSION_INVALID | HTTP_VERSION_1_1 | HTTP_VERSION_3_0.
Inductive HTTP_METHOD :=
  | HTTP_METHOD_INVALID | HTTP_METHOD_GET | HTTP_METHOD_HEAD | HTTP_METHOD_POST | HTTP_METHOD_PUT | HTTP_METHOD_DELETE
  | HTTP_METHOD_TRACE | HTTP_METHOD_CONNECT.
Inductive HTTP_HEAD_TYPE := HTTP_HEAD_INVALID | HTTP_HEAD_REQUEST | HTTP_HEAD_RESPONSE.

#[export] Instance http_version_eq : EqDecision HTTP_VERSION.
Proof. solve_decision. Defined.
#[export] Instance http_method_eq : EqDecision HTTP_METHOD.
Proof. solve_decision. Defined.
#[export] Instance http_head_type_eq : EqDecision HTTP_HEAD_TYPE.
Proof. solve_decision. Defined.

(** A pointer into the buffer, or to bytes elsewhere (of a string, without the zero
    byte at its end). *)
Inductive ptr := Buf (off : Z) | Lit (s : list Z).

#[export] Instance ptr_eq : EqDecision ptr.
Proof. solve_decision. Defined.

(** A field or a parameter, with the hash under which it is in the map. *)
Record http_head_fields := mk_field { f_name : ptr; f_value : ptr; f_key : Z }.

(** [rc] is the code of the function that failed last. *)
Record http_head := mk_head {
  http_version : HTTP_VERSION; head_type : HTTP_HEAD_TYPE; method : HTTP_METHOD; url : option ptr; version : option ptr;
  code : Z; code_msg : option ptr; buff_size : Z; buff_len : Z; buff : list Z; head_ok : bool; head_len : Z;
  data : option ptr; data_len : Z; expect_data_len : Z; field_list : list http_head_fields; param_list : list http_head_fields; rc : Z }.

Definition eta_http_head (h : http_head) : http_head :=
  mk_head (http_version h) (head_type h) (method h) (url h) (version h) (code h) (code_msg h) (buff_size h) (buff_len h) (buff h) (head_ok h)
    (head_len h) (data h) (data_len h) (expect_data_len h) (field_list h) (param_list h) (rc h).

(** [h] with the field [f] set to [v]. *)
Ltac set_head_field f v h :=
  let e := eval unfold eta_http_head in eta_http_head in
  let g := eval pattern f in e in
  match g with ?k _ => let t := eval cbv beta in (k (fun _ => v) h) in exact t end.

Definition set_head_type (v : HTTP_HEAD_TYPE) (h : http_head) : http_head := ltac:(set_head_field head_type v h).
Definition set_method (v : HTTP_METHOD) (h : http_head) : http_head := ltac:(set_head_field method v h).
Definition set_url (v : option ptr) (h : http_head) : http_head := ltac:(set_head_field url v h).
Definition set_version (v : option ptr) (h : http_head) : http_head := ltac:(set_head_field version v h).
Definition set_code (v : Z) (h : http_head) : http_head := ltac:(set_head_field code v h).
Definition set_code_msg (v : option ptr) (h : http_head) : http_head := ltac:(set_head_field code_msg v h).
Definition set_buff_len (v : Z) (h : http_head) : http_head := ltac:(set_head_field buff_len v h).
Definition set_buff (v : list Z) (h : http_head) : http_head := ltac:(set_head_field buff v h).
Definition set_head_ok (v : bool) (h : http_head) : http_head := ltac:(set_head_field head_ok v h).
Definition set_head_len (v : Z) (h : http_head) : http_head := ltac:(set_head_field head_len v h).
Definition set_data (v : option ptr) (h : http_head) : http_head := ltac:(set_head_field data v h).
Definition set_data_len (v : Z) (h : http_head) : http_head := ltac:(set_head_field data_len v h).
Definition set_expect_data_len (v : Z) (h : http_head) : http_head := ltac:(set_head_field expect_data_len v h).
Definition set_field_list (v : list http_head_fields) (h : http_head) : http_head := ltac:(set_head_field field_list v h).
Definition set_param_list (v : list http_head_fields) (h : http_head) : http_head := ltac:(set_head_field param_list v h).
Definition set_rc (v : Z) (h : http_head) : http_head := ltac:(set_head_field rc v h).

(** ** Access *)

Abbreviation HH := (M http_head).

Definition hget {A} (f : http_head -> A) : HH A := h <- get ;; ret (f h).
Definition upd (f : http_head -> http_head) : HH unit := modify f.

(** [return code;] of a function that fails. *)
Definition fail_with {A} (c : Z) : HH A := upd (set_rc c) ;; fail.

(** [buff[p]] and [buff[p] = v] *)
Definition rd (p : Z) : HH Z := h <- get ;; access (rd8 (buff h) p).
Definition wr (p v : Z) : HH unit := h <- get ;; b <- access (wr_bytes (buff h) p [v]) ;; put (set_buff b h).
(** [memcpy(buff + p, bs, n)] *)
Definition wrs (p : Z) (bs : list Z) : HH unit := h <- get ;; b <- access (wr_bytes (buff h) p bs) ;; put (set_buff b h).

(** The string at a pointer. *)
Definition str_of (b : list Z) (p : ptr) : option (list Z) := match p with Buf off => cstr_at b off | Lit s => Some s end.
Definition str (p : ptr) : HH (list Z) := h <- get ;; access (str_of (buff h) p).

(** ** http_parse.c *)

Section HttpHead.
Variable malloc_ok : bool.

Definition http_head_init (buffsize : Z) (v : HTTP_VERSION) : option http_head :=
  if malloc_ok then
    Some (mk_head v HTTP_HEAD_INVALID HTTP_METHOD_INVALID None None 0 None buffsize 0 (replicate (Z.to_nat buffsize) 0) false 0 None 0 0 [] [] 0)
  else None.

(** The map has 16 buckets; the youngest entry is in front. *)
Fixpoint find_value (key : Z) (name : list Z) (l : list http_head_fields) : HH (option ptr) :=
  match l with
  | [] => ret None
  | f :: l =>
    if hash_32 (f_key f) 4 =? hash_32 key 4 then
      n <- str (f_name f) ;;
      if strncasecmp_eq n name 128 then ret (Some (f_value f)) else find_value key name l
    else find_value key name l
  end.

Definition http_head_get_fields_value (name : list Z) : HH (option ptr) :=
  l <- hget field_list ;; find_value (hash_string_case name) name (rev l).

Definition http_head_get_params_value (name : list Z) : HH (option ptr) :=
  l <- hget param_list ;; find_value (hash_string_case name) name (rev l).

Definition http_head_first_fields (h : http_head) : option http_head_fields := field_list h !! 0%nat.
Definition http_head_next_fields (h : http_head) (i : nat) : option http_head_fields := field_list h !! S i.

Definition _http_head_buffer_left_len (h : http_head) : Z := buff_size h - buff_len h.
Definition _http_head_buffer_get_end (h : http_head) : Z := buff_len h.

(** [None] when the bytes are there already ([data == NULL]). *)
Definition _http_head_buffer_append (bs : option (list Z)) (len : Z) : HH (option Z) :=
  h <- get ;;
  if (len <? 0) || (buff_size h <? buff_len h + len) then ret None
  else
    (match bs with Some bs => wrs (buff_len h) bs | None => ret tt end) ;;
    upd (set_buff_len (buff_len h + len)) ;;
    ret (Some (buff_len h + len)).

Definition _http_head_add_param (name value : ptr) : HH unit :=
  (if malloc_ok then ret tt else fail_with (-1)) ;;
  n <- str name ;;
  upd (fun h => set_param_list (param_list h ++ [mk_field name value (hash_string_case n)]) h).

Definition http_head_add_param (name value : option (list Z)) : HH unit :=
  match name, value with
  | Some name, Some value => _http_head_add_param (Lit name) (Lit value)
  | _, _ => fail_with (-1)
  end.

Definition http_head_set_url (u : option (list Z)) : HH unit :=
  match u with Some u => upd (set_url (Some (Lit u))) | None => fail_with (-1) end.

Definition http_head_set_httpversion (v : option (list Z)) : HH unit :=
  match v with Some v => upd (set_version (Some (Lit v))) | None => fail_with (-1) end.

Definition http_head_set_httpcode (c : Z) (msg : option (list Z)) : HH unit :=
  match msg with
  | Some msg => if c <? 0 then fail_with (-1) else upd (set_code c) ;; upd (set_code_msg (Some (Lit msg)))
  | None => fail_with (-1)
  end.

Definition http_head_set_head_type (t : HTTP_HEAD_TYPE) : HH unit :=
  if bool_decide (t = HTTP_HEAD_INVALID) then fail_with (-1) else upd (set_head_type t).

Definition http_head_set_method (m : HTTP_METHOD) : HH unit :=
  if bool_decide (m = HTTP_METHOD_INVALID) then fail_with (-1) else upd (set_method m).

(** [bytes] may be more than [len]. *)
Definition http_head_set_data (bs : option (list Z)) (len : Z) : HH unit :=
  match bs with
  | Some bs => if len <? 0 then fail_with (-1) else upd (set_data (Some (Lit bs))) ;; upd (set_data_len len)
  | None => fail_with (-1)
  end.

Definition _http_head_add_fields (name value : ptr) : HH unit :=
  (if malloc_ok then ret tt else fail_with (-1)) ;;
  n <- str name ;;
  upd (fun h => set_field_list (field_list h ++ [mk_field name value (hash_string_case n)]) h).

Definition http_head_add_fields (name value : option ptr) : HH unit :=
  match name, value with
  | Some name, Some value => _http_head_add_fields name value
  | _, _ => fail_with (-1)
  end.

(** The loop over the parameters of the url at [p]; [stop] is its end. *)
Fixpoint params_loop (fuel : nat) (p stop : Z) (field_start field : option Z) : HH unit :=
  if p <? stop then
    match fuel with
    | O => diverge
    | S fuel =>
      let start := default p field_start in
      c <- rd p ;;
      match field with
      | None => if c =? 61 then wr p 0 ;; params_loop fuel (p + 1) stop None (Some start) else params_loop fuel (p + 1) stop (Some start) None
      | Some f =>
        if (c =? 38) || (p =? stop - 1) then
          wr p 0 ;;
          r <- try (_http_head_add_param (Buf f) (Buf start)) ;;
          match r with Some _ => params_loop fuel (p + 1) stop None None | None => fail_with (-2) end
        else params_loop fuel (p + 1) stop (Some start) (Some f)
      end
    end
  else ret tt.

(** Where a string first holds a byte. *)
Fixpoint index_of (c : Z) (s : list Z) : option Z :=
  match s with
  | [] => None
  | b :: s => if b =? c then Some 0 else Z.succ <$> index_of c s
  end.

(** A question mark in a string outside of the buffer would be written over. *)
Definition _http_head_parse_params (u : option ptr) (url_len : Z) : HH unit :=
  match u with
  | None => fail_with (-1)
  | Some u =>
    s <- str u ;;
    match index_of 63 s with
    | None => ret tt
    | Some i =>
      match u with
      | Buf off => wr (off + i) 0 ;; params_loop (Z.to_nat url_len) (off + i + 1) (off + url_len) None None
      | Lit _ => ub
      end
    end
  end.

Definition http_method_str (m : HTTP_METHOD) : list Z :=
  match m with
  | HTTP_METHOD_GET => bytes "GET"
  | HTTP_METHOD_POST => bytes "POST"
  | HTTP_METHOD_PUT => bytes "PUT"
  | HTTP_METHOD_DELETE => bytes "DELETE"
  | HTTP_METHOD_TRACE => bytes "TRACE"
  | HTTP_METHOD_CONNECT => bytes "CONNECT"
  | _ => bytes "INVALID"
  end.

Definition _http_method_parse (m : list Z) : HTTP_METHOD :=
  if bool_decide (m = bytes "GET") then HTTP_METHOD_GET
  else if bool_decide (m = bytes "POST") then HTTP_METHOD_POST
  else if bool_decide (m = bytes "PUT") then HTTP_METHOD_PUT
  else if bool_decide (m = bytes "DELETE") then HTTP_METHOD_DELETE
  else if bool_decide (m = bytes "TRACE") then HTTP_METHOD_TRACE
  else if bool_decide (m = bytes "CONNECT") then HTTP_METHOD_CONNECT
  else HTTP_METHOD_INVALID.
End HttpHead.
