(* ===== verification/Http1.v ===== *)
(** * HTTP/1.1 messages (src/http_parse/http1_parse.c) *)

From Stdlib Require Import ZArith Lia String.
From stdpp Require Import base list numbers option.
From S2P Require Import Prelude Hpack DnsCache Http2 HttpHead.

(** ** Characters *)

Definition isprint (c : Z) : bool := (32 <=? c) && (c <=? 126).
Definition isspace (c : Z) : bool := is_space c.

(** Whether [b] is in [a], as [strstr]. *)
Fixpoint contains (a b : list Z) : bool :=
  bool_decide (take (length b) a = b) || match a with [] => false | _ :: a => contains a b end.

(** [is_numeric(str) == 0] (src/utils/misc.c) *)
Definition is_numeric (s : list Z) : bool := forallb (fun c => (48 <=? c) && (c <=? 57)) s.

Definition decode_hex (ch : Z) : Z :=
  if (48 <=? ch) && (ch <=? 57) then ch - 48
  else if (65 <=? ch) && (ch <=? 70) then ch - 65 + 10
  else if (97 <=? ch) && (ch <=? 102) then ch - 97 + 10
  else -1.

Definition HTTP_MAX_CHUNK_SIZE : Z := 2147483647.

(** ** Parsing *)

Section Http1.
Variable malloc_ok : bool.

(** The code ends at the first space: where it is. *)
Fixpoint response_loop (fuel : nat) (p : Z) : HH (option Z) :=
  match fuel with
  | O => diverge
  | S fuel =>
    c <- rd p ;;
    if c =? 0 then ret None
    else if c =? 32 then wr p 0 ;; ret (Some p)
    else response_loop fuel (p + 1)
  end.

Definition _http_head_parse_response (key value : Z) : HH unit :=
  k <- str (Buf key) ;;
  if negb (contains k (bytes "HTTP/")) then fail_with (-1)
  else
    n <- hget buff_size ;;
    r <- response_loop (Z.to_nat n) value ;;
    match r with
    | None => fail_with (-1)
    | Some p =>
      ret_code <- str (Buf value) ;;
      if negb (is_numeric ret_code) then fail_with (-1)
      else
        upd (set_code (atoi ret_code)) ;;
        upd (set_code_msg (Some (Buf (p + 1)))) ;;
        upd (set_version (Some (Buf key))) ;;
        upd (set_head_type HTTP_HEAD_RESPONSE)
    end.

(** The words of the request line: the url, the start of the last word, and the end. *)
Fixpoint request_loop (fuel : nat) (p : Z) (u field_start : option Z) : HH (option Z * option Z * Z) :=
  match fuel with
  | O => diverge
  | S fuel =>
    c <- rd p ;;
    if c =? 0 then ret (u, field_start, p)
    else
      let start := default p field_start in
      if c =? 32 then wr p 0 ;; request_loop fuel (p + 1) (Some (default start u)) None
      else request_loop fuel (p + 1) u (Some start)
  end.

Definition _http_head_parse_request (key value : Z) : HH unit :=
  k <- str (Buf key) ;;
  let m := _http_method_parse k in
  if bool_decide (m = HTTP_METHOD_INVALID) then _http_head_parse_response key value
  else
    n <- hget buff_size ;;
    r <- request_loop (Z.to_nat n) value None None ;;
    let '(u, field_start, p) := r in
    let tmp_ptr := default p field_start in
    r <- try (_http_head_parse_params malloc_ok (Buf <$> u) (tmp_ptr - default 0 u)) ;;
    match r with
    | None => fail_with (-2)
    | Some _ =>
      upd (set_method m) ;;
      upd (set_url (Buf <$> u)) ;;
      upd (set_version (Buf <$> field_start)) ;;
      upd (set_head_type HTTP_HEAD_REQUEST)
    end.

(** What the loop of [_http_head_parse] keeps. *)
Record parse_state := mk_parse { ps_key : option Z; ps_value : option Z; ps_inkey : bool; ps_invalue : bool; ps_first : bool }.

(** The rest of a round: a line that is complete. *)
Definition parse_line (st : parse_state) : HH parse_state :=
  match ps_key st, ps_value st with
  | Some key, Some value =>
    if ps_invalue st then ret st
    else
      r <- try (if ps_first st then _http_head_parse_request key value else http_head_add_fields malloc_ok (Some (Buf key)) (Some (Buf value))) ;;
      match r with
      | Some _ => ret (mk_parse None None true false false)
      | None => fail_with (-2)
      end
  | _, _ => ret st
  end.

Definition parse_value (i c : Z) (st : parse_state) : HH parse_state :=
  if ps_invalue st then
    if negb (bool_decide (is_Some (ps_value st))) && negb (c =? 32) then ret (mk_parse (ps_key st) (Some i) (ps_inkey st) true (ps_first st))
    else if (c =? 13) || (c =? 10) then wr i 0 ;; parse_line (mk_parse (ps_key st) (ps_value st) true false (ps_first st))
    else parse_line st
  else parse_line st.

Definition parse_byte (i : Z) (st : parse_state) : HH parse_state :=
  c <- rd i ;;
  if ps_inkey st then
    if negb (bool_decide (is_Some (ps_key st))) && negb (c =? 32) && negb (c =? 13) && negb (c =? 10) then
      ret (mk_parse (Some i) (ps_value st) true (ps_invalue st) (ps_first st))
    else if (c =? 58) || (c =? 32) then wr i 0 ;; ret (mk_parse (ps_key st) (ps_value st) false true (ps_first st))
    else parse_value i c st
  else parse_value i c st.

Fixpoint parse_loop (n : nat) (i : Z) (st : parse_state) : HH unit :=
  match n with
  | O => ret tt
  | S n => st <- parse_byte i st ;; parse_loop n (i + 1) st
  end.

Definition _http_head_parse : HH unit :=
  n <- hget head_len ;; parse_loop (Z.to_nat n) 0 (mk_parse None None true false true).

(** The length of a chunk: where it ends in [data] and its value; or the code. *)
Fixpoint chunk_len_loop (fuel : nat) (data : list Z) (data_len offset value : Z) : HH (Z * Z) :=
  if offset <? data_len then
    match fuel with
    | O => diverge
    | S fuel =>
      c <- access (rd8 data offset) ;;
      if c =? 32 then chunk_len_loop fuel data data_len (offset + 1) value
      else if c =? 13 then
        if offset + 1 <? data_len then
          c' <- access (rd8 data (offset + 1)) ;;
          if c' =? 10 then ret (offset + 2, value) else fail_with (-2)
        else fail_with (-2)
      else
        let v := decode_hex c in
        if v <? 0 then fail_with (-2)
        else if (HTTP_MAX_CHUNK_SIZE - v) / 16 <? value then fail_with (-2)
        else chunk_len_loop fuel data data_len (offset + 1) (value * 16 + v)
    end
  else ret (offset, value).

Definition _http1_get_chunk_len (data : list Z) (data_len : Z) : HH (Z * Z) :=
  r <- chunk_len_loop (Z.to_nat data_len) data data_len 0 0 ;;
  if data_len <=? r.1 then fail_with (-1) else ret r.

(** The loop over the chunks: [data] is what is left, [e] the end of the body in the
    buffer; the end and the number of bytes processed. *)
Fixpoint chunk_loop (fuel : nat) (data : list Z) (data_len body e process : Z) : HH (Z * Z) :=
  match fuel with
  | O => diverge
  | S fuel =>
    r <- _http1_get_chunk_len data data_len ;;
    let '(offset, chunk_len) := r in
    let data := drop (Z.to_nat offset) data in
    let data_len := data_len - offset in
    let process := process + offset in
    if chunk_len =? 0 then
      upd (set_data (Some (Buf body))) ;;
      upd (set_data_len (e - body)) ;;
      ret (e, process)
    else if (chunk_len <? 0) || (data_len <? chunk_len) then fail_with (-1)
    else if data_len - 2 <? chunk_len then fail_with (-1)
    else
      c1 <- access (rd8 data chunk_len) ;;
      c2 <- (if c1 =? 13 then access (rd8 data (chunk_len + 1)) else ret 0) ;;
      if negb (c1 =? 13) || negb (c2 =? 10) then fail_with (-2)
      else
        h <- get ;;
        if buff_size h - buff_len h - process <=? chunk_len then fail_with (-3)
        else
          bs <- access (rd_bytes data 0 chunk_len) ;;
          wrs e bs ;;
          chunk_loop fuel (drop (Z.to_nat (chunk_len + 2)) data) (data_len - chunk_len - 2) body (e + chunk_len) (process + chunk_len + 2)
  end.

(** The loop that looks for the end of the head: the number of bytes taken. *)
Fixpoint head_loop (n : nat) (data : list Z) (i buff_end : Z) : HH Z :=
  match n with
  | O => ret i
  | S n =>
    c <- access (rd8 data i) ;;
    wr (buff_end + i) c ;;
    if negb (isprint c) && negb (isspace c) then fail_with (-2)
    else if c =? 10 then
      h <- get ;;
      if buff_len h + i <? 2 then head_loop n data (i + 1) buff_end
      else
        c' <- rd (buff_end + i - 2) ;;
        if c' =? 10 then
          upd (set_head_ok true) ;;
          upd (set_head_len (buff_len h + i - 2)) ;;
          r <- try _http_head_parse ;;
          match r with
          | None => fail_with (-2)
          | Some _ =>
            content_len <- http_head_get_fields_value (bytes "Content-Length") ;;
            e <- (match content_len with Some p => s <- str p ;; ret (atoi s) | None => ret 0 end) ;;
            upd (set_expect_data_len e) ;;
            if e <? 0 then fail_with (-2) else ret (i + 1)
          end
        else head_loop n data (i + 1) buff_end
    else head_loop n data (i + 1) buff_end
  end.

(** The body without chunks; the end of it and the number of bytes. *)
Definition plain_body (data : list Z) (data_len buff_end : Z) : HH (Z * Z) :=
  h <- get ;;
  let n := if data_len <? expect_data_len h then data_len else expect_data_len h in
  let n := if (n =? 0) && (0 <? data_len) then data_len else n in
  (match HttpHead.data h with None => upd (set_data (Some (Buf buff_end))) | Some _ => ret tt end) ;;
  bs <- access (rd_bytes data 0 n) ;;
  wrs buff_end bs ;;
  upd (fun h => set_data_len (HttpHead.data_len h + n) h) ;;
  ret (buff_end + n, n).

Definition http_head_parse_http1_1 (data : list Z) (in_data_len : Z) : HH Z :=
  h <- get ;;
  if buff_size h - buff_len h <? in_data_len then fail_with (-3)
  else
    taken <- (if head_ok h then ret 0
              else
                i <- head_loop (Z.to_nat in_data_len) data 0 (buff_len h) ;;
                if buff_size h <=? i then fail_with (-3)
                else
                  ok <- hget head_ok ;;
                  if ok : bool then ret i
                  else upd (fun h => set_buff_len (buff_len h + i) h) ;; fail_with (-1)) ;;
    let data := drop (Z.to_nat taken) data in
    let data_len := in_data_len - taken in
    let buff_end := buff_len h + taken in
    transfer_encoding <- http_head_get_fields_value (bytes "Transfer-Encoding") ;;
    is_chunked <- (match transfer_encoding with Some p => s <- str p ;; ret (strncasecmp_eq s (bytes "chunked") 8) | None => ret false end) ;;
    r <- (if is_chunked : bool then chunk_loop (S (Z.to_nat data_len)) data data_len buff_end buff_end taken
          else r <- plain_body data data_len buff_end ;; ret (r.1, taken + r.2)) ;;
    let '(e, process_data_len) := r in
    (if process_data_len <? buff_size h - 1 then wr e 0 else ret tt) ;;
    if buff_size h <=? process_data_len then fail_with (-3)
    else
      upd (fun h => set_buff_len (buff_len h + process_data_len) h) ;;
      h <- get ;;
      if HttpHead.data_len h <? expect_data_len h then fail_with (-1) else ret process_data_len.
End Http1.

(** ** Serializing *)

(** The buffer that is written, and the code of the function when it fails. *)
Record out := mk_out { o_buf : list Z; o_rc : Z }.
Abbreviation OUT := (M out).

Definition out_fail {A} (c : Z) : OUT A := modify (fun o => mk_out (o_buf o) c) ;; fail.
Definition out_write (p : Z) (bs : list Z) : OUT unit := o <- get ;; b <- access (wr_bytes (o_buf o) p bs) ;; put (mk_out b (o_rc o)).

(** [snprintf(p, n, "%s", s)]: a negative [n] becomes a huge number. *)
Definition snprintf (p n : Z) (s : list Z) : OUT Z :=
  (if n =? 0 then ret tt
   else if n <? 0 then out_write p (s ++ [0])
   else out_write p (take (Z.to_nat (n - 1)) s ++ [0])) ;;
  ret (Zlen s).

(** The decimal digits of a number that is not negative. *)
Fixpoint decimal (fuel : nat) (n : Z) : list Z :=
  match fuel with
  | O => []
  | S fuel => if n <? 10 then [48 + n] else decimal fuel (n / 10) ++ [48 + n mod 10]
  end.
Definition print_int (n : Z) : list Z := if n <? 0 then 45 :: decimal 20 (- n) else decimal 20 n.

Definition crlf : list Z := [13; 10].

(** A string of the head. *)
Definition out_str (h : http_head) (p : ptr) : OUT (list Z) := access (str_of (buff h) p).

(** [p] and [room] follow what was written. *)
Fixpoint print_params (h : http_head) (l : list http_head_fields) (first : bool) (p room : Z) : OUT (Z * Z) :=
  match l with
  | [] => ret (p, room)
  | f :: l =>
    name <- out_str h (f_name f) ;;
    value <- out_str h (f_value f) ;;
    len <- snprintf p room ([if first then 63 else 38] ++ name ++ [61] ++ value) ;;
    if room - len <? 2 then out_fail (-3) else print_params h l false (p + len) (room - len)
  end.

Fixpoint print_fields (h : http_head) (l : list http_head_fields) (p room : Z) : OUT (Z * Z) :=
  match l with
  | [] => ret (p, room)
  | f :: l =>
    name <- out_str h (f_name f) ;;
    value <- out_str h (f_value f) ;;
    len <- snprintf p room (name ++ [58; 32] ++ value ++ crlf) ;;
    if room - len <? 2 then out_fail (-3) else print_fields h l (p + len) (room - len)
  end.

Definition print_request (h : http_head) (room : Z) : OUT (Z * Z) :=
  match bool_decide (method h = HTTP_METHOD_INVALID), url h, version h with
  | false, Some u, Some v =>
    u <- out_str h u ;;
    len <- snprintf 0 room (http_method_str (method h) ++ [32] ++ u) ;;
    if room - len <? 2 then out_fail (-3)
    else
      r <- print_params h (param_list h) true len (room - len) ;;
      let '(p, room) := r in
      if room <? 2 then out_fail (-3)
      else
        v <- out_str h v ;;
        len <- snprintf p room ([32] ++ v ++ crlf) ;;
        ret (p + len, room - len)
  | _, _, _ => out_fail (-1)
  end.

Definition print_response (h : http_head) (room : Z) : OUT (Z * Z) :=
  match code h <? 0, code_msg h, version h with
  | false, Some m, Some v =>
    v <- out_str h v ;;
    m <- out_str h m ;;
    len <- snprintf 0 room (v ++ [32] ++ print_int (code h) ++ [32] ++ m ++ crlf) ;;
    if room - len <? 2 then out_fail (-3) else ret (len, room - len)
  | _, _, _ => out_fail (-1)
  end.

(** The bytes at the pointer to the body. *)
Definition body_of (h : http_head) : option (list Z) :=
  match data h with
  | Some (Buf off) => rd_bytes (buff h) off (data_len h)
  | Some (Lit bs) => rd_bytes bs 0 (data_len h)
  | None => None
  end.

Definition http_head_serialize_http1_1 (h : http_head) (buffer_len : Z) : OUT Z :=
  match head_type h with
  | HTTP_HEAD_INVALID => out_fail (-1)
  | _ =>
    r <- (if bool_decide (head_type h = HTTP_HEAD_REQUEST) then print_request h buffer_len else print_response h buffer_len) ;;
    r <- print_fields h (field_list h) r.1 r.2 ;;
    let '(p, room) := r in
    if room <? 2 then out_fail (-3)
    else
      out_write p crlf ;;
      let p := p + 2 in
      let room := room - 2 in
      if room <? data_len h then out_fail (-3)
      else if bool_decide (is_Some (data h)) && (0 <? data_len h) then
        bs <- access (body_of h) ;;
        out_write p bs ;;
        ret (p + data_len h)
      else ret p
  end.
