(* ===== verification/Http1Safe.v ===== *)
(** * HTTP/1: the parser on arbitrary input (src/http_parse/http_parse.c, src/http_parse/http1_parse.c) *)

From Stdlib Require Import ZArith Lia String.
From stdpp Require Import base list numbers option.
From S2P Require Import Prelude DnsCache Hpack HpackSpec Http2 HttpHead Http1.

Ltac hh_simpl :=
  cbn [http_version head_type method url version code code_msg buff_size buff_len buff head_ok head_len data data_len expect_data_len field_list param_list rc
       set_head_type set_method set_url set_version set_code set_code_msg set_buff_len set_buff set_head_ok set_head_len set_data set_data_len
       set_expect_data_len set_field_list set_param_list set_rc] in *.

(** ** Strings *)

Lemma cstr_ex b n : rd8 b n = Some 0 -> is_Some (cstr b).
Proof.
  revert n. induction b as [|x b IH]; intros n Hn; [apply rd8_in in Hn; change (Zlen (@nil Z)) with 0 in Hn; lia|]. cbn. destruct (Z.eqb_spec x 0); [by eexists|].
  destruct (IH (n - 1)) as [s Hs]; [|rewrite Hs; by eexists]. pose proof (rd8_in _ _ _ Hn) as Hr. unfold rd8 in *. destruct (Z.leb_spec 0 n); [|done]. destruct (decide (n = 0)) as [->|]; [by injection Hn|].
  rewrite (proj2 (Z.leb_le 0 (n - 1))) by lia. replace (Z.to_nat n) with (S (Z.to_nat (n - 1))) in Hn by lia. done.
Qed.

Lemma cstr_at_ex b off n : 0 <= off <= n -> rd8 b n = Some 0 -> is_Some (cstr_at b off).
Proof.
  intros Ho Hn. unfold cstr_at. rewrite (proj2 (Z.leb_le 0 off)) by lia. apply (cstr_ex _ (n - off)). unfold rd8 in *.
  rewrite (proj2 (Z.leb_le 0 n)) in Hn by lia. rewrite (proj2 (Z.leb_le 0 (n - off))) by lia. rewrite lookup_drop, <- Hn. f_equal. lia.
Qed.

Lemma cstr_len b s : cstr b = Some s -> Zlen s < Zlen b.
Proof.
  revert s. induction b as [|x b IH]; intros s Hs; [done|]. cbn in Hs. rewrite Zlen_cons. destruct (x =? 0); [injection Hs as <-; pose proof (Zlen_nonneg b); change (Zlen (@nil Z)) with 0; lia|].
  destruct (cstr b) as [s'|]; [|done]. injection Hs as <-. rewrite Zlen_cons. specialize (IH s' eq_refl). lia.
Qed.

Lemma cstr_at_len b off s : cstr_at b off = Some s -> 0 <= off /\ off + Zlen s < Zlen b.
Proof.
  unfold cstr_at. destruct (Z.leb_spec 0 off); [|done]. intros Hs%cstr_len. split; [done|]. unfold Zlen in *. rewrite length_drop in Hs. lia.
Qed.

Lemma index_of_range c s i : index_of c s = Some i -> 0 <= i < Zlen s.
Proof.
  revert i. induction s as [|x s IH]; intros i Hi; [done|]. cbn in Hi. rewrite Zlen_cons. pose proof (Zlen_nonneg s). destruct (x =? c); [injection Hi as <-; lia|].
  destruct (index_of c s) as [j|]; [|done]. injection Hi as <-. specialize (IH j eq_refl). lia.
Qed.

(** ** Rules *)

Section Rules.
Context {A : Type}.
Implicit Types (h : http_head).

Lemma wp_hget (f : http_head -> A) h Q E : Q h (f h) -> wp (hget f) h Q E.
Proof. done. Qed.

Lemma wp_fail_with c h (Q : http_head -> A -> Prop) E : E (set_rc c h) -> wp (fail_with c) h Q E.
Proof. done. Qed.
End Rules.

Lemma wp_upd f h (Q : http_head -> unit -> Prop) E : Q (f h) tt -> wp (upd f) h Q E.
Proof. done. Qed.

Lemma wp_rd p h c (Q : http_head -> Z -> Prop) E : rd8 (buff h) p = Some c -> Q h c -> wp (rd p) h Q E.
Proof. intros Hc HQ. unfold wp, rd, bind, get, access. by rewrite Hc. Qed.

Lemma wp_wrs p bs h (Q : http_head -> unit -> Prop) E : 0 <= p -> p + Zlen bs <= Zlen (buff h) -> (forall b, wr_bytes (buff h) p bs = Some b -> Q (set_buff b h) tt) -> wp (wrs p bs) h Q E.
Proof. intros Hp Hl HQ. destruct (wr_bytes_ex (buff h) p bs Hp Hl) as [b Hb]. unfold wp, wrs, bind, get, access, put. rewrite Hb. by apply HQ. Qed.

Lemma wp_wr p v h (Q : http_head -> unit -> Prop) E : 0 <= p < Zlen (buff h) -> (forall b, wr_bytes (buff h) p [v] = Some b -> Q (set_buff b h) tt) -> wp (wr p v) h Q E.
Proof. intros Hp. apply wp_wrs; [lia|]. change (Zlen [v]) with 1. lia. Qed.

Lemma wp_str p h s (Q : http_head -> list Z -> Prop) E : str_of (buff h) p = Some s -> Q h s -> wp (str p) h Q E.
Proof. intros Hs HQ. unfold wp, str, bind, get, access. by rewrite Hs. Qed.

Ltac hh_step :=
  lazymatch goal with
  | |- wp (hget _) _ _ _ => apply wp_hget
  | |- wp (upd _) _ _ _ => apply wp_upd
  | |- wp (fail_with _) _ _ _ => apply wp_fail_with
  | |- _ => wp_step
  end.

(** ** The invariant of the HTTP/1 parser *)

Definition in_buf (h : http_head) (p : ptr) : Prop := match p with Buf off => 0 <= off < buff_size h | Lit _ => True end.
Definition opt_in_buf (h : http_head) (p : option ptr) : Prop := match p with Some p => in_buf h p | None => True end.
Definition field_in_buf (h : http_head) (f : http_head_fields) : Prop := in_buf h (f_name f) /\ in_buf h (f_value f).

Definition zero_ended (h : http_head) : Prop := Zlen (buff h) = buff_size h /\ rd8 (buff h) (buff_size h - 1) = Some 0.

Definition strings_ok (h : http_head) : Prop :=
  Forall (field_in_buf h) (field_list h) /\ Forall (field_in_buf h) (param_list h) /\ opt_in_buf h (url h) /\ opt_in_buf h (version h) /\ opt_in_buf h (code_msg h).

Definition h1_ok (h : http_head) : Prop := zero_ended h /\ strings_ok h.

(** What the parsing of the head leaves as it is. *)
Definition frame (h : http_head) := (http_version h, buff_size h, buff_len h, head_ok h, head_len h, data h, data_len h, expect_data_len h).

Definition steps (h h' : http_head) : Prop := h1_ok h' /\ frame h' = frame h.

Lemma steps_refl h : h1_ok h -> steps h h.
Proof. by split. Qed.

Lemma steps_trans h h1 h' : steps h h1 -> steps h1 h' -> steps h h'.
Proof. intros [_ Hf] [Ho Hf']. split; [done|]. by rewrite Hf'. Qed.

Lemma steps_size h h' : steps h h' -> buff_size h' = buff_size h.
Proof. by intros [_ [= _ -> _]]. Qed.

Lemma h1_size h : h1_ok h -> Zlen (buff h) = buff_size h /\ 0 < buff_size h.
Proof. intros [[Hl Hz] _]. apply rd8_in in Hz. lia. Qed.

Lemma h1_string h p : h1_ok h -> in_buf h p -> exists s, str_of (buff h) p = Some s.
Proof. intros [[Hl Hz] _] Hp. destruct p as [off|s]; [|by exists s]. destruct (cstr_at_ex (buff h) off (buff_size h - 1)) as [s Hs]; [cbn in Hp; lia|done|]. by exists s. Qed.

(** A byte of the buffer is set; the last one only to zero. *)
Lemma h1_buff h b : h1_ok h -> Zlen b = Zlen (buff h) -> rd8 b (buff_size h - 1) = Some 0 -> h1_ok (set_buff b h).
Proof. intros [[Hl _] Hs] Hb Hz. split; [|exact Hs]. split; hh_simpl; [by rewrite Hb|done]. Qed.

Lemma h1_zero h p b : h1_ok h -> wr_bytes (buff h) p [0] = Some b -> h1_ok (set_buff b h).
Proof.
  intros Hh Hb. pose proof Hh as [[Hl Hz] _]. apply h1_buff; [done|by apply wr_bytes_len in Hb|].
  destruct (decide (p = buff_size h - 1)) as [->|]; [by rewrite (rd8_wr_in _ _ _ _ _ Hb), Z.sub_diag by (change (Zlen [0]) with 1; lia)|].
  rewrite (rd8_wr_out _ _ _ _ _ Hb); [done|]. change (Zlen [0]) with 1. lia.
Qed.

Lemma steps_zero h p (Q : http_head -> unit -> Prop) E : h1_ok h -> 0 <= p < buff_size h -> (forall h', steps h h' -> Q h' tt) -> wp (wr p 0) h Q E.
Proof. intros Hh Hp HQ. destruct (h1_size _ Hh) as [Hl _]. apply wp_wr; [lia|]. intros b Hb. apply HQ. split; [by eapply h1_zero|done]. Qed.

Lemma steps_rd h p (Q : http_head -> Z -> Prop) E : h1_ok h -> 0 <= p < buff_size h -> (forall c, rd8 (buff h) p = Some c -> Q h c) -> wp (rd p) h Q E.
Proof. intros Hh Hp HQ. destruct (h1_size _ Hh) as [Hl _]. destruct (rd8_ex (buff h) p) as [c Hc]; [lia|]. eapply wp_rd; [exact Hc|by apply HQ]. Qed.

Lemma steps_str h p (Q : http_head -> list Z -> Prop) E : h1_ok h -> in_buf h p -> (forall s, str_of (buff h) p = Some s -> Q h s) -> wp (str p) h Q E.
Proof. intros Hh Hp HQ. destruct (h1_string h p Hh Hp) as [s Hs]. eapply wp_str; [exact Hs|by apply HQ]. Qed.

(** ** Fields and parameters *)

Section Fields.
Variable malloc_ok : bool.

Lemma find_value_safe key name l h : h1_ok h -> Forall (field_in_buf h) l ->
  wp (find_value key name l) h (fun h' r => h' = h /\ opt_in_buf h r) (fun _ => False).
Proof.
  intros Hh. induction 1 as [|f l [Hn Hv] Hl IH]; cbn [find_value]; [by wp_step|]. wp_step; [|done]. wp_step. apply steps_str; [done|done|]. intros s _.
  wp_step; [by wp_step|done].
Qed.

Lemma get_fields_safe name h : h1_ok h -> wp (http_head_get_fields_value name) h (fun h' r => h' = h /\ opt_in_buf h r) (fun _ => False).
Proof. intros Hh. unfold http_head_get_fields_value. wp_step. apply wp_hget. apply find_value_safe; [done|]. apply Forall_rev. apply Hh. Qed.

Lemma add_param_safe name value h : h1_ok h -> in_buf h name -> in_buf h value -> wp (_http_head_add_param malloc_ok name value) h (fun h' _ => steps h h') (steps h).
Proof.
  intros Hh Hn Hv. unfold _http_head_add_param. wp_step. wp_step; [|by apply wp_fail_with]. wp_step. wp_step. apply steps_str; [done|done|]. intros s _. apply wp_upd. split; [|done].
  destruct Hh as [Hz (H1&H2&H3)]. split; [exact Hz|]. split_and!; [exact H1|apply Forall_app; split; [exact H2|by repeat constructor]|apply H3..].
Qed.

Lemma add_fields_safe name value h : h1_ok h -> in_buf h name -> in_buf h value -> wp (http_head_add_fields malloc_ok (Some name) (Some value)) h (fun h' _ => steps h h') (steps h).
Proof.
  intros Hh Hn Hv. unfold http_head_add_fields, _http_head_add_fields. wp_step. wp_step; [|by apply wp_fail_with]. wp_step. wp_step. apply steps_str; [done|done|]. intros s _. apply wp_upd. split; [|done].
  destruct Hh as [Hz (H1&H2&H3)]. split; [exact Hz|]. split_and!; [apply Forall_app; split; [exact H1|by repeat constructor]|exact H2|apply H3..].
Qed.

Lemma params_loop_safe fuel p stop fs f h : h1_ok h -> 0 <= p -> stop <= buff_size h -> stop - p <= Z.of_nat fuel ->
  opt_in_buf h (Buf <$> fs) -> opt_in_buf h (Buf <$> f) -> wp (params_loop malloc_ok fuel p stop fs f) h (fun h' _ => steps h h') (steps h).
Proof.
  revert p fs f h. induction fuel as [|fuel IH]; intros p fs f h Hh Hp Hs Hf Hfs Hff; cbn [params_loop]; (wp_step; [|wp_step; by apply steps_refl]); [lia|].
  assert (forall h1 fs f, steps h h1 -> opt_in_buf h (Buf <$> fs) -> opt_in_buf h (Buf <$> f) -> wp (params_loop malloc_ok fuel (p + 1) stop fs f) h1 (fun h' _ => steps h h') (steps h)) as Hgo.
  { intros h1 fs1 f1 H1 Hfs1 Hf1. pose proof (steps_size _ _ H1) as Hsz. eapply wp_mono; [apply IH; [apply H1|lia|lia|lia| |]| |].
    - destruct fs1; [|done]. cbn in *. by rewrite Hsz.
    - destruct f1; [|done]. cbn in *. by rewrite Hsz.
    - intros h' [] H'. by eapply steps_trans.
    - intros h' H'. by eapply steps_trans. }
  assert (0 <= default p fs < buff_size h) as Hd by (destruct fs; cbn in *; lia).
  wp_step. apply steps_rd; [done|lia|]. intros c _. destruct f as [f|].
  - wp_step; [|by apply Hgo; [apply steps_refl| |]]. wp_step. apply steps_zero; [done|lia|]. intros h1 H1. pose proof (steps_size _ _ H1) as Hsz. wp_step. apply wp_try.
    eapply wp_mono; [apply add_param_safe; [apply H1|cbn in *; by rewrite Hsz|cbn; by rewrite Hsz]| |]; cbv beta.
    + intros h3 [] H3. apply Hgo; [by eapply steps_trans|done|done].
    + intros h3 H3. apply wp_fail_with. eapply steps_trans; [exact H1|exact H3].
  - wp_step; [|by apply Hgo; [apply steps_refl| |]]. wp_step. apply steps_zero; [done|lia|]. intros h1 H1. by apply Hgo.
Qed.

Lemma parse_params_safe off url_len h : h1_ok h -> 0 <= off < buff_size h -> off + url_len <= buff_size h ->
  wp (_http_head_parse_params malloc_ok (Some (Buf off)) url_len) h (fun h' _ => steps h h') (steps h).
Proof.
  intros Hh Ho Hl. pose proof (h1_size _ Hh) as [Hsz _]. unfold _http_head_parse_params. wp_step. apply steps_str; [done|done|]. intros s Hs. cbn [str_of] in Hs. apply cstr_at_len in Hs as [_ Hs].
  destruct (index_of 63 s) as [i|] eqn:Hi; [|wp_step; by apply steps_refl]. apply index_of_range in Hi. wp_step. apply steps_zero; [done|lia|]. intros h1 H1. pose proof (steps_size _ _ H1).
  eapply wp_mono; [apply params_loop_safe; [apply H1|lia|lia|lia|done|done]| |]; intros; by eapply steps_trans.
Qed.
End Fields.

Section Safe.
Variable malloc_ok : bool.

(** ** The first line *)

Lemma steps_set h f : h1_ok h -> frame (f h) = frame h -> buff (f h) = buff h -> strings_ok (f h) -> steps h (f h).
Proof. intros [[Hl Hz] _] Hf Hb Hs. split; [|done]. split; [|done]. assert (buff_size (f h) = buff_size h) as Hsz by (by injection Hf). unfold zero_ended. by rewrite Hb, Hsz. Qed.

Lemma response_loop_safe fuel p h : h1_ok h -> 0 <= p < buff_size h -> buff_size h - p <= Z.of_nat fuel ->
  wp (response_loop fuel p) h (fun h' r => steps h h' /\ match r with Some q => p <= q < buff_size h - 1 | None => True end) (fun _ => False).
Proof.
  revert p. induction fuel as [|fuel IH]; intros p Hh Hp Hf; [lia|]. cbn [response_loop]. wp_step. apply steps_rd; [done|done|]. intros c Hc.
  wp_step; [wp_step; split; [by apply steps_refl|done]|]. assert (p <> buff_size h - 1) as Hlast. { intros ->. destruct Hh as [[_ Hz] _]. rewrite Hz in Hc. by injection Hc. }
  wp_step.
  - wp_step. apply steps_zero; [done|done|]. intros h1 H1. wp_step. split; [done|lia].
  - eapply wp_mono; [apply IH; [done|lia|lia]| |done]. intros h' [q|] [H' Hq]; (split; [done|]); [lia|done].
Qed.

Lemma parse_response_safe key value h : h1_ok h -> 0 <= key < buff_size h -> 0 <= value < buff_size h ->
  wp (_http_head_parse_response key value) h (fun h' _ => steps h h') (steps h).
Proof.
  intros Hh Hk Hv. unfold _http_head_parse_response. wp_step. apply steps_str; [done|done|]. intros k _. wp_step; [apply wp_fail_with; exact (steps_refl h Hh)|].
  wp_step. apply wp_hget. wp_step. eapply wp_mono; [apply response_loop_safe; [done|done|lia]| |done]. intros h1 [q|] [H1 Hq]; [|by apply wp_fail_with].
  pose proof (steps_size _ _ H1) as Hsz. wp_step. apply steps_str; [apply H1|cbn; lia|]. intros s _. wp_step; [by apply wp_fail_with|].
  wp_step. apply wp_upd. wp_step. apply wp_upd. wp_step. apply wp_upd. apply wp_upd. eapply steps_trans; [exact H1|].
  apply (steps_set h1 (fun h => set_head_type HTTP_HEAD_RESPONSE (set_version (Some (Buf key)) (set_code_msg (Some (Buf (q + 1))) (set_code (atoi s) h))))); try done; [apply H1|].
  destruct H1 as [[_ (S1&S2&S3&_)] _]. split_and!; try done; cbn; lia.
Qed.

Lemma request_loop_safe fuel p u fs h : h1_ok h -> 0 <= p < buff_size h -> buff_size h - p <= Z.of_nat fuel -> (forall x, u = Some x -> 0 <= x <= p) -> (forall x, fs = Some x -> 0 <= x <= p) ->
  wp (request_loop fuel p u fs) h (fun h' r => let '(u', fs', q) := r in steps h h' /\ q < buff_size h /\ (forall x, u' = Some x -> 0 <= x <= q) /\ (forall x, fs' = Some x -> 0 <= x <= q)) (fun _ => False).
Proof.
  revert p u fs h. induction fuel as [|fuel IH]; intros p u fs h Hh Hp Hf Hu Hfs; [lia|]. cbn [request_loop]. wp_step. apply steps_rd; [done|done|]. intros c Hc.
  wp_step; [wp_step; split_and!; [by apply steps_refl|lia|done|done]|]. assert (p <> buff_size h - 1) as Hlast. { intros ->. destruct Hh as [[_ Hz] _]. rewrite Hz in Hc. by injection Hc. }
  assert (0 <= default p fs <= p) as Hd by (destruct fs as [x|]; cbn; [by apply Hfs|lia]).
  wp_step.
  - wp_step. apply steps_zero; [done|done|]. intros h1 H1. pose proof (steps_size _ _ H1) as Hsz. eapply wp_mono; [apply IH; [apply H1|lia|lia| |done]| |done].
    + intros x [= <-]. destruct u as [x|]; cbn; [specialize (Hu x eq_refl)|]; lia.
    + intros h' [[u' fs'] q] (H'&Hq&Hu'&Hfs'). split_and!; try done; [by eapply steps_trans|lia].
  - apply IH; [done|lia|lia| |]; [intros x Hx; specialize (Hu x Hx); lia|intros x [= <-]; lia].
Qed.

Lemma parse_request_safe key value h : h1_ok h -> 0 <= key < buff_size h -> 0 <= value < buff_size h ->
  wp (_http_head_parse_request malloc_ok key value) h (fun h' _ => steps h h') (steps h).
Proof.
  intros Hh Hk Hv. unfold _http_head_parse_request. wp_step. apply steps_str; [done|done|]. intros k _. wp_step; [by apply parse_response_safe|].
  wp_step. apply wp_hget. wp_step. eapply wp_mono; [apply request_loop_safe; [done|done|lia|done|done]| |done]. intros h1 [[u fs] q] (H1&Hq&Hu&Hfs).
  pose proof (steps_size _ _ H1) as Hsz. wp_step. apply wp_try. destruct u as [u|]; [|cbn; by apply wp_fail_with, wp_fail_with]. specialize (Hu u eq_refl). cbn [default fmap option_fmap option_map].
  eapply wp_mono; [apply parse_params_safe; [apply H1|lia|destruct fs as [x|]; cbn; [specialize (Hfs x eq_refl)|]; lia]| |]; cbv beta.
  - intros h3 [] H3. pose proof (steps_size _ _ H3) as Hsz3. wp_step. apply wp_upd. wp_step. apply wp_upd. wp_step. apply wp_upd. apply wp_upd. eapply steps_trans; [exact H1|]. eapply steps_trans; [exact H3|].
    apply (steps_set h3 (fun h => set_head_type HTTP_HEAD_REQUEST (set_version (Buf <$> fs) (set_url (Some (Buf u)) (set_method (_http_method_parse k) h))))); try done; [apply H3|].
    destruct H3 as [[_ (S1&S2&S3&S4&S5)] _]. split_and!; try done; cbn; [lia|]. destruct fs as [x|]; [|done]. specialize (Hfs x eq_refl). cbn. lia.
  - intros h3 H3. apply wp_fail_with. eapply steps_trans; [exact H1|exact H3].
Qed.

(** ** The lines *)

Definition st_ok (i : Z) (st : parse_state) : Prop :=
  (forall x, ps_key st = Some x -> 0 <= x < i) /\ (forall x, ps_value st = Some x -> 0 <= x < i).

Lemma st_ok_mono i j st : st_ok i st -> i <= j -> st_ok j st.
Proof. intros [H1 H2] Hj. split; intros x Hx; [specialize (H1 x Hx)|specialize (H2 x Hx)]; lia. Qed.

Lemma parse_line_safe i st h : h1_ok h -> st_ok i st -> i <= buff_size h -> wp (parse_line malloc_ok st) h (fun h' st' => steps h h' /\ st_ok i st') (steps h).
Proof.
  intros Hh [Hk Hv] Hi. unfold parse_line. destruct (ps_key st) as [key|] eqn:Hkey; [|wp_step; split; [by apply steps_refl|]; split; [by rewrite Hkey|done]].
  destruct (ps_value st) as [value|] eqn:Hval; [|wp_step; split; [by apply steps_refl|]; split; [by rewrite Hkey|by rewrite Hval]].
  specialize (Hk key eq_refl) as Hk1. specialize (Hv value eq_refl) as Hv1. wp_step; [wp_step; split; [by apply steps_refl|]; split; rewrite ?Hkey, ?Hval; done|].
  wp_step. apply wp_try. eapply (wp_mono _ _ (fun h' _ => steps h h') _ (steps h)).
  - destruct (ps_first st); [apply parse_request_safe; [done|lia|lia]|apply add_fields_safe; [done|cbn; lia|cbn; lia]].
  - intros h1 [] H1. wp_step. split; [done|]. by split.
  - intros h1 H1. by apply wp_fail_with.
Qed.

Lemma parse_value_safe i c st h : h1_ok h -> st_ok i st -> 0 <= i < buff_size h -> wp (parse_value malloc_ok i c st) h (fun h' st' => steps h h' /\ st_ok (i + 1) st') (steps h).
Proof.
  intros Hh Hst Hi. unfold parse_value. pose proof (st_ok_mono i (i + 1) st Hst ltac:(lia)) as Hst1. wp_step; [|apply parse_line_safe; [done|done|lia]].
  wp_step; [|wp_step; [|apply parse_line_safe; [done|done|lia]]].
  - wp_step. split; [by apply steps_refl|]. split; cbn; [apply Hst1|]. intros x [= <-]. lia.
  - wp_step. apply steps_zero; [done|lia|]. intros h1 K1. pose proof (steps_size _ _ K1). eapply wp_mono; [apply (parse_line_safe (i + 1)); [apply K1|done|lia]| |].
    + intros h' st' [H' Hs']. split; [by eapply steps_trans|done].
    + intros h' H'. by eapply steps_trans.
Qed.

Lemma parse_byte_safe i st h : h1_ok h -> st_ok i st -> 0 <= i < buff_size h -> wp (parse_byte malloc_ok i st) h (fun h' st' => steps h h' /\ st_ok (i + 1) st') (steps h).
Proof.
  intros Hh Hst Hi. unfold parse_byte. pose proof (st_ok_mono i (i + 1) st Hst ltac:(lia)) as Hst1. wp_step. apply steps_rd; [done|done|]. intros c _. wp_step; [|by apply parse_value_safe].
  wp_step; [|wp_step; [|by apply parse_value_safe]].
  - wp_step. split; [by apply steps_refl|]. split; cbn; [|apply Hst1]. intros x [= <-]. lia.
  - wp_step. apply steps_zero; [done|lia|]. intros h1 K1. wp_step. by split.
Qed.

Lemma parse_loop_safe n i st h : h1_ok h -> st_ok i st -> 0 <= i -> i + Z.of_nat n <= buff_size h -> wp (parse_loop malloc_ok n i st) h (fun h' _ => steps h h') (steps h).
Proof.
  revert i st h. induction n as [|n IH]; intros i st h Hh Hst Hi Hn; cbn [parse_loop]; [wp_step; by apply steps_refl|].
  wp_step. eapply wp_mono; [apply parse_byte_safe; [done|done|lia]| |done]. intros h1 st1 [H1 Hst1]. pose proof (steps_size _ _ H1).
  eapply wp_mono; [apply IH; [apply H1|done|lia|lia]| |]; intros; by eapply steps_trans.
Qed.

Lemma head_parse_safe h : h1_ok h -> head_len h <= buff_size h -> wp (_http_head_parse malloc_ok) h (fun h' _ => steps h h') (steps h).
Proof. intros Hh Hl. unfold _http_head_parse. wp_step. apply wp_hget. pose proof (h1_size _ Hh). apply parse_loop_safe; [done|by split|lia|lia]. Qed.

(** ** The head *)

(** Between two calls: the body is in the part of the buffer that is in use. *)
Definition body_ok (h : http_head) : Prop :=
  match data h with
  | None => data_len h = 0
  | Some (Buf d) => 0 <= d /\ 0 <= data_len h /\ d + data_len h <= buff_len h
  | Some (Lit _) => False
  end.

Definition h1_inv (h : http_head) : Prop := h1_ok h /\ 0 <= buff_len h < buff_size h /\ body_ok h /\ 0 <= expect_data_len h.

(** What the search for the end of the head leaves as it is. *)
Definition place (h : http_head) := (http_version h, buff_size h, buff_len h, data h, data_len h).

Lemma frame_place h h' : frame h' = frame h -> place h' = place h.
Proof. intros [= H1 H2 H3 H4 H5 H6 H7 H8]. unfold place. by rewrite H1, H2, H3, H6, H7. Qed.

(** A byte that is not the last is written. *)
Lemma h1_wrs h p bs b : h1_ok h -> 0 <= p -> p + Zlen bs < buff_size h -> wr_bytes (buff h) p bs = Some b -> h1_ok (set_buff b h).
Proof.
  intros Hh Hp Hl Hb. pose proof Hh as [[Hsz Hz] _]. apply h1_buff; [done|by apply wr_bytes_len in Hb|]. rewrite (rd8_wr_out _ _ _ _ _ Hb); [done|]. lia.
Qed.

Definition headed (h : http_head) (i0 n : Z) (h' : http_head) (i : Z) : Prop :=
  h1_ok h' /\ place h' = place h /\ i0 <= i <= n /\ 0 <= expect_data_len h'.

Definition head_failed (h h' : http_head) : Prop := h1_ok h' /\ rc h' = -2.

Lemma content_length_safe h : h1_ok h ->
  wp (content_len <- http_head_get_fields_value (bytes "Content-Length") ;;
      match content_len with Some p => s <- str p ;; ret (atoi s) | None => ret 0 end) h (fun h' _ => h' = h) (fun _ => False).
Proof.
  intros Hh. wp_step. eapply wp_mono; [by apply get_fields_safe| |done]. intros h' [p|] [-> Hp]; [|by wp_step]. wp_step. apply steps_str; [done|done|]. intros s _. by wp_step.
Qed.

Lemma head_end_safe h (k : Z -> HH Z) Q E : h1_ok h -> head_len h <= buff_size h ->
  (forall h' e, h1_ok h' -> place h' = place h -> wp (k e) (set_expect_data_len e h') Q E) -> (forall h', h1_ok h' -> rc h' = -2 -> E h') ->
  wp (r <- try (_http_head_parse malloc_ok) ;;
      match r with
      | None => fail_with (-2)
      | Some _ =>
        content_len <- http_head_get_fields_value (bytes "Content-Length") ;;
        e <- (match content_len with Some p => s <- str p ;; ret (atoi s) | None => ret 0 end) ;;
        upd (set_expect_data_len e) ;; k e
      end) h Q E.
Proof.
  intros Hh Hl Hk HE. wp_step. apply wp_try. eapply wp_mono; [by apply head_parse_safe| |]; cbv beta.
  - intros h1 [] [H1 Hf]. apply wp_bind_assoc. wp_step. eapply wp_mono; [by apply content_length_safe| |done]. intros h' e ->. wp_step. apply wp_upd. apply Hk; [done|by apply frame_place].
  - intros h1 [H1 _]. apply wp_fail_with. by apply HE.
Qed.

Lemma head_loop_safe n data i e h : h1_ok h -> e = buff_len h -> 0 <= e -> 0 <= i -> i + Z.of_nat n <= Zlen data -> e + i + Z.of_nat n < buff_size h -> 0 <= expect_data_len h ->
  wp (head_loop malloc_ok n data i e) h (fun h' j => headed h i (i + Z.of_nat n) h' j) (head_failed h).
Proof.
  revert i h. induction n as [|n IH]; intros i h Hh He He0 Hi Hl Hs Hx; cbn [head_loop]; [wp_step; split_and!; try done; lia|].
  destruct (rd8_ex data i) as [c Hc]; [lia|]. wp_step. apply wp_access. exists c. split; [done|]. pose proof (h1_size _ Hh) as [Hsz _]. wp_step. apply wp_wr; [lia|]. intros b Hb.
  assert (h1_ok (set_buff b h)) as H1 by (eapply h1_wrs; [done| | |exact Hb]; change (Zlen [c]) with 1; lia). set (h1 := set_buff b h) in *.
  assert (wp (head_loop malloc_ok n data (i + 1) e) h1 (fun h' j => headed h i (i + Z.of_nat (S n)) h' j) (head_failed h)) as Hgo.
  { eapply wp_mono; [apply IH; try done; try lia; subst h1; hh_simpl; lia| |done]. intros h' j (G1&G2&G3&G4). split_and!; try done; try lia. }
  destruct (negb (isprint c) && negb (isspace c)); [apply wp_fail_with; by split|]. wp_step; [|exact Hgo]. wp_step. wp_step. wp_step; [exact Hgo|].
  change (buff_len h1) with (buff_len h) in *. change (buff_size h) with (buff_size h1) in *. wp_step. apply steps_rd; [done|lia|]. intros c' _. wp_step; [|exact Hgo].
  wp_step. apply wp_upd. wp_step. apply wp_upd. apply head_end_safe; [exact H1|hh_simpl; lia| |done].
  intros h' e' H' Hp'. wp_step; [apply wp_fail_with; by split|]. wp_step. split_and!; [done|exact Hp'|lia|lia|done].
Qed.

(** ** The body *)

Lemma chunk_len_loop_safe fuel data len off v h : Forall is_byte data -> 0 <= off -> len <= Zlen data -> len - off <= Z.of_nat fuel -> 0 <= v <= HTTP_MAX_CHUNK_SIZE ->
  wp (chunk_len_loop fuel data len off v) h (fun h' r => h' = h /\ off <= r.1 /\ (r.1 < len -> off + 2 <= r.1) /\ 0 <= r.2 <= HTTP_MAX_CHUNK_SIZE) (fun h' => exists c, h' = set_rc c h /\ -3 <= c <= -1).
Proof.
  intros Hb. revert off v. induction fuel as [|fuel IH]; intros off v Ho Hl Hf Hv; cbn [chunk_len_loop]; (wp_step; [|wp_step; cbn [fst snd]; split_and!; try done; lia]); [lia|].
  destruct (rd8_ex data off) as [c Hc]; [lia|]. wp_step. apply wp_access. exists c. split; [done|].
  assert (forall v', 0 <= v' <= HTTP_MAX_CHUNK_SIZE -> wp (chunk_len_loop fuel data len (off + 1) v') h (fun h' r => h' = h /\ off <= r.1 /\ (r.1 < len -> off + 2 <= r.1) /\ 0 <= r.2 <= HTTP_MAX_CHUNK_SIZE) (fun h' => exists c, h' = set_rc c h /\ -3 <= c <= -1)) as Hgo.
  { intros v' Hv'. eapply wp_mono; [apply IH; [lia|done|lia|done]| |done]. intros h' r (->&H1&H2&H3&H4). split_and!; try done; lia. }
  wp_step; [by apply Hgo|]. wp_step.
  - wp_step; [|apply wp_fail_with; eexists; split; [done|lia]]. destruct (rd8_ex data (off + 1)) as [c' Hc']; [lia|]. wp_step. apply wp_access. exists c'. split; [done|]. wp_step; [|apply wp_fail_with; eexists; split; [done|lia]].
    wp_step. cbn [fst snd]. split_and!; try done; lia.
  - wp_step; [apply wp_fail_with; eexists; split; [done|lia]|]. wp_step; [apply wp_fail_with; eexists; split; [done|lia]|]. apply Hgo. unfold HTTP_MAX_CHUNK_SIZE in *.
    assert (16 * ((2147483647 - decode_hex c) / 16) <= 2147483647 - decode_hex c) by (apply Z.mul_div_le; lia). lia.
Qed.

(** A chunk is no more than what is processed of it. *)
Definition body_stays (h : http_head) (process : Z) (h' : http_head) (r : Z * Z) (body e : Z) : Prop :=
  h1_ok h' /\ frame (set_data_len 0 (set_data None h')) = frame (set_data_len 0 (set_data None h)) /\ data h' = Some (Buf body) /\ data_len h' = r.1 - body /\ e <= r.1 /\ process <= r.2 /\ r.1 - e <= r.2 - process.

Lemma chunk_loop_safe fuel data len body e process h : Forall is_byte data -> h1_ok h -> len = Zlen data -> len < Z.of_nat fuel -> 0 <= body <= e -> buff_len h <= e -> e <= buff_len h + process -> buff_len h + process + len < buff_size h ->
  wp (chunk_loop fuel data len body e process) h (fun h' r => body_stays h process h' r body e /\ r.2 <= process + len) (fun h' => exists b c, h' = set_rc c (set_buff b h) /\ h1_ok h' /\ -3 <= c <= -1).
Proof.
  revert data len e process h. induction fuel as [|fuel IH]; intros data len e process h Hb Hh Hl Hf Hbe Hle He Hs; [pose proof (Zlen_nonneg data); lia|]. cbn [chunk_loop].
  assert (forall (A : Type) c (Q : http_head -> A -> Prop), -3 <= c <= -1 -> wp (fail_with c) h Q (fun h' => exists b c, h' = set_rc c (set_buff b h) /\ h1_ok h' /\ -3 <= c <= -1)) as Hbad.
  { intros A c Q Hc. apply wp_fail_with. exists (buff h), c. split; [by destruct h|]. split; [exact Hh|exact Hc]. }
  wp_step. unfold _http1_get_chunk_len. wp_step. eapply wp_mono; [apply chunk_len_loop_safe; [done|lia|lia|lia|done]| |].
  2: { intros h' [c [-> Hc]]. exists (buff h), c. split; [by destruct h|]. split; [exact Hh|exact Hc]. }
  intros h' [off v] (->&Ho&Ho2&Hv). cbn [fst snd] in *. wp_step; [apply Hbad; lia|]. wp_step. specialize (Ho2 ltac:(lia)).
  assert (Zlen (drop (Z.to_nat off) data) = len - off) as Hld by (unfold Zlen in *; rewrite length_drop; lia). set (data1 := drop (Z.to_nat off) data) in *.
  wp_step. { wp_step. apply wp_upd. wp_step. apply wp_upd. wp_step. unfold body_stays. hh_simpl. cbn [fst snd]. split; [|lia]. split_and!; try done; lia. }
  wp_step; [apply Hbad; lia|]. wp_step; [apply Hbad; lia|]. destruct (rd8_ex data1 v) as [c1 Hc1]; [lia|]. wp_step. apply wp_access. exists c1. split; [done|]. wp_step.
  apply (wp_mono _ _ (fun h' _ => h' = h) _ (fun _ => False)); [| |done].
  { wp_step; [|by wp_step]. destruct (rd8_ex data1 (v + 1)) as [c2 Hc2]; [lia|]. apply wp_access. by exists c2. }
  intros h' c2 ->. wp_step; [apply Hbad; lia|]. wp_step. wp_step. wp_step; [apply Hbad; lia|].
  wp_step. apply wp_access. destruct (rd_bytes_ex data1 0 v) as [bs Hbs]; [lia|lia|lia|]. exists bs. split; [done|]. apply rd_bytes_len in Hbs as Hlb. pose proof (h1_size _ Hh) as [Hsz _].
  wp_step. apply wp_wrs; [lia|lia|]. intros b Hwb. assert (h1_ok (set_buff b h)) as K1 by (eapply h1_wrs; [done| | |exact Hwb]; lia).
  assert (Zlen (drop (Z.to_nat (v + 2)) data1) = len - off - v - 2) as Hld2 by (unfold Zlen in *; rewrite length_drop; lia).
  eapply wp_mono; [apply IH; hh_simpl; try done; try lia; by apply Forall_drop, Forall_drop| |].
  - intros h' r [(G1&G2&G3&G4&G5&G6&G7) G8]. split; [|lia]. split_and!; try done; lia.
  - intros h' (b'&c'&->&H'&Hc'). by exists b', c'.
Qed.

Lemma plain_body_safe data len e h : h1_ok h -> len = Zlen data -> e + len < buff_size h -> buff_len h <= e -> 0 <= buff_len h -> body_ok h -> 0 <= expect_data_len h ->
  wp (plain_body data len e) h (fun h' r => h1_ok h' /\ frame (set_data_len 0 (set_data None h')) = frame (set_data_len 0 (set_data None h)) /\ r.1 = e + r.2 /\ 0 <= r.2 <= len /\
    exists d, HttpHead.data h' = Some (Buf d) /\ 0 <= d /\ 0 <= data_len h' /\ d + data_len h' <= r.1) (fun _ => False).
Proof.
  intros Hh Hl Hs He Hb0 Hbody Hx. pose proof (h1_size _ Hh) as [Hsz _]. pose proof (Zlen_nonneg data). unfold plain_body. wp_step. wp_step.
  set (n := if _ && _ then len else _). assert (0 <= n <= len) as Hn by (subst n; destruct (Z.ltb_spec len (expect_data_len h)); case_match; lia).
  wp_step. unfold body_ok in Hbody.
  apply (wp_mono _ _ (fun h' _ => h1_ok h' /\ frame (set_data_len 0 (set_data None h')) = frame (set_data_len 0 (set_data None h)) /\ exists d, HttpHead.data h' = Some (Buf d) /\ 0 <= d /\ 0 <= data_len h' /\ d + data_len h' <= e) _ (fun _ => False)); [| |done].
  { destruct (HttpHead.data h) as [[d|]|] eqn:Hd; [wp_step|done|apply wp_upd]; (split_and!; [done|done|]); [exists d|exists e]; hh_simpl; split_and!; done || lia. }
  intros h1 [] (H1&Hf1&d&Hd&Hd0&Hd1&Hd2). assert (buff_size h1 = buff_size h) as Hsz1 by (by injection Hf1). pose proof (h1_size _ H1) as [Hl1 _].
  wp_step. apply wp_access. destruct (rd_bytes_ex data 0 n) as [bs Hbs]; [lia|lia|lia|]. exists bs. split; [done|]. apply rd_bytes_len in Hbs as Hlb.
  wp_step. apply wp_wrs; [lia|lia|]. intros b Hwb. assert (h1_ok (set_buff b h1)) as H3 by (eapply h1_wrs; [done| | |exact Hwb]; lia).
  wp_step. apply wp_upd. wp_step. cbn [fst snd]. hh_simpl. split_and!; try done; try lia. exists d. split_and!; try done; lia.
Qed.

(** ** The parser *)

(** What a call leaves: a head for the next call, except after a parse error; and on
    success, the body inside of the buffer. *)
Definition h1_failed (h : http_head) : Prop := h1_ok h /\ -3 <= rc h <= -1 /\ (rc h = -2 \/ h1_inv h).

Lemma take_head_safe data h : h1_inv h -> buff_len h + Zlen data < buff_size h ->
  wp (if head_ok h then ret 0
      else
        i <- head_loop malloc_ok (Z.to_nat (Zlen data)) data 0 (buff_len h) ;;
        if buff_size h <=? i then fail_with (-3)
        else
          ok <- hget head_ok ;;
          if ok : bool then ret i
          else upd (fun h => set_buff_len (buff_len h + i) h) ;; fail_with (-1)) h
    (fun h' i => h1_ok h' /\ place h' = place h /\ 0 <= i <= Zlen data /\ 0 <= expect_data_len h') h1_failed.
Proof.
  intros (Hh&Hb&Hbody&Hx) Hl. pose proof (Zlen_nonneg data). wp_step; [wp_step; split_and!; try done; lia|]. wp_step.
  eapply wp_mono; [apply head_loop_safe; try done; lia| |]; cbv beta.
  2: { intros h' [H1 H2]. split_and!; [done|lia|lia|by left]. }
  intros h1 i (H1&Hp&Hi&Hx1). rewrite Z2Nat.id in Hi by lia. wp_step; [lia|]. wp_step. apply wp_hget. wp_step; [by wp_step|]. wp_step. apply wp_upd. apply wp_fail_with.
  injection Hp as P1 P2 P3 P4 P5. split_and!; [exact H1|done|done|]. right. split_and!; [exact H1|hh_simpl; lia|hh_simpl; lia| |exact Hx1].
  unfold body_ok in *. hh_simpl. rewrite P4, P5. destruct (HttpHead.data h) as [[d|]|]; try done. lia.
Qed.

Lemma chunked_safe h : h1_ok h ->
  wp (transfer_encoding <- http_head_get_fields_value (bytes "Transfer-Encoding") ;;
      match transfer_encoding with Some p => s <- str p ;; ret (strncasecmp_eq s (bytes "chunked") 8) | None => ret false end) h (fun h' _ => h' = h) (fun _ => False).
Proof.
  intros Hh. wp_step. eapply wp_mono; [by apply get_fields_safe| |done]. intros h' [p|] [-> Hp]; [|by wp_step]. wp_step. apply steps_str; [done|done|]. intros s _. by wp_step.
Qed.

Lemma place_inv h h' : h1_ok h' -> place h' = place h -> body_ok h -> 0 <= buff_len h < buff_size h -> 0 <= expect_data_len h' -> h1_inv h'.
Proof. intros Ho [= P1 P2 P3 P4 P5] Hb Hl Hx. split_and!; try done; try lia. unfold body_ok in *. by rewrite P3, P4, P5. Qed.

Lemma take_body_safe (c : bool) data process h : Forall is_byte data -> h1_inv h -> 0 <= process -> buff_len h + process + Zlen data < buff_size h ->
  wp (if c then chunk_loop (S (Z.to_nat (Zlen data))) data (Zlen data) (buff_len h + process) (buff_len h + process) process
      else r <- plain_body data (Zlen data) (buff_len h + process) ;; ret (r.1, process + r.2)) h
    (fun h' r => h1_ok h' /\ frame (set_data_len 0 (set_data None h')) = frame (set_data_len 0 (set_data None h)) /\ process <= r.2 <= process + Zlen data /\ 0 <= r.1 <= buff_len h + r.2 /\
      exists d, HttpHead.data h' = Some (Buf d) /\ 0 <= d /\ 0 <= data_len h' /\ d + data_len h' <= buff_len h + r.2) (fun h' => exists b c, h' = set_rc c (set_buff b h) /\ h1_ok h' /\ -3 <= c <= -1).
Proof.
  intros Hb (Hh&Hl&Hbody&Hx) Hp Hs. pose proof (Zlen_nonneg data). wp_step.
  - eapply wp_mono; [apply chunk_loop_safe; try done; lia| |done]. intros h' r [(G1&G2&G3&G4&G5&G6&G7) G8]. split_and!; try done; try lia. exists (buff_len h + process). split_and!; try done; lia.
  - wp_step. eapply wp_mono; [apply plain_body_safe; try done; lia| |done]. intros h' r (G1&G2&G3&G4&d&G5&G6&G7&G8). wp_step. cbn [fst snd]. split_and!; try done; try lia. exists d. split_and!; try done; lia.
Qed.

Lemma parse_http1_safe data h : Forall is_byte data -> h1_inv h -> buff_len h + Zlen data < buff_size h ->
  wp (http_head_parse_http1_1 malloc_ok data (Zlen data)) h (fun h' n => h1_inv h' /\ 0 <= n <= Zlen data /\ buff_len h' = buff_len h + n) h1_failed.
Proof.
  intros Hb Hi Hl. pose proof Hi as (Hh&Hbl&Hbody&Hx). pose proof (Zlen_nonneg data). unfold http_head_parse_http1_1. wp_step. wp_step. wp_step; [lia|].
  wp_step. eapply wp_mono; [by apply take_head_safe| |done]. intros h1 i (H1&Hp1&Hi1&Hx1). pose proof (place_inv h h1 H1 Hp1 Hbody Hbl Hx1) as Hinv1. injection Hp1 as P1 P2 P3 P4 P5.
  apply wp_bind_assoc. wp_step. eapply wp_mono; [by apply chunked_safe| |done]. intros h' c ->. wp_step.
  assert (Zlen (drop (Z.to_nat i) data) = Zlen data - i) as Hld by (unfold Zlen in *; rewrite length_drop; lia). rewrite <- Hld, <- P3.
  eapply wp_mono; [apply (take_body_safe c _ i h1); [by apply Forall_drop|done|lia|lia]| |].
  2: { intros h' (b&k&->&H'&Hk). split_and!; [done|apply Hk|apply Hk|]. right. destruct Hinv1 as (_&I1&I2&I3). split_and!; [done|apply I1|apply I1|exact I2|exact I3]. }
  intros h3 [e n] (H3&Hf3&Hn&He&d&D1&D2&D3&D4). cbn [fst snd] in *. assert (buff_size h3 = buff_size h1 /\ buff_len h3 = buff_len h1 /\ expect_data_len h3 = expect_data_len h1) as (S1&S2&S3) by (by injection Hf3).
  wp_step. apply (wp_mono _ _ (fun h' _ => steps h3 h') _ (fun _ => False)); [| |done].
  { wp_step; [|wp_step; by apply steps_refl]. apply steps_zero; [done|lia|done]. }
  intros h4 [] [H4 Hf4]. injection Hf4 as F1 F2 F3 F4 F5 F6 F7 F8. wp_step; [lia|]. wp_step. apply wp_upd. wp_step. wp_step.
  assert (h1_inv (set_buff_len (buff_len h4 + n) h4)) as Hend. { split_and!; [exact H4|hh_simpl; lia|hh_simpl; lia| |hh_simpl; lia]. unfold body_ok. hh_simpl. rewrite F6, D1. lia. }
  wp_step; [apply wp_fail_with; split_and!; [exact H4|done|done|]; right; exact Hend|]. wp_step. split_and!; [exact Hend|lia|lia|hh_simpl; lia].
Qed.
End Safe.
