(* ===== verification/Http1Rt.v ===== *)
(** * HTTP/1: the text of a message and reading it (src/http_parse/http1_parse.c) *)

From Stdlib Require Import ZArith Lia String.
From stdpp Require Import base list numbers option.
From S2P Require Import Prelude DnsCache Hpack HpackSpec Http2 HttpHead Http1 Http1Safe.

(** ** Messages *)

Definition pairs := list (list Z * list Z).

(** The first line: of a request with its parameters, or of a response. *)
Inductive start_line :=
  | Request (m : HTTP_METHOD) (u : list Z) (params : pairs) (v : list Z)
  | Response (v : list Z) (c : Z) (msg : list Z).

Record message := mk_message { m_start : start_line; m_fields : pairs; m_body : list Z }.

Definition param_text (first : bool) (f : list Z * list Z) : list Z := [if first then 63 else 38] ++ f.1 ++ [61] ++ f.2.

Fixpoint params_text (first : bool) (l : pairs) : list Z :=
  match l with [] => [] | f :: l => param_text first f ++ params_text false l end.

Definition start_text (s : start_line) : list Z :=
  match s with
  | Request m u ps v => http_method_str m ++ [32] ++ u ++ params_text true ps ++ [32] ++ v
  | Response v c msg => v ++ [32] ++ print_int c ++ [32] ++ msg
  end.

Definition field_text (f : list Z * list Z) : list Z := f.1 ++ [58; 32] ++ f.2.

(** The lines of a head. *)
Definition lines_of (m : message) : list (list Z) := start_text (m_start m) :: map field_text (m_fields m).
Definition lines_text (l : list (list Z)) : list Z := concat (map (fun x => x ++ crlf) l).
Definition head_text (m : message) : list Z := lines_text (lines_of m) ++ crlf.
Definition message_text (m : message) : list Z := head_text m ++ m_body m.

(** ** The message a head stands for *)

Definition field_is (b : list Z) (f : http_head_fields) (s : list Z * list Z) : Prop :=
  str_of b (f_name f) = Some s.1 /\ str_of b (f_value f) = Some s.2.

Definition start_is (h : http_head) (s : start_line) : Prop :=
  match s with
  | Request m u ps v => head_type h = HTTP_HEAD_REQUEST /\ method h = m /\ (url h ≫= str_of (buff h)) = Some u /\
      (version h ≫= str_of (buff h)) = Some v /\ Forall2 (field_is (buff h)) (param_list h) ps
  | Response v c msg => head_type h = HTTP_HEAD_RESPONSE /\ code h = c /\ (version h ≫= str_of (buff h)) = Some v /\ (code_msg h ≫= str_of (buff h)) = Some msg
  end.

Definition body_is (h : http_head) (bs : list Z) : Prop :=
  data_len h = Zlen bs /\ (bs = [] \/ body_of h = Some bs).

Definition head_is (h : http_head) (m : message) : Prop :=
  start_is h (m_start m) /\ Forall2 (field_is (buff h)) (field_list h) (m_fields m) /\ body_is h (m_body m).

(** ** Writing *)

(** [done] has been written to a buffer of [size] bytes. *)
Definition wrote (size : Z) (txt : list Z) (o : out) : Prop := Zlen (o_buf o) = size /\ holds (o_buf o) 0 txt.

Lemma holds_len b p bs : holds b p bs -> 0 <= p /\ p + Zlen bs <= Zlen b.
Proof. intros (?&?&?&_)%rd_bytes_Some. lia. Qed.

Lemma holds_snoc b p x y : holds b p x -> holds b (p + Zlen x) y -> holds b p (x ++ y).
Proof. intros H1 H2. unfold holds in *. rewrite Zlen_app. by apply rd_bytes_split. Qed.

Lemma holds_wr_out b p bs b' q x : wr_bytes b p bs = Some b' -> holds b q x -> q + Zlen x <= p \/ p + Zlen bs <= q -> holds b' q x.
Proof. intros Hw Hh Hd. unfold holds. by rewrite (rd_bytes_wr_out _ _ _ _ _ _ Hw Hd). Qed.

Lemma holds_wr_in b p x y b' : wr_bytes b p (x ++ y) = Some b' -> holds b' p x.
Proof. intros Hw%rd_bytes_wr_same. by apply (holds_app _ _ x y) in Hw as [? _]. Qed.

Lemma out_write_ok size txt s tail o (Q : out -> unit -> Prop) E : wrote size txt o -> Zlen txt + Zlen (s ++ tail) <= size -> (forall o', wrote size (txt ++ s) o' -> Q o' tt) ->
  wp (out_write (Zlen txt) (s ++ tail)) o Q E.
Proof.
  intros [Hsz Hh] Hl HQ. unfold out_write. wp_step. wp_step. wp_step. apply wp_access. pose proof (Zlen_nonneg txt). destruct (wr_bytes_ex (o_buf o) (Zlen txt) (s ++ tail)) as [b Hb]; [lia|lia|].
  exists b. split; [done|]. wp_step. apply HQ. split; cbn [o_buf]; [by rewrite (wr_bytes_len _ _ _ _ Hb)|]. apply holds_snoc; [|by apply holds_wr_in in Hb].
  eapply holds_wr_out; [exact Hb|done|lia].
Qed.

Lemma snprintf_ok size txt s o (Q : out -> Z -> Prop) E : wrote size txt o -> Zlen txt + Zlen s < size -> (forall o', wrote size (txt ++ s) o' -> Q o' (Zlen s)) ->
  wp (snprintf (Zlen txt) (size - Zlen txt) s) o Q E.
Proof.
  intros Hw Hl HQ. pose proof (Zlen_nonneg s). unfold snprintf. wp_step. wp_step; [lia|]. wp_step; [lia|]. rewrite take_ge by (unfold Zlen in *; lia).
  apply (out_write_ok size txt s [0]); [done|rewrite Zlen_app; change (Zlen [0]) with 1; lia|]. intros o' Ho'. wp_step. by apply HQ.
Qed.

Section Print.
Variable h : http_head.
Variable size : Z.

Lemma print_params_ok l ps first txt o (Q : out -> Z * Z -> Prop) E : Forall2 (field_is (buff h)) l ps -> wrote size txt o -> Zlen txt + Zlen (params_text first ps) + 2 <= size ->
  (forall o', wrote size (txt ++ params_text first ps) o' -> Q o' (Zlen (txt ++ params_text first ps), size - Zlen (txt ++ params_text first ps))) ->
  wp (print_params h l first (Zlen txt) (size - Zlen txt)) o Q E.
Proof.
  intros Hl. revert first txt o. induction Hl as [|f s l ps [Hn Hv] Hl IH]; intros first txt o Hw Hs HQ; cbn [print_params params_text] in *; [wp_step; rewrite app_nil_r in HQ; by apply HQ|].
  rewrite Zlen_app in Hs. pose proof (Zlen_nonneg (params_text false ps)). pose proof (Zlen_nonneg (param_text first s)).
  wp_step. apply wp_access. eexists. split; [exact Hn|]. wp_step. apply wp_access. eexists. split; [exact Hv|]. wp_step. apply (snprintf_ok size txt (param_text first s)); [done|lia|].
  intros o' Ho'. wp_step; [lia|]. replace (Zlen txt + Zlen (param_text first s)) with (Zlen (txt ++ param_text first s)) by (rewrite Zlen_app; lia).
  replace (size - Zlen txt - Zlen (param_text first s)) with (size - Zlen (txt ++ param_text first s)) by (rewrite Zlen_app; lia).
  apply IH; [done|rewrite Zlen_app; lia|]. intros o1 Ho1. rewrite <- app_assoc in *. by apply HQ.
Qed.

Lemma print_fields_ok l fs txt o (Q : out -> Z * Z -> Prop) E : Forall2 (field_is (buff h)) l fs -> wrote size txt o -> Zlen txt + Zlen (lines_text (map field_text fs)) + 2 <= size ->
  (forall o', wrote size (txt ++ lines_text (map field_text fs)) o' -> Q o' (Zlen (txt ++ lines_text (map field_text fs)), size - Zlen (txt ++ lines_text (map field_text fs)))) ->
  wp (print_fields h l (Zlen txt) (size - Zlen txt)) o Q E.
Proof.
  intros Hl. revert txt o. induction Hl as [|f s l fs [Hn Hv] Hl IH]; intros txt o Hw Hs HQ; [cbn; rewrite app_nil_r in HQ; by apply HQ|]. cbn [print_fields].
  unfold lines_text in *. cbn [map concat] in *. fold (lines_text (map field_text fs)) in *. rewrite Zlen_app in Hs. set (t := field_text s ++ crlf) in *. pose proof (Zlen_nonneg (lines_text (map field_text fs))). pose proof (Zlen_nonneg t).
  wp_step. apply wp_access. eexists. split; [exact Hn|]. wp_step. apply wp_access. eexists. split; [exact Hv|]. wp_step.
  replace (s.1 ++ [58; 32] ++ s.2 ++ crlf) with t by (subst t; unfold field_text; by rewrite <- !app_assoc). apply (snprintf_ok size txt t); [done|lia|].
  intros o' Ho'. wp_step; [lia|]. replace (Zlen txt + Zlen t) with (Zlen (txt ++ t)) by (rewrite Zlen_app; lia).
  replace (size - Zlen txt - Zlen t) with (size - Zlen (txt ++ t)) by (rewrite Zlen_app; lia).
  apply IH; [done|rewrite Zlen_app; lia|]. intros o1 Ho1. rewrite <- app_assoc in *. by apply HQ.
Qed.

Definition start_printable (s : start_line) : Prop :=
  match s with Request m _ _ _ => m <> HTTP_METHOD_INVALID | Response _ c _ => 0 <= c end.

Lemma wrote_nil o : Zlen (o_buf o) = size -> wrote size [] o.
Proof. intros Ho. split; [done|]. apply rd_bytes_Some. pose proof (Zlen_nonneg (o_buf o)). change (Zlen (@nil Z)) with 0. split_and!; [lia|lia|lia|]. done. Qed.

Lemma print_request_ok m u ps v o (Q : out -> Z * Z -> Prop) E : start_is h (Request m u ps v) -> m <> HTTP_METHOD_INVALID -> Zlen (o_buf o) = size ->
  let t := start_text (Request m u ps v) ++ crlf in Zlen t + 2 <= size -> (forall o', wrote size t o' -> Q o' (Zlen t, size - Zlen t)) -> wp (print_request h size) o Q E.
Proof.
  intros (_&Hm&Hu&Hv&Hp) Hne Ho t Hs HQ. unfold print_request. rewrite Hm, bool_decide_eq_false_2 by done. destruct (url h) as [pu|]; [|done]. destruct (version h) as [pv|]; [|done]. cbn in Hu, Hv.
  set (t1 := http_method_str m ++ [32] ++ u). set (t2 := params_text true ps). set (t3 := [32] ++ v ++ crlf).
  assert (t = (t1 ++ t2) ++ t3) as Ht by (subst t t1 t2 t3; cbn [start_text]; by rewrite <- !app_assoc). assert (Zlen t3 = 1 + Zlen v + 2) as Hl3 by (subst t3; rewrite !Zlen_app; change (Zlen crlf) with 2; change (Zlen [32]) with 1; lia).
  rewrite Ht, !Zlen_app in Hs. pose proof (Zlen_nonneg t1). pose proof (Zlen_nonneg t2). pose proof (Zlen_nonneg v).
  wp_step. apply wp_access. eexists. split; [exact Hu|]. wp_step. pose proof (snprintf_ok size [] t1 o) as Hpr. change (Zlen (@nil Z)) with 0 in Hpr. rewrite Z.sub_0_r in Hpr. apply Hpr; [by apply wrote_nil|lia|]. clear Hpr.
  intros o1 Ho1. cbn [app] in Ho1. wp_step; [lia|]. wp_step. apply (print_params_ok _ ps); [done|done|fold t2; lia|]. intros o3 Ho3. fold t2 in Ho3 |- *. rewrite Zlen_app. wp_step; [lia|].
  wp_step. apply wp_access. eexists. split; [exact Hv|]. wp_step. rewrite <- Zlen_app. apply (snprintf_ok size (t1 ++ t2) t3); [done|rewrite Zlen_app; lia|]. intros o4 Ho4. wp_step. rewrite <- Ht in Ho4.
  replace (Zlen (t1 ++ t2) + Zlen t3) with (Zlen t) by (rewrite Ht, !Zlen_app; lia). replace (size - Zlen (t1 ++ t2) - Zlen t3) with (size - Zlen t) by (rewrite Ht, !Zlen_app; lia). by apply HQ.
Qed.

Lemma print_response_ok v c msg o (Q : out -> Z * Z -> Prop) E : start_is h (Response v c msg) -> 0 <= c -> Zlen (o_buf o) = size ->
  let t := start_text (Response v c msg) ++ crlf in Zlen t + 2 <= size -> (forall o', wrote size t o' -> Q o' (Zlen t, size - Zlen t)) -> wp (print_response h size) o Q E.
Proof.
  intros (_&Hc&Hv&Hm) Hne Ho t Hs HQ. unfold print_response. rewrite Hc. destruct (Z.ltb_spec c 0); [lia|]. destruct (code_msg h) as [pm|]; [|done]. destruct (version h) as [pv|]; [|done]. cbn in Hm, Hv.
  wp_step. apply wp_access. eexists. split; [exact Hv|]. wp_step. apply wp_access. eexists. split; [exact Hm|]. wp_step.
  replace (v ++ [32] ++ print_int c ++ [32] ++ msg ++ crlf) with t by (subst t; cbn [start_text]; by rewrite <- !app_assoc).
  pose proof (snprintf_ok size [] t o) as Hpr. change (Zlen (@nil Z)) with 0 in Hpr. rewrite Z.sub_0_r in Hpr. apply Hpr; [by apply wrote_nil|lia|]. intros o1 Ho1. wp_step; [lia|]. wp_step. by apply HQ.
Qed.

Lemma print_first_line_ok m o : start_is h m -> start_printable m -> Zlen (o_buf o) = size -> Zlen (start_text m ++ crlf) + 2 <= size ->
  wp (if bool_decide (head_type h = HTTP_HEAD_REQUEST) then print_request h size else print_response h size) o
    (fun o' r => r = (Zlen (start_text m ++ crlf), size - Zlen (start_text m ++ crlf)) /\ wrote size (start_text m ++ crlf) o') (fun _ => False).
Proof.
  intros Hst Hpr Ho Hs. destruct m as [m u ps v|v c msg]; pose proof Hst as [-> _].
  - rewrite bool_decide_eq_true_2 by done. by apply (print_request_ok m u ps v).
  - rewrite bool_decide_eq_false_2 by done. by apply (print_response_ok v c msg).
Qed.

Lemma print_body_ok txt bs o : body_is h bs -> wrote size txt o -> Zlen txt + Zlen bs <= size ->
  wp (if size - Zlen txt <? data_len h then out_fail (-3)
      else if bool_decide (is_Some (data h)) && (0 <? data_len h) then bs <- access (body_of h) ;; out_write (Zlen txt) bs ;; ret (Zlen txt + data_len h)
      else ret (Zlen txt)) o (fun o' n => n = Zlen (txt ++ bs) /\ wrote size (txt ++ bs) o') (fun _ => False).
Proof.
  intros [Hl Hb] Hw Hs. rewrite Hl, Zlen_app. wp_step; [lia|]. destruct (bool_decide (is_Some (data h)) && (0 <? Zlen bs)) eqn:Hd.
  - destruct Hb as [->|Hb]; [by rewrite andb_false_r in Hd|]. wp_step. apply wp_access. exists bs. split; [done|]. wp_step.
    pose proof (out_write_ok size txt bs [] o) as Hx. rewrite app_nil_r in Hx. apply Hx; [done|lia|]. intros o' Ho'. wp_step. by split.
  - assert (bs = []) as ->.
    { destruct Hb as [|Hb]; [done|]. apply andb_false_iff in Hd as [Hd|Hd]; [|bools; apply Zlen_0_nil; pose proof (Zlen_nonneg bs); lia].
      apply bool_decide_eq_false in Hd. unfold body_of in Hb. destruct (data h); [by destruct Hd|done]. }
    wp_step. rewrite app_nil_r. split; [change (Zlen (@nil Z)) with 0; lia|done].
Qed.

Lemma serialize_ok m o : head_is h m -> start_printable (m_start m) -> Zlen (o_buf o) = size -> Zlen (message_text m) <= size ->
  wp (http_head_serialize_http1_1 h size) o (fun o' n => n = Zlen (message_text m) /\ wrote size (message_text m) o') (fun _ => False).
Proof.
  intros (Hst&Hf&Hb) Hpr Ho Hs. set (t1 := start_text (m_start m) ++ crlf). set (t2 := lines_text (map field_text (m_fields m))).
  assert (head_text m = (t1 ++ t2) ++ crlf) as Hht by done. unfold message_text in *. rewrite Zlen_app, Hht, !Zlen_app in Hs. change (Zlen crlf) with 2 in Hs.
  pose proof (Zlen_nonneg (m_body m)). pose proof (Zlen_nonneg t1). pose proof (Zlen_nonneg t2). unfold http_head_serialize_http1_1.
  assert (forall A (x y : A), match head_type h with HTTP_HEAD_INVALID => x | _ => y end = y) as -> by (intros; destruct (m_start m); by destruct Hst as [-> _]).
  wp_step. eapply wp_mono; [apply (print_first_line_ok (m_start m)); [done|done|done|fold t1; lia]| |done]. fold t1. intros o1 r [-> Ho1]. cbn [fst snd].
  wp_step. apply (print_fields_ok _ (m_fields m)); [done|done|fold t2; lia|]. fold t2. intros o3 Ho3. rewrite Zlen_app. wp_step; [lia|]. wp_step. rewrite <- Zlen_app.
  apply (out_write_ok size (t1 ++ t2) crlf []); [done|rewrite !Zlen_app; change (Zlen crlf) with 2; change (Zlen (@nil Z)) with 0; lia|]. rewrite <- Hht. intros o4 Ho4.
  assert (Zlen (t1 ++ t2) + 2 = Zlen (head_text m)) as Hlh by (rewrite Hht, !Zlen_app; change (Zlen crlf) with 2; lia). rewrite Hlh.
  replace (size - Zlen (t1 ++ t2) - 2) with (size - Zlen (head_text m)) by lia. apply print_body_ok; [done|done|]. rewrite <- Hlh, Zlen_app. lia.
Qed.
End Print.

(** ** Finding the end of the head *)

(** A byte of a line. *)
Definition line_char (c : Z) : Prop := 32 <= c <= 126.

(** No line before the end is empty; [p2] and [p1] are the bytes before. *)
Fixpoint scan (p2 p1 : Z) (l : list Z) : bool :=
  match l with
  | [] => true
  | c :: l => (isprint c || isspace c) && negb ((c =? 10) && (p2 =? 10)) && scan p1 c l
  end.

Lemma line_char_print c : line_char c -> isprint c = true /\ (c =? 10) = false /\ (c =? 13) = false.
Proof. intros Hc. unfold line_char in Hc. unfold isprint. split_and!; [apply andb_true_iff; split; apply Z.leb_le; lia|apply Z.eqb_neq; lia|apply Z.eqb_neq; lia]. Qed.

Lemma scan_line p2 p1 x r : x <> [] -> Forall line_char x -> scan 13 10 r = true -> scan p2 p1 (x ++ crlf ++ r) = true.
Proof.
  intros Hne Hx Hr. revert p2 p1 Hne. induction Hx as [|c x Hc Hx IH]; intros p2 p1 Hne; [done|]. destruct (line_char_print c Hc) as (H1&H2&H3). cbn [app scan]. rewrite H1, H2. cbn [orb andb negb].
  destruct x as [|c' x]; [|by apply IH]. cbn. rewrite H2. cbn. rewrite ?andb_true_r. exact Hr.
Qed.

Lemma scan_lines p2 p1 l r : Forall (fun x => x <> [] /\ Forall line_char x) l -> l <> [] -> scan 13 10 r = true -> scan p2 p1 (lines_text l ++ r) = true.
Proof.
  intros Hl Hne Hr. revert p2 p1 Hne. induction Hl as [|x l [Hx Hc] Hl IH]; intros p2 p1 Hne; [done|]. unfold lines_text. cbn [map concat]. fold (lines_text l). rewrite <- !app_assoc. apply scan_line; [done|done|].
  destruct l; [exact Hr|by apply IH].
Qed.

(** The buffer after [k] bytes have been copied to it. *)
Definition copied (k : Z) (data b0 : list Z) : list Z := take (Z.to_nat k) data ++ drop (Z.to_nat k) b0.

Lemma copied_step k data b0 c : 0 <= k < Zlen b0 -> rd8 data k = Some c -> wr_bytes (copied k data b0) k [c] = Some (copied (k + 1) data b0).
Proof.
  intros Hk Hc. pose proof (rd8_in _ _ _ Hc) as Hr. unfold rd8 in Hc. rewrite (proj2 (Z.leb_le 0 k)) in Hc by lia. unfold Zlen in *.
  apply wr_bytes_Some. unfold copied, Zlen. rewrite length_app, length_take, length_drop. split_and!; [lia|cbn [length]; lia|].
  replace (Z.to_nat (k + 1)) with (S (Z.to_nat k)) by lia. rewrite (take_S_r data (Z.to_nat k) c Hc), take_app_length' by (rewrite length_take; lia). rewrite <- app_assoc. f_equal. cbn [app]. f_equal. cbn [length].
  rewrite drop_app_ge by (rewrite length_take; lia). rewrite drop_drop. f_equal. rewrite length_take. lia.
Qed.

Lemma copied_rd k data b0 j : 0 <= j < k -> k <= Zlen data -> rd8 (copied k data b0) j = rd8 data j.
Proof.
  intros Hj Hk. unfold rd8. rewrite (proj2 (Z.leb_le 0 j)) by lia. unfold copied, Zlen in *. rewrite lookup_app_l by (rewrite length_take; lia). apply lookup_take_lt. lia.
Qed.

Section Read.
Variable malloc_ok : bool.

(** Bytes before the end of the head are copied. *)
Lemma head_copy l r p2 p1 data b0 i h m Q E : Zlen (buff h) = buff_size h -> Zlen b0 = buff_size h -> buff_len h = 0 -> buff h = copied i data b0 -> 0 <= i -> i + Zlen l <= buff_size h ->
  holds data i (l ++ r) -> (2 <= i -> rd8 data (i - 2) = Some p2) -> (1 <= i -> rd8 data (i - 1) = Some p1) -> scan p2 p1 l = true ->
  wp (head_loop malloc_ok m data (i + Zlen l) 0) (set_buff (copied (i + Zlen l) data b0) h) Q E ->
  wp (head_loop malloc_ok (length l + m) data i 0) h Q E.
Proof.
  revert p2 p1 i h. induction l as [|c l IH]; intros p2 p1 i h Hsz Hb0 Hbl Hb Hi Hl Hd H2 H1 Hs Hk.
  { change (Zlen (@nil Z)) with 0 in Hk. rewrite Z.add_0_r, <- Hb in Hk. by destruct h. }
  rewrite Zlen_cons in *. pose proof (Zlen_nonneg l). assert (i + 1 + Zlen l <= Zlen data) as Hdl by (apply holds_len in Hd; rewrite Zlen_app, Zlen_cons in Hd; pose proof (Zlen_nonneg r); lia). cbn [app] in Hd. apply holds_cons in Hd as [Hc Hd]. cbn [scan] in Hs. apply andb_true_iff in Hs as [Hs Hs2]. apply andb_true_iff in Hs as [Hp He].
  cbn [length app]. change (S (length l) + m)%nat with (S (length l + m)). cbn [head_loop]. wp_step. apply wp_access. exists c. split; [done|]. wp_step. rewrite Z.add_0_l.
  apply wp_wr; [lia|]. intros b Hwb. rewrite Hb, (copied_step i data b0 c) in Hwb by (done || lia). injection Hwb as <-.
  replace (negb (isprint c) && negb (isspace c)) with false by (symmetry; rewrite <- negb_orb, Hp; done).
  assert (wp (head_loop malloc_ok (length l + m) data (i + 1) 0) (set_buff (copied (i + 1) data b0) h) Q E) as Hgo.
  { apply (IH p1 c); hh_simpl; try done; try lia.
    - unfold copied, Zlen in *. rewrite length_app, length_take, length_drop. lia.
    - by replace (i + 1 - 2) with (i - 1) by lia; intros; apply H1; lia.
    - by replace (i + 1 - 1) with i by lia.
    - replace (i + 1 + Zlen l) with (i + (1 + Zlen l)) by lia. exact Hk. }
  wp_step; [|exact Hgo]. wp_step. wp_step. wp_step; [exact Hgo|]. hh_simpl. rewrite Hbl in *.
  assert (rd8 (copied (i + 1) data b0) (i - 2) = Some p2) as Hp2 by (rewrite copied_rd by lia; apply H2; lia).
  wp_step. eapply wp_rd; [hh_simpl; exact Hp2|]. wp_step; [|exact Hgo]. subst. by destruct He.
Qed.

(** ** A line *)

(** Names end at a colon or a space; values do not start with a space. *)
Definition key_char (c : Z) : Prop := line_char c /\ c <> 32 /\ c <> 58.
Definition key_ok (k : list Z) : Prop := k <> [] /\ Forall key_char k.
Definition value_ok (v : list Z) : Prop := (exists c v', v = c :: v' /\ c <> 32) /\ Forall line_char v.

(** The rest of a name. *)
Lemma parse_key_rest k i key first h m Q E : holds (buff h) i k -> Forall key_char k ->
  wp (parse_loop malloc_ok m (i + Zlen k) (mk_parse (Some key) None true false first)) h Q E ->
  wp (parse_loop malloc_ok (length k + m) i (mk_parse (Some key) None true false first)) h Q E.
Proof.
  intros Hh Hk. revert i Hh. induction Hk as [|c k (Hc&Hs&Hcol) Hk IH]; intros i Hh Hgo; [change (Zlen (@nil Z)) with 0 in Hgo; by rewrite Z.add_0_r in Hgo|].
  apply holds_cons in Hh as [Hrc Hh]. cbn [length]. change (S (length k) + m)%nat with (S (length k + m)). cbn [parse_loop]. wp_step. unfold parse_byte. wp_step. eapply wp_rd; [exact Hrc|].
  cbn [ps_inkey ps_key]. rewrite bool_decide_eq_true_2 by by eexists. cbn [negb andb]. rewrite (proj2 (Z.eqb_neq c 58)), (proj2 (Z.eqb_neq c 32)) by done. cbn [orb]. unfold parse_value, parse_line. cbn [ps_invalue ps_key ps_value]. wp_step.
  apply IH; [done|]. rewrite Zlen_cons in Hgo. by replace (i + 1 + Zlen k) with (i + (1 + Zlen k)) by lia.
Qed.

Lemma parse_key k i first h m Q E : holds (buff h) i k -> key_ok k ->
  wp (parse_loop malloc_ok m (i + Zlen k) (mk_parse (Some i) None true false first)) h Q E ->
  wp (parse_loop malloc_ok (length k + m) i (mk_parse None None true false first)) h Q E.
Proof.
  intros Hh [Hne Hk] Hgo. destruct Hk as [|c k (Hc&Hs&Hcol) Hk]; [done|]. apply holds_cons in Hh as [Hrc Hh]. cbn [length]. change (S (length k) + m)%nat with (S (length k + m)). cbn [parse_loop]. wp_step.
  unfold parse_byte. wp_step. eapply wp_rd; [exact Hrc|]. cbn [ps_inkey ps_key]. destruct (line_char_print c Hc) as (_&H10&H13). rewrite bool_decide_eq_false_2 by by intros [].
  rewrite (proj2 (Z.eqb_neq c 32)), H10, H13 by done. cbn [negb andb]. wp_step. cbn [ps_value ps_invalue ps_first]. apply parse_key_rest; [done|done|].
  rewrite Zlen_cons in Hgo. by replace (i + 1 + Zlen k) with (i + (1 + Zlen k)) by lia.
Qed.

(** The rest of a value. *)
Lemma parse_value_rest v i key value first h m Q E : holds (buff h) i v -> Forall line_char v ->
  wp (parse_loop malloc_ok m (i + Zlen v) (mk_parse (Some key) (Some value) false true first)) h Q E ->
  wp (parse_loop malloc_ok (length v + m) i (mk_parse (Some key) (Some value) false true first)) h Q E.
Proof.
  intros Hh Hv. revert i Hh. induction Hv as [|c v Hc Hv IH]; intros i Hh Hgo; [change (Zlen (@nil Z)) with 0 in Hgo; by rewrite Z.add_0_r in Hgo|].
  apply holds_cons in Hh as [Hrc Hh]. destruct (line_char_print c Hc) as (_&H10&H13). cbn [length]. change (S (length v) + m)%nat with (S (length v + m)). cbn [parse_loop]. wp_step.
  unfold parse_byte. wp_step. eapply wp_rd; [exact Hrc|]. cbn [ps_inkey]. unfold parse_value, parse_line. cbn [ps_invalue ps_value ps_key]. rewrite bool_decide_eq_true_2 by by eexists. rewrite H10, H13. cbn [negb andb orb]. wp_step.
  apply IH; [done|]. rewrite Zlen_cons in Hgo. by replace (i + 1 + Zlen v) with (i + (1 + Zlen v)) by lia.
Qed.

Lemma parse_value_all v i key first h m Q E : holds (buff h) i v -> value_ok v ->
  wp (parse_loop malloc_ok m (i + Zlen v) (mk_parse (Some key) (Some i) false true first)) h Q E ->
  wp (parse_loop malloc_ok (length v + m) i (mk_parse (Some key) None false true first)) h Q E.
Proof.
  intros Hh [(c&v'&->&Hc) Hv] Hgo. apply list.Forall_cons in Hv as [Hc1 Hv]. apply holds_cons in Hh as [Hrc Hh]. cbn [length]. change (S (length v') + m)%nat with (S (length v' + m)). cbn [parse_loop]. wp_step.
  unfold parse_byte. wp_step. eapply wp_rd; [exact Hrc|]. cbn [ps_inkey]. unfold parse_value. cbn [ps_invalue ps_value]. rewrite bool_decide_eq_false_2 by by intros []. rewrite (proj2 (Z.eqb_neq c 32)) by done. cbn [negb andb]. wp_step.
  cbn [ps_key ps_inkey ps_first]. apply parse_value_rest; [done|done|]. rewrite Zlen_cons in Hgo. by replace (i + 1 + Zlen v') with (i + (1 + Zlen v')) by lia.
Qed.

(** The byte behind a name, and the space behind a colon. *)
Lemma parse_sep c i key first h m Q E : rd8 (buff h) i = Some c -> c = 58 \/ c = 32 ->
  (forall b, wr_bytes (buff h) i [0] = Some b -> wp (parse_loop malloc_ok m (i + 1) (mk_parse (Some key) None false true first)) (set_buff b h) Q E) ->
  wp (parse_loop malloc_ok (S m) i (mk_parse (Some key) None true false first)) h Q E.
Proof.
  intros Hc Hcc Hgo. cbn [parse_loop]. wp_step. unfold parse_byte. wp_step. eapply wp_rd; [exact Hc|]. cbn [ps_inkey ps_key]. rewrite bool_decide_eq_true_2 by by eexists. cbn [negb andb].
  replace ((c =? 58) || (c =? 32)) with true by (by destruct Hcc as [->| ->]). cbv iota. wp_step. apply wp_wr; [by apply rd8_in in Hc|]. intros b Hb. wp_step. by apply Hgo.
Qed.

Lemma parse_space i key first h m Q E : rd8 (buff h) i = Some 32 ->
  wp (parse_loop malloc_ok m (i + 1) (mk_parse (Some key) None false true first)) h Q E -> wp (parse_loop malloc_ok (S m) i (mk_parse (Some key) None false true first)) h Q E.
Proof.
  intros Hc Hgo. cbn [parse_loop]. wp_step. unfold parse_byte. wp_step. eapply wp_rd; [exact Hc|]. cbn [ps_inkey]. unfold parse_value, parse_line. cbn [ps_invalue ps_value ps_key].
  rewrite bool_decide_eq_false_2 by by intros []. cbn. done.
Qed.

Lemma parse_newline i first h m Q E : rd8 (buff h) i = Some 10 ->
  wp (parse_loop malloc_ok m (i + 1) (mk_parse None None true false first)) h Q E -> wp (parse_loop malloc_ok (S m) i (mk_parse None None true false first)) h Q E.
Proof.
  intros Hc Hgo. cbn [parse_loop]. wp_step. unfold parse_byte. wp_step. eapply wp_rd; [exact Hc|]. cbn [ps_inkey ps_key]. rewrite bool_decide_eq_false_2 by by intros []. cbn. done.
Qed.

(** The end of the line: it is taken. *)
Lemma parse_return i key value (first : bool) h m Q E : rd8 (buff h) i = Some 13 ->
  (forall b, wr_bytes (buff h) i [0] = Some b ->
    wp (if first then _http_head_parse_request malloc_ok key value else http_head_add_fields malloc_ok (Some (Buf key)) (Some (Buf value))) (set_buff b h)
      (fun h' _ => wp (parse_loop malloc_ok m (i + 1) (mk_parse None None true false false)) h' Q E) (fun _ => False)) ->
  wp (parse_loop malloc_ok (S m) i (mk_parse (Some key) (Some value) false true first)) h Q E.
Proof.
  intros Hc Hgo. cbn [parse_loop]. wp_step. unfold parse_byte. wp_step. eapply wp_rd; [exact Hc|]. cbn [ps_inkey]. unfold parse_value. cbn [ps_invalue ps_value].
  rewrite bool_decide_eq_true_2 by by eexists. cbn [negb andb]. change ((13 =? 13) || (13 =? 10)) with true. cbv iota. wp_step. apply wp_wr; [by apply rd8_in in Hc|]. intros b Hb.
  unfold parse_line. cbn [ps_key ps_value ps_invalue ps_first]. wp_step. apply wp_try. eapply wp_mono; [by apply Hgo| |done]. intros h' [] Hh'. by wp_step.
Qed.
End Read.

(** ** Strings in the buffer *)

(** The buffers have the same bytes outside of [lo, hi). *)
Definition same_out (lo hi : Z) (b b' : list Z) : Prop := Zlen b' = Zlen b /\ forall j, j < lo \/ hi <= j -> rd8 b' j = rd8 b j.

Lemma same_refl lo hi b : same_out lo hi b b.
Proof. by split. Qed.

Lemma same_trans lo hi b b1 b2 : same_out lo hi b b1 -> same_out lo hi b1 b2 -> same_out lo hi b b2.
Proof. intros [H1 H2] [H3 H4]. split; [congruence|]. intros j Hj. by rewrite H4, H2. Qed.

Lemma same_mono lo hi lo' hi' b b' : same_out lo hi b b' -> lo' <= lo -> hi <= hi' -> same_out lo' hi' b b'.
Proof. intros [H1 H2] Hl Hh. split; [done|]. intros j Hj. apply H2. lia. Qed.

Lemma same_wr lo hi b p bs b' : wr_bytes b p bs = Some b' -> lo <= p -> p + Zlen bs <= hi -> same_out lo hi b b'.
Proof. intros Hw Hl Hh. split; [by apply wr_bytes_len in Hw|]. intros j Hj. apply (rd8_wr_out _ _ _ _ _ Hw). lia. Qed.

Lemma same_holds lo hi b b' p x : same_out lo hi b b' -> holds b p x -> p + Zlen x <= lo \/ hi <= p -> holds b' p x.
Proof. intros [Hl Hs] Hh Hp. unfold holds in *. rewrite <- Hh. apply rd_bytes_ext; [done|]. intros j Hj. apply Hs. lia. Qed.

(** [p] is the string [s], with its end before [lim]. *)
Definition text_at (b : list Z) (lim : Z) (p : ptr) (s : list Z) : Prop :=
  exists off, p = Buf off /\ holds b off (s ++ [0]) /\ Forall (fun c => c <> 0) s /\ off + Zlen s < lim.

Lemma text_str b lim p s : text_at b lim p s -> str_of b p = Some s.
Proof. intros (off&->&Hh&Hs&_). cbn. by apply (cstr_at_text b off _ s []) in Hh. Qed.

Lemma text_keep b b' lim lo hi p s : text_at b lim p s -> same_out lo hi b b' -> lim <= lo -> text_at b' lim p s.
Proof. intros (off&->&Hh&Hs&Hl) Hb Hlo. exists off. split_and!; try done. eapply same_holds; [exact Hb|done|]. rewrite Zlen_app. change (Zlen [0]) with 1. lia. Qed.

Lemma text_mono b lim lim' p s : text_at b lim p s -> lim <= lim' -> text_at b lim' p s.
Proof. intros (off&->&Hh&Hs&Hl) Hlo. exists off. split_and!; try done. lia. Qed.

Lemma line_nonzero s : Forall line_char s -> Forall (fun c => c <> 0) s.
Proof. intros Hs. eapply list.Forall_impl; [exact Hs|]. intros c Hc. unfold line_char in Hc. lia. Qed.

Lemma key_line s : Forall key_char s -> Forall line_char s.
Proof. intros Hs. eapply list.Forall_impl; [exact Hs|]. by intros c (?&_). Qed.

(** A string whose last byte has been written over with zero. *)
Lemma text_new b p s b' lim : holds b p s -> wr_bytes b (p + Zlen s) [0] = Some b' -> Forall (fun c => c <> 0) s -> p + Zlen s < lim -> text_at b' lim (Buf p) s.
Proof.
  intros Hh Hw Hs Hl. exists p. split_and!; try done. apply holds_snoc; [|by apply rd_bytes_wr_same in Hw]. eapply holds_wr_out; [exact Hw|done|lia].
Qed.

Definition field_at (b : list Z) (lim : Z) (f : http_head_fields) (s : list Z * list Z) : Prop :=
  text_at b lim (f_name f) s.1 /\ text_at b lim (f_value f) s.2 /\ f_key f = hash_string_case s.1.

Lemma fields_keep b b' lim lo hi l fs : Forall2 (field_at b lim) l fs -> same_out lo hi b b' -> lim <= lo -> Forall2 (field_at b' lim) l fs.
Proof. intros Hl Hb Hlo. eapply list.Forall2_impl; [exact Hl|]. intros f s (H1&H2&H3). split_and!; [by eapply text_keep|by eapply text_keep|done]. Qed.

Lemma fields_mono b lim lim' l fs : Forall2 (field_at b lim) l fs -> lim <= lim' -> Forall2 (field_at b lim') l fs.
Proof. intros Hl Hlo. eapply list.Forall2_impl; [exact Hl|]. intros f s (H1&H2&H3). split_and!; [by eapply text_mono|by eapply text_mono|done]. Qed.

(** ** The fields *)

Definition field_good (f : list Z * list Z) : Prop := key_ok f.1 /\ value_ok f.2.

(** The lines behind the first, up to the last carriage return. *)
Definition fields_tail (fs : pairs) : list Z := concat (map (fun f => [10] ++ field_text f ++ [13]) fs).

Lemma lines_tail x fs : lines_text (x :: map field_text fs) = (x ++ [13] ++ fields_tail fs) ++ [10].
Proof.
  revert x. induction fs as [|f fs IH]; intros x; [by unfold lines_text, fields_tail; cbn; rewrite app_nil_r, <- app_assoc|].
  change (lines_text (x :: map field_text (f :: fs))) with ((x ++ crlf) ++ lines_text (field_text f :: map field_text fs)). rewrite IH. unfold fields_tail, crlf. cbn [map concat]. by rewrite <- !app_assoc.
Qed.

Lemma parse_fields_run fs i h Q E : holds (buff h) i (fields_tail fs) -> Forall field_good fs -> 0 <= i ->
  (forall b l, same_out i (i + Zlen (fields_tail fs)) (buff h) b -> Forall2 (field_at b (i + Zlen (fields_tail fs))) l fs -> Q (set_buff b (set_field_list (field_list h ++ l) h)) tt) ->
  wp (parse_loop true (length (fields_tail fs)) i (mk_parse None None true false false)) h Q E.
Proof.
  intros Hh Hf. revert i h Hh. induction Hf as [|[k v] fs [Hk Hv] Hf IH]; intros i h Hh Hi HQ.
  { cbn. specialize (HQ (buff h) [] (same_refl _ _ _) (Forall2_nil _)). rewrite app_nil_r in HQ. by destruct h. }
  cbn [fst snd] in *. unfold fields_tail in *. cbn [map concat] in *. fold (fields_tail fs) in *. unfold field_text in Hh. cbn [fst snd] in Hh.
  assert (length (([10] ++ field_text (k, v) ++ [13]) ++ fields_tail fs) = S (length k + S (S (length v + S (length (fields_tail fs)))))) as -> by (unfold field_text; rewrite !length_app; cbn [fst snd length]; lia).
  set (e := i + 1 + Zlen k). set (e2 := e + 2 + Zlen v). pose proof (Zlen_nonneg k). pose proof (Zlen_nonneg v). pose proof (Zlen_nonneg (fields_tail fs)).
  assert (i + Zlen (([10] ++ field_text (k, v) ++ [13]) ++ fields_tail fs) = e2 + 1 + Zlen (fields_tail fs)) as Hlen by (subst e e2; unfold field_text; rewrite !Zlen_app; cbn [fst snd]; change (Zlen [10]) with 1; change (Zlen [13]) with 1; change (Zlen [58; 32]) with 2; lia).
  rewrite Hlen in HQ. rewrite <- !app_assoc in Hh. apply holds_cons in Hh as [H10 Hh]. apply holds_app in Hh as [Hhk Hh]. fold e in Hh. apply holds_cons in Hh as [Hcol Hh]. apply holds_cons in Hh as [Hsp Hh].
  replace (e + 1 + 1) with (e + 2) in Hh by lia. apply holds_app in Hh as [Hhv Hh]. fold e2 in Hh. apply holds_cons in Hh as [Hcr Hh].
  apply parse_newline; [done|]. apply parse_key; [done|done|]. fold e. apply (parse_sep true 58); [done|by left|]. intros b1 Hb1.
  assert (same_out e (e + 1) (buff h) b1) as Hs1 by (by eapply same_wr; [exact Hb1|lia|change (Zlen [0]) with 1; lia]).
  assert (text_at b1 (e + 1) (Buf (i + 1)) k) as Htk by (eapply text_new; [exact Hhk|by fold e|by apply line_nonzero, key_line, Hk|subst e; lia]).
  apply parse_space; [hh_simpl; destruct Hs1 as [_ Hs1]; rewrite Hs1 by lia; done|]. replace (e + 1 + 1) with (e + 2) by lia.
  apply parse_value_all; [hh_simpl; eapply same_holds; [exact Hs1|exact Hhv|lia]|done|]. fold e2. apply parse_return; [hh_simpl; destruct Hs1 as [_ Hs1]; rewrite Hs1 by (subst e2; lia); done|]. hh_simpl. intros b3 Hb3.
  assert (same_out e2 (e2 + 1) b1 b3) as Hs3 by (by eapply same_wr; [exact Hb3|lia|change (Zlen [0]) with 1; lia]).
  assert (same_out i (e2 + 1) (buff h) b3) as Hs13 by (eapply same_trans; [eapply same_mono; [exact Hs1| |]|eapply same_mono; [exact Hs3| |]]; subst e e2; lia).
  assert (text_at b3 (e2 + 1) (Buf (i + 1)) k) as Htk3 by (eapply text_mono; [eapply text_keep; [exact Htk|exact Hs3|subst e2; lia]|subst e2; lia]).
  assert (text_at b3 (e2 + 1) (Buf (e + 2)) v) as Htv by (eapply text_new; [eapply same_holds; [exact Hs1|exact Hhv|lia]|by fold e2|by apply line_nonzero, Hv|subst e2; lia]).
  unfold http_head_add_fields, _http_head_add_fields. wp_step. wp_step. wp_step. eapply wp_str; [hh_simpl; by eapply text_str|]. apply wp_upd. hh_simpl.
  apply IH; [hh_simpl; eapply same_holds; [exact Hs13|exact Hh|lia]|subst e2 e; lia|]. hh_simpl. intros b l Hsb Hl. rewrite <- app_assoc. apply HQ.
  - eapply same_trans; [eapply same_mono; [exact Hs13|lia|lia]|eapply same_mono; [exact Hsb|subst e2 e; lia|lia]].
  - cbn [app]. constructor; [|done]. split_and!; cbn [f_name f_value f_key fst snd]; [| |done]; (eapply text_mono; [eapply text_keep; [eassumption|exact Hsb|lia]|lia]).
Qed.
