(* ===== verification/Http1Parse.v ===== *)
(** * HTTP/1: the first line and the whole of a message (src/http_parse/http1_parse.c) *)

From Stdlib Require Import ZArith Lia String.
From stdpp Require Import base list numbers option.
From S2P Require Import Prelude DnsCache Hpack HpackSpec Http2 HttpHead Http1 Http1Safe Http1Rt.

(** ** Numbers *)

Definition digit (c : Z) : Prop := 48 <= c <= 57.

Lemma decimal_digits fuel n : 0 <= n -> Forall digit (decimal fuel n).
Proof.
  revert n. induction fuel as [|fuel IH]; intros n Hn; cbn [decimal]; [constructor|]. destruct (Z.ltb_spec n 10); [constructor; [unfold digit; lia|constructor]|].
  apply Forall_app. split; [apply IH; apply Z.div_pos; lia|]. constructor; [|constructor]. unfold digit. pose proof (Z.mod_pos_bound n 10). lia.
Qed.

Lemma decimal_ne fuel n : decimal (S fuel) n <> [].
Proof. cbn. destruct (n <? 10); [done|]. by destruct (decimal fuel (n / 10)). Qed.

Lemma digits_app s t acc : Forall digit s -> digits (s ++ t) acc = digits t (fold_left (fun a c => a * 10 + (c - 48)) s acc).
Proof.
  intros Hs. revert acc. induction Hs as [|c s Hc Hs IH]; intros acc; [done|]. cbn. unfold digit in Hc. rewrite (proj2 (Z.leb_le 48 c)), (proj2 (Z.leb_le c 57)) by lia. cbn. apply IH.
Qed.

Lemma decimal_value fuel n : 0 <= n < 10 ^ Z.of_nat fuel -> fold_left (fun a c => a * 10 + (c - 48)) (decimal fuel n) 0 = n.
Proof.
  revert n. induction fuel as [|fuel IH]; intros n Hn; [change (10 ^ Z.of_nat 0) with 1 in Hn; cbn; lia|]. cbn [decimal]. destruct (Z.ltb_spec n 10); [cbn; lia|].
  rewrite fold_left_app. cbn [fold_left]. rewrite IH; [pose proof (Z.div_mod n 10); lia|]. split; [apply Z.div_pos; lia|]. apply Z.div_lt_upper_bound; [lia|].
  rewrite Nat2Z.inj_succ, Z.pow_succ_r in Hn by lia. lia.
Qed.

Lemma atoi_digits s n : Forall digit s -> s <> [] -> fold_left (fun a c => a * 10 + (c - 48)) s 0 = n -> 0 <= n <= 2147483647 -> atoi s = n.
Proof.
  intros Hs Hne Hv Hn. destruct s as [|c s]; [done|]. pose proof (digits_app (c :: s) [] 0 Hs) as Hd. rewrite app_nil_r, Hv in Hd.
  apply list.Forall_cons in Hs as [Hc _]. unfold digit in Hc. unfold atoi, strtol. cbn [skip_space].
  assert (is_space c = false) as -> by (unfold is_space; repeat (case_match || cbn); bools; lia). rewrite (proj2 (Z.eqb_neq c 45)), (proj2 (Z.eqb_neq c 43)) by lia.
  rewrite (proj2 (Z.leb_le 48 c)), (proj2 (Z.leb_le c 57)) by lia. cbn [andb]. rewrite Hd. cbn [digits]. rewrite Z.max_r, Z.min_l by lia. by apply s32_small; lia.
Qed.

Lemma print_int_ok c : 0 <= c <= 2147483647 -> Forall digit (print_int c) /\ print_int c <> [] /\ atoi (print_int c) = c /\ is_numeric (print_int c) = true.
Proof.
  intros Hc. unfold print_int. destruct (Z.ltb_spec c 0); [lia|]. pose proof (decimal_digits 20 c ltac:(lia)) as Hd. pose proof (decimal_ne 19 c) as Hne. split_and!; [done|done| |].
  - apply atoi_digits; [done|done| |lia]. apply decimal_value. change (10 ^ Z.of_nat 20) with 100000000000000000000. lia.
  - unfold is_numeric. apply forallb_forall. intros x Hx%list_elem_of_In. rewrite list.Forall_forall in Hd. specialize (Hd x Hx). unfold digit in Hd. apply andb_true_iff. split; apply Z.leb_le; lia.
Qed.

(** ** Parameters *)

Definition word_char (c : Z) : Prop := line_char c /\ c <> 32.
Definition param_good (f : list Z * list Z) : Prop := Forall (fun c => word_char c /\ c <> 61) f.1 /\ Forall (fun c => word_char c /\ c <> 38) f.2.

Lemma word_nonzero (P : Z -> Prop) s : Forall (fun c => word_char c /\ P c) s -> Forall (fun c => c <> 0) s.
Proof. intros Hs. eapply list.Forall_impl; [exact Hs|]. intros c [[Hc _] _]. unfold line_char in Hc. lia. Qed.

(** The parameters behind the question mark, and the zero byte behind the last. *)
Fixpoint params_tail (ps : pairs) : list Z :=
  match ps with
  | [] => []
  | f :: ps => f.1 ++ [61] ++ f.2 ++ match ps with [] => [0] | _ => 38 :: params_tail ps end
  end.

Lemma params_text_tail f ps : params_text true (f :: ps) ++ [0] = 63 :: params_tail (f :: ps).
Proof.
  assert (forall c f ps, ([c] ++ f.1 ++ [61] ++ f.2 ++ params_text false ps) ++ [0] = c :: params_tail (f :: ps)) as Hx.
  { clear. intros c f ps. revert c f. induction ps as [|g ps IH]; intros c f; cbn [params_text params_tail app]; [by rewrite app_nil_r, <- app_assoc|].
    f_equal. rewrite <- app_assoc. f_equal. cbn [app]. f_equal. rewrite <- app_assoc. f_equal. unfold param_text. rewrite <- !app_assoc. specialize (IH 38 g). rewrite <- !app_assoc in IH. exact IH. }
  cbn [params_text]. unfold param_text. rewrite <- !app_assoc. specialize (Hx 63 f ps). rewrite <- !app_assoc in Hx. exact Hx.
Qed.

Lemma params_name n fuel p stop fs h Q E : holds (buff h) p n -> Forall (fun c => word_char c /\ c <> 61) n -> p + Zlen n < stop ->
  wp (params_loop true fuel (p + Zlen n) stop (match n with [] => fs | _ => Some (default p fs) end) None) h Q E -> wp (params_loop true (length n + fuel) p stop fs None) h Q E.
Proof.
  intros Hh Hn. revert p fs Hh. induction Hn as [|c n [_ Hc] Hn IH]; intros p fs Hh Hl Hgo; [change (Zlen (@nil Z)) with 0 in Hgo; by rewrite Z.add_0_r in Hgo|].
  rewrite Zlen_cons in *. pose proof (Zlen_nonneg n). apply holds_cons in Hh as [Hrc Hh]. cbn [length]. change (S (length n) + fuel)%nat with (S (length n + fuel)). cbn [params_loop]. wp_step; [|lia]. wp_step. eapply wp_rd; [exact Hrc|].
  wp_step; [lia|]. apply IH; [done|lia|]. replace (p + 1 + Zlen n) with (p + (1 + Zlen n)) by lia. destruct n; exact Hgo.
Qed.

Lemma params_value v fuel p stop fs f h Q E : holds (buff h) p v -> Forall (fun c => word_char c /\ c <> 38) v -> p + Zlen v < stop ->
  wp (params_loop true fuel (p + Zlen v) stop (match v with [] => fs | _ => Some (default p fs) end) (Some f)) h Q E -> wp (params_loop true (length v + fuel) p stop fs (Some f)) h Q E.
Proof.
  intros Hh Hn. revert p fs Hh. induction Hn as [|c v [_ Hc] Hn IH]; intros p fs Hh Hl Hgo; [change (Zlen (@nil Z)) with 0 in Hgo; by rewrite Z.add_0_r in Hgo|].
  rewrite Zlen_cons in *. pose proof (Zlen_nonneg v). apply holds_cons in Hh as [Hrc Hh]. cbn [length]. change (S (length v) + fuel)%nat with (S (length v + fuel)). cbn [params_loop]. wp_step; [|lia]. wp_step. eapply wp_rd; [exact Hrc|].
  replace ((c =? 38) || (p =? stop - 1)) with false by (symmetry; apply orb_false_iff; split; apply Z.eqb_neq; lia). cbv iota. apply IH; [done|lia|]. replace (p + 1 + Zlen v) with (p + (1 + Zlen v)) by lia. destruct v; exact Hgo.
Qed.

Lemma params_end extra stop h Q E : Q h tt -> wp (params_loop true extra stop stop None None) h Q E.
Proof. intros HQ. destruct extra; cbn [params_loop]; by rewrite Z.ltb_irrefl. Qed.

(** One parameter, up to the byte behind it. *)
Lemma param_run n v c fuel p stop h Q E : holds (buff h) p (n ++ [61] ++ v ++ [c]) -> param_good (n, v) -> p + Zlen n + 1 + Zlen v < stop -> c = 38 \/ p + Zlen n + 1 + Zlen v = stop - 1 ->
  let e := p + Zlen n + 1 + Zlen v in
  (forall b f, same_out p (e + 1) (buff h) b -> field_at b (e + 1) f (n, v) -> wp (params_loop true fuel (e + 1) stop None None) (set_buff b (set_param_list (param_list h ++ [f]) h)) Q E) ->
  wp (params_loop true (length n + S (length v + S fuel)) p stop None None) h Q E.
Proof.
  intros Hh [Hn Hv] Hl Hc e Hgo. cbn [fst snd] in *. set (q := p + Zlen n) in *. pose proof (Zlen_nonneg n). pose proof (Zlen_nonneg v). apply holds_app in Hh as [Hhn Hh]. fold q in Hh. apply holds_cons in Hh as [Heq Hh].
  apply holds_app in Hh as [Hhv Hh]. replace (q + 1 + Zlen v) with e in Hh by (subst e; lia). apply holds_cons in Hh as [Hcc _]. pose proof (rd8_in _ _ _ Hcc) as Hce. pose proof (rd8_in _ _ _ Heq) as Hqe.
  apply params_name; [done|done|lia|]. fold q. cbn [params_loop]. wp_step; [|lia]. wp_step. eapply wp_rd; [exact Heq|]. wp_step; [|lia]. wp_step. apply wp_wr; [lia|]. intros b1 Hb1.
  assert (same_out q (q + 1) (buff h) b1) as Hs1 by (by eapply same_wr; [exact Hb1|lia|change (Zlen [0]) with 1; lia]).
  assert (default q (match n with [] => None | _ => Some (default p None) end) = p) as -> by (destruct n; cbn; [subst q; change (Zlen (@nil Z)) with 0; lia|done]).
  assert (text_at b1 (q + 1) (Buf p) n) as Htn by (eapply text_new; [exact Hhn|by fold q|by apply (word_nonzero _ _ Hn)|subst q; lia]).
  apply params_value; [hh_simpl; eapply same_holds; [exact Hs1|exact Hhv|lia]|done|lia|]. replace (q + 1 + Zlen v) with e by (subst e; lia). cbn [params_loop]. wp_step; [|subst e; lia]. hh_simpl.
  wp_step. eapply wp_rd; [hh_simpl; destruct Hs1 as [_ Hs1]; rewrite Hs1 by (subst e; lia); exact Hcc|].
  replace ((c =? 38) || (e =? stop - 1)) with true by (symmetry; apply orb_true_iff; destruct Hc as [Hc|Hc]; [left|right]; apply Z.eqb_eq; subst e; lia). cbv iota.
  wp_step. apply wp_wr; [hh_simpl; destruct Hs1 as [-> _]; lia|]. hh_simpl. intros b3 Hb3.
  assert (same_out e (e + 1) b1 b3) as Hs3 by (by eapply same_wr; [exact Hb3|lia|change (Zlen [0]) with 1; lia]).
  assert (default e (match v with [] => None | _ => Some (default (q + 1) None) end) = q + 1) as -> by (destruct v; cbn; [subst e; change (Zlen (@nil Z)) with 0; lia|done]).
  assert (text_at b3 (e + 1) (Buf p) n) as Htn3 by (eapply text_mono; [eapply text_keep; [exact Htn|exact Hs3|subst e; lia]|subst e; lia]).
  assert (text_at b3 (e + 1) (Buf (q + 1)) v) as Htv. { eapply text_new; [eapply same_holds; [exact Hs1|exact Hhv|lia]| |by apply (word_nonzero _ _ Hv)|subst e; lia]. by replace (q + 1 + Zlen v) with e by (subst e; lia). }
  wp_step. apply wp_try. unfold _http_head_add_param. wp_step. wp_step. wp_step. eapply wp_str; [hh_simpl; by eapply text_str|]. apply wp_upd. hh_simpl. apply Hgo; [|by split_and!].
  eapply same_trans; [eapply same_mono; [exact Hs1| |]|eapply same_mono; [exact Hs3| |]]; subst e q; lia.
Qed.

Lemma params_run f ps extra p h Q E : holds (buff h) p (params_tail (f :: ps)) -> Forall param_good (f :: ps) -> 0 <= p ->
  let stop := p + Zlen (params_tail (f :: ps)) in
  (forall b l, same_out p stop (buff h) b -> Forall2 (field_at b stop) l (f :: ps) -> Q (set_buff b (set_param_list (param_list h ++ l) h)) tt) ->
  wp (params_loop true (length (params_tail (f :: ps)) + extra) p stop None None) h Q E.
Proof.
  revert f p h. induction ps as [|g ps IH]; intros [n v] p h Hh Hf Hp stop HQ; apply list.Forall_cons in Hf as [Hg Hf]; cbn [params_tail fst snd] in Hh.
  - assert (length (params_tail [(n, v)]) + extra = length n + S (length v + S extra))%nat as -> by (cbn [params_tail fst snd]; rewrite !length_app; cbn [length]; lia).
    assert (stop = p + Zlen n + 1 + Zlen v + 1) as Hst by (subst stop; cbn [params_tail fst snd]; rewrite !Zlen_app; change (Zlen [61]) with 1; change (Zlen [0]) with 1; lia).
    eapply param_run; [exact Hh|done|lia|lia|]. rewrite <- Hst. intros b x Hsb Hx. apply params_end. by apply HQ; [|constructor].
  - set (t := params_tail (g :: ps)) in *. assert (length (params_tail ((n, v) :: g :: ps)) + extra = length n + S (length v + S (length t + extra)))%nat as ->.
    { change (params_tail ((n, v) :: g :: ps)) with (n ++ [61] ++ v ++ 38 :: t). rewrite !length_app. cbn [length]. lia. }
    set (e := p + Zlen n + 1 + Zlen v). assert (stop = e + 1 + Zlen t) as Hst.
    { subst stop e. change (params_tail ((n, v) :: g :: ps)) with (n ++ [61] ++ v ++ 38 :: t). rewrite !Zlen_app, (Zlen_cons 38). change (Zlen [61]) with 1. lia. }
    pose proof (Zlen_nonneg n). pose proof (Zlen_nonneg v). pose proof (Zlen_nonneg t). assert (holds (buff h) p ((n ++ [61] ++ v ++ [38]) ++ t)) as Hh1 by (rewrite <- !app_assoc; exact Hh). clear Hh. apply holds_app in Hh1 as [Hh Ht].
    assert (p + Zlen (n ++ [61] ++ v ++ [38]) = e + 1) as He by (subst e; rewrite !Zlen_app; change (Zlen [61]) with 1; change (Zlen [38]) with 1; lia). rewrite He in Ht.
    eapply param_run; [exact Hh|done|fold e; lia|by left|]. fold e. intros b x Hsb Hx. rewrite Hst. apply IH; [hh_simpl; eapply same_holds; [exact Hsb|exact Ht|lia]|done|subst e; lia|].
    hh_simpl. fold t. intros b1 l Hsb1 Hl. rewrite <- Hst in *. rewrite <- app_assoc. apply (HQ b1 ([x] ++ l)).
    + eapply same_trans; [eapply same_mono; [exact Hsb|lia|lia]|eapply same_mono; [exact Hsb1|subst e; lia|lia]].
    + cbn [app]. constructor; [|done]. destruct Hx as (X1&X2&X3). split_and!; [| |done]; (eapply text_mono; [eapply text_keep; [eassumption|exact Hsb1|lia]|lia]).
Qed.

Lemma index_of_none c s : Forall (fun x => x <> c) s -> index_of c s = None.
Proof. induction 1 as [|x s Hx Hs IH]; [done|]. cbn. rewrite (proj2 (Z.eqb_neq x c)) by done. by rewrite IH. Qed.

Lemma index_of_here c s t : Forall (fun x => x <> c) s -> index_of c (s ++ c :: t) = Some (Zlen s).
Proof. induction 1 as [|x s Hx Hs IH]; cbn; [by rewrite Z.eqb_refl|]. rewrite (proj2 (Z.eqb_neq x c)) by done. rewrite IH. cbn. rewrite Zlen_cons. f_equal. lia. Qed.

(** The path of a url, without its parameters. *)
Definition path_good (u : list Z) : Prop := u <> [] /\ Forall (fun c => word_char c /\ c <> 63) u.

Lemma params_text_word ps : Forall param_good ps -> forall first, Forall word_char (params_text first ps).
Proof.
  induction 1 as [|f ps [Hn Hv] Hps IH]; intros first; cbn [params_text]; [constructor|]. unfold param_text. repeat (apply Forall_app; split); [|eapply list.Forall_impl; [exact Hn|by intros c []]| |eapply list.Forall_impl; [exact Hv|by intros c []]|apply IH].
  - repeat constructor; unfold line_char; destruct first; lia.
  - repeat constructor; unfold line_char; lia.
Qed.

Lemma url_word u ps first : path_good u -> Forall param_good ps -> Forall word_char (u ++ params_text first ps).
Proof. intros [_ Hu] Hps. apply Forall_app. split; [eapply list.Forall_impl; [exact Hu|by intros c []]|by apply params_text_word]. Qed.

Lemma parse_params_ok u ps p h Q E : holds (buff h) p ((u ++ params_text true ps) ++ [0]) -> path_good u -> Forall param_good ps ->
  let e := p + Zlen (u ++ params_text true ps) + 1 in
  (forall b l, same_out p e (buff h) b -> text_at b e (Buf p) u -> Forall2 (field_at b e) l ps -> Q (set_buff b (set_param_list (param_list h ++ l) h)) tt) ->
  wp (_http_head_parse_params true (Some (Buf p)) (Zlen (u ++ params_text true ps) + 1)) h Q E.
Proof.
  intros Hh Hu Hps e HQ. pose proof (holds_len _ _ _ Hh) as Hpl. assert (Forall (fun c => c <> 0) (u ++ params_text true ps)) as Hnz.
  { eapply list.Forall_impl; [by apply url_word|]. intros c [Hc _]. unfold line_char in Hc. lia. }
  assert (Forall (fun x => x <> 63) u) as Hq by (eapply list.Forall_impl; [apply Hu|by intros c []]). pose proof (Zlen_nonneg u).
  unfold _http_head_parse_params. wp_step. eapply wp_str; [cbn; by apply (cstr_at_text _ _ _ _ []) in Hh|]. destruct ps as [|f ps].
  - cbn [params_text] in *. rewrite app_nil_r in *. rewrite index_of_none by done. wp_step. specialize (HQ (buff h) [] (same_refl _ _ _)). rewrite app_nil_r in HQ.
    replace (set_buff (buff h) (set_param_list (param_list h) h)) with h in HQ by (by destruct h). apply HQ; [|constructor]. exists p. split_and!; try done; subst e; cbn [params_text]; rewrite ?app_nil_r; lia.
  - rewrite <- app_assoc, params_text_tail in Hh. assert (params_text true (f :: ps) = 63 :: (f.1 ++ [61] ++ f.2 ++ params_text false ps)) as Hpt by (cbn [params_text]; unfold param_text; by rewrite <- !app_assoc). rewrite Hpt, index_of_here by done.
    set (t := params_tail (f :: ps)) in *. assert (Zlen (params_text true (f :: ps)) = Zlen t) as Hlt by (pose proof (params_text_tail f ps) as Ht; apply (f_equal Zlen) in Ht; rewrite Zlen_app, (Zlen_cons 63) in Ht; change (Zlen [0]) with 1 in Ht; subst t; lia).
    assert (e = p + Zlen u + Zlen t + 1) as He by (subst e; rewrite Zlen_app, Hlt; lia). clearbody e. rewrite <- Hpt, Zlen_app, Hlt in *. apply holds_app in Hh as [Hhu Hh]. apply holds_cons in Hh as [Hqm Hht]. pose proof (Zlen_nonneg t). wp_step. apply wp_wr; [by apply rd8_in in Hqm|]. intros b1 Hb1.
    assert (same_out (p + Zlen u) (p + Zlen u + 1) (buff h) b1) as Hs1 by (by eapply same_wr; [exact Hb1|lia|change (Zlen [0]) with 1; lia]).
    replace (Z.to_nat (Zlen u + Zlen t + 1)) with (length t + S (length u))%nat by (unfold Zlen; lia). replace (p + (Zlen u + Zlen t + 1)) with (p + Zlen u + 1 + Zlen t) by lia.
    apply params_run; [hh_simpl; eapply same_holds; [exact Hs1|exact Hht|lia]|done|lia|]. fold t. hh_simpl. replace (p + Zlen u + 1 + Zlen t) with e by lia. intros b l Hb Hl. apply (HQ b l); [| |done].
    + eapply same_trans; [eapply same_mono; [exact Hs1| |]|eapply same_mono; [exact Hb| |]]; lia.
    + eapply text_mono; [eapply text_keep; [eapply text_new; [exact Hhu|exact Hb1| |]|exact Hb|]|]; [by apply (word_nonzero _ _ (proj2 Hu))|apply Z.lt_succ_diag_r|lia|lia].
Qed.

(** ** The request line *)

Lemma request_word w m p u fs h Q E : holds (buff h) p w -> Forall word_char w ->
  wp (request_loop m (p + Zlen w) u (match w with [] => fs | _ => Some (default p fs) end)) h Q E -> wp (request_loop (length w + m) p u fs) h Q E.
Proof.
  intros Hh Hw. revert p fs Hh. induction Hw as [|c w [Hc Hs] Hw IH]; intros p fs Hh Hgo; [change (Zlen (@nil Z)) with 0 in Hgo; by rewrite Z.add_0_r in Hgo|].
  rewrite Zlen_cons in *. apply holds_cons in Hh as [Hrc Hh]. cbn [length]. change (S (length w) + m)%nat with (S (length w + m)). cbn [request_loop]. wp_step. eapply wp_rd; [exact Hrc|].
  unfold line_char in Hc. rewrite (proj2 (Z.eqb_neq c 0)), (proj2 (Z.eqb_neq c 32)) by lia. apply IH; [done|]. replace (p + 1 + Zlen w) with (p + (1 + Zlen w)) by lia. destruct w; exact Hgo.
Qed.

Lemma request_words w v extra p h Q E : holds (buff h) p (w ++ [32] ++ v ++ [0]) -> w <> [] -> v <> [] -> Forall word_char w -> Forall word_char v ->
  let e := p + Zlen w in (forall b, wr_bytes (buff h) e [0] = Some b -> Q (set_buff b h) (Some p, Some (e + 1), e + 1 + Zlen v)) ->
  wp (request_loop (length w + S (length v + S extra)) p None None) h Q E.
Proof.
  intros Hh Hwne Hvne Hw Hv e HQ. apply holds_app in Hh as [Hhw Hh]. fold e in Hh. apply holds_cons in Hh as [Hsp Hh]. apply holds_app in Hh as [Hhv Hh]. apply holds_cons in Hh as [Hz _].
  apply request_word; [done|done|]. fold e. destruct w as [|c w]; [done|]. cbn [default from_option]. cbn [request_loop]. wp_step. eapply wp_rd; [exact Hsp|]. cbn. wp_step. apply wp_wr; [by apply rd8_in in Hsp|].
  intros b Hb. assert (same_out e (e + 1) (buff h) b) as Hs by (by eapply same_wr; [exact Hb|lia|change (Zlen [0]) with 1; lia]). pose proof (Zlen_nonneg v).
  apply request_word; [hh_simpl; eapply same_holds; [exact Hs|exact Hhv|lia]|done|]. destruct v as [|d v]; [done|]. cbn [request_loop default from_option]. wp_step. eapply wp_rd; [hh_simpl; destruct Hs as [_ ->]; [exact Hz|lia]|].
  cbn. wp_step. by apply HQ.
Qed.

(** ** The first line *)

(** What the first line gives: the strings end before [lim]. *)
Definition start_at (b : list Z) (lim : Z) (h : http_head) (s : start_line) : Prop :=
  match s with
  | Request m u ps v => head_type h = HTTP_HEAD_REQUEST /\ method h = m /\ (exists p, url h = Some p /\ text_at b lim p u) /\
      (exists p, version h = Some p /\ text_at b lim p v) /\ Forall2 (field_at b lim) (param_list h) ps
  | Response v c msg => head_type h = HTTP_HEAD_RESPONSE /\ code h = c /\ (exists p, version h = Some p /\ text_at b lim p v) /\
      (exists p, code_msg h = Some p /\ text_at b lim p msg)
  end.

(** Lines that can be told apart from what surrounds them. *)
Definition start_good (s : start_line) : Prop :=
  match s with
  | Request m u ps v => m <> HTTP_METHOD_INVALID /\ m <> HTTP_METHOD_HEAD /\ path_good u /\ Forall param_good ps /\ v <> [] /\ Forall word_char v
  | Response v c msg => key_ok v /\ contains v (bytes "HTTP/") = true /\ 0 <= c <= 2147483647 /\ Forall line_char msg
  end.

Definition start_key (s : start_line) : list Z := match s with Request m _ _ _ => http_method_str m | Response v _ _ => v end.
Definition start_value (s : start_line) : list Z :=
  match s with Request _ u ps v => (u ++ params_text true ps) ++ [32] ++ v | Response _ c msg => print_int c ++ [32] ++ msg end.

Lemma start_split s : start_text s = start_key s ++ [32] ++ start_value s.
Proof. destruct s; cbn [start_text start_key start_value]; [by rewrite <- !app_assoc|done]. Qed.

Lemma method_str_key m : key_ok (http_method_str m).
Proof. destruct m; (split; [done|]); vm_compute; repeat constructor; try done. Qed.

Lemma method_parse_str m : m <> HTTP_METHOD_INVALID -> m <> HTTP_METHOD_HEAD -> _http_method_parse (http_method_str m) = m.
Proof. by destruct m. Qed.

Lemma method_parse_version v : contains v (bytes "HTTP/") = true -> _http_method_parse v = HTTP_METHOD_INVALID.
Proof. intros Hv. unfold _http_method_parse. repeat (rewrite bool_decide_eq_false_2; [|by intros ->]). done. Qed.

Lemma start_key_ok s : start_good s -> key_ok (start_key s).
Proof. destruct s; intros Hs; [apply method_str_key|apply Hs]. Qed.

Lemma digits_line s : Forall digit s -> Forall line_char s.
Proof. intros Hs. eapply list.Forall_impl; [exact Hs|]. intros c Hc. unfold digit, line_char in *. lia. Qed.

Lemma word_line s : Forall word_char s -> Forall line_char s.
Proof. intros Hs. eapply list.Forall_impl; [exact Hs|]. by intros c []. Qed.

Lemma start_value_ok s : start_good s -> value_ok (start_value s).
Proof.
  destruct s as [m u ps v|v c msg]; cbn [start_value].
  - intros (_&_&Hu&Hps&_&Hv). pose proof (url_word u ps true Hu Hps) as Hw. split.
    + destruct Hu as [Hne Hu]. destruct u as [|x u]; [done|]. exists x. eexists. split; [done|]. by apply list.Forall_cons in Hu as [[[_ ?] _] _].
    + apply Forall_app. split; [by apply word_line|]. apply Forall_app. split; [repeat constructor; unfold line_char; lia|by apply word_line].
  - intros (_&_&Hc&Hm). destruct (print_int_ok c Hc) as (Hd&Hne&_). split.
    + destruct (print_int c) as [|x l]; [done|]. exists x. eexists. split; [done|]. apply list.Forall_cons in Hd as [Hx _]. unfold digit in Hx. lia.
    + repeat (apply Forall_app; split); [by apply digits_line|repeat constructor; unfold line_char; lia|done].
Qed.

Lemma start_good_printable s : start_good s -> start_printable s.
Proof. destruct s; intros Hs; [apply Hs|apply Hs]. Qed.

(** The rest of the head stays. *)
Definition others (h : http_head) := (http_version h, buff_size h, buff_len h, head_ok h, head_len h, data h, data_len h, expect_data_len h, field_list h).

Section Start.
Variables (i j : Z) (s : start_line).
Let e := j + Zlen (start_value s) + 1.

(** The line [s] has been read, with its name at [i] and the rest at [j]. *)
Definition started (h h' : http_head) : Prop := same_out j e (buff h) (buff h') /\ start_at (buff h') e h' s /\ others h' = others h.
End Start.

Lemma request_ok i j m u ps v h : let s := Request m u ps v in
  holds (buff h) i (start_key s ++ [0]) -> holds (buff h) j (start_value s ++ [0]) -> start_good s -> param_list h = [] -> Zlen (buff h) = buff_size h ->
  wp (_http_head_parse_request true i j) h (fun h' _ => started j s h h') (fun _ => False).
Proof.
  intros s Hk Hv (Hm1&Hm2&Hu&Hps&Hvne&Hvw) Hpl Hsz. set (w := u ++ params_text true ps) in *. pose proof (url_word u ps true Hu Hps) as Hw. fold w in Hw.
  assert (w <> []) as Hwne by (destruct Hu as [Hu _]; subst w; by destruct u). subst s. cbn [start_key start_value] in *. fold w in Hv. rewrite <- app_assoc in Hv. cbn [app] in Hv. pose proof (holds_len _ _ _ Hv) as Hlen.
  rewrite Zlen_app, (Zlen_cons 32), Zlen_app in Hlen. change (Zlen [0]) with 1 in Hlen. pose proof (Zlen_nonneg w). pose proof (Zlen_nonneg v).
  unfold _http_head_parse_request. wp_step. eapply wp_str; [cbn; apply (cstr_at_text _ _ _ _ []) in Hk; [exact Hk|]; apply line_nonzero, key_line, method_str_key|].
  rewrite method_parse_str, bool_decide_eq_false_2 by done. wp_step. apply wp_hget. wp_step.
  replace (Z.to_nat (buff_size h)) with (length w + S (length v + S (Z.to_nat (buff_size h - Zlen w - Zlen v - 2))))%nat by (unfold Zlen in *; lia).
  apply request_words; [exact Hv|done|done|done|done|]. intros b Hb. cbn [fmap option_fmap option_map default from_option]. wp_step. apply wp_try.
  set (e := j + Zlen w) in *. assert (same_out e (e + 1) (buff h) b) as Hs1 by (by eapply same_wr; [exact Hb|lia|change (Zlen [0]) with 1; lia]).
  replace (id (e + 1) - id j) with (Zlen w + 1) by (unfold id; subst e; lia). apply holds_app in Hv as [Hhw Hv]. fold e in Hv. apply holds_cons in Hv as [Hsp Hv].
  apply parse_params_ok; [|done|done|].
  { hh_simpl. fold w. apply holds_snoc; [eapply same_holds; [exact Hs1|exact Hhw|subst e; lia]|]. by apply rd_bytes_wr_same in Hb. }
  hh_simpl. fold w. fold e. rewrite Hpl. cbn [app]. intros b1 l Hb1 Hut Hl. wp_step. apply wp_upd. wp_step. apply wp_upd. wp_step. apply wp_upd. apply wp_upd. hh_simpl.
  unfold started. hh_simpl. cbn [start_value]. fold w. assert (j + Zlen (w ++ [32] ++ v) + 1 = e + 1 + Zlen v + 1) as -> by (subst e; rewrite !Zlen_app; change (Zlen [32]) with 1; lia). split_and!; [| |done].
  - eapply same_trans; [eapply same_mono; [exact Hs1| |]|eapply same_mono; [exact Hb1| |]]; subst e; lia.
  - split_and!; hh_simpl; [done|done|eexists; split; [done|]; eapply text_mono; [exact Hut|lia]| |eapply fields_mono; [exact Hl|lia]].
    eexists. split; [done|]. exists (e + 1). split_and!; [done| |by apply line_nonzero, word_line|lia]. eapply same_holds; [exact Hb1| |lia]. eapply same_holds; [exact Hs1|exact Hv|lia].
Qed.

Lemma response_word w m p h Q E : holds (buff h) p w -> Forall digit w -> wp (response_loop m (p + Zlen w)) h Q E -> wp (response_loop (length w + m) p) h Q E.
Proof.
  intros Hh Hw. revert p Hh. induction Hw as [|c w Hc Hw IH]; intros p Hh Hgo; [change (Zlen (@nil Z)) with 0 in Hgo; by rewrite Z.add_0_r in Hgo|].
  rewrite Zlen_cons in *. apply holds_cons in Hh as [Hrc Hh]. cbn [length]. change (S (length w) + m)%nat with (S (length w + m)). cbn [response_loop]. wp_step. eapply wp_rd; [exact Hrc|].
  unfold digit in Hc. rewrite (proj2 (Z.eqb_neq c 0)), (proj2 (Z.eqb_neq c 32)) by lia. apply IH; [done|]. by replace (p + 1 + Zlen w) with (p + (1 + Zlen w)) by lia.
Qed.

Lemma response_ok i j v c msg h : let s := Response v c msg in
  holds (buff h) i (start_key s ++ [0]) -> holds (buff h) j (start_value s ++ [0]) -> i + Zlen (start_key s) < j -> start_good s -> Zlen (buff h) = buff_size h ->
  wp (_http_head_parse_request true i j) h (fun h' _ => started j s h h') (fun _ => False).
Proof.
  intros s Hk Hv Hij (Hvk&Hvc&Hc&Hm) Hsz. destruct (print_int_ok c Hc) as (Hd&Hne&Ha&Hn). set (w := print_int c) in *. subst s. cbn [start_key start_value] in *. fold w in Hv. rewrite <- app_assoc in Hv. cbn [app] in Hv.
  pose proof (holds_len _ _ _ Hv) as Hlen. rewrite Zlen_app, (Zlen_cons 32), Zlen_app in Hlen. change (Zlen [0]) with 1 in Hlen. pose proof (Zlen_nonneg w). pose proof (Zlen_nonneg msg).
  assert (Forall (fun c => c <> 0) v) as Hvz by apply line_nonzero, key_line, Hvk. assert (str_of (buff h) (Buf i) = Some v) as Hsv by (cbn; by apply (cstr_at_text _ _ _ _ []) in Hk).
  unfold _http_head_parse_request. wp_step. eapply wp_str; [exact Hsv|]. rewrite method_parse_version, bool_decide_eq_true_2 by done. unfold _http_head_parse_response. wp_step. eapply wp_str; [exact Hsv|]. rewrite Hvc. cbn [negb].
  wp_step. apply wp_hget. wp_step. replace (Z.to_nat (buff_size h)) with (length w + S (Z.to_nat (buff_size h - Zlen w - 1)))%nat by (unfold Zlen in *; lia).
  apply holds_app in Hv as [Hhw Hv]. apply holds_cons in Hv as [Hsp Hv]. set (e := j + Zlen w) in *. apply response_word; [exact Hhw|done|]. fold e. cbn [response_loop]. wp_step. eapply wp_rd; [exact Hsp|]. cbn. wp_step. apply wp_wr; [by apply rd8_in in Hsp|].
  intros b Hb. assert (same_out e (e + 1) (buff h) b) as Hs1 by (by eapply same_wr; [exact Hb|lia|change (Zlen [0]) with 1; lia]). wp_step. wp_step.
  assert (text_at b (e + 1) (Buf j) w) as Htw by (eapply text_new; [exact Hhw|exact Hb|by apply line_nonzero, digits_line|subst e; lia]).
  eapply wp_str; [hh_simpl; by eapply text_str|]. rewrite Hn. cbn [negb]. wp_step. apply wp_upd. wp_step. apply wp_upd. wp_step. apply wp_upd. apply wp_upd. unfold started. hh_simpl. cbn [start_value].
  assert (j + Zlen (print_int c ++ [32] ++ msg) + 1 = e + 1 + Zlen msg + 1) as -> by (subst e w; rewrite !Zlen_app; change (Zlen [32]) with 1; lia). split_and!; [eapply same_mono; [exact Hs1|subst e; lia|lia]| |done].
  split_and!; hh_simpl; [done|done| |]; (eexists; split; [done|]).
  - exists i. split_and!; [done| |done|lia]. eapply same_holds; [exact Hs1|exact Hk|left; rewrite Zlen_app; change (Zlen [0]) with 1; lia].
  - exists (e + 1). split_and!; [done| |by apply line_nonzero|lia]. eapply same_holds; [exact Hs1|exact Hv|lia].
Qed.

(** ** The head *)

Lemma parse_start_ok i j s h : holds (buff h) i (start_key s ++ [0]) -> holds (buff h) j (start_value s ++ [0]) -> i + Zlen (start_key s) < j -> start_good s -> param_list h = [] -> Zlen (buff h) = buff_size h ->
  wp (_http_head_parse_request true i j) h (fun h' _ => started j s h h') (fun _ => False).
Proof. intros Hk Hv Hij Hg Hp Hsz. destruct s as [m u ps v|v c msg]; [by apply request_ok|by apply response_ok]. Qed.

Lemma start_keep b b' lim lo hi h s : start_at b lim h s -> same_out lo hi b b' -> lim <= lo -> start_at b' lim h s.
Proof.
  intros Hs Hb Hl. destruct s as [m u ps v|v c msg].
  - destruct Hs as (?&?&(p&?&?)&(q&?&?)&Hp). split_and!; [done|done|exists p; split; [done|by eapply text_keep]|exists q; split; [done|by eapply text_keep]|by eapply fields_keep].
  - destruct Hs as (?&?&(p&?&?)&(q&?&?)). split_and!; [done|done|exists p; split; [done|by eapply text_keep]|exists q; split; [done|by eapply text_keep]].
Qed.

Lemma start_mono b lim lim' h s : start_at b lim h s -> lim <= lim' -> start_at b lim' h s.
Proof.
  intros Hs Hl. destruct s as [m u ps v|v c msg].
  - destruct Hs as (?&?&(p&?&?)&(q&?&?)&Hp). split_and!; [done|done|exists p; split; [done|by eapply text_mono]|exists q; split; [done|by eapply text_mono]|by eapply fields_mono].
  - destruct Hs as (?&?&(p&?&?)&(q&?&?)). split_and!; [done|done|exists p; split; [done|by eapply text_mono]|exists q; split; [done|by eapply text_mono]].
Qed.

(** The lines of the head have been read; they end before [lim]. *)
Definition head_at (b : list Z) (lim : Z) (h : http_head) (s : start_line) (fs : pairs) : Prop :=
  start_at b lim h s /\ Forall2 (field_at b lim) (field_list h) fs.

Lemma head_at_keep b b' lim lo hi h s fs : head_at b lim h s fs -> same_out lo hi b b' -> lim <= lo -> head_at b' lim h s fs.
Proof. intros [H1 H2] Hb Hl. split; [by eapply start_keep|by eapply fields_keep]. Qed.

Lemma parse_head_ok s fs h : let t := start_text s ++ [13] ++ fields_tail fs in
  holds (buff h) 0 t -> start_good s -> Forall field_good fs -> param_list h = [] -> field_list h = [] -> Zlen (buff h) = buff_size h -> head_len h = Zlen t ->
  wp (_http_head_parse true) h (fun h' _ => same_out 0 (Zlen t) (buff h) (buff h') /\ head_at (buff h') (Zlen t) h' s fs /\ frame h' = frame h) (fun _ => False).
Proof.
  intros t Hh Hs Hf Hp Hfl Hsz Hl. pose proof (start_key_ok s Hs) as Hk. pose proof (start_value_ok s Hs) as Hv. set (k := start_key s) in *. set (v := start_value s) in *. set (r := fields_tail fs) in *.
  assert (t = k ++ [32] ++ v ++ [13] ++ r) as Ht by (subst t; rewrite start_split; by rewrite <- !app_assoc). set (e := Zlen k). set (e2 := e + 1 + Zlen v).
  assert (Zlen t = e2 + 1 + Zlen r) as Hlt by (subst e2 e; rewrite Ht, !Zlen_app; change (Zlen [32]) with 1; change (Zlen [13]) with 1; lia).
  unfold _http_head_parse. wp_step. apply wp_hget. rewrite Hl. replace (Z.to_nat (Zlen t)) with (length k + S (length v + S (length r)))%nat by (rewrite Hlt; subst e2 e; unfold Zlen; lia).
  rewrite Ht in Hh. apply holds_app in Hh as [Hhk Hh]. rewrite Z.add_0_l in Hh. fold e in Hh. apply holds_cons in Hh as [Hsp Hh]. apply holds_app in Hh as [Hhv Hh]. fold e2 in Hh. apply holds_cons in Hh as [Hcr Hhr].
  pose proof (Zlen_nonneg k). pose proof (Zlen_nonneg v). pose proof (Zlen_nonneg r). apply parse_key; [done|done|]. rewrite Z.add_0_l. fold e. apply (parse_sep true 32); [done|by right|]. intros b1 Hb1.
  assert (same_out e (e + 1) (buff h) b1) as Hs1 by (by eapply same_wr; [exact Hb1|lia|change (Zlen [0]) with 1; lia]).
  apply parse_value_all; [hh_simpl; eapply same_holds; [exact Hs1|exact Hhv|lia]|done|]. fold e2. apply parse_return; [hh_simpl; destruct Hs1 as [_ Hs1]; rewrite Hs1 by (subst e2; lia); done|]. hh_simpl. intros b3 Hb3.
  assert (same_out e2 (e2 + 1) b1 b3) as Hs3 by (by eapply same_wr; [exact Hb3|lia|change (Zlen [0]) with 1; lia]).
  eapply wp_mono; [apply (parse_start_ok 0 (e + 1) s); hh_simpl; fold k v| |done]; hh_simpl.
  - apply holds_snoc; rewrite ?Z.add_0_l; fold e; [eapply same_holds; [exact Hs3|eapply same_holds; [exact Hs1|exact Hhk|subst e; lia]|subst e2 e; lia]|].
    eapply same_holds; [exact Hs3|by apply rd_bytes_wr_same in Hb1|change (Zlen [0]) with 1; subst e2; lia].
  - apply holds_snoc; [eapply same_holds; [exact Hs3|eapply same_holds; [exact Hs1|exact Hhv|lia]|subst e2; lia]|]. fold e2. by apply rd_bytes_wr_same in Hb3.
  - subst e. lia.
  - done.
  - done.
  - destruct Hs3 as [-> _], Hs1 as [-> _]. done.
  - intros h1 [] (Hb4&Hst&Hot). fold v in Hb4, Hst. fold e2 in Hb4, Hst. hh_simpl. injection Hot as O1 O2 O3 O4 O5 O6 O7 O8 O9. hh_simpl. rewrite Hfl in O9.
    apply parse_fields_run; [|done|subst e2 e; lia|].
    { eapply same_holds; [exact Hb4| |right; lia]. eapply same_holds; [exact Hs3| |right; lia]. eapply same_holds; [exact Hs1|exact Hhr|subst e2; lia]. }
    fold r. rewrite <- Hlt, O9. cbn [app]. intros b l Hb Hfs. hh_simpl. split_and!; [|split; [|done]|unfold frame; hh_simpl; by rewrite O1, O2, O3, O4, O5, O6, O7, O8].
    + eapply same_trans; [eapply same_mono; [exact Hs1| |]|eapply same_trans; [eapply same_mono; [exact Hs3| |]|eapply same_trans; [eapply same_mono; [exact Hb4| |]|eapply same_mono; [exact Hb| |]]]]; subst e2 e; lia.
    + eapply start_mono; [eapply start_keep; [exact Hst|exact Hb|lia]|lia].
Qed.

(** ** Looking up a field *)

(** The value of a name, of the field that was added last. *)
Fixpoint find_field (name : list Z) (fs : pairs) : option (list Z) :=
  match fs with
  | [] => None
  | f :: fs => if (hash_32 (hash_string_case f.1) 4 =? hash_32 (hash_string_case name) 4) && strncasecmp_eq f.1 name 128 then Some f.2 else find_field name fs
  end.
Definition field_value (fs : pairs) (name : list Z) : option (list Z) := find_field name (rev fs).

(** The pointer [p] is the string [s]. *)
Definition same_text (b : list Z) (p : option ptr) (s : option (list Z)) : Prop :=
  match p, s with Some p, Some s => str_of b p = Some s | None, None => True | _, _ => False end.

Lemma find_value_ok name lim l fs h : Forall2 (field_at (buff h) lim) l fs ->
  wp (find_value (hash_string_case name) name l) h (fun h' p => h' = h /\ same_text (buff h) p (find_field name fs)) (fun _ => False).
Proof.
  induction 1 as [|f s l fs (Hn&Hv&Hk) Hl IH]; cbn [find_value find_field]; [by wp_step|]. rewrite Hk. destruct (_ =? _); [|exact IH]. cbn [andb].
  wp_step. eapply wp_str; [by eapply text_str|]. destruct (strncasecmp_eq _ _ _); [|exact IH]. wp_step. split; [done|]. by eapply text_str.
Qed.

Lemma rev_fields {A B} (R : A -> B -> Prop) l k : Forall2 R l k -> Forall2 R (rev l) (rev k).
Proof. induction 1; cbn; [constructor|]. apply Forall2_app; [done|by repeat constructor]. Qed.

Lemma get_fields_ok name lim fs h : Forall2 (field_at (buff h) lim) (field_list h) fs ->
  wp (http_head_get_fields_value name) h (fun h' p => h' = h /\ same_text (buff h) p (field_value fs name)) (fun _ => False).
Proof. intros Hl. unfold http_head_get_fields_value. wp_step. apply wp_hget. eapply find_value_ok. by apply rev_fields. Qed.

Lemma copied_holds k data b0 p x : holds data p x -> p + Zlen x <= k -> k <= Zlen data -> holds (copied k data b0) p x.
Proof.
  intros Hx Hk Hd. apply rd_bytes_Some in Hx as (Hp&Hn&Hl&Hx). apply rd_bytes_Some. unfold copied, Zlen in *. rewrite length_app, length_take. split_and!; [done|done|lia|].
  rewrite drop_app_le by (rewrite length_take; lia). rewrite take_app_le by (rewrite length_drop, length_take; lia). rewrite Hx at 1. rewrite !take_drop_commute, take_take. do 2 f_equal. lia.
Qed.

(** ** The message *)

(** A message whose text says where its parts end. *)
Definition message_good (m : message) : Prop :=
  start_good (m_start m) /\ Forall field_good (m_fields m) /\
  match field_value (m_fields m) (bytes "Content-Length") with Some s => atoi s = Zlen (m_body m) | None => True end /\
  match field_value (m_fields m) (bytes "Transfer-Encoding") with Some s => strncasecmp_eq s (bytes "chunked") 8 = false | None => True end.

Lemma lines_good m : message_good m -> Forall (fun x => x <> [] /\ Forall line_char x) (lines_of m).
Proof.
  intros (Hs&Hf&_). pose proof (start_key_ok _ Hs) as [Hk Hkc]. pose proof (start_value_ok _ Hs) as [_ Hvc]. constructor.
  - rewrite start_split. split; [by destruct (start_key (m_start m))|]. apply Forall_app. split; [by apply key_line|]. apply Forall_app. split; [repeat constructor; unfold line_char; lia|done].
  - apply Forall_map. eapply list.Forall_impl; [exact Hf|]. intros [k v] [[K1 K2] [_ V]]. unfold field_text. cbn [fst snd] in *. split; [by destruct k|].
    apply Forall_app. split; [by apply key_line|]. apply Forall_app. split; [repeat constructor; unfold line_char; lia|done].
Qed.

(** The text up to the carriage return of the last line. *)
Definition head_body (m : message) : list Z := start_text (m_start m) ++ [13] ++ fields_tail (m_fields m).

Lemma head_text_split m : head_text m = (lines_text (lines_of m) ++ [13]) ++ [10] /\ lines_text (lines_of m) = head_body m ++ [10].
Proof. split; [unfold head_text; by rewrite <- app_assoc|apply lines_tail]. Qed.

(** The head has been read: its strings are in the buffer, the body is still to come. *)
Definition head_read (size : Z) (m : message) (h : http_head) : Prop :=
  Zlen (buff h) = size /\ buff_size h = size /\ buff_len h = 0 /\ head_ok h = true /\ HttpHead.data h = None /\ data_len h = 0 /\
  expect_data_len h = (match field_value (m_fields m) (bytes "Content-Length") with Some s => Zlen (m_body m) | None => 0 end) /\
  head_at (buff h) (Zlen (head_text m)) h (m_start m) (m_fields m).

Lemma head_end m t b0 h : holds t 0 (message_text m) -> message_good m -> Zlen b0 = buff_size h -> Zlen (buff h) = buff_size h -> buff_len h = 0 -> field_list h = [] -> param_list h = [] -> HttpHead.data h = None -> data_len h = 0 ->
  Zlen (message_text m) < buff_size h -> buff h = copied (Zlen (head_text m) - 1) t b0 ->
  wp (head_loop true (S (length (m_body m))) t (Zlen (head_text m) - 1) 0) h (fun h' i => i = Zlen (head_text m) /\ head_read (buff_size h) m h') (fun _ => False).
Proof.
  intros Htt Hg Hb0 Hsz Hbl Hfl Hpl Hd Hdl Hs Hb. destruct (head_text_split m) as [Ht Ht2]. set (n := Zlen (head_text m)) in *. pose proof (Zlen_nonneg (m_body m)). pose proof (Zlen_nonneg (head_body m)).
  assert (n = Zlen (head_body m) + 3) as Hn by (subst n; rewrite Ht, Ht2, !Zlen_app; change (Zlen [10]) with 1; change (Zlen [13]) with 1; lia).
  assert (Zlen (message_text m) = n + Zlen (m_body m)) as Hlt by (unfold message_text; by rewrite Zlen_app). pose proof (holds_len _ _ _ Htt) as [_ Hld]. unfold message_text in Htt. rewrite Ht, Ht2 in Htt. clear Ht Ht2. rewrite <- !app_assoc in Htt. apply holds_app in Htt as [Hhb Htt]. rewrite Z.add_0_l in Htt.
  apply holds_cons in Htt as [H10 Htt]. apply holds_cons in Htt as [H13 Htt]. apply holds_cons in Htt as [H10' Htt]. replace (Zlen (head_body m) + 1 + 1) with (n - 1) in H10' by lia.
  cbn [head_loop]. wp_step. apply wp_access. exists 10. split; [done|]. wp_step. rewrite Z.add_0_l. apply wp_wr; [lia|]. intros b Hwb. rewrite Hb, (copied_step (n - 1) t b0 10) in Hwb by (done || lia). injection Hwb as <-. replace (n - 1 + 1) with n by lia.
  change (negb (isprint 10) && negb (isspace 10)) with false. change (10 =? 10) with true. cbv iota. wp_step. wp_step. hh_simpl. rewrite Hbl. wp_step; [lia|]. wp_step.
  eapply wp_rd; [hh_simpl; rewrite copied_rd by lia; replace (n - 1 - 2) with (Zlen (head_body m)) by lia; exact H10|]. change (10 =? 10) with true. cbv iota. wp_step. apply wp_upd. wp_step. apply wp_upd. wp_step. apply wp_try.
  assert (Zlen (copied n t b0) = buff_size h) as Hlc by (unfold copied, Zlen in *; rewrite length_app, length_take, length_drop; lia). destruct Hg as (Hst&Hf&Hcl&_).
  eapply wp_mono; [apply (parse_head_ok (m_start m) (m_fields m)); hh_simpl; fold (head_body m); try done| |done]; [|lia|].
  - apply copied_holds; [done|lia|lia].
  - hh_simpl. fold (head_body m). intros h1 [] (Hsb&Hat&Hfr). injection Hfr as F1 F2 F3 F4 F5 F6 F7 F8. hh_simpl. wp_step. eapply wp_mono; [eapply get_fields_ok; apply Hat| |done]. intros h' p [-> Hp].
    wp_step. apply (wp_mono _ _ (fun h' e => h' = h1 /\ e = match field_value (m_fields m) (bytes "Content-Length") with Some s => Zlen (m_body m) | None => 0 end) _ (fun _ => False)); [| |done].
    { destruct p as [p|], (field_value _ _) as [s|]; try done. wp_step. eapply wp_str; [exact Hp|]. wp_step. by rewrite Hcl. }
    intros h' e [-> He]. wp_step. apply wp_upd. wp_step; [subst e; destruct (field_value _ _); lia|]. wp_step. split; [lia|]. unfold head_read. hh_simpl. split_and!; try done; try congruence; [destruct Hsb as [-> _]; congruence|].
    destruct Hat as [A1 A2]. split; [eapply start_mono; [exact A1|lia]|eapply fields_mono; [exact A2|lia]].
Qed.

Lemma rd_bytes_drop b k p n bs : 0 <= k -> 0 <= p -> rd_bytes b (k + p) n = Some bs -> rd_bytes (drop (Z.to_nat k) b) p n = Some bs.
Proof.
  intros Hk Hp Hb. apply rd_bytes_Some in Hb as (H1&H2&H3&->). apply rd_bytes_Some. rewrite drop_drop. split_and!; [done|done|unfold Zlen in *; rewrite length_drop; lia|]. do 2 f_equal. lia.
Qed.

(** The body is behind the head, and the strings of the head stay. *)
Lemma body_ok_read m t size h : holds t 0 (message_text m) -> message_good m -> head_read size m h -> Zlen (message_text m) < size ->
  let n := Zlen (head_text m) in
  wp (r <- plain_body (drop (Z.to_nat n) t) (Zlen (message_text m) - n) n ;; ret (r.1, n + r.2)) h
    (fun h' r => r = (Zlen (message_text m), Zlen (message_text m)) /\ Zlen (buff h') = size /\ buff_size h' = size /\ buff_len h' = 0 /\ data_len h' = Zlen (m_body m) /\ expect_data_len h' <= Zlen (m_body m) /\
      HttpHead.data h' = Some (Buf n) /\ holds (buff h') n (m_body m) /\ head_at (buff h') n h' (m_start m) (m_fields m)) (fun _ => False).
Proof.
  intros Ht (_&_&Hcl&_) (Hsz&Hbs&Hbl&_&Hd&Hdl&He&Hat) Hs n. pose proof (Zlen_nonneg (m_body m)). assert (0 <= n) by apply Zlen_nonneg. assert (Zlen (message_text m) = n + Zlen (m_body m)) as Hlt by (unfold message_text; by rewrite Zlen_app).
  replace (Zlen (message_text m) - n) with (Zlen (m_body m)) by lia. unfold plain_body. wp_step. wp_step. wp_step. rewrite He, Hd.
  set (e := match field_value (m_fields m) (bytes "Content-Length") with Some _ => _ | None => 0 end). assert (e = 0 \/ e = Zlen (m_body m)) as Hee by (subst e; destruct (field_value _ _); auto).
  set (k := if _ && _ then _ else _). assert (k = Zlen (m_body m)) as -> by (subst k; destruct Hee as [->| ->]; [destruct (Z.ltb_spec (Zlen (m_body m)) 0); [lia|]; cbn; destruct (Z.ltb_spec 0 (Zlen (m_body m))); lia|rewrite Z.ltb_irrefl; by destruct (_ && _)]).
  wp_step. apply wp_upd. wp_step. apply wp_access. exists (m_body m). unfold message_text in Ht. apply holds_app in Ht as [_ Ht]. fold n in Ht. split; [by apply rd_bytes_drop; [|lia|rewrite Z.add_0_r]|].
  wp_step. apply wp_wrs; [lia|hh_simpl; lia|]. hh_simpl. intros b Hb. wp_step. apply wp_upd. wp_step. wp_step. cbn [fst snd]. hh_simpl.
  assert (same_out n (n + Zlen (m_body m)) (buff h) b) as Hsb by (by eapply same_wr; [exact Hb|lia|lia]).
  split_and!; try done; try lia; [f_equal; lia|destruct Hsb as [-> _]; done|by apply rd_bytes_wr_same in Hb|]. by eapply (head_at_keep _ _ _ _ _ h); [exact Hat|exact Hsb|lia].
Qed.

Lemma head_at_is b lim h s fs : buff h = b -> head_at b lim h s fs -> start_is h s /\ Forall2 (field_is b) (field_list h) fs.
Proof.
  intros Hb [Hs Hf]. assert (forall l k, Forall2 (field_at b lim) l k -> Forall2 (field_is b) l k) as Hl by (intros l k Hlk; eapply list.Forall2_impl; [exact Hlk|]; intros f x (H1&H2&_); split; by eapply text_str).
  split; [|by apply Hl]. destruct s as [m u ps v|v c msg]; cbn [start_is]; rewrite Hb.
  - destruct Hs as (?&?&(p&->&?)&(q&->&?)&Hp). split_and!; [done|done|by eapply text_str|by eapply text_str|by apply Hl].
  - destruct Hs as (?&?&(p&->&?)&(q&->&?)). split_and!; [done|done|by eapply text_str|by eapply text_str].
Qed.

(** A head before the first call of the parser. *)
Definition unread (size : Z) (h : http_head) : Prop :=
  Zlen (buff h) = size /\ buff_size h = size /\ buff_len h = 0 /\ head_ok h = false /\ HttpHead.data h = None /\ data_len h = 0 /\ field_list h = [] /\ param_list h = [].

Lemma init_unread size v h : 0 <= size -> http_head_init true size v = Some h -> unread size h.
Proof. intros Hs [= <-]. unfold unread. hh_simpl. split_and!; try done. unfold Zlen. rewrite length_replicate. lia. Qed.

Lemma head_ok_read m t size h : holds t 0 (message_text m) -> message_good m -> unread size h -> Zlen (message_text m) < size ->
  wp (head_loop true (Z.to_nat (Zlen (message_text m))) t 0 0) h (fun h' i => i = Zlen (head_text m) /\ head_read size m h') (fun _ => False).
Proof.
  intros Ht Hg (Hsz&Hbs&Hbl&Hok&Hd&Hdl&Hfl&Hpl) Hs. destruct (head_text_split m) as [Hh _]. set (l := lines_text (lines_of m) ++ [13]) in *. pose proof (Zlen_nonneg l). pose proof (Zlen_nonneg (m_body m)).
  assert (Zlen (head_text m) = Zlen l + 1) as Hn by (rewrite Hh, Zlen_app; done). assert (Zlen (message_text m) = Zlen l + 1 + Zlen (m_body m)) as Hlt by (unfold message_text; rewrite Zlen_app; lia).
  replace (Z.to_nat (Zlen (message_text m))) with (length l + S (length (m_body m)))%nat by (unfold Zlen in *; lia).
  eapply (head_copy _ l ([10] ++ m_body m) 0 0 t (buff h)); [lia|lia|done|done|lia|lia| |lia|lia| |].
  - unfold message_text in Ht. rewrite Hh, <- app_assoc in Ht. exact Ht.
  - apply scan_lines; [by apply lines_good|done|done].
  - rewrite Z.add_0_l. replace (Zlen l) with (Zlen (head_text m) - 1) by lia. eapply wp_mono; [apply (head_end m t (buff h)); hh_simpl; try done; try lia| |done]; hh_simpl; [|intros h' i; by rewrite Hbs].
    unfold copied, Zlen in *. rewrite length_app, length_take, length_drop. apply holds_len in Ht. unfold Zlen in Ht. lia.
Qed.

Lemma parse_ok m t size h : holds t 0 (message_text m) -> message_good m -> unread size h -> Zlen (message_text m) < size ->
  wp (http_head_parse_http1_1 true t (Zlen (message_text m))) h (fun h' n => n = Zlen (message_text m) /\ head_is h' m) (fun _ => False).
Proof.
  intros Ht Hg Hu Hs. pose proof Hu as (Hsz&Hbs&Hbl&Hok&_). set (L := Zlen (message_text m)) in *. set (n := Zlen (head_text m)). pose proof (Zlen_nonneg (m_body m)). assert (0 <= n) by apply Zlen_nonneg. assert (L = n + Zlen (m_body m)) as Hlt by (subst L; unfold message_text; by rewrite Zlen_app).
  unfold http_head_parse_http1_1. wp_step. wp_step. wp_step; [lia|]. rewrite Hok, Hbl. wp_step. wp_step. eapply wp_mono; [by apply (head_ok_read m t size)| |done]. intros h1 i [-> Hr]. fold n. wp_step; [lia|]. wp_step. apply wp_hget. pose proof Hr as (_&_&_&-> &_&_&_&Hat). wp_step.
  wp_step. eapply wp_mono; [eapply get_fields_ok; apply Hat| |done]. intros h' p [-> Hp]. wp_step.
  apply (wp_mono _ _ (fun h' c => h' = h1 /\ c = false) _ (fun _ => False)); [| |done].
  { destruct Hg as (_&_&_&Hte). destruct p as [p|], (field_value _ (bytes "Transfer-Encoding")) as [s|]; try done. wp_step. eapply wp_str; [exact Hp|]. wp_step. done. }
  intros h' c [-> ->]. rewrite Z.add_0_l. wp_step. eapply wp_mono; [by apply (body_ok_read m t size)| |done]. fold n L. intros h3 r (->&B1&B2&B3&B4&B5&B6&B7&B8).
  wp_step. apply (wp_mono _ _ (fun h' _ => exists b, h' = set_buff b h3 /\ same_out L (L + 1) (buff h3) b) _ (fun _ => False)); [| |done].
  { wp_step; [|wp_step; exists (buff h3); split; [by destruct h3|apply same_refl]]. apply wp_wr; [lia|]. intros b Hb. exists b. split; [done|]. by eapply same_wr; [exact Hb|lia|change (Zlen [0]) with 1; lia]. }
  intros h' [] (b&->&Hb). wp_step; [lia|]. wp_step. apply wp_upd. wp_step. wp_step. hh_simpl. wp_step; [lia|]. wp_step. split; [done|].
  destruct (head_at_is b n (set_buff b h3) (m_start m) (m_fields m)) as [S1 S2]; [done|eapply (head_at_keep _ _ _ _ _ (set_buff b h3)); [exact B8|exact Hb|lia]|].
  split_and!; [exact S1|exact S2|]. split; [hh_simpl; lia|]. right. unfold body_of. hh_simpl. rewrite B6, B4. eapply same_holds; [exact Hb|exact B7|lia].
Qed.
