(* ===== verification/Http1Claims.v ===== *)
(** * HTTP/1.1: what the parser and the serializer do (src/http_parse/http1_parse.c)

    The parser on any input; the message that is written and read back; and what the
    code does on some messages that are not of that kind. *)

From Stdlib Require Import ZArith Lia String.
From stdpp Require Import base list numbers option.
From S2P Require Import Prelude Hpack HpackSpec DnsCache Http2 HttpHead Http1 Http1Safe Http1Rt Http1Parse.

(** ** Examples *)

Definition fresh (size : Z) : http_head :=
  mk_head HTTP_VERSION_1_1 HTTP_HEAD_INVALID HTTP_METHOD_INVALID None None 0 None size 0 (replicate (Z.to_nat size) 0) false 0 None 0 0 [] [] 0.

Definition lit_field (f : list Z * list Z) : http_head_fields := mk_field (Lit f.1) (Lit f.2) (hash_string_case f.1).

(** [POST /q?a=1&b= HTTP/1.1] with two fields and a body. *)
Definition post_params : pairs := [(bytes "a", bytes "1"); (bytes "b", [])].
Definition post_fields : pairs := [(bytes "Host", bytes "x.y"); (bytes "content-length", bytes "2")].
Definition post : message := mk_message (Request HTTP_METHOD_POST (bytes "/q") post_params (bytes "HTTP/1.1")) post_fields (bytes "hi").
Definition post_head : http_head :=
  mk_head HTTP_VERSION_1_1 HTTP_HEAD_REQUEST HTTP_METHOD_POST (Some (Lit (bytes "/q"))) (Some (Lit (bytes "HTTP/1.1"))) 0 None 0 0 [] false 0
    (Some (Lit (bytes "hi"))) 2 0 (map lit_field post_fields) (map lit_field post_params) 0.

Lemma head_init_inv mo size v h : 0 < size -> http_head_init mo size v = Some h -> h1_inv h.
Proof.
  intros Hs Hi. destruct mo; [|done]. injection Hi as <-. split_and!; hh_simpl; try done; try lia. split; [|by split_and!; hh_simpl; constructor]. split; hh_simpl; [unfold Zlen; rewrite length_replicate; lia|].
  unfold rd8. rewrite (proj2 (Z.leb_le 0 (size - 1))) by lia. apply lookup_replicate_2. lia.
Qed.

(** C26: The HTTP/1.1 parser never reads or writes outside of its buffer or of the data,
    and stops, on every input that leaves a byte of the buffer free, in whatever pieces
    the message comes: a call takes no more than the data and leaves a head for the next
    call, except after a parse error (code -2). *)
Theorem http1_parse_safe mo input h : Forall is_byte input -> h1_inv h -> buff_len h + Zlen input < buff_size h ->
  match http_head_parse_http1_1 mo input (Zlen input) h with
  | Ok h' n => h1_inv h' /\ 0 <= n <= Zlen input /\ buff_len h' = buff_len h + n
  | Fail h' => -3 <= rc h' <= -1 /\ (rc h' = -2 \/ h1_inv h')
  | UB | Diverged => False
  end.
Proof.
  intros Hb Hi Hl. pose proof (parse_http1_safe mo input h Hb Hi Hl) as Hw. unfold wp in Hw. destruct (http_head_parse_http1_1 _ _ _ h); try done. by destruct Hw as (_&?&?).
Qed.

(** A line that is cut off: the head waits for more. *)
Lemma http1_parse_safe_witness :
  match http_head_parse_http1_1 true (bytes "GET /a?b HT") 11 (fresh 64) with
  | Ok _ _ => False
  | Fail h' => -3 <= rc h' <= -1 /\ (rc h' = -2 \/ h1_inv h')
  | UB | Diverged => False
  end.
Proof.
  pose proof (http1_parse_safe true (bytes "GET /a?b HT") (fresh 64)) as Hp. change (Zlen (bytes "GET /a?b HT")) with 11 in Hp.
  assert (Forall is_byte (bytes "GET /a?b HT")) as Hb by (repeat constructor; unfold is_byte; cbn; lia). specialize (Hp Hb (head_init_inv true 64 HTTP_VERSION_1_1 (fresh 64) ltac:(lia) eq_refl) ltac:(cbn; lia)).
  destruct (http_head_parse_http1_1 true (bytes "GET /a?b HT") 11 (fresh 64)) eqn:He; done.
Defined.

(** C25: What the serializer writes for a message whose text says where its parts end, the
    parser reads back: the number of bytes and the same first line, fields and body.
    Such a message ([message_good]) is a request of any method but HEAD, with a path and
    parameters without spaces and the characters that separate them, or a response whose
    version contains HTTP/ and whose code is not negative; the names of its fields are not empty
    and have no space or colon, their values are not empty and do not start with a
    space, all in printable characters; the body has the length its Content-Length
    says, if it has one, and is not chunked.  The output buffer has room for the text
    and the receiving one for a byte more.  (For HEAD and empty values, which do not come
    back, see [head_request_refused] and [empty_value_is_return].) *)
Theorem http1_roundtrip m h h0 o v size : message_good m -> head_is h m -> Zlen (message_text m) <= Zlen (o_buf o) -> Zlen (message_text m) < size -> http_head_init true size v = Some h0 ->
  exists o' h', http_head_serialize_http1_1 h (Zlen (o_buf o)) o = Ok o' (Zlen (message_text m)) /\
    http_head_parse_http1_1 true (o_buf o') (Zlen (message_text m)) h0 = Ok h' (Zlen (message_text m)) /\ head_is h' m.
Proof.
  intros Hg Hh Ho Hs Hi. pose proof (serialize_ok h (Zlen (o_buf o)) m o Hh (start_good_printable _ (proj1 Hg)) eq_refl Ho) as Hw. unfold wp in Hw. destruct (http_head_serialize_http1_1 _ _ o) as [o' n| | |] eqn:Eo; try done.
  destruct Hw as [-> [_ Ht]]. pose proof (Zlen_nonneg (message_text m)). assert (unread size h0) as Hu by (eapply init_unread; [lia|exact Hi]).
  pose proof (parse_ok m (o_buf o') size h0 Ht Hg Hu Hs) as Hp. unfold wp in Hp. destruct (http_head_parse_http1_1 _ _ _ h0) as [h' n| | |] eqn:Ep; try done. destruct Hp as [-> Hp]. by exists o', h'.
Qed.

#[local] Instance line_char_dec c : Decision (line_char c).
Proof. unfold line_char. apply _. Defined.
#[local] Instance word_char_dec c : Decision (word_char c).
Proof. unfold word_char. apply _. Defined.
#[local] Instance key_char_dec c : Decision (key_char c).
Proof. unfold key_char. apply _. Defined.
#[local] Instance key_ok_dec k : Decision (key_ok k).
Proof. unfold key_ok. apply _. Defined.
#[local] Instance param_good_dec f : Decision (param_good f).
Proof. unfold param_good. apply _. Defined.

Lemma post_good : message_good post.
Proof.
  split_and!; try done.
  - split_and!; try done; [split; [done|]| |]; by apply (bool_decide_eq_true_1 _); vm_compute.
  - apply list.Forall_cons; split; [|apply list.Forall_cons; split; [|by apply list.Forall_nil]]; (split; [by apply (bool_decide_eq_true_1 _); vm_compute|]); (split; [eexists _, _; split; [reflexivity|done]|by apply (bool_decide_eq_true_1 _); vm_compute]).
Qed.

Lemma lit_fields b fs : Forall2 (field_is b) (map lit_field fs) fs.
Proof. induction fs as [|f fs IH]; cbn [map]; [by apply list.Forall2_nil|]. apply list.Forall2_cons. by split. Qed.

Lemma http1_roundtrip_witness :
  exists o' h', http_head_serialize_http1_1 post_head 100 (mk_out (replicate 100 7) 0) = Ok o' 59 /\ http_head_parse_http1_1 true (o_buf o') 59 (fresh 80) = Ok h' 59 /\ head_is h' post.
Proof.
  assert (head_is post_head post) as Hh by (split_and!; try done; [split_and!; try done; apply lit_fields|apply lit_fields|split; [done|by right]]).
  destruct (http1_roundtrip post post_head (fresh 80) (mk_out (replicate 100 7) 0) HTTP_VERSION_1_1 80 post_good Hh) as (o'&h'&H1&H2&H3); [vm_compute; done|vm_compute; done|done|]. exists o', h'.
  change (Zlen (message_text post)) with 59 in *. by split_and!.
Defined.

(** ** Other messages *)

Definition parsed (t : list Z) (size : Z) : res http_head Z := http_head_parse_http1_1 true t (Zlen t) (fresh size).
Definition failed_with {A} (r : res http_head A) (c : Z) : Prop := match r with Fail h => rc h = c | _ => False end.

(** A field with an empty value reads as a carriage return. *)
Example empty_value_is_return :
  match parsed (bytes "GET / HTTP/1.1" ++ crlf ++ bytes "A: " ++ crlf ++ bytes "B: c" ++ crlf ++ crlf) 100 with
  | Ok h _ => match field_list h with f :: _ => str_of (buff h) (f_value f) = Some [13] | _ => False end
  | _ => False
  end.
Proof. vm_compute. reflexivity. Qed.

(** A HEAD request is a parse error. *)
Example head_request_refused : failed_with (parsed (bytes "HEAD / HTTP/1.1" ++ crlf ++ crlf) 100) (-2).
Proof. vm_compute. reflexivity. Qed.

(** A chunk length that is cut off is incomplete (-1), but not between the carriage
    return and the newline (-2). *)
Example chunk_cut_before_newline : let t := bytes "HTTP/1.1 200 OK" ++ crlf ++ bytes "Transfer-Encoding: chunked" ++ crlf ++ crlf ++ bytes "5" in
  failed_with (parsed t 100) (-1) /\ failed_with (parsed (t ++ [13]) 100) (-2).
Proof. vm_compute. split; reflexivity. Qed.

(** A request whose version line does not fit is written past the end of the buffer. *)
Example request_overflow : http_head_serialize_http1_1 post_head 18 (mk_out (replicate 18 0) 0) = UB.
Proof. vm_compute. reflexivity. Qed.
