(* ===== verification/Art.v ===== *)
(** * The adaptive radix tree (src/lib/art.c, src/include/smartdns/lib/art.h)

    The index of the domain rules.  A pointer to a node is the node itself, a write
    through a pointer to a pointer ([*ref = ...]) is the value that is returned for it.
    An array is a list of its size; [None] as a result is undefined behaviour (an access
    outside of an array, a null pointer) or a loop that did not end within its fuel.

    A key is given by the bytes that can be read at its pointer, and its length. *)

From Stdlib Require Import ZArith Lia.
From stdpp Require Import base list numbers option.
From S2P Require Import Prelude.

Local Open Scope nat_scope.

(** ** Arrays *)

(** The source of [memcpy(_, a + p, n)]. *)
Definition sub {A} (a : list A) (p n : nat) : option (list A) :=
  if p + n <=? length a then Some (take n (drop p a)) else None.
(** [memcpy(a + p, bs, |bs|)] *)
Definition blit {A} (a : list A) (p : nat) (bs : list A) : option (list A) :=
  if p + length bs <=? length a then Some (take p a ++ bs ++ drop (p + length bs) a) else None.
(** [memmove(a + dst, a + src, n)] *)
Definition memmove {A} (a : list A) (dst src n : nat) : option (list A) := bs ← sub a src n; blit a dst bs.
(** [a[i] = v] *)
Definition set_at {A} (a : list A) (i : nat) (v : A) : option (list A) := if i <? length a then Some (<[i := v]> a) else None.

(** How many of the first [n] bytes of [a + i] and [b + j] are the same. *)
Fixpoint matching (n : nat) (a : list Z) (i : nat) (b : list Z) (j : nat) : option nat :=
  match n with
  | O => Some 0
  | S n => x ← a !! i; y ← b !! j; if (x =? y)%Z then S <$> matching n a (S i) b (S j) else Some 0
  end.

(** The first index in [i, i + n) whose element has the property; [i + n] when none has. *)
Fixpoint scan_to {A} (f : A -> bool) (a : list A) (n i : nat) : option nat :=
  match n with
  | O => Some i
  | S n => x ← a !! i; if f x then Some i else scan_to f a n (S i)
  end.

(** [while (!f(a[i])) i++;] *)
Fixpoint scan_up {A} (f : A -> bool) (a : list A) (i : nat) : option nat :=
  match a with
  | [] => None
  | x :: a => if f x then Some i else scan_up f a (S i)
  end.
(** [while (!f(a[i])) i--;] from the end of the array *)
Definition scan_down {A} (f : A -> bool) (a : list A) : option nat := (fun i => length a - 1 - i) <$> scan_up f (rev a) 0.

(** ** Bits *)

(** [_mm_movemask_epi8]: a bit per byte. *)
Fixpoint movemask (l : list bool) : Z := match l with [] => 0%Z | b :: l => (Z.b2z b + 2 * movemask l)%Z end.

(** [__builtin_ctz] of a number with one of its first [n] bits set. *)
Fixpoint ctz (n : nat) (b : Z) (i : nat) : nat :=
  match n with
  | O => i
  | S n => if Z.testbit b (Z.of_nat i) then i else ctz n b (S i)
  end.

(** A byte as a signed char. *)
Definition signed_char (c : Z) : Z := if (c <? 128)%Z then c else (c - 256)%Z.

(** ** Data *)

Inductive node_type := NODE4 | NODE16 | NODE32 | NODE48 | NODE256.
Definition MAX_PREFIX_LEN : nat := 6.

#[export] Instance node_type_eq : EqDecision node_type.
Proof. solve_decision. Defined.

Record art_header := mk_header { n_type : node_type; num_children : nat; partial_len : nat; partial : list Z }.
(** The key has a zero byte behind it. *)
Record art_leaf (V : Type) := mk_leaf { l_value : V; l_key_len : nat; l_key : list Z }.
Arguments mk_leaf {V} _ _ _.
Arguments l_value {V} _.
Arguments l_key_len {V} _.
Arguments l_key {V} _.

Inductive art_node (V : Type) :=
  | Leaf (l : art_leaf V)
  | Node (n : art_header) (keys : list Z) (children : list (option (art_node V))).
Arguments Leaf {V} l.
Arguments Node {V} n keys children.

Record art_tree (V : Type) := mk_tree { root : option (art_node V); size : nat }.
Arguments mk_tree {V} _ _.
Arguments root {V} _.
Arguments size {V} _.

Definition keys_size (t : node_type) : nat := match t with NODE4 => 4 | NODE16 => 16 | NODE32 => 32 | NODE48 => 256 | NODE256 => 0 end.
Definition children_size (t : node_type) : nat := match t with NODE4 => 4 | NODE16 => 16 | NODE32 => 32 | NODE48 => 48 | NODE256 => 256 end.

Definition set_num_children (k : nat) (n : art_header) : art_header := mk_header (n_type n) k (partial_len n) (partial n).
Definition set_partial (k : nat) (p : list Z) (n : art_header) : art_header := mk_header (n_type n) (num_children n) k p.
(** [n->num_children++] and [n->num_children--] on a byte *)
Definition inc_num (n : art_header) : art_header := set_num_children ((num_children n + 1) mod 256) n.
Definition dec_num (n : art_header) : art_header := set_num_children ((num_children n + 255) mod 256) n.

Section Art.
Context {V : Type}.
Variable amd64 : bool.
Implicit Types (n : art_header) (keys : list Z) (ch : list (option (art_node V))).

Definition alloc_header (t : node_type) : art_header := mk_header t 0 0 (replicate MAX_PREFIX_LEN 0%Z).
Definition alloc_keys (t : node_type) : list Z := replicate (keys_size t) 0%Z.
Definition alloc_children (t : node_type) : list (option (art_node V)) := replicate (children_size t) None.

Definition art_tree_init : art_tree V := mk_tree None 0.

(** The nesting of nodes: how often a loop goes down. *)
Fixpoint height (x : art_node V) : nat :=
  match x with
  | Leaf _ => 1
  | Node _ _ ch => S (list_max (map (fun o => match o with Some x => height x | None => 0 end) ch))
  end.
Definition root_height (o : option (art_node V)) : nat := match o with Some x => height x | None => 0 end.

(** The slot of a child, if there is one. *)
Definition find_child n keys ch (c : Z) : option (option nat) :=
  match n_type n with
  | NODE4 | NODE32 => i ← scan_to (fun k => (k =? c)%Z) keys (num_children n) 0; Some (if i <? num_children n then Some i else None)
  | NODE16 =>
    let mask := (Z.shiftl 1 (Z.of_nat (num_children n)) - 1)%Z in
    let bitfield := Z.land (movemask (map (fun k => (k =? c)%Z) keys)) mask in
    Some (if (bitfield =? 0)%Z then None else Some (ctz 16 bitfield 0))
  | NODE48 => i ← keys !! Z.to_nat c; Some (if (i =? 0)%Z then None else Some (Z.to_nat (i - 1)))
  | NODE256 => o ← ch !! Z.to_nat c; Some (if bool_decide (is_Some o) then Some (Z.to_nat c) else None)
  end.

Definition check_prefix n (k : list Z) (klen depth : nat) : option nat :=
  matching ((partial_len n `min` MAX_PREFIX_LEN) `min` (klen - depth)) (partial n) 0 k depth.

(** [memcmp] of the whole keys *)
Definition leaf_matches (l : art_leaf V) (k : list Z) (klen : nat) : option bool :=
  if l_key_len l =? klen then a ← sub (l_key l) 0 klen; b ← sub k 0 klen; Some (bool_decide (a = b)) else Some false.

(** Whether the prefix of a node may be passed. *)
Definition pass_prefix n (k : list Z) (klen depth : nat) : option bool :=
  if partial_len n =? 0 then Some true else r ← check_prefix n k klen depth; Some (r =? MAX_PREFIX_LEN `min` partial_len n).

(** The child for the next byte. *)
Definition next_child n keys ch (c : Z) : option (option (art_node V)) :=
  i ← find_child n keys ch c; match i with Some i => ch !! i | None => Some None end.

Fixpoint search_loop (fuel : nat) (o : option (art_node V)) (k : list Z) (klen depth : nat) : option (option V) :=
  match o with
  | None => Some None
  | Some x =>
    match fuel with
    | O => None
    | S fuel =>
      match x with
      | Leaf l => b ← leaf_matches l k klen; Some (if b : bool then Some (l_value l) else None)
      | Node n keys ch =>
        ok ← pass_prefix n k klen depth;
        if ok : bool then
          let depth := depth + partial_len n in
          c ← k !! depth;
          x ← next_child n keys ch c;
          search_loop fuel x k klen (S depth)
        else Some None
      end
    end
  end.

Definition art_search (t : art_tree V) (k : list Z) (klen : nat) : option (option V) := search_loop (root_height (root t)) (root t) k klen 0.

(** The slots of the first and of the last child. *)
Definition min_slot n keys ch : option nat :=
  match n_type n with
  | NODE4 | NODE16 | NODE32 => Some 0
  | NODE48 => i ← scan_up (fun k => negb (k =? 0)%Z) keys 0; k ← keys !! i; Some (Z.to_nat (k - 1))
  | NODE256 => scan_up (fun o => bool_decide (is_Some o)) ch 0
  end.
Definition max_slot n keys ch : option nat :=
  match n_type n with
  | NODE4 | NODE16 | NODE32 => if num_children n =? 0 then None else Some (num_children n - 1)
  | NODE48 => i ← scan_down (fun k => negb (k =? 0)%Z) keys; k ← keys !! i; Some (Z.to_nat (k - 1))
  | NODE256 => scan_down (fun o => bool_decide (is_Some o)) ch
  end.

(** Going down along the slots that are chosen. *)
Fixpoint descend (slot : art_header -> list Z -> list (option (art_node V)) -> option nat) (fuel : nat) (o : option (art_node V)) : option (option (art_leaf V)) :=
  match o with
  | None => Some None
  | Some x =>
    match fuel with
    | O => None
    | S fuel =>
      match x with
      | Leaf l => Some (Some l)
      | Node n keys ch => i ← slot n keys ch; o ← ch !! i; descend slot fuel o
      end
    end
  end.
Definition minimum (o : option (art_node V)) : option (option (art_leaf V)) := descend min_slot (root_height o) o.
Definition maximum (o : option (art_node V)) : option (option (art_leaf V)) := descend max_slot (root_height o) o.
Definition art_minimum (t : art_tree V) : option (option (art_leaf V)) := minimum (root t).
Definition art_maximum (t : art_tree V) : option (option (art_leaf V)) := maximum (root t).

Definition make_leaf (k : list Z) (klen : nat) (v : V) : option (art_leaf V) := b ← sub k 0 klen; Some (mk_leaf v klen (b ++ [0%Z])).

Definition longest_common_prefix (l1 l2 : art_leaf V) (depth : nat) : option nat :=
  matching ((l_key_len l1 `min` l_key_len l2) - depth) (l_key l1) depth (l_key l2) depth.

(** [copy_header] to a new node *)
Definition copy_header (dest src : art_header) : option art_header :=
  bs ← sub (partial src) 0 (MAX_PREFIX_LEN `min` partial_len src);
  p ← blit (partial dest) 0 bs;
  Some (mk_header (n_type dest) (num_children src) (partial_len src) p).

(** ** Adding a child *)

Definition add_child256 n keys ch (c : Z) (x : art_node V) : option (art_node V) :=
  ch ← set_at ch (Z.to_nat c) (Some x);
  Some (Node (inc_num n) keys ch).

(** The loop over the keys of a node that becomes a NODE256. *)
Fixpoint grow48 (keys : list Z) (ch new : list (option (art_node V))) (m i : nat) : option (list (option (art_node V))) :=
  match m with
  | O => Some new
  | S m =>
    k ← keys !! i;
    if (k =? 0)%Z then grow48 keys ch new m (S i)
    else o ← ch !! Z.to_nat (k - 1); new ← set_at new i o; grow48 keys ch new m (S i)
  end.

Definition add_child48 n keys ch (c : Z) (x : art_node V) : option (art_node V) :=
  if num_children n <? 48 then
    pos ← scan_up (fun o => negb (bool_decide (is_Some o))) ch 0;
    ch ← set_at ch pos (Some x);
    keys ← set_at keys (Z.to_nat c) (Z.of_nat (pos + 1));
    Some (Node (inc_num n) keys ch)
  else
    new ← grow48 keys ch (alloc_children NODE256) 256 0;
    n' ← copy_header (alloc_header NODE256) n;
    add_child256 n' (alloc_keys NODE256) new c x.

(** Opening a slot for a child. *)
Definition insert_slot n keys ch (idx : nat) (c : Z) (x : art_node V) : option (art_node V) :=
  keys ← memmove keys (idx + 1) idx (num_children n - idx);
  ch ← memmove ch (idx + 1) idx (num_children n - idx);
  keys ← set_at keys idx c;
  ch ← set_at ch idx (Some x);
  Some (Node (inc_num n) keys ch).

(** The loop over the keys of a node that becomes a NODE48. *)
Fixpoint grow32 (keys new : list Z) (m i : nat) : option (list Z) :=
  match m with
  | O => Some new
  | S m => k ← keys !! i; new ← set_at new (Z.to_nat k) (Z.of_nat (i + 1)); grow32 keys new m (S i)
  end.

Definition add_child32 n keys ch (c : Z) (x : art_node V) : option (art_node V) :=
  if num_children n <? 32 then
    idx ← scan_to (fun k => (c <? k)%Z) keys (num_children n) 0;
    insert_slot n keys ch idx c x
  else
    bs ← sub ch 0 (num_children n);
    new ← blit (alloc_children NODE48) 0 bs;
    newk ← grow32 keys (alloc_keys NODE48) (num_children n) 0;
    n' ← copy_header (alloc_header NODE48) n;
    add_child48 n' newk new c x.

(** The comparison is of signed bytes where SSE2 is used. *)
Definition less16 (c k : Z) : bool := if amd64 then (signed_char c <? signed_char k)%Z else (c <? k)%Z.

Definition add_child16 n keys ch (c : Z) (x : art_node V) : option (art_node V) :=
  if num_children n <? 16 then
    let mask := (Z.shiftl 1 (Z.of_nat (num_children n)) - 1)%Z in
    let bitfield := Z.land (movemask (map (less16 c) keys)) mask in
    let idx := if (bitfield =? 0)%Z then num_children n else ctz 16 bitfield 0 in
    insert_slot n keys ch idx c x
  else
    bs ← sub ch 0 (num_children n);
    new ← blit (alloc_children NODE32) 0 bs;
    ks ← sub keys 0 (num_children n);
    newk ← blit (alloc_keys NODE32) 0 ks;
    n' ← copy_header (alloc_header NODE32) n;
    add_child32 n' newk new c x.

Definition add_child4 n keys ch (c : Z) (x : art_node V) : option (art_node V) :=
  if num_children n <? 4 then
    idx ← scan_to (fun k => (c <? k)%Z) keys (num_children n) 0;
    insert_slot n keys ch idx c x
  else
    bs ← sub ch 0 (num_children n);
    new ← blit (alloc_children NODE16) 0 bs;
    ks ← sub keys 0 (num_children n);
    newk ← blit (alloc_keys NODE16) 0 ks;
    n' ← copy_header (alloc_header NODE16) n;
    add_child16 n' newk new c x.

Definition add_child n keys ch (c : Z) (x : art_node V) : option (art_node V) :=
  match n_type n with
  | NODE4 => add_child4 n keys ch c x
  | NODE16 => add_child16 n keys ch c x
  | NODE32 => add_child32 n keys ch c x
  | NODE48 => add_child48 n keys ch c x
  | NODE256 => add_child256 n keys ch c x
  end.

(** ** Inserting *)

Definition prefix_mismatch n keys ch (k : list Z) (klen depth : nat) : option nat :=
  let max_cmp := (MAX_PREFIX_LEN `min` partial_len n) `min` (klen - depth) in
  idx ← matching max_cmp (partial n) 0 k depth;
  if idx <? max_cmp then Some idx
  else if MAX_PREFIX_LEN <? partial_len n then
    o ← minimum (Some (Node n keys ch));
    l ← o;
    r ← matching ((l_key_len l `min` klen) - depth - idx) (l_key l) (idx + depth) k (depth + idx);
    Some (idx + r)
  else Some idx.

(** The new node above a leaf and a new leaf. *)
Definition split_leaf (l l2 : art_leaf V) (k : list Z) (depth : nat) : option (art_node V) :=
  longest_prefix ← longest_common_prefix l l2 depth;
  bs ← sub k depth (MAX_PREFIX_LEN `min` longest_prefix);
  p ← blit (partial (alloc_header NODE4)) 0 bs;
  c ← l_key l !! (depth + longest_prefix);
  x ← add_child4 (set_partial longest_prefix p (alloc_header NODE4)) (alloc_keys NODE4) (alloc_children NODE4) c (Leaf l);
  c2 ← l_key l2 !! (depth + longest_prefix);
  match x with
  | Node n keys ch => add_child4 n keys ch c2 (Leaf l2)
  | Leaf _ => None
  end.

(** The byte under which the old node goes, and its rest of the prefix. *)
Definition cut_prefix n keys ch (depth prefix_diff : nat) : option (Z * art_header) :=
  let rest := partial_len n - (prefix_diff + 1) in
  if partial_len n <=? MAX_PREFIX_LEN then
    c ← partial n !! prefix_diff;
    p ← memmove (partial n) 0 (prefix_diff + 1) (MAX_PREFIX_LEN `min` rest);
    Some (c, set_partial rest p n)
  else
    o ← minimum (Some (Node n keys ch));
    l ← o;
    c ← l_key l !! (depth + prefix_diff);
    bs ← sub (l_key l) (depth + prefix_diff + 1) (MAX_PREFIX_LEN `min` rest);
    p ← blit (partial n) 0 bs;
    Some (c, set_partial rest p n).

(** The new node above a node whose prefix the key leaves. *)
Definition split_prefix n keys ch (k : list Z) (klen : nat) (v : V) (depth prefix_diff : nat) : option (art_node V) :=
  bs ← sub (partial n) 0 (MAX_PREFIX_LEN `min` prefix_diff);
  p ← blit (partial (alloc_header NODE4)) 0 bs;
  r ← cut_prefix n keys ch depth prefix_diff;
  x ← add_child4 (set_partial prefix_diff p (alloc_header NODE4)) (alloc_keys NODE4) (alloc_children NODE4) r.1 (Node r.2 keys ch);
  l ← make_leaf k klen v;
  c ← k !! (depth + prefix_diff);
  match x with
  | Node n keys ch => add_child4 n keys ch c (Leaf l)
  | Leaf _ => None
  end.

(** The new value of [*ref], the old value that is returned, and [*old]. *)
Fixpoint recursive_insert (fuel : nat) (o : option (art_node V)) (k : list Z) (klen : nat) (v : V) (depth : nat) : option (art_node V * option V * bool) :=
  match o with
  | None => l ← make_leaf k klen v; Some (Leaf l, None, false)
  | Some x =>
    match fuel with
    | O => None
    | S fuel =>
      match x with
      | Leaf l =>
        b ← leaf_matches l k klen;
        if b : bool then Some (Leaf (mk_leaf v (l_key_len l) (l_key l)), Some (l_value l), true)
        else l2 ← make_leaf k klen v; x ← split_leaf l l2 k depth; Some (x, None, false)
      | Node n keys ch =>
        prefix_diff ← (if partial_len n =? 0 then Some 0 else prefix_mismatch n keys ch k klen depth);
        if partial_len n <=? prefix_diff then
          let depth := depth + partial_len n in
          c ← k !! depth;
          i ← find_child n keys ch c;
          match i with
          | Some i =>
            o ← ch !! i;
            r ← recursive_insert fuel o k klen v (depth + 1);
            ch ← set_at ch i (Some r.1.1);
            Some (Node n keys ch, r.1.2, r.2)
          | None => l ← make_leaf k klen v; x ← add_child n keys ch c (Leaf l); Some (x, None, false)
          end
        else x ← split_prefix n keys ch k klen v depth prefix_diff; Some (x, None, false)
      end
    end
  end.

Definition art_insert (t : art_tree V) (k : list Z) (klen : nat) (v : V) : option (art_tree V * option V) :=
  r ← recursive_insert (root_height (root t)) (root t) k klen v 0;
  Some (mk_tree (Some r.1.1) (if r.2 : bool then size t else S (size t)), r.1.2).

(** ** Deleting *)

(** The loop over the children of a node that becomes a NODE48. *)
Fixpoint shrink256 ch (newk : list Z) (new : list (option (art_node V))) (m i pos : nat) : option (list Z * list (option (art_node V))) :=
  match m with
  | O => Some (newk, new)
  | S m =>
    o ← ch !! i;
    match o with
    | Some x => new ← set_at new pos (Some x); newk ← set_at newk i (Z.of_nat (pos + 1)); shrink256 ch newk new m (S i) (S pos)
    | None => shrink256 ch newk new m (S i) pos
    end
  end.

Definition remove_child256 n keys ch (c : Z) : option (art_node V) :=
  ch ← set_at ch (Z.to_nat c) None;
  let n := dec_num n in
  if num_children n =? 37 then
    n' ← copy_header (alloc_header NODE48) n;
    r ← shrink256 ch (alloc_keys NODE48) (alloc_children NODE48) 256 0 0;
    Some (Node n' r.1 r.2)
  else Some (Node n keys ch).

(** The loop over the keys of a node that becomes a NODE32. *)
Fixpoint shrink48 keys ch (newk : list Z) (new : list (option (art_node V))) (m i child : nat) : option (list Z * list (option (art_node V))) :=
  match m with
  | O => Some (newk, new)
  | S m =>
    pos ← keys !! i;
    if (pos =? 0)%Z then shrink48 keys ch newk new m (S i) child
    else
      newk ← set_at newk child (Z.of_nat i);
      o ← ch !! Z.to_nat (pos - 1);
      new ← set_at new child o;
      shrink48 keys ch newk new m (S i) (S child)
  end.

Definition remove_child48 n keys ch (c : Z) : option (art_node V) :=
  pos ← keys !! Z.to_nat c;
  keys ← set_at keys (Z.to_nat c) 0%Z;
  ch ← (if (pos =? 0)%Z then None else set_at ch (Z.to_nat (pos - 1)) None);
  let n := dec_num n in
  if num_children n =? 31 then
    n' ← copy_header (alloc_header NODE32) n;
    r ← shrink48 keys ch (alloc_keys NODE32) (alloc_children NODE32) 256 0 0;
    Some (Node n' r.1 r.2)
  else Some (Node n keys ch).

(** Closing the slot of a child. *)
Definition close_slot n keys ch (pos : nat) : option (list Z * list (option (art_node V))) :=
  keys ← memmove keys pos (pos + 1) (num_children n - 1 - pos);
  ch ← memmove ch pos (pos + 1) (num_children n - 1 - pos);
  Some (keys, ch).

Definition remove_child32 n keys ch (pos : nat) : option (art_node V) :=
  r ← close_slot n keys ch pos;
  let n := dec_num n in
  if num_children n =? 15 then
    n' ← copy_header (alloc_header NODE16) n;
    ks ← sub r.1 0 16; newk ← blit (alloc_keys NODE16) 0 ks;
    os ← sub r.2 0 16; new ← blit (alloc_children NODE16) 0 os;
    Some (Node n' newk new)
  else Some (Node n r.1 r.2).

Definition remove_child16 n keys ch (pos : nat) : option (art_node V) :=
  r ← close_slot n keys ch pos;
  let n := dec_num n in
  if num_children n =? 3 then
    n' ← copy_header (alloc_header NODE4) n;
    ks ← sub r.1 0 4; newk ← blit (alloc_keys NODE4) 0 ks;
    os ← sub r.2 0 4; new ← blit (alloc_children NODE4) 0 os;
    Some (Node n' newk new)
  else Some (Node n r.1 r.2).

(** The prefix of a node, the byte and the prefix of its only child, as far as they fit. *)
Definition join_prefix n (c : Z) (m : art_header) : option art_header :=
  r ← (if partial_len n <? MAX_PREFIX_LEN then p ← set_at (partial n) (partial_len n) c; Some (p, partial_len n + 1) else Some (partial n, partial_len n));
  r ← (if r.2 <? MAX_PREFIX_LEN then
         let sub_prefix := partial_len m `min` (MAX_PREFIX_LEN - r.2) in
         bs ← sub (partial m) 0 sub_prefix; p ← blit r.1 r.2 bs; Some (p, r.2 + sub_prefix)
       else Some r);
  bs ← sub r.1 0 (r.2 `min` MAX_PREFIX_LEN);
  p ← blit (partial m) 0 bs;
  Some (set_partial (partial_len m + partial_len n + 1) p m).

Definition remove_child4 n keys ch (pos : nat) : option (art_node V) :=
  r ← close_slot n keys ch pos;
  let n := dec_num n in
  if num_children n =? 1 then
    o ← r.2 !! 0;
    x ← o;
    match x with
    | Leaf _ => Some x
    | Node m ks os => c ← r.1 !! 0; m ← join_prefix n c m; Some (Node m ks os)
    end
  else Some (Node n r.1 r.2).

(** The node without the child at the slot [pos], of the byte [c]. *)
Definition remove_child n keys ch (c : Z) (pos : nat) : option (art_node V) :=
  match n_type n with
  | NODE4 => remove_child4 n keys ch pos
  | NODE16 => remove_child16 n keys ch pos
  | NODE32 => remove_child32 n keys ch pos
  | NODE48 => remove_child48 n keys ch c
  | NODE256 => remove_child256 n keys ch c
  end.

(** The leaf that is found, and the new value of [*ref]. *)
Fixpoint recursive_delete (fuel : nat) (o : option (art_node V)) (k : list Z) (klen depth : nat) : option (option (art_leaf V) * option (art_node V)) :=
  match o with
  | None => Some (None, None)
  | Some x =>
    match fuel with
    | O => None
    | S fuel =>
      match x with
      | Leaf l => b ← leaf_matches l k klen; Some (if b : bool then (Some l, None) else (None, Some x))
      | Node n keys ch =>
        ok ← pass_prefix n k klen depth;
        if ok : bool then
          let depth := depth + partial_len n in
          c ← k !! depth;
          i ← find_child n keys ch c;
          match i with
          | None => Some (None, Some x)
          | Some i =>
            o ← ch !! i;
            match o with
            | Some (Leaf l) =>
              b ← leaf_matches l k klen;
              if b : bool then x ← remove_child n keys ch c i; Some (Some l, Some x) else Some (None, Some x)
            | _ =>
              r ← recursive_delete fuel o k klen (depth + 1);
              ch ← set_at ch i r.2;
              Some (r.1, Some (Node n keys ch))
            end
          end
        else Some (None, Some x)
      end
    end
  end.

Definition art_delete (t : art_tree V) (k : list Z) (klen : nat) : option (art_tree V * option V) :=
  r ← recursive_delete (root_height (root t)) (root t) k klen 0;
  Some (match r.1 with
        | Some l => (mk_tree r.2 (size t - 1), Some (l_value l))
        | None => (mk_tree r.2 (size t), None)
        end).

(** ** Iterating *)

(** The callback gets the key and the value of a leaf, and stops the iteration with a
    result that is not 0. *)
Context {D : Type}.
Definition art_callback := D -> list Z -> nat -> V -> D * Z.

(** The children in the order in which they are visited. *)
Definition visit_slots n keys ch : option (list (option (art_node V))) :=
  match n_type n with
  | NODE4 | NODE16 | NODE32 => sub ch 0 (num_children n)
  | NODE48 => mapM (fun k => ch !! Z.to_nat (k - 1)) (filter (fun k => k <> 0%Z) keys)
  | NODE256 => Some (filter (fun o => is_Some o) ch)
  end.

Fixpoint iter_list (f : option (art_node V) -> D -> option (D * Z)) (l : list (option (art_node V))) (d : D) : option (D * Z) :=
  match l with
  | [] => Some (d, 0%Z)
  | o :: l => r ← f o d; if (r.2 =? 0)%Z then iter_list f l r.1 else Some r
  end.

Fixpoint recursive_iter (fuel : nat) (cb : art_callback) (o : option (art_node V)) (d : D) : option (D * Z) :=
  match o with
  | None => Some (d, 0%Z)
  | Some x =>
    match fuel with
    | O => None
    | S fuel =>
      match x with
      | Leaf l => Some (cb d (l_key l) (l_key_len l) (l_value l))
      | Node n keys ch => l ← visit_slots n keys ch; iter_list (recursive_iter fuel cb) l d
      end
    end
  end.
Definition art_iter (t : art_tree V) (cb : art_callback) (d : D) : option (D * Z) := recursive_iter (root_height (root t)) cb (root t) d.

(** [memcmp(n->key, prefix, prefix_len)] *)
Definition leaf_prefix_matches (l : art_leaf V) (prefix : list Z) (prefix_len : nat) : option bool :=
  if l_key_len l <? prefix_len then Some false
  else a ← sub (l_key l) 0 prefix_len; b ← sub prefix 0 prefix_len; Some (bool_decide (a = b)).

Fixpoint iter_prefix_loop (fuel : nat) (cb : art_callback) (o : option (art_node V)) (k : list Z) (klen depth : nat) (d : D) : option (D * Z) :=
  match o with
  | None => Some (d, 0%Z)
  | Some x =>
    match fuel with
    | O => None
    | S fuel =>
      match x with
      | Leaf l => b ← leaf_prefix_matches l k klen; Some (if b : bool then cb d (l_key l) (l_key_len l) (l_value l) else (d, 0%Z))
      | Node n keys ch =>
        if depth =? klen then
          o ← minimum (Some x);
          l ← o;
          b ← leaf_prefix_matches l k klen;
          if b : bool then recursive_iter (height x) cb (Some x) d else Some (d, 0%Z)
        else
          prefix_len ← (if partial_len n =? 0 then Some 0 else r ← prefix_mismatch n keys ch k klen depth; Some (r `min` partial_len n));
          if negb (partial_len n =? 0) && (prefix_len =? 0) then Some (d, 0%Z)
          else if negb (partial_len n =? 0) && (depth + prefix_len =? klen) then recursive_iter (height x) cb (Some x) d
          else
            let depth := depth + partial_len n in
            c ← k !! depth;
            x ← next_child n keys ch c;
            iter_prefix_loop fuel cb x k klen (depth + 1) d
      end
    end
  end.
Definition art_iter_prefix (t : art_tree V) (k : list Z) (klen : nat) (cb : art_callback) (d : D) : option (D * Z) := iter_prefix_loop (root_height (root t)) cb (root t) k klen 0 d.

(** ** Prefixes of a string *)

(** [memcmp(str, n->key, n->key_len)] *)
Definition str_prefix_matches (l : art_leaf V) (str : list Z) (str_len : nat) : option bool :=
  if str_len <? l_key_len l then Some false
  else a ← sub str 0 (l_key_len l); b ← sub (l_key l) 0 (l_key_len l); Some (bool_decide (a = b)).

(** The leaf under the zero byte. *)
Definition zero_leaf n keys ch : option (option (art_leaf V)) :=
  m ← next_child n keys ch 0; Some (match m with Some (Leaf l) => Some l | _ => None end).

Fixpoint substring_loop (fuel : nat) (o : option (art_node V)) (str : list Z) (str_len depth : nat) (found : option (art_leaf V)) : option (option (art_leaf V)) :=
  match o with
  | None => Some found
  | Some x =>
    match fuel with
    | O => None
    | S fuel =>
      match x with
      | Leaf l => b ← str_prefix_matches l str str_len; Some (if b : bool then Some l else found)
      | Node n keys ch =>
        m ← zero_leaf n keys ch;
        found ← (match m with Some l => b ← str_prefix_matches l str str_len; Some (if b : bool then Some l else found) | None => Some found end);
        ok ← pass_prefix n str str_len depth;
        if ok : bool then
          let depth := depth + partial_len n in
          c ← str !! depth;
          x ← next_child n keys ch c;
          substring_loop fuel x str str_len (S depth) found
        else Some found
      end
    end
  end.

(** [art_copy_key]: as much of the key as fits *)
Definition art_copy_key (l : art_leaf V) (klen : nat) : option (list Z) := sub (l_key l) 0 (if klen <? l_key_len l then klen else l_key_len l).

(** The value of the leaf that is found and the copy of its key, when a buffer is given. *)
Definition art_substring (t : art_tree V) (str : list Z) (str_len : nat) (klen : option nat) : option (option (V * option (list Z))) :=
  found ← substring_loop (root_height (root t)) (root t) str str_len 0 None;
  match found with
  | None => Some None
  | Some l => k ← (match klen with Some klen => Some <$> art_copy_key l klen | None => Some None end); Some (Some (l_value l, k))
  end.

(** The function that is called gets the key, whether it is shorter than the string,
    and the value; it stops the walk with a result that is not 0. *)
Definition walk_func := D -> list Z -> nat -> bool -> V -> D * Z.

Definition walk_leaf (func : walk_func) (l : art_leaf V) (str_len : nat) (d : D) : D * Z :=
  func d (l_key l) (l_key_len l) (negb (l_key_len l =? str_len)) (l_value l).

Fixpoint walk_loop (fuel : nat) (func : walk_func) (o : option (art_node V)) (str : list Z) (str_len depth : nat) (d : D) (stop : Z) : option D :=
  match o with
  | None => Some d
  | Some x =>
    if (stop =? 0)%Z then
      match fuel with
      | O => None
      | S fuel =>
        match x with
        | Leaf l => b ← str_prefix_matches l str str_len; Some (if b : bool then (walk_leaf func l str_len d).1 else d)
        | Node n keys ch =>
          m ← zero_leaf n keys ch;
          r ← (match m with Some l => b ← str_prefix_matches l str str_len; Some (if b : bool then walk_leaf func l str_len d else (d, stop)) | None => Some (d, stop) end);
          ok ← pass_prefix n str str_len depth;
          if ok : bool then
            let depth := depth + partial_len n in
            c ← str !! depth;
            x ← next_child n keys ch c;
            walk_loop fuel func x str str_len (S depth) r.1 r.2
          else Some r.1
        end
      end
    else Some d
  end.

Definition art_substring_walk (t : art_tree V) (str : list Z) (str_len : nat) (func : walk_func) (d : D) : option D :=
  walk_loop (root_height (root t)) func (root t) str str_len 0 d 0%Z.
End Art.
