(* ===== verification/ArtNode.v ===== *)
(** * The adaptive radix tree: its nodes (src/lib/art.c)

    Whatever its size, a node is a map from bytes to children: [child_at].  Finding,
    replacing, adding and removing a child are operations on this map, also where the
    node grows, shrinks or collapses. *)

From Stdlib Require Import ZArith Lia.
From stdpp Require Import base list numbers option.
From S2P Require Import Prelude Art.

Local Open Scope nat_scope.

(** ** Arrays *)

Lemma option_bind_ok {A B} (m : option A) (f : A -> option B) v : m = Some v -> m ≫= f = f v.
Proof. by intros ->. Qed.

Section Arrays.
Context {A : Type}.
Implicit Types (a b : list A).

Lemma sub_ok a p n : p + n <= length a -> sub a p n = Some (take n (drop p a)).
Proof. intros H. unfold sub. by rewrite (proj2 (Nat.leb_le _ _) H). Qed.

Lemma blit_ok a p bs : p + length bs <= length a -> blit a p bs = Some (take p a ++ bs ++ drop (p + length bs) a).
Proof. intros H. unfold blit. by rewrite (proj2 (Nat.leb_le _ _) H). Qed.

Lemma set_at_ok a i v : i < length a -> set_at a i v = Some (<[i := v]> a).
Proof. intros H. unfold set_at. by rewrite (proj2 (Nat.ltb_lt _ _) H). Qed.

Lemma take_drop_lookup a p n j : j < n -> take n (drop p a) !! j = a !! (p + j).
Proof. intros H. rewrite lookup_take_lt by done. apply lookup_drop. Qed.

Lemma blit_lookup a p bs b j : blit a p bs = Some b -> b !! j = if decide (p <= j < p + length bs) then bs !! (j - p) else a !! j.
Proof.
  unfold blit. destruct (Nat.leb_spec (p + length bs) (length a)); [|done]. intros [= <-]. destruct (decide (j < p)).
  { rewrite decide_False by lia. rewrite lookup_app_l by (rewrite length_take; lia). by apply lookup_take_lt. }
  rewrite lookup_app_r by (rewrite length_take; lia). rewrite length_take, Nat.min_l by lia. destruct (decide _).
  - by rewrite lookup_app_l by lia.
  - rewrite lookup_app_r by lia. rewrite lookup_drop. f_equal. lia.
Qed.

Lemma blit_length a p bs b : blit a p bs = Some b -> length b = length a.
Proof. unfold blit. destruct (Nat.leb_spec (p + length bs) (length a)); [|done]. intros [= <-]. rewrite !length_app, length_take, length_drop. lia. Qed.

Lemma memmove_ok a dst src n : dst + n <= length a -> src + n <= length a ->
  exists b, memmove a dst src n = Some b /\ length b = length a /\ forall j, b !! j = if decide (dst <= j < dst + n) then a !! (src + (j - dst)) else a !! j.
Proof.
  intros Hd Hs. unfold memmove. rewrite sub_ok by done. cbn. set (bs := take n (drop src a)). assert (length bs = n) as Hl by (subst bs; rewrite length_take, length_drop; lia).
  rewrite blit_ok by lia. eexists. split; [done|]. split; [rewrite !length_app, length_take, length_drop; lia|]. intros j. rewrite (blit_lookup a dst bs) by (by rewrite blit_ok by lia). rewrite Hl.
  destruct (decide _); [|done]. subst bs. by rewrite take_drop_lookup by lia.
Qed.

(** A slot is opened at [i] for [v]. *)
Lemma open_ok a i n v : i <= n < length a -> exists b b', memmove a (i + 1) i (n - i) = Some b /\ set_at b i v = Some b' /\ length b' = length a /\
  forall j, b' !! j = if decide (j = i) then Some v else if decide (i < j <= n) then a !! (j - 1) else a !! j.
Proof.
  intros Hi. destruct (memmove_ok a (i + 1) i (n - i)) as (b&Hb&Hl&Hj); [lia|lia|]. exists b. rewrite set_at_ok by lia. eexists. split_and!; [done|done|by rewrite length_insert|]. intros j.
  destruct (decide (j = i)) as [->|]; [by apply list_lookup_insert_eq; lia|]. rewrite list_lookup_insert_ne by done. rewrite Hj. repeat destruct (decide _); try lia; f_equal; lia.
Qed.

(** The slot [i] is closed. *)
Lemma close_ok a i n : i < n <= length a -> exists b, memmove a i (i + 1) (n - 1 - i) = Some b /\ length b = length a /\ forall j, j < n - 1 -> b !! j = if decide (j < i) then a !! j else a !! (S j).
Proof.
  intros Hi. destruct (memmove_ok a i (i + 1) (n - 1 - i)) as (b&Hb&Hl&Hj); [lia|lia|]. exists b. split_and!; [done|done|]. intros j Hjn. rewrite Hj. repeat destruct (decide _); try lia; f_equal; lia.
Qed.

Lemma scan_to_ok (f : A -> bool) a n i : i + n <= length a -> exists r, scan_to f a n i = Some r /\ i <= r <= i + n /\ (forall j x, i <= j < r -> a !! j = Some x -> f x = false) /\ (r < i + n -> exists x, a !! r = Some x /\ f x = true).
Proof.
  revert i. induction n as [|n IH]; intros i Hl; cbn [scan_to].
  - exists i. split_and!; [done|lia|lia|intros; lia|lia].
  - destruct (lookup_lt_is_Some_2 a i) as [x Hx]; [lia|]. rewrite Hx. cbn. destruct (f x) eqn:Hf.
    + exists i. split_and!; [done|lia|lia|intros; lia|intros _; eauto].
    + destruct (IH (S i)) as (r&Hr&Hb&Hn&Hy); [lia|]. exists r. split_and!; [done|lia|lia| |intros; apply Hy; lia].
      intros j y Hj Hjy. destruct (decide (j = i)) as [->|]; [congruence|]. eapply Hn; [|exact Hjy]. lia.
Qed.

Lemma scan_up_ok (f : A -> bool) a i : (exists j x, a !! j = Some x /\ f x = true) -> exists r x, scan_up f a i = Some (i + r) /\ a !! r = Some x /\ f x = true.
Proof.
  revert i. induction a as [|y a IH]; intros i (j&x&Hj&Hf); [done|]. cbn [scan_up]. destruct (f y) eqn:Hy; [exists 0, y; by rewrite Nat.add_0_r|].
  destruct j as [|j]; [cbn in Hj; congruence|]. destruct (IH (S i)) as (r&z&Hr&Hz&Hfz); [by exists j, x|]. exists (S r), z. by rewrite Hr, Nat.add_succ_r.
Qed.

Lemma copy_slots (n m : nat) (a : list A) (v : A) : n <= length a -> n <= m -> exists s b, sub a 0 n = Some s /\ blit (replicate m v) 0 s = Some b /\ length b = m /\ (forall j, j < n -> b !! j = a !! j) /\ forall j, n <= j < m -> b !! j = Some v.
Proof.
  intros Hn Hm. rewrite sub_ok by lia. rewrite drop_0. exists (take n a). assert (length (take n a) = n) as Hl by (rewrite length_take; lia). destruct (blit (replicate m v) 0 (take n a)) as [b|] eqn:Hb; [|by rewrite blit_ok in Hb by (rewrite length_replicate; lia)].
  exists b. pose proof (blit_length _ _ _ _ Hb) as Hlb. rewrite length_replicate in Hlb. split_and!; try done; intros j Hj; rewrite (blit_lookup _ _ _ _ _ Hb), Hl.
  - rewrite decide_True by lia. rewrite Nat.sub_0_r. by apply lookup_take_lt.
  - rewrite decide_False by lia. apply lookup_replicate_2. lia.
Qed.
End Arrays.

(** ** Bits *)

Lemma movemask_bit l i : Z.testbit (movemask l) (Z.of_nat i) = default false (l !! i).
Proof.
  revert i. induction l as [|b l IH]; intros i; cbn [movemask]; [by rewrite Z.testbit_0_l|]. destruct i as [|i]; cbn [lookup list_lookup].
  - rewrite Z.add_comm. change (Z.of_nat 0) with 0%Z. by rewrite Z.testbit_0_r.
  - rewrite Nat2Z.inj_succ, Z.add_comm. rewrite Z.testbit_succ_r by lia. apply IH.
Qed.

Lemma masked_bit l n i : Z.testbit (Z.land (movemask l) (Z.shiftl 1 (Z.of_nat n) - 1)) (Z.of_nat i) = (i <? n) && default false (l !! i).
Proof.
  rewrite Z.land_spec, movemask_bit, andb_comm. f_equal.
  replace (Z.shiftl 1 (Z.of_nat n) - 1)%Z with (Z.ones (Z.of_nat n)) by (unfold Z.ones; lia). destruct (Nat.ltb_spec i n); [apply Z.ones_spec_low; lia|apply Z.ones_spec_high; lia].
Qed.

Lemma ctz_ok n b i : (exists j, i <= j < i + n /\ Z.testbit b (Z.of_nat j) = true) -> i <= ctz n b i < i + n /\ Z.testbit b (Z.of_nat (ctz n b i)) = true /\ forall j, i <= j < ctz n b i -> Z.testbit b (Z.of_nat j) = false.
Proof.
  revert i. induction n as [|n IH]; intros i (j&Hj&Hb); [lia|]. cbn [ctz]. destruct (Z.testbit b (Z.of_nat i)) eqn:Hi; [split_and!; [lia|lia|done|intros; lia]|].
  destruct (IH (S i)) as (H1&H2&H3). { exists j. split; [|done]. destruct (decide (j = i)) as [->|]; [congruence|lia]. }
  split_and!; [lia|lia|done|]. intros k Hk. destruct (decide (k = i)) as [->|]; [done|]. apply H3. lia.
Qed.

(** The search of 16 bytes at once finds what a loop would find. *)
Lemma bitfield_ok (f : Z -> bool) keys n : length keys = 16 -> n <= 16 ->
  let b := Z.land (movemask (map f keys)) (Z.shiftl 1 (Z.of_nat n) - 1) in exists r, scan_to f keys n 0 = Some r /\ if (b =? 0)%Z then r = n else r = ctz 16 b 0 /\ r < n.
Proof.
  intros Hl Hn b. destruct (scan_to_ok f keys n 0) as (r&Hr&Hb&Hno&Hyes); [lia|]. exists r. split; [done|]. rewrite Nat.add_0_l in *.
  assert (forall i, Z.testbit b (Z.of_nat i) = (i <? n) && default false (f <$> keys !! i)) as Hbit by (intros i; subst b; rewrite masked_bit; by rewrite list_lookup_fmap).
  destruct (decide (r < n)) as [Hlt|Hge].
  - destruct (Hyes Hlt) as (x&Hx&Hfx). assert (Z.testbit b (Z.of_nat r) = true) as Hbr by (rewrite Hbit, Hx; cbn; rewrite Hfx, andb_true_r; by apply Nat.ltb_lt).
    destruct (Z.eqb_spec b 0) as [H0|_]; [rewrite H0, Z.testbit_0_l in Hbr; done|]. destruct (ctz_ok 16 b 0) as (H1&H2&H3); [exists r; split; [lia|done]|].
    destruct (lt_eq_lt_dec r (ctz 16 b 0)) as [[Hc|Hc]|Hc]; [rewrite (H3 r) in Hbr by lia; done|done|]. exfalso. rewrite Hbit in H2. destruct (keys !! ctz 16 b 0) as [y|] eqn:Hy; cbn in H2; [|by rewrite andb_false_r in H2].
    rewrite (Hno _ _ (conj (Nat.le_0_l _) Hc) Hy), andb_false_r in H2. done.
  - assert (r = n) as -> by lia. destruct (Z.eqb_spec b 0) as [H0|H0]; [done|]. exfalso. apply H0. apply Z.bits_inj_0. intros m. destruct (decide (m < 0)%Z); [by apply Z.testbit_neg_r|].
    replace m with (Z.of_nat (Z.to_nat m)) by lia. rewrite Hbit. destruct (Nat.ltb_spec (Z.to_nat m) n); [|done]. cbn. destruct (keys !! Z.to_nat m) as [y|] eqn:Hy; [|done]. cbn. eapply Hno; [|exact Hy]. lia.
Qed.

(** ** Counting *)

Fixpoint count {A} (f : A -> bool) (l : list A) : nat := match l with [] => 0 | x :: l => Nat.b2n (f x) + count f l end.

Lemma count_insert {A} (f : A -> bool) (l : list A) i x v : l !! i = Some x -> count f (<[i := v]> l) + Nat.b2n (f x) = count f l + Nat.b2n (f v).
Proof.
  revert i. induction l as [|y l IH]; intros i Hi; [done|]. destruct i as [|i]; [injection Hi as ->; cbn [count insert list_insert]; lia|].
  change (<[S i := v]> (y :: l)) with (y :: <[i := v]> l). cbn [count]. specialize (IH i Hi). lia.
Qed.

Lemma count_le {A} (f : A -> bool) (l : list A) : count f l <= length l.
Proof. induction l as [|x l IH]; cbn; [done|]. destruct (f x); cbn; lia. Qed.

Lemma count_free {A} (f : A -> bool) (l : list A) : count f l < length l -> exists i x, l !! i = Some x /\ f x = false.
Proof. induction l as [|x l IH]; cbn; intros H; [lia|]. destruct (f x) eqn:Hx; [|by exists 0, x]. cbn in H. destruct IH as (i&y&Hi&Hy); [lia|]. by exists (S i), y. Qed.

Lemma count_some {A} (f : A -> bool) (l : list A) : 0 < count f l -> exists i x, l !! i = Some x /\ f x = true.
Proof. induction l as [|x l IH]; cbn; intros H; [lia|]. destruct (f x) eqn:Hx; [by exists 0, x|]. cbn in H. destruct IH as (i&y&Hi&Hy); [lia|]. by exists (S i), y. Qed.

Lemma count_replicate {A} (f : A -> bool) n (v : A) : f v = false -> count f (replicate n v) = 0.
Proof. intros Hv. induction n; cbn; [done|]. by rewrite Hv. Qed.

Lemma count_app {A} (f : A -> bool) (l1 l2 : list A) : count f (l1 ++ l2) = count f l1 + count f l2.
Proof. induction l1 as [|x l1 IH]; cbn; lia. Qed.

Lemma count_all {A} (f : A -> bool) (l : list A) n : n <= length l -> (forall i x, l !! i = Some x -> f x = (i <? n)) -> count f l = n.
Proof.
  revert n. induction l as [|x l IH]; intros n Hn Hf; cbn [count length] in *; [lia|]. rewrite (Hf 0 x eq_refl). destruct n as [|n].
  - change (Nat.b2n (0 <? 0)) with 0. apply IH; [lia|]. intros i y Hi. rewrite (Hf (S i) y Hi). done.
  - change (Nat.b2n (0 <? S n)) with 1. cbn [plus]. f_equal. apply IH; [lia|]. intros i y Hi. rewrite (Hf (S i) y Hi). done.
Qed.

Lemma count_ext {A B} (f : A -> bool) (g : B -> bool) (l : list A) (k : list B) : length l = length k -> (forall i x y, l !! i = Some x -> k !! i = Some y -> f x = g y) -> count f l = count g k.
Proof.
  revert k. induction l as [|x l IH]; intros [|y k] Hl Hf; try done. cbn [count]. rewrite (Hf 0 x y) by done. f_equal. apply IH; [by injection Hl|]. intros i a b Ha Hb. by apply (Hf (S i)).
Qed.

(** ** The map of a node *)

Definition is_used {A} (o : option A) : bool := bool_decide (is_Some o).
Definition is_key (k : Z) : bool := negb (k =? 0)%Z.

Lemma used_insert {A} (ch : list (option A)) i x : ch !! i = Some None -> count is_used (<[i := Some x]> ch) = S (count is_used ch).
Proof. intros Hi. pose proof (count_insert is_used ch i _ (Some x) Hi) as Hc. change (is_used (Some x)) with true in Hc. change (is_used (@None A)) with false in Hc. cbn [Nat.b2n] in Hc. lia. Qed.

Lemma used_clear {A} (ch : list (option A)) i x : ch !! i = Some (Some x) -> S (count is_used (<[i := None]> ch)) = count is_used ch.
Proof. intros Hi. pose proof (count_insert is_used ch i _ None Hi) as Hc. change (is_used (Some x)) with true in Hc. change (is_used (@None A)) with false in Hc. cbn [Nat.b2n] in Hc. lia. Qed.

Lemma key_insert keys i k : keys !! i = Some 0%Z -> k <> 0%Z -> count is_key (<[i := k]> keys) = S (count is_key keys).
Proof. intros Hi Hk. pose proof (count_insert is_key keys i _ k Hi) as Hc. change (is_key 0) with false in Hc. assert (is_key k = true) as Hk' by (unfold is_key; by rewrite (proj2 (Z.eqb_neq k 0) Hk)). rewrite Hk' in Hc. cbn [negb Nat.b2n] in Hc. lia. Qed.

Lemma key_clear keys i k : keys !! i = Some k -> k <> 0%Z -> S (count is_key (<[i := 0%Z]> keys)) = count is_key keys.
Proof. intros Hi Hk. pose proof (count_insert is_key keys i _ 0%Z Hi) as Hc. change (is_key 0) with false in Hc. assert (is_key k = true) as Hk' by (unfold is_key; by rewrite (proj2 (Z.eqb_neq k 0) Hk)). rewrite Hk' in Hc. cbn [negb Nat.b2n] in Hc. lia. Qed.

Section Nodes.
Context {A : Type}.
Implicit Types (n : art_header) (keys : list Z) (ch : list (option A)).

(** The slot of a byte. *)
Definition slot n keys (c : Z) (i : nat) : Prop :=
  match n_type n with
  | NODE4 | NODE16 | NODE32 => i < num_children n /\ keys !! i = Some c
  | NODE48 => keys !! Z.to_nat c = Some (Z.of_nat (S i))
  | NODE256 => i = Z.to_nat c
  end.

Definition child_at n keys ch (c : Z) : option A :=
  match n_type n with
  | NODE4 | NODE16 | NODE32 => match list_find (fun k => k = c) (take (num_children n) keys) with Some (i, _) => mjoin (ch !! i) | None => None end
  | NODE48 => match keys !! Z.to_nat c with Some k => if (k =? 0)%Z then None else mjoin (ch !! Z.to_nat (k - 1)) | None => None end
  | NODE256 => mjoin (ch !! Z.to_nat c)
  end.

(** The invariant of the arrays. *)
Definition array_ok n keys ch : Prop :=
  (forall i, i < num_children n -> exists c x, keys !! i = Some c /\ is_byte c /\ ch !! i = Some (Some x)) /\
  (forall i j c, i < num_children n -> j < num_children n -> keys !! i = Some c -> keys !! j = Some c -> i = j).

Definition index_ok n keys ch : Prop :=
  Forall (fun k => 0 <= k <= 48)%Z keys /\ count is_key keys = num_children n /\ count is_used ch = num_children n /\
  (forall c i, keys !! c = Some (Z.of_nat (S i)) -> exists x, ch !! i = Some (Some x)) /\
  (forall i x, ch !! i = Some (Some x) -> exists c, keys !! c = Some (Z.of_nat (S i))) /\
  (forall c c' i, keys !! c = Some (Z.of_nat (S i)) -> keys !! c' = Some (Z.of_nat (S i)) -> c = c').

Definition node_ok n keys ch : Prop :=
  length (partial n) = MAX_PREFIX_LEN /\ length keys = keys_size (n_type n) /\ length ch = children_size (n_type n) /\
  match n_type n with
  | NODE4 | NODE16 | NODE32 => num_children n <= children_size (n_type n) /\ array_ok n keys ch
  | NODE48 => index_ok n keys ch
  | NODE256 => count is_used ch mod 256 = num_children n
  end.

Lemma array_child n keys ch c x : array_ok n keys ch ->
  match list_find (fun k => k = c) (take (num_children n) keys) with Some (i, _) => mjoin (ch !! i) | None => None end = Some x <-> exists i, (i < num_children n /\ keys !! i = Some c) /\ ch !! i = Some (Some x).
Proof.
  intros [Hu Hi]. split.
  - destruct (list_find _ _) as [[i k]|] eqn:Hf; [|done]. apply list_find_Some in Hf as (Hk&->&_). apply lookup_take_Some in Hk as [Hk Hn]. intros Hx. exists i. split; [done|]. by destruct (ch !! i) as [[?|]|]; [injection Hx as ->| |].
  - intros (i&(Hn&Hk)&Hx). destruct (list_find _ _) as [[j k]|] eqn:Hf.
    + apply list_find_Some in Hf as (Hk'&->&_). apply lookup_take_Some in Hk' as [Hk' Hj]. rewrite (Hi j i c) by done. by rewrite Hx.
    + apply list_find_None in Hf. rewrite list.Forall_forall in Hf. exfalso. apply (Hf c); [|done]. apply list_elem_of_lookup. exists i. apply lookup_take_Some. done.
Qed.

Lemma child_at_slot n keys ch c x : node_ok n keys ch -> child_at n keys ch c = Some x <-> exists i, slot n keys c i /\ ch !! i = Some (Some x).
Proof.
  intros (_&_&_&Hn). unfold child_at, slot. destruct (n_type n).
  1-3: by apply array_child; apply Hn.
  - destruct Hn as (Hk&_). split.
    + destruct (keys !! Z.to_nat c) as [k|] eqn:Hc; [|done]. rewrite list.Forall_forall in Hk. specialize (Hk k ltac:(by eapply list_elem_of_lookup_2)). destruct (Z.eqb_spec k 0); [done|]. intros Hx. exists (Z.to_nat (k - 1)).
      split; [f_equal; lia|]. by destruct (ch !! _) as [[?|]|]; [injection Hx as ->| |].
    + intros (i&->&Hx). destruct (Z.eqb_spec (Z.of_nat (S i)) 0); [lia|]. replace (Z.to_nat (Z.of_nat (S i) - 1)) with i by lia. by rewrite Hx.
  - split; [|by intros (i&->&->)]. intros Hx. exists (Z.to_nat c). split; [done|]. by destruct (ch !! _) as [[?|]|]; [injection Hx as ->| |].
Qed.

Lemma slot_fun n keys ch c i j : node_ok n keys ch -> slot n keys c i -> slot n keys c j -> i = j.
Proof.
  intros (_&_&_&Hn). unfold slot. destruct (n_type n).
  1-3: by destruct Hn as (_&_&Hn); intros [H1 H2] [H3 H4]; eapply Hn.
  - intros H1 H2. rewrite H1 in H2. injection H2. lia.
  - by intros -> ->.
Qed.

Lemma slot_inj n keys ch c c' i : node_ok n keys ch -> is_byte c -> is_byte c' -> slot n keys c i -> slot n keys c' i -> c = c'.
Proof.
  intros (_&_&_&Hn) Hc Hc'. unfold slot. unfold is_byte in *. destruct (n_type n).
  1-3: intros [_ H1] [_ H2]; congruence.
  - destruct Hn as (_&_&_&_&_&Hn). intros H1 H2. specialize (Hn _ _ _ H1 H2). lia.
  - intros -> H. lia.
Qed.

(** Replacing a child keeps the slots. *)
Lemma set_child_ok n keys ch c i x y : node_ok n keys ch -> is_byte c -> slot n keys c i -> ch !! i = Some (Some x) ->
  node_ok n keys (<[i := Some y]> ch) /\ forall c', is_byte c' -> child_at n keys (<[i := Some y]> ch) c' = if decide (c' = c) then Some y else child_at n keys ch c'.
Proof.
  intros Hok Hc Hs Hx. assert (forall j z, ch !! j = Some (Some z) -> exists w, <[i := Some y]> ch !! j = Some (Some w)) as Hkeep.
  { intros j z Hj. destruct (decide (j = i)) as [->|]; [exists y; apply list_lookup_insert_eq; by eapply lookup_lt_Some|exists z; by rewrite list_lookup_insert_ne]. }
  assert (node_ok n keys (<[i := Some y]> ch)) as Hok'.
  { destruct Hok as (H1&H2&H3&Hn). split_and!; [done|done|by rewrite length_insert|]. pose proof (count_insert is_used ch i _ (Some y) Hx) as Hcount. cbn in Hcount.
    destruct (n_type n).
    1-3: destruct Hn as (Hle&Hu&Hi); split; [done|]; split; [|done]; intros j Hj; destruct (Hu j Hj) as (k&z&Hk&Hb&Hz); destruct (Hkeep j z Hz) as [w Hw]; by exists k, w.
    - destruct Hn as (N1&N2&N3&N4&N5&N6). split_and!; try done; [lia| |].
      + intros k j Hk. destruct (N4 k j Hk) as [z Hz]. by eapply Hkeep.
      + intros j z Hz. destruct (decide (j = i)) as [->|]; [by eapply N5|]. rewrite list_lookup_insert_ne in Hz by done. by eapply N5.
    - rewrite <- Hn. f_equal. lia. }
  split; [done|]. intros c' Hc'. destruct (decide (c' = c)) as [->|Hne].
  - apply child_at_slot; [done|]. exists i. split; [done|]. apply list_lookup_insert_eq. by eapply lookup_lt_Some.
  - apply option_eq. intros z. rewrite !child_at_slot by done. split; intros (j&Hj&Hz); exists j; (split; [done|]); assert (j <> i) by (intros ->; apply Hne; by eapply slot_inj).
    + by rewrite list_lookup_insert_ne in Hz.
    + by rewrite list_lookup_insert_ne.
Qed.
End Nodes.

(** ** Finding a child *)

Section Find.
Context {V : Type}.
Implicit Types (n : art_header) (keys : list Z) (ch : list (option (art_node V))).

Lemma find_array n keys ch c : array_ok n keys ch -> num_children n <= length keys -> exists i, scan_to (fun k => (k =? c)%Z) keys (num_children n) 0 = Some i /\
  if i <? num_children n then keys !! i = Some c else forall j, j < num_children n -> keys !! j <> Some c.
Proof.
  intros _ Hl. destruct (scan_to_ok (fun k => (k =? c)%Z) keys (num_children n) 0) as (i&Hi&Hb&Hno&Hyes); [lia|]. exists i. split; [done|]. destruct (Nat.ltb_spec i (num_children n)).
  - destruct Hyes as (x&Hx&Heq); [lia|]. apply Z.eqb_eq in Heq. congruence.
  - intros j Hj Hjc. specialize (Hno j c ltac:(lia) Hjc). by apply Z.eqb_neq in Hno.
Qed.

Lemma find_child_ok n keys ch c : node_ok n keys ch -> is_byte c ->
  (exists i x, find_child n keys ch c = Some (Some i) /\ slot n keys c i /\ ch !! i = Some (Some x) /\ child_at n keys ch c = Some x) \/ (find_child n keys ch c = Some None /\ child_at n keys ch c = None).
Proof.
  intros Hok Hc. pose proof Hok as (_&Hk&Hl&Hn).
  assert (forall r, find_child n keys ch c = Some r -> (match r with Some i => slot n keys c i /\ exists x, ch !! i = Some (Some x) | None => forall i x, slot n keys c i -> ch !! i = Some (Some x) -> False end) ->
    (exists i x, find_child n keys ch c = Some (Some i) /\ slot n keys c i /\ ch !! i = Some (Some x) /\ child_at n keys ch c = Some x) \/ (find_child n keys ch c = Some None /\ child_at n keys ch c = None)) as Hend.
  { intros [i|] Hf Hr; [left|right].
    - destruct Hr as [Hs [x Hx]]. exists i, x. split_and!; [done|done|done|]. apply child_at_slot; [done|]. by exists i.
    - split; [done|]. destruct (child_at n keys ch c) as [x|] eqn:Hx; [|done]. apply child_at_slot in Hx as (i&Hs&Hx); [|done]. by destruct (Hr i x Hs Hx). }
  unfold is_byte in Hc. unfold find_child, slot in *. destruct (n_type n) eqn:Ht; cbn [keys_size children_size] in *.
  1,3: destruct Hn as [Hle Ha]; destruct (find_array n keys ch c Ha) as (i&Hi&Hr); [lia|]; rewrite Hi in *; cbn [mbind option_bind] in *; apply (Hend _ eq_refl); destruct (Nat.ltb_spec i (num_children n));
    [split; [done|]; destruct (proj1 Ha i) as (?&x&?&?&?); [done|by exists x]|intros j x [Hj Hjc] _; by apply (Hr j)].
  - destruct Hn as [Hle Ha]. destruct (find_array n keys ch c Ha) as (i&Hi&Hr); [lia|]. destruct (bitfield_ok (fun k => (k =? c)%Z) keys (num_children n)) as (r&Hr'&Hb); [done|done|].
    rewrite Hi in Hr'. injection Hr' as <-. apply (Hend _ eq_refl). destruct (_ =? 0)%Z.
    + subst i. rewrite Nat.ltb_irrefl in Hr. intros j x [Hj Hjc] _. by apply (Hr j).
    + destruct Hb as [<- Hlt]. rewrite (proj2 (Nat.ltb_lt _ _) Hlt) in Hr. split; [done|]. destruct (proj1 Ha i) as (?&x&?&?&?); [done|by exists x].
  - destruct Hn as (N1&_&_&N4&_). destruct (lookup_lt_is_Some_2 keys (Z.to_nat c)) as [k Hkc]; [lia|]. rewrite Hkc in *. cbn [mbind option_bind] in *. apply (Hend _ eq_refl).
    rewrite list.Forall_forall in N1. specialize (N1 k ltac:(by eapply list_elem_of_lookup_2)). destruct (Z.eqb_spec k 0) as [->|].
    + intros i x [=].
    + assert (k = Z.of_nat (S (Z.to_nat (k - 1)))) as Hk1 by lia. split; [by f_equal|]. apply (N4 (Z.to_nat c)). by rewrite Hkc, <- Hk1.
  - destruct (lookup_lt_is_Some_2 ch (Z.to_nat c)) as [o Ho]; [lia|]. rewrite Ho in *. cbn [mbind option_bind] in *. apply (Hend _ eq_refl). destruct o as [x|].
    + rewrite bool_decide_eq_true_2 by done. split; [done|]. by exists x.
    + rewrite bool_decide_eq_false_2 by by intros []. intros i x -> Hx. congruence.
Qed.

Lemma next_child_ok n keys ch c : node_ok n keys ch -> is_byte c -> next_child n keys ch c = Some (child_at n keys ch c).
Proof. intros Hok Hc. unfold next_child. destruct (find_child_ok n keys ch c Hok Hc) as [(i&x&->&_&Hx& ->)|[-> ->]]; [exact Hx|done]. Qed.
End Find.

(** ** Sizes and prefixes *)

(** How many children a node of each size has at least. *)
Definition fill_ok {A} (n : art_header) (ch : list (option A)) : Prop :=
  match n_type n with
  | NODE4 => 2 <= num_children n
  | NODE16 => 4 <= num_children n
  | NODE32 => 16 <= num_children n
  | NODE48 => 32 <= num_children n
  | NODE256 => 38 <= count is_used ch
  end.

Definition prefix_part (n : art_header) : list Z := take (MAX_PREFIX_LEN `min` partial_len n) (partial n).
Definition same_prefix (n n' : art_header) : Prop := partial_len n' = partial_len n /\ prefix_part n' = prefix_part n.

Lemma same_prefix_trans n n1 n2 : same_prefix n n1 -> same_prefix n1 n2 -> same_prefix n n2.
Proof. intros [H1 H2] [H3 H4]. split; congruence. Qed.

Lemma copy_header_ok t n : length (partial n) = MAX_PREFIX_LEN ->
  exists n', copy_header (alloc_header t) n = Some n' /\ n_type n' = t /\ num_children n' = num_children n /\ length (partial n') = MAX_PREFIX_LEN /\ same_prefix n n'.
Proof.
  intros Hl. unfold copy_header. rewrite sub_ok by lia. cbn [mbind option_bind]. rewrite drop_0. fold (prefix_part n). assert (length (prefix_part n) = MAX_PREFIX_LEN `min` partial_len n) as Hp by (unfold prefix_part; rewrite length_take; lia).
  change (partial (alloc_header t)) with (replicate MAX_PREFIX_LEN 0%Z). rewrite blit_ok by (rewrite Hp, length_replicate; lia). rewrite take_0, app_nil_l. eexists. split; [done|]. cbn [n_type num_children partial_len partial]. split_and!; [done|done| |].
  - rewrite length_app, length_drop, Hp, length_replicate. lia.
  - split; [done|]. unfold prefix_part. cbn [partial_len partial]. by rewrite take_app_length' by (rewrite length_take; lia).
Qed.

Definition is_array (t : node_type) : Prop := t = NODE4 \/ t = NODE16 \/ t = NODE32.

Section Add.
Context {V : Type}.
Variable amd64 : bool.
Implicit Types (n : art_header) (keys : list Z) (ch : list (option (art_node V))).

Lemma array_slot n keys c i : is_array (n_type n) -> slot n keys c i <-> i < num_children n /\ keys !! i = Some c.
Proof. intros Ht. unfold slot. by destruct Ht as [->|[->| ->]]. Qed.

Lemma array_node n keys ch : is_array (n_type n) -> node_ok n keys ch <->
  length (partial n) = MAX_PREFIX_LEN /\ length keys = children_size (n_type n) /\ length ch = children_size (n_type n) /\ num_children n <= children_size (n_type n) /\ array_ok n keys ch.
Proof. intros Ht. unfold node_ok. by destruct Ht as [->|[->| ->]]. Qed.

Lemma array_small t : is_array t -> children_size t <= 32.
Proof. intros [->|[->| ->]]; cbn; lia. Qed.

(** No slot is in use for a byte without a child. *)
Lemma no_child_array n keys ch c : is_array (n_type n) -> node_ok n keys ch -> child_at n keys ch c = None -> forall i, i < num_children n -> keys !! i <> Some c.
Proof.
  intros Ht Hok Hn i Hi Hc. pose proof (proj1 (array_node n keys ch Ht) Hok) as (_&_&_&_&Hu&_). destruct (Hu i Hi) as (c'&x&_&_&Hx).
  assert (child_at n keys ch c = Some x) as Hx'; [|congruence]. apply child_at_slot; [done|]. exists i. split; [by apply array_slot|done].
Qed.

(** ** What adding a child does *)

Definition added n keys ch (c : Z) (x : art_node V) (r : option (art_node V)) : Prop :=
  exists n' keys' ch', r = Some (Node n' keys' ch') /\ node_ok n' keys' ch' /\ same_prefix n n' /\
    (fill_ok n ch \/ n_type n = NODE4 /\ 1 <= num_children n -> fill_ok n' ch') /\
    (n_type n = NODE4 -> num_children n = 0 -> n_type n' = NODE4 /\ num_children n' = 1) /\
    forall c', is_byte c' -> child_at n' keys' ch' c' = if decide (c' = c) then Some x else child_at n keys ch c'.

(** The same node in larger arrays. *)
Definition grown n keys ch n' keys' ch' : Prop :=
  node_ok n' keys' ch' /\ same_prefix n n' /\ num_children n' = num_children n /\ fill_ok n' ch' /\ forall c, is_byte c -> child_at n' keys' ch' c = child_at n keys ch c.

Lemma grown_added n keys ch n' keys' ch' c x r : grown n keys ch n' keys' ch' -> ~ (n_type n = NODE4 /\ num_children n = 0) -> added n' keys' ch' c x r -> added n keys ch c x r.
Proof.
  intros (_&Hp&Hn&Hf&Hm) Hz (n2&k2&c2&->&Hok&Hp2&Hf2&_&Hm2). exists n2, k2, c2. split_and!; [done|done|by eapply same_prefix_trans|by intros _; apply Hf2; left| |].
  { intros Ht H0. exfalso. apply Hz. done. }
  intros c' Hc'. rewrite Hm2 by done. destruct (decide _); [done|by apply Hm].
Qed.

Lemma inc_num_small n : num_children n < 255 -> num_children (inc_num n) = num_children n + 1.
Proof. intros Hn. cbn [num_children inc_num set_num_children]. apply Nat.mod_small. lia. Qed.

Lemma insert_slot_ok n keys ch idx c x : is_array (n_type n) -> node_ok n keys ch -> num_children n < children_size (n_type n) -> idx <= num_children n -> is_byte c -> child_at n keys ch c = None ->
  added n keys ch c x (insert_slot n keys ch idx c x).
Proof.
  intros Ht Hok Hlt Hidx Hc Hnone. pose proof (no_child_array n keys ch c Ht Hok Hnone) as Hno. pose proof (array_small _ Ht) as Hsm. pose proof (proj1 (array_node n keys ch Ht) Hok) as (H1&H2&H3&H4&Hu&Hinj).
  unfold insert_slot. destruct (open_ok keys idx (num_children n) c) as (k1&k2&Hk1&Hk2&Hkl&Hkj); [lia|]. destruct (open_ok ch idx (num_children n) (Some x)) as (c1&c2&Hc1&Hc2&Hcl&Hcj); [lia|].
  rewrite Hk1, Hc1. cbn [mbind option_bind]. rewrite Hk2, Hc2. cbn [mbind option_bind]. pose proof (inc_num_small n ltac:(lia)) as Hinc. assert (is_array (n_type (inc_num n))) as Ht' by done.
  assert (forall j d, j < num_children n + 1 -> k2 !! j = Some d -> j = idx /\ d = c \/ j <> idx /\ d <> c /\ exists i, i < num_children n /\ keys !! i = Some d /\ c2 !! j = ch !! i /\ j = (if decide (i < idx) then i else S i)) as Hback.
  { intros j d Hj Hd. rewrite Hkj in Hd. rewrite Hcj. destruct (decide (j = idx)) as [->|Hne]; [left; by injection Hd as ->|right]. split; [done|].
    destruct (decide (idx < j <= num_children n)).
    - split; [intros ->; by apply (Hno (j - 1)); [lia|]|]. exists (j - 1). split_and!; [lia|done|done|]. rewrite decide_False by lia. lia.
    - split; [intros ->; by apply (Hno j); [lia|]|]. exists j. split_and!; [lia|done|done|]. by rewrite decide_True by lia. }
  assert (forall i d, i < num_children n -> keys !! i = Some d -> exists j, j < num_children n + 1 /\ k2 !! j = Some d /\ c2 !! j = ch !! i) as Hforth.
  { intros i d Hi Hd. exists (if decide (i < idx) then i else S i). rewrite Hkj, Hcj. destruct (decide (i < idx)).
    - rewrite !(decide_False (P := i = idx)), !(decide_False (P := idx < i <= num_children n)) by lia. split_and!; [lia|done|done].
    - rewrite !(decide_False (P := S i = idx)), !(decide_True (P := idx < S i <= num_children n)) by lia. replace (S i - 1) with i by lia. split_and!; [lia|done|done]. }
  assert (node_ok (inc_num n) k2 c2) as Hok'.
  { apply array_node; [done|]. rewrite Hinc. change (n_type (inc_num n)) with (n_type n). split_and!; [done|congruence|congruence|lia|]. split; rewrite Hinc.
    - intros j Hj. destruct (lookup_lt_is_Some_2 k2 j) as [d Hd]; [lia|]. destruct (Hback j d Hj Hd) as [[-> ->]|(_&_&i&Hi&Hid&Hcj'&_)].
      + exists c, x. split_and!; [done|done|]. by rewrite Hcj, decide_True by done.
      + destruct (Hu i Hi) as (d'&y&Hd'&Hb&Hy). rewrite Hid in Hd'. injection Hd' as <-. exists d, y. split_and!; [done|done|congruence].
    - intros i j d Hi Hj Hdi Hdj. destruct (Hback i d Hi Hdi) as [[-> ->]|(A1&A2&a&A3&A4&_&A5)], (Hback j _ Hj Hdj) as [[-> E]|(B1&B2&b&B3&B4&_&B5)]; try done; try congruence.
      rewrite A5, B5, (Hinj a b d A3 B3 A4 B4). done. }
  exists (inc_num n), k2, c2. split_and!; [done|done|by split| |intros H0 H5; split; [done|lia]|].
  - unfold fill_ok. rewrite Hinc. change (n_type (inc_num n)) with (n_type n). destruct Ht as [->|[->| ->]]; intros [?|[? ?]]; try done; lia.
  - intros c' Hc'. apply option_eq. intros y. rewrite child_at_slot by done. setoid_rewrite array_slot; [|done]. rewrite Hinc. split.
    + intros (j&[Hj Hd]&Hy). destruct (Hback j c' Hj Hd) as [[-> ->]|(_&Hne&i&Hi&Hid&Hci&_)].
      * rewrite decide_True by done. by rewrite Hcj, decide_True in Hy by done; injection Hy as ->.
      * rewrite decide_False by done. apply child_at_slot; [done|]. exists i. split; [by apply array_slot|congruence].
    + destruct (decide (c' = c)) as [->|Hne].
      * intros [= ->]. exists idx. rewrite Hkj, Hcj, !decide_True by done. split_and!; [lia|done|done].
      * intros Hy. apply child_at_slot in Hy as (i&Hs&Hy); [|done]. apply array_slot in Hs as [Hi Hid]; [|done]. destruct (Hforth i c' Hi Hid) as (j&Hj&Hjd&Hjc). exists j. split_and!; [done|done|congruence].
Qed.

(** ** Copying an array to another size *)

Lemma array_copy n keys ch n' keys' ch' : is_array (n_type n) -> is_array (n_type n') -> node_ok n keys ch -> length (partial n') = MAX_PREFIX_LEN -> num_children n' = num_children n -> num_children n <= children_size (n_type n') ->
  length keys' = children_size (n_type n') -> length ch' = children_size (n_type n') -> (forall j, j < num_children n -> keys' !! j = keys !! j /\ ch' !! j = ch !! j) ->
  node_ok n' keys' ch' /\ forall c, is_byte c -> child_at n' keys' ch' c = child_at n keys ch c.
Proof.
  intros Ht Ht' Hok Hp Hn Hle Hk Hc Hj. pose proof (proj1 (array_node n keys ch Ht) Hok) as (_&_&_&_&Hu&Hinj). assert (node_ok n' keys' ch') as Hok'.
  { apply array_node; [done|]. split_and!; [done|done|done|lia|]. split; rewrite Hn.
    - intros i Hi. destruct (Hj i Hi) as [-> ->]. by apply Hu.
    - intros i j c Hi Hjn. destruct (Hj i Hi) as [-> _], (Hj j Hjn) as [-> _]. by apply Hinj. }
  split; [done|]. intros c Hb. apply option_eq. intros x. rewrite !child_at_slot by done. split; intros (i&Hs&Hx); exists i; (apply array_slot in Hs as [Hi Hs]; [|done]); rewrite array_slot by done.
  - rewrite Hn in *. destruct (Hj i Hi) as [<- <-]. done.
  - rewrite Hn. destruct (Hj i Hi) as [-> ->]. done.
Qed.

(** A full array is copied to the next size. *)
Lemma grow_array t n keys ch : is_array (n_type n) -> is_array t -> node_ok n keys ch -> num_children n = children_size (n_type n) -> children_size (n_type n) <= children_size t ->
  (t = NODE16 /\ n_type n = NODE4 \/ t = NODE32 /\ n_type n = NODE16) ->
  exists bs new ks newk n', sub ch 0 (num_children n) = Some bs /\ blit (alloc_children t) 0 bs = Some new /\ sub keys 0 (num_children n) = Some ks /\ blit (alloc_keys t) 0 ks = Some newk /\
    copy_header (alloc_header t) n = Some n' /\ grown n keys ch n' newk new /\ n_type n' = t.
Proof.
  intros Ht Ht' Hok Hn Hle Htt. pose proof (proj1 (array_node n keys ch Ht) Hok) as (H1&H2&H3&_&_). assert (keys_size t = children_size t) as Hks by (by destruct Ht' as [->|[->| ->]]).
  destruct (copy_slots (num_children n) (children_size t) ch None) as (bs&new&Hbs&Hnew&Hnl&Hnj&_); [lia|lia|]. destruct (copy_slots (num_children n) (keys_size t) keys 0%Z) as (ks&newk&Hks'&Hnewk&Hkl&Hkj&_); [lia|lia|].
  destruct (copy_header_ok t n H1) as (n'&Hn'&Htn&Hnn&Hpl&Hsp). exists bs, new, ks, newk, n'. split_and!; try done.
  destruct (array_copy n keys ch n' newk new) as [Hok' Hm]; try done; rewrite ?Htn; try done; [lia|congruence|intros j Hj; split; [by apply Hkj|by apply Hnj]|].
  split_and!; [done|done|done| |done]. unfold fill_ok. rewrite Htn, Hnn, Hn. by destruct Htt as [[-> ->]|[-> ->]]; cbn; lia.
Qed.

(** ** NODE256 *)

Lemma add_child256_ok n keys ch c x : n_type n = NODE256 -> node_ok n keys ch -> is_byte c -> child_at n keys ch c = None -> added n keys ch c x (add_child256 n keys ch c x).
Proof.
  intros Ht Hok Hc Hnone. pose proof Hok as (H1&H2&H3&Hn). rewrite Ht in *. unfold is_byte in Hc. cbn [keys_size children_size] in *. unfold add_child256. rewrite set_at_ok by lia. cbn [mbind option_bind].
  destruct (lookup_lt_is_Some_2 ch (Z.to_nat c)) as [o Ho]; [lia|]. unfold child_at in Hnone. rewrite Ht, Ho in Hnone. cbn in Hnone. subst o. pose proof (used_insert ch _ x Ho) as Hcnt.
  eexists _, _, _. split_and!; [done| |done| |by rewrite Ht|].
  - split_and!; [done|by cbn; rewrite Ht|cbn; rewrite Ht, length_insert; done|]. cbn [n_type inc_num set_num_children num_children]. rewrite Ht. rewrite <- Hn. rewrite Nat.Div0.add_mod_idemp_l. f_equal. lia.
  - unfold fill_ok. cbn [n_type inc_num set_num_children]. rewrite Ht. intros [?|[? _]]; [lia|done].
  - intros c' Hc'. unfold is_byte in Hc'. unfold child_at. cbn [n_type inc_num set_num_children]. rewrite Ht. destruct (decide (c' = c)) as [->|Hne].
    + by rewrite list_lookup_insert_eq by lia.
    + rewrite list_lookup_insert_ne by lia. done.
Qed.

(** ** NODE48 *)

Lemma no_child_index n keys ch c : n_type n = NODE48 -> node_ok n keys ch -> is_byte c -> child_at n keys ch c = None -> keys !! Z.to_nat c = Some 0%Z.
Proof.
  intros Ht Hok Hc Hnone. pose proof Hok as (_&H2&_&Hn). rewrite Ht in *. destruct Hn as (N1&_&_&N4&_). unfold is_byte in Hc. cbn [keys_size] in H2. destruct (lookup_lt_is_Some_2 keys (Z.to_nat c)) as [k Hk]; [lia|]. rewrite Hk. f_equal.
  rewrite list.Forall_forall in N1. specialize (N1 k ltac:(by eapply list_elem_of_lookup_2)). unfold child_at in Hnone. rewrite Ht, Hk in Hnone. destruct (Z.eqb_spec k 0); [done|].
  destruct (N4 (Z.to_nat c) (Z.to_nat (k - 1))) as [x Hx]; [rewrite Hk; f_equal; lia|]. rewrite Hx in Hnone. done.
Qed.

Lemma add_slot48_ok n keys ch c x : n_type n = NODE48 -> node_ok n keys ch -> num_children n < 48 -> is_byte c -> child_at n keys ch c = None -> added n keys ch c x (add_child48 n keys ch c x).
Proof.
  intros Ht Hok Hlt Hc Hnone. pose proof (no_child_index n keys ch c Ht Hok Hc Hnone) as Hk0. pose proof Hok as (H1&H2&H3&Hn). rewrite Ht in *. cbn [keys_size children_size] in *. destruct Hn as (N1&N2&N3&N4&N5&N6). unfold is_byte in Hc.
  unfold add_child48. rewrite (proj2 (Nat.ltb_lt _ _) Hlt). destruct (scan_up_ok (fun o : option (art_node V) => negb (bool_decide (is_Some o))) ch 0) as (p&o&Hp&Ho&Hu).
  { destruct (count_free is_used ch) as (i&o&Ho&Hu); [lia|]. exists i, o. split; [done|]. unfold is_used in Hu. by rewrite Hu. }
  rewrite Hp. cbn [mbind option_bind]. apply negb_true_iff, bool_decide_eq_false in Hu. destruct o as [?|]; [by destruct Hu|]. rewrite Nat.add_0_l. pose proof (lookup_lt_Some _ _ _ Ho) as Hpl. rewrite !set_at_ok by lia. cbn [mbind option_bind].
  set (c2 := <[p := Some x]> ch). set (k2 := <[Z.to_nat c := Z.of_nat (p + 1)]> keys). assert (forall d i, k2 !! d = Some (Z.of_nat (S i)) <-> (d = Z.to_nat c /\ i = p) \/ (d <> Z.to_nat c /\ keys !! d = Some (Z.of_nat (S i)))) as Hkeys.
  { intros d i. subst k2. destruct (decide (d = Z.to_nat c)) as [->|]; [rewrite list_lookup_insert_eq by lia|rewrite list_lookup_insert_ne by done]; [|naive_solver]. split; [intros [= ?]; left; lia|intros [[_ ->]|[? _]]; [f_equal; lia|done]]. }
  assert (node_ok (inc_num n) k2 c2) as Hok'.
  { split_and!; [done|cbn; rewrite Ht; subst k2; by rewrite length_insert|cbn; rewrite Ht; subst c2; by rewrite length_insert|]. cbn [n_type inc_num set_num_children]. rewrite Ht. split_and!; try rewrite (inc_num_small n) by lia.
    - subst k2. apply list.Forall_insert; [done|lia].
    - pose proof (key_insert keys _ (Z.of_nat (p + 1)) Hk0 ltac:(lia)) as Hcnt. subst k2. lia.
    - pose proof (used_insert ch _ x Ho) as Hcnt. subst c2. lia.
    - intros d i Hd. apply Hkeys in Hd as [[-> ->]|[Hne Hd]]; [exists x; by subst c2; apply list_lookup_insert_eq|]. destruct (N4 d i Hd) as [y Hy]. exists y. subst c2. rewrite list_lookup_insert_ne; [done|]. intros ->. congruence.
    - intros i y Hy. subst c2. destruct (decide (i = p)) as [->|]; [exists (Z.to_nat c); apply Hkeys; by left|]. rewrite list_lookup_insert_ne in Hy by done. destruct (N5 i y Hy) as [d Hd]. exists d. apply Hkeys. right. split; [|done]. intros ->. rewrite Hk0 in Hd. injection Hd. lia.
    - intros d d' i Hd Hd'. assert (forall d, keys !! d <> Some (Z.of_nat (S p))) as Hfree by (intros e He; destruct (N4 e p He) as [y Hy]; congruence).
      apply Hkeys in Hd, Hd'. destruct Hd as [[-> ->]|[Hne Hd]], Hd' as [[? ?]|[Hne' Hd']]; subst; try done; try (by destruct (Hfree d)); try (by destruct (Hfree d')); by eapply N6. }
  exists (inc_num n), k2, c2. split_and!; [done|done|by split| |by rewrite Ht|].
  - unfold fill_ok. rewrite (inc_num_small n) by lia. cbn [n_type inc_num set_num_children]. rewrite Ht. intros [?|[? _]]; [lia|done].
  - intros c' Hc'. unfold is_byte in Hc'. unfold child_at. cbn [n_type inc_num set_num_children]. rewrite Ht. subst k2 c2. destruct (decide (c' = c)) as [->|Hne].
    + rewrite list_lookup_insert_eq by lia. destruct (Z.eqb_spec (Z.of_nat (p + 1)) 0); [lia|]. replace (Z.to_nat (Z.of_nat (p + 1) - 1)) with p by lia. by rewrite list_lookup_insert_eq by lia.
    + rewrite list_lookup_insert_ne by lia. destruct (keys !! Z.to_nat c') as [k|] eqn:Hk; [|done]. destruct (Z.eqb_spec k 0); [done|]. rewrite list_lookup_insert_ne; [done|]. intros Heq.
      rewrite list.Forall_forall in N1. specialize (N1 k ltac:(by eapply list_elem_of_lookup_2)). destruct (N4 (Z.to_nat c') p) as [y Hy]; [rewrite Hk; f_equal; lia|]. congruence.
Qed.

Lemma grow48_ok keys ch m i new : Forall (fun k => 0 <= k <= 48)%Z keys -> length ch = 48 -> length new = 256 -> length keys = 256 -> i + m <= 256 ->
  exists new', grow48 keys ch new m i = Some new' /\ length new' = 256 /\
    forall j k, keys !! j = Some k -> new' !! j = if decide (i <= j < i + m /\ k <> 0%Z) then ch !! Z.to_nat (k - 1) else new !! j.
Proof.
  intros Hk Hc. revert i new. induction m as [|m IH]; intros i new Hn Hkl Hi; cbn [grow48].
  - exists new. split_and!; [done|done|]. intros j k _. by rewrite decide_False by lia.
  - destruct (lookup_lt_is_Some_2 keys i) as [k Hki]; [lia|]. rewrite Hki. cbn [mbind option_bind]. destruct (Z.eqb_spec k 0) as [->|Hk0].
    + destruct (IH (S i) new) as (new'&Hnew&Hl&Hj); [done|done|lia|]. exists new'. split_and!; [done|done|]. intros j d Hd. rewrite (Hj j d Hd). repeat destruct (decide _); try done; [lia|]. assert (j = i) as -> by lia. rewrite Hki in Hd. injection Hd as <-. lia.
    + pose proof Hk as Hk'. rewrite list.Forall_forall in Hk'. specialize (Hk' k ltac:(by eapply list_elem_of_lookup_2)). destruct (lookup_lt_is_Some_2 ch (Z.to_nat (k - 1))) as [o Ho]; [lia|]. rewrite Ho. cbn [mbind option_bind]. rewrite set_at_ok by lia. cbn [mbind option_bind].
      destruct (IH (S i) (<[i := o]> new)) as (new'&Hnew&Hl&Hj); [by rewrite length_insert|done|lia|]. exists new'. split_and!; [done|done|]. intros j d Hd. rewrite (Hj j d Hd).
      destruct (decide (j = i)) as [->|Hne]; [rewrite Hki in Hd; injection Hd as <-; rewrite decide_False, decide_True by lia; rewrite list_lookup_insert_eq by lia; by rewrite Ho|]. rewrite list_lookup_insert_ne by done. repeat destruct (decide _); try done; lia.
Qed.

Lemma add_child48_ok n keys ch c x : n_type n = NODE48 -> node_ok n keys ch -> is_byte c -> child_at n keys ch c = None -> added n keys ch c x (add_child48 n keys ch c x).
Proof.
  intros Ht Hok Hc Hnone. destruct (decide (num_children n < 48)) as [Hlt|Hge]; [by apply add_slot48_ok|]. pose proof Hok as (H1&H2&H3&Hn). rewrite Ht in *. cbn [keys_size children_size] in *. destruct Hn as (N1&N2&N3&N4&N5&N6).
  pose proof (count_le is_used ch). unfold add_child48. rewrite (proj2 (Nat.ltb_ge _ _)) by lia. destruct (grow48_ok keys ch 256 0 (alloc_children NODE256)) as (new&Hnew&Hl&Hj); [done|done|done|done|done|]. rewrite Hnew. cbn [mbind option_bind].
  destruct (copy_header_ok NODE256 n H1) as (n'&Hn'&Htn&Hnn&Hpl&Hsp). rewrite Hn'. cbn [mbind option_bind].
  assert (forall j k, keys !! j = Some k -> new !! j = if decide (k <> 0%Z) then ch !! Z.to_nat (k - 1) else Some None) as Hj'.
  { intros j k Hk. rewrite (Hj j k Hk). pose proof (lookup_lt_Some _ _ _ Hk). destruct (decide (k <> 0%Z)); [by rewrite decide_True by (split; [lia|done])|]. rewrite decide_False by (by intros [_ ?]). apply lookup_replicate_2. cbn [children_size]. lia. }
  assert (count is_used new = 48) as Hcnt.
  { replace 48 with (num_children n) by lia. rewrite <- N2. apply count_ext; [lia|]. intros j o k Ho Hk. rewrite (Hj' j k Hk) in Ho. rewrite list.Forall_forall in N1. specialize (N1 k ltac:(by eapply list_elem_of_lookup_2)). unfold is_key. destruct (decide (k <> 0%Z)) as [Hk0|Hk0].
    - destruct (N4 j (Z.to_nat (k - 1))) as [y Hy]; [rewrite Hk; f_equal; lia|]. rewrite Hy in Ho. injection Ho as <-. by destruct (Z.eqb_spec k 0).
    - injection Ho as <-. by destruct (Z.eqb_spec k 0). }
  assert (node_ok n' (alloc_keys NODE256) new) as Hok'. { split_and!; [done|by rewrite Htn|by rewrite Htn|]. rewrite Htn, Hcnt, Hnn. change (48 mod 256) with 48. lia. }
  assert (forall d, is_byte d -> child_at n' (alloc_keys NODE256) new d = child_at n keys ch d) as Hm.
  { intros d Hd. unfold is_byte in Hd. unfold child_at. rewrite Htn, Ht. destruct (lookup_lt_is_Some_2 keys (Z.to_nat d)) as [k Hk]; [lia|]. rewrite Hk, (Hj' _ k Hk). destruct (decide (k <> 0%Z)); destruct (Z.eqb_spec k 0); done || naive_solver. }
  eapply (grown_added n keys ch n'); [split_and!; [exact Hok'|done|done| |done]|by rewrite Ht; intros []|apply add_child256_ok; [done|done|done|by rewrite Hm]]. unfold fill_ok. rewrite Htn. lia.
Qed.

(** ** NODE32 and smaller *)

(** The keys that have been entered after [i] of them. *)
Definition entered keys (i : nat) (nk : list Z) : Prop :=
  length nk = 256 /\ Forall (fun k => 0 <= k <= 48)%Z nk /\ count is_key nk = i /\
  (forall j k, j < i -> keys !! j = Some k -> nk !! Z.to_nat k = Some (Z.of_nat (S j))) /\
  (forall d j, nk !! d = Some (Z.of_nat (S j)) -> j < i /\ keys !! j = Some (Z.of_nat d)).

Lemma grow32_ok n keys ch m i nk : array_ok n keys ch -> num_children n <= 48 -> i + m = num_children n -> entered keys i nk -> exists nk', grow32 keys nk m i = Some nk' /\ entered keys (num_children n) nk'.
Proof.
  intros [Hu Hinj] H48. revert i nk. induction m as [|m IH]; intros i nk Hi He; cbn [grow32]; [exists nk; split; [done|]; by rewrite <- Hi, Nat.add_0_r|].
  destruct (Hu i) as (k&x&Hk&Hb&_); [lia|]. rewrite Hk. cbn [mbind option_bind]. unfold is_byte in Hb. destruct He as (E1&E2&E3&E4&E5). rewrite set_at_ok by lia. cbn [mbind option_bind]. apply IH; [lia|].
  assert (nk !! Z.to_nat k = Some 0%Z) as H0.
  { destruct (lookup_lt_is_Some_2 nk (Z.to_nat k)) as [v Hv]; [lia|]. rewrite Hv. f_equal. rewrite list.Forall_forall in E2. specialize (E2 v ltac:(by eapply list_elem_of_lookup_2)). destruct (decide (v = 0%Z)) as [->|]; [done|]. exfalso.
    destruct (E5 (Z.to_nat k) (Z.to_nat (v - 1))) as [Hlt Hkk]; [rewrite Hv; f_equal; lia|]. rewrite Z2Nat.id in Hkk by lia. assert (Z.to_nat (v - 1) = i) by (eapply Hinj; [| |exact Hkk|exact Hk]; lia). lia. }
  split_and!; [by rewrite length_insert|apply list.Forall_insert; [done|lia]| | |].
  - pose proof (key_insert nk _ (Z.of_nat (i + 1)) H0 ltac:(lia)) as Hcnt. lia.
  - intros j d Hj Hd. destruct (Hu j) as (d'&_&Hd'&Hbd&_); [lia|]. rewrite Hd in Hd'. injection Hd' as <-. unfold is_byte in Hbd. destruct (decide (j = i)) as [->|Hne]; [rewrite Hk in Hd; injection Hd as <-; rewrite list_lookup_insert_eq by lia; f_equal; lia|].
    rewrite list_lookup_insert_ne; [by apply E4; [lia|]|]. intros Heq. assert (d = k) as -> by lia. assert (j = i) by (eapply Hinj; [| |exact Hd|exact Hk]; lia). lia.
  - intros d j Hd. destruct (decide (d = Z.to_nat k)) as [->|Hne].
    + rewrite list_lookup_insert_eq in Hd by lia. injection Hd as Hd. assert (j = i) as -> by lia. split; [lia|]. rewrite Hk. f_equal. lia.
    + rewrite list_lookup_insert_ne in Hd by done. destruct (E5 d j Hd). split; [lia|done].
Qed.

Lemma add_child32_ok n keys ch c x : n_type n = NODE32 -> node_ok n keys ch -> is_byte c -> child_at n keys ch c = None -> added n keys ch c x (add_child32 n keys ch c x).
Proof.
  intros Ht Hok Hc Hnone. assert (is_array (n_type n)) as Hta by (rewrite Ht; unfold is_array; auto). pose proof (proj1 (array_node n keys ch Hta) Hok) as (H1&H2&H3&H4&Ha). rewrite Ht in H2, H3, H4. cbn [children_size] in *. unfold add_child32. destruct (Nat.ltb_spec (num_children n) 32).
  { destruct (scan_to_ok (fun k => (c <? k)%Z) keys (num_children n) 0) as (r&Hr&Hb&_); [lia|]. rewrite Hr. cbn [mbind option_bind]. apply insert_slot_ok; try done; [rewrite Ht; cbn; lia|lia]. }
  destruct (copy_slots (num_children n) 48 ch None) as (bs&new&Hbs&Hnew&Hnl&Hnj&Hnr); [lia|lia|]. rewrite Hbs. cbn [mbind option_bind]. change (alloc_children NODE48) with (replicate 48 (@None (art_node V))). rewrite Hnew. cbn [mbind option_bind].
  destruct (grow32_ok n keys ch (num_children n) 0 (alloc_keys NODE48) Ha) as (nk&Hnk&E1&E2&E3&E4&E5); [lia|lia| |].
  { split_and!; [done|by apply Forall_replicate|by apply count_replicate|intros; lia|]. intros d j Hd. apply lookup_replicate in Hd as [Hd _]. lia. }
  rewrite Hnk. cbn [mbind option_bind]. destruct (copy_header_ok NODE48 n H1) as (n'&Hn'&Htn&Hnn&Hpl&Hsp). rewrite Hn'. cbn [mbind option_bind]. pose proof Ha as [Hu Hinj].
  assert (node_ok n' nk new) as Hok'.
  { split_and!; [done|by rewrite Htn|by rewrite Htn|]. rewrite Htn. split_and!; [done|congruence| | | |].
    - rewrite Hnn. apply count_all; [lia|]. intros i o Ho. destruct (Nat.ltb_spec i (num_children n)) as [Hi|Hi]; [rewrite Hnj in Ho by done; destruct (Hu i Hi) as (?&y&_&_&Hy); rewrite Hy in Ho; by injection Ho as <-|].
      rewrite Hnr in Ho by (apply lookup_lt_Some in Ho; lia). by injection Ho as <-.
    - intros d i Hd. destruct (E5 d i Hd) as [Hi Hk]. destruct (Hu i Hi) as (?&y&_&_&Hy). exists y. by rewrite Hnj.
    - intros i y Hy. assert (i < num_children n) as Hi by (destruct (decide (i < num_children n)); [done|]; rewrite Hnr in Hy by (apply lookup_lt_Some in Hy; lia); done). destruct (Hu i Hi) as (k&_&Hk&_). exists (Z.to_nat k). by apply E4.
    - intros d d' i Hd Hd'. destruct (E5 d i Hd) as [_ A1], (E5 d' i Hd') as [_ A2]. rewrite A1 in A2. injection A2. lia. }
  assert (forall d, is_byte d -> child_at n' nk new d = child_at n keys ch d) as Hm.
  { intros d Hd. unfold is_byte in Hd. apply option_eq. intros y. rewrite !child_at_slot by done. unfold slot. rewrite Htn, Ht. split.
    - intros (i&Hs&Hy). destruct (E5 _ i Hs) as [Hi Hk]. exists i. rewrite Z2Nat.id in Hk by lia. split; [done|]. by rewrite <- Hnj.
    - intros (i&[Hi Hk]&Hy). exists i. split; [by apply E4|]. by rewrite Hnj. }
  eapply (grown_added n keys ch n'); [split_and!; [exact Hok'|done|done| |done]|by rewrite Ht; intros []|apply add_child48_ok; [done|done|done|by rewrite Hm]]. unfold fill_ok. rewrite Htn. lia.
Qed.

Lemma add_child16_ok n keys ch c x : n_type n = NODE16 -> node_ok n keys ch -> is_byte c -> child_at n keys ch c = None -> added n keys ch c x (add_child16 amd64 n keys ch c x).
Proof.
  intros Ht Hok Hc Hnone. assert (is_array (n_type n)) as Hta by (rewrite Ht; unfold is_array; auto). pose proof (proj1 (array_node n keys ch Hta) Hok) as (H1&H2&H3&H4&Ha). rewrite Ht in H2, H3, H4. cbn [children_size] in *. unfold add_child16. destruct (Nat.ltb_spec (num_children n) 16).
  { destruct (bitfield_ok (less16 amd64 c) keys (num_children n)) as (r&Hr&Hb); [done|done|]. apply insert_slot_ok; try done; [rewrite Ht; cbn; lia|]. destruct (_ =? 0)%Z; [done|]. lia. }
  destruct (grow_array NODE32 n keys ch) as (bs&new&ks&newk&n'&E1&E2&E3&E4&E5&Hg&Htn); [done|unfold is_array; auto|done|rewrite Ht; cbn; lia|rewrite Ht; cbn; lia|auto|]. rewrite E1. cbn [mbind option_bind]. rewrite E2. cbn [mbind option_bind]. rewrite E3. cbn [mbind option_bind]. rewrite E4, E5. cbn [mbind option_bind].
  eapply grown_added; [exact Hg|lia|]. destruct Hg as (Hok'&_&_&_&Hm). apply add_child32_ok; [done|done|done|by rewrite Hm].
Qed.

Lemma add_child4_ok n keys ch c x : n_type n = NODE4 -> node_ok n keys ch -> is_byte c -> child_at n keys ch c = None -> added n keys ch c x (add_child4 amd64 n keys ch c x).
Proof.
  intros Ht Hok Hc Hnone. assert (is_array (n_type n)) as Hta by (rewrite Ht; unfold is_array; auto). pose proof (proj1 (array_node n keys ch Hta) Hok) as (H1&H2&H3&H4&Ha). rewrite Ht in H2, H3, H4. cbn [children_size] in *. unfold add_child4. destruct (Nat.ltb_spec (num_children n) 4).
  { destruct (scan_to_ok (fun k => (c <? k)%Z) keys (num_children n) 0) as (r&Hr&Hb&_); [lia|]. rewrite Hr. cbn [mbind option_bind]. apply insert_slot_ok; try done; [rewrite Ht; cbn; lia|lia]. }
  destruct (grow_array NODE16 n keys ch) as (bs&new&ks&newk&n'&E1&E2&E3&E4&E5&Hg&Htn); [done|unfold is_array; auto|done|rewrite Ht; cbn; lia|rewrite Ht; cbn; lia|auto|]. rewrite E1. cbn [mbind option_bind]. rewrite E2. cbn [mbind option_bind]. rewrite E3. cbn [mbind option_bind]. rewrite E4, E5. cbn [mbind option_bind].
  eapply grown_added; [exact Hg|lia|]. destruct Hg as (Hok'&_&_&_&Hm). apply add_child16_ok; [done|done|done|by rewrite Hm].
Qed.

Lemma add_child_ok n keys ch c x : node_ok n keys ch -> is_byte c -> child_at n keys ch c = None -> added n keys ch c x (add_child amd64 n keys ch c x).
Proof.
  intros Hok Hc Hnone. unfold add_child. destruct (n_type n) eqn:Ht; [by apply add_child4_ok|by apply add_child16_ok|by apply add_child32_ok|by apply add_child48_ok|by apply add_child256_ok].
Qed.
End Add.

Section Remove.
Context {V : Type}.
Implicit Types (n : art_header) (keys : list Z) (ch : list (option (art_node V))).

(** What removing a child does. *)
Definition without n keys ch (c : Z) n' keys' ch' : Prop :=
  node_ok n' keys' ch' /\ same_prefix n n' /\ forall c', is_byte c' -> child_at n' keys' ch' c' = if decide (c' = c) then None else child_at n keys ch c'.
Definition removed n keys ch (c : Z) (r : option (art_node V)) : Prop :=
  exists n' keys' ch', r = Some (Node n' keys' ch') /\ fill_ok n' ch' /\ without n keys ch c n' keys' ch'.

Lemma dec_num_small n : 1 <= num_children n < 256 -> num_children (dec_num n) = num_children n - 1.
Proof. intros Hn. cbn [num_children dec_num set_num_children]. replace (num_children n + 255) with (num_children n - 1 + 1 * 256) by lia. rewrite Nat.Div0.mod_add. apply Nat.mod_small. lia. Qed.

(** ** Arrays *)

Lemma close_slot_ok n keys ch c pos : is_array (n_type n) -> node_ok n keys ch -> slot n keys c pos ->
  exists k2 c2, close_slot n keys ch pos = Some (k2, c2) /\ length k2 = children_size (n_type n) /\ length c2 = children_size (n_type n) /\ num_children (dec_num n) = num_children n - 1 /\ without n keys ch c (dec_num n) k2 c2.
Proof.
  intros Ht Hok Hs. pose proof (array_small _ Ht) as Hsm. pose proof (proj1 (array_node n keys ch Ht) Hok) as (H1&H2&H3&H4&Hu&Hinj). apply array_slot in Hs as [Hpos Hkc]; [|done]. pose proof (dec_num_small n ltac:(lia)) as Hdec.
  destruct (close_ok keys pos (num_children n)) as (k2&Hk2&Hkl&Hkj); [lia|]. destruct (close_ok ch pos (num_children n)) as (c2&Hc2&Hcl&Hcj); [lia|]. exists k2, c2. unfold close_slot. rewrite Hk2, Hc2. cbn [mbind option_bind]. split_and!; [done|lia|lia|done|].
  set (g := fun j => if decide (j < pos) then j else S j). assert (forall j, j < num_children n - 1 -> g j < num_children n /\ g j <> pos /\ k2 !! j = keys !! g j /\ c2 !! j = ch !! g j) as Hg by (intros j Hj; rewrite (Hkj j Hj), (Hcj j Hj); subst g; cbn beta; destruct (decide _); split_and!; try done; lia).
  assert (node_ok (dec_num n) k2 c2) as Hok'.
  { apply array_node; [done|]. rewrite Hdec. change (n_type (dec_num n)) with (n_type n). split_and!; [done|lia|lia|lia|]. split; rewrite Hdec.
    - intros j Hj. destruct (Hg j Hj) as (G1&_&-> & ->). by apply Hu.
    - intros i j d Hi Hj Hdi Hdj. destruct (Hg i Hi) as (A1&_&A2&_), (Hg j Hj) as (B1&_&B2&_). rewrite A2 in Hdi. rewrite B2 in Hdj. specialize (Hinj _ _ _ A1 B1 Hdi Hdj). subst g. cbn beta in Hinj. repeat destruct (decide _); lia. }
  split_and!; [done|by split|]. intros c' Hc'. apply option_eq. intros y. rewrite child_at_slot by done. setoid_rewrite array_slot; [|done]. rewrite Hdec. split.
  - intros (j&[Hj Hd]&Hy). destruct (Hg j Hj) as (G1&G2&G3&G4). rewrite G3 in Hd. rewrite G4 in Hy. rewrite decide_False by (intros ->; apply G2; by eapply Hinj). apply child_at_slot; [done|]. exists (g j). split; [by apply array_slot|done].
  - destruct (decide (c' = c)) as [->|Hne]; [done|]. intros Hy. apply child_at_slot in Hy as (i&Hi&Hy); [|done]. apply array_slot in Hi as [Hi Hic]; [|done]. assert (i <> pos) by (intros ->; congruence).
    exists (if decide (i < pos) then i else i - 1). set (j := if decide (i < pos) then i else i - 1). assert (j < num_children n - 1) as Hj by (subst j; destruct (decide _); lia). destruct (Hg j Hj) as (_&_&-> & ->).
    assert (g j = i) as -> by (subst g j; cbn beta; repeat destruct (decide _); lia). done.
Qed.

(** An array is copied to the next smaller size. *)
Lemma shrink_array t n keys ch k2 c2 c : is_array (n_type n) -> is_array t -> without n keys ch c (dec_num n) k2 c2 -> children_size t <= length k2 -> children_size t <= length c2 -> num_children (dec_num n) <= children_size t ->
  exists n' ks newk os new, copy_header (alloc_header t) (dec_num n) = Some n' /\ sub k2 0 (children_size t) = Some ks /\ blit (alloc_keys t) 0 ks = Some newk /\ sub c2 0 (children_size t) = Some os /\ blit (alloc_children t) 0 os = Some new /\
    n_type n' = t /\ num_children n' = num_children (dec_num n) /\ without n keys ch c n' newk new.
Proof.
  intros Ht Ht' (Hok&Hp&Hm) Hk Hc Hle. destruct (copy_header_ok t (dec_num n)) as (n'&Hn'&Htn&Hnn&Hpl&Hsp); [apply Hok|]. assert (keys_size t = children_size t) as Hks by (by destruct Ht' as [->|[->| ->]]).
  destruct (copy_slots (children_size t) (keys_size t) k2 0%Z) as (ks&newk&E1&E2&E3&E4&_); [done|lia|]. destruct (copy_slots (children_size t) (children_size t) c2 None) as (os&new&F1&F2&F3&F4&_); [done|done|]. exists n', ks, newk, os, new. split_and!; try done.
  destruct (array_copy (dec_num n) k2 c2 n' newk new) as [Hok' Hm']; try done; rewrite ?Htn; try done; [congruence|intros j Hj; split; [apply E4|apply F4]; lia|]. split_and!; [done|by eapply same_prefix_trans|]. intros c' Hc'. by rewrite Hm', Hm.
Qed.

Lemma remove_child32_ok n keys ch c pos : n_type n = NODE32 -> node_ok n keys ch -> fill_ok n ch -> slot n keys c pos -> removed n keys ch c (remove_child32 n keys ch pos).
Proof.
  intros Ht Hok Hf Hs. assert (is_array (n_type n)) as Hta by (rewrite Ht; unfold is_array; auto). destruct (close_slot_ok n keys ch c pos Hta Hok Hs) as (k2&c2&Hcl&Hk&Hc&Hdec&Hw). unfold fill_ok in Hf. rewrite Ht in *. cbn [children_size] in *. unfold remove_child32. rewrite Hcl. cbn [mbind option_bind fst snd].
  destruct (Nat.eqb_spec (num_children (dec_num n)) 15) as [E|E].
  - destruct (shrink_array NODE16 n keys ch k2 c2 c) as (n'&ks&newk&os&new&E1&E2&E3&E4&E5&Htn&Hnn&Hw'); [by rewrite Ht|unfold is_array; auto|done|cbn [children_size]; lia|cbn [children_size]; lia|cbn [children_size]; lia|]. cbn [children_size] in *. rewrite E1, E2. cbn [mbind option_bind]. rewrite E3, E4. cbn [mbind option_bind]. rewrite E5. cbn [mbind option_bind].
    exists n', newk, new. split_and!; [done| |done]. unfold fill_ok. rewrite Htn. lia.
  - exists (dec_num n), k2, c2. split_and!; [done| |done]. unfold fill_ok. change (n_type (dec_num n)) with (n_type n). rewrite Ht. lia.
Qed.

Lemma remove_child16_ok n keys ch c pos : n_type n = NODE16 -> node_ok n keys ch -> fill_ok n ch -> slot n keys c pos -> removed n keys ch c (remove_child16 n keys ch pos).
Proof.
  intros Ht Hok Hf Hs. assert (is_array (n_type n)) as Hta by (rewrite Ht; unfold is_array; auto). destruct (close_slot_ok n keys ch c pos Hta Hok Hs) as (k2&c2&Hcl&Hk&Hc&Hdec&Hw). unfold fill_ok in Hf. rewrite Ht in *. cbn [children_size] in *. unfold remove_child16. rewrite Hcl. cbn [mbind option_bind fst snd].
  destruct (Nat.eqb_spec (num_children (dec_num n)) 3) as [E|E].
  - destruct (shrink_array NODE4 n keys ch k2 c2 c) as (n'&ks&newk&os&new&E1&E2&E3&E4&E5&Htn&Hnn&Hw'); [by rewrite Ht|unfold is_array; auto|done|cbn [children_size]; lia|cbn [children_size]; lia|cbn [children_size]; lia|]. cbn [children_size] in *. rewrite E1, E2. cbn [mbind option_bind]. rewrite E3, E4. cbn [mbind option_bind]. rewrite E5. cbn [mbind option_bind].
    exists n', newk, new. split_and!; [done| |done]. unfold fill_ok. rewrite Htn. lia.
  - exists (dec_num n), k2, c2. split_and!; [done| |done]. unfold fill_ok. change (n_type (dec_num n)) with (n_type n). rewrite Ht. lia.
Qed.

(** The only child that is left takes the place of the node. *)
Lemma remove_child4_ok n keys ch c pos : n_type n = NODE4 -> node_ok n keys ch -> fill_ok n ch -> is_byte c -> slot n keys c pos ->
  removed n keys ch c (remove_child4 n keys ch pos) \/
  exists c1 x1, is_byte c1 /\ c1 <> c /\ child_at n keys ch c1 = Some x1 /\ (forall d, is_byte d -> d <> c -> d <> c1 -> child_at n keys ch d = None) /\
    remove_child4 n keys ch pos = match x1 with Leaf _ => Some x1 | Node m ks os => m ← join_prefix (dec_num n) c1 m; Some (Node m ks os) end.
Proof.
  intros Ht Hok Hf Hb Hs. assert (is_array (n_type n)) as Hta by (rewrite Ht; unfold is_array; auto). destruct (close_slot_ok n keys ch c pos Hta Hok Hs) as (k2&c2&Hcl&Hk&Hc&Hdec&Hw). unfold fill_ok in Hf. rewrite Ht in *. cbn [children_size] in *. unfold remove_child4. rewrite Hcl. cbn [mbind option_bind fst snd].
  destruct (Nat.eqb_spec (num_children (dec_num n)) 1) as [E|E].
  - right. destruct Hw as (Hok'&Hp&Hm). assert (is_array (n_type (dec_num n))) as Htd by (change (n_type (dec_num n)) with (n_type n); rewrite Ht; unfold is_array; auto).
    pose proof (proj1 (array_node _ _ _ Htd) Hok') as (_&_&_&_&Hu&Hinj). destruct (Hu 0) as (c1&x1&Hk0&Hb1&Hx0); [lia|]. rewrite Hk0, Hx0. cbn [mbind option_bind]. exists c1, x1.
    assert (child_at (dec_num n) k2 c2 c1 = Some x1) as H1 by (apply child_at_slot; [done|]; exists 0; split; [apply array_slot; [done|]; split; [lia|done]|done]). pose proof (Hm c1 Hb1) as Hm1. rewrite H1 in Hm1.
    destruct (decide (c1 = c)) as [->|Hne]; [done|]. split_and!; [done|done|done| |by destruct x1]. intros d Hd Hdc Hdc1. specialize (Hm d Hd). rewrite decide_False in Hm by done. rewrite <- Hm. destruct (child_at (dec_num n) k2 c2 d) as [y|] eqn:Hy; [|done].
    apply child_at_slot in Hy as (i&Hi&_); [|done]. apply array_slot in Hi as [Hi Hid]; [|done]. assert (i = 0) as -> by lia. congruence.
  - left. exists (dec_num n), k2, c2. split_and!; [done| |done]. unfold fill_ok. change (n_type (dec_num n)) with (n_type n). rewrite Ht. lia.
Qed.

(** ** NODE48 *)

(** The children that have been moved to a NODE32 after [i] keys. *)
Definition moved32 keys ch (i child : nat) (nk : list Z) (nc : list (option (art_node V))) : Prop :=
  length nk = 32 /\ length nc = 32 /\ child + count is_key (drop i keys) <= 32 /\
  (forall j, j < child -> exists d k, d < i /\ keys !! d = Some k /\ k <> 0%Z /\ nk !! j = Some (Z.of_nat d) /\ nc !! j = ch !! Z.to_nat (k - 1)) /\
  (forall d k, d < i -> keys !! d = Some k -> k <> 0%Z -> exists j, j < child /\ nk !! j = Some (Z.of_nat d) /\ nc !! j = ch !! Z.to_nat (k - 1)) /\
  (forall j j' d, j < child -> j' < child -> nk !! j = Some d -> nk !! j' = Some d -> j = j').

Lemma shrink48_ok keys ch m i child nk nc : Forall (fun k => 0 <= k <= 48)%Z keys -> length keys = 256 -> length ch = 48 -> i + m = 256 -> moved32 keys ch i child nk nc ->
  exists nk' nc', shrink48 keys ch nk nc m i child = Some (nk', nc') /\ moved32 keys ch 256 (child + count is_key (drop i keys)) nk' nc'.
Proof.
  intros Hk Hkl Hcl. revert i child nk nc. induction m as [|m IH]; intros i child nk nc Hi Hm; cbn [shrink48].
  { rewrite Nat.add_0_r in Hi. subst i. exists nk, nc. split; [done|]. rewrite drop_ge by lia. cbn [count]. by rewrite Nat.add_0_r. }
  destruct (lookup_lt_is_Some_2 keys i) as [k Hki]; [lia|]. rewrite Hki. cbn [mbind option_bind]. rewrite (drop_S keys k i Hki). cbn [count]. destruct Hm as (M1&M2&M3&M4&M5&M6). rewrite (drop_S keys k i Hki) in M3. cbn [count] in M3. unfold is_key at 1. unfold is_key in M3 at 1. destruct (Z.eqb_spec k 0) as [Hk0|Hk0]; cbn [negb Nat.b2n plus] in *.
  - apply IH; [lia|]. split_and!; try done.
    + intros j Hj. destruct (M4 j Hj) as (d&k'&?&?&?&?&?). exists d, k'. split_and!; try done. lia.
    + intros d k' Hd Hdk Hk'0. assert (d <> i) by (intros ->; congruence). apply M5; [lia|done|done].
  - rewrite set_at_ok by lia. cbn [mbind option_bind]. pose proof Hk as Hk'. rewrite list.Forall_forall in Hk'. specialize (Hk' k ltac:(by eapply list_elem_of_lookup_2)). destruct (lookup_lt_is_Some_2 ch (Z.to_nat (k - 1))) as [o Ho]; [lia|]. rewrite Ho. cbn [mbind option_bind]. rewrite set_at_ok by lia. cbn [mbind option_bind].
    replace (child + S (count is_key (drop (S i) keys))) with (S child + count is_key (drop (S i) keys)) by lia. apply IH; [lia|]. split_and!; [by rewrite length_insert|by rewrite length_insert|lia| | |].
    + intros j Hj. destruct (decide (j = child)) as [->|Hne]; [exists i, k; rewrite !list_lookup_insert_eq by lia; split_and!; try done; lia|]. destruct (M4 j) as (d&k'&?&?&?&?&?); [lia|]. exists d, k'. rewrite !list_lookup_insert_ne by done. split_and!; try done. lia.
    + intros d k' Hd Hdk Hk'0. destruct (decide (d = i)) as [->|Hne]; [exists child; rewrite !list_lookup_insert_eq by lia; rewrite Hki in Hdk; injection Hdk as <-; split_and!; try done; lia|].
      destruct (M5 d k') as (j&?&?&?); [lia|done|done|]. exists j. rewrite !list_lookup_insert_ne by lia. split_and!; try done. lia.
    + assert (forall j d, j < S child -> <[child := Z.of_nat i]> nk !! j = Some d -> (j = child /\ d = Z.of_nat i) \/ (j < child /\ nk !! j = Some d /\ d <> Z.of_nat i)) as Hcase.
      { intros j d Hj Hd. destruct (decide (j = child)) as [->|Hne]; [rewrite list_lookup_insert_eq in Hd by lia; injection Hd as <-; by left|]. rewrite list_lookup_insert_ne in Hd by done. right. destruct (M4 j) as (e&?&?&?&?&He&_); [lia|]. rewrite He in Hd. injection Hd as <-. split_and!; [lia|done|lia]. }
      intros j j' d Hj Hj' Hd Hd'. pose proof (Hcase j d Hj Hd) as A. pose proof (Hcase j' d Hj' Hd') as B. destruct A as [[-> ->]|(A1&A2&A3)], B as [[? E]|(B1&B2&B3)]; try done. by eapply M6.
Qed.

Lemma clear48_ok n keys ch c x : n_type n = NODE48 -> node_ok n keys ch -> fill_ok n ch -> is_byte c -> child_at n keys ch c = Some x ->
  exists k, keys !! Z.to_nat c = Some k /\ k <> 0%Z /\ set_at keys (Z.to_nat c) 0%Z = Some (<[Z.to_nat c := 0%Z]> keys) /\ set_at ch (Z.to_nat (k - 1)) None = Some (<[Z.to_nat (k - 1) := None]> ch) /\
    num_children (dec_num n) = num_children n - 1 /\ without n keys ch c (dec_num n) (<[Z.to_nat c := 0%Z]> keys) (<[Z.to_nat (k - 1) := None]> ch).
Proof.
  intros Ht Hok Hf Hc Hx. apply child_at_slot in Hx as (p&Hs&Hx); [|done]. pose proof Hok as (H1&H2&H3&Hn). unfold fill_ok in Hf. unfold slot in Hs. rewrite Ht in *. cbn [keys_size children_size] in *. destruct Hn as (N1&N2&N3&N4&N5&N6). unfold is_byte in Hc. pose proof (count_le is_used ch).
  exists (Z.of_nat (S p)). replace (Z.to_nat (Z.of_nat (S p) - 1)) with p by lia. pose proof (lookup_lt_Some _ _ _ Hx). rewrite !set_at_ok by lia. assert (num_children (dec_num n) = num_children n - 1) as Hdec by (apply dec_num_small; lia). split_and!; [done|lia|done|done|done|].
  set (k2 := <[Z.to_nat c := 0%Z]> keys). set (c2 := <[p := None]> ch). assert (forall d i, k2 !! d = Some (Z.of_nat (S i)) <-> d <> Z.to_nat c /\ keys !! d = Some (Z.of_nat (S i))) as Hkeys.
  { intros d i. subst k2. destruct (decide (d = Z.to_nat c)) as [->|]; [rewrite list_lookup_insert_eq by lia|by rewrite list_lookup_insert_ne by done; naive_solver]. split; [intros [= ?]|by intros [? _]]. }
  assert (forall d i, k2 !! d = Some (Z.of_nat (S i)) -> i <> p) as Hnp by (intros d i Hd ->; apply Hkeys in Hd as [Hne Hd]; apply Hne; by eapply N6).
  assert (node_ok (dec_num n) k2 c2) as Hok'.
  { split_and!; [done|cbn; rewrite Ht; subst k2; by rewrite length_insert|cbn; rewrite Ht; subst c2; by rewrite length_insert|]. cbn [n_type dec_num set_num_children]. rewrite Ht. split_and!; try rewrite Hdec.
    - subst k2. apply list.Forall_insert; [done|lia].
    - pose proof (key_clear keys _ _ Hs ltac:(lia)) as Hcnt. subst k2. lia.
    - pose proof (used_clear ch _ x Hx) as Hcnt. subst c2. lia.
    - intros d i Hd. pose proof (Hnp d i Hd). apply Hkeys in Hd as [Hne Hd]. destruct (N4 d i Hd) as [y Hy]. exists y. subst c2. by rewrite list_lookup_insert_ne.
    - intros i y Hy. subst c2. destruct (decide (i = p)) as [->|Hne]; [by rewrite list_lookup_insert_eq in Hy by lia|]. rewrite list_lookup_insert_ne in Hy by done. destruct (N5 i y Hy) as [d Hd]. exists d. apply Hkeys. split; [|done]. intros ->. rewrite Hs in Hd. injection Hd. lia.
    - intros d d' i Hd Hd'. apply Hkeys in Hd as [_ Hd], Hd' as [_ Hd']. by eapply N6. }
  split_and!; [done|by split|]. intros c' Hc'. unfold is_byte in Hc'. unfold child_at. cbn [n_type dec_num set_num_children]. rewrite Ht. subst k2 c2. destruct (decide (c' = c)) as [->|Hne].
  - by rewrite list_lookup_insert_eq by lia.
  - rewrite list_lookup_insert_ne by lia. destruct (keys !! Z.to_nat c') as [k|] eqn:Hk; [|done]. destruct (Z.eqb_spec k 0); [done|]. rewrite list_lookup_insert_ne; [done|]. intros Heq.
    rewrite list.Forall_forall in N1. specialize (N1 k ltac:(by eapply list_elem_of_lookup_2)). assert (Z.to_nat c' = Z.to_nat c); [|lia]. eapply N6; [|exact Hs]. rewrite Hk. f_equal. lia.
Qed.

(** The same node in the smaller arrays. *)
Definition shrunk n keys ch n' keys' ch' : Prop :=
  node_ok n' keys' ch' /\ same_prefix n n' /\ num_children n' = num_children n /\ forall c, is_byte c -> child_at n' keys' ch' c = child_at n keys ch c.

Lemma shrunk_removed n keys ch c n1 k1 c1 n' k' c' : without n keys ch c n1 k1 c1 -> shrunk n1 k1 c1 n' k' c' -> fill_ok n' c' -> removed n keys ch c (Some (Node n' k' c')).
Proof.
  intros (_&Hp&Hm) (Hok&Hp'&_&Hm') Hf. exists n', k', c'. split_and!; [done|done|]. split_and!; [done|by eapply same_prefix_trans|]. intros d Hd. by rewrite Hm', Hm.
Qed.

Lemma shrink48_node n keys ch n' nk nc : n_type n = NODE48 -> n_type n' = NODE32 -> node_ok n keys ch -> num_children n' = num_children n -> num_children n <= 32 -> length (partial n') = MAX_PREFIX_LEN -> same_prefix n n' -> moved32 keys ch 256 (num_children n) nk nc ->
  shrunk n keys ch n' nk nc.
Proof.
  intros Ht Htn Hok Hnn H32 Hpl Hsp (M1&M2&M3&M4&M5&M6). pose proof Hok as (P1&P2&P3&Pn). rewrite Ht in P2, P3, Pn. cbn [keys_size children_size] in *. destruct Pn as (N1&N2&N3&N4&N5&N6). assert (is_array (n_type n')) as Hta by (rewrite Htn; unfold is_array; auto). rewrite list.Forall_forall in N1.
  assert (forall d k, keys !! d = Some k -> k <> 0%Z -> exists y, ch !! Z.to_nat (k - 1) = Some (Some y)) as Hget. { intros d k' Hd Hne. specialize (N1 k' ltac:(by eapply list_elem_of_lookup_2)). apply (N4 d). rewrite Hd. f_equal. lia. }
  assert (node_ok n' nk nc) as Hokn.
  { apply array_node; [done|]. rewrite Htn. cbn [children_size]. split_and!; [done|done|done|lia|]. split; [|by rewrite Hnn]. rewrite Hnn. intros i Hi. destruct (M4 i Hi) as (d&k'&Hd&Hdk&Hk'0&Hnk&Hnc). destruct (Hget d k' Hdk Hk'0) as [y Hy]. exists (Z.of_nat d), y. split_and!; [done|unfold is_byte; lia|congruence]. }
  split_and!; [done|done|done|]. intros c' Hc'. apply option_eq. intros y. rewrite !child_at_slot by done. unfold slot. rewrite Htn, Ht, Hnn. unfold is_byte in Hc'. split.
  - intros (i&[Hi Hic]&Hy). destruct (M4 i Hi) as (d&k'&Hd&Hdk&Hk'0&Hnk&Hnc). rewrite Hnk in Hic. injection Hic as <-. rewrite Nat2Z.id. specialize (N1 k' ltac:(by eapply list_elem_of_lookup_2)). exists (Z.to_nat (k' - 1)). split; [rewrite Hdk; f_equal; lia|congruence].
  - intros (i&Hi&Hy). destruct (M5 (Z.to_nat c') (Z.of_nat (S i))) as (j&Hj&Hnk&Hnc); [lia|done|lia|]. replace (Z.to_nat (Z.of_nat (S i) - 1)) with i in Hnc by lia. rewrite Z2Nat.id in Hnk by lia. exists j. split_and!; [done|done|congruence].
Qed.

Lemma shrink48_all keys ch : Forall (fun k => 0 <= k <= 48)%Z keys -> length keys = 256 -> length ch = 48 -> count is_key keys <= 32 ->
  exists nk nc, shrink48 keys ch (alloc_keys NODE32) (alloc_children NODE32) 256 0 0 = Some (nk, nc) /\ moved32 keys ch 256 (count is_key keys) nk nc.
Proof.
  intros Hk Hkl Hcl Hc. pose proof (shrink48_ok keys ch 256 0 0 (alloc_keys NODE32) (alloc_children NODE32) Hk Hkl Hcl eq_refl) as Hs. rewrite drop_0 in Hs. apply Hs. split_and!; [done|done|rewrite drop_0; lia|intros; lia|intros; lia|intros; lia].
Qed.

Lemma remove_child48_ok n keys ch c x : n_type n = NODE48 -> node_ok n keys ch -> fill_ok n ch -> is_byte c -> child_at n keys ch c = Some x -> removed n keys ch c (remove_child48 n keys ch c).
Proof.
  intros Ht Hok Hf Hc Hx. destruct (clear48_ok n keys ch c x Ht Hok Hf Hc Hx) as (k&Hk&Hk0&S1&S2&Hdec&Hw). unfold remove_child48. rewrite Hk. cbn [mbind option_bind]. rewrite S1. cbn [mbind option_bind]. rewrite (proj2 (Z.eqb_neq k 0) Hk0), S2. cbn [mbind option_bind].
  generalize dependent (<[Z.to_nat c := 0%Z]> keys). generalize dependent (<[Z.to_nat (k - 1) := None]> ch). intros c2 S2 k2 S1 Hw. unfold fill_ok in Hf. rewrite Ht in Hf. destruct (Nat.eqb_spec (num_children (dec_num n)) 31) as [E|E].
  2: { exists (dec_num n), k2, c2. split_and!; [done| |done]. unfold fill_ok. change (n_type (dec_num n)) with (n_type n). rewrite Ht. lia. }
  pose proof Hw as (Hok'&_&_). pose proof Hok' as (P1&P2&P3&Pn). change (n_type (dec_num n)) with (n_type n) in P2, P3, Pn. rewrite Ht in P2, P3, Pn. cbn [keys_size children_size] in P2, P3. destruct Pn as (N1&N2&_). destruct (copy_header_ok NODE32 (dec_num n) P1) as (n'&Hn'&Htn&Hnn&Hpl&Hsp). rewrite (option_bind_ok _ _ _ Hn').
  destruct (shrink48_all k2 c2) as (nk&nc&Hs&Hm); [done|done|done|lia|]. rewrite (option_bind_ok _ _ _ Hs). cbn [fst snd]. rewrite N2 in Hm. eapply shrunk_removed; [exact Hw| |unfold fill_ok; rewrite Htn; lia]. apply shrink48_node; try done. lia.
Qed.

(** ** NODE256 *)

(** The children that have been moved to a NODE48 after [i] slots. *)
Definition moved48 ch (i pos : nat) (nk : list Z) (nc : list (option (art_node V))) : Prop :=
  length nk = 256 /\ length nc = 48 /\ pos + count is_used (drop i ch) <= 48 /\ Forall (fun k => 0 <= k <= 48)%Z nk /\ count is_key nk = pos /\ count is_used nc = pos /\
  (forall d x, d < i -> ch !! d = Some (Some x) -> exists j, nk !! d = Some (Z.of_nat (S j)) /\ nc !! j = Some (Some x)) /\
  (forall d j, nk !! d = Some (Z.of_nat (S j)) -> d < i /\ j < pos /\ exists x, ch !! d = Some (Some x) /\ nc !! j = Some (Some x)) /\
  (forall j, j < pos -> exists d, nk !! d = Some (Z.of_nat (S j))) /\ (forall j, pos <= j < 48 -> nc !! j = Some None) /\
  (forall d d' j, nk !! d = Some (Z.of_nat (S j)) -> nk !! d' = Some (Z.of_nat (S j)) -> d = d').

Lemma move_one ch i pos nk nc x : moved48 ch i pos nk nc -> ch !! i = Some (Some x) -> i < 256 -> pos < 48 -> moved48 ch (S i) (S pos) (<[i := Z.of_nat (pos + 1)]> nk) (<[pos := Some x]> nc).
Proof.
  intros (M1&M2&M3&M4&M5&M6&M7&M8&M9&M10&M11) Hx Hi Hp. rewrite (drop_S ch (Some x) i Hx) in M3. cbn [count] in M3. unfold is_used in M3 at 1. rewrite bool_decide_eq_true_2 in M3 by done. cbn [Nat.b2n] in M3.
  assert (nk !! i = Some 0%Z) as H0.
  { destruct (lookup_lt_is_Some_2 nk i) as [v Hv]; [lia|]. rewrite Hv. f_equal. rewrite list.Forall_forall in M4. specialize (M4 v ltac:(by eapply list_elem_of_lookup_2)). destruct (decide (v = 0%Z)) as [->|]; [done|]. destruct (M8 i (Z.to_nat (v - 1))) as (?&_); [rewrite Hv; f_equal; lia|lia]. }
  assert (forall d j, <[i := Z.of_nat (pos + 1)]> nk !! d = Some (Z.of_nat (S j)) <-> d = i /\ j = pos \/ d <> i /\ nk !! d = Some (Z.of_nat (S j))) as Hk.
  { intros d j. destruct (decide (d = i)) as [->|]; [rewrite list_lookup_insert_eq by lia|rewrite list_lookup_insert_ne by done; naive_solver]. split; [intros [= ?]; left; lia|intros [[_ ->]|[? _]]; [f_equal; lia|done]]. }
  assert (forall j, j <> pos -> <[pos := Some x]> nc !! j = nc !! j) as Hc by (intros; by apply list_lookup_insert_ne).
  split_and!; [by rewrite length_insert|by rewrite length_insert|lia|apply list.Forall_insert; [done|lia]| | | | | | |].
  - pose proof (key_insert nk _ (Z.of_nat (pos + 1)) H0 ltac:(lia)) as Hcnt. lia.
  - pose proof (used_insert nc _ x (M10 pos ltac:(lia))) as Hcnt. lia.
  - intros d y Hd Hy. destruct (decide (d = i)) as [->|Hne]; [exists pos; rewrite Hk; split; [by left|]; rewrite list_lookup_insert_eq by lia; congruence|]. destruct (M7 d y) as (j&Hj&Hjy); [lia|done|]. exists j. rewrite Hk. split; [by right|]. destruct (M8 d j Hj) as (_&?&_). rewrite Hc by lia. done.
  - intros d j Hd. apply Hk in Hd as [[-> ->]|[Hne Hd]]; [split_and!; [lia|lia|]; exists x; by rewrite list_lookup_insert_eq by lia|]. destruct (M8 d j Hd) as (?&?&y&?&?). split_and!; [lia|lia|]. exists y. by rewrite Hc by lia.
  - intros j Hj. destruct (decide (j = pos)) as [->|Hne]; [exists i; apply Hk; by left|]. destruct (M9 j) as [d Hd]; [lia|]. exists d. apply Hk. right. split; [|done]. intros ->. rewrite H0 in Hd. injection Hd. lia.
  - intros j Hj. rewrite Hc by lia. apply M10. lia.
  - assert (forall d, nk !! d <> Some (Z.of_nat (S pos))) as Hfree by (intros d Hd; destruct (M8 d pos Hd) as (_&?&_); lia). intros d d' j Hd Hd'. apply Hk in Hd, Hd'. destruct Hd as [[-> ->]|[Hne Hd]], Hd' as [[? ?]|[Hne' Hd']]; subst; try done; try (by destruct (Hfree d)); try (by destruct (Hfree d')); by eapply M11.
Qed.

Lemma shrink256_ok ch m i pos nk nc : length ch = 256 -> i + m = 256 -> moved48 ch i pos nk nc -> exists nk' nc', shrink256 ch nk nc m i pos = Some (nk', nc') /\ moved48 ch 256 (pos + count is_used (drop i ch)) nk' nc'.
Proof.
  intros Hl. revert i pos nk nc. induction m as [|m IH]; intros i pos nk nc Hi Hm; cbn [shrink256].
  { rewrite Nat.add_0_r in Hi. subst i. exists nk, nc. split; [done|]. rewrite drop_ge by lia. cbn [count]. by rewrite Nat.add_0_r. }
  destruct (lookup_lt_is_Some_2 ch i) as [o Ho]; [lia|]. rewrite Ho. cbn [mbind option_bind]. pose proof Hm as (M1&M2&M3&M4&M5&M6&M7&M8&M9&M10&M11). rewrite (drop_S ch o i Ho) in *. cbn [count] in *. unfold is_used at 1. unfold is_used in M3 at 1. destruct o as [x|].
  - rewrite bool_decide_eq_true_2 in * by done. cbn [Nat.b2n plus] in *. rewrite !set_at_ok by lia. cbn [mbind option_bind]. replace (pos + S (count is_used (drop (S i) ch))) with (S pos + count is_used (drop (S i) ch)) by lia. apply IH; [lia|]. apply move_one; [done|done|lia|lia].
  - rewrite bool_decide_eq_false_2 in * by by intros []. cbn [Nat.b2n plus] in *. apply IH; [lia|]. split_and!; try done.
    + intros d x Hd Hx. assert (d <> i) by (intros ->; congruence). apply M7; [lia|done].
    + intros d j Hd. destruct (M8 d j Hd) as (?&?&?). split_and!; try done. lia.
Qed.

Lemma shrink256_all ch : length ch = 256 -> count is_used ch <= 48 ->
  exists nk nc, shrink256 ch (alloc_keys NODE48) (alloc_children NODE48) 256 0 0 = Some (nk, nc) /\ moved48 ch 256 (count is_used ch) nk nc.
Proof.
  intros Hl Hc. pose proof (shrink256_ok ch 256 0 0 (alloc_keys NODE48) (alloc_children NODE48) Hl eq_refl) as Hs. rewrite drop_0 in Hs. apply Hs. assert (forall d j, alloc_keys NODE48 !! d <> Some (Z.of_nat (S j))) as Hno by (intros d j Hd; apply lookup_replicate in Hd as [Hd _]; lia).
  split_and!; [done|done|rewrite drop_0; lia|by apply Forall_replicate|by apply count_replicate|by apply count_replicate|intros; lia|intros d j Hd; by destruct (Hno d j)|intros; lia|intros j Hj; apply lookup_replicate_2; cbn [children_size]; lia|intros d d' j Hd; by destruct (Hno d j)].
Qed.

Lemma shrink256_node n keys ch n' nk nc : n_type n = NODE256 -> n_type n' = NODE48 -> node_ok n keys ch -> num_children n' = count is_used ch -> num_children n' = num_children n -> length (partial n') = MAX_PREFIX_LEN -> same_prefix n n' -> moved48 ch 256 (count is_used ch) nk nc -> shrunk n keys ch n' nk nc.
Proof.
  intros Ht Htn Hok Hnn Hnn' Hpl Hsp (M1&M2&M3&M4&M5&M6&M7&M8&M9&M10&M11). assert (node_ok n' nk nc) as Hokn.
  { split_and!; [done|by rewrite Htn|by rewrite Htn|]. rewrite Htn. split_and!; [done|congruence|congruence| | |done].
    - intros d i Hd. destruct (M8 d i Hd) as (_&_&y&_&Hy). by exists y.
    - intros i y Hy. apply M9. destruct (decide (i < count is_used ch)); [done|]. rewrite M10 in Hy; [done|]. apply lookup_lt_Some in Hy. lia. }
  split_and!; [done|done|done|]. intros c' Hc'. apply option_eq. intros y. rewrite !child_at_slot by done. unfold slot. rewrite Htn, Ht. unfold is_byte in Hc'. split.
  - intros (i&Hi&Hy). destruct (M8 _ i Hi) as (_&_&z&Hz&Hz'). exists (Z.to_nat c'). split; [done|]. congruence.
  - intros (i&->&Hy). destruct (M7 (Z.to_nat c') y) as (j&Hj&Hjy); [lia|done|]. by exists j.
Qed.

Lemma clear256_ok n keys ch c x : n_type n = NODE256 -> node_ok n keys ch -> fill_ok n ch -> is_byte c -> child_at n keys ch c = Some x ->
  let c2 := <[Z.to_nat c := None]> ch in set_at ch (Z.to_nat c) None = Some c2 /\ count is_used c2 = count is_used ch - 1 /\ num_children (dec_num n) = count is_used c2 /\ without n keys ch c (dec_num n) keys c2.
Proof.
  intros Ht Hok Hf Hc Hx c2. pose proof Hok as (H1&H2&H3&Hn). unfold fill_ok in Hf. unfold child_at in Hx. rewrite Ht in *. cbn [keys_size children_size] in *. unfold is_byte in Hc. split; [by rewrite set_at_ok by lia|].
  destruct (lookup_lt_is_Some_2 ch (Z.to_nat c)) as [o Ho]; [lia|]. rewrite Ho in Hx. cbn in Hx. subst o. pose proof (count_le is_used ch). assert (count is_used c2 = count is_used ch - 1) as Hcnt by (pose proof (used_clear ch _ x Ho) as Hcnt; subst c2; lia). split; [done|].
  assert (num_children (dec_num n) = count is_used c2) as Hdec.
  { cbn [num_children dec_num set_num_children]. rewrite <- Hn, Nat.Div0.add_mod_idemp_l, Hcnt. replace (count is_used ch + 255) with (count is_used ch - 1 + 1 * 256) by lia. rewrite Nat.Div0.mod_add. apply Nat.mod_small. lia. }
  split; [done|]. split_and!; [|by split|].
  - split_and!; [done|cbn; by rewrite Ht|cbn; rewrite Ht; subst c2; by rewrite length_insert|]. rewrite Hdec. change (n_type (dec_num n)) with (n_type n). rewrite Ht. apply Nat.mod_small. lia.
  - intros c' Hc'. unfold is_byte in Hc'. unfold child_at. cbn [n_type dec_num set_num_children]. rewrite Ht. subst c2. destruct (decide (c' = c)) as [->|Hne]; [by rewrite list_lookup_insert_eq by lia|]. by rewrite list_lookup_insert_ne by lia.
Qed.

Lemma remove_child256_ok n keys ch c x : n_type n = NODE256 -> node_ok n keys ch -> fill_ok n ch -> is_byte c -> child_at n keys ch c = Some x -> removed n keys ch c (remove_child256 n keys ch c).
Proof.
  intros Ht Hok Hf Hc Hx. destruct (clear256_ok n keys ch c x Ht Hok Hf Hc Hx) as (S1&Hcnt&Hdec&Hw). unfold remove_child256. rewrite S1. cbn [mbind option_bind]. generalize dependent (<[Z.to_nat c := None]> ch). intros c2 S1 Hcnt Hdec Hw. unfold fill_ok in Hf. rewrite Ht in Hf.
  destruct (Nat.eqb_spec (num_children (dec_num n)) 37) as [E|E].
  2: { exists (dec_num n), keys, c2. split_and!; [done| |done]. unfold fill_ok. change (n_type (dec_num n)) with (n_type n). rewrite Ht. lia. }
  pose proof Hw as (Hok'&_&_). pose proof Hok' as (P1&_&P3&_). change (n_type (dec_num n)) with (n_type n) in P3. rewrite Ht in P3. destruct (copy_header_ok NODE48 (dec_num n) P1) as (n'&Hn'&Htn&Hnn&Hpl&Hsp). rewrite (option_bind_ok _ _ _ Hn').
  destruct (shrink256_all c2) as (nk&nc&Hs&Hm); [done|lia|]. rewrite (option_bind_ok _ _ _ Hs). cbn [fst snd]. eapply shrunk_removed; [exact Hw| |unfold fill_ok; rewrite Htn; lia]. apply shrink256_node; try done. congruence.
Qed.

(** ** Any node *)

Lemma remove_child_ok n keys ch c i x : node_ok n keys ch -> fill_ok n ch -> is_byte c -> slot n keys c i -> child_at n keys ch c = Some x ->
  removed n keys ch c (remove_child n keys ch c i) \/
  exists c1 x1, n_type n = NODE4 /\ is_byte c1 /\ c1 <> c /\ child_at n keys ch c1 = Some x1 /\ (forall d, is_byte d -> d <> c -> d <> c1 -> child_at n keys ch d = None) /\
    remove_child n keys ch c i = match x1 with Leaf _ => Some x1 | Node m ks os => m ← join_prefix (dec_num n) c1 m; Some (Node m ks os) end.
Proof.
  intros Hok Hf Hc Hs Hx. unfold remove_child. destruct (n_type n) eqn:Ht; [|left; by apply remove_child16_ok|left; by apply remove_child32_ok|left; by eapply remove_child48_ok|left; by eapply remove_child256_ok].
  destruct (remove_child4_ok n keys ch c i) as [Hr|(c1&x1&H1&H2&H3&H4&H5)]; try done; [by left|]. right. by exists c1, x1.
Qed.
End Remove.
