(* ===== verification/ArtTree.v ===== *)
(** * The adaptive radix tree: what it holds, and finding it (src/lib/art.c)

    The invariant [wf x p]: the path to the node [x] spells [p], and every key below it
    goes on from there.  A key is followed by a zero byte, which none of its bytes is, so
    that no key with its zero byte is the start of another one. *)

From Stdlib Require Import ZArith Lia.
From stdpp Require Import base list numbers option.
From S2P Require Import Prelude Art ArtNode.

Local Open Scope nat_scope.

(** ** Keys *)

Definition key_byte (c : Z) : Prop := (0 < c < 256)%Z.
Definition key_ok (k : list Z) : Prop := Forall key_byte k.

(** The key [k] can be read at the pointer, with a zero byte behind it. *)
Definition keyed (buf k : list Z) : Prop := key_ok k /\ Forall is_byte buf /\ exists rest, buf = k ++ [0%Z] ++ rest.

Lemma keyed_at buf k i : keyed buf k -> i <= length k -> buf !! i = (k ++ [0%Z]) !! i.
Proof. intros (_&_&rest&->) Hi. rewrite app_assoc. apply lookup_app_l. rewrite length_app. cbn. lia. Qed.

Lemma keyed_sub buf k n : keyed buf k -> n <= length k -> sub buf 0 n = Some (take n k).
Proof. intros (_&_&rest&->) Hn. rewrite sub_ok by (rewrite length_app; lia). by rewrite drop_0, take_app_le. Qed.

Lemma key_zero k i : key_ok k -> (k ++ [0%Z]) !! i = Some 0%Z -> i = length k.
Proof.
  intros Hk Hi. destruct (decide (i < length k)) as [Hlt|].
  - rewrite lookup_app_l in Hi by done. unfold key_ok in Hk. rewrite list.Forall_forall in Hk. specialize (Hk 0%Z ltac:(by eapply list_elem_of_lookup_2)). unfold key_byte in Hk. lia.
  - rewrite lookup_app_r in Hi by lia. destruct (i - length k) eqn:E; [lia|done].
Qed.

Lemma key_end_byte k i c : key_ok k -> (k ++ [0%Z]) !! i = Some c -> is_byte c.
Proof.
  intros Hk Hi. unfold is_byte. apply lookup_app_Some in Hi as [Hi|[_ Hi]].
  - unfold key_ok in Hk. rewrite list.Forall_forall in Hk. specialize (Hk c ltac:(by eapply list_elem_of_lookup_2)). unfold key_byte in Hk. lia.
  - destruct (i - length k); [injection Hi as <-; lia|done].
Qed.

(** A key that is the start of another one with its zero byte is that key. *)
Lemma key_end_eq k k' : key_ok k -> key_ok k' -> (k ++ [0%Z]) `prefix_of` (k' ++ [0%Z]) -> k = k'.
Proof.
  intros Hk Hk' [r Hr]. assert (length k = length k') as Hl. { apply (key_zero k'); [done|]. rewrite Hr. rewrite <- app_assoc, lookup_app_r, Nat.sub_diag by lia. done. }
  rewrite <- app_assoc in Hr. apply app_inj_1 in Hr; [|done]. by destruct Hr.
Qed.

(** ** What is below a node *)

Lemma child_at_fmap {A B} (f : A -> B) n keys (ch : list (option A)) c : child_at n keys (map (fmap f) ch) c = f <$> child_at n keys ch c.
Proof.
  unfold child_at. assert (forall i, mjoin (map (fmap f) ch !! i) = f <$> mjoin (ch !! i)) as Hj by (intros i; rewrite list_lookup_fmap; by destruct (ch !! i) as [[?|]|]).
  destruct (n_type n); repeat case_match; try done; by rewrite ?Hj.
Qed.

Section Tree.
Context {V : Type}.
Implicit Types (n : art_header) (keys : list Z) (ch : list (option (art_node V))) (x : art_node V) (p k : list Z).

Definition kids {A} n keys (ch : list (option A)) : list A := omap (child_at n keys ch) (seqZ 0 256).

Fixpoint leaves x : list (list Z * V) :=
  match x with
  | Leaf l => [(take (l_key_len l) (l_key l), l_value l)]
  | Node n keys ch => concat (kids n keys (map (fmap leaves) ch))
  end.

Lemma elem_of_leaves n keys ch e : e ∈ leaves (Node n keys ch) <-> exists c x, is_byte c /\ child_at n keys ch c = Some x /\ e ∈ leaves x.
Proof.
  cbn [leaves]. rewrite list_elem_of_In, in_concat. unfold kids. split.
  - intros (l&Hl&He). apply list_elem_of_In, list_elem_of_omap in Hl as (c&Hc&Hl). rewrite child_at_fmap in Hl. destruct (child_at n keys ch c) as [x|] eqn:Hx; [|done]. injection Hl as <-. apply elem_of_seqZ in Hc. exists c, x. split_and!; [unfold is_byte; lia|done|by apply list_elem_of_In].
  - intros (c&x&Hc&Hx&He). exists (leaves x). split; [|by apply list_elem_of_In]. apply list_elem_of_In, list_elem_of_omap. exists c. rewrite child_at_fmap, Hx. split; [apply elem_of_seqZ; unfold is_byte in Hc; lia|done].
Qed.

(** [q] is the prefix of the node, of which it has the first bytes. *)
Definition prefix_is n (q : list Z) : Prop := length q = partial_len n /\ prefix_part n = take MAX_PREFIX_LEN q /\ key_ok q.

Fixpoint wf x p : Prop :=
  match x with
  | Leaf l => exists k, l_key l = k ++ [0%Z] /\ l_key_len l = length k /\ key_ok k /\ p `prefix_of` (k ++ [0%Z])
  | Node n keys ch => node_ok n keys ch /\ fill_ok n ch /\ exists q, prefix_is n q /\ forall c P, is_byte c -> child_at n keys (map (fmap wf) ch) c = Some P -> P (p ++ q ++ [c])
  end.

Lemma wf_node n keys ch p : wf (Node n keys ch) p <-> node_ok n keys ch /\ fill_ok n ch /\ exists q, prefix_is n q /\ forall c x, is_byte c -> child_at n keys ch c = Some x -> wf x (p ++ q ++ [c]).
Proof.
  cbn [wf]. split; intros (H1&H2&q&H3&H4); (split_and!; [done|done|]); exists q; (split; [done|]).
  - intros c x Hc Hx. apply (H4 c (wf x)); [done|]. by rewrite child_at_fmap, Hx.
  - intros c P Hc HP. rewrite child_at_fmap in HP. destruct (child_at n keys ch c) as [x|] eqn:Hx; [|done]. injection HP as <-. by apply H4.
Qed.

Lemma child_in n keys ch c x : child_at n keys ch c = Some x -> exists i, ch !! i = Some (Some x).
Proof.
  assert (forall i, mjoin (ch !! i) = Some x -> ch !! i = Some (Some x)) as Hj by (intros i; destruct (ch !! i) as [[?|]|]; cbn; congruence).
  unfold child_at. intros Hx. destruct (n_type n); repeat case_match; try done; eauto.
Qed.

Lemma height_slot n keys ch i x : ch !! i = Some (Some x) -> height x < height (Node n keys ch).
Proof.
  intros Hx. cbn [height]. apply Nat.lt_succ_r. assert (height x ∈ map (fun o => match o with Some x => height x | None => 0 end) ch) as Hin by (apply list_elem_of_fmap; exists (Some x); split; [done|by eapply list_elem_of_lookup_2]).
  pose proof (proj1 (list_max_le _ _) (Nat.le_refl (list_max (map (fun o => match o with Some x => height x | None => 0 end) ch)))) as Hall. rewrite list.Forall_forall in Hall. by apply Hall.
Qed.

Lemma height_child n keys ch c x : child_at n keys ch c = Some x -> height x < height (Node n keys ch).
Proof. intros [i Hi]%child_in. by eapply height_slot. Qed.

(** Induction over the nodes below. *)
Lemma node_induction (P : art_node V -> Prop) : (forall l, P (Leaf l)) -> (forall n keys ch, (forall c x, child_at n keys ch c = Some x -> P x) -> P (Node n keys ch)) -> forall x, P x.
Proof.
  intros Hl Hn. assert (forall m x, height x <= m -> P x) as Hm; [|intros x; by apply (Hm (height x))]. induction m as [|m IH]; intros x Hx; [destruct x; cbn in Hx; lia|]. destruct x as [l|n keys ch]; [done|]. apply Hn. intros c x Hc. apply IH. apply height_child in Hc. lia.
Qed.

Lemma leaves_ok x p k v : wf x p -> (k, v) ∈ leaves x -> key_ok k /\ p `prefix_of` (k ++ [0%Z]).
Proof.
  revert p. induction x as [l|n keys ch IH] using node_induction; intros p Hw Hk.
  - destruct Hw as (k'&Hl&Hn&Hok&Hp). cbn in Hk. apply list_elem_of_singleton in Hk. rewrite Hl, Hn, take_app_length in Hk. by injection Hk as -> ->.
  - apply wf_node in Hw as (_&_&q&_&Hw). apply elem_of_leaves in Hk as (c&x&Hc&Hx&Hk). destruct (IH c x Hx _ (Hw c x Hc Hx) Hk) as [H1 H2]. split; [done|]. etrans; [|exact H2]. by apply prefix_app_r.
Qed.

(** The byte by which a key goes on below a node. *)
Lemma leaves_next n keys ch p q c x k v : (forall c x, is_byte c -> child_at n keys ch c = Some x -> wf x (p ++ q ++ [c])) -> is_byte c -> child_at n keys ch c = Some x -> (k, v) ∈ leaves x -> key_ok k /\ (k ++ [0%Z]) !! (length p + length q) = Some c /\ (p ++ q) `prefix_of` (k ++ [0%Z]).
Proof.
  intros Hw Hc Hx Hk. destruct (leaves_ok x _ k v (Hw c x Hc Hx) Hk) as [Hok [r Hr]]. split_and!; [done| |].
  - rewrite Hr, <- !app_assoc. rewrite (app_assoc p q), lookup_app_r by (rewrite length_app; lia). by rewrite length_app, Nat.sub_diag.
  - rewrite Hr. exists ([c] ++ r). by rewrite <- !app_assoc.
Qed.

Lemma leaves_unique x p k v w : wf x p -> (k, v) ∈ leaves x -> (k, w) ∈ leaves x -> v = w.
Proof.
  revert p. induction x as [l|n keys ch IH] using node_induction; intros p Hw Hv Hv'.
  - cbn in Hv, Hv'. apply list_elem_of_singleton in Hv, Hv'. congruence.
  - apply wf_node in Hw as (_&_&q&_&Hw). apply elem_of_leaves in Hv as (c&x&Hc&Hx&Hv), Hv' as (c'&x'&Hc'&Hx'&Hv'). destruct (leaves_next n keys ch p q c x k v Hw Hc Hx Hv) as (_&E&_), (leaves_next n keys ch p q c' x' k w Hw Hc' Hx' Hv') as (_&E'&_).
    assert (c' = c) as -> by congruence. assert (x' = x) as -> by congruence. by eapply IH; [exact Hx|by apply Hw| |].
Qed.

Lemma has_child n keys ch : node_ok n keys ch -> fill_ok n ch -> exists i c x, min_slot n keys ch = Some i /\ is_byte c /\ slot n keys c i /\ ch !! i = Some (Some x) /\ child_at n keys ch c = Some x.
Proof.
  intros Hok Hf. pose proof Hok as (_&Hk&Hl&Hn). assert (forall i c x, min_slot n keys ch = Some i -> is_byte c -> slot n keys c i -> ch !! i = Some (Some x) -> exists i c x, min_slot n keys ch = Some i /\ is_byte c /\ slot n keys c i /\ ch !! i = Some (Some x) /\ child_at n keys ch c = Some x) as Hend.
  { intros i c x H1 H2 H3 H4. exists i, c, x. split_and!; try done; try apply H2. apply child_at_slot; [done|]. by exists i. }
  unfold fill_ok in Hf. unfold min_slot, slot in *. destruct (n_type n) eqn:Ht; cbn [keys_size children_size] in *.
  1-3: destruct Hn as (_&Hu&_); destruct (Hu 0) as (c&x&Hc&Hb&Hx); [lia|]; by apply (Hend 0 c x); [| |split; [lia|]|].
  - destruct Hn as (N1&N2&N3&N4&_). destruct (scan_up_ok (fun k : Z => negb (k =? 0)%Z) keys 0) as (c&k&Hs&Hc&Hk0). { destruct (count_some is_key keys) as (i&k&Hi&Hk0); [lia|]. by exists i, k. }
    rewrite Hs in *. cbn [mbind option_bind] in *. rewrite Nat.add_0_l, Hc in *. cbn [mbind option_bind] in *. apply negb_true_iff, Z.eqb_neq in Hk0. rewrite list.Forall_forall in N1. specialize (N1 k ltac:(by eapply list_elem_of_lookup_2)).
    assert (keys !! c = Some (Z.of_nat (S (Z.to_nat (k - 1))))) as Hck by (rewrite Hc; f_equal; lia). destruct (N4 _ _ Hck) as [x Hx]. apply (Hend _ (Z.of_nat c) x eq_refl); [apply lookup_lt_Some in Hc; unfold is_byte; lia|by rewrite Nat2Z.id|done].
  - destruct (scan_up_ok (fun o : option (art_node V) => bool_decide (is_Some o)) ch 0) as (i&o&Hs&Hi&Ho). { destruct (count_some is_used ch) as (i&o&Hi&Ho); [lia|]. by exists i, o. }
    rewrite Hs, Nat.add_0_l in *. apply bool_decide_eq_true in Ho as [x ->]. apply (Hend i (Z.of_nat i) x eq_refl); [apply lookup_lt_Some in Hi; unfold is_byte; lia|by rewrite Nat2Z.id|done].
Qed.

(** The leaf that is found by going down is one of the leaves. *)
Definition leaf_in (l : art_leaf V) x : Prop := exists k, l_key l = k ++ [0%Z] /\ l_key_len l = length k /\ (k, l_value l) ∈ leaves x.

Lemma minimum_ok x p : wf x p -> exists l, minimum (Some x) = Some (Some l) /\ leaf_in l x.
Proof.
  unfold minimum. cbn [root_height]. assert (forall fuel, height x <= fuel -> wf x p -> exists l, descend min_slot fuel (Some x) = Some (Some l) /\ leaf_in l x) as Hx; [|by apply Hx].
  revert p. induction x as [l|n keys ch IH] using node_induction; intros p fuel Hf Hw; (destruct fuel as [|fuel]; [cbn in Hf; lia|]); cbn [descend].
  - exists l. split; [done|]. destruct Hw as (k&Hk&Hn&_). exists k. split_and!; [done|done|]. cbn. rewrite Hk, Hn, take_app_length. by apply list_elem_of_singleton.
  - apply wf_node in Hw as (Hok&Hfl&q&_&Hw). destruct (has_child n keys ch Hok Hfl) as (i&c&x&Hi&Hc&_&Hx&Hcx). rewrite Hi. cbn [mbind option_bind]. rewrite Hx. cbn [mbind option_bind]. pose proof (height_child _ _ _ _ _ Hcx).
    destruct (IH c x Hcx (p ++ q ++ [c]) fuel) as (l&Hl&k&H1&H2&H3); [lia|by apply Hw|]. exists l. split; [done|]. exists k. split_and!; [done|done|]. apply elem_of_leaves. by exists c, x.
Qed.

Lemma some_leaf x p : wf x p -> exists k v, (k, v) ∈ leaves x.
Proof. intros Hw. destruct (minimum_ok x p Hw) as (l&_&k&_&_&Hk). by eexists _, _. Qed.
End Tree.

Lemma matching_ok n a i b j : i + n <= length a -> j + n <= length b ->
  exists r, matching n a i b j = Some r /\ r <= n /\ (forall m, m < r -> a !! (i + m) = b !! (j + m)) /\ (r < n -> a !! (i + r) <> b !! (j + r)).
Proof.
  revert i j. induction n as [|n IH]; intros i j Ha Hb; cbn [matching]; [exists 0; split_and!; [done|lia|lia|lia]|].
  destruct (lookup_lt_is_Some_2 a i) as [x Hx]; [lia|]. destruct (lookup_lt_is_Some_2 b j) as [y Hy]; [lia|]. rewrite Hx, Hy. cbn [mbind option_bind]. destruct (Z.eqb_spec x y) as [->|Hne].
  - destruct (IH (S i) (S j)) as (r&Hr&Hle&Heq&Hdiff); [lia|lia|]. rewrite Hr. exists (S r). split_and!; [done|lia| |].
    + intros [|m] Hm; [rewrite !Nat.add_0_r; congruence|]. replace (i + S m) with (S i + m) by lia. replace (j + S m) with (S j + m) by lia. apply Heq. lia.
    + intros Hlt. replace (i + S r) with (S i + r) by lia. replace (j + S r) with (S j + r) by lia. apply Hdiff. lia.
  - exists 0. split_and!; [done|lia|lia|]. rewrite !Nat.add_0_r. congruence.
Qed.

(** The bytes [q] follow at [depth]. *)
Definition follows (k q : list Z) (depth : nat) : Prop := forall i, i < length q -> (k ++ [0%Z]) !! (depth + i) = q !! i.

Lemma follows_prefix p q k : (p ++ q) `prefix_of` (k ++ [0%Z]) -> follows k q (length p).
Proof. intros [r Hr] i Hi. rewrite Hr, <- app_assoc, lookup_app_r by lia. replace (length p + i - length p) with i by lia. by apply lookup_app_l. Qed.

Lemma follows_len k q depth : key_ok q -> follows k q depth -> q <> [] -> depth + length q <= length k.
Proof.
  intros Hq Hf Hne. assert (0 < length q) as Hl by (destruct q; cbn; [done|lia]). specialize (Hf (length q - 1) ltac:(lia)). destruct (lookup_lt_is_Some_2 q (length q - 1)) as [c Hc]; [lia|]. rewrite Hc in Hf.
  apply lookup_app_Some in Hf as [Hf|[_ Hf]]; [apply lookup_lt_Some in Hf; lia|]. unfold key_ok in Hq. rewrite list.Forall_forall in Hq. specialize (Hq c ltac:(by eapply list_elem_of_lookup_2)). unfold key_byte in Hq.
  destruct (depth + (length q - 1) - length k) as [|[|?]]; cbn in Hf; [injection Hf; lia|done|done].
Qed.

Lemma prefix_bytes n q i : prefix_is n q -> i < MAX_PREFIX_LEN `min` length q -> partial n !! i = q !! i.
Proof.
  intros (Hl&Hp&_) Hi. unfold prefix_part in Hp. rewrite <- Hl in Hp. apply (f_equal (.!! i)) in Hp. rewrite !lookup_take_lt in Hp by lia. exact Hp.
Qed.

Lemma check_prefix_ok n q buf k depth : length (partial n) = MAX_PREFIX_LEN -> prefix_is n q -> keyed buf k ->
  exists r, check_prefix n buf (length k) depth = Some r /\ (follows k q depth -> r = MAX_PREFIX_LEN `min` partial_len n).
Proof.
  intros Hpl Hq Hk. pose proof Hq as (Hl&_&Hqk). unfold check_prefix. set (m := (partial_len n `min` MAX_PREFIX_LEN) `min` (length k - depth)). assert (length k < length buf) as Hb by (destruct Hk as (_&_&rest&->); rewrite !length_app; cbn; lia).
  destruct (decide (m = 0)) as [Hm0|Hm0].
  { exists 0. split; [by rewrite Hm0|]. intros Hf. destruct (decide (partial_len n = 0)) as [->|]; [done|]. pose proof (follows_len k q depth Hqk Hf ltac:(by destruct q)). subst m. unfold MAX_PREFIX_LEN in *. lia. }
  destruct (matching_ok m (partial n) 0 buf depth) as (r&Hr&Hle&Heq&Hdiff); [subst m; lia|subst m; lia|]. exists r. split; [done|]. intros Hf.
  assert (m = MAX_PREFIX_LEN `min` partial_len n) as Hm by (subst m; destruct (decide (partial_len n = 0)); [lia|]; pose proof (follows_len k q depth Hqk Hf ltac:(by destruct q)); lia).
  destruct (decide (r < m)) as [Hlt|]; [|lia]. exfalso. apply (Hdiff Hlt). rewrite Nat.add_0_l, (prefix_bytes n q) by (done || lia). rewrite (keyed_at buf k) by (done || lia). symmetry. apply Hf. lia.
Qed.

Lemma pass_prefix_ok n q buf k depth : length (partial n) = MAX_PREFIX_LEN -> prefix_is n q -> keyed buf k -> exists b, pass_prefix n buf (length k) depth = Some b /\ (follows k q depth -> b = true).
Proof.
  intros Hpl Hq Hk. unfold pass_prefix. destruct (Nat.eqb_spec (partial_len n) 0); [by exists true|]. destruct (check_prefix_ok n q buf k depth Hpl Hq Hk) as (r&->&Hr). cbn [mbind option_bind]. eexists. split; [done|]. intros Hf. rewrite (Hr Hf). by apply Nat.eqb_refl.
Qed.

Section Search.
Context {V : Type}.
Implicit Types (n : art_header) (keys : list Z) (ch : list (option (art_node V))) (x : art_node V) (p k buf : list Z) (l : art_leaf V).

Lemma leaf_matches_ok l k0 buf k : l_key l = k0 ++ [0%Z] -> l_key_len l = length k0 -> keyed buf k -> leaf_matches l buf (length k) = Some (bool_decide (k0 = k)).
Proof.
  intros Hl Hn Hk. unfold leaf_matches. rewrite Hn, Hl. destruct (Nat.eqb_spec (length k0) (length k)) as [E|E]; [|rewrite bool_decide_eq_false_2; congruence].
  rewrite (option_bind_ok _ _ _ (sub_ok (k0 ++ [0%Z]) 0 (length k) ltac:(rewrite length_app; lia))). rewrite (keyed_sub buf k) by done. cbn [mbind option_bind]. by rewrite drop_0, <- E, take_app_length, E, firstn_all.
Qed.

(** The path to a node is without zero bytes. *)
Lemma wf_path n keys ch p q k v c x : (forall c x, is_byte c -> child_at n keys ch c = Some x -> wf x (p ++ q ++ [c])) -> is_byte c -> child_at n keys ch c = Some x -> (k, v) ∈ leaves x -> (p ++ q) `prefix_of` k /\ length p + length q <= length k.
Proof.
  intros Hw Hc Hx Hk. destruct (leaves_next n keys ch p q c x k v Hw Hc Hx Hk) as (Hok&Hn&Hp). apply lookup_lt_Some in Hn. rewrite length_app in Hn. cbn in Hn. split; [|lia]. destruct Hp as [r Hr].
  assert (take (length (p ++ q)) (k ++ [0%Z]) = p ++ q) as E by (rewrite Hr; by apply take_app_length). rewrite length_app in E. rewrite take_app_le in E by lia. rewrite <- E. apply prefix_take.
Qed.

(** The next byte of a search, and the child for it. *)
Lemma step_ok n keys ch p buf k : wf (Node n keys ch) p -> keyed buf k -> (forall k' v, (k', v) ∈ leaves (Node n keys ch) -> length k' < length buf) ->
  exists q c, prefix_is n q /\ (forall c x, is_byte c -> child_at n keys ch c = Some x -> wf x (p ++ q ++ [c])) /\ length q = partial_len n /\ buf !! (length p + partial_len n) = Some c /\ is_byte c /\ next_child n keys ch c = Some (child_at n keys ch c) /\
    (length p + partial_len n <= length k -> (k ++ [0%Z]) !! (length p + partial_len n) = Some c).
Proof.
  intros Hw Hk Hlen. destruct (some_leaf _ _ Hw) as (k'&v&Hk'). specialize (Hlen k' v Hk'). apply wf_node in Hw as (Hok&Hf&q&Hq&Hw). apply elem_of_leaves in Hk' as (c'&x&Hc'&Hx&Hk'). destruct (wf_path n keys ch p q k' v c' x Hw Hc' Hx Hk') as [_ Hle]. pose proof Hq as (Hql&_).
  destruct (lookup_lt_is_Some_2 buf (length p + partial_len n)) as [c Hc]; [lia|]. exists q, c. assert (is_byte c) as Hb by (destruct Hk as (_&Hb&_); rewrite list.Forall_forall in Hb; apply Hb; by eapply list_elem_of_lookup_2).
  split_and!; try done; try apply Hq; [by apply next_child_ok|]. intros Hle'. by rewrite <- (keyed_at buf k).
Qed.

Lemma search_ok fuel x p buf k : height x <= fuel -> wf x p -> keyed buf k -> (forall k' v, (k', v) ∈ leaves x -> length k' < length buf) ->
  exists r, search_loop fuel (Some x) buf (length k) (length p) = Some r /\ forall v, r = Some v <-> (k, v) ∈ leaves x.
Proof.
  revert p fuel. induction x as [l|n keys ch IH] using node_induction; intros p fuel Hf Hw Hk Hlen; (destruct fuel as [|fuel]; [cbn in Hf; lia|]); cbn [search_loop].
  - destruct Hw as (k0&Hl&Hn&Hok&Hp). rewrite (leaf_matches_ok l k0 buf k Hl Hn Hk). cbn [mbind option_bind]. eexists. split; [done|]. intros v. cbn [leaves]. rewrite list_elem_of_singleton, Hl, Hn, take_app_length. destruct (decide (k0 = k)) as [->|].
    + rewrite bool_decide_eq_true_2 by done. split; [by intros [= ->]|by intros [= ->]].
    + rewrite bool_decide_eq_false_2 by done. split; [done|congruence].
  - destruct (step_ok n keys ch p buf k Hw Hk Hlen) as (q&c&Hq&Hc1&Hql&Hc&Hb&Hnext&Hkc). destruct (pass_prefix_ok n q buf k (length p)) as (b&Hpass&Hfol); [|done|done|]; [by apply wf_node in Hw as ((?&_)&_)|]. rewrite Hpass. cbn [mbind option_bind].
    assert (forall v, (k, v) ∈ leaves (Node n keys ch) -> b = true /\ exists x, child_at n keys ch c = Some x /\ (k, v) ∈ leaves x) as Hin.
    { intros v Hv. apply elem_of_leaves in Hv as (c'&x&Hc'&Hx&Hv). destruct (leaves_next n keys ch p q c' x k v Hc1 Hc' Hx Hv) as (_&Hn&Hpre). destruct (wf_path n keys ch p q k v c' x Hc1 Hc' Hx Hv) as [_ Hle]. rewrite <- Hql in Hkc. rewrite (Hkc Hle) in Hn. injection Hn as <-. split; [apply Hfol; by apply follows_prefix|]. by exists x. }
    destruct b; [|exists None; split; [done|]; intros v; split; [done|]; intros Hv; by destruct (Hin v Hv)]. rewrite Hc. cbn [mbind option_bind]. rewrite Hnext. cbn [mbind option_bind]. destruct (child_at n keys ch c) as [x|] eqn:Hx.
    + replace (S (length p + partial_len n)) with (length (p ++ q ++ [c])) by (rewrite !length_app, Hql; cbn; lia). pose proof (height_child _ _ _ _ _ Hx). destruct (IH c x Hx (p ++ q ++ [c]) fuel) as (r&Hr&Hrv); [lia|by apply Hc1|done|intros k' v Hv; apply (Hlen k' v), elem_of_leaves; by exists c, x|].
      exists r. split; [done|]. intros v. rewrite Hrv. split; [intros Hv; apply elem_of_leaves; by exists c, x|]. intros Hv. destruct (Hin v Hv) as (_&y&[= <-]&Hy). done.
    + exists None. split; [by destruct fuel|]. intros v. split; [done|]. intros Hv. destruct (Hin v Hv) as (_&y&?&_). done.
Qed.
End Search.
