(* ===== verification/ArtUpdate.v ===== *)
(** * The adaptive radix tree: inserting and deleting (src/lib/art.c) *)

From Stdlib Require Import ZArith Lia.
From stdpp Require Import base list numbers option.
From S2P Require Import Prelude Art ArtNode ArtTree.

Local Open Scope nat_scope.

(** ** Where keys part *)

Lemma prefix_snoc (l a : list Z) c : l `prefix_of` a -> a !! length l = Some c -> (l ++ [c]) `prefix_of` a.
Proof.
  intros [r ->] Hc. rewrite lookup_app_r, Nat.sub_diag in Hc by lia. destruct r as [|d r]; [done|]. injection Hc as ->. exists r. by rewrite <- app_assoc.
Qed.

Lemma follows_app p q k : p `prefix_of` (k ++ [0%Z]) -> follows k q (length p) -> length p + length q <= length k + 1 -> (p ++ q) `prefix_of` (k ++ [0%Z]).
Proof.
  intros [r Hr] Hf Hl. rewrite Hr. apply prefix_app. exists (drop (length q) r). apply list_eq. intros i. destruct (decide (i < length q)).
  - rewrite lookup_app_l by done. rewrite <- Hf by done. rewrite Hr, lookup_app_r by lia. f_equal. lia.
  - rewrite lookup_app_r, lookup_drop by lia. f_equal. lia.
Qed.

(** The bytes of a path below the zero byte are bytes of keys. *)
Lemma follows_take k k0 r d : key_ok k0 -> d + r <= length k0 -> (forall i, i < r -> (k ++ [0%Z]) !! (d + i) = (k0 ++ [0%Z]) !! (d + i)) -> key_ok (take r (drop d k0)) /\ follows k (take r (drop d k0)) d /\ length (take r (drop d k0)) = r.
Proof.
  intros Hk0 Hl Hf. assert (length (take r (drop d k0)) = r) as Hlen by (rewrite length_take, length_drop; lia). split_and!; [by apply Forall_take, Forall_drop| |done].
  intros i Hi. rewrite Hlen in Hi. rewrite Hf by done. rewrite take_drop_lookup by done. apply lookup_app_l. lia.
Qed.

(** A path to keys that are not the same is shorter than both. *)
Lemma path_len p k0 k : key_ok k0 -> key_ok k -> k0 <> k -> p `prefix_of` (k0 ++ [0%Z]) -> p `prefix_of` (k ++ [0%Z]) -> length p <= length k0.
Proof.
  intros H0 Hk Hne P0 P. destruct (decide (length p <= length k0)) as [|Hgt]; [done|]. exfalso. apply Hne. apply key_end_eq; [done|done|]. replace (k0 ++ [0%Z]) with p; [done|].
  destruct P0 as [r Hr]. apply (f_equal length) in Hr as Hl. rewrite !length_app in Hl. cbn in Hl. destruct r; [by rewrite app_nil_r in Hr|cbn in Hl; lia].
Qed.

Lemma diverge p k0 k r : key_ok k0 -> key_ok k -> k0 <> k -> p `prefix_of` (k0 ++ [0%Z]) -> p `prefix_of` (k ++ [0%Z]) ->
  matching ((length k0 `min` length k) - length p) (k0 ++ [0%Z]) (length p) (k ++ [0%Z]) (length p) = Some r ->
  exists q c0 c, length q = r /\ key_ok q /\ follows k q (length p) /\ length p + r <= length k /\ (k0 ++ [0%Z]) !! (length p + r) = Some c0 /\ (k ++ [0%Z]) !! (length p + r) = Some c /\ c0 <> c /\
    (p ++ q ++ [c0]) `prefix_of` (k0 ++ [0%Z]) /\ (p ++ q ++ [c]) `prefix_of` (k ++ [0%Z]).
Proof.
  intros H0 Hk Hne P0 P Hm. pose proof (path_len p k0 k H0 Hk Hne P0 P) as L0. pose proof (path_len p k k0 Hk H0 ltac:(congruence) P P0) as L.
  destruct (matching_ok ((length k0 `min` length k) - length p) (k0 ++ [0%Z]) (length p) (k ++ [0%Z]) (length p)) as (r'&Hr'&Hle&Heq&Hdiff); [rewrite length_app; lia|rewrite length_app; lia|]. rewrite Hm in Hr'. injection Hr' as <-.
  destruct (follows_take k k0 r (length p) H0) as (Q1&Q2&Q3); [lia|intros i Hi; symmetry; by apply Heq|]. destruct (follows_take k0 k0 r (length p) H0) as (_&Q2'&_); [lia|done|]. set (q := take r (drop (length p) k0)) in *. clearbody q.
  destruct (lookup_lt_is_Some_2 (k0 ++ [0%Z]) (length p + r)) as [c0 Hc0]; [rewrite length_app; cbn; lia|]. destruct (lookup_lt_is_Some_2 (k ++ [0%Z]) (length p + r)) as [c Hc]; [rewrite length_app; cbn; lia|].
  exists q, c0, c. split_and!; try done; [lia| | |].
  - intros ->. destruct (decide (r < (length k0 `min` length k) - length p)) as [Hlt|Hge]; [apply (Hdiff Hlt); congruence|]. apply Hne. assert (length k0 = length k /\ length p + r = length k) as [El Er].
    { destruct (decide (length k0 <= length k)).
      - assert (length p + r = length k0) as E by lia. rewrite E, lookup_app_r, Nat.sub_diag in Hc0 by lia. injection Hc0 as <-. apply key_zero in Hc; [lia|done].
      - assert (length p + r = length k) as E by lia. rewrite E, lookup_app_r, Nat.sub_diag in Hc by lia. injection Hc as <-. apply key_zero in Hc0; [lia|done]. }
    apply key_end_eq; [done|done|]. pose proof (prefix_snoc (p ++ q) (k0 ++ [0%Z]) c (follows_app p q k0 P0 Q2' ltac:(lia)) ltac:(by rewrite length_app, Q3)) as A0. pose proof (prefix_snoc (p ++ q) (k ++ [0%Z]) c (follows_app p q k P Q2 ltac:(lia)) ltac:(by rewrite length_app, Q3)) as A.
    replace (k0 ++ [0%Z]) with ((p ++ q) ++ [c]); [done|]. destruct A0 as [s Hs]. apply (f_equal length) in Hs as Hl. rewrite !length_app in Hl. cbn in Hl. destruct s; [by rewrite app_nil_r in Hs|cbn in Hl; lia].
  - rewrite app_assoc. apply prefix_snoc; [apply follows_app; [done|done|lia]|by rewrite length_app, Q3].
  - rewrite app_assoc. apply prefix_snoc; [apply follows_app; [done|done|lia]|by rewrite length_app, Q3].
Qed.

(** ** Headers *)

Lemma prefix_is_intro n q : length q = partial_len n -> length (partial n) = MAX_PREFIX_LEN -> key_ok q -> (forall i, i < MAX_PREFIX_LEN `min` length q -> partial n !! i = q !! i) -> prefix_is n q.
Proof.
  intros Hl Hp Hq Hi. split_and!; [done| |done]. unfold prefix_part. rewrite <- Hl. apply list_eq. intros i. destruct (decide (i < MAX_PREFIX_LEN `min` length q)).
  - rewrite !lookup_take_lt by lia. by apply Hi.
  - rewrite !lookup_ge_None_2; [done|rewrite length_take; lia|rewrite length_take; lia].
Qed.

Lemma same_prefix_is n n' q : same_prefix n n' -> prefix_is n q -> prefix_is n' q.
Proof. intros [H1 H2] (H3&H4&H5). split_and!; congruence. Qed.

Lemma new_header_ok q : key_ok q -> exists p, blit (partial (alloc_header NODE4)) 0 (take MAX_PREFIX_LEN q) = Some p /\ length p = MAX_PREFIX_LEN /\ prefix_is (set_partial (length q) p (alloc_header NODE4)) q.
Proof.
  intros Hq. change (partial (alloc_header NODE4)) with (replicate MAX_PREFIX_LEN 0%Z). assert (length (take MAX_PREFIX_LEN q) <= MAX_PREFIX_LEN) as Hl by (rewrite length_take; lia).
  destruct (blit (replicate MAX_PREFIX_LEN 0%Z) 0 (take MAX_PREFIX_LEN q)) as [p|] eqn:Hb; [|by rewrite blit_ok in Hb by (rewrite length_replicate; lia)]. exists p. pose proof (blit_length _ _ _ _ Hb) as Hp. rewrite length_replicate in Hp. split_and!; [done|done|].
  apply prefix_is_intro; [done|done|done|]. intros i Hi. cbn [partial set_partial]. rewrite (blit_lookup _ _ _ _ _ Hb), length_take. rewrite decide_True by lia. rewrite Nat.sub_0_r. apply lookup_take_lt. lia.
Qed.

Section Insert.
Context {V : Type}.
Variable amd64 : bool.
Implicit Types (n : art_header) (keys : list Z) (ch : list (option (art_node V))) (x : art_node V) (p k buf : list Z) (l : art_leaf V).

(** Only the prefix of a node differs. *)
Definition same_node n n' : Prop := n_type n' = n_type n /\ num_children n' = num_children n /\ length (partial n') = MAX_PREFIX_LEN.

Lemma same_node_ok n n' keys ch : same_node n n' -> node_ok n keys ch -> fill_ok n ch -> node_ok n' keys ch /\ fill_ok n' ch /\ forall c, child_at n' keys ch c = child_at n keys ch c.
Proof.
  intros (H1&H2&H3) Hok Hf. split_and!.
  - unfold node_ok, array_ok, index_ok in *. rewrite H1, H2. split; [done|]. apply Hok.
  - unfold fill_ok in *. by rewrite H1, H2.
  - intros c. unfold child_at. by rewrite H1, H2.
Qed.

Lemma same_node_leaves n n' keys ch e : same_node n n' -> e ∈ leaves (Node n' keys ch) <-> e ∈ leaves (Node n keys ch).
Proof. intros (H1&H2&H3). rewrite !elem_of_leaves. unfold child_at. by rewrite H1, H2. Qed.

Lemma empty_node h : n_type h = NODE4 -> num_children h = 0 -> length (partial h) = MAX_PREFIX_LEN -> node_ok h (alloc_keys NODE4) (alloc_children (V := V) NODE4) /\ forall c, child_at h (alloc_keys NODE4) (alloc_children (V := V) NODE4) c = None.
Proof.
  intros Ht Hn Hp. split.
  - unfold node_ok. rewrite Ht, Hn. split_and!; [done|done|done|cbn; lia|]. split; rewrite Hn; intros; lia.
  - intros c. unfold child_at. by rewrite Ht, Hn.
Qed.

(** A new node with two children. *)
Definition fork h c1 x1 c2 x2 : option (art_node V) :=
  x ← add_child4 amd64 h (alloc_keys NODE4) (alloc_children NODE4) c1 x1;
  match x with
  | Node n keys ch => add_child4 amd64 n keys ch c2 x2
  | Leaf _ => None
  end.

Lemma fork_ok h p q c1 x1 c2 x2 : n_type h = NODE4 -> num_children h = 0 -> length (partial h) = MAX_PREFIX_LEN -> prefix_is h q -> is_byte c1 -> is_byte c2 -> c1 <> c2 -> wf x1 (p ++ q ++ [c1]) -> wf x2 (p ++ q ++ [c2]) ->
  exists y, fork h c1 x1 c2 x2 = Some y /\ wf y p /\ forall e, e ∈ leaves y <-> e ∈ leaves x1 \/ e ∈ leaves x2.
Proof.
  intros Ht Hn Hp Hq H1 H2 Hne W1 W2. destruct (empty_node h Ht Hn Hp) as [Hok Hnone]. unfold fork. destruct (add_child4_ok amd64 h _ _ c1 x1 Ht Hok H1 (Hnone c1)) as (n1&k1&ch1&->&Hok1&Hp1&_&Hnum&Hm1). cbn [mbind option_bind].
  destruct (Hnum Ht Hn) as [Ht1 Hn1]. destruct (add_child4_ok amd64 n1 k1 ch1 c2 x2 Ht1 Hok1 H2) as (n2&k2&ch2&->&Hok2&Hp2&Hf2&_&Hm2); [by rewrite Hm1, decide_False, Hnone by done|].
  assert (forall c, is_byte c -> child_at n2 k2 ch2 c = if decide (c = c2) then Some x2 else if decide (c = c1) then Some x1 else None) as Hm. { intros c Hc. rewrite Hm2 by done. destruct (decide _); [done|]. rewrite Hm1 by done. by destruct (decide _). }
  eexists. split; [done|]. split.
  - apply wf_node. split_and!; [done|apply Hf2; right; rewrite Hn1; split; [done|lia]|]. exists q. split; [eapply same_prefix_is; [|exact Hq]; by eapply same_prefix_trans|]. intros c x Hc Hx. rewrite Hm in Hx by done. destruct (decide (c = c2)) as [->|]; [by injection Hx as <-|]. destruct (decide (c = c1)) as [->|]; [by injection Hx as <-|done].
  - intros e. rewrite elem_of_leaves. split.
    + intros (c&x&Hc&Hx&He). rewrite Hm in Hx by done. destruct (decide (c = c2)) as [->|]; [injection Hx as <-; by right|]. destruct (decide (c = c1)) as [->|]; [injection Hx as <-; by left|done].
    + intros [He|He]; [exists c1, x1|exists c2, x2]; (split; [done|split; [|done]]); rewrite Hm by done; [by rewrite decide_False, decide_True by congruence|by rewrite decide_True].
Qed.

(** A leaf as it is made. *)
Definition leaf_of k v : art_leaf V := mk_leaf v (length k) (k ++ [0%Z]).

Lemma make_leaf_ok buf k v : keyed buf k -> make_leaf buf (length k) v = Some (leaf_of k v).
Proof. intros Hk. unfold make_leaf. rewrite (keyed_sub buf k) by done. cbn [mbind option_bind]. by rewrite firstn_all. Qed.

Lemma leaf_of_wf k v p : key_ok k -> p `prefix_of` (k ++ [0%Z]) -> wf (Leaf (leaf_of k v)) p.
Proof. intros Hk Hp. cbn. by exists k. Qed.

Lemma leaf_of_leaves k v e : e ∈ leaves (Leaf (leaf_of k v)) <-> e = (k, v).
Proof. cbn. rewrite take_app_length. apply list_elem_of_singleton. Qed.

(** What inserting has to do. *)
Definition insert_result k v x p (r : option (art_node V * option V * bool)) : Prop :=
  exists x' old, r = Some (x', old, bool_decide (is_Some old)) /\ wf x' p /\ (forall w, old = Some w <-> (k, w) ∈ leaves x) /\
    forall k' w, (k', w) ∈ leaves x' <-> k' = k /\ w = v \/ k' <> k /\ (k', w) ∈ leaves x.

Lemma insert_new k v x p x' : wf x' p -> (forall w, (k, w) ∈ leaves x -> False) -> (forall e, e ∈ leaves x' <-> e ∈ leaves x \/ e = (k, v)) -> insert_result k v x p (Some (x', None, false)).
Proof.
  intros Hw Hno He. exists x', None. split_and!; [done|done|intros w; split; [done|intros H; by destruct (Hno w H)]|]. intros k' w. rewrite He. split.
  - intros [Hi|[= -> ->]]; [right|by left]. split; [|done]. intros ->. by apply (Hno w).
  - intros [[-> ->]|[_ Hi]]; [by right|by left].
Qed.

(** ** Splitting a leaf *)

Lemma follows_sub buf k q d : keyed buf k -> follows k q d -> d + length q <= length k -> sub buf d (MAX_PREFIX_LEN `min` length q) = Some (take MAX_PREFIX_LEN q).
Proof.
  intros Hk Hf Hl. assert (length k < length buf) as Hb by (destruct Hk as (_&_&rest&->); rewrite !length_app; cbn; lia). rewrite sub_ok by lia. f_equal. apply list_eq. intros i. destruct (decide (i < MAX_PREFIX_LEN `min` length q)).
  - rewrite take_drop_lookup, lookup_take_lt by lia. rewrite (keyed_at buf k) by (done || lia). apply Hf. lia.
  - rewrite !lookup_ge_None_2; [done|rewrite length_take; lia|rewrite length_take, length_drop; lia].
Qed.

Lemma split_leaf_ok l k0 p buf k v : l_key l = k0 ++ [0%Z] -> l_key_len l = length k0 -> key_ok k0 -> p `prefix_of` (k0 ++ [0%Z]) -> keyed buf k -> p `prefix_of` (k ++ [0%Z]) -> k0 <> k ->
  exists y, split_leaf amd64 l (leaf_of k v) buf (length p) = Some y /\ wf y p /\ forall e, e ∈ leaves y <-> e ∈ leaves (Leaf l) \/ e = (k, v).
Proof.
  intros Hl Hn H0 P0 Hk P Hne. pose proof Hk as (Hkk&_). unfold split_leaf, longest_common_prefix. cbn [l_key l_key_len leaf_of]. rewrite Hl, Hn.
  pose proof (path_len p k0 k H0 Hkk Hne P0 P) as L0. pose proof (path_len p k k0 Hkk H0 ltac:(congruence) P P0) as L.
  destruct (matching_ok ((length k0 `min` length k) - length p) (k0 ++ [0%Z]) (length p) (k ++ [0%Z]) (length p)) as (r&Hr&_); [rewrite length_app; lia|rewrite length_app; lia|].
  destruct (diverge p k0 k r H0 Hkk Hne P0 P Hr) as (q&c0&c&Hq&Hqk&Hqf&Hle&Hc0&Hc&Hcc&W0&W). rewrite Hr. cbn [mbind option_bind]. subst r. rewrite (follows_sub buf k q (length p)) by done. cbn [mbind option_bind].
  destruct (new_header_ok q Hqk) as (pp&Hpp&Hppl&Hpq). rewrite Hpp. cbn [mbind option_bind]. rewrite Hc0, Hc. cbn [mbind option_bind].
  destruct (fork_ok (set_partial (length q) pp (alloc_header NODE4)) p q c0 (Leaf l) c (Leaf (leaf_of k v))) as (y&Hy&Hyw&Hye); try done; [exact (key_end_byte k0 _ _ H0 Hc0)|exact (key_end_byte k _ _ Hkk Hc)|by exists k0|by apply leaf_of_wf|].
  unfold fork in Hy. rewrite Hy. exists y. split_and!; [done|done|]. intros e. by rewrite Hye, leaf_of_leaves.
Qed.

(** ** Leaving the prefix of a node *)

Lemma prefix_mismatch_ok n keys ch p q buf k : wf (Node n keys ch) p -> prefix_is n q -> (forall c x, is_byte c -> child_at n keys ch c = Some x -> wf x (p ++ q ++ [c])) -> keyed buf k -> length p <= length k ->
  exists r, prefix_mismatch n keys ch buf (length k) (length p) = Some r /\ (forall i, i < r -> i < length q -> (k ++ [0%Z]) !! (length p + i) = q !! i) /\
    (r < length q -> length p + r <= length k /\ (k ++ [0%Z]) !! (length p + r) <> q !! r).
Proof.
  intros Hw Hq Hc Hk L. pose proof Hq as (Hql&_&Hqk). pose proof (proj1 (wf_node n keys ch p) Hw) as ((Hpl&_)&_). assert (length k < length buf) as Hb by (destruct Hk as (_&_&rest&->); rewrite !length_app; cbn; lia). unfold prefix_mismatch.
  set (m := (MAX_PREFIX_LEN `min` partial_len n) `min` (length k - length p)). destruct (matching_ok m (partial n) 0 buf (length p)) as (r&Hr&Hle&Heq&Hdiff); [subst m; lia|subst m; lia|]. rewrite Hr. cbn [mbind option_bind].
  assert (forall i, i < r -> (k ++ [0%Z]) !! (length p + i) = q !! i) as Heq'. { intros i Hi. rewrite <- (keyed_at buf k) by (done || lia). rewrite <- (Heq i Hi). rewrite Nat.add_0_l. apply prefix_bytes; [done|lia]. }
  assert (forall j, length p + j = length k -> j < length q -> (k ++ [0%Z]) !! (length p + j) <> q !! j) as Hzero.
  { intros j Hj Hjq. rewrite Hj, lookup_app_r, Nat.sub_diag by lia. intros E. unfold key_ok in Hqk. rewrite list.Forall_forall in Hqk. specialize (Hqk 0%Z ltac:(by eapply list_elem_of_lookup_2)). unfold key_byte in Hqk. lia. }
  destruct (Nat.ltb_spec r m) as [Hlt|Hge].
  { exists r. split_and!; [done|by intros i Hi _; apply Heq'|]. intros _. split; [lia|]. intros E. apply (Hdiff Hlt). rewrite Nat.add_0_l, (keyed_at buf k) by (done || lia). rewrite E. apply prefix_bytes; [done|lia]. }
  destruct (Nat.ltb_spec MAX_PREFIX_LEN (partial_len n)) as [Hlong|Hshort].
  2: { exists r. split_and!; [done|by intros i Hi _; apply Heq'|]. intros Hrq. split; [lia|]. apply Hzero; [lia|done]. }
  destruct (minimum_ok _ p Hw) as (l&Hmin&k0&Hl&Hn&Hin). rewrite Hmin. cbn [mbind option_bind]. apply elem_of_leaves in Hin as (c&x&Hcb&Hx&Hin). destruct (leaves_next n keys ch p q c x k0 _ Hc Hcb Hx Hin) as (Hk0&_&Hpre). destruct (wf_path n keys ch p q k0 _ c x Hc Hcb Hx Hin) as [_ Hk0l]. pose proof (follows_prefix p q k0 Hpre) as Hf0.
  rewrite Hl, Hn. destruct (matching_ok ((length k0 `min` length k) - length p - r) (k0 ++ [0%Z]) (r + length p) buf (length p + r)) as (r2&Hr2&Hle2&Heq2&Hdiff2); [rewrite length_app; cbn; lia|lia|]. rewrite Hr2. cbn [mbind option_bind]. exists (r + r2). split; [done|]. split.
  - intros i Hi Hiq. destruct (decide (i < r)); [by apply Heq'|]. specialize (Heq2 (i - r) ltac:(lia)). replace (r + length p + (i - r)) with (length p + i) in Heq2 by lia. replace (length p + r + (i - r)) with (length p + i) in Heq2 by lia. rewrite (keyed_at buf k) in Heq2 by (done || lia). rewrite <- Heq2. by apply Hf0.
  - intros Hrq. split; [lia|]. destruct (decide (r2 < (length k0 `min` length k) - length p - r)) as [Hlt|]; [|apply Hzero; lia]. intros E. apply (Hdiff2 Hlt). replace (r + length p + r2) with (length p + (r + r2)) by lia. replace (length p + r + r2) with (length p + (r + r2)) by lia. rewrite (keyed_at buf k) by (done || lia). rewrite E. by apply Hf0.
Qed.

Lemma cut_prefix_ok n keys ch p q1 c0 q2 : wf (Node n keys ch) p -> prefix_is n (q1 ++ c0 :: q2) -> (forall c x, is_byte c -> child_at n keys ch c = Some x -> wf x (p ++ (q1 ++ c0 :: q2) ++ [c])) ->
  exists n', cut_prefix n keys ch (length p) (length q1) = Some (c0, n') /\ same_node n n' /\ prefix_is n' q2.
Proof.
  intros Hw Hq Hc. pose proof Hq as (Hql&_&Hqk). pose proof (proj1 (wf_node n keys ch p) Hw) as ((Hpl&_)&_). rewrite length_app in Hql. cbn [length] in Hql. assert (key_ok q2) as Hq2 by (apply list.Forall_app in Hqk as [_ Hqk]; by inversion Hqk).
  assert (partial_len n - (length q1 + 1) = length q2) as Hrest by lia. unfold cut_prefix. rewrite Hrest. destruct (Nat.leb_spec (partial_len n) MAX_PREFIX_LEN) as [Hle|Hgt].
  - rewrite (prefix_bytes n _ (length q1) Hq) by (rewrite length_app; cbn [length]; lia). rewrite lookup_app_r, Nat.sub_diag by lia. cbn [lookup list_lookup mbind option_bind].
    destruct (memmove_ok (partial n) 0 (length q1 + 1) (MAX_PREFIX_LEN `min` length q2)) as (b&Hb&Hbl&Hbj); [lia|lia|]. rewrite Hb. cbn [mbind option_bind]. eexists. split; [done|]. split; [by split_and!; cbn; [| |congruence]|].
    apply prefix_is_intro; [done|cbn; congruence|done|]. intros i Hi. cbn [partial set_partial]. rewrite Hbj, decide_True by lia. rewrite (prefix_bytes n _ _ Hq) by (rewrite length_app; cbn [length]; lia). rewrite lookup_app_r by lia. replace (length q1 + 1 + (i - 0) - length q1) with (S i) by lia. done.
  - destruct (minimum_ok _ p Hw) as (l&Hmin&k0&Hl&Hn&Hin). rewrite Hmin. cbn [mbind option_bind]. apply elem_of_leaves in Hin as (c&x&Hcb&Hx&Hin). destruct (leaves_next n keys ch p _ c x k0 _ Hc Hcb Hx Hin) as (Hk0&_&Hpre). destruct (wf_path n keys ch p _ k0 _ c x Hc Hcb Hx Hin) as [_ Hk0l]. pose proof (follows_prefix p _ k0 Hpre) as Hf0. rewrite length_app in Hk0l. cbn [length] in Hk0l.
    rewrite Hl. rewrite (Hf0 (length q1)) by (rewrite length_app; cbn; lia). rewrite lookup_app_r, Nat.sub_diag by lia. cbn [lookup list_lookup mbind option_bind]. rewrite sub_ok by (rewrite length_app; cbn [length]; lia). cbn [mbind option_bind].
    set (bs := take _ (drop _ _)). assert (length bs = MAX_PREFIX_LEN `min` length q2) as Hbs by (subst bs; rewrite length_take, length_drop, length_app; cbn [length]; lia). destruct (blit (partial n) 0 bs) as [b|] eqn:Hb; [|by rewrite blit_ok in Hb by lia]. pose proof (blit_length _ _ _ _ Hb) as Hbl.
    cbn [mbind option_bind]. eexists. split; [done|]. split; [by split_and!; cbn; [| |congruence]|]. apply prefix_is_intro; [done|cbn; congruence|done|]. intros i Hi. cbn [partial set_partial]. rewrite (blit_lookup _ _ _ _ _ Hb), decide_True by lia. subst bs. rewrite take_drop_lookup by lia.
    specialize (Hf0 (length q1 + S i) ltac:(rewrite length_app; cbn; lia)). replace (length p + length q1 + 1 + (i - 0)) with (length p + (length q1 + S i)) by lia. rewrite Hf0, lookup_app_r by lia. by replace (length q1 + S i - length q1) with (S i) by lia.
Qed.

Lemma partial_sub n q1 q2 : length (partial n) = MAX_PREFIX_LEN -> prefix_is n (q1 ++ q2) -> sub (partial n) 0 (MAX_PREFIX_LEN `min` length q1) = Some (take MAX_PREFIX_LEN q1).
Proof.
  intros Hpl Hq. rewrite sub_ok by lia. rewrite drop_0. f_equal. apply list_eq. intros i. destruct (decide (i < MAX_PREFIX_LEN `min` length q1)).
  - rewrite !lookup_take_lt by lia. rewrite (prefix_bytes n _ i Hq) by (rewrite length_app; lia). apply lookup_app_l. lia.
  - rewrite !lookup_ge_None_2; [done|rewrite length_take; lia|rewrite length_take; lia].
Qed.

Lemma split_prefix_ok n keys ch p q1 c0 q2 c buf k v : wf (Node n keys ch) p -> prefix_is n (q1 ++ c0 :: q2) -> (forall c x, is_byte c -> child_at n keys ch c = Some x -> wf x (p ++ (q1 ++ c0 :: q2) ++ [c])) ->
  keyed buf k -> (p ++ q1 ++ [c]) `prefix_of` (k ++ [0%Z]) -> c <> c0 ->
  exists y, split_prefix amd64 n keys ch buf (length k) v (length p) (length q1) = Some y /\ wf y p /\ forall e, e ∈ leaves y <-> e ∈ leaves (Node n keys ch) \/ e = (k, v).
Proof.
  intros Hw Hq Hc Hk P Hne. pose proof (proj1 (wf_node n keys ch p) Hw) as (Hok&Hf&_). pose proof Hok as (Hpl&_). pose proof Hq as (_&_&Hqk). apply list.Forall_app in Hqk as [Hq1 Hq2]. apply list.Forall_cons in Hq2 as [Hc0 Hq2].
  unfold split_prefix. rewrite (partial_sub n q1 (c0 :: q2)) by done. cbn [mbind option_bind]. destruct (new_header_ok q1 Hq1) as (pp&Hpp&Hppl&Hpq). rewrite Hpp. cbn [mbind option_bind].
  destruct (cut_prefix_ok n keys ch p q1 c0 q2 Hw Hq Hc) as (n'&Hcut&Hsame&Hq2'). rewrite Hcut. cbn [mbind option_bind fst snd]. destruct (same_node_ok n n' keys ch Hsame Hok Hf) as (Hok'&Hf'&Hm).
  pose proof P as [rest HP]. assert ((k ++ [0%Z]) !! (length p + length q1) = Some c) as Hkc. { rewrite HP, <- !app_assoc, (app_assoc p q1), lookup_app_r by (rewrite length_app; lia). by rewrite length_app, Nat.sub_diag. }
  rewrite (make_leaf_ok buf k v Hk). assert (length p + length q1 <= length k) as Hle by (apply (f_equal length) in HP; rewrite !length_app in HP; cbn in HP; lia). rewrite (keyed_at buf k _ Hk Hle), Hkc. cbn [mbind option_bind].
  pose proof Hk as (Hkk&_). destruct (fork_ok (set_partial (length q1) pp (alloc_header NODE4)) p q1 c0 (Node n' keys ch) c (Leaf (leaf_of k v))) as (y&Hy&Hyw&Hye); try done.
  - unfold key_byte in Hc0. unfold is_byte. lia.
  - exact (key_end_byte k _ _ Hkk Hkc).
  - apply wf_node. split_and!; [done|done|]. exists q2. split; [done|]. intros d x Hd Hx. rewrite Hm in Hx. specialize (Hc d x Hd Hx). rewrite <- !app_assoc in *. exact Hc.
  - by apply leaf_of_wf.
  - unfold fork in Hy. rewrite Hy. exists y. split_and!; [done|done|]. intros e. rewrite Hye, leaf_of_leaves. by rewrite (same_node_leaves n n').
Qed.

(** ** The whole of it *)

(** A child is replaced. *)
Lemma replace_child_wf n keys ch p q c i x y : node_ok n keys ch -> fill_ok n ch -> prefix_is n q -> (forall c x, is_byte c -> child_at n keys ch c = Some x -> wf x (p ++ q ++ [c])) -> is_byte c -> slot n keys c i -> ch !! i = Some (Some x) ->
  wf y (p ++ q ++ [c]) -> wf (Node n keys (<[i := Some y]> ch)) p.
Proof.
  intros Hok Hf Hq Hc Hb Hs Hi Hy. destruct (set_child_ok n keys ch c i x y Hok Hb Hs Hi) as [Hok' Hm]. apply wf_node. split_and!; [done| |].
  - unfold fill_ok in *. destruct (n_type n); try done. pose proof (count_insert is_used ch i _ (Some y) Hi) as Hcount. cbn in Hcount. lia.
  - exists q. split; [done|]. intros d z Hd Hz. rewrite Hm in Hz by done. destruct (decide (d = c)) as [->|]; [by injection Hz as <-|by apply Hc].
Qed.

Lemma insert_below n keys ch p q c i x k v x' old b : node_ok n keys ch -> fill_ok n ch -> prefix_is n q -> (forall c x, is_byte c -> child_at n keys ch c = Some x -> wf x (p ++ q ++ [c])) -> is_byte c -> slot n keys c i -> ch !! i = Some (Some x) -> child_at n keys ch c = Some x ->
  (k ++ [0%Z]) !! (length p + length q) = Some c -> insert_result k v x (p ++ q ++ [c]) (Some (x', old, b)) ->
  insert_result k v (Node n keys ch) p (Some (Node n keys (<[i := Some x']> ch), old, b)).
Proof.
  intros Hok Hf Hq Hc Hb Hs Hi Hx Hkc (y&o&E&Hyw&Hold&Hy). injection E as -> -> ->. destruct (set_child_ok n keys ch c i x y Hok Hb Hs Hi) as [Hok' Hm].
  exists (Node n keys (<[i := Some y]> ch)), o. split; [done|].
  assert (forall k' w d z, is_byte d -> d <> c -> child_at n keys ch d = Some z -> (k', w) ∈ leaves z -> k' <> k) as Hother.
  { intros k' w d z Hd Hdc Hz Hin ->. destruct (leaves_next n keys ch p q d z k w Hc Hd Hz Hin) as (_&E&_). congruence. }
  split_and!.
  - by eapply (replace_child_wf n keys ch p q c i x y).
  - intros w. rewrite Hold. rewrite elem_of_leaves. split; [intros Hw; by exists c, x|]. intros (d&z&Hd&Hz&Hin). destruct (decide (d = c)) as [->|Hdc]; [congruence|]. by destruct (Hother k w d z Hd Hdc Hz Hin).
  - intros k' w. rewrite !elem_of_leaves. split.
    + intros (d&z&Hd&Hz&Hin). rewrite Hm in Hz by done. destruct (decide (d = c)) as [->|Hdc].
      * injection Hz as <-. apply Hy in Hin as [?|[? Hin]]; [by left|right]. split; [done|]. by exists c, x.
      * right. split; [by eapply Hother|]. by exists d, z.
    + intros [[-> ->]|[Hne (d&z&Hd&Hz&Hin)]].
      * exists c, y. rewrite Hm, decide_True by done. split; [done|split; [done|]]. apply Hy. by left.
      * destruct (decide (d = c)) as [->|Hdc]; [exists c, y|exists d, z]; rewrite Hm by done; [rewrite decide_True by done|rewrite decide_False by done]; (split; [done|split; [done|]]); [|done]. apply Hy. right. split; [done|]. congruence.
Qed.

Lemma insert_leaf fuel l p buf k v : wf (Leaf l) p -> keyed buf k -> p `prefix_of` (k ++ [0%Z]) -> insert_result k v (Leaf l) p (recursive_insert amd64 (S fuel) (Some (Leaf l)) buf (length k) v (length p)).
Proof.
  intros (k0&Hl&Hn&H0&P0) Hk P. cbn [recursive_insert]. rewrite (leaf_matches_ok l k0 buf k Hl Hn Hk). cbn [mbind option_bind]. assert (forall e, e ∈ leaves (Leaf l) <-> e = (k0, l_value l)) as He by (intros e; cbn; rewrite Hl, Hn, take_app_length; apply list_elem_of_singleton). destruct (decide (k0 = k)) as [->|Hne].
  - rewrite bool_decide_eq_true_2 by done. rewrite Hl, Hn. change (mk_leaf v (length k) (k ++ [0%Z])) with (leaf_of k v). eexists _, (Some (l_value l)). split_and!; [done|by apply leaf_of_wf| |].
    + intros w. rewrite He. split; by intros [= ->].
    + intros k' w. rewrite leaf_of_leaves, He. split; [by intros [= -> ->]; left|]. intros [[-> ->]|[? [= ? ?]]]; done.
  - rewrite bool_decide_eq_false_2 by done. rewrite (make_leaf_ok buf k v Hk). cbn [mbind option_bind]. destruct (split_leaf_ok l k0 p buf k v) as (y&->&Hyw&Hy); try done. cbn [mbind option_bind]. apply insert_new; [done| |done]. intros w Hw. apply He in Hw. congruence.
Qed.

(** Below a node a path is of key bytes, whatever key it leads to. *)
Lemma node_path n keys ch p q k : (forall c x, is_byte c -> child_at n keys ch c = Some x -> wf x (p ++ q ++ [c])) -> wf (Node n keys ch) p -> key_ok k -> p `prefix_of` (k ++ [0%Z]) -> length p <= length k.
Proof.
  intros Hc Hw Hk P. destruct (some_leaf _ _ Hw) as (k0&v0&Hin). apply elem_of_leaves in Hin as (c&x&Hb&Hx&Hin). destruct (leaves_ok x _ k0 v0 (Hc c x Hb Hx) Hin) as [H0 [r Hr]]. destruct (decide (length p <= length k)) as [|Hgt]; [done|]. exfalso.
  assert (p = k ++ [0%Z]) as ->. { destruct P as [s Hs]. apply (f_equal length) in Hs as Hl. rewrite !length_app in Hl. cbn in Hl. destruct s; [by rewrite app_nil_r in Hs|cbn in Hl; lia]. }
  assert (k = k0) as ->. { apply key_end_eq; [done|done|]. rewrite Hr, <- app_assoc. by apply prefix_app_r. }
  apply (f_equal length) in Hr. rewrite !length_app in Hr. cbn in Hr. lia.
Qed.

Lemma insert_ok fuel x p buf k v : height x <= fuel -> wf x p -> keyed buf k -> p `prefix_of` (k ++ [0%Z]) -> insert_result k v x p (recursive_insert amd64 fuel (Some x) buf (length k) v (length p)).
Proof.
  revert p fuel. induction x as [l|n keys ch IH] using node_induction; intros p fuel Hfu Hw Hk P; (destruct fuel as [|fuel]; [cbn in Hfu; lia|]); [by apply insert_leaf|]. cbn [recursive_insert].
  pose proof Hw as (Hok&Hf&q&Hq&Hc)%wf_node. pose proof Hq as (Hql&_&Hqk). pose proof Hk as (Hkk&_). pose proof (node_path n keys ch p q k Hc Hw Hkk P) as Lp.
  assert (exists r, (if partial_len n =? 0 then Some 0 else prefix_mismatch n keys ch buf (length k) (length p)) = Some r /\ (forall i, i < r -> i < length q -> (k ++ [0%Z]) !! (length p + i) = q !! i) /\ (r < length q -> length p + r <= length k /\ (k ++ [0%Z]) !! (length p + r) <> q !! r)) as (r&Hr&Hbefore&Hat).
  { destruct (Nat.eqb_spec (partial_len n) 0); [exists 0; split_and!; [done|lia|lia]|by apply prefix_mismatch_ok]. }
  rewrite Hr. cbn [mbind option_bind]. destruct (Nat.leb_spec (partial_len n) r) as [Hpass|Hleave].
  - assert (follows k q (length p)) as Hfol by (intros i Hi; apply Hbefore; lia). assert (length p + length q <= length k) as Lq by (destruct (decide (q = [])) as [->|]; [cbn; lia|by apply follows_len]).
    pose proof (follows_app p q k P Hfol ltac:(lia)) as Ppq. destruct (lookup_lt_is_Some_2 (k ++ [0%Z]) (length p + length q)) as [c Hkc]; [rewrite length_app; cbn; lia|]. rewrite <- Hql. rewrite (keyed_at buf k _ Hk Lq), Hkc. cbn [mbind option_bind]. pose proof (key_end_byte k _ _ Hkk Hkc) as Hb.
    assert ((p ++ q ++ [c]) `prefix_of` (k ++ [0%Z])) as Ppc by (rewrite app_assoc; apply prefix_snoc; [done|by rewrite length_app]).
    destruct (find_child_ok n keys ch c Hok Hb) as [(i&x&Hfi&Hs&Hi&Hx)|[Hfi Hx]]; rewrite Hfi; cbn [mbind option_bind].
    + rewrite Hi. cbn [mbind option_bind]. pose proof (height_child _ _ _ _ _ Hx). pose proof (IH c x Hx (p ++ q ++ [c]) fuel ltac:(lia) (Hc c x Hb Hx) Hk Ppc) as Hrec. replace (length (p ++ q ++ [c])) with (length p + length q + 1) in Hrec by (rewrite !length_app; cbn; lia).
      pose proof Hrec as (y&old&E&_). rewrite E in *. cbn [mbind option_bind fst snd]. rewrite set_at_ok by (by eapply lookup_lt_Some). cbn [mbind option_bind]. by eapply insert_below.
    + rewrite (make_leaf_ok buf k v Hk). cbn [mbind option_bind]. destruct (add_child_ok amd64 n keys ch c (Leaf (leaf_of k v)) Hok Hb Hx) as (n2&k2&ch2&->&Hok2&Hp2&Hf2&_&Hm2). cbn [mbind option_bind]. apply insert_new.
      * apply wf_node. split_and!; [done|by apply Hf2; left|]. exists q. split; [by eapply same_prefix_is|]. intros d z Hd Hz. rewrite Hm2 in Hz by done. destruct (decide (d = c)) as [->|]; [injection Hz as <-; by apply leaf_of_wf|by apply Hc].
      * intros w Hin. apply elem_of_leaves in Hin as (d&z&Hd&Hz&Hin). destruct (leaves_next n keys ch p q d z k w Hc Hd Hz Hin) as (_&E&_). congruence.
      * intros e. rewrite !elem_of_leaves. setoid_rewrite <- (leaf_of_leaves k v e). split.
        -- intros (d&z&Hd&Hz&Hin). rewrite Hm2 in Hz by done. destruct (decide (d = c)) as [->|]; [injection Hz as <-; by right|left; by exists d, z].
        -- intros [(d&z&Hd&Hz&Hin)|Hin]; [exists d, z|exists c, (Leaf (leaf_of k v))]; rewrite Hm2 by done; [rewrite decide_False by congruence|rewrite decide_True by done]; by split.
  - destruct (Hat ltac:(lia)) as [Hle Hdiff]. destruct (lookup_lt_is_Some_2 q r) as [c0 Hc0]; [lia|]. destruct (lookup_lt_is_Some_2 (k ++ [0%Z]) (length p + r)) as [c Hkc]; [rewrite length_app; cbn; lia|]. pose proof (take_drop_middle q r c0 Hc0) as Eq.
    assert (length (take r q) = r) as Hlr by (rewrite length_take; lia). rewrite <- Eq in Hq, Hc. destruct (split_prefix_ok n keys ch p (take r q) c0 (drop (S r) q) c buf k v) as (y&Hy&Hyw&Hye); try done.
    + rewrite app_assoc. apply prefix_snoc; [|by rewrite length_app, Hlr]. apply follows_app; [done| |lia]. intros i Hi. rewrite lookup_take_lt by lia. apply Hbefore; lia.
    + congruence.
    + rewrite Hlr in Hy. rewrite Hy. cbn [mbind option_bind]. apply insert_new; [done| |done]. intros w Hin. apply elem_of_leaves in Hin as (d&z&Hd&Hz&Hin). destruct (leaves_next n keys ch p _ d z k w Hc Hd Hz Hin) as (_&_&Hpre). rewrite Eq in Hpre. apply Hdiff. apply (follows_prefix p q k Hpre). lia.
Qed.
End Insert.

(** ** Joining prefixes *)

(** The first bytes of the joined prefix, as they are put together. *)
Definition joined (q : list Z) (P : list Z) (L : nat) : Prop := length P = MAX_PREFIX_LEN /\ L `min` MAX_PREFIX_LEN <= length q /\ forall i, i < L `min` MAX_PREFIX_LEN -> P !! i = q !! i.

Lemma join_byte n q c : length (partial n) = MAX_PREFIX_LEN -> prefix_is n q ->
  exists P L, (if partial_len n <? MAX_PREFIX_LEN then p ← set_at (partial n) (partial_len n) c; Some (p, partial_len n + 1) else Some (partial n, partial_len n)) = Some (P, L) /\ joined (q ++ [c]) P L /\ L = length q + (if partial_len n <? MAX_PREFIX_LEN then 1 else 0).
Proof.
  intros Hpl Hq. pose proof Hq as (Hql&_). destruct (Nat.ltb_spec (partial_len n) MAX_PREFIX_LEN) as [Hlt|Hge].
  - rewrite set_at_ok by lia. cbn [mbind option_bind]. eexists _, _. split; [done|]. split; [|lia]. split_and!; [by rewrite length_insert|rewrite length_app; cbn [length]; lia|]. intros i Hi. destruct (decide (i = partial_len n)) as [->|].
    + rewrite list_lookup_insert_eq by lia. by rewrite lookup_app_r, Hql, Nat.sub_diag by lia.
    + rewrite list_lookup_insert_ne by done. rewrite lookup_app_l by lia. apply prefix_bytes; [done|lia].
  - eexists _, _. split; [done|]. split; [|lia]. split_and!; [done|rewrite length_app; lia|]. intros i Hi. rewrite lookup_app_l by lia. apply prefix_bytes; [done|lia].
Qed.

Lemma join_rest q P L m qm : joined q P L -> length (partial m) = MAX_PREFIX_LEN -> prefix_is m qm -> (L < MAX_PREFIX_LEN -> L = length q) ->
  exists P' L', (if L <? MAX_PREFIX_LEN then bs ← sub (partial m) 0 (partial_len m `min` (MAX_PREFIX_LEN - L)); p ← blit P L bs; Some (p, L + partial_len m `min` (MAX_PREFIX_LEN - L)) else Some (P, L)) = Some (P', L') /\ joined (q ++ qm) P' L' /\ L' `min` MAX_PREFIX_LEN = length (q ++ qm) `min` MAX_PREFIX_LEN.
Proof.
  intros (HP&HL&Hi) Hpl Hq Hlen. pose proof Hq as (Hql&_). destruct (Nat.ltb_spec L MAX_PREFIX_LEN) as [Hlt|Hge].
  - specialize (Hlen Hlt). rewrite sub_ok by lia. rewrite drop_0. cbn [mbind option_bind]. set (bs := take _ (partial m)). assert (length bs = partial_len m `min` (MAX_PREFIX_LEN - L)) as Hbs by (subst bs; rewrite length_take; lia).
    destruct (blit P L bs) as [b|] eqn:Hb; [|by rewrite blit_ok in Hb by lia]. pose proof (blit_length _ _ _ _ Hb) as Hbl. cbn [mbind option_bind]. eexists _, _. split; [done|]. split; [|rewrite length_app; lia]. split_and!; [congruence|rewrite length_app; lia|]. intros i Hi'. rewrite (blit_lookup _ _ _ _ _ Hb). destruct (decide _) as [Hin|Hout].
    + rewrite lookup_app_r by lia. subst bs. rewrite lookup_take_lt by lia. rewrite <- Hlen. apply prefix_bytes; [done|lia].
    + rewrite lookup_app_l by lia. apply Hi. lia.
  - eexists _, _. split; [done|]. split; [|rewrite length_app; lia]. split_and!; [done|rewrite length_app; lia|]. intros i Hi'. rewrite lookup_app_l by lia. by apply Hi.
Qed.

Lemma join_prefix_ok n q c m qm : length (partial n) = MAX_PREFIX_LEN -> length (partial m) = MAX_PREFIX_LEN -> prefix_is n q -> prefix_is m qm -> key_byte c ->
  exists m', join_prefix n c m = Some m' /\ same_node m m' /\ prefix_is m' (q ++ [c] ++ qm).
Proof.
  intros Hn Hm Hq Hqm Hc. unfold join_prefix. destruct (join_byte n q c Hn Hq) as (P&L&E1&HP&HL). pose proof Hq as (Hql&_&Hqk). pose proof Hqm as (Hqml&_&Hqmk). rewrite (option_bind_ok _ _ _ E1). cbn [fst snd].
  destruct (join_rest (q ++ [c]) P L m qm HP Hm Hqm) as (P'&L'&E2&(HP'&HL'&Hi)&Hlen). { rewrite length_app. cbn [length]. destruct (Nat.ltb_spec (partial_len n) MAX_PREFIX_LEN); lia. }
  rewrite (option_bind_ok _ _ _ E2). cbn [fst snd]. rewrite sub_ok by lia. rewrite drop_0. cbn [mbind option_bind]. rewrite <- app_assoc in *. set (bs := take _ P'). assert (length bs = L' `min` MAX_PREFIX_LEN) as Hbs by (subst bs; rewrite length_take; lia).
  destruct (blit (partial m) 0 bs) as [b|] eqn:Hb; [|by rewrite blit_ok in Hb by lia]. pose proof (blit_length _ _ _ _ Hb) as Hbl. cbn [mbind option_bind]. eexists. split; [done|]. split; [by split_and!; cbn; [| |congruence]|].
  apply prefix_is_intro; [cbn [partial_len set_partial]; rewrite !length_app; cbn [length]; lia|cbn; congruence| |].
  - apply list.Forall_app. split; [done|]. apply list.Forall_cons. done.
  - intros i Hi'. cbn [partial set_partial]. rewrite (blit_lookup _ _ _ _ _ Hb), decide_True by lia. subst bs. rewrite Nat.sub_0_r, lookup_take_lt by lia. apply Hi. lia.
Qed.

Section Delete.
Context {V : Type}.
Implicit Types (n : art_header) (keys : list Z) (ch : list (option (art_node V))) (x : art_node V) (p k buf : list Z) (l : art_leaf V).

(** [x'] is what is left without [k]. *)
Definition left_over k x p x' : Prop := wf x' p /\ forall k' w, (k', w) ∈ leaves x' <-> k' <> k /\ (k', w) ∈ leaves x.

(** The leaf that is returned. *)
Definition found_leaf k x (r : option (art_leaf V)) : Prop := forall w, l_value <$> r = Some w <-> (k, w) ∈ leaves x.

(** ** Removing a leaf from its node *)

(** The child takes the place of its node. *)
Lemma collapse_ok n keys ch p q c1 x1 : node_ok n keys ch -> prefix_is n q -> (forall c x, is_byte c -> child_at n keys ch c = Some x -> wf x (p ++ q ++ [c])) -> is_byte c1 -> child_at n keys ch c1 = Some x1 ->
  exists y, match x1 with Leaf _ => Some x1 | Node m ks os => m ← join_prefix (dec_num n) c1 m; Some (Node m ks os) end = Some y /\ wf y p /\ forall e, e ∈ leaves y <-> e ∈ leaves x1.
Proof.
  intros Hok Hq Hc Hb Hx1. pose proof (Hc c1 x1 Hb Hx1) as Hw. destruct x1 as [l|m ks os].
  - exists (Leaf l). split_and!; [done| |done]. destruct Hw as (k&H1&H2&H3&H4). exists k. split_and!; try done. etrans; [|exact H4]. by apply prefix_app_r.
  - pose proof Hw as (Hokm&Hfm&qm&Hqm&Hcm)%wf_node. assert (key_byte c1) as Hk1.
    { destruct (some_leaf _ _ Hw) as (k0&v0&Hin). pose proof (leaves_ok _ _ _ _ Hw Hin) as [Hk0 _]. apply elem_of_leaves in Hin as (d&z&Hd&Hz&Hin). destruct (wf_path m ks os (p ++ q ++ [c1]) qm k0 v0 d z Hcm Hd Hz Hin) as [[r Hr] _]. unfold key_ok in Hk0. rewrite list.Forall_forall in Hk0. apply Hk0. rewrite Hr, !elem_of_app. left. left. right. right. by apply list_elem_of_singleton. }
    pose proof Hok as (Hpl&_). pose proof Hokm as (Hplm&_). destruct (join_prefix_ok (dec_num n) q c1 m qm) as (m'&Hj&Hsame&Hq'); try done. rewrite Hj. cbn [mbind option_bind]. destruct (same_node_ok m m' ks os Hsame Hokm Hfm) as (Hok'&Hf'&Hm'). eexists. split; [done|]. split; [|intros e; by apply same_node_leaves].
    apply wf_node. split_and!; [done|done|]. exists (q ++ [c1] ++ qm). split; [done|]. intros d z Hd Hz. rewrite Hm' in Hz. specialize (Hcm d z Hd Hz). rewrite <- !app_assoc in *. exact Hcm.
Qed.

Lemma remove_leaf_ok n keys ch p q c i l k : node_ok n keys ch -> fill_ok n ch -> prefix_is n q -> (forall c x, is_byte c -> child_at n keys ch c = Some x -> wf x (p ++ q ++ [c])) -> is_byte c -> slot n keys c i -> child_at n keys ch c = Some (Leaf l) -> leaves (Leaf l) = [(k, l_value l)] ->
  exists y, remove_child n keys ch c i = Some y /\ left_over k (Node n keys ch) p y.
Proof.
  intros Hok Hf Hq Hc Hb Hs Hx Hl. assert (forall k' w, (k', w) ∈ leaves (Node n keys ch) -> k' <> k <-> exists d z, is_byte d /\ d <> c /\ child_at n keys ch d = Some z /\ (k', w) ∈ leaves z) as Hother.
  { assert ((k, l_value l) ∈ leaves (Leaf l)) as Hin by (rewrite Hl; by apply list_elem_of_singleton). destruct (leaves_next n keys ch p q c _ k _ Hc Hb Hx Hin) as (_&Ek&_). intros k' w Hk'. apply elem_of_leaves in Hk' as (d&z&Hd&Hz&Hin'). split.
    - intros Hne. exists d, z. split_and!; try done; try apply Hd. intros ->. rewrite Hx in Hz. injection Hz as <-. rewrite Hl in Hin'. apply list_elem_of_singleton in Hin'. congruence.
    - intros (d'&z'&Hd'&Hdc&Hz'&Hin2) ->. destruct (leaves_next n keys ch p q d' z' k w Hc Hd' Hz' Hin2) as (_&E&_). congruence. }
  destruct (remove_child_ok n keys ch c i _ Hok Hf Hb Hs Hx) as [(n2&k2&ch2&->&Hf2&Hok2&Hp2&Hm2)|(c1&x1&Ht&Hb1&Hne&Hx1&Honly&->)].
  - eexists. split; [done|]. split.
    + apply wf_node. split_and!; [done|done|]. exists q. split; [by eapply same_prefix_is|]. intros d z Hd Hz. rewrite Hm2 in Hz by done. destruct (decide (d = c)); [done|]. by apply Hc.
    + intros k' w. rewrite elem_of_leaves. split.
      * intros (d&z&Hd&Hz&Hin). rewrite Hm2 in Hz by done. destruct (decide (d = c)); [done|]. assert ((k', w) ∈ leaves (Node n keys ch)) as Hin' by (apply elem_of_leaves; by exists d, z). split; [|done]. apply (Hother k' w Hin'). by exists d, z.
      * intros [Hk' Hin]. apply (Hother k' w Hin) in Hk' as (d&z&Hd&Hdc&Hz&Hin'). exists d, z. rewrite Hm2, decide_False by done. done.
  - destruct (collapse_ok n keys ch p q c1 x1) as (y&Hy&Hyw&Hye); try done. rewrite Hy. exists y. split; [done|]. split; [done|]. intros k' w. rewrite Hye. split.
    + intros Hin. assert ((k', w) ∈ leaves (Node n keys ch)) as Hin' by (apply elem_of_leaves; by exists c1, x1). split; [|done]. apply (Hother k' w Hin'). by exists c1, x1.
    + intros [Hk' Hin]. apply (Hother k' w Hin) in Hk' as (d&z&Hd&Hdc&Hz&Hin'). destruct (decide (d = c1)) as [->|]; [congruence|]. by rewrite Honly in Hz.
Qed.

(** ** The whole of it *)

Lemma nothing_left k x p : wf x p -> (forall w, ~ (k, w) ∈ leaves x) -> left_over k x p x /\ found_leaf k x None.
Proof.
  intros Hw Hno. split; [split; [done|]|].
  - intros k' w. split; [intros Hin; split; [intros ->; by apply (Hno w)|done]|by intros [_ ?]].
  - intros w. split; [done|]. intros Hin. by destruct (Hno w).
Qed.

(** A child has been replaced by what is left of it. *)
Lemma left_below n keys ch p q c i x k y : node_ok n keys ch -> fill_ok n ch -> prefix_is n q -> (forall c x, is_byte c -> child_at n keys ch c = Some x -> wf x (p ++ q ++ [c])) -> is_byte c -> slot n keys c i -> ch !! i = Some (Some x) -> child_at n keys ch c = Some x ->
  (forall w d z, is_byte d -> d <> c -> child_at n keys ch d = Some z -> (k, w) ∈ leaves z -> False) -> left_over k x (p ++ q ++ [c]) y -> left_over k (Node n keys ch) p (Node n keys (<[i := Some y]> ch)).
Proof.
  intros Hok Hf Hq Hc Hb Hs Hi Hx Hother [Hyw Hy]. destruct (set_child_ok n keys ch c i x y Hok Hb Hs Hi) as [Hok' Hm]. split.
  - by eapply (replace_child_wf n keys ch p q c i x y).
  - intros k' w. rewrite !elem_of_leaves. split.
    + intros (d&z&Hd&Hz&Hin). rewrite Hm in Hz by done. destruct (decide (d = c)) as [->|Hdc]; [injection Hz as <-; apply Hy in Hin as [? Hin]; split; [done|by exists c, x]|]. split; [intros ->; by apply (Hother w d z)|by exists d, z].
    + intros [Hne (d&z&Hd&Hz&Hin)]. destruct (decide (d = c)) as [->|Hdc]; [exists c, y|exists d, z]; rewrite Hm by done; [rewrite decide_True by done|rewrite decide_False by done]; (split; [done|split; [done|]]); [|done]. apply Hy. split; [done|]. congruence.
Qed.

(** Deleting from a node, whose leaves it removes itself. *)
Lemma delete_ok fuel n keys ch p buf k : height (Node n keys ch) <= fuel -> wf (Node n keys ch) p -> keyed buf k -> (forall k' v, (k', v) ∈ leaves (Node n keys ch) -> length k' < length buf) ->
  exists r x', recursive_delete fuel (Some (Node n keys ch)) buf (length k) (length p) = Some (r, Some x') /\ left_over k (Node n keys ch) p x' /\ found_leaf k (Node n keys ch) r.
Proof.
  assert (forall x p fuel n keys ch, x = Node n keys ch -> height x <= fuel -> wf x p -> keyed buf k -> (forall k' v, (k', v) ∈ leaves x -> length k' < length buf) -> exists r x', recursive_delete fuel (Some x) buf (length k) (length p) = Some (r, Some x') /\ left_over k x p x' /\ found_leaf k x r) as Hall; [|by intros; eapply Hall].
  clear. intros x. induction x as [l|n keys ch IH] using node_induction; intros p fuel n0 keys0 ch0 E Hfu Hw Hk Hlen; [done|]. clear E n0 keys0 ch0. destruct fuel as [|fuel]; [cbn in Hfu; lia|]. cbn [recursive_delete].
  pose proof Hw as (Hok&Hf&_)%wf_node. pose proof Hok as (Hpl&_). destruct (step_ok n keys ch p buf k Hw Hk Hlen) as (q&c&Hq&Hc&Hql&Hbc&Hb&_&Hkc). destruct (pass_prefix_ok n q buf k (length p) Hpl Hq Hk) as (b&Hpass&Hfol). rewrite Hpass. cbn [mbind option_bind].
  assert (forall w d z, is_byte d -> child_at n keys ch d = Some z -> (k, w) ∈ leaves z -> b = true /\ d = c) as Hin.
  { intros w d z Hd Hz Hin. destruct (leaves_next n keys ch p q d z k w Hc Hd Hz Hin) as (_&Hn&Hpre). destruct (wf_path n keys ch p q k w d z Hc Hd Hz Hin) as [_ Hle]. rewrite <- Hql in Hkc. rewrite (Hkc Hle) in Hn. injection Hn as <-. split; [apply Hfol; by apply follows_prefix|done]. }
  assert ((forall w z, child_at n keys ch c = Some z -> (k, w) ∈ leaves z -> False) \/ b = false -> left_over k (Node n keys ch) p (Node n keys ch) /\ found_leaf k (Node n keys ch) None) as Hnone.
  { intros Hno. apply nothing_left; [done|]. intros w Hi. apply elem_of_leaves in Hi as (d&z&Hd&Hz&Hi). destruct (Hin w d z Hd Hz Hi) as [-> ->]. destruct Hno as [Hno|?]; [by apply (Hno w z)|done]. }
  destruct b; [|exists None, (Node n keys ch); split; [done|by apply Hnone; right]]. rewrite Hbc. cbn [mbind option_bind]. destruct (find_child_ok n keys ch c Hok Hb) as [(i&x&Hfi&Hs&Hi&Hx)|[Hfi Hx]]; rewrite Hfi; cbn [mbind option_bind].
  2: { exists None, (Node n keys ch). split; [done|]. apply Hnone. left. intros w z Hz _. congruence. }
  rewrite Hi. cbn [mbind option_bind]. destruct x as [l|m ks os].
  - destruct (Hc c _ Hb Hx) as (k0&Hl&Hn&H0&P0). rewrite (leaf_matches_ok l k0 buf k Hl Hn Hk). cbn [mbind option_bind]. assert (leaves (Leaf l) = [(k0, l_value l)]) as Hll by (cbn; by rewrite Hl, Hn, take_app_length). destruct (decide (k0 = k)) as [->|Hne].
    + rewrite bool_decide_eq_true_2 by done. destruct (remove_leaf_ok n keys ch p q c i l k) as (y&Hy&Hleft); try done. rewrite Hy. cbn [mbind option_bind]. exists (Some l), y. split_and!; [done|done|]. intros w. assert ((k, l_value l) ∈ leaves (Node n keys ch)) as Hv by (apply elem_of_leaves; exists c, (Leaf l); rewrite Hll; split; [done|split; [done|by apply list_elem_of_singleton]]).
      split; [by intros [= <-]|]. intros Hw'. cbn. f_equal. by eapply (leaves_unique (Node n keys ch) p k).
    + rewrite bool_decide_eq_false_2 by done. exists None, (Node n keys ch). split; [done|]. apply Hnone. left. intros w z Hz Hi'. rewrite Hx in Hz. injection Hz as <-. rewrite Hll in Hi'. apply list_elem_of_singleton in Hi'. congruence.
  - pose proof (height_child _ _ _ _ _ Hx). destruct (IH c (Node m ks os) Hx (p ++ q ++ [c]) fuel m ks os eq_refl) as (r&y&Hr&Hleft&Hfound); [lia|by apply Hc|done|intros k' v Hv; apply (Hlen k' v), elem_of_leaves; by exists c, (Node m ks os)|]. replace (length (p ++ q ++ [c])) with (length p + partial_len n + 1) in Hr by (rewrite !length_app, Hql; cbn; lia). rewrite Hr. cbn [mbind option_bind fst snd].
    rewrite set_at_ok by (by eapply lookup_lt_Some). cbn [mbind option_bind]. exists r, (Node n keys (<[i := Some y]> ch)). split_and!; [done| |].
    + eapply (left_below n keys ch p q c i (Node m ks os)); try done. intros w d z Hd Hdc Hz Hi'. by destruct (Hin w d z Hd Hz Hi').
    + intros w. rewrite (Hfound w), (elem_of_leaves n keys ch). split; [intros Hw'; by exists c, (Node m ks os)|]. intros (d&z&Hd&Hz&Hi'). destruct (Hin w d z Hd Hz Hi') as [_ ->]. congruence.
Qed.
End Delete.
