(* ===== verification/ArtWalk.v ===== *)
(** * The adaptive radix tree: the stored prefixes of a string, and all keys (src/lib/art.c) *)

From Stdlib Require Import ZArith Lia Sorting.Sorted.
From stdpp Require Import base list numbers option.
From S2P Require Import Prelude Art ArtNode ArtTree.

Local Open Scope nat_scope.

Section Walk.
Context {V : Type}.
Implicit Types (n : art_header) (keys : list Z) (ch : list (option (art_node V))) (x : art_node V) (p k buf str : list Z) (l : art_leaf V).

(** The calls for keys, up to the first one that stops. *)
Fixpoint calls {D} (func : @walk_func V D) (str_len : nat) (d : D) (ks : list (list Z * V)) : D :=
  match ks with
  | [] => d
  | (k, v) :: ks =>
    let r := func d (k ++ [0%Z]) (length k) (negb (length k =? str_len)) v in
    if (r.2 =? 0)%Z then calls func str_len r.1 ks else r.1
  end.

(** The stored prefixes of [str], the shorter ones first. *)
Definition shorter (a b : list Z * V) : Prop := length a.1 < length b.1.
Definition prefixes_in x str (ks : list (list Z * V)) : Prop := StronglySorted shorter ks /\ forall e, e ∈ ks <-> e ∈ leaves x /\ e.1 `prefix_of` str.

(** The string itself may be visited once more, where there is a node. *)
Definition once_more x str (ks : list (list Z * V)) : Prop := ks = [] \/ exists v n keys ch, x = Node n keys ch /\ ks = [(str, v)] /\ (str, v) ∈ leaves x.

Lemma str_prefix_matches_ok l k buf str : l_key l = k ++ [0%Z] -> l_key_len l = length k -> keyed buf str -> str_prefix_matches l buf (length str) = Some (bool_decide (k `prefix_of` str)).
Proof.
  intros Hl Hn Hk. unfold str_prefix_matches. rewrite Hl, Hn. destruct (Nat.ltb_spec (length str) (length k)) as [Hlt|Hge].
  - rewrite bool_decide_eq_false_2; [done|]. intros [r ->]. rewrite length_app in Hlt. lia.
  - rewrite (keyed_sub buf str) by done. rewrite sub_ok by (rewrite length_app; lia). cbn [mbind option_bind]. rewrite drop_0, take_app_length. f_equal. apply bool_decide_ext. split.
    + intros <-. apply prefix_take.
    + intros [r ->]. by rewrite take_app_length.
Qed.

(** Under the zero byte there is the leaf of the path. *)
Lemma zero_child n keys ch p q x : (forall c x, is_byte c -> child_at n keys ch c = Some x -> wf x (p ++ q ++ [c])) -> child_at n keys ch 0%Z = Some x -> exists l, x = Leaf l /\ l_key l = (p ++ q) ++ [0%Z] /\ l_key_len l = length (p ++ q) /\ leaves x = [(p ++ q, l_value l)].
Proof.
  intros Hc Hx. assert (is_byte 0) as Hb by (unfold is_byte; lia). pose proof (Hc 0%Z x Hb Hx) as Hw. assert (forall k v, (k, v) ∈ leaves x -> k = p ++ q) as Hkey.
  { intros k v Hin. destruct (leaves_next n keys ch p q 0%Z x k v Hc Hb Hx Hin) as (Hok&Hz&_). apply key_zero in Hz; [|done]. destruct (wf_path n keys ch p q k v 0%Z x Hc Hb Hx Hin) as [[r ->] _]. rewrite !length_app in Hz. destruct r; [by rewrite app_nil_r|cbn in Hz; lia]. }
  destruct x as [l|m ks os].
  - destruct Hw as (k&Hl&Hn&_). cbn [leaves] in *. rewrite Hl, Hn, take_app_length in *. assert (k = p ++ q) as -> by (apply (Hkey k (l_value l)); by apply list_elem_of_singleton). by exists l.
  - exfalso. destruct (some_leaf _ _ Hw) as (k&v&Hin). pose proof Hw as (_&_&qm&_&Hcm)%wf_node. pose proof Hin as Hin'. apply elem_of_leaves in Hin' as (d&z&Hd&Hz&Hin'). destruct (wf_path m ks os _ qm k v d z Hcm Hd Hz Hin') as [_ Hle]. specialize (Hkey k v Hin). apply (f_equal length) in Hkey. rewrite !length_app in *. cbn in Hle. lia.
Qed.

(** What is below a node for a string that goes on from there, and for one that does not. *)
Lemma below_prefix n keys ch p q c str : (forall c x, is_byte c -> child_at n keys ch c = Some x -> wf x (p ++ q ++ [c])) -> key_ok str -> (p ++ q) `prefix_of` str -> (str ++ [0%Z]) !! (length p + length q) = Some c ->
  forall k v d z, is_byte d -> child_at n keys ch d = Some z -> (k, v) ∈ leaves z -> k `prefix_of` str -> d = 0%Z \/ d = c /\ length (p ++ q) < length k.
Proof.
  intros Hc Hok Hpq Hstr k v d z Hd Hz Hin Hk. destruct (decide (d = 0%Z)) as [|Hd0]; [by left|right]. destruct (leaves_next n keys ch p q d z k v Hc Hd Hz Hin) as (_&Hkd&_). rewrite length_app. destruct (decide (length p + length q < length k)) as [Hlt|].
  - split; [|done]. rewrite lookup_app_l in Hkd by done. destruct Hk as [r ->]. rewrite <- app_assoc, lookup_app_l in Hstr by done. congruence.
  - exfalso. apply Hd0. rewrite lookup_app_r in Hkd by lia. destruct (length p + length q - length k) as [|[|?]]; cbn in Hkd; congruence.
Qed.

Lemma below_no_prefix n keys ch p q str : (forall c x, is_byte c -> child_at n keys ch c = Some x -> wf x (p ++ q ++ [c])) -> ~ (p ++ q) `prefix_of` str -> forall k v d z, is_byte d -> child_at n keys ch d = Some z -> (k, v) ∈ leaves z -> ~ k `prefix_of` str.
Proof. intros Hc Hpq k v d z Hd Hz Hin Hk. apply Hpq. destruct (wf_path n keys ch p q k v d z Hc Hd Hz Hin) as [H1 _]. by etrans. Qed.

Lemma nil_prefixes x str : (forall k v, (k, v) ∈ leaves x -> ~ k `prefix_of` str) -> prefixes_in x str [].
Proof. intros Hno. split; [constructor|]. intros [k v]. split; [by intros ?%elem_of_nil|]. intros [Hin Hk]. by destruct (Hno k v Hin). Qed.

Lemma prefixes_nil x str ks dup : (forall k v, (k, v) ∈ leaves x -> ~ k `prefix_of` str) -> prefixes_in x str ks -> once_more x str dup -> ks = [] /\ dup = [].
Proof.
  intros Hno [_ Hks] Hdup. split.
  - destruct ks as [|[k v] ks]; [done|]. destruct (proj1 (Hks (k, v)) ltac:(left)) as [Hin Hk]. by destruct (Hno k v Hin).
  - destruct Hdup as [->|(v&?&?&?&_&->&Hin)]; [done|]. by destruct (Hno str v Hin).
Qed.

(** The leaf under the zero byte comes first. *)
Definition zero_prefix n keys ch p q : list (list Z * V) := match child_at n keys ch 0%Z with Some x => map (fun e => (p ++ q, e.2)) (leaves x) | None => [] end.

Lemma prefixes_cons n keys ch p q c str ks : (forall c x, is_byte c -> child_at n keys ch c = Some x -> wf x (p ++ q ++ [c])) -> key_ok str -> (p ++ q) `prefix_of` str -> is_byte c -> (str ++ [0%Z]) !! (length p + length q) = Some c ->
  (c <> 0%Z -> match child_at n keys ch c with Some z => prefixes_in z str ks | None => ks = [] end) -> (c = 0%Z -> ks = []) -> prefixes_in (Node n keys ch) str (zero_prefix n keys ch p q ++ ks).
Proof.
  intros Hc Hok Hpq Hb Hstr Hks Hks0. pose proof (below_prefix n keys ch p q c str Hc Hok Hpq Hstr) as Hbelow. assert (is_byte 0) as H0 by (unfold is_byte; lia).
  assert (forall e, e ∈ ks <-> exists z, c <> 0%Z /\ child_at n keys ch c = Some z /\ e ∈ leaves z /\ e.1 `prefix_of` str) as Hin.
  { intros e. destruct (decide (c = 0%Z)) as [E|Hne]; [rewrite (Hks0 E); split; [by intros ?%elem_of_nil|by intros (?&?&_)]|]. specialize (Hks Hne). destruct (child_at n keys ch c) as [z|]; [|rewrite Hks; split; [by intros ?%elem_of_nil|by intros (?&_&?&_)]]. destruct Hks as [_ Hks]. rewrite Hks. split; [intros [? ?]; by exists z|by intros (?&_&[= <-]&?&?)]. }
  split.
  - assert (StronglySorted shorter ks) as Hs. { destruct (decide (c = 0%Z)) as [E|Hne]; [rewrite (Hks0 E); constructor|]. specialize (Hks Hne). destruct (child_at n keys ch c); [apply Hks|rewrite Hks; constructor]. }
    unfold zero_prefix. destruct (child_at n keys ch 0%Z) as [x|] eqn:Hx; [|done]. destruct (zero_child n keys ch p q x Hc Hx) as (l&->&_&_&->). cbn. constructor; [done|]. apply list.Forall_forall. intros [k v] (z&Hne&Hz&Hkv&Hk)%Hin. unfold shorter. cbn [fst] in *. by destruct (Hbelow k v c z Hb Hz Hkv Hk) as [?|[_ ?]].
  - intros [k v]. rewrite elem_of_app, Hin, elem_of_leaves. cbn [fst]. split.
    + intros [Hz|(z&_&Hz&Hkv&Hk)]; [|split; [by exists c, z|done]]. unfold zero_prefix in Hz. destruct (child_at n keys ch 0%Z) as [x|] eqn:Hx; [|by apply elem_of_nil in Hz]. destruct (zero_child n keys ch p q x Hc Hx) as (l&_&_&_&Hl). rewrite Hl in Hz. apply list_elem_of_singleton in Hz. injection Hz as -> ->. split; [|done]. exists 0%Z, x. rewrite Hl. split; [done|split; [done|by apply list_elem_of_singleton]].
    + intros [(d&z&Hd&Hz&Hkv) Hk]. destruct (decide (d = 0%Z)) as [->|Hd0].
      * left. unfold zero_prefix. rewrite Hz. destruct (zero_child n keys ch p q z Hc Hz) as (l&_&_&_&Hl). rewrite Hl in *. apply list_elem_of_singleton in Hkv. injection Hkv as -> ->. by apply list_elem_of_singleton.
      * right. destruct (Hbelow k v d z Hd Hz Hkv Hk) as [?|[-> _]]; [done|]. by exists z.
Qed.

(** ** The walk *)

Lemma walk_stop {D} fuel (func : @walk_func V D) o buf klen depth d s : s <> 0%Z -> walk_loop fuel func o buf klen depth d s = Some d.
Proof. intros Hs. apply Z.eqb_neq in Hs. destruct fuel, o; cbn [walk_loop]; by rewrite ?Hs. Qed.

Lemma zero_leaf_ok n keys ch p q : node_ok n keys ch -> (forall c x, is_byte c -> child_at n keys ch c = Some x -> wf x (p ++ q ++ [c])) ->
  zero_leaf n keys ch = Some None /\ child_at n keys ch 0%Z = None /\ zero_prefix n keys ch p q = [] \/
  exists l, zero_leaf n keys ch = Some (Some l) /\ child_at n keys ch 0%Z = Some (Leaf l) /\ leaves (Leaf l) = [(p ++ q, l_value l)] /\ l_key l = (p ++ q) ++ [0%Z] /\ l_key_len l = length (p ++ q) /\ zero_prefix n keys ch p q = [(p ++ q, l_value l)].
Proof.
  intros Hok Hc. unfold zero_leaf, zero_prefix. rewrite next_child_ok by (done || (unfold is_byte; lia)). cbn [mbind option_bind]. destruct (child_at n keys ch 0%Z) as [x|] eqn:Hx; [right|by left]. destruct (zero_child n keys ch p q x Hc Hx) as (l&->&H1&H2&H3). exists l. rewrite H3. done.
Qed.

(** The calls for the leaf under the zero byte, and those that follow. *)
Lemma walk_zero {D} n keys ch p q buf str (func : @walk_func V D) d : node_ok n keys ch -> (forall c x, is_byte c -> child_at n keys ch c = Some x -> wf x (p ++ q ++ [c])) -> keyed buf str ->
  exists r, (m ← zero_leaf n keys ch; match m with Some l => b ← str_prefix_matches l buf (length str); Some (if b : bool then walk_leaf func l (length str) d else (d, 0%Z)) | None => Some (d, 0%Z) end) = Some r /\
    if decide ((p ++ q) `prefix_of` str) then forall ks, calls func (length str) d (zero_prefix n keys ch p q ++ ks) = (if (r.2 =? 0)%Z then calls func (length str) r.1 ks else r.1) else r = (d, 0%Z).
Proof.
  intros Hok Hc Hk. destruct (zero_leaf_ok n keys ch p q Hok Hc) as [(->&_&->)|(l&->&_&_&Hl&Hn&->)]; cbn [mbind option_bind].
  - eexists. split; [done|]. by destruct (decide _).
  - rewrite (str_prefix_matches_ok l _ buf str Hl Hn Hk). cbn [mbind option_bind]. eexists. split; [done|]. destruct (decide _).
    + rewrite bool_decide_eq_true_2 by done. intros ks. cbn [calls app]. unfold walk_leaf. by rewrite Hl, Hn.
    + by rewrite bool_decide_eq_false_2.
Qed.

(** The child to which the string leads, with what the walk does there. *)
Definition walks (o : option (art_node V)) buf str (depth fuel : nat) (ks : list (list Z * V)) : Prop :=
  forall D (func : @walk_func V D) d, walk_loop fuel func o buf (length str) depth d 0%Z = Some (calls func (length str) d ks).

Lemma walk_child n keys ch p q c str ks dup z : (forall c x, is_byte c -> child_at n keys ch c = Some x -> wf x (p ++ q ++ [c])) -> node_ok n keys ch -> key_ok str -> (p ++ q) `prefix_of` str -> is_byte c -> (str ++ [0%Z]) !! (length p + length q) = Some c ->
  child_at n keys ch c = Some z -> prefixes_in z str ks -> once_more z str dup -> exists ks' dup', ks ++ dup = ks' ++ dup' /\ prefixes_in (Node n keys ch) str (zero_prefix n keys ch p q ++ ks') /\ once_more (Node n keys ch) str dup'.
Proof.
  intros Hc Hok Hstr Hpq Hb Hsc Hz Hks Hdup. assert (forall e, e ∈ leaves z -> e ∈ leaves (Node n keys ch)) as Hsub by (intros e He; apply elem_of_leaves; by exists c, z). destruct (decide (c = 0%Z)) as [->|Hne].
  - apply key_zero in Hsc; [|done]. assert (p ++ q = str) as Es. { destruct Hpq as [r ->]. rewrite !length_app in Hsc. destruct r; [by rewrite app_nil_r|cbn in Hsc; lia]. }
    destruct (zero_leaf_ok n keys ch p q Hok Hc) as [(_&?&_)|(l&_&Hl&Hll&_)]; [congruence|]. rewrite Hz in Hl. injection Hl as ->. exists [], (ks ++ dup). split; [done|]. split; [eapply (prefixes_cons n keys ch p q 0%Z); try done; rewrite lookup_app_r by lia; by replace (length p + length q - length str) with 0 by lia|]. rewrite Es in Hll.
    assert (ks = [(str, l_value l)]) as ->. { destruct Hks as [Hs Hks]. rewrite Hll in Hks. assert ((str, l_value l) ∈ ks) as Hin by (apply Hks; split; [by apply list_elem_of_singleton|done]). assert (forall e, e ∈ ks -> e = (str, l_value l)) as Hall by (intros e He; apply Hks in He as [He _]; by apply list_elem_of_singleton in He).
      destruct ks as [|a [|b ks]]; [by apply elem_of_nil in Hin|f_equal; apply Hall; by left|]. exfalso. apply StronglySorted_inv in Hs as [_ Hs]. apply list.Forall_cons in Hs as [Hs _]. rewrite (Hall a), (Hall b) in Hs by (repeat constructor). unfold shorter in Hs. lia. }
    destruct Hdup as [->|(?&?&?&?&?&_)]; [|done]. right. exists (l_value l), n, keys, ch. split_and!; [done|done|]. apply Hsub. rewrite Hll. by apply list_elem_of_singleton.
  - exists ks, dup. split; [done|]. split; [eapply (prefixes_cons n keys ch p q c); try done; by rewrite Hz|]. destruct Hdup as [->|(v&?&?&?&_&->&Hin)]; [by left|right]. exists v, n, keys, ch. auto.
Qed.

Lemma walk_ok fuel x p buf str : height x <= fuel -> wf x p -> keyed buf str -> (forall k v, (k, v) ∈ leaves x -> length k < length buf) ->
  exists ks dup, prefixes_in x str ks /\ once_more x str dup /\ walks (Some x) buf str (length p) fuel (ks ++ dup).
Proof.
  revert p fuel. induction x as [l|n keys ch IH] using node_induction; intros p fuel Hfu Hw Hk Hlen; (destruct fuel as [|fuel]; [cbn in Hfu; lia|]).
  - destruct Hw as (k&Hl&Hn&_). assert (leaves (Leaf l) = [(k, l_value l)]) as Hll by (cbn; by rewrite Hl, Hn, take_app_length). exists (if decide (k `prefix_of` str) then [(k, l_value l)] else []), []. split_and!; [|by left|].
    + destruct (decide _) as [Hp|Hp]; [|apply nil_prefixes; intros k' v; rewrite Hll; intros [= -> ->]%list_elem_of_singleton; done]. split; [constructor; [constructor|done]|]. intros e. rewrite Hll, !list_elem_of_singleton. split; [by intros ->|by intros [? _]].
    + intros D func d. cbn [walk_loop]. rewrite (str_prefix_matches_ok l k buf str Hl Hn Hk). cbn [mbind option_bind Z.eqb]. rewrite app_nil_r. destruct (decide _); [rewrite bool_decide_eq_true_2 by done|by rewrite bool_decide_eq_false_2]. cbn [calls]. unfold walk_leaf. rewrite Hl, Hn. by destruct (_ =? 0)%Z.
  - pose proof Hw as (Hok&_)%wf_node. pose proof Hok as (Hpl&_). pose proof Hk as (Hstr&_). destruct (step_ok n keys ch p buf str Hw Hk Hlen) as (q&c&Hq&Hc&Hql&Hbc&Hb&Hnext&Hkc). destruct (pass_prefix_ok n q buf str (length p) Hpl Hq Hk) as (b&Hpass&Hfol).
    assert (forall ks', (b = true -> match child_at n keys ch c with Some z => walks (Some z) buf str (length (p ++ q ++ [c])) fuel ks' | None => ks' = [] end) -> (b = false -> ks' = []) -> (p ++ q) `prefix_of` str \/ ks' = [] -> walks (Some (Node n keys ch)) buf str (length p) (S fuel) (if decide ((p ++ q) `prefix_of` str) then zero_prefix n keys ch p q ++ ks' else [])) as Hstep.
    { intros ks' Hchild Hno Hcase D func d. cbn [walk_loop Z.eqb]. destruct (walk_zero n keys ch p q buf str func d Hok Hc Hk) as (r&Hr&Hcalls). destruct (zero_leaf n keys ch) as [m|]; [|done]. cbn [mbind option_bind] in Hr |- *. rewrite (option_bind_ok _ _ _ Hr). rewrite Hpass. cbn [mbind option_bind].
      assert ((if b then c ← buf !! (length p + partial_len n); x ← next_child n keys ch c; walk_loop fuel func x buf (length str) (S (length p + partial_len n)) r.1 r.2 else Some r.1) = Some (if (r.2 =? 0)%Z then calls func (length str) r.1 ks' else r.1)) as ->.
      { destruct b; [|rewrite (Hno eq_refl); by destruct (_ =? 0)%Z]. specialize (Hchild eq_refl). rewrite Hbc. cbn [mbind option_bind]. rewrite Hnext. cbn [mbind option_bind]. destruct (Z.eqb_spec r.2 0) as [->|Hs]; [|by apply walk_stop]. replace (S (length p + partial_len n)) with (length (p ++ q ++ [c])) by (rewrite !length_app, Hql; cbn; lia). destruct (child_at n keys ch c) as [z|]; [apply Hchild|rewrite Hchild; by destruct fuel]. }
      destruct (decide _) as [Hp|Hp]; [by rewrite Hcalls|]. destruct Hcase as [?| ->]; [done|]. rewrite Hcalls. done. }
    assert (match child_at n keys ch c with Some z => exists ks dup, prefixes_in z str ks /\ once_more z str dup /\ walks (Some z) buf str (length (p ++ q ++ [c])) fuel (ks ++ dup) | None => True end) as Hrec.
    { destruct (child_at n keys ch c) as [z|] eqn:Hz; [|done]. pose proof (height_child _ _ _ _ _ Hz). eapply IH; [exact Hz|lia|by apply Hc|done|]. intros k v Hin. apply (Hlen k v), elem_of_leaves. by exists c, z. }
    destruct (decide ((p ++ q) `prefix_of` str)) as [Hp|Hp].
    + assert (length p + partial_len n <= length str) as Hle by (destruct Hp as [r ->]; rewrite !length_app; lia). specialize (Hkc Hle). rewrite <- Hql in Hkc. assert (b = true) as -> by (apply Hfol, follows_prefix; by apply prefix_app_r).
      destruct (child_at n keys ch c) as [z|] eqn:Hz.
      * destruct Hrec as (ks&dup&Hks&Hdup&Hwalk). destruct (walk_child n keys ch p q c str ks dup z) as (ks'&dup'&E&H1&H2); try done. exists (zero_prefix n keys ch p q ++ ks'), dup'. split_and!; [done|done|]. rewrite <- app_assoc, <- E. apply Hstep; [done|done|by left].
      * exists (zero_prefix n keys ch p q), []. split_and!; [|by left|apply Hstep; [done|done|by left]]. rewrite <- (app_nil_r (zero_prefix n keys ch p q)). eapply (prefixes_cons n keys ch p q c); try done. by rewrite Hz.
    + pose proof (below_no_prefix n keys ch p q str Hc Hp) as Hbelow. exists [], []. split_and!; [apply nil_prefixes; intros k v (d&z&Hd&Hz&Hin)%elem_of_leaves; by eapply Hbelow|by left|]. apply (Hstep []); [|done|by right]. intros _. destruct (child_at n keys ch c) as [z|] eqn:Hz; [|done]. destruct Hrec as (ks&dup&Hks&Hdup&Hwalk). destruct (prefixes_nil z str ks dup) as [-> ->]; [|done|done|exact Hwalk]. intros k v Hin. by eapply Hbelow.
Qed.
End Walk.

Lemma seqZ_self {A} (l : list A) (d : A) n : length l = n -> l = (fun c => default d (l !! Z.to_nat c)) <$> seqZ 0 (Z.of_nat n).
Proof.
  intros Hl. apply list_eq. intros i. rewrite list_lookup_fmap. destruct (decide (i < n)) as [Hi|Hi].
  - rewrite lookup_seqZ_lt by lia. cbn. rewrite Z.add_0_l, Nat2Z.id. destruct (lookup_lt_is_Some_2 l i) as [x Hx]; [lia|]. by rewrite Hx.
  - rewrite lookup_ge_None_2 by lia. rewrite lookup_seqZ_ge by lia. done.
Qed.

Lemma mapM_known {A B C} (f : B -> option C) (h : A -> B) (g : A -> C) l : (forall x, x ∈ l -> f (h x) = Some (g x)) -> mapM f (h <$> l) = Some (map g l).
Proof. induction l as [|x l IH]; intros Hl; [done|]. cbn. rewrite Hl by (by left). cbn. rewrite IH by (intros y Hy; apply Hl; by right). done. Qed.

Lemma filter_map {A B} (f : A -> B) (P : B -> Prop) `{forall x, Decision (P x)} (l : list A) : filter P (f <$> l) = f <$> filter (fun x => P (f x)) l.
Proof. induction l as [|x l IH]; [done|]. rewrite fmap_cons, !filter_cons, IH. by destruct (decide (P (f x))). Qed.

Section Iter.
Context {V : Type}.
Implicit Types (n : art_header) (keys : list Z) (ch : list (option (art_node V))) (x : art_node V).

(** The children are visited in the order of bytes [cs]. *)
Definition visits n keys ch (cs : list Z) : Prop := NoDup cs /\ (forall c, c ∈ cs <-> is_byte c /\ child_at n keys ch c <> None) /\ visit_slots n keys ch = Some (map (child_at n keys ch) cs).

Lemma visit_array n keys ch : is_array (n_type n) -> node_ok n keys ch -> visits n keys ch (take (num_children n) keys).
Proof.
  intros Ht Hok. pose proof (proj1 (array_node n keys ch Ht) Hok) as (_&H2&H3&H4&Hu&Hinj). assert (forall i c, i < num_children n -> keys !! i = Some c -> is_byte c /\ ch !! i = Some (child_at n keys ch c) /\ child_at n keys ch c <> None) as Hat.
  { intros i c Hi Hc. destruct (Hu i Hi) as (c'&x&Hc'&Hb&Hx). rewrite Hc in Hc'. injection Hc' as <-. assert (child_at n keys ch c = Some x) as -> by (apply child_at_slot; [done|]; exists i; split; [by apply array_slot|done]). done. }
  split_and!.
  - apply NoDup_alt. intros i j c Hi Hj. apply lookup_take_Some in Hi as [Hi Hin], Hj as [Hj Hjn]. by apply (Hinj i j c).
  - intros c. split.
    + intros [i Hi]%list_elem_of_lookup. apply lookup_take_Some in Hi as [Hi Hin]. by destruct (Hat i c Hin Hi) as (?&_&?).
    + intros [Hb Hc]. destruct (child_at n keys ch c) as [x|] eqn:Hx; [|done]. apply child_at_slot in Hx as (i&Hs&_); [|done]. apply array_slot in Hs as [Hi Hk]; [|done]. apply list_elem_of_lookup. exists i. by apply lookup_take_Some.
  - assert (visit_slots n keys ch = sub ch 0 (num_children n)) as -> by (unfold visit_slots; by destruct Ht as [->|[->| ->]]). rewrite sub_ok by lia. rewrite drop_0. f_equal. apply list_eq. intros i. rewrite list_lookup_fmap. destruct (decide (i < num_children n)) as [Hi|Hi].
    + rewrite !lookup_take_lt by done. destruct (Hu i Hi) as (c&x&Hc&_&_). rewrite Hc. cbn. by apply (Hat i c).
    + rewrite !lookup_ge_None_2 by (rewrite length_take; lia). done.
Qed.

Lemma visit_ok n keys ch : node_ok n keys ch -> exists cs, visits n keys ch cs.
Proof.
  intros Hok. destruct (n_type n) eqn:Ht; try (eexists; apply visit_array; [rewrite Ht; unfold is_array; by auto|done]); pose proof Hok as (_&Hk&Hl&Hn); rewrite Ht in Hk, Hl, Hn; cbn [keys_size children_size] in *; clear Hn.
  - set (f := fun c : Z => default 0%Z (keys !! Z.to_nat c)). exists (filter (fun c => f c <> 0%Z) (seqZ 0 256)). assert (forall c, is_byte c -> f c <> 0%Z -> ch !! Z.to_nat (f c - 1) = Some (child_at n keys ch c) /\ child_at n keys ch c <> None) as Hat.
    { intros c Hb Hf. assert (exists k, keys !! Z.to_nat c = Some k) as [k Hc] by (apply lookup_lt_is_Some_2; unfold is_byte in Hb; lia). pose proof Hok as (_&_&_&Hn). rewrite Ht in Hn. destruct Hn as (N1&_&_&N4&_). subst f. cbn beta in *. rewrite Hc in *. cbn in *. rewrite list.Forall_forall in N1. specialize (N1 k ltac:(by eapply list_elem_of_lookup_2)). destruct (N4 (Z.to_nat c) (Z.to_nat (k - 1))) as [x Hx]; [rewrite Hc; f_equal; lia|].
      assert (child_at n keys ch c = Some x) as ->; [|done]. apply child_at_slot; [done|]. exists (Z.to_nat (k - 1)). split; [|done]. unfold slot. rewrite Ht, Hc. f_equal. lia. }
    assert (forall c, is_byte c -> child_at n keys ch c <> None -> f c <> 0%Z) as Hback. { intros c Hb Hc E. apply Hc. unfold child_at. rewrite Ht. subst f. cbn beta in E. destruct (keys !! Z.to_nat c) as [k|]; [|done]. cbn in E. by rewrite E. }
    split_and!; [apply list.NoDup_filter, NoDup_seqZ| |].
    + intros c. rewrite list_elem_of_filter, elem_of_seqZ. split; [intros [Hf Hc]; assert (is_byte c) as Hb by (unfold is_byte; lia); split; [done|by apply Hat]|]. intros [Hb Hc]. split; [by apply Hback|unfold is_byte in Hb; lia].
    + unfold visit_slots. rewrite Ht. rewrite (seqZ_self keys 0%Z 256 Hk) at 1. fold f. rewrite filter_map. apply mapM_known. intros c [Hf Hc]%list_elem_of_filter. apply elem_of_seqZ in Hc. apply Hat; [unfold is_byte; lia|done].
  - exists (filter (fun c => is_Some (child_at n keys ch c)) (seqZ 0 256)). assert (forall c, child_at n keys ch c = default None (ch !! Z.to_nat c)) as Hat by (intros c; unfold child_at; rewrite Ht; by destruct (ch !! Z.to_nat c)). split_and!; [apply list.NoDup_filter, NoDup_seqZ| |].
    + intros c. rewrite list_elem_of_filter, elem_of_seqZ, <- not_eq_None_Some. unfold is_byte. naive_solver lia.
    + unfold visit_slots. rewrite Ht. f_equal. rewrite (seqZ_self ch None 256 Hl) at 1. rewrite filter_map. rewrite (list_fmap_ext _ (child_at n keys ch)) by (intros; by rewrite Hat). apply (f_equal (fmap (child_at n keys ch))). apply list_filter_iff. intros c. by rewrite Hat.
Qed.

(** ** The whole tree *)

(** The calls for entries, up to the first one that stops. *)
Fixpoint iter_calls {D} (cb : @art_callback V D) (d : D) (es : list (list Z * V)) : D * Z :=
  match es with
  | [] => (d, 0%Z)
  | (k, v) :: es => let r := cb d (k ++ [0%Z]) (length k) v in if (r.2 =? 0)%Z then iter_calls cb r.1 es else r
  end.

Lemma iter_calls_app {D} (cb : @art_callback V D) d es es' : iter_calls cb d (es ++ es') = if ((iter_calls cb d es).2 =? 0)%Z then iter_calls cb (iter_calls cb d es).1 es' else iter_calls cb d es.
Proof. revert d. induction es as [|[k v] es IH]; intros d; [done|]. cbn [app iter_calls]. destruct ((cb d (k ++ [0%Z]) (length k) v).2 =? 0)%Z eqn:E; [apply IH|by rewrite E]. Qed.

(** Every entry is visited once. *)
Definition iterates (o : option (art_node V)) (fuel : nat) (es : list (list Z * V)) : Prop := forall D (cb : @art_callback V D) d, recursive_iter fuel cb o d = Some (iter_calls cb d es).

Lemma iter_children n keys ch p q fuel cs : (forall c x, is_byte c -> child_at n keys ch c = Some x -> wf x (p ++ q ++ [c])) -> NoDup cs -> (forall c, c ∈ cs -> is_byte c /\ exists x es, child_at n keys ch c = Some x /\ NoDup es.*1 /\ (forall e, e ∈ es <-> e ∈ leaves x) /\ iterates (Some x) fuel es) ->
  exists es, NoDup es.*1 /\ (forall e, e ∈ es <-> exists c x, c ∈ cs /\ child_at n keys ch c = Some x /\ e ∈ leaves x) /\ forall D (cb : @art_callback V D) d, iter_list (recursive_iter fuel cb) (map (child_at n keys ch) cs) d = Some (iter_calls cb d es).
Proof.
  intros Hw. induction cs as [|c cs IH]; intros Hnd Hcs; [exists []; split_and!; [constructor| |done]; intros e; split; [by intros ?%elem_of_nil|by intros (?&?&?%elem_of_nil&_)]|]. apply list.NoDup_cons in Hnd as [Hc Hnd]. destruct (Hcs c) as (Hb&x&es1&Hx&Hnd1&Hes1&Hit1); [by left|]. destruct IH as (es2&Hnd2&Hes2&Hit2); [done|intros c' Hc'; apply Hcs; by right|].
  exists (es1 ++ es2). split_and!.
  - rewrite fmap_app. apply list.NoDup_app. split_and!; [done| |done]. intros k (e&->&He)%list_elem_of_fmap (e'&E&He')%list_elem_of_fmap. destruct e as [k v], e' as [k' v']. cbn in E. subst k'. apply Hes1 in He. apply Hes2 in He' as (c'&x'&Hc'&Hx'&He'). destruct (Hcs c') as (Hb'&_); [by right|]. destruct (leaves_next n keys ch p q c x k v Hw Hb Hx He) as (_&E1&_), (leaves_next n keys ch p q c' x' k v' Hw Hb' Hx' He') as (_&E2&_). apply Hc. congruence.
  - intros e. rewrite elem_of_app, Hes1, Hes2. split.
    + intros [He|(c'&x'&Hc'&Hx'&He)]; [exists c, x; split; [by left|done]|exists c', x'; split; [by right|done]].
    + intros (c'&x'&Hc'&Hx'&He). apply elem_of_cons in Hc' as [->|Hc']; [left; congruence|right; by exists c', x'].
  - intros D cb d. cbn [map iter_list]. rewrite Hx, (Hit1 D cb d). cbn [mbind option_bind]. rewrite iter_calls_app. destruct (_ =? 0)%Z; [apply Hit2|done].
Qed.

Lemma iter_ok fuel x p : height x <= fuel -> wf x p -> exists es, NoDup es.*1 /\ (forall e, e ∈ es <-> e ∈ leaves x) /\ iterates (Some x) fuel es.
Proof.
  revert p fuel. induction x as [l|n keys ch IH] using node_induction; intros p fuel Hf Hw; (destruct fuel as [|fuel]; [cbn in Hf; lia|]).
  - destruct Hw as (k&Hl&Hn&_). exists [(k, l_value l)]. split_and!; [apply list.NoDup_singleton|cbn; by rewrite Hl, Hn, take_app_length|]. intros D cb d. cbn [recursive_iter iter_calls]. rewrite Hl, Hn. destruct (cb d (k ++ [0%Z]) (length k) (l_value l)) as [d' z]. cbn. destruct (Z.eqb_spec z 0) as [->|]; done.
  - pose proof Hw as (Hok&_&q&_&Hc)%wf_node. destruct (visit_ok n keys ch Hok) as (cs&Hnd&Hcs&Hv). destruct (iter_children n keys ch p q fuel cs Hc Hnd) as (es&H1&H2&H3).
    + intros c [Hb Hne]%Hcs. split; [done|]. destruct (child_at n keys ch c) as [x|] eqn:Hx; [|done]. pose proof (height_child _ _ _ _ _ Hx). destruct (IH c x Hx (p ++ q ++ [c]) fuel ltac:(lia) (Hc c x Hb Hx)) as (es&?&?&?). by exists x, es.
    + exists es. split_and!; [done| |].
      * intros e. rewrite H2, elem_of_leaves. split; intros (c&x&Hcc&Hx&He); exists c, x; (split; [|done]); [by apply Hcs in Hcc as [? _]|apply Hcs; split; [done|by rewrite Hx]].
      * intros D cb d. cbn [recursive_iter]. rewrite Hv. cbn [mbind option_bind]. apply H3.
Qed.
End Iter.
