(* ===== verification/ArtClaims.v ===== *)
(** * The adaptive radix tree as a finite map (src/lib/art.c)

    The contents of a tree are a map from keys to values.  Every sequence of operations
    does to the tree what it does to the map, and gives the same results. *)

From Stdlib Require Import ZArith Lia Sorting.Sorted.
From stdpp Require Import base list numbers option gmap.
From S2P Require Import Prelude Art ArtNode ArtTree ArtUpdate ArtWalk.

Local Open Scope nat_scope.

Section Map.
Context {V : Type}.
Variable amd64 : bool.
Implicit Types (x : art_node V) (t : art_tree V) (k buf : list Z).

(** ** Contents *)

Definition content t : gmap (list Z) V := match root t with Some x => list_to_map (leaves x) | None => ∅ end.

(** All keys of the tree are shorter than [N] bytes. *)
Definition tree_ok (N : nat) t : Prop :=
  (match root t with Some x => wf x [] | None => True end) /\ size t = base.size (content t) /\ forall k v, content t !! k = Some v -> length k < N.

Lemma leaves_content x k v : wf x [] -> (list_to_map (leaves x) : gmap (list Z) V) !! k = Some v <-> (k, v) ∈ leaves x.
Proof. intros Hw. split; [apply elem_of_list_to_map_2|]. intros Hin. apply elem_of_list_to_map_1'; [|done]. intros v' Hin'. by eapply leaves_unique. Qed.

Lemma content_init N : tree_ok N (art_tree_init (V := V)) /\ content (art_tree_init (V := V)) = ∅.
Proof. split; [|done]. split_and!; [done|done|]. intros k v H. unfold content in H. cbn in H. by rewrite lookup_empty in H. Qed.

Lemma short_keys N t x buf : tree_ok N t -> root t = Some x -> N <= length buf -> forall k v, (k, v) ∈ leaves x -> length k < length buf.
Proof. intros (Hw&_&Hs) Hr Hb k v Hin. unfold content in *. rewrite Hr in *. apply leaves_content in Hin; [|done]. apply Hs in Hin. lia. Qed.

(** A tree with new contents. *)
Lemma tree_content_is N x m n : wf x [] -> (forall k v, (k, v) ∈ leaves x <-> m !! k = Some v) -> n = base.size m -> (forall k v, m !! k = Some v -> length k < N) -> tree_ok N (mk_tree (Some x) n) /\ content (mk_tree (Some x) n) = m.
Proof.
  intros Hw Hm Hn Hs. assert (content (mk_tree (Some x) n) = m) as Hc. { apply map_eq. intros k. apply option_eq. intros v. unfold content. cbn [root]. by rewrite leaves_content, Hm. }
  split; [|done]. split_and!; [done|by rewrite Hc|by rewrite Hc].
Qed.

(** ** The operations *)

Lemma art_search_ok N t buf k : tree_ok N t -> keyed buf k -> N <= length buf -> art_search t buf (length k) = Some (content t !! k).
Proof.
  intros Hok Hk Hb. unfold art_search. destruct (root t) as [x|] eqn:Hr; [|unfold content; by rewrite Hr]. pose proof Hok as (Hw&_). rewrite Hr in Hw. destruct (search_ok (height x) x [] buf k) as (r&Hs&Hr'); try done; [by eapply short_keys|]. cbn [length] in Hs. cbn [root_height]. rewrite Hs. f_equal. apply option_eq. intros v. rewrite Hr'. unfold content. rewrite Hr. by rewrite leaves_content.
Qed.

Lemma art_insert_ok N t buf k v : tree_ok N t -> keyed buf k -> length k < N -> exists t', art_insert amd64 t buf (length k) v = Some (t', content t !! k) /\ tree_ok N t' /\ content t' = <[k := v]> (content t).
Proof.
  intros Hok Hk Hn. pose proof Hok as (Hw&Hsz&Hs). pose proof Hk as (Hkk&_). assert (forall k' w, <[k := v]> (content t) !! k' = Some w -> length k' < N) as Hs' by (intros k' w [[-> _]|[_ Hi]]%lookup_insert_Some; [done|by eapply Hs]). unfold art_insert. destruct (root t) as [x|] eqn:Hr.
  - destruct (insert_ok amd64 (height x) x [] buf k v) as (x'&old&Hins&Hw'&Hold&Hx'); try done; [apply prefix_nil|]. cbn [length] in Hins. cbn [root_height]. rewrite Hins. cbn [mbind option_bind fst snd]. assert (content t = list_to_map (leaves x)) as Hct by (unfold content; by rewrite Hr).
    assert (old = content t !! k) as -> by (apply option_eq; intros w; by rewrite Hold, Hct, leaves_content). eexists. split; [done|]. apply tree_content_is; [done| | |done].
    + intros k' w. rewrite Hx', lookup_insert_Some, Hct, leaves_content by done. naive_solver.
    + rewrite Hsz, map_size_insert. destruct (content t !! k); [rewrite bool_decide_eq_true_2 by done|rewrite bool_decide_eq_false_2 by by intros [? ?]]; done.
  - cbn [root_height recursive_insert]. rewrite (make_leaf_ok buf k v Hk). cbn [mbind option_bind fst snd]. assert (content t = ∅) as Hct by (unfold content; by rewrite Hr). rewrite Hct in *. rewrite lookup_empty. eexists. split; [done|]. apply tree_content_is; [apply leaf_of_wf; [done|apply prefix_nil]| | |done].
    + intros k' w. rewrite leaf_of_leaves, lookup_insert_Some, lookup_empty. naive_solver.
    + by rewrite Hsz, map_size_insert, lookup_empty.
Qed.

Lemma art_delete_ok N t buf k : tree_ok N t -> keyed buf k -> N <= length buf -> exists t', art_delete t buf (length k) = Some (t', content t !! k) /\ tree_ok N t' /\ content t' = delete k (content t).
Proof.
  intros Hok Hk Hb. pose proof Hok as (Hw&Hsz&Hs). assert (forall k' w, delete k (content t) !! k' = Some w -> length k' < N) as Hs' by (intros k' w [_ Hi]%lookup_delete_Some; by eapply Hs). unfold art_delete. destruct (root t) as [x|] eqn:Hr.
  2: { cbn [root_height recursive_delete mbind option_bind fst snd]. assert (content t = ∅) as Hct by (unfold content; by rewrite Hr). rewrite Hct in *. rewrite lookup_empty, delete_empty. eexists. split; [done|]. split; [|done]. split_and!; [done|done|]. intros k' w Hi. unfold content in Hi. cbn in Hi. by rewrite lookup_empty in Hi. }
  assert (content t = list_to_map (leaves x)) as Hct by (unfold content; by rewrite Hr). destruct x as [l|n keys ch].
  - pose proof Hw as (k0&Hl&Hn&H0&_). cbn [root_height height recursive_delete]. rewrite (leaf_matches_ok l k0 buf k Hl Hn Hk). cbn [mbind option_bind]. assert (content t = {[ k0 := l_value l ]}) as Hc1 by (rewrite Hct; cbn; by rewrite Hl, Hn, take_app_length). rewrite Hc1 in *. destruct (decide (k0 = k)) as [->|Hne].
    + rewrite bool_decide_eq_true_2 by done. cbn [fst snd]. rewrite lookup_singleton_eq, delete_singleton_eq. eexists. split; [done|]. split; [|done]. split_and!; [done|cbn [size]; rewrite Hsz; by rewrite map_size_singleton|]. intros k' w Hi. unfold content in Hi. cbn in Hi. by rewrite lookup_empty in Hi.
    + rewrite bool_decide_eq_false_2 by done. cbn [fst snd]. rewrite lookup_singleton_ne, delete_singleton_ne by done. eexists. split; [done|]. rewrite delete_singleton_ne in Hs' by done. apply tree_content_is; try done. intros k' w. cbn [leaves]. rewrite Hl, Hn, take_app_length, list_elem_of_singleton, lookup_singleton_Some. naive_solver.
  - destruct (delete_ok (height (Node n keys ch)) n keys ch [] buf k) as (r&x'&Hr'&[Hw' Hx']&Hf); try done; [by eapply short_keys|]. cbn [root_height]. cbn [length] in Hr'. rewrite Hr'. cbn [mbind option_bind fst snd]. assert (l_value <$> r = content t !! k) as Hres by (apply option_eq; intros w; rewrite (Hf w), Hct; by rewrite leaves_content).
    assert (forall s, s = base.size (delete k (content t)) -> tree_ok N (mk_tree (Some x') s) /\ content (mk_tree (Some x') s) = delete k (content t)) as Hend. { intros s Hs2. apply tree_content_is; try done. intros k' w. rewrite Hx', lookup_delete_Some, Hct, leaves_content by done. naive_solver. }
    rewrite map_size_delete, <- Hres in Hend. rewrite <- Hres. destruct r as [l|]; cbn [fmap option_fmap option_map] in *; eexists; (split; [done|]); apply Hend; rewrite Hsz; cbn; lia.
Qed.

(** ** Sequences of operations *)

Inductive art_op := op_insert (buf k : list Z) (v : V) | op_delete (buf k : list Z) | op_search (buf k : list Z).

(** The key can be read.  A key that is inserted has less than [N] bytes; a buffer that is
    used to search or to delete has [N] bytes at least. *)
Definition op_ok (N : nat) (o : art_op) : Prop :=
  match o with
  | op_insert buf k _ => keyed buf k /\ length k < N
  | op_delete buf k | op_search buf k => keyed buf k /\ N <= length buf
  end.

Definition run_op t (o : art_op) : option (art_tree V * option V) :=
  match o with
  | op_insert buf k v => art_insert amd64 t buf (length k) v
  | op_delete buf k => art_delete t buf (length k)
  | op_search buf k => r ← art_search t buf (length k); Some (t, r)
  end.

Definition map_op (m : gmap (list Z) V) (o : art_op) : gmap (list Z) V * option V :=
  match o with
  | op_insert _ k v => (<[k := v]> m, m !! k)
  | op_delete _ k => (delete k m, m !! k)
  | op_search _ k => (m, m !! k)
  end.

Fixpoint run_ops t (os : list art_op) : option (art_tree V * list (option V)) :=
  match os with
  | [] => Some (t, [])
  | o :: os => r ← run_op t o; rs ← run_ops r.1 os; Some (rs.1, r.2 :: rs.2)
  end.

Fixpoint map_ops (m : gmap (list Z) V) (os : list art_op) : gmap (list Z) V * list (option V) :=
  match os with
  | [] => (m, [])
  | o :: os => let r := map_op m o in let rs := map_ops r.1 os in (rs.1, r.2 :: rs.2)
  end.

Lemma run_op_ok N t o : tree_ok N t -> op_ok N o -> exists t', run_op t o = Some (t', (map_op (content t) o).2) /\ tree_ok N t' /\ content t' = (map_op (content t) o).1.
Proof.
  intros Ht Ho. destruct o as [buf k v|buf k|buf k]; destruct Ho as (Hk&Hn); cbn [run_op map_op fst snd].
  - by apply art_insert_ok.
  - by apply art_delete_ok.
  - rewrite (art_search_ok N t buf k) by done. cbn [mbind option_bind]. by exists t.
Qed.

Lemma run_ops_ok N t os : tree_ok N t -> Forall (op_ok N) os -> exists t', run_ops t os = Some (t', (map_ops (content t) os).2) /\ tree_ok N t' /\ content t' = (map_ops (content t) os).1.
Proof.
  revert t. induction os as [|o os IH]; intros t Ht Hos; cbn [run_ops map_ops fst snd]; [by exists t|]. apply list.Forall_cons in Hos as [Ho Hos]. destruct (run_op_ok N t o Ht Ho) as (t1&->&Ht1&Hc1). cbn [mbind option_bind fst snd]. rewrite <- Hc1. destruct (IH t1 Ht1 Hos) as (t2&->&Ht2&Hc2). cbn [mbind option_bind fst snd]. by exists t2.
Qed.
End Map.

(** ** Prefixes *)

(** The stored prefixes of a string, the shorter ones first. *)
Definition stored_prefixes {V} (m : gmap (list Z) V) (str : list Z) (ks : list (list Z * V)) : Prop :=
  StronglySorted shorter ks /\ forall k v, (k, v) ∈ ks <-> m !! k = Some v /\ k `prefix_of` str.

Lemma art_walk_ok {V} N (t : art_tree V) buf str : tree_ok N t -> keyed buf str -> N <= length buf ->
  exists ks dup, stored_prefixes (content t) str ks /\ (dup = [] \/ exists v, dup = [(str, v)] /\ content t !! str = Some v) /\
    forall D (func : @walk_func V D) d, art_substring_walk t buf (length str) func d = Some (calls func (length str) d (ks ++ dup)).
Proof.
  intros Hok Hk Hb. pose proof Hok as (Hw&_). unfold content, art_substring_walk. destruct (root t) as [x|] eqn:Hr.
  - destruct (walk_ok (height x) x [] buf str) as (ks&dup&[Hs Hks]&Hdup&Hwalk); try done; [by eapply short_keys|].
    exists ks, dup. split_and!; [split; [done|]| |exact Hwalk].
    + intros k v. rewrite Hks. cbn [fst]. by rewrite leaves_content.
    + destruct Hdup as [->|(v&?&?&?&->&->&Hin)]; [by left|right]. exists v. split; [done|]. by apply leaves_content.
  - exists [], []. split_and!; [split; [constructor|]|by left|done]. intros k v. rewrite lookup_empty. split; [by intros ?%elem_of_nil|by intros [? _]].
Qed.

(** The longest prefix is found by a walk that remembers the last leaf. *)
Definition remember {V} : @walk_func V (option (art_leaf V)) := fun _ key klen _ v => (Some (mk_leaf v klen key), 0%Z).

Lemma substring_walk {V} fuel (o : option (art_node V)) str n depth found : substring_loop fuel o str n depth found = walk_loop fuel remember o str n depth found 0%Z.
Proof.
  assert (forall l : art_leaf V, walk_leaf remember l n found = (Some l, 0%Z)) as Hleaf by (by intros []). revert o depth found Hleaf. induction fuel as [|fuel IH]; intros [x|] depth found Hleaf; try done. cbn [substring_loop walk_loop Z.eqb]. destruct x as [l|h keys ch].
  - destruct (str_prefix_matches l str n) as [b|]; [|done]. cbn [mbind option_bind]. by rewrite Hleaf.
  - destruct (zero_leaf h keys ch) as [[l|]|]; [|cbn [mbind option_bind fst snd]|done].
    + cbn [mbind option_bind]. destruct (str_prefix_matches l str n) as [b|]; [|done]. cbn [mbind option_bind]. rewrite Hleaf. destruct (pass_prefix h str n depth) as [[|]|]; [|by destruct b|done]. cbn [mbind option_bind]. destruct (str !! _) as [c|]; [|done]. cbn [mbind option_bind]. destruct (next_child h keys ch c) as [y|]; [|done]. cbn [mbind option_bind]. destruct b; apply IH; by intros [].
    + destruct (pass_prefix h str n depth) as [[|]|]; [|done|done]. cbn [mbind option_bind]. destruct (str !! _) as [c|]; [|done]. cbn [mbind option_bind]. destruct (next_child h keys ch c) as [y|]; [|done]. cbn [mbind option_bind]. by apply IH.
Qed.

Lemma calls_remember {V} n (found : option (art_leaf V)) ks : calls remember n found ks = match last ks with Some (k, v) => Some (leaf_of k v) | None => found end.
Proof. revert found. induction ks as [|[k v] ks IH]; intros found; [done|]. cbn [calls remember fst snd Z.eqb]. rewrite IH. rewrite last_cons. destruct (last ks) as [[??]|]; done. Qed.

Lemma sorted_last {V} (ks : list (list Z * V)) e : StronglySorted shorter ks -> last ks = Some e -> forall a, a ∈ ks -> length a.1 <= length e.1.
Proof.
  induction ks as [|b ks IH]; intros Hs Hl a Ha; [done|]. apply StronglySorted_inv in Hs as [Hs Hb]. rewrite last_cons in Hl. destruct (last ks) as [e'|] eqn:El.
  - injection Hl as ->. apply elem_of_cons in Ha as [->|Ha]; [|by apply IH]. rewrite list.Forall_forall in Hb. apply last_Some_elem_of in El. specialize (Hb e El). unfold shorter in Hb. lia.
  - injection Hl as ->. apply last_None in El. subst ks. by apply list_elem_of_singleton in Ha as ->.
Qed.

(** ** Claims *)

(** C29: the tree is a finite map.  Whatever keys of less than [N] bytes are inserted,
    and whatever keys are deleted and searched from buffers of at least [N] bytes, with a
    zero byte behind each key and none in it, no operation reads or writes outside of an array or stops early, every result
    is that of the same operations on a finite map (the old value, the deleted value, the
    value that is found), the contents of the tree are the map, and its size is the
    number of keys.  It holds with and without the vector instructions. *)
Theorem art_refines_map (V : Type) (amd64 : bool) (N : nat) (os : list (@art_op V)) : Forall (op_ok N) os ->
  exists t, run_ops amd64 art_tree_init os = Some (t, (map_ops ∅ os).2) /\ content t = (map_ops ∅ os).1 /\ size t = base.size (map_ops ∅ os).1.
Proof.
  intros Hos. destruct (content_init (V := V) N) as [H0 Hc0]. destruct (run_ops_ok amd64 N art_tree_init os H0 Hos) as (t&Hr&(_&Hs&_)&Hc). rewrite Hc0 in *. exists t. by rewrite <- Hc.
Qed.

(** The buffer of a key: it is filled up with zero bytes. *)
Definition padded (N : nat) (k : list Z) : list Z := k ++ replicate (N - length k) 0%Z.

#[export] Instance key_ok_dec k : Decision (key_ok k).
Proof. unfold key_ok, key_byte. apply _. Defined.

Lemma padded_ok N k : key_ok k -> length k < N -> keyed (padded N k) k /\ length k < N /\ N <= length (padded N k).
Proof.
  intros Hk Hl. unfold padded. split; [|rewrite length_app, length_replicate; lia]. split_and!; [done| |].
  - apply list.Forall_app. split; [eapply list.Forall_impl; [exact Hk|]; unfold key_byte, is_byte; lia|]. apply Forall_replicate. unfold is_byte. lia.
  - exists (replicate (N - length k - 1) 0%Z). f_equal. destruct (N - length k) as [|m] eqn:E; [lia|]. cbn. by rewrite Nat.sub_0_r.
Qed.

(** Operations on given keys in buffers of their own. *)
Ltac padded_ops :=
  repeat (apply list.Forall_cons; split; [split; [apply padded_ok; [apply (bool_decide_unpack _); vm_compute; exact I|vm_compute; lia]|vm_compute; lia]|]); apply list.Forall_nil; exact I.

Definition bytes_of (n : nat) (l : list Z) : list Z := concat (replicate n l).

(** Keys with a long common prefix, one of them the start of another. *)
Definition sample_ops : list (@art_op nat) :=
  let k1 := bytes_of 3 [46; 99; 111; 109]%Z in let k2 := bytes_of 5 [46; 99; 111; 109]%Z in let k3 := bytes_of 2 [46; 99; 111; 109]%Z ++ [47]%Z in
  [op_insert (padded 32 k1) k1 1; op_insert (padded 32 k2) k2 2; op_insert (padded 32 k3) k3 3; op_insert (padded 32 k1) k1 4; op_search (padded 32 k2) k2; op_delete (padded 32 k3) k3; op_search (padded 32 k1) k1].

Lemma art_refines_map_witness : Forall (op_ok 32) sample_ops /\
  exists t, run_ops true art_tree_init sample_ops = Some (t, [None; None; None; Some 1; Some 2; Some 3; Some 4]) /\ size t = 2.
Proof.
  assert (Forall (op_ok 32) sample_ops) as H.
  { unfold sample_ops. padded_ops. }
  split; [exact H|]. destruct (art_refines_map nat true 32 sample_ops H) as (t&Ht&_&Hs). exists t. split; [exact Ht|rewrite Hs; reflexivity].
Defined.

(** C30: the walk along a string visits the stored prefixes of the string.  The function
    is called for exactly the keys that are prefixes of the string, the shorter ones
    first, with the zero byte behind the key, until it returns something else than 0; only
    for the string itself there may be a second call. *)
Theorem art_walk_prefixes (V : Type) (amd64 : bool) (N : nat) (os : list (@art_op V)) (buf str : list Z) : Forall (op_ok N) os -> keyed buf str -> N <= length buf ->
  exists t rs ks dup, run_ops amd64 art_tree_init os = Some (t, rs) /\ stored_prefixes (map_ops ∅ os).1 str ks /\
    (dup = [] \/ exists v, dup = [(str, v)] /\ (map_ops ∅ os).1 !! str = Some v) /\
    forall D (func : @walk_func V D) d, art_substring_walk t buf (length str) func d = Some (calls func (length str) d (ks ++ dup)).
Proof.
  intros Hos Hk Hb. destruct (content_init (V := V) N) as [H0 Hc0]. destruct (run_ops_ok amd64 N art_tree_init os H0 Hos) as (t&Hr&Ht&Hc). rewrite Hc0 in *. destruct (art_walk_ok N t buf str Ht Hk Hb) as (ks&dup&H1&H2&H3). rewrite Hc in *. by exists t, (map_ops ∅ os).2, ks, dup.
Qed.

Definition walk_ops : list (@art_op nat) := let k1 := [46; 99]%Z in let k2 := [46; 99; 111]%Z in let k3 := [46; 99; 110]%Z in [op_insert (padded 8 k1) k1 1; op_insert (padded 8 k2) k2 2; op_insert (padded 8 k3) k3 3].

(** The keys that are visited. *)
Definition visited : @walk_func nat (list (list Z * bool * nat)) := fun d key klen sub v => (d ++ [(take klen key, sub, v)], 0%Z).

Lemma art_walk_prefixes_witness : let str := [46; 99; 111; 109]%Z in Forall (op_ok 8) walk_ops /\
  exists t rs, run_ops true art_tree_init walk_ops = Some (t, rs) /\ art_substring_walk t (padded 8 str) 4 visited [] = Some [([46; 99]%Z, true, 1); ([46; 99; 111]%Z, true, 2)].
Proof.
  intros str. assert (Forall (op_ok 8) walk_ops) as H.
  { unfold walk_ops. padded_ops. }
  assert (keyed (padded 8 str) str /\ length str < 8 /\ 8 <= length (padded 8 str)) as (Hk&_&Hb) by (apply padded_ok; [apply (bool_decide_unpack _); vm_compute; exact I|vm_compute; lia]).
  split; [exact H|]. destruct (art_walk_prefixes nat true 8 walk_ops (padded 8 str) str H Hk Hb) as (t&rs&ks&dup&Hr&_). exists t, rs. split; [exact Hr|]. clear -Hr. vm_compute in Hr. injection Hr as <- <-. reflexivity.
Defined.

(** [art_substring] finds the longest stored prefix of a string, and as much of its key as
    fits; it finds nothing only where no prefix is stored. *)
Lemma art_substring_longest (V : Type) (N : nat) (t : art_tree V) (buf str : list Z) (klen : nat) : tree_ok N t -> keyed buf str -> N <= length buf ->
  exists r, art_substring t buf (length str) (Some klen) = Some r /\
    match r with
    | None => forall k v, content t !! k = Some v -> ~ k `prefix_of` str
    | Some (v, key) => exists k, content t !! k = Some v /\ k `prefix_of` str /\ key = Some (take klen k) /\ forall k' v', content t !! k' = Some v' -> k' `prefix_of` str -> length k' <= length k
    end.
Proof.
  intros Hok Hk Hb. destruct (art_walk_ok N t buf str Hok Hk Hb) as (ks&dup&[Hs Hks]&Hdup&Hwalk). unfold art_substring. rewrite substring_walk. unfold art_substring_walk in Hwalk. rewrite Hwalk. cbn [mbind option_bind].
  assert (last (ks ++ dup) = last ks) as Hl. { destruct Hdup as [->|(v&->&Hv)]; [by rewrite app_nil_r|]. rewrite last_snoc. assert ((str, v) ∈ ks) as Hin by (by apply Hks). destruct (last ks) as [[k w]|] eqn:El; [|apply last_None in El; subst ks; by apply elem_of_nil in Hin].
    pose proof (sorted_last ks _ Hs El (str, v) Hin) as Hle. apply last_Some_elem_of, Hks in El as [Hw [s ->]]. cbn [fst] in Hle. rewrite length_app in Hle. destruct s; [|cbn in Hle; lia]. rewrite app_nil_r in *. congruence. }
  rewrite calls_remember, Hl. destruct (last ks) as [[k v]|] eqn:El.
  - cbn [mbind option_bind l_value leaf_of]. unfold art_copy_key. cbn [l_key l_key_len leaf_of]. rewrite sub_ok by (rewrite length_app; destruct (Nat.ltb_spec klen (length k)); lia). cbn [fmap option_fmap option_map mbind option_bind]. eexists. split; [done|]. apply last_Some_elem_of in El as Hin. apply Hks in Hin as [Hv Hp]. exists k. split_and!; [done|done| |].
    + f_equal. rewrite drop_0, take_app_le by (destruct (Nat.ltb_spec klen (length k)); lia). destruct (Nat.ltb_spec klen (length k)); [done|]. by rewrite firstn_all, take_ge.
    + intros k' v' Hv' Hp'. by apply (sorted_last ks _ Hs El (k', v')), Hks.
  - eexists. split; [done|]. intros k v Hv Hp. apply last_None in El. subst ks. by apply (elem_of_nil (k, v)), Hks.
Qed.

(** An iteration visits every key once. *)
Lemma art_iter_ok {V} N (t : art_tree V) : tree_ok N t ->
  exists es, NoDup es.*1 /\ (forall k v, (k, v) ∈ es <-> content t !! k = Some v) /\ forall D (cb : @art_callback V D) d, art_iter t cb d = Some (iter_calls cb d es).
Proof.
  intros (Hw&_). unfold art_iter, content. destruct (root t) as [x|].
  - destruct (iter_ok (height x) x [] (Nat.le_refl _) Hw) as (es&H1&H2&H3). exists es. split_and!; [done| |exact H3]. intros k v. by rewrite H2, leaves_content.
  - exists []. split_and!; [constructor| |done]. intros k v. rewrite lookup_empty. split; [by intros ?%elem_of_nil|done].
Qed.

(** ** What the code does not guarantee *)

(** Where only the first bytes of a long prefix are stored, the rest is skipped without a
    look at the length of the key: a byte behind a short key is read. *)
Example search_reads_past_key : let k1 := bytes_of 5 [97]%Z ++ bytes_of 5 [98]%Z ++ [99]%Z in let k2 := bytes_of 5 [97]%Z ++ bytes_of 5 [98]%Z ++ [100]%Z in let k := bytes_of 5 [97]%Z ++ [98]%Z in
  exists t rs, run_ops true art_tree_init [op_insert (k1 ++ [0]%Z) k1 1; op_insert (k2 ++ [0]%Z) k2 2] = Some (t, rs) /\ art_search t (k ++ [0]%Z) (length k) = None.
Proof. by eexists _, _. Qed.

(** A key that is stored next to a longer one is visited twice when the string is that key. *)
Example walk_visits_twice : exists t rs, run_ops true art_tree_init walk_ops = Some (t, rs) /\ art_substring_walk t (padded 8 [46; 99]%Z) 2 visited [] = Some [([46; 99]%Z, false, 1); ([46; 99]%Z, false, 1)].
Proof. by eexists _, _. Qed.

(** The keys of a node in the order in which they are visited. *)
Definition visit_order (amd64 : bool) (ks : list (list Z)) : option (list (list Z)) :=
  r ← run_ops amd64 art_tree_init (map (fun k => op_insert (k ++ [0]%Z) k tt) ks);
  s ← art_iter r.1 (fun d key klen _ => (d ++ [take klen key], 0%Z)) [];
  Some s.1.

(** With the vector instructions bytes are compared as signed numbers: in a node of 16
    children a byte above 127 comes before the others. *)
Example node16_signed_order : visit_order true [[1]; [2]; [3]; [4]; [5]; [200]]%Z = Some [[200]; [1]; [2]; [3]; [4]; [5]]%Z /\ visit_order false [[1]; [2]; [3]; [4]; [5]; [200]]%Z = Some [[1]; [2]; [3]; [4]; [5]; [200]]%Z.
Proof. by split. Qed.
