(* ===== verification/DomainRule.v ===== *)
(** * Domain rules: keys and the rules of a request

    The rules of domains are leaves of an adaptive radix tree whose keys are the reversed
    domains (src/dns_conf/domain_rule.c).  The rules that apply to a request are those of
    the stored prefixes of its reversed domain (src/dns_server/rules.c).

    [None] as a result is undefined behaviour, as for the tree. *)

From Stdlib Require Import ZArith Lia.
From stdpp Require Import base list numbers option.
From S2P Require Import Prelude Art.

Local Open Scope Z_scope.

(** ** Names and keys *)

Definition CH_STAR : Z := 42.
Definition CH_MINUS : Z := 45.
Definition CH_DOT : Z := 46.
Definition DNS_MAX_CONF_CNAME_LEN : nat := 256.
Definition MAX_CNAME_LEN : nat := 256.

Definition to_lower (c : Z) : Z := if (65 <=? c) && (c <=? 90) then c + 32 else c.

(** [reverse_string(buf + out, input, len, lower)] *)
Fixpoint reverse_string (buf : list Z) (out : nat) (input : list Z) (len : nat) (lower : bool) : option (list Z) :=
  match len with
  | O => set_at buf out 0
  | S len =>
    c ← input !! len;
    buf ← set_at buf out (if lower then to_lower c else c);
    reverse_string buf (S out) input len lower
  end.

(** [while (len > 0 && domain[len - 1] == '.') len--;] *)
Fixpoint strip_dots (domain : list Z) (len : nat) : nat :=
  match len with
  | O => O
  | S m => match domain !! m with Some c => if c =? CH_DOT then strip_dots domain m else len | None => len end
  end.

(** [buf[i]] and [buf[i] = c] with an [int] as the index *)
Definition get_z (buf : list Z) (i : Z) : option Z := if i <? 0 then None else buf !! Z.to_nat i.
Definition set_z (buf : list Z) (i c : Z) : option (list Z) := if i <? 0 then None else set_at buf (Z.to_nat i) c.

Record domain_key := mk_key { k_buf : list Z; k_len : Z; k_root_only : bool; k_sub_only : bool }.

(** The forms of a name: [*.x], [*-.x], [*x], [-.x], [-x], [x]. *)
Definition classify (buf domain : list Z) (domain_key_max_len domain_len : nat) (len : Z) : option (list Z * Z * bool * bool) :=
  let s := domain ++ [0] in
  c0 ← s !! 0%nat;
  if (c0 =? CH_STAR) && (1 <? domain_len)%nat then
    c1 ← s !! 1%nat;
    if c1 =? CH_DOT then Some (buf, len - 1, false, true)
    else if c1 =? CH_MINUS then
      c2 ← s !! 2%nat;
      Some (if c2 =? CH_DOT then (buf, len - 2, true, true) else (buf, len - 1, false, false))
    else Some (buf, len - 1, false, false)
  else if (c0 =? CH_MINUS) && (1 <? domain_len)%nat then
    c1 ← s !! 1%nat;
    Some (buf, len - 1, c1 =? CH_DOT, false)
  else if 0 <? len then
    if len + 2 <? Z.of_nat domain_key_max_len then buf ← set_z buf (len + 1) CH_DOT; Some (buf, len + 1, false, false)
    else Some (buf, len, false, false)
  else Some (buf, len, false, false).

(** [_config_setup_domain_key]; the inner [None] is the error. *)
Definition setup_domain_key (domain : list Z) (domain_key_max_len : nat) : option (option domain_key) :=
  let domain_len := length domain in
  if (domain_key_max_len <? domain_len + 3)%nat then Some None
  else
    let len := strip_dots domain domain_len in
    buf ← reverse_string (replicate domain_key_max_len 0) 1 domain len true;
    r ← classify buf domain domain_key_max_len domain_len (Z.of_nat len);
    let '(buf, len, root, sub) := r in
    buf ← set_z buf 0 CH_DOT;
    if root && negb sub then
      c ← get_z buf len;
      let len := if c =? CH_DOT then len - 1 else len in
      buf ← set_z buf (len + 1) 0;
      Some (Some (mk_key buf (len + 1) root sub))
    else
      buf ← set_z buf (len + 1) 0;
      Some (Some (mk_key buf (len + 1) root sub)).

(** ** Rules *)

Definition DOMAIN_RULE_FLAGS : nat := 0.
Definition DOMAIN_RULE_ADDRESS_IPV4 : nat := 1.
Definition DOMAIN_RULE_ADDRESS_IPV6 : nat := 2.
Definition DOMAIN_RULE_NAMESERVER : nat := 3.
Definition DOMAIN_RULE_CHECKSPEED : nat := 4.
Definition DOMAIN_RULE_IPSET : nat := 5.
Definition DOMAIN_RULE_NFTSET_IP : nat := 6.
Definition DOMAIN_RULE_IPSET_IPV4 : nat := 7.
Definition DOMAIN_RULE_GROUP : nat := 8.
Definition DOMAIN_RULE_NFTSET_IP6 : nat := 9.
Definition DOMAIN_RULE_IPSET_IPV6 : nat := 10.
Definition DOMAIN_RULE_HTTPS : nat := 11.
Definition DOMAIN_RULE_SRV : nat := 12.
Definition DOMAIN_RULE_RESPONSE_MODE : nat := 13.
Definition DOMAIN_RULE_CNAME : nat := 14.
Definition DOMAIN_RULE_TTL : nat := 15.
Definition DOMAIN_RULE_TXT : nat := 16.
Definition DOMAIN_RULE_MAX : nat := 17.

Definition DOMAIN_FLAG_ADDR_IGN : Z := 2 ^ 3.
Definition DOMAIN_FLAG_ADDR_IPV4_IGN : Z := 2 ^ 4.
Definition DOMAIN_FLAG_ADDR_IPV6_IGN : Z := 2 ^ 5.
Definition DOMAIN_FLAG_IPSET_IGN : Z := 2 ^ 6.
Definition DOMAIN_FLAG_IPSET_IPV4_IGN : Z := 2 ^ 7.
Definition DOMAIN_FLAG_IPSET_IPV6_IGN : Z := 2 ^ 8.
Definition DOMAIN_FLAG_NAMESERVER_IGNORE : Z := 2 ^ 9.
Definition DOMAIN_FLAG_NFTSET_INET_IGN : Z := 2 ^ 12.
Definition DOMAIN_FLAG_NFTSET_IP_IGN : Z := 2 ^ 13.
Definition DOMAIN_FLAG_NFTSET_IP6_IGN : Z := 2 ^ 14.
Definition DOMAIN_FLAG_ADDR_HTTPS_IGN : Z := 2 ^ 22.

(** A rule: its head, the flags of a rule of flags, and what else it has. *)
Record dns_rule (P : Type) := mk_rule { r_sub_only : bool; r_root_only : bool; r_flags : Z; r_body : P }.
Arguments mk_rule {P} _ _ _ _.
Arguments r_sub_only {P} _.
Arguments r_root_only {P} _.
Arguments r_flags {P} _.
Arguments r_body {P} _.

(** The rules of a leaf, by type; [capacity] is their number. *)
Definition dns_domain_rule (P : Type) := list (option (dns_rule P)).

Record dns_request_domain_rule (P : Type) := mk_req { q_flags : Z; q_rules : list (option (dns_rule P)); q_is_sub_rule : list bool }.
Arguments mk_req {P} _ _ _.
Arguments q_flags {P} _.
Arguments q_rules {P} _.
Arguments q_is_sub_rule {P} _.

Record rule_walk_args (P : Type) := mk_args { w_args : dns_request_domain_rule P; w_rule_index : Z; w_full_key_len : nat; w_key : list (option (list Z)); w_key_len : list nat }.
Arguments mk_args {P} _ _ _ _ _.
Arguments w_args {P} _.
Arguments w_rule_index {P} _.
Arguments w_full_key_len {P} _.
Arguments w_key {P} _.
Arguments w_key_len {P} _.

Section Rules.
Context {P : Type}.
Implicit Types (q : dns_request_domain_rule P) (w : rule_walk_args P) (r : dns_rule P) (d : dns_domain_rule P).

Definition empty_request : dns_request_domain_rule P := mk_req 0 (replicate DOMAIN_RULE_MAX None) (replicate DOMAIN_RULE_MAX false).

(** [_dns_server_get_dns_rule_ext] and [_dns_server_is_dns_rule_extract_match_ext] *)
Definition get_dns_rule_ext q (rule : nat) : option (dns_rule P) := if (rule <? DOMAIN_RULE_MAX)%nat then mjoin (q_rules q !! rule) else None.
Definition is_dns_rule_extract_match_ext q (rule : nat) : bool := if (rule <? DOMAIN_RULE_MAX)%nat then match q_is_sub_rule q !! rule with Some b => negb b | None => false end else false.

Definition drop_rule (i : nat) q : dns_request_domain_rule P := mk_req (q_flags q) (<[i := None]> (q_rules q)) (q_is_sub_rule q).
Definition flag_set (flags f : Z) : bool := negb (Z.land flags f =? 0).
Definition drop_if (b : bool) (i : nat) q : dns_request_domain_rule P := if b then drop_rule i q else q.

(** [_dns_server_update_rule_by_flags] *)
Definition update_rule_by_flags q : dns_request_domain_rule P :=
  let flags := q_flags q in
  let q := drop_if (flag_set flags DOMAIN_FLAG_ADDR_IGN) DOMAIN_RULE_ADDRESS_IPV6 (drop_if (flag_set flags DOMAIN_FLAG_ADDR_IGN) DOMAIN_RULE_ADDRESS_IPV4 q) in
  let q := drop_if (flag_set flags DOMAIN_FLAG_ADDR_IPV4_IGN) DOMAIN_RULE_ADDRESS_IPV4 q in
  let q := drop_if (flag_set flags DOMAIN_FLAG_ADDR_IPV6_IGN) DOMAIN_RULE_ADDRESS_IPV6 q in
  let q := drop_if (flag_set flags DOMAIN_FLAG_ADDR_HTTPS_IGN) DOMAIN_RULE_HTTPS q in
  let q := drop_if (flag_set flags DOMAIN_FLAG_IPSET_IGN) DOMAIN_RULE_IPSET q in
  let q := drop_if (flag_set flags DOMAIN_FLAG_IPSET_IPV4_IGN) DOMAIN_RULE_IPSET_IPV4 q in
  let q := drop_if (flag_set flags DOMAIN_FLAG_IPSET_IPV6_IGN) DOMAIN_RULE_IPSET_IPV6 q in
  let q := drop_if (flag_set flags DOMAIN_FLAG_NFTSET_IP_IGN || flag_set flags DOMAIN_FLAG_NFTSET_INET_IGN) DOMAIN_RULE_NFTSET_IP q in
  let q := drop_if (flag_set flags DOMAIN_FLAG_NFTSET_IP6_IGN || flag_set flags DOMAIN_FLAG_NFTSET_INET_IGN) DOMAIN_RULE_NFTSET_IP6 q in
  drop_if (flag_set flags DOMAIN_FLAG_NAMESERVER_IGNORE) DOMAIN_RULE_NAMESERVER q.

(** Whether the key is of a domain above that of the request; the key of a rule for a
    domain only is without the last dot. *)
Definition is_effective_sub (key_len full_key_len : nat) : bool :=
  if (key_len =? full_key_len)%nat then false
  else if (key_len + 1 =? full_key_len)%nat then false
  else true.
Definition skip_rule r (sub : bool) : bool := (r_sub_only r && negb sub) || (r_root_only r && sub).

(** The rule becomes that of the request. *)
Definition take_rule (key : list Z) (key_len : nat) (is_subkey : bool) (i : nat) r w : rule_walk_args P :=
  let q := w_args w in
  mk_args (mk_req (q_flags q) (<[i := Some r]> (q_rules q)) (<[i := is_subkey]> (q_is_sub_rule q))) (w_rule_index w) (w_full_key_len w) (<[i := Some key]> (w_key w)) (<[i := key_len]> (w_key_len w)).
Definition add_flags (flags : Z) w : rule_walk_args P :=
  let q := w_args w in
  mk_args (mk_req (Z.lor (q_flags q) flags) (q_rules q) (q_is_sub_rule q)) (w_rule_index w) (w_full_key_len w) (w_key w) (w_key_len w).

(** The loop over the rules of a leaf, from the type [i] on. *)
Fixpoint rules_loop (key : list Z) (key_len : nat) (is_subkey sub : bool) (i : nat) (ds : list (option (dns_rule P))) w : rule_walk_args P :=
  match ds with
  | [] => w
  | None :: ds => if 0 <=? w_rule_index w then w else rules_loop key key_len is_subkey sub (S i) ds w
  | Some r :: ds =>
    if skip_rule r sub then rules_loop key key_len is_subkey sub (S i) ds w
    else
      let w := if (i =? DOMAIN_RULE_FLAGS)%nat then add_flags (r_flags r) w else w in
      let w := take_rule key key_len is_subkey i r w in
      if 0 <=? w_rule_index w then w else rules_loop key key_len is_subkey sub (S i) ds w
  end.

(** [_dns_server_get_rules] *)
Definition get_rules (w : rule_walk_args P) (key : list Z) (key_len : nat) (is_subkey : bool) (d : dns_domain_rule P) : rule_walk_args P * Z :=
  let sub := is_effective_sub key_len (w_full_key_len w) in
  let i := if 0 <=? w_rule_index w then Z.to_nat (w_rule_index w) else O in
  let w := rules_loop key key_len is_subkey sub i (drop i d) w in
  (mk_args (update_rule_by_flags (w_args w)) (w_rule_index w) (w_full_key_len w) (w_key w) (w_key_len w), 0).

(** The key of a request. *)
Definition request_key (domain : list Z) : option (list Z * nat) :=
  let domain_len := length domain in
  buf ← reverse_string (replicate MAX_CNAME_LEN 0) 1 domain domain_len true;
  buf ← set_at buf (domain_len + 1) CH_DOT;
  buf ← set_at buf 0 CH_DOT;
  buf ← set_at buf (domain_len + 2) 0;
  Some (buf, (domain_len + 2)%nat).

(** [_dns_server_get_domain_rule_by_domain_ext], as far as it changes the request; what
    follows only writes to the log. *)
Definition get_domain_rule_by_domain_ext (t : art_tree (dns_domain_rule P)) q (rule_index : Z) (domain : list Z) : option (dns_request_domain_rule P) :=
  if (MAX_CNAME_LEN <=? length domain + 3)%nat then Some q
  else
    k ← request_key domain;
    let w := mk_args q rule_index k.2 (replicate DOMAIN_RULE_MAX None) (replicate DOMAIN_RULE_MAX 0%nat) in
    w ← art_substring_walk t k.1 k.2 get_rules w;
    Some (w_args w).
End Rules.
