(* ===== verification/DomainSpec.v ===== *)
(** * Domain rules: keys and the rules of a request (src/dns_conf/domain_rule.c, src/dns_server/rules.c)

    The keys of the names in the configuration and of the domains of requests, which
    domains a name stands for, and the walk over the stored prefixes of a key. *)

From Stdlib Require Import ZArith Lia Sorting.Sorted.
From stdpp Require Import base list numbers option gmap sorting.
From S2P Require Import Prelude Art ArtNode ArtTree ArtWalk ArtClaims DomainRule.

Local Open Scope nat_scope.

Definition lower (s : list Z) : list Z := map to_lower s.

Lemma to_lower_ok c : key_byte c -> key_byte (to_lower c).
Proof. unfold key_byte, to_lower. destruct (65 <=? c)%Z eqn:H1, (c <=? 90)%Z eqn:H2; cbn [andb]; lia. Qed.

Lemma lower_ok s : key_ok s -> key_ok (lower s).
Proof. intros Hs. apply Forall_fmap. eapply list.Forall_impl; [exact Hs|]. intros c. apply to_lower_ok. Qed.

Lemma lower_app s t : lower (s ++ t) = lower s ++ lower t.
Proof. apply map_app. Qed.

(** ** Reversing *)

Lemma set_at_split {A} (a : list A) (pre rest : list A) c v : a = pre ++ c :: rest -> set_at a (length pre) v = Some (pre ++ v :: rest).
Proof. intros ->. rewrite set_at_ok by (rewrite length_app; cbn; lia). by rewrite insert_app_r_alt, Nat.sub_diag by lia. Qed.

(** The bytes that are written, and the zero byte behind them. *)
Lemma reverse_string_ok pre rest input len : len <= length input -> len < length rest ->
  reverse_string (pre ++ rest) (length pre) input len true = Some (pre ++ rev (lower (take len input)) ++ 0%Z :: drop (S len) rest).
Proof.
  revert pre rest. induction len as [|len IH]; intros pre rest Hi Hr; (destruct rest as [|c rest]; [cbn in Hr; lia|]); cbn [reverse_string].
  - rewrite (set_at_split _ pre rest c) by done. done.
  - destruct (lookup_lt_is_Some_2 input len) as [x Hx]; [lia|]. rewrite Hx. cbn [mbind option_bind]. rewrite (set_at_split _ pre rest c) by done. cbn [mbind option_bind].
    replace (pre ++ to_lower x :: rest) with ((pre ++ [to_lower x]) ++ rest) by (by rewrite <- app_assoc). replace (S (length pre)) with (length (pre ++ [to_lower x])) by (rewrite length_app; cbn; lia). cbn [length] in Hr. rewrite IH by lia.
    rewrite (take_S_r input len x) by done. unfold lower. rewrite map_app, rev_app_distr. cbn [map rev app drop]. by rewrite <- app_assoc.
Qed.

Lemma is_zero_byte : is_byte 0.
Proof. unfold is_byte. lia. Qed.

Lemma key_bytes k : key_ok k -> Forall is_byte k.
Proof. intros Hk. eapply list.Forall_impl; [exact Hk|]. unfold key_byte, is_byte. lia. Qed.

(** The key of a request is the reversed domain between dots. *)
Definition request_name (domain : list Z) : list Z := CH_DOT :: rev (lower domain) ++ [CH_DOT].

Lemma request_name_ok domain : key_ok domain -> key_ok (request_name domain).
Proof. intros Hd. unfold request_name, key_ok. apply list.Forall_cons. split; [unfold key_byte, CH_DOT; lia|]. apply list.Forall_app. split; [apply Forall_rev; by apply lower_ok|]. apply list.Forall_cons. split; [unfold key_byte, CH_DOT; lia|constructor]. Qed.

Lemma length_request_name domain : length (request_name domain) = length domain + 2.
Proof. unfold request_name, lower. cbn [length]. rewrite length_app, length_rev, length_map. cbn. lia. Qed.

Lemma set_at_key (a pre rest : list Z) c v i : a = pre ++ c :: rest -> i = length pre -> set_at a i v = Some (pre ++ v :: rest).
Proof. intros Ha ->. by apply (set_at_split a pre rest c). Qed.

Lemma request_key_ok domain : key_ok domain -> length domain + 3 < MAX_CNAME_LEN -> exists buf, request_key domain = Some (buf, length (request_name domain)) /\ keyed buf (request_name domain) /\ length buf = MAX_CNAME_LEN.
Proof.
  intros Hd Hl. rewrite length_request_name. unfold request_key, MAX_CNAME_LEN in *. pose proof (reverse_string_ok [0%Z] (replicate 255 0%Z) domain (length domain) ltac:(lia) ltac:(rewrite length_replicate; lia)) as Hrev. cbn [length app] in Hrev. change (0%Z :: replicate 255 0%Z) with (replicate 256 0%Z) in Hrev. rewrite Hrev, firstn_all. cbn [mbind option_bind].
  set (r := rev (lower domain)). assert (length r = length domain) as Hr by (subst r; unfold lower; by rewrite length_rev, length_map). rewrite drop_replicate. destruct (255 - S (length domain)) as [|m] eqn:Em; [lia|].
  rewrite (set_at_key _ (0%Z :: r) (0%Z :: replicate m 0%Z) 0%Z) by (done || (cbn; lia)). cbn [mbind option_bind]. rewrite (set_at_key _ [] (r ++ CH_DOT :: 0%Z :: replicate m 0%Z) 0%Z) by done. cbn [mbind option_bind].
  rewrite (set_at_key _ (CH_DOT :: r ++ [CH_DOT]) (replicate m 0%Z) 0%Z) by (cbn; rewrite <- ?app_assoc, ?length_app; cbn; done || lia). cbn [mbind option_bind]. eexists. split; [done|]. unfold request_name. fold r. split; [|cbn; rewrite !length_app; cbn; rewrite length_replicate; lia].
  pose proof (request_name_ok domain Hd) as Hk. unfold request_name in Hk. fold r in Hk. split_and!; [done| |by exists (replicate m 0%Z)]. apply list.Forall_app. split; [by apply key_bytes|]. apply list.Forall_cons. split; [apply is_zero_byte|]. apply Forall_replicate, is_zero_byte.
Qed.

(** ** The key of a name *)

Lemma strip_dots_le domain len : strip_dots domain len <= len.
Proof. induction len as [|m IH]; cbn [strip_dots]; [done|]. destruct (domain !! m) as [c|]; [|done]. destruct (c =? CH_DOT)%Z; lia. Qed.

(** The name without dots at its end, reversed. *)
Definition reversed (domain : list Z) : list Z := rev (lower (take (strip_dots domain (length domain)) domain)).

(** How many of its bytes are used, whether a dot follows, and whether the name is only for the domain itself or only for those below it. *)
Definition name_form (domain : list Z) : nat * bool * bool * bool :=
  let n := length (reversed domain) in
  match domain with
  | c0 :: c1 :: rest =>
    if (c0 =? CH_STAR)%Z then
      if (c1 =? CH_DOT)%Z then (n - 1, false, false, true)
      else if (c1 =? CH_MINUS)%Z && bool_decide (head rest = Some CH_DOT) then (n - 2, false, true, true)
      else (n - 1, false, false, false)
    else if (c0 =? CH_MINUS)%Z then (n - 1, false, (c1 =? CH_DOT)%Z, false)
    else (n, 0 <? n, false, false)
  | _ => (n, 0 <? n, false, false)
  end.

Definition name_key (domain : list Z) : list Z :=
  let '(n, dot, root, sub) := name_form domain in
  let key := CH_DOT :: take n (reversed domain) ++ (if dot : bool then [CH_DOT] else []) in
  if root && negb sub && bool_decide (key !! n = Some CH_DOT) then take n key else key.

Lemma length_reversed domain : length (reversed domain) = strip_dots domain (length domain).
Proof. unfold reversed, lower. rewrite length_rev, length_map, length_take. pose proof (strip_dots_le domain (length domain)). lia. Qed.

Lemma reversed_ok domain : key_ok domain -> key_ok (reversed domain).
Proof. intros Hd. apply Forall_rev. apply lower_ok. by apply Forall_take. Qed.

(** The buffer after the name is written. *)
Definition written (b : list Z) (s : list Z) : Prop := exists rest, b = 0%Z :: s ++ 0%Z :: rest /\ length b = DNS_MAX_CONF_CNAME_LEN /\ Forall is_byte b.

Lemma set_z_nat buf (i : nat) c : i < length buf -> set_z buf (Z.of_nat i) c = Some (<[i := c]> buf).
Proof. intros Hi. unfold set_z. destruct (Z.ltb_spec (Z.of_nat i) 0); [lia|]. rewrite Nat2Z.id. by apply set_at_ok. Qed.

Lemma get_z_nat buf (i : nat) : get_z buf (Z.of_nat i) = buf !! i.
Proof. unfold get_z. destruct (Z.ltb_spec (Z.of_nat i) 0); [lia|]. by rewrite Nat2Z.id. Qed.

(** A zero byte ends the key. *)
Lemma end_key buf key : key_ok key -> Forall is_byte buf -> (exists c rest, buf = key ++ c :: rest) -> exists b, set_z buf (Z.of_nat (length key)) 0 = Some b /\ keyed b key /\ length b = length buf.
Proof.
  intros Hk Hb (c&rest&->). rewrite set_z_nat by (rewrite length_app; cbn; lia). rewrite insert_app_r_alt, Nat.sub_diag by lia. eexists. split; [done|]. split; [|rewrite !length_app; done]. apply list.Forall_app in Hb as [Hb1 Hb2]. apply list.Forall_cons in Hb2 as [_ Hb2].
  split_and!; [done| |by exists rest]. apply list.Forall_app. split; [done|]. apply list.Forall_cons. split; [apply is_zero_byte|done].
Qed.

(** What the rest of the code does with the length [n] and the flags. *)
Lemma finish_key buf s n root sub : key_ok s -> Forall is_byte buf -> length buf = DNS_MAX_CONF_CNAME_LEN -> n <= length s -> (exists c0 c rest, buf = c0 :: s ++ c :: rest) ->
  let key := CH_DOT :: take n s in let key := if root && negb sub && bool_decide (key !! n = Some CH_DOT) then take n key else key in
  exists b, (buf ← set_z buf 0 CH_DOT;
    if root && negb sub then c ← get_z buf (Z.of_nat n); let len := if (c =? CH_DOT)%Z then (Z.of_nat n - 1)%Z else Z.of_nat n in buf ← set_z buf (len + 1) 0; Some (Some (mk_key buf (len + 1) root sub))
    else buf ← set_z buf (Z.of_nat n + 1) 0; Some (Some (mk_key buf (Z.of_nat n + 1) root sub))) = Some (Some (mk_key b (Z.of_nat (length key)) root sub)) /\ keyed b key /\ length b = DNS_MAX_CONF_CNAME_LEN.
Proof.
  intros Hs Hb Hl Hn (c0&c&rest&->). pose proof (set_z_nat (c0 :: s ++ c :: rest) 0 CH_DOT ltac:(cbn; lia)) as Hset0. change (Z.of_nat 0) with 0%Z in Hset0. rewrite Hset0. clear Hset0. cbn [mbind option_bind insert list_insert]. set (buf := CH_DOT :: s ++ c :: rest). assert (is_byte CH_DOT) as Hdot by (unfold is_byte, CH_DOT; lia).
  assert (Forall is_byte buf) as Hb' by (apply list.Forall_cons in Hb as [_ Hb]; apply list.Forall_cons; by split). assert (length buf = DNS_MAX_CONF_CNAME_LEN) as Hl' by done. set (key := CH_DOT :: take n s). assert (length key = S n) as Hkl by (subst key; cbn; rewrite length_take; lia).
  assert (key_ok key) as Hk by (apply list.Forall_cons; split; [unfold key_byte, CH_DOT; lia|by apply Forall_take]). assert (exists c rest, buf = key ++ c :: rest) as Hsplit.
  { subst buf key. destruct (drop n s ++ c :: rest) as [|c' rest'] eqn:E; [by destruct (drop n s)|]. exists c', rest'. cbn. f_equal. by rewrite <- E, app_assoc, take_drop. }
  assert (exists b, set_z buf (Z.of_nat n + 1) 0 = Some b /\ keyed b key /\ length b = DNS_MAX_CONF_CNAME_LEN) as (b&Hset&Hbk&Hbl). { destruct (end_key buf key Hk Hb' Hsplit) as (b&Hset&H1&H2). exists b. rewrite Hkl in Hset. replace (Z.of_nat n + 1)%Z with (Z.of_nat (S n)) by lia. split_and!; [done|done|congruence]. }
  destruct (root && negb sub); cbn [andb].
  - rewrite get_z_nat. destruct Hsplit as (c'&rest'&Hsp). assert (buf !! n = key !! n) as -> by (rewrite Hsp; apply lookup_app_l; lia). destruct (lookup_lt_is_Some_2 key n) as [x Hx]; [lia|]. rewrite Hx. cbn [mbind option_bind]. destruct (Z.eqb_spec x CH_DOT) as [->|Hne].
    + rewrite bool_decide_eq_true_2 by done. assert (exists c rest, buf = take n key ++ c :: rest) as Hsplit2 by (exists CH_DOT, (drop (S n) key ++ c' :: rest'); rewrite Hsp; rewrite <- (take_drop_middle key n CH_DOT Hx) at 1; by rewrite <- app_assoc).
      destruct (end_key buf (take n key) ltac:(by apply Forall_take) Hb' Hsplit2) as (b2&Hset2&H1&H2). rewrite length_take, Hkl, Nat.min_l in * by lia. exists b2. replace (Z.of_nat n - 1 + 1)%Z with (Z.of_nat n) by lia. rewrite Hset2. split_and!; [done|done|congruence].
    + rewrite bool_decide_eq_false_2 by congruence. exists b. rewrite Hset. cbn [mbind option_bind]. rewrite Hkl. replace (Z.of_nat n + 1)%Z with (Z.of_nat (S n)) by lia. done.
  - exists b. rewrite Hset. cbn [mbind option_bind]. rewrite Hkl. replace (Z.of_nat n + 1)%Z with (Z.of_nat (S n)) by lia. done.
Qed.

Lemma strip_dots_ge domain len i c : domain !! i = Some c -> c <> CH_DOT -> i < len -> i < strip_dots domain len.
Proof.
  intros Hi Hc. induction len as [|m IH]; intros Hlt; [lia|]. cbn [strip_dots]. destruct (domain !! m) as [d|] eqn:Hd; [|lia]. destruct (Z.eqb_spec d CH_DOT) as [->|]; [|lia]. apply IH. destruct (decide (i = m)) as [->|]; [congruence|lia].
Qed.

Lemma first_kept c0 rest : c0 <> CH_DOT -> 1 <= length (reversed (c0 :: rest)).
Proof. intros Hc. rewrite length_reversed. pose proof (strip_dots_ge (c0 :: rest) (length (c0 :: rest)) 0 c0 eq_refl Hc ltac:(cbn; lia)). lia. Qed.

(** The length and the flags of the name. *)
Lemma classify_ok domain buf : length domain + 3 <= DNS_MAX_CONF_CNAME_LEN -> written buf (reversed domain) ->
  let '(n, dot, root, sub) := name_form domain in let s := if dot : bool then reversed domain ++ [CH_DOT] else reversed domain in let n' := if dot : bool then S n else n in
  exists b, classify buf domain DNS_MAX_CONF_CNAME_LEN (length domain) (Z.of_nat (length (reversed domain))) = Some (b, Z.of_nat n', root, sub) /\ n' <= length s /\
    Forall is_byte b /\ length b = DNS_MAX_CONF_CNAME_LEN /\ exists c0 c rest, b = c0 :: s ++ c :: rest.
Proof.
  intros Hl (rest&Eb&Hbl&Hb). set (R := reversed domain) in *. assert (length R <= length domain) as HR by (subst R; rewrite length_reversed; apply strip_dots_le). unfold DNS_MAX_CONF_CNAME_LEN in *.
  assert (forall (root sub : bool) n z, z = Z.of_nat n -> n <= length R -> exists b, Some (buf, z, root, sub) = Some (b, Z.of_nat n, root, sub) /\ n <= length R /\ Forall is_byte b /\ length b = 256 /\ exists c0 c rest, b = c0 :: R ++ c :: rest) as Hkeep.
  { intros root sub n z -> Hn. exists buf. split_and!; try done. exists 0%Z, 0%Z, rest. done. }
  assert (let s := if 0 <? length R then R ++ [CH_DOT] else R in let n' := if 0 <? length R then S (length R) else length R in
    exists b, (if (0 <? Z.of_nat (length R))%Z then if (Z.of_nat (length R) + 2 <? Z.of_nat 256)%Z then buf ← set_z buf (Z.of_nat (length R) + 1) CH_DOT; Some (buf, (Z.of_nat (length R) + 1)%Z, false, false) else Some (buf, Z.of_nat (length R), false, false) else Some (buf, Z.of_nat (length R), false, false)) = Some (b, Z.of_nat n', false, false) /\ n' <= length s /\
      Forall is_byte b /\ length b = 256 /\ exists c0 c rest, b = c0 :: s ++ c :: rest) as Hplain.
  { destruct (Nat.ltb_spec 0 (length R)) as [Hpos|]; cbn zeta; (destruct (Z.ltb_spec 0 (Z.of_nat (length R))); [|try lia]); [|lia|by apply Hkeep]. destruct (Z.ltb_spec (Z.of_nat (length R) + 2) (Z.of_nat 256)); [|lia]. replace (Z.of_nat (length R) + 1)%Z with (Z.of_nat (S (length R))) by lia.
    rewrite set_z_nat by (rewrite Hbl; lia). cbn [mbind option_bind]. eexists. split; [done|]. split; [rewrite length_app; cbn; lia|]. split; [apply list.Forall_insert; [done|unfold is_byte, CH_DOT; lia]|]. split; [by rewrite length_insert|]. destruct rest as [|c rest]; [rewrite Eb in Hbl; cbn in Hbl; rewrite length_app in Hbl; cbn in Hbl; lia|].
    exists 0%Z, c, rest. rewrite Eb. change (<[S (length R) := CH_DOT]> (0%Z :: R ++ 0%Z :: c :: rest)) with (0%Z :: <[length R := CH_DOT]> (R ++ 0%Z :: c :: rest)). rewrite insert_app_r_alt, Nat.sub_diag by lia. by rewrite <- app_assoc. }
  unfold name_form, classify. fold R. destruct domain as [|c0 domain]; [cbn [app lookup list_lookup mbind option_bind length]; rewrite !andb_false_r; exact Hplain|]. cbn [app lookup list_lookup mbind option_bind]. destruct domain as [|c1 domain]; [cbn [length Nat.ltb Nat.leb]; rewrite !andb_false_r; exact Hplain|].
  cbn [app lookup list_lookup mbind option_bind]. assert ((1 <? length (c0 :: c1 :: domain)) = true) as -> by (by apply Nat.ltb_lt; cbn; lia). rewrite !andb_true_r. destruct (Z.eqb_spec c0 CH_STAR) as [->|Hstar].
  - pose proof (first_kept CH_STAR (c1 :: domain) ltac:(done)) as H1. fold R in H1. destruct (Z.eqb_spec c1 CH_DOT) as [->|Hdot]; [apply Hkeep; lia|]. destruct (Z.eqb_spec c1 CH_MINUS) as [->|]; [|apply Hkeep; lia]. cbn [andb].
    assert (2 <= length R) as H2 by (subst R; rewrite length_reversed; pose proof (strip_dots_ge (CH_STAR :: CH_MINUS :: domain) (length (CH_STAR :: CH_MINUS :: domain)) 1 CH_MINUS eq_refl ltac:(done) ltac:(cbn; lia)); lia).
    destruct domain as [|c2 domain]; [cbn [app lookup list_lookup mbind option_bind head]; rewrite bool_decide_eq_false_2 by done; apply Hkeep; lia|]. cbn [app lookup list_lookup mbind option_bind head]. destruct (Z.eqb_spec c2 CH_DOT) as [->|]; [rewrite bool_decide_eq_true_2 by done|rewrite bool_decide_eq_false_2 by congruence]; apply Hkeep; lia.
  - destruct (Z.eqb_spec c0 CH_MINUS) as [->|]; [|exact Hplain]. pose proof (first_kept CH_MINUS (c1 :: domain) ltac:(done)) as H1. fold R in H1. apply Hkeep; lia.
Qed.

(** The key of every name that is not too long can be read in its buffer. *)
Lemma setup_key_ok domain : key_ok domain -> length domain + 3 <= DNS_MAX_CONF_CNAME_LEN ->
  exists b, setup_domain_key domain DNS_MAX_CONF_CNAME_LEN = Some (Some (mk_key b (Z.of_nat (length (name_key domain))) (name_form domain).1.2 (name_form domain).2)) /\ keyed b (name_key domain) /\ length b = DNS_MAX_CONF_CNAME_LEN.
Proof.
  intros Hd Hl. unfold setup_domain_key. destruct (Nat.ltb_spec DNS_MAX_CONF_CNAME_LEN (length domain + 3)); [lia|]. pose proof (strip_dots_le domain (length domain)) as Hle.
  pose proof (reverse_string_ok [0%Z] (replicate 255 0%Z) domain (strip_dots domain (length domain)) Hle ltac:(rewrite length_replicate; unfold DNS_MAX_CONF_CNAME_LEN in *; lia)) as Hrev. cbn [length app] in Hrev. change (0%Z :: replicate 255 0%Z) with (replicate DNS_MAX_CONF_CNAME_LEN 0%Z) in Hrev. rewrite Hrev. cbn [mbind option_bind]. fold (reversed domain).
  assert (written (0%Z :: reversed domain ++ 0%Z :: drop (S (strip_dots domain (length domain))) (replicate 255 0%Z)) (reversed domain)) as Hw.
  { eexists. split; [done|]. split; [cbn [length]; rewrite length_app, length_reversed; cbn [length]; rewrite length_drop, length_replicate; unfold DNS_MAX_CONF_CNAME_LEN in *; lia|]. apply list.Forall_cons. split; [apply is_zero_byte|]. apply list.Forall_app. split; [by apply key_bytes, reversed_ok|]. apply list.Forall_cons. split; [apply is_zero_byte|]. apply Forall_drop, Forall_replicate, is_zero_byte. }
  pose proof (classify_ok domain _ Hl Hw) as Hc. unfold name_key. pose proof (reversed_ok domain Hd) as HR. destruct (name_form domain) as [[[n dot] root] sub] eqn:Hform. cbn [fst snd]. cbn zeta in Hc. destruct Hc as (b&Hcl&Hn&Hb&Hbl&Hsplit). rewrite length_reversed in Hcl. rewrite Hcl. cbn [mbind option_bind].
  assert (key_ok (if dot then reversed domain ++ [CH_DOT] else reversed domain)) as Hs by (destruct dot; [|done]; apply list.Forall_app; split; [done|]; apply list.Forall_cons; split; [unfold key_byte, CH_DOT; lia|constructor]).
  destruct (finish_key b _ _ root sub Hs Hb Hbl Hn Hsplit) as (b2&Hfin&Hk&Hbl2). exists b2. cbn zeta in Hfin, Hk. assert (dot = true -> n = length (reversed domain) /\ root = false) as Hdot. { unfold name_form in Hform. intros ->. destruct domain as [|? [|? ?]]; [by injection Hform|injection Hform; done|]. repeat case_match; try (injection Hform; done). }
  destruct dot.
  - destruct (Hdot eq_refl) as [-> ->]. cbn [andb] in *. rewrite take_ge in Hfin, Hk by (rewrite length_app; cbn; lia). rewrite take_ge by lia. done.
  - rewrite app_nil_r. done.
Qed.

(** ** Which domains a name stands for *)

(** Whether the rule of a name applies to a domain. *)
Definition applies (name domain : list Z) : option bool :=
  k ← setup_domain_key name DNS_MAX_CONF_CNAME_LEN;
  match k with
  | None => Some false
  | Some k =>
    r ← request_key domain;
    Some (bool_decide (take (Z.to_nat (k_len k)) (k_buf k) `prefix_of` take r.2 r.1) &&
      negb (skip_rule (mk_rule (k_sub_only k) (k_root_only k) 0 tt) (is_effective_sub (Z.to_nat (k_len k)) r.2)))
  end.

Lemma applies_ok name domain : key_ok name -> length name + 3 <= DNS_MAX_CONF_CNAME_LEN -> key_ok domain -> length domain + 3 < MAX_CNAME_LEN ->
  applies name domain = Some (bool_decide (name_key name `prefix_of` request_name domain) && negb (skip_rule (mk_rule (name_form name).2 (name_form name).1.2 0 tt) (is_effective_sub (length (name_key name)) (length domain + 2)))).
Proof.
  intros Hn Hnl Hd Hdl. unfold applies. destruct (setup_key_ok name Hn Hnl) as (b&->&Hb&_). cbn [mbind option_bind k_len k_buf k_root_only k_sub_only]. destruct (request_key_ok domain Hd Hdl) as (rb&->&Hrb&_). cbn [mbind option_bind fst snd]. rewrite Nat2Z.id, length_request_name.
  destruct Hb as (_&_&rest&->). destruct Hrb as (_&_&rest'&->). rewrite take_app_length, <- length_request_name, take_app_length. done.
Qed.

(** A name without special bytes at its ends. *)
Definition plain (s : list Z) : Prop := key_ok s /\ list.last s <> Some CH_DOT /\ exists c t, s = c :: t /\ c <> CH_DOT /\ c <> CH_STAR /\ c <> CH_MINUS.

Lemma strip_dots_last s : list.last s <> Some CH_DOT -> strip_dots s (length s) = length s.
Proof.
  intros Hl. destruct s as [|c0 t] using rev_ind; [done|]. rewrite last_snoc in Hl. rewrite length_app. cbn [length]. rewrite Nat.add_1_r. cbn [strip_dots]. rewrite lookup_app_r, Nat.sub_diag by lia. cbn. destruct (Z.eqb_spec c0 CH_DOT); [congruence|done].
Qed.

Lemma reversed_plain pre s : plain s -> reversed (pre ++ s) = rev (lower s) ++ rev (lower pre).
Proof.
  intros (_&Hl&c&t&Es&_). unfold reversed. rewrite strip_dots_last; [by rewrite firstn_all, lower_app, rev_app_distr|]. rewrite last_app. destruct (list.last s) eqn:E; [done|]. apply last_None in E. congruence.
Qed.

Lemma lower_dot c : to_lower c = CH_DOT -> c = CH_DOT.
Proof. unfold to_lower, CH_DOT. destruct (65 <=? c)%Z eqn:H1, (c <=? 90)%Z eqn:H2; cbn [andb]; lia. Qed.

Lemma length_rev_lower s : length (rev (lower s)) = length s.
Proof. unfold lower. by rewrite length_rev, length_map. Qed.

(** Prefixes of the key of a domain. *)
Lemma prefix_whole (s d : list Z) : (CH_DOT :: rev s ++ [CH_DOT]) `prefix_of` (CH_DOT :: rev d ++ [CH_DOT]) <-> d = s \/ (CH_DOT :: s) `suffix_of` d.
Proof.
  split.
  - intros [r Hr]. injection Hr as Hr. destruct r as [|x r _] using rev_ind.
    + left. rewrite app_nil_r in Hr. apply app_inj_2 in Hr as [Hr _]; [|done]. apply (f_equal (@rev Z)) in Hr. by rewrite !rev_involutive in Hr.
    + right. rewrite app_assoc in Hr. apply app_inj_2 in Hr as [Hr _]; [|done]. exists (rev r). apply (f_equal (@rev Z)) in Hr. rewrite !rev_app_distr, !rev_involutive in Hr. exact Hr.
  - intros [->|[r ->]]; [done|]. rewrite rev_app_distr. cbn [rev]. exists (rev r ++ [CH_DOT]). cbn. by rewrite <- !app_assoc.
Qed.

Lemma prefix_open (s d : list Z) : head s <> Some CH_DOT -> s <> [] -> (CH_DOT :: rev s) `prefix_of` (CH_DOT :: rev d ++ [CH_DOT]) <-> s `suffix_of` d.
Proof.
  intros Hh Hne. split.
  - intros [r Hr]. injection Hr as Hr. destruct r as [|x r _] using rev_ind.
    + exfalso. rewrite app_nil_r in Hr. apply (f_equal (@rev Z)) in Hr. rewrite rev_app_distr, !rev_involutive in Hr. cbn in Hr. subst s. done.
    + rewrite app_assoc in Hr. apply app_inj_2 in Hr as [Hr _]; [|done]. exists (rev r). apply (f_equal (@rev Z)) in Hr. by rewrite rev_app_distr, !rev_involutive in Hr.
  - intros [r ->]. rewrite rev_app_distr. exists (rev r ++ [CH_DOT]). cbn. by rewrite <- !app_assoc.
Qed.

(** The keys of the forms of a name. *)
Lemma name_key_plain s : plain s -> name_key s = CH_DOT :: rev (lower s) ++ [CH_DOT] /\ name_form s = (length s, true, false, false).
Proof.
  intros Hs. pose proof (reversed_plain [] s Hs) as HR. cbn [app] in HR. change (rev (lower [])) with (@nil Z) in HR. rewrite app_nil_r in HR. assert (length (reversed s) = length s) as Hlen by (rewrite HR; apply length_rev_lower). destruct Hs as (_&_&c&t&->&H1&H2&H3).
  assert (name_form (c :: t) = (length (c :: t), true, false, false)) as Hf. { unfold name_form. rewrite Hlen. destruct t as [|c1 t]; [done|]. by rewrite (proj2 (Z.eqb_neq c CH_STAR) H2), (proj2 (Z.eqb_neq c CH_MINUS) H3). }
  split; [|done]. unfold name_key. rewrite Hf, HR. cbn [andb]. by rewrite take_ge by (rewrite length_rev_lower; done).
Qed.

Lemma take_reversed (s pre : list Z) n : n = length s -> take (n + length pre) (rev (lower s) ++ pre) = rev (lower s) ++ pre.
Proof. intros ->. apply take_ge. rewrite length_app, length_rev_lower. done. Qed.

Lemma name_key_sub s : plain s -> name_key (CH_STAR :: CH_DOT :: s) = CH_DOT :: rev (lower s) ++ [CH_DOT] /\ name_form (CH_STAR :: CH_DOT :: s) = (length s + 1, false, false, true).
Proof.
  intros Hs. pose proof (reversed_plain [CH_STAR; CH_DOT] s Hs) as HR. change (rev (lower [CH_STAR; CH_DOT])) with ([CH_DOT] ++ [CH_STAR]) in HR. change ([CH_STAR; CH_DOT] ++ s) with (CH_STAR :: CH_DOT :: s) in HR. rewrite app_assoc in HR.
  assert (name_form (CH_STAR :: CH_DOT :: s) = (length s + 1, false, false, true)) as Hf by (unfold name_form; rewrite HR, !length_app, length_rev_lower; cbn [length Z.eqb CH_STAR CH_DOT Pos.eqb]; do 3 f_equal; lia). split; [|done]. unfold name_key. rewrite Hf, HR. cbn [andb]. rewrite app_nil_r, take_app_le by (rewrite length_app, length_rev_lower; cbn; lia). f_equal. by apply (take_reversed s [CH_DOT]).
Qed.

Lemma name_key_root s : plain s -> name_key (CH_MINUS :: CH_DOT :: s) = CH_DOT :: rev (lower s) /\ name_form (CH_MINUS :: CH_DOT :: s) = (length s + 1, false, true, false).
Proof.
  intros Hs. pose proof (reversed_plain [CH_MINUS; CH_DOT] s Hs) as HR. change (rev (lower [CH_MINUS; CH_DOT])) with ([CH_DOT] ++ [CH_MINUS]) in HR. change ([CH_MINUS; CH_DOT] ++ s) with (CH_MINUS :: CH_DOT :: s) in HR. rewrite app_assoc in HR.
  assert (name_form (CH_MINUS :: CH_DOT :: s) = (length s + 1, false, true, false)) as Hf by (unfold name_form; rewrite HR, !length_app, length_rev_lower; cbn [length Z.eqb CH_STAR CH_MINUS CH_DOT Pos.eqb]; do 3 f_equal; lia). split; [|done]. unfold name_key. rewrite Hf, HR. cbn [andb negb]. rewrite app_nil_r, take_app_le by (rewrite length_app, length_rev_lower; cbn; lia). rewrite (take_reversed s [CH_DOT]) by done.
  rewrite bool_decide_eq_true_2; [rewrite Nat.add_1_r; cbn [take]; f_equal; by rewrite take_app_length' by (by rewrite length_rev_lower)|]. rewrite Nat.add_1_r. change ((rev (lower s) ++ [CH_DOT]) !! length s = Some CH_DOT). rewrite lookup_app_r, length_rev_lower, Nat.sub_diag by (rewrite length_rev_lower; lia). done.
Qed.

Lemma name_key_wild s : plain s -> name_key (CH_STAR :: s) = CH_DOT :: rev (lower s) /\ name_form (CH_STAR :: s) = (length s, false, false, false).
Proof.
  intros Hs. pose proof (reversed_plain [CH_STAR] s Hs) as HR. change (rev (lower [CH_STAR])) with [CH_STAR] in HR. change ([CH_STAR] ++ s) with (CH_STAR :: s) in HR. pose proof Hs as (_&_&c&t&Es&H1&H2&H3).
  assert (name_form (CH_STAR :: s) = (length s, false, false, false)) as Hf. { unfold name_form. rewrite HR, length_app, length_rev_lower. rewrite Es. rewrite (proj2 (Z.eqb_neq c CH_DOT) H1), (proj2 (Z.eqb_neq c CH_MINUS) H3). cbn [length Z.eqb CH_STAR Pos.eqb andb]. do 3 f_equal. lia. }
  split; [|done]. unfold name_key. rewrite Hf, HR. cbn [andb]. rewrite app_nil_r. by rewrite take_app_length' by (by rewrite length_rev_lower).
Qed.

Lemma name_key_both s : plain s -> name_key (CH_STAR :: CH_MINUS :: CH_DOT :: s) = CH_DOT :: rev (lower s) ++ [CH_DOT] /\ name_form (CH_STAR :: CH_MINUS :: CH_DOT :: s) = (length s + 1, false, true, true).
Proof.
  intros Hs. pose proof (reversed_plain [CH_STAR; CH_MINUS; CH_DOT] s Hs) as HR. change (rev (lower [CH_STAR; CH_MINUS; CH_DOT])) with ([CH_DOT] ++ [CH_MINUS; CH_STAR]) in HR. change ([CH_STAR; CH_MINUS; CH_DOT] ++ s) with (CH_STAR :: CH_MINUS :: CH_DOT :: s) in HR. rewrite app_assoc in HR.
  assert (name_form (CH_STAR :: CH_MINUS :: CH_DOT :: s) = (length s + 1, false, true, true)) as Hf by (unfold name_form; rewrite HR, !length_app, length_rev_lower; cbn [length Z.eqb CH_STAR CH_MINUS CH_DOT Pos.eqb andb head]; rewrite bool_decide_eq_true_2 by done; do 3 f_equal; lia). split; [|done]. unfold name_key. rewrite Hf, HR. cbn [andb negb]. rewrite app_nil_r, take_app_le by (rewrite length_app, length_rev_lower; cbn; lia). f_equal. by apply (take_reversed s [CH_DOT]).
Qed.

Section Match.
Context {P : Type}.
Implicit Types (q : dns_request_domain_rule P) (w : rule_walk_args P) (r : dns_rule P) (e : list Z * dns_domain_rule P) (L : list (list Z * dns_domain_rule P)).

(** ** Flags *)

Lemma has_flag_lor a b f : flag_set (Z.lor a b) f = flag_set a f || flag_set b f.
Proof.
  unfold flag_set. rewrite Z.land_lor_distr_l. destruct (Z.eqb_spec (Z.land a f) 0) as [->|Ha], (Z.eqb_spec (Z.land b f) 0) as [Hb|Hb]; cbn [negb orb].
  - by rewrite Hb.
  - by rewrite Z.lor_0_l, (proj2 (Z.eqb_neq _ _) Hb).
  - rewrite Hb, Z.lor_0_r. by rewrite (proj2 (Z.eqb_neq _ _) Ha).
  - apply negb_true_iff, Z.eqb_neq. intros [? ?]%Z.lor_eq_0_iff. done.
Qed.

(** The flags that take rules of a type away. *)
Definition ignore_table : list (nat * Z) :=
  [(DOMAIN_RULE_ADDRESS_IPV4, DOMAIN_FLAG_ADDR_IGN); (DOMAIN_RULE_ADDRESS_IPV6, DOMAIN_FLAG_ADDR_IGN); (DOMAIN_RULE_ADDRESS_IPV4, DOMAIN_FLAG_ADDR_IPV4_IGN); (DOMAIN_RULE_ADDRESS_IPV6, DOMAIN_FLAG_ADDR_IPV6_IGN);
   (DOMAIN_RULE_HTTPS, DOMAIN_FLAG_ADDR_HTTPS_IGN); (DOMAIN_RULE_IPSET, DOMAIN_FLAG_IPSET_IGN); (DOMAIN_RULE_IPSET_IPV4, DOMAIN_FLAG_IPSET_IPV4_IGN); (DOMAIN_RULE_IPSET_IPV6, DOMAIN_FLAG_IPSET_IPV6_IGN);
   (DOMAIN_RULE_NFTSET_IP, DOMAIN_FLAG_NFTSET_IP_IGN); (DOMAIN_RULE_NFTSET_IP, DOMAIN_FLAG_NFTSET_INET_IGN); (DOMAIN_RULE_NFTSET_IP6, DOMAIN_FLAG_NFTSET_IP6_IGN); (DOMAIN_RULE_NFTSET_IP6, DOMAIN_FLAG_NFTSET_INET_IGN);
   (DOMAIN_RULE_NAMESERVER, DOMAIN_FLAG_NAMESERVER_IGNORE)].
Definition ignored (flags : Z) (i : nat) : bool := existsb (fun e : nat * Z => flag_set flags e.2 && (i =? e.1)) ignore_table.

Lemma ignored_lor a b i : ignored (Z.lor a b) i = ignored a i || ignored b i.
Proof.
  unfold ignored. induction ignore_table as [|e l IH]; [done|]. cbn [existsb]. rewrite IH, has_flag_lor. destruct (flag_set a e.2), (flag_set b e.2), (i =? e.1); cbn [andb orb]; rewrite ?orb_true_r; done.
Qed.

Lemma drop_if_lookup b j q i : q_rules (drop_if b j q) !! i = if b && (i =? j) then (fun _ => None) <$> q_rules q !! i else q_rules q !! i.
Proof.
  destruct b; cbn [drop_if andb]; [|done]. cbn [q_rules drop_rule]. destruct (Nat.eqb_spec i j) as [->|]; [|by rewrite list_lookup_insert_ne]. destruct (q_rules q !! j) as [o|] eqn:E; [|rewrite list_insert_ge by (by apply lookup_ge_None); by rewrite E]. cbn. apply list_lookup_insert_eq. by eapply lookup_lt_Some.
Qed.

Lemma drop_if_flags b j q : q_flags (drop_if b j q) = q_flags q /\ q_is_sub_rule (drop_if b j q) = q_is_sub_rule q.
Proof. by destruct b. Qed.

Lemma update_flags q : q_flags (update_rule_by_flags q) = q_flags q /\ q_is_sub_rule (update_rule_by_flags q) = q_is_sub_rule q.
Proof. unfold update_rule_by_flags. split; repeat (rewrite ?(proj1 (drop_if_flags _ _ _)), ?(proj2 (drop_if_flags _ _ _))); done. Qed.

Lemma drop_if_or a b j q : drop_if (a || b) j q = drop_if b j (drop_if a j q).
Proof. destruct a, b; cbn [orb drop_if]; try done. unfold drop_rule. cbn [q_flags q_rules q_is_sub_rule]. by rewrite list_insert_insert_eq. Qed.

(** All that flags do is to drop the rules of the table. *)
Lemma update_table q : update_rule_by_flags q = foldl (fun q' (e : nat * Z) => drop_if (flag_set (q_flags q) e.2) e.1 q') q ignore_table.
Proof. unfold update_rule_by_flags, ignore_table. cbn [foldl fst snd]. by rewrite !drop_if_or. Qed.

Lemma update_lookup q i : q_rules (update_rule_by_flags q) !! i = if ignored (q_flags q) i then (fun _ => None) <$> q_rules q !! i else q_rules q !! i.
Proof.
  rewrite update_table. unfold ignored. generalize (q_flags q) as flags. intros flags. revert q. induction ignore_table as [|e l IH]; intros q; [done|]. cbn [foldl existsb]. rewrite IH, drop_if_lookup. destruct (flag_set flags e.2 && (i =? e.1)); cbn [orb]; [|done]. destruct (existsb _ l), (q_rules q !! i); done.
Qed.

(** ** The rules of a leaf *)

(** The rule of a type that applies. *)
Definition effective (full i : nat) e : option (dns_rule P) := r ← mjoin (e.2 !! i); if skip_rule r (is_effective_sub (length e.1) full) then None else Some r.

(** The request after rules [ds], of the types from [i] on. *)
Definition taken (sub : bool) (i : nat) (ds : list (option (dns_rule P))) (j : nat) : option (dns_rule P) := if j <? i then None else r ← mjoin (ds !! (j - i)); if skip_rule r sub then None else Some r.

Lemma rules_loop_ok key key_len is_subkey sub i ds w : (w_rule_index w < 0)%Z -> length (q_rules (w_args w)) = DOMAIN_RULE_MAX -> i + length ds <= DOMAIN_RULE_MAX ->
  let w' := rules_loop key key_len is_subkey sub i ds w in
  w_rule_index w' = w_rule_index w /\ w_full_key_len w' = w_full_key_len w /\ length (q_rules (w_args w')) = DOMAIN_RULE_MAX /\
  q_flags (w_args w') = Z.lor (q_flags (w_args w)) (match taken sub i ds DOMAIN_RULE_FLAGS with Some r => r_flags r | None => 0%Z end) /\
  forall j, j < DOMAIN_RULE_MAX -> q_rules (w_args w') !! j = match taken sub i ds j with Some r => Some (Some r) | None => q_rules (w_args w) !! j end.
Proof.
  revert i w. induction ds as [|d ds IH]; intros i w Hw Hl Hi; cbn [rules_loop length] in *.
  - assert (forall j, taken sub i [] j = None) as Hno by (intros j; unfold taken; by destruct (j <? i)). cbn zeta. split_and!; try done; [by rewrite Hno, Z.lor_0_r|]. intros j _. by rewrite Hno.
  - assert ((0 <=? w_rule_index w)%Z = false) as Hidx by (apply Z.leb_gt; lia).
    assert (forall j, taken sub i (d :: ds) j = if j =? i then (r ← d; if skip_rule r sub then None else Some r) else taken sub (S i) ds j) as Hcons.
    { intros j. unfold taken. destruct (Nat.eqb_spec j i) as [->|]; [rewrite Nat.ltb_irrefl, Nat.sub_diag; done|]. destruct (Nat.ltb_spec j i), (Nat.ltb_spec j (S i)); try lia; [done|]. by replace (j - i) with (S (j - S i)) by lia. }
    assert (taken sub (S i) ds i = None) as Hself by (unfold taken; by rewrite (proj2 (Nat.ltb_lt i (S i)) ltac:(lia))).
    assert ((r ← d; if skip_rule r sub then None else Some r) = None -> forall j, taken sub i (d :: ds) j = taken sub (S i) ds j) as Hsame by (intros Hd j; rewrite Hcons; destruct (Nat.eqb_spec j i) as [->|]; [congruence|done]).
    destruct d as [r|].
    + cbn [mbind option_bind] in Hcons, Hsame. destruct (skip_rule r sub) eqn:Hskip.
      { specialize (IH (S i) w Hw Hl ltac:(lia)). cbn zeta in IH. destruct IH as (I1&I2&I3&I4&I5). split_and!; try done; [by rewrite Hsame|]. intros j Hj. rewrite Hsame by done. by apply I5. }
      set (w1 := take_rule key key_len is_subkey i r (if i =? DOMAIN_RULE_FLAGS then add_flags (r_flags r) w else w)). assert (w_rule_index w1 = w_rule_index w /\ w_full_key_len w1 = w_full_key_len w /\ q_rules (w_args w1) = <[i := Some r]> (q_rules (w_args w)) /\ q_flags (w_args w1) = Z.lor (q_flags (w_args w)) (if i =? DOMAIN_RULE_FLAGS then r_flags r else 0%Z)) as (E1&E2&E3&E4) by (subst w1; destruct (i =? DOMAIN_RULE_FLAGS); cbn; rewrite ?Z.lor_0_r; done).
      rewrite E1, Hidx. specialize (IH (S i) w1 ltac:(lia) ltac:(rewrite E3, length_insert; done) ltac:(lia)). cbn zeta in IH. destruct IH as (I1&I2&I3&I4&I5). split_and!; try congruence.
      * rewrite I4, E4, <- Z.lor_assoc. f_equal. rewrite Hcons, (Nat.eqb_sym DOMAIN_RULE_FLAGS i). destruct (Nat.eqb_spec i DOMAIN_RULE_FLAGS) as [->|]; [by rewrite Hself, Z.lor_0_r|by rewrite Z.lor_0_l].
      * intros j Hj. rewrite I5 by done. rewrite E3, Hcons. destruct (Nat.eqb_spec j i) as [->|]; [rewrite Hself; apply list_lookup_insert_eq; lia|]. by rewrite list_lookup_insert_ne by done.
    + rewrite Hidx. specialize (IH (S i) w Hw Hl ltac:(lia)). cbn zeta in IH. destruct IH as (I1&I2&I3&I4&I5). split_and!; try done; [by rewrite Hsame|]. intros j Hj. rewrite Hsame by done. by apply I5.
Qed.

(** ** All leaves on the way *)

Definition flags_of (full : nat) e : Z := match effective full DOMAIN_RULE_FLAGS e with Some r => r_flags r | None => 0%Z end.
Definition all_flags (full : nat) L : Z := foldl (fun f e => Z.lor f (flags_of full e)) 0%Z L.
Definition last_rule (full i : nat) L : option (dns_rule P) := list.last (omap (effective full i) L).

(** The state of the walk after the leaves [L]. *)
Definition walked (full : nat) L w : Prop :=
  (w_rule_index w < 0)%Z /\ w_full_key_len w = full /\ length (q_rules (w_args w)) = DOMAIN_RULE_MAX /\ q_flags (w_args w) = all_flags full L /\
  forall i, i < DOMAIN_RULE_MAX -> q_rules (w_args w) !! i = Some (if ignored (all_flags full L) i then None else last_rule full i L).

Lemma last_rule_snoc full i L e : last_rule full i (L ++ [e]) = match effective full i e with Some r => Some r | None => last_rule full i L end.
Proof. unfold last_rule. rewrite omap_app. cbn. destruct (effective full i e) as [r|]; cbn; [by rewrite last_snoc|by rewrite app_nil_r]. Qed.

Lemma length_update q : length (q_rules (update_rule_by_flags q)) = length (q_rules q).
Proof. rewrite update_table. generalize (q_flags q) as f. intros f. revert q. induction ignore_table as [|e l IH]; intros q; [done|]. cbn [foldl]. rewrite IH. destruct (flag_set f e.2); cbn; [by rewrite length_insert|done]. Qed.

Lemma get_rules_ok full L w e key is_subkey : walked full L w -> length e.2 <= DOMAIN_RULE_MAX -> walked full (L ++ [e]) (get_rules w key (length e.1) is_subkey e.2).1.
Proof.
  intros (H1&H2&H3&H4&H5) Hl. unfold get_rules. assert ((0 <=? w_rule_index w)%Z = false) as -> by (apply Z.leb_gt; lia). rewrite drop_0, H2. destruct (rules_loop_ok key (length e.1) is_subkey (is_effective_sub (length e.1) full) 0 e.2 w H1 H3 Hl) as (I1&I2&I3&I4&I5). cbn [fst]. set (w' := rules_loop _ _ _ _ _ _ _) in *. clearbody w'.
  assert (forall j, taken (is_effective_sub (length e.1) full) 0 e.2 j = effective full j e) as Ht by (intros j; unfold taken, effective; by rewrite Nat.sub_0_r). assert (all_flags full (L ++ [e]) = Z.lor (all_flags full L) (flags_of full e)) as Hfl by (unfold all_flags; by rewrite foldl_app).
  assert (q_flags (w_args w') = all_flags full (L ++ [e])) as Hf by (rewrite I4, H4, Ht, Hfl; done). split_and!; cbn [w_rule_index w_full_key_len w_args]; [lia|congruence|by rewrite length_update|by rewrite (proj1 (update_flags _))|].
  intros i Hi. rewrite update_lookup, Hf, I5 by done. rewrite Ht, last_rule_snoc, H5 by done. destruct (ignored (all_flags full (L ++ [e])) i) eqn:Hig; [by destruct (effective full i e)|]. rewrite Hfl, ignored_lor in Hig. apply orb_false_iff in Hig as [-> _]. by destruct (effective full i e).
Qed.

Lemma calls_snoc {V D} (func : @walk_func V D) n d (L : list (list Z * V)) (e : list Z * V) : (forall d k m b v, (func d k m b v).2 = 0%Z) -> calls func n d (L ++ [e]) = (func (calls func n d L) (e.1 ++ [0%Z]) (length e.1) (negb (length e.1 =? n)) e.2).1.
Proof. intros Hf. revert d. induction L as [|[k v] L IH]; intros d; [destruct e as [k v]; cbn; by rewrite Hf|]. cbn [app calls]. rewrite Hf. cbn [Z.eqb]. apply IH. Qed.

Lemma walk_rules full L w : walked full [] w -> Forall (fun e => length e.2 <= DOMAIN_RULE_MAX) L -> walked full L (calls get_rules full w L).
Proof.
  intros Hw. induction L as [|e L IH] using rev_ind; intros HL; [done|]. apply list.Forall_app in HL as [HL He]. apply list.Forall_cons in He as [He _]. rewrite calls_snoc by done. apply get_rules_ok; [by apply IH|done].
Qed.

(** Visiting the last leaf once more changes nothing. *)
Lemma walked_again full L e w : walked full ((L ++ [e]) ++ [e]) w -> walked full (L ++ [e]) w.
Proof.
  intros (H1&H2&H3&H4&H5). assert (all_flags full ((L ++ [e]) ++ [e]) = all_flags full (L ++ [e])) as Hf by (unfold all_flags; rewrite !foldl_app; cbn; by rewrite <- Z.lor_assoc, Z.lor_diag). split_and!; [done|done|done|congruence|]. intros i Hi. rewrite H5, Hf by done. do 2 f_equal. rewrite !last_rule_snoc. by destruct (effective full i e).
Qed.

(** The last rule that applies is that of the longest key. *)
Lemma last_rule_longest full i L r : StronglySorted shorter L -> last_rule full i L = Some r <-> exists k d, (k, d) ∈ L /\ effective full i (k, d) = Some r /\ forall k' d', (k', d') ∈ L -> length k < length k' -> effective full i (k', d') = None.
Proof.
  induction L as [|e L IH] using rev_ind; intros Hs.
  - split; [done|]. by intros (k&d&?%elem_of_nil&_).
  - assert (forall a, a ∈ L -> length a.1 < length e.1) as Hlt by (intros a Ha; apply (StronglySorted_app_1_elem_of _ L [e] a e Hs Ha); by left).
    assert (StronglySorted shorter L) as HsL by (by apply (StronglySorted_app_1_l _ L [e])). rewrite last_rule_snoc. destruct (effective full i e) as [r'|] eqn:Ee.
    + split.
      * intros [= ->]. destruct e as [k d]. exists k, d. split_and!; [rewrite elem_of_app; right; by left|done|]. intros k' d' [Hin|Hin]%elem_of_app Hl; [specialize (Hlt _ Hin); cbn in Hlt; lia|]. apply list_elem_of_singleton in Hin as [= -> ->]. lia.
      * intros (k&d&[Hin|Hin]%elem_of_app&He&Hmax); [|apply list_elem_of_singleton in Hin as <-; congruence]. exfalso. destruct e as [k' d']. specialize (Hmax k' d' ltac:(rewrite elem_of_app; right; by left) (Hlt _ Hin)). congruence.
    + rewrite (IH HsL). split; intros (k&d&Hin&He&Hmax).
      * exists k, d. split_and!; [rewrite elem_of_app; by left|done|]. intros k' d' [Hin'|Hin']%elem_of_app Hl; [by apply Hmax|]. apply list_elem_of_singleton in Hin' as ->. done.
      * apply elem_of_app in Hin as [Hin|Hin]; [|apply list_elem_of_singleton in Hin as <-; congruence]. exists k, d. split_and!; [done|done|]. intros k' d' Hin' Hl. apply Hmax; [rewrite elem_of_app; by left|done].
Qed.
End Match.
