(* ===== verification/DomainClaims.v ===== *)
(** * Domain rules: what a request gets (src/dns_conf/domain_rule.c, src/dns_server/rules.c) *)

From Stdlib Require Import ZArith Lia Sorting.Sorted.
From stdpp Require Import base list numbers option gmap sorting.
From S2P Require Import Prelude Art ArtNode ArtTree ArtWalk ArtClaims DomainRule DomainSpec.

Local Open Scope nat_scope.

(** ** Names *)

Lemma plain_head s : plain s -> s <> [] /\ lower s <> [] /\ head (lower s) <> Some CH_DOT.
Proof. intros (_&_&c&t&->&Hc&_). split_and!; [done|done|]. cbn. intros [= E]. apply Hc. by apply lower_dot. Qed.

Lemma plain_form_ok pre s : plain s -> key_ok pre -> key_ok (pre ++ s).
Proof. intros (Hs&_) Hp. by apply list.Forall_app. Qed.

Lemma special_ok : key_ok [CH_STAR; CH_MINUS; CH_DOT].
Proof. by apply (bool_decide_unpack _). Qed.

Lemma suffix_len (s d : list Z) : s `suffix_of` d -> length s <= length d.
Proof. intros [r ->]. rewrite length_app. lia. Qed.

(** Two decisions of the same. *)
Lemma decide_and (A B : Prop) `{Decision A, Decision B} b : (A /\ b = true <-> B) -> Some (bool_decide A && b) = Some (bool_decide B).
Proof. intros HAB. f_equal. destruct b; rewrite ?andb_true_r, ?andb_false_r; [apply bool_decide_ext; naive_solver|]. symmetry. apply bool_decide_eq_false_2. naive_solver. Qed.

Definition not_skipped (root sub eff : bool) : bool := negb (skip_rule (mk_rule sub root 0 tt) eff).

Lemma whole_key_applies s d root sub : (d = [] -> False) -> head d <> Some CH_DOT -> let key := CH_DOT :: rev s ++ [CH_DOT] in let eff := is_effective_sub (length key) (length d + 2) in
  key `prefix_of` (CH_DOT :: rev d ++ [CH_DOT]) -> not_skipped root sub eff = true <-> if decide (d = s) then sub = false else root = false.
Proof.
  intros Hd Hh key eff Hp. assert (length key = length s + 2) as Hk by (subst key; cbn; rewrite length_app, length_rev; cbn; lia). apply prefix_whole in Hp. assert (eff = if decide (d = s) then false else true) as ->.
  { subst eff. unfold is_effective_sub. rewrite Hk. destruct (decide (d = s)) as [->|Hne]; [by rewrite Nat.eqb_refl|]. destruct Hp as [?|[r Hr]]; [done|]. destruct r as [|x r]; [rewrite Hr in Hh; done|]. rewrite Hr. rewrite length_app. cbn [length]. destruct (Nat.eqb_spec (length s + 2) (S (length r) + S (length s) + 2)); [lia|]. by destruct (Nat.eqb_spec (length s + 2 + 1) (S (length r) + S (length s) + 2)); [lia|]. }
  unfold not_skipped, skip_rule. cbn [r_sub_only r_root_only]. destruct (decide _), root, sub; cbn; naive_solver.
Qed.

Lemma open_key_applies s d root : s <> [] -> head s <> Some CH_DOT -> let key := CH_DOT :: rev s in let eff := is_effective_sub (length key) (length d + 2) in
  key `prefix_of` (CH_DOT :: rev d ++ [CH_DOT]) -> not_skipped root false eff = true <-> root = false \/ d = s.
Proof.
  intros Hne Hh key eff Hp. assert (length key = length s + 1) as Hk by (subst key; cbn; rewrite length_rev; lia). apply prefix_open in Hp; [|done|done]. assert (eff = if decide (d = s) then false else true) as ->.
  { subst eff. unfold is_effective_sub. rewrite Hk. destruct (decide (d = s)) as [->|Hds]; [destruct (Nat.eqb_spec (length s + 1) (length s + 2)); [done|]; by destruct (Nat.eqb_spec (length s + 1 + 1) (length s + 2)); [|lia]|]. destruct Hp as [[|x r] ->]; [done|]. rewrite length_app. cbn [length]. destruct (Nat.eqb_spec (length s + 1) (S (length r) + length s + 2)); [lia|]. by destruct (Nat.eqb_spec (length s + 1 + 1) (S (length r) + length s + 2)); [lia|]. }
  unfold not_skipped, skip_rule. cbn [r_sub_only r_root_only]. destruct (decide _), root; cbn; naive_solver.
Qed.

(** C28: which domains a name in the configuration stands for, in any case of letters.
    [x] stands for [x] and every domain that ends in [.x], [*.x] only for the domains that
    end in [.x], [-.x] only for [x] itself, and [*x] for every domain that ends in [x],
    with or without a dot.  No domain gets a rule of [*-.x]. *)
Theorem domain_names (s d : list Z) : plain s -> key_ok d -> d <> [] -> head d <> Some CH_DOT -> length s + 6 <= DNS_MAX_CONF_CNAME_LEN -> length d + 3 < MAX_CNAME_LEN ->
  applies s d = Some (bool_decide (lower d = lower s \/ (CH_DOT :: lower s) `suffix_of` lower d)) /\
  applies (CH_STAR :: CH_DOT :: s) d = Some (bool_decide ((CH_DOT :: lower s) `suffix_of` lower d)) /\
  applies (CH_MINUS :: CH_DOT :: s) d = Some (bool_decide (lower d = lower s)) /\
  applies (CH_STAR :: s) d = Some (bool_decide (lower s `suffix_of` lower d)) /\
  applies (CH_STAR :: CH_MINUS :: CH_DOT :: s) d = Some false.
Proof.
  intros Hs Hd Hne Hh Hsl Hdl. destruct (plain_head s Hs) as (Hs0&Hls0&Hlsh). assert (lower d <> []) as Hld0 by (by destruct d). assert (head (lower d) <> Some CH_DOT) as Hldh by (destruct d as [|c d]; [done|]; cbn in *; intros [= E]; apply Hh; f_equal; by apply lower_dot).
  pose proof special_ok as Hsp. assert (length (lower d) = length d) as Hll by apply length_map. assert (forall pre, key_ok pre -> length pre <= 3 -> applies (pre ++ s) d = Some (bool_decide (name_key (pre ++ s) `prefix_of` request_name d) && not_skipped (name_form (pre ++ s)).1.2 (name_form (pre ++ s)).2 (is_effective_sub (length (name_key (pre ++ s))) (length (lower d) + 2)))) as Happ.
  { intros pre Hp Hpl. rewrite Hll. apply applies_ok; [by apply plain_form_ok|rewrite length_app; lia|done|done]. }
  assert (forall pre, Forall (fun c => c ∈ [CH_STAR; CH_MINUS; CH_DOT]) pre -> key_ok pre) as Hpre by (intros pre Hp; eapply list.Forall_impl; [exact Hp|]; intros c Hc; unfold key_ok in Hsp; rewrite list.Forall_forall in Hsp; by apply Hsp). unfold request_name in Happ. split_and!.
  - specialize (Happ [] ltac:(constructor) ltac:(cbn; lia)). cbn [app] in Happ. destruct (name_key_plain s Hs) as [Hk Hf]. rewrite Happ, Hk, Hf. cbn [fst snd]. apply decide_and. rewrite prefix_whole. split; [by intros [? _]|]. intros Hp. split; [done|]. apply prefix_whole in Hp as Hp'. rewrite (whole_key_applies (lower s) (lower d) false false Hld0 Hldh Hp'). by destruct (decide _).
  - specialize (Happ [CH_STAR; CH_DOT] ltac:(apply Hpre; by apply (bool_decide_unpack _)) ltac:(cbn; lia)). cbn [app] in Happ. destruct (name_key_sub s Hs) as [Hk Hf]. rewrite Happ, Hk, Hf. cbn [fst snd]. apply decide_and. split.
    + intros [Hp Hsk]. rewrite (whole_key_applies (lower s) (lower d) false true Hld0 Hldh Hp) in Hsk. apply prefix_whole in Hp as [E|?]; [|done]. by rewrite decide_True in Hsk.
    + intros Hsuf. assert ((CH_DOT :: rev (lower s) ++ [CH_DOT]) `prefix_of` (CH_DOT :: rev (lower d) ++ [CH_DOT])) as Hp by (apply prefix_whole; by right). split; [done|]. rewrite (whole_key_applies (lower s) (lower d) false true Hld0 Hldh Hp). destruct (decide _) as [E|]; [|done]. apply suffix_len in Hsuf. rewrite E in Hsuf. cbn in Hsuf. lia.
  - specialize (Happ [CH_MINUS; CH_DOT] ltac:(apply Hpre; by apply (bool_decide_unpack _)) ltac:(cbn; lia)). cbn [app] in Happ. destruct (name_key_root s Hs) as [Hk Hf]. rewrite Happ, Hk, Hf. cbn [fst snd]. apply decide_and. split.
    + intros [Hp Hsk]. rewrite (open_key_applies (lower s) (lower d) true Hls0 Hlsh Hp) in Hsk. by destruct Hsk.
    + intros E. assert ((CH_DOT :: rev (lower s)) `prefix_of` (CH_DOT :: rev (lower d) ++ [CH_DOT])) as Hp by (apply prefix_open; [done|done|by rewrite E]). split; [done|]. rewrite (open_key_applies (lower s) (lower d) true Hls0 Hlsh Hp). by right.
  - specialize (Happ [CH_STAR] ltac:(apply Hpre; by apply (bool_decide_unpack _)) ltac:(cbn; lia)). cbn [app] in Happ. destruct (name_key_wild s Hs) as [Hk Hf]. rewrite Happ, Hk, Hf. cbn [fst snd]. apply decide_and. rewrite prefix_open by done. split; [by intros [? _]|]. intros Hsuf. split; [done|]. apply prefix_open in Hsuf; [|done|done]. rewrite (open_key_applies (lower s) (lower d) false Hls0 Hlsh Hsuf). by left.
  - specialize (Happ [CH_STAR; CH_MINUS; CH_DOT] ltac:(apply Hpre; by apply (bool_decide_unpack _)) ltac:(cbn; lia)). cbn [app] in Happ. destruct (name_key_both s Hs) as [Hk Hf]. rewrite Happ, Hk, Hf. cbn [fst snd]. change (Some false) with (Some (bool_decide False)). apply decide_and. split; [|done]. intros [Hp Hsk]. rewrite (whole_key_applies (lower s) (lower d) true true Hld0 Hldh Hp) in Hsk. by destruct (decide _).
Qed.

Definition a_com : list Z := [97; 46; 99; 111; 109]%Z.
Definition b_a_com : list Z := [98; 46; 65; 46; 99; 111; 109]%Z.

Lemma domain_names_witness : plain a_com /\ applies a_com b_a_com = Some true /\ applies (CH_MINUS :: CH_DOT :: a_com) b_a_com = Some false /\ applies (CH_STAR :: CH_DOT :: a_com) a_com = Some false.
Proof.
  assert (plain a_com) as H. { split; [apply (bool_decide_unpack _); vm_compute; exact I|]. split; [vm_compute; discriminate|]. exists 97%Z, [46; 99; 111; 109]%Z. split; [reflexivity|]. repeat split; vm_compute; discriminate. }
  assert (key_ok b_a_com) as H1 by (apply (bool_decide_unpack _); vm_compute; exact I). assert (key_ok a_com) as H2 by (apply (bool_decide_unpack _); vm_compute; exact I).
  destruct (domain_names a_com b_a_com H H1 ltac:(discriminate) ltac:(vm_compute; discriminate) ltac:(vm_compute; lia) ltac:(vm_compute; lia)) as (W1&_&W3&_). destruct (domain_names a_com a_com H H2 ltac:(discriminate) ltac:(vm_compute; discriminate) ltac:(vm_compute; lia) ltac:(vm_compute; lia)) as (_&W2&_).
  split; [exact H|]. split; [rewrite W1; reflexivity|]. split; [rewrite W3; reflexivity|rewrite W2; reflexivity].
Defined.

(** ** Requests *)

Lemma all_flags_bit {P} full (L : list (list Z * dns_domain_rule P)) b : Z.testbit (all_flags full L) b = true <-> exists e, e ∈ L /\ Z.testbit (flags_of full e) b = true.
Proof.
  unfold all_flags. induction L as [|e L IH] using rev_ind; [cbn; rewrite Z.testbit_0_l; split; [done|]; by intros (e&?%elem_of_nil&_)|]. rewrite foldl_app. cbn [foldl]. rewrite Z.lor_spec, orb_true_iff, IH. split.
  - intros [(a&Ha&Hb)|Hb]; [exists a|exists e]; (split; [rewrite elem_of_app|done]); [by left|right; by left].
  - intros (a&[Ha|Ha]%elem_of_app&Hb); [left; by exists a|right]. by apply list_elem_of_singleton in Ha as <-.
Qed.

Definition leaves_fit {P} (t : art_tree (dns_domain_rule P)) : Prop := forall k d, content t !! k = Some d -> length d <= DOMAIN_RULE_MAX.

(** The walk of a request, without the second visit. *)
Lemma request_walked {P} (t : art_tree (dns_domain_rule P)) domain : tree_ok DNS_MAX_CONF_CNAME_LEN t -> leaves_fit t -> key_ok domain -> length domain + 3 < MAX_CNAME_LEN ->
  exists ks w, stored_prefixes (content t) (request_name domain) ks /\ walked (length domain + 2) ks w /\ get_domain_rule_by_domain_ext t empty_request (-1) domain = Some (w_args w).
Proof.
  intros Ht Hfit Hd Hl. unfold get_domain_rule_by_domain_ext. destruct (Nat.leb_spec MAX_CNAME_LEN (length domain + 3)); [lia|]. destruct (request_key_ok domain Hd Hl) as (buf&->&Hbuf&Hbl). cbn [mbind option_bind fst snd].
  destruct (art_walk_ok DNS_MAX_CONF_CNAME_LEN t buf (request_name domain) Ht Hbuf) as (ks&dup&Hks&Hdup&Hwalk); [by rewrite Hbl|]. rewrite Hwalk. cbn [mbind option_bind]. rewrite length_request_name in *. set (w0 := mk_args _ _ _ _ _). assert (walked (length domain + 2) [] w0) as Hw0. { split_and!; [by subst w0|done|done|done|]. intros i Hi. assert (ignored (all_flags (length domain + 2) []) i = false) as ->. { change (all_flags (length domain + 2) []) with 0%Z. unfold ignored, flag_set. cbn [existsb ignore_table]. by rewrite !Z.land_0_l. } cbn [w_args w0 q_rules empty_request]. by apply lookup_replicate_2. }
  assert (forall k d, (k, d) ∈ ks -> length d <= DOMAIN_RULE_MAX) as Hlen by (intros k d Hin; apply Hks in Hin as [Hin _]; by eapply Hfit). eexists ks, _. split; [done|]. split; [|done]. assert (Forall (fun e => length e.2 <= DOMAIN_RULE_MAX) ks) as Hf by (apply list.Forall_forall; intros [k d] Hin; by eapply Hlen).
  destruct Hdup as [->|(v&->&Hv)]; [rewrite app_nil_r; by apply walk_rules|]. destruct Hks as [Hs Hks]. assert ((request_name domain, v) ∈ ks) as Hin by (apply Hks; done). destruct ks as [|e ks _] using rev_ind; [by apply elem_of_nil in Hin|].
  assert (e = (request_name domain, v)) as ->. { apply elem_of_app in Hin as [Hin|Hin]; [|by apply list_elem_of_singleton in Hin]. exfalso. pose proof (StronglySorted_app_1_elem_of _ ks [e] _ e Hs Hin ltac:(by left)) as Hlt. destruct e as [k d]. destruct (proj1 (Hks k d) ltac:(rewrite elem_of_app; right; by left)) as [_ [s Hp]]. apply (f_equal length) in Hp. unfold shorter in Hlt. cbn [fst] in Hlt. rewrite length_app in Hp. lia. }
  apply walked_again. apply walk_rules; [done|]. apply list.Forall_app. split; [done|]. apply list.Forall_cons. split; [|constructor]. cbn. by apply (Hfit (request_name domain)).
Qed.

(** C27: the rules of a request are those of the longest configured suffix of its domain
    that has one.  For every type, a request has the rule [r] just when no flag takes the
    type away, [r] is the rule of a stored key that is a prefix of the key of its domain
    and applies to it, and no longer stored prefix has a rule of the type that applies;
    its flags are all those of the rules of flags that apply. *)
Theorem request_rules (P : Type) (t : art_tree (dns_domain_rule P)) (domain : list Z) : tree_ok DNS_MAX_CONF_CNAME_LEN t -> leaves_fit t -> key_ok domain -> length domain + 3 < MAX_CNAME_LEN ->
  let full := length domain + 2 in let stored k d := content t !! k = Some d /\ k `prefix_of` request_name domain in
  exists q, get_domain_rule_by_domain_ext t empty_request (-1) domain = Some q /\
    (forall b, Z.testbit (q_flags q) b = true <-> exists k d, stored k d /\ Z.testbit (flags_of full (k, d)) b = true) /\
    forall i r, i < DOMAIN_RULE_MAX -> get_dns_rule_ext q i = Some r <->
      ignored (q_flags q) i = false /\ exists k d, stored k d /\ effective full i (k, d) = Some r /\ forall k' d', stored k' d' -> length k < length k' -> effective full i (k', d') = None.
Proof.
  intros Ht Hfit Hd Hl full stored. destruct (request_walked t domain Ht Hfit Hd Hl) as (ks&w&[Hs Hks]&(_&_&_&Hf&Hr)&->). eexists. split; [done|]. split.
  - intros b. rewrite Hf, all_flags_bit. split; [intros ([k d]&Hin&Hb); exists k, d; split; [by apply Hks|done]|intros (k&d&Hst&Hb); exists (k, d); split; [by apply Hks|done]].
  - intros i r Hi. unfold get_dns_rule_ext. rewrite (proj2 (Nat.ltb_lt _ _) Hi), Hr, Hf by done. cbn [mjoin option_join]. destruct (ignored _ i); [split; [done|by intros [? _]]|]. rewrite last_rule_longest by done. split.
    + intros (k&d&Hin&He&Hmax). split; [done|]. exists k, d. split; [by apply Hks|]. split; [done|]. intros k' d' Hst. by apply Hmax, Hks.
    + intros (_&k&d&Hst&He&Hmax). exists k, d. split; [by apply Hks|]. split; [done|]. intros k' d' Hin. by apply Hmax, Hks.
Qed.

(** A rule for a name, and one for domains below another one. *)
Definition sample_leaf (n : nat) (sub : bool) : dns_domain_rule nat := [None; Some (mk_rule sub false 0 n)].
Definition rule_ops : list (@art_op (dns_domain_rule nat)) :=
  let k1 := name_key a_com in let k2 := name_key (CH_STAR :: CH_DOT :: b_a_com) in [op_insert (padded 256 k1) k1 (sample_leaf 1 false); op_insert (padded 256 k2) k2 (sample_leaf 2 true)].

Lemma request_rules_witness : exists t q, tree_ok DNS_MAX_CONF_CNAME_LEN t /\ leaves_fit t /\ get_domain_rule_by_domain_ext t empty_request (-1) b_a_com = Some q /\ get_dns_rule_ext q DOMAIN_RULE_ADDRESS_IPV4 = Some (mk_rule false false 0%Z 1).
Proof.
  assert (Forall (op_ok 256) rule_ops) as H. { unfold rule_ops. padded_ops. }
  destruct (content_init (V := dns_domain_rule nat) 256) as [H0 Hc0]. destruct (run_ops_ok true 256 art_tree_init rule_ops H0 H) as (t&Hr&Ht&Hc). rewrite Hc0 in Hc.
  assert (leaves_fit t) as Hfit. { intros k d Hk. rewrite Hc in Hk. unfold rule_ops in Hk. cbn [map_ops map_op fst snd] in Hk. apply lookup_insert_Some in Hk as [[_ <-]|[_ Hk]]; [vm_compute; lia|]. apply lookup_insert_Some in Hk as [[_ <-]|[_ Hk]]; [vm_compute; lia|]. rewrite lookup_empty in Hk. discriminate Hk. }
  assert (key_ok b_a_com) as Hd by (apply (bool_decide_unpack _); vm_compute; exact I). destruct (request_rules nat t b_a_com Ht Hfit Hd ltac:(vm_compute; lia)) as (q&Hq&_). exists t, q. split; [exact Ht|]. split; [exact Hfit|]. split; [exact Hq|]. clear -Hr Hq. vm_compute in Hr. injection Hr as <-. vm_compute in Hq. injection Hq as <-. reflexivity.
Defined.

(** ** What the code does not guarantee *)

(** A tree with one name. *)
Definition one_name (name : list Z) (d : dns_domain_rule nat) : option (art_tree (dns_domain_rule nat)) :=
  k ← setup_domain_key name DNS_MAX_CONF_CNAME_LEN;
  k ← k;
  r ← art_insert true art_tree_init (k_buf k) (Z.to_nat (k_len k)) d;
  Some r.1.

(** A rule of the name [-.a.com], which is for the domain itself only, does not count as a
    rule of that domain: its key is without the last dot. *)
Example root_name_is_sub_rule :
  exists t q, one_name (CH_MINUS :: CH_DOT :: a_com) [None; Some (mk_rule false true 0 1)] = Some t /\ get_domain_rule_by_domain_ext t empty_request (-1) a_com = Some q /\
    get_dns_rule_ext q DOMAIN_RULE_ADDRESS_IPV4 = Some (mk_rule false true 0%Z 1) /\ is_dns_rule_extract_match_ext q DOMAIN_RULE_ADDRESS_IPV4 = false.
Proof. by eexists _, _. Qed.

(** When only the rule of one type is asked for and it does not apply, that of the next
    type is taken. *)
Example next_type_is_taken :
  exists t q, one_name (CH_STAR :: CH_DOT :: a_com) (replicate DOMAIN_RULE_GROUP None ++ [Some (mk_rule true false 0 1); Some (mk_rule false false 0 2)]) = Some t /\
    get_domain_rule_by_domain_ext t empty_request (Z.of_nat DOMAIN_RULE_GROUP) a_com = Some q /\ get_dns_rule_ext q DOMAIN_RULE_GROUP = None /\ get_dns_rule_ext q DOMAIN_RULE_NFTSET_IP6 = Some (mk_rule false false 0%Z 2).
Proof. by eexists _, _. Qed.

(** The name [-.] has an empty key. *)
Example root_dot_key_empty : name_key [CH_MINUS; CH_DOT] = [] /\ k_len <$> (k ← setup_domain_key [CH_MINUS; CH_DOT] DNS_MAX_CONF_CNAME_LEN; k) = Some 0%Z.
Proof. by split. Qed.
